(* ===== verification/_CoqProject ===== *)
-Q . S2P
Prelude.v
Base64.v
Binary64.v
HalTypes.v
TimeOnAir.v
JitQueue.v
JitProps.v
Com.v
Spi.v
Mcu.v
Usb.v
UsbProps.v
RegTable.v
RegIds.v
Reg.v
RegFacts.v
RegProps.v
RegIdProps.v
RegProg.v
RegView.v
RxBuffer.v
RxProps.v
Timestamp.v
TimestampProps.v
Merge.v
HalConf.v
HalConfProps.v
Crc.v
Sx1302Conf.v
Sx1302Mcu.v
Sx1302ConfProps.v
Sx1302McuProps.v
Sx1302Tx.v
Sx1302TxProps.v
Sx1302TxLinks.v
I2c.v
Sx1261Com.v
Sx1261.v
HalTx.v
HalTxProps.v
Gps.v
Sx1302Rx.v
Sx1302RxProps.v
HalRx.v
HalRxProps.v
Radio.v
RadioProps.v
Cal.v
CalProps.v
HalStart.v
HalStartProps.v
TimeRef.v
TimeRefProps.v
Json.v
JsonNum.v
JsonProps.v
Forward.v
ForwardProps.v
Downlink.v
DownlinkProps.v
Beacon.v
BeaconProps.v
Valid.v
ForwardInv.v
Uplink.v
JsonText.v
UplinkProps.v
Stats.v
StatsProps.v
