(* ===== verification/Prelude.v ===== *)
(** * Verification of the LoRa packet forwarder

    The SDK's own program is the LoRa gateway under
    [src/package/base/pforwarder_package]: the packet forwarder
    ([packet_forwarder/src]), which moves packets between the radio and a
    network server, and the library [libloragw], which drives the SX1302
    concentrator chip. This development models the parts of it that keep state,
    parse, schedule or compute, and proves what makes them correct.

    ** The program

    The chip is reached through one of two links (SPI or USB,
    [loragw_com.c]); [loragw_reg.c] reads and writes its registers and memories
    through the link with a table of 1044 register fields; [loragw_sx1302_rx.c]
    fetches received packets from the FIFO of the chip and parses them;
    [loragw_sx1302_timestamp.c] gives them times; [loragw_sx1302.c] configures
    the chip, loads and starts its two microcontrollers (AGC and ARB) and
    programs transmissions; the SX1261 radio ([loragw_sx1261.c], [sx1261_*.c])
    listens on a channel before a transmission ([loragw_lbt.c]);
    the radios are set up ([loragw_sx1250.c], [loragw_sx125x.c]) and calibrated
    ([loragw_cal.c]) before; [loragw_hal.c] holds the configuration, starts and
    stops the concentrator, sends and receives packets, removes duplicates and
    computes the time on air;
    [jitqueue.c] schedules downlinks so that no two of them overlap on the air;
    [base64.c] encodes payloads for the server; [loragw_gps.c] reads the messages
    of a GPS receiver and converts between its times and the counter of the
    concentrator; [parson.c] reads and writes JSON, in which the server describes
    the packets to send. The threads of [lora_pkt_fwd.c] tie these together: the
    downlink thread parses, checks, queues and answers the requests of the
    server, the JIT thread takes the packets that are due from the queues and
    hands them to the concentrator, the uplink thread describes the received
    packets to the server, and the main thread adds reports with statistics.

    ** The files

    - [Prelude]: machine integers as [Z] with their conversions, the outcomes
      of C code ([Ret], [Exit], [Undef]) and their monad, arrays with bounds,
      loops, tactics, hint databases and shared lemmas.
    - [Base64]: [libtools/src/base64.c]; the four functions on explicit buffers.
      Encoding followed by decoding is the identity; the encoder is RFC 4648;
      the decoder returns or exits on a bad character.
    - [Binary64]: C [double] as [m * 2^e] with every operation rounded to 53
      bits ([float]: to 24), and the lemmas on rounding errors and exact results.
    - [HalTypes]: constants and structures of [loragw_hal.h].
    - [TimeOnAir]: [lora_packet_time_on_air] of [loragw_aux.c] and
      [lgw_time_on_air] of [loragw_hal.c]; the rounded computation equals the
      exact symbol count, and an FSK frame is covered by its reserved time.
    - [JitQueue], [JitProps]: [jitqueue.c]. The array represents a bag of
      packets; in every state reachable by enqueue, peek and dequeue no two
      packets conflict around the 32-bit counter; enqueue implements the
      abstract bag with its order of refusals; peek and dequeue hand out the
      earliest packet; peek ends, and reads outside of the array in one case.
      The C library's [qsort_r] is a parameter with the contract [Qsort]
      (a permutation, sorted when the comparison is consistent); [isort] is an
      instance.
    - [Com], [Spi]: [loragw_com.c] over a record of driver operations, and
      [loragw_spi.c] over the kernel's spidev. The class [MemBus] is what the
      register layer relies on, the class [SpiChip] the frame protocol of the
      chip; the SPI driver over an [SpiChip] is a [MemBus]. [ideal] is an
      instance of [SpiChip].
    - [Mcu], [Usb], [UsbProps]: [loragw_mcu.c] and [loragw_usb.c] over the system
      calls on the serial line. The class [McuChip] is the protocol of the
      microcontroller; over it the driver in single mode is a [MemBus] however
      the payloads of the answers are cut into pieces (their headers come in one),
      and the bulk mode has the effect of the accesses made one at a time, up to
      255 of them. [sim_tty] is an instance of [McuChip]. A call that hangs or
      is undefined marks the state of the link as stuck, for good: what the
      model shows after that says nothing about the program. An unplugged device
      makes the driver hang.
    - [RegTable], [RegIds], [Reg], [RegFacts], [RegProps], [RegIdProps]:
      [loragw_reg.c] and [loragw_reg.h]. The table is transcribed row by row;
      its rows are well formed and share no bits; over any [MemBus] a written
      register reads back at its width and sign and no other register changes;
      memory blocks are written and read back in chunks.
    - [RxBuffer], [RxProps]: [loragw_sx1302_rx.c]. The format of the FIFO is
      written as an encoder; synchronising, counting and popping returns exactly
      the encoded packets; a corrupted byte is detected by the checksum; more
      than 127 pairs of metrics overflow the packet structure.
    - [Timestamp], [TimestampProps]: [loragw_sx1302_timestamp.c]. The extended
      counters follow the clock of the chip when they are read once per period;
      the PPS history is a ring of the last 16 pulses; the corrections equal
      their exact values.
    - [Merge]: [merge_packets] of [loragw_hal.c] and its helpers, against an
      abstract step in which a packet gives way to a duplicate, with the rule of
      the code; a packet with a good CRC can give way to one without a CRC.
    - [HalConf], [HalConfProps]: the configuration functions of [loragw_hal.c];
      the context stays valid in every reachable state.
    - [RegProg], [RegView]: a monad for code that accesses registers and returns
      early on errors (the macros [CHECK_ERR] and [CHECK_NULL] of
      [loragw_sx1302.c]), and what a list of register writes leaves in the
      memory of the chip, over links with immediate and with bulk writes.
    - [Sx1302Conf], [Sx1302Mcu], [Sx1302ConfProps], [Sx1302McuProps]: the
      configuration functions of [loragw_sx1302.c] and the loading and starting
      of the AGC and ARB firmware. The channelizer holds the frequency and the
      radio of every chain for every context the configuration functions
      produce; the drift of time with frequency is what it should be; a loaded
      firmware is in the memory; and the dialogue with an AGC that answers
      within its delay ends with the firmware configured and running (with one
      that does not answer it never ends). The firmware is a parameter: the
      section [Dialogue] states its protocol, and an instance is given.
    - [Sx1302Tx], [Sx1302TxProps], [Sx1302TxLinks]: [sx1302_send], the start
      delay, the transmit status and [sx1302_tx_abort]. A time-stamped LoRa
      packet is in the registers and the buffer of its chain, over any link with
      a bulk mode; SPI and USB are such links; the sync word agrees with that of
      the receiver; the abort ends; and an empty packet stalls the USB link.
    - [Sx1261Com], [Sx1261]: the SX1261 over SPI and USB, as a state [hal_state]
      with the static variables of [sx1261_com.c] and [sx1261_usb.c] beside that
      of the SX1302, and the functions of [loragw_sx1261.c].
    - [HalTx], [HalTxProps]: [loragw_lbt.c] and [lgw_send], [lgw_status],
      [lgw_abort_tx], [lgw_get_eui] and the spectral scan of [loragw_hal.c].
      [lgw_send] refuses what its contract excludes and sends LoRa packets with
      a payload; with listen before talk it succeeds only when the firmware, asked
      after the packet was programmed, shows that it was not blocked, and always
      stops the scan; two functions of the SX1261 access
      arrays outside of their bounds.
    - [Sx1302Rx], [Sx1302RxProps], [HalRx], [HalRxProps]: the initialisation and
      update of the counters, [sx1302_fetch], [sx1302_parse] and
      [precise_timestamp_calculate], and [lgw_receive] with the temperature and
      the counters. Reception refines a queue of packets over any chip of the
      class [RxChip], of which [fifo_chip] is an instance; the reference of a
      fine time stamp is the right pulse of the history; and an FSK packet keeps
      the fine time of the array element it is stored in.
    - [I2c]: the temperature sensor and the DAC ([loragw_i2c.c],
      [loragw_stts751.c], [loragw_ad5338r.c]), which do nothing in this SDK.
    - [Radio], [RadioProps]: the SX1250 and SX125x radios over SPI and USB. Over
      any radio of the classes [Sx125xChip] and [Sx1250Chip] the setup leaves the
      registers, the frequency and the mode of the configuration; a simulated
      radio is an instance of each.
    - [Cal], [CalProps]: the calibration, which is a dialogue with a firmware
      ([loragw_cal.c]) and [sx1302_radio_calibrate]. Each entry of the gain table
      of a chain that transmits gets the offsets measured for its own gains, and
      measurements are accepted exactly when they agree.
    - [HalStart], [HalStartProps]: [lgw_start] and [lgw_stop] over the whole state
      of the library. Success means a started library with an open link and a
      configuration that can be started, an error changes nothing but the gain
      tables; [lgw_stop] ends, stopped and disconnected, when the calls of the
      links return. A board that
      starts is an instance.
    - [Crc]: the payload checksum of [loragw_sx1302.c] and [crc16] of
      [lora_pkt_fwd.c]; both are remainders of the same polynomial, and bursts of
      up to 16 bits are detected.
    - [Gps]: the NMEA checksum and the UBX parser of [loragw_gps.c]; the parser
      inverts the format of the time message and refuses damaged messages, and
      the NMEA check accepts exactly the well formed sentences.
    - [TimeRef], [TimeRefProps]: the time references of [loragw_gps.c].
      [lgw_gps_sync] filters aberrant pulses and keeps a reference with a rate
      within 10 ppm; the conversions are exact to two nanoseconds and inverse to
      each other up to one count, whatever the rounding of the [double]
      operations.
    - [Json], [JsonNum], [JsonProps]: the parser and the serializer of
      [parson.c], on lists of bytes, with its limits on nesting and capacity, and
      the parts of [strtod], [isspace] and [sprintf] they use. The parser returns
      on every text, and inverts the serializer.
    - [Forward], [ForwardProps]: the state the threads of [lora_pkt_fwd.c] share
      ([fwd_state]; the concentrator is a record [concentrator] of operations),
      the choice of the transmit power, the answers to the server, and the JIT
      thread, which sends the earliest packet that is due when none is outdated.
    - [Downlink], [DownlinkProps]: the handling of a datagram by the downlink
      thread. Whatever the datagram holds, when its handling returns the queues
      only change by packets within the limits of their chain, and each such
      request is answered; a
      LoRa request the gateway supports is queued exactly as it was asked for;
      a request for a chain that does not exist reads outside of an array.
    - [Beacon], [BeaconProps]: the beacons of the downlink thread and its
      requests to the server. Every beacon is a well formed frame for a slot of
      the period; with a full queue the search for a slot ends in undefined
      behaviour. The loop over the slots has no bound in the source; its fuel is
      the number of turns.
    - [Valid]: the thread that checks the age of the time reference and averages
      the error of the crystal; the correction stays within 30 ppm.
    - [ForwardInv]: the steps of the downlink and the JIT thread interleaved. The
      queues stay free of conflicts when the JIT thread runs in time.
    - [Uplink], [JsonText], [UplinkProps]: the uplink thread: a state [up_state]
      around [fwd_state], and a round [up_round] as the body of [thread_up].
      [JsonText] has the lemmas on texts composed by hand: what the parser reads
      from them. Every round ends, and its datagram fits in the buffer and is
      read back as the packets that pass the filter, in order, with the report.
    - [Stats], [StatsProps]: the statistics of the main thread. A turn resets the
      counters and leaves a report the uplink thread can send; with counts of
      ten digits the report is cut off.

    ** How C is modelled

    A w-bit integer is a [Z] in its range; conversions and unsigned arithmetic
    wrap ([u8], [u16], [u32], [s32], ...). An array is a list, and an access
    outside of it is [Undef]; a pointer the code compares with NULL is an
    [option]. Signed overflow is [Undef] where the code can reach it, with these
    exceptions, which are given the value of the supported compilers: the
    difference in the comparison functions of [qsort_r], and shifts of bytes
    into the sign bit of an [int]. Global variables are explicit state. A mutex
    around a function makes it one step. Debug output is left out. Buffers
    passed to one call do not overlap.

    Loops whose number of turns is not a simple bound have fuel. [peek_loop]
    has 33 * 33, because each turn advances in at most 32 packets or removes
    one; [merge_loop] has [n * (n + 1) + n + 1], because each restart removes a
    packet; [mem_wb_loop] and [mem_rb_loop] have one more than the size, because
    a chunk has at least one byte; the loops of the SPI driver, [find_sync] and
    [count_packets] are bounded by the number of bytes; the loops over [read()]
    have as many turns as the contract of the line allows; [drift_loop] has 12,
    because each turn doubles a mantissa of at least 1 below 2048;
    [tx_abort_loop] and [lbt_wait] end at a timeout of the clock, which is a
    parameter: 1001 turns are enough for the former when a wait of a millisecond
    takes one. The loops that wait for a status of the firmware ([wait_status])
    have no bound in the source: their fuel is the number of polls, and must
    exceed the delay of the firmware; the calibration and [lgw_start] pass it on.
    Variables that are used uninitialised are parameters that hold anything
    ([locals] of the receive path, [stack] of [lgw_start]), as are the firmware
    images and [log10]. The parser of JSON is given one more than twice the
    length of the text, because of two nested calls one is on a shorter text, and
    its loops over comments and strings the length; these bounds are proved never
    to be reached. The theorems prove the result, and so that
    the fuel is enough.

    ** Not modelled

    The parts of functions that only print or log, and code that is only
    compiled for debugging ([loragw_debug.c], [agc_cal_tx_dc_offset]); the
    fields of NMEA sentences, which are read with [sscanf], and [lgw_gps_get],
    which uses the calendar of the C library; of [lora_pkt_fwd.c] the
    thread that reads the GPS receiver, the spectral scan, the configuration
    files and the start of the program; the functions of [parson.c] for dotted
    names and for the modification of values; the pseudo random generator
    [tinymt32.c]; and the rest of the SDK, which is the OpenWrt build system and
    vendored packages. *)
From stdpp Require Import base list numbers sorting.
From Stdlib Require Import ZArith Lia.

Open Scope Z_scope.

(** ** Machine integers

    A C integer is a [Z] kept in the range of its type; a conversion to a
    type of [w] bits is the function below of that type. *)

Definition u8 (z : Z) : Z := z mod 2 ^ 8.
Definition u16 (z : Z) : Z := z mod 2 ^ 16.
Definition u32 (z : Z) : Z := z mod 2 ^ 32.
Definition u64 (z : Z) : Z := z mod 2 ^ 64.
Definition s8 (z : Z) : Z := (z + 2 ^ 7) mod 2 ^ 8 - 2 ^ 7.
Definition s16 (z : Z) : Z := (z + 2 ^ 15) mod 2 ^ 16 - 2 ^ 15.
Definition s32 (z : Z) : Z := (z + 2 ^ 31) mod 2 ^ 32 - 2 ^ 31.
Definition s64 (z : Z) : Z := (z + 2 ^ 63) mod 2 ^ 64 - 2 ^ 63.

Abbreviation is_u8 z := (0 <= z < 2 ^ 8).
Abbreviation is_u16 z := (0 <= z < 2 ^ 16).
Abbreviation is_u32 z := (0 <= z < 2 ^ 32).
Abbreviation is_u64 z := (0 <= z < 2 ^ 64).
Abbreviation is_s32 z := (- 2 ^ 31 <= z < 2 ^ 31).

(** A C truth value. *)
Definition b2z (b : bool) : Z := if b then 1 else 0.

(** ** Outcomes of C code

    [Ret a] is normal termination with result [a], [Exit c] is a call of
    [exit(c)], [Undef] is undefined behaviour (an access outside an object, a
    signed overflow). *)

Inductive outcome (A : Type) : Type :=
  | Ret (a : A)
  | Exit (c : Z)
  | Undef.
Arguments Ret {A} a.
Arguments Exit {A} c.
Arguments Undef {A}.

#[export] Instance outcome_ret : MRet outcome := @Ret.
#[export] Instance outcome_bind : MBind outcome := λ A B f m,
  match m with
  | Ret a => f a
  | Exit c => Exit c
  | Undef => Undef
  end.

#[export] Instance outcome_eq_dec {A} `{EqDecision A} : EqDecision (outcome A).
Proof. solve_decision. Defined.

(** Signed [int] arithmetic: the mathematical value when it is representable. *)
Definition int_ok (z : Z) : outcome Z :=
  if (- 2 ^ 31 <=? z) && (z <? 2 ^ 31) then Ret z else Undef.

(** ** Arrays

    An array (or the object a pointer points to) is the list of its elements;
    an access outside of it is undefined. A pointer argument that the code
    compares with NULL is an [option] of such a list. *)

Definition buf_get {A} (b : list A) (i : Z) : outcome A :=
  if i <? 0 then Undef
  else match b !! Z.to_nat i with Some v => Ret v | None => Undef end.

Definition buf_set {A} (b : list A) (i : Z) (v : A) : outcome (list A) :=
  if (0 <=? i) && (i <? Z.of_nat (length b)) then Ret (<[Z.to_nat i := v]> b)
  else Undef.

(** [for (i = lo; n iterations; ++i) s = body i s] *)
Fixpoint for_loop {S} (n : nat) (i : Z) (body : Z → S → outcome S) (s : S)
  : outcome S :=
  match n with
  | O => Ret s
  | Datatypes.S n' => s' ← body i s; for_loop n' (i + 1) body s'
  end.

(** The value of a list at an index, with a default. *)
Definition znth {A} (d : A) (l : list A) (i : Z) : A :=
  if i <? 0 then d else nth (Z.to_nat i) l d.

(** ** Tactics and hint databases *)

Create HintDb cint discriminated.
Create Rewrite HintDb cint.
Create Rewrite HintDb cbits.

(** [lia] after the conversions of machine integers are unfolded into
    division and remainder by constants. *)
Ltac cint_lia :=
  unfold u8, u16, u32, u64, s8, s16, s32, s64, b2z in *;
  Z.to_euclidean_division_equations; lia.

Lemma ret_bind {A B} (a : A) (f : A → outcome B) : Ret a ≫= f = f a.
Proof. reflexivity. Qed.
Lemma exit_bind {A B} c (f : A → outcome B) : Exit c ≫= f = Exit c.
Proof. reflexivity. Qed.

(** One executed statement: the rest of the code is applied to its result. *)
Ltac cstep := rewrite ret_bind; cbv beta zeta.

(** Case analysis on the [bool] tests of a goal or a hypothesis, with the
    test's meaning left in the context. *)
Ltac bool_cases :=
  repeat match goal with
  | |- context [if ?b then _ else _] => destruct b eqn:?
  | H : context [if ?b then _ else _] |- _ => destruct b eqn:?
  end.

Ltac bool_props :=
  repeat match goal with
  | H : (_ && _)%bool = true |- _ => apply andb_true_iff in H as [? ?]
  | H : (_ || _)%bool = false |- _ => apply orb_false_iff in H as [? ?]
  end.

Ltac split_and_all := repeat match goal with |- _ /\ _ => split end.

(** ** Integer lemmas *)

Lemma u8_range z : is_u8 (u8 z).
Proof. by apply Z.mod_pos_bound. Qed.
Lemma u16_range z : is_u16 (u16 z).
Proof. by apply Z.mod_pos_bound. Qed.
Lemma u32_range z : is_u32 (u32 z).
Proof. by apply Z.mod_pos_bound. Qed.
Lemma u8_id z : is_u8 z → u8 z = z.
Proof. apply Z.mod_small. Qed.
Lemma u16_id z : is_u16 z → u16 z = z.
Proof. apply Z.mod_small. Qed.
Lemma u32_id z : is_u32 z → u32 z = z.
Proof. apply Z.mod_small. Qed.
Lemma s32_id z : is_s32 z → s32 z = z.
Proof. unfold s32. intros. rewrite Z.mod_small; lia. Qed.
#[export] Hint Resolve u8_range u16_range u32_range : cint.
#[export] Hint Rewrite u8_id u16_id u32_id s32_id using (auto with cint; lia) : cint.

Lemma int_ok_ret z : is_s32 z → int_ok z = Ret z.
Proof. intros. unfold int_ok. by rewrite (proj2 (Z.leb_le _ _)), (proj2 (Z.ltb_lt _ _)) by lia. Qed.

(** ** Bit lemmas: masks, shifts and disjoint unions as arithmetic *)

Lemma land_mask a n : 0 <= n → Z.land a (Z.ones n) = a mod 2 ^ n.
Proof. intros. by apply Z.land_ones. Qed.
Lemma land_ff a : Z.land a 0xFF = a mod 2 ^ 8.
Proof. apply (land_mask a 8). lia. Qed.
Lemma land_ff_l a : Z.land 0xFF a = a mod 2 ^ 8.
Proof. rewrite Z.land_comm. apply land_ff. Qed.
Lemma land_3f a : Z.land a 0x3F = a mod 2 ^ 6.
Proof. apply (land_mask a 6). lia. Qed.
Lemma land_3f_l a : Z.land 0x3F a = a mod 2 ^ 6.
Proof. rewrite Z.land_comm. apply land_3f. Qed.
Lemma testbit_above b n k : 0 <= b < 2 ^ n → n <= k → Z.testbit b k = false.
Proof.
  intros Hb Hk. destruct (decide (b = 0)) as [->|]; [apply Z.bits_0|].
  apply Z.bits_above_log2; [lia|]. apply Z.log2_lt_pow2; [lia|].
  apply Z.lt_le_trans with (2 ^ n); [lia|]. apply Z.pow_le_mono_r; lia.
Qed.
Lemma land_shl_low a b n :
  0 <= n → 0 <= b < 2 ^ n → Z.land (a * 2 ^ n) b = 0.
Proof.
  intros Hn Hb. apply Z.bits_inj'. intros k Hk. rewrite Z.land_spec, Z.bits_0.
  destruct (decide (k < n)).
  - by rewrite Z.mul_pow2_bits_low by lia.
  - by rewrite (testbit_above b n k), andb_false_r by lia.
Qed.
Lemma lor_shl_add a b n :
  0 <= n → 0 <= b < 2 ^ n → Z.lor (a * 2 ^ n) b = a * 2 ^ n + b.
Proof.
  intros Hn Hb. pose proof (land_shl_low a b n Hn Hb) as H.
  by rewrite <- (Z.lxor_lor _ _ H), (Z.add_nocarry_lxor _ _ H).
Qed.
#[export] Hint Rewrite land_ff land_ff_l land_3f land_3f_l : cbits.
Lemma shiftl_mul a n : 0 <= n → Z.shiftl a n = a * 2 ^ n.
Proof. apply Z.shiftl_mul_pow2. Qed.
Lemma shiftr_div a n : 0 <= n → Z.shiftr a n = a / 2 ^ n.
Proof. apply Z.shiftr_div_pow2. Qed.

(** ** Arrays *)

Lemma buf_get_at {A} (pre mid : list A) i k x :
  i = Z.of_nat (length pre + k) → mid !! k = Some x →
  buf_get (pre ++ mid) i = Ret x.
Proof.
  intros -> Hx. unfold buf_get. rewrite (proj2 (Z.ltb_ge _ _)), Nat2Z.id by lia.
  rewrite lookup_app_r by lia. replace (_ - _)%nat with k by lia. by rewrite Hx.
Qed.
Lemma buf_set_at {A} (pre mid : list A) i k v :
  i = Z.of_nat (length pre + k) → (k < length mid)%nat →
  buf_set (pre ++ mid) i v = Ret (pre ++ <[k := v]> mid).
Proof.
  intros -> Hk. unfold buf_set. rewrite length_app.
  rewrite (proj2 (Z.leb_le _ _)), (proj2 (Z.ltb_lt _ _)), Nat2Z.id by lia. simpl.
  by rewrite insert_app_r.
Qed.
Lemma buf_get_lookup {A} (b : list A) i x :
  0 <= i → b !! Z.to_nat i = Some x → buf_get b i = Ret x.
Proof. intros ? Hx. unfold buf_get. rewrite (proj2 (Z.ltb_ge _ _)) by lia. by rewrite Hx. Qed.
Lemma buf_get_nat {A} (b : list A) (i : nat) x : b !! i = Some x → buf_get b (Z.of_nat i) = Ret x.
Proof. intros H. apply buf_get_lookup; [lia|by rewrite Nat2Z.id]. Qed.
Lemma buf_set_insert {A} (b : list A) i v :
  0 <= i < Z.of_nat (length b) → buf_set b i v = Ret (<[Z.to_nat i := v]> b).
Proof.
  intros. unfold buf_set.
  by rewrite (proj2 (Z.leb_le _ _)), (proj2 (Z.ltb_lt _ _)) by lia.
Qed.
Lemma buf_set_middle {A} (l1 l2 : list A) x v :
  buf_set (l1 ++ x :: l2) (Z.of_nat (length l1)) v = Ret (l1 ++ v :: l2).
Proof.
  rewrite buf_set_insert by (rewrite length_app; cbn [length]; lia).
  by rewrite Nat2Z.id, insert_app_r_alt, Nat.sub_diag by lia.
Qed.

(** ** Loops *)

Lemma for_loop_inv {S} (P : Z → S → Prop) n i body s :
  P i s →
  (∀ j t, i <= j < i + Z.of_nat n → P j t →
     ∃ t', body j t = Ret t' ∧ P (j + 1) t') →
  ∃ s', for_loop n i body s = Ret s' ∧ P (i + Z.of_nat n) s'.
Proof.
  revert i s. induction n as [|n IH]; intros i s Hs Hb; simpl.
  - exists s. by rewrite Z.add_0_r.
  - destruct (Hb i s) as (s1 & -> & H1); [lia|done|]. simpl.
    destruct (IH (i + 1) s1 H1) as (s' & -> & H').
    + intros j t Hj. apply Hb. lia.
    + exists s'. split; [done|]. by replace (i + Z.of_nat _) with (i + 1 + Z.of_nat n) by lia.
Qed.

(** [safe m Q]: [m] has no undefined behaviour and its result, if it returns,
    satisfies [Q]. *)
Definition safe {A} (m : outcome A) (Q : A → Prop) : Prop :=
  match m with Ret a => Q a | Exit _ => True | Undef => False end.

Lemma safe_bind {A B} (m : outcome A) (f : A → outcome B) Q R :
  safe m Q → (∀ a, Q a → safe (f a) R) → safe (m ≫= f) R.
Proof. destruct m; simpl; auto. Qed.
Lemma safe_mono {A} (m : outcome A) (Q R : A → Prop) :
  safe m Q → (∀ a, Q a → R a) → safe m R.
Proof. destruct m; simpl; auto. Qed.
Lemma safe_for_loop {S} (P : S → Prop) n i body s :
  P s → (∀ j t, i <= j < i + Z.of_nat n → P t → safe (body j t) P) →
  safe (for_loop n i body s) P.
Proof.
  revert i s. induction n as [|n IH]; intros i s Hs Hb; simpl; [done|].
  eapply safe_bind; [apply Hb; [lia|done]|]. intros t Ht. apply IH; [done|].
  intros j t' Hj. apply Hb. lia.
Qed.
Lemma safe_buf_get {A} (b : list A) i :
  0 <= i < Z.of_nat (length b) → safe (buf_get b i) (λ x, x ∈ b).
Proof.
  intros Hi. destruct (lookup_lt_is_Some_2 b (Z.to_nat i)) as [x Hx]; [lia|].
  rewrite (buf_get_lookup b i x) by (done || lia). simpl. by eapply list_elem_of_lookup_2.
Qed.
Lemma safe_buf_set {A} (b : list A) i v :
  0 <= i < Z.of_nat (length b) →
  safe (buf_set b i v) (λ b', length b' = length b).
Proof. intros. rewrite buf_set_insert by done. simpl. by rewrite length_insert. Qed.
