(* ===== verification/Base64.v ===== *)
(** * Base64 codec ([libtools/src/base64.c])

    The forwarder carries LoRa payloads in JSON as base64 text. This file
    models the four public functions of the codec on explicit output buffers,
    gives the RFC 4648 encoding as a reference on lists, and proves that the
    block loops implement it, stay inside their buffers and round-trip. *)
From stdpp Require Import base list numbers.
From Stdlib Require Import ZArith Lia.
From S2P Require Import Prelude.

Open Scope Z_scope.

(** ** The code *)

Definition code_62 : Z := 43.   (* '+' *)
Definition code_63 : Z := 47.   (* '/' *)
Definition code_pad : Z := 61.  (* '=' *)
Definition EXIT_FAILURE : Z := 1.

Definition code_to_char (x : Z) : outcome Z :=
  if x <=? 25 then Ret (65 + x)
  else if (26 <=? x) && (x <=? 51) then Ret (97 + (x - 26))
  else if (52 <=? x) && (x <=? 61) then Ret (48 + (x - 52))
  else if x =? 62 then Ret code_62
  else if x =? 63 then Ret code_63
  else Exit EXIT_FAILURE.

Definition char_to_code (x : Z) : outcome Z :=
  if (65 <=? x) && (x <=? 90) then Ret (u8 (x - 65))
  else if (97 <=? x) && (x <=? 122) then Ret (u8 (x - 97 + 26))
  else if (48 <=? x) && (x <=? 57) then Ret (u8 (x - 48 + 52))
  else if x =? code_62 then Ret 62
  else if x =? code_63 then Ret 63
  else Exit EXIT_FAILURE.

(** One turn of the loop over the full blocks of [bin_to_b64_nopad]. *)
Definition enc_block (inp : list Z) (i : Z) (out : list Z) : outcome (list Z) :=
  in0 ← buf_get inp (3 * i);
  let b := Z.shiftl (Z.land 0xFF in0) 16 in
  in1 ← buf_get inp (3 * i + 1);
  let b := Z.lor b (Z.shiftl (Z.land 0xFF in1) 8) in
  in2 ← buf_get inp (3 * i + 2);
  let b := Z.lor b (Z.land 0xFF in2) in
  c0 ← code_to_char (Z.land (Z.shiftr b 18) 0x3F);
  out ← buf_set out (4 * i + 0) c0;
  c1 ← code_to_char (Z.land (Z.shiftr b 12) 0x3F);
  out ← buf_set out (4 * i + 1) c1;
  c2 ← code_to_char (Z.land (Z.shiftr b 6) 0x3F);
  out ← buf_set out (4 * i + 2) c2;
  c3 ← code_to_char (Z.land b 0x3F);
  buf_set out (4 * i + 3) c3.

(** The last, partial block of [bin_to_b64_nopad] and the terminator. *)
Definition enc_last (inp : list Z) (i last_chars : Z) (out : list Z)
  : outcome (list Z) :=
  if last_chars =? 0 then buf_set out (4 * i) 0
  else if last_chars =? 2 then
    in0 ← buf_get inp (3 * i);
    let b := Z.shiftl (Z.land 0xFF in0) 16 in
    c0 ← code_to_char (Z.land (Z.shiftr b 18) 0x3F);
    out ← buf_set out (4 * i + 0) c0;
    c1 ← code_to_char (Z.land (Z.shiftr b 12) 0x3F);
    out ← buf_set out (4 * i + 1) c1;
    buf_set out (4 * i + 2) 0
  else if last_chars =? 3 then
    in0 ← buf_get inp (3 * i);
    let b := Z.shiftl (Z.land 0xFF in0) 16 in
    in1 ← buf_get inp (3 * i + 1);
    let b := Z.lor b (Z.shiftl (Z.land 0xFF in1) 8) in
    c0 ← code_to_char (Z.land (Z.shiftr b 18) 0x3F);
    out ← buf_set out (4 * i + 0) c0;
    c1 ← code_to_char (Z.land (Z.shiftr b 12) 0x3F);
    out ← buf_set out (4 * i + 1) c1;
    c2 ← code_to_char (Z.land (Z.shiftr b 6) 0x3F);
    out ← buf_set out (4 * i + 2) c2;
    buf_set out (4 * i + 3) 0
  else Ret out.

(** The result is the returned length and the contents of the output buffer;
    [None] is a NULL pointer. *)
Definition bin_to_b64_nopad (inp : option (list Z)) (size : Z)
    (out : option (list Z)) (max_len : Z) : outcome (Z * option (list Z)) :=
  match out, inp with
  | None, _ | _, None => Ret (-1, out)
  | Some o, Some inp =>
    if size =? 0 then o' ← buf_set o 0 0; Ret (0, Some o')
    else
      let full_blocks := Z.quot size 3 in
      let last_bytes := Z.rem size 3 in
      last_chars ←
        (if last_bytes =? 0 then Ret 0
         else if last_bytes =? 1 then Ret 2
         else if last_bytes =? 2 then Ret 3
         else Exit EXIT_FAILURE);
      result_len ← int_ok (4 * full_blocks + last_chars);
      need ← int_ok (result_len + 1);
      if max_len <? need then Ret (-1, Some o)
      else
        o1 ← for_loop (Z.to_nat full_blocks) 0 (enc_block inp) o;
        o2 ← enc_last inp full_blocks last_chars o1;
        Ret (result_len, Some o2)
  end.

(** One turn of the loop over the full blocks of [b64_to_bin_nopad]. *)
Definition dec_block (inp : list Z) (i : Z) (out : list Z) : outcome (list Z) :=
  in0 ← buf_get inp (4 * i); x0 ← char_to_code in0;
  let b := Z.shiftl (Z.land 0x3F x0) 18 in
  in1 ← buf_get inp (4 * i + 1); x1 ← char_to_code in1;
  let b := Z.lor b (Z.shiftl (Z.land 0x3F x1) 12) in
  in2 ← buf_get inp (4 * i + 2); x2 ← char_to_code in2;
  let b := Z.lor b (Z.shiftl (Z.land 0x3F x2) 6) in
  in3 ← buf_get inp (4 * i + 3); x3 ← char_to_code in3;
  let b := Z.lor b (Z.land 0x3F x3) in
  out ← buf_set out (3 * i + 0) (Z.land (Z.shiftr b 16) 0xFF);
  out ← buf_set out (3 * i + 1) (Z.land (Z.shiftr b 8) 0xFF);
  buf_set out (3 * i + 2) (Z.land b 0xFF).

(** The last, partial block of [b64_to_bin_nopad]; the unusable low bits of
    the last character only cause a debug message. *)
Definition dec_last (inp : list Z) (i last_bytes : Z) (out : list Z)
  : outcome (list Z) :=
  if last_bytes =? 1 then
    in0 ← buf_get inp (4 * i); x0 ← char_to_code in0;
    let b := Z.shiftl (Z.land 0x3F x0) 18 in
    in1 ← buf_get inp (4 * i + 1); x1 ← char_to_code in1;
    let b := Z.lor b (Z.shiftl (Z.land 0x3F x1) 12) in
    buf_set out (3 * i + 0) (Z.land (Z.shiftr b 16) 0xFF)
  else if last_bytes =? 2 then
    in0 ← buf_get inp (4 * i); x0 ← char_to_code in0;
    let b := Z.shiftl (Z.land 0x3F x0) 18 in
    in1 ← buf_get inp (4 * i + 1); x1 ← char_to_code in1;
    let b := Z.lor b (Z.shiftl (Z.land 0x3F x1) 12) in
    in2 ← buf_get inp (4 * i + 2); x2 ← char_to_code in2;
    let b := Z.lor b (Z.shiftl (Z.land 0x3F x2) 6) in
    out ← buf_set out (3 * i + 0) (Z.land (Z.shiftr b 16) 0xFF);
    buf_set out (3 * i + 1) (Z.land (Z.shiftr b 8) 0xFF)
  else Ret out.

Definition b64_to_bin_nopad (inp : option (list Z)) (size : Z)
    (out : option (list Z)) (max_len : Z) : outcome (Z * option (list Z)) :=
  match out, inp with
  | None, _ | _, None => Ret (-1, out)
  | Some o, Some inp =>
    if size =? 0 then Ret (0, Some o)
    else
      let full_blocks := Z.quot size 4 in
      let last_chars := Z.rem size 4 in
      if last_chars =? 1 then Ret (-1, Some o)
      else
        last_bytes ←
          (if last_chars =? 0 then Ret 0
           else if last_chars =? 2 then Ret 1
           else if last_chars =? 3 then Ret 2
           else Exit EXIT_FAILURE);
        let result_len := 3 * full_blocks + last_bytes in
        if max_len <? result_len then Ret (-1, Some o)
        else
          o1 ← for_loop (Z.to_nat full_blocks) 0 (dec_block inp) o;
          o2 ← dec_last inp full_blocks last_bytes o1;
          Ret (result_len, Some o2)
  end.

Definition bin_to_b64 (inp : option (list Z)) (size : Z)
    (out : option (list Z)) (max_len : Z) : outcome (Z * option (list Z)) :=
  '(ret, out) ← bin_to_b64_nopad inp size out max_len;
  if ret =? -1 then Ret (-1, out)
  else match out with
  | None => Undef
  | Some o =>
    let m := Z.rem ret 4 in
    if m =? 0 then Ret (ret, Some o)
    else if m =? 1 then Ret (-1, Some o)
    else if m =? 2 then
      need ← int_ok (ret + 2 + 1);
      if need <=? max_len then
        o ← buf_set o ret code_pad;
        o ← buf_set o (ret + 1) code_pad;
        o ← buf_set o (ret + 2) 0;
        Ret (ret + 2, Some o)
      else Ret (-1, Some o)
    else if m =? 3 then
      need ← int_ok (ret + 1 + 1);
      if need <=? max_len then
        o ← buf_set o ret code_pad;
        o ← buf_set o (ret + 1) 0;
        Ret (ret + 1, Some o)
      else Ret (-1, Some o)
    else Exit EXIT_FAILURE
  end.

Definition b64_to_bin (inp : option (list Z)) (size : Z)
    (out : option (list Z)) (max_len : Z) : outcome (Z * option (list Z)) :=
  match inp with
  | None => Ret (-1, out)
  | Some l =>
    if (Z.rem size 4 =? 0) && (4 <=? size) then
      p2 ← buf_get l (size - 2);
      if p2 =? code_pad then b64_to_bin_nopad inp (size - 2) out max_len
      else
        p1 ← buf_get l (size - 1);
        if p1 =? code_pad then b64_to_bin_nopad inp (size - 1) out max_len
        else b64_to_bin_nopad inp size out max_len
    else b64_to_bin_nopad inp size out max_len
  end.

(** ** The reference: RFC 4648 on lists *)

Module Rfc4648.

(** The alphabet: upper-case letters, lower-case letters, digits, [+], [/]. *)
Definition alphabet : list Z :=
  (((λ k : nat, 65 + Z.of_nat k) <$> seq 0 26) ++
   ((λ k : nat, 97 + Z.of_nat k) <$> seq 0 26) ++
   ((λ k : nat, 48 + Z.of_nat k) <$> seq 0 10) ++ [43; 47])%list.

Definition digit (v k : Z) : Z := znth 0 alphabet (v / 2 ^ k mod 64).

(** The text of a byte string, without padding. *)
Fixpoint encode (l : list Z) : list Z :=
  match l with
  | a :: b :: c :: r =>
    let v := a * 65536 + b * 256 + c in
    digit v 18 :: digit v 12 :: digit v 6 :: digit v 0 :: encode r
  | [a; b] =>
    let v := a * 65536 + b * 256 in [digit v 18; digit v 12; digit v 6]
  | [a] => let v := a * 65536 in [digit v 18; digit v 12]
  | [] => []
  end.

Definition padding (l : list Z) : list Z :=
  match (length l mod 3)%nat with 1%nat => [61; 61] | 2%nat => [61] | _ => [] end.

(** The value of a character of the alphabet. *)
Definition sextet (c : Z) : option Z :=
  (λ p : nat * Z, Z.of_nat (fst p)) <$> list_find (eq c) alphabet.

(** The bytes of an unpadded text; the low bits of a last, incomplete group
    are dropped. [None]: a character is not of the alphabet, or a single
    character is left. *)
Fixpoint decode (l : list Z) : option (list Z) :=
  match l with
  | a :: b :: c :: d :: r =>
    x ← sextet a; y ← sextet b; z ← sextet c; w ← sextet d; t ← decode r;
    let v := x * 2 ^ 18 + y * 2 ^ 12 + z * 2 ^ 6 + w in
    Some (v / 2 ^ 16 :: v / 2 ^ 8 mod 256 :: v mod 256 :: t)
  | [a; b; c] =>
    x ← sextet a; y ← sextet b; z ← sextet c;
    let v := x * 2 ^ 18 + y * 2 ^ 12 + z * 2 ^ 6 in
    Some [v / 2 ^ 16; v / 2 ^ 8 mod 256]
  | [a; b] =>
    x ← sextet a; y ← sextet b;
    let v := x * 2 ^ 18 + y * 2 ^ 12 in Some [v / 2 ^ 16]
  | [a] => None
  | [] => Some []
  end.

#[global] Arguments digit : simpl never.
#[global] Arguments sextet : simpl never.
#[global] Arguments Z.mul : simpl never.
#[global] Arguments Z.add : simpl never.

End Rfc4648.
Import Rfc4648.

Definition bytes (l : list Z) : Prop := Forall (λ x, is_u8 x) l.
Lemma bytes_cons x l : bytes (x :: l) ↔ is_u8 x ∧ bytes l.
Proof. apply List.Forall_cons_iff. Qed.

(** ** Characters *)

Definition all_bytes : list Z := Z.of_nat <$> seq 0 256.
Lemma all_bytes_elem x : is_u8 x → x ∈ all_bytes.
Proof.
  intros. apply list_elem_of_fmap. exists (Z.to_nat x).
  split; [lia|]. apply elem_of_seq. lia.
Qed.

(** A decidable property of a byte holds when it holds of all 256. *)
Lemma byte_cases (P : Z → Prop) `{∀ x, Decision (P x)} x :
  forallb (λ x, bool_decide (P x)) all_bytes = true → is_u8 x → P x.
Proof.
  intros E Hx. rewrite forallb_forall in E.
  apply (bool_decide_eq_true_1 (P x)), E.
  by apply list_elem_of_In, all_bytes_elem.
Qed.

Definition outcome_of_sextet (o : option Z) : outcome Z :=
  match o with Some v => Ret v | None => Exit EXIT_FAILURE end.

Lemma char_to_code_sextet c :
  is_u8 c → char_to_code c = outcome_of_sextet (sextet c).
Proof.
  apply (byte_cases (λ c, char_to_code c = outcome_of_sextet (sextet c))).
  by vm_compute.
Qed.

Lemma sextet_digits x :
  0 <= x < 64 →
  code_to_char x = Ret (znth 0 alphabet x) ∧ sextet (znth 0 alphabet x) = Some x.
Proof.
  intros Hx. assert (H : is_u8 x) by lia. revert H Hx.
  apply (byte_cases (λ x, 0 <= x < 64 →
    code_to_char x = Ret (znth 0 alphabet x) ∧ sextet (znth 0 alphabet x) = Some x)).
  by vm_compute.
Qed.

Lemma code_to_char_digit v k :
  code_to_char (v / 2 ^ k mod 2 ^ 6) = Ret (digit v k).
Proof. apply sextet_digits. by apply Z.mod_pos_bound. Qed.

Lemma sextet_digit v k : sextet (digit v k) = Some (v / 2 ^ k mod 64).
Proof. apply sextet_digits. by apply Z.mod_pos_bound. Qed.

Lemma sextet_range c x : sextet c = Some x → 0 <= x < 64.
Proof.
  unfold sextet. intros ([i y] & Hp & ->)%fmap_Some.
  apply list_find_Some in Hp as (Hi%lookup_lt_Some & _). simpl in *. lia.
Qed.

(** ** Blocks *)

(** The 24-bit group of a block, as the code assembles it. *)
Lemma group3 a b c :
  is_u8 a → is_u8 b → is_u8 c →
  Z.lor (Z.lor (Z.shiftl (Z.land 0xFF a) 16) (Z.shiftl (Z.land 0xFF b) 8)) (Z.land 0xFF c)
  = a * 65536 + b * 256 + c.
Proof.
  intros. autorewrite with cbits. rewrite !Z.mod_small, !shiftl_mul by lia.
  rewrite (lor_shl_add a (b * 2 ^ 8) 16) by lia.
  replace (a * 2 ^ 16 + b * 2 ^ 8) with ((a * 2 ^ 8 + b) * 2 ^ 8) by lia.
  rewrite lor_shl_add; lia.
Qed.

Lemma group2 a b :
  is_u8 a → is_u8 b →
  Z.lor (Z.shiftl (Z.land 0xFF a) 16) (Z.shiftl (Z.land 0xFF b) 8) = a * 65536 + b * 256.
Proof.
  intros. autorewrite with cbits. rewrite !Z.mod_small, !shiftl_mul by lia.
  rewrite (lor_shl_add a (b * 2 ^ 8) 16); lia.
Qed.

Lemma group1 a : is_u8 a → Z.shiftl (Z.land 0xFF a) 16 = a * 65536.
Proof. intros. autorewrite with cbits. rewrite Z.mod_small, shiftl_mul by lia. lia. Qed.

Lemma code_to_char_shift v k :
  0 <= k → code_to_char (Z.land (Z.shiftr v k) 0x3F) = Ret (digit v k).
Proof. intros. rewrite land_3f, shiftr_div by lia. apply code_to_char_digit. Qed.
Lemma code_to_char_low v : code_to_char (Z.land v 0x3F) = Ret (digit v 0).
Proof. rewrite <- (code_to_char_shift v 0) by lia. by rewrite Z.shiftr_0_r. Qed.

(** A write at a constant offset of a block. *)
Ltac buf_put pre i k :=
  rewrite (buf_set_at pre _ i k) by (simpl; lia); repeat cstep;
  cbn [list_insert insert].

Lemma enc_block_ok ipre a b c irest opre x y z w orest i :
  is_u8 a → is_u8 b → is_u8 c →
  Z.of_nat (length ipre) = 3 * i → Z.of_nat (length opre) = 4 * i →
  enc_block (ipre ++ a :: b :: c :: irest) i (opre ++ x :: y :: z :: w :: orest)
  = Ret (opre ++ encode [a; b; c] ++ orest).
Proof.
  intros Ha Hb Hc Hi Ho. unfold enc_block.
  rewrite (buf_get_at ipre _ (3 * i) 0 a) by (reflexivity || lia). cstep.
  rewrite (buf_get_at ipre _ (3 * i + 1) 1 b) by (reflexivity || lia). cstep.
  rewrite (buf_get_at ipre _ (3 * i + 2) 2 c) by (reflexivity || lia). cstep.
  rewrite (group3 a b c) by done.
  rewrite !code_to_char_shift, code_to_char_low by lia. cstep.
  buf_put opre (4 * i + 0) 0%nat. buf_put opre (4 * i + 1) 1%nat.
  buf_put opre (4 * i + 2) 2%nat. buf_put opre (4 * i + 3) 3%nat.
  reflexivity.
Qed.

(** A list of at least three, or four, elements, taken apart. *)
Lemma list_split3 {A} (l : list A) :
  (3 <= length l)%nat → ∃ a b c r, l = a :: b :: c :: r.
Proof. destruct l as [|a [|b [|c r]]]; simpl; try lia. eauto. Qed.
Lemma list_split4 {A} (l : list A) :
  (4 <= length l)%nat → ∃ a b c d r, l = a :: b :: c :: d :: r.
Proof. destruct l as [|a [|b [|c [|d r]]]]; simpl; try lia. eauto 6. Qed.

Lemma enc_loop_ok n : ∀ ipre iblk irest opre oblk orest i,
  bytes iblk →
  length iblk = (3 * n)%nat → length oblk = (4 * n)%nat →
  Z.of_nat (length ipre) = 3 * i → Z.of_nat (length opre) = 4 * i →
  for_loop n i (enc_block (ipre ++ iblk ++ irest)) (opre ++ oblk ++ orest)
  = Ret (opre ++ encode iblk ++ orest).
Proof.
  induction n as [|n IH]; intros ipre iblk irest opre oblk orest i Hb Hil Hol Hi Ho.
  - destruct iblk, oblk; simpl in *; lia || reflexivity.
  - destruct (list_split3 iblk) as (a & b & c & iblk' & ->); [lia|].
    destruct (list_split4 oblk) as (x & y & z & w & oblk' & ->); [lia|].
    repeat (apply bytes_cons in Hb as [? Hb]). cbn [for_loop].
    rewrite <- !app_comm_cons, enc_block_ok by (assumption || lia). cstep.
    replace (ipre ++ a :: b :: c :: iblk' ++ irest)
      with ((ipre ++ [a; b; c]) ++ iblk' ++ irest) by (by rewrite <- app_assoc).
    rewrite (app_assoc opre (encode [a; b; c]) (oblk' ++ orest)), IH.
    + by rewrite <- !app_assoc.
    + done.
    + simpl in Hil. lia.
    + simpl in Hol. lia.
    + rewrite length_app. simpl. lia.
    + rewrite length_app. simpl. lia.
Qed.

(** The partial block: one or two bytes left, and the NUL. *)
Lemma enc_last_ok ipre ilast irest opre olast orest i :
  bytes ilast → (length ilast < 3)%nat →
  length olast = S (length (encode ilast)) →
  Z.of_nat (length ipre) = 3 * i → Z.of_nat (length opre) = 4 * i →
  enc_last (ipre ++ ilast ++ irest) i (Z.of_nat (length (encode ilast)))
    (opre ++ olast ++ orest)
  = Ret (opre ++ encode ilast ++ 0 :: orest).
Proof.
  intros Hb Hl Ho Hi Hp. unfold enc_last.
  destruct ilast as [|a [|b [|]]]; simpl in Ho, Hl; try lia;
    repeat (apply bytes_cons in Hb as [? Hb]).
  - destruct olast as [|x [|]]; simpl in Ho; try lia. cbn.
    buf_put opre (4 * i) 0%nat. done.
  - destruct olast as [|x [|y [|z [|]]]]; simpl in Ho; try lia. cbn [encode length].
    change (Z.of_nat 2) with 2. cbn [Z.eqb Pos.eqb].
    rewrite (buf_get_at ipre _ (3 * i) 0 a) by (reflexivity || lia). cstep.
    rewrite group1, !code_to_char_shift by (done || lia). cstep.
    buf_put opre (4 * i + 0) 0%nat. buf_put opre (4 * i + 1) 1%nat.
    buf_put opre (4 * i + 2) 2%nat. reflexivity.
  - destruct olast as [|x [|y [|z [|w [|]]]]]; simpl in Ho; try lia. cbn [encode length].
    change (Z.of_nat 3) with 3. cbn [Z.eqb Pos.eqb].
    rewrite (buf_get_at ipre _ (3 * i) 0 a) by (reflexivity || lia). cstep.
    rewrite (buf_get_at ipre _ (3 * i + 1) 1 b) by (reflexivity || lia). cstep.
    rewrite group2, !code_to_char_shift by (done || lia). cstep.
    buf_put opre (4 * i + 0) 0%nat. buf_put opre (4 * i + 1) 1%nat.
    buf_put opre (4 * i + 2) 2%nat. buf_put opre (4 * i + 3) 3%nat. reflexivity.
Qed.

(** ** The encoder implements the reference *)

Lemma encode_app n l1 l2 :
  length l1 = (3 * n)%nat → encode (l1 ++ l2) = encode l1 ++ encode l2.
Proof.
  revert l1. induction n as [|n IH]; intros l1 Hl.
  - destruct l1; simpl in *; lia || done.
  - destruct (list_split3 l1) as (a & b & c & r & ->); [lia|].
    simpl in Hl. cbn [encode app]. rewrite IH by lia. done.
Qed.

Lemma length_encode_blocks n l :
  length l = (3 * n)%nat → length (encode l) = (4 * n)%nat.
Proof.
  revert l. induction n as [|n IH]; intros l Hl.
  - destruct l; simpl in *; lia || done.
  - destruct (list_split3 l) as (a & b & c & r & ->); [lia|].
    simpl in Hl. cbn [encode length]. rewrite IH by lia. lia.
Qed.

(** Data as whole blocks and a rest of less than three bytes. *)
Lemma blocks3 (l : list Z) : bytes l →
  ∃ n l1 l2, l = l1 ++ l2 ∧ length l1 = (3 * n)%nat ∧ (length l2 < 3)%nat ∧
    bytes l1 ∧ bytes l2 ∧ length l = (3 * n + length l2)%nat.
Proof.
  intros Hb. set (n := (length l / 3)%nat).
  assert (Hn : (3 * n <= length l < 3 * n + 3)%nat).
  { pose proof (Nat.div_mod_eq (length l) 3).
    pose proof (Nat.mod_upper_bound (length l) 3). lia. }
  exists n, (take (3 * n) l), (drop (3 * n) l).
  rewrite take_drop, length_take, length_drop. split_and_all; try lia; auto.
  - by apply Forall_take.
  - by apply Forall_drop.
Qed.

Definition last_chars_of (l2 : list Z) : Z :=
  match l2 with [] => 0 | [_] => 2 | _ => 3 end.
Lemma length_encode_last l2 :
  (length l2 < 3)%nat → Z.of_nat (length (encode l2)) = last_chars_of l2.
Proof. destruct l2 as [|? [|? [|]]]; simpl; lia. Qed.

(** The length the code computes is the length of the text. *)
Lemma last_chars_switch n l2 :
  (length l2 < 3)%nat → 
  let size := Z.of_nat (3 * n + length l2) in
  Z.quot size 3 = Z.of_nat n ∧
  (if Z.rem size 3 =? 0 then Ret 0
   else if Z.rem size 3 =? 1 then Ret 2
   else if Z.rem size 3 =? 2 then Ret 3
   else Exit EXIT_FAILURE) = Ret (last_chars_of l2).
Proof.
  intros Hl size. assert (Hq : Z.quot size 3 = Z.of_nat n ∧ Z.rem size 3 = Z.of_nat (length l2)).
  { subst size. Z.to_euclidean_division_equations. lia. }
  destruct Hq as [-> ->]. split; [done|].
  destruct l2 as [|? [|? [|]]]; simpl in *; lia || done.
Qed.

Lemma bin_to_b64_nopad_ok data irest o max_len :
  bytes data → (0 < length o)%nat →
  Z.of_nat (length (encode data)) + 1 < 2 ^ 31 → max_len <= Z.of_nat (length o) →
  bin_to_b64_nopad (Some (data ++ irest)) (Z.of_nat (length data)) (Some o) max_len
  = let n := length (encode data) in
    if decide (data ≠ [] ∧ max_len <= Z.of_nat n) then Ret (-1, Some o)
    else Ret (Z.of_nat n, Some (encode data ++ 0 :: drop (S n) o)).
Proof.
  intros Hb Ho Hsz Hmax. destruct (blocks3 data Hb)
    as (n & l1 & l2 & -> & H1 & H2 & Hb1 & Hb2 & Hlen).
  cbv zeta. unfold bin_to_b64_nopad.
  destruct (Z.eqb_spec (Z.of_nat (length (l1 ++ l2))) 0) as [E|E].
  { destruct l1, l2; cbn [length app] in *; try lia. rewrite decide_False by (intros [[] _]; done).
    destruct o; simpl in *; [lia|]. by rewrite drop_0. }
  rewrite Hlen. destruct (last_chars_switch n l2 H2) as [-> ->]. cstep.
  rewrite (encode_app n) in * by done. rewrite length_app in Hsz.
  pose proof (length_encode_blocks n l1 H1) as Hl1.
  pose proof (length_encode_last l2 H2) as Hl2.
  rewrite int_ok_ret by lia. cstep. rewrite int_ok_ret by lia. cstep.
  rewrite length_app. destruct (decide _) as [[_ D]|D].
  { rewrite (proj2 (Z.ltb_lt _ _)) by lia. done. }
  rewrite (proj2 (Z.ltb_ge _ _)).
  2:{ apply Z.nlt_ge. intros F. apply D. split; [|lia]. intros En.
      apply E. by rewrite En. }
  assert (Hlo : (length (encode l1) + length (encode l2) < length o)%nat).
  { apply Nat.nle_gt. intros F. apply D. split; [|lia]. intros En.
    apply E. by rewrite En. }
  rewrite Nat2Z.id, <- app_assoc, <- Hl2.
  rewrite <- (take_drop (4 * n) o) at 1.
  pose proof (enc_loop_ok n [] l1 (l2 ++ irest) [] (take (4 * n) o) (drop (4 * n) o) 0
    Hb1 H1) as EL. cbn [app] in EL. rewrite EL by (rewrite ?length_take; simpl; lia). clear EL.
  cstep. rewrite <- (take_drop (S (length (encode l2))) (drop (4 * n) o)).
  cbn [app]. rewrite (enc_last_ok l1 l2 irest (encode l1)).
  2-6: rewrite ?length_take, ?length_drop; lia || done.
  cstep. rewrite drop_drop, <- app_assoc.
  replace (4 * n + S (length (encode l2)))%nat
    with (S (length (encode l1) + length (encode l2))) by lia.
  repeat f_equal. lia.
Qed.

(** The padded text. *)
Definition text (data : list Z) : list Z := encode data ++ padding data.

Lemma text_last n l1 l2 :
  length l1 = (3 * n)%nat → (length l2 < 3)%nat →
  Z.of_nat (length (encode (l1 ++ l2))) = 4 * Z.of_nat n + last_chars_of l2 ∧
  padding (l1 ++ l2) = match l2 with [] => [] | [_] => [61; 61] | _ => [61] end.
Proof.
  intros H1 H2. rewrite (encode_app n), length_app by done.
  pose proof (length_encode_blocks n l1 H1). pose proof (length_encode_last l2 H2).
  split; [lia|]. unfold padding. rewrite length_app, H1.
  replace ((3 * n + length l2) mod 3)%nat with (length l2).
  2:{ rewrite Nat.add_comm, Nat.mul_comm, Nat.Div0.mod_add, Nat.mod_small; lia. }
  destruct l2 as [|? [|? [|]]]; simpl in *; lia || done.
Qed.

(** Appending the padding to a terminated text of a large enough buffer. *)
Lemma pad2 (t : list Z) o m :
  (length t + 2 < length o)%nat → m = Z.of_nat (length t) →
  (o1 ← buf_set (t ++ 0 :: drop (S (length t)) o) m code_pad;
   o2 ← buf_set o1 (m + 1) code_pad;
   o3 ← buf_set o2 (m + 2) 0; Ret (m + 2, Some o3))
  = Ret (m + 2, Some ((t ++ [61; 61]) ++ 0 :: drop (S (length t + 2)) o)).
Proof.
  intros Hl ->. assert (∃ x y r, drop (S (length t)) o = x :: y :: r ∧
    r = drop (S (length t + 2)) o) as (x & y & r & -> & <-).
  { replace (S (length t + 2)) with (S (length t) + 2)%nat by lia.
    rewrite <- drop_drop. pose proof (length_drop o (S (length t))) as Hr.
    destruct (drop (S (length t)) o) as [|x [|y r]]; simpl in *; try lia. eauto. }
  rewrite (buf_set_at t _ _ 0) by (simpl; lia). cstep.
  rewrite (buf_set_at t _ _ 1) by (simpl; lia). cstep.
  rewrite (buf_set_at t _ _ 2) by (simpl; lia). cstep.
  rewrite <- app_assoc. reflexivity.
Qed.

Lemma pad1 (t : list Z) o m :
  (length t + 1 < length o)%nat → m = Z.of_nat (length t) →
  (o1 ← buf_set (t ++ 0 :: drop (S (length t)) o) m code_pad;
   o2 ← buf_set o1 (m + 1) 0; Ret (m + 1, Some o2))
  = Ret (m + 1, Some ((t ++ [61]) ++ 0 :: drop (S (length t + 1)) o)).
Proof.
  intros Hl ->. assert (∃ x r, drop (S (length t)) o = x :: r ∧
    r = drop (S (length t + 1)) o) as (x & r & -> & <-).
  { replace (S (length t + 1)) with (S (length t) + 1)%nat by lia.
    rewrite <- drop_drop. pose proof (length_drop o (S (length t))) as Hr.
    destruct (drop (S (length t)) o) as [|x r]; simpl in *; try lia. eauto. }
  rewrite (buf_set_at t _ _ 0) by (simpl; lia). cstep.
  rewrite (buf_set_at t _ _ 1) by (simpl; lia). cstep.
  rewrite <- app_assoc. reflexivity.
Qed.

Lemma bin_to_b64_ok data irest o max_len :
  bytes data → Z.of_nat (length (text data)) + 1 < 2 ^ 31 →
  Z.of_nat (length (text data)) < max_len <= Z.of_nat (length o) →
  bin_to_b64 (Some (data ++ irest)) (Z.of_nat (length data)) (Some o) max_len
  = Ret (Z.of_nat (length (text data)),
         Some (text data ++ 0 :: drop (S (length (text data))) o)).
Proof.
  intros Hb Hsz Hmax. unfold bin_to_b64, text in *. rewrite length_app in *.
  rewrite bin_to_b64_nopad_ok by (done || lia). cbv zeta.
  rewrite decide_False by (intros [_ ?]; lia). cstep.
  destruct (blocks3 data Hb) as (n & l1 & l2 & -> & H1 & H2 & _ & _ & _).
  destruct (text_last n l1 l2 H1 H2) as [HL HP]. rewrite HP in *.
  set (t := encode (l1 ++ l2)) in *.
  rewrite (proj2 (Z.eqb_neq _ _)) by lia.
  assert (Hm : Z.rem (Z.of_nat (length t)) 4 = last_chars_of l2).
  { rewrite HL. destruct l2 as [|? [|? [|]]]; simpl in *; try lia;
      Z.to_euclidean_division_equations; lia. }
  rewrite Hm. destruct l2 as [|? [|? [|]]]; cbn [length] in *; try lia; cbn [last_chars_of];
    cbn [Z.eqb Pos.eqb].
  - by rewrite Nat.add_0_r, app_nil_r.
  - rewrite int_ok_ret by lia. cstep. rewrite (proj2 (Z.leb_le _ _)) by lia.
    rewrite pad2 by lia. repeat f_equal; lia.
  - rewrite int_ok_ret by lia. cstep. rewrite (proj2 (Z.leb_le _ _)) by lia.
    rewrite pad1 by lia. repeat f_equal; lia.
Qed.

(** ** The decoder implements the reference *)

Definition exit_of {A} (o : option A) : outcome A :=
  match o with Some a => Ret a | None => Exit EXIT_FAILURE end.

Lemma dgroup4 x y z w :
  0 <= x < 64 → 0 <= y < 64 → 0 <= z < 64 → 0 <= w < 64 →
  Z.lor (Z.lor (Z.lor (Z.shiftl (Z.land 0x3F x) 18) (Z.shiftl (Z.land 0x3F y) 12))
    (Z.shiftl (Z.land 0x3F z) 6)) (Z.land 0x3F w)
  = x * 2 ^ 18 + y * 2 ^ 12 + z * 2 ^ 6 + w.
Proof.
  intros. autorewrite with cbits. rewrite !Z.mod_small, !shiftl_mul by lia.
  rewrite (lor_shl_add x (y * 2 ^ 12) 18) by lia.
  replace (x * 2 ^ 18 + y * 2 ^ 12) with ((x * 2 ^ 6 + y) * 2 ^ 12) by lia.
  rewrite (lor_shl_add _ (z * 2 ^ 6) 12) by lia.
  replace ((x * 2 ^ 6 + y) * 2 ^ 12 + z * 2 ^ 6)
    with (((x * 2 ^ 6 + y) * 2 ^ 6 + z) * 2 ^ 6) by lia.
  rewrite lor_shl_add; lia.
Qed.

Lemma dgroup3 x y z :
  0 <= x < 64 → 0 <= y < 64 → 0 <= z < 64 →
  Z.lor (Z.lor (Z.shiftl (Z.land 0x3F x) 18) (Z.shiftl (Z.land 0x3F y) 12))
    (Z.shiftl (Z.land 0x3F z) 6)
  = x * 2 ^ 18 + y * 2 ^ 12 + z * 2 ^ 6.
Proof.
  intros. pose proof (dgroup4 x y z 0) as E. rewrite Z.lor_0_r in E. lia.
Qed.

Lemma dgroup2 x y :
  0 <= x < 64 → 0 <= y < 64 →
  Z.lor (Z.shiftl (Z.land 0x3F x) 18) (Z.shiftl (Z.land 0x3F y) 12)
  = x * 2 ^ 18 + y * 2 ^ 12.
Proof.
  intros. pose proof (dgroup3 x y 0) as E. rewrite Z.lor_0_r in E. lia.
Qed.

(** The three bytes of a 24-bit group, as the code extracts them. *)
Lemma byte2 v : 0 <= v < 2 ^ 24 → Z.land (Z.shiftr v 16) 0xFF = v / 2 ^ 16.
Proof.
  intros. rewrite land_ff, shiftr_div by lia. apply Z.mod_small.
  Z.to_euclidean_division_equations; lia.
Qed.
Lemma byte1 v : Z.land (Z.shiftr v 8) 0xFF = v / 2 ^ 8 mod 256.
Proof. rewrite land_ff, shiftr_div by lia. done. Qed.
Lemma byte0 v : Z.land v 0xFF = v mod 256.
Proof. apply land_ff. Qed.

(** Reading and decoding the character at offset [k] of a block. *)
Ltac get_sextet ipre i k c :=
  rewrite (buf_get_at ipre _ i k c) by (reflexivity || lia); cstep;
  rewrite (char_to_code_sextet c) by done;
  let E := fresh "E" in
  destruct (sextet c) eqn:E; cbn [outcome_of_sextet];
  [apply sextet_range in E; cstep | reflexivity].

Lemma dec_block_ok ipre a b c d irest opre x y z orest i :
  is_u8 a → is_u8 b → is_u8 c → is_u8 d →
  Z.of_nat (length ipre) = 4 * i → Z.of_nat (length opre) = 3 * i →
  dec_block (ipre ++ a :: b :: c :: d :: irest) i (opre ++ x :: y :: z :: orest)
  = (t ← exit_of (decode [a; b; c; d]); Ret (opre ++ t ++ orest)).
Proof.
  intros Ha Hb Hc Hd Hi Ho. unfold dec_block. cbn [decode].
  get_sextet ipre (4 * i) 0%nat a. get_sextet ipre (4 * i + 1) 1%nat b.
  get_sextet ipre (4 * i + 2) 2%nat c. get_sextet ipre (4 * i + 3) 3%nat d.
  rewrite dgroup4 by done. cbn [exit_of mbind option_bind].
  rewrite byte2, byte1, byte0 by lia.
  buf_put opre (3 * i + 0) 0%nat. buf_put opre (3 * i + 1) 1%nat.
  buf_put opre (3 * i + 2) 2%nat. reflexivity.
Qed.

Lemma decode_app n l1 l2 :
  length l1 = (4 * n)%nat →
  decode (l1 ++ l2) = (t1 ← decode l1; t2 ← decode l2; Some (t1 ++ t2)).
Proof.
  revert l1. induction n as [|n IH]; intros l1 Hl.
  - destruct l1; simpl in *; [by destruct (decode l2)|lia].
  - destruct (list_split4 l1) as (a & b & c & d & r & ->); [lia|].
    simpl in Hl. cbn [decode app]. rewrite IH by lia.
    destruct (sextet a), (sextet b), (sextet c), (sextet d); try done. cbn [mbind option_bind].
    destruct (decode r), (decode l2); done.
Qed.

Lemma dec_loop_ok n : ∀ ipre iblk irest opre oblk orest i,
  bytes iblk →
  length iblk = (4 * n)%nat → length oblk = (3 * n)%nat →
  Z.of_nat (length ipre) = 4 * i → Z.of_nat (length opre) = 3 * i →
  for_loop n i (dec_block (ipre ++ iblk ++ irest)) (opre ++ oblk ++ orest)
  = (t ← exit_of (decode iblk); Ret (opre ++ t ++ orest)).
Proof.
  induction n as [|n IH]; intros ipre iblk irest opre oblk orest i Hb Hil Hol Hi Ho.
  - destruct iblk, oblk; simpl in *; lia || reflexivity.
  - destruct (list_split4 iblk) as (a & b & c & d & iblk' & ->); [lia|].
    destruct (list_split3 oblk) as (x & y & z & oblk' & ->); [lia|].
    repeat (apply bytes_cons in Hb as [? Hb]). cbn [for_loop].
    rewrite <- !app_comm_cons, dec_block_ok by (assumption || lia).
    change (a :: b :: c :: d :: iblk') with ([a; b; c; d] ++ iblk').
    rewrite (decode_app 1 [a; b; c; d] iblk') by done.
    destruct (decode [a; b; c; d]) as [t|] eqn:Et; [|done].
    cbn [exit_of mbind option_bind]. do 2 cstep.
    replace (ipre ++ a :: b :: c :: d :: iblk' ++ irest)
      with ((ipre ++ [a; b; c; d]) ++ iblk' ++ irest) by (by rewrite <- app_assoc).
    rewrite (app_assoc opre t (oblk' ++ orest)), IH.
    + cbn [mbind option_bind]. destruct (decode iblk'); cbn [exit_of]; [|done].
      cbn. by rewrite <- !app_assoc.
    + done.
    + simpl in Hil. lia.
    + simpl in Hol. lia.
    + rewrite length_app. simpl. lia.
    + assert (length t = 3%nat).
      { revert Et. cbn [decode]. destruct (sextet a), (sextet b), (sextet c), (sextet d); try done.
        cbn [mbind option_bind]. by intros [= <-]. }
      rewrite length_app. lia.
Qed.

(** The number of bytes of a text of [n] characters, as the code counts it. *)
Definition dec_len (l : list Z) : Z :=
  3 * (Z.of_nat (length l) / 4) + Z.max 0 (Z.of_nat (length l) mod 4 - 1).

Lemma dec_last_ok ipre ilast irest opre olast orest i :
  bytes ilast → (length ilast < 4)%nat → length ilast ≠ 1%nat →
  Z.of_nat (length olast) = dec_len ilast →
  Z.of_nat (length ipre) = 4 * i → Z.of_nat (length opre) = 3 * i →
  dec_last (ipre ++ ilast ++ irest) i (dec_len ilast) (opre ++ olast ++ orest)
  = (t ← exit_of (decode ilast); Ret (opre ++ t ++ orest)).
Proof.
  intros Hb Hl H1 Ho Hi Hp. unfold dec_last.
  destruct ilast as [|a [|b [|c [|]]]]; cbn [length] in *; try lia;
    repeat (apply bytes_cons in Hb as [? Hb]).
  - change (dec_len []) with 0 in *. cbn [Z.eqb Pos.eqb]. destruct olast; simpl in *; lia || done.
  - change (dec_len [a; b]) with 1 in *. cbn [Z.eqb Pos.eqb].
    destruct olast as [|x [|]]; cbn [length] in Ho; try lia.
    cbn [app decode]. get_sextet ipre (4 * i) 0%nat a. get_sextet ipre (4 * i + 1) 1%nat b.
    rewrite dgroup2, byte2 by lia. cbn [exit_of mbind option_bind].
    buf_put opre (3 * i + 0) 0%nat. reflexivity.
  - change (dec_len [a; b; c]) with 2 in *. cbn [Z.eqb Pos.eqb].
    destruct olast as [|x [|y [|]]]; cbn [length] in Ho; try lia.
    cbn [app decode]. get_sextet ipre (4 * i) 0%nat a. get_sextet ipre (4 * i + 1) 1%nat b.
    get_sextet ipre (4 * i + 2) 2%nat c.
    rewrite dgroup3, byte2, byte1 by lia. cbn [exit_of mbind option_bind].
    buf_put opre (3 * i + 0) 0%nat. buf_put opre (3 * i + 1) 1%nat. reflexivity.
Qed.

Lemma blocks4 (l : list Z) : bytes l →
  ∃ n l1 l2, l = l1 ++ l2 ∧ length l1 = (4 * n)%nat ∧ (length l2 < 4)%nat ∧
    bytes l1 ∧ bytes l2 ∧ length l = (4 * n + length l2)%nat.
Proof.
  intros Hb. set (n := (length l / 4)%nat).
  assert (Hn : (4 * n <= length l < 4 * n + 4)%nat).
  { pose proof (Nat.div_mod_eq (length l) 4).
    pose proof (Nat.mod_upper_bound (length l) 4). lia. }
  exists n, (take (4 * n) l), (drop (4 * n) l).
  rewrite take_drop, length_take, length_drop. split_and_all; try lia; auto.
  - by apply Forall_take.
  - by apply Forall_drop.
Qed.

Lemma dec_len_app n l1 l2 :
  length l1 = (4 * n)%nat → (length l2 < 4)%nat →
  dec_len (l1 ++ l2) = 3 * Z.of_nat n + dec_len l2.
Proof.
  intros. unfold dec_len. rewrite length_app.
  Z.to_euclidean_division_equations. lia.
Qed.

Lemma length_decode l t : decode l = Some t → Z.of_nat (length t) = dec_len l.
Proof.
  assert (H : ∀ n l1 t1, length l1 = (4 * n)%nat → decode l1 = Some t1 →
    length t1 = (3 * n)%nat).
  { induction n as [|n IH]; intros l1 t1 Hl Hd.
    - destruct l1; simpl in *; [by simplify_eq|lia].
    - destruct (list_split4 l1) as (a & b & c & d & r & ->); [lia|].
      revert Hd. cbn [decode].
      destruct (sextet a), (sextet b), (sextet c), (sextet d); try done.
      cbn [mbind option_bind]. destruct (decode r) eqn:Er; [|done]. intros [= <-].
      apply IH in Er; [|simpl in Hl; lia]. simpl. lia. }
  set (n := (length l / 4)%nat). assert (Hn : (4 * n <= length l < 4 * n + 4)%nat).
  { pose proof (Nat.div_mod_eq (length l) 4). pose proof (Nat.mod_upper_bound (length l) 4). lia. }
  rewrite <- (take_drop (4 * n) l).
  rewrite (decode_app n), (dec_len_app n) by (rewrite ?length_take, ?length_drop; lia).
  destruct (decode (take (4 * n) l)) as [t1|] eqn:E1; [|done].
  apply (H n) in E1; [|rewrite length_take; lia].
  assert (Hr : (length (drop (4 * n) l) < 4)%nat) by (rewrite length_drop; lia).
  destruct (drop (4 * n) l) as [|a [|b [|c [|]]]]; simpl in Hr; try lia; cbn [decode mbind option_bind];
    try destruct (sextet a); try destruct (sextet b); try destruct (sextet c);
    cbn [mbind option_bind]; intros [= <-]; rewrite length_app, E1; unfold dec_len;
    cbn [length]; cint_lia.
Qed.

(** What [b64_to_bin_nopad] does on every text. *)
Lemma b64_to_bin_nopad_ok txt irest o max_len :
  bytes txt → Z.of_nat (length txt) < 2 ^ 31 → max_len <= Z.of_nat (length o) →
  b64_to_bin_nopad (Some (txt ++ irest)) (Z.of_nat (length txt)) (Some o) max_len
  = if Z.of_nat (length txt) mod 4 =? 1 then Ret (-1, Some o)
    else if (negb (Z.of_nat (length txt) =? 0) && (max_len <? dec_len txt))%bool then Ret (-1, Some o)
    else (t ← exit_of (decode txt);
          Ret (Z.of_nat (length t), Some (t ++ drop (length t) o))).
Proof.
  intros Hb Hsz Hmax. unfold b64_to_bin_nopad.
  destruct (Z.eqb_spec (Z.of_nat (length txt)) 0) as [E|E].
  { destruct txt; cbn [length] in E; [|lia]. cbn. by rewrite drop_0. }
  destruct (blocks4 txt Hb) as (n & l1 & l2 & -> & H1 & H2 & Hb1 & Hb2 & Hlen).
  set (size := Z.of_nat (length (l1 ++ l2))) in *.
  assert (Hq : Z.quot size 4 = Z.of_nat n ∧ Z.rem size 4 = Z.of_nat (length l2) ∧
    size mod 4 = Z.of_nat (length l2)).
  { subst size. rewrite Hlen. Z.to_euclidean_division_equations. lia. }
  destruct Hq as (-> & -> & ->). cbn [negb andb].
  destruct (Z.eqb_spec (Z.of_nat (length l2)) 1) as [L|L]; [done|].
  assert (Hs : (if Z.of_nat (length l2) =? 0 then Ret 0
    else if Z.of_nat (length l2) =? 2 then Ret 1
    else if Z.of_nat (length l2) =? 3 then Ret 2 else Exit EXIT_FAILURE) = Ret (dec_len l2)).
  { destruct l2 as [|? [|? [|? [|]]]]; cbn [length] in *; lia || done. }
  rewrite Hs. cstep. rewrite (dec_len_app n) by done.
  destruct (Z.ltb_spec max_len (3 * Z.of_nat n + dec_len l2)) as [M|M]; [done|].
  rewrite Nat2Z.id, <- app_assoc, (decode_app n) by done.
  assert (Hd : 0 <= dec_len l2) by (unfold dec_len; cint_lia).
  pose proof (dec_loop_ok n [] l1 (l2 ++ irest) [] (take (3 * n) o) (drop (3 * n) o) 0
    Hb1 H1) as EL. cbn [app] in EL. rewrite take_drop in EL.
  rewrite EL by (rewrite ?length_take; simpl; lia).
  destruct (decode l1) as [t1|] eqn:E1; [|done]. cbn [exit_of]. cstep.
  assert (Ht1 : length t1 = (3 * n)%nat).
  { apply length_decode in E1. rewrite <- (app_nil_r l1), (dec_len_app n) in E1 by (simpl; lia).
    change (dec_len []) with 0 in E1. lia. }
  cstep. rewrite <- (take_drop (Z.to_nat (dec_len l2)) (drop (3 * n) o)).
  rewrite (dec_last_ok l1 l2 irest t1).
  2-7: rewrite ?length_take, ?length_drop; lia || done.
  cbn [mbind option_bind]. destruct (decode l2) as [t2|] eqn:E2; [|done].
  apply length_decode in E2. cbn. rewrite length_app, <- app_assoc, drop_drop.
  repeat f_equal; lia.
Qed.

(** ** Round trip *)

Lemma digit_range v k : is_u8 (digit v k).
Proof.
  unfold digit. assert (H : is_u8 (v / 2 ^ k mod 64)).
  { pose proof (Z.mod_pos_bound (v / 2 ^ k) 64). lia. }
  revert H. generalize (v / 2 ^ k mod 64). intros z.
  apply (byte_cases (λ x, is_u8 (znth 0 alphabet x))).
  by vm_compute.
Qed.

Lemma encode_Forall (P : Z → Prop) l :
  (∀ v k, P (digit v k)) → Forall P (encode l).
Proof.
  intros HP. assert (∀ n l, (length l <= n)%nat → Forall P (encode l)) as Hn.
  { clear l. induction n as [|n IH]; intros l Hl.
    - destruct l; simpl in Hl; [constructor|lia].
    - destruct l as [|a [|b [|c r]]]; cbn [encode]; repeat constructor; try apply HP.
      apply IH. simpl in Hl. lia. }
  by apply (Hn (length l)).
Qed.
Lemma encode_bytes l : bytes (encode l).
Proof. apply encode_Forall, digit_range. Qed.
Lemma encode_no_pad l : Forall (λ c, c ≠ code_pad) (encode l).
Proof.
  apply encode_Forall. intros v k E. pose proof (sextet_digit v k) as S. by rewrite E in S.
Qed.

Lemma decode_encode l : bytes l → decode (encode l) = Some l.
Proof.
  assert (∀ n l, (length l <= n)%nat → bytes l → decode (encode l) = Some l) as Hn.
  { clear l. induction n as [|n IH]; intros l Hl Hb.
    - destruct l; simpl in Hl; [done|lia].
    - destruct l as [|a [|b [|c r]]]; cbn [encode decode]; [done|..];
        repeat (apply bytes_cons in Hb as [? Hb]); rewrite !sextet_digit;
        cbn [mbind option_bind].
      1-2: repeat f_equal; Z.to_euclidean_division_equations; lia.
      rewrite IH by (done || (simpl in Hl; lia)). cbn [mbind option_bind].
      repeat f_equal; Z.to_euclidean_division_equations; lia. }
  by apply (Hn (length l)).
Qed.

(** The text [b64_to_bin] hands on: a text of whole blocks whose last but one
    character is the padding character loses two characters, one whose last
    character is loses one. *)
Definition strip_pad (txt : list Z) : list Z :=
  let n := length txt in
  if decide ((n mod 4 = 0)%nat ∧ (4 <= n)%nat) then
    if znth 0 txt (Z.of_nat n - 2) =? code_pad then take (n - 2) txt
    else if znth 0 txt (Z.of_nat n - 1) =? code_pad then take (n - 1) txt
    else txt
  else txt.

Lemma buf_get_znth (txt irest : list Z) i :
  0 <= i < Z.of_nat (length txt) → buf_get (txt ++ irest) i = Ret (znth 0 txt i).
Proof.
  intros Hi. unfold znth. rewrite (proj2 (Z.ltb_ge _ _)) by lia.
  apply (buf_get_at [] (txt ++ irest) i (Z.to_nat i)); [simpl; lia|].
  rewrite lookup_app_l by lia.
  destruct (lookup_lt_is_Some_2 txt (Z.to_nat i)) as [x Hx]; [lia|].
  rewrite Hx. by rewrite (nth_lookup_Some txt _ 0 x Hx).
Qed.

Lemma b64_to_bin_strip txt irest o max_len :
  Z.of_nat (length txt) < 2 ^ 31 →
  ∃ irest', txt ++ irest = strip_pad txt ++ irest' ∧
  b64_to_bin (Some (txt ++ irest)) (Z.of_nat (length txt)) o max_len
  = b64_to_bin_nopad (Some (strip_pad txt ++ irest')) (Z.of_nat (length (strip_pad txt)))
      o max_len.
Proof.
  intros Hsz. unfold b64_to_bin, strip_pad. set (n := length txt) in *.
  assert (Hr : Z.rem (Z.of_nat n) 4 = Z.of_nat (n mod 4)).
  { rewrite Z.rem_mod_nonneg, Nat2Z.inj_mod by lia. done. }
  rewrite Hr. destruct (decide _) as [[D1 D2]|D].
  - rewrite D1. rewrite (proj2 (Z.leb_le _ _)) by lia. cbn [Z.of_nat Z.eqb andb].
    rewrite !buf_get_znth by lia. cstep.
    destruct (Z.eqb_spec (znth 0 txt (Z.of_nat n - 2)) code_pad) as [P|P];
      [|cstep; destruct (Z.eqb_spec (znth 0 txt (Z.of_nat n - 1)) code_pad) as [Q|Q]].
    + exists (drop (n - 2) txt ++ irest). rewrite app_assoc, take_drop. split; [done|].
      rewrite length_take. repeat f_equal. lia.
    + exists (drop (n - 1) txt ++ irest). rewrite app_assoc, take_drop. split; [done|].
      rewrite length_take. repeat f_equal. lia.
    + by exists irest.
  - exists irest. split; [done|]. destruct (_ && _)%bool eqn:E; [|done].
    apply andb_true_iff in E as [E1%Z.eqb_eq E2%Z.leb_le]. lia.
Qed.

Lemma strip_pad_bytes txt : bytes txt → bytes (strip_pad txt).
Proof. unfold strip_pad. intros. bool_cases; try done; by apply Forall_take. Qed.
Lemma strip_pad_length txt : (length (strip_pad txt) <= length txt)%nat.
Proof. unfold strip_pad. bool_cases; rewrite ?length_take; lia. Qed.

Lemma znth_app_r (l1 l2 : list Z) i :
  Z.of_nat (length l1) <= i → znth 0 (l1 ++ l2) i = znth 0 l2 (i - Z.of_nat (length l1)).
Proof.
  intros. unfold znth. rewrite !(proj2 (Z.ltb_ge _ _)), app_nth2 by lia. f_equal. lia.
Qed.
Lemma znth_no_pad l i :
  Forall (λ c, c ≠ code_pad) l → znth 0 l i ≠ code_pad.
Proof.
  intros H. unfold znth. destruct (i <? 0); [done|].
  destruct (nth_in_or_default (Z.to_nat i) l 0) as [E| ->]; [|done].
  rewrite List.Forall_forall in H. by apply H.
Qed.

Lemma strip_pad_text data : bytes data → strip_pad (text data) = encode data.
Proof.
  intros Hb. destruct (blocks3 data Hb) as (n & l1 & l2 & -> & H1 & H2 & _ & _ & _).
  destruct (text_last n l1 l2 H1 H2) as [HL HP]. unfold text, strip_pad. rewrite HP.
  pose proof (encode_no_pad (l1 ++ l2)) as HN. set (t := encode (l1 ++ l2)) in *.
  rewrite length_app. destruct l2 as [|? [|? [|]]]; cbn [length last_chars_of] in *; try lia.
  - rewrite Nat.add_0_r, app_nil_r. destruct (decide _); [|done].
    by rewrite !(proj2 (Z.eqb_neq _ _)) by (by apply znth_no_pad).
  - assert (length t + 2 = (n + 1) * 4)%nat as Hl by lia.
    rewrite decide_True; [|rewrite Hl, Nat.Div0.mod_mul; lia].
    rewrite znth_app_r by lia. replace (_ - _ - _) with 0 by lia. cbn.
    replace (length t + 2 - 2)%nat with (length t + 0)%nat by lia.
    by rewrite take_app_add, take_0, app_nil_r.
  - assert (length t + 1 = (n + 1) * 4)%nat as Hl by lia.
    rewrite decide_True; [|rewrite Hl, Nat.Div0.mod_mul; lia].
    rewrite (znth_app_r t [61] (_ - 1)) by lia. replace (_ - 1 - _) with 0 by lia.
    destruct (Z.eqb_spec (znth 0 (t ++ [61]) (Z.of_nat (length t + 1) - 2)) code_pad) as [E|_].
    { exfalso. revert E. unfold znth. rewrite (proj2 (Z.ltb_ge _ _)) by lia.
      rewrite app_nth1 by lia. pose proof (znth_no_pad t (Z.of_nat (length t + 1) - 2) HN) as F.
      unfold znth in F. rewrite (proj2 (Z.ltb_ge _ _)) in F by lia. done. }
    cbn. replace (length t + 1 - 1)%nat with (length t + 0)%nat by lia.
    by rewrite take_app_add, take_0, app_nil_r.
Qed.

Lemma decode_invalid l c : c ∈ l → sextet c = None → decode l = None.
Proof.
  intros Hc Hs. assert (∀ n l, (length l <= n)%nat → c ∈ l → decode l = None) as Hn.
  { clear l Hc. induction n as [|n IH]; intros l Hl Hc.
    { destruct l; simpl in Hl; [by apply not_elem_of_nil in Hc|lia]. }
    destruct l as [|x [|y [|z [|w r]]]]; cbn [decode]; try done;
      rewrite ?elem_of_cons in Hc; try (by apply not_elem_of_nil in Hc).
    - destruct Hc as [<-|[<-|[]%not_elem_of_nil]]; rewrite Hs; by repeat destruct (sextet _).
    - destruct Hc as [<-|[<-|[<-|[]%not_elem_of_nil]]]; rewrite Hs; by repeat destruct (sextet _).
    - destruct Hc as [<-|[<-|[<-|[<-|Hr]]]].
      1-4: rewrite Hs; by repeat destruct (sextet _).
      rewrite (IH r) by (done || (simpl in Hl; lia)). by repeat destruct (sextet _). }
  by apply (Hn (length l)).
Qed.

Lemma decode_valid l :
  Z.of_nat (length l) mod 4 ≠ 1 → Forall (λ c, sextet c ≠ None) l → is_Some (decode l).
Proof.
  assert (∀ n l, (length l <= n)%nat → Z.of_nat (length l) mod 4 ≠ 1 →
    Forall (λ c, sextet c ≠ None) l → is_Some (decode l)) as Hn.
  { clear l. induction n as [|n IH]; intros l Hl Hm Hs.
    { destruct l; simpl in Hl; [by eexists|lia]. }
    destruct l as [|x [|y [|z [|w r]]]]; cbn [decode]; [by eexists|by cbn in Hm|..].
    all: repeat (apply List.Forall_cons_iff in Hs as [? Hs]).
    all: repeat match goal with |- context [sextet ?c ≫= _] => destruct (sextet c); [|done] end.
    1-2: by eexists.
    cbn [length] in *. destruct (IH r) as [t ->]; [lia| |done|by eexists].
    intros E. apply Hm. revert E. cint_lia. }
  by apply (Hn (length l)).
Qed.

Lemma dec_len_encode data : bytes data → dec_len (encode data) = Z.of_nat (length data).
Proof. intros Hb. symmetry. by apply length_decode, decode_encode. Qed.

Lemma encode_mod4 data : bytes data → Z.of_nat (length (encode data)) mod 4 ≠ 1.
Proof.
  intros Hb. destruct (blocks3 data Hb) as (n & l1 & l2 & -> & H1 & H2 & _).
  destruct (text_last n l1 l2 H1 H2) as [-> _].
  destruct l2 as [|? [|? [|]]]; simpl in *; cint_lia.
Qed.

(** What [b64_to_bin] does on every text of bytes. *)
Lemma b64_to_bin_ok txt irest o max_len :
  bytes txt → Z.of_nat (length txt) < 2 ^ 31 → max_len <= Z.of_nat (length o) →
  b64_to_bin (Some (txt ++ irest)) (Z.of_nat (length txt)) (Some o) max_len
  = let body := strip_pad txt in
    if Z.of_nat (length body) mod 4 =? 1 then Ret (-1, Some o)
    else if (negb (Z.of_nat (length body) =? 0) && (max_len <? dec_len body))%bool
    then Ret (-1, Some o)
    else (t ← exit_of (decode body);
          Ret (Z.of_nat (length t), Some (t ++ drop (length t) o))).
Proof.
  intros Hb Hsz Hmax. destruct (b64_to_bin_strip txt irest (Some o) max_len Hsz)
    as (irest' & _ & ->).
  pose proof (strip_pad_length txt). cbv zeta.
  apply b64_to_bin_nopad_ok; [by apply strip_pad_bytes|lia|done].
Qed.

(** ** Properties *)

(** C2. Encoding with [bin_to_b64] and decoding the produced buffer with
    [b64_to_bin] gives the data back, for every byte string, every stale
    content of the two output buffers and every capacity that suffices. The
    decoder writes the data and nothing behind it. *)
Theorem b64_roundtrip data irest o max_len o2 max2 :
  bytes data → Z.of_nat (length (text data)) + 1 < 2 ^ 31 →
  Z.of_nat (length (text data)) < max_len <= Z.of_nat (length o) →
  Z.of_nat (length data) <= max2 <= Z.of_nat (length o2) →
  ∃ enc,
    bin_to_b64 (Some (data ++ irest)) (Z.of_nat (length data)) (Some o) max_len
    = Ret (Z.of_nat (length (text data)), Some enc) ∧
    b64_to_bin (Some enc) (Z.of_nat (length (text data))) (Some o2) max2
    = Ret (Z.of_nat (length data), Some (data ++ drop (length data) o2)).
Proof.
  intros Hb Hsz Hm H2. eexists. split; [by apply bin_to_b64_ok|].
  rewrite b64_to_bin_ok.
  - cbv zeta. rewrite strip_pad_text, dec_len_encode, decode_encode by done.
    rewrite (proj2 (Z.eqb_neq _ _)) by (by apply encode_mod4).
    rewrite (proj2 (Z.ltb_ge _ _)), andb_false_r by lia. done.
  - unfold text. apply Forall_app. split; [apply encode_bytes|].
    unfold padding. destruct (length data mod 3)%nat as [|[|[|]]]; repeat constructor; lia.
  - lia.
  - lia.
Qed.

Lemma b64_roundtrip_witness :
  ∃ enc, bin_to_b64 (Some [1; 2; 3; 255]) 4 (Some (replicate 12 7)) 12
         = Ret (8, Some enc) ∧
    b64_to_bin (Some enc) 8 (Some [9; 9; 9; 9; 9]) 5 = Ret (4, Some [1; 2; 3; 255; 9]).
Proof.
  apply (b64_roundtrip [1; 2; 3; 255] [] (replicate 12 7) 12 [9; 9; 9; 9; 9] 5).
  - repeat constructor; lia.
  - reflexivity.
  - split; [reflexivity|discriminate].
  - split; discriminate.
Defined.

(** [bin_to_b64] on every input whose text length is representable: with
    room for the text and its terminator it returns the length and leaves the
    RFC 4648 text, a NUL and the untouched rest of the buffer; without, it
    returns -1. It never writes outside the buffer. *)
Theorem bin_to_b64_spec data irest o max_len :
  bytes data → Z.of_nat (length (text data)) + 1 < 2 ^ 31 →
  0 < max_len <= Z.of_nat (length o) →
  (Z.of_nat (length (text data)) < max_len ∧
   bin_to_b64 (Some (data ++ irest)) (Z.of_nat (length data)) (Some o) max_len
   = Ret (Z.of_nat (length (text data)),
          Some (text data ++ 0 :: drop (S (length (text data))) o))) ∨
  (max_len <= Z.of_nat (length (text data)) ∧
   ∃ o', length o' = length o ∧
   bin_to_b64 (Some (data ++ irest)) (Z.of_nat (length data)) (Some o) max_len
   = Ret (-1, Some o')).
Proof.
  intros Hb Hsz Hm. destruct (Z.lt_ge_cases (Z.of_nat (length (text data))) max_len) as [L|L].
  { left. split; [done|]. apply bin_to_b64_ok; [done|done|lia]. }
  right. split; [done|]. unfold bin_to_b64, text in *. rewrite length_app in *.
  rewrite bin_to_b64_nopad_ok by (done || lia). cbv zeta.
  destruct (decide _) as [D|D]; cstep; [by exists o|].
  destruct (blocks3 data Hb) as (n & l1 & l2 & -> & H1 & H2 & _).
  destruct (text_last n l1 l2 H1 H2) as [HL HP]. rewrite HP in *.
  set (t := encode (l1 ++ l2)) in *.
  assert (Hlt : l1 ++ l2 ≠ [] → Z.of_nat (length t) < max_len).
  { intros E. apply Z.nle_gt. intros F. apply D. by split. }
  assert (Hm4 : Z.rem (Z.of_nat (length t)) 4 = last_chars_of l2).
  { rewrite HL. destruct l2 as [|? [|? [|]]]; simpl in *; try lia;
      Z.to_euclidean_division_equations; lia. }
  rewrite (proj2 (Z.eqb_neq _ _)), Hm4 by lia.
  eexists. split; [|destruct l2 as [|? [|? [|]]]; cbn [length last_chars_of] in *; try lia;
    cbn [Z.eqb Pos.eqb]].
  2:{ destruct l1; simpl in *; [subst t; simpl in *; lia|]. specialize (Hlt ltac:(done)). lia. }
  2-3: rewrite int_ok_ret by lia; cstep; rewrite (proj2 (Z.leb_gt _ _)) by lia; reflexivity.
  rewrite length_app. cbn [length]. rewrite length_drop.
  destruct (l1 ++ l2) eqn:E; [subst t; simpl in *; lia|]. specialize (Hlt ltac:(done)). lia.
Qed.

Lemma bin_to_b64_spec_witness :
  (Z.of_nat (length (text [1])) < 4 ∧
   bin_to_b64 (Some [1]) 1 (Some [7; 7; 7; 7]) 4
   = Ret (Z.of_nat (length (text [1])),
          Some (text [1] ++ 0 :: drop (S (length (text [1]))) [7; 7; 7; 7]))) ∨
  (4 <= Z.of_nat (length (text [1])) ∧
   ∃ o', length o' = length [7; 7; 7; 7] ∧
   bin_to_b64 (Some [1]) 1 (Some [7; 7; 7; 7]) 4 = Ret (-1, Some o')).
Proof.
  apply (bin_to_b64_spec [1] [] [7; 7; 7; 7] 4).
  - repeat constructor; lia.
  - reflexivity.
  - split; [reflexivity|discriminate].
Defined.

(** [b64_to_bin] of a text of an acceptable length with room for its
    bytes: it returns the decoded bytes at the start of the output buffer and
    changes nothing behind them, or, when a character left after the padding is
    removed is not of the alphabet, it ends the whole process with
    [exit(EXIT_FAILURE)]. It has no other outcome, and in particular never
    writes outside the buffer. *)
Theorem b64_to_bin_total txt irest o max_len :
  bytes txt → Z.of_nat (length txt) < 2 ^ 31 →
  Z.of_nat (length (strip_pad txt)) mod 4 ≠ 1 →
  dec_len (strip_pad txt) <= max_len <= Z.of_nat (length o) →
  b64_to_bin (Some (txt ++ irest)) (Z.of_nat (length txt)) (Some o) max_len
  = if decide (Exists (λ c, sextet c = None) (strip_pad txt)) then Exit EXIT_FAILURE
    else match decode (strip_pad txt) with
         | Some t => Ret (Z.of_nat (length t), Some (t ++ drop (length t) o))
         | None => Undef
         end.
Proof.
  intros Hb Hsz Hm4 Hmax. rewrite b64_to_bin_ok by (done || lia). cbv zeta.
  rewrite (proj2 (Z.eqb_neq _ _)) by done. rewrite (proj2 (Z.ltb_ge _ _)), andb_false_r by lia.
  destruct (decide _) as [(c & Hc & Hs)%List.Exists_exists|D].
  - rewrite (decode_invalid _ c); [done| |done]. by apply list_elem_of_In.
  - destruct (decode_valid (strip_pad txt)) as [t ->]; [done| |done].
    apply List.Forall_forall. intros c Hc E. apply D, List.Exists_exists. eauto.
Qed.

(** One character outside of the alphabet in a 4-character text. *)
Lemma b64_to_bin_total_witness :
  b64_to_bin (Some [65; 66; 33; 67]) 4 (Some [0; 0; 0]) 3 = Exit EXIT_FAILURE ∧
  b64_to_bin (Some [65; 66; 67; 61]) 4 (Some [0; 0; 0]) 3 = Ret (2, Some [0; 16; 0]).
Proof.
  split.
  - refine (eq_trans (b64_to_bin_total [65; 66; 33; 67] [] [0; 0; 0] 3 _ _ _ _) _).
    + repeat constructor; lia.
    + reflexivity.
    + discriminate.
    + split; discriminate.
    + vm_compute. reflexivity.
  - refine (eq_trans (b64_to_bin_total [65; 66; 67; 61] [] [0; 0; 0] 3 _ _ _ _) _).
    + repeat constructor; lia.
    + reflexivity.
    + discriminate.
    + split; discriminate.
    + vm_compute. reflexivity.
Defined.
