(* ===== verification/Binary64.v ===== *)
(** * C [double] arithmetic

    A finite binary64 number is [m * 2^e]. Every operation computes the exact
    rational result and rounds it to 53 significant bits, to nearest with ties
    to even, as IEEE 754 prescribes. The exponent is unbounded: the code
    modelled here stays far from overflow and underflow. Division by zero, which would give
    an infinity, is left to the callers. *)
From stdpp Require Import base numbers.
From Stdlib Require Import ZArith Lia.
From S2P Require Import Prelude.

Open Scope Z_scope.

Record double := Dbl { mant : Z; expo : Z }.

(** A double is the fraction [num / den]. *)
Definition num (x : double) : Z := mant x * 2 ^ Z.max 0 (expo x).
Definition den (x : double) : Z := 2 ^ Z.max 0 (- expo x).

(** [n / d] rounded to an integer, to nearest, ties to even; [0 < d]. *)
Definition rne (n d : Z) : Z :=
  let q := n / d in
  let r := n mod d in
  if 2 * r <? d then q
  else if d <? 2 * r then q + 1
  else if Z.even q then q else q + 1.

(** The power of two by which the fraction is scaled to have [p + 1] bits. *)
Definition scale (p n d : Z) : Z :=
  let s := p - (Z.log2 (Z.abs n) - Z.log2 d) in
  if Z.abs n * 2 ^ Z.max 0 s <? d * 2 ^ Z.max 0 (- s) * 2 ^ p then s + 1 else s.

(** [n / d] rounded to [p + 1] bits; [0 < d]. *)
Definition round_to (p n d : Z) : double :=
  if n =? 0 then Dbl 0 0
  else
    let s := scale p n d in
    Dbl (rne (n * 2 ^ Z.max 0 s) (d * 2 ^ Z.max 0 (- s))) (- s).

(** [n / d] rounded to a [double], and to a [float], which is a double with 24
    significant bits. *)
Definition rnd : Z → Z → double := round_to 52.
Definition frnd : Z → Z → double := round_to 23.

Definition dbl_of_Z (z : Z) : double := rnd z 1.
Definition dadd (x y : double) : double :=
  rnd (num x * den y + num y * den x) (den x * den y).
Definition dsub (x y : double) : double :=
  rnd (num x * den y - num y * den x) (den x * den y).
Definition dmul (x y : double) : double := rnd (num x * num y) (den x * den y).
(** The divisor is not zero. *)
Definition ddiv (x y : double) : double :=
  rnd (Z.sgn (num y) * num x * den y) (den x * Z.abs (num y)).
Definition dltb (x y : double) : bool := num x * den y <? num y * den x.
Definition dleb (x y : double) : bool := num x * den y <=? num y * den x.
Definition dmax (x y : double) : double := if dltb y x then x else y.

(** Operations on [float]. *)
Definition float_of_Z (z : Z) : double := frnd z 1.
Definition float_of_double (x : double) : double := frnd (num x) (den x).
Definition fadd (x y : double) : double := frnd (num x * den y + num y * den x) (den x * den y).
Definition fmul (x y : double) : double := frnd (num x * num y) (den x * den y).
(** The divisor is not zero. *)
Definition fdiv (x y : double) : double :=
  frnd (Z.sgn (num y) * num x * den y) (den x * Z.abs (num y)).

(** [pow(x, n)], rounded to nearest. *)
Definition dpow (x : double) (n : Z) : double := rnd (num x ^ n) (den x ^ n).

(** Conversion to an integer (towards zero), and [ceil]. *)
Definition dtrunc (x : double) : Z := Z.quot (num x) (den x).
Definition dceil (x : double) : Z := - ((- num x) / den x).

(** [(uint32_t) x]: undefined when the truncated value is not representable. *)
Definition u32_of_double (x : double) : outcome Z :=
  let z := dtrunc x in
  if (0 <=? z) && (z <? 2 ^ 32) then Ret z else Undef.

(** ** Rounding error and exactness *)

Lemma den_pos x : 0 < den x.
Proof. unfold den. lia. Qed.

Lemma rne_err n d : 0 < d → 2 * Z.abs (rne n d * d - n) <= d.
Proof.
  intros Hd. unfold rne. pose proof (Z.div_mod n d ltac:(lia)) as E.
  pose proof (Z.mod_pos_bound n d Hd). set (q := n / d) in *. set (r := n mod d) in *.
  destruct (Z.ltb_spec (2 * r) d); [nia|]. destruct (Z.ltb_spec d (2 * r)); [nia|].
  destruct (Z.even q); nia.
Qed.

Lemma rne_exact n d q : 0 < d → n = q * d → rne n d = q.
Proof.
  intros Hd ->. unfold rne. rewrite Z.div_mul, Z_mod_mult by lia.
  by rewrite (proj2 (Z.ltb_lt _ _)) by lia.
Qed.

Lemma scale_bound p n d :
  0 <= p → n ≠ 0 → 0 < d →
  d * 2 ^ Z.max 0 (- scale p n d) * 2 ^ p <= Z.abs n * 2 ^ Z.max 0 (scale p n d).
Proof.
  intros Hp Hn Hd. unfold scale. set (s := p - _).
  destruct (Z.ltb_spec (Z.abs n * 2 ^ Z.max 0 s) (d * 2 ^ Z.max 0 (- s) * 2 ^ p)) as [_|H];
    [|done].
  pose proof (Z.log2_spec (Z.abs n)) as [Hl _]; [lia|].
  pose proof (Z.log2_spec d) as [_ Hu]; [lia|].
  pose proof (Z.log2_nonneg (Z.abs n)). pose proof (Z.log2_nonneg d).
  set (a := Z.max 0 (s + 1)). set (b := Z.max 0 (- (s + 1))).
  assert (Hab : Z.log2 (Z.abs n) + a = Z.succ (Z.log2 d) + b + p) by lia.
  transitivity (2 ^ Z.log2 (Z.abs n) * 2 ^ a); [|apply Z.mul_le_mono_nonneg_r; lia].
  rewrite <- Z.pow_add_r, Hab, !Z.pow_add_r by lia.
  apply Z.mul_le_mono_nonneg_r; [lia|]. apply Z.mul_le_mono_nonneg_r; lia.
Qed.

(** The relative error of a rounding to [p + 1] bits is at most [2^-(p+1)]. *)
Lemma round_rel_err p n d :
  0 <= p → 0 < d →
  Z.abs (num (round_to p n d) * d - n * den (round_to p n d)) * 2 ^ (p + 1)
    <= Z.abs n * den (round_to p n d).
Proof.
  intros Hp Hd. unfold round_to. destruct (Z.eqb_spec n 0) as [->|Hn]; [done|].
  pose proof (scale_bound p n d Hp Hn Hd) as Hs. cbv zeta. set (s := scale p n d) in *.
  unfold num, den. cbn [mant expo]. rewrite Z.opp_involutive.
  set (A := 2 ^ Z.max 0 s) in *. set (B := 2 ^ Z.max 0 (- s)) in *.
  assert (HA : 0 < A) by (subst A; lia). assert (HB : 0 < B) by (subst B; lia).
  pose proof (rne_err (n * A) (d * B) ltac:(nia)) as E.
  replace (rne (n * A) (d * B) * B * d - n * A)
    with (rne (n * A) (d * B) * (d * B) - n * A) by ring.
  rewrite Z.pow_add_r by lia. change (2 ^ 1) with 2. nia.
Qed.
Lemma rnd_rel_err n d :
  0 < d →
  Z.abs (num (rnd n d) * d - n * den (rnd n d)) * 2 ^ 53 <= Z.abs n * den (rnd n d).
Proof. by apply (round_rel_err 52). Qed.
Lemma frnd_rel_err n d :
  0 < d →
  Z.abs (num (frnd n d) * d - n * den (frnd n d)) * 2 ^ 24 <= Z.abs n * den (frnd n d).
Proof. by apply (round_rel_err 23). Qed.

(** [x] is the number [a / 2^j]. *)
Definition dval (x : double) (a j : Z) : Prop := num x * 2 ^ j = a * den x.

(** A number of at most [p + 1] significant bits is not changed by rounding. *)
Lemma round_exact p n d a j :
  0 <= p → 0 < d → 0 <= j → n * 2 ^ j = a * d → Z.abs a < 2 ^ (p + 1) → dval (round_to p n d) a j.
Proof.
  intros Hp Hd Hj E Ha. unfold round_to, dval. destruct (Z.eqb_spec n 0) as [->|Hn].
  { assert (a = 0) as -> by nia. done. }
  pose proof (scale_bound p n d Hp Hn Hd) as Hs. cbv zeta. set (s := scale p n d) in *.
  assert (H2 : 2 ^ (p + 1) = 2 * 2 ^ p) by (rewrite Z.pow_add_r by lia; change (2 ^ 1) with 2; lia).
  assert (Hjs : j <= s).
  { apply Z.nlt_ge. intros L. assert (2 ^ (p + 1) * d <= Z.abs a * d); [|nia].
    replace (Z.abs a * d) with (Z.abs n * 2 ^ j)
      by (rewrite <- (Z.abs_eq d), <- Z.abs_mul, <- E, Z.abs_mul, (Z.abs_eq (2 ^ j)); lia).
    apply Z.mul_le_mono_pos_r with (2 ^ Z.max 0 (- s)); [lia|].
    assert (Hm : j + Z.max 0 (- s) = Z.max 0 s + 1 + (j - s - 1)) by lia.
    replace (Z.abs n * 2 ^ j * 2 ^ Z.max 0 (- s))
      with (Z.abs n * 2 ^ Z.max 0 s * (2 * 2 ^ (j - s - 1))).
    2:{ rewrite <- !Z.mul_assoc. f_equal. rewrite <- (Z.pow_add_r 2 j), Hm by lia.
        rewrite !Z.pow_add_r by lia. ring. }
    assert (0 < 2 ^ (j - s - 1)) by lia. rewrite H2.
    transitivity (d * 2 ^ Z.max 0 (- s) * 2 ^ p * 2); [lia|].
    transitivity (Z.abs n * 2 ^ Z.max 0 s * 2); [lia|].
    apply Z.mul_le_mono_nonneg_l; nia. }
  unfold num, den. cbn [mant expo].
  rewrite Z.opp_involutive, !(Z.max_r 0 s), !(Z.max_l 0 (- s)) by lia.
  rewrite !Z.mul_1_r. rewrite (rne_exact _ d (a * 2 ^ (s - j))); [|done|].
  - rewrite <- Z.mul_assoc, <- Z.pow_add_r by lia. do 2 f_equal. lia.
  - replace s with (j + (s - j)) at 1 by lia. rewrite Z.pow_add_r by lia.
    rewrite Z.mul_assoc, E. ring.
Qed.
Lemma rnd_exact n d a j :
  0 < d → 0 <= j → n * 2 ^ j = a * d → Z.abs a < 2 ^ 53 → dval (rnd n d) a j.
Proof. by apply (round_exact 52). Qed.
Lemma frnd_exact n d a j :
  0 < d → 0 <= j → n * 2 ^ j = a * d → Z.abs a < 2 ^ 24 → dval (frnd n d) a j.
Proof. by apply (round_exact 23). Qed.

Lemma dval_of_Z z : Z.abs z < 2 ^ 53 → dval (dbl_of_Z z) z 0.
Proof. intros. apply rnd_exact; lia. Qed.
Lemma dval_add x y a b j :
  0 <= j → dval x a j → dval y b j → Z.abs (a + b) < 2 ^ 53 → dval (dadd x y) (a + b) j.
Proof.
  unfold dval. intros Hj Hx Hy Hab. pose proof (den_pos x). pose proof (den_pos y).
  apply rnd_exact; [nia|done| |done].
  transitivity (num x * 2 ^ j * den y + num y * 2 ^ j * den x); [ring|].
  rewrite Hx, Hy. ring.
Qed.
Lemma dval_mul x y a b i j :
  0 <= i → 0 <= j → dval x a i → dval y b j → Z.abs (a * b) < 2 ^ 53 →
  dval (dmul x y) (a * b) (i + j).
Proof.
  unfold dval. intros Hi Hj Hx Hy Hab. pose proof (den_pos x). pose proof (den_pos y).
  apply rnd_exact; [nia|lia| |done]. rewrite Z.pow_add_r by lia.
  transitivity (num x * 2 ^ i * (num y * 2 ^ j)); [ring|]. rewrite Hx, Hy. ring.
Qed.
Lemma dval_scale x a j k : 0 <= j → 0 <= k → dval x a j → dval x (a * 2 ^ k) (j + k).
Proof. unfold dval. intros Hj Hk Hx. rewrite Z.pow_add_r by lia. rewrite Z.mul_assoc, Hx. ring. Qed.
Lemma dtrunc_val x a j : 0 <= j → 0 <= a → dval x a j → dtrunc x = a / 2 ^ j.
Proof.
  unfold dval, dtrunc. intros Hj Ha Hx. pose proof (den_pos x).
  assert (0 <= num x) by nia. rewrite Z.quot_div_nonneg by lia.
  rewrite <- (Z.div_mul_cancel_r (num x) (den x) (2 ^ j)) by lia.
  rewrite Hx, (Z.mul_comm (den x)), Z.div_mul_cancel_r by lia. done.
Qed.
