(* ===== verification/HalTypes.v ===== *)
(** * Constants and structures of the hardware abstraction layer
    ([libloragw/inc/loragw_hal.h])

    Each C structure is a record of the same field names, in a module named
    after it so that the field names do not clash. *)
From stdpp Require Import base list numbers.
From Stdlib Require Import ZArith.
From S2P Require Import Prelude.

Open Scope Z_scope.

Definition LGW_HAL_SUCCESS : Z := 0.
Definition LGW_HAL_ERROR : Z := -1.
Definition LGW_LBT_NOT_ALLOWED : Z := 1.

Definition LGW_XTAL_FREQU : Z := 32000000.
Definition LGW_RF_CHAIN_NB : Z := 2.
Definition LGW_RF_RX_BANDWIDTH : list Z := [1000000; 1000000].
Definition LGW_IF_CHAIN_NB : Z := 10.
Definition LGW_REF_BW : Z := 125000.
Definition LGW_MULTI_NB : Z := 8.

Definition MOD_UNDEFINED : Z := 0.
Definition MOD_CW : Z := 0x08.
Definition MOD_LORA : Z := 0x10.
Definition MOD_FSK : Z := 0x20.

Definition BW_UNDEFINED : Z := 0.
Definition BW_500KHZ : Z := 0x06.
Definition BW_250KHZ : Z := 0x05.
Definition BW_125KHZ : Z := 0x04.

Definition DR_UNDEFINED : Z := 0.
Definition DR_LORA_SF5 : Z := 5.
Definition DR_LORA_SF6 : Z := 6.
Definition DR_LORA_SF7 : Z := 7.
Definition DR_LORA_SF8 : Z := 8.
Definition DR_LORA_SF9 : Z := 9.
Definition DR_LORA_SF10 : Z := 10.
Definition DR_LORA_SF11 : Z := 11.
Definition DR_LORA_SF12 : Z := 12.
Definition DR_FSK_MIN : Z := 500.
Definition DR_FSK_MAX : Z := 250000.

Definition CR_UNDEFINED : Z := 0.
Definition CR_LORA_4_5 : Z := 0x01.
Definition CR_LORA_4_6 : Z := 0x02.
Definition CR_LORA_4_7 : Z := 0x03.
Definition CR_LORA_4_8 : Z := 0x04.

Definition STAT_UNDEFINED : Z := 0x00.
Definition STAT_NO_CRC : Z := 0x01.
Definition STAT_CRC_BAD : Z := 0x11.
Definition STAT_CRC_OK : Z := 0x10.

Definition IMMEDIATE : Z := 0.
Definition TIMESTAMPED : Z := 1.
Definition ON_GPS : Z := 2.

Definition TX_STATUS : Z := 1.
Definition RX_STATUS : Z := 2.
Definition TX_STATUS_UNKNOWN : Z := 0.
Definition TX_OFF : Z := 1.
Definition TX_FREE : Z := 2.
Definition TX_SCHEDULED : Z := 3.
Definition TX_EMITTING : Z := 4.
Definition RX_STATUS_UNKNOWN : Z := 0.
Definition RX_OFF : Z := 1.
Definition RX_ON : Z := 2.
Definition RX_SUSPENDED : Z := 3.

Definition TX_GAIN_LUT_SIZE_MAX : Z := 16.
Definition LGW_LBT_CHANNEL_NB_MAX : Z := 16.

Definition IS_LORA_BW (bw : Z) : bool :=
  (bw =? BW_125KHZ) || (bw =? BW_250KHZ) || (bw =? BW_500KHZ).
Definition IS_LORA_DR (dr : Z) : bool :=
  (dr =? DR_LORA_SF5) || (dr =? DR_LORA_SF6) || (dr =? DR_LORA_SF7) ||
  (dr =? DR_LORA_SF8) || (dr =? DR_LORA_SF9) || (dr =? DR_LORA_SF10) ||
  (dr =? DR_LORA_SF11) || (dr =? DR_LORA_SF12).
Definition IS_LORA_CR (cr : Z) : bool :=
  (cr =? CR_LORA_4_5) || (cr =? CR_LORA_4_6) || (cr =? CR_LORA_4_7) ||
  (cr =? CR_LORA_4_8).
Definition IS_FSK_BW (bw : Z) : bool := (1 <=? bw) && (bw <=? 7).
Definition IS_FSK_DR (dr : Z) : bool := (DR_FSK_MIN <=? dr) && (dr <=? DR_FSK_MAX).
Definition IS_TX_MODE (mode : Z) : bool :=
  (mode =? IMMEDIATE) || (mode =? TIMESTAMPED) || (mode =? ON_GPS).

(** [loragw_sx1302.h] *)
Definition SET_PPM_ON (bw dr : Z) : bool :=
  ((bw =? BW_125KHZ) && ((dr =? DR_LORA_SF11) || (dr =? DR_LORA_SF12))) ||
  ((bw =? BW_250KHZ) && (dr =? DR_LORA_SF12)).

Inductive lgw_radio_type_t :=
  | LGW_RADIO_TYPE_NONE
  | LGW_RADIO_TYPE_SX1255
  | LGW_RADIO_TYPE_SX1257
  | LGW_RADIO_TYPE_SX1272
  | LGW_RADIO_TYPE_SX1276
  | LGW_RADIO_TYPE_SX1250.
#[export] Instance lgw_radio_type_t_eq_dec : EqDecision lgw_radio_type_t.
Proof. solve_decision. Defined.

Module Tx.
Record lgw_pkt_tx_s := {
  freq_hz : Z; tx_mode : Z; count_us : Z; rf_chain : Z; rf_power : Z;
  modulation : Z; freq_offset : Z; bandwidth : Z; datarate : Z; coderate : Z;
  invert_pol : bool; f_dev : Z; preamble : Z; no_crc : bool; no_header : bool;
  size : Z; payload : list Z }.

#[export] Instance lgw_pkt_tx_s_eq_dec : EqDecision lgw_pkt_tx_s.
Proof. solve_decision. Defined.

Definition zero : lgw_pkt_tx_s :=
  {| freq_hz := 0; tx_mode := 0; count_us := 0; rf_chain := 0; rf_power := 0;
     modulation := 0; freq_offset := 0; bandwidth := 0; datarate := 0;
     coderate := 0; invert_pol := false; f_dev := 0; preamble := 0;
     no_crc := false; no_header := false; size := 0; payload := replicate 256 0 |}.

Definition set_mode_count (m c : Z) (p : lgw_pkt_tx_s) : lgw_pkt_tx_s :=
  {| freq_hz := freq_hz p; tx_mode := m; count_us := c; rf_chain := rf_chain p;
     rf_power := rf_power p; modulation := modulation p;
     freq_offset := freq_offset p; bandwidth := bandwidth p;
     datarate := datarate p; coderate := coderate p; invert_pol := invert_pol p;
     f_dev := f_dev p; preamble := preamble p; no_crc := no_crc p;
     no_header := no_header p; size := size p; payload := payload p |}.

(** The fields are in the ranges of their C types. *)
Definition ok (p : lgw_pkt_tx_s) : Prop :=
  is_u32 (freq_hz p) ∧ is_u8 (tx_mode p) ∧ is_u32 (count_us p) ∧
  is_u8 (rf_chain p) ∧ is_u8 (modulation p) ∧ is_u8 (bandwidth p) ∧
  is_u32 (datarate p) ∧ is_u8 (coderate p) ∧ is_u16 (preamble p) ∧
  is_u16 (size p) ∧ length (payload p) = 256%nat.
End Tx.
Export (hints) Tx.
Abbreviation lgw_pkt_tx_s := Tx.lgw_pkt_tx_s (only parsing).
