(* ===== verification/TimeOnAir.v ===== *)
(** * Time on air ([libloragw/src/loragw_aux.c], [libloragw/src/loragw_hal.c])

    The forwarder reserves the air for a downlink for as long as
    [lgw_time_on_air] says. The code computes it in [double]; the model uses
    the rounded arithmetic of [Binary64], and the theorems compare it with the
    exact symbol and bit counts. *)
From stdpp Require Import base list numbers.
From Stdlib Require Import ZArith Lia.
From S2P Require Import Prelude Binary64 HalTypes.

Open Scope Z_scope.

(** ** The code *)

(** The details stored through the optional output pointers. *)
Record toa_details := {
  out_nb_symbols : double; out_nb_symbols_payload : Z; out_t_symbol_us : Z }.

(** The divider of the 125 kHz symbol time; [None] is the error return. *)
Definition bw_pow (bw : Z) : option Z :=
  if bw =? BW_125KHZ then Some 1
  else if bw =? BW_250KHZ then Some 2
  else if bw =? BW_500KHZ then Some 4
  else None.

Definition lora_packet_time_on_air (bw sf cr n_symbol_preamble : Z)
    (no_header no_crc : bool) (size : Z) : outcome (Z * option toa_details) :=
  if negb (IS_LORA_DR sf) then Ret (0, None)
  else if negb (IS_LORA_BW bw) then Ret (0, None)
  else if negb (IS_LORA_CR cr) then Ret (0, None)
  else match bw_pow bw with
  | None => Ret (0, None)
  | Some bw_pow =>
    let t_symbol_us := u16 (Z.quot (Z.shiftl 1 sf * 8) bw_pow) in
    let H := if negb no_header then 1 else 0 in
    let DE := if 11 <=? sf then 1 else 0 in
    let n_bit_crc := if negb no_crc then 16 else 0 in
    let bits := 8 * size + n_bit_crc - 4 * sf + (if 7 <=? sf then 8 else 0) + 20 * H in
    n_symbol_payload ←
      u32_of_double
        (dmul (dbl_of_Z (dceil (ddiv (dmax (dbl_of_Z bits) (dbl_of_Z 0))
                                     (dbl_of_Z (4 * (sf - 2 * DE))))))
              (dbl_of_Z (cr + 4)));
    let n_symbol :=
      dadd (dadd (dadd (dbl_of_Z n_symbol_preamble)
                       (if 7 <=? sf then Dbl 17 (-2) else Dbl 25 (-2)))
                 (dbl_of_Z 8))
           (dbl_of_Z n_symbol_payload) in
    toa_us ← u32_of_double (dmul n_symbol (dbl_of_Z t_symbol_us));
    Ret (toa_us, Some {| out_nb_symbols := n_symbol;
                         out_nb_symbols_payload := n_symbol_payload;
                         out_t_symbol_us := t_symbol_us |})
  end.

(** [sync_word_size] is the field of that name of the FSK configuration of the
    global context; the conversions of the arguments to [uint8_t] are those of
    the call. *)
Definition lgw_time_on_air (sync_word_size : Z) (packet : option lgw_pkt_tx_s)
  : outcome Z :=
  match packet with
  | None => Ret 0
  | Some p =>
    if Tx.modulation p =? MOD_LORA then
      '(toa_us, _) ← lora_packet_time_on_air (Tx.bandwidth p) (u8 (Tx.datarate p))
        (Tx.coderate p) (Tx.preamble p) (Tx.no_header p) (Tx.no_crc p) (u8 (Tx.size p));
      u32_of_double (dadd (ddiv (dbl_of_Z toa_us) (dbl_of_Z 1000)) (Dbl 1 (-1)))
    else if Tx.modulation p =? MOD_FSK then
      let n := Tx.preamble p + sync_word_size + 1 + Tx.size p +
               (if Tx.no_crc p then 0 else 2) in
      if Tx.datarate p =? 0 then Undef  (* an infinity, converted to uint32_t *)
      else
        let t_fsk := dmul (ddiv (dmul (dbl_of_Z 8) (dbl_of_Z n))
                                (dbl_of_Z (Tx.datarate p))) (dbl_of_Z 1000) in
        t ← u32_of_double t_fsk;
        Ret (u32 (t + 1))
    else Ret 0
  end.

(** ** Reference: exact symbol counts *)

(** The payload symbols, the symbol time and the duration of a LoRa packet, as
    integers; the quarter symbols of the sync word are kept exact. *)
Definition ref_payload_symbols (sf cr : Z) (no_header no_crc : bool) (size : Z) : Z :=
  let de := if 11 <=? sf then 1 else 0 in
  let bits := 8 * size + (if no_crc then 0 else 16) - 4 * sf +
              (if 7 <=? sf then 8 else 0) + (if no_header then 0 else 20) in
  let per := 4 * (sf - 2 * de) in
  (Z.max bits 0 + per - 1) / per * (cr + 4).

Definition ref_symbol_us (bw sf : Z) : Z :=
  2 ^ sf * 8 / 2 ^ (bw - BW_125KHZ).

Definition ref_time_on_air_us (bw sf cr preamble : Z) (no_header no_crc : bool)
    (size : Z) : Z :=
  let quarters := 4 * preamble + (if 7 <=? sf then 17 else 25) + 32 +
                  4 * ref_payload_symbols sf cr no_header no_crc size in
  quarters * ref_symbol_us bw sf / 4.

(** ** Rounded quotients *)

Lemma ddiv_ratio x y a b :
  dval x a 0 → dval y b 0 → 0 < b → 0 <= a →
  ∃ n d, ddiv x y = rnd n d ∧ 0 < d ∧ 0 <= n ∧ n * b = a * d.
Proof.
  unfold dval, ddiv. rewrite !Z.mul_1_r. intros -> -> Hb Ha.
  pose proof (den_pos x). pose proof (den_pos y).
  rewrite Z.sgn_pos, Z.abs_eq by nia. eexists _, _. split_and_all; [done|nia|nia|ring].
Qed.

(** The error of a rounded quotient of [a] by [b]. *)
Lemma rnd_quot_err n d a b :
  0 < d → 0 < b → 0 <= n → n * b = a * d →
  Z.abs (num (rnd n d) * b - a * den (rnd n d)) * 2 ^ 53 <= a * den (rnd n d).
Proof.
  intros Hd Hb Hn E. pose proof (rnd_rel_err n d Hd) as R.
  set (X := num (rnd n d)) in *. set (D := den (rnd n d)) in *.
  apply (Z.mul_le_mono_pos_r _ _ d Hd).
  replace (a * D * d) with (n * D * b)
    by (transitivity (n * b * D); [ring|]; rewrite E; ring).
  replace (Z.abs (X * b - a * D) * 2 ^ 53 * d)
    with (Z.abs ((X * d - n * D) * b) * 2 ^ 53).
  - rewrite Z.abs_mul, (Z.abs_eq b), (Z.abs_eq n) in * by lia.
    transitivity (Z.abs (X * d - n * D) * 2 ^ 53 * b); [lia|].
    apply Z.mul_le_mono_nonneg_r; lia.
  - replace ((X * d - n * D) * b) with ((X * b - a * D) * d)
      by (transitivity (X * b * d - a * d * D); [ring|]; rewrite <- E; ring).
    rewrite Z.abs_mul, (Z.abs_eq d) by lia. ring.
Qed.

Lemma dceil_quot n d a b :
  0 < d → 0 < b → 0 <= n → 0 <= a < 2 ^ 53 → n * b = a * d →
  dceil (rnd n d) = (a + b - 1) / b.
Proof.
  intros Hd Hb Hn Ha E. pose proof (rnd_quot_err n d a b Hd Hb Hn E) as R.
  pose proof (den_pos (rnd n d)) as HD.
  pose proof (Z.div_mod (a + b - 1) b ltac:(lia)) as Hc.
  pose proof (Z.mod_pos_bound (a + b - 1) b Hb) as Hr.
  set (c := (a + b - 1) / b) in *. set (r := (a + b - 1) mod b) in *.
  clearbody c r.
  set (X := num (rnd n d)) in *. set (D := den (rnd n d)) in *.
  assert (Hle : X <= c * D ∧ (c - 1) * D < X).
  { destruct (Z.eq_dec r (b - 1)) as [->|Hne].
    - assert (a = c * b) as Ea by lia.
      assert (V : dval (rnd n d) c 0) by (apply rnd_exact; nia).
      unfold dval in V. fold X D in V. lia.
    - assert (L1 : (c - 1) * b + 1 <= a) by lia. assert (L2 : a + 1 <= c * b) by lia.
      split; apply Z.nlt_ge || apply Z.nle_gt; intros F.
      + assert (c * D * b + b <= X * b) by nia.
        assert ((a + 1) * D <= c * b * D) by nia. nia.
      + assert (X * b <= (c - 1) * D * b) by nia.
        assert (((c - 1) * b + 1) * D <= a * D) by nia. nia. }
  unfold dceil. fold X D. symmetry. 
  enough (- X / D = - c) by lia. symmetry.
  apply (Z.div_unique_pos (- X) D (- c) (- X + c * D)); nia.
Qed.

Lemma u32_of_double_val x a j :
  0 <= j → 0 <= a → a / 2 ^ j < 2 ^ 32 → dval x a j → u32_of_double x = Ret (a / 2 ^ j).
Proof.
  intros Hj Ha Hlt Hx. unfold u32_of_double. rewrite (dtrunc_val x a j) by done.
  assert (0 <= a / 2 ^ j) by (apply Z.div_pos; lia).
  by rewrite (proj2 (Z.leb_le _ _)), (proj2 (Z.ltb_lt _ _)) by lia.
Qed.

Lemma u32_of_double_floor x k :
  k * den x <= num x ∧ num x < (k + 1) * den x → 0 <= k < 2 ^ 32 → u32_of_double x = Ret k.
Proof.
  intros [B1 B2] Hk. pose proof (den_pos x). unfold u32_of_double, dtrunc.
  assert (0 <= num x) by nia.
  rewrite Z.quot_div_nonneg, <- (Z.div_unique_pos (num x) (den x) k (num x - k * den x)) by nia.
  by rewrite (proj2 (Z.leb_le _ _)), (proj2 (Z.ltb_lt _ _)) by lia.
Qed.

Lemma dval_max0 b : Z.abs b < 2 ^ 53 → dval (dmax (dbl_of_Z b) (dbl_of_Z 0)) (Z.max b 0) 0.
Proof.
  intros Hb. pose proof (dval_of_Z b Hb) as V. pose proof (den_pos (dbl_of_Z b)).
  unfold dmax, dltb. change (num (dbl_of_Z 0)) with 0. change (den (dbl_of_Z 0)) with 1.
  unfold dval in V. rewrite Z.mul_1_r in *.
  destruct (Z.ltb_spec (0 * den (dbl_of_Z b)) (num (dbl_of_Z b))).
  - rewrite Z.max_l by nia. unfold dval. lia.
  - rewrite Z.max_r by nia. done.
Qed.

(** The payload symbols: the rounded quotient, rounded up, is the exact
    quotient rounded up. *)
Lemma payload_exact bits per cr :
  Z.abs bits < 2 ^ 20 → 0 < per < 2 ^ 10 → 0 <= cr < 2 ^ 8 →
  u32_of_double
    (dmul (dbl_of_Z (dceil (ddiv (dmax (dbl_of_Z bits) (dbl_of_Z 0)) (dbl_of_Z per))))
          (dbl_of_Z (cr + 4)))
  = Ret ((Z.max bits 0 + per - 1) / per * (cr + 4)).
Proof.
  intros Hb Hp Hc.
  destruct (ddiv_ratio _ _ _ per (dval_max0 bits ltac:(lia)) (dval_of_Z per ltac:(lia)))
    as (n & d & -> & Hd & Hn & E); [lia|lia|].
  rewrite (dceil_quot n d (Z.max bits 0) per) by (done || lia).
  set (k := (Z.max bits 0 + per - 1) / per).
  assert (Hk : 0 <= k < 2 ^ 21).
  { subst k. split; [apply Z.div_pos; lia|].
    apply Z.div_lt_upper_bound; nia. }
  assert (V : dval (dmul (dbl_of_Z k) (dbl_of_Z (cr + 4))) (k * (cr + 4)) (0 + 0)).
  { apply dval_mul; try lia; try (apply dval_of_Z; lia); nia. }
  change (0 + 0) with 0 in V. rewrite (u32_of_double_val _ (k * (cr + 4)) 0).
  all: change (2 ^ 0) with 1; rewrite ?Z.div_1_r; done || lia || nia.
Qed.

(** The duration: sums and products of quarter symbols are exact. *)
Lemma duration_exact pre q npay t :
  0 <= pre < 2 ^ 16 → (q = 17 ∨ q = 25) → 0 <= npay < 2 ^ 15 → 0 <= t <= 2 ^ 15 →
  let n_symbol := dadd (dadd (dadd (dbl_of_Z pre) (Dbl q (-2))) (dbl_of_Z 8)) (dbl_of_Z npay) in
  dval n_symbol (4 * pre + q + 32 + 4 * npay) 2 ∧
  u32_of_double (dmul n_symbol (dbl_of_Z t))
  = Ret ((4 * pre + q + 32 + 4 * npay) * t / 4).
Proof.
  intros Hp Hq Hn Ht n_symbol.
  assert (Q : ∀ z, Z.abs z < 2 ^ 50 → dval (dbl_of_Z z) (4 * z) 2).
  { intros z Hz. rewrite (Z.mul_comm 4). apply (dval_scale _ _ 0 2); [lia..|].
    apply dval_of_Z. lia. }
  assert (Vq : dval (Dbl q (-2)) q 2) by (destruct Hq as [-> | ->]; reflexivity).
  assert (V : dval n_symbol (4 * pre + q + 4 * 8 + 4 * npay) 2).
  { repeat apply dval_add; try done; try (apply Q); lia. }
  split; [done|].
  assert (Vt : dval (dmul n_symbol (dbl_of_Z t)) ((4 * pre + q + 32 + 4 * npay) * t) (2 + 0)).
  { apply dval_mul; try lia; [done|apply dval_of_Z; lia|nia]. }
  change (2 + 0) with 2 in Vt.
  rewrite (u32_of_double_val _ ((4 * pre + q + 32 + 4 * npay) * t) 2); [done|lia|nia| |done].
  apply Z.div_lt_upper_bound; [lia|]. nia.
Qed.

Lemma IS_LORA_DR_range sf : IS_LORA_DR sf = true → 5 <= sf <= 12.
Proof. unfold IS_LORA_DR, DR_LORA_SF5, DR_LORA_SF6, DR_LORA_SF7, DR_LORA_SF8, DR_LORA_SF9,
  DR_LORA_SF10, DR_LORA_SF11, DR_LORA_SF12. lia. Qed.
Lemma IS_LORA_BW_range bw : IS_LORA_BW bw = true → 4 <= bw <= 6.
Proof. unfold IS_LORA_BW, BW_125KHZ, BW_250KHZ, BW_500KHZ. lia. Qed.
Lemma IS_LORA_CR_range cr : IS_LORA_CR cr = true → 1 <= cr <= 4.
Proof. unfold IS_LORA_CR, CR_LORA_4_5, CR_LORA_4_6, CR_LORA_4_7, CR_LORA_4_8. lia. Qed.

Lemma symbol_us_exact bw sf :
  5 <= sf <= 12 → 4 <= bw <= 6 →
  ∃ p, bw_pow bw = Some p ∧ u16 (Z.quot (Z.shiftl 1 sf * 8) p) = ref_symbol_us bw sf ∧
       64 <= ref_symbol_us bw sf <= 2 ^ 15.
Proof.
  intros Hs Hb.
  assert (bw = 4 ∨ bw = 5 ∨ bw = 6) as [-> | [-> | ->]] by lia;
  assert (sf = 5 ∨ sf = 6 ∨ sf = 7 ∨ sf = 8 ∨ sf = 9 ∨ sf = 10 ∨ sf = 11 ∨ sf = 12)
    as [-> | [-> | [-> | [-> | [-> | [-> | [-> | ->]]]]]]] by lia;
  eexists; split_and_all; reflexivity || discriminate.
Qed.

Lemma ref_payload_symbols_bound sf cr nh nc size :
  5 <= sf <= 12 → 1 <= cr <= 4 → 0 <= size < 256 →
  0 <= ref_payload_symbols sf cr nh nc size < 2 ^ 15.
Proof.
  intros Hs Hc Hz. unfold ref_payload_symbols. set (de := if 11 <=? sf then 1 else 0).
  assert (0 <= de <= 1) by (subst de; destruct (11 <=? sf); lia).
  cbv zeta. set (bits := 8 * size + _ - _ + _ + _).
  assert (Hbits : bits < 2200) by (subst bits; bool_cases; lia).
  set (per := 4 * (sf - 2 * de)). assert (Hper : 12 <= per <= 48) by (subst per; lia).
  set (k := (Z.max bits 0 + per - 1) / per).
  assert (0 <= k < 200).
  { subst k. split; [apply Z.div_pos; lia|]. apply Z.div_lt_upper_bound; nia. }
  nia.
Qed.

Lemma lora_packet_time_on_air_ref bw sf cr pre nh nc size :
  IS_LORA_DR sf = true → IS_LORA_BW bw = true → IS_LORA_CR cr = true →
  is_u16 pre → is_u8 size →
  ∃ n_symbol,
    dval n_symbol (4 * pre + (if 7 <=? sf then 17 else 25) + 32 +
                   4 * ref_payload_symbols sf cr nh nc size) 2 ∧
    lora_packet_time_on_air bw sf cr pre nh nc size
    = Ret (ref_time_on_air_us bw sf cr pre nh nc size,
           Some {| out_nb_symbols := n_symbol;
                   out_nb_symbols_payload := ref_payload_symbols sf cr nh nc size;
                   out_t_symbol_us := ref_symbol_us bw sf |}).
Proof.
  intros Hs Hb Hc Hp Hz. unfold lora_packet_time_on_air. rewrite Hs, Hb, Hc. cbn [negb].
  apply IS_LORA_DR_range in Hs. apply IS_LORA_BW_range in Hb. apply IS_LORA_CR_range in Hc.
  destruct (symbol_us_exact bw sf Hs Hb) as (p & -> & -> & Ht). cbv zeta.
  assert (Hpay := ref_payload_symbols_bound sf cr nh nc size Hs Hc Hz).
  rewrite payload_exact; [|destruct nh, nc; bool_cases; lia|destruct (11 <=? sf); lia|lia].
  cstep. assert (Er : ref_payload_symbols sf cr nh nc size =
    (Z.max (8 * size + (if negb nc then 16 else 0) - 4 * sf + (if 7 <=? sf then 8 else 0) +
            20 * (if negb nh then 1 else 0)) 0 + 4 * (sf - 2 * (if 11 <=? sf then 1 else 0)) - 1) /
    (4 * (sf - 2 * (if 11 <=? sf then 1 else 0))) * (cr + 4)) by (by destruct nh, nc).
  rewrite <- Er. unfold ref_time_on_air_us.
  destruct (7 <=? sf).
  - destruct (duration_exact pre 17 (ref_payload_symbols sf cr nh nc size) (ref_symbol_us bw sf))
      as [V ->]; [done|by left|done|lia|]. cstep. eexists. split; [exact V|]. reflexivity.
  - destruct (duration_exact pre 25 (ref_payload_symbols sf cr nh nc size) (ref_symbol_us bw sf))
      as [V ->]; [done|by right|done|lia|]. cstep. eexists. split; [exact V|]. reflexivity.
Qed.

Lemma ref_time_on_air_range bw sf cr pre nh nc size :
  IS_LORA_DR sf = true → IS_LORA_BW bw = true → IS_LORA_CR cr = true →
  is_u16 pre → is_u8 size → 0 <= ref_time_on_air_us bw sf cr pre nh nc size < 2 ^ 32.
Proof.
  intros Hs%IS_LORA_DR_range Hb%IS_LORA_BW_range Hc%IS_LORA_CR_range Hp Hz.
  destruct (symbol_us_exact bw sf Hs Hb) as (_ & _ & _ & Ht).
  pose proof (ref_payload_symbols_bound sf cr nh nc size Hs Hc Hz) as Hpay.
  unfold ref_time_on_air_us. set (q := if 7 <=? sf then 17 else 25).
  assert (17 <= q <= 25) by (subst q; destruct (7 <=? sf); lia).
  split; [apply Z.div_pos; nia|]. apply Z.div_lt_upper_bound; nia.
Qed.

(** Rounding a quotient by 1000 to nearest: the two rounding errors of the
    [double] computation never change the integer. *)
Lemma round_ms a :
  0 <= a < 2 ^ 32 →
  u32_of_double (dadd (ddiv (dbl_of_Z a) (dbl_of_Z 1000)) (Dbl 1 (-1))) = Ret ((a + 500) / 1000).
Proof.
  intros Ha.
  destruct (ddiv_ratio _ _ a 1000 (dval_of_Z a ltac:(lia)) (dval_of_Z 1000 ltac:(lia)))
    as (n & d & -> & Hd & Hn & E); [lia|lia|].
  pose proof (rnd_quot_err n d a 1000 Hd ltac:(lia) Hn E) as R1.
  pose proof (Z.div_mod (a + 500) 1000 ltac:(lia)) as Hk.
  pose proof (Z.mod_pos_bound (a + 500) 1000 ltac:(lia)) as Hr.
  set (k := (a + 500) / 1000) in *. set (r := (a + 500) mod 1000) in *. clearbody k r.
  set (x := rnd n d) in *. pose proof (den_pos x) as HD.
  unfold dadd. change (num (Dbl 1 (-1))) with 1. change (den (Dbl 1 (-1))) with 2.
  pose proof (rnd_rel_err (num x * 2 + 1 * den x) (den x * 2) ltac:(lia)) as R2.
  set (y := rnd (num x * 2 + 1 * den x) (den x * 2)) in *. pose proof (den_pos y) as HE.
  assert (B : k * den y <= num y ∧ num y < (k + 1) * den y).
  { destruct (Z.eq_dec r 0) as [->|Hne].
    - assert (Vx : dval x (2 * k - 1) 1) by (apply rnd_exact; lia).
      unfold dval in Vx. assert (Vy : dval y (2 * k) 1).
      { apply rnd_exact; try lia. }
      unfold dval in Vy. lia.
    - set (X := num x) in *. set (D := den x) in *. set (Y := num y) in *.
      set (F := den y) in *. clearbody X D Y F. clear y x E n d Hd Hn.
      assert (HX : 0 <= X) by nia.
      assert (R1' : Z.abs (1000 * (X * F) - a * (D * F)) * 2 ^ 53 <= a * (D * F)).
      { replace (1000 * (X * F) - a * (D * F)) with ((X * 1000 - a * D) * F) by ring.
        rewrite Z.abs_mul, (Z.abs_eq F) by lia.
        transitivity (Z.abs (X * 1000 - a * D) * 2 ^ 53 * F); [lia|].
        replace (a * (D * F)) with (a * D * F) by ring. apply Z.mul_le_mono_nonneg_r; lia. }
      rewrite (Z.abs_eq (X * 2 + 1 * D)) in R2 by lia.
      replace ((X * 2 + 1 * D) * F) with (2 * (X * F) + D * F) in R2 by ring.
      replace (Y * (D * 2)) with (2 * (Y * D)) in R2 by ring.
      replace (a * (D * F)) with (1000 * (k * (D * F)) + r * (D * F) - 500 * (D * F)) in R1'
        by (replace a with (1000 * k + r - 500) by lia; ring).
      assert (HP : 0 < D * F) by (apply Z.mul_pos_pos; lia).
      assert (HK : 0 <= k * (D * F) <= 2 ^ 32 * (D * F))
        by (split; [apply Z.mul_nonneg_nonneg | apply Z.mul_le_mono_nonneg_r]; lia).
      assert (HS : 1 * (D * F) <= r * (D * F) <= 999 * (D * F))
        by (split; apply Z.mul_le_mono_nonneg_r; lia).
      assert (HG : k * (D * F) <= Y * D ∧ Y * D < (k + 1) * (D * F)).
      { rewrite Z.mul_add_distr_r, Z.mul_1_l. set (P := D * F) in *. set (Q := X * F) in *.
        set (W := Y * D) in *. set (K := k * P) in *. set (S := r * P) in *.
        clearbody P Q W K S. clear R1 Ha Hk. lia. }
      split; [apply (Z.mul_le_mono_pos_r _ _ D HD) | apply (Z.mul_lt_mono_pos_r D _ _ HD)]; lia. }
  apply (u32_of_double_floor y k); [done|lia].
Qed.

(** The FSK duration: its integer part is the integer part of [1000 * a / dr]
    up to the rounding of a value next to an integer, which the added
    millisecond covers. *)
Lemma fsk_ms xa a dr :
  dval xa a 0 → 0 <= a < 2 ^ 21 → 0 < dr < 2 ^ 32 →
  ∃ k, u32_of_double (dmul (ddiv xa (dbl_of_Z dr)) (dbl_of_Z 1000)) = Ret k ∧
       0 <= k < 2 ^ 31 ∧ k * dr <= 1000 * a <= (k + 1) * dr.
Proof.
  intros Hxa Ha Hdr.
  destruct (ddiv_ratio _ _ a dr Hxa (dval_of_Z dr ltac:(lia)))
    as (n & d & -> & Hd & Hn & E); [lia|lia|].
  pose proof (rnd_quot_err n d a dr Hd ltac:(lia) Hn E) as R1.
  set (x := rnd n d) in *. pose proof (den_pos x) as HD.
  assert (HX : 0 <= num x) by nia.
  unfold dmul. pose proof (dval_of_Z 1000 ltac:(lia)) as V1000. unfold dval in V1000.
  pose proof (den_pos (dbl_of_Z 1000)) as Hc.
  pose proof (rnd_quot_err (num x * num (dbl_of_Z 1000)) (den x * den (dbl_of_Z 1000))
    (1000 * num x) (den x) ltac:(nia) HD ltac:(nia) ltac:(nia)) as R2.
  set (y := rnd (num x * num (dbl_of_Z 1000)) (den x * den (dbl_of_Z 1000))) in *.
  pose proof (den_pos y) as HE. set (X := num x) in *. set (D := den x) in *.
  set (Y := num y) in *. set (F := den y) in *.
  assert (HY : 0 <= Y) by nia. set (k := Y / F).
  assert (Hk : k * F <= Y < (k + 1) * F).
  { pose proof (Z.div_mod Y F ltac:(lia)). pose proof (Z.mod_pos_bound Y F HE). subst k. lia. }
  exists k. assert (HK0 : 0 <= k) by (subst k; apply Z.div_pos; lia).
  assert (HP : 0 < D * F) by (apply Z.mul_pos_pos; lia).
  assert (R1' : Z.abs (X * F * dr - a * (D * F)) * 2 ^ 53 <= a * (D * F)).
  { replace (X * F * dr - a * (D * F)) with ((X * dr - a * D) * F) by ring.
    rewrite Z.abs_mul, (Z.abs_eq F) by lia.
    transitivity (Z.abs (X * dr - a * D) * 2 ^ 53 * F); [lia|].
    replace (a * (D * F)) with (a * D * F) by ring. apply Z.mul_le_mono_nonneg_r; lia. }
  assert (R2' : Z.abs (Y * D * dr - 1000 * (X * F * dr)) * 2 ^ 53 <= 1000 * (X * F * dr)).
  { replace (Y * D * dr - 1000 * (X * F * dr)) with ((Y * D - 1000 * X * F) * dr) by ring.
    rewrite Z.abs_mul, (Z.abs_eq dr) by lia.
    transitivity (Z.abs (Y * D - 1000 * X * F) * 2 ^ 53 * dr); [lia|].
    replace (1000 * (X * F * dr)) with (1000 * X * F * dr) by ring.
    apply Z.mul_le_mono_nonneg_r; lia. }
  assert (HW : k * dr * (D * F) <= Y * D * dr ∧ Y * D * dr < (k + 1) * dr * (D * F)).
  { assert (0 < D * dr) by (apply Z.mul_pos_pos; lia).
    replace (Y * D * dr) with (Y * (D * dr)) by ring.
    replace (k * dr * (D * F)) with (k * F * (D * dr)) by ring.
    replace ((k + 1) * dr * (D * F)) with ((k + 1) * F * (D * dr)) by ring.
    split; [apply Z.mul_le_mono_nonneg_r | apply Z.mul_lt_mono_pos_r]; lia. }
  assert (HA : 0 <= a * (D * F) <= 2 ^ 21 * (D * F))
    by (split; [apply Z.mul_nonneg_nonneg | apply Z.mul_le_mono_nonneg_r]; lia).
  assert (B : k * dr <= 1000 * a <= (k + 1) * dr).
  { split; apply Z.nlt_ge; intros L.
    - assert ((1000 * a + 1) * (D * F) <= k * dr * (D * F))
        by (apply Z.mul_le_mono_nonneg_r; lia). lia.
    - assert (((k + 1) * dr + 1) * (D * F) <= 1000 * a * (D * F))
        by (apply Z.mul_le_mono_nonneg_r; lia). lia. }
  assert (k < 2 ^ 31) by nia.
  split_and_all; try lia. apply u32_of_double_floor; [exact Hk|lia].
Qed.


(** The bytes of an FSK frame: preamble, sync word, length, payload, CRC. *)
Definition fsk_bytes (sync_word_size : Z) (p : lgw_pkt_tx_s) : Z :=
  Tx.preamble p + sync_word_size + 1 + Tx.size p + (if Tx.no_crc p then 0 else 2).

Lemma lgw_time_on_air_fsk sw p :
  is_u8 sw → Tx.ok p → Tx.modulation p = MOD_FSK → 0 < Tx.datarate p →
  ∃ k, lgw_time_on_air sw (Some p) = Ret (k + 1) ∧ 0 <= k < 2 ^ 31 ∧
    k * Tx.datarate p <= 8000 * fsk_bytes sw p <= (k + 1) * Tx.datarate p.
Proof.
  intros Hsw Hp Hm Hd. unfold lgw_time_on_air. rewrite Hm. cbn [Z.eqb Pos.eqb MOD_FSK MOD_LORA].
  rewrite (proj2 (Z.eqb_neq _ _)) by lia. cbv zeta. fold (fsk_bytes sw p).
  assert (Hn : 0 <= fsk_bytes sw p < 2 ^ 18).
  { unfold fsk_bytes, Tx.ok in *. destruct (Tx.no_crc p); lia. }
  destruct (fsk_ms (dmul (dbl_of_Z 8) (dbl_of_Z (fsk_bytes sw p))) (8 * fsk_bytes sw p)
    (Tx.datarate p)) as (k & -> & Hk & B).
  - apply (dval_mul _ _ _ _ 0 0); try lia; apply dval_of_Z; lia.
  - lia.
  - unfold Tx.ok in Hp. lia.
  - cstep. exists k. rewrite u32_id by lia. split_and_all; lia || done.
Qed.

Lemma lgw_time_on_air_lora sw p :
  Tx.ok p → Tx.modulation p = MOD_LORA →
  IS_LORA_DR (u8 (Tx.datarate p)) = true → IS_LORA_BW (Tx.bandwidth p) = true →
  IS_LORA_CR (Tx.coderate p) = true →
  lgw_time_on_air sw (Some p)
  = Ret ((ref_time_on_air_us (Tx.bandwidth p) (u8 (Tx.datarate p)) (Tx.coderate p)
            (Tx.preamble p) (Tx.no_header p) (Tx.no_crc p) (u8 (Tx.size p)) + 500) / 1000).
Proof.
  intros Hp Hm Hs Hb Hc. unfold lgw_time_on_air. rewrite Hm. cbn [Z.eqb Pos.eqb MOD_LORA].
  unfold Tx.ok in Hp.
  destruct (lora_packet_time_on_air_ref (Tx.bandwidth p) (u8 (Tx.datarate p)) (Tx.coderate p)
    (Tx.preamble p) (Tx.no_header p) (Tx.no_crc p) (u8 (Tx.size p))) as (ns & _ & ->);
    try done; try lia; [apply u8_range|]. cstep.
  apply round_ms. apply ref_time_on_air_range; try done; try lia. apply u8_range.
Qed.

(** ** Properties *)

(** C35. For every valid LoRa modulation, the duration the code computes in
    [double] arithmetic is the exact one: payload symbols, symbol time and
    microseconds are those of the integer reference, and the milliseconds
    [lgw_time_on_air] returns are these microseconds rounded to nearest, so the
    air time is never under-estimated by more than 500 us. *)
Theorem time_on_air_lora_exact sw p :
  Tx.ok p → Tx.modulation p = MOD_LORA →
  IS_LORA_DR (u8 (Tx.datarate p)) = true → IS_LORA_BW (Tx.bandwidth p) = true →
  IS_LORA_CR (Tx.coderate p) = true →
  let us := ref_time_on_air_us (Tx.bandwidth p) (u8 (Tx.datarate p)) (Tx.coderate p)
              (Tx.preamble p) (Tx.no_header p) (Tx.no_crc p) (u8 (Tx.size p)) in
  (∃ details,
     lora_packet_time_on_air (Tx.bandwidth p) (u8 (Tx.datarate p)) (Tx.coderate p)
       (Tx.preamble p) (Tx.no_header p) (Tx.no_crc p) (u8 (Tx.size p)) = Ret (us, Some details) ∧
     out_t_symbol_us details = ref_symbol_us (Tx.bandwidth p) (u8 (Tx.datarate p))) ∧
  ∃ ms, lgw_time_on_air sw (Some p) = Ret ms ∧ us - 500 < 1000 * ms + 1 <= us + 501.
Proof.
  intros Hp Hm Hs Hb Hc us. split.
  - unfold Tx.ok in Hp.
    destruct (lora_packet_time_on_air_ref (Tx.bandwidth p) (u8 (Tx.datarate p)) (Tx.coderate p)
      (Tx.preamble p) (Tx.no_header p) (Tx.no_crc p) (u8 (Tx.size p))) as (ns & _ & ->);
      try done; try lia; [apply u8_range|]. eexists. split; reflexivity.
  - rewrite lgw_time_on_air_lora by done. eexists. split; [reflexivity|].
    fold us. clearbody us. Z.to_euclidean_division_equations. lia.
Qed.

(** A 23-byte SF7 125 kHz downlink takes 61696 us, 62 ms. *)
Definition sample_lora : lgw_pkt_tx_s :=
  {| Tx.freq_hz := 868100000; Tx.tx_mode := 1; Tx.count_us := 0; Tx.rf_chain := 0;
     Tx.rf_power := 14; Tx.modulation := MOD_LORA; Tx.freq_offset := 0;
     Tx.bandwidth := BW_125KHZ; Tx.datarate := 7; Tx.coderate := CR_LORA_4_5;
     Tx.invert_pol := true; Tx.f_dev := 0; Tx.preamble := 8; Tx.no_crc := false;
     Tx.no_header := false; Tx.size := 23; Tx.payload := replicate 256 0 |}.

Lemma sample_lora_ok : Tx.ok sample_lora.
Proof. unfold Tx.ok. split_and_all; done. Qed.

Lemma time_on_air_lora_exact_witness :
  (∃ details, lora_packet_time_on_air 4 7 1 8 false false 23 = Ret (61696, Some details) ∧
     out_t_symbol_us details = 1024) ∧
  ∃ ms, lgw_time_on_air 3 (Some sample_lora) = Ret ms ∧ 61696 - 500 < 1000 * ms + 1 <= 61696 + 501.
Proof. exact (time_on_air_lora_exact 3 sample_lora sample_lora_ok eq_refl eq_refl eq_refl eq_refl). Defined.

(** For an FSK packet at any non-zero bit rate [lgw_time_on_air] returns,
    and the milliseconds it returns cover the whole frame (preamble, sync word,
    length byte, payload, CRC) and exceed it by less than one millisecond and
    one bit, whatever the rounding of the two [double] operations. *)
Theorem time_on_air_fsk_covers sw p :
  is_u8 sw → Tx.ok p → Tx.modulation p = MOD_FSK → 0 < Tx.datarate p →
  ∃ ms, lgw_time_on_air sw (Some p) = Ret ms ∧ 1 <= ms <= 2 ^ 31 ∧
    (ms - 1) * Tx.datarate p <= 8000 * fsk_bytes sw p <= ms * Tx.datarate p.
Proof.
  intros Hsw Hp Hm Hd. destruct (lgw_time_on_air_fsk sw p Hsw Hp Hm Hd) as (k & -> & Hk & B).
  exists (k + 1). rewrite Z.add_simpl_r. split_and_all; lia || done.
Qed.

Definition sample_fsk : lgw_pkt_tx_s :=
  {| Tx.freq_hz := 868800000; Tx.tx_mode := 1; Tx.count_us := 0; Tx.rf_chain := 0;
     Tx.rf_power := 14; Tx.modulation := MOD_FSK; Tx.freq_offset := 0; Tx.bandwidth := 0;
     Tx.datarate := 50000; Tx.coderate := 0; Tx.invert_pol := false; Tx.f_dev := 25;
     Tx.preamble := 5; Tx.no_crc := false; Tx.no_header := false; Tx.size := 89;
     Tx.payload := replicate 256 0 |}.

Lemma time_on_air_fsk_covers_witness :
  ∃ ms, lgw_time_on_air 3 (Some sample_fsk) = Ret ms ∧ 1 <= ms <= 2 ^ 31 ∧
    (ms - 1) * 50000 <= 8000 * 100 <= ms * 50000.
Proof.
  apply (time_on_air_fsk_covers 3 sample_fsk).
  - split; [discriminate|reflexivity].
  - unfold Tx.ok. split_and_all; done.
  - reflexivity.
  - reflexivity.
Defined.
