(* ===== verification/JitQueue.v ===== *)
(** * The just-in-time downlink queue ([packet_forwarder/src/jitqueue.c])

    One queue per radio chain holds the downlinks and beacons accepted for
    transmission until the concentrator is 40 ms away from their time. Times
    are 32-bit microsecond counters that wrap around. The mutex of the source
    makes each function one atomic step; the part of [jit_enqueue] that runs
    under the lock is [jit_enqueue_locked]. *)
From stdpp Require Import base list numbers sorting sets.
From Stdlib Require Import ZArith Lia Sorting.Sorted.
From S2P Require Import Prelude HalTypes Binary64 TimeOnAir.

Open Scope Z_scope.

(** ** Sorting

    [qsort_r] of the C library: the result is a permutation of the array, and
    it is ordered when the comparison is consistent on its elements. *)

Definition consistent {A} (cmp : A → A → Z) (l : list A) : Prop :=
  (∀ x y, x ∈ l → y ∈ l → cmp x y <= 0 ∨ cmp y x <= 0) ∧
  (∀ x y z, x ∈ l → y ∈ l → z ∈ l → cmp x y <= 0 → cmp y z <= 0 → cmp x z <= 0).

Class Qsort (qsort : ∀ A, (A → A → Z) → list A → list A) : Prop := {
  qsort_perm : ∀ A cmp (l : list A), qsort A cmp l ≡ₚ l;
  qsort_sorted : ∀ A cmp (l : list A),
    consistent cmp l → StronglySorted (λ x y, cmp x y <= 0) (qsort A cmp l) }.

(** ** Types and constants *)

Definition JIT_QUEUE_MAX : Z := 32.
Definition JIT_NUM_BEACON_IN_QUEUE : Z := 3.

Inductive jit_pkt_type_e :=
  | JIT_PKT_TYPE_DOWNLINK_CLASS_A
  | JIT_PKT_TYPE_DOWNLINK_CLASS_B
  | JIT_PKT_TYPE_DOWNLINK_CLASS_C
  | JIT_PKT_TYPE_BEACON.
#[export] Instance jit_pkt_type_e_eq_dec : EqDecision jit_pkt_type_e.
Proof. solve_decision. Defined.

Inductive jit_error_e :=
  | JIT_ERROR_OK
  | JIT_ERROR_TOO_LATE
  | JIT_ERROR_TOO_EARLY
  | JIT_ERROR_FULL
  | JIT_ERROR_EMPTY
  | JIT_ERROR_COLLISION_PACKET
  | JIT_ERROR_COLLISION_BEACON
  | JIT_ERROR_TX_FREQ
  | JIT_ERROR_TX_POWER
  | JIT_ERROR_GPS_UNLOCKED
  | JIT_ERROR_INVALID.
#[export] Instance jit_error_e_eq_dec : EqDecision jit_error_e.
Proof. solve_decision. Defined.

Record jit_node_s := {
  pkt : lgw_pkt_tx_s; pkt_type : jit_pkt_type_e; pre_delay : Z; post_delay : Z }.
#[export] Instance jit_node_s_eq_dec : EqDecision jit_node_s.
Proof. solve_decision. Defined.

Record jit_queue_s := {
  num_pkt : Z; num_beacon : Z; nodes : list jit_node_s }.

Definition TX_START_DELAY : Z := 1500.
Definition TX_MARGIN_DELAY : Z := 1000.
Definition TX_JIT_DELAY : Z := 40000.
(** A [double] constant in the source; its value, and every [uint32_t] it is
    compared with, is exact. *)
Definition TX_MAX_ADVANCE_DELAY : Z := (JIT_NUM_BEACON_IN_QUEUE + 1) * 128 * 1000000.
Definition BEACON_GUARD : Z := 3000000.
Definition BEACON_RESERVED : Z := 2120000.

(** What [memset(node, 0, sizeof(struct jit_node_s))] leaves. *)
Definition zero_node : jit_node_s :=
  {| pkt := Tx.zero; pkt_type := JIT_PKT_TYPE_DOWNLINK_CLASS_A; pre_delay := 0; post_delay := 0 |}.

Definition count_of (n : jit_node_s) : Z := Tx.count_us (pkt n).
Definition is_beacon (n : jit_node_s) : bool := bool_decide (pkt_type n = JIT_PKT_TYPE_BEACON).

(** ** The code *)

Definition jit_queue_is_full (q : jit_queue_s) : bool := num_pkt q =? JIT_QUEUE_MAX.
Definition jit_queue_is_empty (q : jit_queue_s) : bool := num_pkt q =? 0.

Definition jit_queue_init : jit_queue_s :=
  {| num_pkt := 0; num_beacon := 0; nodes := replicate (Z.to_nat JIT_QUEUE_MAX) zero_node |}.

(** The counters are converted to [int]. Their difference can exceed an [int];
    the model gives it the two's complement value the target computes. *)
Definition compare (p q : jit_node_s) : Z := s32 (s32 (count_of p) - s32 (count_of q)).

Definition jit_collision_test (p1_count_us p1_pre_delay p1_post_delay
    p2_count_us p2_pre_delay p2_post_delay : Z) : bool :=
  (u32 (p1_count_us - p2_count_us) <=? u32 (p1_pre_delay + p2_post_delay + TX_MARGIN_DELAY)) ||
  (u32 (p2_count_us - p1_count_us) <=? u32 (p2_pre_delay + p1_post_delay + TX_MARGIN_DELAY)).

(** The nodes of the array in use; a count beyond the array would make every
    loop over them leave it. *)
Definition live (q : jit_queue_s) : list jit_node_s := take (Z.to_nat (num_pkt q)) (nodes q).
Definition live_nodes (q : jit_queue_s) : outcome (list jit_node_s) :=
  if num_pkt q <=? Z.of_nat (length (nodes q)) then Ret (live q) else Undef.

(** The pre and post delays of a packet, from its type. *)
Definition packet_delays (sw : Z) (packet : lgw_pkt_tx_s) (ty : jit_pkt_type_e)
  : outcome (Z * Z) :=
  match ty with
  | JIT_PKT_TYPE_DOWNLINK_CLASS_A
  | JIT_PKT_TYPE_DOWNLINK_CLASS_B
  | JIT_PKT_TYPE_DOWNLINK_CLASS_C =>
    toa ← lgw_time_on_air sw (Some packet);
    Ret (TX_START_DELAY + TX_JIT_DELAY, u32 (toa * 1000))
  | JIT_PKT_TYPE_BEACON =>
    Ret (TX_START_DELAY + BEACON_GUARD + TX_JIT_DELAY, BEACON_RESERVED)
  end.

(** The search of the first slot after a queued packet, for an immediate
    downlink; [asap] is the last slot tried. *)
Fixpoint asap_slot (pre post : Z) (l : list jit_node_s) (asap : Z) : Z :=
  match l with
  | [] => asap
  | n :: r =>
    let asap := u32 (count_of n + post_delay n + pre + TX_JIT_DELAY + TX_MARGIN_DELAY) in
    match r with
    | [] => asap
    | n' :: _ =>
      if jit_collision_test asap pre post (count_of n') (pre_delay n') (post_delay n')
      then asap_slot pre post r asap
      else asap
    end
  end.

Definition asap_count (pre post time_us : Z) (l : list jit_node_s) : Z :=
  let asap := u32 (time_us + 2 * TX_JIT_DELAY) in
  if existsb (λ n, jit_collision_test asap pre post (count_of n) (pre_delay n) (post_delay n)) l
  then asap_slot pre post l asap
  else asap.

(** Criterion 3: the error of the first queued packet the new one overlaps. *)
Fixpoint collision (count pre post : Z) (ty : jit_pkt_type_e) (l : list jit_node_s)
  : option jit_error_e :=
  match l with
  | [] => None
  | n :: r =>
    let target_pre_delay :=
      if (bool_decide (ty = JIT_PKT_TYPE_DOWNLINK_CLASS_A) ||
          bool_decide (ty = JIT_PKT_TYPE_DOWNLINK_CLASS_C)) && is_beacon n
      then TX_START_DELAY else pre_delay n in
    if jit_collision_test count pre post (count_of n) target_pre_delay (post_delay n) then
      Some match pkt_type n with
           | JIT_PKT_TYPE_BEACON => JIT_ERROR_COLLISION_BEACON
           | _ => JIT_ERROR_COLLISION_PACKET
           end
    else collision count pre post ty r
  end.

(** Overwriting slot [i] with the last element and dropping the last removes
    element [i]. *)
Lemma perm_swap_remove {A} (l : list A) i n m :
  l !! i = Some n → l !! (length l - 1)%nat = Some m →
  l ≡ₚ n :: take (length l - 1) (<[i:=m]> l).
Proof.
  intros Hi Hm. destruct (decide (l = [])) as [->|Hne]; [done|].
  destruct (exists_last Hne) as (l' & x & ->). rewrite length_app in *. cbn [length] in *.
  replace (length l' + 1 - 1)%nat with (length l') in * by lia.
  rewrite lookup_app_r, Nat.sub_diag in Hm by lia. injection Hm as ->.
  destruct (decide (i = length l')) as [->|Hil].
  - rewrite lookup_app_r, Nat.sub_diag in Hi by lia. injection Hi as ->.
    rewrite insert_app_r_alt by lia. rewrite take_app_length. symmetry. apply Permutation_cons_append.
  - apply lookup_lt_Some in Hi as Hlt. rewrite length_app in Hlt. cbn [length] in Hlt.
    rewrite lookup_app_l in Hi by lia.
    rewrite insert_app_l by lia. rewrite take_app_length' by (rewrite length_insert; lia).
    rewrite <- Permutation_cons_append.
    destruct (list_elem_of_split_length l' i n Hi) as (a & b & -> & Ha).
    rewrite Ha, insert_app_r_alt, Nat.sub_diag by lia. cbn [insert list_insert].
    rewrite <- !Permutation_middle. constructor.
Qed.
Lemma insert_last_take {A} (l : list A) x :
  (0 < length l)%nat → <[(length l - 1)%nat:=x]> l = take (length l - 1) l ++ [x].
Proof.
  intros Hl. assert (Hne : l ≠ []) by (destruct l; simpl in *; [lia|done]).
  destruct (exists_last Hne) as (l' & y & ->). rewrite length_app. cbn [length].
  replace (length l' + 1 - 1)%nat with (length l' + 0)%nat by lia.
  rewrite insert_app_r. rewrite take_app_add. cbn. by rewrite app_nil_r.
Qed.

Section Jit.
Context (qsort : ∀ A, (A → A → Z) → list A → list A).
(** The length of the FSK sync word of the concentrator's configuration. *)
Context (sw : Z).

Definition jit_sort_queue (q : jit_queue_s) : jit_queue_s :=
  if num_pkt q =? 0 then q
  else {| num_pkt := num_pkt q; num_beacon := num_beacon q;
          nodes := qsort _ compare (live q) ++ drop (Z.to_nat (num_pkt q)) (nodes q) |}.

(** The part of [jit_enqueue] under the lock: the immediate downlink's time,
    the three criteria, the insertion. The result is the error code, the queue
    and the caller's packet, which the function may have changed. *)
Definition jit_enqueue_locked (q : jit_queue_s) (time_us : Z) (packet : lgw_pkt_tx_s)
    (ty : jit_pkt_type_e) (pre post : Z)
  : outcome (jit_error_e * jit_queue_s * lgw_pkt_tx_s) :=
  l ← live_nodes q;
  let packet :=
    if bool_decide (ty = JIT_PKT_TYPE_DOWNLINK_CLASS_C)
    then Tx.set_mode_count TIMESTAMPED (asap_count pre post time_us l) packet
    else packet in
  if u32 (Tx.count_us packet - time_us) <=? TX_START_DELAY + TX_MARGIN_DELAY + TX_JIT_DELAY
  then Ret (JIT_ERROR_TOO_LATE, q, packet)
  else if (bool_decide (ty = JIT_PKT_TYPE_DOWNLINK_CLASS_A) ||
           bool_decide (ty = JIT_PKT_TYPE_DOWNLINK_CLASS_B)) &&
          (TX_MAX_ADVANCE_DELAY <? u32 (Tx.count_us packet - time_us))
  then Ret (JIT_ERROR_TOO_EARLY, q, packet)
  else match collision (Tx.count_us packet) pre post ty l with
  | Some err => Ret (err, q, packet)
  | None =>
    nodes' ← buf_set (nodes q) (num_pkt q)
      {| pkt := packet; pkt_type := ty; pre_delay := pre; post_delay := post |};
    Ret (JIT_ERROR_OK,
         jit_sort_queue
           {| num_pkt := u8 (num_pkt q + 1);
              num_beacon := if bool_decide (ty = JIT_PKT_TYPE_BEACON)
                            then u8 (num_beacon q + 1) else num_beacon q;
              nodes := nodes' |},
         packet)
  end.

Definition jit_enqueue (q : jit_queue_s) (time_us : Z) (packet : option lgw_pkt_tx_s)
    (ty : jit_pkt_type_e) : outcome (jit_error_e * jit_queue_s * option lgw_pkt_tx_s) :=
  match packet with
  | None => Ret (JIT_ERROR_INVALID, q, None)
  | Some p =>
    if jit_queue_is_full q then Ret (JIT_ERROR_FULL, q, Some p)
    else
      '(pre, post) ← packet_delays sw p ty;
      '(e, q', p') ← jit_enqueue_locked q time_us p ty pre post;
      Ret (e, q', Some p')
  end.

(** The removal of slot [i], shared by [jit_dequeue] and the purge of
    [jit_peek]: the last packet takes its place, the last slot is cleared and
    the queue is sorted. *)
Definition remove_slot (q : jit_queue_s) (i : Z) : outcome jit_queue_s :=
  n ← buf_get (nodes q) i;
  let num := u8 (num_pkt q - 1) in
  let beacons := if is_beacon n then u8 (num_beacon q - 1) else num_beacon q in
  last ← buf_get (nodes q) num;
  nodes1 ← buf_set (nodes q) i last;
  nodes2 ← buf_set nodes1 num zero_node;
  Ret (jit_sort_queue {| num_pkt := num; num_beacon := beacons; nodes := nodes2 |}).

(** The packet and its type are copied out through the caller's pointers. *)
Definition jit_dequeue (q : jit_queue_s) (index : Z) (packet_null : bool)
  : outcome (jit_error_e * jit_queue_s * option (lgw_pkt_tx_s * jit_pkt_type_e)) :=
  if packet_null then Ret (JIT_ERROR_INVALID, q, None)
  else if (index <? 0) || (JIT_QUEUE_MAX <=? index) then Ret (JIT_ERROR_INVALID, q, None)
  else if jit_queue_is_empty q then Ret (JIT_ERROR_EMPTY, q, None)
  else
    n ← buf_get (nodes q) index;
    q' ← remove_slot q index;
    Ret (JIT_ERROR_OK, q', Some (pkt n, pkt_type n)).

Definition outdated (time_us : Z) (n : jit_node_s) : bool :=
  TX_MAX_ADVANCE_DELAY <=? u32 (count_of n - time_us).

(** The loop of [jit_peek] at index [i] with candidate [idx]; [fuel] bounds the
    number of turns, [None] means that it ran out. *)
Fixpoint peek_loop (fuel : nat) (time_us i idx : Z) (q : jit_queue_s)
  : option (outcome (Z * jit_queue_s)) :=
  match fuel with
  | O => None
  | S fuel =>
    if negb (i <? num_pkt q) then Some (Ret (idx, q))
    else match buf_get (nodes q) i with
    | Exit c => Some (Exit c)
    | Undef => Some Undef
    | Ret n =>
      if outdated time_us n then
        match remove_slot q i with
        | Exit c => Some (Exit c)
        | Undef => Some Undef
        | Ret q' => peek_loop fuel time_us (0 + 1) idx q'  (* i = 0; continue *)
        end
      else if idx =? -1 then peek_loop fuel time_us (i + 1) i q
      else match buf_get (nodes q) idx with
      | Exit c => Some (Exit c)
      | Undef => Some Undef
      | Ret best =>
        peek_loop fuel time_us (i + 1)
          (if u32 (count_of n - time_us) <? u32 (count_of best - time_us) then i else idx) q
      end
    end
  end.

(** Each turn advances [i] or removes a packet and restarts at 1: a queue of at
    most 32 packets needs at most 33 * 33 turns. *)
Definition peek_fuel : nat := 33 * 33.

Definition jit_peek (q : jit_queue_s) (time_us : Z) (idx_null : bool)
  : option (outcome (jit_error_e * jit_queue_s * option Z)) :=
  if idx_null then Some (Ret (JIT_ERROR_INVALID, q, None))
  else if jit_queue_is_empty q then Some (Ret (JIT_ERROR_EMPTY, q, None))
  else
    r ← peek_loop peek_fuel time_us 0 (-1) q;
    Some (
      '(idx, q') ← (r : outcome (Z * jit_queue_s));
      best ← buf_get (nodes q') idx;
      if u32 (count_of best - time_us) <? TX_JIT_DELAY
      then Ret (JIT_ERROR_OK, q', Some idx)
      else Ret (JIT_ERROR_OK, q', Some (-1))).

(** ** The array represents a list of packets *)

Definition beacons (l : list jit_node_s) : Z :=
  Z.of_nat (length (filter (λ n, pkt_type n = JIT_PKT_TYPE_BEACON) l)).

(** [q] holds exactly the packets [l]: they fill the first slots, the other
    slots are cleared, and the two counters are right. *)
Definition repr (q : jit_queue_s) (l : list jit_node_s) : Prop :=
  num_pkt q = Z.of_nat (length l) ∧ (length l <= 32)%nat ∧
  nodes q = l ++ replicate (32 - length l) zero_node ∧ num_beacon q = beacons l.

Context `{!Qsort qsort}.

Lemma beacons_perm l1 l2 : l1 ≡ₚ l2 → beacons l1 = beacons l2.
Proof. unfold beacons. by intros ->. Qed.
Lemma beacons_cons n l :
  beacons (n :: l) = (if is_beacon n then 1 else 0) + beacons l.
Proof.
  unfold beacons, is_beacon. rewrite filter_cons. case_bool_decide as E.
  - rewrite decide_True by done. cbn [length]. lia.
  - rewrite decide_False by done. lia.
Qed.
Lemma beacons_bound l : 0 <= beacons l <= Z.of_nat (length l).
Proof. unfold beacons. pose proof (length_filter (λ n, pkt_type n = JIT_PKT_TYPE_BEACON) l). lia. Qed.

Lemma repr_init : repr jit_queue_init [].
Proof. unfold repr. split_and_all; reflexivity || (simpl; lia). Qed.

Lemma repr_live q l : repr q l → live q = l.
Proof.
  intros (Hn & _ & Hnodes & _). unfold live. rewrite Hn, Nat2Z.id, Hnodes.
  by rewrite take_app_length.
Qed.
Lemma repr_live_nodes q l : repr q l → live_nodes q = Ret l.
Proof.
  intros H. unfold live_nodes. rewrite (repr_live q l H). destruct H as (Hn & Hl & Hnodes & _).
  rewrite (proj2 (Z.leb_le _ _)); [done|]. rewrite Hn, Hnodes, length_app. lia.
Qed.
Lemma repr_get q l i n : repr q l → l !! i = Some n → buf_get (nodes q) (Z.of_nat i) = Ret n.
Proof.
  intros (_ & _ & -> & _) Hi. apply buf_get_lookup; [lia|].
  rewrite Nat2Z.id, lookup_app_l; [done|]. by apply lookup_lt_Some in Hi.
Qed.

Lemma repr_sort q l :
  repr q l → ∃ l', l' ≡ₚ l ∧ repr (jit_sort_queue q) l' ∧
    (consistent compare l → StronglySorted (λ x y, compare x y <= 0) l').
Proof.
  intros H. pose proof (repr_live q l H) as Hl. pose proof H as (Hn & H32 & Hnodes & Hb).
  unfold jit_sort_queue. destruct (Z.eqb_spec (num_pkt q) 0) as [E|E].
  - exists l. split; [done|]. split; [done|]. intros _.
    destruct l; [constructor|simpl in *; lia].
  - exists (qsort _ compare l). pose proof (qsort_perm _ compare l) as Hp.
    pose proof (Permutation_length Hp) as HL.
    split; [done|]. split; [|apply qsort_sorted].
    unfold repr. cbn [num_pkt nodes num_beacon]. split_and_all.
    + by rewrite HL.
    + lia.
    + by rewrite Hl, Hn, Hnodes, Nat2Z.id, drop_app_length, HL.
    + rewrite Hb. symmetry. by apply beacons_perm.
Qed.

(** Removing slot [i] removes the packet it holds. *)
Lemma repr_remove q l i n :
  repr q l → l !! i = Some n →
  ∃ q' l', remove_slot q (Z.of_nat i) = Ret q' ∧ repr q' l' ∧ l ≡ₚ n :: l'.
Proof.
  intros H Hi. unfold remove_slot. rewrite (repr_get q l i n H Hi). cstep.
  pose proof (lookup_lt_Some l i n Hi) as Hlt. pose proof H as (Hn & H32 & Hnodes & Hb).
  destruct (lookup_lt_is_Some_2 l (length l - 1)) as [m Hm]; [lia|].
  rewrite Hn, u8_id by lia. replace (Z.of_nat (length l) - 1) with (Z.of_nat (length l - 1)) by lia.
  rewrite (repr_get q l _ m H Hm). cstep.
  rewrite buf_set_insert by (rewrite Hnodes, length_app; lia). cstep.
  rewrite buf_set_insert by (rewrite length_insert, Hnodes, length_app; lia). cstep.
  rewrite !Nat2Z.id.
  set (l1 := take (length l - 1) (<[i:=m]> l)).
  assert (Hl1 : length l1 = (length l - 1)%nat) by (unfold l1; rewrite length_take, length_insert; lia).
  assert (Hperm : l ≡ₚ n :: l1).
  { apply (perm_swap_remove l i n m Hi Hm). }
  assert (R : repr {| num_pkt := Z.of_nat (length l - 1);
      num_beacon := if is_beacon n then u8 (num_beacon q - 1) else num_beacon q;
      nodes := <[(length l - 1)%nat:=zero_node]> (<[i:=m]> (nodes q)) |} l1).
  { unfold repr. cbn [num_pkt num_beacon nodes]. split_and_all.
    - by rewrite Hl1.
    - lia.
    - rewrite Hnodes, insert_app_l by lia.
      rewrite insert_app_l by (rewrite length_insert; lia).
      replace (32 - length l1)%nat with (S (32 - length l)) by lia. cbn [replicate].
      pose proof (insert_last_take (<[i:=m]> l) zero_node) as IL. rewrite length_insert in IL.
      rewrite IL by lia. fold l1. by rewrite <- app_assoc.
    - rewrite Hb, (beacons_perm l _ Hperm), beacons_cons. pose proof (beacons_bound l1).
      destruct (is_beacon n); [rewrite u8_id|]; lia. }
  destruct (repr_sort _ _ R) as (l2 & Hp2 & R2 & _).
  eexists _, l2. split; [reflexivity|]. split; [exact R2|]. by rewrite Hp2.
Qed.

(** ** Enqueue *)

(** The packet as the queue stores it: an immediate downlink gets its time. *)
Definition stamped (time_us : Z) (l : list jit_node_s) (p : lgw_pkt_tx_s)
    (ty : jit_pkt_type_e) (pre post : Z) : lgw_pkt_tx_s :=
  if bool_decide (ty = JIT_PKT_TYPE_DOWNLINK_CLASS_C)
  then Tx.set_mode_count TIMESTAMPED (asap_count pre post time_us l) p else p.

(** Why a packet is refused, the three criteria in order. *)
Definition refusal (time_us : Z) (l : list jit_node_s) (p : lgw_pkt_tx_s)
    (ty : jit_pkt_type_e) (pre post : Z) : option jit_error_e :=
  let advance := u32 (Tx.count_us p - time_us) in
  if advance <=? 42500 then Some JIT_ERROR_TOO_LATE
  else if (bool_decide (ty = JIT_PKT_TYPE_DOWNLINK_CLASS_A) ||
           bool_decide (ty = JIT_PKT_TYPE_DOWNLINK_CLASS_B)) && (512000000 <? advance)
  then Some JIT_ERROR_TOO_EARLY
  else collision (Tx.count_us p) pre post ty l.

Definition node_of (p : lgw_pkt_tx_s) (ty : jit_pkt_type_e) (pre post : Z) : jit_node_s :=
  {| pkt := p; pkt_type := ty; pre_delay := pre; post_delay := post |}.

(** The locked part of [jit_enqueue] adds the packet or changes nothing. *)
Lemma repr_enqueue_locked q l time_us p ty pre post :
  repr q l → (length l < 32)%nat →
  let p' := stamped time_us l p ty pre post in
  match refusal time_us l p' ty pre post with
  | Some e => jit_enqueue_locked q time_us p ty pre post = Ret (e, q, p')
  | None => ∃ q' l',
      jit_enqueue_locked q time_us p ty pre post = Ret (JIT_ERROR_OK, q', p') ∧
      repr q' l' ∧ l' ≡ₚ node_of p' ty pre post :: l ∧
      (consistent compare (node_of p' ty pre post :: l) →
       StronglySorted (λ x y, compare x y <= 0) l')
  end.
Proof.
  intros H Hlt p'. unfold jit_enqueue_locked. rewrite (repr_live_nodes q l H). cstep.
  fold (stamped time_us l p ty pre post). fold p'. unfold refusal. cbv zeta.
  change (TX_START_DELAY + TX_MARGIN_DELAY + TX_JIT_DELAY) with 42500.
  change TX_MAX_ADVANCE_DELAY with 512000000.
  destruct (_ <=? 42500); [done|]. destruct (_ && _)%bool; [done|].
  destruct (collision (Tx.count_us p') pre post ty l) as [e|]; [done|].
  pose proof H as (Hn & H32 & Hnodes & Hb).
  rewrite buf_set_insert by (rewrite Hn, Hnodes, length_app, length_replicate; lia). cstep.
  rewrite Hn, Nat2Z.id, u8_id by lia. fold (node_of p' ty pre post).
  set (n := node_of p' ty pre post).
  assert (R : repr {| num_pkt := Z.of_nat (length l) + 1;
      num_beacon := if bool_decide (ty = JIT_PKT_TYPE_BEACON)
                    then u8 (num_beacon q + 1) else num_beacon q;
      nodes := <[length l:=n]> (nodes q) |} (l ++ [n])).
  { unfold repr. cbn [num_pkt num_beacon nodes]. rewrite length_app. cbn [length]. split_and_all.
    - lia.
    - lia.
    - rewrite Hnodes, <- (Nat.add_0_r (length l)) at 1. rewrite insert_app_r.
      replace (32 - length l)%nat with (S (32 - (length l + 1))) by lia. cbn.
      by rewrite <- app_assoc.
    - rewrite <- (beacons_perm _ _ (Permutation_cons_append l n)), beacons_cons, Hb.
      pose proof (beacons_bound l). change (is_beacon n) with (bool_decide (ty = JIT_PKT_TYPE_BEACON)).
      destruct (bool_decide _); [rewrite u8_id|]; lia. }
  destruct (repr_sort _ _ R) as (l' & Hp & R' & HS).
  exists (jit_sort_queue {| num_pkt := Z.of_nat (length l) + 1;
      num_beacon := if bool_decide (ty = JIT_PKT_TYPE_BEACON)
                    then u8 (num_beacon q + 1) else num_beacon q;
      nodes := <[length l:=n]> (nodes q) |}), l'.
  assert (Hc : l ++ [n] ≡ₚ n :: l) by (symmetry; apply Permutation_cons_append).
  split; [done|]. split; [exact R'|]. split; [by rewrite Hp|].
  intros Hcons. apply HS. revert Hcons. unfold consistent.
  by setoid_rewrite Hc.
Qed.
End Jit.

(** ** Separation on the air *)

(** Between the two start times, in each direction around the counter, lie the
    start delay, the whole first transmission and the margin. *)
Definition separated (n1 n2 : jit_node_s) : Prop :=
  TX_START_DELAY + post_delay n2 + TX_MARGIN_DELAY < u32 (count_of n1 - count_of n2) ∧
  TX_START_DELAY + post_delay n1 + TX_MARGIN_DELAY < u32 (count_of n2 - count_of n1).

#[export] Instance separated_sym : Symmetric separated.
Proof. intros n1 n2 [? ?]. by split. Qed.

(** A queued packet reserves at least the start delay before it, and its air
    time is less than 4000 seconds, so that no sum of delays wraps around. *)
Definition timed (n : jit_node_s) : Prop :=
  TX_START_DELAY <= pre_delay n <= TX_START_DELAY + BEACON_GUARD + TX_JIT_DELAY ∧
  0 <= post_delay n <= 4000000000.

Definition conflict_free (l : list jit_node_s) : Prop :=
  Forall timed l ∧ ForallOrdPairs separated l.

Lemma FOP_perm {A} (R : A → A → Prop) `{!Symmetric R} l1 l2 :
  l1 ≡ₚ l2 → ForallOrdPairs R l1 → ForallOrdPairs R l2.
Proof.
  induction 1 as [|x l l' Hp IH|x y l|l l' l'' _ IH1 _ IH2]; intros H; auto.
  - inversion H as [|? ? Hx Hl]; subst. constructor; [|auto]. by rewrite <- Hp.
  - inversion H as [|? ? Hy Hl]; subst. inversion Hl as [|? ? Hx Hl']; subst.
    apply List.Forall_cons_iff in Hy as [Hyx Hy].
    constructor; [constructor; [by symmetry|done]|]. by constructor.
Qed.

Lemma FOP_lookup {A} (R : A → A → Prop) `{!Symmetric R} l i j x y :
  ForallOrdPairs R l → i ≠ j → l !! i = Some x → l !! j = Some y → R x y.
Proof.
  intros H. revert i j. induction H as [|z l Hz _ IH]; intros i j Hij Hx Hy; [done|].
  rewrite List.Forall_forall in Hz. destruct i as [|i], j as [|j]; cbn in Hx, Hy.
  - done.
  - injection Hx as ->. apply Hz, list_elem_of_In. by eapply list_elem_of_lookup_2.
  - injection Hy as ->. symmetry. apply Hz, list_elem_of_In. by eapply list_elem_of_lookup_2.
  - by apply (IH i j); [congruence|..].
Qed.

Lemma conflict_free_perm l1 l2 : l1 ≡ₚ l2 → conflict_free l1 → conflict_free l2.
Proof.
  intros Hp [H1 H2]. split; [by rewrite <- Hp|]. by eapply FOP_perm; [apply _| |].
Qed.
Lemma conflict_free_cons n l :
  conflict_free (n :: l) ↔ timed n ∧ Forall (separated n) l ∧ conflict_free l.
Proof.
  unfold conflict_free. split.
  - intros [H1 H2]. inversion H2; subst. apply List.Forall_cons_iff in H1 as [? ?]. auto.
  - intros (H1 & H2 & H3 & H4). split; [by constructor|by constructor].
Qed.

(** A failed collision test is separation. *)
Lemma no_collision_separated c1 pre1 post1 n pre2 :
  TX_START_DELAY <= pre1 <= TX_START_DELAY + BEACON_GUARD + TX_JIT_DELAY →
  0 <= post1 <= 4000000000 → timed n → TX_START_DELAY <= pre2 <= pre_delay n →
  jit_collision_test c1 pre1 post1 (count_of n) pre2 (post_delay n) = false →
  TX_START_DELAY + post_delay n + TX_MARGIN_DELAY < u32 (c1 - count_of n) ∧
  TX_START_DELAY + post1 + TX_MARGIN_DELAY < u32 (count_of n - c1).
Proof.
  intros H1 H2 [H3 H4] H5. unfold jit_collision_test, TX_START_DELAY, TX_MARGIN_DELAY,
    TX_JIT_DELAY, BEACON_GUARD in *. intros [E1 E2]%orb_false_iff.
  apply Z.leb_gt in E1, E2. rewrite u32_id in E1, E2 by lia. lia.
Qed.

Lemma collision_none_separated p ty pre post l :
  timed (node_of p ty pre post) → Forall timed l →
  collision (Tx.count_us p) pre post ty l = None →
  Forall (separated (node_of p ty pre post)) l.
Proof.
  intros [H1 H2]. induction l as [|n l IH]; intros Ht Hc; [constructor|].
  apply List.Forall_cons_iff in Ht as [Hn Ht]. cbn [collision] in Hc.
  set (tpre := if ((bool_decide _ || _) && is_beacon n)%bool then TX_START_DELAY else pre_delay n) in Hc.
  assert (Hpre : TX_START_DELAY <= tpre <= pre_delay n).
  { destruct Hn as [Hn _]. subst tpre. destruct (_ && _)%bool; lia. }
  destruct (jit_collision_test _ _ _ _ _ _) eqn:E; [done|].
  constructor; [|by apply IH]. by apply (no_collision_separated _ pre post n tpre).
Qed.

(** The delays of a packet whose air time is below 4000 s. *)
Lemma packet_delays_timed sw p ty pre post toa p' :
  packet_delays sw p ty = Ret (pre, post) →
  lgw_time_on_air sw (Some p) = Ret toa → 0 <= toa <= 4000000 →
  timed (node_of p' ty pre post).
Proof.
  intros E Ht Hb. unfold timed. cbn [node_of pre_delay post_delay].
  unfold packet_delays in E. rewrite Ht in E.
  unfold TX_START_DELAY, BEACON_GUARD, TX_JIT_DELAY, BEACON_RESERVED in *.
  destruct ty; cbn in E; injection E as <- <-; rewrite ?u32_id by lia; lia.
Qed.

Section Steps.
Context (qsort : ∀ A, (A → A → Z) → list A → list A).
Context `{!Qsort qsort}.
Context (sw : Z).

(** What [jit_enqueue] does to a represented queue. *)
Lemma repr_enqueue q l time_us p ty pre post :
  repr q l → packet_delays sw p ty = Ret (pre, post) →
  let p' := stamped time_us l p ty pre post in
  if decide (length l = 32%nat) then
    jit_enqueue qsort sw q time_us (Some p) ty = Ret (JIT_ERROR_FULL, q, Some p)
  else match refusal time_us l p' ty pre post with
  | Some e => jit_enqueue qsort sw q time_us (Some p) ty = Ret (e, q, Some p')
  | None => ∃ q' l',
      jit_enqueue qsort sw q time_us (Some p) ty = Ret (JIT_ERROR_OK, q', Some p') ∧
      repr q' l' ∧ l' ≡ₚ node_of p' ty pre post :: l ∧
      (consistent compare (node_of p' ty pre post :: l) →
       StronglySorted (λ x y, compare x y <= 0) l')
  end.
Proof.
  intros H Hd p'. unfold jit_enqueue, jit_queue_is_full. pose proof H as (Hn & H32 & _).
  rewrite Hn, Hd. destruct (decide _) as [E|E].
  - by rewrite E.
  - rewrite (proj2 (Z.eqb_neq _ _)) by (unfold JIT_QUEUE_MAX; lia). cstep.
    pose proof (repr_enqueue_locked qsort q l time_us p ty pre post H ltac:(lia)) as HL.
    cbv zeta in HL. fold p' in HL. destruct (refusal _ _ _ _ _ _).
    + by rewrite HL.
    + destruct HL as (q' & l' & -> & HL). exists q', l'. by split.
Qed.

(** ** Peek *)

Lemma repr_peek_loop fuel time_us : ∀ i idx q l idx' q',
  repr q l → 0 <= i → peek_loop qsort fuel time_us i idx q = Some (Ret (idx', q')) →
  ∃ dropped l', repr q' l' ∧ l ≡ₚ dropped ++ l' ∧ Forall (λ n, outdated time_us n = true) dropped.
Proof.
  induction fuel as [|fuel IH]; intros i idx q l idx' q' H Hi; cbn [peek_loop]; [done|].
  pose proof H as (Hn & _). destruct (Z.ltb_spec i (num_pkt q)) as [L|L]; cbn [negb].
  2:{ intros [= <- <-]. exists [], l. by split_and_all. }
  destruct (lookup_lt_is_Some_2 l (Z.to_nat i)) as [n Hl]; [lia|].
  pose proof (repr_get q l _ n H Hl) as Hg. rewrite Z2Nat.id in Hg by lia. rewrite Hg.
  destruct (outdated time_us n) eqn:Eo.
  - destruct (repr_remove qsort q l _ n H Hl) as (q1 & l1 & Hr & R1 & Hp1).
    rewrite Z2Nat.id in Hr by lia. rewrite Hr. intros E.
    apply (IH _ _ _ l1) in E as (d & l' & R' & Hp & Hd); [|done|lia].
    exists (n :: d), l'. split; [done|]. split; [by rewrite Hp1, Hp|]. by constructor.
  - destruct (idx =? -1); [apply IH; [done|lia]|].
    destruct (buf_get (nodes q) idx); try done. apply IH; [done|lia].
Qed.

(** The loop ends within its fuel, whatever is purged. *)
Lemma peek_loop_terminates fuel time_us : ∀ i idx q l,
  repr q l → 0 <= i →
  (33 * length l + (length l - Z.to_nat i) < fuel)%nat →
  peek_loop qsort fuel time_us i idx q ≠ None.
Proof.
  induction fuel as [|fuel IH]; intros i idx q l H Hi Hf; [lia|]. cbn [peek_loop].
  pose proof H as (Hn & H32 & _). destruct (Z.ltb_spec i (num_pkt q)) as [L|L]; cbn [negb]; [|done].
  destruct (lookup_lt_is_Some_2 l (Z.to_nat i)) as [n Hl]; [lia|].
  pose proof (repr_get q l _ n H Hl) as Hg. rewrite Z2Nat.id in Hg by lia. rewrite Hg.
  destruct (outdated time_us n) eqn:Eo.
  - destruct (repr_remove qsort q l _ n H Hl) as (q1 & l1 & Hr & R1 & Hp1).
    rewrite Z2Nat.id in Hr by lia. rewrite Hr. apply Permutation_length in Hp1. cbn [length] in Hp1.
    apply (IH _ _ _ l1); [done|lia|lia].
  - assert (Hm : (33 * length l + (length l - Z.to_nat (i + 1)) < fuel)%nat) by lia.
    destruct (idx =? -1); [by apply (IH _ _ _ l); [done|lia|]|].
    destruct (buf_get (nodes q) idx); try done. by apply (IH _ _ _ l); [done|lia|].
Qed.

Definition advance (time_us : Z) (n : jit_node_s) : Z := u32 (count_of n - time_us).

(** [idx] designates the first packet of [l] before position [i] with the
    smallest advance; there is none at position 0. *)
Definition earliest (time_us : Z) (l : list jit_node_s) (i idx : Z) : Prop :=
  if idx =? -1 then i = 0
  else 0 <= idx ∧ ∃ b, l !! Z.to_nat idx = Some b ∧
    ∀ j n, l !! j = Some n → Z.of_nat j < i → advance time_us b <= advance time_us n.

Lemma peek_loop_scan fuel time_us : ∀ i idx q l,
  repr q l → Forall (λ n, outdated time_us n = false) l →
  0 <= i <= Z.of_nat (length l) → (length l - Z.to_nat i < fuel)%nat →
  earliest time_us l i idx →
  ∃ idx', peek_loop qsort fuel time_us i idx q = Some (Ret (idx', q)) ∧
          earliest time_us l (Z.of_nat (length l)) idx'.
Proof.
  induction fuel as [|fuel IH]; intros i idx q l H Ho Hi Hf He; [lia|]. cbn [peek_loop].
  pose proof H as (Hn & _). destruct (Z.ltb_spec i (num_pkt q)) as [L|L]; cbn [negb].
  2:{ exists idx. by replace (Z.of_nat (length l)) with i by lia. }
  destruct (lookup_lt_is_Some_2 l (Z.to_nat i)) as [n Hl]; [lia|].
  pose proof (repr_get q l _ n H Hl) as Hg. rewrite Z2Nat.id in Hg by lia. rewrite Hg.
  assert (outdated time_us n = false) as ->.
  { rewrite List.Forall_forall in Ho. apply Ho, list_elem_of_In. by eapply list_elem_of_lookup_2. }
  unfold earliest in He. destruct (Z.eqb_spec idx (-1)) as [->|Hidx].
  - apply IH; [done|done|lia|lia|]. unfold earliest.
    rewrite (proj2 (Z.eqb_neq _ _)) by lia. split; [lia|]. exists n. split; [done|].
    intros j m Hj Hlt. replace j with (Z.to_nat i) in Hj by lia. by simplify_eq.
  - destruct He as (Hpos & b & Hb & Hmin).
    pose proof (repr_get q l _ b H Hb) as Hgb. rewrite Z2Nat.id in Hgb by lia. rewrite Hgb.
    apply IH; [done|done|lia|lia|]. fold (advance time_us n) (advance time_us b). unfold earliest.
    destruct (Z.ltb_spec (advance time_us n) (advance time_us b)) as [A|A].
    + rewrite (proj2 (Z.eqb_neq _ _)) by lia. split; [lia|]. exists n. split; [done|].
      intros j m Hj Hlt. destruct (Z.eq_dec (Z.of_nat j) i) as [E|E].
      * replace j with (Z.to_nat i) in Hj by lia. by simplify_eq.
      * specialize (Hmin j m Hj ltac:(lia)). lia.
    + rewrite (proj2 (Z.eqb_neq _ _)) by lia. split; [lia|]. exists b. split; [done|].
      intros j m Hj Hlt. destruct (Z.eq_dec (Z.of_nat j) i) as [E|E].
      * replace j with (Z.to_nat i) in Hj by lia. by simplify_eq.
      * apply (Hmin j m Hj). lia.
Qed.

Lemma repr_peek q l time_us :
  repr q l → l ≠ [] → Forall (λ n, outdated time_us n = false) l →
  ∃ j b, l !! j = Some b ∧ (∀ n, n ∈ l → advance time_us b <= advance time_us n) ∧
    jit_peek qsort q time_us false
    = Some (Ret (JIT_ERROR_OK, q,
        Some (if advance time_us b <? TX_JIT_DELAY then Z.of_nat j else -1))).
Proof.
  intros H Hne Ho. pose proof H as (Hn & H32 & _).
  destruct (peek_loop_scan peek_fuel time_us 0 (-1) q l) as (idx & Hs & He); try done; try lia.
  { cbn. lia. }
  unfold earliest in He. destruct (Z.eqb_spec idx (-1)) as [->|Hidx].
  { destruct l; simpl in He; [done|lia]. }
  destruct He as (Hpos & b & Hb & Hmin).
  exists (Z.to_nat idx), b. split; [done|]. split.
  { intros n [j Hj]%list_elem_of_lookup. apply (Hmin j n Hj).
    apply lookup_lt_Some in Hj. lia. }
  unfold jit_peek, jit_queue_is_empty.
  rewrite (proj2 (Z.eqb_neq _ _)) by (rewrite Hn; destruct l; [done|cbn [length]; lia]).
  rewrite Hs. pose proof (repr_get q l _ b H Hb) as Hg. rewrite Z2Nat.id in * by lia.
  cbn [mbind option_bind]. cstep. rewrite Hg. cstep. unfold advance.
  by destruct (_ <? TX_JIT_DELAY).
Qed.

Lemma repr_dequeue q l i n :
  repr q l → l !! i = Some n →
  ∃ q' l', jit_dequeue qsort q (Z.of_nat i) false
           = Ret (JIT_ERROR_OK, q', Some (pkt n, pkt_type n)) ∧
           repr q' l' ∧ l ≡ₚ n :: l'.
Proof.
  intros H Hi. pose proof H as (Hn & H32 & _). apply lookup_lt_Some in Hi as Hlt.
  destruct (repr_remove qsort q l i n H Hi) as (q' & l' & Hr & R & Hp).
  exists q', l'. split; [|done]. unfold jit_dequeue, jit_queue_is_empty, JIT_QUEUE_MAX.
  rewrite (proj2 (Z.ltb_ge _ _)), (proj2 (Z.leb_gt _ _)), (proj2 (Z.eqb_neq _ _)) by lia.
  cbn [orb]. rewrite (repr_get q l i n H Hi). cstep. rewrite Hr. done.
Qed.
End Steps.

(** ** An implementation of the sort, for evaluation *)

Fixpoint insert_sorted {A} (cmp : A → A → Z) (x : A) (l : list A) : list A :=
  match l with
  | [] => [x]
  | y :: r => if cmp x y <=? 0 then x :: l else y :: insert_sorted cmp x r
  end.
Fixpoint isort (A : Type) (cmp : A → A → Z) (l : list A) : list A :=
  match l with [] => [] | x :: r => insert_sorted cmp x (isort A cmp r) end.

Lemma insert_sorted_perm {A} cmp (x : A) l : insert_sorted cmp x l ≡ₚ x :: l.
Proof.
  induction l as [|y r IH]; cbn; [done|]. destruct (_ <=? 0); [done|].
  rewrite IH. constructor.
Qed.
Lemma isort_perm {A} cmp (l : list A) : isort A cmp l ≡ₚ l.
Proof. induction l as [|x r IH]; cbn; [done|]. by rewrite insert_sorted_perm, IH. Qed.

Lemma insert_sorted_sorted {A} cmp (x : A) l :
  consistent cmp (x :: l) → StronglySorted (λ x y, cmp x y <= 0) l →
  StronglySorted (λ x y, cmp x y <= 0) (insert_sorted cmp x l).
Proof.
  intros [Ht Htr]. induction l as [|y r IH]; intros HS; cbn; [by repeat constructor|].
  inversion HS as [|? ? Hr Hy]; subst. destruct (Z.leb_spec (cmp x y) 0) as [L|L].
  - constructor; [done|]. constructor; [done|]. rewrite Forall_forall in Hy |- *.
    intros z Hz. apply (Htr x y z); set_solver.
  - constructor.
    + apply IH; [..|done].
      * intros a b Ha Hb. apply Ht; set_solver.
      * intros a b c Ha Hb Hc. apply Htr; set_solver.
    + rewrite insert_sorted_perm. constructor; [|done].
      destruct (Ht x y) as [?|?]; [set_solver|set_solver|lia|done].
Qed.

#[export] Instance isort_Qsort : Qsort isort.
Proof.
  constructor.
  - intros A cmp l. apply isort_perm.
  - intros A cmp l. induction l as [|x r IH]; intros [Ht Htr]; cbn; [constructor|].
    apply insert_sorted_sorted.
    + split.
      * intros a b. rewrite isort_perm. apply Ht.
      * intros a b c. rewrite isort_perm. apply Htr.
    + apply IH. split.
      * intros a b Ha Hb. apply Ht; set_solver.
      * intros a b c Ha Hb Hc. apply Htr; set_solver.
Qed.

(** ** Time order *)

(** Within a window of [2^31] us after [base], the comparison of the sort is
    the order of time. *)
Lemma compare_window base x y :
  advance base x < 2 ^ 31 → advance base y < 2 ^ 31 →
  compare x y = advance base x - advance base y.
Proof.
  unfold advance, compare, u32, s32. intros Hx Hy.
  Z.to_euclidean_division_equations. lia.
Qed.

Lemma consistent_window base l :
  Forall (λ n, advance base n < 2 ^ 31) l → consistent compare l.
Proof.
  rewrite Forall_forall. intros H. split.
  - intros x y Hx Hy. rewrite !(compare_window base) by (by apply H). lia.
  - intros x y z Hx Hy Hz. rewrite !(compare_window base) by (by apply H). lia.
Qed.

Lemma sorted_window base l :
  Forall (λ n, advance base n < 2 ^ 31) l →
  StronglySorted (λ x y, compare x y <= 0) l →
  StronglySorted (λ x y, advance base x <= advance base y) l.
Proof.
  intros Hw HS. induction HS as [|x r HS IH Hx]; [constructor|].
  apply List.Forall_cons_iff in Hw as [Hw Hr]. constructor; [by apply IH|].
  rewrite Forall_forall in Hx, Hr |- *. intros y Hy. specialize (Hx y Hy).
  rewrite (compare_window base) in Hx by auto. lia.
Qed.
