(* ===== verification/JitProps.v ===== *)
(** * Properties of the just-in-time queue

    The theorems on [jitqueue.c] a user of the queue relies on: what the queue
    holds after each operation, that accepted packets never overlap on the air,
    which packet is handed to the radio and when, and where the purge of
    outdated packets goes wrong. They hold for every [qsort_r] that meets its
    contract; the witnesses run the model with an insertion sort. *)
From stdpp Require Import base list numbers sorting sets relations.
From Stdlib Require Import ZArith Lia Sorting.Sorted.
From S2P Require Import Prelude HalTypes TimeOnAir JitQueue.

Open Scope Z_scope.

Section Properties.
Context (qsort : ∀ A, (A → A → Z) → list A → list A).
Context `{!Qsort qsort}.
Context (sw : Z).

(** ** Reachable queues *)

(** One call of the queue by the forwarder. The air time of a packet handed to
    [jit_enqueue] is defined and below 4000 s; [jit_dequeue] is called with the
    index of a queued packet. *)
Inductive jit_step : jit_queue_s → jit_queue_s → Prop :=
  | step_enqueue q time_us p ty toa e q' p' :
      lgw_time_on_air sw (Some p) = Ret toa → 0 <= toa <= 4000000 →
      jit_enqueue qsort sw q time_us (Some p) ty = Ret (e, q', p') → jit_step q q'
  | step_dequeue q i e q' r :
      0 <= i < num_pkt q → jit_dequeue qsort q i false = Ret (e, q', r) → jit_step q q'
  | step_peek q time_us e q' r :
      jit_peek qsort q time_us false = Some (Ret (e, q', r)) → jit_step q q'.

Definition jit_inv (q : jit_queue_s) : Prop := ∃ l, repr q l ∧ conflict_free l.

Lemma packet_delays_defined p ty toa :
  lgw_time_on_air sw (Some p) = Ret toa → ∃ pre post, packet_delays sw p ty = Ret (pre, post).
Proof. intros H. unfold packet_delays. rewrite H. destruct ty; cbn; eauto. Qed.

Lemma enqueue_timed q time_us p ty pre post e q' p' :
  packet_delays sw p ty = Ret (pre, post) → (∀ p1, timed (node_of p1 ty pre post)) →
  jit_enqueue qsort sw q time_us (Some p) ty = Ret (e, q', p') → jit_inv q → jit_inv q' ∧ num_pkt q <= num_pkt q'.
Proof.
  intros Hd Hn E (l & R & C).
  pose proof (repr_enqueue qsort sw q l time_us p ty pre post R Hd) as HE. cbv zeta in HE.
  set (p1 := stamped time_us l p ty pre post) in *.
  destruct (decide _); [rewrite HE in E; injection E as _ <- _; split; [by exists l|lia]|].
  destruct (refusal time_us l p1 ty pre post) eqn:Er.
  - rewrite HE in E. injection E as _ <- _. split; [by exists l|lia].
  - destruct HE as (q1 & l1 & HE & R1 & Hp & _). rewrite HE in E. injection E as _ <- _. split.
    + exists l1. split; [done|]. apply (conflict_free_perm (node_of p1 ty pre post :: l)); [by symmetry|].
      apply conflict_free_cons. split; [done|]. split; [|done].
      apply collision_none_separated; [done|apply C|].
      revert Er. unfold refusal. cbv zeta. destruct (_ <=? _); [done|]. by destruct (_ && _)%bool.
    + apply Permutation_length in Hp. cbn [length] in Hp. pose proof R as (Hq & _). pose proof R1 as (Hq1 & _). lia.
Qed.
Lemma enqueue_grows q time_us p ty toa e q' p' :
  lgw_time_on_air sw (Some p) = Ret toa → 0 <= toa <= 4000000 →
  jit_enqueue qsort sw q time_us (Some p) ty = Ret (e, q', p') → jit_inv q → jit_inv q' ∧ num_pkt q <= num_pkt q'.
Proof.
  intros Ht Hb. destruct (packet_delays_defined p ty toa Ht) as (pre & post & Hd).
  apply (enqueue_timed q time_us p ty pre post); [done|]. intros p1. by apply (packet_delays_timed sw p ty pre post toa).
Qed.
Lemma enqueue_inv q time_us p ty toa e q' p' :
  lgw_time_on_air sw (Some p) = Ret toa → 0 <= toa <= 4000000 →
  jit_enqueue qsort sw q time_us (Some p) ty = Ret (e, q', p') → jit_inv q → jit_inv q'.
Proof. intros Ht Hb E Hi. by destruct (enqueue_grows q time_us p ty toa e q' p' Ht Hb E Hi). Qed.
(** The delays of a beacon do not depend on its air time. *)
Lemma enqueue_beacon q time_us p e q' p' :
  jit_enqueue qsort sw q time_us (Some p) JIT_PKT_TYPE_BEACON = Ret (e, q', p') → jit_inv q →
  jit_inv q' ∧ num_pkt q <= num_pkt q'.
Proof.
  apply (enqueue_timed q time_us p JIT_PKT_TYPE_BEACON _ _ e q' p' eq_refl). intros p1. unfold timed. cbn [node_of pre_delay post_delay].
  unfold TX_START_DELAY, BEACON_GUARD, TX_JIT_DELAY, BEACON_RESERVED. lia.
Qed.

Lemma conflict_free_app_r d l : conflict_free (d ++ l) → conflict_free l.
Proof.
  induction d as [|n d IH]; [done|]. cbn [app]. intros (_ & _ & H)%conflict_free_cons. by apply IH.
Qed.

Lemma dequeue_inv q i e q' r :
  0 <= i < num_pkt q → jit_dequeue qsort q i false = Ret (e, q', r) → jit_inv q → jit_inv q'.
Proof.
  intros Hi E (l & R & C). pose proof R as (Hn & _).
  destruct (lookup_lt_is_Some_2 l (Z.to_nat i)) as [n Hl]; [lia|].
  destruct (repr_dequeue qsort q l _ n R Hl) as (q1 & l1 & E1 & R1 & Hp).
  rewrite Z2Nat.id in E1 by lia. rewrite E1 in E. injection E as _ <- _.
  exists l1. split; [done|]. apply (conflict_free_perm _ _ Hp) in C.
  by apply conflict_free_cons in C as (_ & _ & C).
Qed.

(** What a returning peek did to the queue: it removed outdated packets. *)
Lemma peek_purges q l time_us e q' r :
  repr q l → jit_peek qsort q time_us false = Some (Ret (e, q', r)) →
  ∃ dropped l', repr q' l' ∧ l ≡ₚ dropped ++ l' ∧
    Forall (λ n, outdated time_us n = true) dropped.
Proof.
  intros R. unfold jit_peek. destruct (jit_queue_is_empty q).
  { intros [= _ <- _]. exists [], l. by split_and_all. }
  destruct (peek_loop qsort peek_fuel time_us 0 (-1) q) as [[[idx q1]| |]|] eqn:E; try done.
  cbn [mbind option_bind]. rewrite ret_bind. destruct (buf_get (nodes q1) idx); try done.
  rewrite ret_bind. intros E'. assert (q' = q1) as ->.
  { destruct (_ <? _); injection E' as _ <- _; done. }
  by apply (repr_peek_loop qsort peek_fuel time_us 0 (-1) q l idx q1 R ltac:(lia)).
Qed.

Lemma peek_inv q time_us e q' r :
  jit_peek qsort q time_us false = Some (Ret (e, q', r)) → jit_inv q → jit_inv q'.
Proof.
  intros E (l & R & C). destruct (peek_purges q l time_us e q' r R E) as (d & l' & R' & Hp & _).
  exists l'. split; [done|]. apply (conflict_free_perm _ _ Hp) in C. by eapply conflict_free_app_r.
Qed.

Lemma step_inv q q' : jit_step q q' → jit_inv q → jit_inv q'.
Proof.
  intros Hs. destruct Hs; intros Hi;
    [by eapply enqueue_inv|by eapply dequeue_inv|by eapply peek_inv].
Qed.

(** C1. In every state the forwarder can bring a queue into, by any sequence of
    enqueues, dequeues and peeks at any times, the array represents its
    packets (the slots in use are the first [num_pkt], the others are clear,
    both counters are right, at most 32 packets), and any two queued packets
    are separated on the air: each starts later than the end of the other plus
    the start delay and the margin, in both directions around the 32-bit
    counter. *)
Theorem jit_reachable_conflict_free q :
  rtc jit_step jit_queue_init q →
  repr q (live q) ∧
  ∀ i j n m, i ≠ j → live q !! i = Some n → live q !! j = Some m → separated n m.
Proof.
  intros Hs. assert (jit_inv q) as (l & R & C).
  { assert (H0 : jit_inv jit_queue_init).
    { exists []. split; [apply repr_init|]. split; constructor. }
    induction Hs as [|q0 q1 q2 H1 _ IH]; [done|]. by apply IH, (step_inv q0). }
  rewrite (repr_live q l R). split; [done|]. intros i j n m Hij Hi Hj.
  apply (FOP_lookup separated l i j); [apply C|done..].
Qed.

(** C3. [jit_enqueue] implements the abstract queue, a bag of packets: a full
    queue refuses; otherwise the packet (an immediate downlink with the time
    the search gave it) is refused with the first of the three criteria it
    fails (too late, too early, overlap), and a refused packet leaves the queue
    as it was; a packet that fails none is added, nothing else changes, and the
    bag is kept in time order when it spans less than [2^31] us. *)
Theorem jit_enqueue_refines q l time_us p ty pre post :
  repr q l → packet_delays sw p ty = Ret (pre, post) →
  let p' := stamped time_us l p ty pre post in
  if decide (length l = 32%nat) then
    jit_enqueue qsort sw q time_us (Some p) ty = Ret (JIT_ERROR_FULL, q, Some p)
  else match refusal time_us l p' ty pre post with
  | Some e => jit_enqueue qsort sw q time_us (Some p) ty = Ret (e, q, Some p')
  | None => ∃ q' l',
      jit_enqueue qsort sw q time_us (Some p) ty = Ret (JIT_ERROR_OK, q', Some p') ∧
      repr q' l' ∧ l' ≡ₚ node_of p' ty pre post :: l ∧
      ∀ base, Forall (λ n, advance base n < 2 ^ 31) (node_of p' ty pre post :: l) →
        StronglySorted (λ x y, advance base x <= advance base y) l'
  end.
Proof.
  intros R Hd p'. pose proof (repr_enqueue qsort sw q l time_us p ty pre post R Hd) as H.
  cbv zeta in H. fold p' in H. destruct (decide _); [done|].
  destruct (refusal _ _ _ _ _ _); [done|]. destruct H as (q' & l' & HE & R' & Hp & HS).
  exists q', l'. split; [done|]. split; [done|]. split; [done|]. intros base Hw.
  apply sorted_window; [by rewrite Hp|]. apply HS. by apply (consistent_window base).
Qed.

(** When no queued packet is outdated, [jit_peek] leaves the queue as it is
    and selects a packet with the smallest advance on the current time (around
    the counter) if it is due within [TX_JIT_DELAY], and none otherwise; the
    index it gives makes [jit_dequeue] hand out exactly that packet and remove
    it and nothing else. *)
Theorem jit_peek_dequeue_earliest q l time_us :
  repr q l → l ≠ [] → Forall (λ n, outdated time_us n = false) l →
  ∃ i b, l !! i = Some b ∧ (∀ n, n ∈ l → advance time_us b <= advance time_us n) ∧
  if advance time_us b <? TX_JIT_DELAY then
    jit_peek qsort q time_us false = Some (Ret (JIT_ERROR_OK, q, Some (Z.of_nat i))) ∧
    ∃ q' l', jit_dequeue qsort q (Z.of_nat i) false
             = Ret (JIT_ERROR_OK, q', Some (pkt b, pkt_type b)) ∧
             repr q' l' ∧ l ≡ₚ b :: l'
  else jit_peek qsort q time_us false = Some (Ret (JIT_ERROR_OK, q, Some (-1))).
Proof.
  intros R Hne Ho. destruct (repr_peek qsort q l time_us R Hne Ho) as (i & b & Hi & Hm & HP).
  exists i, b. split; [done|]. split; [done|]. destruct (_ <? TX_JIT_DELAY); [|done].
  split; [done|]. by apply repr_dequeue.
Qed.

(** [jit_peek] always ends, for every queue and time: the restarts of its
    loop after a purge are bounded. When it returns, the packets that left the
    queue were all outdated, and the queue still represents the others. *)
Theorem jit_peek_terminates q l time_us :
  repr q l →
  jit_peek qsort q time_us false ≠ None ∧
  ∀ e q' r, jit_peek qsort q time_us false = Some (Ret (e, q', r)) →
    ∃ dropped l', repr q' l' ∧ l ≡ₚ dropped ++ l' ∧
      Forall (λ n, outdated time_us n = true) dropped.
Proof.
  intros R. split; [|intros; by eapply peek_purges].
  unfold jit_peek. destruct (jit_queue_is_empty q); [done|].
  destruct (peek_loop qsort peek_fuel time_us 0 (-1) q) eqn:E; [done|]. exfalso.
  revert E. apply (peek_loop_terminates qsort peek_fuel time_us 0 (-1) q l R); [lia|].
  pose proof R as (_ & H & _). unfold peek_fuel. lia.
Qed.

(** C39. When the first of at most two queued packets is outdated, [jit_peek]
    removes it and then reads [nodes[-1]]: the restart of the loop sets [i] to
    0 and [continue] increments it, so the remaining packet, due or not, is
    never examined and no packet is selected. *)
Theorem jit_peek_purge_undefined q n r time_us :
  repr q (n :: r) → (length r <= 1)%nat → outdated time_us n = true →
  jit_peek qsort q time_us false = Some Undef.
Proof.
  intros R Hr Ho. pose proof R as (Hn & _). cbn [length] in Hn.
  unfold jit_peek, jit_queue_is_empty. rewrite (proj2 (Z.eqb_neq _ _)) by lia.
  assert (∃ f, peek_fuel = S (S f)) as [f ->] by (by exists 1087%nat). cbn [peek_loop].
  rewrite (proj2 (Z.ltb_lt _ _)) by lia. cbn [negb].
  destruct (repr_remove qsort q (n :: r) 0 n R eq_refl) as (q1 & l1 & Hrem & R1 & Hp).
  pose proof (repr_get q (n :: r) 0 n R eq_refl) as Hg.
  change (Z.of_nat 0) with 0 in *. rewrite Hg, Ho, Hrem.
  apply Permutation_length in Hp. cbn [length] in Hp. pose proof R1 as (Hn1 & _).
  rewrite (proj2 (Z.ltb_ge _ _)) by lia. reflexivity.
Qed.

(** ** Immediate downlinks *)

Lemma collision_none_of_free count pre post ty l :
  Forall timed l → 0 <= post <= 4000000000 →
  Forall (λ n, jit_collision_test count pre post (count_of n) (pre_delay n) (post_delay n) = false) l →
  collision count pre post ty l = None.
Proof.
  intros Ht Hp. induction l as [|n l IH]; intros Hf; [done|].
  apply List.Forall_cons_iff in Ht as [[Hn1 Hn2] Ht].
  apply List.Forall_cons_iff in Hf as [Hn Hf]. cbn [collision].
  destruct (_ && _)%bool; [|rewrite Hn; by apply IH].
  assert (jit_collision_test count pre post (count_of n) TX_START_DELAY (post_delay n) = false) as ->;
    [|by apply IH].
  revert Hn. unfold jit_collision_test, TX_START_DELAY, BEACON_GUARD, TX_MARGIN_DELAY, TX_JIT_DELAY in *.
  rewrite !orb_false_iff, !Z.leb_gt. intros [? ?]. split; [done|].
  rewrite u32_id in * by lia. lia.
Qed.

(** An immediate (class C) downlink is sent as soon as possible: if the
    slot 80 ms ahead overlaps no queued packet, [jit_enqueue] accepts the
    packet, gives it exactly that time and makes it a timestamped one. *)
Theorem jit_class_c_asap q l time_us p toa :
  repr q l → Forall timed l → (length l < 32)%nat →
  lgw_time_on_air sw (Some p) = Ret toa → 0 <= toa <= 4000000 →
  let slot := u32 (time_us + 80000) in
  Forall (λ n, jit_collision_test slot 41500 (toa * 1000)
                 (count_of n) (pre_delay n) (post_delay n) = false) l →
  ∃ q' l',
    jit_enqueue qsort sw q time_us (Some p) JIT_PKT_TYPE_DOWNLINK_CLASS_C
    = Ret (JIT_ERROR_OK, q', Some (Tx.set_mode_count TIMESTAMPED slot p)) ∧
    repr q' l' ∧
    l' ≡ₚ node_of (Tx.set_mode_count TIMESTAMPED slot p) JIT_PKT_TYPE_DOWNLINK_CLASS_C
            41500 (toa * 1000) :: l.
Proof.
  intros R Ht Hl Htoa Hb slot Hf.
  assert (Hd : packet_delays sw p JIT_PKT_TYPE_DOWNLINK_CLASS_C = Ret (41500, toa * 1000)).
  { unfold packet_delays. rewrite Htoa. cbn. rewrite u32_id by lia. done. }
  pose proof (repr_enqueue qsort sw q l time_us p _ _ _ R Hd) as H. cbv zeta in H.
  rewrite decide_False in H by lia.
  assert (Hs : stamped time_us l p JIT_PKT_TYPE_DOWNLINK_CLASS_C 41500 (toa * 1000)
               = Tx.set_mode_count TIMESTAMPED slot p).
  { unfold stamped, asap_count. rewrite bool_decide_true by done.
    change (2 * TX_JIT_DELAY) with 80000. fold slot.
    destruct (existsb _ l) eqn:E; [|done]. apply existsb_exists in E as (n & Hn & E).
    rewrite List.Forall_forall in Hf. by rewrite (Hf n Hn) in E. }
  rewrite Hs in H. unfold refusal in H. cbv zeta in H. cbn [Tx.count_us Tx.set_mode_count] in H.
  assert (Ha : u32 (slot - time_us) = 80000) by (unfold slot; cint_lia).
  rewrite Ha in H. cbn [Z.leb Z.compare Pos.compare Pos.compare_cont] in H.
  rewrite !bool_decide_false in H by done. cbn [orb andb] in H.
  rewrite collision_none_of_free in H by (done || lia).
  destruct H as (q' & l' & H & R' & Hp & _). by exists q', l'.
Qed.

(** ** Interleaving of the two threads *)

Lemma separated_advance_ne time_us n m :
  separated n m → timed n → timed m → advance time_us n ≠ advance time_us m.
Proof.
  intros [H1 H2] [_ Hn] [_ Hm] E. unfold advance, TX_START_DELAY, TX_MARGIN_DELAY in *.
  assert (u32 (count_of n - count_of m) = 0); [|lia]. revert E. clear. cint_lia.
Qed.

(** In a conflict-free list a packet is known by its advance. *)
Lemma advance_inj time_us l i j n m :
  conflict_free l → l !! i = Some n → l !! j = Some m →
  advance time_us n = advance time_us m → i = j.
Proof.
  intros [Ht Hs] Hi Hj E. destruct (decide (i = j)) as [|Hij]; [done|]. exfalso.
  rewrite List.Forall_forall in Ht.
  apply (separated_advance_ne time_us n m); [|apply Ht..|done].
  - by apply (FOP_lookup separated l i j).
  - apply list_elem_of_In. by eapply list_elem_of_lookup_2.
  - apply list_elem_of_In. by eapply list_elem_of_lookup_2.
Qed.

Lemma sorted_head_min {A} (f : A → Z) l x y :
  StronglySorted (λ x y, f x <= f y) l → l !! 0%nat = Some x → y ∈ l → f x <= f y.
Proof.
  intros HS Hx Hy. destruct HS as [|a l HS Ha]; [done|]. cbn in Hx. injection Hx as ->.
  rewrite List.Forall_forall in Ha. apply elem_of_cons in Hy as [->|Hy]; [lia|].
  by apply Ha, list_elem_of_In.
Qed.

Lemma refusal_not_ok time_us l p ty pre post :
  refusal time_us l p ty pre post ≠ Some JIT_ERROR_OK.
Proof.
  unfold refusal. cbv zeta. destruct (_ <=? _); [done|]. destruct (_ && _)%bool; [done|].
  induction l as [|n r IH]; [done|]. cbn [collision].
  destruct (jit_collision_test _ _ _ _ _ _); [by destruct (pkt_type n)|apply IH].
Qed.

(** What an accepting [jit_enqueue] did. *)
Lemma enqueue_accepted q l time_us p ty pre post q1 p' :
  repr q l → packet_delays sw p ty = Ret (pre, post) →
  jit_enqueue qsort sw q time_us (Some p) ty = Ret (JIT_ERROR_OK, q1, Some p') →
  p' = stamped time_us l p ty pre post ∧ refusal time_us l p' ty pre post = None ∧
  ∃ l', repr q1 l' ∧ l' ≡ₚ node_of p' ty pre post :: l ∧
    (consistent compare (node_of p' ty pre post :: l) →
     StronglySorted (λ x y, compare x y <= 0) l').
Proof.
  intros R Hd HE. pose proof (repr_enqueue qsort sw q l time_us p ty pre post R Hd) as H.
  cbv zeta in H. destruct (decide _); [by rewrite HE in H|].
  destruct (refusal time_us l (stamped time_us l p ty pre post) ty pre post) as [e|] eqn:Er.
  - rewrite H in HE. injection HE as -> _ _. by apply refusal_not_ok in Er.
  - destruct H as (q' & l' & HE' & H). rewrite HE' in HE. injection HE as <- <-.
    split; [done|]. split; [done|]. by exists l'.
Qed.

(** The index [jit_peek] gives stays good across the lock: the JIT thread
    peeks and dequeues in two critical sections, and the downlink thread may
    enqueue a packet in between (at a time at most 1000 s later, for a time at
    most 1000 s ahead), which sorts the queue again. From a conflict-free queue
    in time order without outdated packets, [jit_dequeue] at the peeked index
    still hands out the peeked packet. *)
Theorem jit_peek_enqueue_dequeue q l t1 i q1 t2 p ty pre post p' :
  repr q l → conflict_free l → l ≠ [] →
  Forall (λ n, outdated t1 n = false) l →
  StronglySorted (λ x y, advance t1 x <= advance t1 y) l →
  jit_peek qsort q t1 false = Some (Ret (JIT_ERROR_OK, q, Some i)) → 0 <= i →
  packet_delays sw p ty = Ret (pre, post) →
  jit_enqueue qsort sw q t2 (Some p) ty = Ret (JIT_ERROR_OK, q1, Some p') →
  u32 (t2 - t1) <= 1000000000 → u32 (Tx.count_us p' - t2) <= 1000000000 →
  ∃ b q2, l !! Z.to_nat i = Some b ∧ advance t1 b < TX_JIT_DELAY ∧
    jit_dequeue qsort q1 i false = Ret (JIT_ERROR_OK, q2, Some (pkt b, pkt_type b)).
Proof.
  intros R C Hne Ho HS HP Hi Hd HE Hdt Hadv.
  destruct (repr_peek qsort q l t1 R Hne Ho) as (j & b & Hj & Hmin & HP').
  rewrite HP' in HP. destruct (Z.ltb_spec (advance t1 b) TX_JIT_DELAY) as [Hb|Hb];
    injection HP as HP; [|lia]. subst i. rewrite Nat2Z.id.
  assert (j = 0%nat) as ->.
  { destruct (lookup_lt_is_Some_2 l 0) as [n0 H0]; [destruct l; [done|cbn; lia]|].
    apply (advance_inj t1 l j 0 b n0 C Hj H0).
    pose proof (Hmin n0 ltac:(by eapply list_elem_of_lookup_2)).
    pose proof (sorted_head_min _ l n0 b HS H0 ltac:(by eapply list_elem_of_lookup_2)). lia. }
  destruct (enqueue_accepted q l t2 p ty pre post q1 p' R Hd HE) as (_ & Er & l' & R' & Hp & HSort).
  set (n1 := node_of p' ty pre post) in *.
  assert (Hn1 : TX_JIT_DELAY <= advance t1 n1 < 2 ^ 31).
  { revert Er. unfold refusal. cbv zeta. destruct (Z.leb_spec (u32 (Tx.count_us p' - t2)) 42500); [done|].
    intros _. unfold advance, TX_JIT_DELAY. change (count_of n1) with (Tx.count_us p').
    revert Hdt Hadv H. generalize (Tx.count_us p'). clear. intros. cint_lia. }
  assert (Hw : Forall (λ n, advance t1 n < 2 ^ 31) (n1 :: l)).
  { constructor; [lia|]. eapply List.Forall_impl; [|exact Ho]. intros n. unfold outdated.
    rewrite Z.leb_gt. fold (advance t1 n). unfold TX_MAX_ADVANCE_DELAY, JIT_NUM_BEACON_IN_QUEUE. lia. }
  assert (HS' : StronglySorted (λ x y, advance t1 x <= advance t1 y) l').
  { apply sorted_window; [by rewrite Hp|]. apply HSort. by apply (consistent_window t1). }
  assert (Hb' : b ∈ l') by (rewrite Hp; apply elem_of_cons; right; by eapply list_elem_of_lookup_2).
  destruct (lookup_lt_is_Some_2 l' 0) as [h Hh];
    [rewrite (Permutation_length Hp); cbn; lia|].
  pose proof (sorted_head_min _ l' h b HS' Hh Hb') as Hle.
  assert (h = b) as ->.
  { assert (Hin : h ∈ n1 :: l) by (rewrite <- Hp; by eapply list_elem_of_lookup_2).
    apply elem_of_cons in Hin as [->|Hin]; [lia|].
    apply list_elem_of_lookup in Hin as [k Hk].
    pose proof (Hmin h ltac:(by eapply list_elem_of_lookup_2)) as Hge.
    assert (k = 0%nat) as -> by (apply (advance_inj t1 l k 0 h b C Hk Hj); lia). by simplify_eq. }
  destruct (repr_dequeue qsort q1 l' 0 b R' Hh) as (q2 & l2 & HD & _).
  exists b, q2. split; [done|]. split; [done|]. exact HD.
Qed.
End Properties.

(** ** Witnesses *)

Definition sample_at (count : Z) : lgw_pkt_tx_s := Tx.set_mode_count TIMESTAMPED count sample_lora.
Definition node_at (count : Z) : jit_node_s :=
  node_of (sample_at count) JIT_PKT_TYPE_DOWNLINK_CLASS_A 41500 62000.

Definition queue_of {A} (o : outcome (jit_error_e * jit_queue_s * A)) : jit_queue_s :=
  match o with Ret (_, q, _) => q | _ => jit_queue_init end.
Definition demo_enqueue (q : jit_queue_s) (time_us count : Z) :=
  jit_enqueue isort 3 q time_us (Some (sample_at count)) JIT_PKT_TYPE_DOWNLINK_CLASS_A.

(** A queue with packets at 1 s and 2 s, the later one enqueued first. *)
Definition demo1 : jit_queue_s := queue_of (demo_enqueue jit_queue_init 0 2000000).
Definition demo2 : jit_queue_s := queue_of (demo_enqueue demo1 0 1000000).

Lemma demo1_repr : repr demo1 [node_at 2000000].
Proof. unfold repr. split_and_all; vm_compute; reflexivity || lia. Qed.
Lemma demo2_repr : repr demo2 [node_at 1000000; node_at 2000000].
Proof. unfold repr. split_and_all; vm_compute; reflexivity || lia. Qed.
Lemma demo_toa c : lgw_time_on_air 3 (Some (sample_at c)) = Ret 62.
Proof. vm_compute. reflexivity. Qed.

Lemma demo2_timed : Forall timed [node_at 1000000; node_at 2000000].
Proof. repeat constructor; vm_compute; discriminate. Qed.
Lemma demo2_conflict_free : conflict_free [node_at 1000000; node_at 2000000].
Proof.
  split; [apply demo2_timed|]. repeat constructor; vm_compute; reflexivity.
Qed.
Lemma demo2_steps : rtc (jit_step isort 3) jit_queue_init demo2.
Proof.
  apply rtc_l with demo1; [|apply rtc_once].
  - eapply (step_enqueue isort 3 _ 0 (sample_at 2000000) JIT_PKT_TYPE_DOWNLINK_CLASS_A 62);
      [apply demo_toa|lia|vm_compute; reflexivity].
  - eapply (step_enqueue isort 3 _ 0 (sample_at 1000000) JIT_PKT_TYPE_DOWNLINK_CLASS_A 62);
      [apply demo_toa|lia|vm_compute; reflexivity].
Qed.

Lemma jit_reachable_conflict_free_witness :
  repr demo2 (live demo2) ∧
  ∀ i j n m, i ≠ j → live demo2 !! i = Some n → live demo2 !! j = Some m → separated n m.
Proof. exact (jit_reachable_conflict_free isort 3 demo2 demo2_steps). Defined.

(** A class A packet that overlaps the one at 1 s is refused. *)
Lemma jit_enqueue_refines_witness :
  jit_enqueue isort 3 demo2 0 (Some (sample_at 1050000)) JIT_PKT_TYPE_DOWNLINK_CLASS_A
  = Ret (JIT_ERROR_COLLISION_PACKET, demo2, Some (sample_at 1050000)).
Proof.
  exact (jit_enqueue_refines isort 3 demo2 [node_at 1000000; node_at 2000000] 0 (sample_at 1050000)
    JIT_PKT_TYPE_DOWNLINK_CLASS_A 41500 62000 demo2_repr eq_refl).
Defined.

Lemma jit_peek_dequeue_earliest_witness :
  ∃ i b, [node_at 1000000; node_at 2000000] !! i = Some b ∧
    (∀ n, n ∈ [node_at 1000000; node_at 2000000] → advance 970000 b <= advance 970000 n) ∧
    if advance 970000 b <? TX_JIT_DELAY then
      jit_peek isort demo2 970000 false = Some (Ret (JIT_ERROR_OK, demo2, Some (Z.of_nat i))) ∧
      ∃ q' l', jit_dequeue isort demo2 (Z.of_nat i) false
               = Ret (JIT_ERROR_OK, q', Some (pkt b, pkt_type b)) ∧
               repr q' l' ∧ [node_at 1000000; node_at 2000000] ≡ₚ b :: l'
    else jit_peek isort demo2 970000 false = Some (Ret (JIT_ERROR_OK, demo2, Some (-1))).
Proof.
  apply (jit_peek_dequeue_earliest isort demo2 [node_at 1000000; node_at 2000000] 970000 demo2_repr).
  - discriminate.
  - repeat constructor.
Defined.

Lemma jit_peek_terminates_witness :
  jit_peek isort demo2 1500000 false ≠ None ∧
  ∀ e q' r, jit_peek isort demo2 1500000 false = Some (Ret (e, q', r)) →
    ∃ dropped l', repr q' l' ∧ [node_at 1000000; node_at 2000000] ≡ₚ dropped ++ l' ∧
      Forall (λ n, outdated 1500000 n = true) dropped.
Proof. exact (jit_peek_terminates isort demo2 _ 1500000 demo2_repr). Defined.

(** At 1.97 s the packet for 1 s was missed and the one for 2 s is due. *)
Lemma jit_peek_purge_undefined_witness : jit_peek isort demo2 1970000 false = Some Undef.
Proof.
  apply (jit_peek_purge_undefined isort demo2 (node_at 1000000) [node_at 2000000] 1970000).
  - apply demo2_repr.
  - cbn. lia.
  - reflexivity.
Defined.

Lemma jit_class_c_asap_witness :
  ∃ q' l',
    jit_enqueue isort 3 demo2 100 (Some sample_lora) JIT_PKT_TYPE_DOWNLINK_CLASS_C
    = Ret (JIT_ERROR_OK, q', Some (Tx.set_mode_count TIMESTAMPED 80100 sample_lora)) ∧
    repr q' l' ∧
    l' ≡ₚ node_of (Tx.set_mode_count TIMESTAMPED 80100 sample_lora)
            JIT_PKT_TYPE_DOWNLINK_CLASS_C 41500 62000 :: [node_at 1000000; node_at 2000000].
Proof.
  apply (jit_class_c_asap isort 3 demo2 [node_at 1000000; node_at 2000000] 100 sample_lora 62
    demo2_repr demo2_timed).
  - cbn. lia.
  - vm_compute. reflexivity.
  - lia.
  - repeat constructor.
Defined.

(** The packet for 1 s is peeked at 970 ms; one for 1.5 s arrives before the dequeue. *)
Lemma jit_peek_enqueue_dequeue_witness :
  ∃ b q2, [node_at 1000000; node_at 2000000] !! 0%nat = Some b ∧ advance 970000 b < TX_JIT_DELAY ∧
    jit_dequeue isort (queue_of (demo_enqueue demo2 970000 1500000)) 0 false
    = Ret (JIT_ERROR_OK, q2, Some (pkt b, pkt_type b)).
Proof.
  apply (jit_peek_enqueue_dequeue isort 3 demo2 [node_at 1000000; node_at 2000000] 970000 0
    (queue_of (demo_enqueue demo2 970000 1500000)) 970000 (sample_at 1500000)
    JIT_PKT_TYPE_DOWNLINK_CLASS_A 41500 62000 (sample_at 1500000)).
  - apply demo2_repr.
  - apply demo2_conflict_free.
  - discriminate.
  - repeat constructor.
  - repeat constructor; vm_compute; discriminate.
  - vm_compute. reflexivity.
  - lia.
  - vm_compute. reflexivity.
  - vm_compute. reflexivity.
  - vm_compute. discriminate.
  - vm_compute. discriminate.
Defined.
