(* ===== verification/Com.v ===== *)
(** * The communication layer ([libloragw/src/loragw_com.c])

    The concentrator is reached over SPI or over USB. [loragw_com.c] keeps the
    type and the handle of the open link and hands every access to the driver
    of that type. The two drivers are the two values of [driver] the functions
    take; [W] is the state of the world behind them (the device, the driver's
    own static variables).

    [MemBus] is the contract the register layer needs of a link: behind it is
    a memory of bytes that keeps what is written to it. *)
From stdpp Require Import base list numbers.
From Stdlib Require Import ZArith Lia.
From S2P Require Import Prelude.

Open Scope Z_scope.

Definition LGW_COM_SUCCESS : Z := 0.
Definition LGW_COM_ERROR : Z := -1.
Definition LGW_SPI_MUX_TARGET_SX1302 : Z := 0x00.
Definition LGW_SPI_MUX_TARGET_RADIOA : Z := 0x01.
Definition LGW_SPI_MUX_TARGET_RADIOB : Z := 0x02.

Inductive lgw_com_type_t := LGW_COM_SPI | LGW_COM_USB | LGW_COM_UNKNOWN.
#[export] Instance lgw_com_type_t_eq_dec : EqDecision lgw_com_type_t.
Proof. solve_decision. Defined.

Inductive lgw_com_write_mode_t :=
  | LGW_COM_WRITE_MODE_SINGLE
  | LGW_COM_WRITE_MODE_BULK
  | LGW_COM_WRITE_MODE_UNKNOWN.
#[export] Instance lgw_com_write_mode_t_eq_dec : EqDecision lgw_com_write_mode_t.
Proof. solve_decision. Defined.

(** The functions of a driver. Each returns the new world and the C status;
    [drv_open] also says whether it set the handle it was given; a
    read also gives what was stored through its data pointer: nothing on the
    failure of a single read, the final contents of the buffer for a burst. *)
Record driver (W : Type) := {
  drv_open : W → W * (Z * bool);
  drv_close : W → W * Z;
  drv_w : W → Z → Z → Z → W * Z;
  drv_r : W → Z → Z → W * (Z * option Z);
  drv_rmw : W → Z → Z → Z → Z → Z → W * Z;
  drv_wb : W → Z → Z → list Z → W * Z;
  drv_rb : W → Z → Z → list Z → W * (Z * list Z);
  drv_set_write_mode : W → lgw_com_write_mode_t → W * Z;
  drv_flush : W → W * Z;
  drv_chunk_size : Z }.
Arguments drv_open {W}.
Arguments drv_close {W}.
Arguments drv_w {W}.
Arguments drv_r {W}.
Arguments drv_rmw {W}.
Arguments drv_wb {W}.
Arguments drv_rb {W}.
Arguments drv_set_write_mode {W}.
Arguments drv_flush {W}.
Arguments drv_chunk_size {W}.

(** The static variables of [loragw_com.c] and the world. [com_target] says
    whether the handle is set. *)
Record com_state (W : Type) := Com {
  com_type : lgw_com_type_t; com_target : bool; world : W }.
Arguments Com {W}.
Arguments com_type {W}.
Arguments com_target {W}.
Arguments world {W}.

Section Com.
Context {W : Type} (spi usb : driver W).

Definition with_world (s : com_state W) (w : W) : com_state W :=
  Com (com_type s) (com_target s) w.

Definition lgw_com_close (s : com_state W) : com_state W * Z :=
  if negb (com_target s) then (s, -1)
  else
    let '(w, st) :=
      match com_type s with
      | LGW_COM_SPI => drv_close spi (world s)
      | LGW_COM_USB => drv_close usb (world s)
      | LGW_COM_UNKNOWN => (world s, LGW_COM_ERROR)
      end in
    (Com (com_type s) false w, st).

(** [path] is false for a NULL path. The handle is NULL when the driver is
    called, and set or not by the driver. *)
Definition lgw_com_open (s : com_state W) (ty : lgw_com_type_t) (path : bool)
  : com_state W * Z :=
  if negb path then (s, LGW_COM_ERROR)
  else match ty with
  | LGW_COM_UNKNOWN => (s, LGW_COM_ERROR)
  | LGW_COM_SPI | LGW_COM_USB =>
    let s := if com_target s then fst (lgw_com_close s) else s in
    let '(w, (st, target)) := match ty with
                              | LGW_COM_USB => drv_open usb (world s)
                              | _ => drv_open spi (world s)
                              end in
    (Com ty target w, st)
  end.

Definition lgw_com_w (s : com_state W) (mux address data : Z) : com_state W * Z :=
  if negb (com_target s) then (s, LGW_COM_ERROR)
  else match com_type s with
  | LGW_COM_SPI => let '(w, st) := drv_w spi (world s) mux address data in (with_world s w, st)
  | LGW_COM_USB => let '(w, st) := drv_w usb (world s) mux address data in (with_world s w, st)
  | LGW_COM_UNKNOWN => (s, LGW_COM_ERROR)
  end.

Definition lgw_com_r (s : com_state W) (mux address : Z) : com_state W * (Z * option Z) :=
  if negb (com_target s) then (s, (LGW_COM_ERROR, None))
  else match com_type s with
  | LGW_COM_SPI => let '(w, r) := drv_r spi (world s) mux address in (with_world s w, r)
  | LGW_COM_USB => let '(w, r) := drv_r usb (world s) mux address in (with_world s w, r)
  | LGW_COM_UNKNOWN => (s, (LGW_COM_ERROR, None))
  end.

Definition lgw_com_rmw (s : com_state W) (mux address offs leng data : Z) : com_state W * Z :=
  if negb (com_target s) then (s, LGW_COM_ERROR)
  else match com_type s with
  | LGW_COM_SPI =>
    let '(w, st) := drv_rmw spi (world s) mux address offs leng data in (with_world s w, st)
  | LGW_COM_USB =>
    let '(w, st) := drv_rmw usb (world s) mux address offs leng data in (with_world s w, st)
  | LGW_COM_UNKNOWN => (s, LGW_COM_ERROR)
  end.

(** [data] is the buffer from the data pointer on, as long as the size. *)
Definition lgw_com_wb (s : com_state W) (mux address : Z) (data : list Z) : com_state W * Z :=
  if negb (com_target s) then (s, LGW_COM_ERROR)
  else match com_type s with
  | LGW_COM_SPI => let '(w, st) := drv_wb spi (world s) mux address data in (with_world s w, st)
  | LGW_COM_USB => let '(w, st) := drv_wb usb (world s) mux address data in (with_world s w, st)
  | LGW_COM_UNKNOWN => (s, LGW_COM_ERROR)
  end.

Definition lgw_com_rb (s : com_state W) (mux address : Z) (data : list Z)
  : com_state W * (Z * list Z) :=
  if negb (com_target s) then (s, (LGW_COM_ERROR, data))
  else match com_type s with
  | LGW_COM_SPI => let '(w, r) := drv_rb spi (world s) mux address data in (with_world s w, r)
  | LGW_COM_USB => let '(w, r) := drv_rb usb (world s) mux address data in (with_world s w, r)
  | LGW_COM_UNKNOWN => (s, (LGW_COM_ERROR, data))
  end.

Definition lgw_com_set_write_mode (s : com_state W) (m : lgw_com_write_mode_t)
  : com_state W * Z :=
  match com_type s with
  | LGW_COM_SPI => (s, LGW_COM_SUCCESS)
  | LGW_COM_USB => let '(w, st) := drv_set_write_mode usb (world s) m in (with_world s w, st)
  | LGW_COM_UNKNOWN => (s, LGW_COM_ERROR)
  end.

Definition lgw_com_flush (s : com_state W) : com_state W * Z :=
  match com_type s with
  | LGW_COM_SPI => (s, LGW_COM_SUCCESS)
  | LGW_COM_USB => let '(w, st) := drv_flush usb (world s) in (with_world s w, st)
  | LGW_COM_UNKNOWN => (s, LGW_COM_ERROR)
  end.

Definition lgw_com_chunk_size (s : com_state W) : Z :=
  match com_type s with
  | LGW_COM_SPI => u16 (drv_chunk_size spi)
  | LGW_COM_USB => u16 (drv_chunk_size usb)
  | LGW_COM_UNKNOWN => 0
  end.
End Com.

(** ** What the register layer relies on *)

(** The byte of a read-modify-write: [leng] bits of [data] at [offs]. *)
Definition rmw_byte (old offs leng data : Z) : Z :=
  let mask := u8 (Z.shiftl (Z.shiftl 1 leng - 1) offs) in
  let new := u8 (Z.shiftl data offs) in
  u8 (Z.lor (Z.land (Z.lnot mask) old) (Z.land mask new)).

(** An address of the chip, and a run of them. *)
Abbreviation is_addr a := (0 <= a < 2 ^ 15).

(** A driver behind which is the memory [mem] of the SX1302, as long as [up]
    holds (the link works). Accesses to other targets are not constrained. *)
Class MemBus {W} (d : driver W) (up : W → Prop) (mem : W → Z → Z) : Prop := {
  mem_byte : ∀ w a, up w → is_u8 (mem w a);
  bus_chunk : 0 < drv_chunk_size d < 2 ^ 16;
  bus_w : ∀ w a v, up w → is_addr a → is_u8 v →
    ∃ w', drv_w d w LGW_SPI_MUX_TARGET_SX1302 a v = (w', LGW_COM_SUCCESS) ∧ up w' ∧
          ∀ b, mem w' b = if b =? a then v else mem w b;
  bus_r : ∀ w a, up w → is_addr a →
    ∃ w', drv_r d w LGW_SPI_MUX_TARGET_SX1302 a = (w', (LGW_COM_SUCCESS, Some (mem w a))) ∧
          up w' ∧ ∀ b, mem w' b = mem w b;
  bus_rmw : ∀ w a offs leng v, up w → is_addr a → 0 <= offs → 0 <= leng → offs + leng <= 8 →
    is_u8 v →
    ∃ w', drv_rmw d w LGW_SPI_MUX_TARGET_SX1302 a offs leng v = (w', LGW_COM_SUCCESS) ∧ up w' ∧
          ∀ b, mem w' b = if b =? a then rmw_byte (mem w a) offs leng v else mem w b;
  bus_wb : ∀ w a data, up w → is_addr a → a + Z.of_nat (length data) <= 2 ^ 15 →
    0 < Z.of_nat (length data) <= drv_chunk_size d → Forall (λ x, is_u8 x) data →
    ∃ w', drv_wb d w LGW_SPI_MUX_TARGET_SX1302 a data = (w', LGW_COM_SUCCESS) ∧ up w' ∧
          ∀ b, mem w' b = if (a <=? b) && (b <? a + Z.of_nat (length data))
                          then znth 0 data (b - a) else mem w b;
  bus_rb : ∀ w a data, up w → is_addr a → a + Z.of_nat (length data) <= 2 ^ 15 →
    0 < Z.of_nat (length data) <= drv_chunk_size d →
    ∃ w', drv_rb d w LGW_SPI_MUX_TARGET_SX1302 a data
          = (w', (LGW_COM_SUCCESS, (λ k : nat, mem w (a + Z.of_nat k)) <$> seq 0 (length data))) ∧
          up w' ∧ ∀ b, mem w' b = mem w b }.
