(* ===== verification/Spi.v ===== *)
(** * The SPI driver ([libloragw/src/loragw_spi.c])

    The driver talks to the concentrator through Linux's spidev. The system
    calls it makes are the fields of [spidev]; the model of the driver builds
    the very frames the source builds. [SpiChip] states the SX1302's side of
    the protocol: a write frame stores its bytes at consecutive addresses, a
    read frame returns them after one dummy byte. Over such a chip the driver
    is a memory link ([MemBus]), which discharges what the register layer
    assumes. *)
From stdpp Require Import base list numbers.
From Stdlib Require Import ZArith Lia.
From S2P Require Import Prelude Com.

Open Scope Z_scope.

Definition LGW_SPI_SUCCESS : Z := 0.
Definition LGW_SPI_ERROR : Z := -1.
Definition READ_ACCESS : Z := 0x00.
Definition WRITE_ACCESS : Z := 0x80.
Definition LGW_BURST_CHUNK : Z := 1024.
Definition SPI_SPEED : Z := 2000000.

(** The control requests [lgw_spi_open] makes, and the values it passes. *)
Inductive spi_request :=
  | SPI_IOC_WR_MODE | SPI_IOC_RD_MODE
  | SPI_IOC_WR_MAX_SPEED_HZ | SPI_IOC_RD_MAX_SPEED_HZ
  | SPI_IOC_WR_LSB_FIRST | SPI_IOC_RD_LSB_FIRST
  | SPI_IOC_WR_BITS_PER_WORD | SPI_IOC_RD_BITS_PER_WORD.
Definition SPI_MODE_0 : Z := 0.

(** The system: memory allocation, the device file, and a full-duplex message
    given by the bytes shifted out, which returns the value of the [ioctl] and
    the bytes shifted in. *)
Record spidev (W : Type) := {
  sd_malloc : W → W * bool;
  sd_free : W → W;
  sd_open : W → W * Z;
  sd_close : W → W * Z;
  sd_ctl : W → spi_request → Z → W * Z;
  sd_msg : W → list Z → W * (Z * list Z) }.
Arguments sd_malloc {W}.
Arguments sd_free {W}.
Arguments sd_open {W}.
Arguments sd_close {W}.
Arguments sd_ctl {W}.
Arguments sd_msg {W}.

Section Spi.
Context {W : Type} (sys : spidev W).

(** A pair of control requests; true when neither failed. *)
Definition ctl_pair (w : W) (wr rd : spi_request) (i : Z) : W * bool :=
  let '(w, a) := sd_ctl sys w wr i in
  let '(w, b) := sd_ctl sys w rd i in
  (w, negb ((a <? 0) || (b <? 0))).

Definition lgw_spi_open (w : W) : W * Z :=
  let '(w, ok) := sd_malloc sys w in
  if negb ok then (w, LGW_SPI_ERROR)
  else
    let '(w, dev) := sd_open sys w in
    if dev <? 0 then (w, LGW_SPI_ERROR)
    else
      let '(w, ok) := ctl_pair w SPI_IOC_WR_MODE SPI_IOC_RD_MODE SPI_MODE_0 in
      if negb ok then (sd_free sys (fst (sd_close sys w)), LGW_SPI_ERROR)
      else
        let '(w, ok) := ctl_pair w SPI_IOC_WR_MAX_SPEED_HZ SPI_IOC_RD_MAX_SPEED_HZ SPI_SPEED in
        if negb ok then (sd_free sys (fst (sd_close sys w)), LGW_SPI_ERROR)
        else
          let '(w, ok) := ctl_pair w SPI_IOC_WR_LSB_FIRST SPI_IOC_RD_LSB_FIRST 0 in
          if negb ok then (sd_free sys (fst (sd_close sys w)), LGW_SPI_ERROR)
          else
            let '(w, ok) := ctl_pair w SPI_IOC_WR_BITS_PER_WORD SPI_IOC_RD_BITS_PER_WORD 0 in
            if negb ok then (fst (sd_close sys w), LGW_SPI_ERROR)
            else (w, LGW_SPI_SUCCESS).

Definition lgw_spi_close (w : W) : W * Z :=
  let '(w, a) := sd_close sys w in
  let w := sd_free sys w in
  if a <? 0 then (w, LGW_SPI_ERROR) else (w, LGW_SPI_SUCCESS).

(** The address bytes of a frame. *)
Definition addr_hi (access address : Z) : Z :=
  u8 (Z.lor access (Z.land (Z.shiftr address 8) 0x7F)).
Definition addr_lo (address : Z) : Z := u8 (Z.land (Z.shiftr address 0) 0xFF).

Definition lgw_spi_w (w : W) (mux address data : Z) : W * Z :=
  let out_buf := [mux; addr_hi WRITE_ACCESS address; addr_lo address; data] in
  let '(w, (a, _)) := sd_msg sys w out_buf in
  if negb (a =? 4) then (w, LGW_SPI_ERROR) else (w, LGW_SPI_SUCCESS).

Definition lgw_spi_r (w : W) (mux address : Z) : W * (Z * option Z) :=
  let out_buf := [mux; addr_hi READ_ACCESS address; addr_lo address; 0x00; 0x00] in
  let '(w, (a, in_buf)) := sd_msg sys w out_buf in
  if negb (a =? 5) then (w, (LGW_SPI_ERROR, None))
  else (w, (LGW_SPI_SUCCESS, Some (znth 0 in_buf 4))).

Definition lgw_spi_rmw (w : W) (mux address offs leng data : Z) : W * Z :=
  let '(w, (st1, b)) := lgw_spi_r w mux address in
  let buf0 := default 0 b in
  let buf1 := u8 (Z.shiftl (Z.shiftl 1 leng - 1) offs) in
  let buf2 := u8 (Z.shiftl data offs) in
  let buf3 := u8 (Z.lor (Z.land (Z.lnot buf1) buf0) (Z.land buf1 buf2)) in
  let '(w, st2) := lgw_spi_w w mux address buf3 in
  (w, LGW_SPI_SUCCESS + st1 + st2).

(** The loop of [lgw_spi_wb] with [todo] bytes to do in turn [i]; at most
    [n] turns are made, and the bytes still to do are returned. *)
Fixpoint spi_wb_loop (n : nat) (w : W) (command : list Z) (data : list Z) (i todo byte_transfered : Z)
  : W * Z * Z :=
  match n with
  | O => (w, byte_transfered, todo)
  | S n =>
    if todo <=? 0 then (w, byte_transfered, todo)
    else
      let chunk_size := if todo <? LGW_BURST_CHUNK then todo else LGW_BURST_CHUNK in
      let offset := i * LGW_BURST_CHUNK in
      let part := take (Z.to_nat chunk_size) (drop (Z.to_nat offset) data) in
      let '(w, (a, _)) := sd_msg sys w (command ++ part) in
      spi_wb_loop n w command data (i + 1) (todo - chunk_size)
        (s32 (byte_transfered + (a - Z.of_nat (length command))))
  end.

Definition lgw_spi_wb (w : W) (mux address : Z) (data : list Z) : W * Z :=
  let size := Z.of_nat (length data) in
  if size =? 0 then (w, LGW_SPI_ERROR)
  else
    let command := [mux; addr_hi WRITE_ACCESS address; addr_lo address] in
    let '(w, bt, _) := spi_wb_loop (length data) w command data 0 size 0 in
    if negb (bt =? size) then (w, LGW_SPI_ERROR) else (w, LGW_SPI_SUCCESS).

(** The loop of [lgw_spi_rb]: zeros are shifted out, the bytes shifted in
    behind the command are stored in the buffer. *)
Fixpoint spi_rb_loop (n : nat) (w : W) (command : list Z) (data : list Z) (i todo byte_transfered : Z)
  : W * Z * Z * list Z :=
  match n with
  | O => (w, byte_transfered, todo, data)
  | S n =>
    if todo <=? 0 then (w, byte_transfered, todo, data)
    else
      let chunk_size := if todo <? LGW_BURST_CHUNK then todo else LGW_BURST_CHUNK in
      let offset := Z.to_nat (i * LGW_BURST_CHUNK) in
      let '(w, (a, rx)) := sd_msg sys w (command ++ replicate (Z.to_nat chunk_size) 0) in
      let got := take (Z.to_nat chunk_size) (drop (length command) rx) in
      let data := take offset data ++ got ++ drop (offset + length got) data in
      spi_rb_loop n w command data (i + 1) (todo - chunk_size)
        (s32 (byte_transfered + (a - Z.of_nat (length command))))
  end.

Definition lgw_spi_rb (w : W) (mux address : Z) (data : list Z) : W * (Z * list Z) :=
  let size := Z.of_nat (length data) in
  if size =? 0 then (w, (LGW_SPI_ERROR, data))
  else
    let command := [mux; addr_hi READ_ACCESS address; addr_lo address; 0x00] in
    let '(w, bt, _, data) := spi_rb_loop (length data) w command data 0 size 0 in
    if negb (bt =? size) then (w, (LGW_SPI_ERROR, data)) else (w, (LGW_SPI_SUCCESS, data)).

Definition lgw_spi_chunk_size : Z := LGW_BURST_CHUNK.

(** The driver as [loragw_com.c] calls it; the write mode and the flush are not
    handed to it. *)
Definition spi_driver : driver W := {|
  drv_open := λ w, let '(w, st) := lgw_spi_open w in (w, (st, st =? LGW_SPI_SUCCESS));
  drv_close := lgw_spi_close;
  drv_w := lgw_spi_w;
  drv_r := lgw_spi_r;
  drv_rmw := lgw_spi_rmw;
  drv_wb := lgw_spi_wb;
  drv_rb := lgw_spi_rb;
  drv_set_write_mode := λ w _, (w, LGW_SPI_SUCCESS);
  drv_flush := λ w, (w, LGW_SPI_SUCCESS);
  drv_chunk_size := lgw_spi_chunk_size |}.
End Spi.

(** ** The chip's side of the protocol *)

(** The frames of an SX1302 with memory [mem], in the states [up] in which
    messages are transferred whole. *)
Class SpiChip {W} (sys : spidev W) (up : W → Prop) (mem : W → Z → Z) : Prop := {
  chip_byte : ∀ w a, up w → is_u8 (mem w a);
  chip_write : ∀ w a data, up w → is_addr a → a + Z.of_nat (length data) <= 2 ^ 15 →
    Forall (λ x, is_u8 x) data →
    ∃ w' rx, sd_msg sys w ([LGW_SPI_MUX_TARGET_SX1302; 128 + a / 256; a mod 256] ++ data)
             = (w', (3 + Z.of_nat (length data), rx)) ∧ up w' ∧
      ∀ b, mem w' b = if (a <=? b) && (b <? a + Z.of_nat (length data))
                      then znth 0 data (b - a) else mem w b;
  chip_read : ∀ w a n, up w → is_addr a → a + Z.of_nat n <= 2 ^ 15 →
    ∃ w' rx, sd_msg sys w ([LGW_SPI_MUX_TARGET_SX1302; a / 256; a mod 256; 0] ++ replicate n 0)
             = (w', (4 + Z.of_nat n, rx)) ∧ up w' ∧
      drop 4 rx = (λ k : nat, mem w (a + Z.of_nat k)) <$> seq 0 n ∧
      ∀ b, mem w' b = mem w b }.

(** ** The driver over such a chip is a memory link *)

Lemma addr_hi_write a : is_addr a → addr_hi WRITE_ACCESS a = 128 + a / 256.
Proof.
  intros Ha. unfold addr_hi, WRITE_ACCESS. change 0x7F with (Z.ones 7).
  rewrite Z.land_ones, shiftr_div by lia. change (2 ^ 8) with 256.
  assert (a / 256 < 128) by (apply Z.div_lt_upper_bound; lia).
  assert (0 <= a / 256) by (apply Z.div_pos; lia).
  rewrite Z.mod_small by lia.
  replace (Z.lor 128 (a / 256)) with (Z.lor (1 * 2 ^ 7) (a / 256)) by done.
  rewrite lor_shl_add by lia. apply u8_id. lia.
Qed.
Lemma addr_hi_read a : is_addr a → addr_hi READ_ACCESS a = a / 256.
Proof.
  intros Ha. unfold addr_hi, READ_ACCESS. change 0x7F with (Z.ones 7).
  rewrite Z.land_ones, shiftr_div by lia. change (2 ^ 8) with 256.
  assert (a / 256 < 128) by (apply Z.div_lt_upper_bound; lia).
  assert (0 <= a / 256) by (apply Z.div_pos; lia).
  rewrite Z.mod_small, Z.lor_0_l by lia. apply u8_id. lia.
Qed.
Lemma addr_lo_mod a : addr_lo a = a mod 256.
Proof. unfold addr_lo. rewrite land_ff, Z.shiftr_0_r. unfold u8. by rewrite Zmod_mod. Qed.

Section Link.
Context {W : Type} (sys : spidev W) (up : W → Prop) (mem : W → Z → Z).
Context `{!SpiChip sys up mem}.

Lemma spi_w_ok w a v :
  up w → is_addr a → is_u8 v →
  ∃ w', lgw_spi_w sys w LGW_SPI_MUX_TARGET_SX1302 a v = (w', LGW_COM_SUCCESS) ∧ up w' ∧
        ∀ b, mem w' b = if b =? a then v else mem w b.
Proof.
  intros Hup Ha Hv. destruct (chip_write w a [v]) as (w' & rx & E & Hup' & Hm);
    [done|done|cbn [length]; lia|constructor; [done|constructor]|].
  exists w'. unfold lgw_spi_w. rewrite addr_hi_write, addr_lo_mod by done.
  cbn [app] in E. rewrite E. split; [done|]. split; [done|]. intros b. rewrite Hm. cbn [length].
  destruct (Z.leb_spec a b), (Z.ltb_spec b (a + Z.of_nat 1)), (Z.eqb_spec b a); cbn [andb]; try lia.
  by replace (b - a) with 0 by lia.
Qed.

Lemma spi_r_ok w a :
  up w → is_addr a →
  ∃ w', lgw_spi_r sys w LGW_SPI_MUX_TARGET_SX1302 a = (w', (LGW_COM_SUCCESS, Some (mem w a))) ∧
        up w' ∧ ∀ b, mem w' b = mem w b.
Proof.
  intros Hup Ha. destruct (chip_read w a 1) as (w' & rx & E & Hup' & Hrx & Hm); [done|done|lia|].
  exists w'. unfold lgw_spi_r. rewrite addr_hi_read, addr_lo_mod by done.
  cbn [app replicate] in E. rewrite E. split; [|done]. cbn.
  do 3 f_equal. cbn in Hrx. rewrite Z.add_0_r in Hrx.
  destruct rx as [|x0 [|x1 [|x2 [|x3 rx]]]]; try done. cbn in Hrx. rewrite drop_0 in Hrx. by subst rx.
Qed.

Lemma spi_rmw_ok w a o l v :
  up w → is_addr a → is_u8 v →
  ∃ w', lgw_spi_rmw sys w LGW_SPI_MUX_TARGET_SX1302 a o l v = (w', LGW_COM_SUCCESS) ∧ up w' ∧
        ∀ b, mem w' b = if b =? a then rmw_byte (mem w a) o l v else mem w b.
Proof.
  intros Hup Ha Hv. destruct (spi_r_ok w a Hup Ha) as (w1 & E1 & Hup1 & Hm1).
  destruct (spi_w_ok w1 a (rmw_byte (mem w a) o l v) Hup1 Ha (u8_range _)) as (w2 & E2 & Hup2 & Hm2).
  exists w2. unfold lgw_spi_rmw. rewrite E1. cbn [default from_option]. unfold rmw_byte in E2.
  cbv zeta in E2. cbn [id]. rewrite E2. split; [done|]. split; [done|].
  intros b. rewrite Hm2. by destruct (b =? a).
Qed.

(** A burst of at most one chunk is one message. *)
Lemma spi_wb_ok w a data :
  up w → is_addr a → a + Z.of_nat (length data) <= 2 ^ 15 →
  0 < Z.of_nat (length data) <= LGW_BURST_CHUNK → Forall (λ x, is_u8 x) data →
  ∃ w', lgw_spi_wb sys w LGW_SPI_MUX_TARGET_SX1302 a data = (w', LGW_COM_SUCCESS) ∧ up w' ∧
        ∀ b, mem w' b = if (a <=? b) && (b <? a + Z.of_nat (length data))
                        then znth 0 data (b - a) else mem w b.
Proof.
  intros Hup Ha Hle Hl Hb. unfold LGW_BURST_CHUNK in Hl.
  destruct (chip_write w a data Hup Ha Hle Hb) as (w' & rx & E & Hup' & Hm).
  exists w'. split; [|done]. unfold lgw_spi_wb. rewrite (proj2 (Z.eqb_neq _ _)) by lia.
  rewrite addr_hi_write, addr_lo_mod by done.
  assert (∃ n, length data = S n) as [n Hn] by (destruct (length data); [lia|eauto]).
  rewrite Hn at 1. cbn [spi_wb_loop]. rewrite (proj2 (Z.leb_gt _ _)) by lia.
  assert ((if Z.of_nat (length data) <? LGW_BURST_CHUNK then Z.of_nat (length data) else LGW_BURST_CHUNK)
    = Z.of_nat (length data)) as ->.
  { unfold LGW_BURST_CHUNK. destruct (Z.ltb_spec (Z.of_nat (length data)) 1024); lia. }
  rewrite Z.mul_0_l, drop_0, Nat2Z.id, firstn_all, E, Z.sub_diag.
  assert (∀ n i bt, spi_wb_loop sys n w' [LGW_SPI_MUX_TARGET_SX1302; 128 + a / 256; a mod 256] data i 0 bt
    = (w', bt, 0)) as -> by (by intros []).
  cbn [length]. rewrite s32_id by lia. by rewrite (proj2 (Z.eqb_eq _ _)) by lia.
Qed.

Lemma spi_rb_ok w a data :
  up w → is_addr a → a + Z.of_nat (length data) <= 2 ^ 15 →
  0 < Z.of_nat (length data) <= LGW_BURST_CHUNK →
  ∃ w', lgw_spi_rb sys w LGW_SPI_MUX_TARGET_SX1302 a data
        = (w', (LGW_COM_SUCCESS, (λ k : nat, mem w (a + Z.of_nat k)) <$> seq 0 (length data))) ∧
        up w' ∧ ∀ b, mem w' b = mem w b.
Proof.
  intros Hup Ha Hle Hl. unfold LGW_BURST_CHUNK in Hl.
  destruct (chip_read w a (length data) Hup Ha Hle) as (w' & rx & E & Hup' & Hrx & Hm).
  exists w'. split; [|done]. unfold lgw_spi_rb. rewrite (proj2 (Z.eqb_neq _ _)) by lia.
  rewrite addr_hi_read, addr_lo_mod by done.
  assert (∃ n, length data = S n) as [n Hn] by (destruct (length data); [lia|eauto]).
  rewrite Hn at 1. cbn [spi_rb_loop]. rewrite (proj2 (Z.leb_gt _ _)) by lia.
  assert ((if Z.of_nat (length data) <? LGW_BURST_CHUNK then Z.of_nat (length data) else LGW_BURST_CHUNK)
    = Z.of_nat (length data)) as ->.
  { unfold LGW_BURST_CHUNK. destruct (Z.ltb_spec (Z.of_nat (length data)) 1024); lia. }
  rewrite Nat2Z.id, E, Z.sub_diag. cbn [length]. rewrite Hrx.
  set (l := (λ k : nat, mem w (a + Z.of_nat k)) <$> seq 0 (length data)).
  assert (HL : length l = length data) by (unfold l; by rewrite length_fmap, length_seq).
  rewrite Z.mul_0_l. change (Z.to_nat 0) with 0%nat. rewrite take_0, firstn_all2 by lia.
  cbn [app Nat.add]. rewrite drop_ge, app_nil_r by lia.
  assert (∀ n i bt, spi_rb_loop sys n w' [LGW_SPI_MUX_TARGET_SX1302; a / 256; a mod 256; 0] l i 0 bt
    = (w', bt, 0, l)) as -> by (by intros []).
  rewrite s32_id by lia. by rewrite (proj2 (Z.eqb_eq _ _)) by lia.
Qed.

#[export] Instance spi_mem_bus : MemBus (spi_driver sys) up mem.
Proof.
  constructor; cbn [spi_driver drv_chunk_size drv_w drv_r drv_rmw drv_wb drv_rb].
  - apply chip_byte.
  - by unfold lgw_spi_chunk_size, LGW_BURST_CHUNK.
  - apply spi_w_ok.
  - apply spi_r_ok.
  - intros w a o l v Hup Ha _ _ _. by apply spi_rmw_ok.
  - apply spi_wb_ok.
  - apply spi_rb_ok.
Qed.

(** ** Properties *)

(** The SPI driver over a chip that follows the SX1302's frame format is
    the memory link the register layer is proved against: single accesses,
    read-modify-writes and bursts of up to a chunk reach exactly the addressed
    bytes, and every status is the success code. *)
Theorem spi_driver_is_memory_link : MemBus (spi_driver sys) up mem.
Proof. apply spi_mem_bus. Qed.

(** The chunks of one [lgw_spi_wb] are all sent with the same address: a
    burst of one to two chunks (1024 to 2048 bytes) reports success, but its
    second chunk overwrites the start of the first and nothing is written
    behind the first chunk. *)
Theorem spi_wb_second_chunk_overwrites w a data :
  up w → is_addr a → a + LGW_BURST_CHUNK <= 2 ^ 15 →
  LGW_BURST_CHUNK < Z.of_nat (length data) <= 2 * LGW_BURST_CHUNK → Forall (λ x, is_u8 x) data →
  ∃ w', lgw_spi_wb sys w LGW_SPI_MUX_TARGET_SX1302 a data = (w', LGW_SPI_SUCCESS) ∧
    ∀ b, mem w' b =
      if (a <=? b) && (b <? a + (Z.of_nat (length data) - LGW_BURST_CHUNK))
      then znth 0 (drop 1024 data) (b - a)
      else if (a <=? b) && (b <? a + LGW_BURST_CHUNK) then znth 0 (take 1024 data) (b - a)
      else mem w b.
Proof.
  unfold LGW_BURST_CHUNK. intros Hup Ha Hle Hl Hb.
  assert (HL1 : length (take 1024 data) = 1024%nat) by (rewrite length_take; lia).
  assert (HL2 : length (drop 1024 data) = (length data - 1024)%nat) by (by rewrite length_drop).
  destruct (chip_write w a (take 1024 data)) as (w1 & rx1 & E1 & Hup1 & Hm1);
    [done|done|lia|by apply Forall_take|].
  destruct (chip_write w1 a (drop 1024 data)) as (w2 & rx2 & E2 & Hup2 & Hm2);
    [done|done|lia|by apply Forall_drop|].
  exists w2. split.
  - unfold lgw_spi_wb. rewrite (proj2 (Z.eqb_neq _ _)) by lia.
    rewrite addr_hi_write, addr_lo_mod by done.
    assert (∃ n, length data = S (S n)) as [n Hn]
      by (exists (length data - 2)%nat; lia).
    rewrite Hn at 1. cbn [spi_wb_loop]. unfold LGW_BURST_CHUNK.
    rewrite (proj2 (Z.leb_gt _ _)), (proj2 (Z.ltb_ge _ _)) by lia.
    change (Z.to_nat (0 * 1024)) with 0%nat. rewrite drop_0.
    change (Z.to_nat 1024) with 1024%nat. rewrite E1.
    rewrite (proj2 (Z.leb_gt _ _)) by lia.
    assert ((if Z.of_nat (length data) - 1024 <? 1024 then Z.of_nat (length data) - 1024 else 1024)
      = Z.of_nat (length (drop 1024 data))) as ->.
    { rewrite HL2. destruct (Z.ltb_spec (Z.of_nat (length data) - 1024) 1024); lia. }
    change (Z.to_nat ((0 + 1) * 1024)) with 1024%nat. rewrite Nat2Z.id, firstn_all, E2.
    assert (∀ n i t bt, t <= 0 → spi_wb_loop sys n w2
      [LGW_SPI_MUX_TARGET_SX1302; 128 + a / 256; a mod 256] data i t bt = (w2, bt, t)) as ->.
    { intros [|n'] i t bt Ht; [done|]. cbn [spi_wb_loop]. by rewrite (proj2 (Z.leb_le _ _)). }
    2: lia.
    cbn [length]. rewrite HL1, !s32_id by (rewrite ?s32_id; lia).
    by rewrite (proj2 (Z.eqb_eq _ _)) by lia.
  - intros b. rewrite Hm2, Hm1, HL1, HL2.
    replace (Z.of_nat (length data - 1024)) with (Z.of_nat (length data) - 1024) by lia. done.
Qed.
End Link.

(** ** A chip for evaluation *)

(** The memory itself is the state; messages never fail. *)
Definition ideal_msg (m : Z → Z) (tx : list Z) : (Z → Z) * (Z * list Z) :=
  match tx with
  | mux :: h :: l :: rest =>
    let a := h mod 128 * 256 + l in
    if 128 <=? h then
      (λ b, if (a <=? b) && (b <? a + Z.of_nat (length rest)) then znth 0 rest (b - a) else m b,
       (Z.of_nat (length tx), tx))
    else
      (m, (Z.of_nat (length tx),
           [0; 0; 0; 0] ++ ((λ k : nat, m (a + Z.of_nat k)) <$> seq 0 (length rest - 1))))
  | _ => (m, (Z.of_nat (length tx), tx))
  end.
Definition ideal : spidev (Z → Z) := {|
  sd_malloc := λ m, (m, true); sd_free := λ m, m; sd_open := λ m, (m, 3); sd_close := λ m, (m, 0);
  sd_ctl := λ m _ _, (m, 0); sd_msg := ideal_msg |}.
Definition ideal_up (m : Z → Z) : Prop := ∀ a, is_u8 (m a).
Definition ideal_mem (m : Z → Z) : Z → Z := m.

#[export] Instance ideal_chip : SpiChip ideal ideal_up ideal_mem.
Proof.
  assert (HA : ∀ a, is_addr a → a / 256 < 128 ∧ 0 <= a / 256 ∧ a / 256 * 256 + a mod 256 = a).
  { intros a Ha. split; [apply Z.div_lt_upper_bound; lia|]. split; [apply Z.div_pos; lia|].
    pose proof (Z.div_mod a 256). lia. }
  constructor.
  - intros w a Hup. apply Hup.
  - intros w a data Hup Ha Hle Hb. destruct (HA a Ha) as (H1 & H2 & H3).
    cbn [sd_msg ideal app]. unfold ideal_msg.
    assert ((128 + a / 256) mod 128 * 256 + a mod 256 = a) as ->.
    { rewrite <- Z.add_mod_idemp_l, Z.mod_same, Z.add_0_l, (Z.mod_small (a / 256)) by lia. lia. }
    rewrite (proj2 (Z.leb_le _ _)) by lia. eexists _, _. split; [|split].
    + do 2 f_equal. cbn [length]. lia.
    + intros b. destruct (_ && _)%bool; [|apply Hup]. unfold znth. destruct (_ <? 0); [lia|].
      destruct (nth_in_or_default (Z.to_nat (b - a)) data 0) as [E| ->]; [|lia].
      rewrite List.Forall_forall in Hb. by apply Hb.
    + done.
  - intros w a n Hup Ha Hle. destruct (HA a Ha) as (H1 & H2 & H3).
    cbn [sd_msg ideal app]. unfold ideal_msg.
    rewrite (proj2 (Z.leb_gt _ _)), (Z.mod_small (a / 256)), H3 by lia.
    eexists _, _. split; [|split; [|split]].
    + do 2 f_equal. cbn [length]. rewrite length_replicate. lia.
    + done.
    + cbn [length drop]. rewrite length_replicate, Nat.sub_succ, Nat.sub_0_r. reflexivity.
    + done.
Qed.

Lemma spi_driver_is_memory_link_witness : MemBus (spi_driver ideal) ideal_up ideal_mem.
Proof. exact (spi_driver_is_memory_link ideal ideal_up ideal_mem). Defined.

Lemma spi_wb_second_chunk_overwrites_witness :
  ∃ w', lgw_spi_wb ideal (λ _, 0) 0 16 (replicate 1024 1 ++ [2]) = (w', LGW_SPI_SUCCESS) ∧
    ∀ b, ideal_mem w' b =
      if (16 <=? b) && (b <? 17) then znth 0 [2] (b - 16)
      else if (16 <=? b) && (b <? 1040) then znth 0 (take 1024 (replicate 1024 1 ++ [2])) (b - 16)
      else 0.
Proof.
  apply (spi_wb_second_chunk_overwrites ideal ideal_up ideal_mem (λ _, 0) 16 (replicate 1024 1 ++ [2])).
  - intros a. lia.
  - lia.
  - vm_compute. discriminate.
  - split; [reflexivity|discriminate].
  - apply (bool_decide_eq_true_1 (Forall (λ x, is_u8 x) (replicate 1024 1 ++ [2]))).
    vm_compute. reflexivity.
Defined.
