(* ===== verification/Mcu.v ===== *)
(** * The MCU behind the USB link ([libloragw/src/loragw_mcu.c])

    A USB concentrator has a microcontroller on a serial line: the host writes
    a header and the requests, and reads a header and the acknowledgements. SPI
    requests to the SX1302 can be collected in a bulk buffer and sent at
    once. *)
From stdpp Require Import base list numbers.
From Stdlib Require Import ZArith Lia.
From S2P Require Import Prelude Com.

Open Scope Z_scope.

(** ** Constants *)

Definition HEADER_CMD_SIZE : Z := 4.
Definition MAX_SIZE_COMMAND : Z := 4200.
Definition LGW_USB_BURST_CHUNK : Z := 4096.
Definition ORDER_ID__REQ_PING : Z := 0x00.
Definition ORDER_ID__REQ_GET_STATUS : Z := 0x01.
Definition ORDER_ID__REQ_BOOTLOADER_MODE : Z := 0x02.
Definition ORDER_ID__REQ_RESET : Z := 0x03.
Definition ORDER_ID__REQ_WRITE_GPIO : Z := 0x04.
Definition ORDER_ID__REQ_SPI : Z := 0x05.
Definition ORDER_ID__REQ_MULTIPLE_SPI : Z := 0x06.
Definition ORDER_ID__ACK_PING : Z := 0x40.
Definition ORDER_ID__ACK_GET_STATUS : Z := 0x41.
Definition ORDER_ID__ACK_BOOTLOADER_MODE : Z := 0x42.
Definition ORDER_ID__ACK_RESET : Z := 0x43.
Definition ORDER_ID__ACK_WRITE_GPIO : Z := 0x44.
Definition ORDER_ID__ACK_SPI : Z := 0x45.
Definition ORDER_ID__ACK_MULTIPLE_SPI : Z := 0x46.
Definition MCU_SPI_TARGET_SX1302 : Z := 0.
Definition MCU_SPI_REQ_TYPE_READ_WRITE : Z := 0x01.
Definition MCU_SPI_REQ_TYPE_READ_MODIFY_WRITE : Z := 0x02.
Definition ACK_PING_SIZE : nat := 21.
Definition ACK_GET_STATUS_SIZE : nat := 6.
Definition ACK_GPIO_WRITE_SIZE : nat := 1.

(** ** State and effects *)

(** The result of one [read()]: an interrupted call, another error, or bytes. *)
Inductive read_result := Eintr | Fail | Got (bytes : list Z).

(** The system calls on the serial line, on a state [T] that includes the MCU.
    [tty_rand] is [rand()]; [tty_write] returns the result of [write()]. *)
Record tty (T : Type) := {
  tty_malloc : T → T * bool;
  tty_open : T → T * Z;
  tty_attribs : T → T * bool;
  tty_blocking : T → T * bool;
  tty_close : T → T * Z;
  tty_rand : T → T * Z;
  tty_write : T → list Z → T * Z;
  tty_read : T → Z → T * read_result }.
Arguments tty_malloc {T}.
Arguments tty_open {T}.
Arguments tty_attribs {T}.
Arguments tty_blocking {T}.
Arguments tty_close {T}.
Arguments tty_rand {T}.
Arguments tty_write {T}.
Arguments tty_read {T}.

(** [spi_bulk_buffer] *)
Record spi_req_bulk_s := Bulk { bulk_size : Z; nb_req : Z; bulk_buffer : list Z }.

(** The static variables of [loragw_mcu.c] and [loragw_usb.c]. [usb_stuck] is not
    a variable of the code: it records that a call did not return or was
    undefined, after which the program has no further behaviour (see [Usb.run]). *)
Record usb_state (T : Type) := Usb {
  line : T; buf_hdr : list Z; spi_bulk_buffer : spi_req_bulk_s;
  _lgw_write_mode : lgw_com_write_mode_t; _lgw_spi_req_nb : Z; usb_stuck : bool }.
Arguments Usb {T}.
Arguments line {T}.
Arguments buf_hdr {T}.
Arguments spi_bulk_buffer {T}.
Arguments _lgw_write_mode {T}.
Arguments _lgw_spi_req_nb {T}.
Arguments usb_stuck {T}.

Definition initial {T} (t : T) : usb_state T :=
  Usb t (replicate 4 0) (Bulk 0 0 (replicate (Z.to_nat LGW_USB_BURST_CHUNK) 0))
      LGW_COM_WRITE_MODE_SINGLE 0 false.
Definition set_line {T} (t : T) (s : usb_state T) : usb_state T :=
  Usb t (buf_hdr s) (spi_bulk_buffer s) (_lgw_write_mode s) (_lgw_spi_req_nb s) (usb_stuck s).
Definition set_hdr {T} (h : list Z) (s : usb_state T) : usb_state T :=
  Usb (line s) h (spi_bulk_buffer s) (_lgw_write_mode s) (_lgw_spi_req_nb s) (usb_stuck s).
Definition set_bulk {T} (b : spi_req_bulk_s) (s : usb_state T) : usb_state T :=
  Usb (line s) (buf_hdr s) b (_lgw_write_mode s) (_lgw_spi_req_nb s) (usb_stuck s).
Definition set_mode {T} (m : lgw_com_write_mode_t) (n : Z) (s : usb_state T) : usb_state T :=
  Usb (line s) (buf_hdr s) (spi_bulk_buffer s) m n (usb_stuck s).
Definition set_stuck {T} (s : usb_state T) : usb_state T :=
  Usb (line s) (buf_hdr s) (spi_bulk_buffer s) (_lgw_write_mode s) (_lgw_spi_req_nb s) true.

(** A computation on the state: [None] does not return. *)
Definition io (T A : Type) : Type := usb_state T → option (outcome (usb_state T * A)).
#[export] Instance io_ret {T} : MRet (io T) := λ A a s, Some (Ret (s, a)).
#[export] Instance io_bind {T} : MBind (io T) := λ A B f m s,
  match m s with
  | None => None
  | Some Undef => Some Undef
  | Some (Exit c) => Some (Exit c)
  | Some (Ret (s', a)) => f a s'
  end.
(** The operations on the state and on the line. *)
Definition get {T} : io T (usb_state T) := λ s, Some (Ret (s, s)).
Definition put {T} (s' : usb_state T) : io T () := λ _, Some (Ret (s', ())).
Definition lift {T A} (m : outcome A) : io T A := λ s,
  match m with Ret a => Some (Ret (s, a)) | Exit c => Some (Exit c) | Undef => Some Undef end.
Definition sys {T A} (f : T → T * A) : io T A := λ s,
  let '(t, a) := f (line s) in Some (Ret (set_line t s, a)).
Definition hang {T A} : io T A := λ _, None.

(** ** The code *)

(** The bulk buffer after the insertion, and the status. *)
Definition spi_req_bulk_insert (b : spi_req_bulk_s) (req : list Z) : spi_req_bulk_s * Z :=
  if nb_req b =? 255 then (b, -1)
  else if LGW_USB_BURST_CHUNK <? bulk_size b + Z.of_nat (length req) then (b, -1)
  else (Bulk (u16 (bulk_size b + Z.of_nat (length req))) (u8 (nb_req b + 1))
          (take (Z.to_nat (bulk_size b)) (bulk_buffer b) ++ req ++
           drop (Z.to_nat (bulk_size b) + length req) (bulk_buffer b)), 0).

Definition bytes_be_to_uint32_le (b0 b1 b2 b3 : Z) : Z :=
  u32 (Z.lor (Z.lor (Z.lor (Z.shiftl b0 24) (Z.shiftl b1 16)) (Z.shiftl b2 8)) (Z.shiftl b3 0)).
Definition cmd_get_size (bytes : list Z) : Z :=
  u16 (Z.lor (Z.shiftl (znth 0 bytes 1) 8) (znth 0 bytes 2)).
Definition cmd_get_type (bytes : list Z) : Z := znth 0 bytes 3.

Section Mcu.
Context {T : Type} (tt : tty T).
(** The number of [read()] calls after which a loop is taken not to end. *)
Context (fuel : nat).

(** A partial [write()] is not noticed. A request without payload has the
    empty list. *)
Definition write_req (cmd : Z) (payload : list Z) : io T Z :=
  let payload_size := Z.of_nat (length payload) in
  if MAX_SIZE_COMMAND <? payload_size then mret (-1)
  else
    r ← sys (tty_rand tt);
    let buf_w := [Z.rem r 255; u8 (Z.shiftr payload_size 8); u8 (Z.shiftr payload_size 0); cmd] in
    n ← sys (λ t, tty_write tt t buf_w);
    if n <? 0 then mret (-1)
    else if 0 <? payload_size then
      n ← sys (λ t, tty_write tt t payload);
      if n <? 0 then mret (-1) else mret 0
    else mret 0.

(** A [read()] repeated while it is interrupted; [None] is the error -1. *)
Fixpoint read_retry (n : nat) (count : Z) : io T (option (list Z)) :=
  match n with
  | O => hang
  | S n =>
    r ← sys (λ t, tty_read tt t count);
    match r with
    | Eintr => read_retry n count
    | Fail => mret None
    | Got bytes => mret (Some bytes)
    end
  end.

(** The loop over the payload: the buffer and the number of bytes read. *)
Fixpoint read_payload (n : nat) (buf : list Z) (nb_read size : Z) : io T (list Z * Z) :=
  match n with
  | O => hang
  | S n =>
    r ← read_retry fuel (size - nb_read);
    match r with
    | None => mret (buf, -1)
    | Some bytes =>
      let nb_read' := nb_read + Z.of_nat (length bytes) in
      let buf := take (Z.to_nat nb_read) buf ++ bytes ++ drop (Z.to_nat nb_read') buf in
      if nb_read' <? size then read_payload n buf nb_read' size else mret (buf, nb_read')
    end
  end.

(** The result is the buffer after the call and the number of bytes or -1. The
    header goes to the static [buf_hdr]; a short read leaves the rest of it as
    it was. *)
Definition read_ack (buf : list Z) (buf_size : Z) : io T (list Z * Z) :=
  r ← read_retry fuel HEADER_CMD_SIZE;
  match r with
  | None => mret (buf, -1)
  | Some bytes =>
    s ← get;
    let hdr := bytes ++ drop (length bytes) (buf_hdr s) in
    _ ← put (set_hdr hdr s);
    if (cmd_get_type hdr <? 0x40) || (0x46 <? cmd_get_type hdr) then mret (buf, -1)
    else
      let size := cmd_get_size hdr in
      if buf_size <? size then mret (buf, -1)
      else if 0 <? size then read_payload fuel buf 0 size
      else mret (buf, 0)
  end.
End Mcu.

(** The loop over the acknowledgements of a bulk; each one has at least five
    bytes, so the size bounds the turns. *)
Fixpoint ack_loop (n : nat) (payload : list Z) (size i : Z) : outcome Z :=
  match n with
  | O => Ret 0
  | S n =>
    if negb (i <? size) then Ret 0
    else
      req_type ← buf_get payload (i + 1);
      if negb (req_type =? MCU_SPI_REQ_TYPE_READ_WRITE) &&
         negb (req_type =? MCU_SPI_REQ_TYPE_READ_MODIFY_WRITE) then Ret (-1)
      else
        req_status ← buf_get payload (i + 2);
        if negb (req_status =? 0) then Ret (-1)
        else if req_type =? MCU_SPI_REQ_TYPE_READ_WRITE then
          hi ← buf_get payload (i + 3);
          lo ← buf_get payload (i + 4);
          ack_loop n payload size (i + 5 + u16 (Z.lor (Z.shiftl hi 8) lo))
        else ack_loop n payload size (i + 5)
  end.
Definition decode_ack_spi_bulk (hdr payload : list Z) : outcome Z :=
  if negb (cmd_get_type hdr =? ORDER_ID__ACK_MULTIPLE_SPI) then Ret (-1)
  else ack_loop (Z.to_nat (cmd_get_size hdr)) payload (cmd_get_size hdr) 0.

(** [version] without its final NUL. *)
Record s_ping_info := {
  unique_id_high : Z; unique_id_mid : Z; unique_id_low : Z; version : list Z }.
Definition decode_ack_ping (hdr payload : list Z) : Z * option s_ping_info :=
  let p i := znth 0 payload i in
  if negb (cmd_get_type hdr =? ORDER_ID__ACK_PING) then (-1, None)
  else (0, Some {| unique_id_high := bytes_be_to_uint32_le (p 0) (p 1) (p 2) (p 3);
                   unique_id_mid := bytes_be_to_uint32_le (p 4) (p 5) (p 6) (p 7);
                   unique_id_low := bytes_be_to_uint32_le (p 8) (p 9) (p 10) (p 11);
                   version := take 9 (drop 12 payload) |}).
Definition decode_ack_bootloader_mode (hdr : list Z) : Z :=
  if negb (cmd_get_type hdr =? ORDER_ID__ACK_BOOTLOADER_MODE) then -1 else 0.
(** The temperature is in hundredths of a degree; the code divides it. *)
Record s_status := { system_time_ms : Z; temperature_cent : Z }.
Definition decode_ack_get_status (hdr payload : list Z) : Z * option s_status :=
  let p i := znth 0 payload i in
  if negb (cmd_get_type hdr =? ORDER_ID__ACK_GET_STATUS) then (-1, None)
  else (0, Some {| system_time_ms := bytes_be_to_uint32_le (p 0) (p 1) (p 2) (p 3);
                   temperature_cent := s16 (Z.lor (s16 (Z.shiftl (p 4) 8)) (s16 (p 5))) |}).
Definition decode_ack_gpio_access (hdr payload : list Z) : Z * option Z :=
  if negb (cmd_get_type hdr =? ORDER_ID__ACK_WRITE_GPIO) then (-1, None)
  else (0, Some (znth 0 payload 0)).

Section Requests.
Context {T : Type} (tt : tty T) (fuel : nat).

(** The common start of the requests: the request is written, and its
    acknowledgement read to the first [buf_size] bytes of [buf]. The result is
    the buffer, and whether both worked. *)
Definition exchange (cmd : Z) (payload buf : list Z) (buf_size : Z) : io T (list Z * bool) :=
  r ← write_req tt cmd payload;
  if negb (r =? 0) then mret (buf, false)
  else
    '(buf, n) ← read_ack tt fuel buf buf_size;
    mret (buf, negb (n <? 0)).

(** [junk] is what the local buffer for the acknowledgement holds. *)
Definition mcu_ping (junk : list Z) : io T (Z * option s_ping_info) :=
  '(buf, ok) ← exchange ORDER_ID__REQ_PING [] junk (Z.of_nat ACK_PING_SIZE);
  if negb (ok : bool) then mret (-1, None)
  else s ← get; mret (decode_ack_ping (buf_hdr s) buf).
Definition mcu_boot : io T Z :=
  '(_, ok) ← exchange ORDER_ID__REQ_BOOTLOADER_MODE [] [] 0;
  if negb (ok : bool) then mret (-1) else s ← get; mret (decode_ack_bootloader_mode (buf_hdr s)).
Definition mcu_get_status (junk : list Z) : io T (Z * option s_status) :=
  '(buf, ok) ← exchange ORDER_ID__REQ_GET_STATUS [] junk (Z.of_nat ACK_GET_STATUS_SIZE);
  if negb (ok : bool) then mret (-1, None)
  else s ← get; mret (decode_ack_get_status (buf_hdr s) buf).
Definition mcu_gpio_write (gpio_port gpio_id gpio_value : Z) (junk : list Z) : io T Z :=
  '(buf, ok) ← exchange ORDER_ID__REQ_WRITE_GPIO [gpio_port; gpio_id; gpio_value] junk
                 (Z.of_nat ACK_GPIO_WRITE_SIZE);
  if negb (ok : bool) then mret (-1)
  else
    s ← get;
    let '(r, status) := decode_ack_gpio_access (buf_hdr s) buf in
    if negb (r =? 0) then mret (-1)
    else if negb (default 0 status =? 0) then mret (-1) else mret 0.

(** The buffer holds the request, and then the acknowledgement. *)
Definition mcu_spi_write (in_out_buf : list Z) (buf_size : Z) : io T (list Z * Z) :=
  '(buf, ok) ← exchange ORDER_ID__REQ_MULTIPLE_SPI (take (Z.to_nat buf_size) in_out_buf)
                 in_out_buf buf_size;
  if negb (ok : bool) then mret (buf, -1)
  else
    s ← get;
    r ← lift (decode_ack_spi_bulk (buf_hdr s) buf);
    mret (buf, if negb (r =? 0) then -1 else 0).

Definition mcu_spi_store (in_out_buf : list Z) : io T Z :=
  s ← get;
  let '(b, r) := spi_req_bulk_insert (spi_bulk_buffer s) in_out_buf in
  _ ← put (set_bulk b s);
  mret r.

(** The acknowledgement overwrites the start of the bulk buffer. *)
Definition mcu_spi_flush : io T Z :=
  s ← get;
  let b := spi_bulk_buffer s in
  '(buf, r) ← mcu_spi_write (bulk_buffer b) (bulk_size b);
  s ← get;
  if negb (r =? 0) then
    _ ← put (set_bulk (Bulk (bulk_size b) (nb_req b) buf) s);
    mret (-1)
  else
    _ ← put (set_bulk (Bulk 0 0 buf) s);
    mret 0.
End Requests.
