(* ===== verification/Usb.v ===== *)
(** * The USB driver ([libloragw/src/loragw_usb.c])

    Register accesses as SPI requests to the MCU, one at a time or, in bulk
    mode, collected until [lgw_usb_flush]. *)
From stdpp Require Import base list numbers.
From Stdlib Require Import ZArith Lia.
From S2P Require Import Prelude Com Mcu.

Open Scope Z_scope.

Definition LGW_USB_SUCCESS : Z := 0.
Definition LGW_USB_ERROR : Z := -1.

Section Usb.
Context {T : Type} (tt : tty T) (fuel : nat).

(** The reset sequence of the SX1302 and the SX1261, as in [lgw_usb_open] and
    [lgw_usb_close]; [junk] is the local buffer of each call. *)
Definition usb_reset (junk : list Z) : io T Z :=
  x1 ← mcu_gpio_write tt fuel 0 1 1 junk;
  x2 ← mcu_gpio_write tt fuel 0 2 1 junk;
  x3 ← mcu_gpio_write tt fuel 0 2 0 junk;
  x4 ← mcu_gpio_write tt fuel 0 8 0 junk;
  x5 ← mcu_gpio_write tt fuel 0 8 1 junk;
  mret (Z.lor (Z.lor (Z.lor (Z.lor x1 x2) x3) x4) x5).

(** The loop that empties the line before it is made blocking. *)
Fixpoint usb_drain (n : nat) : io T () :=
  match n with
  | O => hang
  | S n =>
    r ← sys (λ t, tty_read tt t 1);
    match r with
    | Got (_ :: _) => usb_drain n
    | _ => mret ()
    end
  end.

(** The second result says whether [*com_target_ptr] is set: it is from the ping
    on, also when a later step fails. The version of the MCU only causes a
    warning. *)
Definition lgw_usb_open (jp js jg : list Z) : io T (Z * bool) :=
  ok ← sys (tty_malloc tt);
  if negb ok then mret (LGW_USB_ERROR, false)
  else
    fd ← sys (tty_open tt);
    if fd <? 0 then mret (LGW_USB_ERROR, false)
    else
      ok ← sys (tty_attribs tt);
      if negb ok then mret (LGW_USB_ERROR, false)
      else
        _ ← usb_drain fuel;
        ok ← sys (tty_blocking tt);
        if negb ok then mret (LGW_USB_ERROR, false)
        else
          '(r, _) ← mcu_ping tt fuel jp;
          if negb (r =? 0) then mret (LGW_USB_ERROR, true)
          else
            '(r, _) ← mcu_get_status tt fuel js;
            if negb (r =? 0) then mret (LGW_USB_ERROR, true)
            else
              x ← usb_reset jg;
              if negb (x =? 0) then mret (LGW_USB_ERROR, true) else mret (LGW_USB_SUCCESS, true).

Definition lgw_usb_close (jg : list Z) : io T Z :=
  x ← usb_reset jg;
  c ← sys (tty_close tt);
  mret (if negb (x =? 0) || negb (c =? 0) then LGW_USB_ERROR else LGW_USB_SUCCESS).

(** A request is stored in bulk mode and sent otherwise. The result is the
    buffer after the call. *)
Definition usb_request (in_out_buf : list Z) : io T (list Z * Z) :=
  s ← get;
  match _lgw_write_mode s with
  | LGW_COM_WRITE_MODE_BULK =>
    a ← mcu_spi_store in_out_buf;
    s ← get;
    _ ← put (set_mode (_lgw_write_mode s) (u8 (_lgw_spi_req_nb s + 1)) s);
    mret (in_out_buf, a)
  | _ => mcu_spi_write tt fuel in_out_buf (Z.of_nat (length in_out_buf))
  end.

Definition lgw_usb_rmw (address offs leng data : Z) : io T Z :=
  s ← get;
  let in_out_buf :=
    [_lgw_spi_req_nb s; MCU_SPI_REQ_TYPE_READ_MODIFY_WRITE; u8 (Z.shiftr address 8);
     u8 (Z.shiftr address 0); u8 (Z.shiftl (Z.shiftl 1 leng - 1) offs); u8 (Z.shiftl data offs)] in
  '(_, a) ← usb_request in_out_buf;
  mret (if negb (a =? 0) then -1 else 0).

(** The size of the local buffer is computed in 16 bits: the frame must fit. *)
Definition lgw_usb_wb (mux address : Z) (data : list Z) : io T Z :=
  let size := Z.of_nat (length data) in
  if 2 ^ 16 <=? size + 8 then lift Undef
  else
    s ← get;
    let in_out_buf :=
      [_lgw_spi_req_nb s; MCU_SPI_REQ_TYPE_READ_WRITE; MCU_SPI_TARGET_SX1302;
       u8 (Z.shiftr (size + 3) 8); u8 (Z.shiftr (size + 3) 0); mux;
       u8 (Z.lor 0x80 (Z.land (Z.shiftr address 8) 0x7F)); u8 (Z.land (Z.shiftr address 0) 0xFF)]
      ++ data in
    '(_, a) ← usb_request in_out_buf;
    mret (if negb (a =? 0) then -1 else 0).

Definition lgw_usb_rb (mux address : Z) (data : list Z) : io T (Z * list Z) :=
  let size := Z.of_nat (length data) in
  if 2 ^ 16 <=? size + 9 then lift Undef
  else
    s ← get;
    let in_out_buf :=
      [0; MCU_SPI_REQ_TYPE_READ_WRITE; MCU_SPI_TARGET_SX1302;
       u8 (Z.shiftr (size + 4) 8); u8 (Z.shiftr (size + 4) 0); mux;
       u8 (Z.lor 0x00 (Z.land (Z.shiftr address 8) 0x7F)); u8 (Z.land (Z.shiftr address 0) 0xFF); 0]
      ++ data in
    match _lgw_write_mode s with
    | LGW_COM_WRITE_MODE_BULK => mret (-1, data)
    | _ =>
      '(buf, a) ← mcu_spi_write tt fuel in_out_buf (Z.of_nat (length in_out_buf));
      mret (if negb (a =? 0) then (-1, data) else (0, take (length data) (drop 9 buf)))
    end.

Definition lgw_usb_w (mux address data : Z) : io T Z := lgw_usb_wb mux address [data].
(** [junk] is the byte behind the data pointer before the call. *)
Definition lgw_usb_r (mux address junk : Z) : io T (Z * option Z) :=
  '(r, data) ← lgw_usb_rb mux address [junk];
  mret (r, if r =? 0 then Some (znth 0 data 0) else None).

Definition lgw_usb_set_write_mode (m : lgw_com_write_mode_t) : io T Z :=
  match m with
  | LGW_COM_WRITE_MODE_UNKNOWN => mret (-1)
  | _ => s ← get; _ ← put (set_mode m (_lgw_spi_req_nb s) s); mret 0
  end.

Definition lgw_usb_flush : io T Z :=
  s ← get;
  match _lgw_write_mode s with
  | LGW_COM_WRITE_MODE_BULK =>
    _ ← put (set_mode LGW_COM_WRITE_MODE_SINGLE (_lgw_spi_req_nb s) s);
    if _lgw_spi_req_nb s =? 0 then mret 0
    else
      a ← mcu_spi_flush tt fuel;
      s ← get;
      _ ← put (set_mode (_lgw_write_mode s) 0 s);
      mret a
  | _ => mret (-1)
  end.

Definition lgw_usb_chunk_size : Z := u16 LGW_USB_BURST_CHUNK.

Definition lgw_usb_get_temperature (junk : list Z) : io T (Z * option Z) :=
  '(r, st) ← mcu_get_status tt fuel junk;
  mret (if negb (r =? 0) then (-1, None) else (0, temperature_cent <$> st)).

(** The driver as [loragw_com.c] calls it. A call that does not return, or that
    is undefined, has no result: the state is then marked as stuck and does not
    change any more, and the results shown from there on are placeholders
    that say nothing about the program. *)
Definition run {A} (m : io T A) (fail : A) (s : usb_state T) : usb_state T * A :=
  if usb_stuck s then (s, fail)
  else match m s with Some (Ret r) => r | _ => (set_stuck s, fail) end.
Definition usb_driver : driver (usb_state T) := {|
  drv_open := run (lgw_usb_open (replicate ACK_PING_SIZE 0) (replicate ACK_GET_STATUS_SIZE 0)
                                (replicate ACK_GPIO_WRITE_SIZE 0)) (LGW_USB_ERROR, false);
  drv_close := run (lgw_usb_close (replicate ACK_GPIO_WRITE_SIZE 0)) LGW_USB_ERROR;
  drv_w := λ s mux a v, run (lgw_usb_w mux a v) LGW_USB_ERROR s;
  drv_r := λ s mux a, run (lgw_usb_r mux a 0) (LGW_USB_ERROR, None) s;
  drv_rmw := λ s _ a o l v, run (lgw_usb_rmw a o l v) LGW_USB_ERROR s;
  drv_wb := λ s mux a d, run (lgw_usb_wb mux a d) LGW_USB_ERROR s;
  drv_rb := λ s mux a d, run (lgw_usb_rb mux a d) (LGW_USB_ERROR, d) s;
  drv_set_write_mode := λ s m, run (lgw_usb_set_write_mode m) LGW_USB_ERROR s;
  drv_flush := run lgw_usb_flush LGW_USB_ERROR;
  drv_chunk_size := lgw_usb_chunk_size |}.
End Usb.
