(* ===== verification/UsbProps.v ===== *)
(** * The USB driver over an MCU that follows the protocol

    [McuChip] states the serial protocol: what the MCU does with a list of SPI
    requests and how its answer arrives. Over it, the driver is a memory link
    ([MemBus]), and the bulk mode performs the requests in their order. *)
From stdpp Require Import base list numbers.
From Stdlib Require Import ZArith Lia.
From S2P Require Import Prelude Com Spi Mcu Usb.

Open Scope Z_scope.

(** ** The protocol *)

(** An SPI request to the SX1302, as the MCU understands it. A read has dummy
    bytes in the place of the data. *)
Inductive spi_req :=
  | ReqWrite (id a : Z) (data : list Z)
  | ReqRead (id a : Z) (dummy : list Z)
  | ReqRmw (id a mask v : Z).

(** The size of a frame in two bytes. *)
Definition size_bytes (n : nat) : list Z := [Z.of_nat n / 256; Z.of_nat n mod 256].

Definition encode (r : spi_req) : list Z :=
  match r with
  | ReqWrite id a d => [id; 1; 0] ++ size_bytes (length d + 3) ++ [0; 128 + a / 256; a mod 256] ++ d
  | ReqRead id a d => [id; 1; 0] ++ size_bytes (length d + 4) ++ [0; a / 256; a mod 256; 0] ++ d
  | ReqRmw id a mask v => [id; 2; a / 256; a mod 256; mask; v]
  end.
Definition frames (rs : list spi_req) : list Z := concat (encode <$> rs).

Definition req_ok (r : spi_req) : Prop :=
  match r with
  | ReqWrite id a d =>
    is_u8 id ∧ is_addr a ∧ a + Z.of_nat (length d) <= 2 ^ 15 ∧ Forall (λ x, is_u8 x) d
  | ReqRead id a d => is_u8 id ∧ is_addr a ∧ a + Z.of_nat (length d) <= 2 ^ 15
  | ReqRmw id a mask v => is_u8 id ∧ is_addr a ∧ is_u8 mask ∧ is_u8 v
  end.

(** The memory after a request, and the acknowledgement of it. *)
Definition perform (m : Z → Z) (r : spi_req) : Z → Z :=
  match r with
  | ReqWrite _ a d => λ b, if (a <=? b) && (b <? a + Z.of_nat (length d)) then znth 0 d (b - a) else m b
  | ReqRead _ _ _ => m
  | ReqRmw _ a mask v => λ b, if b =? a then u8 (Z.lor (Z.land (Z.lnot mask) (m a)) (Z.land mask v)) else m b
  end.
Definition is_ack (m : Z → Z) (r : spi_req) (l : list Z) : Prop :=
  match r with
  | ReqWrite id a d =>
    ∃ rx, l = [id; 1; 0] ++ size_bytes (length d + 3) ++ rx ∧ length rx = (length d + 3)%nat
  | ReqRead id a d =>
    ∃ rx, l = [id; 1; 0] ++ size_bytes (length d + 4) ++ rx
              ++ ((λ k : nat, m (a + Z.of_nat k)) <$> seq 0 (length d)) ∧ length rx = 4%nat
  | ReqRmw id a mask v => ∃ x y, l = [id; 2; 0; x; y]
  end.
Inductive acks : (Z → Z) → list spi_req → list Z → Prop :=
  | acks_nil m : acks m [] []
  | acks_cons m r rs l ls : is_ack m r l → acks (perform m r) rs ls → acks m (r :: rs) (l ++ ls).

Section Answer.
Context {T : Type} (tt : tty T) (up : T → Prop) (mem : T → Z → Z).

(** The bytes [l] arrive in [n] or fewer calls of [read()], in pieces and with
    interruptions, and then the line is up with the memory [m]. *)
Fixpoint delivers (n : nat) (t : T) (l : list Z) (m : Z → Z) : Prop :=
  match l with
  | [] => up t ∧ ∀ b, mem t b = m b
  | _ :: _ =>
    match n with
    | O => False
    | S n =>
      ∀ count, 0 < count →
        match tty_read tt t count with
        | (t', Eintr) => delivers n t' l m
        | (_, Fail) => False
        | (t', Got bytes) =>
          ∃ rest, bytes ≠ [] ∧ l = bytes ++ rest ∧ Z.of_nat (length bytes) <= count ∧
                  delivers n t' rest m
        end
    end
  end.
(** The header of the answer arrives in one piece. *)
Fixpoint answers (n : nat) (t : T) (hdr l : list Z) (m : Z → Z) : Prop :=
  match n with
  | O => False
  | S n =>
    match tty_read tt t HEADER_CMD_SIZE with
    | (t', Eintr) => answers n t' hdr l m
    | (_, Fail) => False
    | (t', Got bytes) => bytes = hdr ∧ delivers n t' l m
    end
  end.

(** An MCU with the memory [mem] of the SX1302 behind it, when [up] holds: it
    takes a command in a header and a payload, performs the requests in order,
    and answers within [turns] reads. *)
Class McuChip (turns : nat) : Prop := {
  mcu_byte : ∀ t a, up t → is_u8 (mem t a);
  mcu_rand : ∀ t, up t → ∃ t' r, tty_rand tt t = (t', r) ∧ 0 <= r ∧ up t' ∧ ∀ b, mem t' b = mem t b;
  mcu_exec : ∀ t id rs, up t → is_u8 id → rs ≠ [] → Forall req_ok rs → (length rs <= 255)%nat →
    Z.of_nat (length (frames rs)) <= MAX_SIZE_COMMAND →
    ∃ t1 n1 t2 n2 k l,
      tty_write tt t ([id] ++ size_bytes (length (frames rs)) ++ [ORDER_ID__REQ_MULTIPLE_SPI]) = (t1, n1) ∧
      tty_write tt t1 (frames rs) = (t2, n2) ∧ 0 <= n1 ∧ 0 <= n2 ∧
      acks (mem t) rs l ∧
      answers turns t2 ([k] ++ size_bytes (length l) ++ [ORDER_ID__ACK_MULTIPLE_SPI]) l
        (foldl perform (mem t) rs) }.
End Answer.

(** ** Reading an answer *)

Lemma io_step {T A B} (m : io T A) (f : A → io T B) s s' a :
  m s = Some (Ret (s', a)) → (m ≫= f) s = f a s'.
Proof. intros E. unfold mbind, io_bind. by rewrite E. Qed.

Section Read.
Context {T : Type} (tt : tty T) (up : T → Prop) (mem : T → Z → Z).

Lemma read_retry_delivers f n s l m count :
  (n <= f)%nat → l ≠ [] → 0 < count → delivers tt up mem n (line s) l m →
  ∃ t bytes rest n', read_retry tt f count s = Some (Ret (set_line t s, Some bytes)) ∧
    bytes ≠ [] ∧ l = bytes ++ rest ∧ Z.of_nat (length bytes) <= count ∧
    delivers tt up mem n' t rest m ∧ (n' < n)%nat.
Proof.
  intros Hn Hl Hc. revert n s Hn. induction f as [|f IH]; intros n s Hn Hd;
    (destruct l as [|x l]; [done|]); (destruct n as [|n]; [done|]); [lia|].
  cbn [delivers] in Hd. specialize (Hd count Hc). cbn [read_retry].
  destruct (tty_read tt (line s) count) as [t r] eqn:E.
  erewrite io_step by (unfold sys; by rewrite E).
  destruct r as [| |bytes]; [|done|].
  - destruct (IH n (set_line t s) ltac:(lia) Hd) as (t' & bytes & rest & n' & -> & H).
    exists t', bytes, rest, n'. destruct H as (? & ? & ? & ? & ?). split_and!; done || lia.
  - destruct Hd as (rest & Hb & El & Hle & Hd). exists t, bytes, rest, n. split_and!; done || lia.
Qed.

Lemma read_payload_delivers fuel f n s l m pre old post :
  (n <= f)%nat → (n <= fuel)%nat → l ≠ [] → delivers tt up mem n (line s) l m →
  length old = length l →
  ∃ t, read_payload tt fuel f (pre ++ old ++ post) (Z.of_nat (length pre))
         (Z.of_nat (length pre + length l)) s
       = Some (Ret (set_line t s, (pre ++ l ++ post, Z.of_nat (length pre + length l)))) ∧
       up t ∧ ∀ b, mem t b = m b.
Proof.
  revert n s l pre old. induction f as [|f IH]; intros n s l pre old Hf Hn Hl Hd Ho;
    assert (0 < length l)%nat by (by destruct l; [|cbn; lia]).
  { destruct l, n; done || lia. }
  destruct (read_retry_delivers fuel n s l m (Z.of_nat (length pre + length l) - Z.of_nat (length pre)))
    as (t & bytes & rest & n' & E & Hb & -> & _ & Hd' & Hn'); [done|done|lia|done|].
  cbn [read_payload]. erewrite io_step by done. cbv beta iota zeta. rewrite length_app in *.
  replace (Z.of_nat (length pre) + Z.of_nat (length bytes)) with (Z.of_nat (length pre + length bytes)) by lia.
  rewrite !Nat2Z.id, take_app_length.
  assert (∃ o1 o2, old = o1 ++ o2 ∧ length o1 = length bytes ∧ length o2 = length rest)
    as (o1 & o2 & -> & H1 & H2).
  { exists (take (length bytes) old), (drop (length bytes) old).
    rewrite take_drop, length_take, length_drop. split; [done|lia]. }
  rewrite <- drop_drop, drop_app_length, <- !app_assoc, <- H1, drop_app_length, H1.
  destruct rest as [|x rest].
  - rewrite (proj2 (Z.ltb_ge _ _)) by (cbn [length]; lia). exists t.
    assert (o2 = []) as -> by (by destruct o2). cbn [length] in *. rewrite !Nat.add_0_r.
    split; [done|]. by destruct n'.
  - rewrite (proj2 (Z.ltb_lt _ _)) by (cbn [length]; lia).
    destruct (IH n' (set_line t s) (x :: rest) (pre ++ bytes) o2) as (t' & E' & Hup);
      [lia|lia|done|done|done|].
    rewrite !length_app, <- !app_assoc in E'. exists t'. split; [|done].
    rewrite <- Nat.add_assoc in E'. exact E'.
Qed.

Lemma read_retry_answers f n s hdr l m :
  (n <= f)%nat → answers tt up mem n (line s) hdr l m →
  ∃ t n', read_retry tt f HEADER_CMD_SIZE s = Some (Ret (set_line t s, Some hdr)) ∧
          delivers tt up mem n' t l m ∧ (n' < n)%nat.
Proof.
  revert n s. induction f as [|f IH]; intros n s Hn Ha; (destruct n as [|n]; [done|]); [lia|].
  cbn [answers] in Ha. cbn [read_retry].
  destruct (tty_read tt (line s) HEADER_CMD_SIZE) as [t r] eqn:E.
  erewrite io_step by (unfold sys; by rewrite E).
  destruct r as [| |bytes]; [|done|].
  - destruct (IH n (set_line t s) ltac:(lia) Ha) as (t' & n' & -> & Hd & Hn').
    exists t', n'. split_and!; done || lia.
  - destruct Ha as [-> Hd]. exists t, n. split_and!; done || lia.
Qed.

(** The sizes in a header. *)
Definition header (k : Z) (n : nat) (cmd : Z) : list Z := [k] ++ size_bytes n ++ [cmd].
Lemma bytes_u16 n : 0 <= n < 2 ^ 16 → u16 (Z.lor (Z.shiftl (n / 256) 8) (n mod 256)) = n.
Proof.
  intros Hn. pose proof (Z.div_mod n 256). pose proof (Z.mod_pos_bound n 256).
  rewrite shiftl_mul, lor_shl_add by lia. rewrite u16_id; lia.
Qed.
Lemma header_size k n cmd : Z.of_nat n < 2 ^ 16 → cmd_get_size (header k n cmd) = Z.of_nat n.
Proof. intros. apply bytes_u16. lia. Qed.

Lemma read_ack_ok fuel n s k l m old post size :
  (n <= fuel)%nat → length (buf_hdr s) = 4%nat → length old = length l →
  Z.of_nat (length l) <= size → Z.of_nat (length l) < 2 ^ 16 →
  answers tt up mem n (line s) (header k (length l) ORDER_ID__ACK_MULTIPLE_SPI) l m →
  ∃ t, read_ack tt fuel (old ++ post) size s
       = Some (Ret (set_hdr (header k (length l) ORDER_ID__ACK_MULTIPLE_SPI) (set_line t s),
                    (l ++ post, Z.of_nat (length l)))) ∧
       up t ∧ ∀ b, mem t b = m b.
Proof.
  intros Hn Hh Ho Hs Hl Ha. destruct (read_retry_answers fuel n s _ l m Hn Ha) as (t & n' & E & Hd & Hn').
  unfold read_ack. erewrite io_step by done. cbv beta iota. erewrite io_step by done. cbv beta zeta.
  cbn [set_line buf_hdr]. rewrite drop_ge, app_nil_r by (rewrite Hh; cbn; lia).
  erewrite io_step by done. rewrite header_size by done.
  change (cmd_get_type _) with ORDER_ID__ACK_MULTIPLE_SPI. cbn [orb].
  change ((ORDER_ID__ACK_MULTIPLE_SPI <? 64) || (70 <? ORDER_ID__ACK_MULTIPLE_SPI)) with false. cbv iota.
  rewrite (proj2 (Z.ltb_ge size _)) by lia.
  destruct l as [|x l].
  - cbn [length] in *. assert (old = []) as -> by (by destruct old). exists t.
    split; [done|]. by destruct n'.
  - rewrite (proj2 (Z.ltb_lt 0 _)) by (cbn [length]; lia).
    destruct (read_payload_delivers fuel fuel n' (set_hdr (header k (length (x :: l))
      ORDER_ID__ACK_MULTIPLE_SPI) (set_line t s)) (x :: l) m [] old post) as (t' & E' & Hup);
      [lia|lia|done|done|done|].
    exists t'. split; [exact E'|done].
Qed.
End Read.

(** ** The acknowledgements *)

Lemma frames_cons r rs : frames (r :: rs) = encode r ++ frames rs.
Proof. done. Qed.
Lemma frames_app rs rs' : frames (rs ++ rs') = frames rs ++ frames rs'.
Proof. unfold frames. by rewrite fmap_app, concat_app. Qed.

Lemma ack_length m r l : is_ack m r l → (5 <= length l <= length (encode r))%nat.
Proof.
  destruct r as [id a d|id a d|id a mask v]; cbn [is_ack encode].
  - intros (rx & -> & E). rewrite !length_app, E. cbn [size_bytes length]. lia.
  - intros (rx & -> & E). rewrite !length_app, E, length_fmap, length_seq. cbn [size_bytes length]. lia.
  - intros (x & y & ->). cbn [length]. lia.
Qed.
Lemma acks_length m rs l : acks m rs l → (length l <= length (frames rs))%nat.
Proof.
  induction 1 as [|m r rs l ls Hr _ IH]; [done|]. rewrite frames_cons, !length_app.
  pose proof (ack_length _ _ _ Hr). lia.
Qed.

(** The byte [k] behind [pre] is [v]. *)
Ltac byte_at pre k v :=
  rewrite (buf_get_at pre _ (Z.of_nat (length pre) + k) (Z.to_nat k) v) by (done || lia); cstep.

(** One turn of the loop over the acknowledgements skips one of them. *)
Lemma ack_loop_step n m r l pre post size :
  req_ok r → is_ack m r l → Z.of_nat (length pre) < size →
  ack_loop (S n) (pre ++ l ++ post) size (Z.of_nat (length pre))
  = ack_loop n (pre ++ l ++ post) size (Z.of_nat (length pre + length l)).
Proof.
  intros Hr Ha Hs. cbn [ack_loop]. rewrite (proj2 (Z.ltb_lt _ _)) by done. cbn [negb].
  destruct r as [id a d|id a d|id a mask v]; cbn [is_ack] in Ha.
  - destruct Ha as (rx & -> & E). cbn [app size_bytes length] in *.
    byte_at pre 1 1.
    byte_at pre 2 0. cbn.
    byte_at pre 3 (Z.of_nat (length d + 3) / 256).
    byte_at pre 4 (Z.of_nat (length d + 3) mod 256).
    destruct Hr as (_ & Ha & Hd & _). rewrite bytes_u16 by lia. f_equal. lia.
  - destruct Ha as (rx & -> & E). cbn [app size_bytes length] in *.
    byte_at pre 1 1.
    byte_at pre 2 0. cbn -[fmap seq].
    byte_at pre 3 (Z.of_nat (length d + 4) / 256).
    byte_at pre 4 (Z.of_nat (length d + 4) mod 256).
    destruct Hr as (_ & Ha & Hd). rewrite bytes_u16 by lia. f_equal.
    rewrite length_app, length_fmap, length_seq. lia.
  - destruct Ha as (x & y & ->). cbn [app length] in *.
    byte_at pre 1 2.
    byte_at pre 2 0. cbn. f_equal. lia.
Qed.

Lemma ack_loop_acks m rs l : acks m rs l → ∀ n pre post,
  Forall req_ok rs → (length l <= n)%nat →
  ack_loop n (pre ++ l ++ post) (Z.of_nat (length pre + length l)) (Z.of_nat (length pre)) = Ret 0.
Proof.
  induction 1 as [m|m r rs l ls Hr Has IH]; intros n pre post Hok Hn.
  - destruct n; [done|]. cbn [ack_loop length]. by rewrite Nat.add_0_r, Z.ltb_irrefl.
  - apply List.Forall_cons_iff in Hok as [Hok Hoks]. pose proof (ack_length _ _ _ Hr).
    rewrite length_app in *. destruct n as [|n]; [lia|].
    rewrite <- app_assoc, (ack_loop_step n m r) by (done || lia).
    specialize (IH n (pre ++ l) post Hoks ltac:(lia)). rewrite !length_app, <- app_assoc in IH.
    rewrite <- IH. f_equal; lia.
Qed.
Lemma decode_ack_ok m rs l k post :
  acks m rs l → Forall req_ok rs → Z.of_nat (length l) < 2 ^ 16 →
  decode_ack_spi_bulk (header k (length l) ORDER_ID__ACK_MULTIPLE_SPI) (l ++ post) = Ret 0.
Proof.
  intros Ha Hok Hl. unfold decode_ack_spi_bulk. rewrite header_size, Nat2Z.id by done.
  change (cmd_get_type _) with ORDER_ID__ACK_MULTIPLE_SPI. rewrite Z.eqb_refl. cbn [negb].
  exact (ack_loop_acks m rs l Ha (length l) [] post Hok ltac:(lia)).
Qed.

(** ** Memories up to their values *)

Abbreviation same_mem := (pointwise_relation Z (@eq Z)).
#[export] Instance perform_proper : Proper (same_mem ==> (=) ==> same_mem) perform.
Proof.
  intros m m' Hm r _ <- b. destruct r; cbn [perform]; by rewrite ?Hm.
Qed.
#[export] Instance performs_proper : Proper (same_mem ==> (=) ==> same_mem) (foldl perform).
Proof.
  intros m m' Hm rs _ <-. revert m m' Hm. induction rs as [|r rs IH]; intros m m' Hm; [done|].
  cbn [foldl]. apply IH. by apply perform_proper.
Qed.
Lemma acks_same_mem m m' rs l : same_mem m m' → acks m rs l → acks m' rs l.
Proof.
  intros Hm Ha. revert m' Hm. induction Ha as [|m r rs l ls Hr _ IH]; intros m' Hm; constructor.
  - destruct r as [id a d|id a d|id a mask v]; cbn [is_ack] in *; [done| |done].
    destruct Hr as (rx & -> & E). exists rx. split; [|done]. do 3 f_equal.
    apply list_fmap_ext. intros i k _. apply Hm.
  - apply IH. by apply perform_proper.
Qed.

Section SameMem.
Context {T : Type} (tt : tty T) (up : T → Prop) (mem : T → Z → Z).
Lemma delivers_same_mem n t l m m' :
  same_mem m m' → delivers tt up mem n t l m → delivers tt up mem n t l m'.
Proof.
  intros Hm. revert t l. induction n as [|n IH]; intros t [|x l]; cbn [delivers]; [|done| |].
  1, 2: intros [? H]; split; [done|]; intros b; by rewrite H.
  intros H count Hc. specialize (H count Hc). destruct (tty_read tt t count) as [t' [| |bytes]]; [eauto|done|].
  destruct H as (rest & ? & ? & ? & ?). eauto 6.
Qed.
Lemma answers_same_mem n t h l m m' :
  same_mem m m' → answers tt up mem n t h l m → answers tt up mem n t h l m'.
Proof.
  intros Hm. revert t. induction n as [|n IH]; intros t; cbn [answers]; [done|].
  destruct (tty_read tt t HEADER_CMD_SIZE) as [t' [| |bytes]]; [apply IH|done|].
  intros [? ?]. eauto using delivers_same_mem.
Qed.
End SameMem.

(** ** A request, over a working MCU *)

Section Link.
Context {T : Type} (tt : tty T) (up : T → Prop) (mem : T → Z → Z) (turns : nat).
Context `{!McuChip tt up mem turns}.
Context (fuel : nat) (Hfuel : (turns <= fuel)%nat).

(** The driver's state when it can send. *)
Definition link_up (s : usb_state T) : Prop := up (line s) ∧ length (buf_hdr s) = 4%nat ∧ usb_stuck s = false.
(** The state after an exchange: only the line and the header have changed. *)
Definition same_static (s s' : usb_state T) : Prop :=
  spi_bulk_buffer s' = spi_bulk_buffer s ∧ _lgw_write_mode s' = _lgw_write_mode s ∧
  _lgw_spi_req_nb s' = _lgw_spi_req_nb s.

(** The header the host writes. *)
Lemma write_header k n cmd : Z.of_nat n < 2 ^ 16 →
  [k; u8 (Z.shiftr (Z.of_nat n) 8); u8 (Z.shiftr (Z.of_nat n) 0); cmd] = header k n cmd.
Proof.
  intros Hn. unfold header, size_bytes. cbn [app]. rewrite Z.shiftr_0_r, shiftr_div by lia.
  change (2 ^ 8) with 256.
  by rewrite (u8_id (_ / 256)) by (split; [apply Z.div_pos|apply Z.div_lt_upper_bound]; lia).
Qed.

Lemma write_req_ok s rs :
  link_up s → rs ≠ [] → Forall req_ok rs → (length rs <= 255)%nat →
  Z.of_nat (length (frames rs)) <= MAX_SIZE_COMMAND →
  ∃ t k l, write_req tt ORDER_ID__REQ_MULTIPLE_SPI (frames rs) s = Some (Ret (set_line t s, 0)) ∧
    acks (mem (line s)) rs l ∧
    answers tt up mem turns t (header k (length l) ORDER_ID__ACK_MULTIPLE_SPI) l
      (foldl perform (mem (line s)) rs).
Proof.
  intros [Hup Hh] Hne Hok Hcnt Hlen.
  destruct (mcu_rand tt up mem (line s) Hup) as (t0 & r & Er & Hr & Hup0 & Hm0).
  destruct (mcu_exec tt up mem t0 (Z.rem r 255) rs Hup0)
    as (t1 & n1 & t2 & n2 & k & l & E1 & E2 & Hn1 & Hn2 & Ha & Hans);
    [pose proof (Z.rem_bound_pos r 255); lia|done|done|done|done|].
  unfold MAX_SIZE_COMMAND in *. exists t2, k, l. split_and!.
  - unfold write_req, MAX_SIZE_COMMAND. rewrite (proj2 (Z.ltb_ge _ _)) by lia.
    erewrite io_step by (unfold sys; by rewrite Er). rewrite write_header by lia.
    unfold header. erewrite io_step by (unfold sys; cbn [line set_line]; by rewrite E1).
    rewrite (proj2 (Z.ltb_ge _ _)) by lia.
    assert (0 < length (frames rs))%nat.
    { destruct rs as [|q rs]; [done|]. rewrite frames_cons, length_app. destruct q; cbn; lia. }
    rewrite (proj2 (Z.ltb_lt 0 _)) by lia.
    erewrite io_step by (unfold sys; cbn [line set_line]; by rewrite E2).
    by rewrite (proj2 (Z.ltb_ge _ _)) by lia.
  - by apply (acks_same_mem (mem t0)).
  - revert Hans. apply answers_same_mem. by apply performs_proper.
Qed.

Lemma mcu_spi_write_ok s rs post :
  link_up s → rs ≠ [] → Forall req_ok rs → (length rs <= 255)%nat →
  Z.of_nat (length (frames rs)) <= MAX_SIZE_COMMAND →
  ∃ s' l, mcu_spi_write tt fuel (frames rs ++ post) (Z.of_nat (length (frames rs))) s
          = Some (Ret (s', (l ++ drop (length l) (frames rs ++ post), 0))) ∧
    acks (mem (line s)) rs l ∧ link_up s' ∧ same_static s s' ∧
    ∀ b, mem (line s') b = foldl perform (mem (line s)) rs b.
Proof.
  intros Hs Hne Hok Hcnt Hlen.
  destruct (write_req_ok s rs Hs Hne Hok Hcnt Hlen) as (t & k & l & E & Ha & Hans).
  pose proof (acks_length _ _ _ Ha) as Hl. unfold MAX_SIZE_COMMAND in *.
  set (buf := frames rs ++ post).
  assert (HB : buf = take (length l) buf ++ drop (length l) buf) by (by rewrite take_drop).
  destruct (read_ack_ok tt up mem fuel turns (set_line t s) k l (foldl perform (mem (line s)) rs)
    (take (length l) buf) (drop (length l) buf) (Z.of_nat (length (frames rs)))) as (t' & E' & Hup' & Hm');
    [done|apply Hs|rewrite length_take; unfold buf; rewrite length_app; lia|lia|lia|done|].
  rewrite <- HB in E'.
  eexists _, l. split_and!.
  - unfold mcu_spi_write, exchange. erewrite io_step.
    2:{ unfold buf. rewrite Nat2Z.id, take_app_length. erewrite io_step by done. cbn [negb Z.eqb].
        fold buf. erewrite io_step by done. cbv beta iota. rewrite (proj2 (Z.ltb_ge _ _)) by lia. done. }
    cbv beta iota. cbn [negb]. erewrite io_step by done. erewrite io_step.
    2:{ unfold lift. cbn [set_hdr buf_hdr]. erewrite decode_ack_ok by (done || lia). done. }
    done.
  - done.
  - split; [done|]. split; [done|]. apply Hs.
  - done.
  - done.
Qed.
End Link.

(** ** The frames of the driver *)

Lemma hi_byte n : 0 <= n < 2 ^ 16 → u8 (Z.shiftr n 8) = n / 256.
Proof.
  intros Hn. rewrite shiftr_div by lia. change (2 ^ 8) with 256.
  apply u8_id. split; [apply Z.div_pos|apply Z.div_lt_upper_bound]; lia.
Qed.
Lemma lo_byte n : u8 (Z.shiftr n 0) = n mod 256.
Proof. by rewrite Z.shiftr_0_r. Qed.

Lemma usb_wb_frame id a data : is_addr a → Z.of_nat (length data) + 3 < 2 ^ 16 →
  [id; MCU_SPI_REQ_TYPE_READ_WRITE; MCU_SPI_TARGET_SX1302;
   u8 (Z.shiftr (Z.of_nat (length data) + 3) 8); u8 (Z.shiftr (Z.of_nat (length data) + 3) 0);
   LGW_SPI_MUX_TARGET_SX1302;
   u8 (Z.lor 0x80 (Z.land (Z.shiftr a 8) 0x7F)); u8 (Z.land (Z.shiftr a 0) 0xFF)] ++ data
  = encode (ReqWrite id a data).
Proof.
  intros Ha Hd. pose proof (addr_hi_write a Ha) as H1. pose proof (addr_lo_mod a) as H2.
  unfold addr_hi, addr_lo, WRITE_ACCESS in *. rewrite H1, H2, hi_byte, lo_byte by lia.
  unfold encode, size_bytes. by rewrite Nat2Z.inj_add.
Qed.
Lemma usb_rb_frame a data : is_addr a → Z.of_nat (length data) + 4 < 2 ^ 16 →
  [0; MCU_SPI_REQ_TYPE_READ_WRITE; MCU_SPI_TARGET_SX1302;
   u8 (Z.shiftr (Z.of_nat (length data) + 4) 8); u8 (Z.shiftr (Z.of_nat (length data) + 4) 0);
   LGW_SPI_MUX_TARGET_SX1302;
   u8 (Z.lor 0x00 (Z.land (Z.shiftr a 8) 0x7F)); u8 (Z.land (Z.shiftr a 0) 0xFF); 0] ++ data
  = encode (ReqRead 0 a data).
Proof.
  intros Ha Hd. pose proof (addr_hi_read a Ha) as H1. pose proof (addr_lo_mod a) as H2.
  unfold addr_hi, addr_lo, READ_ACCESS in *. rewrite H1, H2, hi_byte, lo_byte by lia.
  unfold encode, size_bytes. by rewrite Nat2Z.inj_add.
Qed.
(** The request of a read-modify-write. *)
Definition rmw_req (id a offs leng v : Z) : spi_req :=
  ReqRmw id a (u8 (Z.shiftl (Z.shiftl 1 leng - 1) offs)) (u8 (Z.shiftl v offs)).
Lemma usb_rmw_frame id a offs leng v : is_addr a →
  [id; MCU_SPI_REQ_TYPE_READ_MODIFY_WRITE; u8 (Z.shiftr a 8); u8 (Z.shiftr a 0);
   u8 (Z.shiftl (Z.shiftl 1 leng - 1) offs); u8 (Z.shiftl v offs)]
  = encode (rmw_req id a offs leng v).
Proof. intros Ha. by rewrite hi_byte, lo_byte by lia. Qed.
Lemma rmw_req_ok id a offs leng v : is_u8 id → is_addr a → req_ok (rmw_req id a offs leng v).
Proof. intros Hi Ha. unfold rmw_req, req_ok. auto with cint. Qed.

(** ** Storing requests *)

Section Ops.
Context {T : Type} (tt : tty T) (up : T → Prop) (fuel : nat).

(** The accesses that can be stored. *)
Inductive write_op := OpWrite (a : Z) (data : list Z) | OpRmw (a offs leng v : Z).
Definition run_op (o : write_op) : io T Z :=
  match o with
  | OpWrite a data => lgw_usb_wb tt fuel LGW_SPI_MUX_TARGET_SX1302 a data
  | OpRmw a offs leng v => lgw_usb_rmw tt fuel a offs leng v
  end.
(** The accesses one after the other; their statuses are collected as the code
    of [loragw_sx1302.c] does it. *)
Fixpoint run_ops (os : list write_op) : io T Z :=
  match os with
  | [] => mret 0
  | o :: os => r ← run_op o; r' ← run_ops os; mret (Z.lor r r')
  end.
Definition in_bulk (os : list write_op) : io T (Z * Z * Z) :=
  r1 ← lgw_usb_set_write_mode LGW_COM_WRITE_MODE_BULK;
  r2 ← run_ops os;
  r3 ← lgw_usb_flush tt fuel;
  mret (r1, r2, r3).

Definition op_req (id : Z) (o : write_op) : spi_req :=
  match o with
  | OpWrite a data => ReqWrite id a data
  | OpRmw a offs leng v => rmw_req id a offs leng v
  end.
Definition op_ok (o : write_op) : Prop :=
  match o with
  | OpWrite a data => is_addr a ∧ a + Z.of_nat (length data) <= 2 ^ 15 ∧ Forall (λ x, is_u8 x) data
  | OpRmw a _ _ _ => is_addr a
  end.
Definition op_size (o : write_op) : nat :=
  match o with OpWrite _ data => length data + 8 | OpRmw _ _ _ _ => 6 end.
Definition perform_op (m : Z → Z) (o : write_op) : Z → Z := perform m (op_req 0 o).

Lemma op_req_size id o : length (encode (op_req id o)) = op_size o.
Proof. destruct o; cbn [op_req rmw_req encode op_size]; [rewrite !length_app; cbn; lia|done]. Qed.
Lemma op_req_ok id o : is_u8 id → op_ok o → req_ok (op_req id o).
Proof. destruct o; [done|]. apply rmw_req_ok. Qed.
Lemma perform_op_id m id o : perform m (op_req id o) = perform_op m o.
Proof. by destruct o. Qed.

(** Every access is one request with the number of the request. *)
Lemma run_op_request s o :
  op_ok o → Z.of_nat (op_size o) <= LGW_USB_BURST_CHUNK + 8 →
  run_op o s = ('(_, a) ← usb_request tt fuel (encode (op_req (_lgw_spi_req_nb s) o));
                mret (if negb (a =? 0) then -1 else 0)) s.
Proof.
  unfold LGW_USB_BURST_CHUNK. destruct o as [a data|a offs leng v]; cbn [run_op op_ok op_size op_req].
  - intros (Ha & Hle & Hb) Hs. unfold lgw_usb_wb. rewrite (proj2 (Z.leb_gt _ _)) by lia.
    erewrite io_step by done. cbv zeta. by rewrite usb_wb_frame by lia.
  - intros Ha _. unfold lgw_usb_rmw. erewrite io_step by done. cbv zeta. by rewrite usb_rmw_frame.
Qed.

(** The requests [rs] are stored, nothing has been sent, and the next request
    number is [n]. *)
Definition stored (s : usb_state T) (rs : list spi_req) (n : Z) : Prop :=
  link_up up s ∧ _lgw_write_mode s = LGW_COM_WRITE_MODE_BULK ∧ _lgw_spi_req_nb s = n ∧
  ∃ rest, spi_bulk_buffer s = Bulk (Z.of_nat (length (frames rs))) (Z.of_nat (length rs)) (frames rs ++ rest).
(** Nothing is stored, in single mode. *)
Definition idle (s : usb_state T) : Prop :=
  link_up up s ∧ _lgw_write_mode s = LGW_COM_WRITE_MODE_SINGLE ∧ _lgw_spi_req_nb s = 0 ∧
  bulk_size (spi_bulk_buffer s) = 0 ∧ nb_req (spi_bulk_buffer s) = 0.

Lemma store_request s rs o :
  stored s rs (Z.of_nat (length rs)) → op_ok o → (length rs < 255)%nat →
  Z.of_nat (length (frames rs) + op_size o) <= LGW_USB_BURST_CHUNK →
  ∃ s', run_op o s = Some (Ret (s', 0)) ∧ line s' = line s ∧
        stored s' (rs ++ [op_req (Z.of_nat (length rs)) o]) (Z.of_nat (S (length rs))).
Proof.
  unfold LGW_USB_BURST_CHUNK. intros (Hup & Hm & Hn & rest & Hb) Ho Hc Hz.
  set (r := op_req (Z.of_nat (length rs)) o). pose proof (op_req_size (Z.of_nat (length rs)) o) as Hr.
  eexists. split_and!.
  - rewrite run_op_request by (done || unfold LGW_USB_BURST_CHUNK; lia). rewrite Hn. fold r.
    erewrite io_step.
    2:{ unfold usb_request. erewrite io_step by done. rewrite Hm. erewrite io_step.
      2:{ unfold mcu_spi_store. erewrite io_step by done. rewrite Hb.
        unfold spi_req_bulk_insert. cbn [nb_req bulk_size bulk_buffer]. fold r in Hr. rewrite Hr.
        rewrite (proj2 (Z.eqb_neq _ _)), (proj2 (Z.ltb_ge _ _)) by (unfold LGW_USB_BURST_CHUNK; lia).
        rewrite Nat2Z.id, take_app_length. by erewrite io_step by done. }
      erewrite io_step by done. by erewrite io_step by done. }
    done.
  - done.
  - split_and!; cbn [set_mode set_bulk line buf_hdr _lgw_write_mode _lgw_spi_req_nb]; [apply Hup|done| |].
    + rewrite Hn, u8_id; lia.
    + exists (drop (length (frames rs) + op_size o) (frames rs ++ rest)). cbn [spi_bulk_buffer set_mode set_bulk].
      assert (HF : frames (rs ++ [r]) = frames rs ++ encode r).
      { rewrite frames_app. unfold frames at 2. cbn. by rewrite app_nil_r. }
      rewrite HF, !length_app, <- app_assoc. fold r in Hr. rewrite Hr.
      rewrite u16_id, u8_id by lia. cbn [length]. f_equal; lia.
Qed.

(** The requests of a list of accesses. *)
Fixpoint op_reqs (n : nat) (os : list write_op) : list spi_req :=
  match os with [] => [] | o :: os => op_req (Z.of_nat n) o :: op_reqs (S n) os end.
Definition ops_size (os : list write_op) : nat := sum_list_with op_size os.

Lemma op_reqs_facts n os :
  length (op_reqs n os) = length os ∧ length (frames (op_reqs n os)) = ops_size os ∧
  (∀ m, foldl perform m (op_reqs n os) = foldl perform_op m os) ∧
  (Forall op_ok os → (n + length os <= 255)%nat → Forall req_ok (op_reqs n os)).
Proof.
  revert n. induction os as [|o os IH]; intros n; [by split_and!|].
  destruct (IH (S n)) as (H1 & H2 & H3 & H4). cbn [op_reqs length foldl]. split_and!.
  - by rewrite H1.
  - rewrite frames_cons, length_app, op_req_size, H2. done.
  - intros m. by rewrite perform_op_id, H3.
  - intros [Ho Hos]%List.Forall_cons_iff Hn. constructor; [apply op_req_ok; [lia|done]|].
    apply H4; [done|lia].
Qed.

Lemma status_zero (m : io T Z) s : (r ← m; mret (Z.lor 0 r)) s = m s.
Proof. unfold mbind, io_bind. by destruct (m s) as [[[s' r]| |]|]. Qed.

Lemma run_ops_bulk os s rs :
  stored s rs (Z.of_nat (length rs)) → Forall op_ok os → (length rs + length os <= 255)%nat →
  Z.of_nat (length (frames rs) + ops_size os) <= LGW_USB_BURST_CHUNK →
  ∃ s', (∀ os', run_ops (os ++ os') s = run_ops os' s') ∧ line s' = line s ∧
        stored s' (rs ++ op_reqs (length rs) os) (Z.of_nat (length rs + length os)).
Proof.
  revert s rs. induction os as [|o os IH]; intros s rs Hs Hok Hn Hz.
  { exists s. rewrite app_nil_r, Nat.add_0_r. by split_and!. }
  apply List.Forall_cons_iff in Hok as [Ho Hok]. cbn [length] in Hn.
  change (ops_size (o :: os)) with (op_size o + ops_size os)%nat in Hz.
  destruct (store_request s rs o Hs Ho ltac:(lia) ltac:(lia)) as (s1 & E1 & Hl1 & Hs1).
  destruct (IH s1 (rs ++ [op_req (Z.of_nat (length rs)) o])) as (s' & E' & Hl' & Hs').
  { rewrite length_app, Nat.add_1_r. done. }
  { done. }
  { rewrite length_app. cbn [length]. lia. }
  { rewrite frames_app, length_app. unfold frames at 2. cbn [fmap list_fmap concat].
    rewrite app_nil_r, op_req_size. lia. }
  exists s'. split_and!.
  - intros os'. cbn [run_ops app]. erewrite io_step by done. rewrite status_zero. apply E'.
  - by rewrite Hl'.
  - rewrite length_app, Nat.add_1_r, <- app_assoc in Hs'. cbn [op_reqs length app] in *.
    by rewrite Nat.add_succ_r.
Qed.

Lemma set_bulk_mode s : idle s →
  ∃ s', lgw_usb_set_write_mode LGW_COM_WRITE_MODE_BULK s = Some (Ret (s', 0)) ∧ line s' = line s ∧ stored s' [] 0.
Proof.
  intros (Hup & _ & Hn & Hz & Hr). eexists. split_and!.
  - unfold lgw_usb_set_write_mode. erewrite io_step by done. by erewrite io_step by done.
  - done.
  - split_and!; [apply Hup|done|done|]. exists (bulk_buffer (spi_bulk_buffer s)).
    cbn [set_mode spi_bulk_buffer]. by destruct (spi_bulk_buffer s); cbn in *; subst.
Qed.

Lemma flush_empty s : stored s [] 0 →
  ∃ s', lgw_usb_flush tt fuel s = Some (Ret (s', 0)) ∧ idle s' ∧ line s' = line s.
Proof.
  intros (Hup & Hm & Hn & rest & Hb). eexists. split_and!.
  - unfold lgw_usb_flush. erewrite io_step by done. rewrite Hm, Hn. by erewrite io_step by done.
  - by split_and!; cbn [set_mode spi_bulk_buffer]; rewrite ?Hb.
  - done.
Qed.

(** The request counter is a byte and counts refused requests too: with 256
    accesses in bulk mode the last one is refused, the counter wraps to zero, and
    the flush reports success without sending anything. The memory is unchanged
    and the 255 requests stay in the bulk buffer. *)
Theorem usb_bulk_256_not_flushed s os o :
  idle s → Forall op_ok (os ++ [o]) → length os = 255%nat →
  Z.of_nat (ops_size (os ++ [o])) <= LGW_USB_BURST_CHUNK →
  ∃ s', in_bulk (os ++ [o]) s = Some (Ret (s', (0, -1, 0))) ∧ line s' = line s ∧
        nb_req (spi_bulk_buffer s') = 255.
Proof.
  intros Hs [Hok Ho]%List.Forall_app Hc Hz. apply List.Forall_cons_iff in Ho as [Ho _].
  unfold ops_size in Hz. rewrite sum_list_with_app in Hz. cbn [sum_list_with] in Hz.
  destruct (set_bulk_mode s Hs) as (s1 & E1 & Hl1 & Hs1).
  destruct (run_ops_bulk os s1 []) as (s2 & E2 & Hl2 & Hs2); [done|done|cbn; lia|unfold ops_size; cbn; lia|].
  cbn [app length Nat.add] in Hs2. rewrite Hc in Hs2.
  destruct Hs2 as (_ & Hm2 & Hn2 & rest & Hb2). rewrite (proj1 (op_reqs_facts 0 os)), Hc in Hb2.
  unfold LGW_USB_BURST_CHUNK in Hz. eexists. split_and!.
  - unfold in_bulk. erewrite io_step by done. erewrite io_step.
    2:{ rewrite E2. cbn [run_ops]. erewrite io_step.
      2:{ rewrite run_op_request by (done || unfold LGW_USB_BURST_CHUNK; lia). erewrite io_step.
        2:{ unfold usb_request. erewrite io_step by done. rewrite Hm2. erewrite io_step.
          2:{ unfold mcu_spi_store. erewrite io_step by done. rewrite Hb2.
              unfold spi_req_bulk_insert. cbn [nb_req]. change (Z.of_nat 255 =? 255) with true. cbv iota beta.
              by erewrite io_step by done. }
          erewrite io_step by done. by erewrite io_step by done. }
        done. }
      by erewrite io_step by done. }
    erewrite io_step.
    2:{ unfold lgw_usb_flush. erewrite io_step by done. cbn [set_mode set_bulk _lgw_write_mode].
        rewrite Hm2. erewrite io_step by done. cbn [set_mode set_bulk _lgw_spi_req_nb]. by rewrite Hn2. }
    done.
  - cbn. by rewrite Hl2.
  - done.
Qed.
End Ops.

Lemma ops_same_mem m m' os : same_mem m m' → same_mem (foldl perform_op m os) (foldl perform_op m' os).
Proof.
  revert m m'. induction os as [|o os IH]; intros m m' Hm; [done|]. cbn [foldl]. apply IH.
  by apply perform_proper.
Qed.

(** ** One request at a time *)

Section Driver.
Context {T : Type} (tt : tty T) (up : T → Prop) (mem : T → Z → Z) (turns : nat).
Context `{!McuChip tt up mem turns}.
Context (fuel : nat) (Hfuel : (turns <= fuel)%nat).

Definition single_up (s : usb_state T) : Prop :=
  link_up up s ∧ _lgw_write_mode s = LGW_COM_WRITE_MODE_SINGLE ∧ is_u8 (_lgw_spi_req_nb s).

Lemma one_request s r :
  single_up s → req_ok r → Z.of_nat (length (encode r)) <= MAX_SIZE_COMMAND →
  ∃ s' l, mcu_spi_write tt fuel (encode r) (Z.of_nat (length (encode r))) s
          = Some (Ret (s', (l ++ drop (length l) (encode r), 0))) ∧
    is_ack (mem (line s)) r l ∧ single_up s' ∧ ∀ b, mem (line s') b = perform (mem (line s)) r b.
Proof.
  intros (Hs & Hm & Hn) Hr Hl.
  assert (HF : frames [r] = encode r) by (unfold frames; cbn; apply app_nil_r).
  destruct (mcu_spi_write_ok tt up mem turns fuel Hfuel s [r] [])
    as (s' & l & E & Ha & Hs' & (_ & Em & En) & Hp);
    [done|done|by constructor|cbn; lia|by rewrite HF|].
  rewrite HF, app_nil_r in E. exists s', l. split_and!; [done| |unfold single_up; by rewrite Em, En|done].
  inversion Ha as [|? ? ? l1 ls H1 H2]; subst. inversion H2; subst. by rewrite app_nil_r.
Qed.
Lemma single_request s r :
  single_up s → req_ok r → Z.of_nat (length (encode r)) <= MAX_SIZE_COMMAND →
  ∃ s' buf, usb_request tt fuel (encode r) s = Some (Ret (s', (buf, 0))) ∧
    single_up s' ∧ ∀ b, mem (line s') b = perform (mem (line s)) r b.
Proof.
  intros Hs Hr Hl. destruct (one_request s r Hs Hr Hl) as (s' & l & E & _ & Hs' & Hp).
  eexists s', _. split; [|done]. unfold usb_request. erewrite io_step by done. destruct Hs as (_ & -> & _).
  exact E.
Qed.

Lemma usb_wb_single s a data :
  single_up s → is_addr a → a + Z.of_nat (length data) <= 2 ^ 15 →
  Z.of_nat (length data) <= LGW_USB_BURST_CHUNK → Forall (λ x, is_u8 x) data →
  ∃ s', lgw_usb_wb tt fuel LGW_SPI_MUX_TARGET_SX1302 a data s = Some (Ret (s', 0)) ∧ single_up s' ∧
    ∀ b, mem (line s') b = perform (mem (line s)) (ReqWrite 0 a data) b.
Proof.
  unfold LGW_USB_BURST_CHUNK. intros Hs Ha Hle Hd Hb. destruct (single_request s (ReqWrite (_lgw_spi_req_nb s) a data) Hs)
    as (s' & buf & E & Hs' & Hm).
  { split; [apply Hs|done]. }
  { cbn [encode]. rewrite !length_app. cbn. unfold MAX_SIZE_COMMAND. lia. }
  exists s'. split; [|done]. unfold lgw_usb_wb. rewrite (proj2 (Z.leb_gt _ _)) by lia.
  erewrite io_step by done. cbv zeta. rewrite usb_wb_frame by lia.
  by erewrite io_step by done.
Qed.
Lemma usb_rmw_single s a offs leng v :
  single_up s → is_addr a →
  ∃ s', lgw_usb_rmw tt fuel a offs leng v s = Some (Ret (s', 0)) ∧ single_up s' ∧
    ∀ b, mem (line s') b = if b =? a then rmw_byte (mem (line s) a) offs leng v else mem (line s) b.
Proof.
  intros Hs Ha. destruct (single_request s (rmw_req (_lgw_spi_req_nb s) a offs leng v) Hs)
    as (s' & buf & E & Hs' & Hm).
  { apply rmw_req_ok; [apply Hs|done]. }
  { cbn. unfold MAX_SIZE_COMMAND. lia. }
  exists s'. split; [|done]. unfold lgw_usb_rmw.
  erewrite io_step by done. cbv zeta. rewrite usb_rmw_frame by lia. by erewrite io_step by done.
Qed.
Lemma usb_rb_single s a data :
  single_up s → is_addr a → a + Z.of_nat (length data) <= 2 ^ 15 →
  Z.of_nat (length data) <= LGW_USB_BURST_CHUNK →
  ∃ s', lgw_usb_rb tt fuel LGW_SPI_MUX_TARGET_SX1302 a data s
        = Some (Ret (s', (0, (λ k : nat, mem (line s) (a + Z.of_nat k)) <$> seq 0 (length data)))) ∧
    single_up s' ∧ ∀ b, mem (line s') b = mem (line s) b.
Proof.
  unfold LGW_USB_BURST_CHUNK. intros Hs Ha Hle Hd.
  destruct (one_request s (ReqRead 0 a data) Hs) as (s' & l & E & Hack & Hs' & Hm).
  { done. }
  { cbn [encode]. rewrite !length_app. cbn. unfold MAX_SIZE_COMMAND. lia. }
  exists s'. split; [|done]. unfold lgw_usb_rb. rewrite (proj2 (Z.leb_gt _ _)) by lia.
  erewrite io_step by done. cbv zeta. rewrite usb_rb_frame by lia.
  destruct Hs as (_ & Hmode & _). rewrite Hmode. erewrite io_step by done. cbv beta iota.
  cbn [negb Z.eqb]. do 4 f_equal. destruct Hack as (rx & -> & Hrx).
  destruct rx as [|x0 [|x1 [|x2 [|x3 [|]]]]]; try done. cbn [app size_bytes drop].
  set (q := _ <$> _). assert (Hq : length q = length data) by (unfold q; by rewrite length_fmap, length_seq).
  rewrite drop_0, <- Hq, take_app_length. done.
Qed.

Lemma run_ret {A} (m : io T A) fail s s' a : usb_stuck s = false → m s = Some (Ret (s', a)) → run m fail s = (s', a).
Proof. intros Hs E. unfold run. by rewrite Hs, E. Qed.

(** A stuck state stays as it is. *)
Lemma run_stuck {A} (m : io T A) fail s : usb_stuck s = true → run m fail s = (s, fail).
Proof. intros Hs. unfold run. by rewrite Hs. Qed.
Lemma run_hang {A} (m : io T A) fail s : usb_stuck s = false → m s = None → usb_stuck (run m fail s).1 = true.
Proof. intros Hs E. unfold run. by rewrite Hs, E. Qed.

(** C30. Over an MCU that follows the serial protocol, the USB driver in single
    mode is the memory link the register layer is proved against: every write,
    read, read-modify-write and burst returns, succeeds, and reaches exactly the
    addressed bytes of the SX1302. The MCU may cut the payload of an answer into any
    pieces and interrupt any read; it delivers the four bytes of the header
    in one piece, which the driver does not check. *)
Theorem usb_driver_is_memory_link : MemBus (usb_driver tt fuel) single_up (λ s, mem (line s)).
Proof.
  constructor; cbn [usb_driver drv_chunk_size drv_w drv_r drv_rmw drv_wb drv_rb].
  - intros s a [[Hup _] _]. by apply (mcu_byte tt up mem).
  - by vm_compute.
  - intros s a v Hs Ha Hv.
    destruct (usb_wb_single s a [v] Hs Ha) as (s' & E & Hs' & Hm);
      [cbn [length]; lia|cbn [length]; unfold LGW_USB_BURST_CHUNK; lia|by constructor; [|constructor]|].
    exists s'. split_and!; [by apply run_ret; [apply Hs|]|done|]. intros b. rewrite Hm. cbn [perform length].
    destruct (Z.leb_spec a b), (Z.ltb_spec b (a + Z.of_nat 1)), (Z.eqb_spec b a); cbn [andb]; try lia.
    by replace (b - a) with 0 by lia.
  - intros s a Hs Ha. destruct (usb_rb_single s a [0] Hs Ha) as (s' & E & Hs' & Hm);
      [cbn [length]; lia|cbn [length]; unfold LGW_USB_BURST_CHUNK; lia|].
    exists s'. split_and!; [|done|done]. apply run_ret; [apply Hs|]. unfold lgw_usb_r. erewrite io_step by done.
    cbn. by rewrite Z.add_0_r.
  - intros s a o l v Hs Ha _ _ _ _. destruct (usb_rmw_single s a o l v Hs Ha) as (s' & E & Hs' & Hm).
    exists s'. split_and!; [by apply run_ret; [apply Hs|]|done|done].
  - intros s a data Hs Ha Hle Hl Hb. destruct (usb_wb_single s a data Hs Ha Hle) as (s' & E & Hs' & Hm);
      [by destruct Hl|done|].
    exists s'. split_and!; [by apply run_ret; [apply Hs|]|done|done].
  - intros s a data Hs Ha Hle Hl. destruct (usb_rb_single s a data Hs Ha Hle) as (s' & E & Hs' & Hm);
      [by destruct Hl|].
    exists s'. split_and!; [by apply run_ret; [apply Hs|]|done|done].
Qed.

(** ** Bulk mode *)

Lemma run_ops_single os s :
  single_up s → Forall op_ok os →
  Forall (λ o, Z.of_nat (op_size o) <= LGW_USB_BURST_CHUNK + 8) os →
  ∃ s', run_ops tt fuel os s = Some (Ret (s', 0)) ∧ single_up s' ∧
        ∀ b, mem (line s') b = foldl perform_op (mem (line s)) os b.
Proof.
  intros Hs Hok Hsz. revert s Hs. induction os as [|o os IH]; intros s Hs; [by exists s|].
  apply List.Forall_cons_iff in Hok as [Ho Hok]. apply List.Forall_cons_iff in Hsz as [Hz Hsz].
  destruct (single_request s (op_req (_lgw_spi_req_nb s) o) Hs) as (s1 & buf & E & Hs1 & Hm1).
  { apply op_req_ok; [apply Hs|done]. }
  { rewrite op_req_size. unfold MAX_SIZE_COMMAND, LGW_USB_BURST_CHUNK in *. lia. }
  destruct (IH Hok Hsz s1 Hs1) as (s' & E' & Hs' & Hm').
  exists s'. split_and!; [|done|].
  - cbn [run_ops]. erewrite io_step by (rewrite run_op_request by done; by erewrite io_step by done).
    by erewrite io_step by done.
  - intros b. rewrite Hm'. cbn [foldl]. apply ops_same_mem. intros x. by rewrite Hm1, perform_op_id.
Qed.

Lemma flush_stored s rs n :
  stored up s rs n → n ≠ 0 → rs ≠ [] → Forall req_ok rs → (length rs <= 255)%nat →
  Z.of_nat (length (frames rs)) <= LGW_USB_BURST_CHUNK →
  ∃ s', lgw_usb_flush tt fuel s = Some (Ret (s', 0)) ∧ idle up s' ∧
        ∀ b, mem (line s') b = foldl perform (mem (line s)) rs b.
Proof.
  unfold LGW_USB_BURST_CHUNK. intros (Hup & Hm & Hn & rest & Hb) Hn0 Hne Hok Hc Hz.
  set (s0 := set_mode LGW_COM_WRITE_MODE_SINGLE (_lgw_spi_req_nb s) s).
  destruct (mcu_spi_write_ok tt up mem turns fuel Hfuel s0 rs rest)
    as (s1 & l & E & _ & Hs1 & (_ & Em & En) & Hp);
    [done|done|done|done|unfold MAX_SIZE_COMMAND; lia|].
  eexists. split_and!.
  - unfold lgw_usb_flush. erewrite io_step by done. rewrite Hm. erewrite io_step by done. fold s0.
    rewrite Hn, (proj2 (Z.eqb_neq _ _)) by done. erewrite io_step.
    2:{ unfold mcu_spi_flush. erewrite io_step by done. cbn [s0 set_mode spi_bulk_buffer].
        rewrite Hb. cbn [bulk_buffer bulk_size]. erewrite io_step by done. cbv beta iota.
        erewrite io_step by done. cbn [negb Z.eqb]. by erewrite io_step by done. }
    erewrite io_step by done. by erewrite io_step by done.
  - split_and!; [apply Hs1|exact Em|done|done|done].
  - done.
Qed.

(** C31. Bulk mode: up to 255 writes and read-modify-writes whose frames fit the
    bulk buffer (4096 bytes), stored and then flushed, report success and leave
    the memory of the SX1302 as the same accesses made one at a time in the same
    order leave it; the driver is again in single mode with nothing pending. *)
Theorem usb_bulk_equals_single s os :
  idle up s → Forall op_ok os → (length os <= 255)%nat →
  Z.of_nat (ops_size os) <= LGW_USB_BURST_CHUNK →
  ∃ s' s1, in_bulk tt fuel os s = Some (Ret (s', (0, 0, 0))) ∧ idle up s' ∧
    run_ops tt fuel os s = Some (Ret (s1, 0)) ∧ ∀ b, mem (line s') b = mem (line s1) b.
Proof.
  intros Hs Hok Hc Hz.
  assert (Hsz : Forall (λ o, Z.of_nat (op_size o) <= LGW_USB_BURST_CHUNK + 8) os).
  { apply List.Forall_forall. intros o Ho%list_elem_of_In. pose proof (sum_list_with_in o op_size os Ho).
    unfold ops_size in Hz. lia. }
  destruct (run_ops_single os s) as (s1 & E1 & _ & Hm1); [|done|done|].
  { destruct Hs as (? & ? & E & _). unfold single_up. rewrite E. done. }
  destruct (set_bulk_mode up s Hs) as (s2 & E2 & Hl2 & Hs2).
  destruct (run_ops_bulk tt up fuel os s2 []) as (s3 & E3 & Hl3 & Hs3); [done|done|cbn; lia|cbn; lia|].
  specialize (E3 []). rewrite app_nil_r in E3. cbn [app length Nat.add run_ops] in Hs3, E3. destruct (op_reqs_facts 0 os) as (F1 & F2 & F3 & F4).
  assert (∃ s', lgw_usb_flush tt fuel s3 = Some (Ret (s', 0)) ∧ idle up s' ∧
            ∀ b, mem (line s') b = foldl perform_op (mem (line s3)) os b) as (s' & E' & Hs' & Hm').
  { destruct os as [|o os].
    - destruct (flush_empty tt up fuel s3 Hs3) as (s' & E' & Hs' & Hl'). exists s'. rewrite Hl'. done.
    - destruct (flush_stored s3 _ _ Hs3) as (s' & E' & Hs' & Hm');
        [cbn; lia|done|apply F4; [done|lia]|lia|lia|].
      exists s'. split_and!; [done|done|]. intros b. by rewrite Hm', F3. }
  exists s', s1. split_and!; [|done|done|].
  - unfold in_bulk. erewrite io_step by done. erewrite io_step by done. by erewrite io_step by done.
  - intros b. by rewrite Hm', Hm1, Hl3, Hl2.
Qed.

End Driver.

(** ** An unplugged device *)

Section Unplugged.
Context {T : Type} (tt : tty T) (Hread : ∀ t count, tty_read tt t count = (t, Got [])).

(** [read()] gives no bytes on a device that is gone: the loop over the payload
    never ends. *)
Lemma unplugged_payload_hangs fuel n : ∀ buf nb_read size (s : usb_state T),
  nb_read < size → read_payload tt fuel n buf nb_read size s = None.
Proof.
  induction n as [|n IH]; intros buf nb_read size s Hs; [done|]. cbn [read_payload].
  destruct fuel as [|fuel]; [done|]. cbn [read_retry].
  erewrite io_step by (erewrite io_step by (unfold sys; by rewrite Hread); done). cbv beta iota zeta.
  cbn [length]. rewrite Z.add_0_r, (proj2 (Z.ltb_lt _ _)) by done. by apply IH.
Qed.
(** An answer is awaited after one that had a payload: its header is still there. *)
Lemma unplugged_ack_hangs fuel buf buf_size (s : usb_state T) :
  0x40 <= cmd_get_type (buf_hdr s) <= 0x46 → 0 < cmd_get_size (buf_hdr s) <= buf_size →
  read_ack tt fuel buf buf_size s = None.
Proof.
  intros Ht Hs. unfold read_ack. destruct fuel as [|fuel]; [done|]. cbn [read_retry].
  erewrite io_step by (erewrite io_step by (unfold sys; by rewrite Hread); done). cbv beta iota.
  erewrite io_step by done. cbn [app length drop set_line buf_hdr]. rewrite drop_0. erewrite io_step by done.
  rewrite (proj2 (Z.ltb_ge (cmd_get_type _) _)), (proj2 (Z.ltb_ge 0x46 _)) by lia. cbn [orb].
  rewrite (proj2 (Z.ltb_ge buf_size _)), (proj2 (Z.ltb_lt 0 _)) by lia. apply unplugged_payload_hangs. lia.
Qed.
End Unplugged.

(** ** An MCU for evaluation *)

(** It parses the requests, performs them, and sends its answer in pieces of at
    most 64 bytes. *)
Record sim := Sim { sim_mem : Z → Z; sim_cmd : bool; sim_out : list Z }.

Fixpoint parse (n : nat) (p : list Z) : list spi_req :=
  match n, p with
  | S n, id :: 1 :: _ :: hi :: lo :: _ :: h :: l :: rest =>
    let size := Z.to_nat (hi * 256 + lo) in
    if 128 <=? h
    then ReqWrite id ((h - 128) * 256 + l) (take (size - 3) rest) :: parse n (drop (size - 3) rest)
    else ReqRead id (h * 256 + l) (take (size - 4) (drop 1 rest)) :: parse n (drop (size - 3) rest)
  | S n, id :: 2 :: h :: l :: mask :: v :: rest => ReqRmw id (h * 256 + l) mask v :: parse n rest
  | _, _ => []
  end.
Definition sim_ack (m : Z → Z) (r : spi_req) : list Z :=
  match r with
  | ReqWrite id a d => [id; 1; 0] ++ size_bytes (length d + 3) ++ replicate (length d + 3) 0
  | ReqRead id a d =>
    [id; 1; 0] ++ size_bytes (length d + 4) ++ [0; 0; 0; 0] ++ ((λ k : nat, m (a + Z.of_nat k)) <$> seq 0 (length d))
  | ReqRmw id a mask v => [id; 2; 0; m a; perform m r a]
  end.
Fixpoint sim_acks (m : Z → Z) (rs : list spi_req) : list Z :=
  match rs with [] => [] | r :: rs => sim_ack m r ++ sim_acks (perform m r) rs end.
Definition sim_write (t : sim) (bytes : list Z) : sim * Z :=
  (if sim_cmd t then
     let rs := parse (length bytes) bytes in
     let l := sim_acks (sim_mem t) rs in
     Sim (foldl perform (sim_mem t) rs) false (header 0 (length l) ORDER_ID__ACK_MULTIPLE_SPI ++ l)
   else Sim (sim_mem t) true [], Z.of_nat (length bytes)).
Definition sim_read (t : sim) (count : Z) : sim * read_result :=
  let n := Nat.min (Z.to_nat count) 64 in
  (Sim (sim_mem t) (sim_cmd t) (drop n (sim_out t)), Got (take n (sim_out t))).
Definition sim_tty : tty sim := {|
  tty_malloc := λ t, (t, true); tty_open := λ t, (t, 3); tty_attribs := λ t, (t, true);
  tty_blocking := λ t, (t, true); tty_close := λ t, (t, 0); tty_rand := λ t, (t, 1000);
  tty_write := sim_write; tty_read := sim_read |}.
Definition sim_up (t : sim) : Prop := sim_cmd t = false ∧ sim_out t = [] ∧ ∀ a, is_u8 (sim_mem t a).
Definition sim_turns : nat := Z.to_nat 4201.

Lemma addr_bytes a : a / 256 * 256 + a mod 256 = a.
Proof. pose proof (Z.div_mod a 256). lia. Qed.
Lemma size_of_bytes n : Z.to_nat (Z.of_nat n / 256 * 256 + Z.of_nat n mod 256) = n.
Proof. by rewrite addr_bytes, Nat2Z.id. Qed.

Lemma parse_frames rs n : Forall req_ok rs → (length rs <= n)%nat → parse n (frames rs) = rs.
Proof.
  revert n. induction rs as [|r rs IH]; intros n Hok Hn; [by destruct n|].
  apply List.Forall_cons_iff in Hok as [Hr Hok]. cbn [length] in Hn. destruct n as [|n]; [lia|].
  rewrite frames_cons. destruct r as [id a d|id a d|id a mask v].
  - destruct Hr as (_ & Ha & _). assert (0 <= a / 256) by (apply Z.div_pos; lia).
    cbn [encode size_bytes app parse]. rewrite (proj2 (Z.leb_le _ _)) by lia.
    rewrite size_of_bytes. replace (length d + 3 - 3)%nat with (length d) by lia.
    rewrite take_app_length, drop_app_length, IH by (done || lia).
    replace (128 + a / 256 - 128) with (a / 256) by lia. by rewrite addr_bytes.
  - destruct Hr as (_ & Ha & _). assert (a / 256 < 128) by (apply Z.div_lt_upper_bound; lia).
    cbn [encode size_bytes app parse]. rewrite (proj2 (Z.leb_gt _ _)) by lia.
    rewrite size_of_bytes. replace (length d + 4 - 3)%nat with (S (length d)) by lia.
    replace (length d + 4 - 4)%nat with (length d) by lia. cbn [drop].
    by rewrite drop_0, take_app_length, drop_app_length, IH, addr_bytes by (done || lia).
  - cbn [encode app parse]. by rewrite IH, addr_bytes by (done || lia).
Qed.
Lemma sim_acks_ok m rs : acks m rs (sim_acks m rs).
Proof.
  revert m. induction rs as [|r rs IH]; intros m; constructor; [|apply IH].
  destruct r as [id a d|id a d|id a mask v]; cbn [is_ack sim_ack].
  - eexists. split; [done|apply length_replicate].
  - by exists [0; 0; 0; 0].
  - by eexists _, _.
Qed.
Lemma performs_byte m rs : (∀ a, is_u8 (m a)) → Forall req_ok rs → ∀ a, is_u8 (foldl perform m rs a).
Proof.
  revert m. induction rs as [|r rs IH]; intros m Hm Hok; [done|].
  apply List.Forall_cons_iff in Hok as [Hr Hok]. cbn [foldl]. apply IH; [|done]. intros b.
  destruct r as [id a d|id a d|id a mask v]; cbn [perform]; [|done|].
  - destruct (_ && _)%bool; [|done]. destruct Hr as (_ & _ & _ & Hd). unfold znth.
    destruct (_ <? 0); [lia|]. destruct (nth_in_or_default (Z.to_nat (b - a)) d 0) as [E| ->]; [|lia].
    rewrite List.Forall_forall in Hd. by apply Hd.
  - destruct (b =? a); [apply u8_range|done].
Qed.

Lemma sim_delivers n m l : (∀ a, is_u8 (m a)) → (length l <= n)%nat →
  delivers sim_tty sim_up sim_mem n (Sim m false l) l m.
Proof.
  intros Hm. revert l. induction n as [|n IH]; intros [|x l] Hl; cbn [delivers length] in *; [done|lia|done|].
  intros count Hc. cbn [sim_tty tty_read sim_read sim_mem sim_cmd sim_out].
  set (k := Nat.min (Z.to_nat count) 64). exists (drop k (x :: l)). split_and!.
  - destruct k eqn:E; [lia|done].
  - by rewrite take_drop.
  - rewrite length_take. lia.
  - apply IH. rewrite length_drop. cbn [length]. lia.
Qed.

#[export] Instance sim_chip : McuChip sim_tty sim_up sim_mem sim_turns.
Proof.
  constructor.
  - intros t a H. apply H.
  - intros t H. exists t, 1000. done.
  - intros t id rs (Hc & Ho & Hb) Hid Hne Hok Hn Hlen. unfold MAX_SIZE_COMMAND in *.
    pose proof (sim_acks_ok (sim_mem t) rs) as Ha. pose proof (acks_length _ _ _ Ha) as Hal.
    assert (length rs <= length (frames rs))%nat.
    { clear. induction rs as [|r rs IH]; [done|]. rewrite frames_cons, length_app.
      cbn [length]. destruct r; cbn; lia. }
    eexists _, _, _, _, 0, (sim_acks (sim_mem t) rs). split_and!.
    + cbn [sim_tty tty_write]. unfold sim_write. rewrite Hc. done.
    + cbn [sim_tty tty_write]. unfold sim_write. cbn [sim_cmd sim_mem]. rewrite parse_frames by done. done.
    + lia.
    + lia.
    + done.
    + unfold sim_turns. replace (Z.to_nat 4201) with (S (Z.to_nat 4200)) by lia. cbn [answers].
      cbn [sim_tty tty_read]. unfold sim_read. cbn [sim_mem sim_out sim_cmd].
      change (Nat.min _ 64) with 4%nat. split; [done|]. cbn [drop header app size_bytes]. rewrite drop_0.
      apply sim_delivers; [by apply performs_byte|lia].
Qed.

Definition sim0 : sim := Sim (λ _, 0) false [].

Lemma usb_driver_is_memory_link_witness :
  MemBus (usb_driver sim_tty sim_turns) (single_up sim_up) (λ s, sim_mem (line s)).
Proof. exact (usb_driver_is_memory_link sim_tty sim_up sim_mem sim_turns sim_turns (le_n _)). Defined.

Lemma sim_idle : idle sim_up (initial sim0).
Proof. repeat split; cbn; lia. Qed.

Lemma usb_bulk_equals_single_witness :
  let os := [OpWrite 16 [1; 2; 3]; OpRmw 17 4 2 3; OpWrite 18 [9]] in
  ∃ s' s1, in_bulk sim_tty sim_turns os (initial sim0) = Some (Ret (s', (0, 0, 0))) ∧ idle sim_up s' ∧
    run_ops sim_tty sim_turns os (initial sim0) = Some (Ret (s1, 0)) ∧
    ∀ b, sim_mem (line s') b = sim_mem (line s1) b.
Proof.
  intros os. apply (usb_bulk_equals_single sim_tty sim_up sim_mem sim_turns sim_turns (le_n _)).
  - apply sim_idle.
  - repeat first [apply List.Forall_cons | apply List.Forall_nil]; cbn [op_ok length]; split_and?; try lia;
      repeat first [apply List.Forall_cons | apply List.Forall_nil]; lia.
  - cbn. lia.
  - by vm_compute.
Defined.

Lemma usb_bulk_256_not_flushed_witness :
  ∃ s', in_bulk sim_tty sim_turns (replicate 255 (OpRmw 16 0 1 1) ++ [OpRmw 16 0 1 0]) (initial sim0)
        = Some (Ret (s', (0, -1, 0))) ∧ line s' = line (initial sim0) ∧ nb_req (spi_bulk_buffer s') = 255.
Proof.
  apply (usb_bulk_256_not_flushed sim_tty sim_up sim_turns).
  - apply sim_idle.
  - apply List.Forall_app. split; [|by repeat constructor].
    apply Forall_replicate. cbn. lia.
  - reflexivity.
  - by vm_compute.
Defined.
