(* ===== verification/RegIds.v ===== *)
(** * Register identifiers ([libloragw/inc/loragw_reg.h])

    The [#define]s that give each register its identifier, an index into
    [loregs], and the macros that select a register of the transmit chain 0 or
    1 by name. A name is the source's without its [SX1302_REG_] prefix. *)
From stdpp Require Import base list strings.
From Stdlib Require Import ZArith String.
From S2P Require Import Prelude.

Open Scope Z_scope.
Open Scope string_scope.

Definition reg_ids_0 : list (string * Z) := [
  ("COMMON_PAGE_PAGE", 0);
  ("COMMON_CTRL0_CLK32_RIF_CTRL", 1);
  ("COMMON_CTRL0_HOST_RADIO_CTRL", 2);
  ("COMMON_CTRL0_RADIO_MISC_EN", 3);
  ("COMMON_CTRL0_SX1261_MODE_RADIO_B", 4);
  ("COMMON_CTRL0_SX1261_MODE_RADIO_A", 5);
  ("COMMON_CTRL1_SWAP_IQ_RADIO_B", 6);
  ("COMMON_CTRL1_SAMPLING_EDGE_RADIO_B", 7);
  ("COMMON_CTRL1_SWAP_IQ_RADIO_A", 8);
  ("COMMON_CTRL1_SAMPLING_EDGE_RADIO_A", 9);
  ("COMMON_SPI_DIV_RATIO_SPI_HALF_PERIOD", 10);
  ("COMMON_RADIO_SELECT_RADIO_SELECT", 11);
  ("COMMON_GEN_GLOBAL_EN", 12);
  ("COMMON_GEN_FSK_MODEM_ENABLE", 13);
  ("COMMON_GEN_CONCENTRATOR_MODEM_ENABLE", 14);
  ("COMMON_GEN_MBWSSF_MODEM_ENABLE", 15);
  ("COMMON_VERSION_VERSION", 16);
  ("COMMON_DUMMY_DUMMY", 17);
  ("AGC_MCU_CTRL_CLK_EN", 18);
  ("AGC_MCU_CTRL_FORCE_HOST_FE_CTRL", 19);
  ("AGC_MCU_CTRL_MCU_CLEAR", 20);
  ("AGC_MCU_CTRL_HOST_PROG", 21);
  ("AGC_MCU_CTRL_PARITY_ERROR", 22);
  ("AGC_MCU_MCU_AGC_STATUS_MCU_AGC_STATUS", 23);
  ("AGC_MCU_PA_GAIN_PA_B_GAIN", 24);
  ("AGC_MCU_PA_GAIN_PA_A_GAIN", 25);
  ("AGC_MCU_RF_EN_A_RADIO_RST", 26);
  ("AGC_MCU_RF_EN_A_RADIO_EN", 27);
  ("AGC_MCU_RF_EN_A_PA_EN", 28);
  ("AGC_MCU_RF_EN_A_LNA_EN", 29);
  ("AGC_MCU_RF_EN_B_RADIO_RST", 30);
  ("AGC_MCU_RF_EN_B_RADIO_EN", 31);
  ("AGC_MCU_RF_EN_B_PA_EN", 32);
  ("AGC_MCU_RF_EN_B_LNA_EN", 33);
  ("AGC_MCU_LUT_TABLE_A_PA_LUT", 34);
  ("AGC_MCU_LUT_TABLE_A_LNA_LUT", 35);
  ("AGC_MCU_LUT_TABLE_B_PA_LUT", 36);
  ("AGC_MCU_LUT_TABLE_B_LNA_LUT", 37);
  ("AGC_MCU_UART_CFG_MSBF", 38);
  ("AGC_MCU_UART_CFG_PAR_EN", 39);
  ("AGC_MCU_UART_CFG_PAR_MODE", 40);
  ("AGC_MCU_UART_CFG_START_LEN", 41);
  ("AGC_MCU_UART_CFG_STOP_LEN", 42);
  ("AGC_MCU_UART_CFG_WORD_LEN", 43);
  ("AGC_MCU_UART_CFG2_BIT_RATE", 44);
  ("AGC_MCU_MCU_MAIL_BOX_WR_DATA_BYTE3_MCU_MAIL_BOX_WR_DATA", 45);
  ("AGC_MCU_MCU_MAIL_BOX_WR_DATA_BYTE2_MCU_MAIL_BOX_WR_DATA", 46);
  ("AGC_MCU_MCU_MAIL_BOX_WR_DATA_BYTE1_MCU_MAIL_BOX_WR_DATA", 47);
  ("AGC_MCU_MCU_MAIL_BOX_WR_DATA_BYTE0_MCU_MAIL_BOX_WR_DATA", 48);
  ("AGC_MCU_MCU_MAIL_BOX_RD_DATA_BYTE3_MCU_MAIL_BOX_RD_DATA", 49);
  ("AGC_MCU_MCU_MAIL_BOX_RD_DATA_BYTE2_MCU_MAIL_BOX_RD_DATA", 50);
  ("AGC_MCU_MCU_MAIL_BOX_RD_DATA_BYTE1_MCU_MAIL_BOX_RD_DATA", 51);
  ("AGC_MCU_MCU_MAIL_BOX_RD_DATA_BYTE0_MCU_MAIL_BOX_RD_DATA", 52);
  ("AGC_MCU_DUMMY_DUMMY3", 53);
  ("CLK_CTRL_CLK_SEL_CLKDIV_EN", 54);
  ("CLK_CTRL_CLK_SEL_CLK_RADIO_B_SEL", 55);
  ("CLK_CTRL_CLK_SEL_CLK_RADIO_A_SEL", 56);
  ("CLK_CTRL_DUMMY_DUMMY", 57);
  ("TX_TOP_A_TX_TRIG_TX_FSM_CLR", 58);
  ("TX_TOP_A_TX_TRIG_TX_TRIG_GPS", 59);
  ("TX_TOP_A_TX_TRIG_TX_TRIG_DELAYED", 60);
  ("TX_TOP_A_TX_TRIG_TX_TRIG_IMMEDIATE", 61);
  ("TX_TOP_A_TIMER_TRIG_BYTE3_TIMER_DELAYED_TRIG", 62);
  ("TX_TOP_A_TIMER_TRIG_BYTE2_TIMER_DELAYED_TRIG", 63);
  ("TX_TOP_A_TIMER_TRIG_BYTE1_TIMER_DELAYED_TRIG", 64);
  ("TX_TOP_A_TIMER_TRIG_BYTE0_TIMER_DELAYED_TRIG", 65);
  ("TX_TOP_A_TX_START_DELAY_MSB_TX_START_DELAY", 66);
  ("TX_TOP_A_TX_START_DELAY_LSB_TX_START_DELAY", 67);
  ("TX_TOP_A_TX_CTRL_WRITE_BUFFER", 68);
  ("TX_TOP_A_TX_RAMP_DURATION_TX_RAMP_DURATION", 69);
  ("TX_TOP_A_GEN_CFG_0_MODULATION_TYPE", 70);
  ("TX_TOP_A_TEST_0_TX_ACTIVE_CTRL", 71);
  ("TX_TOP_A_TEST_0_TX_ACTIVE_SEL", 72);
  ("TX_TOP_A_TX_FLAG_TX_TIMEOUT", 73);
  ("TX_TOP_A_TX_FLAG_PKT_DONE", 74);
  ("TX_TOP_A_AGC_TX_BW_AGC_TX_BW", 75);
  ("TX_TOP_A_AGC_TX_PWR_AGC_TX_PWR", 76);
  ("TX_TOP_A_TIMEOUT_CNT_BYTE_2_TIMEOUT_CNT", 77);
  ("TX_TOP_A_TIMEOUT_CNT_BYTE_1_TIMEOUT_CNT", 78);
  ("TX_TOP_A_TIMEOUT_CNT_BYTE_0_TIMEOUT_CNT", 79);
  ("TX_TOP_A_TX_FSM_STATUS_TX_STATUS", 80);
  ("TX_TOP_A_DUMMY_CONTROL_DUMMY", 81);
  ("TX_TOP_A_TX_RFFE_IF_CTRL_PLL_DIV_CTRL", 82);
  ("TX_TOP_A_TX_RFFE_IF_CTRL_TX_CLK_EDGE", 83);
  ("TX_TOP_A_TX_RFFE_IF_CTRL_TX_MODE", 84);
  ("TX_TOP_A_TX_RFFE_IF_CTRL_TX_IF_DST", 85);
  ("TX_TOP_A_TX_RFFE_IF_CTRL_TX_IF_SRC", 86);
  ("TX_TOP_A_TX_RFFE_IF_CTRL2_SX125X_IQ_INVERT", 87);
  ("TX_TOP_A_TX_RFFE_IF_CTRL2_PLL_DIV_CTRL_AGC", 88);
  ("TX_TOP_A_TX_RFFE_IF_IQ_GAIN_IQ_GAIN", 89);
  ("TX_TOP_A_TX_RFFE_IF_I_OFFSET_I_OFFSET", 90);
  ("TX_TOP_A_TX_RFFE_IF_Q_OFFSET_Q_OFFSET", 91);
  ("TX_TOP_A_TX_RFFE_IF_FREQ_RF_H_FREQ_RF", 92);
  ("TX_TOP_A_TX_RFFE_IF_FREQ_RF_M_FREQ_RF", 93);
  ("TX_TOP_A_TX_RFFE_IF_FREQ_RF_L_FREQ_RF", 94);
  ("TX_TOP_A_TX_RFFE_IF_FREQ_DEV_H_FREQ_DEV", 95);
  ("TX_TOP_A_TX_RFFE_IF_FREQ_DEV_L_FREQ_DEV", 96);
  ("TX_TOP_A_TX_RFFE_IF_TEST_MOD_FREQ", 97);
  ("TX_TOP_A_DUMMY_MODULATOR_DUMMY", 98);
  ("TX_TOP_A_FSK_PKT_LEN_PKT_LENGTH", 99);
  ("TX_TOP_A_FSK_CFG_0_TX_CONT", 100);
  ("TX_TOP_A_FSK_CFG_0_CRC_IBM", 101);
  ("TX_TOP_A_FSK_CFG_0_DCFREE_ENC", 102);
  ("TX_TOP_A_FSK_CFG_0_CRC_EN", 103);
  ("TX_TOP_A_FSK_CFG_0_PKT_MODE", 104);
  ("TX_TOP_A_FSK_PREAMBLE_SIZE_MSB_PREAMBLE_SIZE", 105);
  ("TX_TOP_A_FSK_PREAMBLE_SIZE_LSB_PREAMBLE_SIZE", 106);
  ("TX_TOP_A_FSK_BIT_RATE_MSB_BIT_RATE", 107);
  ("TX_TOP_A_FSK_BIT_RATE_LSB_BIT_RATE", 108);
  ("TX_TOP_A_FSK_MOD_FSK_REF_PATTERN_SIZE", 109);
  ("TX_TOP_A_FSK_MOD_FSK_PREAMBLE_SEQ", 110);
  ("TX_TOP_A_FSK_MOD_FSK_REF_PATTERN_EN", 111);
  ("TX_TOP_A_FSK_MOD_FSK_GAUSSIAN_SELECT_BT", 112);
  ("TX_TOP_A_FSK_MOD_FSK_GAUSSIAN_EN", 113);
  ("TX_TOP_A_FSK_REF_PATTERN_BYTE7_FSK_REF_PATTERN", 114);
  ("TX_TOP_A_FSK_REF_PATTERN_BYTE6_FSK_REF_PATTERN", 115);
  ("TX_TOP_A_FSK_REF_PATTERN_BYTE5_FSK_REF_PATTERN", 116);
  ("TX_TOP_A_FSK_REF_PATTERN_BYTE4_FSK_REF_PATTERN", 117);
  ("TX_TOP_A_FSK_REF_PATTERN_BYTE3_FSK_REF_PATTERN", 118);
  ("TX_TOP_A_FSK_REF_PATTERN_BYTE2_FSK_REF_PATTERN", 119);
  ("TX_TOP_A_FSK_REF_PATTERN_BYTE1_FSK_REF_PATTERN", 120);
  ("TX_TOP_A_FSK_REF_PATTERN_BYTE0_FSK_REF_PATTERN", 121);
  ("TX_TOP_A_DUMMY_GSFK_DUMMY", 122);
  ("TX_TOP_A_TXRX_CFG0_0_MODEM_BW", 123);
  ("TX_TOP_A_TXRX_CFG0_0_MODEM_SF", 124);
  ("TX_TOP_A_TXRX_CFG0_1_PPM_OFFSET_HDR_CTRL", 125);
  ("TX_TOP_A_TXRX_CFG0_1_PPM_OFFSET", 126);
  ("TX_TOP_A_TXRX_CFG0_1_POST_PREAMBLE_GAP_LONG", 127);
  ("TX_TOP_A_TXRX_CFG0_1_CODING_RATE", 128);
  ("TX_TOP_A_TXRX_CFG0_2_FINE_SYNCH_EN", 129);
  ("TX_TOP_A_TXRX_CFG0_2_MODEM_EN", 130);
  ("TX_TOP_A_TXRX_CFG0_2_CADRXTX", 131);
  ("TX_TOP_A_TXRX_CFG0_2_IMPLICIT_HEADER", 132);
  ("TX_TOP_A_TXRX_CFG0_2_CRC_EN", 133);
  ("TX_TOP_A_TXRX_CFG0_3_PAYLOAD_LENGTH", 134);
  ("TX_TOP_A_TXRX_CFG1_0_INT_STEP_ORIDE_EN", 135);
  ("TX_TOP_A_TXRX_CFG1_0_INT_STEP_ORIDE", 136);
  ("TX_TOP_A_TXRX_CFG1_1_MODEM_START", 137);
  ("TX_TOP_A_TXRX_CFG1_1_HEADER_DIFF_MODE", 138);
  ("TX_TOP_A_TXRX_CFG1_1_ZERO_PAD", 139);
  ("TX_TOP_A_TXRX_CFG1_2_PREAMBLE_SYMB_NB", 140);
  ("TX_TOP_A_TXRX_CFG1_3_PREAMBLE_SYMB_NB", 141);
  ("TX_TOP_A_TXRX_CFG1_4_AUTO_ACK_INT_DELAY", 142);
  ("TX_TOP_A_TXRX_CFG1_4_AUTO_ACK_RX", 143);
  ("TX_TOP_A_TXRX_CFG1_4_AUTO_ACK_TX", 144);
  ("TX_TOP_A_TX_CFG0_0_CHIRP_LOWPASS", 145);
  ("TX_TOP_A_TX_CFG0_0_PPM_OFFSET_SIG", 146);
  ("TX_TOP_A_TX_CFG0_0_CONTCHIRP", 147);
  ("TX_TOP_A_TX_CFG0_0_CHIRP_INVERT", 148);
  ("TX_TOP_A_TX_CFG0_0_CONTINUOUS", 149)
].

Definition reg_ids_1 : list (string * Z) := [
  ("TX_TOP_A_TX_CFG0_1_POWER_RANGING", 150);
  ("TX_TOP_A_TX_CFG1_0_FRAME_NB", 151);
  ("TX_TOP_A_TX_CFG1_1_HOP_CTRL", 152);
  ("TX_TOP_A_TX_CFG1_1_IFS", 153);
  ("TX_TOP_A_FRAME_SYNCH_0_AUTO_SCALE", 154);
  ("TX_TOP_A_FRAME_SYNCH_0_DROP_ON_SYNCH", 155);
  ("TX_TOP_A_FRAME_SYNCH_0_GAIN", 156);
  ("TX_TOP_A_FRAME_SYNCH_0_PEAK1_POS", 157);
  ("TX_TOP_A_FRAME_SYNCH_1_FINETIME_ON_LAST", 158);
  ("TX_TOP_A_FRAME_SYNCH_1_TIMEOUT_OPT", 159);
  ("TX_TOP_A_FRAME_SYNCH_1_PEAK2_POS", 160);
  ("TX_TOP_A_LORA_TX_STATE_STATUS", 161);
  ("TX_TOP_A_LORA_TX_FLAG_FRAME_DONE", 162);
  ("TX_TOP_A_LORA_TX_FLAG_CONT_DONE", 163);
  ("TX_TOP_A_LORA_TX_FLAG_PLD_DONE", 164);
  ("TX_TOP_A_DUMMY_LORA_DUMMY", 165);
  ("TX_TOP_B_TX_TRIG_TX_FSM_CLR", 166);
  ("TX_TOP_B_TX_TRIG_TX_TRIG_GPS", 167);
  ("TX_TOP_B_TX_TRIG_TX_TRIG_DELAYED", 168);
  ("TX_TOP_B_TX_TRIG_TX_TRIG_IMMEDIATE", 169);
  ("TX_TOP_B_TIMER_TRIG_BYTE3_TIMER_DELAYED_TRIG", 170);
  ("TX_TOP_B_TIMER_TRIG_BYTE2_TIMER_DELAYED_TRIG", 171);
  ("TX_TOP_B_TIMER_TRIG_BYTE1_TIMER_DELAYED_TRIG", 172);
  ("TX_TOP_B_TIMER_TRIG_BYTE0_TIMER_DELAYED_TRIG", 173);
  ("TX_TOP_B_TX_START_DELAY_MSB_TX_START_DELAY", 174);
  ("TX_TOP_B_TX_START_DELAY_LSB_TX_START_DELAY", 175);
  ("TX_TOP_B_TX_CTRL_WRITE_BUFFER", 176);
  ("TX_TOP_B_TX_RAMP_DURATION_TX_RAMP_DURATION", 177);
  ("TX_TOP_B_GEN_CFG_0_MODULATION_TYPE", 178);
  ("TX_TOP_B_TEST_0_TX_ACTIVE_CTRL", 179);
  ("TX_TOP_B_TEST_0_TX_ACTIVE_SEL", 180);
  ("TX_TOP_B_TX_FLAG_TX_TIMEOUT", 181);
  ("TX_TOP_B_TX_FLAG_PKT_DONE", 182);
  ("TX_TOP_B_AGC_TX_BW_AGC_TX_BW", 183);
  ("TX_TOP_B_AGC_TX_PWR_AGC_TX_PWR", 184);
  ("TX_TOP_B_TIMEOUT_CNT_BYTE_2_TIMEOUT_CNT", 185);
  ("TX_TOP_B_TIMEOUT_CNT_BYTE_1_TIMEOUT_CNT", 186);
  ("TX_TOP_B_TIMEOUT_CNT_BYTE_0_TIMEOUT_CNT", 187);
  ("TX_TOP_B_TX_FSM_STATUS_TX_STATUS", 188);
  ("TX_TOP_B_DUMMY_CONTROL_DUMMY", 189);
  ("TX_TOP_B_TX_RFFE_IF_CTRL_PLL_DIV_CTRL", 190);
  ("TX_TOP_B_TX_RFFE_IF_CTRL_TX_CLK_EDGE", 191);
  ("TX_TOP_B_TX_RFFE_IF_CTRL_TX_MODE", 192);
  ("TX_TOP_B_TX_RFFE_IF_CTRL_TX_IF_DST", 193);
  ("TX_TOP_B_TX_RFFE_IF_CTRL_TX_IF_SRC", 194);
  ("TX_TOP_B_TX_RFFE_IF_CTRL2_SX125X_IQ_INVERT", 195);
  ("TX_TOP_B_TX_RFFE_IF_CTRL2_PLL_DIV_CTRL_AGC", 196);
  ("TX_TOP_B_TX_RFFE_IF_IQ_GAIN_IQ_GAIN", 197);
  ("TX_TOP_B_TX_RFFE_IF_I_OFFSET_I_OFFSET", 198);
  ("TX_TOP_B_TX_RFFE_IF_Q_OFFSET_Q_OFFSET", 199);
  ("TX_TOP_B_TX_RFFE_IF_FREQ_RF_H_FREQ_RF", 200);
  ("TX_TOP_B_TX_RFFE_IF_FREQ_RF_M_FREQ_RF", 201);
  ("TX_TOP_B_TX_RFFE_IF_FREQ_RF_L_FREQ_RF", 202);
  ("TX_TOP_B_TX_RFFE_IF_FREQ_DEV_H_FREQ_DEV", 203);
  ("TX_TOP_B_TX_RFFE_IF_FREQ_DEV_L_FREQ_DEV", 204);
  ("TX_TOP_B_TX_RFFE_IF_TEST_MOD_FREQ", 205);
  ("TX_TOP_B_DUMMY_MODULATOR_DUMMY", 206);
  ("TX_TOP_B_FSK_PKT_LEN_PKT_LENGTH", 207);
  ("TX_TOP_B_FSK_CFG_0_TX_CONT", 208);
  ("TX_TOP_B_FSK_CFG_0_CRC_IBM", 209);
  ("TX_TOP_B_FSK_CFG_0_DCFREE_ENC", 210);
  ("TX_TOP_B_FSK_CFG_0_CRC_EN", 211);
  ("TX_TOP_B_FSK_CFG_0_PKT_MODE", 212);
  ("TX_TOP_B_FSK_PREAMBLE_SIZE_MSB_PREAMBLE_SIZE", 213);
  ("TX_TOP_B_FSK_PREAMBLE_SIZE_LSB_PREAMBLE_SIZE", 214);
  ("TX_TOP_B_FSK_BIT_RATE_MSB_BIT_RATE", 215);
  ("TX_TOP_B_FSK_BIT_RATE_LSB_BIT_RATE", 216);
  ("TX_TOP_B_FSK_MOD_FSK_REF_PATTERN_SIZE", 217);
  ("TX_TOP_B_FSK_MOD_FSK_PREAMBLE_SEQ", 218);
  ("TX_TOP_B_FSK_MOD_FSK_REF_PATTERN_EN", 219);
  ("TX_TOP_B_FSK_MOD_FSK_GAUSSIAN_SELECT_BT", 220);
  ("TX_TOP_B_FSK_MOD_FSK_GAUSSIAN_EN", 221);
  ("TX_TOP_B_FSK_REF_PATTERN_BYTE7_FSK_REF_PATTERN", 222);
  ("TX_TOP_B_FSK_REF_PATTERN_BYTE6_FSK_REF_PATTERN", 223);
  ("TX_TOP_B_FSK_REF_PATTERN_BYTE5_FSK_REF_PATTERN", 224);
  ("TX_TOP_B_FSK_REF_PATTERN_BYTE4_FSK_REF_PATTERN", 225);
  ("TX_TOP_B_FSK_REF_PATTERN_BYTE3_FSK_REF_PATTERN", 226);
  ("TX_TOP_B_FSK_REF_PATTERN_BYTE2_FSK_REF_PATTERN", 227);
  ("TX_TOP_B_FSK_REF_PATTERN_BYTE1_FSK_REF_PATTERN", 228);
  ("TX_TOP_B_FSK_REF_PATTERN_BYTE0_FSK_REF_PATTERN", 229);
  ("TX_TOP_B_DUMMY_GSFK_DUMMY", 230);
  ("TX_TOP_B_TXRX_CFG0_0_MODEM_BW", 231);
  ("TX_TOP_B_TXRX_CFG0_0_MODEM_SF", 232);
  ("TX_TOP_B_TXRX_CFG0_1_PPM_OFFSET_HDR_CTRL", 233);
  ("TX_TOP_B_TXRX_CFG0_1_PPM_OFFSET", 234);
  ("TX_TOP_B_TXRX_CFG0_1_POST_PREAMBLE_GAP_LONG", 235);
  ("TX_TOP_B_TXRX_CFG0_1_CODING_RATE", 236);
  ("TX_TOP_B_TXRX_CFG0_2_FINE_SYNCH_EN", 237);
  ("TX_TOP_B_TXRX_CFG0_2_MODEM_EN", 238);
  ("TX_TOP_B_TXRX_CFG0_2_CADRXTX", 239);
  ("TX_TOP_B_TXRX_CFG0_2_IMPLICIT_HEADER", 240);
  ("TX_TOP_B_TXRX_CFG0_2_CRC_EN", 241);
  ("TX_TOP_B_TXRX_CFG0_3_PAYLOAD_LENGTH", 242);
  ("TX_TOP_B_TXRX_CFG1_0_INT_STEP_ORIDE_EN", 243);
  ("TX_TOP_B_TXRX_CFG1_0_INT_STEP_ORIDE", 244);
  ("TX_TOP_B_TXRX_CFG1_1_MODEM_START", 245);
  ("TX_TOP_B_TXRX_CFG1_1_HEADER_DIFF_MODE", 246);
  ("TX_TOP_B_TXRX_CFG1_1_ZERO_PAD", 247);
  ("TX_TOP_B_TXRX_CFG1_2_PREAMBLE_SYMB_NB", 248);
  ("TX_TOP_B_TXRX_CFG1_3_PREAMBLE_SYMB_NB", 249);
  ("TX_TOP_B_TXRX_CFG1_4_AUTO_ACK_INT_DELAY", 250);
  ("TX_TOP_B_TXRX_CFG1_4_AUTO_ACK_RX", 251);
  ("TX_TOP_B_TXRX_CFG1_4_AUTO_ACK_TX", 252);
  ("TX_TOP_B_TX_CFG0_0_CHIRP_LOWPASS", 253);
  ("TX_TOP_B_TX_CFG0_0_PPM_OFFSET_SIG", 254);
  ("TX_TOP_B_TX_CFG0_0_CONTCHIRP", 255);
  ("TX_TOP_B_TX_CFG0_0_CHIRP_INVERT", 256);
  ("TX_TOP_B_TX_CFG0_0_CONTINUOUS", 257);
  ("TX_TOP_B_TX_CFG0_1_POWER_RANGING", 258);
  ("TX_TOP_B_TX_CFG1_0_FRAME_NB", 259);
  ("TX_TOP_B_TX_CFG1_1_HOP_CTRL", 260);
  ("TX_TOP_B_TX_CFG1_1_IFS", 261);
  ("TX_TOP_B_FRAME_SYNCH_0_AUTO_SCALE", 262);
  ("TX_TOP_B_FRAME_SYNCH_0_DROP_ON_SYNCH", 263);
  ("TX_TOP_B_FRAME_SYNCH_0_GAIN", 264);
  ("TX_TOP_B_FRAME_SYNCH_0_PEAK1_POS", 265);
  ("TX_TOP_B_FRAME_SYNCH_1_FINETIME_ON_LAST", 266);
  ("TX_TOP_B_FRAME_SYNCH_1_TIMEOUT_OPT", 267);
  ("TX_TOP_B_FRAME_SYNCH_1_PEAK2_POS", 268);
  ("TX_TOP_B_LORA_TX_STATE_STATUS", 269);
  ("TX_TOP_B_LORA_TX_FLAG_FRAME_DONE", 270);
  ("TX_TOP_B_LORA_TX_FLAG_CONT_DONE", 271);
  ("TX_TOP_B_LORA_TX_FLAG_PLD_DONE", 272);
  ("TX_TOP_B_DUMMY_LORA_DUMMY", 273);
  ("GPIO_GPIO_DIR_H_DIRECTION", 274);
  ("GPIO_GPIO_DIR_L_DIRECTION", 275);
  ("GPIO_GPIO_OUT_H_OUT_VALUE", 276);
  ("GPIO_GPIO_OUT_L_OUT_VALUE", 277);
  ("GPIO_GPIO_IN_H_IN_VALUE", 278);
  ("GPIO_GPIO_IN_L_IN_VALUE", 279);
  ("GPIO_GPIO_PD_H_PD_VALUE", 280);
  ("GPIO_GPIO_PD_L_PD_VALUE", 281);
  ("GPIO_GPIO_SEL_0_SELECTION", 282);
  ("GPIO_GPIO_SEL_1_SELECTION", 283);
  ("GPIO_GPIO_SEL_2_SELECTION", 284);
  ("GPIO_GPIO_SEL_3_SELECTION", 285);
  ("GPIO_GPIO_SEL_4_SELECTION", 286);
  ("GPIO_GPIO_SEL_5_SELECTION", 287);
  ("GPIO_GPIO_SEL_6_SELECTION", 288);
  ("GPIO_GPIO_SEL_7_SELECTION", 289);
  ("GPIO_GPIO_SEL_8_11_GPIO_11_9_SEL", 290);
  ("GPIO_GPIO_SEL_8_11_GPIO_8_SEL", 291);
  ("GPIO_HOST_IRQ_TX_TIMEOUT_B", 292);
  ("GPIO_HOST_IRQ_TX_TIMEOUT_A", 293);
  ("GPIO_HOST_IRQ_TX_DONE_B", 294);
  ("GPIO_HOST_IRQ_TX_DONE_A", 295);
  ("GPIO_HOST_IRQ_TIMESTAMP", 296);
  ("GPIO_HOST_IRQ_RX_BUFFER_WATERMARK", 297);
  ("GPIO_HOST_IRQ_EN_TX_TIMEOUT_B", 298);
  ("GPIO_HOST_IRQ_EN_TX_TIMEOUT_A", 299)
].

Definition reg_ids_2 : list (string * Z) := [
  ("GPIO_HOST_IRQ_EN_TX_DONE_B", 300);
  ("GPIO_HOST_IRQ_EN_TX_DONE_A", 301);
  ("GPIO_HOST_IRQ_EN_TIMESTAMP", 302);
  ("GPIO_HOST_IRQ_EN_RX_BUFFER_WATERMARK", 303);
  ("GPIO_DUMMY_DUMMY", 304);
  ("TIMESTAMP_GPS_CTRL_GPS_POL", 305);
  ("TIMESTAMP_GPS_CTRL_GPS_EN", 306);
  ("TIMESTAMP_TIMESTAMP_PPS_MSB2_TIMESTAMP_PPS", 307);
  ("TIMESTAMP_TIMESTAMP_PPS_MSB1_TIMESTAMP_PPS", 308);
  ("TIMESTAMP_TIMESTAMP_PPS_LSB2_TIMESTAMP_PPS", 309);
  ("TIMESTAMP_TIMESTAMP_PPS_LSB1_TIMESTAMP_PPS", 310);
  ("TIMESTAMP_TIMESTAMP_MSB2_TIMESTAMP", 311);
  ("TIMESTAMP_TIMESTAMP_MSB1_TIMESTAMP", 312);
  ("TIMESTAMP_TIMESTAMP_LSB2_TIMESTAMP", 313);
  ("TIMESTAMP_TIMESTAMP_LSB1_TIMESTAMP", 314);
  ("TIMESTAMP_TIMESTAMP_SET3_TIMESTAMP", 315);
  ("TIMESTAMP_TIMESTAMP_SET2_TIMESTAMP", 316);
  ("TIMESTAMP_TIMESTAMP_SET1_TIMESTAMP", 317);
  ("TIMESTAMP_TIMESTAMP_SET0_TIMESTAMP", 318);
  ("TIMESTAMP_TIMESTAMP_IRQ_3_TIMESTAMP", 319);
  ("TIMESTAMP_TIMESTAMP_IRQ_2_TIMESTAMP", 320);
  ("TIMESTAMP_TIMESTAMP_IRQ_1_TIMESTAMP", 321);
  ("TIMESTAMP_TIMESTAMP_IRQ_0_TIMESTAMP", 322);
  ("TIMESTAMP_DUMMY_DUMMY", 323);
  ("RX_TOP_FREQ_0_MSB_IF_FREQ_0", 324);
  ("RX_TOP_FREQ_0_LSB_IF_FREQ_0", 325);
  ("RX_TOP_FREQ_1_MSB_IF_FREQ_1", 326);
  ("RX_TOP_FREQ_1_LSB_IF_FREQ_1", 327);
  ("RX_TOP_FREQ_2_MSB_IF_FREQ_2", 328);
  ("RX_TOP_FREQ_2_LSB_IF_FREQ_2", 329);
  ("RX_TOP_FREQ_3_MSB_IF_FREQ_3", 330);
  ("RX_TOP_FREQ_3_LSB_IF_FREQ_3", 331);
  ("RX_TOP_FREQ_4_MSB_IF_FREQ_4", 332);
  ("RX_TOP_FREQ_4_LSB_IF_FREQ_4", 333);
  ("RX_TOP_FREQ_5_MSB_IF_FREQ_5", 334);
  ("RX_TOP_FREQ_5_LSB_IF_FREQ_5", 335);
  ("RX_TOP_FREQ_6_MSB_IF_FREQ_6", 336);
  ("RX_TOP_FREQ_6_LSB_IF_FREQ_6", 337);
  ("RX_TOP_FREQ_7_MSB_IF_FREQ_7", 338);
  ("RX_TOP_FREQ_7_LSB_IF_FREQ_7", 339);
  ("RX_TOP_RADIO_SELECT_RADIO_SELECT", 340);
  ("RX_TOP_RSSI_CONTROL_RSSI_FILTER_ALPHA", 341);
  ("RX_TOP_RSSI_CONTROL_SELECT_RSSI", 342);
  ("RX_TOP_RSSI_DEF_VALUE_CHAN_RSSI_DEF_VALUE", 343);
  ("RX_TOP_CHANN_DAGC_CFG1_CHAN_DAGC_THRESHOLD_HIGH", 344);
  ("RX_TOP_CHANN_DAGC_CFG2_CHAN_DAGC_THRESHOLD_LOW", 345);
  ("RX_TOP_CHANN_DAGC_CFG3_CHAN_DAGC_MAX_ATTEN", 346);
  ("RX_TOP_CHANN_DAGC_CFG3_CHAN_DAGC_MIN_ATTEN", 347);
  ("RX_TOP_CHANN_DAGC_CFG4_CHAN_DAGC_STEP", 348);
  ("RX_TOP_CHANN_DAGC_CFG5_CHAN_DAGC_MODE", 349);
  ("RX_TOP_RSSI_VALUE_CHAN_RSSI", 350);
  ("RX_TOP_GAIN_CONTROL_CHAN_GAIN_VALID", 351);
  ("RX_TOP_GAIN_CONTROL_CHAN_GAIN", 352);
  ("RX_TOP_CLK_CONTROL_CHAN_CLK_EN", 353);
  ("RX_TOP_DUMMY0_DUMMY0", 354);
  ("RX_TOP_CORR_CLOCK_ENABLE_CLK_EN", 355);
  ("RX_TOP_CORRELATOR_EN_CORR_EN", 356);
  ("RX_TOP_CORRELATOR_SF_EN_CORR_SF_EN", 357);
  ("RX_TOP_CORRELATOR_ENABLE_ONLY_FIRST_DET_EDGE_ENABLE_ONLY_FIRST_DET_EDGE", 358);
  ("RX_TOP_CORRELATOR_ENABLE_ACC_CLEAR_ENABLE_CORR_ACC_CLEAR", 359);
  ("RX_TOP_SF5_CFG1_ACC_WIN_LEN", 360);
  ("RX_TOP_SF5_CFG1_ACC_PEAK_SUM_EN", 361);
  ("RX_TOP_SF5_CFG1_ACC_PEAK_POS_SEL", 362);
  ("RX_TOP_SF5_CFG1_ACC_COEFF", 363);
  ("RX_TOP_SF5_CFG1_ACC_AUTO_RESCALE", 364);
  ("RX_TOP_SF5_CFG1_ACC_2_SAME_PEAKS", 365);
  ("RX_TOP_SF5_CFG2_ACC_MIN2", 366);
  ("RX_TOP_SF5_CFG2_ACC_PNR", 367);
  ("RX_TOP_SF5_CFG3_MIN_SINGLE_PEAK", 368);
  ("RX_TOP_SF5_CFG4_MSP_PNR", 369);
  ("RX_TOP_SF5_CFG5_MSP2_PNR", 370);
  ("RX_TOP_SF5_CFG6_MSP_PEAK_NB", 371);
  ("RX_TOP_SF5_CFG6_MSP_CNT_MODE", 372);
  ("RX_TOP_SF5_CFG6_MSP_POS_SEL", 373);
  ("RX_TOP_SF5_CFG7_MSP2_PEAK_NB", 374);
  ("RX_TOP_SF5_CFG7_NOISE_COEFF", 375);
  ("RX_TOP_SF6_CFG1_ACC_WIN_LEN", 376);
  ("RX_TOP_SF6_CFG1_ACC_PEAK_SUM_EN", 377);
  ("RX_TOP_SF6_CFG1_ACC_PEAK_POS_SEL", 378);
  ("RX_TOP_SF6_CFG1_ACC_COEFF", 379);
  ("RX_TOP_SF6_CFG1_ACC_AUTO_RESCALE", 380);
  ("RX_TOP_SF6_CFG1_ACC_2_SAME_PEAKS", 381);
  ("RX_TOP_SF6_CFG2_ACC_MIN2", 382);
  ("RX_TOP_SF6_CFG2_ACC_PNR", 383);
  ("RX_TOP_SF6_CFG3_MIN_SINGLE_PEAK", 384);
  ("RX_TOP_SF6_CFG4_MSP_PNR", 385);
  ("RX_TOP_SF6_CFG5_MSP2_PNR", 386);
  ("RX_TOP_SF6_CFG6_MSP_PEAK_NB", 387);
  ("RX_TOP_SF6_CFG6_MSP_CNT_MODE", 388);
  ("RX_TOP_SF6_CFG6_MSP_POS_SEL", 389);
  ("RX_TOP_SF6_CFG7_MSP2_PEAK_NB", 390);
  ("RX_TOP_SF6_CFG7_NOISE_COEFF", 391);
  ("RX_TOP_SF7_CFG1_ACC_WIN_LEN", 392);
  ("RX_TOP_SF7_CFG1_ACC_PEAK_SUM_EN", 393);
  ("RX_TOP_SF7_CFG1_ACC_PEAK_POS_SEL", 394);
  ("RX_TOP_SF7_CFG1_ACC_COEFF", 395);
  ("RX_TOP_SF7_CFG1_ACC_AUTO_RESCALE", 396);
  ("RX_TOP_SF7_CFG1_ACC_2_SAME_PEAKS", 397);
  ("RX_TOP_SF7_CFG2_ACC_MIN2", 398);
  ("RX_TOP_SF7_CFG2_ACC_PNR", 399);
  ("RX_TOP_SF7_CFG3_MIN_SINGLE_PEAK", 400);
  ("RX_TOP_SF7_CFG4_MSP_PNR", 401);
  ("RX_TOP_SF7_CFG5_MSP2_PNR", 402);
  ("RX_TOP_SF7_CFG6_MSP_PEAK_NB", 403);
  ("RX_TOP_SF7_CFG6_MSP_CNT_MODE", 404);
  ("RX_TOP_SF7_CFG6_MSP_POS_SEL", 405);
  ("RX_TOP_SF7_CFG7_MSP2_PEAK_NB", 406);
  ("RX_TOP_SF7_CFG7_NOISE_COEFF", 407);
  ("RX_TOP_SF8_CFG1_ACC_WIN_LEN", 408);
  ("RX_TOP_SF8_CFG1_ACC_PEAK_SUM_EN", 409);
  ("RX_TOP_SF8_CFG1_ACC_PEAK_POS_SEL", 410);
  ("RX_TOP_SF8_CFG1_ACC_COEFF", 411);
  ("RX_TOP_SF8_CFG1_ACC_AUTO_RESCALE", 412);
  ("RX_TOP_SF8_CFG1_ACC_2_SAME_PEAKS", 413);
  ("RX_TOP_SF8_CFG2_ACC_MIN2", 414);
  ("RX_TOP_SF8_CFG2_ACC_PNR", 415);
  ("RX_TOP_SF8_CFG3_MIN_SINGLE_PEAK", 416);
  ("RX_TOP_SF8_CFG4_MSP_PNR", 417);
  ("RX_TOP_SF8_CFG5_MSP2_PNR", 418);
  ("RX_TOP_SF8_CFG6_MSP_PEAK_NB", 419);
  ("RX_TOP_SF8_CFG6_MSP_CNT_MODE", 420);
  ("RX_TOP_SF8_CFG6_MSP_POS_SEL", 421);
  ("RX_TOP_SF8_CFG7_MSP2_PEAK_NB", 422);
  ("RX_TOP_SF8_CFG7_NOISE_COEFF", 423);
  ("RX_TOP_SF9_CFG1_ACC_WIN_LEN", 424);
  ("RX_TOP_SF9_CFG1_ACC_PEAK_SUM_EN", 425);
  ("RX_TOP_SF9_CFG1_ACC_PEAK_POS_SEL", 426);
  ("RX_TOP_SF9_CFG1_ACC_COEFF", 427);
  ("RX_TOP_SF9_CFG1_ACC_AUTO_RESCALE", 428);
  ("RX_TOP_SF9_CFG1_ACC_2_SAME_PEAKS", 429);
  ("RX_TOP_SF9_CFG2_ACC_MIN2", 430);
  ("RX_TOP_SF9_CFG2_ACC_PNR", 431);
  ("RX_TOP_SF9_CFG3_MIN_SINGLE_PEAK", 432);
  ("RX_TOP_SF9_CFG4_MSP_PNR", 433);
  ("RX_TOP_SF9_CFG5_MSP2_PNR", 434);
  ("RX_TOP_SF9_CFG6_MSP_PEAK_NB", 435);
  ("RX_TOP_SF9_CFG6_MSP_CNT_MODE", 436);
  ("RX_TOP_SF9_CFG6_MSP_POS_SEL", 437);
  ("RX_TOP_SF9_CFG7_MSP2_PEAK_NB", 438);
  ("RX_TOP_SF9_CFG7_NOISE_COEFF", 439);
  ("RX_TOP_SF10_CFG1_ACC_WIN_LEN", 440);
  ("RX_TOP_SF10_CFG1_ACC_PEAK_SUM_EN", 441);
  ("RX_TOP_SF10_CFG1_ACC_PEAK_POS_SEL", 442);
  ("RX_TOP_SF10_CFG1_ACC_COEFF", 443);
  ("RX_TOP_SF10_CFG1_ACC_AUTO_RESCALE", 444);
  ("RX_TOP_SF10_CFG1_ACC_2_SAME_PEAKS", 445);
  ("RX_TOP_SF10_CFG2_ACC_MIN2", 446);
  ("RX_TOP_SF10_CFG2_ACC_PNR", 447);
  ("RX_TOP_SF10_CFG3_MIN_SINGLE_PEAK", 448);
  ("RX_TOP_SF10_CFG4_MSP_PNR", 449)
].

Definition reg_ids_3 : list (string * Z) := [
  ("RX_TOP_SF10_CFG5_MSP2_PNR", 450);
  ("RX_TOP_SF10_CFG6_MSP_PEAK_NB", 451);
  ("RX_TOP_SF10_CFG6_MSP_CNT_MODE", 452);
  ("RX_TOP_SF10_CFG6_MSP_POS_SEL", 453);
  ("RX_TOP_SF10_CFG7_MSP2_PEAK_NB", 454);
  ("RX_TOP_SF10_CFG7_NOISE_COEFF", 455);
  ("RX_TOP_SF11_CFG1_ACC_WIN_LEN", 456);
  ("RX_TOP_SF11_CFG1_ACC_PEAK_SUM_EN", 457);
  ("RX_TOP_SF11_CFG1_ACC_PEAK_POS_SEL", 458);
  ("RX_TOP_SF11_CFG1_ACC_COEFF", 459);
  ("RX_TOP_SF11_CFG1_ACC_AUTO_RESCALE", 460);
  ("RX_TOP_SF11_CFG1_ACC_2_SAME_PEAKS", 461);
  ("RX_TOP_SF11_CFG2_ACC_MIN2", 462);
  ("RX_TOP_SF11_CFG2_ACC_PNR", 463);
  ("RX_TOP_SF11_CFG3_MIN_SINGLE_PEAK", 464);
  ("RX_TOP_SF11_CFG4_MSP_PNR", 465);
  ("RX_TOP_SF11_CFG5_MSP2_PNR", 466);
  ("RX_TOP_SF11_CFG6_MSP_PEAK_NB", 467);
  ("RX_TOP_SF11_CFG6_MSP_CNT_MODE", 468);
  ("RX_TOP_SF11_CFG6_MSP_POS_SEL", 469);
  ("RX_TOP_SF11_CFG7_MSP2_PEAK_NB", 470);
  ("RX_TOP_SF11_CFG7_NOISE_COEFF", 471);
  ("RX_TOP_SF12_CFG1_ACC_WIN_LEN", 472);
  ("RX_TOP_SF12_CFG1_ACC_PEAK_SUM_EN", 473);
  ("RX_TOP_SF12_CFG1_ACC_PEAK_POS_SEL", 474);
  ("RX_TOP_SF12_CFG1_ACC_COEFF", 475);
  ("RX_TOP_SF12_CFG1_ACC_AUTO_RESCALE", 476);
  ("RX_TOP_SF12_CFG1_ACC_2_SAME_PEAKS", 477);
  ("RX_TOP_SF12_CFG2_ACC_MIN2", 478);
  ("RX_TOP_SF12_CFG2_ACC_PNR", 479);
  ("RX_TOP_SF12_CFG3_MIN_SINGLE_PEAK", 480);
  ("RX_TOP_SF12_CFG4_MSP_PNR", 481);
  ("RX_TOP_SF12_CFG5_MSP2_PNR", 482);
  ("RX_TOP_SF12_CFG6_MSP_PEAK_NB", 483);
  ("RX_TOP_SF12_CFG6_MSP_CNT_MODE", 484);
  ("RX_TOP_SF12_CFG6_MSP_POS_SEL", 485);
  ("RX_TOP_SF12_CFG7_MSP2_PEAK_NB", 486);
  ("RX_TOP_SF12_CFG7_NOISE_COEFF", 487);
  ("RX_TOP_DUMMY1_DUMMY1", 488);
  ("RX_TOP_DC_NOTCH_CFG1_BW_START", 489);
  ("RX_TOP_DC_NOTCH_CFG1_AUTO_BW_RED", 490);
  ("RX_TOP_DC_NOTCH_CFG1_NO_FAST_START", 491);
  ("RX_TOP_DC_NOTCH_CFG1_BYPASS", 492);
  ("RX_TOP_DC_NOTCH_CFG1_ENABLE", 493);
  ("RX_TOP_DC_NOTCH_CFG2_BW_LOCKED", 494);
  ("RX_TOP_DC_NOTCH_CFG2_BW", 495);
  ("RX_TOP_DC_NOTCH_CFG3_BW_RED", 496);
  ("RX_TOP_DC_NOTCH_CFG4_IIR_DCC_TIME", 497);
  ("RX_TOP_RX_DFE_FIR1_0_FIR1_COEFF_0", 498);
  ("RX_TOP_RX_DFE_FIR1_1_FIR1_COEFF_1", 499);
  ("RX_TOP_RX_DFE_FIR1_2_FIR1_COEFF_2", 500);
  ("RX_TOP_RX_DFE_FIR1_3_FIR1_COEFF_3", 501);
  ("RX_TOP_RX_DFE_FIR1_4_FIR1_COEFF_4", 502);
  ("RX_TOP_RX_DFE_FIR1_5_FIR1_COEFF_5", 503);
  ("RX_TOP_RX_DFE_FIR1_6_FIR1_COEFF_6", 504);
  ("RX_TOP_RX_DFE_FIR1_7_FIR1_COEFF_7", 505);
  ("RX_TOP_RX_DFE_FIR2_0_FIR2_COEFF_0", 506);
  ("RX_TOP_RX_DFE_FIR2_1_FIR2_COEFF_1", 507);
  ("RX_TOP_RX_DFE_FIR2_2_FIR2_COEFF_2", 508);
  ("RX_TOP_RX_DFE_FIR2_3_FIR2_COEFF_3", 509);
  ("RX_TOP_RX_DFE_FIR2_4_FIR2_COEFF_4", 510);
  ("RX_TOP_RX_DFE_FIR2_5_FIR2_COEFF_5", 511);
  ("RX_TOP_RX_DFE_FIR2_6_FIR2_COEFF_6", 512);
  ("RX_TOP_RX_DFE_FIR2_7_FIR2_COEFF_7", 513);
  ("RX_TOP_RX_DFE_AGC0_RADIO_GAIN_RED_SEL", 514);
  ("RX_TOP_RX_DFE_AGC0_RADIO_GAIN_RED_DB", 515);
  ("RX_TOP_RX_DFE_AGC1_DC_COMP_EN", 516);
  ("RX_TOP_RX_DFE_AGC1_FORCE_DEFAULT_FIR", 517);
  ("RX_TOP_RX_DFE_AGC1_RSSI_EARLY_LATCH", 518);
  ("RX_TOP_RX_DFE_AGC1_FREEZE_ON_SYNC", 519);
  ("RX_TOP_RX_DFE_AGC2_DAGC_IN_COMP", 520);
  ("RX_TOP_RX_DFE_AGC2_DAGC_FIR_HYST", 521);
  ("RX_TOP_RX_DFE_AGC2_RSSI_MAX_SAMPLE", 522);
  ("RX_TOP_RX_DFE_AGC2_RSSI_MIN_SAMPLE", 523);
  ("RX_TOP_RX_DFE_GAIN0_DAGC_FIR_FAST", 524);
  ("RX_TOP_RX_DFE_GAIN0_FORCE_GAIN_FIR", 525);
  ("RX_TOP_RX_DFE_GAIN0_GAIN_FIR1", 526);
  ("RX_TOP_RX_DFE_GAIN0_GAIN_FIR2", 527);
  ("RX_TOP_DAGC_CFG_TARGET_LVL", 528);
  ("RX_TOP_DAGC_CFG_GAIN_INCR_STEP", 529);
  ("RX_TOP_DAGC_CFG_GAIN_DROP_COMP", 530);
  ("RX_TOP_DAGC_CFG_COMB_FILTER_EN", 531);
  ("RX_TOP_DAGC_CFG_NO_FREEZE_START", 532);
  ("RX_TOP_DAGC_CFG_FREEZE_ON_SYNC", 533);
  ("RX_TOP_DAGC_CNT0_SAMPLE", 534);
  ("RX_TOP_DAGC_CNT1_THR_M6", 535);
  ("RX_TOP_DAGC_CNT2_THR_M12", 536);
  ("RX_TOP_DAGC_CNT3_THR_M18", 537);
  ("RX_TOP_DAGC_CNT4_GAIN", 538);
  ("RX_TOP_DAGC_CNT4_FORCE_GAIN", 539);
  ("RX_TOP_TXRX_CFG1_PPM_OFFSET_HDR_CTRL", 540);
  ("RX_TOP_TXRX_CFG1_PPM_OFFSET", 541);
  ("RX_TOP_TXRX_CFG1_MODEM_EN", 542);
  ("RX_TOP_TXRX_CFG1_CODING_RATE", 543);
  ("RX_TOP_TXRX_CFG2_MODEM_START", 544);
  ("RX_TOP_TXRX_CFG2_CADRXTX", 545);
  ("RX_TOP_TXRX_CFG2_IMPLICIT_HEADER", 546);
  ("RX_TOP_TXRX_CFG2_CRC_EN", 547);
  ("RX_TOP_TXRX_CFG3_PAYLOAD_LENGTH", 548);
  ("RX_TOP_TXRX_CFG4_INT_STEP_ORIDE_EN", 549);
  ("RX_TOP_TXRX_CFG4_INT_STEP_ORIDE", 550);
  ("RX_TOP_TXRX_CFG5_HEADER_DIFF_MODE", 551);
  ("RX_TOP_TXRX_CFG5_ZERO_PAD", 552);
  ("RX_TOP_TXRX_CFG6_PREAMBLE_SYMB_NB", 553);
  ("RX_TOP_TXRX_CFG7_PREAMBLE_SYMB_NB", 554);
  ("RX_TOP_TXRX_CFG8_AUTO_ACK_INT_DELAY", 555);
  ("RX_TOP_TXRX_CFG8_AUTO_ACK_RX", 556);
  ("RX_TOP_TXRX_CFG8_AUTO_ACK_TX", 557);
  ("RX_TOP_TXRX_CFG8_POST_PREAMBLE_GAP_LONG", 558);
  ("RX_TOP_TXRX_CFG9_FINE_SYNCH_EN_SF12", 559);
  ("RX_TOP_TXRX_CFG9_FINE_SYNCH_EN_SF11", 560);
  ("RX_TOP_TXRX_CFG9_FINE_SYNCH_EN_SF10", 561);
  ("RX_TOP_TXRX_CFG9_FINE_SYNCH_EN_SF9", 562);
  ("RX_TOP_TXRX_CFG9_FINE_SYNCH_EN_SF8", 563);
  ("RX_TOP_TXRX_CFG9_FINE_SYNCH_EN_SF7", 564);
  ("RX_TOP_TXRX_CFG9_FINE_SYNCH_EN_SF6", 565);
  ("RX_TOP_TXRX_CFG9_FINE_SYNCH_EN_SF5", 566);
  ("RX_TOP_RX_CFG0_DFT_PEAK_EN", 567);
  ("RX_TOP_RX_CFG0_CHIRP_INVERT", 568);
  ("RX_TOP_RX_CFG0_SWAP_IQ", 569);
  ("RX_TOP_RX_CFG0_CONTINUOUS", 570);
  ("RX_TOP_RX_CFG1_DETECT_TIMEOUT", 571);
  ("RX_TOP_RX_CFG2_CLK_EN_RESYNC_DIN", 572);
  ("RX_TOP_RX_CFG2_LLR_SCALE", 573);
  ("RX_TOP_FRAME_SYNCH0_SF5_PEAK1_POS_SF5", 574);
  ("RX_TOP_FRAME_SYNCH1_SF5_PEAK2_POS_SF5", 575);
  ("RX_TOP_FRAME_SYNCH0_SF6_PEAK1_POS_SF6", 576);
  ("RX_TOP_FRAME_SYNCH1_SF6_PEAK2_POS_SF6", 577);
  ("RX_TOP_FRAME_SYNCH0_SF7TO12_PEAK1_POS_SF7TO12", 578);
  ("RX_TOP_FRAME_SYNCH1_SF7TO12_PEAK2_POS_SF7TO12", 579);
  ("RX_TOP_FRAME_SYNCH2_FINETIME_ON_LAST", 580);
  ("RX_TOP_FRAME_SYNCH2_AUTO_SCALE", 581);
  ("RX_TOP_FRAME_SYNCH2_DROP_ON_SYNCH", 582);
  ("RX_TOP_FRAME_SYNCH2_GAIN", 583);
  ("RX_TOP_FRAME_SYNCH2_TIMEOUT_OPT", 584);
  ("RX_TOP_FINE_TIMING_A_0_GAIN_P_HDR_RED", 585);
  ("RX_TOP_FINE_TIMING_A_0_ROUNDING", 586);
  ("RX_TOP_FINE_TIMING_A_0_POS_LIMIT", 587);
  ("RX_TOP_FINE_TIMING_A_0_SUM_SIZE", 588);
  ("RX_TOP_FINE_TIMING_A_0_MODE", 589);
  ("RX_TOP_FINE_TIMING_A_1_GAIN_P_AUTO", 590);
  ("RX_TOP_FINE_TIMING_A_1_GAIN_P_PAYLOAD", 591);
  ("RX_TOP_FINE_TIMING_A_1_GAIN_P_PREAMB", 592);
  ("RX_TOP_FINE_TIMING_A_2_GAIN_I_AUTO", 593);
  ("RX_TOP_FINE_TIMING_A_2_GAIN_I_PAYLOAD", 594);
  ("RX_TOP_FINE_TIMING_A_2_GAIN_I_PREAMB", 595);
  ("RX_TOP_FINE_TIMING_A_3_FINESYNCH_SUM", 596);
  ("RX_TOP_FINE_TIMING_A_3_FINESYNCH_GAIN", 597);
  ("RX_TOP_FINE_TIMING_A_4_GAIN_I_EN_SF8", 598);
  ("RX_TOP_FINE_TIMING_A_4_GAIN_I_EN_SF7", 599)
].

Definition reg_ids_4 : list (string * Z) := [
  ("RX_TOP_FINE_TIMING_A_4_GAIN_I_EN_SF6", 600);
  ("RX_TOP_FINE_TIMING_A_4_GAIN_I_EN_SF5", 601);
  ("RX_TOP_FINE_TIMING_A_5_GAIN_I_EN_SF12", 602);
  ("RX_TOP_FINE_TIMING_A_5_GAIN_I_EN_SF11", 603);
  ("RX_TOP_FINE_TIMING_A_5_GAIN_I_EN_SF10", 604);
  ("RX_TOP_FINE_TIMING_A_5_GAIN_I_EN_SF9", 605);
  ("RX_TOP_FINE_TIMING_A_6_GAIN_P_PREAMB_SF12", 606);
  ("RX_TOP_FINE_TIMING_A_6_GAIN_P_PREAMB_SF5_6", 607);
  ("RX_TOP_FINE_TIMING_7_GAIN_I_AUTO_MAX", 608);
  ("RX_TOP_FINE_TIMING_7_GAIN_P_AUTO_MAX", 609);
  ("RX_TOP_FINE_TIMING_B_0_GAIN_P_HDR_RED", 610);
  ("RX_TOP_FINE_TIMING_B_0_ROUNDING", 611);
  ("RX_TOP_FINE_TIMING_B_0_POS_LIMIT", 612);
  ("RX_TOP_FINE_TIMING_B_0_SUM_SIZE", 613);
  ("RX_TOP_FINE_TIMING_B_0_MODE", 614);
  ("RX_TOP_FINE_TIMING_B_1_GAIN_P_AUTO", 615);
  ("RX_TOP_FINE_TIMING_B_1_GAIN_P_PAYLOAD", 616);
  ("RX_TOP_FINE_TIMING_B_1_GAIN_P_PREAMB", 617);
  ("RX_TOP_FINE_TIMING_B_2_GAIN_I_AUTO", 618);
  ("RX_TOP_FINE_TIMING_B_2_GAIN_I_PAYLOAD", 619);
  ("RX_TOP_FINE_TIMING_B_2_GAIN_I_PREAMB", 620);
  ("RX_TOP_FINE_TIMING_B_3_FINESYNCH_SUM", 621);
  ("RX_TOP_FINE_TIMING_B_3_FINESYNCH_GAIN", 622);
  ("RX_TOP_FINE_TIMING_B_4_GAIN_I_EN_SF8", 623);
  ("RX_TOP_FINE_TIMING_B_4_GAIN_I_EN_SF7", 624);
  ("RX_TOP_FINE_TIMING_B_4_GAIN_I_EN_SF6", 625);
  ("RX_TOP_FINE_TIMING_B_4_GAIN_I_EN_SF5", 626);
  ("RX_TOP_FINE_TIMING_B_5_GAIN_I_EN_SF12", 627);
  ("RX_TOP_FINE_TIMING_B_5_GAIN_I_EN_SF11", 628);
  ("RX_TOP_FINE_TIMING_B_5_GAIN_I_EN_SF10", 629);
  ("RX_TOP_FINE_TIMING_B_5_GAIN_I_EN_SF9", 630);
  ("RX_TOP_FINE_TIMING_B_6_GAIN_P_PREAMB_SF12", 631);
  ("RX_TOP_FINE_TIMING_B_6_GAIN_P_PREAMB_SF5_6", 632);
  ("RX_TOP_FREQ_TO_TIME0_FREQ_TO_TIME_DRIFT_MANT", 633);
  ("RX_TOP_FREQ_TO_TIME1_FREQ_TO_TIME_DRIFT_MANT", 634);
  ("RX_TOP_FREQ_TO_TIME2_FREQ_TO_TIME_DRIFT_EXP", 635);
  ("RX_TOP_FREQ_TO_TIME3_FREQ_TO_TIME_INVERT_FREQ_DELTA", 636);
  ("RX_TOP_FREQ_TO_TIME3_FREQ_TO_TIME_INVERT_FINE_DELTA", 637);
  ("RX_TOP_FREQ_TO_TIME3_FREQ_TO_TIME_INVERT_FREQ_ERROR", 638);
  ("RX_TOP_FREQ_TO_TIME3_FREQ_TO_TIME_INVERT_TIME_SYMB", 639);
  ("RX_TOP_FREQ_TO_TIME3_FREQ_TO_TIME_INVERT_TIME_OFFSET", 640);
  ("RX_TOP_FREQ_TO_TIME3_FREQ_TO_TIME_INVERT_DETECT", 641);
  ("RX_TOP_FREQ_TO_TIME4_FREQ_TO_TIME_INVERT_RNG", 642);
  ("RX_TOP_FREQ_TRACK_A_0_FREQ_TRACK_EN_SF8", 643);
  ("RX_TOP_FREQ_TRACK_A_0_FREQ_TRACK_EN_SF7", 644);
  ("RX_TOP_FREQ_TRACK_A_0_FREQ_TRACK_EN_SF6", 645);
  ("RX_TOP_FREQ_TRACK_A_0_FREQ_TRACK_EN_SF5", 646);
  ("RX_TOP_FREQ_TRACK_A_1_FREQ_TRACK_EN_SF12", 647);
  ("RX_TOP_FREQ_TRACK_A_1_FREQ_TRACK_EN_SF11", 648);
  ("RX_TOP_FREQ_TRACK_A_1_FREQ_TRACK_EN_SF10", 649);
  ("RX_TOP_FREQ_TRACK_A_1_FREQ_TRACK_EN_SF9", 650);
  ("RX_TOP_FREQ_TRACK_B_0_FREQ_TRACK_EN_SF8", 651);
  ("RX_TOP_FREQ_TRACK_B_0_FREQ_TRACK_EN_SF7", 652);
  ("RX_TOP_FREQ_TRACK_B_0_FREQ_TRACK_EN_SF6", 653);
  ("RX_TOP_FREQ_TRACK_B_0_FREQ_TRACK_EN_SF5", 654);
  ("RX_TOP_FREQ_TRACK_B_1_FREQ_TRACK_EN_SF12", 655);
  ("RX_TOP_FREQ_TRACK_B_1_FREQ_TRACK_EN_SF11", 656);
  ("RX_TOP_FREQ_TRACK_B_1_FREQ_TRACK_EN_SF10", 657);
  ("RX_TOP_FREQ_TRACK_B_1_FREQ_TRACK_EN_SF9", 658);
  ("RX_TOP_FREQ_TRACK2_FREQ_TRACK_FINE", 659);
  ("RX_TOP_FREQ_TRACK2_FREQ_TRACK_HDR_SKIP", 660);
  ("RX_TOP_FREQ_TRACK3_FREQ_SYNCH_GAIN", 661);
  ("RX_TOP_FREQ_TRACK3_FREQ_TRACK_AUTO_THR", 662);
  ("RX_TOP_FREQ_TRACK4_SNR_MIN_WINDOW", 663);
  ("RX_TOP_FREQ_TRACK4_GAIN_AUTO_SNR_MIN", 664);
  ("RX_TOP_FREQ_TRACK4_FREQ_SYNCH_THR", 665);
  ("RX_TOP_DETECT_MSP0_MSP_PNR", 666);
  ("RX_TOP_DETECT_MSP1_MSP2_PNR", 667);
  ("RX_TOP_DETECT_MSP2_MSP2_PEAK_NB", 668);
  ("RX_TOP_DETECT_MSP2_MSP_PEAK_NB", 669);
  ("RX_TOP_DETECT_MSP3_ACC_MIN2", 670);
  ("RX_TOP_DETECT_MSP3_ACC_WIN_LEN", 671);
  ("RX_TOP_DETECT_MSP3_MSP_POS_SEL", 672);
  ("RX_TOP_DETECT_MSP3_MSP_CNT_MODE", 673);
  ("RX_TOP_DETECT_ACC1_USE_GAIN_SYMB", 674);
  ("RX_TOP_DETECT_ACC1_ACC_PNR", 675);
  ("RX_TOP_DETECT_ACC2_NOISE_COEFF", 676);
  ("RX_TOP_DETECT_ACC2_ACC_COEFF", 677);
  ("RX_TOP_DETECT_ACC2_ACC_2_SAME_PEAKS", 678);
  ("RX_TOP_DETECT_ACC2_ACC_AUTO_RESCALE", 679);
  ("RX_TOP_DETECT_ACC2_ACC_PEAK_POS_SEL", 680);
  ("RX_TOP_DETECT_ACC2_ACC_PEAK_SUM_EN", 681);
  ("RX_TOP_DETECT_ACC3_MIN_SINGLE_PEAK", 682);
  ("RX_TOP_TIMESTAMP_SEL_SNR_MIN", 683);
  ("RX_TOP_TIMESTAMP_ENABLE", 684);
  ("RX_TOP_TIMESTAMP_NB_SYMB", 685);
  ("RX_TOP_MODEM_BUSY_MSB_RX_MODEM_BUSY", 686);
  ("RX_TOP_MODEM_BUSY_LSB_RX_MODEM_BUSY", 687);
  ("RX_TOP_MODEM_STATE_RX_MODEM_STS_SPARE", 688);
  ("RX_TOP_MODEM_STATE_RX_MODEM_STATE", 689);
  ("RX_TOP_MODEM_SYNC_DELTA_MSB_PEAK_POS_FINE_GAIN_H", 690);
  ("RX_TOP_MODEM_SYNC_DELTA_MSB_PEAK_POS_FINE_GAIN_L", 691);
  ("RX_TOP_MODEM_SYNC_DELTA_MSB_PEAK_POS_FINE_SIGN", 692);
  ("RX_TOP_MODEM_SYNC_DELTA_MSB_MODEM_SYNC_DELTA", 693);
  ("RX_TOP_MODEM_SYNC_DELTA_LSB_MODEM_SYNC_DELTA", 694);
  ("RX_TOP_MODEM_PPM_OFFSET1_PPM_OFFSET_SF8", 695);
  ("RX_TOP_MODEM_PPM_OFFSET1_PPM_OFFSET_SF7", 696);
  ("RX_TOP_MODEM_PPM_OFFSET1_PPM_OFFSET_SF6", 697);
  ("RX_TOP_MODEM_PPM_OFFSET1_PPM_OFFSET_SF5", 698);
  ("RX_TOP_MODEM_PPM_OFFSET2_PPM_OFFSET_SF12", 699);
  ("RX_TOP_MODEM_PPM_OFFSET2_PPM_OFFSET_SF11", 700);
  ("RX_TOP_MODEM_PPM_OFFSET2_PPM_OFFSET_SF10", 701);
  ("RX_TOP_MODEM_PPM_OFFSET2_PPM_OFFSET_SF9", 702);
  ("RX_TOP_MODEM_CLOCK_GATE_OVERRIDE_3_CLK_OVERRIDE", 703);
  ("RX_TOP_MODEM_CLOCK_GATE_OVERRIDE_2_CLK_OVERRIDE", 704);
  ("RX_TOP_MODEM_CLOCK_GATE_OVERRIDE_1_CLK_OVERRIDE", 705);
  ("RX_TOP_MODEM_CLOCK_GATE_OVERRIDE_0_CLK_OVERRIDE", 706);
  ("RX_TOP_DUMMY2_DUMMY2", 707);
  ("RX_TOP_RX_BUFFER_DEBUG_MODE", 708);
  ("RX_TOP_RX_BUFFER_DIRECT_RAM_IF", 709);
  ("RX_TOP_RX_BUFFER_LEGACY_TIMESTAMP", 710);
  ("RX_TOP_RX_BUFFER_STORE_HEADER_ERR_META", 711);
  ("RX_TOP_RX_BUFFER_STORE_SYNC_FAIL_META", 712);
  ("RX_TOP_RX_BUFFER_TIMESTAMP_CFG_MAX_TS_METRICS", 713);
  ("RX_TOP_RX_BUFFER_IRQ_CTRL_MSB_RX_BUFFER_IRQ_THRESHOLD", 714);
  ("RX_TOP_RX_BUFFER_IRQ_CTRL_LSB_RX_BUFFER_IRQ_THRESHOLD", 715);
  ("RX_TOP_RX_BUFFER_LAST_ADDR_READ_MSB_LAST_ADDR_READ", 716);
  ("RX_TOP_RX_BUFFER_LAST_ADDR_READ_LSB_LAST_ADDR_READ", 717);
  ("RX_TOP_RX_BUFFER_LAST_ADDR_WRITE_MSB_LAST_ADDR_WRITE", 718);
  ("RX_TOP_RX_BUFFER_LAST_ADDR_WRITE_LSB_LAST_ADDR_WRITE", 719);
  ("RX_TOP_RX_BUFFER_NB_BYTES_MSB_RX_BUFFER_NB_BYTES", 720);
  ("RX_TOP_RX_BUFFER_NB_BYTES_LSB_RX_BUFFER_NB_BYTES", 721);
  ("RX_TOP_MULTI_SF_SYNC_ERR_PKT_CNT_MULTI_SF_SYNC_ERR_PKTS", 722);
  ("RX_TOP_MULTI_SF_PLD_ERR_PKT_CNT_MULTI_SF_PLD_ERR_PKTS", 723);
  ("RX_TOP_MULTI_SF_GOOD_PKT_CNT_MULTI_SF_GOOD_PKTS", 724);
  ("RX_TOP_SERV_MODEM_SYNC_ERR_PKT_CNT_SERV_MODEM_SYNC_ERR_PKTS", 725);
  ("RX_TOP_SERV_MODEM_PLD_ERR_PKT_CNT_SERV_MODEM_PLD_ERR_PKTS", 726);
  ("RX_TOP_SERV_MODEM_GOOD_PKT_CNT_SERV_MODEM_GOOD_PKTS", 727);
  ("RX_TOP_GFSK_MODEM_SYNC_ERR_PKT_CNT_GFSK_MODEM_SYNC_ERR_PKTS", 728);
  ("RX_TOP_GFSK_MODEM_PLD_ERR_PKT_CNT_GFSK_MODEM_PLD_ERR_PKTS", 729);
  ("RX_TOP_GFSK_MODEM_GOOD_PKT_CNT_GFSK_MODEM_GOOD_PKTS", 730);
  ("RX_TOP_BAD_MODEM_ID_WRITE_0_BAD_MODEM_ID_WRITE", 731);
  ("RX_TOP_BAD_MODEM_ID_WRITE_1_BAD_MODEM_ID_WRITE", 732);
  ("RX_TOP_BAD_MODEM_ID_WRITE_2_BAD_MODEM_ID_WRITE", 733);
  ("RX_TOP_BAD_MODEM_ID_READ_0_BAD_MODEM_ID_READ", 734);
  ("RX_TOP_BAD_MODEM_ID_READ_1_BAD_MODEM_ID_READ", 735);
  ("RX_TOP_BAD_MODEM_ID_READ_2_BAD_MODEM_ID_READ", 736);
  ("RX_TOP_CLOCK_GATE_OVERRIDE_0_CLK_OVERRIDE", 737);
  ("RX_TOP_SAMPLE_4_MSPS_LATCHED_125K_SAMPLE_4_MSPS_LATCHED_125K", 738);
  ("RX_TOP_DUMMY3_DUMMY3", 739);
  ("ARB_MCU_CTRL_CLK_EN", 740);
  ("ARB_MCU_CTRL_RADIO_RST", 741);
  ("ARB_MCU_CTRL_FORCE_HOST_FE_CTRL", 742);
  ("ARB_MCU_CTRL_MCU_CLEAR", 743);
  ("ARB_MCU_CTRL_HOST_PROG", 744);
  ("ARB_MCU_CTRL_PARITY_ERROR", 745);
  ("ARB_MCU_MCU_ARB_STATUS_MCU_ARB_STATUS", 746);
  ("ARB_MCU_UART_CFG_MSBF", 747);
  ("ARB_MCU_UART_CFG_PAR_EN", 748);
  ("ARB_MCU_UART_CFG_PAR_MODE", 749)
].

Definition reg_ids_5 : list (string * Z) := [
  ("ARB_MCU_UART_CFG_START_LEN", 750);
  ("ARB_MCU_UART_CFG_STOP_LEN", 751);
  ("ARB_MCU_UART_CFG_WORD_LEN", 752);
  ("ARB_MCU_UART_CFG2_BIT_RATE", 753);
  ("ARB_MCU_ARB_DEBUG_CFG_0_ARB_DEBUG_CFG_0", 754);
  ("ARB_MCU_ARB_DEBUG_CFG_1_ARB_DEBUG_CFG_1", 755);
  ("ARB_MCU_ARB_DEBUG_CFG_2_ARB_DEBUG_CFG_2", 756);
  ("ARB_MCU_ARB_DEBUG_CFG_3_ARB_DEBUG_CFG_3", 757);
  ("ARB_MCU_ARB_DEBUG_STS_0_ARB_DEBUG_STS_0", 758);
  ("ARB_MCU_ARB_DEBUG_STS_1_ARB_DEBUG_STS_1", 759);
  ("ARB_MCU_ARB_DEBUG_STS_2_ARB_DEBUG_STS_2", 760);
  ("ARB_MCU_ARB_DEBUG_STS_3_ARB_DEBUG_STS_3", 761);
  ("ARB_MCU_ARB_DEBUG_STS_4_ARB_DEBUG_STS_4", 762);
  ("ARB_MCU_ARB_DEBUG_STS_5_ARB_DEBUG_STS_5", 763);
  ("ARB_MCU_ARB_DEBUG_STS_6_ARB_DEBUG_STS_6", 764);
  ("ARB_MCU_ARB_DEBUG_STS_7_ARB_DEBUG_STS_7", 765);
  ("ARB_MCU_ARB_DEBUG_STS_8_ARB_DEBUG_STS_8", 766);
  ("ARB_MCU_ARB_DEBUG_STS_9_ARB_DEBUG_STS_9", 767);
  ("ARB_MCU_ARB_DEBUG_STS_10_ARB_DEBUG_STS_10", 768);
  ("ARB_MCU_ARB_DEBUG_STS_11_ARB_DEBUG_STS_11", 769);
  ("ARB_MCU_ARB_DEBUG_STS_12_ARB_DEBUG_STS_12", 770);
  ("ARB_MCU_ARB_DEBUG_STS_13_ARB_DEBUG_STS_13", 771);
  ("ARB_MCU_ARB_DEBUG_STS_14_ARB_DEBUG_STS_14", 772);
  ("ARB_MCU_ARB_DEBUG_STS_15_ARB_DEBUG_STS_15", 773);
  ("ARB_MCU_CHANNEL_SYNC_OFFSET_01_CHANNEL_1_OFFSET", 774);
  ("ARB_MCU_CHANNEL_SYNC_OFFSET_01_CHANNEL_0_OFFSET", 775);
  ("ARB_MCU_CHANNEL_SYNC_OFFSET_23_CHANNEL_3_OFFSET", 776);
  ("ARB_MCU_CHANNEL_SYNC_OFFSET_23_CHANNEL_2_OFFSET", 777);
  ("ARB_MCU_CHANNEL_SYNC_OFFSET_45_CHANNEL_5_OFFSET", 778);
  ("ARB_MCU_CHANNEL_SYNC_OFFSET_45_CHANNEL_4_OFFSET", 779);
  ("ARB_MCU_CHANNEL_SYNC_OFFSET_67_CHANNEL_7_OFFSET", 780);
  ("ARB_MCU_CHANNEL_SYNC_OFFSET_67_CHANNEL_6_OFFSET", 781);
  ("ARB_MCU_DUMMY_DUMMY3", 782);
  ("RADIO_FE_GLBL_CTRL_DECIM_B_CLR", 783);
  ("RADIO_FE_GLBL_CTRL_DECIM_A_CLR", 784);
  ("RADIO_FE_CTRL0_RADIO_A_DC_NOTCH_EN", 785);
  ("RADIO_FE_CTRL0_RADIO_A_FORCE_HOST_FILTER_GAIN", 786);
  ("RADIO_FE_CTRL0_RADIO_A_HOST_FILTER_GAIN", 787);
  ("RADIO_FE_RSSI_DB_DEF_RADIO_A_RSSI_DB_DEFAULT_VALUE", 788);
  ("RADIO_FE_RSSI_DEC_DEF_RADIO_A_RSSI_DEC_DEFAULT_VALUE", 789);
  ("RADIO_FE_RSSI_DEC_RD_RADIO_A_RSSI_DEC_OUT", 790);
  ("RADIO_FE_RSSI_BB_RD_RADIO_A_RSSI_BB_OUT", 791);
  ("RADIO_FE_DEC_FILTER_RD_RADIO_A_DEC_FILTER_GAIN", 792);
  ("RADIO_FE_RSSI_BB_FILTER_ALPHA_RADIO_A_RSSI_BB_FILTER_ALPHA", 793);
  ("RADIO_FE_RSSI_DEC_FILTER_ALPHA_RADIO_A_RSSI_DEC_FILTER_ALPHA", 794);
  ("RADIO_FE_IQ_COMP_AMP_COEFF_RADIO_A_AMP_COEFF", 795);
  ("RADIO_FE_IQ_COMP_PHI_COEFF_RADIO_A_PHI_COEFF", 796);
  ("RADIO_FE_RADIO_DIO_TEST_MODE_RADIO_A_DIO_TEST_MODE", 797);
  ("RADIO_FE_RADIO_DIO_TEST_DIR_RADIO_A_DIO_TEST_DIR", 798);
  ("RADIO_FE_RADIO_DIO_DIR_RADIO_A_DIO_DIR", 799);
  ("RADIO_FE_CTRL0_RADIO_B_DC_NOTCH_EN", 800);
  ("RADIO_FE_CTRL0_RADIO_B_FORCE_HOST_FILTER_GAIN", 801);
  ("RADIO_FE_CTRL0_RADIO_B_HOST_FILTER_GAIN", 802);
  ("RADIO_FE_RSSI_DB_DEF_RADIO_B_RSSI_DB_DEFAULT_VALUE", 803);
  ("RADIO_FE_RSSI_DEC_DEF_RADIO_B_RSSI_DEC_DEFAULT_VALUE", 804);
  ("RADIO_FE_RSSI_DEC_RD_RADIO_B_RSSI_DEC_OUT", 805);
  ("RADIO_FE_RSSI_BB_RD_RADIO_B_RSSI_BB_OUT", 806);
  ("RADIO_FE_DEC_FILTER_RD_RADIO_B_DEC_FILTER_GAIN", 807);
  ("RADIO_FE_RSSI_BB_FILTER_ALPHA_RADIO_B_RSSI_BB_FILTER_ALPHA", 808);
  ("RADIO_FE_RSSI_DEC_FILTER_ALPHA_RADIO_B_RSSI_DEC_FILTER_ALPHA", 809);
  ("RADIO_FE_IQ_COMP_AMP_COEFF_RADIO_B_AMP_COEFF", 810);
  ("RADIO_FE_IQ_COMP_PHI_COEFF_RADIO_B_PHI_COEFF", 811);
  ("RADIO_FE_RADIO_DIO_TEST_MODE_RADIO_B_DIO_TEST_MODE", 812);
  ("RADIO_FE_RADIO_DIO_TEST_DIR_RADIO_B_DIO_TEST_DIR", 813);
  ("RADIO_FE_RADIO_DIO_DIR_RADIO_B_DIO_DIR", 814);
  ("RADIO_FE_SIG_ANA_CFG_VALID", 815);
  ("RADIO_FE_SIG_ANA_CFG_BUSY", 816);
  ("RADIO_FE_SIG_ANA_CFG_DURATION", 817);
  ("RADIO_FE_SIG_ANA_CFG_FORCE_HAL_CTRL", 818);
  ("RADIO_FE_SIG_ANA_CFG_START", 819);
  ("RADIO_FE_SIG_ANA_CFG_RADIO_SEL", 820);
  ("RADIO_FE_SIG_ANA_CFG_EN", 821);
  ("RADIO_FE_SIG_ANA_FREQ_FREQ", 822);
  ("RADIO_FE_SIG_ANA_ABS_MSB_CORR_ABS_OUT", 823);
  ("RADIO_FE_SIG_ANA_ABS_LSB_CORR_ABS_OUT", 824);
  ("RADIO_FE_DUMMY_DUMMY", 825);
  ("OTP_BYTE_ADDR_ADDR", 826);
  ("OTP_RD_DATA_RD_DATA", 827);
  ("OTP_STATUS_CHECKSUM_STATUS", 828);
  ("OTP_STATUS_FSM_READY", 829);
  ("OTP_CFG_ACCESS_MODE", 830);
  ("OTP_BIT_POS_POS", 831);
  ("OTP_PIN_CTRL_0_TM", 832);
  ("OTP_PIN_CTRL_0_STROBE", 833);
  ("OTP_PIN_CTRL_0_PGENB", 834);
  ("OTP_PIN_CTRL_0_LOAD", 835);
  ("OTP_PIN_CTRL_0_CSB", 836);
  ("OTP_PIN_CTRL_1_FSCK", 837);
  ("OTP_PIN_CTRL_1_FSI", 838);
  ("OTP_PIN_CTRL_1_FRST", 839);
  ("OTP_PIN_STATUS_FSO", 840);
  ("OTP_MODEM_EN_0_MODEM_EN", 841);
  ("OTP_MODEM_EN_1_MODEM_EN", 842);
  ("OTP_MODEM_SF_EN_SF_EN", 843);
  ("OTP_TIMESTAMP_EN_TIMESTAMP_EN", 844);
  ("OTP_DUMMY_DUMMY", 845);
  ("RX_TOP_LORA_SERVICE_FSK_LORA_SERVICE_FREQ_MSB_IF_FREQ_0", 846);
  ("RX_TOP_LORA_SERVICE_FSK_LORA_SERVICE_FREQ_LSB_IF_FREQ_0", 847);
  ("RX_TOP_LORA_SERVICE_FSK_LORA_SERVICE_RADIO_SEL_RADIO_SELECT", 848);
  ("RX_TOP_LORA_SERVICE_FSK_DC_NOTCH_CFG1_BW_START", 849);
  ("RX_TOP_LORA_SERVICE_FSK_DC_NOTCH_CFG1_AUTO_BW_RED", 850);
  ("RX_TOP_LORA_SERVICE_FSK_DC_NOTCH_CFG1_NO_FAST_START", 851);
  ("RX_TOP_LORA_SERVICE_FSK_DC_NOTCH_CFG1_BYPASS", 852);
  ("RX_TOP_LORA_SERVICE_FSK_DC_NOTCH_CFG1_ENABLE", 853);
  ("RX_TOP_LORA_SERVICE_FSK_DC_NOTCH_CFG2_BW_LOCKED", 854);
  ("RX_TOP_LORA_SERVICE_FSK_DC_NOTCH_CFG2_BW", 855);
  ("RX_TOP_LORA_SERVICE_FSK_DC_NOTCH_CFG3_BW_RED", 856);
  ("RX_TOP_LORA_SERVICE_FSK_DC_NOTCH_CFG4_IIR_DCC_TIME", 857);
  ("RX_TOP_LORA_SERVICE_FSK_RX_DFE_FIR1_0_FIR1_COEFF_0", 858);
  ("RX_TOP_LORA_SERVICE_FSK_RX_DFE_FIR1_1_FIR1_COEFF_1", 859);
  ("RX_TOP_LORA_SERVICE_FSK_RX_DFE_FIR1_2_FIR1_COEFF_2", 860);
  ("RX_TOP_LORA_SERVICE_FSK_RX_DFE_FIR1_3_FIR1_COEFF_3", 861);
  ("RX_TOP_LORA_SERVICE_FSK_RX_DFE_FIR1_4_FIR1_COEFF_4", 862);
  ("RX_TOP_LORA_SERVICE_FSK_RX_DFE_FIR1_5_FIR1_COEFF_5", 863);
  ("RX_TOP_LORA_SERVICE_FSK_RX_DFE_FIR1_6_FIR1_COEFF_6", 864);
  ("RX_TOP_LORA_SERVICE_FSK_RX_DFE_FIR1_7_FIR1_COEFF_7", 865);
  ("RX_TOP_LORA_SERVICE_FSK_RX_DFE_FIR2_0_FIR2_COEFF_0", 866);
  ("RX_TOP_LORA_SERVICE_FSK_RX_DFE_FIR2_1_FIR2_COEFF_1", 867);
  ("RX_TOP_LORA_SERVICE_FSK_RX_DFE_FIR2_2_FIR2_COEFF_2", 868);
  ("RX_TOP_LORA_SERVICE_FSK_RX_DFE_FIR2_3_FIR2_COEFF_3", 869);
  ("RX_TOP_LORA_SERVICE_FSK_RX_DFE_FIR2_4_FIR2_COEFF_4", 870);
  ("RX_TOP_LORA_SERVICE_FSK_RX_DFE_FIR2_5_FIR2_COEFF_5", 871);
  ("RX_TOP_LORA_SERVICE_FSK_RX_DFE_FIR2_6_FIR2_COEFF_6", 872);
  ("RX_TOP_LORA_SERVICE_FSK_RX_DFE_FIR2_7_FIR2_COEFF_7", 873);
  ("RX_TOP_LORA_SERVICE_FSK_RX_DFE_AGC0_RADIO_GAIN_RED_SEL", 874);
  ("RX_TOP_LORA_SERVICE_FSK_RX_DFE_AGC0_RADIO_GAIN_RED_DB", 875);
  ("RX_TOP_LORA_SERVICE_FSK_RX_DFE_AGC1_DC_COMP_EN", 876);
  ("RX_TOP_LORA_SERVICE_FSK_RX_DFE_AGC1_FORCE_DEFAULT_FIR", 877);
  ("RX_TOP_LORA_SERVICE_FSK_RX_DFE_AGC1_RSSI_EARLY_LATCH", 878);
  ("RX_TOP_LORA_SERVICE_FSK_RX_DFE_AGC1_FREEZE_ON_SYNC", 879);
  ("RX_TOP_LORA_SERVICE_FSK_RX_DFE_AGC2_DAGC_IN_COMP", 880);
  ("RX_TOP_LORA_SERVICE_FSK_RX_DFE_AGC2_DAGC_FIR_HYST", 881);
  ("RX_TOP_LORA_SERVICE_FSK_RX_DFE_AGC2_RSSI_MAX_SAMPLE", 882);
  ("RX_TOP_LORA_SERVICE_FSK_RX_DFE_AGC2_RSSI_MIN_SAMPLE", 883);
  ("RX_TOP_LORA_SERVICE_FSK_RX_DFE_GAIN0_DAGC_FIR_FAST", 884);
  ("RX_TOP_LORA_SERVICE_FSK_RX_DFE_GAIN0_FORCE_GAIN_FIR", 885);
  ("RX_TOP_LORA_SERVICE_FSK_RX_DFE_GAIN0_GAIN_FIR1", 886);
  ("RX_TOP_LORA_SERVICE_FSK_RX_DFE_GAIN0_GAIN_FIR2", 887);
  ("RX_TOP_LORA_SERVICE_FSK_DAGC_CFG_TARGET_LVL", 888);
  ("RX_TOP_LORA_SERVICE_FSK_DAGC_CFG_GAIN_INCR_STEP", 889);
  ("RX_TOP_LORA_SERVICE_FSK_DAGC_CFG_GAIN_DROP_COMP", 890);
  ("RX_TOP_LORA_SERVICE_FSK_DAGC_CFG_COMB_FILTER_EN", 891);
  ("RX_TOP_LORA_SERVICE_FSK_DAGC_CFG_NO_FREEZE_START", 892);
  ("RX_TOP_LORA_SERVICE_FSK_DAGC_CFG_FREEZE_ON_SYNC", 893);
  ("RX_TOP_LORA_SERVICE_FSK_DAGC_CNT0_SAMPLE", 894);
  ("RX_TOP_LORA_SERVICE_FSK_DAGC_CNT1_THR_M6", 895);
  ("RX_TOP_LORA_SERVICE_FSK_DAGC_CNT2_THR_M12", 896);
  ("RX_TOP_LORA_SERVICE_FSK_DAGC_CNT3_THR_M18", 897);
  ("RX_TOP_LORA_SERVICE_FSK_DAGC_CNT4_GAIN", 898);
  ("RX_TOP_LORA_SERVICE_FSK_DAGC_CNT4_FORCE_GAIN", 899)
].

Definition reg_ids_6 : list (string * Z) := [
  ("RX_TOP_LORA_SERVICE_FSK_TXRX_CFG0_MODEM_BW", 900);
  ("RX_TOP_LORA_SERVICE_FSK_TXRX_CFG0_MODEM_SF", 901);
  ("RX_TOP_LORA_SERVICE_FSK_TXRX_CFG1_PPM_OFFSET_HDR_CTRL", 902);
  ("RX_TOP_LORA_SERVICE_FSK_TXRX_CFG1_PPM_OFFSET", 903);
  ("RX_TOP_LORA_SERVICE_FSK_TXRX_CFG1_MODEM_EN", 904);
  ("RX_TOP_LORA_SERVICE_FSK_TXRX_CFG1_CODING_RATE", 905);
  ("RX_TOP_LORA_SERVICE_FSK_TXRX_CFG2_FINE_SYNCH_EN", 906);
  ("RX_TOP_LORA_SERVICE_FSK_TXRX_CFG2_MODEM_START", 907);
  ("RX_TOP_LORA_SERVICE_FSK_TXRX_CFG2_CADRXTX", 908);
  ("RX_TOP_LORA_SERVICE_FSK_TXRX_CFG2_IMPLICIT_HEADER", 909);
  ("RX_TOP_LORA_SERVICE_FSK_TXRX_CFG2_CRC_EN", 910);
  ("RX_TOP_LORA_SERVICE_FSK_TXRX_CFG3_PAYLOAD_LENGTH", 911);
  ("RX_TOP_LORA_SERVICE_FSK_TXRX_CFG4_INT_STEP_ORIDE_EN", 912);
  ("RX_TOP_LORA_SERVICE_FSK_TXRX_CFG4_INT_STEP_ORIDE", 913);
  ("RX_TOP_LORA_SERVICE_FSK_TXRX_CFG5_HEADER_DIFF_MODE", 914);
  ("RX_TOP_LORA_SERVICE_FSK_TXRX_CFG5_ZERO_PAD", 915);
  ("RX_TOP_LORA_SERVICE_FSK_TXRX_CFG6_PREAMBLE_SYMB_NB", 916);
  ("RX_TOP_LORA_SERVICE_FSK_TXRX_CFG7_PREAMBLE_SYMB_NB", 917);
  ("RX_TOP_LORA_SERVICE_FSK_TXRX_CFG8_AUTO_ACK_INT_DELAY", 918);
  ("RX_TOP_LORA_SERVICE_FSK_TXRX_CFG8_AUTO_ACK_RX", 919);
  ("RX_TOP_LORA_SERVICE_FSK_TXRX_CFG8_AUTO_ACK_TX", 920);
  ("RX_TOP_LORA_SERVICE_FSK_TXRX_CFG8_POST_PREAMBLE_GAP_LONG", 921);
  ("RX_TOP_LORA_SERVICE_FSK_RX_CFG0_DFT_PEAK_EN", 922);
  ("RX_TOP_LORA_SERVICE_FSK_RX_CFG0_CHIRP_INVERT", 923);
  ("RX_TOP_LORA_SERVICE_FSK_RX_CFG0_SWAP_IQ", 924);
  ("RX_TOP_LORA_SERVICE_FSK_RX_CFG0_CONTINUOUS", 925);
  ("RX_TOP_LORA_SERVICE_FSK_RX_CFG1_DETECT_TIMEOUT", 926);
  ("RX_TOP_LORA_SERVICE_FSK_RX_CFG2_AUTO_ACK_RANGE", 927);
  ("RX_TOP_LORA_SERVICE_FSK_RX_CFG2_AUTO_ACK_DELAY", 928);
  ("RX_TOP_LORA_SERVICE_FSK_RX_CFG3_RESTART_ON_HDR_ERR", 929);
  ("RX_TOP_LORA_SERVICE_FSK_RX_CFG3_CLK_EN_RESYNC_DIN", 930);
  ("RX_TOP_LORA_SERVICE_FSK_RX_CFG3_LLR_SCALE", 931);
  ("RX_TOP_LORA_SERVICE_FSK_FRAME_SYNCH0_PEAK1_POS", 932);
  ("RX_TOP_LORA_SERVICE_FSK_FRAME_SYNCH1_PEAK2_POS", 933);
  ("RX_TOP_LORA_SERVICE_FSK_FRAME_SYNCH2_FINETIME_ON_LAST", 934);
  ("RX_TOP_LORA_SERVICE_FSK_FRAME_SYNCH2_AUTO_SCALE", 935);
  ("RX_TOP_LORA_SERVICE_FSK_FRAME_SYNCH2_DROP_ON_SYNCH", 936);
  ("RX_TOP_LORA_SERVICE_FSK_FRAME_SYNCH2_GAIN", 937);
  ("RX_TOP_LORA_SERVICE_FSK_FRAME_SYNCH2_TIMEOUT_OPT", 938);
  ("RX_TOP_LORA_SERVICE_FSK_FINE_TIMING0_GAIN_P_HDR_RED", 939);
  ("RX_TOP_LORA_SERVICE_FSK_FINE_TIMING0_ROUNDING", 940);
  ("RX_TOP_LORA_SERVICE_FSK_FINE_TIMING0_POS_LIMIT", 941);
  ("RX_TOP_LORA_SERVICE_FSK_FINE_TIMING0_SUM_SIZE", 942);
  ("RX_TOP_LORA_SERVICE_FSK_FINE_TIMING0_MODE", 943);
  ("RX_TOP_LORA_SERVICE_FSK_FINE_TIMING1_GAIN_P_AUTO", 944);
  ("RX_TOP_LORA_SERVICE_FSK_FINE_TIMING1_GAIN_P_PAYLOAD", 945);
  ("RX_TOP_LORA_SERVICE_FSK_FINE_TIMING1_GAIN_P_PREAMB", 946);
  ("RX_TOP_LORA_SERVICE_FSK_FINE_TIMING2_GAIN_I_EN", 947);
  ("RX_TOP_LORA_SERVICE_FSK_FINE_TIMING2_GAIN_I_PAYLOAD", 948);
  ("RX_TOP_LORA_SERVICE_FSK_FINE_TIMING2_GAIN_I_PREAMB", 949);
  ("RX_TOP_LORA_SERVICE_FSK_FINE_TIMING3_FINESYNCH_SUM", 950);
  ("RX_TOP_LORA_SERVICE_FSK_FINE_TIMING3_FINESYNCH_GAIN", 951);
  ("RX_TOP_LORA_SERVICE_FSK_FINE_TIMING3_GAIN_I_AUTO", 952);
  ("RX_TOP_LORA_SERVICE_FSK_FINE_TIMING4_GAIN_I_AUTO_MAX", 953);
  ("RX_TOP_LORA_SERVICE_FSK_FINE_TIMING4_GAIN_P_AUTO_MAX", 954);
  ("RX_TOP_LORA_SERVICE_FSK_FREQ_TO_TIME0_FREQ_TO_TIME_DRIFT_MANT", 955);
  ("RX_TOP_LORA_SERVICE_FSK_FREQ_TO_TIME1_FREQ_TO_TIME_DRIFT_MANT", 956);
  ("RX_TOP_LORA_SERVICE_FSK_FREQ_TO_TIME2_FREQ_TO_TIME_DRIFT_EXP", 957);
  ("RX_TOP_LORA_SERVICE_FSK_FREQ_TO_TIME3_FREQ_TO_TIME_INVERT_FREQ_DELTA", 958);
  ("RX_TOP_LORA_SERVICE_FSK_FREQ_TO_TIME3_FREQ_TO_TIME_INVERT_FINE_DELTA", 959);
  ("RX_TOP_LORA_SERVICE_FSK_FREQ_TO_TIME3_FREQ_TO_TIME_INVERT_FREQ_ERROR", 960);
  ("RX_TOP_LORA_SERVICE_FSK_FREQ_TO_TIME3_FREQ_TO_TIME_INVERT_TIME_SYMB", 961);
  ("RX_TOP_LORA_SERVICE_FSK_FREQ_TO_TIME3_FREQ_TO_TIME_INVERT_TIME_OFFSET", 962);
  ("RX_TOP_LORA_SERVICE_FSK_FREQ_TO_TIME3_FREQ_TO_TIME_INVERT_DETECT", 963);
  ("RX_TOP_LORA_SERVICE_FSK_FREQ_TO_TIME4_FREQ_TO_TIME_INVERT_RNG", 964);
  ("RX_TOP_LORA_SERVICE_FSK_FREQ_TRACK0_FREQ_TRACK_FINE", 965);
  ("RX_TOP_LORA_SERVICE_FSK_FREQ_TRACK0_FREQ_TRACK_HDR_SKIP", 966);
  ("RX_TOP_LORA_SERVICE_FSK_FREQ_TRACK0_FREQ_TRACK_EN", 967);
  ("RX_TOP_LORA_SERVICE_FSK_FREQ_TRACK1_FREQ_SYNCH_GAIN", 968);
  ("RX_TOP_LORA_SERVICE_FSK_FREQ_TRACK1_FREQ_TRACK_AUTO_THR", 969);
  ("RX_TOP_LORA_SERVICE_FSK_FREQ_TRACK2_SNR_MIN_WINDOW", 970);
  ("RX_TOP_LORA_SERVICE_FSK_FREQ_TRACK2_GAIN_AUTO_SNR_MIN", 971);
  ("RX_TOP_LORA_SERVICE_FSK_FREQ_TRACK2_FREQ_SYNCH_THR", 972);
  ("RX_TOP_LORA_SERVICE_FSK_DETECT_MSP0_MSP_PNR", 973);
  ("RX_TOP_LORA_SERVICE_FSK_DETECT_MSP1_MSP2_PNR", 974);
  ("RX_TOP_LORA_SERVICE_FSK_DETECT_MSP2_MSP2_PEAK_NB", 975);
  ("RX_TOP_LORA_SERVICE_FSK_DETECT_MSP2_MSP_PEAK_NB", 976);
  ("RX_TOP_LORA_SERVICE_FSK_DETECT_MSP3_ACC_MIN2", 977);
  ("RX_TOP_LORA_SERVICE_FSK_DETECT_MSP3_ACC_WIN_LEN", 978);
  ("RX_TOP_LORA_SERVICE_FSK_DETECT_MSP3_MSP_POS_SEL", 979);
  ("RX_TOP_LORA_SERVICE_FSK_DETECT_MSP3_MSP_CNT_MODE", 980);
  ("RX_TOP_LORA_SERVICE_FSK_DETECT_ACC1_USE_GAIN_SYMB", 981);
  ("RX_TOP_LORA_SERVICE_FSK_DETECT_ACC1_ACC_PNR", 982);
  ("RX_TOP_LORA_SERVICE_FSK_DETECT_ACC2_NOISE_COEFF", 983);
  ("RX_TOP_LORA_SERVICE_FSK_DETECT_ACC2_ACC_COEFF", 984);
  ("RX_TOP_LORA_SERVICE_FSK_DETECT_ACC2_ACC_2_SAME_PEAKS", 985);
  ("RX_TOP_LORA_SERVICE_FSK_DETECT_ACC2_ACC_AUTO_RESCALE", 986);
  ("RX_TOP_LORA_SERVICE_FSK_DETECT_ACC2_ACC_PEAK_POS_SEL", 987);
  ("RX_TOP_LORA_SERVICE_FSK_DETECT_ACC2_ACC_PEAK_SUM_EN", 988);
  ("RX_TOP_LORA_SERVICE_FSK_DETECT_ACC3_MIN_SINGLE_PEAK", 989);
  ("RX_TOP_LORA_SERVICE_FSK_TIMESTAMP_SEL_SNR_MIN", 990);
  ("RX_TOP_LORA_SERVICE_FSK_TIMESTAMP_ENABLE", 991);
  ("RX_TOP_LORA_SERVICE_FSK_TIMESTAMP_NB_SYMB", 992);
  ("RX_TOP_LORA_SERVICE_FSK_CLOCK_GATE_OVERRIDE_FSK_TRANSPOSE_CLK_OVERRIDE", 993);
  ("RX_TOP_LORA_SERVICE_FSK_CLOCK_GATE_OVERRIDE_FSK_MODEM_CLK_OVERRIDE", 994);
  ("RX_TOP_LORA_SERVICE_FSK_CLOCK_GATE_OVERRIDE_TRANSPOSE_CLK_OVERRIDE", 995);
  ("RX_TOP_LORA_SERVICE_FSK_CLOCK_GATE_OVERRIDE_MODEM_CLK_OVERRIDE", 996);
  ("RX_TOP_LORA_SERVICE_FSK_DUMMY0_DUMMY0", 997);
  ("RX_TOP_LORA_SERVICE_FSK_FSK_FREQ_MSB_IF_FREQ_0", 998);
  ("RX_TOP_LORA_SERVICE_FSK_FSK_FREQ_LSB_IF_FREQ_0", 999);
  ("RX_TOP_LORA_SERVICE_FSK_FSK_CFG_0_CRC_IBM", 1000);
  ("RX_TOP_LORA_SERVICE_FSK_FSK_CFG_0_DCFREE_ENC", 1001);
  ("RX_TOP_LORA_SERVICE_FSK_FSK_CFG_0_CRC_EN", 1002);
  ("RX_TOP_LORA_SERVICE_FSK_FSK_CFG_0_PKT_MODE", 1003);
  ("RX_TOP_LORA_SERVICE_FSK_FSK_CFG_1_ADRS_COMP", 1004);
  ("RX_TOP_LORA_SERVICE_FSK_FSK_CFG_1_PSIZE", 1005);
  ("RX_TOP_LORA_SERVICE_FSK_FSK_CFG_1_CH_BW_EXPO", 1006);
  ("RX_TOP_LORA_SERVICE_FSK_FSK_CFG_3_MODEM_INVERT_IQ", 1007);
  ("RX_TOP_LORA_SERVICE_FSK_FSK_CFG_3_AUTO_AFC", 1008);
  ("RX_TOP_LORA_SERVICE_FSK_FSK_CFG_3_RADIO_SELECT", 1009);
  ("RX_TOP_LORA_SERVICE_FSK_FSK_CFG_3_RX_INVERT", 1010);
  ("RX_TOP_LORA_SERVICE_FSK_FSK_CFG_4_RSSI_LENGTH", 1011);
  ("RX_TOP_LORA_SERVICE_FSK_FSK_CFG_4_ERROR_OSR_TOL", 1012);
  ("RX_TOP_LORA_SERVICE_FSK_FSK_NODE_ADRS_NODE_ADRS", 1013);
  ("RX_TOP_LORA_SERVICE_FSK_FSK_BROADCAST_BROADCAST", 1014);
  ("RX_TOP_LORA_SERVICE_FSK_FSK_PKT_LENGTH_PKT_LENGTH", 1015);
  ("RX_TOP_LORA_SERVICE_FSK_FSK_TIMEOUT_MSB_TIMEOUT", 1016);
  ("RX_TOP_LORA_SERVICE_FSK_FSK_TIMEOUT_LSB_TIMEOUT", 1017);
  ("RX_TOP_LORA_SERVICE_FSK_BIT_RATE_MSB_BIT_RATE", 1018);
  ("RX_TOP_LORA_SERVICE_FSK_BIT_RATE_LSB_BIT_RATE", 1019);
  ("RX_TOP_LORA_SERVICE_FSK_FSK_REF_PATTERN_BYTE7_FSK_REF_PATTERN", 1020);
  ("RX_TOP_LORA_SERVICE_FSK_FSK_REF_PATTERN_BYTE6_FSK_REF_PATTERN", 1021);
  ("RX_TOP_LORA_SERVICE_FSK_FSK_REF_PATTERN_BYTE5_FSK_REF_PATTERN", 1022);
  ("RX_TOP_LORA_SERVICE_FSK_FSK_REF_PATTERN_BYTE4_FSK_REF_PATTERN", 1023);
  ("RX_TOP_LORA_SERVICE_FSK_FSK_REF_PATTERN_BYTE3_FSK_REF_PATTERN", 1024);
  ("RX_TOP_LORA_SERVICE_FSK_FSK_REF_PATTERN_BYTE2_FSK_REF_PATTERN", 1025);
  ("RX_TOP_LORA_SERVICE_FSK_FSK_REF_PATTERN_BYTE1_FSK_REF_PATTERN", 1026);
  ("RX_TOP_LORA_SERVICE_FSK_FSK_REF_PATTERN_BYTE0_FSK_REF_PATTERN", 1027);
  ("RX_TOP_LORA_SERVICE_FSK_FSK_RSSI_FILTER_ALPHA_FSK_RSSI_FILTER_ALPHA", 1028);
  ("RX_TOP_LORA_SERVICE_FSK_DUMMY1_DUMMY1", 1029);
  ("CAPTURE_RAM_CAPTURE_CFG_ENABLE", 1030);
  ("CAPTURE_RAM_CAPTURE_CFG_CAPTUREWRAP", 1031);
  ("CAPTURE_RAM_CAPTURE_CFG_CAPTUREFORCETRIGGER", 1032);
  ("CAPTURE_RAM_CAPTURE_CFG_CAPTURESTART", 1033);
  ("CAPTURE_RAM_CAPTURE_CFG_RAMCONFIG", 1034);
  ("CAPTURE_RAM_CAPTURE_SOURCE_A_SOURCEMUX", 1035);
  ("CAPTURE_RAM_CAPTURE_SOURCE_B_SOURCEMUX", 1036);
  ("CAPTURE_RAM_CAPTURE_PERIOD_0_CAPTUREPERIOD", 1037);
  ("CAPTURE_RAM_CAPTURE_PERIOD_1_CAPTUREPERIOD", 1038);
  ("CAPTURE_RAM_STATUS_CAPCOMPLETE", 1039);
  ("CAPTURE_RAM_LAST_RAM_ADDR_0_LASTRAMADDR", 1040);
  ("CAPTURE_RAM_LAST_RAM_ADDR_1_LASTRAMADDR", 1041);
  ("CAPTURE_RAM_CLOCK_GATE_OVERRIDE_CLK_OVERRIDE", 1042);
  ("CAPTURE_RAM_DUMMY0_DUMMY0", 1043)
].

Definition reg_ids : list (string * Z) :=
  (reg_ids_0 ++ reg_ids_1 ++ reg_ids_2 ++ reg_ids_3 ++ reg_ids_4 ++ reg_ids_5 ++ reg_ids_6)%list.

(** Macro name, register of chain 0, register of chain 1. *)
Definition tx_top_macros_0 : list (string * (string * string)) := [
  ("TX_TOP_TX_TRIG_TX_FSM_CLR", ("TX_TOP_A_TX_TRIG_TX_FSM_CLR", "TX_TOP_B_TX_TRIG_TX_FSM_CLR"));
  ("TX_TOP_TX_TRIG_TX_TRIG_GPS", ("TX_TOP_A_TX_TRIG_TX_TRIG_GPS", "TX_TOP_B_TX_TRIG_TX_TRIG_GPS"));
  ("TX_TOP_TX_TRIG_TX_TRIG_DELAYED", ("TX_TOP_A_TX_TRIG_TX_TRIG_DELAYED", "TX_TOP_B_TX_TRIG_TX_TRIG_DELAYED"));
  ("TX_TOP_TX_TRIG_TX_TRIG_IMMEDIATE", ("TX_TOP_A_TX_TRIG_TX_TRIG_IMMEDIATE", "TX_TOP_B_TX_TRIG_TX_TRIG_IMMEDIATE"));
  ("TX_TOP_TIMER_TRIG_BYTE3_TIMER_DELAYED_TRIG", ("TX_TOP_A_TIMER_TRIG_BYTE3_TIMER_DELAYED_TRIG", "TX_TOP_B_TIMER_TRIG_BYTE3_TIMER_DELAYED_TRIG"));
  ("TX_TOP_TIMER_TRIG_BYTE2_TIMER_DELAYED_TRIG", ("TX_TOP_A_TIMER_TRIG_BYTE2_TIMER_DELAYED_TRIG", "TX_TOP_B_TIMER_TRIG_BYTE2_TIMER_DELAYED_TRIG"));
  ("TX_TOP_TIMER_TRIG_BYTE1_TIMER_DELAYED_TRIG", ("TX_TOP_A_TIMER_TRIG_BYTE1_TIMER_DELAYED_TRIG", "TX_TOP_B_TIMER_TRIG_BYTE1_TIMER_DELAYED_TRIG"));
  ("TX_TOP_TIMER_TRIG_BYTE0_TIMER_DELAYED_TRIG", ("TX_TOP_A_TIMER_TRIG_BYTE0_TIMER_DELAYED_TRIG", "TX_TOP_B_TIMER_TRIG_BYTE0_TIMER_DELAYED_TRIG"));
  ("TX_TOP_TX_START_DELAY_MSB_TX_START_DELAY", ("TX_TOP_A_TX_START_DELAY_MSB_TX_START_DELAY", "TX_TOP_B_TX_START_DELAY_MSB_TX_START_DELAY"));
  ("TX_TOP_TX_START_DELAY_LSB_TX_START_DELAY", ("TX_TOP_A_TX_START_DELAY_LSB_TX_START_DELAY", "TX_TOP_B_TX_START_DELAY_LSB_TX_START_DELAY"));
  ("TX_TOP_TX_CTRL_WRITE_BUFFER", ("TX_TOP_A_TX_CTRL_WRITE_BUFFER", "TX_TOP_B_TX_CTRL_WRITE_BUFFER"));
  ("TX_TOP_TX_RAMP_DURATION_TX_RAMP_DURATION", ("TX_TOP_A_TX_RAMP_DURATION_TX_RAMP_DURATION", "TX_TOP_B_TX_RAMP_DURATION_TX_RAMP_DURATION"));
  ("TX_TOP_GEN_CFG_0_MODULATION_TYPE", ("TX_TOP_A_GEN_CFG_0_MODULATION_TYPE", "TX_TOP_B_GEN_CFG_0_MODULATION_TYPE"));
  ("TX_TOP_TEST_0_TX_ACTIVE_CTRL", ("TX_TOP_A_TEST_0_TX_ACTIVE_CTRL", "TX_TOP_B_TEST_0_TX_ACTIVE_CTRL"));
  ("TX_TOP_TEST_0_TX_ACTIVE_SEL", ("TX_TOP_A_TEST_0_TX_ACTIVE_SEL", "TX_TOP_B_TEST_0_TX_ACTIVE_SEL"));
  ("TX_TOP_TX_FLAG_TX_TIMEOUT", ("TX_TOP_A_TX_FLAG_TX_TIMEOUT", "TX_TOP_B_TX_FLAG_TX_TIMEOUT"));
  ("TX_TOP_TX_FLAG_PKT_DONE", ("TX_TOP_A_TX_FLAG_PKT_DONE", "TX_TOP_B_TX_FLAG_PKT_DONE"));
  ("TX_TOP_AGC_TX_BW_AGC_TX_BW", ("TX_TOP_A_AGC_TX_BW_AGC_TX_BW", "TX_TOP_B_AGC_TX_BW_AGC_TX_BW"));
  ("TX_TOP_AGC_TX_PWR_AGC_TX_PWR", ("TX_TOP_A_AGC_TX_PWR_AGC_TX_PWR", "TX_TOP_B_AGC_TX_PWR_AGC_TX_PWR"));
  ("TX_TOP_TIMEOUT_CNT_BYTE_2_TIMEOUT_CNT", ("TX_TOP_A_TIMEOUT_CNT_BYTE_2_TIMEOUT_CNT", "TX_TOP_B_TIMEOUT_CNT_BYTE_2_TIMEOUT_CNT"));
  ("TX_TOP_TIMEOUT_CNT_BYTE_1_TIMEOUT_CNT", ("TX_TOP_A_TIMEOUT_CNT_BYTE_1_TIMEOUT_CNT", "TX_TOP_B_TIMEOUT_CNT_BYTE_1_TIMEOUT_CNT"));
  ("TX_TOP_TIMEOUT_CNT_BYTE_0_TIMEOUT_CNT", ("TX_TOP_A_TIMEOUT_CNT_BYTE_0_TIMEOUT_CNT", "TX_TOP_B_TIMEOUT_CNT_BYTE_0_TIMEOUT_CNT"));
  ("TX_TOP_TX_FSM_STATUS_TX_STATUS", ("TX_TOP_A_TX_FSM_STATUS_TX_STATUS", "TX_TOP_B_TX_FSM_STATUS_TX_STATUS"));
  ("TX_TOP_DUMMY_CONTROL_DUMMY", ("TX_TOP_A_DUMMY_CONTROL_DUMMY", "TX_TOP_B_DUMMY_CONTROL_DUMMY"));
  ("TX_TOP_TX_RFFE_IF_CTRL_PLL_DIV_CTRL", ("TX_TOP_A_TX_RFFE_IF_CTRL_PLL_DIV_CTRL", "TX_TOP_B_TX_RFFE_IF_CTRL_PLL_DIV_CTRL"));
  ("TX_TOP_TX_RFFE_IF_CTRL_TX_CLK_EDGE", ("TX_TOP_A_TX_RFFE_IF_CTRL_TX_CLK_EDGE", "TX_TOP_B_TX_RFFE_IF_CTRL_TX_CLK_EDGE"));
  ("TX_TOP_TX_RFFE_IF_CTRL_TX_MODE", ("TX_TOP_A_TX_RFFE_IF_CTRL_TX_MODE", "TX_TOP_B_TX_RFFE_IF_CTRL_TX_MODE"));
  ("TX_TOP_TX_RFFE_IF_CTRL_TX_IF_DST", ("TX_TOP_A_TX_RFFE_IF_CTRL_TX_IF_DST", "TX_TOP_B_TX_RFFE_IF_CTRL_TX_IF_DST"));
  ("TX_TOP_TX_RFFE_IF_CTRL_TX_IF_SRC", ("TX_TOP_A_TX_RFFE_IF_CTRL_TX_IF_SRC", "TX_TOP_B_TX_RFFE_IF_CTRL_TX_IF_SRC"));
  ("TX_TOP_TX_RFFE_IF_CTRL2_SX125X_IQ_INVERT", ("TX_TOP_A_TX_RFFE_IF_CTRL2_SX125X_IQ_INVERT", "TX_TOP_B_TX_RFFE_IF_CTRL2_SX125X_IQ_INVERT"));
  ("TX_TOP_TX_RFFE_IF_CTRL2_PLL_DIV_CTRL_AGC", ("TX_TOP_A_TX_RFFE_IF_CTRL2_PLL_DIV_CTRL_AGC", "TX_TOP_B_TX_RFFE_IF_CTRL2_PLL_DIV_CTRL_AGC"));
  ("TX_TOP_TX_RFFE_IF_IQ_GAIN_IQ_GAIN", ("TX_TOP_A_TX_RFFE_IF_IQ_GAIN_IQ_GAIN", "TX_TOP_B_TX_RFFE_IF_IQ_GAIN_IQ_GAIN"));
  ("TX_TOP_TX_RFFE_IF_I_OFFSET_I_OFFSET", ("TX_TOP_A_TX_RFFE_IF_I_OFFSET_I_OFFSET", "TX_TOP_B_TX_RFFE_IF_I_OFFSET_I_OFFSET"));
  ("TX_TOP_TX_RFFE_IF_Q_OFFSET_Q_OFFSET", ("TX_TOP_A_TX_RFFE_IF_Q_OFFSET_Q_OFFSET", "TX_TOP_B_TX_RFFE_IF_Q_OFFSET_Q_OFFSET"));
  ("TX_TOP_TX_RFFE_IF_FREQ_RF_H_FREQ_RF", ("TX_TOP_A_TX_RFFE_IF_FREQ_RF_H_FREQ_RF", "TX_TOP_B_TX_RFFE_IF_FREQ_RF_H_FREQ_RF"));
  ("TX_TOP_TX_RFFE_IF_FREQ_RF_M_FREQ_RF", ("TX_TOP_A_TX_RFFE_IF_FREQ_RF_M_FREQ_RF", "TX_TOP_B_TX_RFFE_IF_FREQ_RF_M_FREQ_RF"));
  ("TX_TOP_TX_RFFE_IF_FREQ_RF_L_FREQ_RF", ("TX_TOP_A_TX_RFFE_IF_FREQ_RF_L_FREQ_RF", "TX_TOP_B_TX_RFFE_IF_FREQ_RF_L_FREQ_RF"));
  ("TX_TOP_TX_RFFE_IF_FREQ_DEV_H_FREQ_DEV", ("TX_TOP_A_TX_RFFE_IF_FREQ_DEV_H_FREQ_DEV", "TX_TOP_B_TX_RFFE_IF_FREQ_DEV_H_FREQ_DEV"));
  ("TX_TOP_TX_RFFE_IF_FREQ_DEV_L_FREQ_DEV", ("TX_TOP_A_TX_RFFE_IF_FREQ_DEV_L_FREQ_DEV", "TX_TOP_B_TX_RFFE_IF_FREQ_DEV_L_FREQ_DEV"));
  ("TX_TOP_TX_RFFE_IF_TEST_MOD_FREQ", ("TX_TOP_A_TX_RFFE_IF_TEST_MOD_FREQ", "TX_TOP_B_TX_RFFE_IF_TEST_MOD_FREQ"));
  ("TX_TOP_DUMMY_MODULATOR_DUMMY", ("TX_TOP_A_DUMMY_MODULATOR_DUMMY", "TX_TOP_B_DUMMY_MODULATOR_DUMMY"));
  ("TX_TOP_FSK_PKT_LEN_PKT_LENGTH", ("TX_TOP_A_FSK_PKT_LEN_PKT_LENGTH", "TX_TOP_B_FSK_PKT_LEN_PKT_LENGTH"));
  ("TX_TOP_FSK_CFG_0_TX_CONT", ("TX_TOP_A_FSK_CFG_0_TX_CONT", "TX_TOP_B_FSK_CFG_0_TX_CONT"));
  ("TX_TOP_FSK_CFG_0_CRC_IBM", ("TX_TOP_A_FSK_CFG_0_CRC_IBM", "TX_TOP_B_FSK_CFG_0_CRC_IBM"));
  ("TX_TOP_FSK_CFG_0_DCFREE_ENC", ("TX_TOP_A_FSK_CFG_0_DCFREE_ENC", "TX_TOP_B_FSK_CFG_0_DCFREE_ENC"));
  ("TX_TOP_FSK_CFG_0_CRC_EN", ("TX_TOP_A_FSK_CFG_0_CRC_EN", "TX_TOP_B_FSK_CFG_0_CRC_EN"));
  ("TX_TOP_FSK_CFG_0_PKT_MODE", ("TX_TOP_A_FSK_CFG_0_PKT_MODE", "TX_TOP_B_FSK_CFG_0_PKT_MODE"));
  ("TX_TOP_FSK_PREAMBLE_SIZE_MSB_PREAMBLE_SIZE", ("TX_TOP_A_FSK_PREAMBLE_SIZE_MSB_PREAMBLE_SIZE", "TX_TOP_B_FSK_PREAMBLE_SIZE_MSB_PREAMBLE_SIZE"));
  ("TX_TOP_FSK_PREAMBLE_SIZE_LSB_PREAMBLE_SIZE", ("TX_TOP_A_FSK_PREAMBLE_SIZE_LSB_PREAMBLE_SIZE", "TX_TOP_B_FSK_PREAMBLE_SIZE_LSB_PREAMBLE_SIZE"));
  ("TX_TOP_FSK_BIT_RATE_MSB_BIT_RATE", ("TX_TOP_A_FSK_BIT_RATE_MSB_BIT_RATE", "TX_TOP_B_FSK_BIT_RATE_MSB_BIT_RATE"))
].

(** Macro name, register of chain 0, register of chain 1. *)
Definition tx_top_macros_1 : list (string * (string * string)) := [
  ("TX_TOP_FSK_BIT_RATE_LSB_BIT_RATE", ("TX_TOP_A_FSK_BIT_RATE_LSB_BIT_RATE", "TX_TOP_B_FSK_BIT_RATE_LSB_BIT_RATE"));
  ("TX_TOP_FSK_MOD_FSK_REF_PATTERN_SIZE", ("TX_TOP_A_FSK_MOD_FSK_REF_PATTERN_SIZE", "TX_TOP_B_FSK_MOD_FSK_REF_PATTERN_SIZE"));
  ("TX_TOP_FSK_MOD_FSK_PREAMBLE_SEQ", ("TX_TOP_A_FSK_MOD_FSK_PREAMBLE_SEQ", "TX_TOP_B_FSK_MOD_FSK_PREAMBLE_SEQ"));
  ("TX_TOP_FSK_MOD_FSK_REF_PATTERN_EN", ("TX_TOP_A_FSK_MOD_FSK_REF_PATTERN_EN", "TX_TOP_B_FSK_MOD_FSK_REF_PATTERN_EN"));
  ("TX_TOP_FSK_MOD_FSK_GAUSSIAN_SELECT_BT", ("TX_TOP_A_FSK_MOD_FSK_GAUSSIAN_SELECT_BT", "TX_TOP_B_FSK_MOD_FSK_GAUSSIAN_SELECT_BT"));
  ("TX_TOP_FSK_MOD_FSK_GAUSSIAN_EN", ("TX_TOP_A_FSK_MOD_FSK_GAUSSIAN_EN", "TX_TOP_B_FSK_MOD_FSK_GAUSSIAN_EN"));
  ("TX_TOP_FSK_REF_PATTERN_BYTE7_FSK_REF_PATTERN", ("TX_TOP_A_FSK_REF_PATTERN_BYTE7_FSK_REF_PATTERN", "TX_TOP_B_FSK_REF_PATTERN_BYTE7_FSK_REF_PATTERN"));
  ("TX_TOP_FSK_REF_PATTERN_BYTE6_FSK_REF_PATTERN", ("TX_TOP_A_FSK_REF_PATTERN_BYTE6_FSK_REF_PATTERN", "TX_TOP_B_FSK_REF_PATTERN_BYTE6_FSK_REF_PATTERN"));
  ("TX_TOP_FSK_REF_PATTERN_BYTE5_FSK_REF_PATTERN", ("TX_TOP_A_FSK_REF_PATTERN_BYTE5_FSK_REF_PATTERN", "TX_TOP_B_FSK_REF_PATTERN_BYTE5_FSK_REF_PATTERN"));
  ("TX_TOP_FSK_REF_PATTERN_BYTE4_FSK_REF_PATTERN", ("TX_TOP_A_FSK_REF_PATTERN_BYTE4_FSK_REF_PATTERN", "TX_TOP_B_FSK_REF_PATTERN_BYTE4_FSK_REF_PATTERN"));
  ("TX_TOP_FSK_REF_PATTERN_BYTE3_FSK_REF_PATTERN", ("TX_TOP_A_FSK_REF_PATTERN_BYTE3_FSK_REF_PATTERN", "TX_TOP_B_FSK_REF_PATTERN_BYTE3_FSK_REF_PATTERN"));
  ("TX_TOP_FSK_REF_PATTERN_BYTE2_FSK_REF_PATTERN", ("TX_TOP_A_FSK_REF_PATTERN_BYTE2_FSK_REF_PATTERN", "TX_TOP_B_FSK_REF_PATTERN_BYTE2_FSK_REF_PATTERN"));
  ("TX_TOP_FSK_REF_PATTERN_BYTE1_FSK_REF_PATTERN", ("TX_TOP_A_FSK_REF_PATTERN_BYTE1_FSK_REF_PATTERN", "TX_TOP_B_FSK_REF_PATTERN_BYTE1_FSK_REF_PATTERN"));
  ("TX_TOP_FSK_REF_PATTERN_BYTE0_FSK_REF_PATTERN", ("TX_TOP_A_FSK_REF_PATTERN_BYTE0_FSK_REF_PATTERN", "TX_TOP_B_FSK_REF_PATTERN_BYTE0_FSK_REF_PATTERN"));
  ("TX_TOP_DUMMY_GSFK_DUMMY", ("TX_TOP_A_DUMMY_GSFK_DUMMY", "TX_TOP_B_DUMMY_GSFK_DUMMY"));
  ("TX_TOP_TXRX_CFG0_0_MODEM_BW", ("TX_TOP_A_TXRX_CFG0_0_MODEM_BW", "TX_TOP_B_TXRX_CFG0_0_MODEM_BW"));
  ("TX_TOP_TXRX_CFG0_0_MODEM_SF", ("TX_TOP_A_TXRX_CFG0_0_MODEM_SF", "TX_TOP_B_TXRX_CFG0_0_MODEM_SF"));
  ("TX_TOP_TXRX_CFG0_1_PPM_OFFSET_HDR_CTRL", ("TX_TOP_A_TXRX_CFG0_1_PPM_OFFSET_HDR_CTRL", "TX_TOP_B_TXRX_CFG0_1_PPM_OFFSET_HDR_CTRL"));
  ("TX_TOP_TXRX_CFG0_1_PPM_OFFSET", ("TX_TOP_A_TXRX_CFG0_1_PPM_OFFSET", "TX_TOP_B_TXRX_CFG0_1_PPM_OFFSET"));
  ("TX_TOP_TXRX_CFG0_1_POST_PREAMBLE_GAP_LONG", ("TX_TOP_A_TXRX_CFG0_1_POST_PREAMBLE_GAP_LONG", "TX_TOP_B_TXRX_CFG0_1_POST_PREAMBLE_GAP_LONG"));
  ("TX_TOP_TXRX_CFG0_1_CODING_RATE", ("TX_TOP_A_TXRX_CFG0_1_CODING_RATE", "TX_TOP_B_TXRX_CFG0_1_CODING_RATE"));
  ("TX_TOP_TXRX_CFG0_2_FINE_SYNCH_EN", ("TX_TOP_A_TXRX_CFG0_2_FINE_SYNCH_EN", "TX_TOP_B_TXRX_CFG0_2_FINE_SYNCH_EN"));
  ("TX_TOP_TXRX_CFG0_2_MODEM_EN", ("TX_TOP_A_TXRX_CFG0_2_MODEM_EN", "TX_TOP_B_TXRX_CFG0_2_MODEM_EN"));
  ("TX_TOP_TXRX_CFG0_2_CADRXTX", ("TX_TOP_A_TXRX_CFG0_2_CADRXTX", "TX_TOP_B_TXRX_CFG0_2_CADRXTX"));
  ("TX_TOP_TXRX_CFG0_2_IMPLICIT_HEADER", ("TX_TOP_A_TXRX_CFG0_2_IMPLICIT_HEADER", "TX_TOP_B_TXRX_CFG0_2_IMPLICIT_HEADER"));
  ("TX_TOP_TXRX_CFG0_2_CRC_EN", ("TX_TOP_A_TXRX_CFG0_2_CRC_EN", "TX_TOP_B_TXRX_CFG0_2_CRC_EN"));
  ("TX_TOP_TXRX_CFG0_3_PAYLOAD_LENGTH", ("TX_TOP_A_TXRX_CFG0_3_PAYLOAD_LENGTH", "TX_TOP_B_TXRX_CFG0_3_PAYLOAD_LENGTH"));
  ("TX_TOP_TXRX_CFG1_0_INT_STEP_ORIDE_EN", ("TX_TOP_A_TXRX_CFG1_0_INT_STEP_ORIDE_EN", "TX_TOP_B_TXRX_CFG1_0_INT_STEP_ORIDE_EN"));
  ("TX_TOP_TXRX_CFG1_0_INT_STEP_ORIDE", ("TX_TOP_A_TXRX_CFG1_0_INT_STEP_ORIDE", "TX_TOP_B_TXRX_CFG1_0_INT_STEP_ORIDE"));
  ("TX_TOP_TXRX_CFG1_1_MODEM_START", ("TX_TOP_A_TXRX_CFG1_1_MODEM_START", "TX_TOP_B_TXRX_CFG1_1_MODEM_START"));
  ("TX_TOP_TXRX_CFG1_1_HEADER_DIFF_MODE", ("TX_TOP_A_TXRX_CFG1_1_HEADER_DIFF_MODE", "TX_TOP_B_TXRX_CFG1_1_HEADER_DIFF_MODE"));
  ("TX_TOP_TXRX_CFG1_1_ZERO_PAD", ("TX_TOP_A_TXRX_CFG1_1_ZERO_PAD", "TX_TOP_B_TXRX_CFG1_1_ZERO_PAD"));
  ("TX_TOP_TXRX_CFG1_2_PREAMBLE_SYMB_NB", ("TX_TOP_A_TXRX_CFG1_2_PREAMBLE_SYMB_NB", "TX_TOP_B_TXRX_CFG1_2_PREAMBLE_SYMB_NB"));
  ("TX_TOP_TXRX_CFG1_3_PREAMBLE_SYMB_NB", ("TX_TOP_A_TXRX_CFG1_3_PREAMBLE_SYMB_NB", "TX_TOP_B_TXRX_CFG1_3_PREAMBLE_SYMB_NB"));
  ("TX_TOP_TXRX_CFG1_4_AUTO_ACK_INT_DELAY", ("TX_TOP_A_TXRX_CFG1_4_AUTO_ACK_INT_DELAY", "TX_TOP_B_TXRX_CFG1_4_AUTO_ACK_INT_DELAY"));
  ("TX_TOP_TXRX_CFG1_4_AUTO_ACK_RX", ("TX_TOP_A_TXRX_CFG1_4_AUTO_ACK_RX", "TX_TOP_B_TXRX_CFG1_4_AUTO_ACK_RX"));
  ("TX_TOP_TXRX_CFG1_4_AUTO_ACK_TX", ("TX_TOP_A_TXRX_CFG1_4_AUTO_ACK_TX", "TX_TOP_B_TXRX_CFG1_4_AUTO_ACK_TX"));
  ("TX_TOP_TX_CFG0_0_CHIRP_LOWPASS", ("TX_TOP_A_TX_CFG0_0_CHIRP_LOWPASS", "TX_TOP_B_TX_CFG0_0_CHIRP_LOWPASS"));
  ("TX_TOP_TX_CFG0_0_PPM_OFFSET_SIG", ("TX_TOP_A_TX_CFG0_0_PPM_OFFSET_SIG", "TX_TOP_B_TX_CFG0_0_PPM_OFFSET_SIG"));
  ("TX_TOP_TX_CFG0_0_CONTCHIRP", ("TX_TOP_A_TX_CFG0_0_CONTCHIRP", "TX_TOP_B_TX_CFG0_0_CONTCHIRP"));
  ("TX_TOP_TX_CFG0_0_CHIRP_INVERT", ("TX_TOP_A_TX_CFG0_0_CHIRP_INVERT", "TX_TOP_B_TX_CFG0_0_CHIRP_INVERT"));
  ("TX_TOP_TX_CFG0_0_CONTINUOUS", ("TX_TOP_A_TX_CFG0_0_CONTINUOUS", "TX_TOP_B_TX_CFG0_0_CONTINUOUS"));
  ("TX_TOP_TX_CFG0_1_POWER_RANGING", ("TX_TOP_A_TX_CFG0_1_POWER_RANGING", "TX_TOP_B_TX_CFG0_1_POWER_RANGING"));
  ("TX_TOP_TX_CFG1_0_FRAME_NB", ("TX_TOP_A_TX_CFG1_0_FRAME_NB", "TX_TOP_B_TX_CFG1_0_FRAME_NB"));
  ("TX_TOP_TX_CFG1_1_HOP_CTRL", ("TX_TOP_A_TX_CFG1_1_HOP_CTRL", "TX_TOP_B_TX_CFG1_1_HOP_CTRL"));
  ("TX_TOP_TX_CFG1_1_IFS", ("TX_TOP_A_TX_CFG1_1_IFS", "TX_TOP_B_TX_CFG1_1_IFS"));
  ("TX_TOP_FRAME_SYNCH_0_AUTO_SCALE", ("TX_TOP_A_FRAME_SYNCH_0_AUTO_SCALE", "TX_TOP_B_FRAME_SYNCH_0_AUTO_SCALE"));
  ("TX_TOP_FRAME_SYNCH_0_DROP_ON_SYNCH", ("TX_TOP_A_FRAME_SYNCH_0_DROP_ON_SYNCH", "TX_TOP_B_FRAME_SYNCH_0_DROP_ON_SYNCH"));
  ("TX_TOP_FRAME_SYNCH_0_GAIN", ("TX_TOP_A_FRAME_SYNCH_0_GAIN", "TX_TOP_B_FRAME_SYNCH_0_GAIN"));
  ("TX_TOP_FRAME_SYNCH_0_PEAK1_POS", ("TX_TOP_A_FRAME_SYNCH_0_PEAK1_POS", "TX_TOP_B_FRAME_SYNCH_0_PEAK1_POS"))
].

(** Macro name, register of chain 0, register of chain 1. *)
Definition tx_top_macros_2 : list (string * (string * string)) := [
  ("TX_TOP_FRAME_SYNCH_1_FINETIME_ON_LAST", ("TX_TOP_A_FRAME_SYNCH_1_FINETIME_ON_LAST", "TX_TOP_B_FRAME_SYNCH_1_FINETIME_ON_LAST"));
  ("TX_TOP_FRAME_SYNCH_1_TIMEOUT_OPT", ("TX_TOP_A_FRAME_SYNCH_1_TIMEOUT_OPT", "TX_TOP_B_FRAME_SYNCH_1_TIMEOUT_OPT"));
  ("TX_TOP_FRAME_SYNCH_1_PEAK2_POS", ("TX_TOP_A_FRAME_SYNCH_1_PEAK2_POS", "TX_TOP_B_FRAME_SYNCH_1_PEAK2_POS"));
  ("TX_TOP_LORA_TX_STATE_STATUS", ("TX_TOP_A_LORA_TX_STATE_STATUS", "TX_TOP_B_LORA_TX_STATE_STATUS"));
  ("TX_TOP_LORA_TX_FLAG_FRAME_DONE", ("TX_TOP_A_LORA_TX_FLAG_FRAME_DONE", "TX_TOP_B_LORA_TX_FLAG_FRAME_DONE"));
  ("TX_TOP_LORA_TX_FLAG_CONT_DONE", ("TX_TOP_A_LORA_TX_FLAG_CONT_DONE", "TX_TOP_B_LORA_TX_FLAG_CONT_DONE"));
  ("TX_TOP_LORA_TX_FLAG_PLD_DONE", ("TX_TOP_A_LORA_TX_FLAG_PLD_DONE", "TX_TOP_B_LORA_TX_FLAG_PLD_DONE"));
  ("TX_TOP_DUMMY_LORA_DUMMY", ("TX_TOP_A_DUMMY_LORA_DUMMY", "TX_TOP_B_DUMMY_LORA_DUMMY"))
].

Definition tx_top_macros : list (string * (string * string)) :=
  (tx_top_macros_0 ++ tx_top_macros_1 ++ tx_top_macros_2)%list.

(** The identifier of a name, and the register a macro selects. *)
Definition reg_id (name : string) : option Z :=
  (λ p : nat * (string * Z), snd (snd p)) <$> list_find (λ p : string * Z, fst p = name) reg_ids.
Definition REG (name : string) : Z := default (-1) (reg_id name).
Definition REG_SELECT {A} (rf_chain : Z) (a b : A) : A := if (rf_chain =? 0)%Z then a else b.
Definition TX_REG (rf_chain : Z) (macro : string) : Z :=
  match list_find (λ p : string * (string * string), fst p = macro) tx_top_macros with
  | Some (_, (_, (a, b))) => REG_SELECT rf_chain (REG a) (REG b)
  | None => -1
  end.
