(* ===== verification/RegFacts.v ===== *)
(** * The register table is well formed

    Facts about [loregs] that hold of every row, established by computation on
    the whole table: fields lie inside one byte, addresses have 15 bits, and no
    two registers share a bit. *)
From stdpp Require Import base list numbers gmap.
From Stdlib Require Import ZArith Lia.
From S2P Require Import Prelude RegTable Reg.

Open Scope Z_scope.

(** ** Rows *)

(** A field inside one byte of the 15-bit address space, with a default value
    it can hold. *)
Definition reg_ok (r : lgw_reg_s) : Prop :=
  0 <= offs r ∧ 1 <= leng r ∧ offs r + leng r <= 8 ∧ 0 <= addr r < 2 ^ 15 ∧
  (if sign r then - 2 ^ (leng r - 1) <= dflt r < 2 ^ (leng r - 1)
   else 0 <= dflt r < 2 ^ leng r).

#[export] Instance reg_ok_dec r : Decision (reg_ok r).
Proof. unfold reg_ok. destruct (sign r); apply _. Defined.

Definition registers : list lgw_reg_s := take (Z.to_nat LGW_TOTALREGS) loregs.

Lemma registers_length : length registers = 1044%nat.
Proof. vm_compute. reflexivity. Qed.
Lemma registers_ok : Forall reg_ok registers.
Proof.
  apply (bool_decide_eq_true_1 (Forall reg_ok registers)). vm_compute. reflexivity.
Qed.

Lemma the_reg_lookup i :
  0 <= i < LGW_TOTALREGS → registers !! Z.to_nat i = Some (the_reg i).
Proof.
  intros Hi. unfold the_reg, znth. rewrite (proj2 (Z.ltb_ge _ _)) by lia.
  assert (HL : length loregs = 1045%nat) by (vm_compute; reflexivity).
  unfold registers. rewrite lookup_take_lt by (unfold LGW_TOTALREGS in *; lia).
  destruct (lookup_lt_is_Some_2 loregs (Z.to_nat i)) as [x Hx]; [unfold LGW_TOTALREGS in *; lia|].
  rewrite Hx. f_equal. symmetry. by apply nth_lookup_Some.
Qed.

Lemma the_reg_ok i : 0 <= i < LGW_TOTALREGS → reg_ok (the_reg i).
Proof.
  intros Hi. pose proof registers_ok as H. rewrite List.Forall_forall in H. apply H, list_elem_of_In.
  eapply list_elem_of_lookup_2. by apply the_reg_lookup.
Qed.

(** ** No two registers share a bit *)

(** The bits of a register, as positions in the bit array of the chip. *)
Definition reg_bits (r : lgw_reg_s) : list Z :=
  (λ k : nat, addr r * 8 + offs r + Z.of_nat k) <$> seq 0 (Z.to_nat (leng r)).

Fixpoint distinct (seen : gmap Z ()) (l : list Z) : bool :=
  match l with
  | [] => true
  | x :: r => match seen !! x with
              | Some _ => false
              | None => distinct (<[x := ()]> seen) r
              end
  end.

Lemma distinct_NoDup l : ∀ seen,
  distinct seen l = true → NoDup l ∧ ∀ x, x ∈ l → seen !! x = None.
Proof.
  induction l as [|x r IH]; intros seen; cbn [distinct].
  { intros _. split; [constructor|]. by intros x ?%not_elem_of_nil. }
  destruct (seen !! x) eqn:E; [done|]. intros [H1 H2]%IH. split.
  - constructor; [|done]. intros Hx%H2. by rewrite lookup_insert_eq in Hx.
  - intros y [->|Hy]%elem_of_cons; [done|]. apply H2 in Hy.
    by apply lookup_insert_None in Hy as [? _].
Qed.

Lemma concat_disjoint {A} (L : list (list A)) : ∀ i j a b x,
  NoDup (concat L) → L !! i = Some a → L !! j = Some b → i ≠ j → x ∈ a → x ∈ b → False.
Proof.
  assert (Hin : ∀ L (j : nat) (b : list A) x, L !! j = Some b → x ∈ b → x ∈ concat L).
  { clear L. intros L j b x Hj Hx. apply list_elem_of_In, in_concat. exists b.
    split; apply list_elem_of_In; [|done]. by eapply list_elem_of_lookup_2. }
  induction L as [|l L IH]; intros i j a b x Hd Hi Hj Hij Ha Hb; [done|].
  cbn [concat] in Hd. apply NoDup_app in Hd as (_ & Hx & Hd).
  destruct i as [|i], j as [|j]; cbn in Hi, Hj; simplify_eq.
  - by apply (Hx x); [|eapply Hin].
  - by apply (Hx x); [|eapply Hin].
  - eapply (IH i j); eauto.
Qed.

Lemma registers_bits_NoDup : NoDup (concat (reg_bits <$> registers)).
Proof. apply (distinct_NoDup _ ∅). vm_compute. reflexivity. Qed.

Lemma reg_bits_disjoint i j :
  0 <= i < LGW_TOTALREGS → 0 <= j < LGW_TOTALREGS → i ≠ j →
  addr (the_reg i) = addr (the_reg j) →
  offs (the_reg i) + leng (the_reg i) <= offs (the_reg j) ∨
  offs (the_reg j) + leng (the_reg j) <= offs (the_reg i).
Proof.
  intros Hi Hj Hij Ha. pose proof (the_reg_ok i Hi) as (Oi & Li & _).
  pose proof (the_reg_ok j Hj) as (Oj & Lj & _).
  destruct (decide (offs (the_reg i) + leng (the_reg i) <= offs (the_reg j))) as [|N1]; [by left|].
  destruct (decide (offs (the_reg j) + leng (the_reg j) <= offs (the_reg i))) as [|N2]; [by right|].
  exfalso. set (m := Z.max (offs (the_reg i)) (offs (the_reg j))).
  assert (Hb : ∀ k, 0 <= k < LGW_TOTALREGS →
    (reg_bits <$> registers) !! Z.to_nat k = Some (reg_bits (the_reg k))).
  { intros k Hk. by rewrite list_lookup_fmap, (the_reg_lookup k Hk). }
  assert (Hm : ∀ r, addr r = addr (the_reg i) → offs r <= m < offs r + leng r →
    addr (the_reg i) * 8 + m ∈ reg_bits r).
  { intros r <- Hr. apply list_elem_of_fmap. exists (Z.to_nat (m - offs r)).
    split; [lia|]. apply elem_of_seq. lia. }
  eapply (concat_disjoint _ (Z.to_nat i) (Z.to_nat j) _ _ (addr (the_reg i) * 8 + m)
    registers_bits_NoDup (Hb i Hi) (Hb j Hj)); [lia|apply Hm..]; (done || lia).
Qed.
