(* ===== verification/RegProps.v ===== *)
(** * Registers are independent variables

    The access functions of [loragw_reg.c] over any link that behaves as a
    memory: what is written to a register is read back, no other register
    changes, and the chunked memory transfers are one transfer. *)
From stdpp Require Import base list numbers.
From Stdlib Require Import ZArith Lia.
From S2P Require Import Prelude Com Spi RegTable Reg RegFacts.

Open Scope Z_scope.

(** ** Fields of a byte *)

Definition field (byte o l : Z) : Z := byte / 2 ^ o mod 2 ^ l.

(** The value of a field of [l] bits, signed or not. *)
Definition reg_sext (r : lgw_reg_s) (f : Z) : Z :=
  if sign r && (2 ^ (leng r - 1) <=? f) then f - 2 ^ leng r else f.

(** What a register holds after the value [v] is written to it. *)
Definition reg_cast (r : lgw_reg_s) (v : Z) : Z := reg_sext r (v mod 2 ^ leng r).

Lemma field_testbit b o l k :
  0 <= o → 0 <= l → 0 <= k → Z.testbit (field b o l) k = (k <? l) && Z.testbit b (k + o).
Proof.
  intros Ho Hl Hk. unfold field. destruct (Z.ltb_spec k l) as [L|L]; cbn [andb].
  - rewrite Z.mod_pow2_bits_low, Z.div_pow2_bits by lia. done.
  - by rewrite Z.mod_pow2_bits_high by lia.
Qed.

Lemma u8_testbit z k : 0 <= k → Z.testbit (u8 z) k = (k <? 8) && Z.testbit z k.
Proof.
  intros Hk. unfold u8. destruct (Z.ltb_spec k 8); cbn [andb].
  - by rewrite Z.mod_pow2_bits_low by lia.
  - by rewrite Z.mod_pow2_bits_high by lia.
Qed.

Lemma field_range b o l : 0 <= l → 0 <= field b o l < 2 ^ l.
Proof. intros. apply Z.mod_pos_bound. lia. Qed.

(** Two bytes that agree on the bits of a field have the same field. *)
Lemma field_ext b b' o l :
  0 <= o → 0 <= l → (∀ k, o <= k < o + l → Z.testbit b k = Z.testbit b' k) →
  field b o l = field b' o l.
Proof.
  intros Ho Hl H. apply Z.bits_inj'. intros k Hk. rewrite !field_testbit by lia.
  destruct (Z.ltb_spec k l); [|done]. f_equal. apply H. lia.
Qed.

Lemma rmw_testbit old o l d k :
  0 <= o → 0 <= l → 0 <= k < 8 →
  Z.testbit (rmw_byte old o l d) k
  = if (o <=? k) && (k <? o + l) then Z.testbit d (k - o) else Z.testbit old k.
Proof.
  intros Ho Hl Hk. unfold rmw_byte. rewrite u8_testbit by lia.
  rewrite (proj2 (Z.ltb_lt k 8)) by lia. cbn [andb].
  rewrite Z.lor_spec, !Z.land_spec, Z.lnot_spec, !u8_testbit by lia.
  rewrite (proj2 (Z.ltb_lt k 8)) by lia. cbn [andb].
  rewrite !Z.shiftl_spec by lia.
  replace (Z.shiftl 1 l - 1) with (Z.ones l) by (unfold Z.ones; lia).
  destruct (Z.leb_spec o k) as [L|L]; cbn [andb].
  - rewrite Z.testbit_ones_nonneg by lia.
    destruct (Z.ltb_spec (k - o) l), (Z.ltb_spec k (o + l)); try lia; cbn [negb andb orb].
    + done.
    + by rewrite orb_false_r.
  - rewrite !(Z.testbit_neg_r _ (k - o)) by lia. cbn [negb andb orb]. by rewrite orb_false_r.
Qed.

Lemma rmw_field_same old o l d :
  0 <= o → 0 <= l → o + l <= 8 → field (rmw_byte old o l d) o l = d mod 2 ^ l.
Proof.
  intros Ho Hl H8. apply Z.bits_inj'. intros k Hk. rewrite field_testbit by lia.
  destruct (Z.ltb_spec k l) as [L|L]; cbn [andb].
  - rewrite rmw_testbit by lia. rewrite (proj2 (Z.leb_le _ _)), (proj2 (Z.ltb_lt _ _)) by lia.
    cbn [andb]. rewrite Z.add_simpl_r. by rewrite Z.mod_pow2_bits_low by lia.
  - by rewrite Z.mod_pow2_bits_high by lia.
Qed.

Lemma rmw_field_other old o l d o' l' :
  0 <= o → 0 <= l → 0 <= o' → 0 <= l' → o' + l' <= 8 → (o + l <= o' ∨ o' + l' <= o) →
  field (rmw_byte old o l d) o' l' = field old o' l'.
Proof.
  intros Ho Hl Ho' Hl' H8 Hd. apply field_ext; [lia..|]. intros k Hk.
  rewrite rmw_testbit by lia. destruct (Z.leb_spec o k), (Z.ltb_spec k (o + l)); cbn [andb]; lia || done.
Qed.

(** The shifts of [reg_r] extract the field, with its sign. *)
Lemma reg_field_spec r b :
  reg_ok r → is_u8 b → reg_field r b = reg_sext r (field b (offs r) (leng r)).
Proof.
  intros (Ho & Hl & H8 & _) Hb. unfold reg_field. cbv zeta.
  set (o := offs r) in *. set (l := leng r) in *.
  assert (E : u8 (Z.shiftl b (8 - l - o)) / 2 ^ (8 - l) = field b o l).
  { apply Z.bits_inj'. intros k Hk. rewrite Z.div_pow2_bits, u8_testbit by lia.
    rewrite field_testbit by lia. destruct (Z.ltb_spec (k + (8 - l)) 8), (Z.ltb_spec k l); try lia.
    cbn [andb]. rewrite Z.shiftl_spec by lia. f_equal. lia. }
  assert (F := field_range b o l ltac:(lia)).
  assert (HU := u8_range (Z.shiftl b (8 - l - o))).
  assert (P : 2 ^ 8 = 2 ^ l * 2 ^ (8 - l)) by (rewrite <- Z.pow_add_r by lia; f_equal; lia).
  assert (P1 : 2 ^ l = 2 * 2 ^ (l - 1)) by (rewrite <- (Z.pow_succ_r 2) by lia; f_equal; lia).
  assert (0 < 2 ^ (8 - l)) by lia. assert (0 < 2 ^ (l - 1)) by lia.
  assert (Hl8 : 2 ^ l <= 2 ^ 8) by (apply Z.pow_le_mono_r; lia).
  unfold reg_sext. fold l. set (x := u8 (Z.shiftl b (8 - l - o))) in *.
  rewrite !shiftr_div by lia. destruct (sign r); cbn [andb].
  - assert (S8 : s8 x = if 2 ^ 7 <=? x then x - 2 ^ 8 else x).
    { destruct (Z.leb_spec (2 ^ 7) x); cint_lia. }
    assert (Q : 2 ^ 7 = 2 ^ (l - 1) * 2 ^ (8 - l)) by (rewrite <- Z.pow_add_r by lia; f_equal; lia).
    assert (Hdm := Z.div_mod x (2 ^ (8 - l)) ltac:(lia)).
    assert (Hmb := Z.mod_pos_bound x (2 ^ (8 - l)) ltac:(lia)).
    rewrite E in Hdm. rewrite S8. destruct (Z.leb_spec (2 ^ 7) x), (Z.leb_spec (2 ^ (l - 1)) (field b o l)).
    + rewrite P. replace (x - 2 ^ l * 2 ^ (8 - l)) with (x + (- 2 ^ l) * 2 ^ (8 - l)) by lia.
      rewrite Z.div_add, E by lia. unfold s8. rewrite Z.mod_small; lia.
    + nia.
    + nia.
    + rewrite E. unfold s8. rewrite Z.mod_small; lia.
  - rewrite E. apply u8_id. lia.
Qed.

(** A representable value is kept. *)
Lemma reg_cast_id r v :
  1 <= leng r →
  (if sign r then - 2 ^ (leng r - 1) <= v < 2 ^ (leng r - 1) else 0 <= v < 2 ^ leng r) →
  reg_cast r v = v.
Proof.
  intros Hl Hv. unfold reg_cast, reg_sext.
  assert (P1 : 2 ^ leng r = 2 * 2 ^ (leng r - 1)) by (rewrite <- (Z.pow_succ_r 2) by lia; f_equal; lia).
  destruct (sign r); cbn [andb]; [|by apply Z.mod_small].
  destruct (Z.lt_ge_cases v 0) as [N|N].
  - rewrite <- (Z.mod_unique v (2 ^ leng r) (-1) (v + 2 ^ leng r)) by lia.
    rewrite (proj2 (Z.leb_le _ _)); lia.
  - rewrite Z.mod_small by lia. by rewrite (proj2 (Z.leb_gt _ _)) by lia.
Qed.

(** ** Access over a link *)

Section Access.
Context {W : Type} (spi usb d : driver W) (up : W → Prop) (mem : W → Z → Z).
Context `{!MemBus d up mem}.

(** The link is open and its driver is [d], which works. *)
Definition linked (s : com_state W) : Prop :=
  com_target s = true ∧
  ((com_type s = LGW_COM_SPI ∧ d = spi) ∨ (com_type s = LGW_COM_USB ∧ d = usb)) ∧
  up (world s).

Lemma linked_world s w : linked s → up w → linked (with_world s w).
Proof. intros (H1 & H2 & _) Hw. by split_and_all. Qed.

(** An open link hands the access to its driver. *)
Lemma com_w_linked s m a v w st :
  linked s → drv_w d (world s) m a v = (w, st) →
  lgw_com_w spi usb s m a v = (with_world s w, st).
Proof. intros (H1 & [[H2 ->]|[H2 ->]] & _) E; unfold lgw_com_w; by rewrite H1, H2, E. Qed.
Lemma com_r_linked s m a w r :
  linked s → drv_r d (world s) m a = (w, r) →
  lgw_com_r spi usb s m a = (with_world s w, r).
Proof. intros (H1 & [[H2 ->]|[H2 ->]] & _) E; unfold lgw_com_r; by rewrite H1, H2, E. Qed.
Lemma com_rmw_linked s m a o l v w st :
  linked s → drv_rmw d (world s) m a o l v = (w, st) →
  lgw_com_rmw spi usb s m a o l v = (with_world s w, st).
Proof. intros (H1 & [[H2 ->]|[H2 ->]] & _) E; unfold lgw_com_rmw; by rewrite H1, H2, E. Qed.
Lemma com_wb_linked s m a l w st :
  linked s → drv_wb d (world s) m a l = (w, st) →
  lgw_com_wb spi usb s m a l = (with_world s w, st).
Proof. intros (H1 & [[H2 ->]|[H2 ->]] & _) E; unfold lgw_com_wb; by rewrite H1, H2, E. Qed.
Lemma com_rb_linked s m a l w r :
  linked s → drv_rb d (world s) m a l = (w, r) →
  lgw_com_rb spi usb s m a l = (with_world s w, r).
Proof. intros (H1 & [[H2 ->]|[H2 ->]] & _) E; unfold lgw_com_rb; by rewrite H1, H2, E. Qed.
Lemma com_chunk_linked s : linked s → lgw_com_chunk_size spi usb s = drv_chunk_size d.
Proof.
  pose proof bus_chunk. intros (_ & [[H2 ->]|[H2 ->]] & _); unfold lgw_com_chunk_size;
    rewrite H2; by apply u16_id; lia.
Qed.

(** The value a register has in the memory of the chip. *)
Definition reg_value (s : com_state W) (i : Z) : Z :=
  reg_sext (the_reg i) (field (mem (world s) (addr (the_reg i))) (offs (the_reg i)) (leng (the_reg i))).

(** Whatever the row, the byte a write leaves is that of a read-modify-write. *)
Lemma reg_w_spec s i v :
  linked s → 0 <= i < LGW_TOTALREGS →
  let r := the_reg i in
  ∃ s', reg_w spi usb s LGW_SPI_MUX_TARGET_SX1302 r v = (s', LGW_COM_SUCCESS) ∧ linked s' ∧
    ∃ byte, (∀ a, mem (world s') a = if a =? addr r then byte else mem (world s) a) ∧
      field byte (offs r) (leng r) = v mod 2 ^ leng r ∧
      ∀ o l, 0 <= o → 0 <= l → o + l <= 8 → offs r + leng r <= o ∨ o + l <= offs r →
        field byte o l = field (mem (world s) (addr r)) o l.
Proof.
  intros Hs Hi r. pose proof (the_reg_ok i Hi) as (Ho & Hl & H8 & Ha & _). fold r in Ho, Hl, H8, Ha.
  pose proof Hs as (_ & _ & Hup). unfold reg_w.
  assert (Hv : u8 v mod 2 ^ leng r = v mod 2 ^ leng r).
  { unfold u8. assert (E : 2 ^ 8 = 2 ^ leng r * 2 ^ (8 - leng r))
      by (rewrite <- Z.pow_add_r by lia; f_equal; lia).
    rewrite E, Z.rem_mul_r, Z.mul_comm, Z_mod_plus_full by lia. by apply Zmod_mod. }
  destruct ((leng r =? 8) && (offs r =? 0))%bool eqn:E.
  - apply andb_true_iff in E as [E1%Z.eqb_eq E2%Z.eqb_eq].
    destruct (bus_w (world s) (addr r) (u8 v) Hup Ha (u8_range v)) as (w & Hw & Hup' & Hm).
    rewrite (com_w_linked s _ _ _ w _ Hs Hw). exists (with_world s w).
    split; [done|]. split; [by apply linked_world|]. exists (u8 v). split; [exact Hm|].
    rewrite E1, E2 in *. split; [unfold field; rewrite Z.div_1_r; exact Hv|].
    intros o l ? ? ? ?. assert (l = 0) as -> by lia. unfold field. by rewrite !Z.mod_1_r.
  - rewrite (proj2 (Z.leb_le _ _)) by lia.
    destruct (bus_rmw (world s) (addr r) (offs r) (leng r) (u8 v) Hup Ha ltac:(lia) ltac:(lia)
      ltac:(lia) (u8_range v)) as (w & Hw & Hup' & Hm).
    rewrite (com_rmw_linked s _ _ _ _ _ w _ Hs Hw). exists (with_world s w).
    split; [done|]. split; [by apply linked_world|].
    eexists. split; [exact Hm|]. split.
    + rewrite rmw_field_same by lia. exact Hv.
    + intros o l Ho' Hl' H8' Hd. apply rmw_field_other; lia.
Qed.

Lemma lgw_reg_w_spec s i v :
  linked s → 0 <= i < LGW_TOTALREGS → rdon (the_reg i) = false →
  ∃ s', lgw_reg_w spi usb s i v = (s', LGW_REG_SUCCESS) ∧ linked s' ∧
    reg_value s' i = reg_cast (the_reg i) v ∧
    ∀ j, 0 <= j < LGW_TOTALREGS → j ≠ i → reg_value s' j = reg_value s j.
Proof.
  intros Hs Hi Hr. destruct (reg_w_spec s i v Hs Hi) as (s' & Hw & Hs' & byte & Hm & Hf & Hd).
  exists s'. unfold lgw_reg_w. rewrite (proj2 (Z.leb_gt _ _)), Hr, Hw by lia.
  split; [done|]. split; [done|]. unfold reg_value. rewrite Hm, Z.eqb_refl.
  split; [by rewrite Hf|]. intros j Hj Hne. f_equal. rewrite Hm.
  destruct (Z.eqb_spec (addr (the_reg j)) (addr (the_reg i))) as [Ea|Ea]; [|done].
  pose proof (the_reg_ok j Hj) as (Ho & Hl & H8 & _).
  rewrite Hd; [by rewrite Ea|lia..|]. apply (reg_bits_disjoint i j Hi Hj); done.
Qed.

Lemma lgw_reg_r_spec s i :
  linked s → 0 <= i < LGW_TOTALREGS →
  ∃ s', lgw_reg_r spi usb s i true = (s', (LGW_REG_SUCCESS, Some (reg_value s i))) ∧ linked s' ∧
    ∀ j, reg_value s' j = reg_value s j.
Proof.
  intros Hs Hi. pose proof (the_reg_ok i Hi) as Hok. pose proof Hok as (Ho & Hl & H8 & Ha & _).
  pose proof Hs as (_ & _ & Hup).
  destruct (bus_r (world s) (addr (the_reg i)) Hup Ha) as (w & Hr & Hup' & Hm).
  exists (with_world s w). unfold lgw_reg_r, reg_r. cbn [negb].
  rewrite (proj2 (Z.leb_gt _ _)) by lia. rewrite (proj2 (Z.leb_le _ _)) by lia.
  rewrite (com_r_linked s _ _ w _ Hs Hr). cbn [default]. unfold status. cbn [Z.eqb negb].
  split; [|split; [by apply linked_world|]].
  - do 3 f_equal. apply reg_field_spec; [done|]. by apply (mem_byte (MemBus := MemBus0)).
  - intros j. unfold reg_value. cbn [world with_world]. by rewrite Hm.
Qed.

(** C16. Over a link that keeps what is written to it, the 1044 registers of the
    table are independent variables: [lgw_reg_w] to a writable register
    succeeds, [lgw_reg_r] then returns the value written (reduced to the bits
    of the register, sign-extended for a signed one; a representable value
    unchanged), and the value of every other register is what it was. *)
Theorem reg_write_read_independent s i v :
  linked s → 0 <= i < LGW_TOTALREGS → rdon (the_reg i) = false →
  ∃ s1 s2,
    lgw_reg_w spi usb s i v = (s1, LGW_REG_SUCCESS) ∧
    lgw_reg_r spi usb s1 i true = (s2, (LGW_REG_SUCCESS, Some (reg_cast (the_reg i) v))) ∧
    (∀ j, 0 <= j < LGW_TOTALREGS → j ≠ i → ∃ s' s'',
       lgw_reg_r spi usb s j true = (s', (LGW_REG_SUCCESS, Some (reg_value s j))) ∧
       lgw_reg_r spi usb s2 j true = (s'', (LGW_REG_SUCCESS, Some (reg_value s j)))) ∧
    ((if sign (the_reg i) then - 2 ^ (leng (the_reg i) - 1) <= v < 2 ^ (leng (the_reg i) - 1)
      else 0 <= v < 2 ^ leng (the_reg i)) → reg_cast (the_reg i) v = v).
Proof.
  intros Hs Hi Hr. destruct (lgw_reg_w_spec s i v Hs Hi Hr) as (s1 & Hw & Hs1 & Hv & Ho).
  destruct (lgw_reg_r_spec s1 i Hs1 Hi) as (s2 & Hrd & Hs2 & Hk).
  exists s1, s2. split; [done|]. split; [by rewrite <- Hv|]. split.
  - intros j Hj Hne. destruct (lgw_reg_r_spec s j Hs Hj) as (s' & E' & _).
    destruct (lgw_reg_r_spec s2 j Hs2 Hj) as (s'' & E'' & _).
    exists s', s''. split; [done|]. by rewrite E'', Hk, Ho.
  - pose proof (the_reg_ok i Hi) as (_ & Hl & _). by apply reg_cast_id.
Qed.

(** ** Memory transfers by chunks *)

(** [m'] is [m] with the bytes [l] written from address [a] on. *)
Definition written (m m' : Z → Z) (a : Z) (l : list Z) : Prop :=
  ∀ b, m' b = if (a <=? b) && (b <? a + Z.of_nat (length l)) then znth 0 l (b - a) else m b.

Lemma znth_app (l1 l2 : list Z) i :
  0 <= i → znth 0 (l1 ++ l2) i
  = if i <? Z.of_nat (length l1) then znth 0 l1 i else znth 0 l2 (i - Z.of_nat (length l1)).
Proof.
  intros Hi. unfold znth. rewrite (proj2 (Z.ltb_ge i 0)) by lia.
  destruct (Z.ltb_spec i (Z.of_nat (length l1))).
  - by rewrite app_nth1 by lia.
  - rewrite (proj2 (Z.ltb_ge _ _)), app_nth2 by lia. f_equal. lia.
Qed.

Lemma written_app m m1 m2 a l1 l2 :
  written m m1 a l1 → written m1 m2 (a + Z.of_nat (length l1)) l2 → written m m2 a (l1 ++ l2).
Proof.
  intros H1 H2 b. rewrite H2, H1, length_app.
  destruct (Z.leb_spec a b); cbn [andb].
  - rewrite znth_app by lia.
    destruct (Z.leb_spec (a + Z.of_nat (length l1)) b), (Z.ltb_spec b (a + Z.of_nat (length l1))),
      (Z.ltb_spec (b - a) (Z.of_nat (length l1))),
      (Z.ltb_spec b (a + Z.of_nat (length l1) + Z.of_nat (length l2))),
      (Z.ltb_spec b (a + Z.of_nat (length l1 + length l2))); cbn [andb]; try lia; try done.
    f_equal. lia.
  - by rewrite (proj2 (Z.leb_gt _ _)) by lia.
Qed.

(** The part of the data a turn of the loop transfers. *)
Lemma loop_part (pre rest : list Z) chunk cnt :
  0 < chunk → Z.of_nat (length pre) = cnt * chunk →
  let n := if chunk <? Z.of_nat (length rest) then chunk else Z.of_nat (length rest) in
  drop (Z.to_nat (cnt * chunk)) (pre ++ rest) = rest ∧
  n = Z.of_nat (length (take (Z.to_nat n) rest)) ∧
  (rest ≠ [] → 0 < n) ∧ 0 <= n <= chunk ∧ n <= Z.of_nat (length rest) ∧
  (drop (Z.to_nat n) rest = [] ∨
   Z.of_nat (length (pre ++ take (Z.to_nat n) rest)) = (cnt + 1) * chunk).
Proof.
  intros Hc Hp n. split.
  { rewrite <- Hp, Nat2Z.id. apply drop_app_length. }
  assert (Hn : 0 <= n <= chunk ∧ n <= Z.of_nat (length rest)).
  { subst n. destruct (Z.ltb_spec chunk (Z.of_nat (length rest))); lia. }
  split; [rewrite length_take; lia|].
  split; [intros Hr; assert (0 < length rest)%nat by (destruct rest; [done|cbn; lia]);
          subst n; destruct (Z.ltb_spec chunk (Z.of_nat (length rest))); lia|].
  split; [lia|]. split; [lia|].
  subst n. destruct (Z.ltb_spec chunk (Z.of_nat (length rest))).
  - right. rewrite length_app, length_take. lia.
  - left. rewrite Nat2Z.id. by apply drop_ge.
Qed.

Lemma mem_wb_loop_spec fuel : ∀ s a cnt pre rest st,
  linked s → 0 <= a → a + Z.of_nat (length rest) <= 2 ^ 15 → Forall (λ x, is_u8 x) rest →
  (length rest < fuel)%nat →
  (rest = [] ∨ Z.of_nat (length pre) = cnt * drv_chunk_size d) → (rest = [] → st = LGW_COM_SUCCESS) →
  ∃ s', mem_wb_loop spi usb fuel s (drv_chunk_size d) a (Z.of_nat (length rest)) cnt (pre ++ rest) st
        = Some (s', LGW_COM_SUCCESS) ∧ linked s' ∧ written (mem (world s)) (mem (world s')) a rest.
Proof.
  induction fuel as [|fuel IH]; intros s a cnt pre rest st Hs Ha Hle Hb Hf Hp Hst; [lia|].
  cbn [mem_wb_loop]. destruct (Z.leb_spec (Z.of_nat (length rest)) 0) as [L|L].
  { destruct rest; cbn [length] in L; [|lia]. exists s. rewrite Hst by done.
    split; [done|]. split; [done|]. intros b. cbn [length].
    destruct (Z.leb_spec a b), (Z.ltb_spec b (a + Z.of_nat 0)); cbn [andb]; lia || done. }
  assert (Hne : rest ≠ []) by (by intros ->). destruct Hp as [|Hp]; [done|].
  pose proof (bus_chunk (MemBus := MemBus0)) as Hc.
  destruct (loop_part pre rest (drv_chunk_size d) cnt ltac:(lia) Hp) as (Hdrop & Hn & Hpos & Hnc & Hnl & Hnext).
  set (n := if drv_chunk_size d <? Z.of_nat (length rest) then _ else _) in *.
  specialize (Hpos Hne). rewrite Hdrop. set (part := take (Z.to_nat n) rest) in *.
  assert (Hbp : Forall (λ x, is_u8 x) part) by (by apply Forall_take).
  destruct (bus_wb (world s) a part) as (w & Hw & Hup & Hm); [apply Hs|lia|lia|lia|done|].
  rewrite (com_wb_linked s _ _ _ w _ Hs Hw).
  rewrite (u16_id (a + n)), (u16_id (Z.of_nat (length rest) - n)) by lia.
  assert (Hsplit : rest = part ++ drop (Z.to_nat n) rest) by (symmetry; apply take_drop).
  assert (HL : Z.of_nat (length rest) - n = Z.of_nat (length (drop (Z.to_nat n) rest)))
    by (rewrite length_drop; lia).
  destruct (IH (with_world s w) (a + n) (cnt + 1) (pre ++ part) (drop (Z.to_nat n) rest) LGW_COM_SUCCESS)
    as (s' & Hl & Hs' & Hw'); [by apply linked_world|lia|lia|by apply Forall_drop| | |done|].
  - rewrite length_drop. lia.
  - exact Hnext.
  - exists s'. rewrite HL. split; [|split; [done|]].
    + rewrite <- Hl. f_equal. rewrite <- app_assoc. by rewrite <- Hsplit.
    + rewrite Hsplit. apply (written_app _ (mem w)); [exact Hm|].
      rewrite <- Hn. exact Hw'.
Qed.

(** The bytes of the memory from address [a] on. *)
Definition bytes_at (m : Z → Z) (a : Z) (n : nat) : list Z :=
  (λ k : nat, m (a + Z.of_nat k)) <$> seq 0 n.

Lemma bytes_at_app m a n1 n2 :
  bytes_at m a (n1 + n2) = bytes_at m a n1 ++ bytes_at m (a + Z.of_nat n1) n2.
Proof.
  unfold bytes_at. rewrite seq_app, fmap_app. f_equal. cbn [Nat.add].
  rewrite <- (Nat.add_0_r n1) at 1. rewrite <- fmap_add_seq, <- list_fmap_compose.
  apply list_fmap_ext. intros i k _. cbn. f_equal. lia.
Qed.
Lemma bytes_at_ext m m' a n : (∀ b, m' b = m b) → bytes_at m' a n = bytes_at m a n.
Proof. intros H. apply list_fmap_ext. intros; apply H. Qed.
Lemma bytes_at_length m a n : length (bytes_at m a n) = n.
Proof. unfold bytes_at. by rewrite length_fmap, length_seq. Qed.

Lemma mem_rb_loop_spec fuel : ∀ s a cnt pre rest st,
  linked s → 0 <= a → a + Z.of_nat (length rest) <= 2 ^ 15 → (length rest < fuel)%nat →
  (rest = [] ∨ Z.of_nat (length pre) = cnt * drv_chunk_size d) → (rest = [] → st = LGW_COM_SUCCESS) →
  ∃ s', mem_rb_loop spi usb fuel s (drv_chunk_size d) a (Z.of_nat (length rest)) cnt (pre ++ rest) false st
        = Some (s', LGW_COM_SUCCESS, pre ++ bytes_at (mem (world s)) a (length rest)) ∧
    linked s' ∧ ∀ b, mem (world s') b = mem (world s) b.
Proof.
  induction fuel as [|fuel IH]; intros s a cnt pre rest st Hs Ha Hle Hf Hp Hst; [lia|].
  cbn [mem_rb_loop]. destruct (Z.leb_spec (Z.of_nat (length rest)) 0) as [L|L].
  { destruct rest; cbn [length] in L; [|lia]. exists s. by rewrite Hst. }
  assert (Hne : rest ≠ []) by (by intros ->). destruct Hp as [|Hp]; [done|].
  pose proof (bus_chunk (MemBus := MemBus0)) as Hc.
  destruct (loop_part pre rest (drv_chunk_size d) cnt ltac:(lia) Hp) as (Hdrop & Hn & Hpos & Hnc & Hnl & Hnext).
  set (n := if drv_chunk_size d <? Z.of_nat (length rest) then _ else _) in *.
  specialize (Hpos Hne). rewrite Hdrop. set (part := take (Z.to_nat n) rest) in *.
  destruct (bus_rb (world s) a part) as (w & Hw & Hup & Hm); [apply Hs|lia|lia|lia|].
  rewrite (com_rb_linked s _ _ _ w _ Hs Hw). fold (bytes_at (mem (world s)) a (length part)).
  rewrite (u16_id (a + n)), (u16_id (Z.of_nat (length rest) - n)) by lia.
  assert (HL : Z.of_nat (length rest) - n = Z.of_nat (length (drop (Z.to_nat n) rest)))
    by (rewrite length_drop; lia).
  set (got := bytes_at (mem (world s)) a (length part)).
  assert (Hlg : length got = length part) by apply bytes_at_length.
  assert (Hdata : take (Z.to_nat (cnt * drv_chunk_size d)) (pre ++ rest) ++ got ++
    drop (Z.to_nat (cnt * drv_chunk_size d) + Z.to_nat n) (pre ++ rest)
    = (pre ++ got) ++ drop (Z.to_nat n) rest).
  { rewrite <- drop_drop, Hdrop. rewrite <- Hp, Nat2Z.id, take_app_length. by rewrite <- app_assoc. }
  rewrite Hdata, HL.
  destruct (IH (with_world s w) (a + n) (cnt + 1) (pre ++ got) (drop (Z.to_nat n) rest) LGW_COM_SUCCESS)
    as (s' & Hl & Hs' & Hw'); [by apply linked_world|lia|lia|rewrite length_drop; lia| |done|].
  - destruct Hnext as [|Hnext]; [by left|right]. rewrite <- Hnext, !length_app. by rewrite Hlg.
  - exists s'. split; [|split; [done|intros b; rewrite Hw'; apply Hm]].
    rewrite Hl. do 2 f_equal. rewrite <- app_assoc. f_equal. cbn [world with_world].
    rewrite (bytes_at_ext _ _ _ _ Hm).
    replace (length rest) with (length part + length (drop (Z.to_nat n) rest))%nat
      by (unfold part; rewrite <- length_app, take_drop; done).
    rewrite bytes_at_app. by replace (a + Z.of_nat (length part)) with (a + n) by lia.
Qed.

Lemma bytes_at_written m m' a l :
  written m m' a l → bytes_at m' a (length l) = l.
Proof.
  intros H. apply list_eq. intros i. unfold bytes_at. rewrite list_lookup_fmap.
  destruct (decide (i < length l)%nat) as [L|L].
  - rewrite lookup_seq_lt by done. cbn [fmap option_fmap option_map]. rewrite H.
    rewrite (proj2 (Z.leb_le _ _)), (proj2 (Z.ltb_lt _ _)) by lia. cbn [andb].
    replace (a + Z.of_nat (0 + i) - a) with (Z.of_nat i) by lia. unfold znth.
    rewrite (proj2 (Z.ltb_ge _ _)), Nat2Z.id by lia.
    destruct (lookup_lt_is_Some_2 l i L) as [x Hx]. rewrite Hx. f_equal. by apply nth_lookup_Some.
  - rewrite lookup_seq_ge by lia. cbn. symmetry. apply lookup_ge_None. lia.
Qed.

(** The whole transfers: they end, and move all bytes. *)
Lemma lgw_mem_wb_spec s a data :
  linked s → 0 <= a → data ≠ [] → a + Z.of_nat (length data) <= 2 ^ 15 → Forall (λ x, is_u8 x) data →
  ∃ s', lgw_mem_wb spi usb s a (Some data) = Some (s', LGW_REG_SUCCESS) ∧ linked s' ∧
        written (mem (world s)) (mem (world s')) a data.
Proof.
  intros Hs Ha Hne Hle Hb. assert (Hd0 : (0 < length data)%nat) by (destruct data; [done|cbn; lia]).
  destruct (mem_wb_loop_spec (S (length data)) s a 0 [] data LGW_COM_SUCCESS)
    as (s1 & H1 & Hs1 & Hw); [done..|lia|right; cbn; lia|done|].
  exists s1. unfold lgw_mem_wb. cbn [app] in *.
  rewrite com_chunk_linked by done. rewrite (proj2 (Z.eqb_neq _ _)) by lia. by rewrite H1.
Qed.
Lemma lgw_mem_rb_spec s a old :
  linked s → 0 <= a → old ≠ [] → a + Z.of_nat (length old) <= 2 ^ 15 →
  ∃ s', lgw_mem_rb spi usb s a (Some old) false
        = Some (s', (LGW_REG_SUCCESS, Some (bytes_at (mem (world s)) a (length old)))) ∧
        linked s' ∧ ∀ b, mem (world s') b = mem (world s) b.
Proof.
  intros Hs Ha Hne Hle. assert (Hd0 : (0 < length old)%nat) by (destruct old; [done|cbn; lia]).
  destruct (mem_rb_loop_spec (S (length old)) s a 0 [] old LGW_COM_SUCCESS)
    as (s2 & H2 & Hs2 & Hm); [done|done|lia|lia|right; cbn; lia|done|].
  exists s2. unfold lgw_mem_rb. cbn [app] in *.
  rewrite com_chunk_linked by done. rewrite (proj2 (Z.eqb_neq _ _)) by lia. by rewrite H2.
Qed.

(** The memory transfers cut in chunks are one transfer: for every size and
    every chunk size of the link, [lgw_mem_wb] ends, writes the data at its
    address and nothing else, and [lgw_mem_rb] of the same range ends and
    brings the data back, leaving the memory as it is. *)
Theorem mem_wb_rb_roundtrip s a data old :
  linked s → 0 <= a → data ≠ [] → a + Z.of_nat (length data) <= 2 ^ 15 →
  Forall (λ x, is_u8 x) data → length old = length data →
  ∃ s1 s2,
    lgw_mem_wb spi usb s a (Some data) = Some (s1, LGW_REG_SUCCESS) ∧
    written (mem (world s)) (mem (world s1)) a data ∧
    lgw_mem_rb spi usb s1 a (Some old) false = Some (s2, (LGW_REG_SUCCESS, Some data)) ∧
    ∀ b, mem (world s2) b = mem (world s1) b.
Proof.
  intros Hs Ha Hne Hle Hb Hold. destruct (lgw_mem_wb_spec s a data) as (s1 & H1 & Hs1 & Hw); [done..|].
  destruct (lgw_mem_rb_spec s1 a old) as (s2 & H2 & _ & Hm); [done|done|by destruct old, data|lia|].
  exists s1, s2. split; [done|]. split; [done|]. split; [|done]. rewrite H2, Hold. do 4 f_equal.
  by apply (bytes_at_written (mem (world s))).
Qed.
End Access.

(** ** Witnesses: a memory behind the SPI driver *)

Definition demo_drv : driver (Z → Z) := spi_driver ideal.
Definition demo_state : com_state (Z → Z) := Com LGW_COM_SPI true (λ _, 0xA5).

Lemma demo_linked : linked demo_drv demo_drv demo_drv ideal_up demo_state.
Proof. split; [done|]. split; [by left|]. intros a. cbn. lia. Qed.

(** Register 6, one bit of the byte 0x5602, set to 1. *)
Lemma reg_write_read_independent_witness :
  ∃ s1 s2,
    lgw_reg_w demo_drv demo_drv demo_state 6 1 = (s1, LGW_REG_SUCCESS) ∧
    lgw_reg_r demo_drv demo_drv s1 6 true = (s2, (LGW_REG_SUCCESS, Some (reg_cast (the_reg 6) 1))) ∧
    (∀ j, 0 <= j < LGW_TOTALREGS → j ≠ 6 → ∃ s' s'',
       lgw_reg_r demo_drv demo_drv demo_state j true
       = (s', (LGW_REG_SUCCESS, Some (reg_value ideal_mem demo_state j))) ∧
       lgw_reg_r demo_drv demo_drv s2 j true
       = (s'', (LGW_REG_SUCCESS, Some (reg_value ideal_mem demo_state j)))) ∧
    ((if sign (the_reg 6) then - 2 ^ (leng (the_reg 6) - 1) <= 1 < 2 ^ (leng (the_reg 6) - 1)
      else 0 <= 1 < 2 ^ leng (the_reg 6)) → reg_cast (the_reg 6) 1 = 1).
Proof.
  apply (reg_write_read_independent demo_drv demo_drv demo_drv ideal_up ideal_mem demo_state 6 1).
  - apply demo_linked.
  - split; [discriminate|reflexivity].
  - vm_compute. reflexivity.
Defined.

Lemma mem_wb_rb_roundtrip_witness :
  ∃ s1 s2,
    lgw_mem_wb demo_drv demo_drv demo_state 0x5000 (Some [1; 2; 3]) = Some (s1, LGW_REG_SUCCESS) ∧
    written (ideal_mem (world demo_state)) (ideal_mem (world s1)) 0x5000 [1; 2; 3] ∧
    lgw_mem_rb demo_drv demo_drv s1 0x5000 (Some [0; 0; 0]) false
    = Some (s2, (LGW_REG_SUCCESS, Some [1; 2; 3])) ∧
    ∀ b, ideal_mem (world s2) b = ideal_mem (world s1) b.
Proof.
  apply (mem_wb_rb_roundtrip demo_drv demo_drv demo_drv ideal_up ideal_mem demo_state 0x5000
    [1; 2; 3] [0; 0; 0]).
  - apply demo_linked.
  - discriminate.
  - discriminate.
  - discriminate.
  - apply (bool_decide_eq_true_1 (Forall (λ x, is_u8 x) [1; 2; 3])). vm_compute. reflexivity.
  - reflexivity.
Defined.
