(* ===== verification/RegIdProps.v ===== *)
(** * Register identifiers and the register table

    What the driver relies on when it names a register: the table describes
    disjoint fields, identifiers number its rows, and the macros that select a
    register of transmit chain 0 or 1 select the same field of two identical
    register blocks. *)
From stdpp Require Import base list numbers strings.
From Stdlib Require Import ZArith Lia.
From S2P Require Import Prelude RegTable RegIds Reg RegFacts.

Open Scope Z_scope.

(** Rows of two registers that are the same field of blocks [delta] apart. *)
Definition same_field (delta : Z) (r1 r2 : lgw_reg_s) : bool :=
  (page r1 =? page r2) && (addr r1 + delta =? addr r2) && (offs r1 =? offs r2) &&
  Bool.eqb (sign r1) (sign r2) && (leng r1 =? leng r2) && Bool.eqb (rdon r1) (rdon r2) &&
  Bool.eqb (chck r1) (chck r2) && (dflt r1 =? dflt r2).

(** Both names of a macro are registers, and they are the same field of the
    blocks TX_TOP_A and TX_TOP_B. *)
Definition chain_pair_ok (m : string * (string * string)) : bool :=
  match reg_id (fst (snd m)), reg_id (snd (snd m)) with
  | Some a, Some b =>
    same_field (SX1302_REG_TX_TOP_B_BASE_ADDR - SX1302_REG_TX_TOP_A_BASE_ADDR)
      (the_reg a) (the_reg b)
  | _, _ => false
  end.

(** C40. Every row of the register table is a field of 1 to 8 bits inside one
    byte of the 15-bit address space, with a default value it can hold, and no
    bit of the chip belongs to two registers. *)
Theorem register_table_well_formed i :
  0 <= i < LGW_TOTALREGS →
  reg_ok (the_reg i) ∧
  ∀ j, 0 <= j < LGW_TOTALREGS → i ≠ j → addr (the_reg i) = addr (the_reg j) →
    offs (the_reg i) + leng (the_reg i) <= offs (the_reg j) ∨
    offs (the_reg j) + leng (the_reg j) <= offs (the_reg i).
Proof.
  intros Hi. split; [by apply the_reg_ok|]. intros j Hj Hij Ha. by apply reg_bits_disjoint.
Qed.

Lemma register_table_well_formed_witness :
  reg_ok (the_reg 2) ∧
  ∀ j, 0 <= j < LGW_TOTALREGS → 2 ≠ j → addr (the_reg 2) = addr (the_reg j) →
    offs (the_reg 2) + leng (the_reg 2) <= offs (the_reg j) ∨
    offs (the_reg j) + leng (the_reg j) <= offs (the_reg 2).
Proof. apply (register_table_well_formed 2). split; [discriminate|reflexivity]. Defined.

(** The identifiers of [loragw_reg.h] number the rows of [loregs] from 0 on,
    and each of the 108 macros that select a transmit register by chain names
    two registers that are the same field, [0x200] apart, with the same length,
    sign, access and default: configuring chain 1 programs the same fields as
    configuring chain 0. *)
Theorem tx_chain_registers_parallel :
  snd <$> reg_ids = seqZ 0 LGW_TOTALREGS ∧ length loregs = S (length reg_ids) ∧
  length tx_top_macros = 108%nat ∧ Forall (λ m, chain_pair_ok m = true) tx_top_macros.
Proof.
  split; [vm_compute; reflexivity|]. split; [vm_compute; reflexivity|].
  split; [vm_compute; reflexivity|].
  apply (bool_decide_eq_true_1 (Forall (λ m, chain_pair_ok m = true) tx_top_macros)).
  vm_compute. reflexivity.
Qed.
