(* ===== verification/RegProg.v ===== *)
(** * Programs over the registers

    The functions of [loragw_sx1302.c] are sequences of register accesses with
    checks. A program takes the state of the link to a result, or returns early
    with [LGW_REG_ERROR] ([Failed], the macros [CHECK_ERR] and [CHECK_NULL]), or
    is undefined ([Wrong]), or is still polling when its fuel is used up
    ([Spin]). *)
From stdpp Require Import base list numbers.
From Stdlib Require Import ZArith Lia.
From S2P Require Import Prelude Com Reg.

Open Scope Z_scope.

Inductive res (S A : Type) : Type :=
  | Done (s : S) (a : A)
  | Failed (s : S)
  | Wrong
  | Spin.
Arguments Done {S A} s a.
Arguments Failed {S A} s.
Arguments Wrong {S A}.
Arguments Spin {S A}.

(** A program over a state [S]; [prog W] is one over the link to the SX1302. *)
Definition eff (S A : Type) : Type := S → res S A.
Abbreviation prog W := (eff (com_state W)).

#[export] Instance eff_ret {S} : MRet (eff S) := λ A a s, Done s a.
#[export] Instance eff_bind {S} : MBind (eff S) := λ A B f m s,
  match m s with
  | Done s a => f a s
  | Failed s => Failed s
  | Wrong => Wrong
  | Spin => Spin
  end.

Definition failed {S A} : eff S A := λ s, Failed s.
Definition wrong {S A} : eff S A := λ _, Wrong.
Definition spin {S A} : eff S A := λ _, Spin.

(** A call of a function of the layers below. *)
Definition call {S A} (f : S → S * A) : eff S A := λ s, let '(s, a) := f s in Done s a.
Definition call_fuel {S A} (f : S → option (S * A)) : eff S A :=
  λ s, match f s with Some (s, a) => Done s a | None => Spin end.
(** A computation without access to the state. *)
Definition pure_of {S A} (o : outcome A) : eff S A :=
  match o with Ret a => mret a | _ => wrong end.
(** A program over a part of the state. *)
Definition zoom {S T A} (part : S → T) (with_part : S → T → S) (p : eff T A) : eff S A := λ s,
  match p (part s) with
  | Done t a => Done (with_part s t) a
  | Failed t => Failed (with_part s t)
  | Wrong => Wrong
  | Spin => Spin
  end.

(** The body of a function that returns an error code: [return LGW_REG_ERROR]
    from inside of it ends the function and not its caller. *)
Definition body {S} (p : eff S Z) : eff S Z := λ s,
  match p s with Failed s => Done s LGW_REG_ERROR | r => r end.

(** [CHECK_ERR]. *)
Definition CHECK_ERR {S} (err : Z) : eff S () := if err =? -1 then failed else mret ().
(** [if (err != LGW_REG_SUCCESS) return LGW_REG_ERROR]. *)
Definition CHECK_OK {S} (err : Z) : eff S () :=
  if negb (err =? LGW_REG_SUCCESS) then failed else mret ().
(** [CHECK_NULL] of a pointer argument. *)
Definition CHECK_NULL {S A} (p : option A) : eff S A :=
  match p with Some a => mret a | None => failed end.

(** The value of a local variable; reading one that is not set is undefined. *)
Definition known {S} (v : option Z) : eff S Z :=
  match v with Some v => mret v | None => wrong end.

Section RegProg.
Context {W : Type} (spi usb : driver W).

Definition wr (register_id v : Z) : prog W Z := call (λ s, lgw_reg_w spi usb s register_id v).
(** A read of a local variable: the status, and what the variable then holds. *)
Definition rd (register_id : Z) (val : option Z) : prog W (Z * option Z) :=
  '(st, v) ← call (λ s, lgw_reg_r spi usb s register_id true);
  mret (st, match v with Some v => Some v | None => val end).

(** [err |= lgw_reg_w(id, v)] for each pair. *)
Fixpoint wr_or (err : Z) (ws : list (Z * Z)) : prog W Z :=
  match ws with
  | [] => mret err
  | (i, v) :: ws => st ← wr i v; wr_or (Z.lor err st) ws
  end.
(** [err = lgw_reg_w(id, v); CHECK_ERR(err)] for each pair. *)
Fixpoint wr_check (ws : list (Z * Z)) : prog W () :=
  match ws with
  | [] => mret ()
  | (i, v) :: ws => st ← wr i v; _ ← CHECK_ERR st; wr_check ws
  end.
End RegProg.

Lemma bind_done {S A B} (m : eff S A) (f : A → eff S B) s s' a :
  m s = Done s' a → (m ≫= f) s = f a s'.
Proof. intros E. unfold mbind, eff_bind. by rewrite E. Qed.
Lemma bind_failed {S A B} (m : eff S A) (f : A → eff S B) s s' :
  m s = Failed s' → (m ≫= f) s = Failed s'.
Proof. intros E. unfold mbind, eff_bind. by rewrite E. Qed.
Lemma bind_wrong {S A B} (m : eff S A) (f : A → eff S B) s : m s = Wrong → (m ≫= f) s = Wrong.
Proof. intros E. unfold mbind, eff_bind. by rewrite E. Qed.
Lemma bind_inv {S A B} (m : eff S A) (f : A → eff S B) s s' b :
  (m ≫= f) s = Done s' b → ∃ s1 a, m s = Done s1 a ∧ f a s1 = Done s' b.
Proof. unfold mbind, eff_bind. destruct (m s) as [s1 a| | |]; [eauto|done..]. Qed.
Lemma pure_inv {S A} (o : outcome A) (s s' : S) a : pure_of o s = Done s' a → s' = s ∧ o = Ret a.
Proof. destruct o; cbn; [by intros [= -> ->]|done..]. Qed.
Lemma bind_assoc {S A B C} (m : eff S A) (f : A → eff S B) (g : B → eff S C) s :
  ((m ≫= f) ≫= g) s = (m ≫= λ x, f x ≫= g) s.
Proof. unfold mbind, eff_bind. by destruct (m s). Qed.
Lemma body_done {S} (p : eff S Z) s s' a : p s = Done s' a → body p s = Done s' a.
Proof. intros E. unfold body. by rewrite E. Qed.
Lemma body_failed {S} (p : eff S Z) s s' : p s = Failed s' → body p s = Done s' LGW_REG_ERROR.
Proof. intros E. unfold body. by rewrite E. Qed.
