(* ===== verification/RegView.v ===== *)
(** * Register programs over a link

    A program that writes registers, over any link that stores what is written:
    directly (SPI, or USB one request at a time) or in the bulk buffer of the
    USB driver. [WriteLink] is what the two have in common: a state in which
    [n] requests of together at most [b] bytes are pending and in which the
    memory of the chip, once they are performed, is [m]. *)
From stdpp Require Import base list numbers.
From Stdlib Require Import ZArith Lia.
From S2P Require Import Prelude Com Spi Mcu Usb UsbProps RegTable Reg RegFacts RegProps RegProg.

Open Scope Z_scope.
Open Scope list_scope.

(** ** Registers of a memory *)

(** The value of register [i] in the memory [m]. *)
Definition reg_in (m : Z → Z) (i : Z) : Z :=
  reg_sext (the_reg i) (field (m (addr (the_reg i))) (offs (the_reg i)) (leng (the_reg i))).
(** The memory after a write of [v] to register [i]. *)
Definition upd_reg (m : Z → Z) (i v : Z) : Z → Z := λ a,
  let r := the_reg i in
  if a =? addr r then rmw_byte (m a) (offs r) (leng r) (u8 v) else m a.
Definition upd_regs (m : Z → Z) (ws : list (Z * Z)) : Z → Z :=
  foldl (λ m p, upd_reg m (fst p) (snd p)) m ws.
(** The memory after the bytes [l] are written from [a] on. *)
Definition upd_bytes (m : Z → Z) (a : Z) (l : list Z) : Z → Z := λ b,
  if (a <=? b) && (b <? a + Z.of_nat (length l)) then znth 0 l (b - a) else m b.

(** The identifier of a register that can be written. *)
Definition writable (i : Z) : bool :=
  (0 <=? i) && (i <? LGW_TOTALREGS) && negb (rdon (the_reg i)).
(** The last value written to register [i]. *)
Definition last_write (ws : list (Z * Z)) (i : Z) : option Z :=
  foldl (λ acc p, if fst p =? i then Some (snd p) else acc) None ws.

Lemma writable_spec i :
  writable i = true → 0 <= i < LGW_TOTALREGS ∧ rdon (the_reg i) = false.
Proof.
  unfold writable. intros [[H1%Z.leb_le H2%Z.ltb_lt]%andb_true_iff H3%negb_true_iff]%andb_true_iff.
  done.
Qed.

Lemma u8_mod_pow v l : 0 <= l <= 8 → u8 v mod 2 ^ l = v mod 2 ^ l.
Proof.
  intros Hl. unfold u8. replace (2 ^ 8) with (2 ^ l * 2 ^ (8 - l))
    by (rewrite <- Z.pow_add_r by lia; f_equal; lia).
  rewrite Z.rem_mul_r, Z.mul_comm, Z_mod_plus_full by lia. by apply Zmod_mod.
Qed.

Lemma reg_in_upd m i v j :
  0 <= i < LGW_TOTALREGS → 0 <= j < LGW_TOTALREGS →
  reg_in (upd_reg m i v) j = if i =? j then reg_cast (the_reg i) v else reg_in m j.
Proof.
  intros Hi Hj. pose proof (the_reg_ok i Hi) as (Ho & Hl & H8 & _).
  pose proof (the_reg_ok j Hj) as (Ho' & Hl' & H8' & _). unfold reg_in, upd_reg. cbv zeta.
  destruct (Z.eqb_spec i j) as [<-|Hne].
  - rewrite Z.eqb_refl, rmw_field_same by lia. unfold reg_cast. by rewrite u8_mod_pow by lia.
  - destruct (Z.eqb_spec (addr (the_reg j)) (addr (the_reg i))) as [Ea|]; [|done].
    rewrite rmw_field_other; [done|lia..|]. by apply (reg_bits_disjoint i j).
Qed.

Lemma last_write_app ws ws' i :
  last_write (ws ++ ws') i = match last_write ws' i with Some v => Some v | None => last_write ws i end.
Proof.
  unfold last_write. rewrite foldl_app. generalize (foldl (λ acc p, if fst p =? i then Some (snd p) else acc) None ws).
  induction ws' as [|p ws' IH] using rev_ind; intros o; [done|].
  rewrite !foldl_app. cbn [foldl]. by destruct (fst p =? i).
Qed.

(** A register holds the last value written to it. *)
Lemma reg_in_upds m ws j :
  Forall (λ p, writable (fst p) = true) ws → 0 <= j < LGW_TOTALREGS →
  reg_in (upd_regs m ws) j
  = match last_write ws j with Some v => reg_cast (the_reg j) v | None => reg_in m j end.
Proof.
  intros Hws Hj. induction ws as [|p ws IH] using rev_ind; [done|].
  apply List.Forall_app in Hws as [Hws [Hp _]%List.Forall_cons_iff].
  unfold upd_regs. rewrite foldl_app. cbn [foldl]. apply writable_spec in Hp as [Hp _].
  rewrite reg_in_upd by done. rewrite last_write_app. unfold last_write at 1. cbn [foldl].
  destruct (Z.eqb_spec (fst p) j) as [->|]; [done|]. by apply IH.
Qed.

(** Bytes that belong to no register are not changed. *)
Lemma upd_regs_other m ws a :
  Forall (λ p, addr (the_reg (fst p)) ≠ a) ws → upd_regs m ws a = m a.
Proof.
  intros H. induction ws as [|p ws IH] using rev_ind; [done|].
  apply List.Forall_app in H as [H [Hp _]%List.Forall_cons_iff].
  unfold upd_regs. rewrite foldl_app. cbn [foldl]. unfold upd_reg at 1. cbv zeta.
  rewrite (proj2 (Z.eqb_neq _ _)) by done. by apply IH.
Qed.

Lemma reg_in_ext m m' i : m (addr (the_reg i)) = m' (addr (the_reg i)) → reg_in m i = reg_in m' i.
Proof. intros E. unfold reg_in. by rewrite E. Qed.

Lemma rmw_byte_full old v : is_u8 v → rmw_byte old 0 8 v = v.
Proof.
  intros Hv. apply Z.bits_inj'. intros k Hk. destruct (Z.lt_ge_cases k 8).
  - rewrite rmw_testbit by lia. rewrite (proj2 (Z.leb_le _ _)), (proj2 (Z.ltb_lt _ _)) by lia.
    cbn [andb]. f_equal. lia.
  - unfold rmw_byte. rewrite u8_testbit, (proj2 (Z.ltb_ge _ _)) by lia. cbn [andb].
    symmetry. apply (Z.testbit_false v k); [lia|].
    rewrite (Z.div_small v); [done|]. split; [lia|]. apply Z.lt_le_trans with (2 ^ 8); [lia|].
    apply Z.pow_le_mono_r; lia.
Qed.

(** ** Links *)

Class WriteLink {W} (spi usb : driver W) (P : com_state W → nat → Z → (Z → Z) → Prop) : Prop := {
  wl_ext : ∀ s n b m m', P s n b m → (∀ a, m a = m' a) → P s n b m';
  wl_w : ∀ s n b m a v, P s n b m → (n < 255)%nat → b + 9 <= 4096 → is_addr a → is_u8 v →
    ∃ s', lgw_com_w spi usb s LGW_SPI_MUX_TARGET_SX1302 a v = (s', LGW_COM_SUCCESS) ∧
          P s' (S n) (b + 9) (upd_bytes m a [v]);
  wl_rmw : ∀ s n b m a o l v, P s n b m → (n < 255)%nat → b + 9 <= 4096 → is_addr a →
    0 <= o → 0 <= l → o + l <= 8 → is_u8 v →
    ∃ s', lgw_com_rmw spi usb s LGW_SPI_MUX_TARGET_SX1302 a o l v = (s', LGW_COM_SUCCESS) ∧
          P s' (S n) (b + 9) (λ x, if x =? a then rmw_byte (m a) o l v else m x);
  wl_wb : ∀ s n b m a l, P s n b m → (n < 255)%nat → b + 8 + Z.of_nat (length l) <= 4096 →
    is_addr a → a + Z.of_nat (length l) <= 2 ^ 15 → 0 < Z.of_nat (length l) <= 256 →
    Forall (λ x, is_u8 x) l →
    ∃ s', lgw_com_wb spi usb s LGW_SPI_MUX_TARGET_SX1302 a l = (s', LGW_COM_SUCCESS) ∧
          P s' (S n) (b + 8 + Z.of_nat (length l)) (upd_bytes m a l);
  wl_chunk : ∀ s n b m, P s n b m → 256 <= lgw_com_chunk_size spi usb s < 2 ^ 16 }.

(** A link that can collect writes and perform them together. *)
Class BulkLink {W} (spi usb : driver W) (ready : com_state W → (Z → Z) → Prop)
    (filling : com_state W → nat → Z → (Z → Z) → Prop) : Prop := {
  bl_writes :: WriteLink spi usb filling;
  bl_begin : ∀ s m, ready s m →
    ∃ s', lgw_com_set_write_mode usb s LGW_COM_WRITE_MODE_BULK = (s', LGW_COM_SUCCESS) ∧
          filling s' 0%nat 0 m;
  bl_flush : ∀ s n b m, filling s n b m →
    ∃ s', lgw_com_flush usb s = (s', LGW_COM_SUCCESS) ∧ ready s' m;
  bl_end : ∀ s m, ready s m →
    ∃ s', lgw_com_set_write_mode usb s LGW_COM_WRITE_MODE_SINGLE = (s', LGW_COM_SUCCESS) ∧
          ready s' m }.

(** ** Sequences of writes *)

Section Writes.
Context {W : Type} (spi usb : driver W) (P : com_state W → nat → Z → (Z → Z) → Prop).
Context `{!WriteLink spi usb P}.

Lemma wr_link s n b m i v :
  P s n b m → writable i = true → (n < 255)%nat → b + 9 <= 4096 →
  ∃ s', wr spi usb i v s = Done s' LGW_REG_SUCCESS ∧ P s' (S n) (b + 9) (upd_reg m i v).
Proof.
  intros Hs [Hi Hr]%writable_spec Hn Hb. pose proof (the_reg_ok i Hi) as (Ho & Hl & H8 & Ha & _).
  unfold wr, call, lgw_reg_w, reg_w. rewrite (proj2 (Z.leb_gt _ _)), Hr by lia.
  destruct ((leng (the_reg i) =? 8) && (offs (the_reg i) =? 0))%bool eqn:E.
  - apply andb_true_iff in E as [E1%Z.eqb_eq E2%Z.eqb_eq].
    destruct (wl_w s n b m (addr (the_reg i)) (u8 v) Hs Hn Hb Ha (u8_range v)) as (s' & -> & Hs').
    exists s'. split; [done|]. eapply wl_ext; [exact Hs'|]. intros a. unfold upd_bytes, upd_reg. cbv zeta.
    rewrite E1, E2, rmw_byte_full by apply u8_range. cbn [length].
    destruct (Z.leb_spec (addr (the_reg i)) a), (Z.ltb_spec a (addr (the_reg i) + Z.of_nat 1)),
      (Z.eqb_spec a (addr (the_reg i))); cbn [andb]; try lia; try done.
    by replace (a - addr (the_reg i)) with 0 by lia.
  - rewrite (proj2 (Z.leb_le _ _)) by lia.
    destruct (wl_rmw s n b m (addr (the_reg i)) (offs (the_reg i)) (leng (the_reg i)) (u8 v))
      as (s' & -> & Hs'); [done|lia|lia|done|lia|lia|lia|apply u8_range|].
    exists s'. split; [done|]. eapply wl_ext; [exact Hs'|]. intros a. unfold upd_reg. cbv zeta.
    by destruct (Z.eqb_spec a (addr (the_reg i))) as [->|].
Qed.

Lemma wr_or_link s n b m ws :
  P s n b m → Forall (λ p, writable (fst p) = true) ws →
  (n + length ws <= 255)%nat → b + 9 * Z.of_nat (length ws) <= 4096 →
  ∃ s', wr_or spi usb LGW_REG_SUCCESS ws s = Done s' LGW_REG_SUCCESS ∧
        P s' (n + length ws)%nat (b + 9 * Z.of_nat (length ws)) (upd_regs m ws).
Proof.
  revert s n b m. induction ws as [|[i v] ws IH]; intros s n b m Hs Hws Hn Hb.
  { exists s. cbn [length]. by rewrite Nat.add_0_r, Z.mul_0_r, Z.add_0_r. }
  apply List.Forall_cons_iff in Hws as [Hi Hws]. cbn [length] in *.
  destruct (wr_link s n b m i v Hs Hi) as (s1 & E1 & Hs1); [lia|lia|].
  destruct (IH s1 (S n) (b + 9) (upd_reg m i v) Hs1 Hws) as (s' & E' & Hs'); [lia|lia|].
  exists s'. split; [cbn [wr_or]; by erewrite bind_done by done|].
  replace (n + S (length ws))%nat with (S n + length ws)%nat by lia.
  replace (b + 9 * Z.of_nat (S (length ws))) with (b + 9 + 9 * Z.of_nat (length ws)) by lia. done.
Qed.

Lemma wr_check_link s n b m ws :
  P s n b m → Forall (λ p, writable (fst p) = true) ws →
  (n + length ws <= 255)%nat → b + 9 * Z.of_nat (length ws) <= 4096 →
  ∃ s', wr_check spi usb ws s = Done s' () ∧
        P s' (n + length ws)%nat (b + 9 * Z.of_nat (length ws)) (upd_regs m ws).
Proof.
  revert s n b m. induction ws as [|[i v] ws IH]; intros s n b m Hs Hws Hn Hb.
  { exists s. cbn [length]. by rewrite Nat.add_0_r, Z.mul_0_r, Z.add_0_r. }
  apply List.Forall_cons_iff in Hws as [Hi Hws]. cbn [length] in *.
  destruct (wr_link s n b m i v Hs Hi) as (s1 & E1 & Hs1); [lia|lia|].
  destruct (IH s1 (S n) (b + 9) (upd_reg m i v) Hs1 Hws) as (s' & E' & Hs'); [lia|lia|].
  exists s'. split; [cbn [wr_check]; by erewrite bind_done by done|].
  replace (n + S (length ws))%nat with (S n + length ws)%nat by lia.
  replace (b + 9 * Z.of_nat (S (length ws))) with (b + 9 + 9 * Z.of_nat (length ws)) by lia. done.
Qed.

(** A burst write of registers and of a block of up to 256 bytes. *)
Lemma reg_wb_link s n b m i l :
  P s n b m → writable i = true → (n < 255)%nat → b + 8 + Z.of_nat (length l) <= 4096 →
  addr (the_reg i) + Z.of_nat (length l) <= 2 ^ 15 → 0 < Z.of_nat (length l) <= 256 →
  Forall (λ x, is_u8 x) l →
  ∃ s', lgw_reg_wb spi usb s i (Some l) = (s', LGW_REG_SUCCESS) ∧
        P s' (S n) (b + 8 + Z.of_nat (length l)) (upd_bytes m (addr (the_reg i)) l).
Proof.
  intros Hs [Hi Hr]%writable_spec Hn Hb Ha Hl Hby. pose proof (the_reg_ok i Hi) as (_ & _ & _ & Haddr & _).
  destruct (wl_wb s n b m (addr (the_reg i)) l) as (s' & E & Hs'); [done..|].
  exists s'. split; [|done]. unfold lgw_reg_wb.
  rewrite (proj2 (Z.eqb_neq _ _)), (proj2 (Z.leb_gt _ _)), Hr by lia. by rewrite E.
Qed.
Lemma mem_wb_link s n b m a l :
  P s n b m → (n < 255)%nat → b + 8 + Z.of_nat (length l) <= 4096 →
  is_addr a → a + Z.of_nat (length l) <= 2 ^ 15 → 0 < Z.of_nat (length l) <= 256 →
  Forall (λ x, is_u8 x) l →
  ∃ s', lgw_mem_wb spi usb s a (Some l) = Some (s', LGW_REG_SUCCESS) ∧
        P s' (S n) (b + 8 + Z.of_nat (length l)) (upd_bytes m a l).
Proof.
  intros Hs Hn Hb Ha Hle Hl Hby. destruct (wl_wb s n b m a l) as (s' & E & Hs'); [done..|].
  pose proof (wl_chunk s n b m Hs) as Hc. exists s'. split; [|done].
  unfold lgw_mem_wb. rewrite (proj2 (Z.eqb_neq _ _)) by lia.
  destruct l as [|x l]; [cbn [length] in *; lia|]. set (d := x :: l) in *.
  change (length d) with (S (length l)) at 1.
  cbn [mem_wb_loop]. rewrite (proj2 (Z.leb_gt _ _)), (proj2 (Z.ltb_ge _ _)) by lia.
  rewrite Z.mul_0_l. cbn [Z.to_nat]. rewrite drop_0, Nat2Z.id, firstn_all, E.
  rewrite Z.sub_diag. done.
Qed.
End Writes.

(** ** A link that writes at once *)

Section Direct.
Context {W : Type} (spi usb d : driver W) (up : W → Prop) (mem : W → Z → Z).
Context `{!MemBus d up mem} (Hchunk : 256 <= drv_chunk_size d).

(** The link is open and the memory of the chip is [m]. *)
Definition direct (s : com_state W) (m : Z → Z) : Prop :=
  linked spi usb d up s ∧ ∀ a, mem (world s) a = m a.

Lemma direct_reg s m i : direct s m → reg_value mem s i = reg_in m i.
Proof. intros [_ Hm]. unfold reg_value, reg_in. by rewrite Hm. Qed.

Lemma rd_direct s m i val :
  direct s m → 0 <= i < LGW_TOTALREGS →
  ∃ s', rd spi usb i val s = Done s' (LGW_REG_SUCCESS, Some (reg_in m i)) ∧ direct s' m.
Proof.
  intros [Hs Hm] Hi. pose proof (the_reg_ok i Hi) as Hok. pose proof Hok as (Ho & Hl & H8 & Ha & _).
  pose proof Hs as (_ & _ & Hup).
  destruct (bus_r (world s) (addr (the_reg i)) Hup Ha) as (w & Hr & Hup' & Hw).
  exists (with_world s w). split.
  - unfold rd, call, lgw_reg_r, reg_r, mbind, eff_bind. cbn [negb].
    rewrite (proj2 (Z.leb_gt _ _)), (proj2 (Z.leb_le _ _)) by lia.
    rewrite (com_r_linked spi usb d up mem s _ _ w _ Hs Hr). cbn [default]. unfold mret, eff_ret. do 3 f_equal.
    unfold reg_in. rewrite <- Hm. apply reg_field_spec; [done|]. by apply (mem_byte (MemBus := MemBus0)).
  - split; [by apply linked_world|]. intros a. cbn [world with_world]. by rewrite Hw.
Qed.

Lemma direct_write_link : WriteLink spi usb (λ s (_ : nat) (_ : Z) m, direct s m).
Proof.
  constructor.
  - intros s _ _ m m' [Hs Hm] E. split; [done|]. intros a. by rewrite Hm.
  - intros s _ _ m a v [Hs Hm] _ _ Ha Hv.
    destruct (bus_w (world s) a v (proj2 (proj2 Hs)) Ha Hv) as (w & E & Hup & Hw).
    exists (with_world s w). split; [eapply (com_w_linked spi usb d up mem); done|].
    split; [by apply linked_world|]. intros x. cbn [world with_world]. rewrite Hw. unfold upd_bytes.
    cbn [length]. destruct (Z.leb_spec a x), (Z.ltb_spec x (a + Z.of_nat 1)), (Z.eqb_spec x a);
      cbn [andb]; try lia; try apply Hm. by replace (x - a) with 0 by lia.
  - intros s _ _ m a o l v [Hs Hm] _ _ Ha Ho Hl H8 Hv.
    destruct (bus_rmw (world s) a o l v (proj2 (proj2 Hs)) Ha Ho Hl H8 Hv) as (w & E & Hup & Hw).
    exists (with_world s w). split; [eapply (com_rmw_linked spi usb d up mem); done|].
    split; [by apply linked_world|]. intros x. cbn [world with_world]. by rewrite Hw, !Hm.
  - intros s _ _ m a l [Hs Hm] _ _ Ha Hle Hl Hby.
    destruct (bus_wb (world s) a l) as (w & E & Hup & Hw); [apply Hs|done|done|lia|done|].
    exists (with_world s w). split; [eapply (com_wb_linked spi usb d up mem); done|].
    split; [by apply linked_world|]. intros x. cbn [world with_world]. rewrite Hw. unfold upd_bytes.
    by destruct (_ && _)%bool.
  - intros s _ _ m [Hs _]. rewrite (com_chunk_linked spi usb d up mem s Hs).
    pose proof (bus_chunk (MemBus := MemBus0)). lia.
Qed.
End Direct.

(** SPI: the write mode has no effect. *)
Lemma spi_bulk_link {W} (spi usb : driver W) (up : W → Prop) (mem : W → Z → Z)
    `{!MemBus spi up mem} :
  256 <= drv_chunk_size spi →
  let ready s m := com_type s = LGW_COM_SPI ∧ direct spi usb spi up mem s m in
  BulkLink spi usb ready (λ s _ _ m, ready s m).
Proof.
  intros Hc ready. pose proof (direct_write_link spi usb spi up mem Hc) as Hd.
  assert (Hty : ∀ s s' : com_state W, com_type s = LGW_COM_SPI →
    ∀ m', direct spi usb spi up mem s' m' → com_type s' = com_type s → ready s' m').
  { intros s s' Ht m' Hm Hs. split; [by rewrite Hs|done]. }
  constructor; [constructor|..].
  - intros s _ _ m m' [Ht Hs] E. split; [done|]. by apply (wl_ext (WriteLink := Hd) s 0%nat 0 m).
  - intros s n b m a v [Ht Hs] Hn Hb Ha Hv.
    destruct (wl_w (WriteLink := Hd) s n b m a v Hs Hn Hb Ha Hv) as (s' & E & Hs').
    exists s'. split; [done|]. apply (Hty s); [done|done|].
    unfold lgw_com_w in E. rewrite Ht in E. destruct (negb _); [by inversion E|].
    destruct (drv_w _ _ _ _ _). by inversion E.
  - intros s n b m a o l v [Ht Hs] Hn Hb Ha Ho Hl H8 Hv.
    destruct (wl_rmw (WriteLink := Hd) s n b m a o l v Hs Hn Hb Ha Ho Hl H8 Hv) as (s' & E & Hs').
    exists s'. split; [done|]. apply (Hty s); [done|done|].
    unfold lgw_com_rmw in E. rewrite Ht in E. destruct (negb _); [by inversion E|].
    destruct (drv_rmw _ _ _ _ _ _ _). by inversion E.
  - intros s n b m a l [Ht Hs] Hn Hb Ha Hle Hl Hby.
    destruct (wl_wb (WriteLink := Hd) s n b m a l Hs Hn Hb Ha Hle Hl Hby) as (s' & E & Hs').
    exists s'. split; [done|]. apply (Hty s); [done|done|].
    unfold lgw_com_wb in E. rewrite Ht in E. destruct (negb _); [by inversion E|].
    destruct (drv_wb _ _ _ _ _). by inversion E.
  - intros s n b m [_ Hs]. by apply (wl_chunk (WriteLink := Hd) s n b m).
  - intros s m [Ht Hs]. exists s. unfold lgw_com_set_write_mode. by rewrite Ht.
  - intros s _ _ m [Ht Hs]. exists s. unfold lgw_com_flush. by rewrite Ht.
  - intros s m [Ht Hs]. exists s. unfold lgw_com_set_write_mode. by rewrite Ht.
Qed.

(** ** USB: writes are stored until the flush *)

Section UsbBulk.
Context {T : Type} (tt : tty T) (up : T → Prop) (mem : T → Z → Z) (turns : nat).
Context `{!McuChip tt up mem turns} (fuel : nat) (Hfuel : (turns <= fuel)%nat).
Context (spi : driver (usb_state T)).
Abbreviation usb := (usb_driver tt fuel).

Definition usb_open (s : com_state (usb_state T)) : Prop :=
  com_target s = true ∧ com_type s = LGW_COM_USB.
Definition usb_ready (s : com_state (usb_state T)) (m : Z → Z) : Prop :=
  usb_open s ∧ idle up (world s) ∧ ∀ a, mem (line (world s)) a = m a.
Definition usb_filling (s : com_state (usb_state T)) (n : nat) (b : Z) (m : Z → Z) : Prop :=
  usb_open s ∧ ∃ rs, stored up (world s) rs (Z.of_nat n) ∧ length rs = n ∧
    Z.of_nat (length (frames rs)) <= b ∧ b <= LGW_USB_BURST_CHUNK ∧ (n <= 255)%nat ∧
    Forall req_ok rs ∧ ∀ a, foldl perform (mem (line (world s))) rs a = m a.

(** Storing one more request. *)
Lemma usb_store s n b m (o : write_op) b' :
  usb_filling s n b m → op_ok o → (n < 255)%nat → b + Z.of_nat (op_size o) <= b' →
  b' <= LGW_USB_BURST_CHUNK →
  ∃ w, run_op tt fuel o (world s) = Some (Ret (w, 0)) ∧
       usb_filling (with_world s w) (S n) b' (perform_op m o).
Proof.
  intros (Hopen & rs & Hst & Hn & Hf & Hb & Hc & Hok & Hm) Ho Hn' Hb1 Hb2. subst n.
  destruct (store_request tt up fuel (world s) rs o Hst Ho Hn') as (w & E & Hl & Hst').
  { lia. }
  exists w. split; [done|]. split; [done|].
  exists (rs ++ [op_req (Z.of_nat (length rs)) o]). cbn [world with_world].
  rewrite length_app, frames_app, length_app, Hl, foldl_app. cbn [length foldl].
  assert (Hs1 : length (frames [op_req (Z.of_nat (length rs)) o]) = op_size o).
  { unfold frames. cbn. by rewrite app_nil_r, op_req_size. }
  split_and!; [done|lia|lia|lia|lia| |].
  - apply List.Forall_app. split; [done|]. constructor; [|done]. apply op_req_ok; [lia|done].
  - intros a. rewrite perform_op_id. by apply perform_proper.
Qed.

Lemma usb_bulk_link : BulkLink spi usb usb_ready usb_filling.
Proof.
  constructor; [constructor|..].
  - intros s n b m m' (Ho & rs & H1 & H2 & H3 & H4 & H5 & H6 & Hm) E. split; [done|].
    exists rs. split_and!; try done. intros a. by rewrite Hm.
  - intros s n b m a v Hs Hn Hb Ha Hv.
    destruct (usb_store s n b m (OpWrite a [v]) (b + 9) Hs) as (w & E & Hw);
      [cbn; repeat split; try lia; by constructor|lia|cbn [op_size length]; lia|unfold LGW_USB_BURST_CHUNK; lia|].
    exists (with_world s w). split; [|exact Hw]. destruct Hs as ([H1 H2] & rs & [(_ & _ & Hk) _] & _).
    unfold lgw_com_w. rewrite H1, H2. cbn [negb usb_driver drv_w].
    by rewrite (run_ret (lgw_usb_w tt fuel LGW_SPI_MUX_TARGET_SX1302 a v) _ _ w 0 Hk E).
  - intros s n b m a o l v Hs Hn Hb Ha Ho Hl H8 Hv.
    destruct (usb_store s n b m (OpRmw a o l v) (b + 9) Hs) as (w & E & Hw);
      [done|lia|cbn [op_size]; lia|unfold LGW_USB_BURST_CHUNK; lia|].
    exists (with_world s w). split; [|exact Hw]. destruct Hs as ([H1 H2] & rs & [(_ & _ & Hk) _] & _).
    unfold lgw_com_rmw. rewrite H1, H2. cbn [negb usb_driver drv_rmw].
    by rewrite (run_ret (lgw_usb_rmw tt fuel a o l v) _ _ w 0 Hk E).
  - intros s n b m a l Hs Hn Hb Ha Hle Hl Hby.
    destruct (usb_store s n b m (OpWrite a l) (b + 8 + Z.of_nat (length l)) Hs) as (w & E & Hw);
      [done|lia|cbn [op_size]; lia|unfold LGW_USB_BURST_CHUNK; lia|].
    exists (with_world s w). split; [|exact Hw]. destruct Hs as ([H1 H2] & rs & [(_ & _ & Hk) _] & _).
    unfold lgw_com_wb. rewrite H1, H2. cbn [negb usb_driver drv_wb].
    by rewrite (run_ret (lgw_usb_wb tt fuel LGW_SPI_MUX_TARGET_SX1302 a l) _ _ w 0 Hk E).
  - intros s n b m ([_ H2] & _). unfold lgw_com_chunk_size. rewrite H2. by vm_compute.
  - intros s m ([H1 H2] & Hi & Hm). destruct (set_bulk_mode up (world s) Hi) as (w & E & Hl & Hst).
    exists (with_world s w). split.
    + unfold lgw_com_set_write_mode. rewrite H2. cbn [usb_driver drv_set_write_mode].
      destruct Hi as [(_ & _ & Hk) _]. by rewrite (run_ret _ _ _ w 0 Hk E).
    + split; [done|]. exists []. cbn [world with_world foldl]. rewrite Hl. split_and!; [done|done|done|done|lia|done|done].
  - intros s n b m ([H1 H2] & rs & Hst & Hn & Hf & Hb & Hc & Hok & Hm).
    assert (∃ w, lgw_usb_flush tt fuel (world s) = Some (Ret (w, 0)) ∧ idle up w ∧
              ∀ a, mem (line w) a = m a) as (w & E & Hi & Hw).
    { destruct rs as [|r rs].
      - cbn [length] in Hn. subst n. destruct (flush_empty tt up fuel _ Hst) as (w & E & Hi & Hl).
        exists w. rewrite Hl. done.
      - destruct (flush_stored tt up mem turns fuel Hfuel _ _ _ Hst) as (w & E & Hi & Hw);
          [cbn [length] in Hn; lia|done|done|lia|lia|].
        exists w. split_and!; [done..|]. intros a. by rewrite Hw. }
    exists (with_world s w). split; [|by split].
    unfold lgw_com_flush. rewrite H2. cbn [usb_driver drv_flush].
    destruct Hst as [(_ & _ & Hk) _]. by rewrite (run_ret _ _ _ w 0 Hk E).
  - intros s m ([H1 H2] & Hi & Hm).
    exists (with_world s (set_mode LGW_COM_WRITE_MODE_SINGLE (_lgw_spi_req_nb (world s)) (world s))).
    split.
    + unfold lgw_com_set_write_mode. rewrite H2. cbn [usb_driver drv_set_write_mode].
      destruct Hi as [(_ & _ & Hk) _].
      rewrite (run_ret _ _ _ (set_mode LGW_COM_WRITE_MODE_SINGLE (_lgw_spi_req_nb (world s)) (world s)) 0 Hk); [done|].
      reflexivity.
    + destruct Hi as (Hu & Hm' & Hq & Hz & Hr). split; [done|]. split; [|done]. split_and!; done.
Qed.
End UsbBulk.

(** ** Reading off the result of a sequence of writes *)

(** The position of the last write to register [i]. *)
Fixpoint last_pos (ids : list Z) (i : Z) : option nat :=
  match ids with
  | [] => None
  | j :: ids => match last_pos ids i with
                | Some k => Some (S k)
                | None => if j =? i then Some O else None
                end
  end.

Lemma last_write_pos ws i :
  last_write ws i = match last_pos (map fst ws) i with Some k => snd <$> ws !! k | None => None end.
Proof.
  induction ws as [|[j v] ws IH]; [done|]. rewrite (last_write_app [(j, v)] ws), IH.
  cbn [map last_pos fst]. destruct (last_pos (map fst ws) i) as [k|] eqn:E.
  - change (((j, v) :: ws) !! S k) with (ws !! k). destruct (ws !! k) eqn:Ek; [done|]. exfalso.
    apply lookup_ge_None in Ek. clear IH. revert k E Ek. induction ws as [|[j' v'] ws IH]; intros k E Ek; [done|].
    cbn [map last_pos fst length] in *. destruct (last_pos (map fst ws) i) as [k'|].
    + inversion E; subst. apply (IH k'); [done|lia].
    + destruct (j' =? i); inversion E; subst. lia.
  - unfold last_write. cbn [foldl fst snd]. by destruct (j =? i).
Qed.

Lemma last_pos_None ids i : i ∉ ids → last_pos ids i = None.
Proof.
  induction ids as [|j ids IH]; [done|]. intros [Hne Hi]%not_elem_of_cons. cbn [last_pos].
  rewrite IH by done. by rewrite (proj2 (Z.eqb_neq _ _)) by done.
Qed.

Lemma writes_ok (ws : list (Z * Z)) : forallb writable (map fst ws) = true → Forall (λ p, writable (fst p) = true) ws.
Proof.
  intros H. rewrite forallb_forall in H. apply List.Forall_forall. intros p Hp. apply H. by apply in_map.
Qed.

(** The registers [ids] of the writes are given apart from the values. *)
Lemma reg_in_write m (ws : list (Z * Z)) ids i k v l (sg : bool) :
  map fst ws = ids → forallb writable ids = true → last_pos ids i = Some k →
  snd <$> ws !! k = Some v → (0 <=? i) && (i <? LGW_TOTALREGS) = true →
  (leng (the_reg i), sign (the_reg i)) = (l, sg) →
  (if sg then - 2 ^ (l - 1) <= v < 2 ^ (l - 1) else 0 <= v < 2 ^ l) → reg_in (upd_regs m ws) i = v.
Proof.
  intros <- Hws Hk Hv [H1%Z.leb_le H2%Z.ltb_lt]%andb_true_iff [= Hl Hs] Hr.
  rewrite reg_in_upds by (done || by apply writes_ok). rewrite last_write_pos, Hk, Hv.
  apply reg_cast_id; [pose proof (the_reg_ok i ltac:(done)) as (_ & ? & _); lia|]. by rewrite Hs, Hl.
Qed.

Lemma reg_in_untouched m (ws : list (Z * Z)) i :
  forallb writable (map fst ws) = true → last_pos (map fst ws) i = None → 0 <= i < LGW_TOTALREGS →
  reg_in (upd_regs m ws) i = reg_in m i.
Proof.
  intros Hws Hk Hi. rewrite reg_in_upds by (done || by apply writes_ok). by rewrite last_write_pos, Hk.
Qed.

(** Reduces [reg_in (upd_regs m ws) i = v], for a list of writes with the known
    registers [ids], to the value at a position of the list and its range. *)
Ltac reg_is Hids Hok :=
  match type of Hids with
  | map fst _ = ?ids =>
    match goal with
    | |- reg_in (upd_regs ?m ?ws) ?i = ?v =>
      let k := eval vm_compute in (last_pos ids i) in
      let l := eval vm_compute in (leng (the_reg i)) in
      let sg := eval vm_compute in (sign (the_reg i)) in
      match k with
      | Some ?k => apply (reg_in_write m ws ids i k v l sg Hids Hok);
          [vm_compute; reflexivity| |vm_compute; reflexivity|vm_compute; reflexivity|cbv iota]
      end
    end
  end.

(** Bytes beside the registers, and pairs of whole registers. *)
Lemma reg_in_bytes m a l i :
  addr (the_reg i) < a ∨ a + Z.of_nat (length l) <= addr (the_reg i) →
  reg_in (upd_bytes m a l) i = reg_in m i.
Proof.
  intros H. apply reg_in_ext. unfold upd_bytes.
  destruct (Z.leb_spec a (addr (the_reg i))), (Z.ltb_spec (addr (the_reg i)) (a + Z.of_nat (length l)));
    cbn [andb]; lia || done.
Qed.

(** A register that is one whole byte. *)
Definition whole (i : Z) : bool := (leng (the_reg i) =? 8) && (offs (the_reg i) =? 0).

Lemma upd_reg_whole m i v a :
  whole i = true → upd_reg m i v a = if a =? addr (the_reg i) then u8 v else m a.
Proof.
  unfold whole. intros [E1%Z.eqb_eq E2%Z.eqb_eq]%andb_true_iff. unfold upd_reg. cbv zeta.
  by rewrite E1, E2, rmw_byte_full by apply u8_range.
Qed.

Lemma upd_bytes_pair m i j x y b :
  whole i && whole j && (addr (the_reg j) =? addr (the_reg i) + 1) = true → is_u8 x → is_u8 y →
  upd_bytes m (addr (the_reg i)) [x; y] b = upd_regs m [(i, x); (j, y)] b.
Proof.
  intros [[Hi Hj]%andb_true_iff Ha%Z.eqb_eq]%andb_true_iff Hx Hy.
  unfold upd_regs. cbn [foldl fst snd]. rewrite !upd_reg_whole, Ha, !u8_id by (done || lia).
  unfold upd_bytes. cbn [length].
  destruct (Z.leb_spec (addr (the_reg i)) b), (Z.ltb_spec b (addr (the_reg i) + Z.of_nat 2)),
    (Z.eqb_spec b (addr (the_reg i) + 1)), (Z.eqb_spec b (addr (the_reg i))); cbn [andb]; try lia; try done.
  - subst b. by replace (addr (the_reg i) + 1 - addr (the_reg i)) with 1 by lia.
  - subst b. by rewrite Z.sub_diag.
Qed.

(** Writes commute with bytes that are not registers. *)
Lemma reg_in_around m (ws : list (Z * Z)) a l ws' i :
  forallb writable (map fst (ws ++ ws')) = true → 0 <= i < LGW_TOTALREGS →
  (∀ j, 0 <= j < LGW_TOTALREGS → addr (the_reg j) < a ∨ a + Z.of_nat (length l) <= addr (the_reg j)) →
  reg_in (upd_regs (upd_bytes (upd_regs m ws) a l) ws') i = reg_in (upd_regs m (ws ++ ws')) i.
Proof.
  intros Hw Hi Ha. pose proof (writes_ok _ Hw) as Hok. apply List.Forall_app in Hok as [H1 H2].
  rewrite (reg_in_upds _ ws'), (reg_in_upds _ (ws ++ ws')), last_write_app by (done || by apply writes_ok).
  destruct (last_write ws' i); [done|]. rewrite reg_in_bytes by auto. by apply reg_in_upds.
Qed.

Lemma upd_regs_app m ws ws' : upd_regs m (ws ++ ws') = upd_regs (upd_regs m ws) ws'.
Proof. apply foldl_app. Qed.
