(* ===== verification/RxBuffer.v ===== *)
(** * The RX buffer ([libloragw/src/loragw_sx1302_rx.c])

    The concentrator queues received packets in a FIFO. [rx_buffer_fetch]
    copies the FIFO into a buffer, synchronises on the packet syncword and
    counts the packets; [rx_buffer_pop] takes one packet out and checks it. *)
From stdpp Require Import base list numbers.
From Stdlib Require Import ZArith Lia.
From S2P Require Import Prelude Com Reg.

Open Scope Z_scope.

(** ** Constants and types *)

Definition LGW_REG_WARNING : Z := -2.

Definition SX1302_PKT_SYNCWORD_BYTE_0 : Z := 0xA5.
Definition SX1302_PKT_SYNCWORD_BYTE_1 : Z := 0xC0.
Definition SX1302_PKT_HEAD_METADATA : Z := 9.
Definition SX1302_PKT_TAIL_METADATA : Z := 14.
Definition SX1302_LORA_MODEM_ID_MAX : Z := 15.
Definition SX1302_LORA_STD_MODEM_ID : Z := 16.
Definition SX1302_FSK_MODEM_ID : Z := 17.

Definition TAKE_N_BITS_FROM (b p n : Z) : Z := Z.land (Z.shiftr b p) (Z.shiftl 1 n - 1).

(** The fields [rx_buffer_pop] sets; the RSSI deltas and [packet_checksum] of
    the source's structure are never assigned. *)
Record rx_packet_s := {
  rxbytenb_modem : Z; rx_channel_in : Z; crc_en : bool; coding_rate : Z; rx_rate_sf : Z;
  modem_id : Z; frequency_offset_error : Z; rx_payload : list Z; payload_crc_error : bool;
  sync_error : bool; header_error : bool; timing_set : bool; snr_average : Z;
  rssi_chan_avg : Z; rssi_signal_avg : Z; timestamp_cnt : Z; rx_crc16_value : Z;
  num_ts_metrics_stored : Z; timestamp_avg : list Z; timestamp_stddev : list Z }.

Record rx_buffer_s := RxBuffer {
  buffer : list Z; buffer_size : Z; buffer_index : Z; buffer_pkt_nb : Z }.

(** ** The code *)

Definition rx_buffer_new : rx_buffer_s := RxBuffer (replicate (Z.to_nat 4096) 0) 0 0 0.

Definition rx_buffer_del (self : rx_buffer_s) : rx_buffer_s := RxBuffer (buffer self) 0 0 0.

(** A bit field of a packet: [n] bits from bit [p] of the byte [off] behind
    [start]. *)
Definition pkt_bits (b : list Z) (start off p n : Z) : outcome Z :=
  x ← buf_get b (start + off); Ret (TAKE_N_BITS_FROM x p n).

Definition SX1302_PKT_PAYLOAD_LENGTH b i := pkt_bits b i 2 0 8.
Definition SX1302_PKT_CHANNEL b i := pkt_bits b i 3 0 8.
Definition SX1302_PKT_CRC_EN b i := pkt_bits b i 4 0 1.
Definition SX1302_PKT_CODING_RATE b i := pkt_bits b i 4 1 3.
Definition SX1302_PKT_DATARATE b i := pkt_bits b i 4 4 4.
Definition SX1302_PKT_MODEM_ID b i := pkt_bits b i 5 0 8.
Definition SX1302_PKT_FREQ_OFFSET_7_0 b i := pkt_bits b i 6 0 8.
Definition SX1302_PKT_FREQ_OFFSET_15_8 b i := pkt_bits b i 7 0 8.
Definition SX1302_PKT_FREQ_OFFSET_19_16 b i := pkt_bits b i 8 0 4.
Definition SX1302_PKT_CRC_ERROR b i := pkt_bits b i 9 0 1.
Definition SX1302_PKT_SYNC_ERROR b i := pkt_bits b i 9 2 1.
Definition SX1302_PKT_HEADER_ERROR b i := pkt_bits b i 9 3 1.
Definition SX1302_PKT_TIMING_SET b i := pkt_bits b i 9 4 1.
Definition SX1302_PKT_SNR_AVG b i := pkt_bits b i 10 0 8.
Definition SX1302_PKT_RSSI_CHAN b i := pkt_bits b i 11 0 8.
Definition SX1302_PKT_RSSI_SIG b i := pkt_bits b i 12 0 8.
Definition SX1302_PKT_TIMESTAMP_7_0 b i := pkt_bits b i 15 0 8.
Definition SX1302_PKT_TIMESTAMP_15_8 b i := pkt_bits b i 16 0 8.
Definition SX1302_PKT_TIMESTAMP_23_16 b i := pkt_bits b i 17 0 8.
Definition SX1302_PKT_TIMESTAMP_31_24 b i := pkt_bits b i 18 0 8.
Definition SX1302_PKT_CRC_PAYLOAD_7_0 b i := pkt_bits b i 19 0 8.
Definition SX1302_PKT_CRC_PAYLOAD_15_8 b i := pkt_bits b i 20 0 8.
Definition SX1302_PKT_NUM_TS_METRICS b i := pkt_bits b i 21 0 8.

(** Is there a syncword at index [i]? The second byte is read only when the
    first one matches. *)
Definition syncword_at (b : list Z) (i : Z) : outcome bool :=
  x ← buf_get b i;
  if negb (x =? SX1302_PKT_SYNCWORD_BYTE_0) then Ret false
  else y ← buf_get b (i + 1); Ret (y =? SX1302_PKT_SYNCWORD_BYTE_1).

(** The search of the first syncword: the index it ends with. The remaining
    bytes bound the number of turns. *)
Fixpoint find_sync (n : nat) (b : list Z) (size idx : Z) : outcome Z :=
  match n with
  | O => Ret idx
  | S n =>
    if negb (idx <=? size - 2) then Ret idx
    else
      found ← syncword_at b idx;
      if (found : bool) then Ret idx else find_sync n b size (idx + 1)
  end.

(** The number of bytes of the packet at index [idx]. *)
Definition packet_bytes (b : list Z) (idx : Z) : outcome Z :=
  payload_len ← SX1302_PKT_PAYLOAD_LENGTH b idx;
  nts ← SX1302_PKT_NUM_TS_METRICS b (idx + payload_len);
  Ret (SX1302_PKT_HEAD_METADATA + payload_len + SX1302_PKT_TAIL_METADATA + 2 * nts).

(** The count of the packets: [None] when a packet does not start with the
    syncword. Each turn skips at least 23 bytes, so the size bounds the turns. *)
Fixpoint count_packets (n : nat) (b : list Z) (size idx pkt_nb : Z) : outcome (option Z) :=
  match n with
  | O => Ret (Some pkt_nb)
  | S n =>
    if negb (idx <? size) then Ret (Some pkt_nb)
    else
      ok ← syncword_at b idx;
      if negb (ok : bool) then Ret None
      else
        next ← packet_bytes b idx;
        count_packets n b size (idx + u16 next) (u8 (pkt_nb + 1))
  end.

(** What [rx_buffer_fetch] does with the [size] bytes it read. *)
Definition rx_buffer_sync (self : rx_buffer_s) : outcome (rx_buffer_s * Z) :=
  if buffer_size self <? SX1302_PKT_HEAD_METADATA + SX1302_PKT_TAIL_METADATA
  then Ret (rx_buffer_del self, LGW_REG_SUCCESS)
  else
    idx ← find_sync (Z.to_nat (buffer_size self)) (buffer self) (buffer_size self) 0;
    if buffer_size self - 2 <? idx then Ret (rx_buffer_del self, LGW_REG_SUCCESS)
    else
      let size := buffer_size self - idx in
      let self :=
        if negb (idx =? 0) then
          RxBuffer (take (Z.to_nat size) (drop (Z.to_nat idx) (buffer self)) ++
                    drop (Z.to_nat size) (buffer self))
                   (u16 size) (buffer_index self) (buffer_pkt_nb self)
        else self in
      nb ← count_packets (Z.to_nat (buffer_size self)) (buffer self) (buffer_size self) 0
             (buffer_pkt_nb self);
      match nb with
      | None => Ret (rx_buffer_del self, LGW_REG_SUCCESS)
      | Some nb => Ret (RxBuffer (buffer self) (buffer_size self) 0 nb, LGW_REG_SUCCESS)
      end.

Definition SX1302_REG_RX_TOP_RX_BUFFER_NB_BYTES_MSB_RX_BUFFER_NB_BYTES : Z := 720.

Section Fetch.
Context {W : Type} (spi usb : driver W).

(** [junk] is what the uninitialised local [buff] holds. The number of bytes is
    not compared with the 4096 bytes of the buffer. [None]: the memory transfer
    does not end. *)
Definition rx_buffer_fetch (s : com_state W) (self : option rx_buffer_s) (junk : list Z)
  : option (outcome (com_state W * option rx_buffer_s * Z)) :=
  match self with
  | None => Some (Ret (s, None, LGW_REG_ERROR))
  | Some self =>
    let id := SX1302_REG_RX_TOP_RX_BUFFER_NB_BYTES_MSB_RX_BUFFER_NB_BYTES in
    let '(s, (_, b1)) := lgw_reg_rb spi usb s id (Some junk) in
    let buff := default junk b1 in
    let nb_bytes_1 := u16 (Z.lor (Z.shiftl (znth 0 buff 0) 8) (Z.shiftl (znth 0 buff 1) 0)) in
    let '(s, (_, b2)) := lgw_reg_rb spi usb s id (Some buff) in
    let buff := default buff b2 in
    let nb_bytes_2 := u16 (Z.lor (Z.shiftl (znth 0 buff 0) 8) (Z.shiftl (znth 0 buff 1) 0)) in
    let size := if nb_bytes_1 <? nb_bytes_2 then nb_bytes_2 else nb_bytes_1 in
    if 0 <? size then
      if 4096 <? size then Some Undef
      else
        let zeros := replicate (Z.to_nat 4096) 0 in
        '(s, (res, got)) ← lgw_mem_rb spi usb s 0x4000 (Some (take (Z.to_nat size) zeros)) true;
        let self := RxBuffer (default [] got ++ drop (Z.to_nat size) zeros) size
                             (buffer_index self) (buffer_pkt_nb self) in
        if negb (res =? LGW_REG_SUCCESS) then Some (Ret (s, Some self, LGW_REG_ERROR))
        else Some ('(self, r) ← rx_buffer_sync self; Ret (s, Some self, r))
    else Some (Ret (s, Some (RxBuffer (buffer self) size 0 (buffer_pkt_nb self)), LGW_REG_SUCCESS))
  end.
End Fetch.

(** The sum of the first [n] bytes of the packet at [index], modulo 256. *)
Definition checksum (b : list Z) (index : Z) (n : nat) : outcome Z :=
  for_loop n 0 (λ i acc, x ← buf_get b (index + i); Ret (u8 (acc + x))) 0.

(** The fine timestamp metrics, stored in the arrays of the packet. *)
Definition ts_metrics (b : list Z) (start : Z) (n : nat) (arrays : list Z * list Z)
  : outcome (list Z * list Z) :=
  for_loop n 0 (λ i '(avg, std),
    x ← SX1302_PKT_NUM_TS_METRICS b (start + 1 + i);
    avg ← buf_set avg i (s8 x);
    std ← buf_set std i 0;
    Ret (avg, std)) arrays.

(** The sanity checks on a parsed packet. *)
Definition metadata_in_range (modem channel sf : Z) : bool :=
  if SX1302_FSK_MODEM_ID <? modem then false
  else if modem <=? SX1302_LORA_STD_MODEM_ID then
    if 9 <? channel then false else negb ((sf <? 5) || (12 <? sf))
  else true.

(** [pkt] is what the packet structure holds before the call. An error leaves
    it in a state no caller uses; the result is then [None]. *)
Definition rx_buffer_pop (self : rx_buffer_s) (pkt : rx_packet_s)
  : outcome (rx_buffer_s * Z * option rx_packet_s) :=
  let b := buffer self in
  let i := buffer_index self in
  if buffer_size self <=? i then Ret (self, LGW_REG_ERROR, None)
  else
    ok ← syncword_at b i;
    if negb ok then Ret (self, LGW_REG_ERROR, None)
    else
      len ← SX1302_PKT_PAYLOAD_LENGTH b i;
      nts ← SX1302_PKT_NUM_TS_METRICS b (i + len);
      let pkt_num_bytes :=
        u16 (SX1302_PKT_HEAD_METADATA + len + SX1302_PKT_TAIL_METADATA + 2 * nts) in
      if buffer_size self <? i + pkt_num_bytes then Ret (self, LGW_REG_WARNING, None)
      else
        let checksum_idx := u16 (pkt_num_bytes - 1) in
        checksum_rcv ← buf_get b (i + pkt_num_bytes - 1);
        checksum_calc ← checksum b i (Z.to_nat checksum_idx);
        if negb (checksum_rcv =? checksum_calc) then Ret (self, LGW_REG_WARNING, None)
        else
          modem ← SX1302_PKT_MODEM_ID b i;
          chan ← SX1302_PKT_CHANNEL b i;
          crce ← SX1302_PKT_CRC_EN b i;
          perr ← SX1302_PKT_CRC_ERROR b (i + len);
          serr ← SX1302_PKT_SYNC_ERROR b (i + len);
          herr ← SX1302_PKT_HEADER_ERROR b (i + len);
          tset ← SX1302_PKT_TIMING_SET b (i + len);
          cr ← SX1302_PKT_CODING_RATE b i;
          sf ← SX1302_PKT_DATARATE b i;
          rchan ← SX1302_PKT_RSSI_CHAN b (i + len);
          rsig ← SX1302_PKT_RSSI_SIG b (i + len);
          crc0 ← SX1302_PKT_CRC_PAYLOAD_7_0 b (i + len);
          crc1 ← SX1302_PKT_CRC_PAYLOAD_15_8 b (i + len);
          let crc16 := u16 (Z.lor (Z.land crc0 0x00FF) (Z.land (Z.shiftl crc1 8) 0xFF00)) in
          snr ← SX1302_PKT_SNR_AVG b (i + len);
          f16 ← SX1302_PKT_FREQ_OFFSET_19_16 b i;
          f8 ← SX1302_PKT_FREQ_OFFSET_15_8 b i;
          f0 ← SX1302_PKT_FREQ_OFFSET_7_0 b i;
          let foff := Z.lor (Z.lor (Z.shiftl f16 16) (Z.shiftl f8 8)) (Z.shiftl f0 0) in
          let foff := if 2 ^ 19 <=? foff then foff - 2 ^ 20 else foff in
          t0 ← SX1302_PKT_TIMESTAMP_7_0 b (i + len);
          t1 ← SX1302_PKT_TIMESTAMP_15_8 b (i + len);
          t2 ← SX1302_PKT_TIMESTAMP_23_16 b (i + len);
          t3 ← SX1302_PKT_TIMESTAMP_31_24 b (i + len);
          let tcnt :=
            Z.lor (Z.lor (Z.lor (Z.land t0 0xFF) (Z.land (Z.shiftl t1 8) 0xFF00))
                         (Z.land (Z.shiftl t2 16) 0xFF0000))
                  (Z.land (Z.shiftl t3 24) 0xFF000000) in
          '(avg, std) ← ts_metrics b (i + len) (Z.to_nat (2 * nts))
                          (timestamp_avg pkt, timestamp_stddev pkt);
          if negb (metadata_in_range modem chan sf) then Ret (self, LGW_REG_ERROR, None)
          else
            let payload := take (Z.to_nat len) (drop (Z.to_nat (i + SX1302_PKT_HEAD_METADATA)) b) ++
                           drop (Z.to_nat len) (rx_payload pkt) in
            Ret (RxBuffer b (buffer_size self)
                   (i + (SX1302_PKT_HEAD_METADATA + len + SX1302_PKT_TAIL_METADATA + 2 * nts))
                   (u8 (buffer_pkt_nb self - 1)),
                 LGW_REG_SUCCESS,
                 Some {| rxbytenb_modem := len; rx_channel_in := chan; crc_en := negb (crce =? 0);
                         coding_rate := cr; rx_rate_sf := sf; modem_id := modem;
                         frequency_offset_error := foff; rx_payload := payload;
                         payload_crc_error := negb (perr =? 0); sync_error := negb (serr =? 0);
                         header_error := negb (herr =? 0); timing_set := negb (tset =? 0);
                         snr_average := s8 snr; rssi_chan_avg := rchan; rssi_signal_avg := rsig;
                         timestamp_cnt := tcnt; rx_crc16_value := crc16;
                         num_ts_metrics_stored := nts; timestamp_avg := avg;
                         timestamp_stddev := std |}).
