(* ===== verification/RxProps.v ===== *)
(** * Properties of the RX buffer

    The format of a packet in the concentrator's FIFO is written down as an
    encoder; [rx_buffer_pop] is its inverse, and [rx_buffer_fetch] finds and
    counts exactly the encoded packets. *)
From stdpp Require Import base list numbers.
From Stdlib Require Import ZArith Lia.
From S2P Require Import Prelude Com Reg RxBuffer.

Open Scope Z_scope.

(** ** The format *)

(** A packet as the hardware delivers it; [d13] and [d14] are the two bytes of
    RSSI deltas the driver ignores. *)
Definition head (p : rx_packet_s) : list Z :=
  [SX1302_PKT_SYNCWORD_BYTE_0; SX1302_PKT_SYNCWORD_BYTE_1; rxbytenb_modem p; rx_channel_in p;
   b2z (crc_en p) + 2 * coding_rate p + 16 * rx_rate_sf p; modem_id p;
   frequency_offset_error p mod 2 ^ 8; frequency_offset_error p / 2 ^ 8 mod 2 ^ 8;
   frequency_offset_error p / 2 ^ 16 mod 2 ^ 4].
Definition tail (p : rx_packet_s) (d13 d14 : Z) : list Z :=
  [b2z (payload_crc_error p) + 4 * b2z (sync_error p) + 8 * b2z (header_error p) +
     16 * b2z (timing_set p);
   u8 (snr_average p); rssi_chan_avg p; rssi_signal_avg p; d13; d14;
   timestamp_cnt p mod 2 ^ 8; timestamp_cnt p / 2 ^ 8 mod 2 ^ 8;
   timestamp_cnt p / 2 ^ 16 mod 2 ^ 8; timestamp_cnt p / 2 ^ 24;
   rx_crc16_value p mod 2 ^ 8; rx_crc16_value p / 2 ^ 8; num_ts_metrics_stored p].
Definition body (p : rx_packet_s) (d13 d14 : Z) : list Z :=
  head p ++ rx_payload p ++ tail p d13 d14 ++ (u8 <$> timestamp_avg p).
Definition sum_bytes (l : list Z) : Z := u8 (foldr Z.add 0 l).
Definition wire (p : rx_packet_s) (d13 d14 : Z) : list Z :=
  body p d13 d14 ++ [sum_bytes (body p d13 d14)].

(** A packet the format can carry. *)
Definition packet_ok (p : rx_packet_s) : Prop :=
  rxbytenb_modem p = Z.of_nat (length (rx_payload p)) ∧ rxbytenb_modem p <= 255 ∧
  Forall (λ x, is_u8 x) (rx_payload p) ∧ is_u8 (rx_channel_in p) ∧ 0 <= coding_rate p < 8 ∧
  0 <= rx_rate_sf p < 16 ∧ is_u8 (modem_id p) ∧
  - 2 ^ 19 <= frequency_offset_error p < 2 ^ 19 ∧ - 2 ^ 7 <= snr_average p < 2 ^ 7 ∧
  is_u8 (rssi_chan_avg p) ∧ is_u8 (rssi_signal_avg p) ∧ is_u32 (timestamp_cnt p) ∧
  is_u16 (rx_crc16_value p) ∧ is_u8 (num_ts_metrics_stored p) ∧
  Z.of_nat (length (timestamp_avg p)) = 2 * num_ts_metrics_stored p ∧
  Forall (λ x, - 2 ^ 7 <= x < 2 ^ 7) (timestamp_avg p).

(** ** Bit fields and bytes *)

Lemma take_n_bits x p n :
  0 <= p → 0 <= n → TAKE_N_BITS_FROM x p n = x / 2 ^ p mod 2 ^ n.
Proof.
  intros Hp Hn. unfold TAKE_N_BITS_FROM.
  replace (Z.shiftl 1 n - 1) with (Z.ones n) by (unfold Z.ones; lia).
  rewrite Z.land_ones, shiftr_div by lia. done.
Qed.
Lemma take_byte x : is_u8 x → TAKE_N_BITS_FROM x 0 8 = x.
Proof. intros. rewrite take_n_bits, Z.div_1_r by lia. by apply Z.mod_small. Qed.
Lemma b2z_range b : 0 <= b2z b <= 1.
Proof. destruct b; cbn; lia. Qed.
Lemma b2z_neq0 b : negb (b2z b =? 0) = b.
Proof. by destruct b. Qed.

(** A field of the byte [off] behind [start], when the byte is known. *)
Lemma pkt_bits_at pre mid start off k x p n :
  start + off = Z.of_nat (length pre + k) → mid !! k = Some x →
  pkt_bits (pre ++ mid) start off p n = Ret (TAKE_N_BITS_FROM x p n).
Proof. intros H Hx. unfold pkt_bits. by rewrite (buf_get_at pre mid _ k x). Qed.

Lemma checksum_sum b index : ∀ l pre rest,
  b = pre ++ l ++ rest → index = Z.of_nat (length pre) →
  checksum b index (length l) = Ret (sum_bytes l).
Proof.
  assert (G : ∀ l pre rest acc i, b = pre ++ l ++ rest → index + i = Z.of_nat (length pre) →
    for_loop (length l) i (λ i acc, x ← buf_get b (index + i); Ret (u8 (acc + x))) (u8 acc)
    = Ret (u8 (acc + foldr Z.add 0 l))).
  { induction l as [|x l IH]; intros pre rest acc i Hb Hi; cbn [for_loop length foldr].
    - by rewrite Z.add_0_r.
    - rewrite Hb at 1. rewrite (buf_get_at pre _ _ 0 x) by (reflexivity || lia). do 2 cstep.
      assert (u8 (u8 acc + x) = u8 (acc + x)) as -> by (unfold u8; apply Zplus_mod_idemp_l).
      rewrite (IH (pre ++ [x]) rest (acc + x) (i + 1)).
      + do 2 f_equal. lia.
      + by rewrite <- app_assoc.
      + rewrite length_app. cbn. lia. }
  intros l pre rest Hb Hi. apply (G l pre rest 0 0); [done|lia].
Qed.

Lemma ts_metric b start x r pre rest i :
  b = pre ++ (u8 <$> x :: r) ++ rest → start + 22 + i = Z.of_nat (length pre) →
  SX1302_PKT_NUM_TS_METRICS b (start + 1 + i) = Ret (u8 x).
Proof.
  intros Hb Hi. unfold SX1302_PKT_NUM_TS_METRICS. rewrite Hb.
  rewrite (pkt_bits_at pre _ _ _ 0 (u8 x)) by (reflexivity || lia).
  by rewrite take_byte by apply u8_range.
Qed.

Lemma ts_metrics_ok b start : ∀ l pre rest avg std,
  b = pre ++ (u8 <$> l) ++ rest → start + 22 = Z.of_nat (length pre) →
  Forall (λ x, - 2 ^ 7 <= x < 2 ^ 7) l → (length l <= length avg)%nat → (length l <= length std)%nat →
  ts_metrics b start (length l) (avg, std)
  = Ret (l ++ drop (length l) avg, replicate (length l) 0 ++ drop (length l) std).
Proof.
  intros l. assert (G : ∀ r pre rest apre arest spre srest i,
    b = pre ++ (u8 <$> r) ++ rest → start + 22 + i = Z.of_nat (length pre) →
    Forall (λ x, - 2 ^ 7 <= x < 2 ^ 7) r → 
    i = Z.of_nat (length apre) → i = Z.of_nat (length spre) →
    (length r <= length arest)%nat → (length r <= length srest)%nat →
    for_loop (length r) i (λ i '(avg, std),
      x ← SX1302_PKT_NUM_TS_METRICS b (start + 1 + i);
      avg ← buf_set avg i (s8 x); std ← buf_set std i 0; Ret (avg, std)) (apre ++ arest, spre ++ srest)
    = Ret (apre ++ r ++ drop (length r) arest, spre ++ replicate (length r) 0 ++ drop (length r) srest)).
  { induction r as [|x r IH]; intros pre rest apre arest spre srest i Hb Hi Hr Ha Hs La Ls.
    { cbn. by rewrite !drop_0. }
    apply List.Forall_cons_iff in Hr as [Hx Hr].
    destruct arest as [|a arest]; [cbn in La; lia|]. destruct srest as [|s srest]; [cbn in Ls; lia|].
    cbn [for_loop length]. rewrite (ts_metric b start x r pre rest i Hb Hi). cstep.
    assert (s8 (u8 x) = x) as -> by cint_lia.
    rewrite (buf_set_at apre _ i 0) by (cbn; lia). cstep.
    rewrite (buf_set_at spre _ i 0) by (cbn; lia). do 2 cstep. cbn [insert list_insert].
    rewrite (cons_middle x apre arest), (cons_middle 0 spre srest), !app_assoc.
    rewrite (IH (pre ++ [u8 x]) rest); [|by rewrite <- app_assoc|rewrite length_app; cbn; lia|done|
      rewrite length_app; cbn; lia|rewrite length_app; cbn; lia|cbn in La; lia|cbn in Ls; lia].
    cbn [length replicate drop]. by rewrite <- !app_assoc. }
  intros pre rest avg std Hb Hs Hl La Ls.
  exact (G l pre rest [] avg [] std 0 Hb ltac:(lia) Hl eq_refl eq_refl La Ls).
Qed.

(** ** Words assembled from bytes *)

Lemma byte_at x n m :
  is_u8 x → 0 <= n → m = Z.shiftl 0xFF n → Z.land (Z.shiftl x n) m = x * 2 ^ n.
Proof.
  intros Hx Hn ->. rewrite <- Z.shiftl_land, land_ff, Z.mod_small, shiftl_mul by lia. done.
Qed.

(** A byte put above the [n] low bits already assembled. *)
Lemma lor_byte_above a x n : 0 <= n → 0 <= a < 2 ^ n → Z.lor a (x * 2 ^ n) = a + x * 2 ^ n.
Proof. intros Hn Ha. rewrite Z.lor_comm, lor_shl_add by lia. lia. Qed.

Lemma crc_bytes x : is_u16 x →
  u16 (Z.lor (Z.land (x mod 2 ^ 8) 0x00FF) (Z.land (Z.shiftl (x / 2 ^ 8) 8) 0xFF00)) = x.
Proof.
  intros Hx. rewrite land_ff, Z.mod_mod, (byte_at _ 8) by (reflexivity || cint_lia).
  rewrite lor_byte_above by cint_lia. cint_lia.
Qed.

Lemma timestamp_bytes x : is_u32 x →
  Z.lor (Z.lor (Z.lor (Z.land (x mod 2 ^ 8) 0xFF)
                      (Z.land (Z.shiftl (x / 2 ^ 8 mod 2 ^ 8) 8) 0xFF00))
               (Z.land (Z.shiftl (x / 2 ^ 16 mod 2 ^ 8) 16) 0xFF0000))
        (Z.land (Z.shiftl (x / 2 ^ 24) 24) 0xFF000000) = x.
Proof.
  intros Hx. rewrite land_ff, Z.mod_mod by lia.
  rewrite (byte_at _ 8), (byte_at _ 16), (byte_at _ 24) by (reflexivity || cint_lia).
  rewrite (lor_byte_above _ _ 8), (lor_byte_above _ _ 16), (lor_byte_above _ _ 24) by cint_lia.
  cint_lia.
Qed.

Lemma freq_bytes x : - 2 ^ 19 <= x < 2 ^ 19 →
  let f := Z.lor (Z.lor (Z.shiftl (x / 2 ^ 16 mod 2 ^ 4) 16) (Z.shiftl (x / 2 ^ 8 mod 2 ^ 8) 8))
                 (Z.shiftl (x mod 2 ^ 8) 0) in
  (if 2 ^ 19 <=? f then f - 2 ^ 20 else f) = x.
Proof.
  intros Hx f. assert (f = x mod 2 ^ 20) as ->.
  { subst f. rewrite !shiftl_mul, Z.mul_1_r by lia.
    rewrite lor_shl_add by cint_lia.
    replace (_ * 2 ^ 16 + _ * 2 ^ 8) with
      ((x / 2 ^ 16 mod 2 ^ 4 * 2 ^ 8 + x / 2 ^ 8 mod 2 ^ 8) * 2 ^ 8) by lia.
    rewrite lor_shl_add by cint_lia. cint_lia. }
  destruct (2 ^ 19 <=? x mod 2 ^ 20) eqn:E; [apply Z.leb_le in E|apply Z.leb_gt in E]; cint_lia.
Qed.

(** ** Reading one encoded packet *)

Definition wire_len (p : rx_packet_s) : Z :=
  9 + rxbytenb_modem p + 14 + 2 * num_ts_metrics_stored p.

Lemma wire_length p d13 d14 : packet_ok p → Z.of_nat (length (wire p d13 d14)) = wire_len p.
Proof.
  intros (Hl & _ & _ & _ & _ & _ & _ & _ & _ & _ & _ & _ & _ & _ & Ht & _).
  unfold wire, body, wire_len. rewrite !length_app, length_fmap. cbn [head tail length]. lia.
Qed.

Section OnePacket.
Context (p : rx_packet_s) (d13 d14 : Z) (pre rest b : list Z) (i : Z).
Hypothesis (Hp : packet_ok p).
Hypothesis (Hb : b = pre ++ wire p d13 d14 ++ rest).
Hypothesis (Hi : i = Z.of_nat (length pre)).

Lemma head_bits k x off q n :
  off = Z.of_nat k → head p !! k = Some x → pkt_bits b i off q n = Ret (TAKE_N_BITS_FROM x q n).
Proof.
  intros -> Hk. rewrite Hb. apply (pkt_bits_at pre _ _ _ k); [lia|].
  unfold wire, body. rewrite <- !app_assoc. rewrite lookup_app_l; [done|].
  by eapply lookup_lt_Some.
Qed.
Lemma tail_bits k x off q n :
  off = 9 + Z.of_nat k → tail p d13 d14 !! k = Some x →
  pkt_bits b (i + rxbytenb_modem p) off q n = Ret (TAKE_N_BITS_FROM x q n).
Proof.
  intros -> Hk. assert (Hl := proj1 Hp).
  replace b with ((pre ++ head p ++ rx_payload p) ++
    (tail p d13 d14 ++ (u8 <$> timestamp_avg p) ++ [sum_bytes (body p d13 d14)] ++ rest))
    by (rewrite Hb; unfold wire, body; by rewrite <- !app_assoc).
  apply (pkt_bits_at _ _ _ _ k).
  - rewrite !length_app. cbn [head length]. lia.
  - rewrite lookup_app_l; [done|]. by eapply lookup_lt_Some.
Qed.

Lemma wire_sync : syncword_at b i = Ret true.
Proof.
  unfold syncword_at. rewrite Hb.
  rewrite (buf_get_at pre _ i 0 SX1302_PKT_SYNCWORD_BYTE_0) by (reflexivity || lia). cstep.
  rewrite (buf_get_at pre _ (i + 1) 1 SX1302_PKT_SYNCWORD_BYTE_1) by (reflexivity || lia). done.
Qed.
Lemma wire_payload_length : SX1302_PKT_PAYLOAD_LENGTH b i = Ret (rxbytenb_modem p).
Proof.
  unfold SX1302_PKT_PAYLOAD_LENGTH. rewrite (head_bits 2 (rxbytenb_modem p)) by done.
  rewrite take_byte; [done|]. destruct Hp as (? & ? & _). lia.
Qed.
Lemma wire_nts :
  SX1302_PKT_NUM_TS_METRICS b (i + rxbytenb_modem p) = Ret (num_ts_metrics_stored p).
Proof.
  unfold SX1302_PKT_NUM_TS_METRICS. rewrite (tail_bits 12 (num_ts_metrics_stored p)) by done.
  rewrite take_byte; [done|]. unfold packet_ok in Hp. lia.
Qed.
Lemma wire_packet_bytes : packet_bytes b i = Ret (wire_len p).
Proof. unfold packet_bytes. rewrite wire_payload_length. cstep. by rewrite wire_nts. Qed.

Lemma wire_checksum :
  buf_get b (i + wire_len p - 1) = Ret (sum_bytes (body p d13 d14)) ∧
  checksum b i (Z.to_nat (wire_len p - 1)) = Ret (sum_bytes (body p d13 d14)).
Proof.
  pose proof (wire_length p d13 d14 Hp) as Hl. unfold wire in Hl. rewrite length_app in Hl.
  cbn [length] in Hl. split.
  - rewrite Hb. apply (buf_get_at _ _ _ (length (body p d13 d14))); [lia|].
    unfold wire. rewrite <- app_assoc, lookup_app_r, Nat.sub_diag by lia. done.
  - replace (Z.to_nat _) with (length (body p d13 d14)) by lia.
    apply (checksum_sum _ _ _ pre ([sum_bytes (body p d13 d14)] ++ rest)); [|done].
    rewrite Hb. unfold wire. by rewrite <- !app_assoc.
Qed.
Lemma wire_ts_metrics avg std :
  (length (timestamp_avg p) <= length avg)%nat → (length (timestamp_avg p) <= length std)%nat →
  ts_metrics b (i + rxbytenb_modem p) (Z.to_nat (2 * num_ts_metrics_stored p)) (avg, std)
  = Ret (timestamp_avg p ++ drop (length (timestamp_avg p)) avg,
         replicate (length (timestamp_avg p)) 0 ++ drop (length (timestamp_avg p)) std).
Proof.
  intros Ha Hs. destruct Hp as (Hl & _ & _ & _ & _ & _ & _ & _ & _ & _ & _ & _ & _ & Hn & Ht & Hr).
  replace (Z.to_nat _) with (length (timestamp_avg p)) by lia.
  apply (ts_metrics_ok _ _ _ (pre ++ head p ++ rx_payload p ++ tail p d13 d14)
    ([sum_bytes (body p d13 d14)] ++ rest)); [| |done|lia|lia].
  - rewrite Hb. unfold wire, body. by rewrite <- !app_assoc.
  - rewrite !length_app. cbn [head tail length]. lia.
Qed.
Lemma wire_payload :
  take (Z.to_nat (rxbytenb_modem p)) (drop (Z.to_nat (i + SX1302_PKT_HEAD_METADATA)) b) = rx_payload p.
Proof.
  assert (Hl := proj1 Hp).
  replace b with ((pre ++ head p) ++ rx_payload p ++
    (tail p d13 d14 ++ (u8 <$> timestamp_avg p) ++ [sum_bytes (body p d13 d14)] ++ rest))
    by (rewrite Hb; unfold wire, body; by rewrite <- !app_assoc).
  rewrite drop_app_length' by (unfold SX1302_PKT_HEAD_METADATA; rewrite length_app; cbn [head length]; lia).
  by apply take_app_length'; lia.
Qed.

(** The packet as the caller gets it: the payload and the metrics at the start
    of the arrays of its packet structure, the rest of them as it was. *)
Definition stored_with (avg std : list Z) (pkt : rx_packet_s) : rx_packet_s :=
  {| rxbytenb_modem := rxbytenb_modem p; rx_channel_in := rx_channel_in p; crc_en := crc_en p;
     coding_rate := coding_rate p; rx_rate_sf := rx_rate_sf p; modem_id := modem_id p;
     frequency_offset_error := frequency_offset_error p;
     rx_payload := rx_payload p ++ drop (Z.to_nat (rxbytenb_modem p)) (rx_payload pkt);
     payload_crc_error := payload_crc_error p; sync_error := sync_error p;
     header_error := header_error p; timing_set := timing_set p; snr_average := snr_average p;
     rssi_chan_avg := rssi_chan_avg p; rssi_signal_avg := rssi_signal_avg p;
     timestamp_cnt := timestamp_cnt p; rx_crc16_value := rx_crc16_value p;
     num_ts_metrics_stored := num_ts_metrics_stored p;
     timestamp_avg := avg; timestamp_stddev := std |}.
Definition stored (pkt : rx_packet_s) : rx_packet_s :=
  stored_with (timestamp_avg p ++ drop (length (timestamp_avg p)) (timestamp_avg pkt))
    (replicate (length (timestamp_avg p)) 0 ++
     drop (length (timestamp_avg p)) (timestamp_stddev pkt)) pkt.

Lemma head_flags :
  let x := b2z (crc_en p) + 2 * coding_rate p + 16 * rx_rate_sf p in
  TAKE_N_BITS_FROM x 0 1 = b2z (crc_en p) ∧ TAKE_N_BITS_FROM x 1 3 = coding_rate p ∧
  TAKE_N_BITS_FROM x 4 4 = rx_rate_sf p.
Proof.
  destruct Hp as (_ & _ & _ & _ & Hc & Hs & _). pose proof (b2z_range (crc_en p)).
  cbv zeta. generalize dependent (b2z (crc_en p)). intros c Hr.
  rewrite !take_n_bits by lia. split_and_all; cint_lia.
Qed.
Lemma tail_flags :
  let x := b2z (payload_crc_error p) + 4 * b2z (sync_error p) + 8 * b2z (header_error p) +
           16 * b2z (timing_set p) in
  TAKE_N_BITS_FROM x 0 1 = b2z (payload_crc_error p) ∧ TAKE_N_BITS_FROM x 2 1 = b2z (sync_error p) ∧
  TAKE_N_BITS_FROM x 3 1 = b2z (header_error p) ∧ TAKE_N_BITS_FROM x 4 1 = b2z (timing_set p).
Proof. by destruct (payload_crc_error p), (sync_error p), (header_error p), (timing_set p). Qed.
Lemma take_mod_byte x : TAKE_N_BITS_FROM (x mod 2 ^ 8) 0 8 = x mod 2 ^ 8.
Proof. apply take_byte. by apply Z.mod_pos_bound. Qed.

(** The next field, [n] bits from bit [q] of the byte [off] of the head or the tail. *)
Ltac head_field off q n := erewrite (head_bits (Z.to_nat off) _ off q n) by reflexivity; cstep.
Ltac tail_field off q n := erewrite (tail_bits (Z.to_nat (off - 9)) _ off q n) by reflexivity; cstep.
(** All that [rx_buffer_pop] does before it stores the metrics, and what it
    does after. *)
Lemma pop_wire_metrics self pkt :
  buffer self = b → buffer_index self = i → i + wire_len p <= buffer_size self →
  rx_buffer_pop self pkt =
    ('(avg, std) ← ts_metrics b (i + rxbytenb_modem p) (Z.to_nat (2 * num_ts_metrics_stored p))
                     (timestamp_avg pkt, timestamp_stddev pkt);
     if negb (metadata_in_range (modem_id p) (rx_channel_in p) (rx_rate_sf p))
     then Ret (self, LGW_REG_ERROR, None)
     else Ret (RxBuffer b (buffer_size self) (i + wire_len p) (u8 (buffer_pkt_nb self - 1)),
               LGW_REG_SUCCESS, Some (stored_with avg std pkt))).
Proof.
  intros Eb Ei Hsz. unfold rx_buffer_pop. rewrite Eb, Ei.
  pose proof Hp as (Hl & Hl2 & Hpl & Hch & Hcr & Hsf & Hmo & Hfr & Hsn & Hrc & Hrs & Htc & Hcrc & Hn &
    Hts & Htr).
  destruct head_flags as (F1 & F2 & F3), tail_flags as (G1 & G2 & G3 & G4).
  assert (Hw : wire_len p = 9 + rxbytenb_modem p + 14 + 2 * num_ts_metrics_stored p) by done.
  rewrite (proj2 (Z.leb_gt _ _)) by lia. rewrite wire_sync. cstep.
  rewrite wire_payload_length. cstep. rewrite wire_nts. cstep.
  change (SX1302_PKT_HEAD_METADATA + rxbytenb_modem p + SX1302_PKT_TAIL_METADATA +
    2 * num_ts_metrics_stored p) with (wire_len p).
  rewrite (u16_id (wire_len p)), (u16_id (wire_len p - 1)) by lia.
  rewrite (proj2 (Z.ltb_ge _ _)) by lia. destruct wire_checksum as [-> ->]. do 2 cstep.
  rewrite Z.eqb_refl. cbn [negb].
  unfold SX1302_PKT_MODEM_ID, SX1302_PKT_CHANNEL, SX1302_PKT_CRC_EN, SX1302_PKT_CRC_ERROR,
    SX1302_PKT_SYNC_ERROR, SX1302_PKT_HEADER_ERROR, SX1302_PKT_TIMING_SET, SX1302_PKT_CODING_RATE,
    SX1302_PKT_DATARATE, SX1302_PKT_RSSI_CHAN, SX1302_PKT_RSSI_SIG, SX1302_PKT_CRC_PAYLOAD_7_0,
    SX1302_PKT_CRC_PAYLOAD_15_8, SX1302_PKT_SNR_AVG, SX1302_PKT_FREQ_OFFSET_19_16,
    SX1302_PKT_FREQ_OFFSET_15_8, SX1302_PKT_FREQ_OFFSET_7_0, SX1302_PKT_TIMESTAMP_7_0,
    SX1302_PKT_TIMESTAMP_15_8, SX1302_PKT_TIMESTAMP_23_16, SX1302_PKT_TIMESTAMP_31_24.
  head_field 5 0 8. head_field 3 0 8. head_field 4 0 1. tail_field 9 0 1.
  tail_field 9 2 1. tail_field 9 3 1. tail_field 9 4 1. head_field 4 1 3.
  head_field 4 4 4. tail_field 11 0 8. tail_field 12 0 8. tail_field 19 0 8.
  tail_field 20 0 8. tail_field 10 0 8. head_field 8 0 4. head_field 7 0 8.
  head_field 6 0 8. tail_field 15 0 8. tail_field 16 0 8. tail_field 17 0 8.
  tail_field 18 0 8.
  rewrite F1, F2, F3, G1, G2, G3, G4, !b2z_neq0.
  rewrite !take_mod_byte, !take_byte by (done || cint_lia).
  rewrite (take_n_bits _ 0 4), Z.div_1_r, Z.mod_mod by lia.
  rewrite crc_bytes, timestamp_bytes, freq_bytes, wire_payload by done.
  by assert (s8 (u8 (snr_average p)) = snr_average p) as -> by cint_lia.
Qed.

Lemma pop_wire self pkt :
  metadata_in_range (modem_id p) (rx_channel_in p) (rx_rate_sf p) = true →
  buffer self = b → buffer_index self = i → i + wire_len p <= buffer_size self →
  (length (timestamp_avg p) <= length (timestamp_avg pkt))%nat →
  (length (timestamp_avg p) <= length (timestamp_stddev pkt))%nat →
  rx_buffer_pop self pkt =
    Ret (RxBuffer b (buffer_size self) (i + wire_len p) (u8 (buffer_pkt_nb self - 1)),
         LGW_REG_SUCCESS, Some (stored pkt)).
Proof.
  intros Hm Eb Ei Hsz Ha Hs. rewrite (pop_wire_metrics self pkt Eb Ei Hsz).
  rewrite wire_ts_metrics by done. cstep. by rewrite Hm.
Qed.
End OnePacket.

(** ** A buffer of encoded packets *)

(** A received packet: its fields, and the two bytes the driver ignores. *)
Definition received : Type := rx_packet_s * (Z * Z).
Definition wire_of (r : received) : list Z := wire r.1 r.2.1 r.2.2.
Definition wires (rs : list received) : list Z := rs ≫= wire_of.
Definition wires_len (rs : list received) : Z := foldr (λ r n, wire_len r.1 + n) 0 rs.
Definition all_ok (rs : list received) : Prop := Forall (λ r : received, packet_ok r.1) rs.

Lemma wires_length rs : all_ok rs → Z.of_nat (length (wires rs)) = wires_len rs.
Proof.
  induction 1 as [|r rs Hr _ IH]; [done|]. unfold wires in *. cbn [mbind list_bind wires_len foldr].
  rewrite length_app, Nat2Z.inj_add, IH. unfold wire_of. by rewrite wire_length.
Qed.
Lemma wire_len_pos p : packet_ok p → 23 <= wire_len p <= 788.
Proof. unfold packet_ok, wire_len. lia. Qed.
Lemma wires_len_cons r rs : wires_len (r :: rs) = wire_len r.1 + wires_len rs.
Proof. done. Qed.
Lemma wires_len_nonneg rs : all_ok rs → 0 <= wires_len rs.
Proof.
  induction 1 as [|r rs Hr _ IH]; [done|]. rewrite wires_len_cons. pose proof (wire_len_pos _ Hr). lia.
Qed.

Lemma count_packets_wires : ∀ rs n b pre rest size nb,
  all_ok rs → b = pre ++ wires rs ++ rest → size = Z.of_nat (length pre) + wires_len rs →
  wires_len rs <= Z.of_nat n →
  count_packets n b size (Z.of_nat (length pre)) (u8 nb)
  = Ret (Some (u8 (nb + Z.of_nat (length rs)))).
Proof.
  induction rs as [|r rs IH]; intros n b pre rest size nb Hok Hb Hs Hn.
  { cbn [wires_len foldr length] in *. rewrite Z.add_0_r.
    destruct n; [done|]. cbn [count_packets]. by rewrite (proj2 (Z.ltb_ge _ _)) by lia. }
  apply List.Forall_cons_iff in Hok as [Hr Hok]. rewrite wires_len_cons in *.
  pose proof (wire_len_pos _ Hr). pose proof (wires_len_nonneg _ Hok).
  assert (Hb' : b = pre ++ wire r.1 r.2.1 r.2.2 ++ (wires rs ++ rest)).
  { rewrite Hb. unfold wires. cbn [mbind list_bind]. by rewrite <- app_assoc. }
  destruct n as [|n]; [lia|]. cbn [count_packets].
  rewrite (proj2 (Z.ltb_lt _ _)) by lia. cbn [negb].
  rewrite (wire_sync _ _ _ _ _ _ _ Hb' eq_refl). cstep. cbn [negb].
  rewrite (wire_packet_bytes _ _ _ _ _ _ _ Hr Hb' eq_refl). cstep.
  rewrite u16_id by lia.
  assert (Z.of_nat (length pre) + wire_len r.1 = Z.of_nat (length (pre ++ wire_of r))) as ->.
  { rewrite length_app, Nat2Z.inj_add. unfold wire_of. by rewrite wire_length. }
  assert (u8 (u8 nb + 1) = u8 (nb + 1)) as -> by (unfold u8; apply Zplus_mod_idemp_l).
  rewrite (IH n b (pre ++ wire_of r) rest size (nb + 1)); [|done| | |lia].
  - do 3 f_equal. cbn [length]. lia.
  - rewrite Hb'. unfold wire_of. by rewrite <- !app_assoc.
  - rewrite length_app, Nat2Z.inj_add. unfold wire_of. rewrite wire_length by done. lia.
Qed.

Lemma count_packets_all rs n b rest size nb :
  all_ok rs → b = wires rs ++ rest → size = wires_len rs → wires_len rs <= Z.of_nat n → is_u8 nb →
  count_packets n b size 0 nb = Ret (Some (u8 (nb + Z.of_nat (length rs)))).
Proof.
  intros Hok Hb Hs Hn Hnb. rewrite <- (u8_id nb) at 1 by done.
  by apply (count_packets_wires rs n b [] rest).
Qed.

(** The search skips bytes that are not the first byte of the syncword. *)
Lemma find_sync_garbage : ∀ g n b pre rest size,
  SX1302_PKT_SYNCWORD_BYTE_0 ∉ g → b = pre ++ g ++ rest →
  syncword_at b (Z.of_nat (length (pre ++ g))) = Ret true →
  Z.of_nat (length (pre ++ g)) <= size - 2 → (length g < n)%nat →
  find_sync n b size (Z.of_nat (length pre)) = Ret (Z.of_nat (length (pre ++ g))).
Proof.
  induction g as [|x g IH]; intros n b pre rest size Hg Hb Hs Hsz Hn.
  - rewrite app_nil_r in *. destruct n; [lia|]. cbn [find_sync].
    rewrite (proj2 (Z.leb_le _ _)) by done. cbn [negb]. by rewrite Hs.
  - apply not_elem_of_cons in Hg as [Hx Hg]. rewrite length_app in Hsz. cbn [length] in *.
    destruct n as [|n]; [lia|]. cbn [find_sync]. rewrite (proj2 (Z.leb_le _ _)) by lia. cbn [negb].
    unfold syncword_at at 1. rewrite Hb at 1.
    rewrite (buf_get_at pre _ _ 0 x) by (reflexivity || lia). cstep.
    rewrite (proj2 (Z.eqb_neq _ _)) by done. cbn [negb]. cstep.
    replace (Z.of_nat (length pre) + 1) with (Z.of_nat (length (pre ++ [x])))
      by (rewrite length_app; cbn; lia).
    rewrite (cons_middle x pre g), app_assoc in *.
    apply (IH n b (pre ++ [x]) rest); try done; [|rewrite !length_app in *; cbn in *; lia|lia].
    rewrite Hb. by rewrite <- !app_assoc.
Qed.

Lemma wires_nonempty_sync rs b pre rest :
  all_ok rs → rs ≠ [] → b = pre ++ wires rs ++ rest →
  syncword_at b (Z.of_nat (length pre)) = Ret true ∧ 23 <= wires_len rs.
Proof.
  intros Hok Hne Hb. destruct rs as [|r rs]; [done|].
  apply List.Forall_cons_iff in Hok as [Hr Hok]. rewrite wires_len_cons.
  pose proof (wire_len_pos _ Hr). pose proof (wires_len_nonneg _ Hok). split; [|lia].
  apply (wire_sync r.1 r.2.1 r.2.2 pre (wires rs ++ rest)); [|done].
  rewrite Hb. unfold wires. cbn [mbind list_bind]. by rewrite <- app_assoc.
Qed.

Lemma sync_wires self g rs rest :
  all_ok rs → rs ≠ [] → SX1302_PKT_SYNCWORD_BYTE_0 ∉ g →
  buffer self = g ++ wires rs ++ rest →
  buffer_size self = Z.of_nat (length g) + wires_len rs → is_u16 (buffer_size self) →
  is_u8 (buffer_pkt_nb self) →
  ∃ rest', rx_buffer_sync self =
    Ret (RxBuffer (wires rs ++ rest') (wires_len rs) 0
           (u8 (buffer_pkt_nb self + Z.of_nat (length rs))), LGW_REG_SUCCESS).
Proof.
  intros Hok Hne Hg Hb Hs Hu Hnb.
  destruct (wires_nonempty_sync rs _ g rest Hok Hne Hb) as [Hsy Hmin].
  unfold rx_buffer_sync.
  rewrite (proj2 (Z.ltb_ge _ _)) by (unfold SX1302_PKT_HEAD_METADATA, SX1302_PKT_TAIL_METADATA; lia).
  rewrite (find_sync_garbage g _ _ [] (wires rs ++ rest)) by (done || cbn [app]; lia). cstep.
  cbn [app]. rewrite (proj2 (Z.ltb_ge _ _)) by lia.
  replace (buffer_size self - Z.of_nat (length g)) with (wires_len rs) by lia.
  destruct (decide (g = [])) as [->|Hg0].
  - exists rest. change (negb (Z.of_nat (length (@nil Z)) =? 0)) with false. cbn [app length] in *. cbv iota.
    rewrite (count_packets_all rs _ _ rest) by (done || lia). cstep.
    do 3 f_equal; [done|lia].
  - exists (drop (Z.to_nat (wires_len rs)) (buffer self)).
    assert (length g ≠ 0%nat) by (by destruct g). rewrite (proj2 (Z.eqb_neq _ _)) by lia.
    cbn [negb buffer buffer_size buffer_pkt_nb]. rewrite Nat2Z.id, u16_id by lia.
    pose proof (wires_length rs Hok).
    set (t := drop (Z.to_nat (wires_len rs)) (buffer self)).
    rewrite Hb, drop_app_length, take_app_length' by lia.
    by rewrite (count_packets_all rs _ _ t) by (done || lia).
Qed.

(** Successive calls of [rx_buffer_pop], each with its own packet structure:
    the packets they return, until one fails. *)
Fixpoint pops (pkts : list rx_packet_s) (self : rx_buffer_s)
  : outcome (rx_buffer_s * list rx_packet_s) :=
  match pkts with
  | [] => Ret (self, [])
  | pkt :: pkts =>
    '(self, _, p) ← rx_buffer_pop self pkt;
    match p with
    | None => Ret (self, [])
    | Some p => '(self, ps) ← pops pkts self; Ret (self, p :: ps)
    end
  end.

Definition in_range (r : received) : Prop :=
  metadata_in_range (modem_id r.1) (rx_channel_in r.1) (rx_rate_sf r.1) = true ∧
  num_ts_metrics_stored r.1 <= 127.
(** The arrays of the packet structure as they are declared. *)
Definition roomy (pkt : rx_packet_s) : Prop :=
  length (timestamp_avg pkt) = 255%nat ∧ length (timestamp_stddev pkt) = 255%nat.

Lemma pops_wires : ∀ rs pkts b pre rest size nb,
  all_ok rs → Forall in_range rs → Forall roomy pkts → length pkts = length rs →
  b = pre ++ wires rs ++ rest → Z.of_nat (length pre) + wires_len rs <= size →
  pops pkts (RxBuffer b size (Z.of_nat (length pre)) (u8 nb)) =
  Ret (RxBuffer b size (Z.of_nat (length pre) + wires_len rs) (u8 (nb - Z.of_nat (length rs))),
       zip_with (λ r, stored r.1) rs pkts).
Proof.
  induction rs as [|r rs IH]; intros [|pkt pkts] b pre rest size nb Hok Hin Hro Hl Hb Hs; try done.
  { cbn. by rewrite Z.add_0_r, Z.sub_0_r. }
  apply List.Forall_cons_iff in Hok as [Hr Hok], Hin as [[Hm Hn] Hin], Hro as [[Ra Rs] Hro].
  rewrite wires_len_cons in *. pose proof (wires_len_nonneg _ Hok).
  assert (Hb' : b = pre ++ wire r.1 r.2.1 r.2.2 ++ (wires rs ++ rest)).
  { rewrite Hb. unfold wires. cbn [mbind list_bind]. by rewrite <- app_assoc. }
  assert (Z.of_nat (length (timestamp_avg r.1)) = 2 * num_ts_metrics_stored r.1)
    by (unfold packet_ok in Hr; lia).
  cbn [pops]. rewrite (pop_wire _ _ _ _ _ b _ Hr Hb' eq_refl) by
    (done || cbn [buffer_index buffer_size]; lia).
  cstep. cbn [buffer_size buffer_pkt_nb].
  assert (Z.of_nat (length pre) + wire_len r.1 = Z.of_nat (length (pre ++ wire_of r))) as E.
  { rewrite length_app, Nat2Z.inj_add. unfold wire_of. by rewrite wire_length. }
  rewrite E. assert (u8 (u8 nb - 1) = u8 (nb - 1)) as -> by (unfold u8; apply Zminus_mod_idemp_l).
  rewrite (IH pkts b (pre ++ wire_of r) rest); [|done..|cbn in Hl; lia| |lia].
  - cstep. cbn [zip_with length]. rewrite <- E, <- Z.add_assoc.
    by replace (nb - 1 - Z.of_nat (length rs)) with (nb - Z.of_nat (S (length rs))) by lia.
  - rewrite Hb'. unfold wire_of. by rewrite <- !app_assoc.
Qed.

(** C10. Reception: a FIFO content that consists of bytes that are not the
    first byte of the syncword followed by encoded packets (metadata in range,
    at most 127 pairs of metrics) is synchronised, the packets are counted, and popping them returns exactly
    these packets in their order, one per call, with their payload, metadata,
    timestamps and metrics; then the buffer is empty again: the count is what
    it was and a further pop returns LGW_REG_ERROR without changing the
    buffer. *)
Theorem rx_fetch_pop_roundtrip self g rs rest pkts :
  all_ok rs → Forall in_range rs → rs ≠ [] → SX1302_PKT_SYNCWORD_BYTE_0 ∉ g →
  buffer self = g ++ wires rs ++ rest →
  buffer_size self = Z.of_nat (length g) + wires_len rs → is_u16 (buffer_size self) →
  is_u8 (buffer_pkt_nb self) → Forall roomy pkts → length pkts = length rs →
  ∃ self' self'', rx_buffer_sync self = Ret (self', LGW_REG_SUCCESS) ∧
    buffer_pkt_nb self' = u8 (buffer_pkt_nb self + Z.of_nat (length rs)) ∧
    pops pkts self' = Ret (self'', zip_with (λ r, stored r.1) rs pkts) ∧
    buffer_pkt_nb self'' = buffer_pkt_nb self ∧
    ∀ pkt, rx_buffer_pop self'' pkt = Ret (self'', LGW_REG_ERROR, None).
Proof.
  intros Hok Hin Hne Hg Hb Hs Hu Hnb Hro Hl.
  destruct (sync_wires self g rs rest Hok Hne Hg Hb Hs Hu Hnb) as [rest' E].
  eexists _, _. split_and_all; [exact E|done| | |].
  - by apply (pops_wires rs pkts _ [] rest').
  - cbn [buffer_pkt_nb]. cint_lia.
  - intros pkt. unfold rx_buffer_pop. cbn [buffer_size buffer_index length].
    by rewrite (proj2 (Z.leb_le _ _)) by lia.
Qed.

Definition demo_packet : rx_packet_s :=
  {| rxbytenb_modem := 3; rx_channel_in := 2; crc_en := true; coding_rate := 1; rx_rate_sf := 7;
     modem_id := 4; frequency_offset_error := -1234; rx_payload := [0x40; 0xA5; 0xC0];
     payload_crc_error := false; sync_error := false; header_error := false; timing_set := true;
     snr_average := -5; rssi_chan_avg := 130; rssi_signal_avg := 128; timestamp_cnt := 0xFEDCBA98;
     rx_crc16_value := 0xBEEF; num_ts_metrics_stored := 1; timestamp_avg := [-3; 4];
     timestamp_stddev := [0; 0] |}.
Definition blank_packet : rx_packet_s :=
  {| rxbytenb_modem := 0; rx_channel_in := 0; crc_en := false; coding_rate := 0; rx_rate_sf := 0;
     modem_id := 0; frequency_offset_error := 0; rx_payload := replicate 255 0;
     payload_crc_error := false; sync_error := false; header_error := false; timing_set := false;
     snr_average := 0; rssi_chan_avg := 0; rssi_signal_avg := 0; timestamp_cnt := 0;
     rx_crc16_value := 0; num_ts_metrics_stored := 0; timestamp_avg := replicate 255 0;
     timestamp_stddev := replicate 255 0 |}.
Lemma demo_packet_ok : packet_ok demo_packet.
Proof. unfold packet_ok. cbn. split_and_all; try lia; repeat constructor; lia. Qed.

Lemma rx_fetch_pop_roundtrip_witness :
  let rs := [(demo_packet, (0, 0)); (demo_packet, (7, 9))] in
  let b := [1; 2] ++ wires rs ++ [0; 0; 0] in
  ∃ self' self'', rx_buffer_sync (RxBuffer b 58 0 0) = Ret (self', LGW_REG_SUCCESS) ∧
    buffer_pkt_nb self' = u8 (0 + 2) ∧
    pops [blank_packet; blank_packet] self' =
      Ret (self'', [stored demo_packet blank_packet; stored demo_packet blank_packet]) ∧
    buffer_pkt_nb self'' = 0 ∧
    ∀ pkt, rx_buffer_pop self'' pkt = Ret (self'', LGW_REG_ERROR, None).
Proof.
  pose proof demo_packet_ok as Hd. intros rs b.
  apply (rx_fetch_pop_roundtrip (RxBuffer b 58 0 0) [1; 2] rs [0; 0; 0] [blank_packet; blank_packet]);
    try done.
  - by repeat constructor.
  - by repeat constructor.
  - by apply (bool_decide_eq_true_1 (SX1302_PKT_SYNCWORD_BYTE_0 ∉ [1; 2])).
  - by repeat constructor.
Defined.

(** ** Corrupted packets *)

Lemma wire_lookups p d13 d14 : packet_ok p →
  wire p d13 d14 !! 0%nat = Some SX1302_PKT_SYNCWORD_BYTE_0 ∧
  wire p d13 d14 !! 1%nat = Some SX1302_PKT_SYNCWORD_BYTE_1 ∧
  wire p d13 d14 !! 2%nat = Some (rxbytenb_modem p) ∧
  wire p d13 d14 !! Z.to_nat (rxbytenb_modem p + 21) = Some (num_ts_metrics_stored p).
Proof.
  intros Hp. split_and_all; try reflexivity. unfold wire, body.
  assert (Hl := proj1 Hp). rewrite <- !app_assoc, app_assoc.
  rewrite lookup_app_r by (rewrite length_app; cbn [head length]; lia).
  rewrite length_app. cbn [head length]. replace (_ - _)%nat with 12%nat by lia. done.
Qed.

(** A packet whose last byte is not the sum of the bytes before it is not
    taken, whatever the other bytes are. *)
Lemma pop_bad_checksum self pkt pre l c rest len nts :
  buffer self = pre ++ (l ++ [c]) ++ rest → buffer_index self = Z.of_nat (length pre) →
  buffer_index self < buffer_size self → is_u8 len → is_u8 nts →
  Z.of_nat (length (l ++ [c])) = 9 + len + 14 + 2 * nts →
  (l ++ [c]) !! 0%nat = Some SX1302_PKT_SYNCWORD_BYTE_0 →
  (l ++ [c]) !! 1%nat = Some SX1302_PKT_SYNCWORD_BYTE_1 →
  (l ++ [c]) !! 2%nat = Some len → (l ++ [c]) !! Z.to_nat (len + 21) = Some nts →
  c ≠ sum_bytes l → rx_buffer_pop self pkt = Ret (self, LGW_REG_WARNING, None).
Proof.
  intros Hb Hi Hsz Hlen Hnts Hl H0 H1 H2 Hn Hc. unfold rx_buffer_pop.
  assert (Hat : ∀ k x, (l ++ [c]) !! k = Some x → ((l ++ [c]) ++ rest) !! k = Some x).
  { intros k x H. by apply lookup_app_l_Some. }
  rewrite (proj2 (Z.leb_gt _ _)) by lia. unfold syncword_at, SX1302_PKT_PAYLOAD_LENGTH,
    SX1302_PKT_NUM_TS_METRICS. rewrite Hb.
  rewrite (buf_get_at pre _ (buffer_index self) 0 SX1302_PKT_SYNCWORD_BYTE_0) by (auto || lia). cstep.
  rewrite (buf_get_at pre _ (buffer_index self + 1) 1 SX1302_PKT_SYNCWORD_BYTE_1) by (auto || lia).
  cstep. rewrite !Z.eqb_refl. cbn [negb]. cstep.
  rewrite (pkt_bits_at pre _ _ 2 2 len), take_byte by (auto || lia). cstep.
  rewrite (pkt_bits_at pre _ _ 21 (Z.to_nat (len + 21)) nts), take_byte by (auto || lia). cstep.
  unfold SX1302_PKT_HEAD_METADATA, SX1302_PKT_TAIL_METADATA. rewrite !u16_id by lia.
  destruct (buffer_size self <? _); [done|].
  rewrite length_app in Hl. cbn [length] in Hl.
  rewrite (buf_get_at pre _ _ (length l) c);
    [|lia|by rewrite <- app_assoc, lookup_app_r, Nat.sub_diag by lia]. cstep.
  replace (Z.to_nat (9 + len + 14 + 2 * nts - 1)) with (length l) by lia.
  rewrite (checksum_sum _ _ l pre ([c] ++ rest)) by (done || by rewrite <- app_assoc). cstep.
  by rewrite (proj2 (Z.eqb_neq _ _)) by done.
Qed.

Lemma foldr_add_insert (l : list Z) k x y :
  l !! k = Some x → foldr Z.add 0 (<[k := y]> l) = foldr Z.add 0 l - x + y.
Proof.
  revert k. induction l as [|z l IH]; intros [|k] H; [done..| |];
    cbn [lookup list_lookup] in H; simplify_eq.
  - cbn. lia.
  - change (<[S k := y]> (z :: l)) with (z :: <[k := y]> l). cbn [foldr]. rewrite IH by done. lia.
Qed.

(** A property of the elements of an explicit list, element by element. *)
Ltac each_byte := repeat (apply List.Forall_cons); try apply List.Forall_nil.
Lemma wire_bytes p d13 d14 : packet_ok p → is_u8 d13 → is_u8 d14 →
  Forall (λ x, is_u8 x) (wire p d13 d14).
Proof.
  intros (Hl & Hl2 & Hpl & Hch & Hcr & Hsf & Hmo & Hfr & Hsn & Hrc & Hrs & Htc & Hcrc & Hn &
    Hts & Htr) H13 H14.
  unfold wire, body. rewrite !Forall_app. split_and_all.
  - pose proof (b2z_range (crc_en p)). unfold head. each_byte; try lia; try (by apply Z.mod_pos_bound);
      try done; try cint_lia.
  - done.
  - unfold tail. each_byte; try cint_lia.
    destruct (payload_crc_error p), (sync_error p), (header_error p), (timing_set p); cbn; lia.
  - apply List.Forall_forall. intros x (z & <- & _)%List.in_map_iff. apply u8_range.
  - each_byte. apply u8_range.
Qed.

(** Integrity: when one byte of an encoded packet other than the syncword,
    the payload length and the number of metrics has another value in the
    buffer, [rx_buffer_pop] returns LGW_REG_WARNING and takes nothing. *)
Theorem rx_pop_detects_corruption self pkt p d13 d14 pre rest k x y :
  packet_ok p → is_u8 d13 → is_u8 d14 → wire p d13 d14 !! k = Some x → is_u8 y → y ≠ x →
  (2 < k)%nat → k ≠ Z.to_nat (rxbytenb_modem p + 21) →
  buffer self = pre ++ <[k := y]> (wire p d13 d14) ++ rest →
  buffer_index self = Z.of_nat (length pre) → buffer_index self < buffer_size self →
  rx_buffer_pop self pkt = Ret (self, LGW_REG_WARNING, None).
Proof.
  intros Hp H13 H14 Hx Hy Hxy Hk Hk' Hb Hi Hsz.
  destruct (wire_lookups p d13 d14 Hp) as (L0 & L1 & L2 & L3).
  pose proof (wire_length p d13 d14 Hp) as Hl. unfold wire_len in Hl.
  assert (Hx8 : is_u8 x) by (by eapply Forall_lookup_1 in Hx; [|by apply wire_bytes]).
  assert (∃ l c, <[k := y]> (wire p d13 d14) = l ++ [c] ∧ c ≠ sum_bytes l) as (l & c & E & Hc).
  { unfold wire in *. destruct (decide (k < length (body p d13 d14))%nat) as [Hlt|Hge].
    - rewrite insert_app_l by done. eexists _, _. split; [done|].
      rewrite lookup_app_l in Hx by done. unfold sum_bytes.
      rewrite (foldr_add_insert _ _ x y) by done. cint_lia.
    - pose proof (lookup_lt_Some _ _ _ Hx) as Hlt. rewrite length_app in Hlt. cbn [length] in Hlt.
      rewrite lookup_app_r in Hx by lia.
      rewrite insert_app_r_alt by lia.
      replace (k - length (body p d13 d14))%nat with 0%nat in * by lia.
      cbn in Hx. simplify_eq. by eexists _, _. }
  rewrite E in Hb.
  apply (pop_bad_checksum self pkt pre l c rest (rxbytenb_modem p) (num_ts_metrics_stored p));
    try done; [unfold packet_ok in Hp; lia|unfold packet_ok in Hp; lia|..]; rewrite <- E.
  - by rewrite length_insert.
  - by rewrite list_lookup_insert_ne by lia.
  - by rewrite list_lookup_insert_ne by lia.
  - by rewrite list_lookup_insert_ne by lia.
  - by rewrite list_lookup_insert_ne by done.
Qed.

Lemma rx_pop_detects_corruption_witness :
  rx_buffer_pop (RxBuffer (<[11%nat := 0x77]> (wire demo_packet 0 0)) 28 0 1) blank_packet =
  Ret (RxBuffer (<[11%nat := 0x77]> (wire demo_packet 0 0)) 28 0 1, LGW_REG_WARNING, None).
Proof.
  apply (rx_pop_detects_corruption _ _ demo_packet 0 0 [] [] 11 0xC0 0x77); try done.
  - exact demo_packet_ok.
  - cbn. lia.
Defined.

(** ** Too many metrics *)

Lemma buf_set_out {A} (b : list A) i v : Z.of_nat (length b) <= i → buf_set b i v = Undef.
Proof. intros. unfold buf_set. by rewrite (proj2 (Z.ltb_ge _ _)), andb_false_r by lia. Qed.

Lemma ts_metrics_overflow b start pre rest l avg std :
  b = pre ++ (u8 <$> l) ++ rest → start + 22 = Z.of_nat (length pre) →
  (length avg < length l)%nat → length std = length avg →
  ts_metrics b start (length l) (avg, std) = Undef.
Proof.
  assert (G : ∀ r pre rest apre arest spre srest i,
    b = pre ++ (u8 <$> r) ++ rest → start + 22 + i = Z.of_nat (length pre) →
    i = Z.of_nat (length apre) → i = Z.of_nat (length spre) →
    (length arest < length r)%nat → length srest = length arest →
    for_loop (length r) i (λ i '(avg, std),
      x ← SX1302_PKT_NUM_TS_METRICS b (start + 1 + i);
      avg ← buf_set avg i (s8 x); std ← buf_set std i 0; Ret (avg, std)) (apre ++ arest, spre ++ srest)
    = Undef).
  { induction r as [|x r IH]; intros pre' rest' apre arest spre srest i Hb Hi Ha Hs La Ls.
    { cbn in La. lia. }
    cbn [for_loop length]. rewrite (ts_metric b start x r pre' rest' i Hb Hi). cstep.
    destruct arest as [|a arest], srest as [|s srest]; try (cbn in Ls; lia).
    { rewrite !app_nil_r, (buf_set_out apre) by lia. done. }
    rewrite (buf_set_at apre _ i 0) by (cbn; lia). cstep.
    rewrite (buf_set_at spre _ i 0) by (cbn; lia). do 2 cstep. cbn [insert list_insert].
    rewrite (cons_middle (s8 (u8 x)) apre arest), (cons_middle 0 spre srest), !app_assoc.
    apply (IH (pre' ++ [u8 x]) rest'); [by rewrite Hb, <- app_assoc|..];
      rewrite ?length_app; cbn in *; lia. }
  intros Hb Hs La Ls. exact (G l pre rest [] avg [] std 0 Hb ltac:(lia) eq_refl eq_refl La Ls).
Qed.

(** The limit of the driver: for a complete packet with a correct checksum
    and 128 or more pairs of metrics (the format has a byte for their number)
    [rx_buffer_pop] writes outside of [timestamp_avg], whose 255 elements hold
    127 pairs; the number is not checked before the copy. *)
Theorem rx_pop_metrics_overflow self pkt p d13 d14 pre rest :
  packet_ok p → 128 <= num_ts_metrics_stored p → roomy pkt →
  buffer self = pre ++ wire p d13 d14 ++ rest → buffer_index self = Z.of_nat (length pre) →
  buffer_index self + wire_len p <= buffer_size self →
  rx_buffer_pop self pkt = Undef.
Proof.
  intros Hp Hn [Ra Rs] Hb Hi Hsz.
  rewrite (pop_wire_metrics p d13 d14 pre rest _ _ Hp Hb Hi self pkt eq_refl eq_refl Hsz).
  destruct Hp as (Hl & _ & _ & _ & _ & _ & _ & _ & _ & _ & _ & _ & _ & _ & Ht & _).
  replace (Z.to_nat (2 * _)) with (length (timestamp_avg p)) by lia.
  rewrite (ts_metrics_overflow _ _ (pre ++ head p ++ rx_payload p ++ tail p d13 d14)
    ([sum_bytes (body p d13 d14)] ++ rest)); [done| | |lia|lia].
  - rewrite Hb. unfold wire, body. by rewrite <- !app_assoc.
  - rewrite Hi, !length_app. cbn [head tail length]. lia.
Qed.

Definition many_metrics : rx_packet_s :=
  {| rxbytenb_modem := 0; rx_channel_in := 0; crc_en := true; coding_rate := 1; rx_rate_sf := 7;
     modem_id := 0; frequency_offset_error := 0; rx_payload := [];
     payload_crc_error := false; sync_error := false; header_error := false; timing_set := true;
     snr_average := 0; rssi_chan_avg := 0; rssi_signal_avg := 0; timestamp_cnt := 0;
     rx_crc16_value := 0; num_ts_metrics_stored := 128; timestamp_avg := replicate 256 1;
     timestamp_stddev := [] |}.
Lemma rx_pop_metrics_overflow_witness :
  rx_buffer_pop (RxBuffer (wire many_metrics 0 0) 279 0 1) blank_packet = Undef.
Proof.
  apply (rx_pop_metrics_overflow _ _ many_metrics 0 0 [] []); try done.
  unfold packet_ok. cbn. split_and_all; try lia; try done; repeat (apply List.Forall_cons; [lia|]); done.
Defined.
