(* ===== verification/Timestamp.v ===== *)
(** * Time stamps ([libloragw/src/loragw_sx1302_timestamp.c])

    The concentrator counts at 32 MHz in 32 bits, that is 27 bits of
    microseconds; the library extends the count to 32 bits of microseconds by
    counting the wraps it observes, corrects the time stamp of a packet by the
    delays of the demodulator, and keeps the last PPS counts. *)
From stdpp Require Import base list numbers.
From Stdlib Require Import ZArith Lia.
From S2P Require Import Prelude Binary64 HalTypes TimeOnAir Com Reg.

Open Scope Z_scope.

Definition MAX_TIMESTAMP_PPS_HISTORY : Z := 16.
Definition PRECISION_TIMESTAMP_TS_METRICS_MAX : Z := 32.
Definition PRECISION_TIMESTAMP_NB_SYMBOLS : Z := 0.

Definition SX1302_REG_TIMESTAMP_TIMESTAMP_PPS_MSB2_TIMESTAMP_PPS : Z := 307.
Definition SX1302_REG_RX_TOP_TIMESTAMP_ENABLE : Z := 684.
Definition SX1302_REG_RX_TOP_TIMESTAMP_NB_SYMB : Z := 685.
Definition SX1302_REG_RX_TOP_RX_BUFFER_LEGACY_TIMESTAMP : Z := 710.
Definition SX1302_REG_RX_TOP_RX_BUFFER_TIMESTAMP_CFG_MAX_TS_METRICS : Z := 713.

Record timestamp_info_s := Info {
  counter_us_27bits_ref : Z; counter_us_27bits_wrap : Z }.
Record timestamp_counter_s := Counter { inst : timestamp_info_s; pps : timestamp_info_s }.

Record timestamp_pps_history_s := History { history : list Z; idx : Z; size : Z }.

(** The initial value of the static [timestamp_pps_history]. *)
Definition timestamp_pps_history : timestamp_pps_history_s :=
  History (replicate (Z.to_nat MAX_TIMESTAMP_PPS_HISTORY) 0) 0 0.

Inductive sx1302_rx_dft_peak_mode_t :=
  RX_DFT_PEAK_MODE_DISABLED | RX_DFT_PEAK_MODE_FULL | RX_DFT_PEAK_MODE_TRACK | RX_DFT_PEAK_MODE_AUTO.

(** ** The PPS history *)

Definition timestamp_pps_history_save (h : timestamp_pps_history_s) (timestamp_pps_reg : Z)
  : outcome timestamp_pps_history_s :=
  last ← buf_get (history h) (idx h);
  if negb (timestamp_pps_reg =? last) || (size h =? 0) then
    let i := if 0 <? size h then u8 (idx h + 1) else idx h in
    let i := if i =? MAX_TIMESTAMP_PPS_HISTORY then 0 else i in
    l ← buf_set (history h) i timestamp_pps_reg;
    Ret (History l i (if size h <? MAX_TIMESTAMP_PPS_HISTORY then u8 (size h + 1) else size h))
  else Ret h.

(** ** The counters *)

Definition timestamp_counter_new : timestamp_counter_s := Counter (Info 0 0) (Info 0 0).
Definition timestamp_counter_delete : timestamp_counter_s := Counter (Info 0 0) (Info 0 0).

(** One of the two halves of [timestamp_counter_update]. *)
Definition update_info (t : timestamp_info_s) (now : Z) : timestamp_info_s :=
  Info now (if now <? counter_us_27bits_ref t
            then Z.rem (u8 (counter_us_27bits_wrap t + 1)) 32 else counter_us_27bits_wrap t).
Definition timestamp_counter_update (self : timestamp_counter_s) (pps_ inst_ : Z)
  : timestamp_counter_s :=
  Counter (update_info (inst self) inst_) (update_info (pps self) pps_).

(** The shift of the 5-bit wrap count is an [int] shift that reaches the sign
    bit; it is converted to [uint32_t]. *)
Definition timestamp_counter_expand (self : timestamp_counter_s) (pps_ : bool) (cnt_us : Z) : Z :=
  let tinfo := if pps_ then pps self else inst self in
  u32 (Z.lor (Z.shiftl (counter_us_27bits_wrap tinfo) 27) cnt_us).

Definition timestamp_pkt_expand (self : timestamp_counter_s) (pkt_cnt_us : Z) : Z :=
  let tinfo := inst self in
  let wrap_status :=
    u8 (counter_us_27bits_wrap tinfo -
        (if pkt_cnt_us <=? counter_us_27bits_ref tinfo then 0 else 1)) in
  let wrap_status := Z.land wrap_status 0x1F in
  u32 (Z.lor (Z.shiftl wrap_status 27) pkt_cnt_us).

(** Four bytes of a buffer, most significant first. *)
Definition word_at (buff : list Z) (i : Z) : Z :=
  u32 (Z.lor (Z.lor (Z.lor (Z.shiftl (znth 0 buff i) 24) (Z.shiftl (znth 0 buff (i + 1)) 16))
                    (Z.shiftl (znth 0 buff (i + 2)) 8)) (znth 0 buff (i + 3))).

Section Registers.
Context {W : Type} (spi usb : driver W).

(** The result is -1, or 0 with the values stored through [inst] and [pps].
    [junk] and [junk_wa] are what the local buffers of 8 bytes hold. *)
Definition timestamp_counter_get (s : com_state W) (self : timestamp_counter_s)
    (h : timestamp_pps_history_s) (junk junk_wa : list Z)
  : outcome (com_state W * timestamp_counter_s * timestamp_pps_history_s * Z * option (Z * Z)) :=
  let id := SX1302_REG_TIMESTAMP_TIMESTAMP_PPS_MSB2_TIMESTAMP_PPS in
  let '(s, (x, b)) := lgw_reg_rb spi usb s id (Some junk) in
  if negb (x =? LGW_REG_SUCCESS) then Ret (s, self, h, -1, None)
  else
    let buff := default junk b in
    let '(s, (x, b)) := lgw_reg_rb spi usb s id (Some junk_wa) in
    if negb (x =? LGW_REG_SUCCESS) then Ret (s, self, h, -1, None)
    else
      let buff_wa := default junk_wa b in
      let finish (s : com_state W) (buff : list Z) :=
        let pps_raw := word_at buff 0 in
        let inst_raw := word_at buff 4 in
        h ← timestamp_pps_history_save h pps_raw;
        let pps_now := Z.quot pps_raw 32 in
        let inst_now := Z.quot inst_raw 32 in
        let self := timestamp_counter_update self pps_now inst_now in
        Ret (s, self, h, 0, Some (timestamp_counter_expand self false inst_now,
                                  timestamp_counter_expand self true pps_now)) in
      if negb (znth 0 buff 0 =? znth 0 buff_wa 0) || negb (znth 0 buff 4 =? znth 0 buff_wa 4) then
        let '(s, (x, b)) := lgw_reg_rb spi usb s id (Some buff_wa) in
        if negb (x =? LGW_REG_SUCCESS) then Ret (s, self, h, -1, None)
        else finish s (default buff_wa b)
      else finish s buff.

Definition timestamp_counter_mode (s : com_state W) (ftime_enable : bool) : com_state W * Z :=
  let x := LGW_REG_SUCCESS in
  if negb ftime_enable then
    let '(s, r) := lgw_reg_w spi usb s SX1302_REG_RX_TOP_RX_BUFFER_LEGACY_TIMESTAMP 0x01 in
    (s, Z.lor x r)
  else
    let '(s, r1) := lgw_reg_w spi usb s SX1302_REG_RX_TOP_RX_BUFFER_LEGACY_TIMESTAMP 0x00 in
    let '(s, r2) := lgw_reg_w spi usb s SX1302_REG_RX_TOP_RX_BUFFER_TIMESTAMP_CFG_MAX_TS_METRICS
                      PRECISION_TIMESTAMP_TS_METRICS_MAX in
    let '(s, r3) := lgw_reg_w spi usb s SX1302_REG_RX_TOP_TIMESTAMP_ENABLE 0x01 in
    let '(s, r4) := lgw_reg_w spi usb s SX1302_REG_RX_TOP_TIMESTAMP_NB_SYMB
                      PRECISION_TIMESTAMP_NB_SYMBOLS in
    (s, Z.lor (Z.lor (Z.lor (Z.lor x r1) r2) r3) r4).
End Registers.

(** ** The correction of packet time stamps *)

(** [(uint64_t) x] *)
Definition u64_of_double (x : double) : outcome Z :=
  let z := dtrunc x in
  if (0 <=? z) && (z <? 2 ^ 64) then Ret z else Undef.
(** [(int32_t) x] *)
Definition s32_of_double (x : double) : outcome Z :=
  let z := dtrunc x in
  if (- 2 ^ 31 <=? z) && (z <? 2 ^ 31) then Ret z else Undef.

(** [Exit 134] is the failed [assert(0)]. Products of an [int] with the
    [uint64_t] clock period are computed modulo [2^64]. *)
Definition legacy_timestamp_correction (bandwidth sf cr : Z) (crc_en : bool) (payload_length : Z)
    (dft_peak_mode : sx1302_rx_dft_peak_mode_t) : outcome Z :=
  let dft_peak_en := match dft_peak_mode with RX_DFT_PEAK_MODE_DISABLED => 0 | _ => 1 end in
  let ppm := if SET_PPM_ON bandwidth sf then 1 else 0 in
  match bw_pow bandwidth with
  | None => Ret 0
  | Some bw_pow =>
    clk_period ← u64_of_double (ddiv (dbl_of_Z 250000) (dbl_of_Z bw_pow));
    let nb_nibble := u32 ((payload_length + 2 * b2z crc_en) * 2 + 5) in
    let nb_nibble_in_hdr := if (sf =? 5) || (sf =? 6) then sf else u32 (sf - 2) in
    let rest := u32 (nb_nibble - nb_nibble_in_hdr) in
    if u32 (sf - 2 * ppm) =? 0 then Undef
    else
    let last := u32 (rest - u32 (sf - 2 * ppm) * Z.quot rest (u32 (sf - 2 * ppm))) in
    let last := if last =? 0 then u32 (sf - 2 * ppm) else last in
    let nb_iter := u8 (Z.quot (sf + 1) 2) in
    let fits := (2 * (payload_length + 2 * b2z crc_en) - (sf - 7) <=? 0) ||
                ((payload_length =? 0) && negb crc_en) in
    let dft_peak_en := if fits then 0 else dft_peak_en in
    let cr_local := if fits then 4 else cr in
    let last := if fits then (if 6 <? sf then u32 (sf - 2) else sf) else last in
    filtering_delay ←
      u64_of_double (dadd (ddiv (dbl_of_Z 16000000) (dbl_of_Z bw_pow)) (dbl_of_Z 2031250));
    let demap_delay :=
      if fits then
        u64 (clk_period + Z.quot (u64 (Z.shiftl 1 sf * clk_period * 3)) 4 + 3 * clk_period +
             (sf - 2) * clk_period)
      else
        u64 (clk_period + Z.shiftl 1 sf * clk_period * (1 - Z.quot ppm 4) + 3 * clk_period +
             (sf - 2 * ppm) * clk_period) in
    let fft_delay_state3 :=
      u64 (clk_period * ((Z.shiftl 1 sf - 6) + 2 * (Z.shiftl 1 sf * (nb_iter - 1) + 6)) +
           4 * clk_period) in
    let fft_delay :=
      if negb (dft_peak_en =? 0)
      then u64 ((5 - 2 * ppm) * (Z.shiftl 1 sf * clk_period + 7 * clk_period) + 2 * clk_period)
      else u64 (Z.shiftl 1 sf * 2 * clk_period + 3 * clk_period) in
    let decode_delay :=
      u64 (5 * clk_period + (9 * clk_period + clk_period * cr_local) * last + 3 * clk_period) in
    total_delay ←
      u64_of_double
        (ddiv (dadd (dbl_of_Z (u64 (filtering_delay + fft_delay_state3 + fft_delay + demap_delay +
                                    decode_delay))) (dbl_of_Z 500000))
              (dbl_of_Z 1000000));
    if 2 ^ 31 - 1 <? total_delay then Exit 134
    else Ret (- total_delay)
  end.

(** The difference with the [double] filtering delay is computed in [double]
    and truncated when it is stored. *)
Definition precision_timestamp_correction (bandwidth datarate coderate : Z) (crc_en : bool)
    (payload_length : Z) : outcome Z :=
  match bw_pow bandwidth with
  | None => Ret 0
  | Some bw_pow =>
    let filtering_delay := Z.quot 16000000 bw_pow + 2031250 in
    '(toa, details) ← lora_packet_time_on_air bandwidth datarate coderate 0 false (negb crc_en)
                        payload_length;
    if toa =? 0 then Ret 0
    else
      let '(nb_symbols_payload, t_symbol_us) :=
        match details with
        | Some d => (out_nb_symbols_payload d, out_t_symbol_us d)
        | None => (0, 0)
        end in
      let timestamp_correction := s32 (u32 (0 + u32 (nb_symbols_payload * t_symbol_us))) in
      s32_of_double
        (dsub (dbl_of_Z timestamp_correction)
              (ddiv (dadd (dbl_of_Z filtering_delay) (dbl_of_Z 500000)) (dbl_of_Z 1000000)))
  end.

(** [context] is [None] for a NULL pointer and the [enable] flag of its fine
    time stamp configuration otherwise. *)
Definition timestamp_counter_correction (context : option bool) (bandwidth datarate coderate : Z)
    (crc_en : bool) (payload_length : Z) (dft_peak_mode : sx1302_rx_dft_peak_mode_t) : outcome Z :=
  match context with
  | None => Ret LGW_REG_ERROR
  | Some ftime_enable =>
    if negb (IS_LORA_DR datarate) then Ret 0
    else if negb (IS_LORA_BW bandwidth) then Ret 0
    else if negb (IS_LORA_CR coderate) then Ret 0
    else if negb ftime_enable then
      legacy_timestamp_correction bandwidth datarate coderate crc_en payload_length dft_peak_mode
    else
      precision_timestamp_correction bandwidth datarate coderate crc_en payload_length
  end.
