(* ===== verification/TimestampProps.v ===== *)
(** * Properties of the time stamps *)
From stdpp Require Import base list numbers.
From Stdlib Require Import ZArith Lia.
From S2P Require Import Prelude Binary64 HalTypes TimeOnAir Com Spi Reg Timestamp.

Open Scope Z_scope.

(** ** The extended counters *)

(** [info] follows a clock that shows [t] microseconds, extended since the
    clock's 27-bit epoch [base]. *)
Definition tracks (base t : Z) (info : timestamp_info_s) : Prop :=
  counter_us_27bits_ref info = t mod 2 ^ 27 ∧
  counter_us_27bits_wrap info = (t / 2 ^ 27 - base) mod 32.
(** The time in microseconds since the epoch, in 32 bits. *)
Definition since (base t : Z) : Z := u32 (t - base * 2 ^ 27).

Lemma update_first t : tracks (t / 2 ^ 27) t (update_info (Info 0 0) (t mod 2 ^ 27)).
Proof.
  unfold tracks, update_info. cbn [counter_us_27bits_ref counter_us_27bits_wrap].
  rewrite (proj2 (Z.ltb_ge _ _)), Z.sub_diag by (apply Z.mod_pos_bound; lia). done.
Qed.

(** An update within one period of the 27-bit count follows the clock. *)
Lemma update_tracks base t t' info :
  tracks base t info → t <= t' < t + 2 ^ 27 → tracks base t' (update_info info (t' mod 2 ^ 27)).
Proof.
  intros [Hr Hw] Ht. unfold tracks, update_info. cbn [counter_us_27bits_ref counter_us_27bits_wrap].
  split; [done|]. rewrite Hr, Hw. set (w := (t / 2 ^ 27 - base) mod 32).
  assert (0 <= w < 32) by (apply Z.mod_pos_bound; lia).
  rewrite u8_id, Z.rem_mod_nonneg by lia.
  destruct (Z.ltb_spec (t' mod 2 ^ 27) (t mod 2 ^ 27)).
  - assert (t' / 2 ^ 27 = t / 2 ^ 27 + 1) as -> by cint_lia.
    subst w. rewrite Zplus_mod_idemp_l. f_equal. lia.
  - assert (t' / 2 ^ 27 = t / 2 ^ 27) as -> by cint_lia. done.
Qed.

Lemma lor_wrap w c : 0 <= c < 2 ^ 27 → Z.lor (Z.shiftl w 27) c = w * 2 ^ 27 + c.
Proof. intros. rewrite shiftl_mul by lia. by apply lor_shl_add. Qed.

Lemma wrap_since base t : (t / 2 ^ 27 - base) mod 32 * 2 ^ 27 + t mod 2 ^ 27 = since base t.
Proof. unfold since. cint_lia. Qed.

Lemma expand_tracks base t self b :
  tracks base t (if b : bool then pps self else inst self) →
  timestamp_counter_expand self b (t mod 2 ^ 27) = since base t.
Proof.
  intros [_ Hw]. unfold timestamp_counter_expand. rewrite Hw.
  rewrite lor_wrap, wrap_since by (apply Z.mod_pos_bound; lia).
  unfold since. apply u32_id, u32_range.
Qed.

(** A packet that came in less than one period before the last update. *)
Lemma pkt_expand_tracks base t self p :
  tracks base t (inst self) → t - 2 ^ 27 < p <= t →
  timestamp_pkt_expand self (p mod 2 ^ 27) = since base p.
Proof.
  intros [Hr Hw] Hp. unfold timestamp_pkt_expand. rewrite Hr, Hw.
  set (w := u8 _). assert (Z.land w 0x1F = (p / 2 ^ 27 - base) mod 32) as ->.
  { rewrite (land_mask _ 5) by lia. subst w.
    destruct (Z.leb_spec (p mod 2 ^ 27) (t mod 2 ^ 27)).
    - assert (p / 2 ^ 27 = t / 2 ^ 27) as -> by cint_lia. cint_lia.
    - assert (t / 2 ^ 27 = p / 2 ^ 27 + 1) as -> by cint_lia. cint_lia. }
  rewrite lor_wrap, wrap_since by (apply Z.mod_pos_bound; lia).
  unfold since. apply u32_id, u32_range.
Qed.

(** Each reading less than one period of the 27-bit count after the one
    before it. *)
Fixpoint paced (t : Z) (l : list Z) : Prop :=
  match l with [] => True | t' :: l => t <= t' < t + 2 ^ 27 ∧ paced t' l end.
Definition latest (t : Z) (l : list Z) : Z := foldl (λ _ t', t') t l.
(** The updates for readings of the two clocks, in microseconds. *)
Definition readings (self : timestamp_counter_s) (l : list (Z * Z)) : timestamp_counter_s :=
  foldl (λ self r, timestamp_counter_update self (r.1 mod 2 ^ 27) (r.2 mod 2 ^ 27)) self l.

Lemma readings_track bp bi l : ∀ p i self,
  tracks bp p (pps self) → tracks bi i (inst self) → paced p l.*1 → paced i l.*2 →
  tracks bp (latest p l.*1) (pps (readings self l)) ∧
  tracks bi (latest i l.*2) (inst (readings self l)).
Proof.
  induction l as [|[p' i'] l IH]; intros p i self Hp Hi Pp Pi; [done|].
  destruct Pp as [Tp Pp], Pi as [Ti Pi]. apply IH; try done.
  - by apply (update_tracks bp p).
  - by apply (update_tracks bi i).
Qed.

(** C20. The extended counters follow the clocks: when both counters are read
    at least once per period of the 27-bit count (134 s), [expand] of the last
    reading is the time elapsed since the 27-bit epoch of the first reading,
    in 32-bit microseconds, for the free-running and for the PPS counter; and
    a packet received less than a period before the last reading is given its
    own time on the same scale, also when the counter wrapped in between. *)
Theorem timestamp_counter_tracks_clock p0 i0 l :
  paced p0 l.*1 → paced i0 l.*2 →
  let self := readings timestamp_counter_new ((p0, i0) :: l) in
  let p := latest p0 l.*1 in
  let i := latest i0 l.*2 in
  timestamp_counter_expand self true (p mod 2 ^ 27) = since (p0 / 2 ^ 27) p ∧
  timestamp_counter_expand self false (i mod 2 ^ 27) = since (i0 / 2 ^ 27) i ∧
  ∀ t, i - 2 ^ 27 < t <= i →
    timestamp_pkt_expand self (t mod 2 ^ 27) = since (i0 / 2 ^ 27) t.
Proof.
  intros Pp Pi self p i.
  destruct (readings_track (p0 / 2 ^ 27) (i0 / 2 ^ 27) l p0 i0
    (timestamp_counter_update timestamp_counter_new (p0 mod 2 ^ 27) (i0 mod 2 ^ 27))) as [Tp Ti];
    [apply update_first|apply update_first|done|done|].
  split_and_all; [by apply expand_tracks|by apply expand_tracks|].
  intros t Ht. by apply (pkt_expand_tracks _ i).
Qed.

Lemma timestamp_counter_tracks_clock_witness :
  let self := readings timestamp_counter_new [(10, 2 ^ 27 - 5); (1000010, 2 ^ 27 + 7)] in
  timestamp_counter_expand self true (1000010 mod 2 ^ 27) = 1000010 ∧
  timestamp_counter_expand self false ((2 ^ 27 + 7) mod 2 ^ 27) = 2 ^ 27 + 7 ∧
  ∀ t, 2 ^ 27 + 7 - 2 ^ 27 < t <= 2 ^ 27 + 7 →
    timestamp_pkt_expand self (t mod 2 ^ 27) = since 0 t.
Proof.
  apply (timestamp_counter_tracks_clock 10 (2 ^ 27 - 5) [(1000010, 2 ^ 27 + 7)]);
    cbn; split; done || lia.
Defined.

(** ** The PPS history *)

(** The readings without immediate repetitions: one entry per pulse. *)
Definition add_pulse (d : list Z) (v : Z) : list Z :=
  if decide (list.last d = Some v) then d else d ++ [v].
Definition pulses (l : list Z) : list Z := foldl add_pulse [] l.
Fixpoint saves (h : timestamp_pps_history_s) (l : list Z) : outcome timestamp_pps_history_s :=
  match l with [] => Ret h | v :: l => h ← timestamp_pps_history_save h v; saves h l end.

(** [h] is the ring of the last 16 pulses of [d]: pulse [k] is in slot
    [k mod 16], and [idx] is the slot of the last one. *)
Definition ring (h : timestamp_pps_history_s) (d : list Z) : Prop :=
  let n := Z.of_nat (length d) in
  length (history h) = 16%nat ∧ size h = Z.min 16 n ∧ idx h = Z.max 0 (n - 1) mod 16 ∧
  ∀ k, Z.max 0 (n - 16) <= k < n → history h !! Z.to_nat (k mod 16) = d !! Z.to_nat k.

Lemma ring_init : ring timestamp_pps_history [].
Proof. unfold ring. split_and_all; try done. cbn. intros k Hk. lia. Qed.

Lemma ring_last h d : ring h d → d ≠ [] → history h !! Z.to_nat (idx h) = list.last d.
Proof.
  intros (Hl & Hs & Hi & Hk) Hd. assert (length d ≠ 0%nat) by (by destruct d).
  rewrite last_lookup, Hi, Z.max_r by lia. rewrite Hk by lia. f_equal. lia.
Qed.

Lemma ring_push h d i v :
  ring h d → i = Z.of_nat (length d) mod 16 →
  ring (History (<[Z.to_nat i := v]> (history h)) i (Z.min 16 (Z.of_nat (length d) + 1)))
       (d ++ [v]).
Proof.
  intros (Hl & Hs & Hi & Hk) ->. unfold ring. cbn [history size idx].
  rewrite length_insert, length_app. cbn [length].
  assert (0 <= Z.of_nat (length d) mod 16 < 16) by (apply Z.mod_pos_bound; lia).
  split_and_all; try lia.
  - f_equal. lia.
  - intros k Hk'. destruct (Z.eq_dec k (Z.of_nat (length d))) as [->|Hne].
    + rewrite list_lookup_insert_eq by lia. rewrite Nat2Z.id, lookup_app_r by lia.
      by rewrite Nat.sub_diag.
    + rewrite list_lookup_insert_ne by (intros E; cint_lia).
      rewrite Hk by lia. rewrite lookup_app_l by lia. done.
Qed.

Lemma save_ring h d v :
  ring h d → ∃ h', timestamp_pps_history_save h v = Ret h' ∧ ring h' (add_pulse d v).
Proof.
  intros Hr. pose proof Hr as (Hl & Hs & Hi & _).
  assert (Hix : 0 <= idx h < 16) by (rewrite Hi; apply Z.mod_pos_bound; lia).
  unfold timestamp_pps_history_save, add_pulse, MAX_TIMESTAMP_PPS_HISTORY.
  destruct (lookup_lt_is_Some_2 (history h) (Z.to_nat (idx h))) as [x Hx]; [lia|].
  rewrite (buf_get_lookup _ _ x) by (done || lia). cstep.
  destruct (decide (d = [])) as [->|Hd].
  - cbn [length] in *. assert (size h = 0) as -> by lia. rewrite orb_true_r. cbn [Z.ltb Z.compare].
    assert (idx h = 0) as -> by (rewrite Hi; done). cbn [Z.eqb]. rewrite buf_set_insert by lia.
    cstep. eexists. split; [done|]. by apply (ring_push h []).
  - assert (length d ≠ 0%nat) by (by destruct d).
    rewrite (ring_last h d Hr Hd) in Hx. rewrite Hx.
    rewrite (proj2 (Z.eqb_neq (size h) 0)), orb_false_r by lia.
    destruct (Z.eqb_spec v x) as [->|Hne]; cbn [negb].
    { eexists. split; [done|]. by rewrite decide_True. }
    rewrite decide_False by (intros [= ?]; done).
    rewrite (proj2 (Z.ltb_lt 0 (size h))), u8_id by lia.
    set (i := if idx h + 1 =? 16 then 0 else idx h + 1).
    assert (Ei : i = Z.of_nat (length d) mod 16).
    { subst i. rewrite Hi, Z.max_r by lia.
      destruct (Z.eqb_spec ((Z.of_nat (length d) - 1) mod 16 + 1) 16); cint_lia. }
    assert (0 <= i < 16) by (rewrite Ei; apply Z.mod_pos_bound; lia).
    rewrite buf_set_insert by lia. cstep. eexists. split; [done|].
    replace (if size h <? 16 then u8 (size h + 1) else size h)
      with (Z.min 16 (Z.of_nat (length d) + 1)).
    + by apply ring_push.
    + destruct (Z.ltb_spec (size h) 16); [rewrite u8_id by lia|]; lia.
Qed.

Lemma saves_ring l : ∀ h d, ring h d → ∃ h', saves h l = Ret h' ∧ ring h' (foldl add_pulse d l).
Proof.
  induction l as [|v l IH]; intros h d Hr; cbn [saves foldl]; [by exists h|].
  destruct (save_ring h d v Hr) as (h' & -> & Hr'). cstep. by apply IH.
Qed.

(** The PPS history is a ring of the last 16 pulses: after any sequence of
    readings of the PPS counter, pulse number [k] of the sequence (repeated
    readings of one pulse counted once) is in slot [k mod 16] as long as it is
    one of the last 16, [size] is their number up to 16, and [idx] is the slot
    of the last pulse; no reading makes an access outside of the array. *)
Theorem pps_history_is_ring l :
  ∃ h, saves timestamp_pps_history l = Ret h ∧ ring h (pulses l).
Proof. apply saves_ring, ring_init. Qed.

(** ** Rounded quotients, truncated *)

Lemma dtrunc_quot n d a b :
  0 < d → 0 < b → 0 <= n → 0 <= a < 2 ^ 53 → n * b = a * d → dtrunc (rnd n d) = a / b.
Proof.
  intros Hd Hb Hn Ha E. pose proof (rnd_quot_err n d a b Hd Hb Hn E) as R.
  pose proof (den_pos (rnd n d)) as HD.
  pose proof (Z.div_mod a b ltac:(lia)) as Hk. pose proof (Z.mod_pos_bound a b Hb) as Hr.
  set (k := a / b) in *. set (r := a mod b) in *. clearbody k r.
  assert (HK : k * den (rnd n d) <= num (rnd n d) ∧ num (rnd n d) < (k + 1) * den (rnd n d)).
  { destruct (Z.eq_dec r 0) as [->|Hne].
    - assert (V : dval (rnd n d) k 0) by (apply rnd_exact; nia). unfold dval in V. lia.
    - set (X := num (rnd n d)) in *. set (D := den (rnd n d)) in *.
      assert (L1 : (k * b + 1) * D <= a * D) by nia.
      assert (L2 : (a + 1) * D <= (k + 1) * b * D) by nia.
      split; apply Z.nlt_ge || apply Z.nle_gt; intros F.
      + assert (X * b < k * D * b) by nia. nia.
      + assert ((k + 1) * D * b <= X * b) by nia. nia. }
  unfold dtrunc. rewrite Z.quot_div_nonneg by nia.
  symmetry. apply (Z.div_unique_pos _ _ k (num (rnd n d) - k * den (rnd n d))); lia.
Qed.

Lemma dtrunc_ddiv x y a b :
  dval x a 0 → dval y b 0 → 0 < b → 0 <= a < 2 ^ 53 → dtrunc (ddiv x y) = a / b.
Proof.
  intros Hx Hy Hb Ha. destruct (ddiv_ratio x y a b Hx Hy Hb) as (n & d & -> & Hd & Hn & E); [lia|].
  by apply dtrunc_quot.
Qed.

Lemma u64_of_double_trunc x z : dtrunc x = z → is_u64 z → u64_of_double x = Ret z.
Proof.
  intros Hx Hz. unfold u64_of_double. rewrite Hx.
  by rewrite (proj2 (Z.leb_le _ _)), (proj2 (Z.ltb_lt _ _)) by lia.
Qed.
Lemma u64_id z : is_u64 z → u64 z = z.
Proof. apply Z.mod_small. Qed.

(** ** The legacy correction *)

(** The delays of the demodulator in picoseconds: filters, FFT, demapping and
    decoding of the last block of nibbles. *)
Definition ref_clk (bw : Z) : Z := 250000 / 2 ^ (bw - BW_125KHZ).
Definition ref_filter (bw : Z) : Z := 16000000 / 2 ^ (bw - BW_125KHZ) + 2031250.
Definition ref_header_nibbles (sf : Z) : Z := if sf <=? 6 then sf else sf - 2.
Definition ref_nibbles (crc : bool) (len : Z) : Z := 2 * (len + 2 * b2z crc) + 5.
Definition ref_fits (sf : Z) (crc : bool) (len : Z) : bool :=
  (ref_nibbles crc len <=? sf - 2) || ((len =? 0) && negb crc).
(** The nibbles of the last block of [per] nibbles, when [m] > 0 nibbles are
    sent in blocks. *)
Definition ref_last_block (m per : Z) : Z := (m - 1) mod per + 1.

Definition ref_legacy_delay (bw sf cr : Z) (crc : bool) (len : Z) (dft : bool) : Z :=
  let clk := ref_clk bw in
  let ppm := if SET_PPM_ON bw sf then 1 else 0 in
  let fits := ref_fits sf crc len in
  let last :=
    if fits then ref_header_nibbles sf
    else ref_last_block (ref_nibbles crc len - ref_header_nibbles sf) (sf - 2 * ppm) in
  ref_filter bw +
  clk * (2 ^ sf - 2 + 2 * (2 ^ sf * ((sf + 1) / 2 - 1) + 6)) +
  (if dft && negb fits then clk * ((5 - 2 * ppm) * (2 ^ sf + 7) + 2) else clk * (2 * 2 ^ sf + 3)) +
  (if fits then clk * (4 + (sf - 2)) + 3 * (clk * 2 ^ sf) / 4 else clk * (4 + 2 ^ sf + (sf - 2 * ppm))) +
  clk * (8 + (9 + (if fits then 4 else cr)) * last).

Lemma bw_clocks bw : IS_LORA_BW bw = true →
  ∃ p, bw_pow bw = Some p ∧
    u64_of_double (ddiv (dbl_of_Z 250000) (dbl_of_Z p)) = Ret (ref_clk bw) ∧
    u64_of_double (dadd (ddiv (dbl_of_Z 16000000) (dbl_of_Z p)) (dbl_of_Z 2031250))
      = Ret (ref_filter bw) ∧
    Z.quot 16000000 p + 2031250 = ref_filter bw ∧
    (ref_clk bw = 250000 ∨ ref_clk bw = 125000 ∨ ref_clk bw = 62500) ∧
    (ref_filter bw = 18031250 ∨ ref_filter bw = 10031250 ∨ ref_filter bw = 6031250).
Proof.
  intros Hb%IS_LORA_BW_range. assert (bw = 4 ∨ bw = 5 ∨ bw = 6) as [-> | [-> | ->]] by lia;
    eexists; split_and_all; try (vm_compute; reflexivity);
    vm_compute; tauto.
Qed.

Lemma sf_pow sf : 5 <= sf <= 12 → 32 <= 2 ^ sf <= 4096 ∧ Z.shiftl 1 sf = 2 ^ sf.
Proof.
  intros H. rewrite shiftl_mul, Z.mul_1_l by lia. split; [|done]. split.
  - change 32 with (2 ^ 5). apply Z.pow_le_mono_r; lia.
  - change 4096 with (2 ^ 12). apply Z.pow_le_mono_r; lia.
Qed.

(** The last block: the code's remainder, with a full block for 0. *)
Lemma last_block_exact nb hdr per :
  0 < per <= 12 → 0 < nb - hdr < 2 ^ 16 →
  let rest := u32 (nb - hdr) in
  let last := u32 (rest - u32 per * Z.quot rest (u32 per)) in
  (if last =? 0 then u32 per else last) = ref_last_block (nb - hdr) per ∧
  1 <= ref_last_block (nb - hdr) per <= 12.
Proof.
  intros Hp Hm. cbv zeta. rewrite (u32_id (nb - hdr)), (u32_id per) by lia.
  rewrite Z.quot_div_nonneg by lia. set (m := nb - hdr) in *.
  replace (m - per * (m / per)) with (m mod per) by (rewrite Z.mod_eq by lia; lia).
  pose proof (Z.mod_pos_bound m per ltac:(lia)). rewrite u32_id by lia. unfold ref_last_block.
  pose proof (Z.mod_pos_bound (m - 1) per ltac:(lia)). split; [|lia].
  pose proof (Z.div_mod m per ltac:(lia)) as E.
  destruct (Z.eqb_spec (m mod per) 0) as [Hz|Hz].
  - rewrite <- (Z.mod_unique_pos (m - 1) per (m / per - 1) (per - 1)); lia.
  - rewrite <- (Z.mod_unique_pos (m - 1) per (m / per) (m mod per - 1)); lia.
Qed.

Definition peak (mode : sx1302_rx_dft_peak_mode_t) : bool :=
  match mode with RX_DFT_PEAK_MODE_DISABLED => false | _ => true end.

Lemma not_fits_nibbles sf crc len :
  5 <= sf <= 12 → is_u8 len → ref_fits sf crc len = false →
  0 < ref_nibbles crc len - ref_header_nibbles sf < 2 ^ 16.
Proof.
  intros Hs Hl. unfold ref_fits, ref_nibbles, ref_header_nibbles. intros [H1 H2]%orb_false_iff.
  apply Z.leb_gt in H1. destruct (Z.leb_spec sf 6), crc; cbn in *; lia.
Qed.

Lemma legacy_delay_range bw sf cr crc len dft :
  IS_LORA_BW bw = true → 5 <= sf <= 12 → 1 <= cr <= 4 → is_u8 len →
  6000000 <= ref_legacy_delay bw sf cr crc len dft < 19000000000.
Proof.
  intros Hb Hs Hc Hl. destruct (bw_clocks bw Hb) as (_ & _ & _ & _ & _ & Hclk & Hfil).
  destruct (sf_pow sf Hs) as [Hpow _]. unfold ref_legacy_delay. cbv zeta.
  set (ppm := if SET_PPM_ON bw sf then 1 else 0).
  assert (Hppm : 0 <= ppm <= 1) by (subst ppm; destruct (SET_PPM_ON _ _); lia).
  set (last := if ref_fits sf crc len then ref_header_nibbles sf else _).
  assert (Hlast : 1 <= last <= 12).
  { subst last. destruct (ref_fits sf crc len) eqn:F; cbv iota.
    - unfold ref_header_nibbles. destruct (Z.leb_spec sf 6); lia.
    - pose proof (not_fits_nibbles sf crc len Hs Hl F).
      apply (last_block_exact (ref_nibbles crc len) (ref_header_nibbles sf)); lia. }
  assert (Hiter : 3 <= (sf + 1) / 2 <= 6) by cint_lia.
  generalize dependent ((sf + 1) / 2). intros it Hit. clearbody ppm last.
  generalize dependent (2 ^ sf). intros S HS.
  set (crl := if ref_fits sf crc len then 4 else cr). assert (1 <= crl <= 4) by (subst crl; bool_cases; lia).
  clearbody crl.
  assert (0 <= S * (it - 1) <= 4096 * 5) by nia.
  assert (0 <= 3 * (ref_clk bw * S) / 4 <= ref_clk bw * S).
  { split; [apply Z.div_pos; nia|]. apply Z.div_le_upper_bound; nia. }
  assert (32 <= S + 7 <= 4103) by lia.
  assert (0 <= (5 - 2 * ppm) * (S + 7) <= 5 * 4103) by nia.
  assert (0 <= (9 + crl) * last <= 13 * 12) by nia.
  destruct Hclk as [E|[E|E]]; rewrite E in *; bool_cases; lia.
Qed.

Lemma u64_sum f a b c d : u64 (f + u64 a + u64 b + u64 c + u64 d) = u64 (f + a + b + c + d).
Proof. cint_lia. Qed.

Lemma legacy_exact bw sf cr crc len mode :
  IS_LORA_BW bw = true → 5 <= sf <= 12 → 1 <= cr <= 4 → is_u8 len →
  legacy_timestamp_correction bw sf cr crc len mode =
  Ret (- ((ref_legacy_delay bw sf cr crc len (peak mode) + 500000) / 1000000)).
Proof.
  intros Hb Hs Hc Hl. pose proof (legacy_delay_range bw sf cr crc len (peak mode) Hb Hs Hc Hl) as HR.
  destruct (bw_clocks bw Hb) as (p & Hp & Eclk & Efil & _ & Hclk & Hfil).
  unfold legacy_timestamp_correction. rewrite Hp, Eclk. cstep.
  destruct (sf_pow sf Hs) as [Hpow ->]. 
  set (ppm := if SET_PPM_ON bw sf then 1 else 0).
  assert (Hppm : 0 <= ppm <= 1) by (subst ppm; destruct (SET_PPM_ON _ _); lia).
  assert (u32 ((len + 2 * b2z crc) * 2 + 5) = ref_nibbles crc len) as ->.
  { unfold ref_nibbles. rewrite u32_id; destruct crc; cbn; lia. }
  assert ((if (sf =? 5) || (sf =? 6) then sf else u32 (sf - 2)) = ref_header_nibbles sf) as ->.
  { unfold ref_header_nibbles. rewrite u32_id by lia.
    destruct (Z.eqb_spec sf 5), (Z.eqb_spec sf 6), (Z.leb_spec sf 6); cbn; lia. }
  rewrite (proj2 (Z.eqb_neq (u32 (sf - 2 * ppm)) 0)) by (rewrite u32_id; lia).
  assert ((2 * (len + 2 * b2z crc) - (sf - 7) <=? 0) || ((len =? 0) && negb crc) =
    ref_fits sf crc len) as ->.
  { unfold ref_fits, ref_nibbles. f_equal. 
    destruct (Z.leb_spec (2 * (len + 2 * b2z crc) - (sf - 7)) 0); symmetry;
      [apply Z.leb_le|apply Z.leb_gt]; lia. }
  rewrite Efil. cstep.
  set (last := if ref_fits sf crc len then (if 6 <? sf then u32 (sf - 2) else sf) else _).
  assert (last = if ref_fits sf crc len then ref_header_nibbles sf
                 else ref_last_block (ref_nibbles crc len - ref_header_nibbles sf) (sf - 2 * ppm)) as ->.
  { subst last. destruct (ref_fits sf crc len) eqn:F.
    - unfold ref_header_nibbles. rewrite u32_id by lia.
      destruct (Z.ltb_spec 6 sf), (Z.leb_spec sf 6); lia.
    - pose proof (not_fits_nibbles sf crc len Hs Hl F).
      apply (last_block_exact (ref_nibbles crc len) (ref_header_nibbles sf)); lia. }
  set (total := u64 (ref_filter bw + _ + _ + _ + _)).
  assert (total = ref_legacy_delay bw sf cr crc len (peak mode)) as ->.
  { rewrite <- (u64_id (ref_legacy_delay _ _ _ _ _ _)) by lia. subst total.
    unfold ref_legacy_delay. cbv zeta. fold ppm.
    rewrite u8_id, (Z.quot_div_nonneg (sf + 1)) by cint_lia.
    assert (Z.quot ppm 4 = 0) as -> by (rewrite Z.quot_small; lia).
    assert (Z.quot (u64 (2 ^ sf * ref_clk bw * 3)) 4 = 3 * (ref_clk bw * 2 ^ sf) / 4) as ->.
    { rewrite u64_id, Z.quot_div_nonneg by nia. f_equal. ring. }
    destruct (ref_fits sf crc len), mode; cbn [peak negb andb Z.eqb];
      rewrite u64_sum; f_equal; ring. }
  assert (V : dval (dadd (dbl_of_Z (ref_legacy_delay bw sf cr crc len (peak mode))) (dbl_of_Z 500000))
    (ref_legacy_delay bw sf cr crc len (peak mode) + 500000) 0).
  { apply dval_add; try lia; apply dval_of_Z; lia. }
  set (total := ref_legacy_delay _ _ _ _ _ _) in *.
  assert (Hq : 0 <= (total + 500000) / 1000000 < 2 ^ 31 - 1) by cint_lia.
  rewrite (u64_of_double_trunc _ ((total + 500000) / 1000000)); 
    [|apply dtrunc_ddiv; [exact V|apply dval_of_Z; lia|lia|lia]|lia].
  cstep. by rewrite (proj2 (Z.ltb_ge _ _)) by lia.
Qed.

(** The legacy correction: for every LoRa modulation and payload length the
    value is minus the sum of the delays of the demodulator, computed without
    any wrap-around of the unsigned intermediate values, in picoseconds rounded
    to the nearest microsecond; it lies between -19 ms and -6 us, so the
    overflow check never fails. *)
Theorem legacy_correction_exact bw sf cr crc len mode :
  IS_LORA_DR sf = true → IS_LORA_BW bw = true → IS_LORA_CR cr = true → is_u8 len →
  ∃ c, timestamp_counter_correction (Some false) bw sf cr crc len mode = Ret c ∧
    c = - ((ref_legacy_delay bw sf cr crc len (peak mode) + 500000) / 1000000) ∧
    -19000 <= c <= -6.
Proof.
  intros Hs Hb Hc Hl. unfold timestamp_counter_correction. rewrite Hs, Hb, Hc. cbn [negb].
  apply IS_LORA_DR_range in Hs. apply IS_LORA_CR_range in Hc.
  rewrite legacy_exact by done. eexists. split_and_all; [done|done|..].
  all: pose proof (legacy_delay_range bw sf cr crc len (peak mode) Hb Hs Hc Hl); cint_lia.
Qed.
Lemma legacy_correction_exact_witness :
  ∃ c, timestamp_counter_correction (Some false) BW_125KHZ 12 1 true 20 RX_DFT_PEAK_MODE_AUTO = Ret c ∧
    c = - ((ref_legacy_delay BW_125KHZ 12 1 true 20 true + 500000) / 1000000) ∧ -19000 <= c <= -6.
Proof. by apply (legacy_correction_exact BW_125KHZ 12 1 true 20 RX_DFT_PEAK_MODE_AUTO). Defined.

(** ** The precision correction *)

Lemma dval_sub x y a b j :
  0 <= j → dval x a j → dval y b j → Z.abs (a - b) < 2 ^ 53 → dval (dsub x y) (a - b) j.
Proof.
  unfold dval. intros Hj Hx Hy Hab. pose proof (den_pos x). pose proof (den_pos y).
  apply rnd_exact; [nia|done| |done].
  transitivity (num x * 2 ^ j * den y - num y * 2 ^ j * den x); [ring|].
  rewrite Hx, Hy. ring.
Qed.
Lemma dtrunc_val_quot x a j : 0 <= j → dval x a j → dtrunc x = Z.quot a (2 ^ j).
Proof.
  unfold dval, dtrunc. intros Hj Hx. pose proof (den_pos x).
  rewrite <- (Z.quot_mul_cancel_r (num x) (den x) (2 ^ j)) by lia.
  rewrite Hx, (Z.mul_comm (den x)), Z.quot_mul_cancel_r by lia. done.
Qed.

(** The filtering delay plus half a microsecond is a multiple of 1/32 us. *)
Lemma filter_us bw : IS_LORA_BW bw = true →
  ∃ a, dval (ddiv (dadd (dbl_of_Z (ref_filter bw)) (dbl_of_Z 500000)) (dbl_of_Z 1000000)) a 5 ∧
    a = 32 * ((ref_filter bw + 500000) / 1000000) + 17 ∧ 0 <= a < 1000.
Proof.
  intros Hb. destruct (bw_clocks bw Hb) as (_ & _ & _ & _ & _ & _ & [-> | [-> | ->]]);
    [exists 593|exists 337|exists 209]; split_and_all; vm_compute; reflexivity || discriminate.
Qed.

Lemma trunc_sub_filter n bw :
  IS_LORA_BW bw = true → n = 0 ∨ 64 <= n < 2 ^ 31 →
  s32_of_double
    (dsub (dbl_of_Z n) (ddiv (dadd (dbl_of_Z (ref_filter bw)) (dbl_of_Z 500000)) (dbl_of_Z 1000000)))
  = Ret (let f := (ref_filter bw + 500000) / 1000000 in if n =? 0 then - f else n - f - 1).
Proof.
  intros Hb Hn. destruct (filter_us bw Hb) as (a & Va & Ea & Ha).
  set (f := (ref_filter bw + 500000) / 1000000) in *. clearbody f. cbv zeta.
  assert (Vn : dval (dbl_of_Z n) (n * 2 ^ 5) (0 + 5)).
  { apply dval_scale; [lia..|]. apply dval_of_Z. lia. }
  change (0 + 5) with 5 in Vn.
  assert (V := dval_sub _ _ _ _ 5 ltac:(lia) Vn Va ltac:(lia)).
  unfold s32_of_double. rewrite (dtrunc_val_quot _ _ 5 ltac:(lia) V).
  destruct Hn as [->|Hn].
  - cbn [Z.eqb]. assert (Z.quot (0 * 2 ^ 5 - a) (2 ^ 5) = - f) as -> by cint_lia.
    by rewrite (proj2 (Z.leb_le _ _)), (proj2 (Z.ltb_lt _ _)) by lia.
  - rewrite (proj2 (Z.eqb_neq _ _)) by lia.
    assert (Z.quot (n * 2 ^ 5 - a) (2 ^ 5) = n - f - 1) as -> by cint_lia.
    by rewrite (proj2 (Z.leb_le _ _)), (proj2 (Z.ltb_lt _ _)) by lia.
Qed.

(** The precision correction is the duration of the payload minus the
    filtering delay rounded to the nearest microsecond and minus one more
    microsecond: the [double] with the half microsecond of the rounding is
    subtracted before the truncation, not truncated first. Without payload
    symbols it is minus the rounded filtering delay. *)
Theorem precision_correction_value bw sf cr crc len mode :
  IS_LORA_DR sf = true → IS_LORA_BW bw = true → IS_LORA_CR cr = true → is_u8 len →
  timestamp_counter_correction (Some true) bw sf cr crc len mode =
  Ret (let n := ref_payload_symbols sf cr false (negb crc) len * ref_symbol_us bw sf in
       let f := (ref_filter bw + 500000) / 1000000 in
       if n =? 0 then - f else n - f - 1).
Proof.
  intros Hs Hb Hc Hl. unfold timestamp_counter_correction. rewrite Hs, Hb, Hc. cbn [negb].
  unfold precision_timestamp_correction. destruct (bw_clocks bw Hb) as (p & -> & _ & _ & -> & _).
  destruct (lora_packet_time_on_air_ref bw sf cr 0 false (negb crc) len Hs Hb Hc) as (ns & _ & ->);
    [lia|done|].
  cstep. cbn [out_nb_symbols_payload out_t_symbol_us].
  apply IS_LORA_DR_range in Hs. apply IS_LORA_CR_range in Hc.
  destruct (symbol_us_exact bw sf Hs (IS_LORA_BW_range bw Hb)) as (_ & _ & _ & Ht).
  pose proof (ref_payload_symbols_bound sf cr false (negb crc) len Hs Hc Hl) as Hn.
  rewrite (proj2 (Z.eqb_neq _ _)).
  2:{ unfold ref_time_on_air_us. intros F. apply Z.div_small_iff in F; [|done].
      set (q := if 7 <=? sf then 17 else 25) in *.
      assert (17 <= q <= 25) by (subst q; destruct (7 <=? sf); lia). nia. }
  set (n := ref_payload_symbols _ _ _ _ _ * _). assert (n = 0 ∨ 64 <= n < 2 ^ 31) by (subst n; nia).
  assert (s32 (u32 (0 + u32 n)) = n) as -> by (rewrite Z.add_0_l, (u32_id n), (u32_id n), s32_id by lia; done).
  by apply trunc_sub_filter.
Qed.
Lemma precision_correction_value_witness :
  timestamp_counter_correction (Some true) BW_125KHZ 12 1 true 20 RX_DFT_PEAK_MODE_AUTO =
  Ret (20 * 2 ^ 15 - 18 - 1).
Proof. by apply (precision_correction_value BW_125KHZ 12 1 true 20 RX_DFT_PEAK_MODE_AUTO). Defined.

(** ** Reading the counters *)

(** A count of 32 MHz ticks as the chip shows it, most significant byte first. *)
Definition tick_bytes (n : Z) : list Z :=
  [n / 2 ^ 24 mod 2 ^ 8; n / 2 ^ 16 mod 2 ^ 8; n / 2 ^ 8 mod 2 ^ 8; n mod 2 ^ 8].
Definition msb (n : Z) : Z := n / 2 ^ 24 mod 2 ^ 8.

Lemma word_of_bytes n :
  u32 (Z.lor (Z.lor (Z.lor (Z.shiftl (n / 2 ^ 24 mod 2 ^ 8) 24) (Z.shiftl (n / 2 ^ 16 mod 2 ^ 8) 16))
                    (Z.shiftl (n / 2 ^ 8 mod 2 ^ 8) 8)) (n mod 2 ^ 8)) = u32 n.
Proof.
  rewrite !shiftl_mul by lia.
  rewrite (lor_shl_add _ (_ * 2 ^ 16)) by cint_lia.
  replace (_ * 2 ^ 24 + _ * 2 ^ 16) with
    ((n / 2 ^ 24 mod 2 ^ 8 * 2 ^ 8 + n / 2 ^ 16 mod 2 ^ 8) * 2 ^ 16) by lia.
  rewrite lor_shl_add by cint_lia.
  replace (_ * 2 ^ 16 + _ * 2 ^ 8) with
    (((n / 2 ^ 24 mod 2 ^ 8 * 2 ^ 8 + n / 2 ^ 16 mod 2 ^ 8) * 2 ^ 8 + n / 2 ^ 8 mod 2 ^ 8) * 2 ^ 8)
    by lia.
  rewrite lor_shl_add by cint_lia. cint_lia.
Qed.
Lemma ticks_us n : Z.quot (u32 n) 32 = n / 32 mod 2 ^ 27.
Proof. pose proof (u32_range n). rewrite Z.quot_div_nonneg by lia. cint_lia. Qed.

(** What a new reading does to the counters and to the history. *)
Lemma reading_update bp bi p0 i0 self h d p i :
  tracks bp p0 (pps self) → tracks bi i0 (inst self) → ring h d →
  p0 <= p / 32 < p0 + 2 ^ 27 → i0 <= i / 32 < i0 + 2 ^ 27 →
  let self' := timestamp_counter_update self (p / 32 mod 2 ^ 27) (i / 32 mod 2 ^ 27) in
  ∃ h', timestamp_pps_history_save h (u32 p) = Ret h' ∧ ring h' (add_pulse d (u32 p)) ∧
    tracks bp (p / 32) (pps self') ∧ tracks bi (i / 32) (inst self') ∧
    timestamp_counter_expand self' false (i / 32 mod 2 ^ 27) = since bi (i / 32) ∧
    timestamp_counter_expand self' true (p / 32 mod 2 ^ 27) = since bp (p / 32).
Proof.
  intros Tp Ti Hr Hp Hi self'. destruct (save_ring h d (u32 p) Hr) as (h' & E & Hr'). exists h'.
  assert (Tp' := update_tracks _ _ _ _ Tp Hp). assert (Ti' := update_tracks _ _ _ _ Ti Hi).
  split_and_all; try done; by apply expand_tracks.
Qed.

Section Get.
Context {W : Type} (spi usb : driver W).

(** In state [s] the 8 bytes of the counters are read as [p] and [i] ticks. *)
Definition reads (s : com_state W) (p i : Z) (s' : com_state W) : Prop :=
  ∀ buf, length buf = 8%nat →
    lgw_reg_rb spi usb s SX1302_REG_TIMESTAMP_TIMESTAMP_PPS_MSB2_TIMESTAMP_PPS (Some buf) =
    (s', (LGW_REG_SUCCESS, Some (tick_bytes p ++ tick_bytes i))).

(** [timestamp_counter_get] takes the first reading when the second one has
    the same most significant bytes, and a third one otherwise; it returns the
    times of that reading in microseconds on the extended 32-bit scale, the
    counters follow the clocks and the PPS count is added to the history. *)
Theorem timestamp_counter_get_time s s1 s2 s3 p1 i1 p2 i2 p3 i3 self h junk junk' bp bi p0 i0 d :
  length junk = 8%nat → length junk' = 8%nat →
  reads s p1 i1 s1 → reads s1 p2 i2 s2 → reads s2 p3 i3 s3 →
  tracks bp p0 (pps self) → tracks bi i0 (inst self) → ring h d →
  let same := (msb p1 =? msb p2) && (msb i1 =? msb i2) in
  let '(s', p, i) := if same then (s2, p1, i1) else (s3, p3, i3) in
  p0 <= p / 32 < p0 + 2 ^ 27 → i0 <= i / 32 < i0 + 2 ^ 27 →
  ∃ self' h', timestamp_counter_get spi usb s self h junk junk' =
      Ret (s', self', h', 0, Some (since bi (i / 32), since bp (p / 32))) ∧
    tracks bp (p / 32) (pps self') ∧ tracks bi (i / 32) (inst self') ∧
    ring h' (add_pulse d (u32 p)).
Proof.
  intros Hj Hj' R1 R2 R3 Tp Ti Hr same. unfold timestamp_counter_get.
  rewrite (R1 _ Hj). cbn [negb Z.eqb LGW_REG_SUCCESS]. rewrite (R2 _ Hj').
  cbn [negb Z.eqb LGW_REG_SUCCESS from_option id].
  change (znth 0 (tick_bytes p1 ++ tick_bytes i1) 0) with (msb p1).
  change (znth 0 (tick_bytes p2 ++ tick_bytes i2) 0) with (msb p2).
  change (znth 0 (tick_bytes p1 ++ tick_bytes i1) 4) with (msb i1).
  change (znth 0 (tick_bytes p2 ++ tick_bytes i2) 4) with (msb i2).
  rewrite <- negb_andb. fold same.
  assert (Hw : ∀ p i, word_at (tick_bytes p ++ tick_bytes i) 0 = u32 p ∧
                      word_at (tick_bytes p ++ tick_bytes i) 4 = u32 i).
  { intros p i. split; apply word_of_bytes. }
  destruct same; cbn [negb]; intros Hp Hi.
  - destruct (reading_update _ _ _ _ _ _ _ p1 i1 Tp Ti Hr Hp Hi) as (h' & E & Hr' & T1 & T2 & E1 & E2).
    destruct (Hw p1 i1) as [-> ->]. rewrite E. cstep. rewrite !ticks_us, E1, E2.
    eexists _, h'. by split_and_all.
  - destruct (reading_update _ _ _ _ _ _ _ p3 i3 Tp Ti Hr Hp Hi) as (h' & E & Hr' & T1 & T2 & E1 & E2).
    rewrite (R3 (tick_bytes p2 ++ tick_bytes i2) eq_refl). cbn [negb Z.eqb LGW_REG_SUCCESS from_option id].
    destruct (Hw p3 i3) as [-> ->]. rewrite E. cstep. rewrite !ticks_us, E1, E2.
    eexists _, h'. by split_and_all.
Qed.
End Get.

Lemma timestamp_counter_get_time_witness :
  let drv := spi_driver ideal in
  let s := Com LGW_COM_SPI true (λ _, 0xA5) in
  ∃ self' h', timestamp_counter_get drv drv s timestamp_counter_new timestamp_pps_history
      (replicate 8 0) (replicate 8 0) =
      Ret (s, self', h', 0, Some (since 0 (0xA5A5A5A5 / 32), since 0 (0xA5A5A5A5 / 32))) ∧
    tracks 0 (0xA5A5A5A5 / 32) (pps self') ∧ tracks 0 (0xA5A5A5A5 / 32) (inst self') ∧
    ring h' (add_pulse [] (u32 0xA5A5A5A5)).
Proof.
  intros drv s.
  assert (R : reads drv drv s 0xA5A5A5A5 0xA5A5A5A5 s).
  { intros buf Hb. do 8 (destruct buf as [|? buf]; [done|]). destruct buf; [|done].
    vm_compute. reflexivity. }
  set (n := 0xA5A5A5A5) in *. assert (Hn : 0 <= n / 32 < 0 + 2 ^ 27) by (vm_compute; done).
  pose proof (timestamp_counter_get_time drv drv s s s s n n n n n n timestamp_counter_new
    timestamp_pps_history (replicate 8 0) (replicate 8 0) 0 0 0 0 [] eq_refl eq_refl R R R
    (conj eq_refl eq_refl) (conj eq_refl eq_refl) ring_init) as H.
  cbv zeta in H. rewrite !Z.eqb_refl in H. cbn [andb] in H. exact (H Hn Hn).
Defined.
