(* ===== verification/Merge.v ===== *)
(** * Removal of duplicates ([libloragw/src/loragw_hal.c])

    With fine time stamps two demodulators decode the same packet.
    [lgw_receive] passes what it received to [merge_packets], which keeps one
    packet of each pair of duplicates and sorts the rest by reception time. *)
From stdpp Require Import base list numbers relations sorting.
From Stdlib Require Import ZArith Lia.
From S2P Require Import Prelude Binary64 HalTypes JitQueue.

Open Scope Z_scope.

(** ** The code *)

Module Rx.
(** A [float] field is its value; this file only moves them. *)
Record lgw_pkt_rx_s := {
  freq_hz : Z; freq_offset : Z; if_chain : Z; status : Z; count_us : Z; rf_chain : Z;
  modem_id : Z; modulation : Z; bandwidth : Z; datarate : Z; coderate : Z;
  rssic : double; rssis : double; snr : double; snr_min : double; snr_max : double; crc : Z;
  size : Z; payload : list Z; ftime_received : bool; ftime : Z }.
End Rx.
Abbreviation lgw_pkt_rx_s := Rx.lgw_pkt_rx_s (only parsing).

(** The arguments are addresses of array elements, never NULL. [abs] of the
    smallest [int] and a comparison beyond the payload array are undefined. *)
Definition is_same_pkt (p1 p2 : lgw_pkt_rx_s) : outcome bool :=
  let d := s32 (u32 (Rx.count_us p1 - Rx.count_us p2)) in
  if d =? - 2 ^ 31 then Undef
  else if negb (Z.abs d <=? 24) then Ret false
  else if negb (Rx.if_chain p1 =? Rx.if_chain p2) then Ret false
  else if negb (Rx.datarate p1 =? Rx.datarate p2) then Ret false
  else if negb (Rx.size p1 =? Rx.size p2) then Ret false
  else if 256 <? Rx.size p1 then Undef
  else Ret (bool_decide (take (Z.to_nat (Rx.size p1)) (Rx.payload p1) =
                         take (Z.to_nat (Rx.size p1)) (Rx.payload p2))).

Definition remove_pkt (p : list lgw_pkt_rx_s) (nb_pkt pkt_index : Z)
  : outcome (list lgw_pkt_rx_s * Z * Z) :=
  if nb_pkt - 1 <? pkt_index then Ret (p, nb_pkt, -1)
  else if pkt_index =? nb_pkt - 1 then Ret (p, u8 (nb_pkt - 1), 0)
  else
    x ← buf_get p (nb_pkt - 1);
    p ← buf_set p pkt_index x;
    Ret (p, u8 (nb_pkt - 1), 0).

Definition compare_pkt_tmst (p q : lgw_pkt_rx_s) : Z :=
  s32 (s32 (Rx.count_us p) - s32 (Rx.count_us q)).

(** Which one of two duplicates is removed. *)
Definition pkt_dup_idx (pj pk : lgw_pkt_rx_s) (j k : Z) : Z :=
  if (Rx.status pj =? STAT_CRC_OK) && (Rx.status pk =? STAT_CRC_BAD) then k
  else if (Rx.status pj =? STAT_CRC_BAD) && (Rx.status pk =? STAT_CRC_OK) then j
  else if Rx.ftime_received pj then k else j.

(** The inner loop, [n] turns from [k]: the first duplicate of packet [j]. *)
Fixpoint find_dup (n : nat) (p : list lgw_pkt_rx_s) (j k : Z) : outcome (option Z) :=
  match n with
  | O => Ret None
  | S n =>
    pj ← buf_get p j;
    pk ← buf_get p k;
    same ← is_same_pkt pj pk;
    if (same : bool) then Ret (Some k) else find_dup n p j (k + 1)
  end.

(** The outer loop; [None] when the fuel is used up. *)
Fixpoint merge_loop (fuel : nat) (p : list lgw_pkt_rx_s) (cpt j : Z)
  : option (outcome (list lgw_pkt_rx_s * Z)) :=
  match fuel with
  | O => None
  | S fuel =>
    if negb (j <? cpt) then Some (Ret (p, cpt))
    else
      match find_dup (Z.to_nat (cpt - (j + 1))) p j (j + 1) with
      | Exit c => Some (Exit c)
      | Undef => Some Undef
      | Ret None => merge_loop fuel p cpt (j + 1)
      | Ret (Some k) =>
        match (pj ← buf_get p j; pk ← buf_get p k; remove_pkt p cpt (pkt_dup_idx pj pk j k)) with
        | Exit c => Some (Exit c)
        | Undef => Some Undef
        | Ret (p, cpt, _) => merge_loop fuel p cpt 0
        end
      end
  end.

Definition merge_fuel (cpt : Z) : nat := Z.to_nat (cpt * (cpt + 1) + cpt + 1).

Section Merge.
Context (qsort : ∀ A, (A → A → Z) → list A → list A).

Definition merge_packets (p : option (list lgw_pkt_rx_s)) (nb_pkt : option Z)
  : option (outcome (list lgw_pkt_rx_s * Z * Z)) :=
  match p, nb_pkt with
  | Some p, Some nb =>
    r ← merge_loop (merge_fuel nb) p nb 0;
    Some ('(p, cpt) ← r;
          Ret (qsort _ compare_pkt_tmst (take (Z.to_nat cpt) p) ++ drop (Z.to_nat cpt) p, cpt, 0))
  | p, nb => Some (Ret (default [] p, default 0 nb, LGW_HAL_ERROR))
  end.
End Merge.

(** ** Specification: which packet gives way to which *)

Definition near (a b : lgw_pkt_rx_s) : bool :=
  Z.abs (s32 (u32 (Rx.count_us a - Rx.count_us b))) <=? 24.
(** The same transmission, decoded twice. *)
Definition same (a b : lgw_pkt_rx_s) : bool :=
  near a b && (Rx.if_chain a =? Rx.if_chain b) && (Rx.datarate a =? Rx.datarate b) &&
  (Rx.size a =? Rx.size b) &&
  bool_decide (take (Z.to_nat (Rx.size a)) (Rx.payload a) = take (Z.to_nat (Rx.size b)) (Rx.payload b)).

(** [a] gives way to [b]: a bad CRC to a good one, and otherwise a packet is
    not dropped for one without fine time stamp if it has one itself. *)
Definition yields (a b : lgw_pkt_rx_s) : Prop :=
  same a b = true ∧
  ((Rx.status a = STAT_CRC_BAD ∧ Rx.status b = STAT_CRC_OK) ∨
   (¬ (Rx.status a = STAT_CRC_OK ∧ Rx.status b = STAT_CRC_BAD) ∧
    (Rx.ftime_received a = true → Rx.ftime_received b = true))).

(** One packet is dropped for another one that stays. *)
Definition drop_step (l l' : list lgw_pkt_rx_s) : Prop :=
  ∃ a b r, l ≡ₚ a :: b :: r ∧ l' ≡ₚ b :: r ∧ yields a b.

(** The packets can be compared: their times are not exactly half a counter
    period apart and their payloads are inside the array. *)
Definition comparable (l : list lgw_pkt_rx_s) : Prop :=
  ∀ a b, a ∈ l → b ∈ l →
    s32 (u32 (Rx.count_us a - Rx.count_us b)) ≠ - 2 ^ 31 ∧ 0 <= Rx.size a <= 256.

Lemma same_sym a b :
  s32 (u32 (Rx.count_us a - Rx.count_us b)) ≠ - 2 ^ 31 → same a b = same b a.
Proof.
  intros Hne. unfold same, near.
  replace (Z.abs (s32 (u32 (Rx.count_us b - Rx.count_us a))))
    with (Z.abs (s32 (u32 (Rx.count_us a - Rx.count_us b)))) by cint_lia.
  rewrite (Z.eqb_sym (Rx.if_chain b)), (Z.eqb_sym (Rx.datarate b)), (Z.eqb_sym (Rx.size b)).
  f_equal. apply bool_decide_ext. split; congruence.
Qed.

Lemma is_same_pkt_same l a b :
  comparable l → a ∈ l → b ∈ l → is_same_pkt a b = Ret (same a b).
Proof.
  intros Hc Ha Hb. destruct (Hc a b Ha Hb) as [Hne Hsz]. unfold is_same_pkt, same, near.
  rewrite (proj2 (Z.eqb_neq _ _)) by done.
  destruct (Z.abs _ <=? 24); [|done]. destruct (Rx.if_chain a =? _); [|done].
  destruct (Rx.datarate a =? _); [|done].
  destruct (Z.eqb_spec (Rx.size a) (Rx.size b)) as [E|]; [|done]. cbn [negb andb].
  rewrite (proj2 (Z.ltb_ge _ _)) by lia. by rewrite E.
Qed.

Lemma comparable_sub l l' : (∀ x, x ∈ l' → x ∈ l) → comparable l → comparable l'.
Proof. intros H Hc a b Ha Hb. apply Hc; auto. Qed.

Lemma perm_replace {A} (m : list A) i a z : m !! i = Some a → m ++ [z] ≡ₚ a :: <[i := z]> m.
Proof.
  intros H. pose proof (lookup_lt_Some _ _ _ H). rewrite insert_take_drop by done.
  rewrite <- (take_drop_middle m i a H) at 1. rewrite <- app_assoc. cbn [app].
  rewrite <- !Permutation_middle. apply perm_skip. rewrite Permutation_app_comm.
  rewrite <- app_assoc. cbn [app]. rewrite Permutation_app_comm. cbn [app].
  by rewrite Permutation_app_comm.
Qed.

(** ** The loops *)

Section Loops.
Context (p : list lgw_pkt_rx_s) (cpt : Z).
(** [l] are the packets the array holds. *)
Context (l : list lgw_pkt_rx_s).
Hypothesis (Hl : take (Z.to_nat cpt) p = l).
Hypothesis (Hcpt : 0 <= cpt <= Z.of_nat (length p)).
Hypothesis (Hcomp : comparable l).

Lemma live_length : Z.of_nat (length l) = cpt.
Proof. rewrite <- Hl, length_take. lia. Qed.
Lemma live_get i x : 0 <= i → l !! Z.to_nat i = Some x → buf_get p i = Ret x.
Proof.
  intros Hi Hx. apply buf_get_lookup; [done|].
  rewrite <- Hl in Hx. by apply lookup_take_Some in Hx as [Hx _].
Qed.

(** [find_dup] returns the first index with a packet like that of index [j]. *)
Lemma find_dup_spec j pj : 0 <= j → l !! Z.to_nat j = Some pj →
  ∀ n k, j < k → k + Z.of_nat n <= cpt →
  ∃ r, find_dup n p j k = Ret r ∧
    match r with
    | Some k' => k <= k' < k + Z.of_nat n ∧ ∃ pk, l !! Z.to_nat k' = Some pk ∧ same pj pk = true
    | None => ∀ k', k <= k' < k + Z.of_nat n →
        ∃ pk, l !! Z.to_nat k' = Some pk ∧ same pj pk = false
    end.
Proof.
  intros Hj Hpj n. pose proof live_length as HL.
  induction n as [|n IH]; intros k Hk Hn; cbn [find_dup].
  - exists None. split; [done|]. intros k' Hk'. lia.
  - destruct (lookup_lt_is_Some_2 l (Z.to_nat k)) as [pk Hpk]; [lia|].
    rewrite (live_get j pj Hj Hpj). cstep. rewrite (live_get k pk) by (done || lia). cstep.
    rewrite (is_same_pkt_same l) by (done || by eapply list_elem_of_lookup_2). cstep.
    destruct (same pj pk) eqn:E.
    + exists (Some k). split; [done|]. split; [lia|]. by exists pk.
    + destruct (IH (k + 1)) as (r & -> & Hr); [lia|lia|]. exists r. split; [done|].
      destruct r as [k'|].
      * destruct Hr as [Hr1 Hr2]. split; [lia|done].
      * intros k' Hk'. destruct (Z.eq_dec k' k) as [->|]; [by exists pk|]. apply Hr. lia.
Qed.

(** Removing index [i]: the last packet takes its place. *)
Lemma remove_pkt_spec i a : 0 <= i → l !! Z.to_nat i = Some a → cpt <= 255 →
  ∃ p', remove_pkt p cpt i = Ret (p', cpt - 1, 0) ∧ length p' = length p ∧
    drop (Z.to_nat cpt) p' = drop (Z.to_nat cpt) p ∧
    l ≡ₚ a :: take (Z.to_nat (cpt - 1)) p'.
Proof.
  intros Hi Ha Hc. pose proof live_length as HL. pose proof (lookup_lt_Some _ _ _ Ha) as Hlt.
  destruct (lookup_lt_is_Some_2 l (Z.to_nat (cpt - 1))) as [z Hz]; [lia|].
  unfold remove_pkt. rewrite (proj2 (Z.ltb_ge _ _)), !u8_id by lia.
  assert (Hsplit : l = take (Z.to_nat (cpt - 1)) l ++ [z]).
  { rewrite <- take_S_r by done. rewrite take_ge; [done|lia]. }
  assert (Htk : take (Z.to_nat (cpt - 1)) p = take (Z.to_nat (cpt - 1)) l).
  { rewrite <- Hl, take_take. f_equal. lia. }
  destruct (Z.eqb_spec i (cpt - 1)) as [->|Hne].
  - exists p. split_and_all; try done. rewrite Htk. rewrite Hsplit at 1.
    assert (a = z) as -> by congruence. by rewrite Permutation_app_comm.
  - rewrite (live_get (cpt - 1) z) by (done || lia). cstep. rewrite buf_set_insert by lia. cstep.
    eexists. split_and_all; [done|by rewrite length_insert| |].
    + by rewrite drop_insert_lt by lia.
    + rewrite take_insert_lt, Htk by lia. rewrite Hsplit at 1. apply perm_replace.
      by rewrite lookup_take_lt by lia.
Qed.
End Loops.

(** No packet before index [j] has a duplicate behind it. *)
Definition clean_to (l : list lgw_pkt_rx_s) (j : nat) : Prop :=
  ∀ i k a b, (i < j)%nat → (i < k)%nat → l !! i = Some a → l !! k = Some b → same a b = false.

(** The packet the code removes yields to the one it keeps. *)
Lemma pkt_dup_idx_yields l j k pj pk :
  comparable l → l !! Z.to_nat j = Some pj → l !! Z.to_nat k = Some pk → same pj pk = true →
  (pkt_dup_idx pj pk j k = k ∧ yields pk pj) ∨ (pkt_dup_idx pj pk j k = j ∧ yields pj pk).
Proof.
  intros Hc Hj Hk Hs. assert (Hs' : same pk pj = true).
  { rewrite <- same_sym; [done|]. eapply Hc; by eapply list_elem_of_lookup_2. }
  unfold pkt_dup_idx, yields, STAT_CRC_OK, STAT_CRC_BAD.
  destruct (Z.eqb_spec (Rx.status pj) 0x10), (Z.eqb_spec (Rx.status pk) 0x11),
    (Z.eqb_spec (Rx.status pj) 0x11), (Z.eqb_spec (Rx.status pk) 0x10),
    (Rx.ftime_received pj) eqn:?; cbn [andb]; try lia;
    (left; split_and_all; [done|done|]; (left; lia) || (right; split; [lia|done])) ||
    (right; split_and_all; [done|done|]; (left; lia) || (right; split; [lia|done])).
Qed.

Lemma yields_drop_step (l r : list lgw_pkt_rx_s) i k a b :
  i ≠ k → l !! i = Some a → l !! k = Some b → l ≡ₚ a :: r → yields a b → drop_step l r.
Proof.
  intros Hne Hi Hk Hp Hy. exists a, b.
  assert (∃ r', l ≡ₚ a :: b :: r') as [r' Hr'].
  { pose proof (delete_Permutation l i a Hi) as Hd.
    assert (b ∈ delete i l) as [r' Hr']%elem_of_Permutation.
    { apply list_elem_of_lookup. destruct (Nat.lt_ge_cases k i).
      - exists k. by rewrite list_lookup_delete_lt by lia.
      - exists (k - 1)%nat. rewrite list_lookup_delete_ge by lia. by replace (S (k - 1)) with k by lia. }
    exists r'. by rewrite Hd, Hr'. }
  exists r'. split_and_all; [done| |done].
  apply (Permutation_cons_inv (a := a)). by rewrite <- Hp, Hr'.
Qed.

Lemma merge_loop_spec fuel : ∀ p cpt j,
  0 <= j <= cpt → cpt <= Z.of_nat (length p) → cpt <= 255 → comparable (take (Z.to_nat cpt) p) →
  cpt * (cpt + 1) + (cpt - j) + 1 <= Z.of_nat fuel →
  clean_to (take (Z.to_nat cpt) p) (Z.to_nat j) →
  ∃ p' cpt', merge_loop fuel p cpt j = Some (Ret (p', cpt')) ∧ 0 <= cpt' <= cpt ∧
    length p' = length p ∧ rtc drop_step (take (Z.to_nat cpt) p) (take (Z.to_nat cpt') p') ∧
    clean_to (take (Z.to_nat cpt') p') (Z.to_nat cpt').
Proof.
  induction fuel as [|fuel IH]; intros p cpt j Hj Hcp Hc Hcomp Hf Hcl; [nia|].
  cbn [merge_loop]. set (l := take (Z.to_nat cpt) p) in *.
  pose proof (live_length p cpt l eq_refl ltac:(lia)) as HL.
  destruct (Z.ltb_spec j cpt) as [Hlt|Hge]; cbn [negb].
  2:{ exists p, cpt. assert (j = cpt) as -> by lia. split_and_all; try done; lia || constructor. }
  destruct (lookup_lt_is_Some_2 l (Z.to_nat j)) as [pj Hpj]; [lia|].
  destruct (find_dup_spec p cpt l eq_refl ltac:(lia) Hcomp j pj ltac:(lia) Hpj
    (Z.to_nat (cpt - (j + 1))) (j + 1)) as (r & -> & Hr); [lia|lia|]. destruct r as [k|].
  - destruct Hr as (Hk & pk & Hpk & Hs).
    rewrite (live_get p cpt l eq_refl j pj) by (done || lia). cstep.
    rewrite (live_get p cpt l eq_refl k pk) by (done || lia). cstep.
    set (d := pkt_dup_idx pj pk j k).
    assert (∃ a b i2, l !! Z.to_nat d = Some a ∧ l !! i2 = Some b ∧ Z.to_nat d ≠ i2 ∧ yields a b ∧ 0 <= d)
      as (a & b & i2 & Ha & Hb & Hne & Hy & Hd).
    { destruct (pkt_dup_idx_yields l j k pj pk Hcomp Hpj Hpk Hs) as [[E Y]|[E Y]]; subst d; rewrite E.
      - exists pk, pj, (Z.to_nat j). split_and_all; try done; lia.
      - exists pj, pk, (Z.to_nat k). split_and_all; try done; lia. }
    destruct (remove_pkt_spec p cpt l eq_refl ltac:(lia) d a Hd Ha Hc) as (p1 & -> & L1 & _ & P1).
    assert (Hst : drop_step l (take (Z.to_nat (cpt - 1)) p1)) by (by eapply yields_drop_step).
    destruct (IH p1 (cpt - 1) 0) as (p' & c' & -> & Hc' & L' & R' & C'); [lia|lia|lia| |nia| |].
    { eapply comparable_sub; [|exact Hcomp]. intros x Hx. rewrite P1. by right. }
    { intros i k' a' b' Hi. lia. }
    exists p', c'. split_and_all; try done; try lia. by eapply rtc_l.
  - destruct (IH p cpt (j + 1)) as (p' & c' & -> & H'); try lia; [done| |by exists p', c'].
    intros i k a b Hi Hik Ha Hb. fold l in Ha, Hb. destruct (decide (i < Z.to_nat j)%nat).
    { by apply (Hcl i k). }
    assert (i = Z.to_nat j) as -> by lia. assert (a = pj) as -> by congruence.
    pose proof (lookup_lt_Some _ _ _ Hb). destruct (Hr (Z.of_nat k)) as (pk & Hpk & Hf'); [lia|].
    rewrite Nat2Z.id in Hpk. assert (b = pk) as -> by congruence. done.
Qed.

(** ** The result *)

(** No two packets are the same transmission. *)
Definition no_duplicates (l : list lgw_pkt_rx_s) : Prop :=
  ∀ a b r, l ≡ₚ a :: b :: r → same a b = false.

Lemma clean_no_duplicates l :
  comparable l → clean_to l (length l) → no_duplicates l.
Proof.
  intros Hc Hcl a b r Hp.
  destruct (proj1 (Permutation_inj _ _) (symmetry Hp)) as (_ & f & Hf & Hlk).
  assert (Ha : l !! f 0%nat = Some a) by (by rewrite <- Hlk).
  assert (Hb : l !! f 1%nat = Some b) by (by rewrite <- Hlk).
  assert (f 0%nat ≠ f 1%nat) by (intros E; by apply Hf in E).
  pose proof (lookup_lt_Some _ _ _ Ha). pose proof (lookup_lt_Some _ _ _ Hb).
  destruct (Nat.lt_ge_cases (f 0%nat) (f 1%nat)).
  - by apply (Hcl (f 0%nat) (f 1%nat)).
  - rewrite same_sym; [apply (Hcl (f 1%nat) (f 0%nat)); done || lia|].
    eapply Hc; by eapply list_elem_of_lookup_2.
Qed.

Lemma drop_steps_sub l l' : rtc drop_step l l' → ∀ x, x ∈ l' → x ∈ l.
Proof.
  induction 1 as [|l1 l2 l3 (a & b & r & H1 & H2 & _) _ IH]; [done|].
  intros x Hx%IH. rewrite H2 in Hx. rewrite H1. by right.
Qed.
(** A packet gives way to another one of [l]. *)
Definition gives_way (l : list lgw_pkt_rx_s) (a b : lgw_pkt_rx_s) : Prop := b ∈ l ∧ yields a b.
Lemma drop_steps_yield l0 l l' :
  rtc drop_step l l' → (∀ x, x ∈ l → x ∈ l0) → ∀ x, x ∈ l → ∃ y, y ∈ l' ∧ rtc (gives_way l0) x y.
Proof.
  induction 1 as [l|l1 l2 l3 (a & b & r & H1 & H2 & Hy) _ IH]; intros Hsub x Hx; [by exists x|].
  assert (Hsub2 : ∀ z, z ∈ l2 → z ∈ l0) by (intros z Hz; apply Hsub; rewrite H1; right; by rewrite <- H2).
  rewrite H1 in Hx. apply elem_of_cons in Hx as [->|Hx].
  - assert (Hb : b ∈ l2) by (rewrite H2; by left). destruct (IH Hsub2 b Hb) as (y & Hy1 & Hy2). exists y. split; [done|].
    eapply rtc_l; [|done]. split; [by apply Hsub2|done].
  - apply (IH Hsub2). by rewrite H2.
Qed.

(** The same frame on the same channel. *)
Definition same_frame (a b : lgw_pkt_rx_s) : Prop :=
  Rx.if_chain a = Rx.if_chain b ∧ Rx.datarate a = Rx.datarate b ∧ Rx.size a = Rx.size b ∧
  take (Z.to_nat (Rx.size a)) (Rx.payload a) = take (Z.to_nat (Rx.size b)) (Rx.payload b).
Lemma same_same_frame a b : same a b = true → same_frame a b.
Proof.
  unfold same. intros [[[[_ H1%Z.eqb_eq]%andb_true_iff H2%Z.eqb_eq]%andb_true_iff H3%Z.eqb_eq]%andb_true_iff
    H4%bool_decide_eq_true]%andb_true_iff. done.
Qed.
Lemma gives_way_frame l x y : rtc (gives_way l) x y → same_frame x y.
Proof.
  induction 1 as [x|x z y [_ [Hs _]] _ (H1 & H2 & H3 & H4)]; [done|].
  apply same_same_frame in Hs as (G1 & G2 & G3 & G4). unfold same_frame; split_and_all; congruence.
Qed.
Definition crc_checked (x : lgw_pkt_rx_s) : Prop := Rx.status x = STAT_CRC_OK ∨ Rx.status x = STAT_CRC_BAD.
Lemma gives_way_better l x y :
  (∀ z, z ∈ l → crc_checked z) → crc_checked x → rtc (gives_way l) x y →
  (Rx.status x = STAT_CRC_OK → Rx.status y = STAT_CRC_OK) ∧
  (Rx.status x = Rx.status y → Rx.ftime_received x = true → Rx.ftime_received y = true).
Proof.
  intros Hl Hx H. revert Hx. induction H as [x|x z y [Hz [_ Hy]] _ IH]; intros Hx; [done|].
  destruct (IH (Hl z Hz)) as [I1 I2]. specialize (Hl z Hz). unfold crc_checked, STAT_CRC_OK, STAT_CRC_BAD in *.
  assert (Rx.status x = 0x10 → Rx.status z = 0x10) by (intros; destruct Hy as [[? ?]|[Hn _]]; [lia|];
    destruct Hl as [|E]; [done|]; by destruct Hn).
  split; [tauto|]. intros Hs Hf. destruct Hy as [[Hx' Hz']|[_ Hf']]; [rewrite I1 in Hs by done; lia|].
  apply I2; [|by apply Hf']. destruct Hx as [Ex|Ex]; [by rewrite <- Hs, H, Ex|]. destruct Hl as [Ez|Ez]; [|congruence].
  rewrite I1 in Hs by done. lia.
Qed.

(** In a window of half a counter period [compare_pkt_tmst] orders by time. *)
Definition age (base : Z) (x : lgw_pkt_rx_s) : Z := u32 (Rx.count_us x - base).
Lemma compare_tmst_window base x y :
  age base x < 2 ^ 31 → age base y < 2 ^ 31 → compare_pkt_tmst x y = age base x - age base y.
Proof. unfold age, compare_pkt_tmst. intros Hx Hy. cint_lia. Qed.
Lemma window_comparable base l :
  Forall (λ x, age base x < 2 ^ 31 ∧ 0 <= Rx.size x <= 256) l → comparable l.
Proof.
  intros H a b Ha Hb. rewrite List.Forall_forall in H.
  destruct (H a) as [Wa Sa]; [by apply list_elem_of_In|].
  destruct (H b) as [Wb Sb]; [by apply list_elem_of_In|].
  split; [|done]. unfold age in *. cint_lia.
Qed.

Lemma sorted_by_age base l :
  (∀ x, x ∈ l → age base x < 2 ^ 31) → StronglySorted (λ x y, compare_pkt_tmst x y <= 0) l →
  StronglySorted (λ x y, age base x <= age base y) l.
Proof.
  intros Hw Hs. induction Hs as [|x l Hs IH Hx]; constructor.
  - apply IH. intros y Hy. apply Hw. by right.
  - apply List.Forall_forall. intros y Hy. rewrite List.Forall_forall in Hx. specialize (Hx y Hy).
    rewrite (compare_tmst_window base) in Hx; [lia| |]; apply Hw; [by left|].
    right. by apply list_elem_of_In.
Qed.

(** C24. [merge_packets] ends, for any packets received within half a period of
    the counter, and keeps a selection of them sorted by reception time in
    which no two packets are the same transmission. Every received packet is
    kept or gave way, directly or through other received packets, to a kept one
    with the same frame on the same channel: in each step both were received within
    24 microseconds, and either the CRC of the one dropped was bad and that of the
    other good, or the opposite was not the case and a fine time stamp was not lost.
    So when every packet has a checked CRC, no good packet gives way to a bad one, and
    of packets with the same CRC status none with a fine time stamp to one
    without. *)
Theorem merge_packets_dedup qsort `{!Qsort qsort} p nb base :
  0 <= nb <= 255 → nb <= Z.of_nat (length p) →
  Forall (λ x, age base x < 2 ^ 31 ∧ 0 <= Rx.size x <= 256) (take (Z.to_nat nb) p) →
  let received := take (Z.to_nat nb) p in
  ∃ kept rest,
    merge_packets qsort (Some p) (Some nb) =
      Some (Ret (kept ++ rest, Z.of_nat (length kept), 0)) ∧
    length (kept ++ rest) = length p ∧
    (∀ x, x ∈ kept → x ∈ received) ∧
    (∀ x, x ∈ received → ∃ y, y ∈ kept ∧ rtc (gives_way received) x y ∧ same_frame x y ∧
       ((∀ z, z ∈ received → crc_checked z) →
        (Rx.status x = STAT_CRC_OK → Rx.status y = STAT_CRC_OK) ∧
        (Rx.status x = Rx.status y → Rx.ftime_received x = true → Rx.ftime_received y = true))) ∧
    no_duplicates kept ∧ StronglySorted (λ x y, age base x <= age base y) kept.
Proof.
  intros Hnb Hlen Hw received. pose proof (window_comparable base _ Hw) as Hcomp.
  destruct (merge_loop_spec (merge_fuel nb) p nb 0) as (p' & c & E & Hc & L & R & C);
    [lia|done|lia|done|unfold merge_fuel; nia|intros i k a b Hi; lia|].
  set (l := take (Z.to_nat c) p') in *.
  assert (Ll : Z.of_nat (length l) = c) by (subst l; rewrite length_take; lia).
  assert (Hsub := drop_steps_sub _ _ R).
  assert (Hage : ∀ x, x ∈ l → age base x < 2 ^ 31).
  { intros x Hx%Hsub%list_elem_of_In. rewrite List.Forall_forall in Hw. by apply Hw. }
  pose proof (qsort_perm _ compare_pkt_tmst l) as Hp.
  exists (qsort _ compare_pkt_tmst l), (drop (Z.to_nat c) p'). split_and_all.
  - unfold merge_packets. rewrite E. cbn. fold l.
    by rewrite (Permutation_length Hp), Ll.
  - rewrite length_app, Hp, length_drop. lia.
  - intros x. rewrite Hp. apply Hsub.
  - intros x Hx. destruct (drop_steps_yield received _ _ R (λ z Hz, Hz) x Hx) as (y & Hy & Hr). exists y.
    rewrite Hp. split; [done|]. split; [done|]. split; [by eapply gives_way_frame|]. intros Hcrc.
    apply (gives_way_better received); auto.
  - intros a b r. rewrite Hp. apply clean_no_duplicates.
    + by eapply comparable_sub.
    + replace (length l) with (Z.to_nat c) by lia. done.
  - apply sorted_by_age; [intros x; rewrite Hp; apply Hage|]. apply qsort_sorted. split.
    + intros x y Hx Hy. rewrite !(compare_tmst_window base) by auto. lia.
    + intros x y z Hx Hy Hz. rewrite !(compare_tmst_window base) by auto. lia.
Qed.

Definition demo_rx (t st : Z) (fine : bool) : lgw_pkt_rx_s :=
  {| Rx.freq_hz := 868100000; Rx.freq_offset := 0; Rx.if_chain := 1; Rx.status := st;
     Rx.count_us := t; Rx.rf_chain := 0; Rx.modem_id := 3; Rx.modulation := MOD_LORA;
     Rx.bandwidth := BW_125KHZ; Rx.datarate := 7; Rx.coderate := 1; Rx.rssic := Dbl 0 0; Rx.rssis := Dbl 0 0;
     Rx.snr := Dbl 0 0; Rx.snr_min := Dbl 0 0; Rx.snr_max := Dbl 0 0; Rx.crc := 0; Rx.size := 2;
     Rx.payload := replicate 256 7; Rx.ftime_received := fine; Rx.ftime := 0 |}.

Lemma merge_packets_dedup_witness :
  let p := [demo_rx 500 STAT_CRC_OK false; demo_rx 10 STAT_CRC_OK true; demo_rx 510 STAT_CRC_OK true] in
  ∃ kept rest,
    merge_packets isort (Some p) (Some 3) = Some (Ret (kept ++ rest, Z.of_nat (length kept), 0)) ∧
    length (kept ++ rest) = 3%nat ∧ (∀ x, x ∈ kept → x ∈ p) ∧
    (∀ x, x ∈ p → ∃ y, y ∈ kept ∧ rtc (gives_way p) x y ∧ same_frame x y ∧
       ((∀ z, z ∈ p → crc_checked z) →
        (Rx.status x = STAT_CRC_OK → Rx.status y = STAT_CRC_OK) ∧
        (Rx.status x = Rx.status y → Rx.ftime_received x = true → Rx.ftime_received y = true))) ∧
    no_duplicates kept ∧ StronglySorted (λ x y, age 0 x <= age 0 y) kept.
Proof.
  apply (merge_packets_dedup isort
    [demo_rx 500 STAT_CRC_OK false; demo_rx 10 STAT_CRC_OK true; demo_rx 510 STAT_CRC_OK true] 3 0).
  - lia.
  - cbn. lia.
  - cbn. repeat (apply List.Forall_cons; [cbn; unfold age; cbn; cint_lia|]). apply List.Forall_nil.
Defined.

(** A packet with a good CRC gives way to one whose CRC was not checked, although
    the code says that the packet with a checked CRC is kept
    ([loragw_hal.c:362]): neither status is that of a bad CRC, and without a fine
    time stamp the first of the two is removed. *)
Example merge_drops_checked_crc :
  merge_packets isort (Some [demo_rx 500 STAT_CRC_OK false; demo_rx 510 STAT_NO_CRC false]) (Some 2) =
    Some (Ret ([demo_rx 510 STAT_NO_CRC false; demo_rx 510 STAT_NO_CRC false], 1, 0)).
Proof. vm_compute. reflexivity. Qed.
