(* ===== verification/HalConf.v ===== *)
(** * Configuration of the concentrator ([libloragw/src/loragw_hal.c])

    The [_setconf] functions check the configuration and store it in the
    global [lgw_context], which [lgw_start] and [lgw_send] take to be valid. *)
From stdpp Require Import base list numbers relations.
From Stdlib Require Import ZArith Lia.
From S2P Require Import Prelude Binary64 HalTypes Com.

Open Scope Z_scope.

Definition LGW_MULTI_SF_EN : Z := 0xFF.
Definition LGW_RF_RX_BANDWIDTH_125KHZ : Z := 1600000.
Definition LGW_RF_RX_BANDWIDTH_250KHZ : Z := 1600000.
Definition LGW_RF_RX_BANDWIDTH_500KHZ : Z := 1600000.
Definition LGW_RF_RX_FREQ_MIN : Z := 100000000.
Definition LGW_RF_RX_FREQ_MAX : Z := 1000000000.
Definition IF_UNDEFINED : Z := 0.
Definition IF_LORA_STD : Z := 0x10.
Definition IF_LORA_MULTI : Z := 0x11.
Definition IF_FSK_STD : Z := 0x20.
Definition LGW_LBT_SCAN_TIME_128_US : Z := 128.
Definition LGW_LBT_SCAN_TIME_5000_US : Z := 5000.

(** [strncpy(dst, s, n)] followed by the termination of [dst]; a C string is
    the list of its characters without the final NUL. *)
Definition strncpy_term (s : list Z) (n : nat) : list Z :=
  take (n - 1) (s ++ replicate n 0) ++ [0].

(** ** Structures. A [float] is its bit pattern. *)

Module Board.
Record lgw_conf_board_s := {
  lorawan_public : bool; clksrc : Z; full_duplex : bool; com_type : lgw_com_type_t;
  com_path : list Z }.
End Board.
Module Rxrf.
Record lgw_rssi_tcomp_s := {
  coeff_a : double; coeff_b : double; coeff_c : double; coeff_d : double; coeff_e : double }.
Record lgw_conf_rxrf_s := {
  enable : bool; freq_hz : Z; rssi_offset : double; rssi_tcomp : lgw_rssi_tcomp_s;
  type : lgw_radio_type_t; tx_enable : bool; single_input_mode : bool }.
Definition zero : lgw_conf_rxrf_s :=
  {| enable := false; freq_hz := 0; rssi_offset := Dbl 0 0;
     rssi_tcomp := {| coeff_a := Dbl 0 0; coeff_b := Dbl 0 0; coeff_c := Dbl 0 0; coeff_d := Dbl 0 0;
                      coeff_e := Dbl 0 0 |};
     type := LGW_RADIO_TYPE_NONE; tx_enable := false; single_input_mode := false |}.
End Rxrf.
Module Rxif.
Record lgw_conf_rxif_s := Conf {
  enable : bool; rf_chain : Z; freq_hz : Z; bandwidth : Z; datarate : Z; sync_word_size : Z;
  sync_word : Z; implicit_hdr : bool; implicit_payload_length : Z; implicit_crc_en : bool;
  implicit_coderate : Z }.
Definition zero : lgw_conf_rxif_s := Conf false 0 0 0 0 0 0 false 0 false 0.
(** The assignments of the code to single fields. *)
Definition set_chain (e : bool) (rf f : Z) (c : lgw_conf_rxif_s) : lgw_conf_rxif_s :=
  Conf e rf f (bandwidth c) (datarate c) (sync_word_size c) (sync_word c) (implicit_hdr c)
    (implicit_payload_length c) (implicit_crc_en c) (implicit_coderate c).
Definition set_bw_dr (bw dr : Z) (c : lgw_conf_rxif_s) : lgw_conf_rxif_s :=
  Conf (enable c) (rf_chain c) (freq_hz c) bw dr (sync_word_size c) (sync_word c) (implicit_hdr c)
    (implicit_payload_length c) (implicit_crc_en c) (implicit_coderate c).
Definition set_implicit (h : bool) (l : Z) (crc : bool) (cr : Z) (c : lgw_conf_rxif_s)
  : lgw_conf_rxif_s :=
  Conf (enable c) (rf_chain c) (freq_hz c) (bandwidth c) (datarate c) (sync_word_size c)
    (sync_word c) h l crc cr.
Definition set_sync (sz w : Z) (c : lgw_conf_rxif_s) : lgw_conf_rxif_s :=
  Conf (enable c) (rf_chain c) (freq_hz c) (bandwidth c) (datarate c) sz w (implicit_hdr c)
    (implicit_payload_length c) (implicit_crc_en c) (implicit_coderate c).
End Rxif.
Module Gain.
Record lgw_tx_gain_s := {
  rf_power : Z; dig_gain : Z; pa_gain : Z; dac_gain : Z; mix_gain : Z; offset_i : Z;
  offset_q : Z; pwr_idx : Z }.
Record lgw_tx_gain_lut_s := Lut { lut : list lgw_tx_gain_s; size : Z }.
Definition zero : lgw_tx_gain_s :=
  {| rf_power := 0; dig_gain := 0; pa_gain := 0; dac_gain := 0; mix_gain := 0; offset_i := 0;
     offset_q := 0; pwr_idx := 0 |}.
Definition initial : lgw_tx_gain_lut_s :=
  Lut ({| rf_power := 14; dig_gain := 0; pa_gain := 2; dac_gain := 3; mix_gain := 10;
          offset_i := 0; offset_q := 0; pwr_idx := 0 |} :: replicate 15 zero) 1.
End Gain.
Module Dbg.
Record conf_ref_payload_s := Ref { id : Z; payload : list Z; prev_cnt : Z }.
Record lgw_conf_debug_s := {
  nb_ref_payload : Z; ref_payload : list conf_ref_payload_s; log_file_name : list Z }.
End Dbg.
Module Lbt.
Record lgw_conf_chan_lbt_s := {
  freq_hz : Z; bandwidth : Z; scan_time_us : Z; transmit_time_ms : Z }.
Record lgw_conf_lbt_s := Conf {
  enable : bool; rssi_target : Z; nb_channel : Z; channels : list lgw_conf_chan_lbt_s }.
End Lbt.
Module Sx1261.
Record lgw_conf_sx1261_s := Conf {
  enable : bool; spi_path : list Z; rssi_offset : Z; lbt_conf : Lbt.lgw_conf_lbt_s }.
End Sx1261.
Inductive lgw_ftime_mode_t := LGW_FTIME_MODE_HIGH_CAPACITY | LGW_FTIME_MODE_ALL_SF.
Record lgw_conf_ftime_s := Ftime { ftime_enable : bool; ftime_mode : lgw_ftime_mode_t }.

Record lgw_context_s := Context {
  is_started : bool; board_cfg : Board.lgw_conf_board_s;
  rf_chain_cfg : list Rxrf.lgw_conf_rxrf_s; if_chain_cfg : list Rxif.lgw_conf_rxif_s;
  multisf_datarate : Z; lora_service_cfg : Rxif.lgw_conf_rxif_s; fsk_cfg : Rxif.lgw_conf_rxif_s;
  tx_gain_lut : list Gain.lgw_tx_gain_lut_s; ftime_cfg : lgw_conf_ftime_s;
  sx1261_cfg : Sx1261.lgw_conf_sx1261_s; debug_cfg : Dbg.lgw_conf_debug_s }.

(** The initial value of the static [lgw_context]; the paths are the ASCII
    codes of the source's strings. *)
Definition dev_spidev00 : list Z := [47; 100; 101; 118; 47; 115; 112; 105; 100; 101; 118; 48; 46; 48].
Definition dev_spidev01 : list Z := [47; 100; 101; 118; 47; 115; 112; 105; 100; 101; 118; 48; 46; 49].
Definition loragw_hal_log : list Z := [108; 111; 114; 97; 103; 119; 95; 104; 97; 108; 46; 108; 111; 103].
Definition lgw_context : lgw_context_s :=
  {| is_started := false;
     board_cfg := {| Board.lorawan_public := true; Board.clksrc := 0; Board.full_duplex := false;
                     Board.com_type := LGW_COM_SPI; Board.com_path := strncpy_term dev_spidev00 64 |};
     rf_chain_cfg := replicate 2 Rxrf.zero; if_chain_cfg := replicate 10 Rxif.zero;
     multisf_datarate := LGW_MULTI_SF_EN;
     lora_service_cfg := Rxif.Conf false 0 0 BW_250KHZ DR_LORA_SF7 0 0 false 0 false 0;
     fsk_cfg := Rxif.Conf false 0 0 BW_125KHZ 50000 3 0xC194C1 false 0 false 0;
     tx_gain_lut := [Gain.initial; Gain.initial];
     ftime_cfg := Ftime false LGW_FTIME_MODE_ALL_SF;
     sx1261_cfg := Sx1261.Conf false (strncpy_term dev_spidev01 64) 0
       (Lbt.Conf false 0 0 (replicate 16 {| Lbt.freq_hz := 0; Lbt.bandwidth := 0;
                                            Lbt.scan_time_us := 0; Lbt.transmit_time_ms := 0 |}));
     debug_cfg := {| Dbg.nb_ref_payload := 0;
                     Dbg.ref_payload := replicate 16 (Dbg.Ref 0 (replicate 255 0) 0);
                     Dbg.log_file_name := strncpy_term loragw_hal_log 128 |} |}.

(** ** The code *)

Definition lgw_bw_getval (x : Z) : Z :=
  if x =? BW_500KHZ then 500000 else if x =? BW_250KHZ then 250000
  else if x =? BW_125KHZ then 125000 else -1.
Definition lgw_sf_getval (x : Z) : Z := if IS_LORA_DR x then x else -1.

(** [ifmod_config] of [loragw_sx1302.c]. *)
Definition ifmod_config : list Z := replicate 8 IF_LORA_MULTI ++ [IF_LORA_STD; IF_FSK_STD].
Definition sx1302_get_ifmod_config (if_chain : Z) : outcome Z := buf_get ifmod_config if_chain.

Definition set_board (x : Board.lgw_conf_board_s) (c : lgw_context_s) : lgw_context_s :=
  Context (is_started c) x (rf_chain_cfg c) (if_chain_cfg c) (multisf_datarate c)
    (lora_service_cfg c) (fsk_cfg c) (tx_gain_lut c) (ftime_cfg c) (sx1261_cfg c) (debug_cfg c).
Definition set_rf (x : list Rxrf.lgw_conf_rxrf_s) (c : lgw_context_s) : lgw_context_s :=
  Context (is_started c) (board_cfg c) x (if_chain_cfg c) (multisf_datarate c)
    (lora_service_cfg c) (fsk_cfg c) (tx_gain_lut c) (ftime_cfg c) (sx1261_cfg c) (debug_cfg c).
Definition set_if (x : list Rxif.lgw_conf_rxif_s) (c : lgw_context_s) : lgw_context_s :=
  Context (is_started c) (board_cfg c) (rf_chain_cfg c) x (multisf_datarate c)
    (lora_service_cfg c) (fsk_cfg c) (tx_gain_lut c) (ftime_cfg c) (sx1261_cfg c) (debug_cfg c).
Definition set_modems (ls fsk : Rxif.lgw_conf_rxif_s) (c : lgw_context_s) : lgw_context_s :=
  Context (is_started c) (board_cfg c) (rf_chain_cfg c) (if_chain_cfg c) (multisf_datarate c)
    ls fsk (tx_gain_lut c) (ftime_cfg c) (sx1261_cfg c) (debug_cfg c).
Definition set_lut (x : list Gain.lgw_tx_gain_lut_s) (c : lgw_context_s) : lgw_context_s :=
  Context (is_started c) (board_cfg c) (rf_chain_cfg c) (if_chain_cfg c) (multisf_datarate c)
    (lora_service_cfg c) (fsk_cfg c) x (ftime_cfg c) (sx1261_cfg c) (debug_cfg c).
Definition set_misc (sf : Z) (ft : lgw_conf_ftime_s) (sx : Sx1261.lgw_conf_sx1261_s)
    (dbg : Dbg.lgw_conf_debug_s) (c : lgw_context_s) : lgw_context_s :=
  Context (is_started c) (board_cfg c) (rf_chain_cfg c) (if_chain_cfg c) sf
    (lora_service_cfg c) (fsk_cfg c) (tx_gain_lut c) ft sx dbg.

Definition lgw_board_setconf (c : lgw_context_s) (conf : option Board.lgw_conf_board_s)
  : lgw_context_s * Z :=
  match conf with
  | None => (c, LGW_HAL_ERROR)
  | Some conf =>
    if is_started c then (c, LGW_HAL_ERROR)
    else match Board.com_type conf with
    | LGW_COM_UNKNOWN => (c, LGW_HAL_ERROR)
    | ty =>
      (set_board {| Board.lorawan_public := Board.lorawan_public conf;
                    Board.clksrc := Board.clksrc conf;
                    Board.full_duplex := Board.full_duplex conf; Board.com_type := ty;
                    Board.com_path := strncpy_term (Board.com_path conf) 64 |} c,
       LGW_HAL_SUCCESS)
    end
  end.

Definition lgw_rxrf_setconf (c : lgw_context_s) (rf_chain : Z) (conf : option Rxrf.lgw_conf_rxrf_s)
  : outcome (lgw_context_s * Z) :=
  match conf with
  | None => Ret (c, LGW_HAL_ERROR)
  | Some conf =>
    if is_started c then Ret (c, LGW_HAL_ERROR)
    else if negb (Rxrf.enable conf) then Ret (c, LGW_HAL_SUCCESS)
    else if LGW_RF_CHAIN_NB <=? rf_chain then Ret (c, LGW_HAL_ERROR)
    else if negb (bool_decide (Rxrf.type conf = LGW_RADIO_TYPE_SX1255)) &&
            negb (bool_decide (Rxrf.type conf = LGW_RADIO_TYPE_SX1257)) &&
            negb (bool_decide (Rxrf.type conf = LGW_RADIO_TYPE_SX1250))
    then Ret (c, LGW_HAL_ERROR)
    else if (Rxrf.freq_hz conf <? LGW_RF_RX_FREQ_MIN) || (LGW_RF_RX_FREQ_MAX <? Rxrf.freq_hz conf)
    then Ret (c, LGW_HAL_ERROR)
    else
      l ← buf_set (rf_chain_cfg c) rf_chain conf;
      Ret (set_rf l c, LGW_HAL_SUCCESS)
  end.

(** The bandwidth the IF frequency is checked with. *)
Definition checked_bw (bandwidth : Z) : Z :=
  let bw_hz := lgw_bw_getval bandwidth in if bw_hz =? -1 then LGW_REF_BW else bw_hz.
Definition rf_rx_bandwidth (bandwidth : Z) : Z :=
  if bandwidth =? BW_250KHZ then LGW_RF_RX_BANDWIDTH_250KHZ
  else if bandwidth =? BW_500KHZ then LGW_RF_RX_BANDWIDTH_500KHZ
  else LGW_RF_RX_BANDWIDTH_125KHZ.

(** Defaults for an undefined bandwidth and data rate. *)
Definition fill_default (bw dr : Z) (conf : Rxif.lgw_conf_rxif_s) : Rxif.lgw_conf_rxif_s :=
  Rxif.set_bw_dr (if Rxif.bandwidth conf =? BW_UNDEFINED then bw else Rxif.bandwidth conf)
                 (if Rxif.datarate conf =? DR_UNDEFINED then dr else Rxif.datarate conf) conf.

(** The commit of the chain's own fields. *)
Definition commit_chain (c : lgw_context_s) (if_chain : Z) (conf : Rxif.lgw_conf_rxif_s)
  : outcome lgw_context_s :=
  old ← buf_get (if_chain_cfg c) if_chain;
  l ← buf_set (if_chain_cfg c) if_chain
        (Rxif.set_chain (Rxif.enable conf) (Rxif.rf_chain conf) (Rxif.freq_hz conf) old);
  Ret (set_if l c).

(** The configuration the pointer designates is changed when defaults are
    filled in; the result holds it as it is after the call. *)
Definition lgw_rxif_setconf (c : lgw_context_s) (if_chain : Z)
    (conf : option Rxif.lgw_conf_rxif_s)
  : outcome (lgw_context_s * option Rxif.lgw_conf_rxif_s * Z) :=
  match conf with
  | None => Ret (c, None, LGW_HAL_ERROR)
  | Some conf =>
    let err conf := Ret (c, Some conf, LGW_HAL_ERROR) in
    if is_started c then err conf
    else if LGW_IF_CHAIN_NB <=? if_chain then err conf
    else if negb (Rxif.enable conf) then
      old ← buf_get (if_chain_cfg c) if_chain;
      l ← buf_set (if_chain_cfg c) if_chain (Rxif.set_chain false (Rxif.rf_chain old) 0 old);
      Ret (set_if l c, Some conf, LGW_HAL_SUCCESS)
    else if LGW_RF_CHAIN_NB <=? Rxif.rf_chain conf then err conf
    else
      let bw := checked_bw (Rxif.bandwidth conf) in
      let half := Z.quot (rf_rx_bandwidth (Rxif.bandwidth conf)) 2 in
      hi ← int_ok (Rxif.freq_hz conf + Z.quot bw 2);
      if half <? hi then err conf
      else
        lo ← int_ok (Rxif.freq_hz conf - Z.quot bw 2);
        if lo <? - half then err conf
        else
          ty ← sx1302_get_ifmod_config if_chain;
          if ty =? IF_LORA_STD then
            let conf := fill_default BW_250KHZ DR_LORA_SF7 conf in
            if negb (IS_LORA_BW (Rxif.bandwidth conf)) then err conf
            else if negb (IS_LORA_DR (Rxif.datarate conf)) then err conf
            else
              c ← commit_chain c if_chain conf;
              let ls := Rxif.set_implicit (Rxif.implicit_hdr conf)
                          (Rxif.implicit_payload_length conf) (Rxif.implicit_crc_en conf)
                          (Rxif.implicit_coderate conf)
                          (Rxif.set_bw_dr (Rxif.bandwidth conf) (Rxif.datarate conf)
                             (lora_service_cfg c)) in
              Ret (set_modems ls (fsk_cfg c) c, Some conf, LGW_HAL_SUCCESS)
          else if ty =? IF_LORA_MULTI then
            let conf := fill_default BW_125KHZ DR_LORA_SF7 conf in
            if negb (Rxif.bandwidth conf =? BW_125KHZ) then err conf
            else if negb (IS_LORA_DR (Rxif.datarate conf)) then err conf
            else
              c ← commit_chain c if_chain conf;
              Ret (c, Some conf, LGW_HAL_SUCCESS)
          else if ty =? IF_FSK_STD then
            let conf := fill_default BW_250KHZ 64000 conf in
            if negb (IS_FSK_BW (Rxif.bandwidth conf)) then err conf
            else if negb (IS_FSK_DR (Rxif.datarate conf)) then err conf
            else
              c ← commit_chain c if_chain conf;
              let fsk := Rxif.set_bw_dr (Rxif.bandwidth conf) (Rxif.datarate conf) (fsk_cfg c) in
              let fsk := if 0 <? Rxif.sync_word conf
                         then Rxif.set_sync (Rxif.sync_word_size conf) (Rxif.sync_word conf) fsk
                         else fsk in
              Ret (set_modems (lora_service_cfg c) fsk c, Some conf, LGW_HAL_SUCCESS)
          else err conf
  end.

Definition lgw_demod_setconf (c : lgw_context_s) (conf : option Z) : lgw_context_s * Z :=
  match conf with
  | None => (c, LGW_HAL_ERROR)
  | Some sf => (set_misc sf (ftime_cfg c) (sx1261_cfg c) (debug_cfg c) c, LGW_HAL_SUCCESS)
  end.

Definition lgw_ftime_setconf (c : lgw_context_s) (conf : option lgw_conf_ftime_s)
  : lgw_context_s * Z :=
  match conf with
  | None => (c, LGW_HAL_ERROR)
  | Some ft => (set_misc (multisf_datarate c) ft (sx1261_cfg c) (debug_cfg c) c, LGW_HAL_SUCCESS)
  end.

Definition gain_in_range (g : Gain.lgw_tx_gain_s) : bool :=
  negb (3 <? Gain.dig_gain g) && negb (3 <? Gain.dac_gain g) &&
  negb ((Gain.mix_gain g <? 5) || (15 <? Gain.mix_gain g)) &&
  negb (3 <? Gain.pa_gain g) && negb (22 <? Gain.pwr_idx g).

(** The loop over the entries: the LUT as it is after the loop, and whether
    all entries were in range. *)
Fixpoint lut_loop (n : nat) (i : Z) (src dst : list Gain.lgw_tx_gain_s)
  : outcome (list Gain.lgw_tx_gain_s * bool) :=
  match n with
  | O => Ret (dst, true)
  | S n =>
    g ← buf_get src i;
    if negb (gain_in_range g) then Ret (dst, false)
    else
      dst ← buf_set dst i
        {| Gain.rf_power := Gain.rf_power g; Gain.dig_gain := Gain.dig_gain g;
           Gain.pa_gain := Gain.pa_gain g; Gain.dac_gain := Gain.dac_gain g;
           Gain.mix_gain := Gain.mix_gain g; Gain.offset_i := 0; Gain.offset_q := 0;
           Gain.pwr_idx := Gain.pwr_idx g |};
      lut_loop n (i + 1) src dst
  end.

Definition lgw_txgain_setconf (c : lgw_context_s) (rf_chain : Z)
    (conf : option Gain.lgw_tx_gain_lut_s) : outcome (lgw_context_s * Z) :=
  match conf with
  | None => Ret (c, LGW_HAL_ERROR)
  | Some conf =>
    if (Gain.size conf <? 1) || (TX_GAIN_LUT_SIZE_MAX <? Gain.size conf) then Ret (c, LGW_HAL_ERROR)
    else
      old ← buf_get (tx_gain_lut c) rf_chain;
      '(l, ok) ← lut_loop (Z.to_nat (Gain.size conf)) 0 (Gain.lut conf) (Gain.lut old);
      luts ← buf_set (tx_gain_lut c) rf_chain (Gain.Lut l (Gain.size conf));
      Ret (set_lut luts c, if ok : bool then LGW_HAL_SUCCESS else LGW_HAL_ERROR)
  end.

(** The loop over the LBT channels. *)
Fixpoint lbt_loop (n : nat) (i : Z) (src dst : list Lbt.lgw_conf_chan_lbt_s)
  : outcome (list Lbt.lgw_conf_chan_lbt_s * bool) :=
  match n with
  | O => Ret (dst, true)
  | S n =>
    ch ← buf_get src i;
    if negb (Lbt.bandwidth ch =? BW_125KHZ) && negb (Lbt.bandwidth ch =? BW_250KHZ)
    then Ret (dst, false)
    else if negb (Lbt.scan_time_us ch =? LGW_LBT_SCAN_TIME_128_US) &&
            negb (Lbt.scan_time_us ch =? LGW_LBT_SCAN_TIME_5000_US) then Ret (dst, false)
    else dst ← buf_set dst i ch; lbt_loop n (i + 1) src dst
  end.

Definition lgw_sx1261_setconf (c : lgw_context_s) (conf : option Sx1261.lgw_conf_sx1261_s)
  : outcome (lgw_context_s * Z) :=
  match conf with
  | None => Ret (c, LGW_HAL_ERROR)
  | Some conf =>
    let lbt := Sx1261.lbt_conf conf in
    let old := Sx1261.lbt_conf (sx1261_cfg c) in
    '(chs, ok) ← lbt_loop (Z.to_nat (Lbt.nb_channel lbt)) 0 (Lbt.channels lbt) (Lbt.channels old);
    let sx := Sx1261.Conf (Sx1261.enable conf) (strncpy_term (Sx1261.spi_path conf) 64)
                (Sx1261.rssi_offset conf)
                (Lbt.Conf (Lbt.enable lbt) (Lbt.rssi_target lbt) (Lbt.nb_channel lbt) chs) in
    Ret (set_misc (multisf_datarate c) (ftime_cfg c) sx (debug_cfg c) c,
         if ok : bool then LGW_HAL_SUCCESS else LGW_HAL_ERROR)
  end.

(** The loop over the reference payloads. *)
Fixpoint ref_loop (n : nat) (i : Z) (src dst : list Dbg.conf_ref_payload_s)
  : outcome (list Dbg.conf_ref_payload_s) :=
  match n with
  | O => Ret dst
  | S n =>
    r ← buf_get src i;
    o ← buf_get dst i;
    let id := Dbg.id r in
    dst ← buf_set dst i
      (Dbg.Ref id ([u8 (Z.shiftr id 24); u8 (Z.shiftr id 16); u8 (Z.shiftr id 8); u8 (Z.shiftr id 0)]
                   ++ drop 4 (Dbg.payload o)) 0);
    ref_loop n (i + 1) src dst
  end.

Definition lgw_debug_setconf (c : lgw_context_s) (conf : option Dbg.lgw_conf_debug_s)
  : outcome (lgw_context_s * Z) :=
  match conf with
  | None => Ret (c, LGW_HAL_ERROR)
  | Some conf =>
    refs ← ref_loop (Z.to_nat (Dbg.nb_ref_payload conf)) 0 (Dbg.ref_payload conf)
             (Dbg.ref_payload (debug_cfg c));
    let dbg := {| Dbg.nb_ref_payload := Dbg.nb_ref_payload conf; Dbg.ref_payload := refs;
                  Dbg.log_file_name := strncpy_term (Dbg.log_file_name conf) 128 |} in
    Ret (set_misc (multisf_datarate c) (ftime_cfg c) (sx1261_cfg c) dbg c, LGW_HAL_SUCCESS)
  end.
