(* ===== verification/HalConfProps.v ===== *)
(** * Properties of the configuration

    The [_setconf] functions keep the context valid: what [lgw_start] and
    [lgw_send] rely on without checking. *)
From stdpp Require Import base list numbers relations.
From Stdlib Require Import ZArith Lia.
From S2P Require Import Prelude Binary64 HalTypes Com HalConf.

Open Scope Z_scope.

(** ** The invariant *)

Definition radio_ok (r : Rxrf.lgw_conf_rxrf_s) : Prop :=
  Rxrf.enable r = true →
  Rxrf.type r ∈ [LGW_RADIO_TYPE_SX1255; LGW_RADIO_TYPE_SX1257; LGW_RADIO_TYPE_SX1250] ∧
  100000000 <= Rxrf.freq_hz r <= 1000000000.
Definition chain_ok (r : Rxif.lgw_conf_rxif_s) : Prop :=
  0 <= Rxif.rf_chain r < 2 ∧ Z.abs (Rxif.freq_hz r) <= 737500.
Definition lora_ok (r : Rxif.lgw_conf_rxif_s) : Prop :=
  IS_LORA_BW (Rxif.bandwidth r) = true ∧ IS_LORA_DR (Rxif.datarate r) = true.
Definition fsk_ok (r : Rxif.lgw_conf_rxif_s) : Prop :=
  IS_FSK_BW (Rxif.bandwidth r) = true ∧ IS_FSK_DR (Rxif.datarate r) = true.
Definition lut_shape (l : Gain.lgw_tx_gain_lut_s) : Prop :=
  length (Gain.lut l) = 16%nat ∧ 1 <= Gain.size l <= 16.
(** Each entry of a table was never set or has gains in the ranges of the radios. *)
Definition entry_ok (g : Gain.lgw_tx_gain_s) : Prop :=
  g = Gain.zero ∨
  Gain.dig_gain g <= 3 ∧ Gain.dac_gain g <= 3 ∧ 5 <= Gain.mix_gain g <= 15 ∧ Gain.pa_gain g <= 3 ∧ Gain.pwr_idx g <= 22.
Definition lut_valid (l : Gain.lgw_tx_gain_lut_s) : Prop := lut_shape l ∧ Forall entry_ok (Gain.lut l).

Definition context_ok (c : lgw_context_s) : Prop :=
  length (rf_chain_cfg c) = 2%nat ∧ Forall radio_ok (rf_chain_cfg c) ∧
  length (if_chain_cfg c) = 10%nat ∧ Forall chain_ok (if_chain_cfg c) ∧
  lora_ok (lora_service_cfg c) ∧ fsk_ok (fsk_cfg c) ∧
  length (tx_gain_lut c) = 2%nat ∧ Forall lut_valid (tx_gain_lut c) ∧
  Board.com_type (board_cfg c) ≠ LGW_COM_UNKNOWN.

(** One call of a configuration function that returns. *)
Inductive conf_step (c c' : lgw_context_s) : Prop :=
  | conf_board conf r : lgw_board_setconf c conf = (c', r) → conf_step c c'
  | conf_rxrf rf conf r : is_u8 rf → lgw_rxrf_setconf c rf conf = Ret (c', r) → conf_step c c'
  | conf_rxif i conf conf' r : is_u8 i → (∀ x, conf = Some x → is_u8 (Rxif.rf_chain x)) →
      lgw_rxif_setconf c i conf = Ret (c', conf', r) → conf_step c c'
  | conf_demod conf r : lgw_demod_setconf c conf = (c', r) → conf_step c c'
  | conf_txgain rf conf r : lgw_txgain_setconf c rf conf = Ret (c', r) → conf_step c c'
  | conf_ftime conf r : lgw_ftime_setconf c conf = (c', r) → conf_step c c'
  | conf_sx1261 conf r : lgw_sx1261_setconf c conf = Ret (c', r) → conf_step c c'
  | conf_debug conf r : lgw_debug_setconf c conf = Ret (c', r) → conf_step c c'.

(** ** Inversion of the outcome monad *)

Lemma bind_ret_inv {A B} (m : outcome A) (f : A → outcome B) b :
  m ≫= f = Ret b → ∃ a, m = Ret a ∧ f a = Ret b.
Proof. destruct m; cbn; [eauto|done|done]. Qed.
Lemma buf_set_inv {A} (l : list A) i x l' :
  buf_set l i x = Ret l' → 0 <= i < Z.of_nat (length l) ∧ l' = <[Z.to_nat i := x]> l.
Proof. unfold buf_set. intros H. bool_cases; [|done]. bool_props. simplify_eq. split; [lia|done]. Qed.
Lemma buf_get_inv {A} (l : list A) i x : buf_get l i = Ret x → l !! Z.to_nat i = Some x.
Proof. unfold buf_get. intros H. bool_cases; [done|]. by destruct (l !! Z.to_nat i); simplify_eq. Qed.
Lemma int_ok_inv z r : int_ok z = Ret r → r = z.
Proof. unfold int_ok. intros H. bool_cases; by simplify_eq. Qed.

(** Takes apart a call that returned: every bind, access and test. *)
Ltac ret_inv :=
  repeat match goal with
  | H : mbind _ _ = Ret _ |- _ => apply bind_ret_inv in H as (? & ? & ?)
  | H : Ret _ = Ret _ |- _ => injection H as H
  | H : buf_set _ _ _ = Ret _ |- _ => apply buf_set_inv in H as [? ?]
  | H : buf_get _ _ = Ret _ |- _ => apply buf_get_inv in H
  | H : int_ok _ = Ret _ |- _ => apply int_ok_inv in H
  | H : (if ?b then _ else _) = Ret _ |- _ => destruct b eqn:?
  | H : (let '(_, _) := ?x in _) = Ret _ |- _ => destruct x as [? ?] eqn:?
  | H : Undef = Ret _ |- _ => discriminate H
  | H : Exit _ = Ret _ |- _ => discriminate H
  end.

Lemma Forall_insert_ok {A} (P : A → Prop) l i x : Forall P l → P x → Forall P (<[i := x]> l).
Proof. intros. by apply Forall_insert. Qed.

(** ** Each function preserves the invariant *)

Lemma board_ok c conf c' r :
  context_ok c → lgw_board_setconf c conf = (c', r) → context_ok c'.
Proof.
  unfold lgw_board_setconf. intros Hc H. destruct conf as [conf|]; [|by simplify_eq].
  destruct (is_started c); [by simplify_eq|].
  destruct (Board.com_type conf); simplify_eq; try done;
    destruct Hc as (? & ? & ? & ? & ? & ? & ? & ? & ?); by split_and_all.
Qed.

Lemma rxrf_ok c rf conf c' r :
  context_ok c → lgw_rxrf_setconf c rf conf = Ret (c', r) → context_ok c'.
Proof.
  unfold lgw_rxrf_setconf. intros Hc H. destruct conf as [conf|]; [|by simplify_eq].
  ret_inv; simplify_eq; try done. subst.
  destruct Hc as (? & Hr & ? & ? & ? & ? & ? & ? & ?).
  unfold context_ok, set_rf. cbn. rewrite length_insert. split_and_all; try done.
  apply Forall_insert_ok; [done|]. intros _.
  bool_props. unfold LGW_RF_RX_FREQ_MIN, LGW_RF_RX_FREQ_MAX in *.
  split; [|lia]. rewrite !list_elem_of_In. cbn. destruct (Rxrf.type conf); cbn in *; tauto || done.
Qed.

Lemma if_freq_ok conf :
  (Z.quot (rf_rx_bandwidth (Rxif.bandwidth conf)) 2 <?
     Rxif.freq_hz conf + Z.quot (checked_bw (Rxif.bandwidth conf)) 2) = false →
  (Rxif.freq_hz conf - Z.quot (checked_bw (Rxif.bandwidth conf)) 2 <?
     - Z.quot (rf_rx_bandwidth (Rxif.bandwidth conf)) 2) = false →
  Z.abs (Rxif.freq_hz conf) <= 737500 ∧
  2 * Z.abs (Rxif.freq_hz conf) + checked_bw (Rxif.bandwidth conf) <= 1600000.
Proof.
  assert (rf_rx_bandwidth (Rxif.bandwidth conf) = 1600000) as ->
    by (unfold rf_rx_bandwidth; bool_cases; done).
  assert (checked_bw (Rxif.bandwidth conf) = 125000 ∨ checked_bw (Rxif.bandwidth conf) = 250000 ∨
    checked_bw (Rxif.bandwidth conf) = 500000) as [-> | [-> | ->]]
    by (unfold checked_bw, lgw_bw_getval; generalize (Rxif.bandwidth conf); intros b;
      destruct (b =? BW_500KHZ), (b =? BW_250KHZ), (b =? BW_125KHZ); cbn; auto).
  all: intros H1 H2; apply Z.ltb_ge in H1, H2; cint_lia.
Qed.

(** A commit of a checked configuration, with its defaults filled in. *)
Lemma commit_ok c i conf bw dr c' :
  context_ok c → is_u8 (Rxif.rf_chain conf) → (LGW_RF_CHAIN_NB <=? Rxif.rf_chain conf) = false →
  Z.abs (Rxif.freq_hz conf) <= 737500 → commit_chain c i (fill_default bw dr conf) = Ret c' →
  context_ok c' ∧ lora_service_cfg c' = lora_service_cfg c ∧ fsk_cfg c' = fsk_cfg c.
Proof.
  intros Hc Hu Hrf Hf H. unfold commit_chain in H. ret_inv. subst.
  destruct Hc as (? & ? & ? & Hi & ? & ? & ? & ? & ?).
  unfold context_ok. cbn. rewrite length_insert. split_and_all; try done.
  apply Forall_insert_ok; [done|]. unfold chain_ok. cbn. unfold LGW_RF_CHAIN_NB in Hrf. lia.
Qed.

Lemma context_ok_modems c ls fsk :
  context_ok c → lora_ok ls → fsk_ok fsk → context_ok (set_modems ls fsk c).
Proof. intros (? & ? & ? & ? & ? & ? & ? & ? & ?) ? ?. by split_and_all. Qed.

Lemma rxif_ok c i conf conf' c' r :
  context_ok c → (∀ x, conf = Some x → is_u8 (Rxif.rf_chain x)) →
  lgw_rxif_setconf c i conf = Ret (c', conf', r) → context_ok c'.
Proof.
  unfold lgw_rxif_setconf. intros Hc Hu H. destruct conf as [conf|]; [|by simplify_eq].
  specialize (Hu conf eq_refl). pose proof Hc as (_ & _ & _ & _ & Hls & Hfsk & _).
  ret_inv; simplify_eq; try done; try subst.
  { destruct Hc as (? & ? & ? & Hi & ? & ? & ? & ? & ?). unfold context_ok. cbn.
    rewrite length_insert. split_and_all; try done. apply Forall_insert_ok; [done|].
    match goal with H : if_chain_cfg _ !! _ = Some _ |- _ => destruct (Forall_lookup_1 _ _ _ _ Hi H) end.
    split; cbn; [done|lia]. }
  - destruct (if_freq_ok conf Heqb3 Heqb4) as [Hf _].
    destruct (commit_ok _ _ _ _ _ _ Hc Hu Heqb2 Hf H2) as (Hc' & _ & ->).
    apply negb_false_iff in Heqb6, Heqb7. by apply context_ok_modems.
  - destruct (if_freq_ok conf Heqb3 Heqb4) as [Hf _].
    by destruct (commit_ok _ _ _ _ _ _ Hc Hu Heqb2 Hf H2).
  - destruct (if_freq_ok conf Heqb3 Heqb4) as [Hf _].
    destruct (commit_ok _ _ _ _ _ _ Hc Hu Heqb2 Hf H2) as (Hc' & -> & _).
    apply negb_false_iff in Heqb8, Heqb9. apply context_ok_modems; [done|done|].
    by destruct (0 <? Rxif.sync_word conf).
Qed.

Lemma gain_in_range_entry g : gain_in_range g = true → entry_ok g.
Proof. unfold gain_in_range. intros H. bool_props. right. lia. Qed.
Lemma lut_loop_valid n : ∀ i src dst l ok,
  lut_loop n i src dst = Ret (l, ok) → Forall entry_ok dst → length l = length dst ∧ Forall entry_ok l.
Proof.
  induction n as [|n IH]; intros i src dst l ok H Hd; cbn in H; ret_inv; simplify_eq; try done.
  subst. match goal with H : lut_loop _ _ _ _ = Ret _ |- _ => apply IH in H end.
  - by rewrite length_insert in *.
  - apply Forall_insert_ok; [done|]. by apply gain_in_range_entry, negb_false_iff.
Qed.

Lemma txgain_shape c rf conf c' r :
  context_ok c → lgw_txgain_setconf c rf conf = Ret (c', r) → context_ok c'.
Proof.
  unfold lgw_txgain_setconf. intros Hc H. destruct conf as [conf|]; [|by simplify_eq].
  ret_inv; simplify_eq; try done.
  destruct Hc as (? & ? & ? & ? & ? & ? & ? & Hl & ?). bool_props. unfold TX_GAIN_LUT_SIZE_MAX in *.
  unfold context_ok. cbn. rewrite length_insert. split_and_all; try done.
  eapply Forall_lookup_1 in Hl as Hold; [|eassumption]. destruct Hold as [[Ho _] Hv].
  destruct (lut_loop_valid _ _ _ _ _ _ ltac:(eassumption) Hv) as [El Hv'].
  apply Forall_insert_ok; [done|]. split; [|done]. split; cbn; [by rewrite El|lia].
Qed.

Lemma context_ok_misc c sf ft sx dbg : context_ok c → context_ok (set_misc sf ft sx dbg c).
Proof. done. Qed.

Lemma conf_step_ok c c' : conf_step c c' → context_ok c → context_ok c'.
Proof.
  destruct 1 as [conf r H|rf conf r _ H|i conf conf' r _ Hu H|conf r H|rf conf r H|conf r H|
    conf r H|conf r H]; intros Hc.
  - by eapply board_ok.
  - by eapply rxrf_ok.
  - by eapply rxif_ok.
  - destruct conf; cbn in H; simplify_eq; done.
  - by eapply txgain_shape.
  - destruct conf; cbn in H; simplify_eq; done.
  - destruct conf as [conf|]; cbn in H; [|by simplify_eq]. ret_inv.
    simplify_eq. by apply context_ok_misc.
  - destruct conf as [conf|]; cbn in H; [|by simplify_eq]. ret_inv. simplify_eq. by apply context_ok_misc.
Qed.

Lemma context_ok_initial : context_ok lgw_context.
Proof.
  unfold context_ok. cbn. split_and_all; try done.
  - repeat (apply List.Forall_cons; [done|]). apply List.Forall_nil.
  - repeat (apply List.Forall_cons; [done|]). apply List.Forall_nil.
  - assert (lut_valid Gain.initial) as H.
    { split; [by split; cbn|]. apply List.Forall_cons; [by apply gain_in_range_entry|]. apply Forall_replicate. by left. }
    repeat (apply List.Forall_cons; [exact H|]). apply List.Forall_nil.
Qed.

Lemma context_steps_ok c0 c : context_ok c0 → rtc conf_step c0 c → context_ok c.
Proof. intros Hc H. induction H as [|c0 c1 c2 H1 _ IH]; [done|]. apply IH. by eapply conf_step_ok. Qed.

(** C25. Whatever configuration calls are made, in any order and with any
    arguments, as long as they return, the context stays valid: an enabled
    radio has a supported type and a frequency of 100 MHz to 1 GHz, an
    IF chain (also one that is disabled) has an existing radio and a channel of
    125 kHz around its frequency inside the radio's bandwidth, the LoRa service and FSK modems have a
    supported bandwidth and data rate, the two gain tables have 1 to 16
    entries in use, each of which was never set or has a digital, DAC and PA gain of at
    most 3, a mixer gain of 5 to 15 and a power index of at most 22, and the board
    has a known link. The size of the FSK sync word is not checked by the code. *)
Theorem context_always_valid c : rtc conf_step lgw_context c → context_ok c.
Proof. apply context_steps_ok, context_ok_initial. Qed.

Definition demo_chain (f : Z) : Rxif.lgw_conf_rxif_s := Rxif.Conf true 1 f 0 0 0 0 false 0 false 0.
Lemma context_always_valid_witness :
  ∃ c, lgw_rxif_setconf lgw_context 8 (Some (demo_chain 700000)) =
       Ret (c, Some (Rxif.Conf true 1 700000 BW_250KHZ DR_LORA_SF7 0 0 false 0 false 0), LGW_HAL_SUCCESS) ∧
       context_ok c.
Proof.
  eexists. split; [vm_compute; reflexivity|]. apply context_always_valid.
  apply rtc_once. eapply (conf_rxif _ _ 8 (Some (demo_chain 700000))); [lia| |vm_compute; reflexivity].
  intros x [= <-]. cbn. lia.
Defined.

Lemma commit_ret c i conf :
  length (if_chain_cfg c) = 10%nat → 0 <= i < 10 → ∃ c', commit_chain c i conf = Ret c'.
Proof.
  intros Hl Hi. unfold commit_chain.
  destruct (lookup_lt_is_Some_2 (if_chain_cfg c) (Z.to_nat i)) as [old Hold]; [lia|].
  rewrite (buf_get_lookup _ _ old) by (done || lia). cstep. rewrite buf_set_insert by lia. cstep. eauto.
Qed.

(** The IF frequency of the LoRa service and FSK chains is checked before
    the default bandwidth is filled in, and with 125 kHz: a configuration
    without bandwidth and a frequency between 675 and 737.5 kHz is accepted with
    the default of 250 kHz, with which the same call is refused when the
    bandwidth is given. *)
Theorem rxif_default_bandwidth_unchecked c i conf :
  context_ok c → is_started c = false → i = 8 ∨ i = 9 →
  Rxif.enable conf = true → 0 <= Rxif.rf_chain conf < 2 →
  Rxif.bandwidth conf = BW_UNDEFINED → Rxif.datarate conf = DR_UNDEFINED →
  675000 < Rxif.freq_hz conf <= 737500 →
  let filled := fill_default BW_250KHZ (if i =? 8 then DR_LORA_SF7 else 64000) conf in
  (∃ c', lgw_rxif_setconf c i (Some conf) = Ret (c', Some filled, LGW_HAL_SUCCESS)) ∧
  lgw_rxif_setconf c i (Some filled) = Ret (c, Some filled, LGW_HAL_ERROR).
Proof.
  intros (_ & _ & Hl & _) Hst Hi Hen Hrf Hbw Hdr Hf filled.
  assert (Eb : Rxif.bandwidth filled = BW_250KHZ) by (subst filled; cbn; by rewrite Hbw).
  assert (Ed : Rxif.datarate filled = if i =? 8 then DR_LORA_SF7 else 64000)
    by (subst filled; cbn; by rewrite Hdr).
  unfold lgw_rxif_setconf. rewrite Hst.
  assert (HNB : (LGW_IF_CHAIN_NB <=? i) = false) by (unfold LGW_IF_CHAIN_NB; lia).
  assert (HRF : (LGW_RF_CHAIN_NB <=? Rxif.rf_chain conf) = false) by (unfold LGW_RF_CHAIN_NB; lia).
  split.
  - rewrite HNB, Hen, HRF, Hbw. cbn [negb].
    change (Z.quot (checked_bw BW_UNDEFINED) 2) with 62500.
    change (Z.quot (rf_rx_bandwidth BW_UNDEFINED) 2) with 800000.
    rewrite !int_ok_ret by lia. cstep. rewrite (proj2 (Z.ltb_ge _ _)) by lia. cstep.
    rewrite (proj2 (Z.ltb_ge _ _)) by lia.
    destruct (commit_ret c i filled) as [c' Hc']; [done|lia|].
    destruct Hi as [-> | ->]; cbn [Z.eqb Pos.eqb] in filled; fold filled.
    + change (sx1302_get_ifmod_config 8) with (Ret IF_LORA_STD). cstep. rewrite Eb, Hc', Ed. cbn. eauto.
    + change (sx1302_get_ifmod_config 9) with (Ret IF_FSK_STD). cstep. rewrite Eb, Hc', Ed. cbn. eauto.
  - change (Rxif.enable filled) with (Rxif.enable conf).
    change (Rxif.rf_chain filled) with (Rxif.rf_chain conf).
    change (Rxif.freq_hz filled) with (Rxif.freq_hz conf).
    rewrite HNB, Hen, HRF, Eb. cbn [negb].
    change (Z.quot (checked_bw BW_250KHZ) 2) with 125000.
    change (Z.quot (rf_rx_bandwidth BW_250KHZ) 2) with 800000.
    rewrite (int_ok_ret (_ + _)) by lia. cstep. by rewrite (proj2 (Z.ltb_lt 800000 _)) by lia.
Qed.
Lemma rxif_default_bandwidth_unchecked_witness :
  let filled := fill_default BW_250KHZ DR_LORA_SF7 (demo_chain 700000) in
  (∃ c', lgw_rxif_setconf lgw_context 8 (Some (demo_chain 700000)) =
     Ret (c', Some filled, LGW_HAL_SUCCESS)) ∧
  lgw_rxif_setconf lgw_context 8 (Some filled) = Ret (lgw_context, Some filled, LGW_HAL_ERROR).
Proof.
  apply (rxif_default_bandwidth_unchecked lgw_context 8 (demo_chain 700000));
    [exact context_ok_initial|done|by left|done|cbn; lia|done|done|cbn; lia].
Defined.

(** ** The gain tables *)

(** The entries before the first one that is out of range. *)
Fixpoint leading (l : list Gain.lgw_tx_gain_s) : nat :=
  match l with [] => 0 | g :: l => if gain_in_range g then S (leading l) else 0 end.
Lemma leading_le l : (leading l <= length l)%nat.
Proof. induction l as [|g l IH]; cbn; [lia|]. destruct (gain_in_range g); lia. Qed.
(** An entry as it is stored: its offsets are left to the calibration. *)
Definition uncalibrated (g : Gain.lgw_tx_gain_s) : Gain.lgw_tx_gain_s :=
  {| Gain.rf_power := Gain.rf_power g; Gain.dig_gain := Gain.dig_gain g; Gain.pa_gain := Gain.pa_gain g;
     Gain.dac_gain := Gain.dac_gain g; Gain.mix_gain := Gain.mix_gain g; Gain.offset_i := 0;
     Gain.offset_q := 0; Gain.pwr_idx := Gain.pwr_idx g |}.

Lemma lut_loop_spec s : ∀ spre srest dpre drest i,
  i = Z.of_nat (length spre) → i = Z.of_nat (length dpre) → (length s <= length drest)%nat →
  lut_loop (length s) i (spre ++ s ++ srest) (dpre ++ drest) =
  Ret (dpre ++ (uncalibrated <$> take (leading s) s) ++ drop (leading s) drest,
       (leading s =? length s)%nat).
Proof.
  induction s as [|g s IH]; intros spre srest dpre drest i Hs Hd Hl; [done|].
  cbn [lut_loop length leading]. rewrite (buf_get_at spre _ i 0 g) by (done || lia). cstep.
  destruct (gain_in_range g); cbn [negb]; [|done].
  destruct drest as [|d drest]; [cbn in Hl; lia|].
  rewrite (buf_set_at dpre _ i 0) by (cbn; lia). cstep. cbn [insert list_insert].
  fold (uncalibrated g). rewrite (cons_middle (uncalibrated g) dpre drest), (app_assoc dpre [uncalibrated g]).
  assert (spre ++ (g :: s) ++ srest = (spre ++ [g]) ++ s ++ srest) as -> by (by rewrite <- app_assoc).
  rewrite IH; [|rewrite length_app; cbn; lia|rewrite length_app; cbn; lia|cbn in Hl; lia].
  cbn [take drop]. by rewrite fmap_cons, <- app_assoc.
Qed.

(** [lgw_txgain_setconf] stores the entries of the table in their order
    and returns success when all of them are in range. When one is not, it
    returns an error, but the size is already that of the new table: the
    entries from the one out of range on are those of the old table, or
    entries that were never set. *)
Theorem txgain_setconf_spec c rf conf :
  context_ok c → 0 <= rf < 2 → lut_shape conf →
  let n := Z.to_nat (Gain.size conf) in
  let k := leading (take n (Gain.lut conf)) in
  ∃ old, tx_gain_lut c !! Z.to_nat rf = Some old ∧
    lgw_txgain_setconf c rf (Some conf) =
    Ret (set_lut (<[Z.to_nat rf :=
           Gain.Lut ((uncalibrated <$> take k (Gain.lut conf)) ++ drop k (Gain.lut old))
                    (Gain.size conf)]> (tx_gain_lut c)) c,
         if (k =? n)%nat then LGW_HAL_SUCCESS else LGW_HAL_ERROR).
Proof.
  intros (_ & _ & _ & _ & _ & _ & Hl & Hsh & _) Hrf [Hcl Hcs] n k.
  destruct (lookup_lt_is_Some_2 (tx_gain_lut c) (Z.to_nat rf)) as [old Hold]; [lia|].
  exists old. split; [done|]. eapply Forall_lookup_1 in Hsh as [[Hol _] _]; [|exact Hold].
  unfold lgw_txgain_setconf, TX_GAIN_LUT_SIZE_MAX.
  rewrite (proj2 (Z.ltb_ge (Gain.size conf) 1)), (proj2 (Z.ltb_ge 16 (Gain.size conf))) by lia.
  cbn [orb]. rewrite (buf_get_lookup _ _ old) by (done || lia). cstep. fold n.
  set (s := take n (Gain.lut conf)) in *.
  assert (Ln : length s = n) by (subst s; rewrite length_take; lia).
  pose proof (lut_loop_spec s [] (drop n (Gain.lut conf)) [] (Gain.lut old) 0 eq_refl eq_refl
    ltac:(lia)) as E.
  cbn [app] in E. rewrite Ln in E. subst s. rewrite take_drop in E. rewrite E. cstep.
  rewrite buf_set_insert by lia. cstep. fold k. rewrite take_take.
  assert (k <= n)%nat by (subst k; etransitivity; [apply leading_le|lia]).
  by rewrite Nat.min_l by lia.
Qed.

Definition demo_gain (m : Z) : Gain.lgw_tx_gain_s :=
  {| Gain.rf_power := 12; Gain.dig_gain := 0; Gain.pa_gain := 1; Gain.dac_gain := 3;
     Gain.mix_gain := m; Gain.offset_i := 0; Gain.offset_q := 0; Gain.pwr_idx := 4 |}.
Lemma txgain_setconf_spec_witness :
  let conf := Gain.Lut (demo_gain 8 :: demo_gain 2 :: replicate 14 Gain.zero) 2 in
  ∃ old, tx_gain_lut lgw_context !! 1%nat = Some old ∧
    lgw_txgain_setconf lgw_context 1 (Some conf) =
    Ret (set_lut (<[1%nat := Gain.Lut ([demo_gain 8] ++ drop 1 (Gain.lut old)) 2]>
                    (tx_gain_lut lgw_context)) lgw_context, LGW_HAL_ERROR).
Proof.
  apply (txgain_setconf_spec lgw_context 1 (Gain.Lut (demo_gain 8 :: demo_gain 2 :: replicate 14 Gain.zero) 2));
    [exact context_ok_initial|lia|split; cbn; [done|lia]].
Defined.

(** A context with one radio, for the witnesses: radio 0 as a transceiver at
    868.5 MHz. *)
Definition a_radio : Rxrf.lgw_conf_rxrf_s :=
  {| Rxrf.enable := true; Rxrf.freq_hz := 868500000; Rxrf.rssi_offset := Dbl 0 0; Rxrf.rssi_tcomp := Rxrf.rssi_tcomp Rxrf.zero;
     Rxrf.type := LGW_RADIO_TYPE_SX1250; Rxrf.tx_enable := true; Rxrf.single_input_mode := false |}.
Definition a_context : lgw_context_s :=
  match lgw_rxrf_setconf lgw_context 0 (Some a_radio) with Ret (c, _) => c | _ => lgw_context end.
Lemma a_context_reached : rtc conf_step lgw_context a_context.
Proof. apply rtc_once. eapply (conf_rxrf _ _ 0 (Some a_radio)); [lia|vm_compute; reflexivity]. Qed.
Lemma a_context_ok : context_ok a_context.
Proof. exact (context_steps_ok _ _ context_ok_initial a_context_reached). Qed.
