(* ===== verification/Crc.v ===== *)
(** * The payload checksums

    [lora_crc16] and [sx1302_lora_payload_crc] of [loragw_sx1302.c], which check
    the payload the chip has received, and [crc16] of [lora_pkt_fwd.c], which is
    put in beacons. Both are remainders by the polynomial x^16+x^12+x^5+1; the
    reference is the division bit by bit. *)
From stdpp Require Import base list numbers.
From Stdlib Require Import ZArith Lia Btauto.
From S2P Require Import Prelude.

Open Scope Z_scope.

(** ** The code *)

(** [(x >> k) & 1] *)
Definition bit (x k : Z) : Z := Z.land (Z.shiftr x k) 1.

(** The new value of [*crc]. *)
Definition lora_crc16 (data crc : Z) : Z :=
  Z.lxor (Z.lxor (bit data 0) (bit crc 12)) (bit crc 8)
  + Z.shiftl (Z.lxor (Z.lxor (bit data 1) (bit crc 13)) (bit crc 9)) 1
  + Z.shiftl (Z.lxor (Z.lxor (bit data 2) (bit crc 14)) (bit crc 10)) 2
  + Z.shiftl (Z.lxor (Z.lxor (bit data 3) (bit crc 15)) (bit crc 11)) 3
  + Z.shiftl (Z.lxor (bit data 4) (bit crc 12)) 4
  + Z.shiftl (Z.lxor (Z.lxor (Z.lxor (bit data 5) (bit crc 13)) (bit crc 12)) (bit crc 8)) 5
  + Z.shiftl (Z.lxor (Z.lxor (Z.lxor (bit data 6) (bit crc 14)) (bit crc 13)) (bit crc 9)) 6
  + Z.shiftl (Z.lxor (Z.lxor (Z.lxor (bit data 7) (bit crc 15)) (bit crc 14)) (bit crc 10)) 7
  + Z.shiftl (Z.lxor (Z.lxor (bit crc 0) (bit crc 15)) (bit crc 11)) 8
  + Z.shiftl (Z.lxor (bit crc 1) (bit crc 12)) 9
  + Z.shiftl (Z.lxor (bit crc 2) (bit crc 13)) 10
  + Z.shiftl (Z.lxor (bit crc 3) (bit crc 14)) 11
  + Z.shiftl (Z.lxor (Z.lxor (Z.lxor (bit crc 4) (bit crc 15)) (bit crc 12)) (bit crc 8)) 12
  + Z.shiftl (Z.lxor (Z.lxor (bit crc 5) (bit crc 13)) (bit crc 9)) 13
  + Z.shiftl (Z.lxor (Z.lxor (bit crc 6) (bit crc 14)) (bit crc 10)) 14
  + Z.shiftl (Z.lxor (Z.lxor (bit crc 7) (bit crc 15)) (bit crc 11)) 15.

(** A byte is passed as a signed [char]. *)
Definition sx1302_lora_payload_crc (data : list Z) : Z :=
  u16 (foldl (λ crc d, lora_crc16 (s8 d) crc) 0 data).

Definition crc_poly : Z := 0x1021.
Definition crc16_bit (x : Z) : Z :=
  if negb (Z.land x 0x8000 =? 0) then u16 (Z.lxor (Z.shiftl x 1) crc_poly) else u16 (Z.shiftl x 1).
(** A NULL pointer is [None]. *)
Definition crc16 (data : option (list Z)) : Z :=
  match data with
  | None => 0
  | Some data =>
    foldl (λ x d, Nat.iter 8 crc16_bit (u16 (Z.lxor x (Z.shiftl d 8)))) 0 data
  end.

(** ** The reference: long division over GF(2) *)

(** The remainder so far, and the next bit of the message. *)
Definition crc_step (c : Z) (b : bool) : Z :=
  let s := Z.lxor (2 * c) (Z.b2z b) in
  if Z.testbit s 16 then Z.lxor s 0x11021 else s.
Definition byte_bits (d : Z) : list bool := Z.testbit d <$> [7; 6; 5; 4; 3; 2; 1; 0].
Definition message_bits (data : list Z) : list bool := concat (byte_bits <$> data).
Definition crc_remainder (bits : list bool) : Z := foldl crc_step 0 bits.

(** ** Bits of numbers *)

Fixpoint of_bits (bs : list bool) : Z :=
  match bs with [] => 0 | b :: bs => Z.b2z b + 2 * of_bits bs end.
Lemma of_bits_testbit bs (k : nat) : Z.testbit (of_bits bs) (Z.of_nat k) = nth k bs false.
Proof.
  revert k. induction bs as [|b bs IH]; intros k; cbn [of_bits]; [rewrite Z.bits_0; by destruct k|].
  rewrite Z.add_comm. destruct k as [|k]; [by rewrite Z.testbit_0_r|].
  rewrite Nat2Z.inj_succ, Z.testbit_succ_r by lia. apply IH.
Qed.
Lemma of_bits_eq x bs :
  0 <= x < 2 ^ Z.of_nat (length bs) → (∀ k, (k < length bs)%nat → Z.testbit x (Z.of_nat k) = nth k bs false) →
  x = of_bits bs.
Proof.
  intros Hx Hb. apply Z.bits_inj'. intros n Hn. replace n with (Z.of_nat (Z.to_nat n)) by lia.
  rewrite of_bits_testbit. destruct (decide (Z.to_nat n < length bs)%nat); [by apply Hb|].
  rewrite nth_overflow by lia. apply (testbit_above x (Z.of_nat (length bs))); lia.
Qed.
Lemma of_bits_range bs : 0 <= of_bits bs < 2 ^ Z.of_nat (length bs).
Proof.
  induction bs as [|b bs IH]; cbn [of_bits length]; [lia|].
  rewrite Nat2Z.inj_succ, Z.pow_succ_r by lia. destruct b; cbn [Z.b2z]; lia.
Qed.
Lemma bit_testbit x k : 0 <= k → bit x k = Z.b2z (Z.testbit x k).
Proof.
  intros Hk. unfold bit. change 1 with (Z.ones 1) at 1.
  rewrite Z.land_ones, shiftr_div, Z.testbit_spec' by lia. done.
Qed.
Lemma lxor_b2z a b : Z.lxor (Z.b2z a) (Z.b2z b) = Z.b2z (xorb a b).
Proof. by destruct a, b. Qed.

Lemma lxor_cons a b x y :
  Z.lxor (Z.b2z a + 2 * x) (Z.b2z b + 2 * y) = Z.b2z (xorb a b) + 2 * Z.lxor x y.
Proof.
  rewrite !(Z.add_comm (Z.b2z _)). apply Z.bits_inj'. intros n Hn. rewrite Z.lxor_spec.
  destruct (decide (n = 0)) as [->|]; [by rewrite !Z.testbit_0_r|].
  replace n with (Z.succ (n - 1)) by lia. by rewrite !Z.testbit_succ_r, Z.lxor_spec by lia.
Qed.
Lemma of_bits_lxor bs cs : length bs = length cs →
  Z.lxor (of_bits bs) (of_bits cs) = of_bits (zip_with xorb bs cs).
Proof.
  revert cs. induction bs as [|b bs IH]; intros [|c cs] Hl; cbn [of_bits zip_with length] in *; try done.
  rewrite lxor_cons, IH by lia. done.
Qed.

(** The 16 bits of a remainder after one step. *)
Lemma crc_step_bits c0 c1 c2 c3 c4 c5 c6 c7 c8 c9 c10 c11 c12 c13 c14 c15 b :
  crc_step (of_bits [c0; c1; c2; c3; c4; c5; c6; c7; c8; c9; c10; c11; c12; c13; c14; c15]) b
  = of_bits [xorb b c15; c0; c1; c2; c3; xorb c4 c15; c5; c6; c7; c8; c9; c10; xorb c11 c15; c12; c13; c14].
Proof.
  set (cs := [c0; c1; c2; c3; c4; c5; c6; c7; c8; c9; c10; c11; c12; c13; c14; c15]).
  unfold crc_step. assert (Z.lxor (2 * of_bits cs) (Z.b2z b) = of_bits (b :: cs)) as ->.
  { cbn [of_bits]. pose proof (lxor_cons false b (of_bits cs) 0) as H. cbn [Z.b2z xorb] in H.
    rewrite Z.lxor_0_r, Z.add_0_l, Z.mul_0_r, Z.add_0_r in H. exact H. }
  change 16 with (Z.of_nat 16) at 1. rewrite of_bits_testbit. subst cs. cbn [nth]. destruct c15.
  - change 0x11021 with (of_bits [true; false; false; false; false; true; false; false; false; false;
      false; false; true; false; false; false; true]).
    rewrite of_bits_lxor by done. cbn [zip_with]. rewrite !xorb_false_r. cbn [of_bits xorb Z.b2z].
    by rewrite Z.mul_0_r.
  - rewrite !xorb_false_r. cbn [of_bits Z.b2z]. by rewrite Z.mul_0_r.
Qed.
Lemma bits16 c : is_u16 c → c = of_bits ((λ k, Z.testbit c k) <$> [0; 1; 2; 3; 4; 5; 6; 7; 8; 9; 10; 11; 12; 13; 14; 15]).
Proof.
  intros Hc. apply of_bits_eq; [done|]. intros k Hk. cbn [length fmap list_fmap] in Hk.
  do 16 (destruct k as [|k]; [done|]). lia.
Qed.

Lemma of_bits16 c0 c1 c2 c3 c4 c5 c6 c7 c8 c9 c10 c11 c12 c13 c14 c15 :
  of_bits [c0; c1; c2; c3; c4; c5; c6; c7; c8; c9; c10; c11; c12; c13; c14; c15]
  = Z.b2z c0 + Z.b2z c1 * 2 ^ 1 + Z.b2z c2 * 2 ^ 2 + Z.b2z c3 * 2 ^ 3 + Z.b2z c4 * 2 ^ 4
    + Z.b2z c5 * 2 ^ 5 + Z.b2z c6 * 2 ^ 6 + Z.b2z c7 * 2 ^ 7 + Z.b2z c8 * 2 ^ 8 + Z.b2z c9 * 2 ^ 9
    + Z.b2z c10 * 2 ^ 10 + Z.b2z c11 * 2 ^ 11 + Z.b2z c12 * 2 ^ 12 + Z.b2z c13 * 2 ^ 13
    + Z.b2z c14 * 2 ^ 14 + Z.b2z c15 * 2 ^ 15.
Proof. cbn [of_bits]. ring. Qed.

(** Eight steps of the division, written out, are the code's equations. *)
Lemma lora_crc16_steps d c : is_u16 c → lora_crc16 d c = foldl crc_step c (byte_bits d).
Proof.
  intros Hc. rewrite (bits16 c Hc) at 2. unfold byte_bits. cbn [fmap list_fmap foldl].
  rewrite !crc_step_bits, of_bits16. unfold lora_crc16. rewrite !bit_testbit by lia.
  rewrite !lxor_b2z, !shiftl_mul by lia. repeat apply f_equal2; try reflexivity; f_equal; btauto.
Qed.

(** ** The reference is linear *)

Definition xor_bits (bs cs : list bool) : list bool := zip_with xorb bs cs.

Lemma crc_step_range c b : is_u16 c → is_u16 (crc_step c b).
Proof.
  intros Hc. rewrite (bits16 c Hc). cbn [fmap list_fmap]. rewrite crc_step_bits.
  apply (of_bits_range [_; _; _; _; _; _; _; _; _; _; _; _; _; _; _; _]).
Qed.
Lemma crc_steps_range c bs : is_u16 c → is_u16 (foldl crc_step c bs).
Proof. revert c. induction bs as [|b bs IH]; intros c Hc; [done|]. by apply IH, crc_step_range. Qed.

Lemma crc_step_xor c c' b b' :
  crc_step (Z.lxor c c') (xorb b b') = Z.lxor (crc_step c b) (crc_step c' b').
Proof.
  unfold crc_step.
  assert (Z.lxor (2 * Z.lxor c c') (Z.b2z (xorb b b'))
    = Z.lxor (Z.lxor (2 * c) (Z.b2z b)) (Z.lxor (2 * c') (Z.b2z b'))) as ->.
  { rewrite <- lxor_b2z. rewrite <- !(Z.mul_comm _ 2). change 2 with (2 ^ 1).
    rewrite <- !shiftl_mul, Z.shiftl_lxor by lia. apply Z.bits_inj'. intros n _.
    rewrite !Z.lxor_spec. btauto. }
  rewrite Z.lxor_spec.
  destruct (Z.testbit (Z.lxor (2 * c) (Z.b2z b)) 16), (Z.testbit (Z.lxor (2 * c') (Z.b2z b')) 16); cbn [xorb];
    apply Z.bits_inj'; intros n _; rewrite !Z.lxor_spec; btauto.
Qed.
Lemma crc_steps_xor c c' bs cs : length bs = length cs →
  foldl crc_step (Z.lxor c c') (xor_bits bs cs) = Z.lxor (foldl crc_step c bs) (foldl crc_step c' cs).
Proof.
  revert c c' cs. induction bs as [|b bs IH]; intros c c' [|b' cs] Hl; cbn [length] in Hl; try done.
  unfold xor_bits. cbn [foldl zip_with]. rewrite crc_step_xor. apply IH. lia.
Qed.

(** Zeros keep a remainder different from zero, because the polynomial has a
    constant term. *)
Lemma crc_step_zero c : is_u16 c → crc_step c false = 0 → c = 0.
Proof.
  intros Hc. unfold crc_step. cbn [Z.b2z]. rewrite Z.lxor_0_r.
  destruct (Z.testbit (2 * c) 16); [|lia]. intros E. apply Z.lxor_eq in E. lia.
Qed.
Lemma crc_zeros c n : is_u16 c → foldl crc_step c (replicate n false) = 0 → c = 0.
Proof.
  revert c. induction n as [|n IH]; intros c Hc E; [done|]. cbn [replicate foldl] in E.
  apply crc_step_zero; [done|]. apply IH; [by apply crc_step_range|done].
Qed.
Lemma crc_zero_zeros n : foldl crc_step 0 (replicate n false) = 0.
Proof. by induction n. Qed.

(** A remainder of few bits is reached without a reduction. *)
Lemma crc_short c bs : 0 <= c → (c + 1) * 2 ^ Z.of_nat (length bs) <= 2 ^ 16 →
  foldl crc_step c bs = 0 → c = 0 ∧ Forall (λ b, b = false) bs.
Proof.
  revert c. induction bs as [|b bs IH]; intros c Hc Hl E; [done|].
  cbn [length foldl] in *. rewrite Nat2Z.inj_succ, Z.pow_succ_r in Hl by lia.
  assert (0 < 2 ^ Z.of_nat (length bs)) by (apply Z.pow_pos_nonneg; lia).
  assert (Hs : crc_step c b = 2 * c + Z.b2z b).
  { unfold crc_step. pose proof (lxor_cons false b c 0) as H'. cbn [Z.b2z xorb] in H'.
    rewrite Z.lxor_0_r, Z.add_0_l, Z.mul_0_r, Z.add_0_r in H'. rewrite H'.
    rewrite (testbit_above _ 16); [lia| |lia]. destruct b; cbn [Z.b2z]; nia. }
  rewrite Hs in E. destruct (IH (2 * c + Z.b2z b)) as [H0 Hb]; [destruct b; cbn [Z.b2z]; lia| |done|].
  - destruct b; cbn [Z.b2z]; nia.
  - destruct b; cbn [Z.b2z] in H0; [lia|]. split; [lia|]. by constructor.
Qed.

(** ** The two functions *)

Lemma byte_bits_s8 d : byte_bits (s8 d) = byte_bits d.
Proof.
  assert (H : ∀ k, 0 <= k < 8 → Z.testbit (s8 d) k = Z.testbit d k).
  { intros k Hk. rewrite <- (Z.mod_pow2_bits_low (s8 d) 8), <- (Z.mod_pow2_bits_low d 8) by lia.
    f_equal. unfold s8. rewrite <- Zminus_mod_idemp_l, Zmod_mod, Zminus_mod_idemp_l. f_equal. lia. }
  unfold byte_bits. cbn [fmap list_fmap]. by rewrite !H by lia.
Qed.
Lemma lora_crc16_fold c data : is_u16 c →
  foldl (λ crc d, lora_crc16 (s8 d) crc) c data = foldl crc_step c (message_bits data).
Proof.
  revert c. induction data as [|d data IH]; intros c Hc; [done|].
  cbn [foldl]. unfold message_bits. cbn [fmap list_fmap concat].
  rewrite foldl_app, lora_crc16_steps, byte_bits_s8 by done. apply IH. by apply crc_steps_range.
Qed.
Lemma lora_payload_crc_remainder data :
  sx1302_lora_payload_crc data = crc_remainder (message_bits data).
Proof.
  unfold sx1302_lora_payload_crc. rewrite lora_crc16_fold by lia. apply u16_id, crc_steps_range. lia.
Qed.

Lemma crc16_bit_step x : is_u16 x → crc16_bit x = crc_step x false.
Proof.
  intros Hx. pose proof (crc_step_range x false Hx) as Hr. unfold crc16_bit.
  rewrite <- (u16_id _ Hr). unfold crc_step. cbn [Z.b2z]. rewrite Z.lxor_0_r.
  change 16 with (Z.succ 15) at 1. rewrite Z.double_bits_succ, shiftl_mul, (Z.mul_comm x) by lia.
  change (2 ^ 1) with 2. assert (negb (Z.land x 0x8000 =? 0) = Z.testbit x 15) as ->.
  { change 0x8000 with (2 ^ 15). destruct (Z.testbit x 15) eqn:E.
    - rewrite (proj2 (Z.eqb_neq _ _)); [done|]. intros H. apply (f_equal (λ z, Z.testbit z 15)) in H.
      rewrite Z.land_spec, E, Z.bits_0 in H. done.
    - rewrite (proj2 (Z.eqb_eq _ _)); [done|]. apply Z.bits_inj'. intros n Hn.
      rewrite Z.land_spec, Z.pow2_bits_eqb, Z.bits_0 by lia.
      destruct (Z.eqb_spec 15 n) as [<-|]; [by rewrite E|apply andb_false_r]. }
  destruct (Z.testbit x 15); [|done]. apply Z.bits_inj'. intros n Hn. unfold u16.
  destruct (decide (n < 16)).
  - rewrite !Z.mod_pow2_bits_low, !Z.lxor_spec by lia. f_equal.
    change 0x11021 with (Z.lxor crc_poly (2 ^ 16)). rewrite Z.lxor_spec, Z.pow2_bits_eqb by lia.
    rewrite (proj2 (Z.eqb_neq _ _)) by lia. by rewrite xorb_false_r.
  - by rewrite !Z.mod_pow2_bits_high by lia.
Qed.
Lemma crc16_bits x n : is_u16 x → Nat.iter n crc16_bit x = foldl crc_step x (replicate n false).
Proof.
  intros Hx. induction n as [|n IH]; [done|].
  change (Nat.iter (S n) crc16_bit x) with (crc16_bit (Nat.iter n crc16_bit x)).
  rewrite replicate_S_end, foldl_app, IH. cbn [foldl]. by apply crc16_bit_step, crc_steps_range.
Qed.

Abbreviation zeros n := (replicate n false).

Lemma u16_lxor a b : u16 (Z.lxor a b) = Z.lxor (u16 a) (u16 b).
Proof.
  apply Z.bits_inj'. intros n Hn. unfold u16. rewrite Z.lxor_spec.
  destruct (decide (n < 16)); [by rewrite !Z.mod_pow2_bits_low, Z.lxor_spec by lia|].
  by rewrite !Z.mod_pow2_bits_high by lia.
Qed.
Lemma crc_zeros_xor c c' n :
  foldl crc_step (Z.lxor c c') (zeros n) = Z.lxor (foldl crc_step c (zeros n)) (foldl crc_step c' (zeros n)).
Proof.
  rewrite <- crc_steps_xor by done. f_equal. unfold xor_bits.
  by rewrite zip_with_replicate_l, fmap_replicate by (by rewrite length_replicate).
Qed.
Lemma crc_zeros_shift c n : 0 <= c → c * 2 ^ Z.of_nat n < 2 ^ 16 → foldl crc_step c (zeros n) = c * 2 ^ Z.of_nat n.
Proof.
  revert c. induction n as [|n IH]; intros c Hc Hn; cbn [replicate foldl]; [lia|].
  rewrite Nat2Z.inj_succ, Z.pow_succ_r in * by lia.
  assert (0 < 2 ^ Z.of_nat n) by (apply Z.pow_pos_nonneg; lia).
  assert (crc_step c false = 2 * c) as ->.
  { unfold crc_step. cbn [Z.b2z]. rewrite Z.lxor_0_r, (testbit_above _ 16); [done|nia|lia]. }
  rewrite IH; nia.
Qed.
Lemma crc_byte d : is_u8 d → foldl crc_step 0 (byte_bits d) = d.
Proof.
  intros Hd. change 0 with (of_bits (replicate 16 false)) at 1. unfold byte_bits. cbn [fmap list_fmap foldl replicate].
  rewrite !crc_step_bits. symmetry. rewrite !xorb_false_r. apply of_bits_eq; [cbn; lia|].
  intros k Hk. cbn [length] in Hk. do 8 (destruct k as [|k]; [done|]).
  rewrite (testbit_above d 8) by lia. do 8 (destruct k as [|k]; [done|]). lia.
Qed.
Lemma crc_next_byte c d : is_u8 d → foldl crc_step c (byte_bits d) = Z.lxor (foldl crc_step c (zeros 8)) d.
Proof.
  intros Hd. rewrite <- (crc_byte d Hd) at 2. rewrite <- crc_steps_xor by done. by rewrite Z.lxor_0_r.
Qed.

Lemma crc16_fold c data : is_u16 c → Forall (λ d, is_u8 d) data →
  foldl (λ x d, Nat.iter 8 crc16_bit (u16 (Z.lxor x (Z.shiftl d 8)))) (foldl crc_step c (zeros 16)) data
  = foldl crc_step (foldl crc_step c (message_bits data)) (zeros 16).
Proof.
  intros Hc Hb. revert c Hc. induction Hb as [|d data Hd _ IH]; intros c Hc; [done|].
  unfold message_bits. cbn [foldl fmap list_fmap concat]. rewrite foldl_app, <- IH by (by apply crc_steps_range).
  f_equal. rewrite crc16_bits by apply u16_range. rewrite shiftl_mul, u16_lxor by lia.
  rewrite !u16_id by (lia || by apply crc_steps_range).
  change (d * 2 ^ 8) with (d * 2 ^ Z.of_nat 8).
  rewrite crc_zeros_xor, <- (crc_zeros_shift d 8), crc_next_byte, crc_zeros_xor by lia.
  by rewrite <- !foldl_app, <- !replicate_add.
Qed.

(** ** Properties *)

(** Both checksums are remainders by x^16 + x^12 + x^5 + 1: the payload
    checksum of the concentrator, computed a byte at a time with its equations
    written out, is the remainder of the payload, and the forwarder's [crc16],
    with its shift register, the remainder of the data followed by 16 zeros; so
    [crc16] is the payload checksum of the data and two zero bytes. *)
Theorem crc_functions_are_remainders data :
  Forall (λ d, is_u8 d) data →
  sx1302_lora_payload_crc data = crc_remainder (message_bits data) ∧
  crc16 (Some data) = crc_remainder (message_bits data ++ zeros 16) ∧
  crc16 (Some data) = sx1302_lora_payload_crc (data ++ [0; 0]).
Proof.
  intros Hb. assert (H : crc16 (Some data) = crc_remainder (message_bits data ++ zeros 16)).
  { unfold crc16, crc_remainder. rewrite foldl_app. rewrite <- crc16_fold by (done || lia). done. }
  split_and!; [apply lora_payload_crc_remainder|done|].
  rewrite lora_payload_crc_remainder, H. f_equal. unfold message_bits. by rewrite fmap_app, concat_app.
Qed.

(** C32. The payload checksum detects every burst error of up to 16 bits: two
    payloads of the same length that differ, and only inside of 16 consecutive
    bits, have different checksums. *)
Theorem payload_crc_detects_bursts data data' i burst j :
  length data = length data' →
  xor_bits (message_bits data) (message_bits data') = zeros i ++ burst ++ zeros j →
  (length burst <= 16)%nat → true ∈ burst →
  sx1302_lora_payload_crc data ≠ sx1302_lora_payload_crc data'.
Proof.
  intros Hl Hx Hn Ht E. rewrite !lora_payload_crc_remainder in E.
  assert (HL : ∀ l, length (message_bits l) = (8 * length l)%nat).
  { induction l as [|d l IH]; [done|]. unfold message_bits in *. cbn [fmap list_fmap concat].
    rewrite length_app, IH. cbn. lia. }
  assert (E0 : crc_remainder (xor_bits (message_bits data) (message_bits data')) = 0).
  { unfold crc_remainder in *. change 0 with (Z.lxor 0 0) at 1.
    rewrite crc_steps_xor, E, Z.lxor_nilpotent by (rewrite !HL; lia). done. }
  unfold crc_remainder in E0. rewrite Hx, !foldl_app, crc_zero_zeros in E0.
  apply crc_zeros in E0; [|apply crc_steps_range; lia].
  apply crc_short in E0 as [_ H]; [| lia |].
  - rewrite List.Forall_forall in H. apply list_elem_of_In in Ht. by specialize (H _ Ht).
  - rewrite Z.mul_1_l. apply Z.pow_le_mono_r; lia.
Qed.

Lemma crc_functions_are_remainders_witness :
  sx1302_lora_payload_crc [0x31; 0x32; 0x33] = crc_remainder (message_bits [0x31; 0x32; 0x33]) ∧
  crc16 (Some [0x31; 0x32; 0x33]) = crc_remainder (message_bits [0x31; 0x32; 0x33] ++ zeros 16) ∧
  crc16 (Some [0x31; 0x32; 0x33]) = sx1302_lora_payload_crc ([0x31; 0x32; 0x33] ++ [0; 0]).
Proof.
  apply (crc_functions_are_remainders [0x31; 0x32; 0x33]).
  apply (bool_decide_eq_true_1 (Forall (λ d, is_u8 d) [0x31; 0x32; 0x33])). vm_compute. reflexivity.
Defined.
Lemma payload_crc_detects_bursts_witness :
  sx1302_lora_payload_crc [1; 2; 3] ≠ sx1302_lora_payload_crc [1; 130; 67].
Proof.
  apply (payload_crc_detects_bursts [1; 2; 3] [1; 130; 67] 8
    [true; false; false; false; false; false; false; false; false; true] 6).
  - reflexivity.
  - vm_compute. reflexivity.
  - cbn. lia.
  - constructor.
Defined.

(** The check value of CRC-16/XMODEM. *)
Example crc16_check_value : crc16 (Some [0x31; 0x32; 0x33; 0x34; 0x35; 0x36; 0x37; 0x38; 0x39]) = 0x31C3.
Proof. vm_compute. reflexivity. Qed.
