(* ===== verification/Sx1302Conf.v ===== *)
(** * Configuration of the chip ([libloragw/src/loragw_sx1302.c])

    The functions [lgw_start] calls to program the clocks, the front end, the
    channelizer and the modems, as programs over the registers. A sequence of
    [err |= lgw_reg_w(...)] is a list of pairs of a register and a value. *)
From stdpp Require Import base list numbers strings.
From Stdlib Require Import ZArith Lia.
From S2P Require Import Prelude HalTypes Com RegIds Reg RegProg HalConf.

Open Scope Z_scope.
Open Scope list_scope.

(** ** Constants and macros *)

Definition GPIO_CFG_REGISTER : Z := 0x00.
Definition GPIO_CFG_AGC : Z := 0x01.
Definition GPIO_CFG_STATUS : Z := 0x09.
Definition CHIP_MODEL_ID_SX1303 : Z := 0x03.
Definition RX_FREQ_TRACK_OFF : Z := 0x00.
Definition RX_FREQ_TRACK_AUTO : Z := 0x03.
Definition RX_FINE_TIMING_MODE_LINEAR : Z := 0x02.
Definition RX_DFT_PEAK_MODE_AUTO : Z := 0x03.

(** The product is an [int]; the quotient is rounded towards zero. *)
Definition IF_HZ_TO_REG (f : Z) : outcome Z := x ← int_ok (f * 32); Ret (Z.quot x 15625).

(** [x << n] of 64 bits; undefined when [n] is not in 0..63. *)
Definition shl64 (x n : Z) : outcome Z :=
  if (0 <=? n) && (n <? 64) then Ret (u64 (Z.shiftl x n)) else Undef.

(** [mask |= f(i) << i] for [i] from 0 to 7, in a [uint8_t]. *)
Definition channels_mask (f : Z → outcome Z) : outcome Z :=
  for_loop (Z.to_nat LGW_MULTI_NB) 0 (λ i mask, v ← f i; Ret (u8 (Z.lor mask (Z.shiftl v i)))) 0.

(** The loop of [calculate_freq_to_time_drift]; [None]: out of fuel. *)
Fixpoint drift_loop (fuel : nat) (mantissa_u64 exponent : Z) : option (Z * Z) :=
  match fuel with
  | O => None
  | S fuel =>
    if mantissa_u64 <? 2048 then drift_loop fuel (u64 (Z.shiftl mantissa_u64 1)) (u8 (exponent + 1))
    else Some (mantissa_u64, exponent)
  end.

(** The pointers are not NULL in any call; a quotient below 2048 is not below 1
    for a bandwidth of the chip, so that 11 doublings are enough. *)
Definition calculate_freq_to_time_drift {W} (freq_hz bw : Z) : prog W (Z * Z) :=
  let bw_hz := lgw_bw_getval bw in
  if bw_hz <? 0 then failed
  else if freq_hz =? 0 then wrong
  else
    match drift_loop 12 (bw_hz * Z.shiftl 2 (20 - 1) / freq_hz) 0 with
    | Some (mantissa_u64, exponent) => mret (u16 mantissa_u64, exponent)
    | None => spin
    end.

(** ** The functions *)

Section Sx1302.
Context {W : Type} (spi usb : driver W).
Abbreviation wr_or := (wr_or spi usb).
Abbreviation wr_check := (wr_check spi usb).
Abbreviation wr := (wr spi usb).
Abbreviation rd := (rd spi usb).

Definition sx1302_config_gpio : prog W Z := body (
  _ ← wr_check
   [(REG "GPIO_GPIO_SEL_0_SELECTION", GPIO_CFG_REGISTER);
   (REG "GPIO_GPIO_SEL_1_SELECTION", GPIO_CFG_REGISTER);
   (REG "GPIO_GPIO_SEL_2_SELECTION", GPIO_CFG_STATUS);
   (REG "GPIO_GPIO_SEL_3_SELECTION", GPIO_CFG_REGISTER);
   (REG "GPIO_GPIO_SEL_4_SELECTION", GPIO_CFG_STATUS);
   (REG "GPIO_GPIO_SEL_5_SELECTION", GPIO_CFG_REGISTER);
   (REG "GPIO_GPIO_SEL_6_SELECTION", GPIO_CFG_REGISTER);
   (REG "GPIO_GPIO_SEL_7_SELECTION", GPIO_CFG_AGC);
   (REG "GPIO_GPIO_DIR_L_DIRECTION", 0x7F)];
  mret LGW_REG_SUCCESS).

(** The bytes of the identifier, most significant first. *)
Fixpoint get_eui_loop (n : nat) (i eui : Z) : prog W Z :=
  match n with
  | O => mret eui
  | S n =>
    err ← wr (REG "OTP_BYTE_ADDR_ADDR") i;
    _ ← CHECK_OK err;
    '(err, val) ← rd (REG "OTP_RD_DATA_RD_DATA") None;
    _ ← CHECK_OK err;
    val ← known val;
    get_eui_loop n (i + 1) (Z.lor eui (Z.shiftl (u8 val) (56 - i * 8)))
  end.
(** The result is the value stored through [eui], or [Failed]. *)
Definition sx1302_get_eui : prog W Z := get_eui_loop 8 0 0.

(** Likewise for [model_id]. *)
Definition sx1302_get_model_id : prog W Z :=
  err ← wr (REG "OTP_BYTE_ADDR_ADDR") 0xD0;
  _ ← CHECK_OK err;
  '(err, val) ← rd (REG "OTP_RD_DATA_RD_DATA") None;
  _ ← CHECK_OK err;
  known val.

Definition sx1302_radio_clock_select (rf_chain : Z) : prog W Z :=
  if LGW_RF_CHAIN_NB <=? rf_chain then mret LGW_REG_ERROR
  else
    err ← wr_or LGW_REG_SUCCESS
      (match rf_chain with
       | 0 => [(REG "CLK_CTRL_CLK_SEL_CLK_RADIO_A_SEL", 0x01);
       (REG "CLK_CTRL_CLK_SEL_CLK_RADIO_B_SEL", 0x00)]
       | _ => [(REG "CLK_CTRL_CLK_SEL_CLK_RADIO_A_SEL", 0x00);
       (REG "CLK_CTRL_CLK_SEL_CLK_RADIO_B_SEL", 0x01)]
       end ++
       [(REG "CLK_CTRL_CLK_SEL_CLKDIV_EN", 0x01);
       (REG "COMMON_CTRL0_CLK32_RIF_CTRL", 0x01)]);
    mret (status err).

Definition is_sx125x (type : lgw_radio_type_t) : bool :=
  match type with LGW_RADIO_TYPE_SX1255 | LGW_RADIO_TYPE_SX1257 => true | _ => false end.
Definition is_sx1250 (type : lgw_radio_type_t) : bool :=
  match type with LGW_RADIO_TYPE_SX1250 => true | _ => false end.

(** The waits between the accesses are left out. *)
Definition sx1302_radio_reset (rf_chain : Z) (type : lgw_radio_type_t) : prog W Z :=
  if LGW_RF_CHAIN_NB <=? rf_chain then mret LGW_REG_ERROR
  else if negb (is_sx125x type || is_sx1250 type) then mret LGW_REG_ERROR
  else
    let reg_radio_en :=
      REG_SELECT rf_chain (REG "AGC_MCU_RF_EN_A_RADIO_EN") (REG "AGC_MCU_RF_EN_B_RADIO_EN") in
    let reg_radio_rst :=
      REG_SELECT rf_chain (REG "AGC_MCU_RF_EN_A_RADIO_RST") (REG "AGC_MCU_RF_EN_B_RADIO_RST") in
    err ← wr_or LGW_REG_SUCCESS
      ([(REG "COMMON_CTRL0_CLK32_RIF_CTRL", 0x00);
        (reg_radio_en, 0x01);
        (reg_radio_rst, 0x01);
        (reg_radio_rst, 0x00)] ++
       if is_sx1250 type then [(reg_radio_rst, 0x01)] else []);
    mret (status err).

Definition sx1302_radio_set_mode (rf_chain : Z) (type : lgw_radio_type_t) : prog W Z :=
  if LGW_RF_CHAIN_NB <=? rf_chain then mret LGW_REG_ERROR
  else if negb (is_sx125x type || is_sx1250 type) then mret LGW_REG_ERROR
  else
    let reg :=
      REG_SELECT rf_chain (REG "COMMON_CTRL0_SX1261_MODE_RADIO_A")
                          (REG "COMMON_CTRL0_SX1261_MODE_RADIO_B") in
    err ← wr reg (if is_sx1250 type then 0x01 else 0x00);
    mret (status err).

Definition sx1302_radio_host_ctrl (host_ctrl : bool) : prog W Z :=
  wr (REG "COMMON_CTRL0_HOST_RADIO_CTRL") (if negb host_ctrl then 0x00 else 0x01).

Definition sx1302_pa_lna_lut_configure (context_board : Board.lgw_conf_board_s) : prog W Z :=
  wr_or LGW_REG_SUCCESS
    ((if Board.full_duplex context_board then
       [(REG "AGC_MCU_LUT_TABLE_A_PA_LUT", 0x0C);
        (REG "AGC_MCU_LUT_TABLE_A_LNA_LUT", 0x0F)]
      else
       [(REG "AGC_MCU_LUT_TABLE_A_PA_LUT", 0x04);
        (REG "AGC_MCU_LUT_TABLE_A_LNA_LUT", 0x02)]) ++
     [(REG "AGC_MCU_LUT_TABLE_B_PA_LUT", 0x04);
      (REG "AGC_MCU_LUT_TABLE_B_LNA_LUT", 0x02)]).

Definition sx1302_radio_fe_configure : prog W Z :=
  wr_or LGW_REG_SUCCESS
   [(REG "RADIO_FE_RSSI_BB_FILTER_ALPHA_RADIO_A_RSSI_BB_FILTER_ALPHA", 0x03);
    (REG "RADIO_FE_RSSI_DEC_FILTER_ALPHA_RADIO_A_RSSI_DEC_FILTER_ALPHA", 0x07);
    (REG "RADIO_FE_RSSI_BB_FILTER_ALPHA_RADIO_B_RSSI_BB_FILTER_ALPHA", 0x03);
    (REG "RADIO_FE_RSSI_DEC_FILTER_ALPHA_RADIO_B_RSSI_DEC_FILTER_ALPHA", 0x07);
    (REG "RADIO_FE_RSSI_DB_DEF_RADIO_A_RSSI_DB_DEFAULT_VALUE", 23);
    (REG "RADIO_FE_RSSI_DEC_DEF_RADIO_A_RSSI_DEC_DEFAULT_VALUE", 66);
    (REG "RADIO_FE_RSSI_DB_DEF_RADIO_B_RSSI_DB_DEFAULT_VALUE", 23);
    (REG "RADIO_FE_RSSI_DEC_DEF_RADIO_B_RSSI_DEC_DEFAULT_VALUE", 66);
    (REG "RADIO_FE_CTRL0_RADIO_A_DC_NOTCH_EN", 1);
    (REG "RADIO_FE_CTRL0_RADIO_A_HOST_FILTER_GAIN", 0x0b);
    (REG "RADIO_FE_CTRL0_RADIO_B_DC_NOTCH_EN", 1);
    (REG "RADIO_FE_CTRL0_RADIO_B_HOST_FILTER_GAIN", 0x0b)].

(** The two writes of the intermediate frequency of a channel. *)
Definition if_freq_writes (msb lsb : Z) (if_freq : Z) : list (Z * Z) :=
  [(msb, Z.land (Z.shiftr if_freq 8) 0x1F); (lsb, Z.land (Z.shiftr if_freq 0) 0xFF)].

(** The registers of the intermediate frequencies, by channel. *)
Definition if_freq_regs : list (Z * Z) :=
  [(REG "RX_TOP_FREQ_0_MSB_IF_FREQ_0", REG "RX_TOP_FREQ_0_LSB_IF_FREQ_0");
   (REG "RX_TOP_FREQ_1_MSB_IF_FREQ_1", REG "RX_TOP_FREQ_1_LSB_IF_FREQ_1");
   (REG "RX_TOP_FREQ_2_MSB_IF_FREQ_2", REG "RX_TOP_FREQ_2_LSB_IF_FREQ_2");
   (REG "RX_TOP_FREQ_3_MSB_IF_FREQ_3", REG "RX_TOP_FREQ_3_LSB_IF_FREQ_3");
   (REG "RX_TOP_FREQ_4_MSB_IF_FREQ_4", REG "RX_TOP_FREQ_4_LSB_IF_FREQ_4");
   (REG "RX_TOP_FREQ_5_MSB_IF_FREQ_5", REG "RX_TOP_FREQ_5_LSB_IF_FREQ_5");
   (REG "RX_TOP_FREQ_6_MSB_IF_FREQ_6", REG "RX_TOP_FREQ_6_LSB_IF_FREQ_6");
   (REG "RX_TOP_FREQ_7_MSB_IF_FREQ_7", REG "RX_TOP_FREQ_7_LSB_IF_FREQ_7");
   (REG "RX_TOP_LORA_SERVICE_FSK_LORA_SERVICE_FREQ_MSB_IF_FREQ_0",
    REG "RX_TOP_LORA_SERVICE_FSK_LORA_SERVICE_FREQ_LSB_IF_FREQ_0");
   (REG "RX_TOP_LORA_SERVICE_FSK_FSK_FREQ_MSB_IF_FREQ_0",
    REG "RX_TOP_LORA_SERVICE_FSK_FSK_FREQ_LSB_IF_FREQ_0")].

(** One channel after the other: [if_cfg[i]] for [i] from 0 to 9. *)
Fixpoint if_freqs (regs : list (Z * Z)) (i : Z) (if_cfg : list Rxif.lgw_conf_rxif_s)
  : outcome (list (Z * Z)) :=
  match regs with
  | [] => Ret []
  | (msb, lsb) :: regs =>
    c ← buf_get if_cfg i;
    if_freq ← IF_HZ_TO_REG (Rxif.freq_hz c);
    ws ← if_freqs regs (i + 1) if_cfg;
    Ret (if_freq_writes msb lsb if_freq ++ ws)
  end.

Definition channelizer_writes (if_cfg : list Rxif.lgw_conf_rxif_s) (fix_gain : bool)
  : outcome (list (Z * Z)) :=
  mask ← channels_mask (λ i, c ← buf_get if_cfg i; Ret (Rxif.rf_chain c));
  c8 ← buf_get if_cfg 8;
  c9 ← buf_get if_cfg 9;
  freqs ← if_freqs if_freq_regs 0 if_cfg;
  Ret ([(REG "RX_TOP_RADIO_SELECT_RADIO_SELECT", mask);
        (REG "RX_TOP_LORA_SERVICE_FSK_LORA_SERVICE_RADIO_SEL_RADIO_SELECT", Rxif.rf_chain c8);
        (REG "RX_TOP_LORA_SERVICE_FSK_FSK_CFG_3_RADIO_SELECT", Rxif.rf_chain c9)] ++
       freqs ++
       [(REG "RX_TOP_RSSI_CONTROL_RSSI_FILTER_ALPHA", 0x05);
        (REG "RX_TOP_RSSI_DEF_VALUE_CHAN_RSSI_DEF_VALUE", 85)] ++
       (if fix_gain then
         [(REG "RX_TOP_CHANN_DAGC_CFG5_CHAN_DAGC_MODE", 0x00);
          (REG "RX_TOP_GAIN_CONTROL_CHAN_GAIN", 5)]
        else
         [(REG "RX_TOP_CHANN_DAGC_CFG5_CHAN_DAGC_MODE", 0x01);
          (REG "RX_TOP_CHANN_DAGC_CFG1_CHAN_DAGC_THRESHOLD_HIGH", 255);
          (REG "RX_TOP_CHANN_DAGC_CFG2_CHAN_DAGC_THRESHOLD_LOW", 0);
          (REG "RX_TOP_CHANN_DAGC_CFG3_CHAN_DAGC_MAX_ATTEN", 15);
          (REG "RX_TOP_CHANN_DAGC_CFG3_CHAN_DAGC_MIN_ATTEN", 0)])).

Definition sx1302_channelizer_configure (if_cfg : option (list Rxif.lgw_conf_rxif_s))
    (fix_gain : bool) : prog W Z := body (
  if_cfg ← CHECK_NULL if_cfg;
  ws ← pure_of (channelizer_writes if_cfg fix_gain);
  wr_or LGW_REG_SUCCESS ws).

Definition fsk_writes (cfg : Rxif.lgw_conf_rxif_s) : outcome (list (Z * Z)) :=
  fsk_sync_word_reg ← shl64 (Rxif.sync_word cfg) (8 * (8 - Rxif.sync_word_size cfg));
  fsk_br_reg ← (if Rxif.datarate cfg =? 0 then Undef else Ret (32000000 / Rxif.datarate cfg));
  Ret
   [(REG "RX_TOP_LORA_SERVICE_FSK_FSK_CFG_1_PSIZE", Rxif.sync_word_size cfg - 1);
    (REG "RX_TOP_LORA_SERVICE_FSK_FSK_REF_PATTERN_BYTE0_FSK_REF_PATTERN", u8 (Z.shiftr fsk_sync_word_reg 0));
    (REG "RX_TOP_LORA_SERVICE_FSK_FSK_REF_PATTERN_BYTE1_FSK_REF_PATTERN", u8 (Z.shiftr fsk_sync_word_reg 8));
    (REG "RX_TOP_LORA_SERVICE_FSK_FSK_REF_PATTERN_BYTE2_FSK_REF_PATTERN", u8 (Z.shiftr fsk_sync_word_reg 16));
    (REG "RX_TOP_LORA_SERVICE_FSK_FSK_REF_PATTERN_BYTE3_FSK_REF_PATTERN", u8 (Z.shiftr fsk_sync_word_reg 24));
    (REG "RX_TOP_LORA_SERVICE_FSK_FSK_REF_PATTERN_BYTE4_FSK_REF_PATTERN", u8 (Z.shiftr fsk_sync_word_reg 32));
    (REG "RX_TOP_LORA_SERVICE_FSK_FSK_REF_PATTERN_BYTE5_FSK_REF_PATTERN", u8 (Z.shiftr fsk_sync_word_reg 40));
    (REG "RX_TOP_LORA_SERVICE_FSK_FSK_REF_PATTERN_BYTE6_FSK_REF_PATTERN", u8 (Z.shiftr fsk_sync_word_reg 48));
    (REG "RX_TOP_LORA_SERVICE_FSK_FSK_REF_PATTERN_BYTE7_FSK_REF_PATTERN", u8 (Z.shiftr fsk_sync_word_reg 56));
    (REG "RX_TOP_LORA_SERVICE_FSK_BIT_RATE_MSB_BIT_RATE", u8 (Z.shiftr fsk_br_reg 8));
    (REG "RX_TOP_LORA_SERVICE_FSK_BIT_RATE_LSB_BIT_RATE", u8 (Z.shiftr fsk_br_reg 0));
    (REG "RX_TOP_LORA_SERVICE_FSK_FSK_CFG_1_CH_BW_EXPO", 0x03);
    (REG "RX_TOP_LORA_SERVICE_FSK_FSK_CFG_3_RX_INVERT", 0);
    (REG "RX_TOP_LORA_SERVICE_FSK_FSK_CFG_3_MODEM_INVERT_IQ", 0);
    (REG "RX_TOP_LORA_SERVICE_FSK_FSK_CFG_4_RSSI_LENGTH", 4);
    (REG "RX_TOP_LORA_SERVICE_FSK_FSK_CFG_0_PKT_MODE", 1);
    (REG "RX_TOP_LORA_SERVICE_FSK_FSK_CFG_0_CRC_EN", 1);
    (REG "RX_TOP_LORA_SERVICE_FSK_FSK_CFG_0_DCFREE_ENC", 2);
    (REG "RX_TOP_LORA_SERVICE_FSK_FSK_CFG_0_CRC_IBM", 0);
    (REG "RX_TOP_LORA_SERVICE_FSK_FSK_CFG_4_ERROR_OSR_TOL", 10);
    (REG "RX_TOP_LORA_SERVICE_FSK_FSK_PKT_LENGTH_PKT_LENGTH", 255);
    (REG "RX_TOP_LORA_SERVICE_FSK_FSK_NODE_ADRS_NODE_ADRS", 0);
    (REG "RX_TOP_LORA_SERVICE_FSK_FSK_BROADCAST_BROADCAST", 0);
    (REG "RX_TOP_LORA_SERVICE_FSK_FSK_CFG_3_AUTO_AFC", 1);
    (REG "RX_TOP_LORA_SERVICE_FSK_FSK_TIMEOUT_MSB_TIMEOUT", 0);
    (REG "RX_TOP_LORA_SERVICE_FSK_FSK_TIMEOUT_LSB_TIMEOUT", 128)].

Definition sx1302_fsk_configure (cfg : Rxif.lgw_conf_rxif_s) : prog W Z :=
  ws ← pure_of (fsk_writes cfg);
  wr_or LGW_REG_SUCCESS ws.

Definition correlator_writes (if_cfg : list Rxif.lgw_conf_rxif_s) (multisf_datarate : Z)
  : outcome (list (Z * Z)) :=
  mask ← channels_mask (λ i, c ← buf_get if_cfg i; Ret (b2z (Rxif.enable c)));
  Ret
   [(REG "RX_TOP_SF5_CFG2_ACC_PNR", 52);
    (REG "RX_TOP_SF5_CFG4_MSP_PNR", 24);
    (REG "RX_TOP_SF5_CFG6_MSP_PEAK_NB", 7);
    (REG "RX_TOP_SF5_CFG7_MSP2_PEAK_NB", 5);
    (REG "RX_TOP_SF6_CFG2_ACC_PNR", 52);
    (REG "RX_TOP_SF6_CFG4_MSP_PNR", 24);
    (REG "RX_TOP_SF6_CFG6_MSP_PEAK_NB", 7);
    (REG "RX_TOP_SF6_CFG7_MSP2_PEAK_NB", 5);
    (REG "RX_TOP_SF7_CFG2_ACC_PNR", 52);
    (REG "RX_TOP_SF7_CFG4_MSP_PNR", 24);
    (REG "RX_TOP_SF7_CFG6_MSP_PEAK_NB", 7);
    (REG "RX_TOP_SF7_CFG7_MSP2_PEAK_NB", 5);
    (REG "RX_TOP_SF8_CFG2_ACC_PNR", 52);
    (REG "RX_TOP_SF8_CFG4_MSP_PNR", 24);
    (REG "RX_TOP_SF8_CFG6_MSP_PEAK_NB", 7);
    (REG "RX_TOP_SF8_CFG7_MSP2_PEAK_NB", 5);
    (REG "RX_TOP_SF9_CFG2_ACC_PNR", 52);
    (REG "RX_TOP_SF9_CFG4_MSP_PNR", 24);
    (REG "RX_TOP_SF9_CFG6_MSP_PEAK_NB", 7);
    (REG "RX_TOP_SF9_CFG7_MSP2_PEAK_NB", 5);
    (REG "RX_TOP_SF10_CFG2_ACC_PNR", 52);
    (REG "RX_TOP_SF10_CFG4_MSP_PNR", 24);
    (REG "RX_TOP_SF10_CFG6_MSP_PEAK_NB", 7);
    (REG "RX_TOP_SF10_CFG7_MSP2_PEAK_NB", 5);
    (REG "RX_TOP_SF11_CFG2_ACC_PNR", 52);
    (REG "RX_TOP_SF11_CFG4_MSP_PNR", 24);
    (REG "RX_TOP_SF11_CFG6_MSP_PEAK_NB", 7);
    (REG "RX_TOP_SF11_CFG7_MSP2_PEAK_NB", 5);
    (REG "RX_TOP_SF12_CFG2_ACC_PNR", 52);
    (REG "RX_TOP_SF12_CFG4_MSP_PNR", 24);
    (REG "RX_TOP_SF12_CFG6_MSP_PEAK_NB", 7);
    (REG "RX_TOP_SF12_CFG7_MSP2_PEAK_NB", 5);
    (REG "RX_TOP_CORRELATOR_ENABLE_ONLY_FIRST_DET_EDGE_ENABLE_ONLY_FIRST_DET_EDGE", 0xFF);
    (REG "RX_TOP_CORRELATOR_ENABLE_ACC_CLEAR_ENABLE_CORR_ACC_CLEAR", 0xFF);
    (REG "RX_TOP_CORRELATOR_SF_EN_CORR_SF_EN", multisf_datarate);
    (REG "RX_TOP_CORR_CLOCK_ENABLE_CLK_EN", mask);
    (REG "RX_TOP_CORRELATOR_EN_CORR_EN", mask)].

Definition sx1302_lora_correlator_configure (if_cfg : option (list Rxif.lgw_conf_rxif_s))
    (multisf_datarate : Z) : prog W Z := body (
  if_cfg ← CHECK_NULL if_cfg;
  ws ← pure_of (correlator_writes if_cfg multisf_datarate);
  wr_or LGW_REG_SUCCESS ws).

Definition sx1302_lora_service_correlator_configure (cfg : Rxif.lgw_conf_rxif_s) : prog W Z :=
  err ← wr_or LGW_REG_SUCCESS
   [(REG "RX_TOP_LORA_SERVICE_FSK_DETECT_MSP2_MSP_PEAK_NB", 7);
    (REG "RX_TOP_LORA_SERVICE_FSK_DETECT_MSP2_MSP2_PEAK_NB", 5);
    (REG "RX_TOP_LORA_SERVICE_FSK_DETECT_ACC1_USE_GAIN_SYMB", 1)];
  match Rxif.datarate cfg with
  | 5 | 6 => wr_or err
     [(REG "RX_TOP_LORA_SERVICE_FSK_TXRX_CFG2_FINE_SYNCH_EN", 1);
      (REG "RX_TOP_LORA_SERVICE_FSK_DETECT_ACC1_ACC_PNR", 52)]
  | 7 | 8 | 9 | 10 | 11 | 12 => wr_or err
     [(REG "RX_TOP_LORA_SERVICE_FSK_TXRX_CFG2_FINE_SYNCH_EN", 0);
      (REG "RX_TOP_LORA_SERVICE_FSK_DETECT_ACC1_ACC_PNR", 52)]
  | _ => mret LGW_REG_ERROR
  end.

Definition sx1302_lora_modem_configure (radio_freq_hz : Z) : prog W Z := body (
  err ← wr_or LGW_REG_SUCCESS
   [(REG "RX_TOP_DC_NOTCH_CFG1_ENABLE", 0x00);
    (REG "RX_TOP_RX_DFE_AGC1_FORCE_DEFAULT_FIR", 0x01);
    (REG "RX_TOP_DAGC_CFG_GAIN_DROP_COMP", 0x01);
    (REG "RX_TOP_DAGC_CFG_TARGET_LVL", 0x01);
    (REG "OTP_MODEM_EN_0_MODEM_EN", 0xFF);
    (REG "OTP_MODEM_EN_1_MODEM_EN", 0xFF);
    (REG "RX_TOP_MODEM_SYNC_DELTA_MSB_MODEM_SYNC_DELTA", 0);
    (REG "RX_TOP_MODEM_SYNC_DELTA_LSB_MODEM_SYNC_DELTA", 126);
    (REG "ARB_MCU_CHANNEL_SYNC_OFFSET_01_CHANNEL_0_OFFSET", 1);
    (REG "ARB_MCU_CHANNEL_SYNC_OFFSET_01_CHANNEL_1_OFFSET", 5);
    (REG "ARB_MCU_CHANNEL_SYNC_OFFSET_23_CHANNEL_2_OFFSET", 9);
    (REG "ARB_MCU_CHANNEL_SYNC_OFFSET_23_CHANNEL_3_OFFSET", 13);
    (REG "ARB_MCU_CHANNEL_SYNC_OFFSET_45_CHANNEL_4_OFFSET", 1);
    (REG "ARB_MCU_CHANNEL_SYNC_OFFSET_45_CHANNEL_5_OFFSET", 5);
    (REG "ARB_MCU_CHANNEL_SYNC_OFFSET_67_CHANNEL_6_OFFSET", 9);
    (REG "ARB_MCU_CHANNEL_SYNC_OFFSET_67_CHANNEL_7_OFFSET", 13);
    (REG "RX_TOP_MODEM_PPM_OFFSET1_PPM_OFFSET_SF5", 0x00);
    (REG "RX_TOP_MODEM_PPM_OFFSET1_PPM_OFFSET_SF6", 0x00);
    (REG "RX_TOP_MODEM_PPM_OFFSET1_PPM_OFFSET_SF7", 0x00);
    (REG "RX_TOP_MODEM_PPM_OFFSET1_PPM_OFFSET_SF8", 0x00);
    (REG "RX_TOP_MODEM_PPM_OFFSET2_PPM_OFFSET_SF9", 0x00);
    (REG "RX_TOP_MODEM_PPM_OFFSET2_PPM_OFFSET_SF10", 0x00);
    (REG "RX_TOP_MODEM_PPM_OFFSET2_PPM_OFFSET_SF11", 0x01);
    (REG "RX_TOP_MODEM_PPM_OFFSET2_PPM_OFFSET_SF12", 0x01);
    (REG "RX_TOP_FINE_TIMING_A_1_GAIN_P_AUTO", 3);
    (REG "RX_TOP_FINE_TIMING_A_1_GAIN_P_PAYLOAD", 3);
    (REG "RX_TOP_FINE_TIMING_A_5_GAIN_I_EN_SF11", 1);
    (REG "RX_TOP_FINE_TIMING_A_5_GAIN_I_EN_SF12", 1);
    (REG "RX_TOP_FREQ_TRACK4_FREQ_SYNCH_THR", 15);
    (REG "RX_TOP_FREQ_TRACK_A_0_FREQ_TRACK_EN_SF5", RX_FREQ_TRACK_AUTO);
    (REG "RX_TOP_FREQ_TRACK_A_0_FREQ_TRACK_EN_SF6", RX_FREQ_TRACK_AUTO);
    (REG "RX_TOP_FREQ_TRACK_A_0_FREQ_TRACK_EN_SF7", RX_FREQ_TRACK_AUTO);
    (REG "RX_TOP_FREQ_TRACK_A_0_FREQ_TRACK_EN_SF8", RX_FREQ_TRACK_AUTO);
    (REG "RX_TOP_FREQ_TRACK_A_1_FREQ_TRACK_EN_SF9", RX_FREQ_TRACK_AUTO);
    (REG "RX_TOP_FREQ_TRACK_A_1_FREQ_TRACK_EN_SF10", RX_FREQ_TRACK_AUTO);
    (REG "RX_TOP_FREQ_TRACK_A_1_FREQ_TRACK_EN_SF11", RX_FREQ_TRACK_AUTO);
    (REG "RX_TOP_FREQ_TRACK_A_1_FREQ_TRACK_EN_SF12", RX_FREQ_TRACK_AUTO);
    (REG "RX_TOP_FREQ_TRACK_B_0_FREQ_TRACK_EN_SF5", RX_FREQ_TRACK_OFF);
    (REG "RX_TOP_FREQ_TRACK_B_0_FREQ_TRACK_EN_SF6", RX_FREQ_TRACK_OFF);
    (REG "RX_TOP_FREQ_TRACK_B_0_FREQ_TRACK_EN_SF7", RX_FREQ_TRACK_OFF);
    (REG "RX_TOP_FREQ_TRACK_B_0_FREQ_TRACK_EN_SF8", RX_FREQ_TRACK_OFF);
    (REG "RX_TOP_FREQ_TRACK_B_1_FREQ_TRACK_EN_SF9", RX_FREQ_TRACK_OFF);
    (REG "RX_TOP_FREQ_TRACK_B_1_FREQ_TRACK_EN_SF10", RX_FREQ_TRACK_OFF);
    (REG "RX_TOP_FREQ_TRACK_B_1_FREQ_TRACK_EN_SF11", RX_FREQ_TRACK_OFF);
    (REG "RX_TOP_FREQ_TRACK_B_1_FREQ_TRACK_EN_SF12", RX_FREQ_TRACK_OFF);
    (REG "RX_TOP_FINE_TIMING_B_5_GAIN_I_EN_SF11", 0);
    (REG "RX_TOP_FINE_TIMING_B_5_GAIN_I_EN_SF12", 0);
    (REG "RX_TOP_FINE_TIMING_B_0_ROUNDING", 1);
    (REG "RX_TOP_FINE_TIMING_B_0_MODE", RX_FINE_TIMING_MODE_LINEAR);
    (REG "RX_TOP_FINE_TIMING_B_1_GAIN_P_AUTO", 0);
    (REG "RX_TOP_FINE_TIMING_B_1_GAIN_P_PREAMB", 6);
    (REG "RX_TOP_FINE_TIMING_B_1_GAIN_P_PAYLOAD", 2);
    (REG "RX_TOP_FINE_TIMING_B_2_GAIN_I_AUTO", 0);
    (REG "RX_TOP_FINE_TIMING_B_2_GAIN_I_PREAMB", 1);
    (REG "RX_TOP_FINE_TIMING_B_2_GAIN_I_PAYLOAD", 0);
    (REG "RX_TOP_TXRX_CFG7_PREAMBLE_SYMB_NB", 0);
    (REG "RX_TOP_TXRX_CFG6_PREAMBLE_SYMB_NB", 10)];
  '(mantissa, exponent) ← calculate_freq_to_time_drift radio_freq_hz BW_125KHZ;
  wr_or err
   [(REG "RX_TOP_FREQ_TO_TIME0_FREQ_TO_TIME_DRIFT_MANT", Z.land (Z.shiftr mantissa 8) 0xFF);
    (REG "RX_TOP_FREQ_TO_TIME1_FREQ_TO_TIME_DRIFT_MANT", Z.land mantissa 0xFF);
    (REG "RX_TOP_FREQ_TO_TIME2_FREQ_TO_TIME_DRIFT_EXP", exponent);
    (REG "RX_TOP_FREQ_TO_TIME3_FREQ_TO_TIME_INVERT_TIME_SYMB", 1);
    (REG "RX_TOP_RX_CFG0_DFT_PEAK_EN", RX_DFT_PEAK_MODE_AUTO)]).

(** The writes that depend on the data rate. The unsupported values only print a
    message. *)
Definition service_timing_writes (datarate bandwidth : Z) : list (Z * Z) :=
  match datarate with
  | 5 | 6 =>
     [(REG "RX_TOP_LORA_SERVICE_FSK_FINE_TIMING1_GAIN_P_PREAMB", 0x04);
      (REG "RX_TOP_LORA_SERVICE_FSK_FINE_TIMING2_GAIN_I_EN", 0x00)]
  | 7 | 8 | 9 | 10 =>
     [(REG "RX_TOP_LORA_SERVICE_FSK_FINE_TIMING1_GAIN_P_PREAMB", 0x06);
      (REG "RX_TOP_LORA_SERVICE_FSK_FINE_TIMING2_GAIN_I_EN", 0x00)]
  | 11 | 12 =>
     [(REG "RX_TOP_LORA_SERVICE_FSK_FINE_TIMING1_GAIN_P_PREAMB", 0x07)] ++
     match bandwidth with
     | 0x04 => [(REG "RX_TOP_LORA_SERVICE_FSK_FINE_TIMING2_GAIN_I_EN", 0x01)]
     | 0x05 => [(REG "RX_TOP_LORA_SERVICE_FSK_FINE_TIMING2_GAIN_I_EN", 0x02)]
     | 0x06 => [(REG "RX_TOP_LORA_SERVICE_FSK_FINE_TIMING2_GAIN_I_EN", 0x03)]
     | _ => []
     end
  | _ => []
  end.

Definition service_modem_writes (cfg : Rxif.lgw_conf_rxif_s) : list (Z * Z) :=
  let preamble_nb_symb :=
    if (Rxif.datarate cfg =? DR_LORA_SF5) || (Rxif.datarate cfg =? DR_LORA_SF6) then 12 else 8 in
  [(REG "RX_TOP_LORA_SERVICE_FSK_DC_NOTCH_CFG1_ENABLE", 0x00);
   (REG "RX_TOP_LORA_SERVICE_FSK_RX_DFE_AGC1_FORCE_DEFAULT_FIR", 0x01);
   (REG "RX_TOP_LORA_SERVICE_FSK_DAGC_CFG_GAIN_DROP_COMP", 0x01);
   (REG "RX_TOP_LORA_SERVICE_FSK_DAGC_CFG_TARGET_LVL", 0x01);
   (REG "RX_TOP_LORA_SERVICE_FSK_FINE_TIMING1_GAIN_P_AUTO", 0x03);
   (REG "RX_TOP_LORA_SERVICE_FSK_FINE_TIMING2_GAIN_I_PAYLOAD", 0x03)] ++
  service_timing_writes (Rxif.datarate cfg) (Rxif.bandwidth cfg) ++
  [(REG "RX_TOP_LORA_SERVICE_FSK_TXRX_CFG2_IMPLICIT_HEADER", if Rxif.implicit_hdr cfg then 1 else 0);
   (REG "RX_TOP_LORA_SERVICE_FSK_TXRX_CFG2_CRC_EN", if Rxif.implicit_crc_en cfg then 1 else 0);
   (REG "RX_TOP_LORA_SERVICE_FSK_TXRX_CFG1_CODING_RATE", Rxif.implicit_coderate cfg);
   (REG "RX_TOP_LORA_SERVICE_FSK_TXRX_CFG3_PAYLOAD_LENGTH", Rxif.implicit_payload_length cfg);
   (REG "RX_TOP_LORA_SERVICE_FSK_TXRX_CFG0_MODEM_SF", Rxif.datarate cfg);
   (REG "RX_TOP_LORA_SERVICE_FSK_TXRX_CFG0_MODEM_BW", Rxif.bandwidth cfg);
   (REG "RX_TOP_LORA_SERVICE_FSK_TXRX_CFG1_PPM_OFFSET",
    b2z (SET_PPM_ON (Rxif.bandwidth cfg) (Rxif.datarate cfg)));
   (REG "RX_TOP_LORA_SERVICE_FSK_TXRX_CFG7_PREAMBLE_SYMB_NB", Z.land (Z.shiftr preamble_nb_symb 8) 0xFF);
   (REG "RX_TOP_LORA_SERVICE_FSK_TXRX_CFG6_PREAMBLE_SYMB_NB", Z.land (Z.shiftr preamble_nb_symb 0) 0xFF)].

Definition sx1302_lora_service_modem_configure (cfg : Rxif.lgw_conf_rxif_s) (radio_freq_hz : Z)
  : prog W Z := body (
  err ← wr_or LGW_REG_SUCCESS (service_modem_writes cfg);
  '(mantissa, exponent) ← calculate_freq_to_time_drift radio_freq_hz (Rxif.bandwidth cfg);
  wr_or err
   [(REG "RX_TOP_LORA_SERVICE_FSK_FREQ_TO_TIME0_FREQ_TO_TIME_DRIFT_MANT", Z.land (Z.shiftr mantissa 8) 0xFF);
    (REG "RX_TOP_LORA_SERVICE_FSK_FREQ_TO_TIME1_FREQ_TO_TIME_DRIFT_MANT", Z.land mantissa 0xFF);
    (REG "RX_TOP_LORA_SERVICE_FSK_FREQ_TO_TIME2_FREQ_TO_TIME_DRIFT_EXP", exponent);
    (REG "RX_TOP_LORA_SERVICE_FSK_FREQ_TO_TIME3_FREQ_TO_TIME_INVERT_TIME_SYMB", 1);
    (REG "RX_TOP_LORA_SERVICE_FSK_RX_DFE_AGC2_DAGC_IN_COMP", 1);
    (REG "RX_TOP_LORA_SERVICE_FSK_TXRX_CFG1_MODEM_EN", 1);
    (REG "RX_TOP_LORA_SERVICE_FSK_TXRX_CFG2_CADRXTX", 1);
    (REG "RX_TOP_LORA_SERVICE_FSK_TXRX_CFG2_MODEM_START", 1);
    (REG "RX_TOP_LORA_SERVICE_FSK_RX_CFG0_DFT_PEAK_EN", RX_DFT_PEAK_MODE_AUTO)]).

Definition sx1302_modem_enable : prog W Z :=
  wr_or LGW_REG_SUCCESS
   [(REG "COMMON_GEN_CONCENTRATOR_MODEM_ENABLE", 0x01);
    (REG "COMMON_GEN_MBWSSF_MODEM_ENABLE", 0x01);
    (REG "COMMON_GEN_FSK_MODEM_ENABLE", 0x01);
    (REG "COMMON_GEN_GLOBAL_EN", 0x01)].

Definition syncword_writes (public : bool) (lora_service_sf : Z) : list (Z * Z) :=
  [(REG "RX_TOP_FRAME_SYNCH0_SF5_PEAK1_POS_SF5", 2);
   (REG "RX_TOP_FRAME_SYNCH1_SF5_PEAK2_POS_SF5", 4);
   (REG "RX_TOP_FRAME_SYNCH0_SF6_PEAK1_POS_SF6", 2);
   (REG "RX_TOP_FRAME_SYNCH1_SF6_PEAK2_POS_SF6", 4)] ++
  (if public then
    [(REG "RX_TOP_FRAME_SYNCH0_SF7TO12_PEAK1_POS_SF7TO12", 6);
     (REG "RX_TOP_FRAME_SYNCH1_SF7TO12_PEAK2_POS_SF7TO12", 8)]
   else
    [(REG "RX_TOP_FRAME_SYNCH0_SF7TO12_PEAK1_POS_SF7TO12", 2);
     (REG "RX_TOP_FRAME_SYNCH1_SF7TO12_PEAK2_POS_SF7TO12", 4)]) ++
  (if negb public || (lora_service_sf =? DR_LORA_SF5) || (lora_service_sf =? DR_LORA_SF6) then
    [(REG "RX_TOP_LORA_SERVICE_FSK_FRAME_SYNCH0_PEAK1_POS", 2);
     (REG "RX_TOP_LORA_SERVICE_FSK_FRAME_SYNCH1_PEAK2_POS", 4)]
   else
    [(REG "RX_TOP_LORA_SERVICE_FSK_FRAME_SYNCH0_PEAK1_POS", 6);
     (REG "RX_TOP_LORA_SERVICE_FSK_FRAME_SYNCH1_PEAK2_POS", 8)]).
Definition sx1302_lora_syncword (public : bool) (lora_service_sf : Z) : prog W Z :=
  wr_or LGW_REG_SUCCESS (syncword_writes public lora_service_sf).

Definition sx1302_gps_enable (enable : bool) : prog W Z :=
  wr_or LGW_REG_SUCCESS
    (if enable then
      [(REG "TIMESTAMP_GPS_CTRL_GPS_EN", 1);
       (REG "TIMESTAMP_GPS_CTRL_GPS_POL", 1)]
     else
      [(REG "TIMESTAMP_GPS_CTRL_GPS_EN", 0)]).

Definition sx1302_tx_configure (radio_type : lgw_radio_type_t) : prog W Z :=
  let rest :=
   [(REG "TX_TOP_A_TX_RFFE_IF_CTRL_TX_MODE", 0x01);
    (REG "TX_TOP_B_TX_RFFE_IF_CTRL_TX_MODE", 0x01);
    (REG "TX_TOP_A_TX_RFFE_IF_CTRL_TX_CLK_EDGE", 0x00);
    (REG "TX_TOP_B_TX_RFFE_IF_CTRL_TX_CLK_EDGE", 0x00)] in
  match radio_type with
  | LGW_RADIO_TYPE_SX1250 =>
    wr_or LGW_REG_SUCCESS
     ([(REG "TX_TOP_A_TX_RFFE_IF_CTRL2_PLL_DIV_CTRL_AGC", 1);
       (REG "TX_TOP_B_TX_RFFE_IF_CTRL2_PLL_DIV_CTRL_AGC", 1);
       (REG "TX_TOP_A_TX_RFFE_IF_CTRL_TX_IF_DST", 0x01);
       (REG "TX_TOP_B_TX_RFFE_IF_CTRL_TX_IF_DST", 0x01)] ++ rest)
  | LGW_RADIO_TYPE_SX1255 | LGW_RADIO_TYPE_SX1257 =>
    wr_or LGW_REG_SUCCESS
     ([(REG "TX_TOP_A_TX_RFFE_IF_CTRL_TX_IF_DST", 0x00);
       (REG "TX_TOP_B_TX_RFFE_IF_CTRL_TX_IF_DST", 0x00)] ++ rest)
  | _ => mret LGW_REG_ERROR
  end.

Definition sx1302_set_gpio (gpio_reg_val : Z) : prog W Z := body (
  err ← wr (REG "GPIO_GPIO_OUT_L_OUT_VALUE") gpio_reg_val;
  _ ← CHECK_ERR err;
  mret LGW_REG_SUCCESS).
End Sx1302.
