(* ===== verification/Sx1302Mcu.v ===== *)
(** * The microcontrollers of the chip ([libloragw/src/loragw_sx1302.c])

    The SX1302 has two microcontrollers, AGC (gains) and ARB (arbiter). Their
    firmware is loaded into their memories, and then configured in a dialogue:
    the host writes parameters and a command to a mailbox and polls a status
    register until the firmware has taken them. The polling loops have no time
    limit; here they have fuel. *)
From stdpp Require Import base list numbers strings.
From Stdlib Require Import ZArith Lia.
From S2P Require Import Prelude HalTypes Com RegIds Reg RegProg HalConf Sx1302Conf.

Open Scope Z_scope.
Open Scope list_scope.

Definition AGC_RADIO_A_INIT_DONE : Z := 0x80.
Definition AGC_RADIO_B_INIT_DONE : Z := 0x20.
Definition AGC_MEM_ADDR : Z := 0x0000.
Definition ARB_MEM_ADDR : Z := 0x2000.
Definition MCU_FW_SIZE : Z := 8192.

(** ** [loragw_agc_params.h] *)

Record agc_gain_params_s := {
  ana_min : Z; ana_max : Z; ana_thresh_l : Z; ana_thresh_h : Z; dec_attn_min : Z; dec_attn_max : Z;
  dec_thresh_l : Z; dec_thresh_h1 : Z; dec_thresh_h2 : Z; chan_attn_min : Z; chan_attn_max : Z;
  chan_thresh_l : Z; chan_thresh_h : Z; deviceSel : Z; hpMax : Z; paDutyCycle : Z }.
Definition agc_params_sx1250 : agc_gain_params_s :=
  {| ana_min := 1; ana_max := 13; ana_thresh_l := 3; ana_thresh_h := 12; dec_attn_min := 4;
     dec_attn_max := 15; dec_thresh_l := 40; dec_thresh_h1 := 80; dec_thresh_h2 := 90;
     chan_attn_min := 4; chan_attn_max := 14; chan_thresh_l := 52; chan_thresh_h := 132;
     deviceSel := 0; hpMax := 7; paDutyCycle := 4 |}.
Definition agc_params_sx125x : agc_gain_params_s :=
  {| ana_min := 0; ana_max := 9; ana_thresh_l := 16; ana_thresh_h := 35; dec_attn_min := 7;
     dec_attn_max := 11; dec_thresh_l := 45; dec_thresh_h1 := 100; dec_thresh_h2 := 115;
     chan_attn_min := 4; chan_attn_max := 14; chan_thresh_l := 52; chan_thresh_h := 132;
     deviceSel := 0; hpMax := 0; paDutyCycle := 0 |}.

Section Mcu.
Context {W : Type} (spi usb : driver W).
Abbreviation wr_or := (wr_or spi usb).
Abbreviation wr := (wr spi usb).
Abbreviation rd := (rd spi usb).

(** ** Firmware *)

(** [sx1302_agc_load_firmware] and [sx1302_arb_load_firmware] are the same code
    over other registers and another address. [firmware] has [MCU_FW_SIZE]
    bytes; [junk] is what the buffer on the stack holds. *)
Definition load_firmware (clear prog_ parity mem_addr : Z) (firmware junk : list Z) : prog W Z := body (
  err ← wr_or LGW_REG_SUCCESS
    [(clear, 0x01); (prog_, 0x01); (REG "COMMON_PAGE_PAGE", 0x00)];
  e ← call_fuel (λ s, lgw_mem_wb spi usb s mem_addr (Some firmware));
  let err := Z.lor err e in
  '(e, fw_check) ← call_fuel (λ s, lgw_mem_rb spi usb s mem_addr (Some junk) false);
  let err := Z.lor err e in
  if negb (bool_decide (firmware = default junk fw_check)) then failed
  else
    err ← wr_or err [(prog_, 0x00); (clear, 0x00)];
    '(e, val) ← rd parity None;
    let err := Z.lor err e in
    val ← known val;
    if negb (val =? 0) then failed else mret err).
Definition sx1302_agc_load_firmware : list Z → list Z → prog W Z :=
  load_firmware (REG "AGC_MCU_CTRL_MCU_CLEAR") (REG "AGC_MCU_CTRL_HOST_PROG")
    (REG "AGC_MCU_CTRL_PARITY_ERROR") AGC_MEM_ADDR.
Definition sx1302_arb_load_firmware : list Z → list Z → prog W Z :=
  load_firmware (REG "ARB_MCU_CTRL_MCU_CLEAR") (REG "ARB_MCU_CTRL_HOST_PROG")
    (REG "ARB_MCU_CTRL_PARITY_ERROR") ARB_MEM_ADDR.

(** ** Status and mailboxes *)

(** [*status = (uint8_t)val] of a register; the pointer is to a local variable
    that holds [old]. *)
Definition read_u8 (reg : Z) (old : option Z) : prog W (Z * option Z) :=
  '(err, val) ← rd reg None;
  if negb (err =? LGW_REG_SUCCESS) then mret (LGW_REG_ERROR, old)
  else v ← known val; mret (LGW_REG_SUCCESS, Some (u8 v)).
Definition sx1302_agc_status : option Z → prog W (Z * option Z) :=
  read_u8 (REG "AGC_MCU_MCU_AGC_STATUS_MCU_AGC_STATUS").
Definition sx1302_arb_status : option Z → prog W (Z * option Z) :=
  read_u8 (REG "ARB_MCU_MCU_ARB_STATUS_MCU_ARB_STATUS").

Fixpoint wait_status (get : option Z → prog W (Z * option Z)) (fuel : nat) (status : Z) : prog W Z :=
  match fuel with
  | O => spin
  | S fuel =>
    '(err, val) ← get None;
    if negb (err =? LGW_REG_SUCCESS) then mret LGW_REG_ERROR
    else
      val ← known val;
      if negb (val =? status) then wait_status get fuel status else mret LGW_REG_SUCCESS
  end.
Definition sx1302_agc_wait_status : nat → Z → prog W Z := wait_status sx1302_agc_status.
Definition sx1302_arb_wait_status : nat → Z → prog W Z := wait_status sx1302_arb_status.

(** [val] is what the variable behind [value] holds before the call. *)
Definition sx1302_agc_mailbox_read (mailbox : Z) (val : option Z) : prog W (Z * option Z) :=
  if 3 <? mailbox then mret (LGW_REG_ERROR, val)
  else read_u8 (u16 (REG "AGC_MCU_MCU_MAIL_BOX_RD_DATA_BYTE0_MCU_MAIL_BOX_RD_DATA" - mailbox)) val.
Definition sx1302_agc_mailbox_write (mailbox value : Z) : prog W Z :=
  if 3 <? mailbox then mret LGW_REG_ERROR
  else
    err ← wr (u16 (REG "AGC_MCU_MCU_MAIL_BOX_WR_DATA_BYTE0_MCU_MAIL_BOX_WR_DATA" - mailbox)) value;
    mret (status err).
Definition sx1302_arb_debug_read (reg_id : Z) (val : option Z) : prog W (Z * option Z) :=
  if 15 <? reg_id then mret (LGW_REG_ERROR, val)
  else read_u8 (u16 (REG "ARB_MCU_ARB_DEBUG_STS_0_ARB_DEBUG_STS_0" + reg_id)) val.
Definition sx1302_arb_debug_write (reg_id value : Z) : prog W Z :=
  if 3 <? reg_id then mret LGW_REG_ERROR
  else
    err ← wr (u16 (REG "ARB_MCU_ARB_DEBUG_CFG_0_ARB_DEBUG_CFG_0" + reg_id)) value;
    mret (status err).
Definition sx1302_arb_set_debug_stats (enable : bool) (sf : Z) : prog W () :=
  if enable then _ ← wr (REG "ARB_MCU_ARB_DEBUG_CFG_0_ARB_DEBUG_CFG_0") sf; mret () else mret ().

(** ** The AGC dialogue *)

(** Writes the parameters to mailboxes 0, 1, ... and the command to mailbox 3,
    and waits for the firmware to report [st]. The results of the calls are not
    looked at. *)
Fixpoint mailbox_writes (i : Z) (params : list Z) : prog W () :=
  match params with
  | [] => mret ()
  | v :: params => _ ← sx1302_agc_mailbox_write i v; mailbox_writes (i + 1) params
  end.
Definition agc_exchange (fuel : nat) (params : list Z) (cmd st : Z) : prog W () :=
  _ ← mailbox_writes 0 params;
  _ ← sx1302_agc_mailbox_write 3 cmd;
  _ ← sx1302_agc_wait_status fuel st;
  mret ().
(** [sx1302_agc_mailbox_read(i, &val); if (val != expected) return LGW_REG_ERROR;]
    for [i] = 0, 1, ... *)
Fixpoint mailbox_checks (i : Z) (expected : list Z) (val : option Z) : prog W (option Z) :=
  match expected with
  | [] => mret val
  | e :: expected =>
    '(_, val) ← sx1302_agc_mailbox_read i val;
    v ← known val;
    if negb (v =? e) then failed else mailbox_checks (i + 1) expected val
  end.

Definition sx1302_agc_start (fuel : nat) (version : Z) (radio_type : lgw_radio_type_t)
    (ana_gain dec_gain : Z) (full_duplex lbt_enable : bool) : prog W Z := body (
  let fdd_mode := if full_duplex then 1 else 0 in
  if negb (is_sx125x radio_type || is_sx1250 radio_type) then failed
  else
    let gains := [ana_gain; dec_gain] ++ (if is_sx1250 radio_type then [] else [fdd_mode]) in
    let p := if is_sx1250 radio_type then agc_params_sx1250 else agc_params_sx125x in
    (* version *)
    _ ← sx1302_agc_wait_status fuel 0x01;
    val ← mailbox_checks 0 [version] None;
    (* radio A gains *)
    _ ← agc_exchange fuel gains AGC_RADIO_A_INIT_DONE 0x02;
    val ← mailbox_checks 0 [ana_gain; dec_gain; fdd_mode] val;
    (* radio B gains *)
    _ ← agc_exchange fuel gains AGC_RADIO_B_INIT_DONE 0x03;
    val ← mailbox_checks 0 [ana_gain; dec_gain; fdd_mode] val;
    (* analog gain min/max *)
    _ ← agc_exchange fuel [ana_min p; ana_max p] 0x03 0x04;
    val ← mailbox_checks 0 [ana_min p; ana_max p] val;
    (* analog thresholds *)
    _ ← agc_exchange fuel [ana_thresh_l p; ana_thresh_h p] 0x04 0x05;
    val ← mailbox_checks 0 [ana_thresh_l p; ana_thresh_h p] val;
    (* decimator attenuation min/max *)
    _ ← agc_exchange fuel [dec_attn_min p; dec_attn_max p] 0x05 0x06;
    val ← mailbox_checks 0 [dec_attn_min p; dec_attn_max p] val;
    (* decimator attenuation thresholds *)
    _ ← agc_exchange fuel [dec_thresh_l p; dec_thresh_h1 p; dec_thresh_h2 p] 0x06 0x07;
    val ← mailbox_checks 0 [dec_thresh_l p; dec_thresh_h1 p; dec_thresh_h2 p] val;
    (* channel attenuation min/max *)
    _ ← agc_exchange fuel [chan_attn_min p; chan_attn_max p] 0x07 0x08;
    val ← mailbox_checks 0 [chan_attn_min p; chan_attn_max p] val;
    (* channel attenuation thresholds *)
    _ ← agc_exchange fuel [chan_thresh_l p; chan_thresh_h p] 0x08 0x09;
    val ← mailbox_checks 0 [chan_thresh_l p; chan_thresh_h p] val;
    (* sx1250 PA configuration *)
    val ← (if is_sx1250 radio_type then
             _ ← agc_exchange fuel [deviceSel p; hpMax p; paDutyCycle p] 0x09 0x0A;
             mailbox_checks 0 [deviceSel p; hpMax p; paDutyCycle p] val
           else mret val);
    (* PA start delay *)
    _ ← agc_exchange fuel [8] 0x0A 0x0B;
    val ← mailbox_checks 0 [8] val;
    (* listen before talk *)
    _ ← agc_exchange fuel [if lbt_enable then 1 else 0] 0x0B 0x0F;
    '(_, val) ← sx1302_agc_mailbox_read 0 val;
    v ← known val;
    if negb (Bool.eqb (negb (v =? 0)) lbt_enable) then failed
    else
      (* configuration is finished *)
      _ ← sx1302_agc_mailbox_write 3 0x0F;
      mret LGW_REG_SUCCESS).

(** ** The arbiter *)

Definition sx1302_arb_start (fuel : nat) (version : Z) (ftime : lgw_conf_ftime_s) : prog W Z := body (
  _ ← sx1302_arb_wait_status fuel 0x01;
  '(_, val) ← sx1302_arb_debug_read 0 None;
  v ← known val;
  if negb (v =? version) then failed
  else
    _ ← sx1302_arb_set_debug_stats true DR_LORA_SF7;
    _ ← sx1302_arb_debug_write 3
          (if negb (ftime_enable ftime) then 0x00
           else match ftime_mode ftime with
                | LGW_FTIME_MODE_ALL_SF => 0xFF
                | LGW_FTIME_MODE_HIGH_CAPACITY => 0x3F
                end);
    _ ← sx1302_arb_debug_write 2 3;
    _ ← sx1302_arb_debug_write 1 1;
    _ ← sx1302_arb_wait_status fuel 0x00;
    mret LGW_REG_SUCCESS).
End Mcu.
