(* ===== verification/Sx1302ConfProps.v ===== *)
(** * What the configuration leaves in the chip

    The configuration functions of [loragw_sx1302.c] over a link that stores
    what is written: the registers then hold the intermediate frequencies and
    the radio of every channel, the drift of time with frequency, and the sync
    words; the memory of a microcontroller holds its firmware. *)
From stdpp Require Import base list numbers strings relations.
From Stdlib Require Import ZArith Lia.
From S2P Require Import Prelude HalTypes Com Spi RegTable RegIds Reg RegFacts RegProps RegProg.
From S2P Require Import RegView HalConf HalConfProps Sx1302Conf Sx1302Mcu.

Open Scope Z_scope.
Open Scope list_scope.

(** ** Frequency to time drift *)

Lemma drift_loop_spec fuel q e :
  1 <= q < 4096 → 2048 <= q * 2 ^ (Z.of_nat fuel - 1) → 0 <= e → e + Z.of_nat fuel < 256 →
  ∃ k, drift_loop fuel q e = Some (q * 2 ^ k, e + k) ∧ 2048 <= q * 2 ^ k < 4096 ∧ 0 <= k < Z.of_nat fuel.
Proof.
  revert q e. induction fuel as [|fuel IH]; intros q e Hq Hf He Hn; [cbn in Hf; lia|].
  cbn [drift_loop]. destruct (Z.ltb_spec q 2048) as [Hlt|Hge].
  - rewrite Nat2Z.inj_succ in *.
    destruct fuel as [|fuel]; [cbn in Hf; lia|].
    assert (H2 : Z.shiftl q 1 = 2 * q) by (rewrite Z.shiftl_mul_pow2; lia).
    destruct (IH (2 * q) (e + 1)) as (k & E & Hk & Hkf); [lia| |lia|lia|].
    { replace (Z.succ (Z.of_nat (S fuel)) - 1) with (1 + (Z.of_nat (S fuel) - 1)) in Hf by lia.
      rewrite Z.pow_add_r in Hf by lia. lia. }
    exists (k + 1). rewrite H2, u8_id by lia. unfold u64. rewrite Z.mod_small by lia. rewrite E.
    assert (2 * q * 2 ^ k = q * 2 ^ (k + 1)) as -> by (rewrite Z.pow_add_r by lia; lia).
    assert (q * 2 ^ (k + 1) = 2 * q * 2 ^ k) by (rewrite Z.pow_add_r by lia; lia).
    split; [do 2 f_equal; lia|]. split; [lia|]. lia.
  - exists 0. rewrite Z.pow_0_r, Z.mul_1_r, Z.add_0_r. split; [done|lia].
Qed.

(** The mantissa has the 12 bits of its registers, and with the exponent it is
    the ratio of the bandwidth to the frequency, in units of 2^-20, rounded
    down before it is scaled. *)
Lemma freq_to_time_drift_spec {W} freq bw (s : com_state W) :
  IS_LORA_BW bw = true → 256 * lgw_bw_getval bw < freq < 2 ^ 32 →
  ∃ mant e, calculate_freq_to_time_drift freq bw s = Done s (mant, e) ∧ 2048 <= mant < 4096 ∧ 0 <= e <= 7 ∧
    mant * freq <= lgw_bw_getval bw * 2 ^ (20 + e) < (mant + 2 ^ e) * freq.
Proof.
  intros Hbw Hf. unfold calculate_freq_to_time_drift.
  assert (Hv : 125000 <= lgw_bw_getval bw <= 500000).
  { unfold IS_LORA_BW in Hbw. unfold lgw_bw_getval.
    destruct (bw =? BW_500KHZ), (bw =? BW_250KHZ), (bw =? BW_125KHZ); cbn in Hbw; try discriminate Hbw; lia. }
  rewrite (proj2 (Z.ltb_ge _ _)), (proj2 (Z.eqb_neq _ _)) by lia.
  change (Z.shiftl 2 (20 - 1)) with 1048576. set (b := lgw_bw_getval bw) in *. clearbody b.
  pose proof (Z.mul_div_le (b * 1048576) freq ltac:(lia)) as H1.
  pose proof (Z.mul_succ_div_gt (b * 1048576) freq ltac:(lia)) as H2.
  set (q := b * 1048576 / freq) in *. clearbody q.
  assert (Hq : 30 <= q < 4096) by nia.
  destruct (drift_loop_spec 8 q 0) as (k & E & Hm & Hk); [lia|cbn; lia|lia|lia|].
  assert (E12 : drift_loop 12 q 0 = Some (q * 2 ^ k, 0 + k)).
  { destruct (drift_loop_spec 12 q 0) as (k' & E' & Hm' & Hk'); [lia|cbn; lia|lia|lia|].
    rewrite E'. assert (k' = k) as ->; [|done].
    destruct (Z.lt_trichotomy k k') as [Hlt|[->|Hlt]]; [|done|]; exfalso.
    - assert (2 ^ (k + 1) <= 2 ^ k') by (apply Z.pow_le_mono_r; lia). rewrite Z.pow_add_r in * by lia. nia.
    - assert (2 ^ (k' + 1) <= 2 ^ k) by (apply Z.pow_le_mono_r; lia). rewrite Z.pow_add_r in * by lia. nia. }
  exists (q * 2 ^ k), k. rewrite E12, u16_id by lia. rewrite Z.add_0_l.
  split; [done|]. split; [lia|]. split; [lia|].
  rewrite Z.pow_add_r by lia. change (2 ^ 20) with 1048576.
  assert (0 < 2 ^ k) by (apply Z.pow_pos_nonneg; lia). nia.
Qed.

(** ** Channel masks and intermediate frequencies *)

Lemma channels_mask_spec f (v : Z → bool) :
  (∀ i, 0 <= i < 8 → f i = Ret (b2z (v i))) →
  ∃ mask, channels_mask f = Ret mask ∧ is_u8 mask ∧ ∀ i, 0 <= i < 8 → Z.testbit mask i = v i.
Proof.
  intros Hf. unfold channels_mask.
  destruct (for_loop_inv (λ j mask, 0 <= j ∧ is_u8 mask ∧
      (∀ k, 0 <= k < j → Z.testbit mask k = v k) ∧ ∀ k, j <= k → Z.testbit mask k = false)
    (Z.to_nat LGW_MULTI_NB) 0 (λ i mask, v ← f i; Ret (u8 (Z.lor mask (Z.shiftl v i)))) 0)
    as (mask & E & _ & Hm & Hv & _).
  - split; [lia|]. split; [lia|]. split; [lia|]. intros k _. apply Z.testbit_0_l.
  - intros j t Hj (_ & Ht & Hlo & Hhi). assert (j < 8) by (unfold LGW_MULTI_NB in Hj; lia).
    rewrite Hf by lia. cbn [mbind outcome_bind]. eexists. split; [reflexivity|].
    split; [lia|]. split; [apply u8_range|].
    assert (Hbit : ∀ k, 0 <= k → Z.testbit (u8 (Z.lor t (Z.shiftl (b2z (v j)) j))) k
      = (k <? 8) && (Z.testbit t k || (if k =? j then v j else false))).
    { intros k Hk. rewrite u8_testbit, Z.lor_spec, Z.shiftl_spec by lia. do 2 f_equal.
      destruct (Z.eqb_spec k j) as [->|Hne]; [rewrite Z.sub_diag; by destruct (v j)|].
      destruct (v j); unfold b2z; [|apply Z.testbit_0_l]. destruct (Z.ltb_spec k j).
      - apply Z.testbit_neg_r; lia.
      - replace (k - j) with (Z.succ (k - j - 1)) by lia. change 1 with (2 * 0 + 1).
        rewrite Z.testbit_odd_succ by lia. apply Z.testbit_0_l. }
    split; intros k Hk.
    + rewrite Hbit, (proj2 (Z.ltb_lt _ _)) by lia. cbn [andb]. destruct (Z.eqb_spec k j) as [->|].
      * by rewrite Hhi by lia.
      * rewrite orb_false_r. apply Hlo. lia.
    + rewrite Hbit by lia. destruct (Z.ltb_spec k 8); cbn [andb]; [|done].
      rewrite (proj2 (Z.eqb_neq _ _)), orb_false_r by lia. apply Hhi. lia.
  - exists mask. split; [exact E|]. split; [done|]. intros i Hi. apply Hv. unfold LGW_MULTI_NB. lia.
Qed.

(** The value of an intermediate frequency register pair. *)
Definition if_reg (f : Z) : Z := Z.quot (f * 32) 15625.
(** 13 bits, two's complement. *)
Definition signed13 (z : Z) : Z := if z <? 4096 then z else z - 8192.

Lemma if_reg_range f : Z.abs f <= 737500 → -1511 < if_reg f < 1511.
Proof. unfold if_reg. intros. Z.to_euclidean_division_equations. lia. Qed.

Lemma signed13_split f :
  -4096 <= f < 4096 → signed13 (256 * Z.land (Z.shiftr f 8) 0x1F + Z.land (Z.shiftr f 0) 0xFF) = f.
Proof.
  intros Hf. rewrite Z.shiftr_0_r, land_ff. change 0x1F with (Z.ones 5).
  rewrite Z.land_ones, Z.shiftr_div_pow2 by lia. unfold signed13. change (2 ^ 8) with 256. change (2 ^ 5) with 32.
  destruct (Z.ltb_spec (256 * (f / 256 mod 32) + f mod 256) 4096); Z.to_euclidean_division_equations; lia.
Qed.


Lemma if_freqs_spec regs (i : nat) cfgs :
  Forall chain_ok cfgs → (i + length regs <= length cfgs)%nat →
  if_freqs regs (Z.of_nat i) cfgs
  = Ret (concat (zip_with (λ r c, if_freq_writes (fst r) (snd r) (if_reg (Rxif.freq_hz c))) regs (drop i cfgs))).
Proof.
  intros Hc. revert i. induction regs as [|[msb lsb] regs IH]; intros i Hi; [done|].
  cbn [length] in Hi. destruct (lookup_lt_is_Some_2 cfgs i) as [c Ec]; [lia|].
  cbn [if_freqs]. rewrite (buf_get_nat _ _ _ Ec). cbn [mbind outcome_bind].
  destruct (Forall_lookup_1 _ _ _ _ Hc Ec) as [_ Hf].
  unfold IF_HZ_TO_REG. rewrite int_ok_ret by lia. cbn [mbind outcome_bind].
  replace (Z.of_nat i + 1) with (Z.of_nat (S i)) by lia. rewrite IH by lia. cbn [mbind outcome_bind].
  by rewrite (drop_S _ _ _ Ec).
Qed.

(** ** Over a link that stores what is written *)


Section Registers.
Context {W : Type} (spi usb : driver W) (L : com_state W → (Z → Z) → Prop).
Context `{Hlink : !WriteLink spi usb (λ s _ _ m, L s m)}.

Lemma wr_or_now s m ws :
  L s m → forallb writable (map fst ws) = true → (length ws <= 255)%nat →
  ∃ s', wr_or spi usb LGW_REG_SUCCESS ws s = Done s' LGW_REG_SUCCESS ∧ L s' (upd_regs m ws).
Proof.
  intros Hs Hw Hn. apply (wr_or_link spi usb (λ s _ _ m, L s m) s 0 0 m ws Hs); [by apply writes_ok|lia|lia].
Qed.

(** The drift, as the registers [r0], [r1] and [r2] hold it. *)
Definition drift_in (m : Z → Z) (r0 r1 r2 bw_hz freq : Z) : Prop :=
  let mant := 256 * reg_in m r0 + reg_in m r1 in
  let e := reg_in m r2 in
  2048 <= mant < 4096 ∧ 0 <= e <= 7 ∧ mant * freq <= bw_hz * 2 ^ (20 + e) < (mant + 2 ^ e) * freq.

Lemma drift_writes_in m r0 r1 r2 ws mant e bw_hz freq :
  2048 <= mant < 4096 → 0 <= e <= 7 → mant * freq <= bw_hz * 2 ^ (20 + e) < (mant + 2 ^ e) * freq →
  forallb writable (r0 :: r1 :: r2 :: map fst ws) = true →
  last_pos (r0 :: r1 :: r2 :: map fst ws) r0 = Some 0%nat →
  last_pos (r0 :: r1 :: r2 :: map fst ws) r1 = Some 1%nat →
  last_pos (r0 :: r1 :: r2 :: map fst ws) r2 = Some 2%nat →
  map (λ r, (leng (the_reg r), sign (the_reg r))) [r0; r1; r2] = [(4, false); (8, false); (3, false)] →
  drift_in (upd_regs m ((r0, Z.land (Z.shiftr mant 8) 0xFF) :: (r1, Z.land mant 0xFF) :: (r2, e) :: ws))
    r0 r1 r2 bw_hz freq.
Proof.
  intros Hm He Hd Hok H0 H1 H2 Hl. injection Hl as Hl0 Hs0 Hl1 Hs1 Hl2 Hs2. unfold drift_in.
  set (l := _ :: _ :: _ :: ws). assert (Hids : map fst l = r0 :: r1 :: r2 :: map fst ws) by done.
  assert (Hr : ∀ r, In r (r0 :: r1 :: r2 :: map fst ws) → (0 <=? r) && (r <? LGW_TOTALREGS) = true).
  { intros r Hr. rewrite forallb_forall in Hok. apply Hok in Hr. unfold writable in Hr.
    by apply andb_true_iff in Hr as [Hr _]. }
  rewrite (reg_in_write m l _ r0 0 (mant / 256) 4 false Hids Hok H0);
    [|cbn; rewrite land_ff, Z.shiftr_div_pow2 by lia; change (2 ^ 8) with 256;
      by rewrite Z.mod_small by (split; [apply Z.div_pos|apply Z.div_lt_upper_bound]; lia)
    |apply Hr; by left|by rewrite Hl0, Hs0|split; [apply Z.div_pos|apply Z.div_lt_upper_bound]; lia].
  rewrite (reg_in_write m l _ r1 1 (mant mod 256) 8 false Hids Hok H1);
    [|by cbn; rewrite land_ff|apply Hr; by right; left|by rewrite Hl1, Hs1|by apply Z.mod_pos_bound].
  rewrite (reg_in_write m l _ r2 2 e 3 false Hids Hok H2);
    [|done|apply Hr; by right; right; left|by rewrite Hl2, Hs2|cbn; lia].
  rewrite <- Z.div_mod by lia. done.
Qed.

Lemma service_writes_ok cfg :
  lora_ok cfg → forallb writable (map fst (service_modem_writes cfg)) = true ∧
  (length (service_modem_writes cfg) <= 255)%nat.
Proof.
  intros [Hbw Hdr].
  assert (In (Rxif.datarate cfg) [5; 6; 7; 8; 9; 10; 11; 12]) as Hd.
  { unfold IS_LORA_DR in Hdr. repeat (apply orb_true_iff in Hdr as [Hdr|Hdr]);
      apply Z.eqb_eq in Hdr; rewrite Hdr; vm_compute; tauto. }
  assert (In (Rxif.bandwidth cfg) [4; 5; 6]) as Hb.
  { unfold IS_LORA_BW in Hbw. repeat (apply orb_true_iff in Hbw as [Hbw|Hbw]);
      apply Z.eqb_eq in Hbw; rewrite Hbw; vm_compute; tauto. }
  unfold service_modem_writes. rewrite map_app, map_app, !length_app.
  assert (Hs : forallb writable (map fst (service_timing_writes (Rxif.datarate cfg) (Rxif.bandwidth cfg))) = true
    ∧ (length (service_timing_writes (Rxif.datarate cfg) (Rxif.bandwidth cfg)) <= 3)%nat).
  { assert (Hall : forallb (λ d, forallb (λ b, forallb writable (map fst (service_timing_writes d b)) &&
      Nat.leb (length (service_timing_writes d b)) 3) [4; 5; 6]) [5; 6; 7; 8; 9; 10; 11; 12] = true)
      by (vm_compute; reflexivity).
    rewrite forallb_forall in Hall. specialize (Hall _ Hd). rewrite forallb_forall in Hall.
    apply Hall, andb_true_iff in Hb as [H1 H2]. split; [exact H1|by apply Nat.leb_le]. }
  destruct Hs as [H1 H2]. rewrite !forallb_app, H1. split; [vm_compute; reflexivity|cbn [length]; lia].
Qed.

(** After the configuration of the LoRa modems over a link that stores what
    is written, the registers of the multi-SF demodulators and of the service
    demodulator hold the drift of time with frequency: a mantissa of 12 bits
    and an exponent, which together are the bandwidth over the radio frequency
    in units of 2^-20, rounded down before it is scaled. The scaling loop ends.
    (For the service demodulator the frequency must be above 256 times the
    bandwidth; below it the mantissa does not fit.) *)
Theorem drift_programmed s m freq cfg freq' :
  L s m → 100000000 <= freq <= 1000000000 → lora_ok cfg →
  256 * lgw_bw_getval (Rxif.bandwidth cfg) < freq' < 2 ^ 32 →
  (∃ s' m', sx1302_lora_modem_configure spi usb freq s = Done s' LGW_REG_SUCCESS ∧ L s' m' ∧
     drift_in m' (REG "RX_TOP_FREQ_TO_TIME0_FREQ_TO_TIME_DRIFT_MANT")
       (REG "RX_TOP_FREQ_TO_TIME1_FREQ_TO_TIME_DRIFT_MANT") (REG "RX_TOP_FREQ_TO_TIME2_FREQ_TO_TIME_DRIFT_EXP")
       125000 freq) ∧
  (∃ s' m', sx1302_lora_service_modem_configure spi usb cfg freq' s = Done s' LGW_REG_SUCCESS ∧ L s' m' ∧
     drift_in m' (REG "RX_TOP_LORA_SERVICE_FSK_FREQ_TO_TIME0_FREQ_TO_TIME_DRIFT_MANT")
       (REG "RX_TOP_LORA_SERVICE_FSK_FREQ_TO_TIME1_FREQ_TO_TIME_DRIFT_MANT")
       (REG "RX_TOP_LORA_SERVICE_FSK_FREQ_TO_TIME2_FREQ_TO_TIME_DRIFT_EXP")
       (lgw_bw_getval (Rxif.bandwidth cfg)) freq').
Proof.
  intros Hs Hf Hcfg Hf'. split.
  - unfold sx1302_lora_modem_configure. match goal with |- context [wr_or spi usb LGW_REG_SUCCESS ?l] => set (ws := l) end.
    destruct (wr_or_now s m ws Hs) as (s1 & E1 & Hs1); [vm_compute; reflexivity|subst ws; cbn [length]; lia|].
    clearbody ws.
    destruct (freq_to_time_drift_spec freq BW_125KHZ s1) as (mant & e & E2 & Hm & He & Hd);
      [done|change (lgw_bw_getval BW_125KHZ) with 125000; lia|].
    edestruct (wr_or_now s1 (upd_regs m ws)) as (s2 & E3 & Hs2); [exact Hs1| | |
      exists s2; eexists; split; [apply body_done; erewrite bind_done by exact E1;
        erewrite bind_done by exact E2; exact E3|split; [exact Hs2|]]];
      [vm_compute; reflexivity|cbn [length]; lia|].
    apply (drift_writes_in _ _ _ _ _ mant e _ _ Hm He Hd); vm_compute; reflexivity.
  - unfold sx1302_lora_service_modem_configure. destruct (service_writes_ok cfg Hcfg) as [Hok Hlen].
    destruct (wr_or_now s m _ Hs Hok Hlen) as (s1 & E1 & Hs1).
    destruct (freq_to_time_drift_spec freq' (Rxif.bandwidth cfg) s1) as (mant & e & E2 & Hm & He & Hd);
      [apply Hcfg|done|].
    edestruct (wr_or_now s1 (upd_regs m (service_modem_writes cfg))) as (s2 & E3 & Hs2); [exact Hs1| | |
      exists s2; eexists; split; [apply body_done; erewrite bind_done by exact E1;
        erewrite bind_done by exact E2; exact E3|split; [exact Hs2|]]];
      [vm_compute; reflexivity|cbn [length]; lia|].
    apply (drift_writes_in _ _ _ _ _ mant e _ _ Hm He Hd); vm_compute; reflexivity.
Qed.

(** What the registers say of IF chain [i]: its frequency and its radio. *)
Definition if_in (m : Z → Z) (i : nat) : Z :=
  let '(msb, lsb) := nth i if_freq_regs (0, 0) in signed13 (256 * reg_in m msb + reg_in m lsb).
Definition radio_in (m : Z → Z) (i : nat) : Z :=
  if (i <? 8)%nat then b2z (Z.testbit (reg_in m (REG "RX_TOP_RADIO_SELECT_RADIO_SELECT")) (Z.of_nat i))
  else if (i =? 8)%nat then reg_in m (REG "RX_TOP_LORA_SERVICE_FSK_LORA_SERVICE_RADIO_SEL_RADIO_SELECT")
  else reg_in m (REG "RX_TOP_LORA_SERVICE_FSK_FSK_CFG_3_RADIO_SELECT").

Lemma if_in_write m ws ids msb lsb i k f :
  map fst ws = ids → forallb writable ids = true → nth i if_freq_regs (0, 0) = (msb, lsb) →
  last_pos ids msb = Some k → last_pos ids lsb = Some (S k) →
  ws !! k = Some (msb, Z.land (Z.shiftr f 8) 0x1F) → ws !! S k = Some (lsb, Z.land (Z.shiftr f 0) 0xFF) →
  (leng (the_reg msb), sign (the_reg msb)) = (5, false) → (leng (the_reg lsb), sign (the_reg lsb)) = (8, false) →
  -4096 <= f < 4096 → if_in (upd_regs m ws) i = f.
Proof.
  intros Hids Hok Hi Hp0 Hp1 Hk0 Hk1 Hl0 Hl1 Hf. unfold if_in. rewrite Hi.
  assert (Hr : ∀ r p, last_pos ids r = Some p → (0 <=? r) && (r <? LGW_TOTALREGS) = true).
  { intros r p Hr. destruct (decide (r ∈ ids)) as [Hin%list_elem_of_In|Hn].
    - rewrite forallb_forall in Hok. apply Hok in Hin. unfold writable in Hin. by apply andb_true_iff in Hin as [Hin _].
    - apply last_pos_None in Hn. congruence. }
  rewrite (reg_in_write m ws ids msb k _ 5 false Hids Hok Hp0 (f_equal (fmap snd) Hk0) (Hr _ _ Hp0) Hl0).
  2: { change 0x1F with (Z.ones 5). rewrite Z.land_ones by lia. by apply Z.mod_pos_bound. }
  rewrite (reg_in_write m ws ids lsb (S k) _ 8 false Hids Hok Hp1 (f_equal (fmap snd) Hk1) (Hr _ _ Hp1) Hl1).
  2: { rewrite land_ff. by apply Z.mod_pos_bound. }
  by apply signed13_split.
Qed.

(** The registers that are written do not depend on the channels. *)
Definition channelizer_ids (fix_gain : bool) : list Z :=
  match channelizer_writes (replicate 10 Rxif.zero) fix_gain with Ret ws => map fst ws | _ => [] end.
Definition if_writes (cfgs : list Rxif.lgw_conf_rxif_s) : list (Z * Z) :=
  concat (zip_with (λ r c, if_freq_writes (fst r) (snd r) (if_reg (Rxif.freq_hz c))) if_freq_regs cfgs).

Definition radio_regs : list Z :=
  [REG "RX_TOP_RADIO_SELECT_RADIO_SELECT"; REG "RX_TOP_LORA_SERVICE_FSK_LORA_SERVICE_RADIO_SEL_RADIO_SELECT";
   REG "RX_TOP_LORA_SERVICE_FSK_FSK_CFG_3_RADIO_SELECT"].

Lemma radio_in_write m (ws : list (Z * Z)) mask ids cfgs i c :
  map fst ws = ids → forallb writable ids = true →
  take 3 (map snd ws) = [mask; Rxif.rf_chain (nth 8 cfgs Rxif.zero); Rxif.rf_chain (nth 9 cfgs Rxif.zero)] →
  is_u8 mask → (∀ i c, (i < 8)%nat → cfgs !! i = Some c → Z.testbit mask (Z.of_nat i) = (Rxif.rf_chain c =? 1)) →
  cfgs !! i = Some c → (i < 10)%nat → 0 <= Rxif.rf_chain c < 2 →
  map (last_pos ids) radio_regs = [Some 0%nat; Some 1%nat; Some 2%nat] →
  radio_in (upd_regs m ws) i = Rxif.rf_chain c.
Proof.
  intros Hids Hok H3 Hm Hb Hc Hi Hrf Hpos. injection Hpos as Hp0 Hp1 Hp2.
  assert (Hk : ∀ k v, [mask; Rxif.rf_chain (nth 8 cfgs Rxif.zero); Rxif.rf_chain (nth 9 cfgs Rxif.zero)] !! k = Some v →
    snd <$> ws !! k = Some v).
  { intros k v E. rewrite <- H3 in E. assert (k < 3)%nat as Hk3.
    { apply lookup_lt_Some in E. rewrite length_take in E. lia. }
    rewrite lookup_take_lt in E by done. by rewrite <- list_lookup_fmap. }
  unfold radio_in. destruct (Nat.ltb_spec i 8) as [H8|H8]; [|destruct (Nat.eqb_spec i 8) as [->|H9]].
  - rewrite (reg_in_write m ws ids _ 0 mask 8 false Hids Hok Hp0 (Hk 0%nat _ eq_refl)); [|vm_compute; reflexivity..|exact Hm].
    rewrite (Hb i c H8 Hc). by assert (Rxif.rf_chain c = 0 ∨ Rxif.rf_chain c = 1) as [-> | ->] by lia.
  - rewrite (reg_in_write m ws ids _ 1 (Rxif.rf_chain c) 1 false Hids Hok Hp1); [done| |vm_compute; reflexivity..|lia].
    apply Hk. cbn. by rewrite (nth_lookup_Some _ _ _ _ Hc).
  - assert (i = 9)%nat as -> by lia.
    rewrite (reg_in_write m ws ids _ 2 (Rxif.rf_chain c) 1 false Hids Hok Hp2); [done| |vm_compute; reflexivity..|lia].
    apply Hk. cbn. by rewrite (nth_lookup_Some _ _ _ _ Hc).
Qed.

Lemma channelizer_run cfgs fix_gain :
  length cfgs = 10%nat → Forall chain_ok cfgs →
  ∃ mask ws, channelizer_writes cfgs fix_gain = Ret ws ∧ is_u8 mask ∧
    (∀ i c, (i < 8)%nat → cfgs !! i = Some c → Z.testbit mask (Z.of_nat i) = (Rxif.rf_chain c =? 1)) ∧
    take 3 (map snd ws) = [mask; Rxif.rf_chain (nth 8 cfgs Rxif.zero); Rxif.rf_chain (nth 9 cfgs Rxif.zero)] ∧
    take 20 (drop 3 ws) = if_writes cfgs ∧ map fst ws = channelizer_ids fix_gain.
Proof.
  intros Hl Hc. pose (v i := Rxif.rf_chain (nth (Z.to_nat i) cfgs Rxif.zero) =? 1).
  destruct (channels_mask_spec (λ i, c ← buf_get cfgs i; Ret (Rxif.rf_chain c)) v) as (mask & Em & Hm & Hv).
  { intros i Hi. destruct (lookup_lt_is_Some_2 cfgs (Z.to_nat i)) as [c Ec]; [lia|].
    pose proof (buf_get_nat _ _ _ Ec) as E. rewrite Z2Nat.id in E by lia. rewrite E. cbn [mbind outcome_bind].
    subst v. cbv beta. rewrite (nth_lookup_Some _ _ _ _ Ec). destruct (Forall_lookup_1 _ _ _ _ Hc Ec) as [Hrf _].
    f_equal. by assert (Rxif.rf_chain c = 0 ∨ Rxif.rf_chain c = 1) as [-> | ->] by lia. }
  destruct (lookup_lt_is_Some_2 cfgs 8) as [c8 E8]; [lia|]. destruct (lookup_lt_is_Some_2 cfgs 9) as [c9 E9]; [lia|].
  exists mask. eexists. split; [|split; [exact Hm|split]].
  - unfold channelizer_writes. rewrite Em. cbn [mbind outcome_bind].
    rewrite (buf_get_nat cfgs 8 _ E8 : buf_get cfgs 8 = _), (buf_get_nat cfgs 9 _ E9 : buf_get cfgs 9 = _).
    cbn [mbind outcome_bind]. change 0 with (Z.of_nat 0). rewrite if_freqs_spec by (done || (rewrite Hl; reflexivity)).
    cbn [mbind outcome_bind]. reflexivity.
  - intros i c Hi Ec. rewrite Hv by lia. subst v. cbv beta. by rewrite Nat2Z.id, (nth_lookup_Some _ _ _ _ Ec).
  - rewrite (drop_0 cfgs), (nth_lookup_Some cfgs _ Rxif.zero _ E8), (nth_lookup_Some cfgs _ Rxif.zero _ E9). fold (if_writes cfgs).
    assert (Hlen : length (if_writes cfgs) = 20%nat ∧
      map fst (if_writes cfgs) = flat_map (λ r, [fst r; snd r]) if_freq_regs).
    { clear -Hl. do 10 (destruct cfgs as [|? cfgs]; [discriminate Hl|]). destruct cfgs; [|discriminate Hl]. by split. }
    destruct Hlen as [H20 Hids]. split; [reflexivity|]. split.
    + cbn [app drop]. rewrite <- H20. apply take_app_length.
    + rewrite !map_app, Hids. destruct fix_gain; vm_compute; reflexivity.
Qed.

Lemma if_writes_lookup cfgs i c :
  length cfgs = 10%nat → cfgs !! i = Some c →
  let '(msb, lsb) := nth i if_freq_regs (0, 0) in
  if_writes cfgs !! (2 * i)%nat = Some (msb, Z.land (Z.shiftr (if_reg (Rxif.freq_hz c)) 8) 0x1F) ∧
  if_writes cfgs !! S (2 * i) = Some (lsb, Z.land (Z.shiftr (if_reg (Rxif.freq_hz c)) 0) 0xFF).
Proof.
  intros Hl Hc. do 10 (destruct cfgs as [|? cfgs]; [discriminate Hl|]). destruct cfgs; [|discriminate Hl].
  do 10 (destruct i as [|i]; [injection Hc as ->; split; reflexivity|]). discriminate Hc.
Qed.

(** Where the registers of a chain are among those written. *)
Definition chain_place (ids : list Z) (i : nat) : bool :=
  let '(msb, lsb) := nth i if_freq_regs (0, 0) in
  bool_decide (last_pos ids msb = Some (3 + 2 * i)%nat ∧ last_pos ids lsb = Some (4 + 2 * i)%nat ∧
    (leng (the_reg msb), sign (the_reg msb)) = (5, false) ∧ (leng (the_reg lsb), sign (the_reg lsb)) = (8, false)).
Lemma chain_places fix_gain i : (i < 10)%nat → chain_place (channelizer_ids fix_gain) i = true.
Proof.
  intros Hi. assert (H : forallb (chain_place (channelizer_ids fix_gain)) (seq 0 10) = true)
    by (destruct fix_gain; vm_compute; reflexivity).
  rewrite forallb_forall in H. apply H, in_seq. lia.
Qed.

(** C29. For any sequence of configuration calls, the channelizer then programmed
    over a link that stores what is written gives every IF chain its own
    registers' worth: the frequency registers of chain [i] hold, in 13 bits
    two's complement, its intermediate frequency in steps of 15625/32 Hz rounded
    towards zero, and the radio selection of chain [i] is its radio. *)
Theorem channelizer_programmed s m c fix_gain :
  L s m → rtc conf_step lgw_context c →
  ∃ s' m', sx1302_channelizer_configure spi usb (Some (if_chain_cfg c)) fix_gain s = Done s' LGW_REG_SUCCESS ∧
    L s' m' ∧
    ∀ i cfg, if_chain_cfg c !! i = Some cfg →
      if_in m' i = Z.quot (32 * Rxif.freq_hz cfg) 15625 ∧ radio_in m' i = Rxif.rf_chain cfg.
Proof.
  intros Hs Hc. assert (context_ok c) as (_ & _ & Hl & Hok & _).
  { by apply (context_steps_ok lgw_context); [apply context_ok_initial|]. }
  destruct (channelizer_run (if_chain_cfg c) fix_gain Hl Hok) as (mask & ws & E & Hm & Hbits & H3 & H20 & Hids).
  set (cfgs := if_chain_cfg c) in *. clearbody cfgs.
  assert (Hw : forallb writable (channelizer_ids fix_gain) = true ∧ (length (channelizer_ids fix_gain) <= 255)%nat).
  { destruct fix_gain; (split; [vm_compute; reflexivity|]); apply Nat.leb_le; vm_compute; reflexivity. }
  destruct Hw as [Hw Hlen].
  destruct (wr_or_now s m ws Hs) as (s' & E' & Hs'); [by rewrite Hids|by rewrite <- Hids, length_map in Hlen|].
  exists s', (upd_regs m ws). split; [|split; [done|]].
  { unfold sx1302_channelizer_configure. apply body_done. cbn [CHECK_NULL]. erewrite bind_done by reflexivity.
    rewrite E. erewrite bind_done by reflexivity. exact E'. }
  intros i cfg Ei. assert (Hi : (i < 10)%nat) by (rewrite <- Hl; by eapply lookup_lt_Some).
  destruct (Forall_lookup_1 _ _ _ _ Hok Ei) as [Hrf Hf]. split.
  - rewrite Z.mul_comm. fold (if_reg (Rxif.freq_hz cfg)). pose proof (if_reg_range _ Hf).
    pose proof (chain_places fix_gain i Hi) as Hp. pose proof (if_writes_lookup cfgs i cfg Hl Ei) as Hlk.
    unfold chain_place in Hp. destruct (nth i if_freq_regs (0, 0)) as [msb lsb] eqn:En.
    apply bool_decide_eq_true in Hp as (Hp0 & Hp1 & Hl0 & Hl1). destruct Hlk as [Hk0 Hk1].
    rewrite <- H20, lookup_take_lt, lookup_drop in Hk0, Hk1 by lia.
    replace (3 + S (2 * i))%nat with (S (3 + 2 * i)) in Hk1 by lia.
    eapply (if_in_write m ws _ msb lsb i (3 + 2 * i)); [exact Hids|exact Hw|exact En|exact Hp0|exact Hp1|exact Hk0
      |exact Hk1|exact Hl0|exact Hl1|lia].
  - apply (radio_in_write m ws mask (channelizer_ids fix_gain) cfgs i cfg); try assumption;
      destruct fix_gain; vm_compute; reflexivity.
Qed.
End Registers.

(** ** Firmware *)

(** The registers are above the memories of the microcontrollers. *)
Lemma registers_high j : 0 <= j < LGW_TOTALREGS → 0x4000 <= addr (the_reg j).
Proof.
  intros Hj. assert (H : forallb (λ r, 0x4000 <=? addr r) registers = true) by (vm_compute; reflexivity).
  rewrite forallb_forall in H. apply Z.leb_le, H.
  eapply list_elem_of_In, list_elem_of_lookup_2, the_reg_lookup, Hj.
Qed.

Section Firmware.
Context {W : Type} (spi usb d : driver W) (up : W → Prop) (mem : W → Z → Z).
Context `{!MemBus d up mem} (Hchunk : 256 <= drv_chunk_size d).
Abbreviation L := (direct spi usb d up mem).

Lemma mem_wb_direct s m a l :
  L s m → 0 <= a → l ≠ [] → a + Z.of_nat (length l) <= 2 ^ 15 → Forall (λ x, is_u8 x) l →
  ∃ s', call_fuel (λ s, lgw_mem_wb spi usb s a (Some l)) s = Done s' LGW_REG_SUCCESS ∧ L s' (upd_bytes m a l).
Proof.
  intros [Hs Hm] Ha Hl Hle Hb. destruct (lgw_mem_wb_spec spi usb d up mem s a l) as (s' & E & Hs' & Hw); [done..|].
  exists s'. unfold call_fuel. rewrite E. split; [done|]. split; [done|]. intros b. rewrite Hw. unfold upd_bytes.
  by destruct (_ && _)%bool.
Qed.
Lemma mem_rb_direct s m a l old :
  L s m → 0 <= a → old ≠ [] → a + Z.of_nat (length old) <= 2 ^ 15 → bytes_at m a (length old) = l →
  ∃ s', call_fuel (λ s, lgw_mem_rb spi usb s a (Some old) false) s = Done s' (LGW_REG_SUCCESS, Some l) ∧ L s' m.
Proof.
  intros [Hs Hm] Ha Hl Hle <-. destruct (lgw_mem_rb_spec spi usb d up mem s a old) as (s' & E & Hs' & Hw); [done..|].
  exists s'. unfold call_fuel. rewrite E. split; [do 3 f_equal; by apply bytes_at_ext|]. split; [done|].
  intros b. by rewrite Hw.
Qed.

Lemma load_firmware_run s m clear prog_ parity a fw junk :
  L s m → 0 <= a → a + Z.of_nat (length fw) <= 0x4000 → fw ≠ [] → length junk = length fw →
  Forall (λ x, is_u8 x) fw → forallb writable [clear; prog_; REG "COMMON_PAGE_PAGE"] = true →
  0 <= parity < LGW_TOTALREGS → forallb (λ i, negb (i =? parity)) [clear; prog_; REG "COMMON_PAGE_PAGE"] = true →
  let m' := upd_regs (upd_bytes (upd_regs m [(clear, 1); (prog_, 1); (REG "COMMON_PAGE_PAGE", 0)]) a fw)
              [(prog_, 0); (clear, 0)] in
  ∃ s', load_firmware spi usb clear prog_ parity a fw junk s
        = Done s' (if reg_in m parity =? 0 then LGW_REG_SUCCESS else LGW_REG_ERROR) ∧ L s' m'.
Proof.
  intros Hs Ha Hle Hfw Hj Hb Hw Hp Hne m'. pose proof (direct_write_link spi usb d up mem Hchunk) as Hlink.
  set (page := REG "COMMON_PAGE_PAGE") in *.
  cbn [forallb] in Hw. apply andb_true_iff in Hw as [Hw1 [Hw2 [Hw3 _]%andb_true_iff]%andb_true_iff].
  destruct (wr_or_now spi usb L s m [(clear, 1); (prog_, 1); (page, 0)] Hs) as (s1 & E1 & Hs1);
    [cbn [map fst forallb]; by rewrite Hw1, Hw2, Hw3|cbn; lia|].
  destruct (mem_wb_direct s1 _ a fw Hs1 Ha Hfw) as (s2 & E2 & Hs2); [lia|done|].
  destruct (mem_rb_direct s2 _ a fw junk Hs2 Ha) as (s3 & E3 & Hs3).
  { by destruct fw, junk. }
  { lia. }
  { rewrite Hj. by apply (bytes_at_written (upd_regs m [(clear, 1); (prog_, 1); (page, 0)])). }
  destruct (wr_or_now spi usb L s3 _ [(prog_, 0); (clear, 0)] Hs3) as (s4 & E4 & Hs4);
    [cbn [map fst forallb]; by rewrite Hw1, Hw2|cbn; lia|].
  destruct (rd_direct spi usb d up mem s4 _ parity None Hs4 Hp) as (s5 & E5 & Hs5).
  assert (Hpar : reg_in m' parity = reg_in m parity).
  { subst m'. cbn [forallb] in Hne. apply andb_true_iff in Hne as [N1 [N2 [N3 _]%andb_true_iff]%andb_true_iff].
    apply negb_true_iff in N1, N2, N3. apply writable_spec in Hw1 as [Hw1 _], Hw2 as [Hw2 _], Hw3 as [Hw3 _].
    unfold upd_regs. cbn [foldl fst snd]. rewrite !reg_in_upd, N1, N2 by done.
    rewrite reg_in_bytes by (right; pose proof (registers_high parity Hp); lia).
    by rewrite !reg_in_upd, N1, N2, N3 by done. }
  exists s5. split; [|exact Hs5]. fold m' in E5. rewrite Hpar in E5.
  unfold load_firmware. fold page. change 0x01 with 1. change 0x00 with 0.
  unfold body. erewrite bind_done by exact E1. erewrite bind_done by exact E2.
  erewrite bind_done by exact E3. cbv beta iota. cbn [default]. rewrite bool_decide_eq_true_2 by done. cbn [negb].
  erewrite bind_done by exact E4. erewrite bind_done by exact E5. cbv beta iota.
  erewrite bind_done by reflexivity. cbv beta. by destruct (reg_in m parity =? 0).
Qed.

Lemma loaded_memory m clear prog_ a fw :
  0 <= a → a + Z.of_nat (length fw) <= 0x4000 →
  forallb writable [clear; prog_; REG "COMMON_PAGE_PAGE"] = true → clear ≠ prog_ →
  let m' := upd_regs (upd_bytes (upd_regs m [(clear, 1); (prog_, 1); (REG "COMMON_PAGE_PAGE", 0)]) a fw)
              [(prog_, 0); (clear, 0)] in
  bytes_at m' a (length fw) = fw ∧ reg_in m' clear = reg_cast (the_reg clear) 0 ∧
  reg_in m' prog_ = reg_cast (the_reg prog_) 0 ∧
  ∀ j, 0 <= j < LGW_TOTALREGS → j ∉ [clear; prog_; REG "COMMON_PAGE_PAGE"] → reg_in m' j = reg_in m j.
Proof.
  intros Ha Hle Hw Hne. set (page := REG "COMMON_PAGE_PAGE") in *.
  cbn [forallb] in Hw. apply andb_true_iff in Hw as [Hw1 [Hw2 [Hw3 _]%andb_true_iff]%andb_true_iff].
  apply writable_spec in Hw1 as [Hw1 _], Hw2 as [Hw2 _], Hw3 as [Hw3 _]. intros m'. split_and!.
  - set (m1 := upd_regs m [(clear, 1); (prog_, 1); (page, 0)]) in m'.
    assert (E : bytes_at (upd_bytes m1 a fw) a (length fw) = fw) by (by apply (bytes_at_written m1)).
    rewrite <- E at 2. unfold bytes_at. apply list_fmap_ext. intros i x Hx.
    apply lookup_seq in Hx as [-> Hi]. subst m'. apply upd_regs_other.
    pose proof (registers_high _ Hw1). pose proof (registers_high _ Hw2). repeat constructor; cbn [fst]; lia.
  - subst m'. unfold upd_regs. cbn [foldl fst snd]. rewrite reg_in_upd by done. by rewrite Z.eqb_refl.
  - subst m'. unfold upd_regs. cbn [foldl fst snd]. rewrite reg_in_upd by done.
    rewrite (proj2 (Z.eqb_neq _ _)) by done. rewrite reg_in_upd by done. by rewrite Z.eqb_refl.
  - intros j Hj [Hj1 [Hj2 [Hj3 _]%not_elem_of_cons]%not_elem_of_cons]%not_elem_of_cons. subst m'.
    unfold upd_regs. cbn [foldl fst snd]. rewrite !reg_in_upd, !(proj2 (Z.eqb_neq _ j)) by (done || congruence).
    rewrite reg_in_bytes by (right; pose proof (registers_high j Hj); lia).
    by rewrite !reg_in_upd, !(proj2 (Z.eqb_neq _ j)) by (done || congruence).
Qed.

(** Loading a firmware over a link that keeps what is written: the memory of
    the microcontroller then holds the firmware (8192 bytes at 0x0000 for AGC,
    at 0x2000 for ARB), the microcontroller runs (the host has given up its
    memory and its reset is released), the other registers are as before but for
    the page, and the result is an error exactly if the chip reports a parity
    error. *)
Theorem firmware_loaded s m fw junk :
  L s m → Z.of_nat (length fw) = MCU_FW_SIZE → length junk = length fw → Forall (λ x, is_u8 x) fw →
  let result parity := if reg_in m parity =? 0 then LGW_REG_SUCCESS else LGW_REG_ERROR in
  (∃ s' m', sx1302_agc_load_firmware spi usb fw junk s = Done s' (result (REG "AGC_MCU_CTRL_PARITY_ERROR")) ∧
     L s' m' ∧ bytes_at m' AGC_MEM_ADDR (length fw) = fw ∧
     reg_in m' (REG "AGC_MCU_CTRL_MCU_CLEAR") = 0 ∧ reg_in m' (REG "AGC_MCU_CTRL_HOST_PROG") = 0 ∧
     ∀ j, 0 <= j < LGW_TOTALREGS → j ∉ map REG ["AGC_MCU_CTRL_MCU_CLEAR"; "AGC_MCU_CTRL_HOST_PROG"; "COMMON_PAGE_PAGE"]%string →
       reg_in m' j = reg_in m j) ∧
  (∃ s' m', sx1302_arb_load_firmware spi usb fw junk s = Done s' (result (REG "ARB_MCU_CTRL_PARITY_ERROR")) ∧
     L s' m' ∧ bytes_at m' ARB_MEM_ADDR (length fw) = fw ∧
     reg_in m' (REG "ARB_MCU_CTRL_MCU_CLEAR") = 0 ∧ reg_in m' (REG "ARB_MCU_CTRL_HOST_PROG") = 0 ∧
     ∀ j, 0 <= j < LGW_TOTALREGS → j ∉ map REG ["ARB_MCU_CTRL_MCU_CLEAR"; "ARB_MCU_CTRL_HOST_PROG"; "COMMON_PAGE_PAGE"]%string →
       reg_in m' j = reg_in m j).
Proof.
  intros Hs Hn Hj Hb result. assert (Hne : fw ≠ []) by (intros ->; discriminate Hn).
  unfold MCU_FW_SIZE in Hn. split.
  - destruct (load_firmware_run s m (REG "AGC_MCU_CTRL_MCU_CLEAR") (REG "AGC_MCU_CTRL_HOST_PROG")
      (REG "AGC_MCU_CTRL_PARITY_ERROR") AGC_MEM_ADDR fw junk Hs) as (s' & E & Hs');
      [unfold AGC_MEM_ADDR; lia|unfold AGC_MEM_ADDR; lia|exact Hne|exact Hj|exact Hb|vm_compute; reflexivity
      |split; vm_compute; [discriminate|reflexivity]|vm_compute; reflexivity|].
    destruct (loaded_memory m (REG "AGC_MCU_CTRL_MCU_CLEAR") (REG "AGC_MCU_CTRL_HOST_PROG") AGC_MEM_ADDR fw)
      as (H1 & H2 & H3 & H4); [unfold AGC_MEM_ADDR; lia|unfold AGC_MEM_ADDR; lia|vm_compute; reflexivity
      |vm_compute; discriminate|].
    exists s'. eexists. split; [exact E|]. split; [exact Hs'|]. split; [exact H1|]. rewrite H2, H3.
    split; [vm_compute; reflexivity|]. split; [vm_compute; reflexivity|exact H4].
  - destruct (load_firmware_run s m (REG "ARB_MCU_CTRL_MCU_CLEAR") (REG "ARB_MCU_CTRL_HOST_PROG")
      (REG "ARB_MCU_CTRL_PARITY_ERROR") ARB_MEM_ADDR fw junk Hs) as (s' & E & Hs');
      [unfold ARB_MEM_ADDR; lia|unfold ARB_MEM_ADDR; lia|exact Hne|exact Hj|exact Hb|vm_compute; reflexivity
      |split; vm_compute; [discriminate|reflexivity]|vm_compute; reflexivity|].
    destruct (loaded_memory m (REG "ARB_MCU_CTRL_MCU_CLEAR") (REG "ARB_MCU_CTRL_HOST_PROG") ARB_MEM_ADDR fw)
      as (H1 & H2 & H3 & H4); [unfold ARB_MEM_ADDR; lia|unfold ARB_MEM_ADDR; lia|vm_compute; reflexivity
      |vm_compute; discriminate|].
    exists s'. eexists. split; [exact E|]. split; [exact Hs'|]. split; [exact H1|]. rewrite H2, H3.
    split; [vm_compute; reflexivity|]. split; [vm_compute; reflexivity|exact H4].
Qed.
End Firmware.

(** ** Witnesses: a memory behind the SPI driver *)

Definition blank : com_state (Z → Z) := Com LGW_COM_SPI true (λ _, 0).
Abbreviation blank_link := (direct demo_drv demo_drv demo_drv ideal_up ideal_mem).
Lemma blank_ok : blank_link blank (λ _, 0).
Proof. split; [|done]. split; [done|]. split; [by left|]. intros a. cbn. lia. Qed.
Lemma blank_chunk : 256 <= drv_chunk_size demo_drv.
Proof. vm_compute. discriminate. Qed.

(** 868.5 MHz; the service channel with 250 kHz, SF7. *)
Lemma drift_programmed_witness :
  (∃ s' m', sx1302_lora_modem_configure demo_drv demo_drv 868500000 blank = Done s' LGW_REG_SUCCESS ∧
     blank_link s' m') ∧
  ∃ s' m', sx1302_lora_service_modem_configure demo_drv demo_drv (lora_service_cfg lgw_context) 868500000 blank
           = Done s' LGW_REG_SUCCESS ∧ blank_link s' m'.
Proof.
  destruct (drift_programmed demo_drv demo_drv blank_link
    (Hlink := direct_write_link demo_drv demo_drv demo_drv ideal_up ideal_mem blank_chunk)
    blank (λ _, 0) 868500000 (lora_service_cfg lgw_context) 868500000)
    as [(s1 & m1 & E1 & H1 & _) (s2 & m2 & E2 & H2 & _)];
    [apply blank_ok|lia|by split|split; vm_compute; reflexivity|].
  split; [exists s1, m1; split; [exact E1|exact H1]|exists s2, m2; split; [exact E2|exact H2]].
Defined.

(** Chain 3 on radio 1, 200 kHz below its frequency. *)
Lemma channelizer_programmed_witness :
  ∃ c, rtc conf_step lgw_context c ∧
  ∃ s' m', sx1302_channelizer_configure demo_drv demo_drv (Some (if_chain_cfg c)) true blank
           = Done s' LGW_REG_SUCCESS ∧ if_in m' 3 = -409 ∧ radio_in m' 3 = 1.
Proof.
  assert (H : ∃ c conf cfg, lgw_rxif_setconf lgw_context 3 (Some (demo_chain (-200000)))
    = Ret (c, conf, LGW_HAL_SUCCESS) ∧ if_chain_cfg c !! 3%nat = Some cfg ∧ Rxif.freq_hz cfg = -200000 ∧
      Rxif.rf_chain cfg = 1).
  { eexists _, _, _. split; [vm_compute; reflexivity|]. split; [vm_compute; reflexivity|]. split; reflexivity. }
  destruct H as (c & conf & cfg & E & Hc & Hf & Hr). exists c.
  assert (Hstep : rtc conf_step lgw_context c).
  { apply rtc_once. apply (conf_rxif _ _ 3 (Some (demo_chain (-200000))) conf LGW_HAL_SUCCESS); [lia| |exact E].
    intros x [= <-]. cbn. lia. }
  split; [exact Hstep|].
  destruct (channelizer_programmed demo_drv demo_drv blank_link
    (Hlink := direct_write_link demo_drv demo_drv demo_drv ideal_up ideal_mem blank_chunk)
    blank (λ _, 0) c true blank_ok Hstep) as (s' & m' & E' & _ & H).
  exists s', m'. split; [exact E'|]. destruct (H 3%nat _ Hc) as [-> ->]. rewrite Hf, Hr. split; reflexivity.
Defined.

Lemma firmware_loaded_witness :
  let fw := replicate (Z.to_nat 8192) 7 in
  ∃ s' m', sx1302_agc_load_firmware demo_drv demo_drv fw (replicate (Z.to_nat 8192) 0) blank
           = Done s' LGW_REG_SUCCESS ∧ bytes_at m' AGC_MEM_ADDR (length fw) = fw.
Proof.
  intros fw.
  destruct (firmware_loaded demo_drv demo_drv demo_drv ideal_up ideal_mem blank_chunk blank (λ _, 0) fw
    (replicate (Z.to_nat 8192) 0) blank_ok) as [(s' & m' & E & _ & Hfw & _) _].
  - subst fw. rewrite length_replicate. reflexivity.
  - subst fw. by rewrite !length_replicate.
  - apply Forall_replicate. lia.
  - exists s', m'. split; [exact E|exact Hfw].
Defined.
