(* ===== verification/Sx1302McuProps.v ===== *)
(** * The dialogue with the AGC firmware ends

    [AgcChip] states what the AGC firmware promises through its registers: it
    shows its status, takes parameters from the mailbox on a command, echoes
    them, and reports the next status within a bounded number of polls. Over
    it, [sx1302_agc_start] returns, and the firmware has received the whole
    configuration in order. *)
From stdpp Require Import base list numbers strings.
From Stdlib Require Import ZArith Lia.
From S2P Require Import Prelude HalTypes Com RegTable RegIds Reg RegProg HalConf Sx1302Conf Sx1302Mcu.

Open Scope Z_scope.
Open Scope list_scope.

(** ** The firmware *)

(** What it shows (status and the three boxes it fills), what is in the three
    boxes the host fills, what it is working on: in at most [n] more polls it
    shows the given status and boxes; and the commands it has taken with the
    contents of the boxes, the last one first. *)
Record agc := Agc {
  a_status : Z; a_rd : list Z; a_wr : list Z; a_work : option (nat * Z * list Z);
  a_log : list (Z * list Z) }.

(** The status after a command. *)
Definition agc_next (st cmd : Z) : option Z :=
  match st, cmd with
  | 0x01, 0x80 => Some 0x02
  | 0x02, 0x20 => Some 0x03
  | 0x03, 0x03 => Some 0x04
  | 0x04, 0x04 => Some 0x05
  | 0x05, 0x05 => Some 0x06
  | 0x06, 0x06 => Some 0x07
  | 0x07, 0x07 => Some 0x08
  | 0x08, 0x08 => Some 0x09
  | 0x09, 0x09 => Some 0x0A
  | 0x09, 0x0A | 0x0A, 0x0A => Some 0x0B
  | 0x0B, 0x0B => Some 0x0F
  | _, _ => None
  end.

Inductive poll : agc → Z → agc → Prop :=
  | poll_idle a : a_work a = None → poll a (a_status a) a
  | poll_wait a n st rd v : a_work a = Some (S n, st, rd) → v ≠ st → 0 <= v < 2 ^ 8 →
      poll a v (Agc (a_status a) (a_rd a) (a_wr a) (Some (n, st, rd)) (a_log a))
  | poll_done a n st rd : a_work a = Some (n, st, rd) →
      poll a st (Agc st rd (a_wr a) None (a_log a)).

Abbreviation STATUS_REG := (REG "AGC_MCU_MCU_AGC_STATUS_MCU_AGC_STATUS").
Abbreviation RD_BOX i := (REG "AGC_MCU_MCU_MAIL_BOX_RD_DATA_BYTE0_MCU_MAIL_BOX_RD_DATA" - i).
Abbreviation WR_BOX i := (REG "AGC_MCU_MCU_MAIL_BOX_WR_DATA_BYTE0_MCU_MAIL_BOX_WR_DATA" - i).

(** [agc_at s a]: behind the link [s] is an AGC in the state [a]. *)
Class AgcChip {W} (spi usb : driver W) (agc_at : com_state W → agc → Prop) (delay : nat) : Prop := {
  agc_bytes : ∀ s a, agc_at s a → 0 <= a_status a < 2 ^ 8 ∧ length (a_rd a) = 3%nat ∧
    length (a_wr a) = 3%nat ∧ Forall (λ x, is_u8 x) (a_rd a) ∧
    ∀ n st rd, a_work a = Some (n, st, rd) → 0 <= st < 2 ^ 8;
  agc_poll : ∀ s a, agc_at s a → ∃ s' v a',
    lgw_reg_r spi usb s STATUS_REG true = (s', (LGW_REG_SUCCESS, Some v)) ∧ poll a v a' ∧ agc_at s' a';
  agc_read : ∀ s a i, agc_at s a → a_work a = None → 0 <= i < 3 → ∃ s',
    lgw_reg_r spi usb s (RD_BOX i) true = (s', (LGW_REG_SUCCESS, Some (znth 0 (a_rd a) i))) ∧ agc_at s' a;
  agc_write : ∀ s a i v, agc_at s a → 0 <= i < 3 → is_u8 v → ∃ s',
    lgw_reg_w spi usb s (WR_BOX i) v = (s', LGW_REG_SUCCESS) ∧
    agc_at s' (Agc (a_status a) (a_rd a) (<[Z.to_nat i := v]> (a_wr a)) (a_work a) (a_log a));
  agc_command : ∀ s a cmd st, agc_at s a → a_work a = None → agc_next (a_status a) cmd = Some st → ∃ s',
    lgw_reg_w spi usb s (WR_BOX 3) cmd = (s', LGW_REG_SUCCESS) ∧
    agc_at s' (Agc (a_status a) (a_rd a) (a_wr a) (Some (delay, st, a_wr a))
               ((cmd, a_wr a) :: a_log a));
  agc_finish : ∀ s a, agc_at s a → a_work a = None → a_status a = 0x0F → ∃ s',
    lgw_reg_w spi usb s (WR_BOX 3) 0x0F = (s', LGW_REG_SUCCESS) ∧
    agc_at s' (Agc (a_status a) (a_rd a) (a_wr a) None ((0x0F, a_wr a) :: a_log a)) }.

(** ** One exchange *)

Section Dialogue.
Context {W : Type} (spi usb : driver W) (agc_at : com_state W → agc → Prop) (delay : nat).
Context `{!AgcChip spi usb agc_at delay}.

Lemma agc_status_read s a : agc_at s a → ∃ s' v a',
  sx1302_agc_status spi usb None s = Done s' (LGW_REG_SUCCESS, Some v) ∧ poll a v a' ∧ agc_at s' a'.
Proof.
  intros Hs. destruct (agc_poll s a Hs) as (s' & v & a' & E & Hp & Hs'). exists s', v, a'.
  split_and!; [|done|done]. unfold sx1302_agc_status, read_u8.
  erewrite bind_done; [|unfold rd; erewrite bind_done; [|unfold call; by rewrite E]; done].
  cbn [negb Z.eqb LGW_REG_SUCCESS]. erewrite bind_done by done. cbv beta. unfold mret, eff_ret. do 3 f_equal.
  apply u8_id. destruct (agc_bytes s a Hs) as (H1 & _ & _ & _ & H2). inversion Hp; subst; eauto.
Qed.

(** The wait ends: the firmware shows the status within its delay. *)
Lemma agc_wait fuel s a n st rd :
  agc_at s a → a_work a = Some (n, st, rd) → (n < fuel)%nat →
  ∃ s', sx1302_agc_wait_status spi usb fuel st s = Done s' LGW_REG_SUCCESS ∧
        agc_at s' (Agc st rd (a_wr a) None (a_log a)).
Proof.
  revert s a n. induction fuel as [|fuel IH]; intros s a n Hs Hw Hn; [lia|].
  destruct (agc_status_read s a Hs) as (s1 & v & a1 & E & Hp & Hs1).
  unfold sx1302_agc_wait_status in *. cbn [wait_status]. erewrite bind_done by exact E.
  cbn [negb Z.eqb LGW_REG_SUCCESS]. erewrite bind_done by done. cbv beta.
  inversion Hp as [? H0 |? n' st' rd' v' H0 Hv _|? n' st' rd' H0]; subst; rewrite Hw in H0; [done| |].
  - injection H0 as -> <- <-. rewrite (proj2 (Z.eqb_neq _ _)) by done. cbn [negb].
    apply (IH s1 _ n' Hs1); [done|lia].
  - injection H0 as <- <- <-. rewrite Z.eqb_refl. cbn [negb]. by exists s1.
Qed.

Lemma box_u16 i : 0 <= i <= 3 → u16 (RD_BOX i) = RD_BOX i ∧ u16 (WR_BOX i) = WR_BOX i.
Proof.
  intros Hi. replace (REG "AGC_MCU_MCU_MAIL_BOX_RD_DATA_BYTE0_MCU_MAIL_BOX_RD_DATA") with 52 by (vm_compute; reflexivity).
  replace (REG "AGC_MCU_MCU_MAIL_BOX_WR_DATA_BYTE0_MCU_MAIL_BOX_WR_DATA") with 48 by (vm_compute; reflexivity).
  split; apply u16_id; lia.
Qed.

Lemma mailbox_write_ok s s' i v :
  0 <= i <= 3 → lgw_reg_w spi usb s (WR_BOX i) v = (s', LGW_REG_SUCCESS) →
  sx1302_agc_mailbox_write spi usb i v s = Done s' LGW_REG_SUCCESS.
Proof.
  intros Hi E. unfold sx1302_agc_mailbox_write. rewrite (proj2 (Z.ltb_ge _ _)) by lia.
  rewrite (proj2 (box_u16 i Hi)). erewrite bind_done; [|unfold wr, call; by rewrite E]. done.
Qed.
Lemma mailbox_read_ok s a i val :
  agc_at s a → a_work a = None → 0 <= i < 3 →
  ∃ s', sx1302_agc_mailbox_read spi usb i val s = Done s' (LGW_REG_SUCCESS, Some (znth 0 (a_rd a) i)) ∧ agc_at s' a.
Proof.
  intros Hs Hw Hi. destruct (agc_read s a i Hs Hw Hi) as (s' & E & Hs'). exists s'. split; [|done].
  unfold sx1302_agc_mailbox_read. rewrite (proj2 (Z.ltb_ge _ _)) by lia.
  rewrite (proj1 (box_u16 i ltac:(lia))). unfold read_u8.
  erewrite bind_done; [|unfold rd; erewrite bind_done; [|unfold call; by rewrite E]; done].
  cbn [negb Z.eqb LGW_REG_SUCCESS]. erewrite bind_done by done. cbv beta. unfold mret, eff_ret. do 3 f_equal.
  apply u8_id. destruct (agc_bytes s a Hs) as (_ & H1 & _ & H2 & _). unfold znth.
  rewrite (proj2 (Z.ltb_ge _ _)) by lia. rewrite List.Forall_forall in H2. apply H2, nth_In. lia.
Qed.

(** The boxes after the parameters are written from box 0 on. *)
Definition boxes (params w : list Z) : list Z := params ++ drop (length params) w.
Definition with_wr (a : agc) (w : list Z) : agc := Agc (a_status a) (a_rd a) w (a_work a) (a_log a).

Lemma mailbox_writes_ok params s a pre :
  agc_at s (with_wr a (boxes pre (a_wr a))) → length (a_wr a) = 3%nat →
  (length pre + length params <= 3)%nat → Forall (λ x, is_u8 x) params →
  ∃ s', mailbox_writes spi usb (Z.of_nat (length pre)) params s = Done s' () ∧
        agc_at s' (with_wr a (boxes (pre ++ params) (a_wr a))).
Proof.
  revert s pre. induction params as [|v params IH]; intros s pre Hs Hl Hn Hp.
  { exists s. by rewrite app_nil_r. }
  apply List.Forall_cons_iff in Hp as [Hv Hp]. cbn [length] in Hn.
  destruct (agc_write s _ (Z.of_nat (length pre)) v Hs) as (s1 & E & Hs1); [lia|done|].
  destruct (IH s1 (pre ++ [v])) as (s' & E' & Hs').
  - assert (Hins : <[length pre := v]> (boxes pre (a_wr a)) = boxes (pre ++ [v]) (a_wr a)).
    { unfold boxes. rewrite length_app, insert_app_r_alt, Nat.sub_diag by lia. cbn [length].
      rewrite <- app_assoc. f_equal. rewrite <- drop_drop.
      destruct (drop (length pre) (a_wr a)) as [|x l] eqn:Ed; [|done].
      apply (f_equal length) in Ed. rewrite length_drop in Ed. cbn in Ed. lia. }
    cbn [with_wr a_wr] in Hs1. rewrite Nat2Z.id, Hins in Hs1. exact Hs1.
  - done.
  - rewrite length_app. cbn [length]. lia.
  - done.
  - exists s'. rewrite <- app_assoc in Hs'. split; [|exact Hs']. cbn [mailbox_writes].
    erewrite bind_done by (apply mailbox_write_ok; [lia|exact E]).
    rewrite length_app, Nat2Z.inj_add in E'. exact E'.
Qed.

Lemma exchange_ok fuel s a params cmd st :
  agc_at s a → a_work a = None → agc_next (a_status a) cmd = Some st → (delay < fuel)%nat →
  (length params <= 3)%nat → Forall (λ x, is_u8 x) params →
  let w := boxes params (a_wr a) in
  ∃ s', agc_exchange spi usb fuel params cmd st s = Done s' () ∧
        agc_at s' (Agc st w w None ((cmd, w) :: a_log a)).
Proof.
  intros Hs Hw Hn Hf Hl Hp w. destruct (agc_bytes s a Hs) as (_ & _ & Hlen & _).
  destruct (mailbox_writes_ok params s a []) as (s1 & E1 & Hs1); [|done|cbn; lia|done|].
  { unfold with_wr, boxes. cbn [length app]. rewrite drop_0. by destruct a. }
  destruct (agc_command s1 _ cmd st Hs1) as (s2 & E2 & Hs2); [done|done|].
  destruct (agc_wait fuel s2 _ delay st w Hs2) as (s3 & E3 & Hs3); [done|done|].
  exists s3. split; [|exact Hs3]. unfold agc_exchange. erewrite bind_done by exact E1.
  erewrite bind_done by (apply mailbox_write_ok; [lia|exact E2]). by erewrite bind_done by exact E3.
Qed.

Lemma checks_ok e s a pre val :
  agc_at s a → a_work a = None → (length pre + length e <= 3)%nat →
  take (length pre + length e) (a_rd a) = pre ++ e →
  ∃ s' val', mailbox_checks spi usb (Z.of_nat (length pre)) e val s = Done s' val' ∧ agc_at s' a.
Proof.
  revert s pre val. induction e as [|x e IH]; intros s pre val Hs Hw Hl He; [by exists s, val|].
  cbn [length] in *. destruct (mailbox_read_ok s a (Z.of_nat (length pre)) val Hs Hw) as (s1 & E & Hs1); [lia|].
  assert (Hx : znth 0 (a_rd a) (Z.of_nat (length pre)) = x).
  { unfold znth. rewrite (proj2 (Z.ltb_ge _ _)), Nat2Z.id by lia. apply nth_lookup_Some with (d := 0).
    rewrite <- (lookup_take_lt (a_rd a) (length pre + S (length e))) by lia.
    rewrite He. by apply list_lookup_middle. }
  destruct (IH s1 (pre ++ [x]) (Some x) Hs1 Hw) as (s' & val' & E' & Hs').
  - rewrite length_app. cbn [length]. lia.
  - rewrite length_app, <- app_assoc. cbn [length app]. by rewrite <- He, <- Nat.add_assoc.
  - exists s', val'. split; [|done]. cbn [mailbox_checks]. erewrite bind_done by exact E. rewrite Hx.
    erewrite bind_done by done. rewrite Z.eqb_refl. cbn [negb].
    rewrite length_app, Nat2Z.inj_add in E'. exact E'.
Qed.

Lemma boxes_take ps w : take (length ps) (boxes ps w) = ps.
Proof. apply take_app_length. Qed.
Lemma boxes_length ps w : (length ps <= 3)%nat → length w = 3%nat → length (boxes ps w) = 3%nat.
Proof. intros H1 H2. unfold boxes. rewrite length_app, length_drop. lia. Qed.

(** The firmware has taken the commands [l], each with its parameters in the
    boxes. *)
Definition taken (a : agc) (l : list (Z * list Z)) : Prop :=
  Forall2 (λ x y, fst x = fst y ∧ take (length (snd y)) (snd x) = snd y) (reverse (a_log a)) l.

Lemma taken_step a a' l cmd ps w :
  taken a l → a_log a' = (cmd, w) :: a_log a → take (length ps) w = ps → taken a' (l ++ [(cmd, ps)]).
Proof.
  intros H E Hw. unfold taken. rewrite E, reverse_cons. apply Forall2_app; [exact H|].
  by constructor; [split|constructor].
Qed.

(** An exchange and the check of what the firmware echoes. *)
Lemma agc_round fuel s a params cmd st e val :
  agc_at s a → a_work a = None → agc_next (a_status a) cmd = Some st → (delay < fuel)%nat →
  (length params <= 3)%nat → Forall (λ x, is_u8 x) params → (length e <= 3)%nat →
  take (length e) (boxes params (a_wr a)) = e →
  ∃ s' val' a',
    (∀ B (k : option Z → prog W B),
       (_ ← agc_exchange spi usb fuel params cmd st; mailbox_checks spi usb 0 e val ≫= k) s = k val' s') ∧
    agc_at s' a' ∧ a_status a' = st ∧ a_work a' = None ∧
    a_wr a' = boxes params (a_wr a) ∧ ∀ l, taken a l → taken a' (l ++ [(cmd, params)]).
Proof.
  intros Hs Hw Hn Hf Hl Hp Hle He.
  destruct (exchange_ok fuel s a params cmd st Hs Hw Hn Hf Hl Hp) as (s1 & E1 & Hs1).
  destruct (checks_ok e s1 _ [] val Hs1) as (s2 & val' & E2 & Hs2); [done|done|exact He|].
  eexists s2, val', _. split; [|split_and!; [exact Hs2|done|done|done|]].
  - intros B k. erewrite bind_done by exact E1. by erewrite bind_done by exact E2.
  - intros l Ht. eapply taken_step; [exact Ht|done|apply boxes_take].
Qed.

(** ** The whole dialogue *)

(** An exchange of which the firmware echoes all parameters, at the head of the
    goal. *)
Local Ltac echo_round fuel ps cmd st :=
  match goal with
  | |- ∃ s' a', mbind (λ _, mbind _ (mailbox_checks _ _ _ _ ?v)) _ ?s = _ ∧ _ =>
    match goal with
    | Hs : agc_at s ?a |- _ =>
      match goal with
      | Hst : a_status a = _, Hw : a_work a = None, Ht : taken a _ |- _ =>
        let E := fresh "E" in let L := fresh "L" in
        destruct (agc_round fuel s a ps cmd st ps v Hs Hw) as (? & ? & ? & E & ? & ? & ? & ? & L);
          [rewrite Hst; reflexivity|assumption|cbn; lia|repeat (constructor; [assumption|]); constructor
          |cbn; lia|apply boxes_take|rewrite E; clear E; apply L in Ht; clear L]
      end
    end
  end.

Section Start.
Context (rt : lgw_radio_type_t) (ana dec : Z) (full_duplex lbt : bool).
Definition fdd : Z := if full_duplex then 1 else 0.
Definition gains : list Z := [ana; dec] ++ (if is_sx1250 rt then [] else [fdd]).
Definition params : agc_gain_params_s := if is_sx1250 rt then agc_params_sx1250 else agc_params_sx125x.

(** The configuration: commands and their parameters. *)
Definition agc_script : list (Z * list Z) :=
  [(0x80, gains); (0x20, gains); (0x03, [ana_min params; ana_max params]);
   (0x04, [ana_thresh_l params; ana_thresh_h params]); (0x05, [dec_attn_min params; dec_attn_max params]);
   (0x06, [dec_thresh_l params; dec_thresh_h1 params; dec_thresh_h2 params]);
   (0x07, [chan_attn_min params; chan_attn_max params]);
   (0x08, [chan_thresh_l params; chan_thresh_h params])] ++
  (if is_sx1250 rt then [(0x09, [deviceSel params; hpMax params; paDutyCycle params])] else []) ++
  [(0x0A, [8]); (0x0B, [if lbt then 1 else 0]); (0x0F, [])].
End Start.

(** The end of the dialogue. *)
Lemma agc_end fuel s a val lbt l :
  agc_at s a → (delay < fuel)%nat → a_work a = None → a_status a = 0x09 ∨ a_status a = 0x0A → taken a l →
  ∃ s' a',
    (_ ← agc_exchange spi usb fuel [8] 0x0A 0x0B;
     val ← mailbox_checks spi usb 0 [8] val;
     _ ← agc_exchange spi usb fuel [if lbt then 1 else 0] 0x0B 0x0F;
     '(_, val) ← sx1302_agc_mailbox_read spi usb 0 val;
     v ← known val;
     if negb (Bool.eqb (negb (v =? 0)) lbt) then failed
     else _ ← sx1302_agc_mailbox_write spi usb 3 0x0F; mret LGW_REG_SUCCESS) s = Done s' LGW_REG_SUCCESS ∧
    agc_at s' a' ∧ a_status a' = 0x0F ∧ a_work a' = None ∧
    taken a' (((l ++ [(0x0A, [8])]) ++ [(0x0B, [if lbt then 1 else 0])]) ++ [(0x0F, [])]).
Proof.
  intros Hs Hf Hw Hst Ht.
  destruct (agc_round fuel s a [8] 0x0A 0x0B [8] val Hs Hw) as (s1 & v1 & a1 & E1 & Hs1 & St1 & W1 & _ & L1);
    [by destruct Hst as [-> | ->]|done|cbn; lia|by repeat constructor|cbn; lia|apply boxes_take|].
  rewrite E1. apply L1 in Ht. clear E1 L1.
  destruct (exchange_ok fuel s1 a1 [if lbt then 1 else 0] 0x0B 0x0F) as (s2 & E2 & Hs2);
    [done|done|by rewrite St1|done|cbn; lia|by destruct lbt; repeat constructor|].
  set (w := boxes _ _) in Hs2. set (a2 := Agc _ _ _ _ _) in Hs2.
  destruct (mailbox_read_ok s2 a2 0 v1 Hs2 eq_refl) as (s3 & E3 & Hs3); [lia|].
  destruct (agc_finish s3 a2 Hs3 eq_refl eq_refl) as (s4 & E4 & Hs4).
  eexists s4, _. split; [|split_and!; [exact Hs4|done|done|]].
  - erewrite bind_done by exact E2. erewrite bind_done by exact E3. cbv beta iota. erewrite bind_done by done.
    change (znth 0 (a_rd a2) 0) with (if lbt then 1 else 0).
    replace (negb (Bool.eqb _ lbt)) with false by (by destruct lbt). cbv iota.
    by erewrite bind_done by (apply mailbox_write_ok; [lia|exact E4]).
  - eapply (taken_step a2); [eapply (taken_step a1); [exact Ht|reflexivity|apply boxes_take]|reflexivity|reflexivity].
Qed.

Lemma gains_echo rt ana dec full_duplex w :
  length w = 3%nat → (is_sx1250 rt = true → znth 0 w 2 = fdd full_duplex) →
  take 3 (boxes (gains rt ana dec full_duplex) w) = [ana; dec; fdd full_duplex] ∧
  znth 0 (boxes (gains rt ana dec full_duplex) w) 2 = fdd full_duplex.
Proof.
  destruct w as [|w0 [|w1 [|w2 [|]]]]; intros H1 H2; try discriminate H1. unfold gains, boxes.
  destruct (is_sx1250 rt); [|by split].
  specialize (H2 eq_refl). change (znth 0 [w0; w1; w2] 2) with w2 in H2. rewrite H2. by split.
Qed.

Local Ltac last_rounds fuel lbt :=
  match goal with
  | |- ∃ s' a', mbind (λ _, mbind _ (mailbox_checks _ _ _ _ ?v)) _ ?s = _ ∧ _ =>
    match goal with
    | Hs : agc_at s ?a |- _ =>
      match goal with
      | Hst : a_status a = _, Hw : a_work a = None, Ht : taken a ?l |- _ =>
        let s' := fresh "s" in let a' := fresh "a" in let E := fresh "E" in
        destruct (agc_end fuel s a v lbt l) as (s' & a' & E & ? & ? & ? & ?);
          [assumption|assumption|assumption|by auto|assumption|
           exists s', a'; split; [exact E|clear E; split_and!; try assumption]]
      end
    end
  end.

Lemma gains_bytes rt ana dec full_duplex : is_u8 ana → is_u8 dec →
  Forall (λ x, is_u8 x) (gains rt ana dec full_duplex) ∧ (length (gains rt ana dec full_duplex) <= 3)%nat.
Proof.
  intros ??. unfold gains, fdd. destruct (is_sx1250 rt), full_duplex; split; repeat constructor; lia.
Qed.
Lemma params_bytes rt :
  Forall (λ x, is_u8 x) [ana_min (params rt); ana_max (params rt); ana_thresh_l (params rt);
    ana_thresh_h (params rt); dec_attn_min (params rt); dec_attn_max (params rt); dec_thresh_l (params rt);
    dec_thresh_h1 (params rt); dec_thresh_h2 (params rt); chan_attn_min (params rt); chan_attn_max (params rt);
    chan_thresh_l (params rt); chan_thresh_h (params rt); deviceSel (params rt); hpMax (params rt);
    paDutyCycle (params rt)].
Proof. unfold params. destruct (is_sx1250 rt); repeat constructor; cbn; lia. Qed.

(** C19. The dialogue with an AGC that answers within its delay ends: from a
    booting firmware of the expected version, [sx1302_agc_start] returns
    success after finitely many polls, the firmware has taken the commands of
    the configuration in their order, each with the parameters of the radio
    type in the mailbox, and it is running. (With the SX1250 the host does not
    set the duplex mode, which must be the one in the mailbox already.) *)
Theorem agc_start_completes fuel s a n version boot rt ana dec full_duplex lbt :
  agc_at s a → a_work a = Some (n, 0x01, boot) → take 1 boot = [version] → a_log a = [] →
  (n < fuel)%nat → (delay < fuel)%nat → is_sx125x rt || is_sx1250 rt = true →
  is_u8 ana → is_u8 dec → (is_sx1250 rt = true → znth 0 (a_wr a) 2 = fdd full_duplex) →
  ∃ s' a', sx1302_agc_start spi usb fuel version rt ana dec full_duplex lbt s = Done s' LGW_REG_SUCCESS ∧
    agc_at s' a' ∧ a_status a' = 0x0F ∧ a_work a' = None ∧
    taken a' (agc_script rt ana dec full_duplex lbt).
Proof.
  intros Hs Hw Hv Hlog Hn Hf Hrt Hana Hdec Hfdd.
  destruct (agc_bytes s a Hs) as (_ & _ & Hlen & _).
  destruct (agc_wait fuel s a n 0x01 boot Hs Hw Hn) as (s0 & E0 & Hs0).
  destruct (checks_ok [version] s0 _ [] None Hs0) as (s1 & v1 & E1 & Hs1); [done|cbn; lia|exact Hv|].
  set (a1 := Agc _ _ _ _ _) in Hs1.
  pose proof (gains_bytes rt ana dec full_duplex Hana Hdec) as [G1 G2]. pose proof (params_bytes rt) as P.
  assert (Hecho := gains_echo rt ana dec full_duplex).
  repeat (apply List.Forall_cons_iff in P as [? P]). clear P.
  unfold sx1302_agc_start. rewrite Hrt. cbn [negb]. cbv zeta.
  fold (fdd full_duplex) (gains rt ana dec full_duplex) (params rt).
  set (inner := mbind _ (sx1302_agc_wait_status spi usb fuel 0x01)).
  cut (∃ s' a', inner s = Done s' LGW_REG_SUCCESS ∧
    agc_at s' a' ∧ a_status a' = 0x0F ∧ a_work a' = None ∧
    taken a' (agc_script rt ana dec full_duplex lbt)).
  { intros (s' & a' & E & H'). exists s', a'. split; [by apply body_done|done]. }
  subst inner. erewrite bind_done by exact E0. erewrite bind_done by exact E1.
  assert (T1 : taken a1 []) by (unfold taken; cbn [a_log a1]; rewrite Hlog; constructor).
  destruct (agc_round fuel s1 a1 (gains rt ana dec full_duplex) 0x80 0x02 [ana; dec; fdd full_duplex] v1)
    as (s2 & v2 & a2 & E2 & Hs2 & St2 & W2 & B2 & L2); [done|done|done|done|done|done|done|by apply Hecho|].
  rewrite E2. apply L2 in T1.
  destruct (agc_round fuel s2 a2 (gains rt ana dec full_duplex) 0x20 0x03 [ana; dec; fdd full_duplex] v2)
    as (s3 & v3 & a3 & E3 & Hs3 & St3 & W3 & B3 & L3);
    [done|done|by rewrite St2|done|done|done|done|rewrite B2; apply Hecho; [by apply boxes_length|by intros; apply Hecho]|].
  rewrite E3. apply L3 in T1. clear L2 L3 E2 E3.
  echo_round fuel [ana_min (params rt); ana_max (params rt)] 0x03 0x04.
  echo_round fuel [ana_thresh_l (params rt); ana_thresh_h (params rt)] 0x04 0x05.
  echo_round fuel [dec_attn_min (params rt); dec_attn_max (params rt)] 0x05 0x06.
  echo_round fuel [dec_thresh_l (params rt); dec_thresh_h1 (params rt); dec_thresh_h2 (params rt)] 0x06 0x07.
  echo_round fuel [chan_attn_min (params rt); chan_attn_max (params rt)] 0x07 0x08.
  echo_round fuel [chan_thresh_l (params rt); chan_thresh_h (params rt)] 0x08 0x09.
  destruct (is_sx1250 rt) eqn:E1250.
  - rewrite bind_assoc.
    echo_round fuel [deviceSel (params rt); hpMax (params rt); paDutyCycle (params rt)] 0x09 0x0A.
    last_rounds fuel lbt. unfold agc_script. rewrite E1250. assumption.
  - erewrite bind_done by reflexivity.
    last_rounds fuel lbt. unfold agc_script. rewrite E1250. assumption.
Qed.

(** A firmware of another version is not configured. *)
Lemma agc_start_wrong_version fuel s a n version shown boot rt ana dec full_duplex lbt :
  agc_at s a → a_work a = Some (n, 0x01, boot) → take 1 boot = [shown] → shown ≠ version → (n < fuel)%nat →
  is_sx125x rt || is_sx1250 rt = true →
  ∃ s', sx1302_agc_start spi usb fuel version rt ana dec full_duplex lbt s = Done s' LGW_REG_ERROR ∧
    agc_at s' (Agc 0x01 boot (a_wr a) None (a_log a)).
Proof.
  intros Hs Hw Hb Hv Hn Hrt. destruct (agc_wait fuel s a n 0x01 boot Hs Hw Hn) as (s0 & E0 & Hs0).
  destruct (mailbox_read_ok s0 _ 0 None Hs0 eq_refl) as (s1 & E1 & Hs1); [lia|].
  assert (Hx : znth 0 boot 0 = shown).
  { clear -Hb. destruct boot as [|x boot]; [discriminate Hb|]. injection Hb as ->. reflexivity. }
  exists s1. split; [|exact Hs1]. unfold sx1302_agc_start. apply body_failed. rewrite Hrt. cbn [negb]. cbv zeta.
  erewrite bind_done by exact E0. apply bind_failed. cbn [mailbox_checks].
  erewrite bind_done by exact E1. cbv beta iota. erewrite bind_done by done. cbn [a_rd].
  rewrite Hx, (proj2 (Z.eqb_neq _ _)) by done. done.
Qed.

(** The wait has no time limit: a firmware that rests in another status is
    polled for ever. *)
Lemma agc_wait_forever fuel s a st :
  agc_at s a → a_work a = None → a_status a ≠ st → sx1302_agc_wait_status spi usb fuel st s = Spin.
Proof.
  revert s. induction fuel as [|fuel IH]; intros s Hs Hw Hst; [done|].
  destruct (agc_status_read s a Hs) as (s1 & v & a1 & E & Hp & Hs1).
  assert (v = a_status a ∧ a1 = a) as [-> ->].
  { inversion Hp as [? H0|? ? ? ? ? H0|? ? ? ? H0]; subst; [done|rewrite Hw in H0; discriminate H0..]. }
  unfold sx1302_agc_wait_status in *. cbn [wait_status]. erewrite bind_done by exact E.
  cbn [negb Z.eqb LGW_REG_SUCCESS]. erewrite bind_done by done. cbv beta.
  rewrite (proj2 (Z.eqb_neq _ _)) by done. cbn [negb]. by apply IH.
Qed.
End Dialogue.

(** ** A simulated AGC *)

(** Behind the registers of the AGC, with the addresses of [loregs]. *)
Definition sim_poll (a : agc) : agc * Z :=
  match a_work a with
  | None => (a, a_status a)
  | Some (S n, st, rd) => (Agc (a_status a) (a_rd a) (a_wr a) (Some (n, st, rd)) (a_log a), 0)
  | Some (O, st, rd) => (Agc st rd (a_wr a) None (a_log a), st)
  end.
Definition sim_box (a : agc) (i v : Z) : agc :=
  if i <? 3 then Agc (a_status a) (a_rd a) (<[Z.to_nat i := v]> (a_wr a)) (a_work a) (a_log a)
  else match agc_next (a_status a) v with
  | Some st => Agc (a_status a) (a_rd a) (a_wr a) (Some (3%nat, st, a_wr a)) ((v, a_wr a) :: a_log a)
  | None => Agc (a_status a) (a_rd a) (a_wr a) (a_work a) ((v, a_wr a) :: a_log a)
  end.
Definition agc_driver : driver agc := {|
  drv_open := λ w, (w, (0, true)); drv_close := λ w, (w, 0);
  drv_w := λ w _ ad v, (sim_box w (22412 - ad) v, 0);
  drv_r := λ w _ ad, if ad =? 22401 then let '(w, v) := sim_poll w in (w, (0, Some v))
                     else (w, (0, Some (znth 0 (a_rd w) (22416 - ad))));
  drv_rmw := λ w _ _ _ _ _, (w, 0); drv_wb := λ w _ _ _, (w, 0); drv_rb := λ w _ _ l, (w, (0, l));
  drv_set_write_mode := λ w _, (w, 0); drv_flush := λ w, (w, 0); drv_chunk_size := 1024 |}.

Definition three_bytes (l : list Z) : Prop := length l = 3%nat ∧ Forall (λ x, is_u8 x) l.
Definition sim_agc_at (s : com_state agc) (a : agc) : Prop :=
  s = Com LGW_COM_SPI true a ∧ 0 <= a_status a < 2 ^ 8 ∧ three_bytes (a_rd a) ∧ three_bytes (a_wr a) ∧
  ∀ n st rd, a_work a = Some (n, st, rd) → 0 < st < 2 ^ 8 ∧ three_bytes rd.

Lemma agc_next_range st cmd st' : agc_next st cmd = Some st' → 0 < st' < 2 ^ 8.
Proof. unfold agc_next. intros H. repeat case_match; simplify_eq; lia. Qed.

Lemma sim_read s a i v a' :
  s = Com LGW_COM_SPI true a → 0 <= i < LGW_TOTALREGS →
  offs (the_reg i) = 0 → leng (the_reg i) = 8 → sign (the_reg i) = false → is_u8 v →
  drv_r agc_driver a LGW_SPI_MUX_TARGET_SX1302 (addr (the_reg i)) = (a', (0, Some v)) →
  lgw_reg_r agc_driver agc_driver s i true = (Com LGW_COM_SPI true a', (LGW_REG_SUCCESS, Some v)).
Proof.
  intros -> Hi Ho Hl Hsg Hv E. unfold lgw_reg_r. rewrite (proj2 (Z.leb_gt _ _)) by lia. cbn [negb].
  unfold reg_r, lgw_com_r. rewrite Ho, Hl. cbn [negb com_target com_type world Z.leb Z.add Z.compare].
  change (0 + 8 <=? 8) with true. rewrite E. cbv iota beta. unfold reg_field, with_world.
  rewrite Ho, Hl, Hsg. cbn [default com_type com_target]. do 3 f_equal.
  change (8 - 8 - 0) with 0. rewrite Z.shiftl_0_r, Z.shiftr_0_r, !u8_id; [done|done|by rewrite u8_id].
Qed.
Lemma sim_write s a i v :
  s = Com LGW_COM_SPI true a → 0 <= i < LGW_TOTALREGS → rdon (the_reg i) = false →
  offs (the_reg i) = 0 → leng (the_reg i) = 8 → is_u8 v →
  lgw_reg_w agc_driver agc_driver s i v
  = (Com LGW_COM_SPI true (sim_box a (22412 - addr (the_reg i)) v), LGW_REG_SUCCESS).
Proof.
  intros -> Hi Hr Ho Hl Hv. unfold lgw_reg_w, reg_w, lgw_com_w.
  rewrite (proj2 (Z.leb_gt _ _)), Hr, Ho, Hl by lia. cbn [negb com_target com_type world].
  change ((8 =? 8) && (0 =? 0)) with true. cbv iota. by rewrite (u8_id v Hv).
Qed.

#[export] Instance sim_agc_chip : AgcChip agc_driver agc_driver sim_agc_at 3.
Proof.
  assert (Hw : ∀ s a i v, sim_agc_at s a → 0 <= i < 4 → is_u8 v →
    lgw_reg_w agc_driver agc_driver s (WR_BOX i) v = (Com LGW_COM_SPI true (sim_box a i v), LGW_REG_SUCCESS)).
  { intros s a i v [Hs _] Hi Hv.
    assert (i = 0 ∨ i = 1 ∨ i = 2 ∨ i = 3) as [-> | [-> | [-> | ->]]] by lia; by rewrite (sim_write s a). }
  constructor.
  - intros s a (_ & H1 & [H2 H3] & [H4 _] & H5). do 4 (split; [done|]). intros n st rd E.
    destruct (H5 n st rd E). lia.
  - intros s a (Hs & H1 & H2 & H3 & H4).
    destruct (a_work a) as [[[[|n] st] rd]|] eqn:Ew.
    + destruct (H4 _ _ _ eq_refl) as [Hst Hrd].
      exists (Com LGW_COM_SPI true (Agc st rd (a_wr a) None (a_log a))), st, (Agc st rd (a_wr a) None (a_log a)).
      split; [|split; [by eapply poll_done|]].
      2: { do 4 (split; [done || (cbn; lia)|]). intros ? ? ? [=]. }
      apply (sim_read s a); [done..|lia|]. unfold drv_r, agc_driver, sim_poll. by rewrite Ew.
    + destruct (H4 _ _ _ eq_refl) as [Hst Hrd]. set (a' := Agc (a_status a) (a_rd a) (a_wr a) (Some (n, st, rd)) (a_log a)).
      exists (Com LGW_COM_SPI true a'), 0, a'.
      split; [|split; [by eapply (poll_wait a); [exact Ew|lia|lia]|do 4 (split; [done|])]].
      * apply (sim_read s a); [done..|]. unfold drv_r, agc_driver, sim_poll. by rewrite Ew.
      * intros ? ? ? [= <- <- <-]. done.
    + exists s, (a_status a), a. split; [|split; [by apply poll_idle|do 4 (split; [done|]); by rewrite Ew]].
      rewrite Hs at 2. apply (sim_read s a); [done..|]. unfold drv_r, agc_driver, sim_poll. by rewrite Ew.
  - intros s a i Ha Hwk Hi. pose proof Ha as (Hs & _ & [Hl Hb] & _). exists s. split; [|done]. rewrite Hs at 2.
    assert (is_u8 (znth 0 (a_rd a) i)) as Hv.
    { unfold znth. rewrite (proj2 (Z.ltb_ge _ _)) by lia. rewrite List.Forall_forall in Hb. apply Hb, nth_In. lia. }
    assert (i = 0 ∨ i = 1 ∨ i = 2) as [-> | [-> | ->]] by lia; by apply (sim_read s a).
  - intros s a i v Ha Hi Hv. rewrite (Hw s a i v Ha) by lia. eexists. split; [reflexivity|].
    unfold sim_box. rewrite (proj2 (Z.ltb_lt _ _)) by lia.
    destruct Ha as (_ & H1 & H2 & [H3 H3'] & H4). do 3 (split; [done|]). split; [|done].
    by split; cbn [a_wr]; [rewrite length_insert|apply Forall_insert].
  - intros s a cmd st Ha Hwk Hn. assert (Hv : is_u8 cmd).
    { unfold agc_next in Hn. repeat case_match; simplify_eq; lia. }
    rewrite (Hw s a 3 cmd Ha) by (done || lia). eexists. split; [reflexivity|].
    unfold sim_box. cbn [Z.ltb Z.compare Pos.compare Pos.compare_cont]. change (3 <? 3) with false. cbv iota.
    rewrite Hn. destruct Ha as (_ & H1 & H2 & H3 & H4). do 4 (split; [done|]).
    intros ? ? ? [= <- <- <-]. split; [by eapply agc_next_range|done].
  - intros s a Ha Hwk Hst. rewrite (Hw s a 3 0x0F Ha) by lia. eexists. split; [reflexivity|].
    unfold sim_box. change (3 <? 3) with false. cbv iota. rewrite Hst, Hwk. change (agc_next 15 0x0F) with (@None Z).
    cbv iota. destruct Ha as (_ & H1 & H2 & H3 & H4). rewrite Hst in H1. by do 4 (split; [done|]).
Qed.

(** A firmware that boots: five polls, then version 10. *)
Definition booting : agc := Agc 0 [0; 0; 0] [0; 0; 0] (Some (5%nat, 0x01, [10; 0; 0])) [].
Lemma agc_start_completes_witness :
  ∃ s' a', sx1302_agc_start agc_driver agc_driver 6 10 LGW_RADIO_TYPE_SX1250 5 7 false true
             (Com LGW_COM_SPI true booting) = Done s' LGW_REG_SUCCESS ∧
    sim_agc_at s' a' ∧ a_status a' = 0x0F ∧ fst <$> reverse (a_log a') =
      [0x80; 0x20; 0x03; 0x04; 0x05; 0x06; 0x07; 0x08; 0x09; 0x0A; 0x0B; 0x0F].
Proof.
  destruct (agc_start_completes agc_driver agc_driver sim_agc_at 3 6 (Com LGW_COM_SPI true booting) booting 5 10
    [10; 0; 0] LGW_RADIO_TYPE_SX1250 5 7 false true) as (s' & a' & E & Hs & Hst & _ & Ht); try reflexivity; try lia.
  - split; [done|]. split; [cbn; lia|]. split; [by repeat constructor|]. split; [by repeat constructor|].
    intros n st rd [= <- <- <-]. split; [lia|by repeat constructor].
  - exists s', a'. split_and!; [exact E|done|done|].
    enough (∀ l l', Forall2 (λ x y : Z * list Z, fst x = fst y ∧ take (length (snd y)) (snd x) = snd y) l l' →
      fst <$> l = fst <$> l') as H by (rewrite (H _ _ Ht); reflexivity).
    induction 1 as [|x y l l' [Hxy _] _ IH]; [done|]. cbn. by rewrite Hxy, IH.
Defined.
