(* ===== verification/Sx1302Tx.v ===== *)
(** * Transmission ([libloragw/src/loragw_sx1302.c])

    [sx1302_send] programs the transmit chain of a packet, writes the payload and
    arms the trigger, with the link in bulk mode; [sx1302_tx_status] and
    [sx1302_tx_abort] follow and stop it. *)
From stdpp Require Import base list numbers strings.
From Stdlib Require Import ZArith Lia.
From S2P Require Import Prelude Binary64 HalTypes Com RegIds Reg RegProg HalConf Sx1302Conf.

Open Scope Z_scope.
Open Scope list_scope.

Definition TX_START_DELAY_DEFAULT : Z := 1500.
Definition MIN_LORA_PREAMBLE : Z := 6.
Definition STD_LORA_PREAMBLE : Z := 8.
Definition MIN_FSK_PREAMBLE : Z := 3.
Definition STD_FSK_PREAMBLE : Z := 5.

(** The product has 64 bits, also in [SX1302_FREQ_TO_REG(freq_hz * 2)], whose
    argument is not in parentheses in the macro. *)
Definition SX1302_FREQ_TO_REG (f : Z) : Z := u32 (f * Z.shiftl 1 18 / 32000000).
Definition SX1250_FREQ_TO_REG (f : Z) : Z := u32 (f * Z.shiftl 1 25 / 32000000).

(** ** Time limits ([loragw_aux.c]) *)

Record timeval := Timeval { tv_sec : Z; tv_usec : Z }.

Definition TIMER_SUB (a b : timeval) : timeval :=
  let s := tv_sec a - tv_sec b in
  let us := tv_usec a - tv_usec b in
  if us <? 0 then Timeval (s - 1) (us + 1000000) else Timeval s us.

Definition timeout_check (start now : timeval) (timeout_ms : Z) : Z :=
  let diff := TIMER_SUB now start in
  let ms := u32 (tv_sec diff * 1000 + Z.quot (tv_usec diff) 1000) in
  if timeout_ms <=? ms then -1 else 0.

(** ** Power *)

(** The loop from the last index of the table down to 1. *)
Fixpoint pow_index (lut : list Gain.lgw_tx_gain_s) (rf_power : Z) (i : nat) : outcome Z :=
  match i with
  | O => Ret 0
  | S i' =>
    g ← buf_get lut (Z.of_nat i);
    if Gain.rf_power g <=? rf_power then Ret (Z.of_nat i) else pow_index lut rf_power i'
  end.
Definition tx_gain_index (tx_lut : Gain.lgw_tx_gain_lut_s) (rf_power : Z) : outcome Z :=
  pow_index (Gain.lut tx_lut) rf_power (Z.to_nat (u8 (Gain.size tx_lut - 1))).

(** The byte of the power register; [None] for another radio. *)
Definition tx_power (radio_type : lgw_radio_type_t) (g : Gain.lgw_tx_gain_s) : option Z :=
  match radio_type with
  | LGW_RADIO_TYPE_SX1250 =>
    let pa_en := if 0 <? Gain.pa_gain g then 1 else 0 in
    Some (u8 (Z.lor (Z.shiftl pa_en 6) (Gain.pwr_idx g)))
  | LGW_RADIO_TYPE_SX1255 | LGW_RADIO_TYPE_SX1257 =>
    Some (u8 (Z.lor (Z.lor (Z.shiftl (Gain.pa_gain g) 6) (Z.shiftl (Gain.dac_gain g) 4))
                    (Gain.mix_gain g)))
  | _ => None
  end.

(** ** The modems *)

(** [ceil(fabs((float)freq_offset / 10)) * 10e3] as a [uint32_t]. *)
Definition cw_freq_dev (freq_offset : Z) : outcome Z :=
  u32_of_double (dmul (dbl_of_Z (dceil (frnd (Z.abs freq_offset) 10))) (dbl_of_Z 10000)).
(** [(int)((float)freq_offset*1e3*64/(float)freq_dev)]: 0/0 has no integer. *)
Definition cw_test_mod_freq (freq_offset freq_dev : Z) : outcome Z :=
  if freq_dev =? 0 then Undef
  else Ret (dtrunc (ddiv (dmul (dmul (dbl_of_Z freq_offset) (dbl_of_Z 1000)) (dbl_of_Z 64))
                         (frnd freq_dev 1))).

Definition cw_writes (c freq_offset : Z) : outcome (list (Z * Z)) :=
  freq_dev ← cw_freq_dev freq_offset;
  test_mod_freq ← cw_test_mod_freq freq_offset freq_dev;
  let fdev_reg := SX1302_FREQ_TO_REG freq_dev in
  let ws :=
   [(TX_REG c "TX_TOP_TX_RFFE_IF_FREQ_DEV_H_FREQ_DEV", Z.land (Z.shiftr fdev_reg 8) 0xFF);
    (TX_REG c "TX_TOP_TX_RFFE_IF_FREQ_DEV_L_FREQ_DEV", Z.land (Z.shiftr fdev_reg 0) 0xFF)] in
  let fdev_reg := SX1250_FREQ_TO_REG freq_dev in
  Ret (ws ++
   [(REG "AGC_MCU_MCU_MAIL_BOX_WR_DATA_BYTE2_MCU_MAIL_BOX_WR_DATA", Z.land (Z.shiftr fdev_reg 16) 0xFF);
    (REG "AGC_MCU_MCU_MAIL_BOX_WR_DATA_BYTE1_MCU_MAIL_BOX_WR_DATA", Z.land (Z.shiftr fdev_reg 8) 0xFF);
    (REG "AGC_MCU_MCU_MAIL_BOX_WR_DATA_BYTE0_MCU_MAIL_BOX_WR_DATA", Z.land (Z.shiftr fdev_reg 0) 0xFF);
    (TX_REG c "TX_TOP_TX_RFFE_IF_TEST_MOD_FREQ", test_mod_freq)]).

(** LoRa, before and after the preamble length is set. *)
Definition lora_fdev_writes (c bandwidth : Z) : list (Z * Z) :=
  let freq_dev := u32 (Z.quot (lgw_bw_getval bandwidth) 2) in
  let fdev_reg := SX1302_FREQ_TO_REG freq_dev in
  [(TX_REG c "TX_TOP_TX_RFFE_IF_FREQ_DEV_H_FREQ_DEV", Z.land (Z.shiftr fdev_reg 8) 0xFF);
   (TX_REG c "TX_TOP_TX_RFFE_IF_FREQ_DEV_L_FREQ_DEV", Z.land (Z.shiftr fdev_reg 0) 0xFF);
   (TX_REG c "TX_TOP_TXRX_CFG0_0_MODEM_BW", bandwidth)].
Definition lora_preamble (preamble : Z) : Z :=
  if preamble =? 0 then STD_LORA_PREAMBLE
  else if preamble <? MIN_LORA_PREAMBLE then MIN_LORA_PREAMBLE else preamble.
Definition lora_chirp_lowpass (datarate : Z) : Z := if datarate <? 10 then 6 else 7.

Definition lora_modem_writes (c : Z) (lwan_public : bool) (p : lgw_pkt_tx_s) : list (Z * Z) :=
  let sf56 := (Tx.datarate p =? DR_LORA_SF5) || (Tx.datarate p =? DR_LORA_SF6) in
  [(TX_REG c "TX_TOP_TXRX_CFG1_3_PREAMBLE_SYMB_NB", Z.land (Z.shiftr (Tx.preamble p) 8) 0xFF);
   (TX_REG c "TX_TOP_TXRX_CFG1_2_PREAMBLE_SYMB_NB", Z.land (Z.shiftr (Tx.preamble p) 0) 0xFF);
   (TX_REG c "TX_TOP_TXRX_CFG0_0_MODEM_SF", Tx.datarate p);
   (TX_REG c "TX_TOP_TX_CFG0_0_CHIRP_LOWPASS", lora_chirp_lowpass (Tx.datarate p));
   (TX_REG c "TX_TOP_TXRX_CFG0_1_CODING_RATE", Tx.coderate p);
   (TX_REG c "TX_TOP_TXRX_CFG0_2_MODEM_EN", 1);
   (TX_REG c "TX_TOP_TXRX_CFG0_2_CADRXTX", 2);
   (TX_REG c "TX_TOP_TXRX_CFG1_1_MODEM_START", 1);
   (TX_REG c "TX_TOP_TX_CFG0_0_CONTINUOUS", 0);
   (TX_REG c "TX_TOP_TX_CFG0_0_CHIRP_INVERT", if Tx.invert_pol p then 1 else 0);
   (TX_REG c "TX_TOP_TXRX_CFG0_2_IMPLICIT_HEADER", if Tx.no_header p then 1 else 0);
   (TX_REG c "TX_TOP_TXRX_CFG0_2_CRC_EN", if Tx.no_crc p then 0 else 1)] ++
  (if negb lwan_public || sf56 then
    [(TX_REG c "TX_TOP_FRAME_SYNCH_0_PEAK1_POS", 2);
     (TX_REG c "TX_TOP_FRAME_SYNCH_1_PEAK2_POS", 4)]
   else
    [(TX_REG c "TX_TOP_FRAME_SYNCH_0_PEAK1_POS", 6);
     (TX_REG c "TX_TOP_FRAME_SYNCH_1_PEAK2_POS", 8)]) ++
  [(TX_REG c "TX_TOP_TXRX_CFG0_2_FINE_SYNCH_EN", if sf56 then 1 else 0);
   (TX_REG c "TX_TOP_TXRX_CFG0_3_PAYLOAD_LENGTH", Tx.size p);
   (TX_REG c "TX_TOP_TXRX_CFG0_1_PPM_OFFSET_HDR_CTRL", 0);
   (TX_REG c "TX_TOP_TXRX_CFG0_1_PPM_OFFSET",
    if SET_PPM_ON (Tx.bandwidth p) (Tx.datarate p) then 1 else 0)].

Definition fsk_modem_writes (c : Z) (fsk : Rxif.lgw_conf_rxif_s) (p : lgw_pkt_tx_s)
  : outcome (list (Z * Z)) :=
  freq_dev ← u32_of_double (dmul (dbl_of_Z (Tx.f_dev p)) (dbl_of_Z 1000));
  fsk_sync_word_reg ← shl64 (Rxif.sync_word fsk) (8 * (8 - Rxif.sync_word_size fsk));
  let fdev_reg := SX1302_FREQ_TO_REG freq_dev in
  let ws :=
   [(TX_REG c "TX_TOP_TX_RFFE_IF_FREQ_DEV_H_FREQ_DEV", Z.land (Z.shiftr fdev_reg 8) 0xFF);
    (TX_REG c "TX_TOP_TX_RFFE_IF_FREQ_DEV_L_FREQ_DEV", Z.land (Z.shiftr fdev_reg 0) 0xFF)] in
  let fdev_reg := SX1250_FREQ_TO_REG freq_dev in
  Ret (ws ++
   [(REG "AGC_MCU_MCU_MAIL_BOX_WR_DATA_BYTE2_MCU_MAIL_BOX_WR_DATA", Z.land (Z.shiftr fdev_reg 16) 0xFF);
    (REG "AGC_MCU_MCU_MAIL_BOX_WR_DATA_BYTE1_MCU_MAIL_BOX_WR_DATA", Z.land (Z.shiftr fdev_reg 8) 0xFF);
    (REG "AGC_MCU_MCU_MAIL_BOX_WR_DATA_BYTE0_MCU_MAIL_BOX_WR_DATA", Z.land (Z.shiftr fdev_reg 0) 0xFF);
    (TX_REG c "TX_TOP_FSK_CFG_0_PKT_MODE", 1);
    (TX_REG c "TX_TOP_FSK_CFG_0_CRC_EN", if Tx.no_crc p then 0 else 1);
    (TX_REG c "TX_TOP_FSK_CFG_0_CRC_IBM", 0);
    (TX_REG c "TX_TOP_FSK_CFG_0_DCFREE_ENC", 2);
    (TX_REG c "TX_TOP_FSK_MOD_FSK_GAUSSIAN_EN", 1);
    (TX_REG c "TX_TOP_FSK_MOD_FSK_GAUSSIAN_SELECT_BT", 2);
    (TX_REG c "TX_TOP_FSK_MOD_FSK_REF_PATTERN_EN", 1);
    (TX_REG c "TX_TOP_FSK_MOD_FSK_REF_PATTERN_SIZE", Rxif.sync_word_size fsk - 1);
    (TX_REG c "TX_TOP_FSK_REF_PATTERN_BYTE0_FSK_REF_PATTERN", u8 (Z.shiftr fsk_sync_word_reg 0));
    (TX_REG c "TX_TOP_FSK_REF_PATTERN_BYTE1_FSK_REF_PATTERN", u8 (Z.shiftr fsk_sync_word_reg 8));
    (TX_REG c "TX_TOP_FSK_REF_PATTERN_BYTE2_FSK_REF_PATTERN", u8 (Z.shiftr fsk_sync_word_reg 16));
    (TX_REG c "TX_TOP_FSK_REF_PATTERN_BYTE3_FSK_REF_PATTERN", u8 (Z.shiftr fsk_sync_word_reg 24));
    (TX_REG c "TX_TOP_FSK_REF_PATTERN_BYTE4_FSK_REF_PATTERN", u8 (Z.shiftr fsk_sync_word_reg 32));
    (TX_REG c "TX_TOP_FSK_REF_PATTERN_BYTE5_FSK_REF_PATTERN", u8 (Z.shiftr fsk_sync_word_reg 40));
    (TX_REG c "TX_TOP_FSK_REF_PATTERN_BYTE6_FSK_REF_PATTERN", u8 (Z.shiftr fsk_sync_word_reg 48));
    (TX_REG c "TX_TOP_FSK_REF_PATTERN_BYTE7_FSK_REF_PATTERN", u8 (Z.shiftr fsk_sync_word_reg 56));
    (TX_REG c "TX_TOP_FSK_MOD_FSK_PREAMBLE_SEQ", 0)]).
Definition fsk_preamble (preamble : Z) : Z :=
  if preamble =? 0 then STD_FSK_PREAMBLE
  else if preamble <? MIN_FSK_PREAMBLE then MIN_FSK_PREAMBLE else preamble.

(** [pkt_data->preamble = v]. *)
Definition set_preamble (v : Z) (p : lgw_pkt_tx_s) : lgw_pkt_tx_s :=
  {| Tx.freq_hz := Tx.freq_hz p; Tx.tx_mode := Tx.tx_mode p; Tx.count_us := Tx.count_us p;
     Tx.rf_chain := Tx.rf_chain p; Tx.rf_power := Tx.rf_power p; Tx.modulation := Tx.modulation p;
     Tx.freq_offset := Tx.freq_offset p; Tx.bandwidth := Tx.bandwidth p;
     Tx.datarate := Tx.datarate p; Tx.coderate := Tx.coderate p; Tx.invert_pol := Tx.invert_pol p;
     Tx.f_dev := Tx.f_dev p; Tx.preamble := v; Tx.no_crc := Tx.no_crc p;
     Tx.no_header := Tx.no_header p; Tx.size := Tx.size p; Tx.payload := Tx.payload p |}.

(** ** The functions *)

(** The delays of [sx1302_tx_set_start_delay]; [None]: not supported. *)
Definition radio_bw_delay (radio_type : lgw_radio_type_t) (bandwidth : Z) : option Z :=
  match radio_type with
  | LGW_RADIO_TYPE_SX1250 =>
    if bandwidth =? BW_125KHZ then Some 19
    else if bandwidth =? BW_250KHZ then Some 24
    else if bandwidth =? BW_500KHZ then Some 21 else None
  | LGW_RADIO_TYPE_SX1255 | LGW_RADIO_TYPE_SX1257 =>
    if bandwidth =? BW_125KHZ then Some (3 * 32 + 4 + 0)
    else if bandwidth =? BW_250KHZ then Some (3 * 32 + 4 + 6)
    else if bandwidth =? BW_500KHZ then Some (3 * 32 + 4 + 0) else None
  | _ => None
  end.
Definition filter_delay (chirp_lowpass bw_hz : Z) : Z :=
  u16 (dtrunc (ddiv (dmul (dbl_of_Z (Z.shiftl 1 chirp_lowpass - 1)) (dbl_of_Z 1000000)) (dbl_of_Z bw_hz))).
Definition modem_delay (bw_hz : Z) : Z :=
  u16 (dtrunc (dmul (dbl_of_Z 8) (ddiv (dbl_of_Z 32000000) (dbl_of_Z (32 * bw_hz))))).

Section Tx.
Context {W : Type} (spi usb : driver W).
Abbreviation wr_or := (wr_or spi usb).
Abbreviation wr_check := (wr_check spi usb).
Abbreviation wr := (wr spi usb).
Abbreviation rd := (rd spi usb).

(** The result is the value stored through [delay]. *)
Definition sx1302_tx_set_start_delay (rf_chain : Z) (radio_type : lgw_radio_type_t)
    (modulation bandwidth chirp_lowpass : Z) : prog W Z :=
  if negb (modulation =? MOD_LORA) then mret 0
  else
    let bw_hz := lgw_bw_getval bandwidth in
    match radio_bw_delay radio_type bandwidth with
    | None => failed
    | Some radio_bw_delay =>
      let tx_start_delay :=
        u16 (TX_START_DELAY_DEFAULT * 32 -
             (radio_bw_delay + filter_delay chirp_lowpass bw_hz + modem_delay bw_hz)) in
      let buff := [u8 (Z.shiftr tx_start_delay 8); u8 (Z.shiftr tx_start_delay 0)] in
      err ← call (λ s, lgw_reg_wb spi usb s
                         (TX_REG rf_chain "TX_TOP_TX_START_DELAY_MSB_TX_START_DELAY") (Some buff));
      _ ← CHECK_ERR err;
      mret tx_start_delay
    end.

Definition sx1302_tx_status (rf_chain : Z) : prog W Z :=
  '(err, read_value) ← rd (TX_REG rf_chain "TX_TOP_TX_FSM_STATUS_TX_STATUS") None;
  if negb (err =? LGW_REG_SUCCESS) then mret TX_STATUS_UNKNOWN
  else
    v ← known read_value;
    mret (if v =? 0x80 then TX_FREE
          else if (v =? 0x30) || (v =? 0x50) || (v =? 0x60) || (v =? 0x70) then TX_EMITTING
          else if (v =? 0x91) || (v =? 0x92) then TX_SCHEDULED
          else TX_STATUS_UNKNOWN).

Definition sx1302_rx_status (rf_chain : Z) : prog W Z := mret RX_STATUS_UNKNOWN.

(** [now i] is what the [i]-th call of [gettimeofday] in the loop stores. *)
Fixpoint tx_abort_loop (fuel : nat) (rf_chain : Z) (start : timeval) (now : nat → timeval) (i : nat)
  : prog W Z :=
  match fuel with
  | O => spin
  | S fuel =>
    if negb (timeout_check start (now i) 1000 =? 0) then mret LGW_REG_ERROR
    else
      tx_status ← sx1302_tx_status rf_chain;
      if negb (tx_status =? TX_FREE) then tx_abort_loop fuel rf_chain start now (S i)
      else mret LGW_REG_SUCCESS
  end.
Definition sx1302_tx_abort (fuel : nat) (rf_chain : Z) (start : timeval) (now : nat → timeval)
  : prog W Z :=
  err ← wr_or LGW_REG_SUCCESS
    [(TX_REG rf_chain "TX_TOP_TX_TRIG_TX_TRIG_IMMEDIATE", 0x00);
     (TX_REG rf_chain "TX_TOP_TX_TRIG_TX_TRIG_DELAYED", 0x00);
     (TX_REG rf_chain "TX_TOP_TX_TRIG_TX_TRIG_GPS", 0x00)];
  if negb (err =? LGW_REG_SUCCESS) then mret err
  else tx_abort_loop fuel rf_chain start now 0.

(** [sx1302_send] up to the modem. *)
Definition send_radio (radio_type : lgw_radio_type_t) (tx_lut : Gain.lgw_tx_gain_lut_s)
    (p : lgw_pkt_tx_s) : prog W () :=
  let c := Tx.rf_chain p in
  _ ← (if Tx.modulation p =? MOD_CW then wr_check
         [(TX_REG c "TX_TOP_GEN_CFG_0_MODULATION_TYPE", 0x00);
          (TX_REG c "TX_TOP_TX_RFFE_IF_CTRL_TX_IF_SRC", 0x00)]
       else if Tx.modulation p =? MOD_LORA then wr_check
         [(TX_REG c "TX_TOP_GEN_CFG_0_MODULATION_TYPE", 0x00);
          (TX_REG c "TX_TOP_TX_RFFE_IF_CTRL_TX_IF_SRC", 0x01)]
       else if Tx.modulation p =? MOD_FSK then wr_check
         [(TX_REG c "TX_TOP_GEN_CFG_0_MODULATION_TYPE", 0x01);
          (TX_REG c "TX_TOP_TX_RFFE_IF_CTRL_TX_IF_SRC", 0x02)]
       else failed);
  i ← pure_of (tx_gain_index tx_lut (Tx.rf_power p));
  g ← pure_of (buf_get (Gain.lut tx_lut) i);
  _ ← wr_check
    [(TX_REG c "TX_TOP_TX_RFFE_IF_I_OFFSET_I_OFFSET", Gain.offset_i g);
     (TX_REG c "TX_TOP_TX_RFFE_IF_Q_OFFSET_Q_OFFSET", Gain.offset_q g)];
  power ← CHECK_NULL (tx_power radio_type g);
  let freq_reg :=
    match radio_type with
    | LGW_RADIO_TYPE_SX1255 => SX1302_FREQ_TO_REG (Tx.freq_hz p * 2)
    | _ => SX1302_FREQ_TO_REG (Tx.freq_hz p)
    end in
  let mod_bw :=
    if Tx.modulation p =? MOD_LORA then Tx.bandwidth p else Z.lor (Z.shiftl 0x01 7) (Tx.bandwidth p) in
  wr_check
    [(TX_REG c "TX_TOP_AGC_TX_PWR_AGC_TX_PWR", power);
     (TX_REG c "TX_TOP_TX_RFFE_IF_IQ_GAIN_IQ_GAIN", Gain.dig_gain g);
     (TX_REG c "TX_TOP_TX_RFFE_IF_FREQ_RF_H_FREQ_RF", Z.land (Z.shiftr freq_reg 16) 0xFF);
     (TX_REG c "TX_TOP_TX_RFFE_IF_FREQ_RF_M_FREQ_RF", Z.land (Z.shiftr freq_reg 8) 0xFF);
     (TX_REG c "TX_TOP_TX_RFFE_IF_FREQ_RF_L_FREQ_RF", Z.land (Z.shiftr freq_reg 0) 0xFF);
     (TX_REG c "TX_TOP_AGC_TX_BW_AGC_TX_BW", mod_bw)].

(** The modem, up to the point where the preamble length of the packet is set;
    the result is the packet from then on. *)
Definition send_modem (context_fsk : option Rxif.lgw_conf_rxif_s) (p : lgw_pkt_tx_s)
  : prog W lgw_pkt_tx_s :=
  let c := Tx.rf_chain p in
  if Tx.modulation p =? MOD_CW then
    ws ← pure_of (cw_writes c (Tx.freq_offset p));
    _ ← wr_check ws;
    mret p
  else if Tx.modulation p =? MOD_LORA then
    _ ← wr_check (lora_fdev_writes c (Tx.bandwidth p));
    mret (set_preamble (lora_preamble (Tx.preamble p)) p)
  else
    fsk ← CHECK_NULL context_fsk;
    ws ← pure_of (fsk_modem_writes c fsk p);
    _ ← wr_check ws;
    if Tx.datarate p =? 0 then wrong
    else
      let fsk_br_reg := 32000000 / Tx.datarate p in
      let buff := [u8 (Z.shiftr fsk_br_reg 8); u8 (Z.shiftr fsk_br_reg 0)] in
      err ← call (λ s, lgw_reg_wb spi usb s (TX_REG c "TX_TOP_FSK_BIT_RATE_MSB_BIT_RATE") (Some buff));
      _ ← CHECK_ERR err;
      mret (set_preamble (fsk_preamble (Tx.preamble p)) p).

(** The rest of the modem. *)
Definition send_modem_end (lwan_public : bool) (p : lgw_pkt_tx_s) : prog W () :=
  let c := Tx.rf_chain p in
  if Tx.modulation p =? MOD_CW then mret ()
  else if Tx.modulation p =? MOD_LORA then wr_check (lora_modem_writes c lwan_public p)
  else
    let buff := [u8 (Z.shiftr (Tx.preamble p) 8); u8 (Z.shiftr (Tx.preamble p) 0)] in
    err ← call (λ s, lgw_reg_wb spi usb s
                       (TX_REG c "TX_TOP_FSK_PREAMBLE_SIZE_MSB_PREAMBLE_SIZE") (Some buff));
    _ ← CHECK_ERR err;
    wr_check [(TX_REG c "TX_TOP_FSK_PKT_LEN_PKT_LENGTH", Tx.size p)].

(** [lgw_mem_wb(address, data, size)]; [data] must have [size] bytes. *)
Definition mem_wb (address : Z) (data : list Z) (size : Z) : prog W () :=
  if Z.of_nat (length data) <? size then wrong
  else
    err ← call_fuel (λ s, lgw_mem_wb spi usb s address (Some (take (Z.to_nat size) data)));
    CHECK_ERR err.

(** The payload. The first byte of the [uint16_t] size is its low byte. *)
Definition send_payload (p : lgw_pkt_tx_s) : prog W () :=
  let c := Tx.rf_chain p in
  _ ← wr_check [(TX_REG c "TX_TOP_TX_CTRL_WRITE_BUFFER", 0x01)];
  let mem_addr := REG_SELECT c 0x5300 0x5500 in
  _ ← (if Tx.modulation p =? MOD_FSK then
         _ ← mem_wb mem_addr [u8 (Tx.size p)] 1;
         mem_wb (mem_addr + 1) (Tx.payload p) (Tx.size p)
       else mem_wb mem_addr (Tx.payload p) (Tx.size p));
  wr_check [(TX_REG c "TX_TOP_TX_CTRL_WRITE_BUFFER", 0x00)].

Definition send_trigger (p : lgw_pkt_tx_s) (tx_start_delay : Z) : prog W () :=
  let c := Tx.rf_chain p in
  if Tx.tx_mode p =? IMMEDIATE then wr_check
   [(TX_REG c "TX_TOP_TX_TRIG_TX_TRIG_IMMEDIATE", 0x00);
    (TX_REG c "TX_TOP_TX_TRIG_TX_TRIG_IMMEDIATE", 0x01)]
  else if Tx.tx_mode p =? TIMESTAMPED then
    let count_us := u32 (Tx.count_us p * 32 - tx_start_delay) in
    wr_check
     [(TX_REG c "TX_TOP_TIMER_TRIG_BYTE0_TIMER_DELAYED_TRIG", u8 (Z.land (Z.shiftr count_us 0) 0xFF));
      (TX_REG c "TX_TOP_TIMER_TRIG_BYTE1_TIMER_DELAYED_TRIG", u8 (Z.land (Z.shiftr count_us 8) 0xFF));
      (TX_REG c "TX_TOP_TIMER_TRIG_BYTE2_TIMER_DELAYED_TRIG", u8 (Z.land (Z.shiftr count_us 16) 0xFF));
      (TX_REG c "TX_TOP_TIMER_TRIG_BYTE3_TIMER_DELAYED_TRIG", u8 (Z.land (Z.shiftr count_us 24) 0xFF));
      (TX_REG c "TX_TOP_TX_TRIG_TX_TRIG_DELAYED", 0x00);
      (TX_REG c "TX_TOP_TX_TRIG_TX_TRIG_DELAYED", 0x01)]
  else if Tx.tx_mode p =? ON_GPS then wr_check
   [(TX_REG c "TX_TOP_TX_TRIG_TX_TRIG_GPS", 0x00);
    (TX_REG c "TX_TOP_TX_TRIG_TX_TRIG_GPS", 0x01)]
  else failed.

(** [return LGW_REG_ERROR] with the packet as it is at that point. *)
Definition or_error {A B} (m : prog W A) (e : B) (k : A → prog W B) : prog W B := λ s,
  match m s with
  | Done s a => k a s
  | Failed s => Done s e
  | Wrong => Wrong
  | Spin => Spin
  end.

(** The status and the packet after the call: the preamble length is adjusted
    in it. The pointer to the packet is not NULL. *)
Definition sx1302_send (radio_type : lgw_radio_type_t) (tx_lut : option Gain.lgw_tx_gain_lut_s)
    (lwan_public : bool) (context_fsk : option Rxif.lgw_conf_rxif_s) (pkt_data : lgw_pkt_tx_s)
  : prog W (Z * lgw_pkt_tx_s) :=
  or_error
    (tx_lut ← CHECK_NULL tx_lut;
     err ← call (λ s, lgw_com_set_write_mode usb s LGW_COM_WRITE_MODE_BULK);
     _ ← CHECK_ERR err;
     _ ← send_radio radio_type tx_lut pkt_data;
     send_modem context_fsk pkt_data)
    (LGW_REG_ERROR, pkt_data)
    (λ p, or_error
      (_ ← send_modem_end lwan_public p;
       tx_start_delay ← sx1302_tx_set_start_delay (Tx.rf_chain p) radio_type (Tx.modulation p)
         (Tx.bandwidth p)
         (if Tx.modulation p =? MOD_LORA then lora_chirp_lowpass (Tx.datarate p) else 0);
       _ ← send_payload p;
       _ ← send_trigger p tx_start_delay;
       err ← call (λ s, lgw_com_flush usb s);
       _ ← CHECK_ERR err;
       err ← call (λ s, lgw_com_set_write_mode usb s LGW_COM_WRITE_MODE_SINGLE);
       CHECK_ERR err)
      (LGW_REG_ERROR, p)
      (λ _, mret (LGW_REG_SUCCESS, p))).
End Tx.
