(* ===== verification/Sx1302TxProps.v ===== *)
(** * What a transmission programs

    [sx1302_send] over any link with a bulk mode: the registers of the transmit
    chain and the payload buffer hold the packet, the trigger time is the
    requested one, and nothing outside of the chain has changed. *)
From stdpp Require Import base list numbers strings.
From Stdlib Require Import ZArith Lia.
From S2P Require Import Prelude Binary64 HalTypes Com RegTable RegIds Reg RegFacts RegProps.
From S2P Require Import RegProg RegView HalConf Sx1302Conf Sx1302Tx.

Open Scope Z_scope.
Open Scope list_scope.

(** ** The gain table *)

Lemma pow_index_spec lut pw i :
  (i < length lut)%nat →
  ∃ k g, pow_index lut pw i = Ret (Z.of_nat k) ∧ (k <= i)%nat ∧ lut !! k = Some g ∧
    (Gain.rf_power g <= pw ∨ k = 0%nat) ∧
    ∀ j g', (k < j <= i)%nat → lut !! j = Some g' → pw < Gain.rf_power g'.
Proof.
  induction i as [|i IH]; intros Hi; cbn [pow_index].
  - destruct (lookup_lt_is_Some_2 lut 0 Hi) as [g Hg]. exists 0%nat, g. split_and!; [done|lia|done|by right|lia].
  - destruct (lookup_lt_is_Some_2 lut (S i) Hi) as [g Hg].
    unfold buf_get. rewrite (proj2 (Z.ltb_ge _ _)), Nat2Z.id, Hg by lia. cstep.
    destruct (Z.leb_spec (Gain.rf_power g) pw) as [L|L].
    + exists (S i), g. split_and!; [done|lia|done|by left|lia].
    + destruct IH as (k & g' & E & Hk & Hg' & Hp & Hj); [lia|].
      exists k, g'. split_and!; [done|lia|done|done|]. intros j g1 Hj1 Hg1.
      destruct (decide (j = S i)) as [->|]; [congruence|]. apply (Hj j); [lia|done].
Qed.

(** A table as [lgw_txgain_setconf] stores it. *)
Definition lut_ok (t : Gain.lgw_tx_gain_lut_s) : Prop :=
  1 <= Gain.size t <= 16 ∧ length (Gain.lut t) = 16%nat.

(** The gain of a transmission is the last entry of the table whose power is
    not above the requested one: no later entry of the table is, and the first
    entry is taken only when no other is. The search stays inside the table. *)
Lemma tx_gain_index_spec t pw :
  lut_ok t →
  ∃ k g, tx_gain_index t pw = Ret k ∧ 0 <= k < Gain.size t ∧ buf_get (Gain.lut t) k = Ret g ∧
    (Gain.rf_power g <= pw ∨ k = 0) ∧
    ∀ j g', k < j < Gain.size t → buf_get (Gain.lut t) j = Ret g' → pw < Gain.rf_power g'.
Proof.
  intros [Hs Hl]. unfold tx_gain_index. rewrite (u8_id (Gain.size t - 1)) by lia.
  destruct (pow_index_spec (Gain.lut t) pw (Z.to_nat (Gain.size t - 1))) as (k & g & E & Hk & Hg & Hp & Hj);
    [lia|].
  exists (Z.of_nat k), g. split_and!; [done|lia|lia| | |].
  - unfold buf_get. by rewrite (proj2 (Z.ltb_ge _ _)), Nat2Z.id, Hg by lia.
  - destruct Hp as [| ->]; auto.
  - intros j g' Hj' Hg'. apply (Hj (Z.to_nat j)); [lia|]. unfold buf_get in Hg'.
    rewrite (proj2 (Z.ltb_ge _ _)) in Hg' by lia. destruct (Gain.lut t !! Z.to_nat j); [|done]. congruence.
Qed.

(** ** Delays *)

Definition is_radio (r : lgw_radio_type_t) : bool := is_sx125x r || is_sx1250 r.

(** The delay of a supported bandwidth, in 32 MHz cycles: less than the default
    of 1500 us. *)
Definition start_delay (r : lgw_radio_type_t) (bw dr : Z) : Z :=
  let bw_hz := lgw_bw_getval bw in
  TX_START_DELAY_DEFAULT * 32 -
  (default 0 (radio_bw_delay r bw) + filter_delay (lora_chirp_lowpass dr) bw_hz + modem_delay bw_hz).

Lemma lora_bw_cases bw : IS_LORA_BW bw = true → bw = BW_125KHZ ∨ bw = BW_250KHZ ∨ bw = BW_500KHZ.
Proof.
  unfold IS_LORA_BW. intros [[->%Z.eqb_eq| ->%Z.eqb_eq]%orb_true_iff| ->%Z.eqb_eq]%orb_true_iff; auto.
Qed.
Lemma chirp_cases dr : lora_chirp_lowpass dr = 6 ∨ lora_chirp_lowpass dr = 7.
Proof. unfold lora_chirp_lowpass. destruct (dr <? 10); auto. Qed.

Lemma start_delay_range r bw dr :
  is_radio r = true → IS_LORA_BW bw = true →
  is_Some (radio_bw_delay r bw) ∧ 46000 <= start_delay r bw dr < 48000.
Proof.
  intros Hr Hbw. unfold start_delay. generalize (chirp_cases dr).
  generalize (lora_chirp_lowpass dr) as ch. intros ch Hch.
  destruct (lora_bw_cases bw Hbw) as [-> |[-> | ->]]; destruct r; try discriminate Hr; destruct Hch as [-> | ->];
    (split; [vm_compute; eauto|vm_compute; split; [discriminate|reflexivity]]).
Qed.

(** ** LoRa packets *)

Abbreviation is_chain c := (c = 0 ∨ c = 1).

(** The registers of the transmit chain that [send_radio] writes for LoRa. *)
Definition radio_writes (rt : lgw_radio_type_t) (g : Gain.lgw_tx_gain_s) (power : Z) (p : lgw_pkt_tx_s)
  : list (Z * Z) :=
  let c := Tx.rf_chain p in
  let freq_reg :=
    match rt with
    | LGW_RADIO_TYPE_SX1255 => SX1302_FREQ_TO_REG (Tx.freq_hz p * 2)
    | _ => SX1302_FREQ_TO_REG (Tx.freq_hz p)
    end in
  [(TX_REG c "TX_TOP_GEN_CFG_0_MODULATION_TYPE", 0x00);
   (TX_REG c "TX_TOP_TX_RFFE_IF_CTRL_TX_IF_SRC", 0x01);
   (TX_REG c "TX_TOP_TX_RFFE_IF_I_OFFSET_I_OFFSET", Gain.offset_i g);
   (TX_REG c "TX_TOP_TX_RFFE_IF_Q_OFFSET_Q_OFFSET", Gain.offset_q g);
   (TX_REG c "TX_TOP_AGC_TX_PWR_AGC_TX_PWR", power);
   (TX_REG c "TX_TOP_TX_RFFE_IF_IQ_GAIN_IQ_GAIN", Gain.dig_gain g);
   (TX_REG c "TX_TOP_TX_RFFE_IF_FREQ_RF_H_FREQ_RF", Z.land (Z.shiftr freq_reg 16) 0xFF);
   (TX_REG c "TX_TOP_TX_RFFE_IF_FREQ_RF_M_FREQ_RF", Z.land (Z.shiftr freq_reg 8) 0xFF);
   (TX_REG c "TX_TOP_TX_RFFE_IF_FREQ_RF_L_FREQ_RF", Z.land (Z.shiftr freq_reg 0) 0xFF);
   (TX_REG c "TX_TOP_AGC_TX_BW_AGC_TX_BW", Tx.bandwidth p)].
Definition delay_writes (c d : Z) : list (Z * Z) :=
  [(TX_REG c "TX_TOP_TX_START_DELAY_MSB_TX_START_DELAY", u8 (Z.shiftr d 8));
   (TX_REG c "TX_TOP_TX_START_DELAY_LSB_TX_START_DELAY", u8 (Z.shiftr d 0))].
Definition trigger_writes (c count_us : Z) : list (Z * Z) :=
  [(TX_REG c "TX_TOP_TIMER_TRIG_BYTE0_TIMER_DELAYED_TRIG", u8 (Z.land (Z.shiftr count_us 0) 0xFF));
   (TX_REG c "TX_TOP_TIMER_TRIG_BYTE1_TIMER_DELAYED_TRIG", u8 (Z.land (Z.shiftr count_us 8) 0xFF));
   (TX_REG c "TX_TOP_TIMER_TRIG_BYTE2_TIMER_DELAYED_TRIG", u8 (Z.land (Z.shiftr count_us 16) 0xFF));
   (TX_REG c "TX_TOP_TIMER_TRIG_BYTE3_TIMER_DELAYED_TRIG", u8 (Z.land (Z.shiftr count_us 24) 0xFF));
   (TX_REG c "TX_TOP_TX_TRIG_TX_TRIG_DELAYED", 0x00);
   (TX_REG c "TX_TOP_TX_TRIG_TX_TRIG_DELAYED", 0x01)].
Definition buffer_write (c v : Z) : list (Z * Z) := [(TX_REG c "TX_TOP_TX_CTRL_WRITE_BUFFER", v)].

Lemma lora_modem_writes_length c pub p : length (lora_modem_writes c pub p) = 18%nat.
Proof. unfold lora_modem_writes. by destruct (negb pub || _). Qed.
Lemma lora_modem_writes_ids c pub p :
  map fst (lora_modem_writes c pub p) = map fst (lora_modem_writes c false p).
Proof. unfold lora_modem_writes. by destruct (negb pub || _). Qed.

Lemma radio_writes_ok rt g pw p : is_chain (Tx.rf_chain p) →
  Forall (λ q, writable (fst q) = true) (radio_writes rt g pw p).
Proof. intros H. apply writes_ok. unfold radio_writes. destruct H as [-> | ->]; vm_compute; reflexivity. Qed.
Lemma fdev_writes_ok c bw : is_chain c → Forall (λ q, writable (fst q) = true) (lora_fdev_writes c bw).
Proof. intros H. apply writes_ok. destruct H as [-> | ->]; vm_compute; reflexivity. Qed.
Lemma modem_writes_ok c pub p : is_chain c → Forall (λ q, writable (fst q) = true) (lora_modem_writes c pub p).
Proof.
  intros H. apply writes_ok. rewrite lora_modem_writes_ids. destruct H as [-> | ->]; vm_compute; reflexivity.
Qed.
Lemma delay_writes_ok c d : is_chain c → Forall (λ q, writable (fst q) = true) (delay_writes c d).
Proof. intros H. apply writes_ok. destruct H as [-> | ->]; vm_compute; reflexivity. Qed.
Lemma trigger_writes_ok c t : is_chain c → Forall (λ q, writable (fst q) = true) (trigger_writes c t).
Proof. intros H. apply writes_ok. destruct H as [-> | ->]; vm_compute; reflexivity. Qed.
Lemma buffer_write_ok c v : is_chain c → Forall (λ q, writable (fst q) = true) (buffer_write c v).
Proof. intros H. apply writes_ok. destruct H as [-> | ->]; vm_compute; reflexivity. Qed.

Definition set_chain (c : Z) (p : lgw_pkt_tx_s) : lgw_pkt_tx_s :=
  {| Tx.freq_hz := Tx.freq_hz p; Tx.tx_mode := Tx.tx_mode p; Tx.count_us := Tx.count_us p;
     Tx.rf_chain := c; Tx.rf_power := Tx.rf_power p; Tx.modulation := Tx.modulation p;
     Tx.freq_offset := Tx.freq_offset p; Tx.bandwidth := Tx.bandwidth p;
     Tx.datarate := Tx.datarate p; Tx.coderate := Tx.coderate p; Tx.invert_pol := Tx.invert_pol p;
     Tx.f_dev := Tx.f_dev p; Tx.preamble := Tx.preamble p; Tx.no_crc := Tx.no_crc p;
     Tx.no_header := Tx.no_header p; Tx.size := Tx.size p; Tx.payload := Tx.payload p |}.

(** The list of the writes of a LoRa packet sent at a time. *)
Definition lora_tx_writes rt g power pub p : list (Z * Z) :=
  let c := Tx.rf_chain p in
  let d := start_delay rt (Tx.bandwidth p) (Tx.datarate p) in
  (radio_writes rt g power p ++ lora_fdev_writes c (Tx.bandwidth p) ++
   lora_modem_writes c pub (set_preamble (lora_preamble (Tx.preamble p)) p) ++ delay_writes c d ++
   buffer_write c 1) ++
  (buffer_write c 0 ++ trigger_writes c (u32 (Tx.count_us p * 32 - d))).

(** The packets of the theorem, as [lgw_send] lets them pass. *)
Definition lora_packet (p : lgw_pkt_tx_s) : Prop :=
  Tx.modulation p = MOD_LORA ∧ is_chain (Tx.rf_chain p) ∧ IS_LORA_BW (Tx.bandwidth p) = true ∧
  IS_LORA_DR (Tx.datarate p) = true ∧ IS_LORA_CR (Tx.coderate p) = true ∧
  0 <= Tx.freq_hz p <= 1020000000 ∧ is_u32 (Tx.count_us p) ∧ is_u16 (Tx.preamble p) ∧
  1 <= Tx.size p <= 255 ∧ length (Tx.payload p) = 256%nat ∧ Forall (λ x, is_u8 x) (Tx.payload p).

(** ** Values of the registers *)

(** The register of the chain of the packet. *)
Definition tx_reg (m : Z → Z) (p : lgw_pkt_tx_s) (name : string) : Z :=
  reg_in m (TX_REG (Tx.rf_chain p) name).

Lemma land_shifted_byte x k : 0 <= k → Z.land (Z.shiftr x k) 0xFF = x / 2 ^ k mod 2 ^ 8.
Proof. intros Hk. by rewrite land_ff, shiftr_div. Qed.
Lemma land_byte_range x k : 0 <= Z.land (Z.shiftr x k) 0xFF < 2 ^ 8.
Proof. rewrite land_ff. apply Z.mod_pos_bound. lia. Qed.

Lemma bytes_of_24 x : 0 <= x < 2 ^ 24 →
  Z.land (Z.shiftr x 16) 0xFF * 2 ^ 16 + Z.land (Z.shiftr x 8) 0xFF * 2 ^ 8 + Z.land (Z.shiftr x 0) 0xFF = x.
Proof.
  intros H. rewrite !land_shifted_byte by lia.
  change (2 ^ 16) with 65536; change (2 ^ 8) with 256; change (2 ^ 0) with 1; change (2 ^ 24) with 16777216 in H.
  Z.div_mod_to_equations. lia.
Qed.
Lemma bytes_of_16 x : is_u16 x → Z.land (Z.shiftr x 8) 0xFF * 2 ^ 8 + Z.land (Z.shiftr x 0) 0xFF = x.
Proof.
  intros H. rewrite !land_shifted_byte by lia. change (2 ^ 8) with 256; change (2 ^ 0) with 1.
  Z.div_mod_to_equations. lia.
Qed.
Lemma bytes_of_32 x : is_u32 x →
  Z.land (Z.shiftr x 24) 0xFF * 2 ^ 24 + Z.land (Z.shiftr x 16) 0xFF * 2 ^ 16 +
  Z.land (Z.shiftr x 8) 0xFF * 2 ^ 8 + Z.land (Z.shiftr x 0) 0xFF = x.
Proof.
  intros H. rewrite !land_shifted_byte by lia. change (2 ^ 24) with 16777216; change (2 ^ 16) with 65536;
    change (2 ^ 8) with 256; change (2 ^ 0) with 1; change (2 ^ 32) with 4294967296 in H.
  Z.div_mod_to_equations. lia.
Qed.

(** The registers of the writes, in their order. *)
Definition lora_ids_0 : list Z := Eval vm_compute in
  map fst (lora_tx_writes LGW_RADIO_TYPE_SX1250 Gain.zero 0 false Tx.zero).
Definition lora_ids_1 : list Z := Eval vm_compute in
  map fst (lora_tx_writes LGW_RADIO_TYPE_SX1250 Gain.zero 0 false (set_chain 1 Tx.zero)).
Definition lora_ids (c : Z) : list Z := if c =? 0 then lora_ids_0 else lora_ids_1.

Lemma lora_ids_writable c : is_chain c → forallb writable (lora_ids c) = true.
Proof. intros [-> | ->]; vm_compute; reflexivity. Qed.

Section Values.
Context (m : Z → Z) (rt : lgw_radio_type_t) (g : Gain.lgw_tx_gain_s) (power : Z) (pub : bool)
  (p : lgw_pkt_tx_s) (Hp : lora_packet p) (Hpower : is_u8 power) (Hrt : is_radio rt = true).
Abbreviation m' := (upd_regs m (lora_tx_writes rt g power pub p)).
Abbreviation R := (tx_reg m' p).
Definition sf56 : bool := (Tx.datarate p =? DR_LORA_SF5) || (Tx.datarate p =? DR_LORA_SF6).

Lemma lora_tx_ids :
  map fst (lora_tx_writes rt g power pub p) = lora_ids (Tx.rf_chain p).
Proof.
  unfold lora_tx_writes. cbv zeta. rewrite !map_app, lora_modem_writes_ids.
  change (Tx.rf_chain (set_preamble _ p)) with (Tx.rf_chain p).
  destruct (proj1 (proj2 Hp)) as [Hc|Hc]; unfold radio_writes; rewrite Hc; vm_compute; reflexivity.
Qed.

(** [reg_is] for a register of the chain; it leaves the range of the value. *)
Local Ltac chain_reg :=
  unfold tx_reg; pose proof lora_tx_ids as Hids;
  pose proof (lora_ids_writable (Tx.rf_chain p) (proj1 (proj2 Hp))) as Hok;
  destruct (proj1 (proj2 Hp)) as [Hc|Hc]; rewrite Hc in *;
  (reg_is Hids Hok;
   [unfold lora_tx_writes, lora_modem_writes; cbv zeta;
    change (Tx.datarate (set_preamble _ p)) with (Tx.datarate p);
    (destruct (negb pub || _)); reflexivity|]).

Definition tx_freq_reg : Z :=
  match rt with
  | LGW_RADIO_TYPE_SX1255 => SX1302_FREQ_TO_REG (Tx.freq_hz p * 2)
  | _ => SX1302_FREQ_TO_REG (Tx.freq_hz p)
  end.
Definition tx_delay : Z := start_delay rt (Tx.bandwidth p) (Tx.datarate p).
Definition tx_count : Z := u32 (Tx.count_us p * 32 - tx_delay).

Lemma tx_freq_bytes :
  R "TX_TOP_TX_RFFE_IF_FREQ_RF_H_FREQ_RF" = Z.land (Z.shiftr tx_freq_reg 16) 0xFF ∧
  R "TX_TOP_TX_RFFE_IF_FREQ_RF_M_FREQ_RF" = Z.land (Z.shiftr tx_freq_reg 8) 0xFF ∧
  R "TX_TOP_TX_RFFE_IF_FREQ_RF_L_FREQ_RF" = Z.land (Z.shiftr tx_freq_reg 0) 0xFF.
Proof. split_and!; chain_reg; apply land_byte_range. Qed.

(** The bytes of the 16-bit registers are written with and without the mask. *)
Lemma u8_land_byte x k : u8 (Z.land (Z.shiftr x k) 0xFF) = Z.land (Z.shiftr x k) 0xFF.
Proof. apply u8_id, land_byte_range. Qed.
Lemma u8_shiftr x k : u8 (Z.shiftr x k) = Z.land (Z.shiftr x k) 0xFF.
Proof. by rewrite land_ff. Qed.

Lemma tx_delay_bytes :
  R "TX_TOP_TX_START_DELAY_MSB_TX_START_DELAY" = u8 (Z.shiftr tx_delay 8) ∧
  R "TX_TOP_TX_START_DELAY_LSB_TX_START_DELAY" = u8 (Z.shiftr tx_delay 0).
Proof. split_and!; chain_reg; apply u8_range. Qed.
Lemma tx_count_bytes :
  R "TX_TOP_TIMER_TRIG_BYTE3_TIMER_DELAYED_TRIG" = u8 (Z.land (Z.shiftr tx_count 24) 0xFF) ∧
  R "TX_TOP_TIMER_TRIG_BYTE2_TIMER_DELAYED_TRIG" = u8 (Z.land (Z.shiftr tx_count 16) 0xFF) ∧
  R "TX_TOP_TIMER_TRIG_BYTE1_TIMER_DELAYED_TRIG" = u8 (Z.land (Z.shiftr tx_count 8) 0xFF) ∧
  R "TX_TOP_TIMER_TRIG_BYTE0_TIMER_DELAYED_TRIG" = u8 (Z.land (Z.shiftr tx_count 0) 0xFF).
Proof. split_and!; chain_reg; apply u8_range. Qed.
Lemma tx_preamble_bytes :
  R "TX_TOP_TXRX_CFG1_3_PREAMBLE_SYMB_NB" = Z.land (Z.shiftr (lora_preamble (Tx.preamble p)) 8) 0xFF ∧
  R "TX_TOP_TXRX_CFG1_2_PREAMBLE_SYMB_NB" = Z.land (Z.shiftr (lora_preamble (Tx.preamble p)) 0) 0xFF.
Proof. split_and!; chain_reg; apply land_byte_range. Qed.

Lemma lora_dr_range : 5 <= Tx.datarate p <= 12.
Proof.
  destruct Hp as (_ & _ & _ & H & _). unfold IS_LORA_DR in H.
  repeat (apply orb_true_iff in H as [H|H]); apply Z.eqb_eq in H; rewrite H; by vm_compute.
Qed.
Lemma lora_bw_range : 4 <= Tx.bandwidth p <= 6.
Proof.
  destruct Hp as (_ & _ & H & _). by destruct (lora_bw_cases _ H) as [-> |[-> | ->]]; vm_compute.
Qed.
Lemma lora_cr_range : 1 <= Tx.coderate p <= 4.
Proof.
  destruct Hp as (_ & _ & _ & _ & H & _). unfold IS_LORA_CR in H.
  repeat (apply orb_true_iff in H as [H|H]); apply Z.eqb_eq in H; rewrite H; by vm_compute.
Qed.

Lemma tx_modem_regs :
  R "TX_TOP_GEN_CFG_0_MODULATION_TYPE" = 0 ∧
  R "TX_TOP_AGC_TX_PWR_AGC_TX_PWR" = power ∧
  R "TX_TOP_TXRX_CFG0_0_MODEM_SF" = Tx.datarate p ∧
  R "TX_TOP_TXRX_CFG0_0_MODEM_BW" = Tx.bandwidth p ∧
  R "TX_TOP_TXRX_CFG0_1_CODING_RATE" = Tx.coderate p ∧
  R "TX_TOP_TXRX_CFG0_3_PAYLOAD_LENGTH" = Tx.size p ∧
  R "TX_TOP_TX_CFG0_0_CHIRP_INVERT" = (if Tx.invert_pol p then 1 else 0) ∧
  R "TX_TOP_TXRX_CFG0_2_IMPLICIT_HEADER" = (if Tx.no_header p then 1 else 0) ∧
  R "TX_TOP_TXRX_CFG0_2_CRC_EN" = (if Tx.no_crc p then 0 else 1).
Proof.
  pose proof lora_dr_range. pose proof lora_bw_range. pose proof lora_cr_range.
  assert (1 <= Tx.size p <= 255) by apply Hp.
  split_and!; chain_reg; try lia; match goal with |- context [if ?b then _ else _] => destruct b; lia end.
Qed.
Lemma tx_sync_regs :
  R "TX_TOP_FRAME_SYNCH_0_PEAK1_POS" = (if negb pub || sf56 then 2 else 6) ∧
  R "TX_TOP_FRAME_SYNCH_1_PEAK2_POS" = (if negb pub || sf56 then 4 else 8) ∧
  R "TX_TOP_TXRX_CFG0_2_FINE_SYNCH_EN" = (if sf56 then 1 else 0) ∧
  R "TX_TOP_TXRX_CFG0_1_PPM_OFFSET" = (if SET_PPM_ON (Tx.bandwidth p) (Tx.datarate p) then 1 else 0) ∧
  R "TX_TOP_TX_CTRL_WRITE_BUFFER" = 0 ∧
  R "TX_TOP_TX_TRIG_TX_TRIG_DELAYED" = 1.
Proof.
  unfold sf56. split_and!; chain_reg; try lia;
    match goal with |- context [if ?b then _ else _] => destruct b; lia end.
Qed.
End Values.

(** ** The transmit buffer and the other chain *)

(** The address of the payload in the transmit buffer. *)
Definition payload_addr (c : Z) : Z := if c =? 0 then 0x5300 else 0x5500.
(** The registers of a transmit chain. *)
Definition chain_base (c : Z) : Z :=
  if c =? 0 then SX1302_REG_TX_TOP_A_BASE_ADDR else SX1302_REG_TX_TOP_B_BASE_ADDR.
Definition in_chain (c j : Z) : bool :=
  (chain_base c <=? addr (the_reg j)) && (addr (the_reg j) <? chain_base c + 0x100).

Lemma registers_forall (f : lgw_reg_s → bool) j :
  forallb f registers = true → 0 <= j < LGW_TOTALREGS → f (the_reg j) = true.
Proof.
  intros H Hj. rewrite forallb_forall in H. apply H, list_elem_of_In.
  eapply list_elem_of_lookup_2. by apply the_reg_lookup.
Qed.
Lemma buffer_no_reg c j : is_chain c → 0 <= j < LGW_TOTALREGS →
  addr (the_reg j) < payload_addr c ∨ payload_addr c + 256 <= addr (the_reg j).
Proof.
  intros Hc Hj.
  assert (H : (addr (the_reg j) <? payload_addr c) || (payload_addr c + 256 <=? addr (the_reg j)) = true).
  { apply (registers_forall (λ r, (addr r <? payload_addr c) || (payload_addr c + 256 <=? addr r))); [|done].
    destruct Hc as [-> | ->]; vm_compute; reflexivity. }
  apply orb_true_iff in H as [H%Z.ltb_lt|H%Z.leb_le]; auto.
Qed.
Lemma lora_ids_in_chain c j : is_chain c → j ∈ lora_ids c → in_chain c j = true.
Proof.
  intros Hc Hj. assert (H : forallb (in_chain c) (lora_ids c) = true) by (destruct Hc as [-> | ->]; vm_compute; reflexivity).
  rewrite forallb_forall in H. by apply H, list_elem_of_In.
Qed.
(** The memory after a packet: the registers as after the writes, the payload in
    the buffer. *)
Lemma lora_memory m rt g power pub p :
  lora_packet p →
  let c := Tx.rf_chain p in
  let ws := lora_tx_writes rt g power pub p in
  let l := take (Z.to_nat (Tx.size p)) (Tx.payload p) in
  let m' := upd_regs (upd_bytes (upd_regs m (take 34 ws)) (payload_addr c) l) (drop 34 ws) in
  (∀ j, 0 <= j < LGW_TOTALREGS → reg_in m' j = reg_in (upd_regs m ws) j) ∧
  (∀ j, 0 <= j < LGW_TOTALREGS → in_chain c j = false → reg_in m' j = reg_in m j) ∧
  (∀ k, 0 <= k < Tx.size p → m' (payload_addr c + k) = znth 0 (Tx.payload p) k).
Proof.
  intros Hp c ws l m'. assert (Hc : is_chain c) by apply Hp.
  assert (Hz : 1 <= Tx.size p <= 255 ∧ length (Tx.payload p) = 256%nat) by (split; apply Hp).
  assert (Hids : map fst ws = lora_ids c) by (by apply lora_tx_ids).
  pose proof (lora_ids_writable c Hc) as Hok. rewrite <- Hids in Hok.
  assert (Hl : Z.of_nat (length l) = Tx.size p) by (subst l; rewrite length_take; lia).
  assert (H1 : ∀ j, 0 <= j < LGW_TOTALREGS → reg_in m' j = reg_in (upd_regs m ws) j).
  { intros j Hj. subst m'. rewrite reg_in_around; rewrite ?(take_drop 34 ws); try done.
    intros i Hi. destruct (buffer_no_reg c i Hc Hi); [auto|right; lia]. }
  split_and!; [done| |].
  - intros j Hj Hn. rewrite H1 by done. apply reg_in_untouched; [done| |done]. apply last_pos_None.
    rewrite Hids. intros Hin%lora_ids_in_chain; [congruence|done].
  - intros k Hk. subst m'. rewrite upd_regs_other.
    + unfold upd_bytes. rewrite (proj2 (Z.leb_le _ _)), (proj2 (Z.ltb_lt _ _)) by lia. cbn [andb].
      replace (payload_addr c + k - payload_addr c) with k by lia. unfold znth, l.
      rewrite (proj2 (Z.ltb_ge _ _)) by lia. rewrite nth_firstn, (proj2 (Nat.ltb_lt _ _)) by lia. done.
    + apply List.Forall_forall. intros q Hq. pose proof (writes_ok _ Hok) as Hw. rewrite List.Forall_forall in Hw.
      assert (Hin : In q ws) by (rewrite <- (take_drop 34 ws); apply in_or_app; by right).
      apply Hw, writable_spec in Hin as [Hi _]. destruct (buffer_no_reg c (fst q) Hc Hi); lia.
Qed.

Section Send.
Context {W : Type} (spi usb : driver W) (ready : com_state W → (Z → Z) → Prop)
  (filling : com_state W → nat → Z → (Z → Z) → Prop).
Context `{!BulkLink spi usb ready filling}.

Lemma send_radio_lora s n b m rt t p i g power :
  filling s n b m → Tx.modulation p = MOD_LORA → is_chain (Tx.rf_chain p) →
  tx_gain_index t (Tx.rf_power p) = Ret i → buf_get (Gain.lut t) i = Ret g →
  tx_power rt g = Some power → (n + 10 <= 255)%nat → b + 90 <= 4096 →
  ∃ s', send_radio spi usb rt t p s = Done s' () ∧
        filling s' (n + 10)%nat (b + 90) (upd_regs m (radio_writes rt g power p)).
Proof.
  intros Hs Hm Hc Hi Hg Hp Hn Hb. pose proof (radio_writes_ok rt g power p Hc) as Hok.
  change (radio_writes rt g power p)
    with (take 2 (radio_writes rt g power p) ++ (take 2 (drop 2 (radio_writes rt g power p)) ++ drop 4 (radio_writes rt g power p)))
    in Hok |- *.
  apply List.Forall_app in Hok as [Hok1 [Hok2 Hok3]%List.Forall_app].
  destruct (wr_check_link spi usb filling s n b m _ Hs Hok1) as (s1 & E1 & Hs1); [cbn; lia|cbn; lia|].
  destruct (wr_check_link spi usb filling s1 _ _ _ _ Hs1 Hok2) as (s2 & E2 & Hs2); [cbn; lia|cbn; lia|].
  destruct (wr_check_link spi usb filling s2 _ _ _ _ Hs2 Hok3) as (s3 & E3 & Hs3); [cbn; lia|cbn; lia|].
  exists s3. split.
  - unfold send_radio. rewrite Hm. cbn [Z.eqb Pos.eqb MOD_CW MOD_LORA]. cbv zeta.
    erewrite bind_done by exact E1. rewrite Hi. erewrite bind_done by reflexivity.
    rewrite Hg. erewrite bind_done by reflexivity. erewrite bind_done by exact E2.
    rewrite Hp. erewrite bind_done by reflexivity. exact E3.
  - rewrite !upd_regs_app. cbn [length take drop radio_writes] in Hs3.
    replace (n + 10)%nat with (n + 2 + 2 + 6)%nat by lia. replace (b + 90) with (b + 9 * Z.of_nat 2 + 9 * Z.of_nat 2 + 9 * Z.of_nat 6) by lia. exact Hs3.
Qed.

Lemma set_start_delay_lora s n b m rt c bw dr :
  filling s n b m → is_chain c → is_radio rt = true → IS_LORA_BW bw = true →
  (n + 1 <= 255)%nat → b + 10 <= 4096 →
  let d := start_delay rt bw dr in
  ∃ s', sx1302_tx_set_start_delay spi usb c rt MOD_LORA bw (lora_chirp_lowpass dr) s = Done s' d ∧
        filling s' (S n) (b + 10) (upd_regs m (delay_writes c d)).
Proof.
  intros Hs Hc Hrt Hbw Hn Hb d. destruct (start_delay_range rt bw dr Hrt Hbw) as [[rd Hrd] Hd].
  fold d in Hd. unfold sx1302_tx_set_start_delay. cbn [negb Z.eqb Pos.eqb MOD_LORA]. cbv zeta.
  rewrite Hrd. assert (Ed : u16 (TX_START_DELAY_DEFAULT * 32 -
    (rd + filter_delay (lora_chirp_lowpass dr) (lgw_bw_getval bw) + modem_delay (lgw_bw_getval bw))) = d).
  { unfold d, start_delay in *. cbv zeta in *. rewrite Hrd in *. cbn [default] in *. apply u16_id. lia. }
  rewrite Ed. set (i := TX_REG c "TX_TOP_TX_START_DELAY_MSB_TX_START_DELAY").
  set (j := TX_REG c "TX_TOP_TX_START_DELAY_LSB_TX_START_DELAY").
  assert (Hij : writable i && (addr (the_reg i) <? 30000) && (whole i && whole j && (addr (the_reg j) =? addr (the_reg i) + 1)) = true).
  { subst i j. destruct Hc as [-> | ->]; vm_compute; reflexivity. }
  apply andb_true_iff in Hij as [[Hi Ha%Z.ltb_lt]%andb_true_iff Hij].
  destruct (reg_wb_link spi usb filling s n b m i [u8 (Z.shiftr d 8); u8 (Z.shiftr d 0)]) as (s' & E & Hs');
    [done|done|lia|cbn [length]; lia|cbn [length]; lia|cbn [length]; lia|repeat constructor; apply u8_range|].
  exists s'. split.
  - erewrite bind_done by (unfold call; rewrite E; reflexivity). done.
  - replace (b + 10) with (b + 8 + Z.of_nat (length [u8 (Z.shiftr d 8); u8 (Z.shiftr d 0)])) by (cbn [length]; lia).
    eapply wl_ext; [exact Hs'|]. intros x. apply upd_bytes_pair; [done|apply u8_range..].
Qed.

Lemma send_payload_lora s n b m p :
  filling s n b m → is_chain (Tx.rf_chain p) → Tx.modulation p = MOD_LORA →
  1 <= Tx.size p <= 255 → length (Tx.payload p) = 256%nat → Forall (λ x, is_u8 x) (Tx.payload p) →
  (n + 3 <= 255)%nat → b + 26 + Tx.size p <= 4096 →
  let c := Tx.rf_chain p in
  ∃ s', send_payload spi usb p s = Done s' () ∧
    filling s' (n + 3)%nat (b + 26 + Tx.size p)
      (upd_regs (upd_bytes (upd_regs m (buffer_write c 1)) (payload_addr c)
                           (take (Z.to_nat (Tx.size p)) (Tx.payload p))) (buffer_write c 0)).
Proof.
  intros Hs Hc Hm Hz Hl Hby Hn Hb c. fold c in Hc.
  destruct (wr_check_link spi usb filling s n b m _ Hs (buffer_write_ok c 1 Hc)) as (s1 & E1 & Hs1);
    [cbn [length buffer_write]; lia|cbn [length buffer_write]; lia|]. cbn [length buffer_write] in Hs1.
  set (l := take (Z.to_nat (Tx.size p)) (Tx.payload p)).
  assert (Hll : Z.of_nat (length l) = Tx.size p) by (subst l; rewrite length_take; lia).
  assert (Ha : 0 <= payload_addr c /\ payload_addr c + 255 <= 2 ^ 15) by (destruct Hc as [-> | ->]; cbn; lia).
  destruct (mem_wb_link spi usb filling s1 _ _ _ (payload_addr c) l Hs1) as (s2 & E2 & Hs2);
    [lia|lia|lia|lia|lia|by apply Forall_take|].
  destruct (wr_check_link spi usb filling s2 _ _ _ _ Hs2 (buffer_write_ok c 0 Hc)) as (s3 & E3 & Hs3);
    [cbn [length buffer_write]; lia|cbn [length buffer_write]; lia|]. cbn [length buffer_write] in Hs3.
  exists s3. split.
  - unfold send_payload. cbv zeta. fold c. erewrite bind_done by exact E1. rewrite Hm.
    cbn [Z.eqb Pos.eqb MOD_LORA MOD_FSK]. unfold mem_wb. rewrite (proj2 (Z.ltb_ge _ _)) by lia. fold l.
    erewrite bind_done; [exact E3|]. change (REG_SELECT c 0x5300 0x5500) with (payload_addr c).
    erewrite bind_done; [|unfold call_fuel; rewrite E2; reflexivity]. done.
  - replace (n + 3)%nat with (n + 1 + 1 + 1)%nat by lia. replace (S (n + 1)) with (n + 1 + 1)%nat in Hs3 by lia.
    replace (b + 26 + Tx.size p) with (b + 9 * Z.of_nat 1 + 8 + Z.of_nat (length l) + 9 * Z.of_nat 1) by lia.
    exact Hs3.
Qed.

(** [sx1302_send] up to the payload. *)
Lemma lora_send_head s m rt t fsk pub p :
  ready s m → Tx.modulation p = MOD_LORA → is_chain (Tx.rf_chain p) →
  IS_LORA_BW (Tx.bandwidth p) = true → is_radio rt = true → lut_ok t →
  let c := Tx.rf_chain p in
  let p' := set_preamble (lora_preamble (Tx.preamble p)) p in
  let d := start_delay rt (Tx.bandwidth p) (Tx.datarate p) in
  ∃ s4 k g power,
    tx_gain_index t (Tx.rf_power p) = Ret k ∧ buf_get (Gain.lut t) k = Ret g ∧
    tx_power rt g = Some power ∧
    filling s4 32%nat 289
      (upd_regs m (radio_writes rt g power p ++ lora_fdev_writes c (Tx.bandwidth p) ++
                   lora_modem_writes c pub p' ++ delay_writes c d)) ∧
    sx1302_send spi usb rt (Some t) pub fsk p s
    = or_error
        (_ ← send_payload spi usb p';
         _ ← send_trigger spi usb p' d;
         err ← call (λ s, lgw_com_flush usb s);
         _ ← CHECK_ERR err;
         err ← call (λ s, lgw_com_set_write_mode usb s LGW_COM_WRITE_MODE_SINGLE);
         CHECK_ERR err) (LGW_REG_ERROR, p') (λ _, mret (LGW_REG_SUCCESS, p')) s4.
Proof.
  intros Hs Hm Hc Hbw Hrt Ht c p' d.
  destruct (tx_gain_index_spec t (Tx.rf_power p) Ht) as (k & g & Ek & Hk & Eg & _).
  destruct (tx_power rt g) as [power|] eqn:Ep; [|by destruct rt].
  destruct (bl_begin s m Hs) as (s0 & E0 & Hs0).
  destruct (send_radio_lora s0 0 0 m rt t p k g power Hs0 Hm Hc Ek Eg Ep) as (s1 & E1 & Hs1); [lia|lia|].
  destruct (wr_check_link spi usb filling s1 _ _ _ _ Hs1 (fdev_writes_ok c (Tx.bandwidth p) Hc)) as (s2 & E2 & Hs2);
    [cbn [length lora_fdev_writes]; lia|cbn [length lora_fdev_writes]; lia|].
  cbn [length lora_fdev_writes] in Hs2.
  destruct (wr_check_link spi usb filling s2 _ _ _ _ Hs2 (modem_writes_ok c pub p' Hc)) as (s3 & E3 & Hs3);
    [rewrite lora_modem_writes_length; lia|rewrite lora_modem_writes_length; lia|].
  rewrite lora_modem_writes_length in Hs3.
  destruct (set_start_delay_lora s3 _ _ _ rt c (Tx.bandwidth p) (Tx.datarate p) Hs3 Hc Hrt Hbw) as (s4 & E4 & Hs4);
    [lia|lia|]. fold d in E4, Hs4.
  exists s4, k, g, power. split_and!; [done..| |].
  - rewrite !upd_regs_app. exact Hs4.
  - unfold sx1302_send at 1. unfold or_error at 1 2. cbn [CHECK_NULL]. erewrite bind_done by reflexivity.
    erewrite bind_done by (unfold call; rewrite E0; reflexivity). erewrite bind_done by reflexivity.
    erewrite bind_done by exact E1. unfold send_modem. rewrite Hm. cbn [Z.eqb Pos.eqb MOD_CW MOD_LORA]. cbv zeta.
    erewrite bind_done by exact E2. cbn [mret eff_ret]. fold p'.
    unfold send_modem_end. change (Tx.modulation p') with (Tx.modulation p). rewrite Hm.
    cbn [Z.eqb Pos.eqb MOD_CW MOD_LORA]. cbv zeta. erewrite bind_done by exact E3.
    by erewrite bind_done by exact E4.
Qed.

Lemma lora_send_run s m rt t fsk pub p :
  ready s m → lora_packet p → Tx.tx_mode p = TIMESTAMPED → is_radio rt = true → lut_ok t →
  ∃ s' m' k g power,
    sx1302_send spi usb rt (Some t) pub fsk p s
      = Done s' (LGW_REG_SUCCESS, set_preamble (lora_preamble (Tx.preamble p)) p) ∧
    ready s' m' ∧ tx_gain_index t (Tx.rf_power p) = Ret k ∧ buf_get (Gain.lut t) k = Ret g ∧
    tx_power rt g = Some power ∧
    let c := Tx.rf_chain p in
    let ws1 := take 34 (lora_tx_writes rt g power pub p) in
    let ws2 := drop 34 (lora_tx_writes rt g power pub p) in
    m' = upd_regs (upd_bytes (upd_regs m ws1) (payload_addr c)
                             (take (Z.to_nat (Tx.size p)) (Tx.payload p))) ws2.
Proof.
  intros Hs (Hm & Hc & Hbw & _ & _ & _ & _ & _ & Hz & Hl & Hby) Hmode Hrt Ht.
  destruct (lora_send_head s m rt t fsk pub p Hs Hm Hc Hbw Hrt Ht) as (s4 & k & g & power & Ek & Eg & Ep & Hs4 & E).
  set (c := Tx.rf_chain p) in *. set (p' := set_preamble (lora_preamble (Tx.preamble p)) p) in *.
  set (d := start_delay rt (Tx.bandwidth p) (Tx.datarate p)) in *.
  destruct (send_payload_lora s4 _ _ _ p' Hs4 Hc Hm Hz Hl Hby) as (s5 & E5 & Hs5); [lia|cbn; lia|].
  destruct (wr_check_link spi usb filling s5 _ _ _ _ Hs5 (trigger_writes_ok c (u32 (Tx.count_us p * 32 - d)) Hc))
    as (s6 & E6 & Hs6); [cbn [length trigger_writes]; lia|cbn [length trigger_writes Tx.size set_preamble p']; lia|].
  destruct (bl_flush _ _ _ _ Hs6) as (s7 & E7 & Hs7). destruct (bl_end _ _ Hs7) as (s8 & E8 & Hs8).
  eexists s8, _, k, g, power. split; [|split_and!; [exact Hs8|done|done|done|]].
  - rewrite E. unfold or_error. erewrite bind_done by exact E5.
    unfold send_trigger. change (Tx.tx_mode p') with (Tx.tx_mode p). rewrite Hmode.
    cbn [Z.eqb Pos.eqb IMMEDIATE TIMESTAMPED]. cbv zeta. erewrite bind_done by exact E6.
    erewrite bind_done by (unfold call; rewrite E7; reflexivity). erewrite bind_done by reflexivity.
    erewrite bind_done by (unfold call; rewrite E8; reflexivity). reflexivity.
  - cbv zeta. unfold lora_tx_writes. cbv zeta. fold c d p'.
    assert (HL : length (radio_writes rt g power p ++ lora_fdev_writes c (Tx.bandwidth p) ++
      lora_modem_writes c pub p' ++ delay_writes c d ++ buffer_write c 1) = 34%nat).
    { rewrite !length_app, lora_modem_writes_length. reflexivity. }
    rewrite take_app_length', drop_app_length' by done. rewrite !upd_regs_app. done.
Qed.

(** An empty payload: the memory write refuses it, and the call ends before the
    flush. *)
Lemma lora_send_empty s m rt t fsk pub p :
  ready s m → Tx.modulation p = MOD_LORA → is_chain (Tx.rf_chain p) →
  IS_LORA_BW (Tx.bandwidth p) = true → is_radio rt = true → lut_ok t → Tx.size p = 0 →
  ∃ s' m', sx1302_send spi usb rt (Some t) pub fsk p s
           = Done s' (LGW_REG_ERROR, set_preamble (lora_preamble (Tx.preamble p)) p) ∧
           filling s' 33%nat 298 m'.
Proof.
  intros Hs Hm Hc Hbw Hrt Ht Hz.
  destruct (lora_send_head s m rt t fsk pub p Hs Hm Hc Hbw Hrt Ht) as (s4 & k & g & power & _ & _ & _ & Hs4 & E).
  destruct (wr_check_link spi usb filling s4 _ _ _ _ Hs4 (buffer_write_ok (Tx.rf_chain p) 1 Hc)) as (s5 & E5 & Hs5);
    [cbn [length buffer_write]; lia|cbn [length buffer_write]; lia|].
  eexists s5, _. split; [|exact Hs5]. rewrite E. unfold or_error.
  erewrite bind_failed; [reflexivity|]. unfold send_payload. cbv zeta. erewrite bind_done by exact E5.
  change (Tx.modulation (set_preamble _ p)) with (Tx.modulation p). rewrite Hm.
  cbn [Z.eqb Pos.eqb MOD_LORA MOD_FSK]. apply bind_failed.
  change (Tx.size (set_preamble _ p)) with (Tx.size p). rewrite Hz. unfold mem_wb.
  rewrite (proj2 (Z.ltb_ge _ _)) by lia. by erewrite bind_done by reflexivity.
Qed.

(** The frequency the chip synthesises is the requested one to less than one
    step of its synthesiser (122 Hz; the SX1255 halves it). *)
Lemma tx_freq_close rt p : lora_packet p →
  let k := match rt with LGW_RADIO_TYPE_SX1255 => 2 | _ => 1 end in
  let F := tx_freq_reg rt p in
  0 <= F < 2 ^ 24 ∧ F * 32000000 <= k * Tx.freq_hz p * 2 ^ 18 < (F + 1) * 32000000.
Proof.
  intros (_ & _ & _ & _ & _ & Hf & _) k F.
  assert (HF : F = k * Tx.freq_hz p * 2 ^ 18 / 32000000).
  { subst F k. unfold tx_freq_reg, SX1302_FREQ_TO_REG. change (Z.shiftl 1 18) with (2 ^ 18).
    destruct rt; rewrite ?Z.mul_1_l, ?(Z.mul_comm 2);
      apply u32_id; change (2 ^ 18) with 262144; change (2 ^ 32) with 4294967296; Z.div_mod_to_equations; lia. }
  assert (Hk : 1 <= k <= 2) by (subst k; destruct rt; lia). rewrite HF.
  change (2 ^ 18) with 262144. change (2 ^ 24) with 16777216. set (x := k * Tx.freq_hz p).
  assert (0 <= x <= 2040000000) by (subst x; nia). Z.div_mod_to_equations. lia.
Qed.

(** The trigger time and the start delay add up to the requested time. *)
Lemma tx_count_delay rt p : is_u32 (Tx.count_us p) →
  (tx_count rt p + tx_delay rt p) mod 2 ^ 32 = Tx.count_us p * 32 mod 2 ^ 32.
Proof.
  intros H. unfold tx_count, u32. rewrite Zplus_mod_idemp_l. f_equal. lia.
Qed.

(** C6. A LoRa packet sent at a time, over any link with a bulk mode (SPI, or
    USB where the requests are collected and flushed): [sx1302_send] returns
    success, and then, in the registers of the transmit chain of the packet,
    the frequency is the requested one to less than a step of the synthesiser,
    the trigger time plus the start delay is the requested counter value modulo
    its 32 bits (the delay is between 1437 and 1500 us), spreading factor,
    bandwidth, coding rate, preamble, length, header, CRC and polarity are those
    of the packet, the power is that of the last gain entry not above the
    request, the sync word is 0x34 for a public network from SF7 on and 0x12
    otherwise, and the trigger is armed; the payload is in the transmit buffer
    of the chain; no register outside of the chain has changed; and the link is
    ready for single accesses again. *)
Theorem lora_send_programs_chain s m rt t fsk pub p :
  ready s m → lora_packet p → Tx.tx_mode p = TIMESTAMPED → is_radio rt = true → lut_ok t →
  ∃ s' m' k g,
    sx1302_send spi usb rt (Some t) pub fsk p s
      = Done s' (LGW_REG_SUCCESS, set_preamble (lora_preamble (Tx.preamble p)) p) ∧
    ready s' m' ∧
    let c := Tx.rf_chain p in
    let R := tx_reg m' p in
    let F := R "TX_TOP_TX_RFFE_IF_FREQ_RF_H_FREQ_RF" * 2 ^ 16 +
             R "TX_TOP_TX_RFFE_IF_FREQ_RF_M_FREQ_RF" * 2 ^ 8 + R "TX_TOP_TX_RFFE_IF_FREQ_RF_L_FREQ_RF" in
    let T := R "TX_TOP_TIMER_TRIG_BYTE3_TIMER_DELAYED_TRIG" * 2 ^ 24 +
             R "TX_TOP_TIMER_TRIG_BYTE2_TIMER_DELAYED_TRIG" * 2 ^ 16 +
             R "TX_TOP_TIMER_TRIG_BYTE1_TIMER_DELAYED_TRIG" * 2 ^ 8 +
             R "TX_TOP_TIMER_TRIG_BYTE0_TIMER_DELAYED_TRIG" in
    let D := R "TX_TOP_TX_START_DELAY_MSB_TX_START_DELAY" * 2 ^ 8 +
             R "TX_TOP_TX_START_DELAY_LSB_TX_START_DELAY" in
    let hz := match rt with LGW_RADIO_TYPE_SX1255 => 2 | _ => 1 end * Tx.freq_hz p in
    F * 32000000 <= hz * 2 ^ 18 < (F + 1) * 32000000 ∧
    (T + D) mod 2 ^ 32 = Tx.count_us p * 32 mod 2 ^ 32 ∧ 46000 <= D < 48000 ∧
    R "TX_TOP_TXRX_CFG0_0_MODEM_SF" = Tx.datarate p ∧
    R "TX_TOP_TXRX_CFG0_0_MODEM_BW" = Tx.bandwidth p ∧
    R "TX_TOP_TXRX_CFG0_1_CODING_RATE" = Tx.coderate p ∧
    R "TX_TOP_TXRX_CFG1_3_PREAMBLE_SYMB_NB" * 2 ^ 8 + R "TX_TOP_TXRX_CFG1_2_PREAMBLE_SYMB_NB"
      = lora_preamble (Tx.preamble p) ∧
    R "TX_TOP_TXRX_CFG0_3_PAYLOAD_LENGTH" = Tx.size p ∧
    R "TX_TOP_TXRX_CFG0_2_IMPLICIT_HEADER" = (if Tx.no_header p then 1 else 0) ∧
    R "TX_TOP_TXRX_CFG0_2_CRC_EN" = (if Tx.no_crc p then 0 else 1) ∧
    R "TX_TOP_TX_CFG0_0_CHIRP_INVERT" = (if Tx.invert_pol p then 1 else 0) ∧
    (tx_gain_index t (Tx.rf_power p) = Ret k ∧ buf_get (Gain.lut t) k = Ret g ∧
     (Gain.rf_power g <= Tx.rf_power p ∨ k = 0) ∧
     tx_power rt g = Some (R "TX_TOP_AGC_TX_PWR_AGC_TX_PWR")) ∧
    (R "TX_TOP_FRAME_SYNCH_0_PEAK1_POS", R "TX_TOP_FRAME_SYNCH_1_PEAK2_POS")
      = (if pub && (7 <=? Tx.datarate p) then (6, 8) else (2, 4)) ∧
    R "TX_TOP_TX_TRIG_TX_TRIG_DELAYED" = 1 ∧
    (∀ k, 0 <= k < Tx.size p → m' (payload_addr c + k) = znth 0 (Tx.payload p) k) ∧
    (∀ j, 0 <= j < LGW_TOTALREGS → in_chain c j = false → reg_in m' j = reg_in m j).
Proof.
  intros Hs Hp Hmode Hrt Ht.
  destruct (lora_send_run s m rt t fsk pub p Hs Hp Hmode Hrt Ht) as (s' & m' & k & g & power & E & Hs' & Ek & Eg & Ep & Em).
  destruct (tx_gain_index_spec t (Tx.rf_power p) Ht) as (k' & g' & Ek' & _ & Eg' & Hle & _).
  rewrite Ek in Ek'. injection Ek' as <-. rewrite Eg in Eg'. injection Eg' as <-.
  assert (Hpw : is_u8 power).
  { destruct rt; try discriminate Ep; injection Ep as <-; apply u8_range. }
  destruct (lora_memory m rt g power pub p Hp) as (HR & Hframe & Hpay). cbv zeta in Em. rewrite <- Em in HR, Hframe, Hpay.
  assert (HT : ∀ name, (0 <=? TX_REG (Tx.rf_chain p) name) && (TX_REG (Tx.rf_chain p) name <? LGW_TOTALREGS) = true →
    tx_reg m' p name = tx_reg (upd_regs m (lora_tx_writes rt g power pub p)) p name).
  { intros name [H1%Z.leb_le H2%Z.ltb_lt]%andb_true_iff. by apply HR. }
  exists s', m', k, g. split; [done|]. split; [done|]. cbv zeta.
  rewrite !HT by (destruct (proj1 (proj2 Hp)) as [-> | ->]; vm_compute; reflexivity).
  destruct (tx_freq_bytes m rt g power pub p Hp) as (-> & -> & ->).
  destruct (tx_count_bytes m rt g power pub p Hp) as (-> & -> & -> & ->).
  destruct (tx_delay_bytes m rt g power pub p Hp) as (-> & ->).
  destruct (tx_preamble_bytes m rt g power pub p Hp) as (-> & ->).
  destruct (tx_modem_regs m rt g power pub p Hp Hpw) as (_ & -> & -> & -> & -> & -> & -> & -> & ->).
  destruct (tx_sync_regs m rt g power pub p Hp) as (-> & -> & _ & _ & _ & ->).
  destruct (tx_freq_close rt p Hp) as [HF1 HF2].
  assert (Hbw : IS_LORA_BW (Tx.bandwidth p) = true) by apply Hp.
  destruct (start_delay_range rt _ (Tx.datarate p) Hrt Hbw) as [_ HD]. fold (tx_delay rt p) in HD.
  rewrite !u8_land_byte, !u8_shiftr, bytes_of_24, bytes_of_32, !bytes_of_16 by
    (done || apply u32_range || lia || (unfold lora_preamble, STD_LORA_PREAMBLE, MIN_LORA_PREAMBLE;
      assert (is_u16 (Tx.preamble p)) by apply Hp; repeat case_match; lia)).
  destruct HF2, HD. split_and!; try done; [apply tx_count_delay; apply Hp|].
  pose proof (lora_dr_range p Hp). unfold sf56, DR_LORA_SF5, DR_LORA_SF6.
  destruct pub; cbn [negb orb andb]; [|done].
  destruct (Z.eqb_spec (Tx.datarate p) 5), (Z.eqb_spec (Tx.datarate p) 6), (Z.leb_spec 7 (Tx.datarate p));
    cbn [orb]; done || lia.
Qed.
End Send.
