(* ===== verification/Sx1302TxLinks.v ===== *)
(** * Transmission over SPI and USB

    The two links of [loragw_com.c] under [sx1302_send]: packets on each of
    them, and what the USB link is left with when the call fails. Then the sync
    word of a packet against that of the receiver, and the end of
    [sx1302_tx_abort] over any link. *)
From stdpp Require Import base list numbers strings.
From Stdlib Require Import ZArith Lia.
From S2P Require Import Prelude Binary64 HalTypes Com Spi Mcu Usb UsbProps RegTable RegIds Reg.
From S2P Require Import RegFacts RegProps RegProg RegView HalConf Sx1302Conf Sx1302Mcu.
From S2P Require Import Sx1302ConfProps Sx1302Tx Sx1302TxProps.

Open Scope Z_scope.
Open Scope list_scope.

(** A downlink as a network server sends it, with [size] bytes. *)
Definition a_downlink (size : Z) : lgw_pkt_tx_s :=
  {| Tx.freq_hz := 869525000; Tx.tx_mode := TIMESTAMPED; Tx.count_us := 3512348611; Tx.rf_chain := 0;
     Tx.rf_power := 14; Tx.modulation := MOD_LORA; Tx.freq_offset := 0; Tx.bandwidth := BW_125KHZ;
     Tx.datarate := DR_LORA_SF9; Tx.coderate := CR_LORA_4_5; Tx.invert_pol := true; Tx.f_dev := 0;
     Tx.preamble := 8; Tx.no_crc := true; Tx.no_header := false; Tx.size := size;
     Tx.payload := replicate 256 7 |}.

Lemma a_downlink_ok : lora_packet (a_downlink 32).
Proof.
  split_and!; try done; [by left|by apply Forall_replicate].
Qed.
Lemma initial_lut_ok : lut_ok Gain.initial.
Proof. by split. Qed.

Definition usb0 : com_state (usb_state sim) := Com LGW_COM_USB true (initial sim0).
Lemma usb0_ready : usb_ready sim_up sim_mem usb0 (λ _, 0).
Proof. split_and!; [done|apply sim_idle|done]. Qed.

Lemma lora_send_programs_chain_witness :
  let usb := usb_driver sim_tty sim_turns in
  ∃ s' m', sx1302_send usb usb LGW_RADIO_TYPE_SX1250 (Some Gain.initial) true None (a_downlink 32) usb0
           = Done s' (LGW_REG_SUCCESS, a_downlink 32) ∧ usb_ready sim_up sim_mem s' m' ∧
    tx_reg m' (a_downlink 32) "TX_TOP_TXRX_CFG0_0_MODEM_SF" = 9 ∧
    tx_reg m' (a_downlink 32) "TX_TOP_TX_TRIG_TX_TRIG_DELAYED" = 1 ∧ m' 0x5305 = 7.
Proof.
  intros usb.
  destruct (lora_send_programs_chain usb usb (usb_ready sim_up sim_mem) (usb_filling sim_up sim_mem)
    (BulkLink0 := usb_bulk_link sim_tty sim_up sim_mem sim_turns sim_turns (le_n _) usb)
    usb0 (λ _, 0) LGW_RADIO_TYPE_SX1250 Gain.initial None true (a_downlink 32)
    usb0_ready a_downlink_ok eq_refl eq_refl initial_lut_ok)
    as (s' & m' & k & g & E & Hs' & _ & _ & _ & Hsf & _ & _ & _ & _ & _ & _ & _ & _ & _ & Htrig & Hpay & _).
  exists s', m'. split_and!; [exact E|done|exact Hsf|exact Htrig|].
  specialize (Hpay 5 ltac:(cbn; lia)). cbn in Hpay. exact Hpay.
Defined.

(** Over SPI the same theorem applies, with the chip behind spidev. *)
Section Spi.
Context {W : Type} (spi usb : driver W) (up : W → Prop) (mem : W → Z → Z).
Context `{!MemBus spi up mem} (Hchunk : 256 <= drv_chunk_size spi).

Lemma spi_send_reads_back s rt t fsk pub p :
  com_type s = LGW_COM_SPI → linked spi usb spi up s → lora_packet p → Tx.tx_mode p = TIMESTAMPED →
  is_radio rt = true → lut_ok t →
  ∃ s' p', sx1302_send spi usb rt (Some t) pub fsk p s = Done s' (LGW_REG_SUCCESS, p') ∧
    linked spi usb spi up s' ∧
    ∃ s'', lgw_reg_r spi usb s' (TX_REG (Tx.rf_chain p) "TX_TOP_TXRX_CFG0_0_MODEM_SF") true
           = (s'', (LGW_REG_SUCCESS, Some (Tx.datarate p))).
Proof.
  intros Hty Hs Hp Hmode Hrt Ht. pose proof (spi_bulk_link spi usb up mem Hchunk) as Hlink. cbv zeta in Hlink.
  destruct (lora_send_run spi usb _ _ s (mem (world s)) rt t fsk pub p (conj Hty (conj Hs (λ a, eq_refl)))
    Hp Hmode Hrt Ht) as (s' & m' & k & g & power & E & [_ Hs'] & _ & _ & Ep & Em).
  assert (Hpw : is_u8 power).
  { destruct rt; try discriminate Ep; injection Ep as <-; apply u8_range. }
  exists s'. eexists. split; [exact E|]. split; [apply Hs'|].
  set (i := TX_REG (Tx.rf_chain p) "TX_TOP_TXRX_CFG0_0_MODEM_SF").
  assert (Hi : 0 <= i < LGW_TOTALREGS).
  { subst i. by destruct (proj1 (proj2 Hp)) as [-> | ->]; vm_compute. }
  destruct (lgw_reg_r_spec spi usb spi up mem s' i (proj1 Hs') Hi) as (s'' & Er & _).
  exists s''. rewrite Er. do 3 f_equal. rewrite (direct_reg _ _ _ _ _ _ _ _ Hs').
  destruct (lora_memory (mem (world s)) rt g power pub p Hp) as (HR & _).
  cbv zeta in Em. rewrite <- Em in HR. rewrite HR by done.
  by destruct (tx_modem_regs (mem (world s)) rt g power pub p Hp Hpw) as (_ & _ & Hsf & _).
Qed.
End Spi.

(** ** A failed transmission over USB *)

Section UsbFailure.
Context {T : Type} (tt : tty T) (up : T → Prop) (mem : T → Z → Z) (turns : nat).
Context `{!McuChip tt up mem turns} (fuel : nat) (Hfuel : (turns <= fuel)%nat).
Context (spi : driver (usb_state T)).
Abbreviation usb := (usb_driver tt fuel).

(** With requests pending, every register read fails. *)
Lemma usb_filling_read s n b m i :
  usb_filling up mem s n b m → 0 <= i < LGW_TOTALREGS →
  ∃ v, lgw_reg_r spi usb s i true = (s, (LGW_REG_ERROR, v)).
Proof.
  intros ([H1 H2] & rs & ((_ & _ & Hk) & Hmode & _) & _) Hi. pose proof (the_reg_ok i Hi) as (Ho & Hl & H8 & Ha & _).
  unfold lgw_reg_r, reg_r. cbn [negb]. rewrite (proj2 (Z.leb_gt _ _)), (proj2 (Z.leb_le _ _)) by lia.
  unfold lgw_com_r. rewrite H1, H2. cbn [negb usb_driver drv_r].
  assert (E : lgw_usb_r tt fuel LGW_SPI_MUX_TARGET_SX1302 (addr (the_reg i)) 0 (world s)
              = Some (Ret (world s, (-1, None)))).
  { unfold lgw_usb_r. erewrite io_step.
    2:{ unfold lgw_usb_rb. change (2 ^ 16 <=? Z.of_nat (length [0]) + 9) with false. cbv iota.
        erewrite io_step by done. cbv zeta. rewrite Hmode. reflexivity. }
    reflexivity. }
  rewrite (run_ret _ _ _ _ _ Hk E). eexists. by destruct s.
Qed.

(** Over USB a downlink without payload, which [lgw_send] lets pass, stalls
    the concentrator: [sx1302_send] reports an error and returns with the driver
    in bulk mode, and from then on every register read fails. *)
Theorem usb_empty_packet_stalls_link s m rt t fsk pub p :
  usb_ready up mem s m → Tx.modulation p = MOD_LORA → is_chain (Tx.rf_chain p) →
  IS_LORA_BW (Tx.bandwidth p) = true → is_radio rt = true → lut_ok t → Tx.size p = 0 →
  ∃ s' p', sx1302_send spi usb rt (Some t) pub fsk p s = Done s' (LGW_REG_ERROR, p') ∧
    _lgw_write_mode (world s') = LGW_COM_WRITE_MODE_BULK ∧
    ∀ i, 0 <= i < LGW_TOTALREGS → ∃ v, lgw_reg_r spi usb s' i true = (s', (LGW_REG_ERROR, v)).
Proof.
  intros Hs Hm Hc Hbw Hrt Ht Hz. pose proof (usb_bulk_link tt up mem turns fuel Hfuel spi) as Hlink.
  destruct (lora_send_empty spi usb _ _ s m rt t fsk pub p Hs Hm Hc Hbw Hrt Ht Hz) as (s' & m' & E & Hs').
  exists s'. eexists. split; [exact E|]. split.
  - by destruct Hs' as (_ & rs & (_ & Hmode & _) & _).
  - intros i Hi. by apply (usb_filling_read s' 33%nat 298 m').
Qed.
End UsbFailure.

Lemma usb_empty_packet_stalls_link_witness :
  let usb := usb_driver sim_tty sim_turns in
  ∃ s' p', sx1302_send usb usb LGW_RADIO_TYPE_SX1250 (Some Gain.initial) true None (a_downlink 0) usb0
           = Done s' (LGW_REG_ERROR, p') ∧
    _lgw_write_mode (world s') = LGW_COM_WRITE_MODE_BULK ∧
    ∀ i, 0 <= i < LGW_TOTALREGS → ∃ v, lgw_reg_r usb usb s' i true = (s', (LGW_REG_ERROR, v)).
Proof.
  intros usb. apply (usb_empty_packet_stalls_link sim_tty sim_up sim_mem sim_turns sim_turns (le_n _) usb
    usb0 (λ _, 0)); [apply usb0_ready|done|by left|done|done|apply initial_lut_ok|done].
Defined.

(** ** The sync word *)

(** The positions of the two peaks a demodulator of the data rate looks for. *)
Definition rx_peaks (m : Z → Z) (sf : Z) : Z * Z :=
  if sf =? DR_LORA_SF5 then
    (reg_in m (REG "RX_TOP_FRAME_SYNCH0_SF5_PEAK1_POS_SF5"), reg_in m (REG "RX_TOP_FRAME_SYNCH1_SF5_PEAK2_POS_SF5"))
  else if sf =? DR_LORA_SF6 then
    (reg_in m (REG "RX_TOP_FRAME_SYNCH0_SF6_PEAK1_POS_SF6"), reg_in m (REG "RX_TOP_FRAME_SYNCH1_SF6_PEAK2_POS_SF6"))
  else
    (reg_in m (REG "RX_TOP_FRAME_SYNCH0_SF7TO12_PEAK1_POS_SF7TO12"),
     reg_in m (REG "RX_TOP_FRAME_SYNCH1_SF7TO12_PEAK2_POS_SF7TO12")).
Definition service_peaks (m : Z → Z) : Z * Z :=
  (reg_in m (REG "RX_TOP_LORA_SERVICE_FSK_FRAME_SYNCH0_PEAK1_POS"),
   reg_in m (REG "RX_TOP_LORA_SERVICE_FSK_FRAME_SYNCH1_PEAK2_POS")).
Definition tx_peaks (m : Z → Z) (p : lgw_pkt_tx_s) : Z * Z :=
  (tx_reg m p "TX_TOP_FRAME_SYNCH_0_PEAK1_POS", tx_reg m p "TX_TOP_FRAME_SYNCH_1_PEAK2_POS").

Definition sf56_of (sf : Z) : bool := (sf =? DR_LORA_SF5) || (sf =? DR_LORA_SF6).
Definition peaks (pub : bool) (sf : Z) : Z * Z := if negb pub || sf56_of sf then (2, 4) else (6, 8).
Definition sync_ids : list Z := Eval vm_compute in map fst (syncword_writes true 7).

Lemma syncword_ids pub ssf : map fst (syncword_writes pub ssf) = sync_ids.
Proof.
  unfold syncword_writes. destruct pub, (ssf =? DR_LORA_SF5), (ssf =? DR_LORA_SF6); vm_compute; reflexivity.
Qed.
Lemma sync_ids_ok : forallb writable sync_ids = true.
Proof. vm_compute. reflexivity. Qed.

Lemma syncword_peaks m pub ssf sf :
  rx_peaks (upd_regs m (syncword_writes pub ssf)) sf = peaks pub sf ∧
  service_peaks (upd_regs m (syncword_writes pub ssf)) = peaks pub ssf.
Proof.
  pose proof (syncword_ids pub ssf) as Hids. pose proof sync_ids_ok as Hok.
  unfold rx_peaks, service_peaks, peaks, sf56_of. split.
  - destruct pub, (sf =? DR_LORA_SF5), (sf =? DR_LORA_SF6); cbn [negb orb]; apply pair_equal_spec; split;
      (reg_is Hids Hok; [unfold syncword_writes; cbn [negb orb]; try match goal with |- context [if ?b then _ else _] => destruct b end;
        reflexivity|lia]).
  - destruct pub; cbn [negb orb]; (destruct ((ssf =? DR_LORA_SF5) || (ssf =? DR_LORA_SF6)) eqn:E || idtac); apply pair_equal_spec; split;
      (reg_is Hids Hok; [unfold syncword_writes; cbn [negb orb]; rewrite ?E; reflexivity|lia]).
Qed.

Section SyncWord.
Context {W : Type} (spi usb : driver W) (up : W → Prop) (mem : W → Z → Z).
Context `{!MemBus spi up mem} (Hchunk : 256 <= drv_chunk_size spi).

Lemma rx_peaks_frame m m' c sf :
  is_chain c → (∀ j, 0 <= j < LGW_TOTALREGS → in_chain c j = false → reg_in m' j = reg_in m j) →
  rx_peaks m' sf = rx_peaks m sf ∧ service_peaks m' = service_peaks m.
Proof.
  intros Hc H. unfold rx_peaks, service_peaks.
  assert (Hall : forallb (λ j, (0 <=? j) && (j <? LGW_TOTALREGS) && negb (in_chain c j)) sync_ids = true)
    by (destruct Hc as [-> | ->]; vm_compute; reflexivity).
  assert (Hj : ∀ j, In j sync_ids → reg_in m' j = reg_in m j).
  { intros j Hj. rewrite forallb_forall in Hall. apply Hall in Hj.
    apply andb_true_iff in Hj as [[H1%Z.leb_le H2%Z.ltb_lt]%andb_true_iff H3%negb_true_iff]. by apply H. }
  split; [|apply pair_equal_spec; split; apply Hj; vm_compute; tauto].
  destruct (sf =? DR_LORA_SF5), (sf =? DR_LORA_SF6); apply pair_equal_spec; split; apply Hj;
    vm_compute; tauto.
Qed.

(** A gateway that is configured for public or private networks and sends a
    LoRa packet uses the sync word its own receiver looks for: the registers of
    the demodulators of that data rate hold the same two peaks as those of the
    transmit chain, and so do those of the service demodulator when that is its
    data rate. *)
Theorem sync_word_agrees s rt t fsk pub ssf p :
  com_type s = LGW_COM_SPI → linked spi usb spi up s → lora_packet p → Tx.tx_mode p = TIMESTAMPED →
  is_radio rt = true → lut_ok t →
  ∃ s1 s2 p', sx1302_lora_syncword spi usb pub ssf s = Done s1 LGW_REG_SUCCESS ∧
    sx1302_send spi usb rt (Some t) pub fsk p s1 = Done s2 (LGW_REG_SUCCESS, p') ∧
    let m := mem (world s2) in
    rx_peaks m (Tx.datarate p) = tx_peaks m p ∧ (ssf = Tx.datarate p → service_peaks m = tx_peaks m p).
Proof.
  intros Hty Hs Hp Hmode Hrt Ht. pose proof (spi_bulk_link spi usb up mem Hchunk) as Hlink. cbv zeta in Hlink.
  set (ready := λ (s : com_state W) (m : Z → Z), com_type s = LGW_COM_SPI ∧ direct spi usb spi up mem s m) in Hlink.
  pose proof (@bl_writes _ _ _ _ _ Hlink) as Hw.
  destruct (wr_or_now spi usb ready s (mem (world s)) (syncword_writes pub ssf)) as (s1 & E1 & Hs1);
    [split; [done|]; split; [done|reflexivity]|rewrite syncword_ids; apply sync_ids_ok
    |rewrite <- (length_map fst), syncword_ids; cbn; lia|].
  destruct (lora_send_run spi usb _ _ s1 _ rt t fsk pub p Hs1 Hp Hmode Hrt Ht)
    as (s2 & m' & k & g & power & E2 & Hs2 & _ & _ & Ep & Em).
  exists s1, s2. eexists. split; [exact E1|]. split; [exact E2|]. cbv zeta in Em.
  set (m1 := upd_regs (mem (world s)) (syncword_writes pub ssf)) in *.
  destruct (lora_memory m1 rt g power pub p Hp) as (HR & Hframe & _). cbv zeta in HR, Hframe.
  rewrite <- Em in HR, Hframe. destruct Hs2 as [_ [_ Hm2]].
  assert (Hreg : ∀ j, reg_in (mem (world s2)) j = reg_in m' j) by (intros j; apply reg_in_ext, Hm2).
  assert (Htx : tx_peaks (mem (world s2)) p = peaks pub (Tx.datarate p)).
  { assert (HT : ∀ name v, tx_reg (upd_regs m1 (lora_tx_writes rt g power pub p)) p name = v →
      (0 <=? TX_REG (Tx.rf_chain p) name) && (TX_REG (Tx.rf_chain p) name <? LGW_TOTALREGS) = true →
      tx_reg (mem (world s2)) p name = v).
    { intros name v Hv [H1%Z.leb_le H2%Z.ltb_lt]%andb_true_iff. unfold tx_reg in *. rewrite Hreg.
      rewrite HR; [exact Hv|split; assumption]. }
    destruct (tx_sync_regs m1 rt g power pub p Hp) as (H1 & H2 & _). unfold tx_peaks.
    rewrite (HT _ _ H1), (HT _ _ H2) by (destruct (proj1 (proj2 Hp)) as [-> | ->]; vm_compute; reflexivity).
    unfold peaks, sf56, sf56_of. by destruct (negb pub || _). }
  destruct (rx_peaks_frame m1 (mem (world s2)) (Tx.rf_chain p) (Tx.datarate p)) as [F1 F2];
    [apply Hp|intros j Hj Hn; rewrite Hreg; by apply Hframe|].
  destruct (syncword_peaks (mem (world s)) pub ssf (Tx.datarate p)) as [P1 P2]. fold m1 in P1, P2.
  cbv zeta. rewrite F1, F2, P1, P2, Htx. split; [done|]. by intros ->.
Qed.
End SyncWord.

Lemma sync_word_agrees_witness :
  ∃ s1 s2 p', sx1302_lora_syncword demo_drv demo_drv true 7 demo_state = Done s1 LGW_REG_SUCCESS ∧
    sx1302_send demo_drv demo_drv LGW_RADIO_TYPE_SX1250 (Some Gain.initial) true None (a_downlink 32) s1
    = Done s2 (LGW_REG_SUCCESS, p') ∧
    rx_peaks (ideal_mem (world s2)) 9 = tx_peaks (ideal_mem (world s2)) (a_downlink 32).
Proof.
  destruct (sync_word_agrees demo_drv demo_drv ideal_up ideal_mem blank_chunk demo_state LGW_RADIO_TYPE_SX1250
    Gain.initial None true 7 (a_downlink 32) eq_refl demo_linked a_downlink_ok eq_refl eq_refl initial_lut_ok)
    as (s1 & s2 & p' & E1 & E2 & H & _).
  exists s1, s2, p'. split; [exact E1|]. split; [exact E2|exact H].
Defined.

(** ** The end of an abort *)

Section Abort.
Context {W : Type} (spi usb : driver W).

Definition us_of (t : timeval) : Z := tv_sec t * 1000000 + tv_usec t.
Definition valid_time (t : timeval) : Prop := 0 <= tv_usec t < 1000000.

Lemma timeout_check_spec start now ms :
  valid_time start → valid_time now → 0 <= us_of now - us_of start < 1000 * 2 ^ 32 →
  timeout_check start now ms = if ms <=? (us_of now - us_of start) / 1000 then -1 else 0.
Proof.
  unfold valid_time, us_of, timeout_check, TIMER_SUB. intros H1 H2 H.
  set (ds := tv_sec now - tv_sec start). set (du := tv_usec now - tv_usec start).
  replace (tv_sec now * 1000000 + tv_usec now - (tv_sec start * 1000000 + tv_usec start))
    with (ds * 1000000 + du) in * by lia.
  assert (-1000000 < du < 1000000) by lia. clearbody ds du.
  destruct (Z.ltb_spec du 0); cbn [tv_sec tv_usec];
    (rewrite u32_id; [|Z.to_euclidean_division_equations; lia]).
  - replace ((ds - 1) * 1000 + Z.quot (du + 1000000) 1000) with ((ds * 1000000 + du) / 1000); [done|].
    Z.to_euclidean_division_equations; lia.
  - replace (ds * 1000 + Z.quot du 1000) with ((ds * 1000000 + du) / 1000); [done|].
    Z.to_euclidean_division_equations; lia.
Qed.

(** The status is read whatever the link does. *)
Lemma rd_total i val s :
  0 <= i < LGW_TOTALREGS → ∃ s' st v, rd spi usb i val s = Done s' (st, Some v).
Proof.
  intros Hi. pose proof (the_reg_ok i Hi) as (Ho & Hl & H8 & _). unfold rd.
  erewrite bind_done.
  2: { unfold call, lgw_reg_r, reg_r. cbn [negb]. rewrite (proj2 (Z.leb_gt _ _)), (proj2 (Z.leb_le _ _)) by lia.
       destruct (lgw_com_r spi usb s LGW_SPI_MUX_TARGET_SX1302 (addr (the_reg i))) as [s' [st byte]] eqn:E.
       instantiate (2 := fst (lgw_com_r spi usb s LGW_SPI_MUX_TARGET_SX1302 (addr (the_reg i)))).
       instantiate (1 := let '(_, (st, byte)) := lgw_com_r spi usb s LGW_SPI_MUX_TARGET_SX1302 (addr (the_reg i)) in
                         (status st, Some (reg_field (the_reg i) (default 0 byte)))).
       by rewrite E. }
  destruct (lgw_com_r _ _ _ _ _) as [s' [st byte]]. eexists _, _, _. reflexivity.
Qed.
Lemma tx_status_total c s : is_chain c → ∃ s' v, sx1302_tx_status spi usb c s = Done s' v.
Proof.
  intros Hc. unfold sx1302_tx_status. set (i := TX_REG c _).
  assert (Hi : (0 <=? i) && (i <? LGW_TOTALREGS) = true) by (destruct Hc as [-> | ->]; vm_compute; reflexivity).
  clearbody i. apply andb_true_iff in Hi as [H0%Z.leb_le H1%Z.ltb_lt].
  destruct (rd_total i None s (conj H0 H1)) as (s' & st & v & E). erewrite bind_done by exact E. cbv beta iota.
  destruct (negb (st =? LGW_REG_SUCCESS)); eexists _, _; [reflexivity|]. erewrite bind_done by reflexivity. reflexivity.
Qed.

Lemma abort_loop_ends c start now fuel i n :
  is_chain c → (i <= n)%nat → (n < i + fuel)%nat → timeout_check start (now n) 1000 ≠ 0 →
  ∀ s, ∃ s' r, tx_abort_loop spi usb fuel c start now i s = Done s' r ∧ (r = LGW_REG_SUCCESS ∨ r = LGW_REG_ERROR).
Proof.
  intros Hc. revert i. induction fuel as [|fuel IH]; intros i Hi Hn Ht s; [lia|]. cbn [tx_abort_loop].
  destruct (Z.eqb_spec (timeout_check start (now i) 1000) 0) as [E|E]; cbn [negb].
  - destruct (tx_status_total c s Hc) as (s' & v & Ev). erewrite bind_done by exact Ev.
    destruct (negb (v =? TX_FREE)); [|by exists s', LGW_REG_SUCCESS; auto].
    apply IH; [|lia|done]. destruct (decide (i = n)) as [->|]; [done|lia].
  - exists s, LGW_REG_ERROR. auto.
Qed.

Lemma wr_or_total ws err s : err = 0 ∨ err = -1 →
  ∃ s' r, wr_or spi usb err ws s = Done s' r ∧ (r = 0 ∨ r = -1).
Proof.
  revert err s. induction ws as [|[i v] ws IH]; intros err s He; [by exists s, err|].
  cbn [wr_or]. unfold mbind, eff_bind, wr, call. destruct (lgw_reg_w spi usb s i v) as [s' st] eqn:E.
  apply IH. assert (st = 0 ∨ st = -1) as [-> | ->].
  { unfold lgw_reg_w in E. destruct (LGW_TOTALREGS <=? i); [injection E as <- <-; by right|].
    destruct (rdon (the_reg i)); [injection E as <- <-; by right|].
    destruct (reg_w spi usb s LGW_SPI_MUX_TARGET_SX1302 (the_reg i) v) as [s0 st0]. injection E as <- <-. unfold status. destruct (negb _); auto. }
  - by rewrite Z.lor_0_r.
  - destruct He as [-> | ->]; by right.
Qed.

(** [sx1302_tx_abort] returns whatever the link and the chip do, with
    success or error: when [wait_ms(1)] waits at least a millisecond (and the
    clock does not run 49 days ahead), the loop ends within 1001 turns. *)
Theorem tx_abort_terminates c start now s :
  is_chain c → valid_time start →
  (∀ i : nat, (i <= 1000)%nat → valid_time (now i) ∧ Z.of_nat i * 1000 <= us_of (now i) - us_of start < 1000 * 2 ^ 32) →
  ∃ s' r, sx1302_tx_abort spi usb 1001 c start now s = Done s' r ∧ (r = LGW_REG_SUCCESS ∨ r = LGW_REG_ERROR).
Proof.
  intros Hc Hst Hnow. unfold sx1302_tx_abort.
  destruct (wr_or_total [(TX_REG c "TX_TOP_TX_TRIG_TX_TRIG_IMMEDIATE", 0x00);
    (TX_REG c "TX_TOP_TX_TRIG_TX_TRIG_DELAYED", 0x00); (TX_REG c "TX_TOP_TX_TRIG_TX_TRIG_GPS", 0x00)]
    LGW_REG_SUCCESS s) as (s1 & r & E & Hr); [by left|].
  erewrite bind_done by exact E. destruct Hr as [-> | ->]; cbn [negb Z.eqb LGW_REG_SUCCESS].
  - change (negb (0 =? LGW_REG_SUCCESS)) with false. cbv iota.
    destruct (Hnow 1000%nat (le_n _)) as [Hv [Hlo Hhi]].
    apply (abort_loop_ends c start now 1001 0 1000 Hc); [lia|lia|].
    rewrite timeout_check_spec by (done || lia). rewrite (proj2 (Z.leb_le _ _)); [done|].
    apply Z.div_le_lower_bound; lia.
  - change (negb (-1 =? LGW_REG_SUCCESS)) with true. exists s1, (-1). auto.
Qed.
End Abort.

Lemma tx_abort_terminates_witness :
  ∃ s' r, sx1302_tx_abort demo_drv demo_drv 1001 0 (Timeval 7 999999) (λ i, Timeval (8 + Z.of_nat i) 5) demo_state
          = Done s' r ∧ (r = LGW_REG_SUCCESS ∨ r = LGW_REG_ERROR).
Proof.
  apply tx_abort_terminates; [by left|unfold valid_time; cbn; lia|].
  intros i Hi. unfold valid_time, us_of. cbn [tv_sec tv_usec]. lia.
Defined.
