(* ===== verification/I2c.v ===== *)
(** * The I2C devices ([loragw_i2c.c], [loragw_stts751.c], [loragw_ad5338r.c])

    The gateway of this SDK has neither the temperature sensor nor the DAC of the
    reference design: the I2C functions do nothing and return success, and the
    sensor reports 0 degrees. [i2c_linuxdev_open] does not set the descriptor. *)
From stdpp Require Import base list numbers.
From Stdlib Require Import ZArith Lia.
From S2P Require Import Prelude Binary64.

Open Scope Z_scope.
Open Scope list_scope.

Definition LGW_I2C_SUCCESS : Z := 0.
Definition LGW_I2C_ERROR : Z := -1.

(** The descriptors of the HAL; nothing sets them to another value. *)
Definition ts_fd : Z := -1.
Definition ad_fd : Z := -1.

(** The status and the descriptor after the call. *)
Definition i2c_linuxdev_open (i2c_fd : Z) : Z * Z := (LGW_I2C_SUCCESS, i2c_fd).
Definition i2c_linuxdev_write (i2c_fd device_addr reg_addr data : Z) : Z := LGW_I2C_SUCCESS.
Definition i2c_linuxdev_write_buffer (i2c_fd device_addr : Z) (buffer : list Z) : Z := LGW_I2C_SUCCESS.
Definition i2c_linuxdev_close (i2c_fd : Z) : Z := LGW_I2C_SUCCESS.

Definition stts751_configure (i2c_fd i2c_addr : Z) : Z := LGW_I2C_SUCCESS.
Definition stts751_get_temperature : Z * double := (LGW_I2C_SUCCESS, Dbl 0 0).
Definition I2C_PORT_TEMP_SENSOR : list Z := [0x45].

Definition I2C_PORT_DAC_AD5338R : Z := 0x0C.
Definition ad5338r_write (i2c_fd i2c_addr : Z) (buf : list Z) : Z :=
  if negb (i2c_linuxdev_write_buffer i2c_fd i2c_addr buf =? 0) then LGW_I2C_ERROR else LGW_I2C_SUCCESS.
Definition ad5338r_configure (i2c_fd i2c_addr : Z) : Z :=
  if i2c_fd <=? 0 then LGW_I2C_ERROR
  else if negb (i2c_linuxdev_write i2c_fd i2c_addr 0x69 0x00 =? 0) then LGW_I2C_ERROR
  else if negb (ad5338r_write i2c_fd i2c_addr [0x40; 0x00; 0x00] =? 0) then LGW_I2C_ERROR
  else if negb (ad5338r_write i2c_fd i2c_addr [0x70; 0x00; 0x00] =? 0) then LGW_I2C_ERROR
  else LGW_I2C_SUCCESS.
