(* ===== verification/Sx1261Com.v ===== *)
(** * The link to the SX1261 ([sx1261_com.c], [sx1261_spi.c], [sx1261_usb.c])

    The SX1261 listens before a transmission (LBT) and scans the spectrum. It has
    its own SPI device, or shares the USB link of the SX1302 and the bulk buffer
    of its MCU, with a write mode of its own. [hal_state] is the state of both
    links; [W] is the world behind them. *)
From stdpp Require Import base list numbers.
From Stdlib Require Import ZArith Lia.
From S2P Require Import Prelude Com Reg RegProg Mcu Usb.

Open Scope Z_scope.
Open Scope list_scope.

(** ** State and effects *)

(** The static variables of [sx1261_com.c] and [sx1261_usb.c]. *)
Record sx1261_static := Sx1261Static {
  _sx1261_com_type : lgw_com_type_t; _sx1261_com_target : bool;
  _sx1261_write_mode : lgw_com_write_mode_t; _sx1261_spi_req_nb : Z }.
Definition sx1261_static0 : sx1261_static := Sx1261Static LGW_COM_UNKNOWN false LGW_COM_WRITE_MODE_SINGLE 0.

Record hal_state (W : Type) := Hal { hal_com : com_state W; hal_sx : sx1261_static }.
Arguments Hal {W}.
Arguments hal_com {W}.
Arguments hal_sx {W}.

(** What the functions do to the world besides the accesses to the SX1302: the
    SPI device of the SX1261 ([ioctl] returns its result and the bytes received)
    and the MCU of the USB link (the request buffer is replaced by the answer). *)
Record sx1261_bus (W : Type) := {
  bus_spi_open : W → W * (Z * bool);
  bus_spi_close : W → W * Z;
  bus_ioctl : W → list Z → W * (Z * list Z);
  bus_mcu_spi_write : W → list Z → W * (list Z * Z);
  bus_mcu_spi_store : W → list Z → W * Z;
  bus_mcu_spi_flush : W → W * Z }.
Arguments bus_spi_open {W}.
Arguments bus_spi_close {W}.
Arguments bus_ioctl {W}.
Arguments bus_mcu_spi_write {W}.
Arguments bus_mcu_spi_store {W}.
Arguments bus_mcu_spi_flush {W}.

(** Programs over both links. *)
Abbreviation hprog W := (eff (hal_state W)).

(** A program over the link to the SX1302. *)
Definition on_sx1302 {W A} : prog W A → hprog W A := zoom hal_com (λ s c, Hal c (hal_sx s)).
(** An effect on the world. *)
Definition on_world {W A} (f : W → W * A) : hprog W A := λ s,
  let '(w, a) := f (world (hal_com s)) in Done (Hal (with_world (hal_com s) w) (hal_sx s)) a.
Definition get_sx {W} : hprog W sx1261_static := λ s, Done s (hal_sx s).
Definition put_sx {W} (x : sx1261_static) : hprog W () := λ s, Done (Hal (hal_com s) x) ().

(** ** The functions *)

Definition MCU_SPI_TARGET_SX1261 : Z := 1.

(** The [size] bytes a function reads through its data pointer: [data] are the
    bytes that are set there; to read further is undefined. *)
Definition bytes_of (data : list Z) (size : nat) : outcome (list Z) :=
  if (size <=? length data)%nat then Ret (take size data) else Undef.

Section Sx1261Com.
Context {W : Type} (bus : sx1261_bus W).

(** [sx1261_spi.c]: the pointers have been checked by the caller. *)
Definition sx1261_spi_w (op_code : Z) (data : list Z) (size : nat) : hprog W Z :=
  d ← pure_of (bytes_of data size);
  let out_buf := u8 op_code :: d in
  let command_size := u8 (1 + Z.of_nat size) in
  '(a, _) ← on_world (λ w, bus_ioctl bus w (take (Z.to_nat command_size) out_buf));
  mret (if negb (a =? command_size) then -1 else 0).
(** The second result is the buffer after the call. *)
Definition sx1261_spi_r (op_code : Z) (data : list Z) (size : nat) : hprog W (Z * list Z) :=
  d ← pure_of (bytes_of data size);
  let out_buf := u8 op_code :: d in
  let command_size := u8 (1 + Z.of_nat size) in
  '(a, in_buf) ← on_world (λ w, bus_ioctl bus w (take (Z.to_nat command_size) out_buf));
  if negb (a =? command_size) then mret (-1, data)
  else
    d ← pure_of (bytes_of (drop 1 in_buf) size);
    mret (0, d ++ drop size data).

(** [sx1261_usb.c]. The size of the local buffer is computed in 8 bits: the
    frame must fit. *)
Definition usb_frame (req_nb op_code : Z) (d : list Z) : list Z :=
  let size := Z.of_nat (length d) in
  [req_nb; MCU_SPI_REQ_TYPE_READ_WRITE; MCU_SPI_TARGET_SX1261;
   u8 (Z.shiftr (size + 1) 8); u8 (Z.shiftr (size + 1) 0); u8 op_code] ++ d.
Definition sx1261_usb_w (op_code : Z) (data : list Z) (size : nat) : hprog W Z :=
  if 2 ^ 8 <=? Z.of_nat size + 6 then wrong
  else
    d ← pure_of (bytes_of data size);
    x ← get_sx;
    let in_out_buf := usb_frame (_sx1261_spi_req_nb x) op_code d in
    a ← match _sx1261_write_mode x with
        | LGW_COM_WRITE_MODE_BULK =>
          a ← on_world (λ w, bus_mcu_spi_store bus w in_out_buf);
          _ ← put_sx (Sx1261Static (_sx1261_com_type x) (_sx1261_com_target x) (_sx1261_write_mode x)
                        (u8 (_sx1261_spi_req_nb x + 1)));
          mret a
        | _ => '(_, a) ← on_world (λ w, bus_mcu_spi_write bus w in_out_buf); mret a
        end;
    mret (if negb (a =? 0) then -1 else 0).
Definition sx1261_usb_r (op_code : Z) (data : list Z) (size : nat) : hprog W (Z * list Z) :=
  if 2 ^ 8 <=? Z.of_nat size + 6 then wrong
  else
    d ← pure_of (bytes_of data size);
    x ← get_sx;
    let in_out_buf := usb_frame (_sx1261_spi_req_nb x) op_code d in
    match _sx1261_write_mode x with
    | LGW_COM_WRITE_MODE_BULK => mret (-1, data)
    | _ =>
      '(buf, a) ← on_world (λ w, bus_mcu_spi_write bus w in_out_buf);
      if negb (a =? 0) then mret (-1, data)
      else
        d ← pure_of (bytes_of (drop 6 buf) size);
        mret (0, d ++ drop size data)
    end.
Definition sx1261_usb_set_write_mode (write_mode : lgw_com_write_mode_t) : hprog W Z :=
  match write_mode with
  | LGW_COM_WRITE_MODE_UNKNOWN => mret (-1)
  | _ =>
    x ← get_sx;
    _ ← put_sx (Sx1261Static (_sx1261_com_type x) (_sx1261_com_target x) write_mode (_sx1261_spi_req_nb x));
    mret 0
  end.
Definition sx1261_usb_flush : hprog W Z :=
  x ← get_sx;
  if negb (_sx1261_com_target x) then mret (-1)
  else match _sx1261_write_mode x with
  | LGW_COM_WRITE_MODE_BULK =>
    let single n := Sx1261Static (_sx1261_com_type x) (_sx1261_com_target x) LGW_COM_WRITE_MODE_SINGLE n in
    _ ← put_sx (single (_sx1261_spi_req_nb x));
    if _sx1261_spi_req_nb x =? 0 then mret 0
    else
      a ← on_world (bus_mcu_spi_flush bus);
      _ ← put_sx (single 0);
      mret a
  | _ => mret (-1)
  end.

(** [sx1261_com.c]. *)
Definition sx1261_com_open (com_type : lgw_com_type_t) : hprog W Z :=
  x ← get_sx;
  let set target := put_sx (Sx1261Static com_type target (_sx1261_write_mode x) (_sx1261_spi_req_nb x)) in
  match com_type with
  | LGW_COM_SPI =>
    '(spi_stat, target) ← on_world (bus_spi_open bus);
    _ ← set (if (target : bool) then true else _sx1261_com_target x);
    mret (if negb (spi_stat =? 0) then LGW_COM_ERROR else LGW_COM_SUCCESS)
  | LGW_COM_USB =>
    target ← (λ s, Done s (com_target (hal_com s)));
    _ ← set target;
    mret LGW_COM_SUCCESS
  | LGW_COM_UNKNOWN => _ ← set (_sx1261_com_target x); mret LGW_COM_ERROR
  end.
Definition sx1261_com_close : hprog W Z :=
  x ← get_sx;
  let closed := Sx1261Static LGW_COM_UNKNOWN false (_sx1261_write_mode x) (_sx1261_spi_req_nb x) in
  match _sx1261_com_type x with
  | LGW_COM_SPI =>
    spi_stat ← on_world (bus_spi_close bus);
    if negb (spi_stat =? 0) then mret LGW_COM_ERROR else _ ← put_sx closed; mret LGW_COM_SUCCESS
  | LGW_COM_USB => _ ← put_sx closed; mret LGW_COM_SUCCESS
  | LGW_COM_UNKNOWN => mret LGW_COM_ERROR
  end.
Definition sx1261_com_w (op_code : Z) (data : list Z) (size : nat) : hprog W Z :=
  x ← get_sx;
  if negb (_sx1261_com_target x) then mret (-1)
  else match _sx1261_com_type x with
  | LGW_COM_SPI => sx1261_spi_w op_code data size
  | LGW_COM_USB => sx1261_usb_w op_code data size
  | LGW_COM_UNKNOWN => mret LGW_COM_ERROR
  end.
Definition sx1261_com_r (op_code : Z) (data : list Z) (size : nat) : hprog W (Z * list Z) :=
  x ← get_sx;
  if negb (_sx1261_com_target x) then mret (-1, data)
  else match _sx1261_com_type x with
  | LGW_COM_SPI => sx1261_spi_r op_code data size
  | LGW_COM_USB => sx1261_usb_r op_code data size
  | LGW_COM_UNKNOWN => mret (LGW_COM_ERROR, data)
  end.
Definition sx1261_com_set_write_mode (write_mode : lgw_com_write_mode_t) : hprog W Z :=
  x ← get_sx;
  match _sx1261_com_type x with
  | LGW_COM_SPI => mret LGW_COM_SUCCESS
  | LGW_COM_USB => sx1261_usb_set_write_mode write_mode
  | LGW_COM_UNKNOWN => mret LGW_COM_ERROR
  end.
Definition sx1261_com_flush : hprog W Z :=
  x ← get_sx;
  match _sx1261_com_type x with
  | LGW_COM_SPI => mret LGW_COM_SUCCESS
  | LGW_COM_USB => sx1261_usb_flush
  | LGW_COM_UNKNOWN => mret LGW_COM_ERROR
  end.
End Sx1261Com.

(** The USB link: the requests go through the MCU the SX1302 is behind. The
    SPI device is not there. *)
Definition usb_bus {T} (tt : tty T) (fuel : nat) : sx1261_bus (usb_state T) := {|
  bus_spi_open := λ w, (w, (-1, false)); bus_spi_close := λ w, (w, -1);
  bus_ioctl := λ w _, (w, (-1, []));
  bus_mcu_spi_write := λ w buf, run (mcu_spi_write tt fuel buf (Z.of_nat (length buf))) (buf, -1) w;
  bus_mcu_spi_store := λ w buf, run (mcu_spi_store buf) (-1) w;
  bus_mcu_spi_flush := run (mcu_spi_flush tt fuel) (-1) |}.
