(* ===== verification/Sx1261.v ===== *)
(** * The SX1261 ([libloragw/src/loragw_sx1261.c])

    Commands to the SX1261: patch, calibration, listen before talk and spectral
    scan. [buff] of each function is the list of the bytes it has set, so that
    reading further is undefined. The waits are left out. *)
From stdpp Require Import base list numbers.
From Stdlib Require Import ZArith Lia.
From S2P Require Import Prelude HalTypes Com Reg RegProg RxBuffer HalConf Sx1261Com.

Open Scope Z_scope.
Open Scope list_scope.

(** ** [sx1261_defs.h] *)

Definition SX1261_CALIBRATE_IMAGE : Z := 0x98.
Definition SX1261_READ_REGISTER : Z := 0x1D.
Definition SX1261_WRITE_REGISTER : Z := 0x0D.
Definition SX1261_SET_MODULATION_PARAMS : Z := 0x8B.
Definition SX1261_SET_PACKET_PARAMS : Z := 0x8C.
Definition SX1261_SET_PACKET_TYPE : Z := 0x8A.
Definition SX1261_SET_RF_FREQUENCY : Z := 0x86.
Definition SX1261_SET_BUFFER_BASE_ADDRESS : Z := 0x8F.
Definition SX1261_SET_STANDBY : Z := 0x80.
Definition SX1261_SET_RX : Z := 0x82.
Definition SX1261_GET_STATUS : Z := 0xC0.
Definition SX1261_SET_FS : Z := 0xC1.
Definition SX1261_GET_DEVICE_ERRORS : Z := 0x17.
Definition SX1261_STDBY_RC : Z := 0x00.
Definition SX1261_STATUS_MODE_STBY_RC : Z := 0x20.
Definition SX1261_STATUS_READY : Z := 0x02.
Definition SX1261_FREQ_TO_REG (f : Z) : Z := u32 (f * Z.shiftl 1 25 / 32000000).

(** [loragw_hal.h] *)
Inductive lgw_spectral_scan_status_t :=
  | LGW_SPECTRAL_SCAN_STATUS_NONE
  | LGW_SPECTRAL_SCAN_STATUS_ON_GOING
  | LGW_SPECTRAL_SCAN_STATUS_ABORTED
  | LGW_SPECTRAL_SCAN_STATUS_COMPLETED
  | LGW_SPECTRAL_SCAN_STATUS_UNKNOWN.

Definition SX1261_PRAM_VERSION_FULL_SIZE : nat := 16.

Section Sx1261.
Context {W : Type} (bus : sx1261_bus W).

Definition sx1261_connect (com_type : lgw_com_type_t) (com_path : bool) : hprog W Z :=
  match com_type, com_path with
  | LGW_COM_SPI, false => mret LGW_REG_ERROR
  | _, _ => sx1261_com_open bus com_type
  end.
Definition sx1261_disconnect : hprog W Z := sx1261_com_close bus.

Definition sx1261_reg_w (op_code : Z) (data : list Z) (size : nat) : hprog W Z :=
  com_stat ← sx1261_com_w bus op_code data size;
  mret (if negb (com_stat =? LGW_COM_SUCCESS) then LGW_REG_ERROR else LGW_REG_SUCCESS).
Definition sx1261_reg_r (op_code : Z) (data : list Z) (size : nat) : hprog W (Z * list Z) :=
  '(com_stat, data) ← sx1261_com_r bus op_code data size;
  mret (if negb (com_stat =? LGW_COM_SUCCESS) then LGW_REG_ERROR else LGW_REG_SUCCESS, data).

(** [err = sx1261_reg_w(op, buff, size); CHECK_ERR(err)] for each command. *)
Fixpoint commands (l : list (Z * list Z)) : hprog W () :=
  match l with
  | [] => mret ()
  | (op, buff) :: l =>
    err ← sx1261_reg_w op buff (length buff);
    _ ← CHECK_ERR err;
    commands l
  end.

(** [strncpy] of [n] characters from [src], and the buffer after it. *)
Definition strncpy_into (dst src : list Z) (n : nat) : outcome (list Z) :=
  if (length dst <? n)%nat then Undef
  else
    let s := take n src in
    let s := take (match list_find (λ c, c = 0) s with Some (i, _) => i | None => n end) s in
    Ret (s ++ replicate (n - length s) 0 ++ drop n dst).

(** [strncmp] of [n] characters finds no difference. *)
Fixpoint strncmp_eq (n : nat) (a b : list Z) : bool :=
  match n with
  | O => true
  | S n =>
    let x := znth 0 a 0 in
    (x =? znth 0 b 0) && ((x =? 0) || strncmp_eq n (drop 1 a) (drop 1 b))
  end.

(** [version_str] is the buffer of the caller. *)
Definition sx1261_pram_get_version (version_str : list Z) : hprog W (Z * list Z) :=
  let buff := [0x03; 0x20; 0x00] ++ replicate SX1261_PRAM_VERSION_FULL_SIZE 0 in
  '(x, buff) ← sx1261_reg_r SX1261_READ_REGISTER buff 18;
  if negb (x =? LGW_REG_SUCCESS) then mret (x, version_str)
  else
    buff ← pure_of (buf_set buff 18 0);
    version_str ← pure_of (strncpy_into version_str (drop 3 buff) 16);
    version_str ← pure_of (buf_set version_str 16 0);
    mret (LGW_REG_SUCCESS, version_str).

(** The result of the read is not looked at. *)
Definition sx1261_get_status : hprog W Z :=
  '(_, buff) ← sx1261_reg_r SX1261_GET_STATUS [0x00] 1;
  mret (Z.land (znth 0 buff 0) 0x7E).
Definition sx1261_check_status (expected_status : Z) : hprog W Z :=
  status ← sx1261_get_status;
  mret (if negb (status =? expected_status) then LGW_REG_ERROR else LGW_REG_SUCCESS).

(** The words of the patch, each to its address. *)
Definition pram_commands (pram : list Z) : list (Z * list Z) :=
  imap (λ (i : nat) val,
          let addr := u32 (0x8000 + 4 * Z.of_nat i) in
          (SX1261_WRITE_REGISTER,
           [Z.land (Z.shiftr addr 8) 0xFF; Z.land (Z.shiftr addr 0) 0xFF;
            Z.land (Z.shiftr val 24) 0xFF; Z.land (Z.shiftr val 16) 0xFF;
            Z.land (Z.shiftr val 8) 0xFF; Z.land (Z.shiftr val 0) 0xFF])) pram.

(** [pram] and [version_string] are the tables of [sx1261_pram.var]; [junk] is
    what the local array [pram_version] holds. *)
Definition sx1261_load_pram (pram version_string junk : list Z) : hprog W Z := body (
  _ ← sx1261_reg_w SX1261_SET_STANDBY [SX1261_STDBY_RC] 1;
  err ← sx1261_check_status (Z.lor SX1261_STATUS_MODE_STBY_RC SX1261_STATUS_READY);
  if negb (err =? LGW_REG_SUCCESS) then mret (-1)
  else
    '(err, pram_version) ← sx1261_pram_get_version junk;
    if negb (err =? LGW_REG_SUCCESS) then mret (-1)
    else
      _ ← commands [(SX1261_WRITE_REGISTER, [0x06; 0x10; 0x10])];
      _ ← commands (pram_commands pram);
      _ ← commands [(SX1261_WRITE_REGISTER, [0x06; 0x10; 0x00])];
      _ ← commands [(0xd9, [])];
      '(err, pram_version) ← sx1261_pram_get_version pram_version;
      if negb (err =? LGW_REG_SUCCESS) then mret (-1)
      else if negb (strncmp_eq 4 (drop 11 pram_version) version_string) then mret (-1)
      else mret 0).

(** The bytes of the image calibration of a band. *)
Definition calibration_band (freq_hz : Z) : option (list Z) :=
  if (430000000 <? freq_hz) && (freq_hz <? 440000000) then Some [0x6B; 0x6F]
  else if (470000000 <? freq_hz) && (freq_hz <? 510000000) then Some [0x75; 0x81]
  else if (779000000 <? freq_hz) && (freq_hz <? 787000000) then Some [0xC1; 0xC5]
  else if (863000000 <? freq_hz) && (freq_hz <? 870000000) then Some [0xD7; 0xDB]
  else if (902000000 <? freq_hz) && (freq_hz <? 928000000) then Some [0xE1; 0xE9]
  else None.
Definition sx1261_calibrate (freq_hz : Z) : hprog W Z := body (
  '(err, _) ← sx1261_reg_r SX1261_GET_STATUS [0x00] 1;
  _ ← CHECK_ERR err;
  match calibration_band freq_hz with
  | None => mret LGW_REG_ERROR
  | Some band =>
    _ ← commands [(SX1261_CALIBRATE_IMAGE, band)];
    '(err, buff) ← sx1261_reg_r SX1261_GET_DEVICE_ERRORS [0x00; 0x00; 0x00] 3;
    _ ← CHECK_ERR err;
    mret (if negb (TAKE_N_BITS_FROM (znth 0 buff 2) 4 1 =? 0) then LGW_REG_ERROR else err)
  end).

Definition sx1261_setup : hprog W Z := body (
  _ ← commands [(SX1261_SET_STANDBY, [SX1261_STDBY_RC])];
  err ← sx1261_check_status (Z.lor SX1261_STATUS_MODE_STBY_RC SX1261_STATUS_READY);
  _ ← CHECK_ERR err;
  _ ← commands [(SX1261_SET_BUFFER_BASE_ADDRESS, [0x80; 0x80]); (SX1261_WRITE_REGISTER, [0x08; 0xAC; 0xCB])];
  mret LGW_REG_SUCCESS).

Definition sx1261_spectral_scan_abort : hprog W Z := body (
  _ ← commands [(SX1261_WRITE_REGISTER, [0x08; 0x9B; 0x00])];
  mret LGW_REG_SUCCESS).

(** The receiver bandwidth of a LoRa bandwidth. *)
Definition fsk_bw_reg (bandwidth : Z) : option Z :=
  if bandwidth =? BW_125KHZ then Some 0x0A else if bandwidth =? BW_250KHZ then Some 0x09 else None.
Definition sx1261_set_rx_params (freq_hz bandwidth : Z) : hprog W Z := body (
  err ← sx1261_com_set_write_mode LGW_COM_WRITE_MODE_BULK;
  _ ← CHECK_ERR err;
  err ← sx1261_spectral_scan_abort;
  _ ← CHECK_ERR err;
  let freq_reg := s32 (SX1261_FREQ_TO_REG freq_hz) in
  _ ← commands
    [(SX1261_SET_FS, []);
     (SX1261_SET_RF_FREQUENCY,
      [u8 (Z.shiftr freq_reg 24); u8 (Z.shiftr freq_reg 16); u8 (Z.shiftr freq_reg 8); u8 (Z.shiftr freq_reg 0)]);
     (SX1261_WRITE_REGISTER, [0x08; 0x9B; Z.shiftl 0x05 2]);
     (SX1261_SET_PACKET_TYPE, [0x00])];
  match fsk_bw_reg bandwidth with
  | None => mret LGW_REG_ERROR
  | Some bw =>
    _ ← commands
      [(SX1261_SET_MODULATION_PARAMS, [0; 0x14; 0x00; 0x00; bw; 0x02; 0xE9; 0x0F]);
       (SX1261_SET_PACKET_PARAMS, [0x00; 0x20; 0x05; 0x20; 0x00; 0x01; 0xff; 0x00; 0x00]);
       (SX1261_SET_RX, [0xFF; 0xFF; 0xFF])];
    err ← sx1261_com_flush bus;
    if negb (err =? 0) then mret (-1)
    else
      err ← sx1261_com_set_write_mode LGW_COM_WRITE_MODE_SINGLE;
      _ ← CHECK_ERR err;
      mret LGW_REG_SUCCESS
  end).

(** [scan_time_us] is the value of the enumeration. *)
Definition nb_scan_of (scan_time_us : Z) : option Z :=
  if scan_time_us =? LGW_LBT_SCAN_TIME_128_US then Some 24
  else if scan_time_us =? LGW_LBT_SCAN_TIME_5000_US then Some 715 else None.
Definition sx1261_lbt_start (scan_time_us threshold_dbm : Z) : hprog W Z := body (
  let threshold_reg := u8 (-2 * threshold_dbm) in
  match nb_scan_of scan_time_us with
  | None => mret (-1)
  | Some nb_scan =>
    _ ← commands
      [(0x9a, [11; Z.land (Z.shiftr nb_scan 8) 0xFF; Z.land (Z.shiftr nb_scan 0) 0xFF; threshold_reg; 1])];
    mret LGW_REG_SUCCESS
  end).
Definition sx1261_lbt_stop : hprog W Z := body (
  _ ← commands [(SX1261_WRITE_REGISTER, [0x08; 0x9B; 0x00]); (SX1261_SET_FS, [])];
  mret LGW_REG_SUCCESS).

(** Three bytes are set, of the four of the array, and nine are sent. *)
Definition sx1261_spectral_scan_start (nb_scan : Z) : hprog W Z := body (
  let buff := [Z.land (Z.shiftr nb_scan 8) 0xFF; Z.land (Z.shiftr nb_scan 0) 0xFF; 11] in
  err ← sx1261_reg_w 0x9b buff 9;
  _ ← CHECK_ERR err;
  mret LGW_REG_SUCCESS).

(** The results: the level and the number of points of each of the 33 steps. *)
Definition scan_result (buff : list Z) (i : Z) : Z :=
  u16 (Z.lor (Z.shiftl (znth 0 buff (3 + i * 2)) 8) (znth 0 buff (3 + i * 2 + 1))).
Definition sx1261_spectral_scan_get_results (rssi_offset : Z) : hprog W (Z * option (list (Z * Z))) := λ s,
  let p : hprog W (Z * option (list (Z * Z))) :=
    '(err, buff) ← sx1261_reg_r SX1261_READ_REGISTER ([0x04; 0x01; 0x00] ++ replicate 66 0) (66 + 3);
    _ ← CHECK_ERR err;
    let above := map (λ i, (s16 (- i * 4 + rssi_offset), scan_result buff i)) (seqZ 0 32) in
    let below := (s16 (-31 * 4 + rssi_offset),
                  u16 (Z.shiftl (znth 0 buff (3 + 32 * 2)) 8 + znth 0 buff (3 + 32 * 2 + 1))) in
    mret (LGW_REG_SUCCESS, Some (above ++ [below])) in
  match p s with Failed s => Done s (LGW_REG_ERROR, None) | r => r end.

Definition sx1261_spectral_scan_status : hprog W (Z * option lgw_spectral_scan_status_t) := λ s,
  let p : hprog W (Z * option lgw_spectral_scan_status_t) :=
    '(err, buff) ← sx1261_reg_r SX1261_READ_REGISTER [0x07; 0xCD; 0x00; 0x00] 4;
    _ ← CHECK_ERR err;
    let v := znth 0 buff 3 in
    mret (LGW_REG_SUCCESS, Some
      (if v =? 0x00 then LGW_SPECTRAL_SCAN_STATUS_NONE
       else if v =? 0x0F then LGW_SPECTRAL_SCAN_STATUS_ON_GOING
       else if v =? 0xF0 then LGW_SPECTRAL_SCAN_STATUS_ABORTED
       else if v =? 0xFF then LGW_SPECTRAL_SCAN_STATUS_COMPLETED
       else LGW_SPECTRAL_SCAN_STATUS_UNKNOWN)) in
  match p s with Failed s => Done s (LGW_REG_ERROR, None) | r => r end.
End Sx1261.
