(* ===== verification/HalTx.v ===== *)
(** * Sending through the HAL ([loragw_hal.c], [loragw_lbt.c])

    [lgw_send] checks a packet, listens before it talks when that is configured,
    hands the packet to the SX1302 and asks the AGC firmware whether the packet
    was let through; [lgw_status] and [lgw_abort_tx] follow and stop it; the
    spectral scan runs on the same SX1261. *)
From stdpp Require Import base list numbers.
From Stdlib Require Import ZArith Lia.
From S2P Require Import Prelude Binary64 HalTypes TimeOnAir Com Reg RegIds RegProg RxBuffer.
From S2P Require Import I2c HalConf Sx1302Conf Sx1302Mcu Sx1302Tx Sx1261Com Sx1261.

Open Scope Z_scope.
Open Scope list_scope.

(** The times [gettimeofday] gives a loop with a time limit: when it is started
    and at its [i]-th check. *)
Record clock := Clock { clk_start : timeval; clk_now : nat → timeval }.

(** ** [loragw_lbt.c] *)

Definition is_equal_freq (a b : Z) : bool := Z.abs (a - b) <=? 10000.

(** The loop over the channels from [i] on, [n] of them. *)
Fixpoint lbt_channel_loop (n : nat) (i : Z) (channels : list Lbt.lgw_conf_chan_lbt_s) (freq_hz bandwidth : Z)
  : outcome Z :=
  match n with
  | O => Ret (-1)
  | S n =>
    c ← buf_get channels i;
    if is_equal_freq freq_hz (Lbt.freq_hz c) && (bandwidth =? Lbt.bandwidth c) then Ret i
    else lbt_channel_loop n (i + 1) channels freq_hz bandwidth
  end.
Definition is_lbt_channel (lbt_context : Lbt.lgw_conf_lbt_s) (freq_hz bandwidth : Z) : outcome Z :=
  lbt_channel_loop (Z.to_nat (Lbt.nb_channel lbt_context)) 0 (Lbt.channels lbt_context) freq_hz bandwidth.

Section HalTx.
Context {W : Type} (spi usb : driver W) (bus : sx1261_bus W).

(** [sync_word_size] is the field of [CONTEXT_FSK] that [lgw_time_on_air] reads. *)
Definition lgw_lbt_start (sync_word_size : Z) (sx1261_context : Sx1261.lgw_conf_sx1261_s) (pkt : lgw_pkt_tx_s)
  : hprog W Z :=
  let lbt := Sx1261.lbt_conf sx1261_context in
  lbt_channel_selected ← pure_of (is_lbt_channel lbt (Tx.freq_hz pkt) (Tx.bandwidth pkt));
  if lbt_channel_selected =? -1 then mret (-1)
  else
    c ← pure_of (buf_get (Lbt.channels lbt) lbt_channel_selected);
    if Lbt.transmit_time_ms c * 1000 <=? 1500 then mret (-1)
    else
      toa_ms ← pure_of (lgw_time_on_air sync_word_size (Some pkt));
      if u32 (Lbt.transmit_time_ms c * 1000 - 1500) <? u32 (toa_ms * 1000) then mret (-1)
      else
        err ← sx1261_set_rx_params bus (Tx.freq_hz pkt) (Tx.bandwidth pkt);
        if negb (err =? 0) then mret (-1)
        else
          err ← sx1261_lbt_start bus (Lbt.scan_time_us c)
                  (s8 (Lbt.rssi_target lbt + Sx1261.rssi_offset sx1261_context));
          mret (if negb (err =? 0) then -1 else 0).

(** Polls the AGC status until [stop] holds of it. *)
Inductive wait_result := WaitDone (status : Z) | WaitTimeout | WaitError.
Fixpoint lbt_wait (fuel : nat) (stop : Z → bool) (clk : clock) (i : nat) : prog W wait_result :=
  match fuel with
  | O => spin
  | S fuel =>
    if negb (timeout_check (clk_start clk) (clk_now clk i) 500 =? 0) then mret WaitTimeout
    else
      '(err, status) ← sx1302_agc_status spi usb None;
      if negb (err =? 0) then mret WaitError
      else
        status ← known status;
        if stop status then mret (WaitDone status) else lbt_wait fuel stop clk (S i)
  end.

(** The second result is what is stored through [tx_ok]. [clk1] and [clk2] are
    the times of the two loops. *)
Definition lgw_lbt_tx_status (fuel : nat) (clk1 clk2 : clock) (rf_chain : Z) : prog W (Z * option bool) :=
  r ← lbt_wait fuel (λ status, negb (Z.land status (Z.shiftl 1 rf_chain) =? 0x00)) clk1 0;
  match r with
  | WaitError => mret (-1, None)
  | _ =>
    let tx_ok :=
      match r with
      | WaitDone status => Some (TAKE_N_BITS_FROM status (if rf_chain =? 0 then 6 else 7) 1 =? 0)
      | _ => None
      end in
    _ ← sx1302_agc_mailbox_write spi usb 0 0xFF;
    r2 ← lbt_wait fuel (λ status, status =? 0x00) clk2 0;
    match r2 with
    | WaitError => mret (-1, tx_ok)
    | _ =>
      _ ← sx1302_agc_mailbox_write spi usb 0 0x00;
      mret (match r, r2 with WaitDone _, WaitDone _ => 0 | _, _ => -1 end, tx_ok)
    end
  end.

Definition lgw_lbt_stop : hprog W Z :=
  err ← sx1261_lbt_stop bus;
  mret (if negb (err =? 0) then -1 else 0).

(** ** [loragw_hal.c] *)

(** The checks of [lgw_send]: true when the packet passes. *)
Definition send_checks (pkt : lgw_pkt_tx_s) : bool :=
  IS_TX_MODE (Tx.tx_mode pkt) &&
  (if Tx.modulation pkt =? MOD_LORA then
     IS_LORA_BW (Tx.bandwidth pkt) && IS_LORA_DR (Tx.datarate pkt) && IS_LORA_CR (Tx.coderate pkt) &&
     negb (255 <? Tx.size pkt)
   else if Tx.modulation pkt =? MOD_FSK then
     negb ((Tx.f_dev pkt <? 1) || (200 <? Tx.f_dev pkt)) && IS_FSK_DR (Tx.datarate pkt) &&
     negb (255 <? Tx.size pkt)
   else Tx.modulation pkt =? MOD_CW).

(** [VOLTAGE2HEX_H(2.51)] and [VOLTAGE2HEX_L(2.51)] are 0x80. *)
Definition volt_val : list Z := [0x39; 0x80; 0x80].

(** The packet is changed by [sx1302_send]; the second result is the packet
    after the call. [clk1], [clk2] and [clk3] are the times of the loops. *)
Definition lgw_send (fuel : nat) (clk1 clk2 clk3 : clock) (c : lgw_context_s) (pkt_data : option lgw_pkt_tx_s)
  : hprog W (Z * option lgw_pkt_tx_s) :=
  if negb (is_started c) then mret (LGW_HAL_ERROR, pkt_data)
  else match pkt_data with
  | None => mret (LGW_HAL_ERROR, None)
  | Some pkt =>
    let error := mret (LGW_HAL_ERROR, Some pkt) in
    if LGW_RF_CHAIN_NB <=? Tx.rf_chain pkt then error
    else
      rf ← pure_of (buf_get (rf_chain_cfg c) (Tx.rf_chain pkt));
      if negb (Rxrf.tx_enable rf) then error
      else if negb (Rxrf.enable rf) then error
      else if negb (send_checks pkt) then error
      else
        let lbt_enable := Lbt.enable (Sx1261.lbt_conf (sx1261_cfg c)) in
        let dac := if Board.full_duplex (board_cfg c) then ad5338r_write ad_fd I2C_PORT_DAC_AD5338R volt_val
                   else LGW_I2C_SUCCESS in
        if negb (dac =? LGW_I2C_SUCCESS) then error
        else
          err ← (if lbt_enable then lgw_lbt_start (Rxif.sync_word_size (fsk_cfg c)) (sx1261_cfg c) pkt
                 else mret 0);
          if negb (err =? 0) then error
          else
            lut ← pure_of (buf_get (tx_gain_lut c) (Tx.rf_chain pkt));
            '(err, pkt) ← on_sx1302 (sx1302_send spi usb (Rxrf.type rf) (Some lut)
                             (Board.lorawan_public (board_cfg c)) (Some (fsk_cfg c)) pkt);
            if negb (err =? LGW_REG_SUCCESS) then
              _ ← (if lbt_enable then lgw_lbt_stop else mret 0);
              mret (LGW_HAL_ERROR, Some pkt)
            else if negb lbt_enable then mret (LGW_HAL_SUCCESS, Some pkt)
            else
              '(err, lbt_tx_allowed) ← on_sx1302 (lgw_lbt_tx_status fuel clk1 clk2 (Tx.rf_chain pkt));
              if negb (err =? 0) then
                _ ← on_sx1302 (sx1302_tx_abort spi usb fuel (Tx.rf_chain pkt) (clk_start clk3) (clk_now clk3));
                _ ← lgw_lbt_stop;
                mret (LGW_HAL_ERROR, Some pkt)
              else
                err ← lgw_lbt_stop;
                if negb (err =? 0) then mret (LGW_HAL_ERROR, Some pkt)
                else match lbt_tx_allowed with
                | Some true => mret (LGW_HAL_SUCCESS, Some pkt)
                | Some false => mret (LGW_LBT_NOT_ALLOWED, Some pkt)
                | None => wrong
                end
  end.

(** [code] is false for a NULL pointer; the second result is what is stored. *)
Definition lgw_status (c : lgw_context_s) (rf_chain select : Z) (code : bool) : prog W (Z * option Z) :=
  if negb code then mret (LGW_HAL_ERROR, None)
  else if LGW_RF_CHAIN_NB <=? rf_chain then mret (LGW_HAL_ERROR, None)
  else if select =? TX_STATUS then
    v ← (if negb (is_started c) then mret TX_OFF else sx1302_tx_status spi usb rf_chain);
    mret (LGW_HAL_SUCCESS, Some v)
  else if select =? RX_STATUS then
    v ← (if negb (is_started c) then mret RX_OFF else sx1302_rx_status rf_chain);
    mret (LGW_HAL_SUCCESS, Some v)
  else mret (LGW_HAL_ERROR, None).

Definition lgw_abort_tx (fuel : nat) (clk : clock) (rf_chain : Z) : prog W Z :=
  if LGW_RF_CHAIN_NB <=? rf_chain then mret LGW_HAL_ERROR
  else sx1302_tx_abort spi usb fuel rf_chain (clk_start clk) (clk_now clk).

Definition lgw_get_eui (eui : bool) : prog W (Z * option Z) :=
  if negb eui then mret (LGW_HAL_ERROR, None)
  else λ s, match sx1302_get_eui spi usb s with
            | Done s v => Done s (LGW_HAL_SUCCESS, Some v)
            | Failed s => Done s (LGW_HAL_ERROR, None)
            | Wrong => Wrong
            | Spin => Spin
            end.

Definition lgw_spectral_scan_start (c : lgw_context_s) (freq_hz nb_scan : Z) : hprog W Z :=
  if negb (Sx1261.enable (sx1261_cfg c)) then mret LGW_HAL_ERROR
  else
    err ← sx1261_set_rx_params bus freq_hz BW_125KHZ;
    if negb (err =? LGW_REG_SUCCESS) then mret LGW_HAL_ERROR
    else
      err ← sx1261_spectral_scan_start bus nb_scan;
      mret (if negb (err =? LGW_REG_SUCCESS) then LGW_HAL_ERROR else LGW_HAL_SUCCESS).
Definition lgw_spectral_scan_get_status : hprog W (Z * option lgw_spectral_scan_status_t) :=
  sx1261_spectral_scan_status bus.
Definition lgw_spectral_scan_get_results (c : lgw_context_s) : hprog W (Z * option (list (Z * Z))) :=
  sx1261_spectral_scan_get_results bus (Sx1261.rssi_offset (sx1261_cfg c)).
Definition lgw_spectral_scan_abort : hprog W Z := sx1261_spectral_scan_abort bus.
End HalTx.
