(* ===== verification/HalTxProps.v ===== *)
(** * Properties of sending through the HAL

    What [lgw_send] does with a packet it accepts and with one it refuses, that
    with listen before talk a success means the firmware has let the packet
    through and the SX1261 is stopped on every path, and two accesses of the
    SX1261 functions that leave their buffers. *)
From stdpp Require Import base list numbers strings relations.
From Stdlib Require Import ZArith Lia.
From S2P Require Import Prelude Binary64 HalTypes TimeOnAir Com Spi Mcu Usb UsbProps RegTable.
From S2P Require Import RegIds Reg RegFacts RegProps RegProg RegView RxBuffer HalConf.
From S2P Require Import HalConfProps Sx1302Conf Sx1302Mcu Sx1302ConfProps Sx1302Tx Sx1302TxProps.
From S2P Require Import Sx1302TxLinks I2c Sx1261Com Sx1261 HalTx.

Open Scope Z_scope.
Open Scope list_scope.

(** ** Accepted and refused packets *)

(** The context after [lgw_start]. *)
Definition started (c : lgw_context_s) : lgw_context_s :=
  Context true (board_cfg c) (rf_chain_cfg c) (if_chain_cfg c) (multisf_datarate c) (lora_service_cfg c)
    (fsk_cfg c) (tx_gain_lut c) (ftime_cfg c) (sx1261_cfg c) (debug_cfg c).

(** The request is one [lgw_send] takes on: an existing packet, an existing,
    enabled chain that can transmit, supported parameters. *)
Definition accepted (c : lgw_context_s) (pkt : option lgw_pkt_tx_s) : bool :=
  is_started c &&
  match pkt with
  | None => false
  | Some p =>
    match (if 2 <=? Tx.rf_chain p then None else rf_chain_cfg c !! Z.to_nat (Tx.rf_chain p)) with
    | None => false
    | Some rf => Rxrf.tx_enable rf && Rxrf.enable rf && send_checks p
    end
  end.

(** The DAC of full duplex boards is never in the way. *)
Lemma dac_written (b : bool) :
  negb ((if b then ad5338r_write ad_fd I2C_PORT_DAC_AD5338R volt_val else LGW_I2C_SUCCESS) =? LGW_I2C_SUCCESS) = false.
Proof. by destruct b. Qed.

Section Send.
Context {W : Type} (spi usb : driver W) (bus : sx1261_bus W).

Lemma lgw_send_refuses fuel k1 k2 k3 c pkt h :
  accepted c pkt = false → length (rf_chain_cfg c) = 2%nat → (∀ p, pkt = Some p → is_u8 (Tx.rf_chain p)) →
  lgw_send spi usb bus fuel k1 k2 k3 c pkt h = Done h (LGW_HAL_ERROR, pkt).
Proof.
  unfold accepted, lgw_send. intros Ha Hl Hp. destruct (is_started c); [|done]. cbn [andb negb] in *.
  destruct pkt as [p|]; [|done]. specialize (Hp p eq_refl). change LGW_RF_CHAIN_NB with 2.
  destruct (Z.leb_spec 2 (Tx.rf_chain p)) as [H2|H2]; [done|].
  destruct (lookup_lt_is_Some_2 (rf_chain_cfg c) (Z.to_nat (Tx.rf_chain p))) as [rf Erf]; [lia|].
  rewrite Erf in Ha. pose proof (buf_get_nat _ _ _ Erf) as E. rewrite Z2Nat.id in E by lia. rewrite E.
  cbn [pure_of]. erewrite bind_done by reflexivity.
  destruct (Rxrf.tx_enable rf); [|done]. destruct (Rxrf.enable rf); [|done]. cbn [andb negb] in *.
  by rewrite Ha.
Qed.

(** Up to the call of [sx1302_send], without listen before talk. *)
Lemma lgw_send_plain fuel k1 k2 k3 c p rf lut h s' p' :
  accepted c (Some p) = true → is_u8 (Tx.rf_chain p) →
  rf_chain_cfg c !! Z.to_nat (Tx.rf_chain p) = Some rf → tx_gain_lut c !! Z.to_nat (Tx.rf_chain p) = Some lut →
  Lbt.enable (Sx1261.lbt_conf (sx1261_cfg c)) = false →
  sx1302_send spi usb (Rxrf.type rf) (Some lut) (Board.lorawan_public (board_cfg c)) (Some (fsk_cfg c)) p
    (hal_com h) = Done s' (LGW_REG_SUCCESS, p') →
  lgw_send spi usb bus fuel k1 k2 k3 c (Some p) h = Done (Hal s' (hal_sx h)) (LGW_HAL_SUCCESS, Some p').
Proof.
  unfold accepted, lgw_send. intros [Hst Ha]%andb_true_iff Hc Erf Elut Hlbt E. rewrite Hst. cbn [negb].
  change LGW_RF_CHAIN_NB with 2. destruct (Z.leb_spec 2 (Tx.rf_chain p)) as [H2|H2]; [done|].
  rewrite Erf in Ha. apply andb_true_iff in Ha as [[H3 H4]%andb_true_iff H5].
  pose proof (buf_get_nat _ _ _ Erf) as Grf. pose proof (buf_get_nat _ _ _ Elut) as Glut.
  rewrite Z2Nat.id in Grf, Glut by lia. rewrite Grf. cbn [pure_of]. erewrite bind_done by reflexivity.
  rewrite H3, H4, H5. cbn [negb]. rewrite dac_written. cbv iota zeta. rewrite Hlbt. erewrite bind_done by reflexivity. change (negb (0 =? 0)) with false. cbv iota.
  rewrite Glut. cbn [pure_of]. erewrite bind_done by reflexivity.
  erewrite bind_done by (unfold on_sx1302, zoom; rewrite E; reflexivity). cbv beta iota.
  change (negb (LGW_REG_SUCCESS =? LGW_REG_SUCCESS)) with false. cbv iota. cbn [negb]. reflexivity.
Qed.
End Send.

Section Contract.
Context {W : Type} (spi usb : driver W) (bus : sx1261_bus W).
Context (ready : com_state W → (Z → Z) → Prop) (filling : com_state W → nat → Z → (Z → Z) → Prop).
Context `{!BulkLink spi usb ready filling}.

(** What a configured context gives [sx1302_send]. *)
Lemma context_gives c rf lut i :
  context_ok c → rf_chain_cfg c !! i = Some rf → tx_gain_lut c !! i = Some lut → Rxrf.enable rf = true →
  is_radio (Rxrf.type rf) = true ∧ lut_ok lut.
Proof.
  intros (_ & Hr & _ & _ & _ & _ & _ & Hl & _) Erf Elut He. split.
  - destruct (Forall_lookup_1 _ _ _ _ Hr Erf He) as [Ht _]. apply list_elem_of_In in Ht.
    cbn [In] in Ht. destruct Ht as [<-|[<-|[<-|[]]]]; reflexivity.
  - destruct (Forall_lookup_1 _ _ _ _ Hl Elut) as [[H1 H2] _]. by split.
Qed.

Lemma send_checks_lora p :
  send_checks p = true → Tx.modulation p = MOD_LORA →
  IS_LORA_BW (Tx.bandwidth p) = true ∧ IS_LORA_DR (Tx.datarate p) = true ∧ IS_LORA_CR (Tx.coderate p) = true ∧
  Tx.size p <= 255.
Proof.
  unfold send_checks. intros [_ H]%andb_true_iff Hm. rewrite Hm, Z.eqb_refl in H.
  apply andb_true_iff in H as [[[H1 H2]%andb_true_iff H3]%andb_true_iff H4%negb_true_iff%Z.ltb_ge]. done.
Qed.

(** What [sx1302_send] relies on, for an accepted LoRa packet. *)
Lemma accepted_lora c0 p :
  context_ok c0 → Tx.ok p → Forall (λ x, is_u8 x) (Tx.payload p) → accepted (started c0) (Some p) = true →
  Tx.modulation p = MOD_LORA → 0 < Tx.size p → Tx.freq_hz p <= 1020000000 →
  ∃ rf lut, rf_chain_cfg c0 !! Z.to_nat (Tx.rf_chain p) = Some rf ∧
    tx_gain_lut c0 !! Z.to_nat (Tx.rf_chain p) = Some lut ∧
    is_radio (Rxrf.type rf) = true ∧ lut_ok lut ∧ lora_packet p.
Proof.
  intros Hok (Hu1 & _ & Hu2 & Hu3 & _ & _ & _ & _ & Hu4 & _ & Hlen) Hby Ha Hmod Hsize Hfreq.
  unfold accepted in Ha. cbn [is_started started andb] in Ha.
  destruct (Z.leb_spec 2 (Tx.rf_chain p)) as [H2|H2]; [discriminate Ha|].
  change (rf_chain_cfg (started c0)) with (rf_chain_cfg c0) in Ha.
  destruct (rf_chain_cfg c0 !! Z.to_nat (Tx.rf_chain p)) as [rf|] eqn:Erf; [|discriminate Ha].
  apply andb_true_iff in Ha as [[_ Hen]%andb_true_iff Hchk].
  destruct (lookup_lt_is_Some_2 (tx_gain_lut c0) (Z.to_nat (Tx.rf_chain p))) as [lut Elut].
  { destruct Hok as (_ & _ & _ & _ & _ & _ & -> & _). lia. }
  destruct (context_gives c0 rf lut _ Hok Erf Elut Hen) as [Hrt Hlut].
  destruct (send_checks_lora p Hchk Hmod) as (Hbw & Hdr & Hcr & H255).
  exists rf, lut. do 4 (split; [done|]).
  split; [exact Hmod|]. split; [lia|]. split; [exact Hbw|]. split; [exact Hdr|]. split; [exact Hcr|].
  split; [lia|]. split; [exact Hu2|]. split; [exact Hu4|]. split; [lia|]. by split.
Qed.

(** C12. The contract of [lgw_send] for any context the configuration functions
    can produce, without listen before talk: a request that it does not accept
    (not started, no packet, a chain that does not exist, is disabled or cannot
    transmit, unsupported parameters) is an error and touches neither the chip
    nor the packet; an accepted LoRa packet with a payload, sent at a time, is a
    success: the registers of its chain hold its spreading factor, bandwidth,
    coding rate and length, the transmit buffer its payload, the delayed trigger
    is armed, no register outside of the chain has changed and the link is ready
    for the next access. *)
Theorem lgw_send_contract fuel k1 k2 k3 c0 c pkt h m :
  rtc conf_step lgw_context c0 → c = started c0 → Lbt.enable (Sx1261.lbt_conf (sx1261_cfg c)) = false → ready (hal_com h) m →
  (∀ p, pkt = Some p → Tx.ok p ∧ Forall (λ x, is_u8 x) (Tx.payload p)) →
  (accepted c pkt = false → lgw_send spi usb bus fuel k1 k2 k3 c pkt h = Done h (LGW_HAL_ERROR, pkt)) ∧
  (accepted c pkt = true → ∀ p, pkt = Some p → Tx.modulation p = MOD_LORA → Tx.tx_mode p = TIMESTAMPED →
     0 < Tx.size p → Tx.freq_hz p <= 1020000000 →
     ∃ h' m' p', lgw_send spi usb bus fuel k1 k2 k3 c pkt h = Done h' (LGW_HAL_SUCCESS, Some p') ∧
       ready (hal_com h') m' ∧ hal_sx h' = hal_sx h ∧
       tx_reg m' p "TX_TOP_TXRX_CFG0_0_MODEM_SF" = Tx.datarate p ∧
       tx_reg m' p "TX_TOP_TXRX_CFG0_0_MODEM_BW" = Tx.bandwidth p ∧
       tx_reg m' p "TX_TOP_TXRX_CFG0_1_CODING_RATE" = Tx.coderate p ∧
       tx_reg m' p "TX_TOP_TXRX_CFG0_3_PAYLOAD_LENGTH" = Tx.size p ∧
       tx_reg m' p "TX_TOP_TX_TRIG_TX_TRIG_DELAYED" = 1 ∧
       (∀ k, 0 <= k < Tx.size p → m' (payload_addr (Tx.rf_chain p) + k) = znth 0 (Tx.payload p) k) ∧
       ∀ j, 0 <= j < LGW_TOTALREGS → in_chain (Tx.rf_chain p) j = false → reg_in m' j = reg_in m j).
Proof.
  intros Hc0 -> Hlbt Hs Hpkt. assert (Hok : context_ok c0) by (by apply (context_steps_ok lgw_context); [apply context_ok_initial|]).
  split.
  - intros Ha. apply lgw_send_refuses; [exact Ha|apply Hok|]. intros p Ep. destruct (Hpkt p Ep) as [Hp _]. apply Hp.
  - intros Ha p -> Hmod Hmode Hsize Hfreq. destruct (Hpkt p eq_refl) as [Hp Hby].
    destruct (accepted_lora c0 p Hok Hp Hby Ha Hmod Hsize Hfreq) as (rf & lut & Erf & Elut & Hrt & Hlut & Hlp).
    destruct (lora_send_run spi usb ready filling (hal_com h) m (Rxrf.type rf) lut (Some (fsk_cfg c0))
      (Board.lorawan_public (board_cfg c0)) p Hs Hlp Hmode Hrt Hlut)
      as (s' & m' & k & g & power & E & Hs' & _ & _ & Ep & Em).
    exists (Hal s' (hal_sx h)), m'. eexists. split.
    { apply (lgw_send_plain spi usb bus fuel k1 k2 k3 (started c0) p rf lut h); try assumption; [apply Hp|exact E]. }
    split; [exact Hs'|]. split; [reflexivity|].
    assert (Hpw : is_u8 power).
    { destruct (Rxrf.type rf); try discriminate Ep; injection Ep as <-; apply u8_range. }
    destruct (lora_memory m (Rxrf.type rf) g power (Board.lorawan_public (board_cfg c0)) p Hlp) as (HR & Hframe & Hpay).
    cbv zeta in Em, HR, Hframe, Hpay. rewrite <- Em in HR, Hframe, Hpay.
    assert (HT : ∀ name v, tx_reg (upd_regs m (lora_tx_writes (Rxrf.type rf) g power
        (Board.lorawan_public (board_cfg c0)) p)) p name = v →
      (0 <=? TX_REG (Tx.rf_chain p) name) && (TX_REG (Tx.rf_chain p) name <? LGW_TOTALREGS) = true →
      tx_reg m' p name = v).
    { intros name v Hv [H1%Z.leb_le H3%Z.ltb_lt]%andb_true_iff. unfold tx_reg in *.
      rewrite HR; [exact Hv|split; assumption]. }
    destruct (tx_modem_regs m (Rxrf.type rf) g power (Board.lorawan_public (board_cfg c0)) p Hlp Hpw)
      as (_ & _ & R1 & R2 & R3 & R4 & _).
    destruct (tx_sync_regs m (Rxrf.type rf) g power (Board.lorawan_public (board_cfg c0)) p Hlp)
      as (_ & _ & _ & _ & _ & R5).
    split; [|split; [|split; [|split; [|split; [|split; [exact Hpay|exact Hframe]]]]]];
      (eapply HT; [eassumption|]); destruct (proj1 (proj2 Hlp)) as [-> | ->]; vm_compute; reflexivity.
Qed.
End Contract.

(** ** Listen before talk *)


Lemma land1_odd x : (Z.land x 1 =? 0) = negb (Z.odd x).
Proof.
  change 1 with (Z.ones 1). rewrite Z.land_ones by lia. change (2 ^ 1) with 2. rewrite Zmod_odd. by destruct (Z.odd x).
Qed.
Lemma take_bit v k : 0 <= k → (TAKE_N_BITS_FROM v k 1 =? 0) = negb (Z.testbit v k).
Proof.
  intros Hk. unfold TAKE_N_BITS_FROM. change (Z.shiftl 1 1 - 1) with 1. rewrite land1_odd, Z.testbit_odd. done.
Qed.
Lemma land_bit v k : 0 <= k → (Z.land v (Z.shiftl 1 k) =? 0) = negb (Z.testbit v k).
Proof.
  intros Hk. rewrite Z.shiftl_1_l. destruct (Z.testbit v k) eqn:E.
  - apply Z.eqb_neq. intros H. apply (f_equal (λ x, Z.testbit x k)) in H.
    by rewrite Z.land_spec, E, Z.pow2_bits_true, Z.testbit_0_l in H by lia.
  - apply Z.eqb_eq, Z.bits_inj'. intros n Hn. rewrite Z.land_spec, Z.testbit_0_l.
    destruct (decide (n = k)) as [->|Hne]; [by rewrite E|]. by rewrite Z.pow2_bits_false, andb_false_r by lia.
Qed.

Section Lbt.
Context {W : Type} (spi usb : driver W) (bus : sx1261_bus W).

(** The statuses of the AGC are read one after the other from [s] on, and [v],
    read last, is the first of them that shows [seen]. *)
Inductive first_shown (seen : Z → bool) : com_state W → Z → com_state W → Prop :=
  | shown_now s s' v :
      sx1302_agc_status spi usb None s = Done s' (0, Some v) → seen v = true → first_shown seen s v s'
  | shown_later s s1 u v s' :
      sx1302_agc_status spi usb None s = Done s1 (0, Some u) → seen u = false →
      first_shown seen s1 v s' → first_shown seen s v s'.

Lemma first_shown_seen seen s v s' : first_shown seen s v s' → seen v = true.
Proof. by induction 1. Qed.
Lemma first_shown_ext f g s v s' : (∀ x, f x = g x) → first_shown f s v s' → first_shown g s v s'.
Proof.
  intros E. induction 1 as [? ? ? E1 Hs|? ? ? ? ? E1 Hs _ IH]; rewrite E in Hs.
  - by apply shown_now.
  - by eapply shown_later.
Qed.

Lemma lbt_wait_done stop clk fuel i s s' v :
  lbt_wait spi usb fuel stop clk i s = Done s' (WaitDone v) → first_shown stop s v s'.
Proof.
  revert i s. induction fuel as [|fuel IH]; intros i s H; [discriminate H|]. cbn [lbt_wait] in H.
  destruct (negb (timeout_check _ _ _ =? 0)); [discriminate H|].
  apply bind_inv in H as (s1 & [err st] & E1 & H). destruct (Z.eqb_spec err 0) as [->|]; [|discriminate H].
  cbn [negb] in H. apply bind_inv in H as (s2 & v' & E2 & H).
  assert (st = Some v' ∧ s2 = s1) as [-> ->].
  { destruct st; [|discriminate E2]. injection E2 as -> ->. by split. }
  destruct (stop v') eqn:Es; [|by eapply shown_later; [..|eapply IH]]. injection H as <- ->. by apply shown_now.
Qed.

Lemma lbt_tx_status_done fuel k1 k2 ch s s' ok :
  0 <= ch < 2 → lgw_lbt_tx_status spi usb fuel k1 k2 ch s = Done s' (0, ok) →
  ∃ v s1, first_shown (λ v, Z.testbit v ch) s v s1 ∧ ok = Some (negb (Z.testbit v (6 + ch))).
Proof.
  intros Hch H. unfold lgw_lbt_tx_status in H. apply bind_inv in H as (s1 & r & E1 & H).
  destruct r as [v| |]; [| |discriminate H].
  - apply lbt_wait_done in E1. exists v, s1. split.
    { eapply first_shown_ext, E1. intros x. cbv beta. rewrite land_bit by lia. apply negb_involutive. }
    apply bind_inv in H as (s2 & ? & _ & H). apply bind_inv in H as (s3 & r2 & _ & H).
    assert (Hok : ok = Some (TAKE_N_BITS_FROM v (if ch =? 0 then 6 else 7) 1 =? 0)).
    { destruct r2; [| |discriminate H]; apply bind_inv in H as (s4 & ? & _ & H); by injection H. }
    rewrite Hok. assert (ch = 0 ∨ ch = 1) as [-> | ->] by lia; by rewrite take_bit by (cbn; lia).
  - apply bind_inv in H as (s2 & ? & _ & H). apply bind_inv in H as (s3 & r2 & _ & H).
    destruct r2; [| |discriminate H]; apply bind_inv in H as (s4 & ? & _ & H); discriminate H.
Qed.

Lemma send_modem_chain fsk p s s' q :
  send_modem spi usb fsk p s = Done s' q → Tx.rf_chain q = Tx.rf_chain p.
Proof.
  unfold send_modem. intros H. destruct (Tx.modulation p =? MOD_CW); [|destruct (Tx.modulation p =? MOD_LORA)].
  - apply bind_inv in H as (? & ? & _ & H). apply bind_inv in H as (? & ? & _ & H). by injection H as _ <-.
  - apply bind_inv in H as (? & ? & _ & H). by injection H as _ <-.
  - apply bind_inv in H as (? & ? & _ & H). apply bind_inv in H as (? & ? & _ & H).
    apply bind_inv in H as (? & ? & _ & H). destruct (Tx.datarate p =? 0); [discriminate H|].
    apply bind_inv in H as (? & ? & _ & H). apply bind_inv in H as (? & ? & _ & H). by injection H as _ <-.
Qed.
Lemma sx1302_send_chain rt lut pub fsk p s s' err q :
  sx1302_send spi usb rt lut pub fsk p s = Done s' (err, q) → Tx.rf_chain q = Tx.rf_chain p.
Proof.
  unfold sx1302_send, or_error. intros H.
  match type of H with context [match ?m with _ => _ end] => destruct m as [s1 p1|s1| |] eqn:E end;
    [|by injection H as _ _ <-|discriminate H|discriminate H].
  apply bind_inv in E as (? & ? & _ & E). apply bind_inv in E as (? & ? & _ & E).
  apply bind_inv in E as (? & ? & _ & E). apply bind_inv in E as (? & ? & _ & E). apply send_modem_chain in E.
  rewrite <- E.
  match type of H with context [match ?m with _ => _ end] => destruct m eqn:E2 end;
    [by injection H as _ _ <-|by injection H as _ _ <-|discriminate H|discriminate H].
Qed.

Lemma on_sx1302_inv {A} (p : prog W A) h h' a :
  on_sx1302 p h = Done h' a → ∃ s', p (hal_com h) = Done s' a ∧ h' = Hal s' (hal_sx h).
Proof.
  unfold on_sx1302, zoom. intros H. destruct (p (hal_com h)) as [s' x| | |]; try discriminate H.
  injection H as <- <-. by exists s'.
Qed.

(** A return before the SX1302 is used: the same steps with other drivers. *)
Local Ltac early H :=
  injection H as <- <- <-; left; split; [reflexivity|]; split; [reflexivity|]; intros; unfold lgw_send;
  repeat first
    [ match goal with B : ?b = true |- context [if ?b then _ else _] => rewrite B end
    | match goal with B : ?b = false |- context [if ?b then _ else _] => rewrite B end
    | rewrite dac_written; cbv iota zeta
    | erewrite bind_done by eassumption ];
  reflexivity.

(** What makes [lgw_send] answer with [blocked] after the SX1261 was started
    (state [h2]): the packet was programmed from there, and the AGC status was
    then polled until it first showed the transmission as initiated on the chain
    of the packet; that status has the blocked bit of the chain set or not. *)
Definition sent_and_shown (c : lgw_context_s) (p : lgw_pkt_tx_s) (h2 : hal_state W) (blocked : bool) : Prop :=
  ∃ rf lut q s v s', rf_chain_cfg c !! Z.to_nat (Tx.rf_chain p) = Some rf ∧
    tx_gain_lut c !! Z.to_nat (Tx.rf_chain p) = Some lut ∧
    sx1302_send spi usb (Rxrf.type rf) (Some lut) (Board.lorawan_public (board_cfg c)) (Some (fsk_cfg c)) p
      (hal_com h2) = Done s (LGW_REG_SUCCESS, q) ∧
    first_shown (λ v, Z.testbit v (Tx.rf_chain p)) s v s' ∧ Z.testbit v (6 + Tx.rf_chain p) = blocked.

(** C15. Listen before talk is safe over any link and any chip: when [lgw_send]
    returns with listen before talk configured, either it is an error and the
    SX1302 was not used (with any other link to it the result is the same), or
    the SX1261 was first started on a channel of the packet and its stop was the
    last thing done. A success means that this stop succeeded, that
    [sx1302_send] had programmed the packet after the start, and that of the AGC
    statuses polled from then on the first that shows the transmission as
    initiated on the chain of the packet does not show it as blocked;
    [LGW_LBT_NOT_ALLOWED] means the same with a status that shows it as
    blocked. *)
Theorem lbt_send_safe fuel k1 k2 k3 c p h h' r p' :
  Lbt.enable (Sx1261.lbt_conf (sx1261_cfg c)) = true → is_u8 (Tx.rf_chain p) →
  lgw_send spi usb bus fuel k1 k2 k3 c (Some p) h = Done h' (r, p') →
  (r = LGW_HAL_ERROR ∧ p' = Some p ∧
     ∀ spi' usb', lgw_send spi' usb' bus fuel k1 k2 k3 c (Some p) h = Done h' (r, p')) ∨
  ∃ h2 h3 e,
    lgw_lbt_start bus (Rxif.sync_word_size (fsk_cfg c)) (sx1261_cfg c) p h = Done h2 0 ∧
    lgw_lbt_stop bus h3 = Done h' e ∧
    (r = LGW_HAL_SUCCESS → e = 0 ∧ sent_and_shown c p h2 false) ∧
    (r = LGW_LBT_NOT_ALLOWED → e = 0 ∧ sent_and_shown c p h2 true).
Proof.
  intros Hen Hch H. unfold lgw_send in H. rewrite Hen in H. destruct (negb (is_started c)) eqn:B1; [early H|].
  destruct (LGW_RF_CHAIN_NB <=? Tx.rf_chain p) eqn:B2; [early H|].
  assert (H2 : Tx.rf_chain p < 2) by (by apply Z.leb_gt in B2).
  apply bind_inv in H as (h0 & rf & E0 & H). pose proof (pure_inv _ _ _ _ E0) as [-> Erf]. apply buf_get_inv in Erf.
  destruct (negb (Rxrf.tx_enable rf)) eqn:B3; [early H|].
  destruct (negb (Rxrf.enable rf)) eqn:B4; [early H|]. destruct (negb (send_checks p)) eqn:B5; [early H|].
  rewrite dac_written in H. cbv iota zeta in H.
  apply bind_inv in H as (h2 & e0 & Estart & H). destruct (negb (e0 =? 0)) eqn:B7; [early H|].
  apply negb_false_iff, Z.eqb_eq in B7. subst e0.
  right. apply bind_inv in H as (h3 & lut & Elut & H). apply pure_inv in Elut as [-> Elut%buf_get_inv]. apply bind_inv in H as (h4 & [err q] & Esend & H).
  apply on_sx1302_inv in Esend as (s4 & Esend & ->). pose proof (sx1302_send_chain _ _ _ _ _ _ _ _ _ Esend) as Hq.
  destruct (Z.eqb_spec err LGW_REG_SUCCESS) as [->|]; cbn [negb] in H.
  2: { apply bind_inv in H as (h5 & e & Estop & H). injection H as <- <- _. exists h2. eexists _, e.
       split; [exact Estart|]. split; [exact Estop|]. split; intros [=]. }
  apply bind_inv in H as (h5 & [e1 ok] & Est & H).
  apply on_sx1302_inv in Est as (s5 & Est & ->). rewrite Hq in Est. destruct (Z.eqb_spec e1 0) as [->|]; cbn [negb] in H.
  2: { apply bind_inv in H as (h6 & ? & _ & H). apply bind_inv in H as (h7 & e & Estop & H).
       injection H as <- <- _. exists h2. eexists _, e.
       split; [exact Estart|]. split; [exact Estop|]. split; intros [=]. }
  apply lbt_tx_status_done in Est as (v & s6 & Hv & ->); [|lia].
  assert (Hs : sent_and_shown c p h2 (Z.testbit v (6 + Tx.rf_chain p))) by (by exists rf, lut, q, s4, v, s6).
  apply bind_inv in H as (h6 & e & Estop & H).
  assert (h6 = h') as -> by (destruct (negb (e =? 0)); [|destruct (Z.testbit v (6 + Tx.rf_chain p))]; cbn [negb] in H; by injection H).
  exists h2. eexists. exists e. split; [exact Estart|]. split; [exact Estop|]. clear Estart Estop.
  destruct (e =? 0) eqn:Ee; cbn [negb] in H; [apply Z.eqb_eq in Ee|injection H as <- _; split; intros [=]].
  destruct (Z.testbit v (6 + Tx.rf_chain p)); cbn [negb] in H; injection H as <- _; split; intros Hr;
    (discriminate Hr || by split).
Qed.
End Lbt.

(** ** The channel and the time on air *)

(** The channel suits the packet. *)
Definition channel_suits (p : lgw_pkt_tx_s) (ch : Lbt.lgw_conf_chan_lbt_s) : Prop :=
  Z.abs (Tx.freq_hz p - Lbt.freq_hz ch) <= 10000 ∧ Tx.bandwidth p = Lbt.bandwidth ch.

Lemma lbt_channel_loop_spec n (i : nat) chs f b r :
  lbt_channel_loop n (Z.of_nat i) chs f b = Ret r →
  (r = -1 ∧ ∀ j ch, (i <= j < i + n)%nat → chs !! j = Some ch →
     ¬ (Z.abs (f - Lbt.freq_hz ch) <= 10000 ∧ b = Lbt.bandwidth ch)) ∨
  ∃ k ch, r = Z.of_nat k ∧ (i <= k < i + n)%nat ∧ chs !! k = Some ch ∧
    (Z.abs (f - Lbt.freq_hz ch) <= 10000 ∧ b = Lbt.bandwidth ch) ∧
    ∀ j ch, (i <= j < k)%nat → chs !! j = Some ch →
      ¬ (Z.abs (f - Lbt.freq_hz ch) <= 10000 ∧ b = Lbt.bandwidth ch).
Proof.
  revert i. induction n as [|n IH]; intros i H; cbn [lbt_channel_loop] in H.
  { injection H as <-. left. split; [done|]. lia. }
  apply bind_ret_inv in H as (c & Ec & H). apply buf_get_inv in Ec. rewrite Nat2Z.id in Ec.
  destruct (is_equal_freq f (Lbt.freq_hz c) && (b =? Lbt.bandwidth c)) eqn:E.
  - injection H as <-. apply andb_true_iff in E as [E1%Z.leb_le E2%Z.eqb_eq].
    right. exists i, c. split; [done|]. split; [lia|]. split; [done|]. split; [done|]. lia.
  - assert (Hc : ¬ (Z.abs (f - Lbt.freq_hz c) <= 10000 ∧ b = Lbt.bandwidth c)).
    { intros [H1 H2]. apply Z.leb_le in H1. apply Z.eqb_eq in H2. unfold is_equal_freq in E. by rewrite H1, H2 in E. }
    replace (Z.of_nat i + 1) with (Z.of_nat (S i)) in H by lia.
    destruct (IH (S i) H) as [[-> Hn]|(k & ch & -> & Hk & Ech & Hm & Hn)].
    + left. split; [done|]. intros j ch Hj Ej. destruct (decide (j = i)) as [->|]; [congruence|].
      apply (Hn j); [lia|done].
    + right. exists k, ch. split; [done|]. split; [lia|]. split; [done|]. split; [done|].
      intros j ch' Hj Ej. destruct (decide (j = i)) as [->|]; [congruence|]. apply (Hn j); [lia|done].
Qed.

Lemma lbt_channel_loop_total n (i : nat) chs f b :
  (i + n <= length chs)%nat → ∃ r, lbt_channel_loop n (Z.of_nat i) chs f b = Ret r.
Proof.
  revert i. induction n as [|n IH]; intros i Hi; cbn [lbt_channel_loop]; [by eexists|].
  destruct (lookup_lt_is_Some_2 chs i) as [c Ec]; [lia|]. rewrite (buf_get_nat _ _ _ Ec). cbn [mbind outcome_bind].
  destruct (_ && _); [by eexists|]. replace (Z.of_nat i + 1) with (Z.of_nat (S i)) by lia. apply IH. lia.
Qed.

(** [lgw_lbt_start] admits a LoRa packet only on the first configured channel
    within 10 kHz of its frequency and with its bandwidth, and only when its
    exact time on air and one more millisecond fit into the transmit time of that
    channel (the 1.5 ms of the code, less the rounding of the time on air to
    milliseconds); without such a channel it is an error and the SX1261 is not
    touched. *)
Theorem lbt_start_admits {W} (bus : sx1261_bus W) sync_word_size cx p h :
  Tx.ok p → Tx.modulation p = MOD_LORA → IS_LORA_DR (Tx.datarate p) = true →
  IS_LORA_BW (Tx.bandwidth p) = true → IS_LORA_CR (Tx.coderate p) = true →
  (∀ ch, ch ∈ Lbt.channels (Sx1261.lbt_conf cx) → is_u16 (Lbt.transmit_time_ms ch)) →
  let chs := Lbt.channels (Sx1261.lbt_conf cx) in
  let n := Z.to_nat (Lbt.nb_channel (Sx1261.lbt_conf cx)) in
  (n <= length chs)%nat →
  let us := ref_time_on_air_us (Tx.bandwidth p) (u8 (Tx.datarate p)) (Tx.coderate p)
              (Tx.preamble p) (Tx.no_header p) (Tx.no_crc p) (u8 (Tx.size p)) in
  (∀ h', lgw_lbt_start bus sync_word_size cx p h = Done h' 0 →
     ∃ i ch, (i < n)%nat ∧ chs !! i = Some ch ∧ channel_suits p ch ∧
       (∀ j ch', (j < i)%nat → chs !! j = Some ch' → ¬ channel_suits p ch') ∧
       us + 1000 < 1000 * Lbt.transmit_time_ms ch) ∧
  ((∀ j ch', (j < n)%nat → chs !! j = Some ch' → ¬ channel_suits p ch') →
   lgw_lbt_start bus sync_word_size cx p h = Done h (-1)).
Proof.
  intros Hp Hm Hdr Hbw Hcr Htt chs n Hn us.
  assert (Hu8 : u8 (Tx.datarate p) = Tx.datarate p) by (apply u8_id; pose proof (IS_LORA_DR_range _ Hdr); lia).
  assert (Hdr' : IS_LORA_DR (u8 (Tx.datarate p)) = true) by (by rewrite Hu8).
  pose proof (lgw_time_on_air_lora sync_word_size p Hp Hm Hdr' Hbw Hcr) as Htoa.
  destruct (ref_time_on_air_range (Tx.bandwidth p) (u8 (Tx.datarate p)) (Tx.coderate p) (Tx.preamble p)
    (Tx.no_header p) (Tx.no_crc p) (u8 (Tx.size p)) Hdr' Hbw Hcr ltac:(apply Hp) (u8_range _)) as [Hus1 Hus2].
  fold us in Htoa, Hus1, Hus2. clearbody us. unfold lgw_lbt_start, is_lbt_channel. fold chs n.
  destruct (lbt_channel_loop_total n 0 chs (Tx.freq_hz p) (Tx.bandwidth p) Hn) as [r Er].
  change 0 with (Z.of_nat 0). rewrite Er. cbn [pure_of]. erewrite bind_done by reflexivity.
  destruct (lbt_channel_loop_spec n 0 chs (Tx.freq_hz p) (Tx.bandwidth p) r Er)
    as [[-> Hnone]|(k & ch & -> & Hk & Ech & Hsuit & Hfirst)].
  { split; [|done]. intros h' H. discriminate H. }
  rewrite (proj2 (Z.eqb_neq (Z.of_nat k) (-1))) by lia. split.
  2: { intros Hnone. exfalso. apply (Hnone k ch); [lia|exact Ech|exact Hsuit]. }
  intros h' H. rewrite (buf_get_nat _ _ _ Ech) in H. cbn [pure_of] in H. erewrite bind_done in H by reflexivity.
  destruct (Z.leb_spec (Lbt.transmit_time_ms ch * 1000) 1500) as [|Ht]; [discriminate H|].
  rewrite Htoa in H. cbn [pure_of] in H. erewrite bind_done in H by reflexivity.
  assert (Hu : is_u16 (Lbt.transmit_time_ms ch)) by (by apply Htt, list_elem_of_lookup_2 with k).
  match type of H with (if ?b then _ else _) _ = _ => destruct b eqn:Eb; [discriminate H|] end.
  apply Z.ltb_ge in Eb. rewrite (u32_id (Lbt.transmit_time_ms ch * 1000 - 1500)) in Eb by lia.
  rewrite u32_id in Eb by (Z.to_euclidean_division_equations; lia).
  exists k, ch. split; [lia|]. split; [exact Ech|]. split; [exact Hsuit|]. split.
  - intros j ch' Hj. apply Hfirst. lia.
  - Z.to_euclidean_division_equations. lia.
Qed.

(** ** Buffers of the SX1261 functions *)

Section Buffers.
Context {W : Type} (bus : sx1261_bus W).

(** Neither an early return nor an endless loop. *)
Definition returns {A} (r : res (hal_state W) A) : Prop :=
  match r with Done _ _ | Wrong => True | _ => False end.

Lemma returns_bind {A B} (m : hprog W A) (f : A → hprog W B) s :
  returns (m s) → (∀ a s', returns (f a s')) → returns ((m ≫= f) s).
Proof. intros Hm Hf. unfold mbind, eff_bind. by destruct (m s). Qed.
Lemma returns_on_world {A} (f : W → W * A) s : returns (on_world f s).
Proof. unfold on_world. by destruct (f _). Qed.
Lemma returns_pure {A} (o : outcome A) s : returns (pure_of o s).
Proof. by destruct o. Qed.

Local Ltac returns_step :=
  repeat first
    [ exact I
    | apply returns_on_world
    | apply returns_pure
    | apply returns_bind; [|intros ? ?]
    | match goal with
      | |- context [match ?x with _ => _ end] => destruct x
      end ].

Lemma reg_w_returns op data size s : returns (sx1261_reg_w bus op data size s).
Proof. unfold sx1261_reg_w, sx1261_com_w, sx1261_spi_w, sx1261_usb_w. returns_step. Qed.
Lemma reg_r_returns op data size s : returns (sx1261_reg_r bus op data size s).
Proof. unfold sx1261_reg_r, sx1261_com_r, sx1261_spi_r, sx1261_usb_r. returns_step. Qed.

(** The version is stored with its end mark one byte past 16 bytes. *)
Lemma get_version_overruns junk s :
  length junk = SX1261_PRAM_VERSION_FULL_SIZE →
  sx1261_pram_get_version bus junk s = Wrong ∨
  ∃ s' x, sx1261_pram_get_version bus junk s = Done s' (x, junk) ∧ x ≠ LGW_REG_SUCCESS.
Proof.
  intros Hj. unfold sx1261_pram_get_version.
  match goal with |- context [sx1261_reg_r bus ?o ?d ?n] => pose proof (reg_r_returns o d n s) as Hr;
    destruct (sx1261_reg_r bus o d n s) as [s1 [x buff]| | |] eqn:E end; try done.
  2: { left. by apply bind_wrong. }
  erewrite !bind_done by exact E. cbv beta iota.
  destruct (Z.eqb_spec x LGW_REG_SUCCESS) as [->|Hx]; cbn [negb]; [|right; by exists s1, x].
  left. destruct (buf_set buff 18 0) as [b| |]; [|by apply bind_wrong..]. erewrite bind_done by done.
  unfold strncpy_into. rewrite Hj. change (SX1261_PRAM_VERSION_FULL_SIZE <? 16)%nat with false. cbv iota.
  erewrite bind_done by done. apply bind_wrong. unfold buf_set.
  match goal with |- context [16 <? Z.of_nat (length ?l)] => assert (Hl : (length l <= 16)%nat) end.
  { rewrite !length_app, length_replicate, length_drop, Hj, !length_take. unfold SX1261_PRAM_VERSION_FULL_SIZE. lia. }
  rewrite (proj2 (Z.ltb_ge _ _)), andb_false_r by lia. done.
Qed.

(** [sx1261_load_pram] never loads the patch with defined behaviour, over any
    link: its array for the version has 16 bytes, and
    [sx1261_pram_get_version] stores the end mark at index 16, so that the call
    reports an error or writes past the array. *)
Theorem load_pram_overruns pram version_string junk h :
  length junk = SX1261_PRAM_VERSION_FULL_SIZE →
  sx1261_load_pram bus pram version_string junk h = Wrong ∨
  ∃ h', sx1261_load_pram bus pram version_string junk h = Done h' (-1).
Proof.
  intros Hj. unfold sx1261_load_pram, body.
  pose proof (reg_w_returns SX1261_SET_STANDBY [SX1261_STDBY_RC] 1 h) as H1.
  destruct (sx1261_reg_w bus SX1261_SET_STANDBY [SX1261_STDBY_RC] 1 h) as [h1 e1| | |] eqn:E1; try done.
  2: { left. by erewrite bind_wrong by exact E1. }
  erewrite bind_done by exact E1. unfold sx1261_check_status, sx1261_get_status.
  pose proof (reg_r_returns SX1261_GET_STATUS [0x00] 1 h1) as H2.
  destruct (sx1261_reg_r bus SX1261_GET_STATUS [0x00] 1 h1) as [h2 [e2 b2]| | |] eqn:E2; try done.
  2: { left. erewrite bind_wrong; [done|]. apply bind_wrong. by apply bind_wrong. }
  erewrite bind_done by (erewrite bind_done by (erewrite bind_done by exact E2; reflexivity); reflexivity).
  cbv beta iota. destruct (negb _); [right; by exists h2|]. change (negb (LGW_REG_SUCCESS =? LGW_REG_SUCCESS)) with false.
  cbv iota. destruct (get_version_overruns junk h2 Hj) as [E3|(h3 & x & E3 & Hx)].
  - left. by erewrite bind_wrong by exact E3.
  - right. exists h3. erewrite bind_done by exact E3. cbv beta iota. by rewrite (proj2 (Z.eqb_neq _ _) Hx).
Qed.

(** No spectral scan is started with defined behaviour, over any link:
    [sx1261_spectral_scan_start] sends nine bytes of an array of four, so that
    [lgw_spectral_scan_start] reports an error or reads past the array; with a
    connected SX1261 that accepts the receiver parameters it does the latter. *)
Theorem spectral_scan_overruns c freq nb_scan h :
  (∀ h', lgw_spectral_scan_start bus c freq nb_scan h ≠ Done h' LGW_HAL_SUCCESS) ∧
  ∀ h1, Sx1261.enable (sx1261_cfg c) = true →
    sx1261_set_rx_params bus freq BW_125KHZ h = Done h1 LGW_REG_SUCCESS →
    _sx1261_com_target (hal_sx h1) = true → _sx1261_com_type (hal_sx h1) ≠ LGW_COM_UNKNOWN →
    lgw_spectral_scan_start bus c freq nb_scan h = Wrong.
Proof.
  assert (Hs : ∀ h1, (_sx1261_com_target (hal_sx h1) = true → _sx1261_com_type (hal_sx h1) ≠ LGW_COM_UNKNOWN →
      sx1261_spectral_scan_start bus nb_scan h1 = Wrong) ∧
    ∀ h2 e, sx1261_spectral_scan_start bus nb_scan h1 = Done h2 e → e = LGW_REG_ERROR).
  { intros h1. unfold sx1261_spectral_scan_start, body, sx1261_reg_w, sx1261_com_w, mbind, eff_bind, get_sx.
    destruct (_sx1261_com_target (hal_sx h1)), (_sx1261_com_type (hal_sx h1)); (split; [intros; congruence || reflexivity|]);
      intros h2 e H; first [discriminate H|by injection H]. }
  unfold lgw_spectral_scan_start. split.
  - intros h' H. destruct (negb (Sx1261.enable (sx1261_cfg c))); [discriminate H|].
    apply bind_inv in H as (h1 & e1 & _ & H). destruct (negb (e1 =? LGW_REG_SUCCESS)); [discriminate H|].
    apply bind_inv in H as (h2 & e2 & E & H). apply (proj2 (Hs h1)) in E as ->. discriminate H.
  - intros h1 -> E Ht Hty. cbn [negb]. erewrite bind_done by exact E.
    change (negb (LGW_REG_SUCCESS =? LGW_REG_SUCCESS)) with false. cbv iota. apply bind_wrong. by apply Hs.
Qed.
End Buffers.

(** ** Witnesses *)

(** An SX1261 whose SPI transfers all succeed. *)
Definition quiet_bus {W} : sx1261_bus W := {|
  bus_spi_open := λ w, (w, (0, true)); bus_spi_close := λ w, (w, 0);
  bus_ioctl := λ w tx, (w, (Z.of_nat (length tx), tx)); bus_mcu_spi_write := λ w b, (w, (b, 0));
  bus_mcu_spi_store := λ w _, (w, 0); bus_mcu_spi_flush := λ w, (w, 0) |}.
Definition stopped_clock : clock := Clock (Timeval 0 0) (λ _, Timeval 0 0).

Lemma a_downlink_fields n : 0 <= n < 256 → Tx.ok (a_downlink n).
Proof.
  intros Hn. unfold Tx.ok, a_downlink. cbn [Tx.freq_hz Tx.tx_mode Tx.count_us Tx.rf_chain
    Tx.modulation Tx.bandwidth Tx.datarate Tx.coderate Tx.preamble Tx.size Tx.payload].
  unfold TIMESTAMPED, MOD_LORA, BW_125KHZ, DR_LORA_SF9, CR_LORA_4_5. do 10 (split; [lia|]). reflexivity.
Qed.

Lemma lgw_send_contract_witness :
  ∃ h' m' p', lgw_send demo_drv demo_drv quiet_bus 1 stopped_clock stopped_clock stopped_clock (started a_context)
                (Some (a_downlink 32)) (Hal demo_state sx1261_static0) = Done h' (LGW_HAL_SUCCESS, Some p') ∧
    tx_reg m' (a_downlink 32) "TX_TOP_TXRX_CFG0_0_MODEM_SF" = 9 ∧ m' 0x5305 = 7.
Proof.
  pose proof (spi_bulk_link demo_drv demo_drv ideal_up ideal_mem blank_chunk) as Hlink. cbv zeta in Hlink.
  destruct (lgw_send_contract demo_drv demo_drv quiet_bus _ _ (BulkLink0 := Hlink) 1 stopped_clock stopped_clock
    stopped_clock a_context (started a_context) (Some (a_downlink 32)) (Hal demo_state sx1261_static0) (λ _, 0xA5))
    as [_ H].
  - apply a_context_reached.
  - reflexivity.
  - vm_compute. reflexivity.
  - split; [reflexivity|]. split; [apply demo_linked|reflexivity].
  - intros p [= <-]. split; [|by apply Forall_replicate]. apply a_downlink_fields. lia.
  - destruct (H ltac:(vm_compute; reflexivity) (a_downlink 32) eq_refl eq_refl eq_refl) as
      (h' & m' & p' & E & _ & _ & Hsf & _ & _ & _ & _ & Hpay & _); [cbn; lia|cbn; lia|].
    exists h', m', p'. split; [exact E|]. split; [exact Hsf|]. apply (Hpay 5). cbn. lia.
Defined.

(** A chip that only shows AGC statuses, one after the other. *)
Definition script_driver : driver (list Z) := {|
  drv_open := λ w, (w, (0, true)); drv_close := λ w, (w, 0); drv_w := λ w _ _ _, (w, 0);
  drv_r := λ w _ a, if a =? 22401 then (drop 1 w, (0, Some (znth 0 w 0))) else (w, (0, Some 0));
  drv_rmw := λ w _ _ _ _ _, (w, 0); drv_wb := λ w _ _ _, (w, 0); drv_rb := λ w _ _ l, (w, (0, l));
  drv_set_write_mode := λ w _, (w, 0); drv_flush := λ w, (w, 0); drv_chunk_size := 1024 |}.
Definition lbt_context : lgw_context_s :=
  started (set_misc LGW_MULTI_SF_EN (ftime_cfg a_context)
    (Sx1261.Conf true [] 0 (Lbt.Conf true (-80) 1
       [{| Lbt.freq_hz := 869525000; Lbt.bandwidth := BW_125KHZ; Lbt.scan_time_us := 5000; Lbt.transmit_time_ms := 4000 |}]))
    (debug_cfg a_context) a_context).
Definition lbt_start_state : hal_state (list Z) :=
  Hal (Com LGW_COM_SPI true [0; 0x01; 0x01; 0]) (Sx1261Static LGW_COM_SPI true LGW_COM_WRITE_MODE_SINGLE 0).

Lemma lbt_send_safe_witness :
  ∃ h' p' h2, lgw_send script_driver script_driver quiet_bus 9 stopped_clock stopped_clock stopped_clock lbt_context
             (Some (a_downlink 32)) lbt_start_state = Done h' (LGW_HAL_SUCCESS, p') ∧
    sent_and_shown script_driver script_driver lbt_context (a_downlink 32) h2 false.
Proof.
  assert (E : ∃ h' p', lgw_send script_driver script_driver quiet_bus 9 stopped_clock stopped_clock stopped_clock
    lbt_context (Some (a_downlink 32)) lbt_start_state = Done h' (LGW_HAL_SUCCESS, p')).
  { eexists _, _. vm_compute. reflexivity. }
  destruct E as (h' & p' & E).
  destruct (lbt_send_safe script_driver script_driver quiet_bus 9 stopped_clock stopped_clock stopped_clock lbt_context
    (a_downlink 32) lbt_start_state h' LGW_HAL_SUCCESS p') as [[H _]|(h2 & h3 & e & _ & _ & H & _)];
    [reflexivity|cbn; lia|exact E|discriminate H|].
  destruct (H eq_refl) as [_ Hs]. exists h', p', h2. by split.
Defined.

Lemma load_pram_overruns_witness :
  sx1261_load_pram quiet_bus [1; 2] [50; 68; 48; 54] (replicate 16 0)
    (Hal (Com LGW_COM_SPI true ()) (Sx1261Static LGW_COM_SPI true LGW_COM_WRITE_MODE_SINGLE 0)) = Wrong ∨
  ∃ h', sx1261_load_pram quiet_bus [1; 2] [50; 68; 48; 54] (replicate 16 0)
    (Hal (Com LGW_COM_SPI true ()) (Sx1261Static LGW_COM_SPI true LGW_COM_WRITE_MODE_SINGLE 0)) = Done h' (-1).
Proof. apply load_pram_overruns. reflexivity. Defined.

Lemma spectral_scan_overruns_witness :
  let h := Hal (Com LGW_COM_SPI true ()) (Sx1261Static LGW_COM_SPI true LGW_COM_WRITE_MODE_SINGLE 0) in
  lgw_spectral_scan_start quiet_bus lbt_context 868500000 1000 h = Wrong.
Proof.
  intros h. eapply (proj2 (spectral_scan_overruns quiet_bus lbt_context 868500000 1000 h));
    [vm_compute; reflexivity|vm_compute; reflexivity|reflexivity|discriminate].
Defined.

Lemma lbt_start_admits_witness :
  ∃ i ch, (i < 1)%nat ∧ Lbt.channels (Sx1261.lbt_conf (sx1261_cfg lbt_context)) !! i = Some ch ∧
    channel_suits (a_downlink 32) ch ∧ 226304 + 1000 < 1000 * Lbt.transmit_time_ms ch.
Proof.
  destruct (lbt_start_admits (@quiet_bus (list Z)) 3 (sx1261_cfg lbt_context) (a_downlink 32) lbt_start_state) as [H _].
  - apply (a_downlink_fields 32). lia.
  - reflexivity.
  - reflexivity.
  - reflexivity.
  - reflexivity.
  - intros ch Hch%list_elem_of_In. destruct Hch as [<-|[]]. cbn. lia.
  - cbn. lia.
  - edestruct H as (i & ch & Hi & Ech & Hs & _ & Ht); [vm_compute; reflexivity|].
    exists i, ch. split; [exact Hi|]. split; [exact Ech|]. split; [exact Hs|exact Ht].
Defined.
