(* ===== verification/Gps.v ===== *)
(** * The GPS receiver's messages ([libloragw/src/loragw_gps.c])

    The checksum of NMEA sentences and the parser of UBX messages. Bytes are
    [Z] from 0 to 255; the code has them as [char], and gives the same results
    whether [char] is signed or not. *)
From stdpp Require Import base list numbers.
From Stdlib Require Import ZArith Lia.
From S2P Require Import Prelude.

Open Scope Z_scope.

(** ** The code *)

Inductive gps_msg :=
  | UNKNOWN | IGNORED | INVALID | INCOMPLETE
  | NMEA_RMC | NMEA_GGA | NMEA_GNS | NMEA_ZDA | NMEA_GBS | NMEA_GST | NMEA_GSA | NMEA_GSV
  | NMEA_GLL | NMEA_TXT | NMEA_VTG
  | UBX_NAV_TIMEGPS | UBX_NAV_TIMEUTC.
#[export] Instance gps_msg_eq_dec : EqDecision gps_msg.
Proof. solve_decision. Defined.

(** The static variables [lgw_parse_ubx] sets. *)
Record gps_time_s := GpsTime {
  gps_iTOW : Z; gps_fTOW : Z; gps_week : Z; gps_time_ok : bool }.

(** '0' is 48, 'A' is 65, '?' is 63. *)
Definition nibble_to_hexchar (a : Z) : Z :=
  if a <? 10 then 48 + a else if a <? 16 then 65 + (a - 10) else 63.

(** The loop up to the '*' (42): the position of the '*' and the sum, or [None]
    for the error return. *)
Fixpoint nmea_xor (n : nat) (nmea_string : list Z) (buff_size i check_num : Z)
  : outcome (option (Z * Z)) :=
  match n with
  | O => Ret None
  | S n =>
    c ← buf_get nmea_string i;
    if c =? 42 then Ret (Some (i, check_num))
    else
      let check_num := u8 (Z.lxor check_num c) in
      let i := i + 1 in
      if buff_size <=? i then Ret None else nmea_xor n nmea_string buff_size i check_num
  end.
(** The position behind the '*' and the two characters, or [None] for -1. A
    '$' is 36. *)
Definition nmea_checksum (nmea_string : option (list Z)) (buff_size : Z)
  : outcome (option (Z * (Z * Z))) :=
  match nmea_string with
  | None => Ret None
  | Some s =>
    if buff_size <=? 1 then Ret None
    else
      c ← buf_get s 0;
      r ← nmea_xor (Z.to_nat buff_size) s buff_size (if c =? 36 then 1 else 0) 0;
      match r with
      | None => Ret None
      | Some (i, check_num) =>
        Ret (Some (i + 1, (nibble_to_hexchar (check_num / 16), nibble_to_hexchar (check_num mod 16))))
      end
  end.
Definition validate_nmea_checksum (serial_buff : option (list Z)) (buff_size : Z) : outcome bool :=
  r ← nmea_checksum serial_buff buff_size;
  match r, serial_buff with
  | Some (checksum_index, (c0, c1)), Some s =>
    if buff_size - 2 <=? checksum_index then Ret false
    else
      h ← buf_get s checksum_index;
      if negb (h =? c0) then Ret false
      else l ← buf_get s (checksum_index + 1); Ret (l =? c1)
  | _, _ => Ret false
  end.

(** The 8-bit Fletcher sum over the class, the length and the payload. *)
Definition ubx_checksum (serial_buff : list Z) (payload_length : Z) : outcome (Z * Z) :=
  for_loop (Z.to_nat (4 + payload_length)) 0
    (λ i '(ck_a, ck_b),
       x ← buf_get serial_buff (i + 2);
       let ck_a := u8 (ck_a + x) in
       Ret (ck_a, u8 (ck_b + ck_a))) (0, 0).

Definition ubx_timegps (st : gps_time_s) (serial_buff : list Z) : outcome gps_time_s :=
  flags ← buf_get serial_buff 17;
  if negb (Z.land flags 0x3 =? 0) then
    b6 ← buf_get serial_buff 6; b7 ← buf_get serial_buff 7;
    b8 ← buf_get serial_buff 8; b9 ← buf_get serial_buff 9;
    b10 ← buf_get serial_buff 10; b11 ← buf_get serial_buff 11;
    b12 ← buf_get serial_buff 12; b13 ← buf_get serial_buff 13;
    b14 ← buf_get serial_buff 14; b15 ← buf_get serial_buff 15;
    Ret (GpsTime
      (u32 (Z.lor (Z.lor (Z.lor b6 (Z.shiftl b7 8)) (Z.shiftl b8 16)) (Z.shiftl b9 24)))
      (s32 (Z.lor (Z.lor (Z.lor b10 (Z.shiftl b11 8)) (Z.shiftl b12 16)) (Z.shiftl b13 24)))
      (s16 (Z.lor b14 (Z.shiftl b15 8))) true)
  else Ret (GpsTime (gps_iTOW st) (gps_fTOW st) (gps_week st) false).

(** The new state, the result and [*msg_size]. *)
Definition lgw_parse_ubx (st : gps_time_s) (serial_buff : option (list Z)) (buff_size : Z)
  : outcome (gps_time_s * gps_msg * Z) :=
  match serial_buff with
  | None => Ret (st, IGNORED, 0)
  | Some s =>
    if buff_size <? 8 then Ret (st, IGNORED, 0)
    else
      s0 ← buf_get s 0; s1 ← buf_get s 1;
      if (s0 =? 0xB5) && (s1 =? 0x62) then
        l0 ← buf_get s 4; l1 ← buf_get s 5;
        let payload_length := Z.lor l0 (Z.shiftl l1 8) in
        let msg_size := 6 + payload_length + 2 in
        if msg_size <=? buff_size then
          ck_a_rcv ← buf_get s (msg_size - 2); ck_b_rcv ← buf_get s (msg_size - 1);
          '(ck_a, ck_b) ← ubx_checksum s payload_length;
          if (ck_a =? ck_a_rcv) && (ck_b =? ck_b_rcv) then
            cls ← buf_get s 2; id ← buf_get s 3;
            if (cls =? 0x01) && (id =? 0x20) then
              st ← ubx_timegps st s;
              Ret (st, UBX_NAV_TIMEGPS, msg_size)
            else Ret (st, IGNORED, msg_size)
          else Ret (st, INVALID, msg_size)
        else Ret (st, INCOMPLETE, msg_size)
      else Ret (st, IGNORED, 0)
  end.

(** ** The formats *)

Definition fletcher_from (ab : Z * Z) (l : list Z) : Z * Z :=
  foldl (λ '(a, b) x, (u8 (a + x), u8 (b + u8 (a + x)))) ab l.
(** Class, identifier, length and payload. *)
Definition ubx_body (cls id : Z) (payload : list Z) : list Z :=
  [cls; id; Z.of_nat (length payload) mod 256; Z.of_nat (length payload) / 256] ++ payload.
Definition ubx_frame (body : list Z) : list Z :=
  let '(a, b) := fletcher_from (0, 0) body in [0xB5; 0x62] ++ body ++ [a; b].
Definition le32 (x : Z) : list Z := [u8 x; u8 (x / 2 ^ 8); u8 (x / 2 ^ 16); u8 (x / 2 ^ 24)].
Definition le16 (x : Z) : list Z := [u8 x; u8 (x / 2 ^ 8)].
(** The payload of NAV-TIMEGPS: time of week, its fraction, week, leap seconds,
    validity flags, accuracy. *)
Definition timegps_payload (iTOW fTOW week leap flags acc : Z) : list Z :=
  le32 iTOW ++ le32 fTOW ++ le16 week ++ [u8 leap; flags] ++ le32 acc.

(** ** Lemmas *)

Lemma le32_value x :
  Z.lor (Z.lor (Z.lor (u8 x) (Z.shiftl (u8 (x / 2 ^ 8)) 8)) (Z.shiftl (u8 (x / 2 ^ 16)) 16))
    (Z.shiftl (u8 (x / 2 ^ 24)) 24) = u32 x.
Proof.
  pose proof (u8_range x). pose proof (u8_range (x / 2 ^ 8)). pose proof (u8_range (x / 2 ^ 16)).
  rewrite !shiftl_mul, (Z.lor_comm (u8 x)), lor_shl_add by lia.
  rewrite (Z.lor_comm _ (_ * 2 ^ 16)), lor_shl_add by lia.
  rewrite (Z.lor_comm _ (_ * 2 ^ 24)), lor_shl_add by lia.
  unfold u8, u32. Z.to_euclidean_division_equations. lia.
Qed.
Lemma le16_value x : Z.lor (u8 x) (Z.shiftl (u8 (x / 2 ^ 8)) 8) = u16 x.
Proof.
  pose proof (u8_range x). rewrite shiftl_mul, Z.lor_comm, lor_shl_add by lia.
  unfold u8, u16. Z.to_euclidean_division_equations. lia.
Qed.

Lemma fletcher_cons ab x l :
  fletcher_from ab (x :: l) = fletcher_from (u8 (fst ab + x), u8 (snd ab + u8 (fst ab + x))) l.
Proof. by destruct ab. Qed.
Lemma fletcher_sum ab l : fst (fletcher_from ab l) = if bool_decide (l = []) then fst ab else u8 (fst ab + foldr Z.add 0 l).
Proof.
  revert ab. induction l as [|x l IH]; intros ab; [done|]. rewrite fletcher_cons, IH. cbn [fst foldr].
  rewrite (bool_decide_eq_false_2 (x :: l = [])) by done. case_bool_decide as E; [subst l; cbn [foldr]; f_equal; lia|].
  unfold u8. rewrite Zplus_mod_idemp_l. f_equal. lia.
Qed.
Lemma fletcher_range l : l ≠ [] → is_u8 (fst (fletcher_from (0, 0) l)).
Proof. intros Hl. rewrite fletcher_sum, bool_decide_eq_false_2 by done. apply u8_range. Qed.

Lemma ubx_loop pre l post ab i :
  i + 2 = Z.of_nat (length pre) →
  for_loop (length l) i
    (λ i '(ck_a, ck_b), x ← buf_get (pre ++ l ++ post) (i + 2);
       Ret (u8 (ck_a + x), u8 (ck_b + u8 (ck_a + x)))) ab
  = Ret (fletcher_from ab l).
Proof.
  revert pre ab i. induction l as [|x l IH]; intros pre [a b] i Hi; [done|].
  cbn [length for_loop]. rewrite (buf_get_at pre _ _ 0 x) by (done || lia). cstep. rewrite ret_bind, fletcher_cons.
  specialize (IH (pre ++ [x])). rewrite <- app_assoc in IH. apply IH. rewrite length_app. cbn [length]. lia.
Qed.
Lemma ubx_checksum_frame x y body post n :
  n + 4 = Z.of_nat (length body) → ubx_checksum ([x; y] ++ body ++ post) n = Ret (fletcher_from (0, 0) body).
Proof.
  intros Hn. unfold ubx_checksum. replace (Z.to_nat (4 + n)) with (length body) by lia.
  exact (ubx_loop [x; y] body post (0, 0) 0 eq_refl).
Qed.

Lemma le_length n : 0 <= n < 2 ^ 16 → Z.lor (n mod 256) (Z.shiftl (n / 256) 8) = n.
Proof.
  intros Hn. pose proof (Z.mod_pos_bound n 256). rewrite shiftl_mul, Z.lor_comm by lia.
  rewrite lor_shl_add by lia. pose proof (Z.div_mod n 256). lia.
Qed.

(** The byte at the constant index [i]. *)
Ltac get_byte i := erewrite (buf_get_lookup _ i); [cstep|lia|done].

(** The parser on a message with the checksum bytes [a] and [b]. *)
Lemma parse_message st cls id payload a b rest size :
  Z.of_nat (length payload) < 2 ^ 16 → Z.of_nat (length payload) + 8 <= size →
  lgw_parse_ubx st (Some ([0xB5; 0x62] ++ ubx_body cls id payload ++ [a; b] ++ rest)) size
  = if bool_decide (fletcher_from (0, 0) (ubx_body cls id payload) = (a, b)) then
      if (cls =? 0x01) && (id =? 0x20) then
        st' ← ubx_timegps st ([0xB5; 0x62] ++ ubx_body cls id payload ++ [a; b] ++ rest);
        Ret (st', UBX_NAV_TIMEGPS, Z.of_nat (length payload) + 8)
      else Ret (st, IGNORED, Z.of_nat (length payload) + 8)
    else Ret (st, INVALID, Z.of_nat (length payload) + 8).
Proof.
  intros Hl Hs. set (body := ubx_body cls id payload).
  assert (Hb : length body = (4 + length payload)%nat) by done.
  unfold lgw_parse_ubx. rewrite (proj2 (Z.ltb_ge _ _)) by lia.
  get_byte 0. get_byte 1. cbn [andb Z.eqb Pos.eqb].
  get_byte 4. get_byte 5. rewrite le_length by lia.
  replace (6 + Z.of_nat (length payload) + 2) with (Z.of_nat (length payload) + 8) by lia.
  rewrite (proj2 (Z.leb_le _ _)) by lia. rewrite (app_assoc [_; _] body).
  rewrite (buf_get_at ([0xB5; 0x62] ++ body) _ (Z.of_nat (length payload) + 8 - 2) 0 a), ret_bind by (done || rewrite length_app, Hb; cbn; lia).
  rewrite (buf_get_at ([0xB5; 0x62] ++ body) _ (Z.of_nat (length payload) + 8 - 1) 1 b), ret_bind by (done || rewrite length_app, Hb; cbn; lia).
  rewrite <- app_assoc, ubx_checksum_frame, ret_bind by lia.
  destruct (fletcher_from (0, 0) body) as [fa fb].
  destruct (Z.eqb_spec fa a) as [->|]; cbn [andb]; [|rewrite bool_decide_eq_false_2 by congruence; done].
  destruct (Z.eqb_spec fb b) as [->|]; [|rewrite bool_decide_eq_false_2 by congruence; done].
  rewrite bool_decide_eq_true_2 by done.
  get_byte 2. get_byte 3. done.
Qed.

Lemma ubx_timegps_fields st iTOW fTOW week leap flags acc rest :
  ubx_timegps st ([0xB5; 0x62] ++ ubx_body 0x01 0x20 (timegps_payload iTOW fTOW week leap flags acc) ++ rest)
  = Ret (if negb (Z.land flags 0x3 =? 0) then GpsTime (u32 iTOW) (s32 fTOW) (s16 week) true
         else GpsTime (gps_iTOW st) (gps_fTOW st) (gps_week st) false).
Proof.
  unfold ubx_timegps. get_byte 17.
  destruct (negb _); [|done]. get_byte 6. get_byte 7. get_byte 8. get_byte 9. get_byte 10. get_byte 11.
  get_byte 12. get_byte 13. get_byte 14. get_byte 15.
  rewrite !le32_value, le16_value. do 2 f_equal; cint_lia.
Qed.

Lemma ubx_frame_app body : ∃ a b,
  fletcher_from (0, 0) body = (a, b) ∧ ubx_frame body = [0xB5; 0x62] ++ body ++ [a; b].
Proof. unfold ubx_frame. destruct (fletcher_from (0, 0) body) as [a b]. by exists a, b. Qed.
Lemma ubx_frame_length cls id payload :
  length (ubx_frame (ubx_body cls id payload)) = (length payload + 8)%nat.
Proof.
  destruct (ubx_frame_app (ubx_body cls id payload)) as (a & b & _ & ->).
  rewrite !length_app. cbn [length ubx_body app]. lia.
Qed.

Lemma sum_insert l i x v : l !! i = Some x → foldr Z.add 0 (<[i := v]> l) = foldr Z.add 0 l - x + v.
Proof.
  revert i. induction l as [|y l IH]; intros [|i] Hi; try done.
  - cbn in Hi. injection Hi as ->. cbn. lia.
  - change (<[S i := v]> (y :: l)) with (y :: <[i := v]> l). cbn [foldr]. rewrite (IH i Hi). lia.
Qed.
(** A changed byte changes the first sum. *)
Lemma fletcher_insert l i x v :
  l !! i = Some x → is_u8 x → is_u8 v → v ≠ x →
  fletcher_from (0, 0) (<[i := v]> l) ≠ fletcher_from (0, 0) l.
Proof.
  intros Hi Hx Hv Hne E. apply (f_equal fst) in E. rewrite !fletcher_sum in E.
  assert (l ≠ []) by (by intros ->). assert (<[i := v]> l ≠ []).
  { intros E'. apply (f_equal length) in E'. rewrite length_insert in E'. by destruct l. }
  rewrite !bool_decide_eq_false_2 in E by done. rewrite (sum_insert _ _ _ _ Hi) in E. cbn [fst] in E.
  cint_lia.
Qed.

Lemma ubx_body_insert cls id payload i v :
  (i < length payload + 4)%nat → i ≠ 2%nat → i ≠ 3%nat →
  ∃ cls' id' payload', <[i := v]> (ubx_body cls id payload) = ubx_body cls' id' payload' ∧
    length payload' = length payload.
Proof.
  intros Hi H2 H3. destruct i as [|[|[|[|i]]]]; try done.
  - by exists v, id, payload.
  - by exists cls, v, payload.
  - exists cls, id, (<[i := v]> payload). unfold ubx_body. rewrite length_insert. done.
Qed.
Lemma ubx_changed_invalid st cls id payload k x v rest :
  Forall (λ x, is_u8 x) (ubx_body cls id payload) → Z.of_nat (length payload) < 2 ^ 16 →
  ubx_frame (ubx_body cls id payload) !! k = Some x →
  (2 <= k)%nat → k ≠ 4%nat → k ≠ 5%nat → is_u8 v → v ≠ x →
  lgw_parse_ubx st (Some (<[k := v]> (ubx_frame (ubx_body cls id payload)) ++ rest))
    (Z.of_nat (length payload + 8 + length rest))
  = Ret (st, INVALID, Z.of_nat (length payload) + 8).
Proof.
  intros Hb Hp Hk H2 H4 H5 Hv Hne.
  destruct (ubx_frame_app (ubx_body cls id payload)) as (a & b & Hab & Hfr). rewrite Hfr in *.
  assert (HB : length (ubx_body cls id payload) = (length payload + 4)%nat) by (cbn; lia).
  rewrite insert_app_r_alt, lookup_app_r in * by (cbn; lia). cbn [length] in *.
  destruct (decide (k - 2 < length payload + 4)%nat).
  - rewrite lookup_app_l in Hk by lia. rewrite insert_app_l by lia.
    destruct (ubx_body_insert cls id payload (k - 2) v) as (cls' & id' & payload' & E & Hl'); [lia|lia|lia|].
    rewrite E, <- !app_assoc, parse_message, Hl' by lia. rewrite bool_decide_eq_false_2; [done|].
    rewrite <- E, <- Hab. eapply fletcher_insert; [done| |done|done].
    rewrite List.Forall_forall in Hb. apply Hb, list_elem_of_In. by eapply list_elem_of_lookup_2.
  - rewrite lookup_app_r in Hk by lia. rewrite insert_app_r_alt by lia. rewrite HB in *.
    destruct (k - 2 - (length payload + 4))%nat as [|[|n']]; [| |done]; cbn in Hk; injection Hk as ->.
    + change (<[0%nat := v]> [x; b]) with [v; b]. rewrite <- !app_assoc, parse_message by lia.
      rewrite bool_decide_eq_false_2; [done|]. rewrite Hab. congruence.
    + change (<[1%nat := v]> [a; x]) with [a; v]. rewrite <- !app_assoc, parse_message by lia.
      rewrite bool_decide_eq_false_2; [done|]. rewrite Hab. congruence.
Qed.
Lemma ubx_cut_incomplete st cls id payload n :
  Z.of_nat (length payload) < 2 ^ 16 → (8 <= n < length payload + 8)%nat →
  lgw_parse_ubx st (Some (take n (ubx_frame (ubx_body cls id payload)))) (Z.of_nat n)
  = Ret (st, INCOMPLETE, Z.of_nat (length payload) + 8).
Proof.
  intros Hp Hn. destruct (ubx_frame_app (ubx_body cls id payload)) as (a & b & _ & ->).
  replace n with (6 + (n - 6))%nat at 1 by lia. cbn [Nat.add app ubx_body firstn].
  unfold lgw_parse_ubx. rewrite (proj2 (Z.ltb_ge _ _)) by lia. get_byte 0. get_byte 1.
  cbn [andb Z.eqb Pos.eqb]. get_byte 4. get_byte 5. rewrite le_length by lia.
  rewrite (proj2 (Z.leb_gt _ _)) by lia. do 2 f_equal. lia.
Qed.

(** *** NMEA sentences *)

Definition nmea_sum (c : Z) (body : list Z) : Z := foldl (λ c x, u8 (Z.lxor c x)) c body.

(** A sentence: an optional '$', characters other than '*', then '*', the two
    hexadecimal digits of their exclusive or, and at least one more byte. *)
Definition nmea_sentence (s : list Z) : Prop :=
  ∃ dollar body tail, s = dollar ++ body ++ [42; nibble_to_hexchar (nmea_sum 0 body / 16);
                                            nibble_to_hexchar (nmea_sum 0 body mod 16)] ++ tail ∧
    dollar = (if bool_decide (head s = Some 36) then [36] else []) ∧ (42 ∉ body) ∧ tail ≠ [].

Lemma nmea_xor_found n pre body tl size i c :
  42 ∉ body → (length body < n)%nat → i = Z.of_nat (length pre) → i + Z.of_nat (length body) < size →
  nmea_xor n (pre ++ body ++ (42 :: tl)) size i c
  = Ret (Some (i + Z.of_nat (length body), nmea_sum c body)).
Proof.
  revert n pre i c. induction body as [|x body IH]; intros [|n] pre i c Hb Hn Hi Hs; cbn [length] in *; try lia.
  - cbn [nmea_xor app]. rewrite (buf_get_at pre _ _ 0 42) by (done || lia). cstep. by rewrite Z.add_0_r.
  - apply not_elem_of_cons in Hb as [Hx Hb]. cbn [nmea_xor].
    rewrite (buf_get_at pre _ _ 0 x) by (done || lia). cstep. rewrite (proj2 (Z.eqb_neq _ _)) by done.
    rewrite (proj2 (Z.leb_gt _ _)) by lia.
    pose proof (IH n (pre ++ [x]) (i + 1) (u8 (Z.lxor c x)) Hb) as IH'.
    rewrite <- app_assoc, length_app in IH'. cbn [app length] in *. rewrite IH' by lia. do 3 f_equal. lia.
Qed.
Lemma nmea_xor_missing n pre l size i c :
  42 ∉ l → (length l <= n)%nat → l ≠ [] → i = Z.of_nat (length pre) → size = i + Z.of_nat (length l) →
  nmea_xor n (pre ++ l) size i c = Ret None.
Proof.
  revert n pre i c. induction l as [|x l IH]; intros n pre i c Hl Hn Hne Hi Hs; [done|].
  destruct n as [|n]; [done|]. apply not_elem_of_cons in Hl as [Hx Hl]. cbn [nmea_xor length] in *.
  rewrite (buf_get_at pre _ _ 0 x) by (done || lia). cstep. rewrite (proj2 (Z.eqb_neq _ _)) by done.
  destruct l as [|y l].
  - rewrite (proj2 (Z.leb_le _ _)); [done|]. cbn in Hs. lia.
  - rewrite (proj2 (Z.leb_gt _ _)) by (cbn [length] in Hs; lia).
    pose proof (IH n (pre ++ [x]) (i + 1) (u8 (Z.lxor c x)) Hl) as IH'.
    rewrite <- app_assoc, length_app in IH'. cbn [app length] in *. apply IH'; done || lia.
Qed.

Lemma validate_found s dollar body tl :
  s = dollar ++ body ++ (42 :: tl) → dollar = (if bool_decide (head s = Some 36) then [36] else []) →
  42 ∉ body → (2 <= length s)%nat →
  validate_nmea_checksum (Some s) (Z.of_nat (length s))
  = Ret (match tl with
         | h :: l :: _ :: _ => bool_decide (h = nibble_to_hexchar (nmea_sum 0 body / 16) ∧
                                            l = nibble_to_hexchar (nmea_sum 0 body mod 16))
         | _ => false
         end).
Proof.
  intros Hs Hd Hb Hn. unfold validate_nmea_checksum, nmea_checksum.
  rewrite (proj2 (Z.leb_gt _ _)) by lia. destruct s as [|s0 s']; [cbn in Hn; lia|].
  rewrite (buf_get_lookup _ 0 s0) by done. rewrite ret_bind.
  assert (Hstart : (if s0 =? 36 then 1 else 0) = Z.of_nat (length dollar)).
  { rewrite Hd. cbn [head]. destruct (Z.eqb_spec s0 36) as [->|]; [done|].
    by rewrite bool_decide_eq_false_2 by congruence. }
  rewrite Hstart, Hs, nmea_xor_found by (done || rewrite ?Nat2Z.id, !length_app; cbn; lia). rewrite !ret_bind.
  cbv beta iota. rewrite !length_app. cbn [length].
  replace (Z.of_nat (length dollar) + Z.of_nat (length body)) with (Z.of_nat (length dollar + length body)) by lia.
  destruct tl as [|h [|l [|z tl]]]; cbn [length];
    [rewrite (proj2 (Z.leb_le _ _)) by lia; done..|].
  rewrite (proj2 (Z.leb_gt _ _)) by lia. rewrite (app_assoc dollar).
  rewrite (buf_get_at (dollar ++ body) _ (Z.of_nat (length dollar + length body) + 1) 1 h)
    by (done || rewrite length_app; lia). cstep.
  destruct (Z.eqb_spec h (nibble_to_hexchar (nmea_sum 0 body / 16))); cbn [negb];
    [|by rewrite bool_decide_eq_false_2 by tauto].
  rewrite (buf_get_at (dollar ++ body) _ (Z.of_nat (length dollar + length body) + 1 + 1) 2 l)
    by (done || rewrite length_app; lia). cstep. f_equal.
  destruct (Z.eqb_spec l (nibble_to_hexchar (nmea_sum 0 body mod 16)));
    [by rewrite bool_decide_eq_true_2|by rewrite bool_decide_eq_false_2 by tauto].
Qed.

(** ** Properties *)

(** A NAV-TIMEGPS message is parsed back to the time it was made from: the
    time of week, its signed fraction and the week are stored and marked valid
    when a validity flag is set, otherwise only the mark is cleared; the message
    size is 24, and what follows the message in the buffer does not matter. *)
Theorem ubx_timegps_roundtrip st iTOW fTOW week leap flags acc rest :
  is_u32 iTOW → is_s32 fTOW → - 2 ^ 15 <= week < 2 ^ 15 →
  let f := ubx_frame (ubx_body 0x01 0x20 (timegps_payload iTOW fTOW week leap flags acc)) in
  lgw_parse_ubx st (Some (f ++ rest)) (Z.of_nat (length (f ++ rest)))
  = Ret (if negb (Z.land flags 0x3 =? 0) then GpsTime iTOW fTOW week true
         else GpsTime (gps_iTOW st) (gps_fTOW st) (gps_week st) false, UBX_NAV_TIMEGPS, 24).
Proof.
  intros Hi Hf Hw f. pose proof (ubx_frame_length 0x01 0x20 (timegps_payload iTOW fTOW week leap flags acc)) as Hl.
  destruct (ubx_frame_app (ubx_body 0x01 0x20 (timegps_payload iTOW fTOW week leap flags acc)))
    as (a & b & Hab & Hfr). fold f in Hfr, Hl. rewrite length_app, Hl, Hfr, <- !app_assoc.
  rewrite parse_message by (cbn; lia). rewrite bool_decide_eq_true_2 by done. cbn [andb Z.eqb Pos.eqb].
  rewrite ubx_timegps_fields. cstep. rewrite (u32_id iTOW), (s32_id fTOW) by done.
  assert (s16 week = week) as -> by cint_lia. done.
Qed.

(** A damaged UBX message is never taken for a message: when one byte of it
    other than the two synchronisation bytes and the two length bytes is changed
    the parser reports INVALID, when its end is missing INCOMPLETE, both with the
    size of the message and with the stored time unchanged. *)
Theorem ubx_damage_detected st cls id payload rest :
  Forall (λ x, is_u8 x) (ubx_body cls id payload) →
  let f := ubx_frame (ubx_body cls id payload) in
  (∀ k x v, f !! k = Some x → (2 <= k)%nat → k ≠ 4%nat → k ≠ 5%nat → is_u8 v → v ≠ x →
     lgw_parse_ubx st (Some (<[k := v]> f ++ rest)) (Z.of_nat (length (f ++ rest)))
     = Ret (st, INVALID, Z.of_nat (length f))) ∧
  (∀ n, (8 <= n < length f)%nat →
     lgw_parse_ubx st (Some (take n f)) (Z.of_nat n) = Ret (st, INCOMPLETE, Z.of_nat (length f))).
Proof.
  intros Hb f. assert (Hp : Z.of_nat (length payload) < 2 ^ 16).
  { do 3 apply List.Forall_inv_tail in Hb. apply List.Forall_inv in Hb. cbn beta in Hb.
    Z.to_euclidean_division_equations. lia. }
  pose proof (ubx_frame_length cls id payload) as Hl. fold f in Hl. rewrite Hl.
  replace (Z.of_nat (length payload + 8)) with (Z.of_nat (length payload) + 8) by lia. split.
  - intros k x v Hk H2 H4 H5 Hv Hne. rewrite length_app, Hl. by apply (ubx_changed_invalid st cls id payload k x v).
  - intros n Hn. by apply ubx_cut_incomplete.
Qed.

(** For every buffer the NMEA check returns without reading outside of it,
    and accepts exactly the sentences: an optional '$', a body without '*', a
    '*', the two upper-case hexadecimal digits of the exclusive or of the body,
    and at least one byte after them. *)
Theorem nmea_accepts_exactly_sentences s :
  ∃ ok, validate_nmea_checksum (Some s) (Z.of_nat (length s)) = Ret ok ∧ (ok = true ↔ nmea_sentence s).
Proof.
  destruct (decide (2 <= length s)%nat) as [Hn|Hn].
  2:{ exists false. split.
    - unfold validate_nmea_checksum, nmea_checksum. by rewrite (proj2 (Z.leb_le _ _)) by lia.
    - split; [done|]. intros (d & b & t & E & _). apply (f_equal length) in E.
      rewrite !length_app in E. cbn in E. lia. }
  set (dollar := if bool_decide (head s = Some 36) then [36] else []).
  assert (∃ r, s = dollar ++ r) as [r Hr].
  { unfold dollar. case_bool_decide; [|by exists s]. destruct s as [|x s]; [done|]. exists s. cbn in *. congruence. }
  destruct (decide (42 ∈ r)) as [Hin|Hin].
  - destruct (list_elem_of_split_l r 42 Hin) as (body & tl & -> & Hb).
    rewrite (validate_found s dollar body tl) by done. eexists. split; [done|]. split.
    + destruct tl as [|h [|l [|z tl]]]; try done. intros [-> ->]%bool_decide_eq_true.
      exists dollar, body, (z :: tl). by split_and!.
    + intros (d & b & t & E & Hd & Hb' & Ht).
      pose proof (validate_found s d b _ E Hd Hb' Hn) as V.
      rewrite (validate_found s dollar body tl Hr eq_refl Hb Hn) in V. injection V as ->.
      destruct t; [done|]. by apply bool_decide_eq_true_2.
  - exists false. split.
    + unfold validate_nmea_checksum, nmea_checksum. rewrite (proj2 (Z.leb_gt _ _)) by lia.
      destruct s as [|s0 s']; [cbn in Hn; lia|]. rewrite (buf_get_lookup _ 0 s0), ret_bind by done.
      assert (Hstart : (if s0 =? 36 then 1 else 0) = Z.of_nat (length dollar)).
      { unfold dollar. cbn [head]. destruct (Z.eqb_spec s0 36) as [->|]; [done|].
        by rewrite bool_decide_eq_false_2 by congruence. }
      assert (r ≠ []).
      { intros ->. rewrite Hr, app_nil_r in Hn. unfold dollar in Hn. destruct (bool_decide _); cbn in Hn; lia. }
      by rewrite Hstart, Hr, nmea_xor_missing by (done || rewrite ?Nat2Z.id, length_app; lia).
    + split; [done|]. intros (d & b & t & E & Hd & _). fold dollar in Hd. subst d. rewrite Hr in E at 1.
      apply app_inv_head in E. subst r. exfalso. apply Hin.
      apply elem_of_app. right. constructor.
Qed.

(** ** Witnesses *)

Definition no_time : gps_time_s := GpsTime 0 0 0 false.
Lemma ubx_timegps_roundtrip_witness :
  let f := ubx_frame (ubx_body 0x01 0x20 (timegps_payload 345600000 (-250) 2100 18 7 25)) in
  lgw_parse_ubx no_time (Some (f ++ [0])) (Z.of_nat (length (f ++ [0])))
  = Ret (GpsTime 345600000 (-250) 2100 true, UBX_NAV_TIMEGPS, 24).
Proof. apply (ubx_timegps_roundtrip no_time 345600000 (-250) 2100 18 7 25 [0]); lia. Defined.

Lemma ubx_damage_detected_witness :
  lgw_parse_ubx no_time (Some (<[7%nat := 9]> (ubx_frame (ubx_body 0x01 0x20 [1; 2; 3])) ++ []))
    (Z.of_nat (length (ubx_frame (ubx_body 0x01 0x20 [1; 2; 3]) ++ [])))
  = Ret (no_time, INVALID, Z.of_nat (length (ubx_frame (ubx_body 0x01 0x20 [1; 2; 3])))).
Proof.
  refine (proj1 (ubx_damage_detected no_time 0x01 0x20 [1; 2; 3] [] _) 7%nat 2 9 _ _ _ _ _ _);
    [|reflexivity|lia|lia|lia|lia|lia].
  apply (bool_decide_eq_true_1 (Forall (λ x, is_u8 x) (ubx_body 0x01 0x20 [1; 2; 3]))).
  vm_compute. reflexivity.
Defined.

(** The characters [$GP*17] and a carriage return. *)
Example nmea_sentence_accepted :
  validate_nmea_checksum (Some [36; 71; 80; 42; 49; 55; 13]) 7 = Ret true.
Proof. vm_compute. reflexivity. Qed.
