(* ===== verification/Sx1302Rx.v ===== *)
(** * Reception ([libloragw/src/loragw_sx1302.c], [loragw_sx1302_timestamp.c])

    The state of the receive path is the link, the RX buffer, the extended
    counters and the history of PPS counts. [sx1302_fetch] fills the buffer from
    the chip, [sx1302_update] follows the counter of the chip, and
    [sx1302_parse] takes one packet out of the buffer and turns it into the
    packet of the HAL, with its fine time stamp when there is one. *)
From stdpp Require Import base list numbers strings.
From Stdlib Require Import ZArith Lia.
From S2P Require Import Prelude Binary64 HalTypes TimeOnAir Com RegTable RegIds Reg RegProg RxBuffer.
From S2P Require Import Timestamp Merge HalConf Sx1302Conf Crc.

Open Scope Z_scope.
Open Scope list_scope.

(** ** State *)

Record rx_state (W : Type) := RxState {
  rx_link : com_state W; rx_buffer : rx_buffer_s; counter_us : timestamp_counter_s;
  pps_history : timestamp_pps_history_s }.
Arguments RxState {W}.
Arguments rx_link {W}.
Arguments rx_buffer {W}.
Arguments counter_us {W}.
Arguments pps_history {W}.

Abbreviation rprog W := (eff (rx_state W)).

Definition on_link {W A} : prog W A → rprog W A :=
  zoom rx_link (λ s c, RxState c (rx_buffer s) (counter_us s) (pps_history s)).
Definition get_buffer {W} : rprog W rx_buffer_s := λ s, Done s (rx_buffer s).
Definition put_buffer {W} (b : rx_buffer_s) : rprog W () :=
  λ s, Done (RxState (rx_link s) b (counter_us s) (pps_history s)) ().
Definition get_counter {W} : rprog W timestamp_counter_s := λ s, Done s (counter_us s).
Definition put_counter {W} (c : timestamp_counter_s) : rprog W () :=
  λ s, Done (RxState (rx_link s) (rx_buffer s) c (pps_history s)) ().
Definition get_history {W} : rprog W timestamp_pps_history_s := λ s, Done s (pps_history s).
Definition put_history {W} (h : timestamp_pps_history_s) : rprog W () :=
  λ s, Done (RxState (rx_link s) (rx_buffer s) (counter_us s) h) ().

(** ** Constants *)

Definition RSSI_FSK_POLY_0 : double := rnd 90636423 1000000.
Definition RSSI_FSK_POLY_1 : double := rnd 420835 1000000.
Definition RSSI_FSK_POLY_2 : double := rnd 7129 1000000.
Definition RSSI_FSK_POLY_3 : double := rnd (-26) 1000000.
Definition FREQ_OFFSET_LSB_125KHZ : double := frnd 11920929 100000000.
Definition FREQ_OFFSET_LSB_250KHZ : double := frnd 238418579 1000000000.
Definition FREQ_OFFSET_LSB_500KHZ : double := frnd 476837158 1000000000.

(** ** The fine time stamp *)

(** The delay of the DC notch filter, in cycles of the 32 MHz clock. *)
Definition sx1302_dc_notch_delay (if_freq_khz : double) : double :=
  if dltb if_freq_khz (dbl_of_Z (-75)) || dltb (dbl_of_Z 75) if_freq_khz then Dbl 0 0
  else
    dadd (dsub (dsub (dadd (dmul (rnd 17 10000000) (dpow if_freq_khz 4))
                           (dmul (rnd 24 10000000) (dpow if_freq_khz 3)))
                     (dmul (rnd 101 10000) (dpow if_freq_khz 2)))
               (dmul (rnd 1275 100000) if_freq_khz))
         (rnd 102922 10000).

Definition clip_metrics (sf ts_metrics_nb : Z) : Z :=
  if sf =? 12 then Z.min 4 ts_metrics_nb
  else if sf =? 11 then Z.min 8 ts_metrics_nb
  else if sf =? 10 then Z.min 16 ts_metrics_nb
  else Z.min 32 ts_metrics_nb.

(** The cycles between the end of the preamble and the end of the header. *)
Definition preamble_hdr_cycles (sf : Z) : Z :=
  u32 (256 * Z.shiftl 1 sf * (8 + 4 + (if (sf =? 5) || (sf =? 6) then 2 else 0)) +
       256 * (Z.quot (Z.shiftl 1 sf) 4 - 1)).

(** The last element and the sum of the cumulative sums of the metrics
    [i], ..., [i + n - 1]. *)
Definition ftime_sums (ts_metrics : list Z) (n : nat) (i : Z) (last sum : Z) : outcome (Z * Z) :=
  for_loop n i (λ i '(last, sum), x ← buf_get ts_metrics i; Ret (last + x, sum + (last + x))) (last, sum).

(** The search of a PPS count less than a second before [cnt], from index [i]. *)
Fixpoint find_pps (n : nat) (h : list Z) (cnt i : Z) : outcome (option (Z * Z)) :=
  match n with
  | O => Ret None
  | S n =>
    t ← buf_get h i;
    if u32 (cnt - t) <? 32000000 then Ret (Some (i, t)) else find_pps n h cnt (i + 1)
  end.

(** The reference PPS count and the cycles between two pulses at it. *)
Definition pps_reference (h : timestamp_pps_history_s) (cnt pps_reg : Z) : outcome (option (Z * Z)) :=
  if 32000000 <? u32 (cnt - pps_reg) then
    r ← find_pps (Z.to_nat (size h)) (history h) cnt 0;
    match r with
    | None => Ret None
    | Some (i, t) =>
      let next := if i =? MAX_TIMESTAMP_PPS_HISTORY - 1 then 0 else i + 1 in
      tn ← buf_get (history h) next;
      ti ← buf_get (history h) i;
      Ret (Some (t, u32 (tn - ti)))
    end
  else
    let i := idx h in
    let prev := if i =? 0 then MAX_TIMESTAMP_PPS_HISTORY - 1 else i - 1 in
    ti ← buf_get (history h) i;
    tp ← buf_get (history h) prev;
    Ret (Some (pps_reg, u32 (ti - tp))).

(** The nanoseconds since the reference pulse. *)
Definition ftime_ns (diff_pps : Z) (ftime_mean xtal_correct : double) (if_freq_hz : Z) : outcome Z :=
  let pkt_ftime := dadd (dbl_of_Z diff_pps) ftime_mean in
  let pkt_ftime := dadd pkt_ftime (sx1302_dc_notch_delay (ddiv (dbl_of_Z if_freq_hz) (dbl_of_Z 1000))) in
  let pkt_ftime := dmul pkt_ftime (rnd 3125 100) in
  let pkt_ftime := dmul pkt_ftime xtal_correct in
  u32_of_double pkt_ftime.

Section Ftime.
Context {W : Type} (spi usb : driver W).

(** The result, and the value stored through [result_ftime], if any. The
    number of metrics is not 0 in the only call. A difference of 0 between two
    pulses gives an infinite correction, which is refused. *)
Definition precise_timestamp_calculate (ts_metrics_nb : Z) (ts_metrics : list Z) (timestamp_cnt sf if_freq_hz : Z)
    (pkt_freq_error : double) (junk : list Z) : rprog W (Z * option Z) :=
  h ← get_history;
  if size h <? MAX_TIMESTAMP_PPS_HISTORY then mret (-1, None)
  else
    let offset := preamble_hdr_cycles sf in
    offset ← pure_of (u32_of_double (dadd (dbl_of_Z offset)
                        (dadd (dmul (dbl_of_Z offset) pkt_freq_error) (rnd 5 10))));
    let timestamp_cnt := u32 (timestamp_cnt - offset + 2138) in
    let n := clip_metrics sf ts_metrics_nb in
    first ← pure_of (buf_get ts_metrics 0);
    '(_, ftime_sum) ← pure_of (ftime_sums ts_metrics (Z.to_nat (2 * n - 1)) 1 first first);
    if n =? 0 then wrong
    else
      let ftime_mean := fdiv (float_of_Z ftime_sum) (float_of_Z (2 * n)) in
      '(x, b) ← on_link (call (λ s, lgw_reg_rb spi usb s
                  SX1302_REG_TIMESTAMP_TIMESTAMP_PPS_MSB2_TIMESTAMP_PPS (Some junk)));
      if negb (x =? LGW_REG_SUCCESS) then mret (0, None)
      else
        let pps_reg := word_at (default junk b) 0 in
        h ← pure_of (timestamp_pps_history_save h pps_reg);
        _ ← put_history h;
        r ← pure_of (pps_reference h timestamp_cnt pps_reg);
        match r with
        | None => mret (-1, None)
        | Some (timestamp_pps, diff_pps) =>
          if diff_pps =? 0 then mret (-1, None)
          else
            let xtal_correct := ddiv (dbl_of_Z 32000000) (dbl_of_Z diff_pps) in
            if dltb (rnd 12 10) xtal_correct || dltb xtal_correct (rnd 8 10) then mret (-1, None)
            else
              ftime ← pure_of (ftime_ns (u32 (timestamp_cnt - timestamp_pps)) ftime_mean xtal_correct if_freq_hz);
              mret (if 1000000000 <? ftime then -1 else 0, Some ftime)
        end.
End Ftime.

(** ** The packet of the HAL *)

(** Assignments to fields of [struct lgw_pkt_rx_s]. *)
Definition with_origin (p : lgw_pkt_rx_s) (payload : list Z) (size modem_id if_chain : Z) : lgw_pkt_rx_s :=
  {| Rx.freq_hz := Rx.freq_hz p; Rx.freq_offset := Rx.freq_offset p; Rx.if_chain := if_chain;
     Rx.status := Rx.status p; Rx.count_us := Rx.count_us p; Rx.rf_chain := Rx.rf_chain p;
     Rx.modem_id := modem_id; Rx.modulation := Rx.modulation p; Rx.bandwidth := Rx.bandwidth p;
     Rx.datarate := Rx.datarate p; Rx.coderate := Rx.coderate p; Rx.rssic := Rx.rssic p;
     Rx.rssis := Rx.rssis p; Rx.snr := Rx.snr p; Rx.snr_min := Rx.snr_min p; Rx.snr_max := Rx.snr_max p;
     Rx.crc := Rx.crc p; Rx.size := size; Rx.payload := payload;
     Rx.ftime_received := Rx.ftime_received p; Rx.ftime := Rx.ftime p |}.
Definition with_radio (p : lgw_pkt_rx_s) (rf_chain freq_hz : Z) (rssic rssis : double) : lgw_pkt_rx_s :=
  {| Rx.freq_hz := freq_hz; Rx.freq_offset := Rx.freq_offset p; Rx.if_chain := Rx.if_chain p;
     Rx.status := Rx.status p; Rx.count_us := Rx.count_us p; Rx.rf_chain := rf_chain;
     Rx.modem_id := Rx.modem_id p; Rx.modulation := Rx.modulation p; Rx.bandwidth := Rx.bandwidth p;
     Rx.datarate := Rx.datarate p; Rx.coderate := Rx.coderate p; Rx.rssic := rssic;
     Rx.rssis := rssis; Rx.snr := Rx.snr p; Rx.snr_min := Rx.snr_min p; Rx.snr_max := Rx.snr_max p;
     Rx.crc := Rx.crc p; Rx.size := Rx.size p; Rx.payload := Rx.payload p;
     Rx.ftime_received := Rx.ftime_received p; Rx.ftime := Rx.ftime p |}.
Definition with_status (p : lgw_pkt_rx_s) (modulation status : Z) : lgw_pkt_rx_s :=
  {| Rx.freq_hz := Rx.freq_hz p; Rx.freq_offset := Rx.freq_offset p; Rx.if_chain := Rx.if_chain p;
     Rx.status := status; Rx.count_us := Rx.count_us p; Rx.rf_chain := Rx.rf_chain p;
     Rx.modem_id := Rx.modem_id p; Rx.modulation := modulation; Rx.bandwidth := Rx.bandwidth p;
     Rx.datarate := Rx.datarate p; Rx.coderate := Rx.coderate p; Rx.rssic := Rx.rssic p;
     Rx.rssis := Rx.rssis p; Rx.snr := Rx.snr p; Rx.snr_min := Rx.snr_min p; Rx.snr_max := Rx.snr_max p;
     Rx.crc := Rx.crc p; Rx.size := Rx.size p; Rx.payload := Rx.payload p;
     Rx.ftime_received := Rx.ftime_received p; Rx.ftime := Rx.ftime p |}.
Definition with_modem (p : lgw_pkt_rx_s) (snr : double) (bandwidth datarate coderate : Z) : lgw_pkt_rx_s :=
  {| Rx.freq_hz := Rx.freq_hz p; Rx.freq_offset := Rx.freq_offset p; Rx.if_chain := Rx.if_chain p;
     Rx.status := Rx.status p; Rx.count_us := Rx.count_us p; Rx.rf_chain := Rx.rf_chain p;
     Rx.modem_id := Rx.modem_id p; Rx.modulation := Rx.modulation p; Rx.bandwidth := bandwidth;
     Rx.datarate := datarate; Rx.coderate := coderate; Rx.rssic := Rx.rssic p;
     Rx.rssis := Rx.rssis p; Rx.snr := snr; Rx.snr_min := Rx.snr_min p; Rx.snr_max := Rx.snr_max p;
     Rx.crc := Rx.crc p; Rx.size := Rx.size p; Rx.payload := Rx.payload p;
     Rx.ftime_received := Rx.ftime_received p; Rx.ftime := Rx.ftime p |}.
Definition with_offset (p : lgw_pkt_rx_s) (freq_offset : Z) (ftime_received : bool) (ftime : Z) : lgw_pkt_rx_s :=
  {| Rx.freq_hz := Rx.freq_hz p; Rx.freq_offset := freq_offset; Rx.if_chain := Rx.if_chain p;
     Rx.status := Rx.status p; Rx.count_us := Rx.count_us p; Rx.rf_chain := Rx.rf_chain p;
     Rx.modem_id := Rx.modem_id p; Rx.modulation := Rx.modulation p; Rx.bandwidth := Rx.bandwidth p;
     Rx.datarate := Rx.datarate p; Rx.coderate := Rx.coderate p; Rx.rssic := Rx.rssic p;
     Rx.rssis := Rx.rssis p; Rx.snr := Rx.snr p; Rx.snr_min := Rx.snr_min p; Rx.snr_max := Rx.snr_max p;
     Rx.crc := Rx.crc p; Rx.size := Rx.size p; Rx.payload := Rx.payload p;
     Rx.ftime_received := ftime_received; Rx.ftime := ftime |}.
Definition with_rssi (p : lgw_pkt_rx_s) (rssic rssis : double) : lgw_pkt_rx_s :=
  with_radio p (Rx.rf_chain p) (Rx.freq_hz p) rssic rssis.
Definition with_snr_range (p : lgw_pkt_rx_s) (snr_min snr_max : double) : lgw_pkt_rx_s :=
  {| Rx.freq_hz := Rx.freq_hz p; Rx.freq_offset := Rx.freq_offset p; Rx.if_chain := Rx.if_chain p;
     Rx.status := Rx.status p; Rx.count_us := Rx.count_us p; Rx.rf_chain := Rx.rf_chain p;
     Rx.modem_id := Rx.modem_id p; Rx.modulation := Rx.modulation p; Rx.bandwidth := Rx.bandwidth p;
     Rx.datarate := Rx.datarate p; Rx.coderate := Rx.coderate p; Rx.rssic := Rx.rssic p;
     Rx.rssis := Rx.rssis p; Rx.snr := Rx.snr p; Rx.snr_min := snr_min; Rx.snr_max := snr_max;
     Rx.crc := Rx.crc p; Rx.size := Rx.size p; Rx.payload := Rx.payload p;
     Rx.ftime_received := Rx.ftime_received p; Rx.ftime := Rx.ftime p |}.
Definition with_time (p : lgw_pkt_rx_s) (count_us crc : Z) : lgw_pkt_rx_s :=
  {| Rx.freq_hz := Rx.freq_hz p; Rx.freq_offset := Rx.freq_offset p; Rx.if_chain := Rx.if_chain p;
     Rx.status := Rx.status p; Rx.count_us := count_us; Rx.rf_chain := Rx.rf_chain p;
     Rx.modem_id := Rx.modem_id p; Rx.modulation := Rx.modulation p; Rx.bandwidth := Rx.bandwidth p;
     Rx.datarate := Rx.datarate p; Rx.coderate := Rx.coderate p; Rx.rssic := Rx.rssic p;
     Rx.rssis := Rx.rssis p; Rx.snr := Rx.snr p; Rx.snr_min := Rx.snr_min p; Rx.snr_max := Rx.snr_max p;
     Rx.crc := crc; Rx.size := Rx.size p; Rx.payload := Rx.payload p;
     Rx.ftime_received := Rx.ftime_received p; Rx.ftime := Rx.ftime p |}.

(** ** Values of a packet *)

(** The status of a LoRa packet; [None] when the payload does not have the
    checksum the chip found right. *)
Definition lora_status (crc_on : bool) (pkt : rx_packet_s) (payload : list Z) : option Z :=
  if crc_on then
    if payload_crc_error pkt then Some STAT_CRC_BAD
    else if (0 <? rxbytenb_modem pkt) &&
            negb (sx1302_lora_payload_crc (take (Z.to_nat (rxbytenb_modem pkt)) payload) =? rx_crc16_value pkt)
    then None
    else Some STAT_CRC_OK
  else Some STAT_NO_CRC.
Definition lora_datarate (rx_rate_sf : Z) : Z :=
  if rx_rate_sf =? 5 then DR_LORA_SF5 else if rx_rate_sf =? 6 then DR_LORA_SF6
  else if rx_rate_sf =? 7 then DR_LORA_SF7 else if rx_rate_sf =? 8 then DR_LORA_SF8
  else if rx_rate_sf =? 9 then DR_LORA_SF9 else if rx_rate_sf =? 10 then DR_LORA_SF10
  else if rx_rate_sf =? 11 then DR_LORA_SF11 else if rx_rate_sf =? 12 then DR_LORA_SF12
  else DR_UNDEFINED.
Definition lora_coderate (cr : Z) : Z :=
  if cr =? 1 then CR_LORA_4_5 else if cr =? 2 then CR_LORA_4_6
  else if cr =? 3 then CR_LORA_4_7 else if cr =? 4 then CR_LORA_4_8 else CR_UNDEFINED.
(** The frequency offset in Hz. *)
Definition lora_freq_offset (bandwidth frequency_offset_error : Z) : outcome Z :=
  let offset lsb := s32_of_double (fmul (float_of_Z frequency_offset_error) lsb) in
  if bandwidth =? BW_125KHZ then offset FREQ_OFFSET_LSB_125KHZ
  else if bandwidth =? BW_250KHZ then offset FREQ_OFFSET_LSB_250KHZ
  else if bandwidth =? BW_500KHZ then offset FREQ_OFFSET_LSB_500KHZ
  else Ret 0.
(** The error of the IF frequency in the registers of the channel. *)
Definition if_freq_error (if_freq_hz : Z) : outcome Z :=
  r ← IF_HZ_TO_REG if_freq_hz;
  x ← int_ok (r * 15625);
  Ret (if_freq_hz - Z.quot x 32).
Definition fsk_rssi (rssic : double) : double :=
  float_of_double
    (dadd (dadd (dadd RSSI_FSK_POLY_0 (dmul RSSI_FSK_POLY_1 rssic))
                (dmul RSSI_FSK_POLY_2 (dpow rssic 2)))
          (dmul RSSI_FSK_POLY_3 (dpow rssic 3))).

(** In [dB], for a temperature in degrees. *)
Definition sx1302_rssi_get_temperature_offset (context : Rxrf.lgw_rssi_tcomp_s) (temperature : double) : double :=
  float_of_double
    (ddiv (dadd (dadd (dadd (dadd (dmul (Rxrf.coeff_a context) (dpow temperature 4))
                                  (dmul (Rxrf.coeff_b context) (dpow temperature 3)))
                            (dmul (Rxrf.coeff_c context) (dpow temperature 2)))
                      (fmul (Rxrf.coeff_d context) temperature))
                (Rxrf.coeff_e context))
          (dpow (dbl_of_Z 2) 16)).

(** ** The functions *)

Section Rx.
Context {W : Type} (spi usb : driver W).

(** What uninitialised local variables hold: the packet of [sx1302_parse], the
    two bytes of [rx_buffer_fetch], the two times eight of
    [timestamp_counter_get] and the four of [precise_timestamp_calculate]. *)
Record locals := {
  junk_packet : rx_packet_s; junk_2 : list Z; junk_8 : list Z; junk_8_wa : list Z; junk_4 : list Z }.
Context (junk : locals).

Definition sx1302_init (ftime_context : option lgw_conf_ftime_s) : rprog W Z :=
  body (ftime_context ← CHECK_NULL ftime_context;
    _ ← put_counter timestamp_counter_new;
    _ ← put_buffer rx_buffer_new;
    _ ← (if ftime_enable ftime_context then
           model_id ← on_link (sx1302_get_model_id spi usb);
           if negb (model_id =? CHIP_MODEL_ID_SX1303) then failed else mret ()
         else mret ());
    x ← on_link (call (λ s, timestamp_counter_mode spi usb s (ftime_enable ftime_context)));
    _ ← CHECK_OK x;
    x ← on_link (sx1302_config_gpio spi usb);
    _ ← CHECK_OK x;
    mret LGW_REG_SUCCESS).

(** [timestamp_counter_get(&counter_us, &inst, &pps)]: the two counts, if set. *)
Definition counter_get : rprog W (option (Z * Z)) :=
  self ← get_counter;
  h ← get_history;
  s ← (λ s, Done s (rx_link s));
  '(s, self, h, _, r) ← pure_of (timestamp_counter_get spi usb s self h (junk_8 junk) (junk_8_wa junk));
  _ ← on_link (λ _, Done s ());
  _ ← put_counter self;
  _ ← put_history h;
  mret r.

(** The status of the reading is not looked at. *)
Definition sx1302_update : rprog W Z := _ ← counter_get; mret LGW_REG_SUCCESS.

Definition sx1302_timestamp_counter (pps : bool) : rprog W Z :=
  r ← counter_get;
  match r with
  | Some (inst_cnt, pps_cnt) => mret (if pps then pps_cnt else inst_cnt)
  | None => wrong
  end.

(** The status and the value stored through [nb_pkt]. *)
Definition sx1302_fetch : rprog W (Z * option Z) :=
  b ← get_buffer;
  err ← (if buffer_pkt_nb b =? 0 then
           _ ← put_buffer rx_buffer_new;
           s ← (λ s, Done s (rx_link s));
           r ← (λ st, match rx_buffer_fetch spi usb s (Some rx_buffer_new) (junk_2 junk) with
                      | Some r => Done st r
                      | None => Spin
                      end);
           '(s, b, err) ← pure_of r;
           _ ← on_link (λ _, Done s ());
           _ ← put_buffer (default rx_buffer_new b);
           mret err
         else mret LGW_REG_SUCCESS);
  if negb (err =? LGW_REG_SUCCESS) then mret (LGW_REG_ERROR, None)
  else b ← get_buffer; mret (LGW_REG_SUCCESS, Some (buffer_pkt_nb b)).

(** The fine time stamp of a LoRa packet. *)
Definition parse_ftime (pkt : rx_packet_s) (p : lgw_pkt_rx_s) (if_freq_hz freq_offset : Z)
  : rprog W (bool * Z) :=
  if (0 <? num_ts_metrics_stored pkt) && timing_set pkt && (Rx.status p =? STAT_CRC_OK) then
    if Rx.freq_hz p =? 0 then wrong
    else
      let pkt_freq_error :=
        dsub (ddiv (dbl_of_Z (u32 (Rx.freq_hz p + freq_offset))) (dbl_of_Z (Rx.freq_hz p))) (dbl_of_Z 1) in
      '(err, ftime) ← precise_timestamp_calculate spi usb (num_ts_metrics_stored pkt) (timestamp_avg pkt)
                        (timestamp_cnt pkt) (rx_rate_sf pkt) if_freq_hz pkt_freq_error (junk_4 junk);
      mret (err =? 0, default 0 ftime)
  else mret (false, 0).

(** The part of [sx1302_parse] for LoRa packets: the packet and the correction
    of its time, or the packet and an error. *)
Definition parse_lora (context : lgw_context_s) (ifmod : Z) (if_cfg : Rxif.lgw_conf_rxif_s) (pkt : rx_packet_s)
    (p : lgw_pkt_rx_s) : rprog W (lgw_pkt_rx_s * option Z) :=
  let service := lora_service_cfg context in
  match lora_status (crc_en pkt || ((ifmod =? IF_LORA_STD) && Rxif.implicit_crc_en service)) pkt (Rx.payload p) with
  | None => mret (with_status p MOD_LORA STAT_CRC_OK, None)
  | Some status =>
    let p := with_status p MOD_LORA status in
    let bandwidth := if ifmod =? IF_LORA_MULTI then BW_125KHZ else Rxif.bandwidth service in
    let datarate := lora_datarate (rx_rate_sf pkt) in
    let coderate := lora_coderate (if (ifmod =? IF_LORA_MULTI) || negb (Rxif.implicit_hdr service)
                                   then coding_rate pkt else Rxif.implicit_coderate service) in
    let p := with_modem p (fdiv (float_of_Z (snr_average pkt)) (float_of_Z 4)) bandwidth datarate coderate in
    offset ← pure_of (lora_freq_offset bandwidth (frequency_offset_error pkt));
    error ← pure_of (if_freq_error (Rxif.freq_hz if_cfg));
    let freq_offset := s32 (offset + error) in
    correction ← pure_of (timestamp_counter_correction (Some (ftime_enable (ftime_cfg context))) bandwidth datarate
                            coderate (crc_en pkt) (rxbytenb_modem pkt) Timestamp.RX_DFT_PEAK_MODE_AUTO);
    '(received, ftime) ← parse_ftime pkt p (Rxif.freq_hz if_cfg) freq_offset;
    mret (with_offset p freq_offset received ftime, Some correction)
  end.

Definition parse_fsk (context : lgw_context_s) (pkt : rx_packet_s) (p : lgw_pkt_rx_s)
  : rprog W (lgw_pkt_rx_s * option Z) :=
  let fsk := fsk_cfg context in
  let status := if crc_en pkt then (if payload_crc_error pkt then STAT_CRC_BAD else STAT_CRC_OK) else STAT_NO_CRC in
  let p := with_status p MOD_FSK status in
  if Rxif.datarate fsk =? 0 then wrong
  else
    let correction := s32 (u32 (680000 / Rxif.datarate fsk - 20)) in
    let p := with_modem p (dbl_of_Z (-128)) (Rxif.bandwidth fsk) (Rxif.datarate fsk) CR_UNDEFINED in
    mret (with_rssi p (fsk_rssi (Rx.rssic p)) (dbl_of_Z (-128)), Some correction).

Definition parse_other (p : lgw_pkt_rx_s) : rprog W (lgw_pkt_rx_s * option Z) :=
  let low := dbl_of_Z (-128) in
  let p := with_modem (with_status p MOD_UNDEFINED STAT_UNDEFINED) low BW_UNDEFINED DR_UNDEFINED CR_UNDEFINED in
  mret (with_snr_range (with_rssi p low low) low low, Some 0).

(** The status and what is then in [*p]; the pointers are not NULL. *)
Definition sx1302_parse (context : lgw_context_s) (p : lgw_pkt_rx_s) : rprog W (Z * lgw_pkt_rx_s) :=
  b ← get_buffer;
  '(b', err, pkt) ← pure_of (rx_buffer_pop b (junk_packet junk));
  _ ← put_buffer (if err =? LGW_REG_WARNING then rx_buffer_del b' else b');
  match pkt with
  | None => mret (err, p)
  | Some pkt =>
    let n := Z.to_nat (rxbytenb_modem pkt) in
    let p := with_origin p (take n (rx_payload pkt) ++ drop n (Rx.payload p)) (rxbytenb_modem pkt)
               (modem_id pkt) (rx_channel_in pkt) in
    if LGW_IF_CHAIN_NB <=? Rx.if_chain p then mret (LGW_REG_ERROR, p)
    else
      ifmod ← pure_of (sx1302_get_ifmod_config (Rx.if_chain p));
      if_cfg ← pure_of (buf_get (if_chain_cfg context) (Rx.if_chain p));
      let rf_chain := u8 (Rxif.rf_chain if_cfg) in
      rf ← pure_of (buf_get (rf_chain_cfg context) rf_chain);
      freq_hz ← pure_of (int_ok (s32 (Rxrf.freq_hz rf) + Rxif.freq_hz if_cfg));
      let p := with_radio p rf_chain (u32 freq_hz) (float_of_Z (rssi_chan_avg pkt)) (float_of_Z (rssi_signal_avg pkt)) in
      '(p, correction) ← (if (ifmod =? IF_LORA_MULTI) || (ifmod =? IF_LORA_STD)
                          then parse_lora context ifmod if_cfg pkt p
                          else if ifmod =? IF_FSK_STD then parse_fsk context pkt p
                          else parse_other p);
      match correction with
      | None => mret (LGW_REG_ERROR, p)
      | Some correction =>
        c ← get_counter;
        let count_us := timestamp_pkt_expand c (Z.quot (timestamp_cnt pkt) 32) in
        mret (LGW_REG_SUCCESS, with_time p (u32 (count_us + correction)) (rx_crc16_value pkt))
      end
  end.
End Rx.
