(* ===== verification/Sx1302RxProps.v ===== *)
(** * Properties of the reception

    What [sx1302_parse] makes of a LoRa packet in the RX buffer: the frequency,
    the offset to within two Hz of the exact value, the modulation, the status
    and the time; and what an FSK packet does not set. *)
From stdpp Require Import base list numbers strings.
From Stdlib Require Import ZArith Lia.
From S2P Require Import Prelude Binary64 HalTypes TimeOnAir Com RegTable RegIds Reg RegProps RegProg RxBuffer.
From S2P Require Import RxProps Timestamp TimestampProps Merge HalConf HalConfProps Sx1302Conf.
From S2P Require Import Crc Sx1302Rx.

Open Scope Z_scope.
Open Scope list_scope.

(** ** Frequency offsets *)

(** The truncated product of a counter value with a constant close to [bw / 2^20]. *)
Lemma fmul_step e l bw :
  Z.abs e <= 2 ^ 19 → 0 < bw <= 500000 → 0 < num l →
  Z.abs (num l * 2 ^ 20 - bw * den l) * 2 ^ 23 <= bw * den l →
  ∃ z, s32_of_double (fmul (float_of_Z e) l) = Ret z ∧ Z.abs (z * 2 ^ 20 - e * bw) <= 2 ^ 20 + 2 ^ 16.
Proof.
  intros He Hbw Hl0 Hl. pose proof (frnd_exact e 1 e 0 ltac:(lia) ltac:(lia) ltac:(lia) ltac:(lia)) as Ex.
  unfold dval in Ex. rewrite Z.mul_1_r in Ex. unfold fmul, float_of_Z.
  pose proof (den_pos (frnd e 1)) as HD. pose proof (den_pos l) as Hdl. rewrite Ex.
  set (D := den (frnd e 1)) in *. set (nl := num l) in *. set (dl := den l) in *. clearbody D nl dl.
  pose proof (frnd_rel_err (e * D * nl) (D * dl) ltac:(nia)) as E. pose proof (den_pos (frnd (e * D * nl) (D * dl))) as HP.
  unfold s32_of_double, dtrunc. set (P := frnd (e * D * nl) (D * dl)) in *. set (n := num P) in *. set (d := den P) in *. clearbody n d. clear P Ex.
  assert (E1 : Z.abs (n * dl - e * nl * d) * 2 ^ 24 <= Z.abs e * nl * d).
  { apply (Z.mul_le_mono_pos_r _ _ D HD).
    replace (n * (D * dl) - e * D * nl * d) with ((n * dl - e * nl * d) * D) in E by ring.
    rewrite !Z.abs_mul, (Z.abs_eq D), (Z.abs_eq nl) in E by lia.
    generalize dependent (Z.abs (n * dl - e * nl * d)). intros X HX.
    replace (X * 2 ^ 24 * D) with (X * D * 2 ^ 24) by ring.
    replace (Z.abs e * nl * d * D) with (Z.abs e * D * nl * d) by ring. exact HX. }
  set (z := Z.quot n d).
  assert (Hz : Z.abs (z * d - n) <= d).
  { pose proof (Z.quot_rem' n d). pose proof (Z.rem_bound_abs n d ltac:(lia)). subst z. lia. }
  assert (Hnl : nl * 2 ^ 20 <= bw * dl + bw * dl) by lia.
  assert (HF : Z.abs (z * 2 ^ 20 - e * bw) * (d * dl) <= (2 ^ 20 + 2 ^ 16) * (d * dl)).
  { rewrite <- (Z.abs_eq (d * dl)) at 1 by nia. rewrite <- Z.abs_mul.
    replace ((z * 2 ^ 20 - e * bw) * (d * dl)) with
      (2 ^ 20 * dl * (z * d - n) + 2 ^ 20 * (n * dl - e * nl * d) + e * d * (nl * 2 ^ 20 - bw * dl)) by ring.
    assert (A1 : Z.abs (2 ^ 20 * dl * (z * d - n)) <= 2 ^ 20 * dl * d) by (rewrite Z.abs_mul, (Z.abs_eq (2 ^ 20 * dl)) by lia; nia).
    assert (A2 : 2 ^ 20 * Z.abs (n * dl - e * nl * d) * 2 ^ 24 <= 2 ^ 19 * (2 * bw * dl) * d).
    { assert (Z.abs e * nl * d <= 2 ^ 19 * nl * d) by (apply Z.mul_le_mono_nonneg_r; [lia|]; apply Z.mul_le_mono_nonneg_r; lia).
      assert (2 ^ 19 * d * (nl * 2 ^ 20) <= 2 ^ 19 * d * (2 * bw * dl)) by (apply Z.mul_le_mono_nonneg_l; lia).
      set (X := Z.abs (n * dl - e * nl * d)) in *. clearbody X. lia. }
    assert (A3 : Z.abs (e * d * (nl * 2 ^ 20 - bw * dl)) * 2 ^ 23 <= 2 ^ 19 * d * (bw * dl)).
    { rewrite !Z.abs_mul, (Z.abs_eq d) by lia. set (X := Z.abs (nl * 2 ^ 20 - bw * dl)) in *. assert (0 <= X) by (subst X; lia).
      clearbody X. assert (d * (X * 2 ^ 23) <= d * (bw * dl)) by (apply Z.mul_le_mono_nonneg_l; lia).
      transitivity (2 ^ 19 * (d * (X * 2 ^ 23))); [|lia].
      replace (Z.abs e * d * X * 2 ^ 23) with (Z.abs e * (d * (X * 2 ^ 23))) by ring.
      apply Z.mul_le_mono_nonneg_r; [|lia]. apply Z.mul_nonneg_nonneg; lia. }
    assert (A4 : bw * dl * d <= 500000 * (d * dl)) by nia.
    set (x1 := 2 ^ 20 * dl * (z * d - n)) in *. set (x2 := 2 ^ 20 * (n * dl - e * nl * d)) in *.
    assert (A2' : Z.abs x2 * 2 ^ 24 <= 2 ^ 19 * (2 * bw * dl) * d) by (subst x2; rewrite Z.abs_mul; lia).
    set (x3 := e * d * _) in *. clearbody x1 x2 x3. set (q := d * dl) in *.
    replace (2 ^ 20 * dl * d) with (2 ^ 20 * q) in A1 by (subst q; ring).
    replace (2 ^ 19 * (2 * bw * dl) * d) with (2 ^ 20 * (bw * dl * d)) in A2' by ring.
    replace (2 ^ 19 * d * (bw * dl)) with (2 ^ 19 * (bw * dl * d)) in A3 by ring.
    clearbody q. clear A2. lia. }
  apply Z.mul_le_mono_pos_r in HF; [|nia].
  exists z. split; [|done]. rewrite (proj2 (Z.leb_le _ _)), (proj2 (Z.ltb_lt _ _)) by nia. done.
Qed.
Lemma freq_offset_close bw e :
  IS_LORA_BW bw = true → Z.abs e <= 2 ^ 19 →
  ∃ z, lora_freq_offset bw e = Ret z ∧ Z.abs (z * 2 ^ 20 - e * lgw_bw_getval bw) <= 2 ^ 20 + 2 ^ 16.
Proof.
  intros Hbw He. apply IS_LORA_BW_range in Hbw. unfold lora_freq_offset.
  assert (bw = BW_125KHZ ∨ bw = BW_250KHZ ∨ bw = BW_500KHZ) as [-> | [-> | ->]]
    by (unfold BW_125KHZ, BW_250KHZ, BW_500KHZ; lia).
  all: cbn [Z.eqb Pos.eqb]. 
  all: apply fmul_step; [done|vm_compute; intuition discriminate|vm_compute; reflexivity|vm_compute; discriminate].
Qed.

(** The error of the channel frequency, to less than a Hz. *)
Lemma if_freq_error_close f :
  Z.abs f <= 737500 →
  ∃ z, if_freq_error f = Ret z ∧ Z.abs (32 * z - (32 * f - 15625 * Z.quot (32 * f) 15625)) <= 32 ∧ Z.abs z <= 489.
Proof.
  intros Hf. unfold if_freq_error, IF_HZ_TO_REG. replace (f * 32) with (32 * f) by ring.
  rewrite int_ok_ret by lia. rewrite !ret_bind.
  pose proof (Z.quot_rem' (32 * f) 15625). pose proof (Z.rem_bound_abs (32 * f) 15625 ltac:(lia)).
  set (r := Z.quot (32 * f) 15625) in *. rewrite int_ok_ret by lia. rewrite ret_bind. eexists. split; [reflexivity|].
  pose proof (Z.quot_rem' (r * 15625) 32). pose proof (Z.rem_bound_abs (r * 15625) 32 ltac:(lia)). lia.
Qed.

(** ** The reference pulse of a fine time stamp *)

Lemma find_pps_spec h cnt : ∀ n i,
  0 <= i → i + Z.of_nat n <= Z.of_nat (length h) →
  ∃ r, find_pps n h cnt i = Ret r ∧
    match r with
    | Some (j, t) => i <= j < i + Z.of_nat n ∧ h !! Z.to_nat j = Some t ∧ u32 (cnt - t) < 32000000
    | None => ∀ j t, i <= j < i + Z.of_nat n → h !! Z.to_nat j = Some t → 32000000 <= u32 (cnt - t)
    end.
Proof.
  induction n as [|n IH]; intros i Hi Hn; cbn [find_pps]. { exists None. split; [done|]. intros. lia. }
  destruct (lookup_lt_is_Some_2 h (Z.to_nat i)) as [t Ht]; [lia|]. rewrite (buf_get_lookup _ _ t) by (done || lia). cstep.
  destruct (Z.ltb_spec (u32 (cnt - t)) 32000000) as [L|L]. { exists (Some (i, t)). split; [done|]. lia || (split_and!; done || lia). }
  destruct (IH (i + 1)) as (r & E & Hr); [lia|lia|]. exists r. split; [done|]. destruct r as [[j tj]|].
  - destruct Hr as (? & ? & ?). split_and!; done || lia.
  - intros j tj Hj Hl. destruct (decide (j = i)) as [->|]; [by simplify_eq|]. apply (Hr j tj); [lia|done].
Qed.

(** The pulse in a slot of a full history. *)
Lemma ring_slot h d j t :
  ring h d → (16 <= length d)%nat → 0 <= j < 16 → history h !! Z.to_nat j = Some t →
  ∃ k, Z.of_nat (length d) - 16 <= k < Z.of_nat (length d) ∧ k mod 16 = j ∧ d !! Z.to_nat k = Some t.
Proof.
  intros (_ & _ & _ & Hk) Hd Hj Ht. set (n := Z.of_nat (length d)) in *.
  exists (n - 1 - (n - 1 - j) mod 16). pose proof (Z.mod_pos_bound (n - 1 - j) 16 ltac:(lia)).
  assert (Hm : (n - 1 - (n - 1 - j) mod 16) mod 16 = j).
  { rewrite Zminus_mod_idemp_r. replace (n - 1 - (n - 1 - j)) with j by lia. apply Z.mod_small. lia. }
  split; [lia|]. split; [done|]. rewrite <- Hk by lia. by rewrite Hm.
Qed.
(** The slot of a pulse. *)
Lemma ring_get h d k :
  ring h d → 0 <= k → Z.of_nat (length d) - 16 <= k < Z.of_nat (length d) →
  ∃ t, d !! Z.to_nat k = Some t ∧ buf_get (history h) (k mod 16) = Ret t.
Proof.
  intros (_ & _ & _ & Hk) H0 Hr. destruct (lookup_lt_is_Some_2 d (Z.to_nat k)) as [t Ht]; [lia|].
  exists t. split; [done|]. apply buf_get_lookup; [apply Z.mod_pos_bound; lia|]. by rewrite Hk by lia.
Qed.

(** The reference of a fine time stamp: with a history of at least 16 pulses
    of which the PPS register shows the last, the search stays inside the array
    and finds a pulse of the last sixteen at most one second before the packet
    (32 million cycles), together with the time between this pulse and the next
    one, or between the last two when it is the last; it finds none only when
    each of the last sixteen pulses is a second or more away. *)
Theorem ftime_reference_pulse h d cnt pps_reg :
  ring h d → (16 <= length d)%nat → list.last d = Some pps_reg →
  ∃ r, pps_reference h cnt pps_reg = Ret r ∧
    match r with
    | Some (t, diff) => u32 (cnt - t) <= 32000000 ∧
        ∃ k t1 t2, (length d - 16 <= k)%nat ∧ d !! k = Some t1 ∧ d !! S k = Some t2 ∧ diff = u32 (t2 - t1) ∧
          (t = t1 ∧ 32000000 < u32 (cnt - pps_reg) ∨ t = t2 ∧ S (S k) = length d)
    | None => ∀ k t, (length d - 16 <= k)%nat → d !! k = Some t → 32000000 <= u32 (cnt - t)
    end.
Proof.
  intros Hr Hd Hlast. pose proof Hr as (Hlen & Hsz & Hidx & Hk). set (n := Z.of_nat (length d)) in *.
  assert (Hmod : idx h = (n - 1) mod 16) by (rewrite Hidx; f_equal; lia).
  rewrite last_lookup in Hlast. unfold pps_reference, MAX_TIMESTAMP_PPS_HISTORY.
  destruct (Z.ltb_spec 32000000 (u32 (cnt - pps_reg))) as [L|L].
  - destruct (find_pps_spec (history h) cnt (Z.to_nat (size h)) 0) as (r & -> & Hfind); [lia|lia|]. cstep.
    destruct r as [[j t]|].
    + destruct Hfind as (Hj & Ht & Hu). destruct (ring_slot h d j t Hr Hd ltac:(lia) Ht) as (k & Hkr & Hkj & Hdk).
      assert (k ≠ n - 1). { intros ->. replace (Z.to_nat (n - 1)) with (pred (length d)) in Hdk by lia. simplify_eq. lia. }
      destruct (ring_get h d k Hr) as (t1 & H1 & G1); [lia|done|]. simplify_eq.
      destruct (ring_get h d (k + 1) Hr) as (t2 & H2 & G2); [lia|lia|].
      assert ((if k mod 16 =? 16 - 1 then 0 else k mod 16 + 1) = (k + 1) mod 16) as ->
        by (destruct (Z.eqb_spec (k mod 16) (16 - 1)); cint_lia).
      rewrite G2, G1. cstep. eexists. split; [done|]. split; [lia|]. exists (Z.to_nat k), t, t2.
      replace (Z.to_nat (k + 1)) with (S (Z.to_nat k)) in H2 by lia. split_and!; try done; [lia|]. by left.
    + exists None. split; [done|]. intros k t Hkl Hkt. pose proof (lookup_lt_Some _ _ _ Hkt).
      pose proof (Z.mod_pos_bound (Z.of_nat k) 16 ltac:(lia)). apply (Hfind (Z.of_nat k mod 16) t); [lia|]. rewrite Hk by lia. by rewrite Nat2Z.id.
  - destruct (ring_get h d (n - 2) Hr) as (t1 & H1 & G1); [lia|lia|].
    destruct (ring_get h d (n - 1) Hr) as (t2 & H2 & G2); [lia|lia|]. rewrite Hmod, G2. cstep.
    assert ((if (n - 1) mod 16 =? 0 then 16 - 1 else (n - 1) mod 16 - 1) = (n - 2) mod 16) as ->
      by (destruct (Z.eqb_spec ((n - 1) mod 16) 0); cint_lia).
    rewrite G1. cstep. eexists. split; [done|]. split; [lia|].
    exists (Z.to_nat (n - 2)), t1, t2. replace (Z.to_nat (n - 1)) with (pred (length d)) in H2 by lia.
    replace (S (Z.to_nat (n - 2))) with (pred (length d)) by lia. simplify_eq. split_and!; try done; [lia|]. right. split; [done|lia].
Qed.

(** ** LoRa packets *)

(** The packet was received by a LoRa modem, on a chain whose radio is enabled. *)
Definition lora_on (c : lgw_context_s) (p : rx_packet_s) (i : Rxif.lgw_conf_rxif_s) (rf : Rxrf.lgw_conf_rxrf_s)
  : Prop :=
  rx_channel_in p < 9 ∧ modem_id p <= SX1302_LORA_STD_MODEM_ID ∧
  if_chain_cfg c !! Z.to_nat (rx_channel_in p) = Some i ∧
  rf_chain_cfg c !! Z.to_nat (Rxif.rf_chain i) = Some rf ∧ Rxrf.enable rf = true.

Definition crc_on (c : lgw_context_s) (p : rx_packet_s) : bool :=
  crc_en p || ((rx_channel_in p =? 8) && Rxif.implicit_crc_en (lora_service_cfg c)).
(** The checksum the chip found right is that of the payload. *)
Definition crc_right (c : lgw_context_s) (p : rx_packet_s) : Prop :=
  crc_on c p = true → payload_crc_error p = false → 0 < rxbytenb_modem p →
  sx1302_lora_payload_crc (rx_payload p) = rx_crc16_value p.

Definition status_of (c : lgw_context_s) (p : rx_packet_s) : Z :=
  if crc_on c p then if payload_crc_error p then STAT_CRC_BAD else STAT_CRC_OK else STAT_NO_CRC.
Definition bandwidth_of (c : lgw_context_s) (p : rx_packet_s) : Z :=
  if rx_channel_in p <? 8 then BW_125KHZ else Rxif.bandwidth (lora_service_cfg c).
Definition coderate_of (c : lgw_context_s) (p : rx_packet_s) : Z :=
  let cr := if (rx_channel_in p <? 8) || negb (Rxif.implicit_hdr (lora_service_cfg c))
            then coding_rate p else Rxif.implicit_coderate (lora_service_cfg c) in
  if (1 <=? cr) && (cr <=? 4) then cr else CR_UNDEFINED.

Definition snr_of (p : rx_packet_s) : double := fdiv (float_of_Z (snr_average p)) (float_of_Z 4).

(** What the HAL packet [q] says of the received packet [p], with the counters
    [t] of the chip. *)
Definition delivered (c : lgw_context_s) (t : timestamp_counter_s) (p : rx_packet_s)
    (i : Rxif.lgw_conf_rxif_s) (rf : Rxrf.lgw_conf_rxrf_s) (q : lgw_pkt_rx_s) : Prop :=
  Rx.size q = rxbytenb_modem p ∧ take (Z.to_nat (Rx.size q)) (Rx.payload q) = rx_payload p ∧
  Rx.if_chain q = rx_channel_in p ∧ Rx.rf_chain q = Rxif.rf_chain i ∧ Rx.modem_id q = modem_id p ∧
  Rx.freq_hz q = Rxrf.freq_hz rf + Rxif.freq_hz i ∧
  Z.abs (Rx.freq_offset q * 2 ^ 20 -
         (frequency_offset_error p * lgw_bw_getval (bandwidth_of c p) +
          (32 * Rxif.freq_hz i - 15625 * Z.quot (32 * Rxif.freq_hz i) 15625) * 2 ^ 15))
    <= 2 * 2 ^ 20 + 2 ^ 16 ∧
  Rx.modulation q = MOD_LORA ∧ Rx.status q = status_of c p ∧ Rx.crc q = rx_crc16_value p ∧
  Rx.bandwidth q = bandwidth_of c p ∧ Rx.datarate q = rx_rate_sf p ∧ Rx.coderate q = coderate_of c p ∧
  Rx.rssic q = float_of_Z (rssi_chan_avg p) ∧ Rx.rssis q = float_of_Z (rssi_signal_avg p) ∧ Rx.snr q = snr_of p ∧
  Rx.ftime_received q = false ∧
  ∃ d, -19000 <= d <= 0 ∧ Rx.count_us q = u32 (timestamp_pkt_expand t (timestamp_cnt p / 32) + d).

Lemma correction_range bw sf cr crc len :
  5 <= sf <= 12 → IS_LORA_BW bw = true → is_u8 len →
  ∃ d, timestamp_counter_correction (Some false) bw sf cr crc len Timestamp.RX_DFT_PEAK_MODE_AUTO = Ret d ∧
    -19000 <= d <= 0.
Proof.
  intros Hs Hb Hl. unfold timestamp_counter_correction.
  destruct (negb (IS_LORA_DR sf)); [by exists 0|]. rewrite Hb. cbn [negb].
  destruct (IS_LORA_CR cr) eqn:Hc; [|by exists 0]. apply IS_LORA_CR_range in Hc. cbn [negb].
  rewrite legacy_exact by done. eexists. split; [done|].
  pose proof (legacy_delay_range bw sf cr crc len (peak Timestamp.RX_DFT_PEAK_MODE_AUTO) Hb Hs Hc Hl). cint_lia.
Qed.

Lemma lora_datarate_id sf : 5 <= sf <= 12 → lora_datarate sf = sf.
Proof.
  intros H. assert (sf = 5 ∨ sf = 6 ∨ sf = 7 ∨ sf = 8 ∨ sf = 9 ∨ sf = 10 ∨ sf = 11 ∨ sf = 12) by lia.
  by destruct_or!; subst.
Qed.
Lemma lora_coderate_val cr : lora_coderate cr = if (1 <=? cr) && (cr <=? 4) then cr else CR_UNDEFINED.
Proof.
  unfold lora_coderate. destruct (Z.eqb_spec cr 1) as [->|]; [done|]. destruct (Z.eqb_spec cr 2) as [->|]; [done|].
  destruct (Z.eqb_spec cr 3) as [->|]; [done|]. destruct (Z.eqb_spec cr 4) as [->|]; [done|].
  destruct (Z.leb_spec 1 cr), (Z.leb_spec cr 4); done || lia.
Qed.

Section Parse.
Context {W : Type} (spi usb : driver W) (junk : locals) (c : lgw_context_s).
Hypothesis Hc : context_ok c.

(** The status is that of the chip when the payload has the checksum. *)
Lemma lora_status_right p pkt old ifmod :
  packet_ok p → crc_right c p → 0 <= rx_channel_in p < 9 →
  ifmod = (if rx_channel_in p <? 8 then IF_LORA_MULTI else IF_LORA_STD) →
  lora_status (crc_en p || ((ifmod =? IF_LORA_STD) && Rxif.implicit_crc_en (lora_service_cfg c)))
    (stored p pkt) (rx_payload p ++ old) = Some (status_of c p).
Proof.
  intros Hp Hcrc Hch ->. unfold lora_status, status_of, crc_right in *.
  assert (((if rx_channel_in p <? 8 then IF_LORA_MULTI else IF_LORA_STD) =? IF_LORA_STD) = (rx_channel_in p =? 8)) as ->.
  { destruct (Z.ltb_spec (rx_channel_in p) 8), (Z.eqb_spec (rx_channel_in p) 8); done || lia. }
  fold (crc_on c p). cbn [stored stored_with payload_crc_error rxbytenb_modem rx_crc16_value].
  destruct (crc_on c p); [|done]. destruct (payload_crc_error p); [done|].
  destruct (Z.ltb_spec 0 (rxbytenb_modem p)) as [H0|H0]; [|done]. cbn [andb].
  rewrite (proj1 Hp), Nat2Z.id, take_app_length, Hcrc by done. by rewrite Z.eqb_refl.
Qed.

(** The part for LoRa, for a packet without metrics in legacy time stamp mode:
    it only computes. *)
Lemma parse_lora_wire st p pkt old i ifmod q :
  packet_ok p → crc_right c p → 0 <= rx_channel_in p < 9 → 5 <= rx_rate_sf p <= 12 →
  ifmod = (if rx_channel_in p <? 8 then IF_LORA_MULTI else IF_LORA_STD) →
  num_ts_metrics_stored p = 0 → ftime_enable (ftime_cfg c) = false → chain_ok i →
  Rx.payload q = rx_payload p ++ old →
  ∃ off d, parse_lora spi usb junk c ifmod i (stored p pkt) q st =
      Done st (with_offset (with_modem (with_status q MOD_LORA (status_of c p)) (snr_of p) (bandwidth_of c p)
                 (rx_rate_sf p) (coderate_of c p)) off false 0, Some d) ∧
    -19000 <= d <= 0 ∧
    Z.abs (off * 2 ^ 20 - (frequency_offset_error p * lgw_bw_getval (bandwidth_of c p) +
          (32 * Rxif.freq_hz i - 15625 * Z.quot (32 * Rxif.freq_hz i) 15625) * 2 ^ 15)) <= 2 * 2 ^ 20 + 2 ^ 16.
Proof.
  intros Hp Hcrc Hch Hsf Eif Hts Hft [_ Hfi] Hpl. destruct Hc as (_ & _ & _ & _ & [Hserv _] & _).
  pose proof Hp as (_ & Hl2 & _ & _ & _ & _ & _ & Hfr & _).
  assert (Hbw : (if ifmod =? IF_LORA_MULTI then BW_125KHZ else Rxif.bandwidth (lora_service_cfg c)) = bandwidth_of c p)
    by (rewrite Eif; unfold bandwidth_of; by destruct (rx_channel_in p <? 8)).
  assert (Hcr : lora_coderate (if (ifmod =? IF_LORA_MULTI) || negb (Rxif.implicit_hdr (lora_service_cfg c))
      then coding_rate p else Rxif.implicit_coderate (lora_service_cfg c)) = coderate_of c p)
    by (rewrite lora_coderate_val, Eif; unfold coderate_of; by destruct (rx_channel_in p <? 8)).
  assert (Hbwok : IS_LORA_BW (bandwidth_of c p) = true)
    by (unfold bandwidth_of; by destruct (rx_channel_in p <? 8)).
  destruct (freq_offset_close (bandwidth_of c p) (frequency_offset_error p) Hbwok ltac:(lia)) as (z & Ez & Hz).
  destruct (if_freq_error_close (Rxif.freq_hz i) Hfi) as (e & Ee & He & He').
  destruct (correction_range (bandwidth_of c p) (rx_rate_sf p) (coderate_of c p) (crc_en p) (rxbytenb_modem p))
    as (d & Ed & Hd); [done|done|pose proof (proj1 Hp); lia|].
  assert (Hbwv : 0 <= lgw_bw_getval (bandwidth_of c p) <= 500000).
  { apply IS_LORA_BW_range in Hbwok. unfold lgw_bw_getval. bool_cases; unfold BW_500KHZ, BW_250KHZ, BW_125KHZ in *; lia. }
  unfold parse_lora. cbn [stored stored_with crc_en rx_rate_sf coding_rate snr_average frequency_offset_error rxbytenb_modem].
  rewrite Hpl, (lora_status_right p pkt old ifmod Hp Hcrc Hch Eif), Hbw, Hcr, lora_datarate_id, Ez, Ee, Hft, Ed by done.
  do 3 erewrite bind_done by reflexivity. unfold parse_ftime. cbn [stored stored_with num_ts_metrics_stored]. rewrite Hts.
  cbn [Z.ltb Z.compare andb]. erewrite bind_done by reflexivity. cbv beta iota.
  eexists _, _. split; [reflexivity|]. split; [done|].
  assert (Hs : Z.abs z < 2 ^ 30) by nia. assert (s32 (z + e) = z + e) as -> by (apply s32_id; lia). lia.
Qed.

(** What [sx1302_parse] does with a popped packet of a chain with an enabled
    radio, up to its modulation. *)
Definition started_packet (p : rx_packet_s) (i : Rxif.lgw_conf_rxif_s) (rf : Rxrf.lgw_conf_rxrf_s)
    (q0 : lgw_pkt_rx_s) : lgw_pkt_rx_s :=
  with_radio (with_origin q0 (rx_payload p ++ drop (length (rx_payload p)) (Rx.payload q0)) (rxbytenb_modem p)
                (modem_id p) (rx_channel_in p))
    (Rxif.rf_chain i) (Rxrf.freq_hz rf + Rxif.freq_hz i) (float_of_Z (rssi_chan_avg p)) (float_of_Z (rssi_signal_avg p)).

Lemma parse_start s p pkt i rf ifmod b' q0 :
  packet_ok p → rx_channel_in p < 10 → sx1302_get_ifmod_config (rx_channel_in p) = Ret ifmod →
  if_chain_cfg c !! Z.to_nat (rx_channel_in p) = Some i →
  rf_chain_cfg c !! Z.to_nat (Rxif.rf_chain i) = Some rf → Rxrf.enable rf = true →
  rx_buffer_pop (rx_buffer s) (junk_packet junk) = Ret (b', LGW_REG_SUCCESS, Some (stored p pkt)) →
  sx1302_parse spi usb junk c q0 s =
    ('(q, correction) ← (if (ifmod =? IF_LORA_MULTI) || (ifmod =? IF_LORA_STD)
                         then parse_lora spi usb junk c ifmod i (stored p pkt) (started_packet p i rf q0)
                         else if ifmod =? IF_FSK_STD then parse_fsk c (stored p pkt) (started_packet p i rf q0)
                         else parse_other (started_packet p i rf q0));
     match correction with
     | None => mret (LGW_REG_ERROR, q)
     | Some correction =>
       t ← get_counter;
       mret (LGW_REG_SUCCESS, with_time q (u32 (timestamp_pkt_expand t (timestamp_cnt p / 32) + correction))
                                          (rx_crc16_value p))
     end) (RxState (rx_link s) b' (counter_us s) (pps_history s)).
Proof.
  intros Hp Hch Hifm Hi Hrf Hen Hpop.
  pose proof Hp as (Hl & Hl2 & _ & Hchu & _ & _ & _ & _ & _ & _ & _ & Htc & _).
  destruct Hc as (_ & Hrad & Hlen & Hchain & _).
  pose proof (Forall_lookup_1 _ _ _ _ Hchain Hi) as [Hrfi Hfi].
  destruct (Forall_lookup_1 _ _ _ _ Hrad Hrf Hen) as [_ Hfreq].
  assert (Hn : Z.to_nat (rxbytenb_modem p) = length (rx_payload p)) by lia.
  unfold sx1302_parse. erewrite bind_done by reflexivity. erewrite bind_done by (by rewrite Hpop).
  cbv beta iota. erewrite bind_done by reflexivity. cbv zeta.
  change (LGW_REG_SUCCESS =? LGW_REG_WARNING) with false. cbv iota.
  cbn [Rx.if_chain with_origin stored stored_with rx_channel_in rxbytenb_modem rx_payload timestamp_cnt rx_crc16_value].
  rewrite (proj2 (Z.leb_gt _ _)) by (unfold LGW_IF_CHAIN_NB; lia).
  erewrite bind_done by (by rewrite Hifm). rewrite (buf_get_lookup _ _ i) by (done || lia).
  erewrite bind_done by reflexivity. rewrite (u8_id (Rxif.rf_chain i)) by lia.
  rewrite (buf_get_lookup _ _ rf) by (done || lia). erewrite bind_done by reflexivity.
  rewrite (s32_id (Rxrf.freq_hz rf)), int_ok_ret by lia. erewrite bind_done by reflexivity.
  rewrite Hn, take_app_length, (u32_id (Rxrf.freq_hz rf + _)) by lia. by rewrite Z.quot_div_nonneg by lia.
Qed.

(** [sx1302_parse] of a LoRa packet. *)
Lemma parse_wire s p pkt i rf b' q0 :
  packet_ok p → metadata_in_range (modem_id p) (rx_channel_in p) (rx_rate_sf p) = true →
  lora_on c p i rf → crc_right c p → num_ts_metrics_stored p = 0 → ftime_enable (ftime_cfg c) = false →
  rx_buffer_pop (rx_buffer s) (junk_packet junk) = Ret (b', LGW_REG_SUCCESS, Some (stored p pkt)) →
  ∃ q, sx1302_parse spi usb junk c q0 s
       = Done (RxState (rx_link s) b' (counter_us s) (pps_history s)) (LGW_REG_SUCCESS, q) ∧
    delivered c (counter_us s) p i rf q.
Proof.
  intros Hp Hr (Hch & Hmod & Hi & Hrf & Hen) Hcrc Hts Hft Hpop. pose proof Hp as (Hl & _ & _ & Hchu & _).
  pose proof Hc as (_ & _ & _ & Hchain & _). pose proof (Forall_lookup_1 _ _ _ _ Hchain Hi) as Hci.
  assert (Hsf : 5 <= rx_rate_sf p <= 12).
  { unfold metadata_in_range, SX1302_LORA_STD_MODEM_ID, SX1302_FSK_MODEM_ID in *. bool_cases; lia || done. }
  set (ifmod := if rx_channel_in p <? 8 then IF_LORA_MULTI else IF_LORA_STD).
  assert (Hifm : sx1302_get_ifmod_config (rx_channel_in p) = Ret ifmod ∧
    (ifmod =? IF_LORA_MULTI) || (ifmod =? IF_LORA_STD) = true).
  { subst ifmod. unfold sx1302_get_ifmod_config.
    assert (Hin : rx_channel_in p = 0 ∨ rx_channel_in p = 1 ∨ rx_channel_in p = 2 ∨ rx_channel_in p = 3 ∨
      rx_channel_in p = 4 ∨ rx_channel_in p = 5 ∨ rx_channel_in p = 6 ∨ rx_channel_in p = 7 ∨ rx_channel_in p = 8) by lia.
    by destruct_or! Hin; rewrite Hin. }
  destruct Hifm as [Hifm Hlora].
  rewrite (parse_start s p pkt i rf ifmod b' q0) by (done || lia). rewrite Hlora.
  destruct (parse_lora_wire (RxState (rx_link s) b' (counter_us s) (pps_history s)) p pkt
    (drop (length (rx_payload p)) (Rx.payload q0)) i ifmod (started_packet p i rf q0)) as (off & d & E & Hd & Hoff);
    [done || lia..|].
  erewrite bind_done by exact E. cbv beta iota. erewrite bind_done by reflexivity. eexists. split; [reflexivity|].
  unfold delivered. cbn -[Z.mul Z.add Z.pow Z.quot status_of bandwidth_of coderate_of snr_of float_of_Z].
  split_and!; try done; [|by exists d]. by rewrite Hl, Nat2Z.id, take_app_length.
Qed.

(** An FSK packet is parsed with its payload, frequency, status, data rate
    and corrected time, but its frequency offset and its fine time stamp are not
    set: the packet given to the caller keeps what the element of its array
    held, for instance the fine time stamp of an earlier LoRa packet. *)
Theorem fsk_parse_keeps_fine_time s p pkt i rf b' q0 :
  packet_ok p → rx_channel_in p = 9 → if_chain_cfg c !! 9%nat = Some i →
  rf_chain_cfg c !! Z.to_nat (Rxif.rf_chain i) = Some rf → Rxrf.enable rf = true →
  rx_buffer_pop (rx_buffer s) (junk_packet junk) = Ret (b', LGW_REG_SUCCESS, Some (stored p pkt)) →
  ∃ q, sx1302_parse spi usb junk c q0 s
       = Done (RxState (rx_link s) b' (counter_us s) (pps_history s)) (LGW_REG_SUCCESS, q) ∧
    Rx.size q = rxbytenb_modem p ∧ take (Z.to_nat (Rx.size q)) (Rx.payload q) = rx_payload p ∧
    Rx.modulation q = MOD_FSK ∧ Rx.freq_hz q = Rxrf.freq_hz rf + Rxif.freq_hz i ∧
    Rx.datarate q = Rxif.datarate (fsk_cfg c) ∧ Rx.bandwidth q = Rxif.bandwidth (fsk_cfg c) ∧
    Rx.status q = (if crc_en p then if payload_crc_error p then STAT_CRC_BAD else STAT_CRC_OK else STAT_NO_CRC) ∧
    Rx.count_us q = u32 (timestamp_pkt_expand (counter_us s) (timestamp_cnt p / 32) +
                         680000 / Rxif.datarate (fsk_cfg c) - 20) ∧
    Rx.ftime_received q = Rx.ftime_received q0 ∧ Rx.ftime q = Rx.ftime q0 ∧ Rx.freq_offset q = Rx.freq_offset q0.
Proof.
  intros Hp Hch Hi Hrf Hen Hpop. pose proof Hp as (Hl & _).
  assert (Hdr : 500 <= Rxif.datarate (fsk_cfg c) <= 250000).
  { destruct Hc as (_ & _ & _ & _ & _ & [_ H] & _). unfold IS_FSK_DR, DR_FSK_MIN, DR_FSK_MAX in H. lia. }
  rewrite (parse_start s p pkt i rf IF_FSK_STD b' q0); [|done|lia|by rewrite Hch|rewrite Hch; exact Hi|done..].
  change ((IF_FSK_STD =? IF_LORA_MULTI) || (IF_FSK_STD =? IF_LORA_STD)) with false.
  change (IF_FSK_STD =? IF_FSK_STD) with true. cbv iota. unfold parse_fsk. rewrite (proj2 (Z.eqb_neq _ _)) by lia.
  erewrite bind_done by reflexivity. cbv beta iota. erewrite bind_done by reflexivity.
  eexists. split; [reflexivity|]. cbn -[Z.mul Z.add Z.pow Z.div Z.sub fsk_rssi float_of_Z dbl_of_Z].
  split_and!; try done; [by rewrite Hl, Nat2Z.id, take_app_length|].
  assert (0 <= 680000 / Rxif.datarate (fsk_cfg c) <= 1360).
  { split; [apply Z.div_pos; lia|]. apply Z.div_le_upper_bound; lia. }
  generalize dependent (680000 / Rxif.datarate (fsk_cfg c)). intros z Hz. cint_lia.
Qed.
End Parse.

(** ** Witnesses *)

(** Sixteen pulses of one second and a packet half a second after the last but
    one. *)
Lemma ftime_reference_pulse_witness :
  ∃ h, saves timestamp_pps_history ((λ k, Z.of_nat k * 32000000) <$> seq 1 16) = Ret h ∧
    pps_reference h 496000000 512000000 = Ret (Some (480000000, 32000000)).
Proof.
  set (l := (λ k, Z.of_nat k * 32000000) <$> seq 1 16).
  assert (∃ h, saves timestamp_pps_history l = Ret h ∧ ring h l) as (h & E & Hr).
  { destruct (saves_ring l timestamp_pps_history [] ring_init) as (h & E & Hr). exists h. split; [done|]. exact Hr. }
  exists h. split; [done|].
  destruct (ftime_reference_pulse h l 496000000 512000000 Hr) as (r & Er & _).
  - apply (bool_decide_eq_true_1 (16 <= length l)%nat). vm_compute. reflexivity.
  - vm_compute. reflexivity.
  - vm_compute in E. injection E as <-. vm_compute. reflexivity.
Defined.

Definition some_locals : locals :=
  {| junk_packet := blank_packet; junk_2 := [7; 7]; junk_8 := replicate 8 7; junk_8_wa := replicate 8 7;
     junk_4 := replicate 4 7 |}.
(** A packet structure as an earlier LoRa packet left it. *)
Definition used_pkt : lgw_pkt_rx_s :=
  {| Rx.freq_hz := 0; Rx.freq_offset := 321; Rx.if_chain := 0; Rx.status := 0; Rx.count_us := 0; Rx.rf_chain := 0;
     Rx.modem_id := 0; Rx.modulation := 0; Rx.bandwidth := 0; Rx.datarate := 0; Rx.coderate := 0;
     Rx.rssic := Dbl 0 0; Rx.rssis := Dbl 0 0; Rx.snr := Dbl 0 0; Rx.snr_min := Dbl 0 0; Rx.snr_max := Dbl 0 0;
     Rx.crc := 0; Rx.size := 0; Rx.payload := replicate 256 0; Rx.ftime_received := true; Rx.ftime := 123456789 |}.
(** A packet of the FSK modem. *)
Definition fsk_packet : rx_packet_s :=
  {| rxbytenb_modem := 3; rx_channel_in := 9; crc_en := true; coding_rate := 0; rx_rate_sf := 0;
     modem_id := 17; frequency_offset_error := 0; rx_payload := [0x40; 0xA5; 0xC0];
     payload_crc_error := false; sync_error := false; header_error := false; timing_set := false;
     snr_average := 0; rssi_chan_avg := 130; rssi_signal_avg := 128; timestamp_cnt := 0xFEDCBA98;
     rx_crc16_value := 0xBEEF; num_ts_metrics_stored := 0; timestamp_avg := []; timestamp_stddev := [] |}.
Lemma fsk_packet_ok : packet_ok fsk_packet.
Proof. unfold packet_ok. cbn. split_and_all; try lia; repeat constructor; lia. Qed.

Lemma fsk_parse_keeps_fine_time_witness :
  let b := wire fsk_packet 0 0 in
  let s := RxState demo_state (RxBuffer b 26 0 1) timestamp_counter_new timestamp_pps_history in
  ∃ s' q, sx1302_parse demo_drv demo_drv some_locals a_context used_pkt s = Done s' (LGW_REG_SUCCESS, q) ∧
    Rx.modulation q = MOD_FSK ∧ Rx.ftime_received q = true ∧ Rx.ftime q = 123456789 ∧ Rx.freq_offset q = 321.
Proof.
  intros b s.
  destruct (fsk_parse_keeps_fine_time demo_drv demo_drv some_locals a_context a_context_ok s fsk_packet blank_packet
    Rxif.zero a_radio (RxBuffer b 26 26 0) used_pkt) as (q & E & _ & _ & Hm & _ & _ & _ & _ & _ & H1 & H2 & H3).
  - apply fsk_packet_ok.
  - reflexivity.
  - vm_compute. reflexivity.
  - vm_compute. reflexivity.
  - reflexivity.
  - vm_compute. reflexivity.
  - eexists _, q. split; [exact E|]. split_and!; done.
Defined.
