(* ===== verification/HalRx.v ===== *)
(** * Receiving ([libloragw/src/loragw_hal.c])

    [lgw_receive] fetches the packets the chip holds, follows its counter,
    parses the packets into the array of the caller, compensates their signal
    strength and removes duplicates. The temperature comes from the sensor of
    the board ([loragw_stts751.c], which has none in this SDK and reports 0) or
    from the microcontroller of the USB link. *)
From stdpp Require Import base list numbers.
From Stdlib Require Import ZArith Lia.
From S2P Require Import Prelude Binary64 HalTypes Com Reg RegProg RxBuffer Timestamp Merge HalConf.
From S2P Require Import I2c Sx1302Rx.

Open Scope Z_scope.
Open Scope list_scope.

Section HalRx.
Context {W : Type} (spi usb : driver W).
(** [lgw_usb_get_temperature]: the status and the temperature in hundredths of a
    degree. *)
Context (usb_get_temperature : W → W * (Z * option Z)).
Context (qsort : ∀ A, (A → A → Z) → list A → list A).
Context (junk : locals).

(** The value is the [float] the microcontroller's count is converted to. *)
Definition lgw_com_get_temperature (s : com_state W) : com_state W * (Z * option double) :=
  if negb (com_target s) then (s, (LGW_COM_ERROR, None))
  else match com_type s with
  | LGW_COM_SPI => (s, (-1, None))
  | LGW_COM_USB =>
    let '(w, (st, t)) := usb_get_temperature (world s) in
    (with_world s w, (st, (λ t, float_of_double (ddiv (dbl_of_Z t) (dbl_of_Z 100))) <$> t))
  | LGW_COM_UNKNOWN => (s, (LGW_COM_ERROR, None))
  end.

Definition lgw_get_temperature (c : lgw_context_s) : rprog W (Z * option double) :=
  match Board.com_type (board_cfg c) with
  | LGW_COM_SPI => mret (fst stts751_get_temperature, Some (snd stts751_get_temperature))
  | LGW_COM_USB => on_link (call lgw_com_get_temperature)
  | LGW_COM_UNKNOWN => mret (LGW_HAL_ERROR, None)
  end.

(** [trig_cnt_us] and [inst_cnt_us] are false for NULL; the second result is
    what is stored through them. *)
Definition lgw_get_trigcnt (trig_cnt_us : bool) : rprog W (Z * option Z) :=
  if negb trig_cnt_us then mret (LGW_HAL_ERROR, None)
  else t ← sx1302_timestamp_counter spi usb junk true; mret (LGW_HAL_SUCCESS, Some t).
Definition lgw_get_instcnt (inst_cnt_us : bool) : rprog W (Z * option Z) :=
  if negb inst_cnt_us then mret (LGW_HAL_ERROR, None)
  else t ← sx1302_timestamp_counter spi usb junk false; mret (LGW_HAL_SUCCESS, Some t).

(** The signal strengths of a parsed packet with the offsets of its radio. *)
Definition compensate (rf : Rxrf.lgw_conf_rxrf_s) (temperature : double) (p : lgw_pkt_rx_s) : lgw_pkt_rx_s :=
  let p := with_rssi p (fadd (Rx.rssic p) (Rxrf.rssi_offset rf)) (fadd (Rx.rssis p) (Rxrf.rssi_offset rf)) in
  let offset := sx1302_rssi_get_temperature_offset (Rxrf.rssi_tcomp rf) temperature in
  with_rssi p (fadd (Rx.rssic p) offset) (fadd (Rx.rssis p) offset).

(** The loop over [n] packets, from [nb_pkt_found] on: the array, and the value
    [lgw_receive] returns at once, if any. *)
Fixpoint receive_loop (n : nat) (c : lgw_context_s) (temperature : double) (nb_pkt_found : Z)
    (pkt_data : list lgw_pkt_rx_s) : rprog W (list lgw_pkt_rx_s * option Z) :=
  match n with
  | O => mret (pkt_data, None)
  | S n =>
    p ← pure_of (buf_get pkt_data nb_pkt_found);
    '(res, p) ← sx1302_parse spi usb junk c p;
    pkt_data ← pure_of (buf_set pkt_data nb_pkt_found p);
    if res =? LGW_REG_WARNING then mret (pkt_data, Some LGW_HAL_SUCCESS)
    else if res =? LGW_REG_ERROR then mret (pkt_data, Some LGW_HAL_ERROR)
    else
      rf ← pure_of (buf_get (rf_chain_cfg c) (Rx.rf_chain p));
      pkt_data ← pure_of (buf_set pkt_data nb_pkt_found (compensate rf temperature p));
      receive_loop n c temperature (nb_pkt_found + 1) pkt_data
  end.

(** The duplicates; the status of [merge_packets] is not returned. *)
Definition receive_merge (c : lgw_context_s) (pkt_data : list lgw_pkt_rx_s) (nb_pkt_found : Z)
  : rprog W (Z * list lgw_pkt_rx_s) :=
  if (0 <? nb_pkt_found) && ftime_enable (ftime_cfg c) then
    match merge_packets qsort (Some pkt_data) (Some nb_pkt_found) with
    | None => spin
    | Some r => '(pkt_data, nb_pkt_found, _) ← pure_of r; mret (nb_pkt_found, pkt_data)
    end
  else mret (nb_pkt_found, pkt_data).

(** The result and the array. *)
Definition lgw_receive (c : lgw_context_s) (max_pkt : Z) (pkt_data : list lgw_pkt_rx_s)
  : rprog W (Z * list lgw_pkt_rx_s) :=
  '(res, nb) ← sx1302_fetch spi usb junk;
  match nb with
  | None => mret (LGW_HAL_ERROR, pkt_data)
  | Some nb_pkt_fetched =>
    res ← sx1302_update spi usb junk;
    if negb (res =? LGW_REG_SUCCESS) then mret (LGW_HAL_ERROR, pkt_data)
    else if nb_pkt_fetched =? 0 then mret (0, pkt_data)
    else
      '(res, temperature) ← lgw_get_temperature c;
      if negb (res =? LGW_I2C_SUCCESS) then mret (LGW_HAL_ERROR, pkt_data)
      else
        let n := if nb_pkt_fetched <=? max_pkt then nb_pkt_fetched else max_pkt in
        '(pkt_data, stop) ← receive_loop (Z.to_nat n) c (default (Dbl 0 0) temperature) 0 pkt_data;
        match stop with
        | Some r => mret (r, pkt_data)
        | None => receive_merge c pkt_data n
        end
  end.
End HalRx.
