(* ===== verification/HalRxProps.v ===== *)
(** * Properties of receiving

    [lgw_receive] against an abstract queue: the packets the chip holds in its
    FIFO and those the host holds in its buffer. A call hands the oldest ones to
    the caller, in their order, each with what the chip said of it, and keeps
    the others. The chip is an interface, [RxChip]. *)
From stdpp Require Import base list numbers strings.
From Stdlib Require Import ZArith Lia.
From S2P Require Import Prelude Binary64 HalTypes TimeOnAir Com RegTable RegIds Reg RegFacts RegProps RegProg.
From S2P Require Import RxBuffer RxProps Timestamp TimestampProps Merge HalConf HalConfProps.
From S2P Require Import Sx1302Conf Crc I2c Sx1302Rx Sx1302RxProps HalRx.

Open Scope Z_scope.
Open Scope list_scope.

(** ** The chip *)

Definition addr_nb_bytes : Z :=
  addr (the_reg SX1302_REG_RX_TOP_RX_BUFFER_NB_BYTES_MSB_RX_BUFFER_NB_BYTES).
Definition addr_pps : Z := addr (the_reg SX1302_REG_TIMESTAMP_TIMESTAMP_PPS_MSB2_TIMESTAMP_PPS).
Definition addr_fifo : Z := 0x4000.

(** A working link to a chip with the bytes [q] in its receive FIFO: its length
    can be read, a transfer from the FIFO takes bytes out of it, and the
    counters can be read. *)
Class RxChip {W} (spi usb : driver W) (fifo : com_state W → list Z → Prop) (chunk : Z) : Prop := {
  rx_chunk : 0 < chunk < 2 ^ 16;
  rx_chunk_size : ∀ s q, fifo s q → lgw_com_chunk_size spi usb s = chunk;
  rx_count : ∀ s q old, fifo s q → Z.of_nat (length q) < 2 ^ 16 → length old = 2%nat →
    ∃ s', lgw_com_rb spi usb s LGW_SPI_MUX_TARGET_SX1302 addr_nb_bytes old
          = (s', (LGW_COM_SUCCESS, [Z.of_nat (length q) / 2 ^ 8; Z.of_nat (length q) mod 2 ^ 8])) ∧ fifo s' q;
  rx_take : ∀ s q1 q2 old, fifo s (q1 ++ q2) → length old = length q1 → 0 < Z.of_nat (length q1) <= chunk →
    ∃ s', lgw_com_rb spi usb s LGW_SPI_MUX_TARGET_SX1302 addr_fifo old = (s', (LGW_COM_SUCCESS, q1)) ∧ fifo s' q2;
  rx_counters : ∀ s q old, fifo s q → length old = 8%nat →
    ∃ s' b, lgw_com_rb spi usb s LGW_SPI_MUX_TARGET_SX1302 addr_pps old = (s', (LGW_COM_SUCCESS, b)) ∧
            length b = 8%nat ∧ fifo s' q }.

(** ** The buffer as a queue *)

(** The buffer holds the packets [rs] from its index on. *)
Definition holds (b : rx_buffer_s) (rs : list received) : Prop :=
  buffer_pkt_nb b = Z.of_nat (length rs) ∧ (length rs < 256)%nat ∧
  (rs ≠ [] → ∃ pre rest, buffer b = pre ++ wires rs ++ rest ∧ buffer_index b = Z.of_nat (length pre) ∧
     buffer_size b = Z.of_nat (length pre) + wires_len rs).

(** The uninitialised locals have their declared sizes. *)
Definition locals_ok (j : locals) : Prop :=
  roomy (junk_packet j) ∧ length (junk_2 j) = 2%nat ∧ length (junk_8 j) = 8%nat ∧ length (junk_8_wa j) = 8%nat.

(** What is known of a received LoRa packet: it is well formed, came from an
    enabled radio, has its checksum and no metrics. *)
Definition lora_received (c : lgw_context_s) (r : received) : Prop :=
  packet_ok r.1 ∧ in_range r ∧ crc_right c r.1 ∧ num_ts_metrics_stored r.1 = 0 ∧ ∃ i rf, lora_on c r.1 i rf.

Lemma lora_all_ok c rs : Forall (lora_received c) rs → all_ok rs.
Proof. intros H. eapply Forall_impl; [exact H|]. by intros r (? & _). Qed.

Lemma wires_count rs : all_ok rs → wires_len rs <= 4096 → (length rs < 256)%nat.
Proof.
  intros H Hl. assert (23 * Z.of_nat (length rs) <= wires_len rs); [|lia]. clear Hl.
  induction H as [|r rs Hr _ IH]; [done|]. rewrite wires_len_cons. pose proof (wire_len_pos _ Hr). cbn [length]. lia.
Qed.

Section Receive.
Context {W : Type} (spi usb : driver W) (fifo : com_state W → list Z → Prop) (chunk : Z).
Context {Chip : RxChip spi usb fifo chunk}.
Context (usb_get_temperature : W → W * (Z * option Z)) (qsort : ∀ A, (A → A → Z) → list A → list A).
Context (junk : locals) (c : lgw_context_s).
Hypothesis (Hj : locals_ok junk) (Hc : context_ok c).

(** The FIFO is read by chunks. *)
Lemma fifo_loop fuel : ∀ s cnt pre q q2 old st,
  fifo s (q ++ q2) → length old = length q → Z.of_nat (length q) < 2 ^ 16 → (length q < fuel)%nat →
  (q = [] ∨ Z.of_nat (length pre) = cnt * chunk) → (q = [] → st = LGW_COM_SUCCESS) →
  ∃ s', mem_rb_loop spi usb fuel s chunk addr_fifo (Z.of_nat (length old)) cnt (pre ++ old) true st
        = Some (s', LGW_COM_SUCCESS, pre ++ q) ∧ fifo s' q2.
Proof.
  induction fuel as [|fuel IH]; intros s cnt pre q q2 old st Hs Hlen Hu Hf Hp Hst; [lia|].
  cbn [mem_rb_loop]. destruct (Z.leb_spec (Z.of_nat (length old)) 0) as [L|L].
  { destruct q; cbn [length] in *; [|lia]. destruct old; [|done]. exists s. by rewrite Hst. }
  destruct Hp as [->|Hp]; [cbn in *; lia|]. pose proof rx_chunk as Hck.
  destruct (loop_part pre old chunk cnt ltac:(lia) Hp) as (Hdrop & Hn & Hpos & Hnc & Hnl & Hnext).
  set (n := if chunk <? Z.of_nat (length old) then _ else _) in *.
  assert (Hne : old ≠ []) by (by intros ->). specialize (Hpos Hne). rewrite Hdrop.
  rewrite <- (take_drop (Z.to_nat n) q), <- app_assoc in Hs.
  assert (Hl1 : length (take (Z.to_nat n) old) = length (take (Z.to_nat n) q)) by (rewrite !length_take; lia).
  destruct (rx_take s _ _ (take (Z.to_nat n) old) Hs Hl1) as (s1 & -> & Hs1); [lia|].
  rewrite (u16_id (Z.of_nat (length old) - n)) by lia.
  replace (Z.of_nat (length old) - n) with (Z.of_nat (length (drop (Z.to_nat n) old))) by (rewrite length_drop; lia).
  assert (Hdata : take (Z.to_nat (cnt * chunk)) (pre ++ old) ++ take (Z.to_nat n) q ++
    drop (Z.to_nat (cnt * chunk) + Z.to_nat n) (pre ++ old)
    = (pre ++ take (Z.to_nat n) q) ++ drop (Z.to_nat n) old).
  { rewrite <- drop_drop, Hdrop. rewrite <- Hp, Nat2Z.id, take_app_length. by rewrite <- app_assoc. }
  rewrite Hdata.
  destruct (IH s1 (cnt + 1) (pre ++ take (Z.to_nat n) q) (drop (Z.to_nat n) q) q2 (drop (Z.to_nat n) old)
    LGW_COM_SUCCESS Hs1) as (s' & E & Hs'); [rewrite !length_drop; lia|rewrite length_drop; lia|rewrite length_drop; lia| |done|].
  - destruct Hnext as [Hd|Hd]; [left; apply length_zero_iff_nil; rewrite length_drop;
      apply length_zero_iff_nil in Hd; rewrite length_drop in Hd; lia|right].
    rewrite <- Hd, !length_app. by rewrite Hl1.
  - exists s'. split; [|done]. rewrite E. by rewrite <- app_assoc, take_drop.
Qed.

Lemma fifo_read s q q2 old :
  fifo s (q ++ q2) → length old = length q → 0 < Z.of_nat (length q) < 2 ^ 16 →
  ∃ s', lgw_mem_rb spi usb s addr_fifo (Some old) true = Some (s', (LGW_REG_SUCCESS, Some q)) ∧ fifo s' q2.
Proof.
  intros Hs Hl Hu. destruct (fifo_loop (S (length old)) s 0 [] q q2 old LGW_COM_SUCCESS) as (s' & E & Hs');
    [done|done|lia|lia|by right|done|].
  exists s'. unfold lgw_mem_rb. rewrite (rx_chunk_size s (q ++ q2)) by done.
  rewrite (proj2 (Z.eqb_neq _ _)) by lia. cbn [app] in E. by rewrite E.
Qed.

Lemma count_read s q old :
  fifo s q → Z.of_nat (length q) < 2 ^ 16 → length old = 2%nat →
  ∃ s', lgw_reg_rb spi usb s SX1302_REG_RX_TOP_RX_BUFFER_NB_BYTES_MSB_RX_BUFFER_NB_BYTES (Some old)
    = (s', (LGW_REG_SUCCESS, Some [Z.of_nat (length q) / 2 ^ 8; Z.of_nat (length q) mod 2 ^ 8])) ∧ fifo s' q.
Proof.
  intros Hs Hq Ho. destruct (rx_count s q old Hs Hq Ho) as (s' & E & Hs'). exists s'. split; [|done].
  unfold lgw_reg_rb. rewrite Ho. change (addr (the_reg _)) with addr_nb_bytes. cbn [Z.of_nat Z.eqb Z.leb].
  by rewrite E.
Qed.

Lemma count_word x :
  is_u16 x → let buff := [x / 2 ^ 8; x mod 2 ^ 8] in
  u16 (Z.lor (Z.shiftl (znth 0 buff 0) 8) (Z.shiftl (znth 0 buff 1) 0)) = x.
Proof.
  intros Hx buff. change (znth 0 buff 0) with (x / 2 ^ 8). change (znth 0 buff 1) with (x mod 2 ^ 8).
  rewrite Z.shiftl_0_r, shiftl_mul by lia. rewrite lor_shl_add by (lia || apply Z.mod_pos_bound; lia).
  pose proof (Z.div_mod x (2 ^ 8)). rewrite u16_id; lia.
Qed.

(** Fetching takes all packets of the FIFO into the buffer. *)
Lemma fetch_fifo s rs :
  fifo (rx_link s) (wires rs) → all_ok rs → wires_len rs <= 4096 → buffer_pkt_nb (rx_buffer s) = 0 →
  ∃ l b, sx1302_fetch spi usb junk s
    = Done (RxState l b (counter_us s) (pps_history s)) (LGW_REG_SUCCESS, Some (Z.of_nat (length rs))) ∧
    fifo l [] ∧ holds b rs.
Proof.
  intros Hs Hok Hlen Hnb. destruct Hj as (_ & Hj2 & _). pose proof (wires_length rs Hok) as Hwl.
  pose proof (wires_count rs Hok Hlen) as Hcnt.
  destruct (count_read _ _ _ Hs ltac:(lia) Hj2) as (s1 & E1 & Hs1).
  destruct (count_read s1 _ [Z.of_nat (length (wires rs)) / 2 ^ 8; Z.of_nat (length (wires rs)) mod 2 ^ 8] Hs1
    ltac:(lia) eq_refl) as (s2 & E2 & Hs2).
  unfold sx1302_fetch. erewrite bind_done by reflexivity. rewrite Hnb. cbn [Z.eqb].
  assert (Hfetch : ∃ l b, rx_buffer_fetch spi usb (rx_link s) (Some rx_buffer_new) (junk_2 junk)
    = Some (Ret (l, Some b, LGW_REG_SUCCESS)) ∧ fifo l [] ∧ holds b rs).
  { unfold rx_buffer_fetch. rewrite E1. cbv beta iota zeta delta [from_option id]. rewrite E2.
    cbv beta iota. rewrite (count_word (Z.of_nat (length (wires rs)))), Hwl, Z.ltb_irrefl by lia. destruct (Z.ltb_spec 0 (wires_len rs)) as [Hp|Hp].
    - rewrite (proj2 (Z.ltb_ge _ _)) by lia. set (zeros := replicate _ _).
      rewrite <- (app_nil_r (wires rs)) in Hs2.
      destruct (fifo_read s2 (wires rs) [] (take (Z.to_nat (wires_len rs)) zeros) Hs2) as (s3 & E3 & Hs3); [|lia|].
      { subst zeros. rewrite length_take, length_replicate. lia. }
      unfold addr_fifo in E3. rewrite E3. cbn [mbind option_bind default from_option].
      destruct (sync_wires (RxBuffer (wires rs ++ drop (Z.to_nat (wires_len rs)) zeros) (wires_len rs)
        (buffer_index rx_buffer_new) (buffer_pkt_nb rx_buffer_new)) [] rs (drop (Z.to_nat (wires_len rs)) zeros))
        as [rest Es]; [done|by intros ->|by apply not_elem_of_nil|done|done|cbn; lia|cbn; lia|].
      rewrite Es. eexists _, _. split; [reflexivity|]. split; [done|].
      split; [cbn; rewrite u8_id; lia|]. split; [done|]. intros _. exists [], rest. done.
    - assert (rs = []) as ->. { destruct rs as [|r rs]; [done|]. inversion Hok; subst.
        rewrite wires_len_cons in *. pose proof (wire_len_pos r.1). pose proof (wires_len_nonneg rs). naive_solver lia. }
      eexists _, _. split; [reflexivity|]. split; [done|]. by split_and!. }
  destruct Hfetch as (l & b & E & Hl & Hb). exists l, b. split; [|done].
  erewrite bind_done; [|do 2 (erewrite bind_done by reflexivity); erewrite bind_done by (cbn [rx_link]; by rewrite E); reflexivity].
  change (negb (LGW_REG_SUCCESS =? LGW_REG_SUCCESS)) with false. cbv iota.
  erewrite bind_done by reflexivity. cbn [rx_buffer default from_option]. unfold id. by rewrite (proj1 Hb).
Qed.

(** A buffer with packets is not filled again. *)
Lemma fetch_held s :
  buffer_pkt_nb (rx_buffer s) ≠ 0 →
  sx1302_fetch spi usb junk s = Done s (LGW_REG_SUCCESS, Some (buffer_pkt_nb (rx_buffer s))).
Proof.
  intros H. unfold sx1302_fetch. erewrite bind_done by reflexivity. rewrite (proj2 (Z.eqb_neq _ _)) by done.
  erewrite bind_done by reflexivity. done.
Qed.

Lemma counters_read s q old :
  fifo s q → length old = 8%nat →
  ∃ s' b, lgw_reg_rb spi usb s SX1302_REG_TIMESTAMP_TIMESTAMP_PPS_MSB2_TIMESTAMP_PPS (Some old)
    = (s', (LGW_REG_SUCCESS, Some b)) ∧ length b = 8%nat ∧ fifo s' q.
Proof.
  intros Hs Ho. destruct (rx_counters s q old Hs Ho) as (s' & b & E & Hb & Hs'). exists s', b. split; [|done].
  unfold lgw_reg_rb. rewrite Ho. change (addr (the_reg _)) with addr_pps. cbn [Z.of_nat Z.eqb Z.leb].
  by rewrite E.
Qed.

(** Following the counters neither fails nor touches the FIFO. *)
Lemma update_done s q d :
  fifo (rx_link s) q → ring (pps_history s) d →
  ∃ l t h d', sx1302_update spi usb junk s = Done (RxState l (rx_buffer s) t h) LGW_REG_SUCCESS ∧
    fifo l q ∧ ring h d'.
Proof.
  intros Hs Hr. destruct Hj as (_ & _ & Hj8 & Hj8').
  assert (Hget : ∃ l t h d' r, timestamp_counter_get spi usb (rx_link s) (counter_us s) (pps_history s)
      (junk_8 junk) (junk_8_wa junk) = Ret (l, t, h, 0, r) ∧ fifo l q ∧ ring h d').
  { destruct (counters_read _ _ _ Hs Hj8) as (s1 & b1 & E1 & _ & Hs1).
    destruct (counters_read _ _ _ Hs1 Hj8') as (s2 & b2 & E2 & Hb2 & Hs2).
    destruct (counters_read _ _ _ Hs2 Hb2) as (s3 & b3 & E3 & _ & Hs3).
    unfold timestamp_counter_get. rewrite E1. cbv beta iota zeta delta [from_option id].
    change (negb (LGW_REG_SUCCESS =? LGW_REG_SUCCESS)) with false. cbv iota. rewrite E2. cbv beta iota.
    change (negb (LGW_REG_SUCCESS =? LGW_REG_SUCCESS)) with false. cbv iota.
    destruct (_ || _).
    - rewrite E3. cbv beta iota. change (negb (LGW_REG_SUCCESS =? LGW_REG_SUCCESS)) with false. cbv iota.
      destruct (save_ring _ _ (word_at b3 0) Hr) as (h & -> & Hh). by eexists _, _, _, _, _.
    - destruct (save_ring _ _ (word_at b1 0) Hr) as (h & -> & Hh). by eexists _, _, _, _, _. }
  destruct Hget as (l & t & h & d' & r & E & Hl & Hh). exists l, t, h, d'. split; [|done].
  unfold sx1302_update, counter_get. erewrite bind_done; [reflexivity|].
  do 3 (erewrite bind_done by reflexivity). erewrite bind_done by (by rewrite E). reflexivity.
Qed.

(** ** Parsing the held packets *)

(** The next held packet goes to the caller. *)
Lemma parse_held s r rs q0 :
  holds (rx_buffer s) (r :: rs) → lora_received c r → all_ok rs → ftime_enable (ftime_cfg c) = false →
  ∃ b q i rf, sx1302_parse spi usb junk c q0 s
       = Done (RxState (rx_link s) b (counter_us s) (pps_history s)) (LGW_REG_SUCCESS, q) ∧
    lora_on c r.1 i rf ∧ delivered c (counter_us s) r.1 i rf q ∧ holds b rs.
Proof.
  intros (Hnb & Hlt & Hb) (Hp & [Hin _] & Hcrc & Hts & i & rf & Hon) Hok Hft. destruct Hj as ([Ha Hst] & _).
  destruct (Hb ltac:(done)) as (pre & rest & Eb & Ei & Es).
  rewrite wires_len_cons in Es. pose proof (wires_len_nonneg rs Hok).
  assert (Eb' : buffer (rx_buffer s) = pre ++ wire r.1 r.2.1 r.2.2 ++ (wires rs ++ rest)).
  { rewrite Eb. unfold wires. cbn [mbind list_bind]. by rewrite <- app_assoc. }
  assert (Hta : length (timestamp_avg r.1) = 0%nat) by (unfold packet_ok in Hp; lia).
  destruct (parse_wire spi usb junk c Hc s r.1 (junk_packet junk) i rf _ q0 Hp Hin Hon Hcrc Hts Hft
    (pop_wire r.1 r.2.1 r.2.2 pre _ _ _ Hp Eb' eq_refl (rx_buffer s) _ Hin eq_refl Ei ltac:(lia) ltac:(lia) ltac:(lia)))
    as (q & E & Hq).
  eexists _, q, i, rf. split; [exact E|]. split; [done|]. split; [done|]. cbn [length] in *.
  split; [cbn [buffer_pkt_nb]; rewrite Hnb, u8_id by lia; lia|]. split; [lia|]. intros _.
  exists (pre ++ wire_of r), rest. cbn [buffer buffer_index buffer_size]. rewrite length_app.
  unfold wire_of at 2 3. pose proof (wire_length r.1 r.2.1 r.2.2 Hp). split_and!; [|lia|lia].
  rewrite Eb'. unfold wire_of. by rewrite <- !app_assoc.
Qed.
(** The packet [q] given to the caller for the received packet [r]. *)
Definition handed (t : timestamp_counter_s) (temperature : double) (r : received) (q : lgw_pkt_rx_s) : Prop :=
  ∃ i rf q', lora_on c r.1 i rf ∧ delivered c t r.1 i rf q' ∧ q = compensate rf temperature q'.

Lemma loop_held temperature : ∀ n s rs pre todo k,
  holds (rx_buffer s) rs → Forall (lora_received c) rs → ftime_enable (ftime_cfg c) = false →
  (n <= length rs)%nat → (n <= length todo)%nat → k = Z.of_nat (length pre) →
  ∃ b out, receive_loop spi usb junk n c temperature k (pre ++ todo) s
      = Done (RxState (rx_link s) b (counter_us s) (pps_history s)) (pre ++ out ++ drop n todo, None) ∧
    Forall2 (handed (counter_us s) temperature) (take n rs) out ∧ holds b (drop n rs).
Proof.
  induction n as [|n IH]; intros s rs pre todo k Hb Hrs Hft Hn Ht ->.
  { exists (rx_buffer s), []. cbn [receive_loop app take drop]. by destruct s. }
  destruct rs as [|r rs]; [cbn in Hn; lia|]. destruct todo as [|q0 todo]; [cbn in Ht; lia|].
  apply List.Forall_cons_iff in Hrs as [Hr Hrs].
  destruct (parse_held s r rs q0 Hb Hr (lora_all_ok c rs Hrs) Hft) as (b & q & i & rf & E & Hon & Hq & Hb').
  cbn [receive_loop]. rewrite (buf_get_nat _ _ q0) by (by apply list_lookup_middle).
  erewrite bind_done by reflexivity. erewrite bind_done by exact E. cbv beta iota.
  rewrite buf_set_middle. erewrite bind_done by reflexivity.
  change (LGW_REG_SUCCESS =? LGW_REG_WARNING) with false. change (LGW_REG_SUCCESS =? LGW_REG_ERROR) with false. cbv iota.
  assert (Hrf : rf_chain_cfg c !! Z.to_nat (Rx.rf_chain q) = Some rf ∧ 0 <= Rx.rf_chain q).
  { destruct Hon as (_ & _ & Hi & Hrf & _), Hq as (_ & _ & _ & -> & _). split; [done|].
    destruct Hc as (_ & _ & _ & Hch & _). by destruct (Forall_lookup_1 _ _ _ _ Hch Hi) as [[? _] _]. }
  rewrite (buf_get_lookup _ _ rf) by apply Hrf. erewrite bind_done by reflexivity.
  rewrite buf_set_middle. erewrite bind_done by reflexivity.
  set (q' := compensate rf temperature q). cbn [length] in *.
  destruct (IH (RxState (rx_link s) b (counter_us s) (pps_history s)) rs (pre ++ [q']) todo
    (Z.of_nat (length pre) + 1) Hb' Hrs Hft) as (b2 & out & E2 & Hout & Hb2); [lia|lia|rewrite length_app; cbn; lia|].
  exists b2, (q' :: out). cbn [take drop]. split_and!; [|constructor; [by exists i, rf, q|done]|done].
  rewrite <- !app_assoc in E2. exact E2.
Qed.

(** ** The queue *)

(** The packets held by the host and those waiting in the chip. *)
Definition queue (s : rx_state W) (held waiting : list received) : Prop :=
  holds (rx_buffer s) held ∧ fifo (rx_link s) (wires waiting) ∧ wires_len waiting <= 4096 ∧
  Forall (lora_received c) held ∧ Forall (lora_received c) waiting ∧ ∃ d, ring (pps_history s) d.

(** C9. Reception refines a queue: with LoRa packets of enabled radios in the
    host's buffer ([held]) and in the FIFO of the chip ([waiting]), a call of
    [lgw_receive] on the SPI link returns the number of packets it hands over,
    which is that of the available ones (the held ones, or all the waiting ones
    when none is held) up to [max_pkt]; the array starts with these packets in
    their order, each with the payload, modulation, frequency, offset to two
    Hz, status, signal levels and time the chip reported, and its other
    elements are as they were; the packets not handed over are kept, so that
    none is lost, repeated or reordered by further calls. *)
Theorem lgw_receive_refines_queue s held waiting max_pkt pkt_data :
  queue s held waiting → Board.com_type (board_cfg c) = LGW_COM_SPI → ftime_enable (ftime_cfg c) = false →
  is_u8 max_pkt → (Z.to_nat max_pkt <= length pkt_data)%nat →
  let avail := if decide (held = []) then waiting else held in
  let n := Nat.min (Z.to_nat max_pkt) (length avail) in
  ∃ s' out, lgw_receive spi usb usb_get_temperature qsort junk c max_pkt pkt_data s
      = Done s' (Z.of_nat n, out ++ drop n pkt_data) ∧
    Forall2 (handed (counter_us s') (snd stts751_get_temperature)) (take n avail) out ∧
    queue s' (drop n avail) (if decide (held = []) then [] else waiting).
Proof.
  intros (Hb & Hf & Hw & Hh & Hwt & d & Hr) Hspi Hft Hmax Hdata avail n.
  assert (Hfetch : ∃ l b, sx1302_fetch spi usb junk s
      = Done (RxState l b (counter_us s) (pps_history s)) (LGW_REG_SUCCESS, Some (Z.of_nat (length avail))) ∧
      fifo l (wires (if decide (held = []) then [] else waiting)) ∧ holds b avail).
  { subst avail. destruct (decide (held = [])) as [->|Hne].
    - apply fetch_fifo; [done|by eapply lora_all_ok|done|apply Hb].
    - exists (rx_link s), (rx_buffer s). rewrite fetch_held, (proj1 Hb);
        [by destruct s|rewrite (proj1 Hb); by destruct held]. }
  destruct Hfetch as (l & b & E & Hl & Hb').
  assert (Hav : Forall (lora_received c) avail) by (subst avail; by destruct (decide (held = []))).
  unfold lgw_receive. erewrite bind_done by exact E. cbv beta iota.
  destruct (update_done (RxState l b (counter_us s) (pps_history s)) _ d Hl Hr) as (l' & t & h & d' & E' & Hl' & Hr').
  erewrite bind_done by exact E'. change (negb (LGW_REG_SUCCESS =? LGW_REG_SUCCESS)) with false. cbv iota.
  assert (Hq : ∀ b' rs, holds b' rs → Forall (lora_received c) rs →
    queue (RxState l' b' t h) rs (if decide (held = []) then [] else waiting)).
  { intros b' rs ? ?. repeat split; try (done || apply H || by eexists); by destruct (decide (held = [])). }
  destruct (Z.eqb_spec (Z.of_nat (length avail)) 0) as [E0|E0].
  { assert (avail = []) as Ea by (by destruct avail). assert (n = 0%nat) as -> by (subst n; rewrite Ea; apply Nat.min_0_r).
    eexists _, []. split; [reflexivity|]. rewrite Ea in *. split; [constructor|]. by apply Hq. }
  unfold lgw_get_temperature. rewrite Hspi. erewrite bind_done by reflexivity. cbv beta iota.
  cbn [fst stts751_get_temperature]. rewrite Z.eqb_refl. cbn [negb].
  assert ((if Z.of_nat (length avail) <=? max_pkt then Z.of_nat (length avail) else max_pkt) = Z.of_nat n) as ->
    by (subst n; destruct (Z.leb_spec (Z.of_nat (length avail)) max_pkt); lia).
  destruct (loop_held (Dbl 0 0) n (RxState l' b t h) avail [] pkt_data 0) as (b2 & out & E2 & Hout & Hb2);
    [done|done|done|lia|lia|done|].
  rewrite Nat2Z.id. erewrite bind_done by exact E2. cbv beta iota. unfold receive_merge.
  rewrite Hft, andb_false_r. eexists _, out. split; [reflexivity|]. split; [done|].
  apply Hq; [done|by apply Forall_drop].
Qed.
End Receive.

(** ** Witness: a chip with two packets in its FIFO *)

Definition fifo_driver : driver (list Z) := {|
  drv_open := λ w, (w, (0, true)); drv_close := λ w, (w, 0); drv_w := λ w _ _ _, (w, 0);
  drv_r := λ w _ _, (w, (0, Some 0)); drv_rmw := λ w _ _ _ _ _, (w, 0); drv_wb := λ w _ _ _, (w, 0);
  drv_rb := λ w _ a old,
    if a =? addr_fifo then (drop (length old) w, (0, take (length old) w))
    else if a =? addr_nb_bytes then (w, (0, [Z.of_nat (length w) / 2 ^ 8; Z.of_nat (length w) mod 2 ^ 8]))
    else (w, (0, replicate 8 0));
  drv_set_write_mode := λ w _, (w, 0); drv_flush := λ w, (w, 0); drv_chunk_size := 20 |}.
Definition fifo_at (s : com_state (list Z)) (q : list Z) : Prop := s = Com LGW_COM_SPI true q.

#[export] Instance fifo_chip : RxChip fifo_driver fifo_driver fifo_at 20.
Proof.
  constructor; [lia|by intros s q ->|..].
  - intros s q old -> _ _. by eexists.
  - intros s q1 q2 old -> Hl _. eexists. split; [|reflexivity]. cbn. by rewrite Hl, take_app_length, drop_app_length.
  - intros s q old -> _. by eexists _, _.
Qed.

(** A packet of the first LoRa channel, with its checksum. *)
Definition lora_packet : rx_packet_s :=
  {| rxbytenb_modem := 3; rx_channel_in := 0; crc_en := true; coding_rate := 1; rx_rate_sf := 7;
     modem_id := 4; frequency_offset_error := -1234; rx_payload := [0x40; 0xA5; 0xC0];
     payload_crc_error := false; sync_error := false; header_error := false; timing_set := true;
     snr_average := -5; rssi_chan_avg := 130; rssi_signal_avg := 128; timestamp_cnt := 0x0EDCBA98;
     rx_crc16_value := sx1302_lora_payload_crc [0x40; 0xA5; 0xC0]; num_ts_metrics_stored := 0; timestamp_avg := [];
     timestamp_stddev := [] |}.
Lemma lora_packet_received x : lora_received a_context (lora_packet, x).
Proof.
  split; [|split; [done|]; split; [done|]; split; [done|]].
  - unfold packet_ok. cbn -[sx1302_lora_payload_crc]. split_and_all; try lia; try (repeat constructor; lia).
    all: vm_compute; intuition discriminate.
  - exists Rxif.zero, a_radio. split_and!; try done; vm_compute; reflexivity.
Qed.

Lemma some_locals_ok : locals_ok some_locals.
Proof. by repeat split. Qed.

Lemma lgw_receive_refines_queue_witness :
  let rs := [(lora_packet, (0, 0)); (lora_packet, (1, 2))] in
  let s := RxState (Com LGW_COM_SPI true (wires rs)) rx_buffer_new timestamp_counter_new timestamp_pps_history in
  ∃ s' q, lgw_receive fifo_driver fifo_driver (λ w, (w, (0, None))) (λ A f l, l) some_locals a_context 1
            [used_pkt; used_pkt] s = Done s' (1, [q; used_pkt]) ∧
    Rx.freq_hz q = 868500000 ∧ Rx.datarate q = DR_LORA_SF7 ∧ queue fifo_at a_context s' [(lora_packet, (1, 2))] [].
Proof.
  intros rs s.
  destruct (lgw_receive_refines_queue fifo_driver fifo_driver fifo_at 20 (λ w, (w, (0, None))) (λ A f l, l)
    some_locals a_context some_locals_ok a_context_ok s [] rs 1 [used_pkt; used_pkt])
    as (s' & out & E & Hout & Hq); [|reflexivity|reflexivity|lia|cbn; lia|].
  - split_and!; [split; [done|]; split; [cbn; lia|done]|done|vm_compute; discriminate|constructor| |by exists []; apply ring_init].
    do 2 (apply List.Forall_cons; [apply lora_packet_received|]). apply List.Forall_nil.
  - apply Forall2_cons_inv_l in Hout as (q & out' & (i & rf & q' & Hon & Hd & ->) & Hnil & ->).
    apply Forall2_nil_inv_l in Hnil as ->.
    destruct Hon as (_ & _ & Hi & Hrf & _). assert (i = Rxif.zero) as -> by (vm_compute in Hi; injection Hi as <-; reflexivity).
    assert (rf = a_radio) as -> by (vm_compute in Hrf; injection Hrf as <-; reflexivity).
    destruct Hd as (_ & _ & _ & _ & _ & Hf & _ & _ & _ & _ & _ & Hdr & _).
    eexists s', _. split; [exact E|]. split; [|split; [exact Hdr|exact Hq]]. exact Hf.
Defined.
