(* ===== verification/Radio.v ===== *)
(** * The radios ([sx1250_*.c], [loragw_sx1250.c], [sx125x_*.c], [loragw_sx125x.c])

    The radios A and B hang on the SPI multiplexer of the SX1302. The SX1250
    takes commands (an operation code and parameters), the SX1255 and SX1257 have
    registers. Both go through the link of the SX1302: a message of the SPI
    device, or a request of the MCU of the USB link. The waits are left out. *)
From stdpp Require Import base list numbers.
From Stdlib Require Import ZArith Lia.
From S2P Require Import Prelude HalTypes Com Mcu Reg RegProg RxBuffer HalConf Sx1302Tx Sx1261Com.

Open Scope Z_scope.
Open Scope list_scope.

(** The raw accesses of the link: [ioctl] of the SPI device (the value and the
    bytes received) and [mcu_spi_write] (the buffer after the call and the
    result). *)
Record radio_bus (W : Type) := {
  rb_msg : W → list Z → W * (Z * list Z);
  rb_mcu_spi_write : W → list Z → W * (list Z * Z) }.
Arguments rb_msg {W}.
Arguments rb_mcu_spi_write {W}.

(** An effect on the world of the link. *)
Definition world_call {W A} (f : W → W * A) : prog W A :=
  call (λ s, let '(w, a) := f (world s) in (with_world s w, a)).
Definition get_com {W} : prog W (com_state W) := λ s, Done s s.

(** ** SX1250: constants ([sx1250_defs.h]) *)

Definition CALIBRATE : Z := 0x89.
Definition CALIBRATE_IMAGE : Z := 0x98.
Definition SET_RF_FREQUENCY : Z := 0x86.
Definition SET_STANDBY : Z := 0x80.
Definition SET_RX : Z := 0x82.
Definition WRITE_REGISTER : Z := 0x0D.
Definition GET_STATUS : Z := 0xC0.
Definition GET_DEVICE_ERRORS : Z := 0x17.
Definition STDBY_RC : Z := 0x00.
Definition STDBY_XOSC : Z := 0x01.

(** ** SX125x: constants ([loragw_sx125x.h]) *)

Definition SX1257_FREQ_TO_REG (f : Z) : Z := u32 (f * Z.shiftl 1 19 / 32000000).
Definition SX1255_FREQ_TO_REG (f : Z) : Z := u32 (f * Z.shiftl 1 20 / 32000000).
Definition SX125x_32MHz_FRAC : Z := 15625.
Definition SX125x_TX_DAC_CLK_SEL : Z := 0.
Definition SX125x_TX_DAC_GAIN : Z := 2.
Definition SX125x_TX_MIX_GAIN : Z := 14.
Definition SX125x_TX_PLL_BW : Z := 1.
Definition SX125x_TX_ANA_BW : Z := 0.
Definition SX125x_TX_DAC_BW : Z := 5.
Definition SX125x_RX_LNA_GAIN : Z := 1.
Definition SX125x_RX_BB_GAIN : Z := 15.
Definition SX125x_LNA_ZIN : Z := 0.
Definition SX125x_RX_ADC_BW : Z := 7.
Definition SX125x_RX_ADC_TRIM : Z := 6.
Definition SX125x_RX_BB_BW : Z := 0.
Definition SX125x_RX_PLL_BW : Z := 0.
Definition SX125x_ADC_TEMP : Z := 0.
Definition SX125x_XOSC_GM_STARTUP : Z := 13.
Definition SX125x_XOSC_DISABLE : Z := 2.

Definition SX125x_REG_MODE : Z := 0.
Definition SX125x_REG_FRF_RX_MSB : Z := 5.
Definition SX125x_REG_FRF_RX_MID : Z := 6.
Definition SX125x_REG_FRF_RX_LSB : Z := 7.
Definition SX125x_REG_FRF_TX_MSB : Z := 8.
Definition SX125x_REG_FRF_TX_MID : Z := 9.
Definition SX125x_REG_FRF_TX_LSB : Z := 10.
Definition SX125x_REG_VERSION : Z := 11.
Definition SX125x_REG_TX_GAIN__DAC_GAIN : Z := 13.
Definition SX125x_REG_TX_GAIN__MIX_GAIN : Z := 14.
Definition SX125x_REG_TX_BW__PLL_BW : Z := 16.
Definition SX125x_REG_TX_BW__ANA_BW : Z := 17.
Definition SX125x_REG_TX_DAC_BW : Z := 18.
Definition SX125x_REG_RX_ANA_GAIN__LNA_GAIN : Z := 20.
Definition SX125x_REG_RX_ANA_GAIN__BB_GAIN : Z := 21.
Definition SX125x_REG_RX_ANA_GAIN__LNA_ZIN : Z := 22.
Definition SX125x_REG_RX_BW__ADC_BW : Z := 24.
Definition SX125x_REG_RX_BW__ADC_TRIM : Z := 25.
Definition SX125x_REG_RX_BW__BB_BW : Z := 26.
Definition SX125x_REG_RX_PLL_BW__PLL_BW : Z := 28.
Definition SX125x_REG_RX_PLL_BW__ADC_TEMP_EN : Z := 29.
Definition SX125x_REG_CLK_SELECT : Z := 35.
Definition SX125x_REG_CLK_SELECT__RF_LOOPBACK_EN : Z := 37.
Definition SX125x_REG_CLK_SELECT__DAC_CLK_SELECT : Z := 39.
Definition SX125x_REG_MODE_STATUS : Z := 40.
Definition SX125x_REG_MODE_STATUS__RX_PLL_LOCKED : Z := 42.
Definition SX125x_REG_MODE_STATUS__TX_PLL_LOCKED : Z := 43.
Definition SX125x_REG_SX1257_XOSC_TEST__DISABLE : Z := 46.
Definition SX125x_REG_SX1257_XOSC_TEST__GM_STARTUP : Z := 47.
Definition SX125x_REG_SX1255_XOSC_TEST__DISABLE : Z := 49.
Definition SX125x_REG_SX1255_XOSC_TEST__GM_STARTUP : Z := 50.
Definition RADIO_TOTALREGS : Z := 51.

(** Address, position of the lowest bit and number of bits. *)
Record radio_reg_s := RadioReg { raddr : Z; roffs : Z; rleng : Z }.
Definition sx125x_regs : list radio_reg_s :=
  [RadioReg 0 0 8; RadioReg 0 3 1; RadioReg 0 2 1; RadioReg 0 1 1; RadioReg 0 0 1;
   RadioReg 1 0 8; RadioReg 2 0 8; RadioReg 3 0 8; RadioReg 4 0 8; RadioReg 5 0 8; RadioReg 6 0 8;
   RadioReg 7 0 8;
   RadioReg 8 0 8; RadioReg 8 4 3; RadioReg 8 0 4;
   RadioReg 10 0 8; RadioReg 10 5 2; RadioReg 10 0 5;
   RadioReg 11 0 8;
   RadioReg 12 0 8; RadioReg 12 5 3; RadioReg 12 1 4; RadioReg 12 0 1;
   RadioReg 13 0 8; RadioReg 13 5 3; RadioReg 13 2 3; RadioReg 13 0 2;
   RadioReg 14 0 8; RadioReg 14 1 2; RadioReg 14 0 1;
   RadioReg 15 0 8; RadioReg 15 6 2; RadioReg 15 4 2; RadioReg 15 2 2; RadioReg 15 0 2;
   RadioReg 16 0 8; RadioReg 16 3 1; RadioReg 16 2 1; RadioReg 16 1 1; RadioReg 16 0 1;
   RadioReg 17 0 8; RadioReg 17 2 1; RadioReg 17 1 1; RadioReg 17 0 1;
   RadioReg 26 0 8;
   RadioReg 38 0 8; RadioReg 38 4 3; RadioReg 38 0 4;
   RadioReg 40 0 8; RadioReg 40 4 3; RadioReg 40 0 4].
Definition radio_reg (idx : Z) : radio_reg_s := default (RadioReg 0 0 0) (sx125x_regs !! Z.to_nat idx).
Definition PLL_LOCK_MAX_ATTEMPTS : nat := 5.

Definition radio_mux (rf_chain : Z) : Z :=
  if rf_chain =? 0 then LGW_SPI_MUX_TARGET_RADIOA else LGW_SPI_MUX_TARGET_RADIOB.

Section Radio.
Context {W : Type} (bus : radio_bus W).

(** ** SX1250 *)

(** [data] are the [size] bytes the data pointer points to; reads return the
    bytes there after the call. *)
Definition sx1250_spi_w (spi_mux_target op_code : Z) (data : list Z) : prog W Z :=
  let out_buf := [spi_mux_target; u8 op_code] ++ data in
  let command_size := u8 (2 + Z.of_nat (length data)) in
  '(a, _) ← world_call (λ w, rb_msg bus w (take (Z.to_nat command_size) out_buf));
  mret (if negb (a =? command_size) then -1 else 0).
Definition sx1250_spi_r (spi_mux_target op_code : Z) (data : list Z) : prog W (Z * list Z) :=
  let out_buf := [spi_mux_target; u8 op_code] ++ data in
  let command_size := u8 (2 + Z.of_nat (length data)) in
  '(a, in_buf) ← world_call (λ w, rb_msg bus w (take (Z.to_nat command_size) out_buf));
  if negb (a =? command_size) then mret (-1, data)
  else d ← pure_of (bytes_of (drop 2 in_buf) (length data)); mret (0, d).

(** The size of the local buffer is computed in 8 bits: the request must fit. *)
Definition sx1250_usb_frame (spi_mux_target op_code : Z) (data : list Z) : list Z :=
  let size := Z.of_nat (length data) in
  [0; MCU_SPI_REQ_TYPE_READ_WRITE; MCU_SPI_TARGET_SX1302; u8 (Z.shiftr (size + 2) 8); u8 (Z.shiftr (size + 2) 0);
   spi_mux_target; u8 op_code] ++ data.
Definition sx1250_usb_w (spi_mux_target op_code : Z) (data : list Z) : prog W Z :=
  if 2 ^ 8 <=? Z.of_nat (length data) + 7 then wrong
  else
    '(_, a) ← world_call (λ w, rb_mcu_spi_write bus w (sx1250_usb_frame spi_mux_target op_code data));
    mret (if negb (a =? 0) then -1 else 0).
Definition sx1250_usb_r (spi_mux_target op_code : Z) (data : list Z) : prog W (Z * list Z) :=
  if 2 ^ 8 <=? Z.of_nat (length data) + 7 then wrong
  else
    '(in_out_buf, a) ← world_call (λ w, rb_mcu_spi_write bus w (sx1250_usb_frame spi_mux_target op_code data));
    if negb (a =? 0) then mret (-1, data)
    else d ← pure_of (bytes_of (drop 7 in_out_buf) (length data)); mret (0, d).

Definition sx1250_com_w (spi_mux_target op_code : Z) (data : list Z) : prog W Z :=
  s ← get_com;
  if negb (com_target s) then mret (-1)
  else match com_type s with
  | LGW_COM_SPI => sx1250_spi_w spi_mux_target op_code data
  | LGW_COM_USB => sx1250_usb_w spi_mux_target op_code data
  | LGW_COM_UNKNOWN => mret LGW_COM_ERROR
  end.
Definition sx1250_com_r (spi_mux_target op_code : Z) (data : list Z) : prog W (Z * list Z) :=
  s ← get_com;
  if negb (com_target s) then mret (-1, data)
  else match com_type s with
  | LGW_COM_SPI => sx1250_spi_r spi_mux_target op_code data
  | LGW_COM_USB => sx1250_usb_r spi_mux_target op_code data
  | LGW_COM_UNKNOWN => mret (LGW_COM_ERROR, data)
  end.

Definition sx1250_reg_w (op_code : Z) (data : list Z) (rf_chain : Z) : prog W Z :=
  if LGW_RF_CHAIN_NB <=? rf_chain then mret LGW_REG_ERROR
  else com_stat ← sx1250_com_w (radio_mux rf_chain) op_code data; mret (status com_stat).
Definition sx1250_reg_r (op_code : Z) (data : list Z) (rf_chain : Z) : prog W (Z * list Z) :=
  if LGW_RF_CHAIN_NB <=? rf_chain then mret (LGW_REG_ERROR, data)
  else '(com_stat, data) ← sx1250_com_r (radio_mux rf_chain) op_code data; mret (status com_stat, data).

(** The band of the image calibration. *)
Definition image_band (freq_hz : Z) : option (list Z) :=
  if (430000000 <? freq_hz) && (freq_hz <? 440000000) then Some [0x6B; 0x6F]
  else if (470000000 <? freq_hz) && (freq_hz <? 510000000) then Some [0x75; 0x81]
  else if (779000000 <? freq_hz) && (freq_hz <? 787000000) then Some [0xC1; 0xC5]
  else if (863000000 <? freq_hz) && (freq_hz <? 870000000) then Some [0xD7; 0xDB]
  else if (902000000 <? freq_hz) && (freq_hz <? 928000000) then Some [0xE1; 0xE9]
  else None.

Definition sx1250_calibrate (rf_chain freq_hz : Z) : prog W Z :=
  '(e1, _) ← sx1250_reg_r GET_STATUS [0x00] rf_chain;
  match image_band freq_hz with
  | None => mret LGW_REG_ERROR
  | Some band =>
    e2 ← sx1250_reg_w CALIBRATE_IMAGE band rf_chain;
    '(e3, buff) ← sx1250_reg_r GET_DEVICE_ERRORS [0x00; 0x00; 0x00] rf_chain;
    if negb (TAKE_N_BITS_FROM (znth 0 buff 2) 4 1 =? 0) then mret LGW_REG_ERROR
    else mret (Z.lor (Z.lor (Z.lor LGW_REG_SUCCESS e1) e2) e3)
  end.

(** [err |= sx1250_reg_w(op, buff, size, rf_chain)] for each command. *)
Fixpoint sx1250_cmds (err rf_chain : Z) (l : list (Z * list Z)) : prog W Z :=
  match l with
  | [] => mret err
  | (op, buff) :: l => e ← sx1250_reg_w op buff rf_chain; sx1250_cmds (Z.lor err e) rf_chain l
  end.

(** The commands after the radio is in standby with its oscillator on. *)
Definition setup_cmds (freq_hz : Z) (single_input_mode : bool) : list (Z * list Z) :=
  let freq_reg := s32 (SX1250_FREQ_TO_REG freq_hz) in
  [(WRITE_REGISTER, [0x06; 0xA1; 0x01]); (WRITE_REGISTER, [0x06; 0xA2; 0x00]); (WRITE_REGISTER, [0x06; 0xA3; 0x00]);
   (WRITE_REGISTER, [0x05; 0x82; 0x00]); (WRITE_REGISTER, [0x05; 0x83; 0x00]); (WRITE_REGISTER, [0x05; 0x84; 0x00]);
   (WRITE_REGISTER, [0x05; 0x85; 0x00]); (WRITE_REGISTER, [0x05; 0x80; 0x00]);
   (WRITE_REGISTER, [0x08; 0xB6; 0x2A]);
   (SET_RF_FREQUENCY, [u8 (Z.shiftr freq_reg 24); u8 (Z.shiftr freq_reg 16); u8 (Z.shiftr freq_reg 8);
                       u8 (Z.shiftr freq_reg 0)]);
   (WRITE_REGISTER, [0x08; 0x8F; 0x00; 0x00; 0x00]);
   (SET_RX, [0xFF; 0xFF; 0xFF])] ++
  (if single_input_mode then [(WRITE_REGISTER, [0x08; 0xE2; 0x0D])] else []) ++
  [(WRITE_REGISTER, [0x05; 0x87; 0x0B])].

(** Puts the radio in a standby mode and checks that it is there. *)
Definition sx1250_standby (err mode expected rf_chain : Z) : prog W Z :=
  e1 ← sx1250_reg_w SET_STANDBY [u8 mode] rf_chain;
  '(e2, buff) ← sx1250_reg_r GET_STATUS [0x00] rf_chain;
  if negb (u8 (TAKE_N_BITS_FROM (znth 0 buff 0) 4 3) =? expected) then failed
  else mret (Z.lor (Z.lor err e1) e2).

Definition sx1250_setup (rf_chain freq_hz : Z) (single_input_mode : bool) : prog W Z := body (
  err ← sx1250_standby LGW_REG_SUCCESS STDBY_RC 0x02 rf_chain;
  e ← sx1250_reg_w CALIBRATE [0x7F] rf_chain;
  err ← sx1250_standby (Z.lor err e) STDBY_XOSC 0x03 rf_chain;
  err ← sx1250_cmds err rf_chain (setup_cmds freq_hz single_input_mode);
  mret (if negb (err =? LGW_REG_SUCCESS) then LGW_REG_ERROR else LGW_REG_SUCCESS)).

(** ** SX1255 and SX1257 *)

Definition READ_ACCESS : Z := 0x00.
Definition WRITE_ACCESS : Z := 0x80.

Definition sx125x_spi_r (spi_mux_target address : Z) : prog W (Z * option Z) :=
  '(a, in_buf) ← world_call (λ w, rb_msg bus w [spi_mux_target; Z.lor READ_ACCESS (Z.land address 0x7F); 0x00]);
  if negb (a =? 3) then mret (-1, None)
  else x ← pure_of (buf_get in_buf 2); mret (0, Some x).
Definition sx125x_spi_w (spi_mux_target address data : Z) : prog W Z :=
  '(a, _) ← world_call (λ w, rb_msg bus w [spi_mux_target; Z.lor WRITE_ACCESS (Z.land address 0x7F); data]);
  mret (if negb (a =? 3) then -1 else 0).

(** These radios are not supported on the USB link. *)
Definition sx125x_com_r (spi_mux_target address : Z) : prog W (Z * option Z) :=
  s ← get_com;
  if negb (com_target s) then mret (-1, None)
  else match com_type s with
  | LGW_COM_SPI => sx125x_spi_r spi_mux_target address
  | _ => mret (-1, None)
  end.
Definition sx125x_com_w (spi_mux_target address data : Z) : prog W Z :=
  s ← get_com;
  if negb (com_target s) then mret (-1)
  else match com_type s with
  | LGW_COM_SPI => sx125x_spi_w spi_mux_target address data
  | _ => mret (-1)
  end.

(** What an uninitialised byte on the stack holds. *)
Context (junk : Z).

Definition reg_mask (reg : radio_reg_s) : Z := u8 (Z.shiftl (Z.shiftl 1 (rleng reg) - 1) (roffs reg)).

(** The value is stored also when the read failed. *)
Definition sx125x_reg_r (idx rf_chain : Z) : prog W (Z * option Z) :=
  if LGW_RF_CHAIN_NB <=? rf_chain then mret (LGW_REG_ERROR, None)
  else if RADIO_TOTALREGS <=? idx then mret (LGW_REG_ERROR, None)
  else
    let reg := radio_reg idx in
    '(com_stat, r) ← sx125x_com_r (radio_mux rf_chain) (raddr reg);
    let r := default junk r in
    mret (status com_stat, Some (u8 (Z.shiftr (Z.land r (reg_mask reg)) (roffs reg)))).

(** A write is checked by reading the register back. *)
Definition sx125x_reg_w (idx data rf_chain : Z) : prog W Z :=
  if LGW_RF_CHAIN_NB <=? rf_chain then mret LGW_REG_ERROR
  else if RADIO_TOTALREGS <=? idx then mret LGW_REG_ERROR
  else
    let reg := radio_reg idx in
    let mux := radio_mux rf_chain in
    com_stat ← (if (rleng reg =? 8) && (roffs reg =? 0) then sx125x_com_w mux (raddr reg) data
                else
                  '(e1, r) ← sx125x_com_r mux (raddr reg);
                  let mask := reg_mask reg in
                  let w := u8 (Z.lor (Z.land (default junk r) (Z.lnot mask))
                                     (Z.land (Z.shiftl data (roffs reg)) mask)) in
                  e2 ← sx125x_com_w mux (raddr reg) w;
                  mret (Z.lor e1 e2));
    '(_, val_check) ← sx125x_reg_r idx rf_chain;
    let com_stat := if negb (default junk val_check =? data) then LGW_COM_ERROR else com_stat in
    mret (status com_stat).

(** Calls of [sx125x_reg_w] whose results are not looked at. *)
Fixpoint sx125x_sets (rf_chain : Z) (l : list (Z * Z)) : prog W () :=
  match l with
  | [] => mret ()
  | (idx, v) :: l => _ ← sx125x_reg_w idx v rf_chain; sx125x_sets rf_chain l
  end.

(** The integer and fractional parts of a frequency for the PLL registers. *)
Definition pll_parts (rf_radio_type : lgw_radio_type_t) (freq_hz : Z) : option (Z * Z) :=
  match rf_radio_type with
  | LGW_RADIO_TYPE_SX1255 =>
    Some (freq_hz / Z.shiftl SX125x_32MHz_FRAC 7,
          u32 (Z.shiftl (freq_hz mod Z.shiftl SX125x_32MHz_FRAC 7) 9) / SX125x_32MHz_FRAC)
  | LGW_RADIO_TYPE_SX1257 =>
    Some (freq_hz / Z.shiftl SX125x_32MHz_FRAC 8,
          u32 (Z.shiftl (freq_hz mod Z.shiftl SX125x_32MHz_FRAC 8) 8) / SX125x_32MHz_FRAC)
  | _ => None
  end.

Definition setup_general (rf_chain rf_clkout : Z) (rf_radio_type : lgw_radio_type_t) : list (Z * Z) :=
  [(SX125x_REG_CLK_SELECT, if rf_clkout =? rf_chain then SX125x_TX_DAC_CLK_SEL + 2 else SX125x_TX_DAC_CLK_SEL)] ++
  match rf_radio_type with
  | LGW_RADIO_TYPE_SX1255 => [(SX125x_REG_SX1255_XOSC_TEST__GM_STARTUP, SX125x_XOSC_GM_STARTUP);
                              (SX125x_REG_SX1255_XOSC_TEST__DISABLE, SX125x_XOSC_DISABLE)]
  | LGW_RADIO_TYPE_SX1257 => [(SX125x_REG_SX1257_XOSC_TEST__GM_STARTUP, SX125x_XOSC_GM_STARTUP);
                              (SX125x_REG_SX1257_XOSC_TEST__DISABLE, SX125x_XOSC_DISABLE)]
  | _ => []
  end.
Definition setup_enable (rf_radio_type : lgw_radio_type_t) (freq_hz : Z) : list (Z * Z) :=
  let '(part_int, part_frac) := default (0, 0) (pll_parts rf_radio_type freq_hz) in
  [(SX125x_REG_TX_GAIN__MIX_GAIN, SX125x_TX_MIX_GAIN); (SX125x_REG_TX_GAIN__DAC_GAIN, SX125x_TX_DAC_GAIN);
   (SX125x_REG_TX_BW__ANA_BW, SX125x_TX_ANA_BW); (SX125x_REG_TX_BW__PLL_BW, SX125x_TX_PLL_BW);
   (SX125x_REG_TX_DAC_BW, SX125x_TX_DAC_BW);
   (SX125x_REG_RX_ANA_GAIN__LNA_ZIN, SX125x_LNA_ZIN); (SX125x_REG_RX_ANA_GAIN__BB_GAIN, SX125x_RX_BB_GAIN);
   (SX125x_REG_RX_ANA_GAIN__LNA_GAIN, SX125x_RX_LNA_GAIN);
   (SX125x_REG_RX_BW__BB_BW, SX125x_RX_BB_BW); (SX125x_REG_RX_BW__ADC_TRIM, SX125x_RX_ADC_TRIM);
   (SX125x_REG_RX_BW__ADC_BW, SX125x_RX_ADC_BW);
   (SX125x_REG_RX_PLL_BW__ADC_TEMP_EN, SX125x_ADC_TEMP); (SX125x_REG_RX_PLL_BW__PLL_BW, SX125x_RX_PLL_BW);
   (SX125x_REG_FRF_RX_MSB, Z.land 0xFF part_int); (SX125x_REG_FRF_RX_MID, Z.land 0xFF (Z.shiftr part_frac 8));
   (SX125x_REG_FRF_RX_LSB, Z.land 0xFF part_frac)].

(** Starts the PLL until it locks, [n] times at most. *)
Fixpoint pll_start (n : nat) (rf_chain : Z) : prog W Z :=
  match n with
  | O => mret (-1)
  | S n =>
    _ ← sx125x_sets rf_chain [(SX125x_REG_MODE, 1); (SX125x_REG_MODE, 3)];
    '(_, val) ← sx125x_reg_r SX125x_REG_MODE_STATUS rf_chain;
    if Z.land (default junk val) 0x02 =? 0 then pll_start n rf_chain else mret 0
  end.

Definition sx125x_setup (rf_chain rf_clkout : Z) (rf_enable : bool) (rf_radio_type : lgw_radio_type_t) (freq_hz : Z)
  : prog W Z :=
  if LGW_RF_CHAIN_NB <=? rf_chain then mret (-1)
  else
    _ ← sx125x_reg_r SX125x_REG_VERSION rf_chain;
    _ ← sx125x_sets rf_chain (setup_general rf_chain rf_clkout rf_radio_type);
    if rf_enable then
      _ ← sx125x_sets rf_chain (setup_enable rf_radio_type freq_hz);
      pll_start PLL_LOCK_MAX_ATTEMPTS rf_chain
    else mret 0.
End Radio.
