(* ===== verification/RadioProps.v ===== *)
(** * Properties of the radio drivers

    The setup of an SX1255 or SX1257 programs its registers and its PLL, whatever
    they held, and gives up when the PLL does not lock; the setup of an SX1250
    brings it to reception on its frequency. The radios are interfaces:
    [Sx125xChip] a file of registers behind the SPI device, [Sx1250Chip] a
    machine that takes commands behind any link. *)
From stdpp Require Import base list numbers.
From Stdlib Require Import ZArith Lia.
From S2P Require Import Prelude HalTypes Com Mcu RegTable Reg RegFacts RegProps RegProg RegView RxBuffer.
From S2P Require Import RxProps HalConf Sx1302Tx Sx1261Com Radio.

Open Scope Z_scope.
Open Scope list_scope.

(** ** SX1255 and SX1257 *)

Definition ADDR_MODE : Z := 0.
Definition ADDR_MODE_STATUS : Z := 17.

(** A radio with the registers [m] whose PLL locks at the [n]-th start from now
    on: bit 1 of the mode status shows the lock. The other registers are plain
    memory. *)
Class Sx125xChip {W} (bus : radio_bus W) (mux : Z) (radio_at : com_state W → (Z → Z) → nat → Prop) : Prop := {
  chip_link : ∀ s m n, radio_at s m n → com_type s = LGW_COM_SPI ∧ com_target s = true;
  chip_byte : ∀ s m n a, radio_at s m n → is_u8 (m a);
  chip_read : ∀ s m n a, radio_at s m n → 0 <= a < 128 →
    ∃ w l x, rb_msg bus (world s) [mux; a; 0] = (w, (3, l)) ∧ l !! 2%nat = Some x ∧ radio_at (with_world s w) m n ∧
      if a =? ADDR_MODE_STATUS then is_u8 x ∧ Z.testbit x 1 = bool_decide (n = 0%nat) else x = m a;
  chip_write : ∀ s m n a v, radio_at s m n → 0 <= a < 128 → is_u8 v →
    ∃ w l, rb_msg bus (world s) [mux; 128 + a; v] = (w, (3, l)) ∧
      radio_at (with_world s w) (λ b, if b =? a then v else m b)
        (if (a =? ADDR_MODE) && (v =? 3) then pred n else n) }.

(** A register of the table that is plain memory. *)
Definition plain (r : radio_reg_s) : Prop :=
  0 <= raddr r < 128 ∧ raddr r ≠ ADDR_MODE_STATUS ∧ 0 <= roffs r ∧ 0 < rleng r ∧ roffs r + rleng r <= 8.
#[export] Instance plain_dec r : Decision (plain r).
Proof. unfold plain. apply _. Defined.
Definition apart (r r' : radio_reg_s) : Prop :=
  raddr r ≠ raddr r' ∨ roffs r + rleng r <= roffs r' ∨ roffs r' + rleng r' <= roffs r.
#[export] Instance apart_dec r r' : Decision (apart r r').
Proof. unfold apart. apply _. Defined.

(** The value of a register, and the registers after a write. *)
Definition radio_get (m : Z → Z) (r : radio_reg_s) : Z := field (m (raddr r)) (roffs r) (rleng r).
Definition radio_set (m : Z → Z) (r : radio_reg_s) (v : Z) : Z → Z :=
  λ b, if b =? raddr r then rmw_byte (m (raddr r)) (roffs r) (rleng r) v else m b.

Lemma radio_get_same m r v : plain r → 0 <= v < 2 ^ rleng r → radio_get (radio_set m r v) r = v.
Proof.
  intros (_ & _ & Ho & Hl & H8) Hv. unfold radio_get, radio_set. rewrite Z.eqb_refl, rmw_field_same by lia.
  apply Z.mod_small. lia.
Qed.
Lemma radio_get_other m r r' v : plain r → plain r' → apart r r' → radio_get (radio_set m r v) r' = radio_get m r'.
Proof.
  intros (_ & _ & Ho & Hl & H8) (_ & _ & Ho' & Hl' & H8') Ha. unfold radio_get, radio_set.
  destruct (Z.eqb_spec (raddr r') (raddr r)) as [E|]; [|done]. rewrite E.
  apply rmw_field_other; destruct Ha; lia.
Qed.

Lemma mask_bits r k : plain r → 0 <= k →
  Z.testbit (reg_mask r) k = (roffs r <=? k) && (k <? roffs r + rleng r).
Proof.
  intros (_ & _ & Ho & Hl & H8) Hk. unfold reg_mask. rewrite u8_testbit, Z.shiftl_spec by lia.
  replace (Z.shiftl 1 (rleng r) - 1) with (Z.ones (rleng r)) by (unfold Z.ones; lia).
  destruct (Z.leb_spec (roffs r) k).
  - rewrite Z.testbit_ones_nonneg by lia.
    destruct (Z.ltb_spec k 8), (Z.ltb_spec (k - roffs r) (rleng r)), (Z.ltb_spec k (roffs r + rleng r)); cbn; lia || done.
  - rewrite (Z.testbit_neg_r _ (k - roffs r)), andb_false_r by lia. done.
Qed.
(** What a read extracts. *)
Lemma read_field r x : plain r → u8 (Z.shiftr (Z.land x (reg_mask r)) (roffs r)) = field x (roffs r) (rleng r).
Proof.
  intros Hr. pose proof Hr as (_ & _ & Ho & Hl & H8). apply Z.bits_inj'. intros k Hk.
  rewrite u8_testbit, field_testbit, Z.shiftr_spec, Z.land_spec, mask_bits by (done || lia).
  destruct (Z.ltb_spec k 8), (Z.ltb_spec k (rleng r)), (Z.leb_spec (roffs r) (k + roffs r)),
    (Z.ltb_spec (k + roffs r) (roffs r + rleng r)); try lia; cbn [andb]; rewrite ?andb_true_r, ?andb_false_r; done.
Qed.
(** What a read-modify-write stores. *)
Lemma write_rmw r old v : plain r →
  u8 (Z.lor (Z.land old (Z.lnot (reg_mask r))) (Z.land (Z.shiftl v (roffs r)) (reg_mask r)))
  = rmw_byte old (roffs r) (rleng r) v.
Proof.
  intros Hr. unfold rmw_byte. fold (reg_mask r). cbv zeta. f_equal. rewrite (Z.land_comm old). f_equal.
  apply Z.bits_inj'. intros k Hk. pose proof Hr as (_ & _ & Ho & Hl & H8).
  rewrite !Z.land_spec, u8_testbit, mask_bits by (done || lia).
  destruct (Z.ltb_spec k 8), (Z.leb_spec (roffs r) k), (Z.ltb_spec k (roffs r + rleng r)); try lia; cbn [andb];
    rewrite ?andb_true_r, ?andb_false_r; done.
Qed.

(** Writes of several registers. *)
Definition radio_sets (m : Z → Z) (l : list (Z * Z)) : Z → Z := foldl (λ m p, radio_set m (radio_reg p.1) p.2) m l.
Fixpoint all_apart (l : list Z) : bool :=
  match l with
  | [] => true
  | i :: l => forallb (λ j, bool_decide (apart (radio_reg i) (radio_reg j))) l && all_apart l
  end.
(** A write of a value that fits in a register, which is not the mode. *)
Definition sound (p : Z * Z) : Prop :=
  0 <= p.1 < 51 ∧ plain (radio_reg p.1) ∧ raddr (radio_reg p.1) ≠ ADDR_MODE ∧ 0 <= p.2 < 2 ^ rleng (radio_reg p.1).

Lemma sound_of idx v :
  bool_decide (0 <= idx < 51 ∧ plain (radio_reg idx) ∧ raddr (radio_reg idx) ≠ ADDR_MODE) = true →
  0 <= v < 2 ^ rleng (radio_reg idx) → sound (idx, v).
Proof. intros (? & ? & ?)%bool_decide_eq_true_1 Hv. unfold sound. cbn [fst snd]. tauto. Qed.

Lemma radio_sets_other r l : ∀ m,
  plain r → Forall sound l → Forall (λ p, apart (radio_reg p.1) r) l → radio_get (radio_sets m l) r = radio_get m r.
Proof.
  induction l as [|p l IH]; intros m Hr Hl Ha; [done|]. inversion Hl as [|?? Hp Hl']. inversion Ha as [|?? Hap Ha']. subst.
  cbn [radio_sets foldl]. rewrite (IH _ Hr Hl' Ha'). apply radio_get_other; [apply Hp|done..].
Qed.
Lemma radio_sets_get l : ∀ m p,
  Forall sound l → all_apart l.*1 = true → p ∈ l → radio_get (radio_sets m l) (radio_reg p.1) = p.2.
Proof.
  induction l as [|q l IH]; intros m p Hl Ha Hp; [by apply not_elem_of_nil in Hp|].
  inversion Hl as [|?? Hq Hl']. subst. cbn [fmap list_fmap all_apart] in Ha. apply andb_true_iff in Ha as [Ha Ha'].
  cbn [radio_sets foldl]. apply elem_of_cons in Hp as [->|Hp]; [|by apply IH].
  rewrite (radio_sets_other (radio_reg q.1) l); [|apply Hq|done|].
  - apply radio_get_same; apply Hq.
  - rewrite forallb_forall in Ha. apply list.Forall_forall. intros x Hx.
    assert (bool_decide (apart (radio_reg q.1) (radio_reg x.1)) = true) as Hb
      by (apply Ha; change (In (x.1) (map fst l)); apply in_map; by apply list_elem_of_In).
    apply bool_decide_eq_true_1 in Hb. unfold apart in *. lia.
Qed.
Lemma radio_sets_mode l : ∀ m, Forall sound l → radio_sets m l ADDR_MODE = m ADDR_MODE.
Proof.
  induction l as [|p l IH]; intros m Hl; [done|]. inversion Hl as [|?? Hp Hl']. subst. cbn [radio_sets foldl].
  rewrite (IH _ Hl'). unfold radio_set. by rewrite (proj2 (Z.eqb_neq _ _)) by (destruct Hp as (_ & _ & ? & _); lia).
Qed.

Lemma land_bit1 x : Z.land x 2 = if Z.testbit x 1 then 2 else 0.
Proof.
  apply Z.bits_inj'. intros k Hk. change 2 with (2 ^ 1). rewrite Z.land_spec, Z.pow2_bits_eqb by lia.
  destruct (Z.eqb_spec 1 k) as [<-|Hne]; destruct (Z.testbit x 1);
    rewrite ?andb_true_r, ?andb_false_r, ?Z.bits_0, ?Z.pow2_bits_eqb by lia; try done.
  by rewrite (proj2 (Z.eqb_neq _ _)).
Qed.

Lemma pll_split f k :
  0 < k → 0 <= f →
  let n := 15625 * 2 ^ 16 / k in n * k = 15625 * 2 ^ 16 →
  f / n = f * k / 15625 / 2 ^ 16 ∧ f mod n * k / 15625 = (f * k / 15625) mod 2 ^ 16.
Proof.
  intros Hk Hf n Hn. assert (0 < n) by nia. pose proof (Z.mod_pos_bound f n ltac:(lia)) as Hr.
  pose proof (Z.div_mod f n ltac:(lia)) as Ef. set (q := f / n) in *. set (r := f mod n) in *. clearbody q r n.
  assert (f * k = q * 2 ^ 16 * 15625 + r * k) as -> by (rewrite Ef; nia). rewrite Z.div_add_l by lia.
  assert (0 <= r * k / 15625 < 2 ^ 16) by (split; [apply Z.div_pos; nia|apply Z.div_lt_upper_bound; nia]).
  generalize dependent (r * k / 15625). intros x Hx. rewrite Z.div_add_l, Z.div_small by lia.
  split; [lia|]. rewrite Z.add_comm, Z.mod_add, Z.mod_small by lia. done.
Qed.
(** The parts of the PLL registers are the bytes of the frequency. *)
Lemma pll_parts_exact ty f i fr :
  pll_parts ty f = Some (i, fr) → 0 <= f < 2 ^ 32 →
  let F := match ty with LGW_RADIO_TYPE_SX1255 => f * 512 / 15625 | _ => f * 256 / 15625 end in
  i = F / 2 ^ 16 ∧ fr = F mod 2 ^ 16.
Proof.
  intros E Hf. unfold pll_parts, SX125x_32MHz_FRAC in E.
  assert (Hs : ∀ a b, 0 <= a → 0 <= b → Z.shiftl a b = a * 2 ^ b) by (intros; apply shiftl_mul; lia).
  destruct ty; try discriminate; injection E as <- <-; cbv zeta.
  - change (Z.shiftl 15625 7) with 2000000. pose proof (Z.mod_pos_bound f 2000000 ltac:(lia)).
    rewrite Hs, u32_id by lia. exact (pll_split f 512 eq_refl (proj1 Hf) eq_refl).
  - change (Z.shiftl 15625 8) with 4000000. pose proof (Z.mod_pos_bound f 4000000 ltac:(lia)).
    rewrite Hs, u32_id by lia. exact (pll_split f 256 eq_refl (proj1 Hf) eq_refl).
Qed.

Section Sx125x.
Context {W : Type} (bus : radio_bus W) (radio_at : com_state W → (Z → Z) → nat → Prop) (junk rf_chain : Z).
Hypothesis Hrf : rf_chain = 0 ∨ rf_chain = 1.
Context {Chip : Sx125xChip bus (radio_mux rf_chain) radio_at}.

Lemma rf_valid : (LGW_RF_CHAIN_NB <=? rf_chain) = false.
Proof. apply Z.leb_gt. unfold LGW_RF_CHAIN_NB. lia. Qed.

Lemma com_r_chip s m n a :
  radio_at s m n → 0 <= a < 128 →
  ∃ s' x, sx125x_com_r bus (radio_mux rf_chain) a s = Done s' (0, Some x) ∧ radio_at s' m n ∧
    if a =? ADDR_MODE_STATUS then is_u8 x ∧ Z.testbit x 1 = bool_decide (n = 0%nat) else x = m a.
Proof.
  intros Hs Ha. destruct (chip_link s m n Hs) as [Ht Hc]. destruct (chip_read s m n a Hs Ha) as (w & l & x & E & Hl & Hs' & Hx).
  exists (with_world s w), x. split; [|done]. unfold sx125x_com_r. erewrite bind_done by reflexivity. rewrite Hc, Ht.
  unfold sx125x_spi_r, READ_ACCESS. cbn [negb]. rewrite Z.lor_0_l.
  assert (Z.land a 127 = a) as -> by (change 127 with (Z.ones 7); rewrite Z.land_ones by lia; apply Z.mod_small; lia).
  erewrite bind_done by (unfold world_call, call; rewrite E; reflexivity). cbv beta iota.
  change (negb (3 =? 3)) with false. cbv iota. rewrite (buf_get_lookup _ _ x) by done. done.
Qed.
Lemma com_w_chip s m n a v :
  radio_at s m n → 0 <= a < 128 → is_u8 v →
  ∃ s', sx125x_com_w bus (radio_mux rf_chain) a v s = Done s' 0 ∧
    radio_at s' (λ b, if b =? a then v else m b) (if (a =? ADDR_MODE) && (v =? 3) then pred n else n).
Proof.
  intros Hs Ha Hv. destruct (chip_link s m n Hs) as [Ht Hc]. destruct (chip_write s m n a v Hs Ha Hv) as (w & l & E & Hs').
  exists (with_world s w). split; [|done]. unfold sx125x_com_w. erewrite bind_done by reflexivity. rewrite Hc, Ht.
  unfold sx125x_spi_w, WRITE_ACCESS. cbn [negb].
  assert (Z.lor 128 (Z.land a 127) = 128 + a) as ->.
  { change 127 with (Z.ones 7). rewrite Z.land_ones, Z.mod_small by lia. change 128 with (1 * 2 ^ 7) at 1.
    rewrite lor_shl_add by lia. lia. }
  erewrite bind_done by (unfold world_call, call; rewrite E; reflexivity). done.
Qed.

(** The PLL starts left after a write. *)
Definition starts (r : radio_reg_s) (b : Z) (n : nat) : nat :=
  if (raddr r =? ADDR_MODE) && (b =? 3) then pred n else n.

Lemma reg_w_chip s m n idx v :
  radio_at s m n → 0 <= idx < 51 → plain (radio_reg idx) → 0 <= v < 2 ^ rleng (radio_reg idx) →
  ∃ s', sx125x_reg_w bus junk idx v rf_chain s = Done s' LGW_REG_SUCCESS ∧
    radio_at s' (radio_set m (radio_reg idx) v)
      (starts (radio_reg idx) (radio_set m (radio_reg idx) v (raddr (radio_reg idx))) n).
Proof.
  intros Hs Hi Hr Hv. pose proof Hr as (Ha & Hns & Ho & Hl & H8).
  unfold sx125x_reg_w. rewrite rf_valid, (proj2 (Z.leb_gt _ _)) by (unfold RADIO_TOTALREGS; lia). cbv zeta.
  set (r := radio_reg idx) in *. set (b := rmw_byte (m (raddr r)) (roffs r) (rleng r) v).
  assert (Hb : is_u8 b) by apply u8_range.
  assert (Hw : ∃ s1, (if (rleng r =? 8) && (roffs r =? 0) then sx125x_com_w bus (radio_mux rf_chain) (raddr r) v
                else '(e1, x) ← sx125x_com_r bus (radio_mux rf_chain) (raddr r);
                     e2 ← sx125x_com_w bus (radio_mux rf_chain) (raddr r)
                            (u8 (Z.lor (Z.land (default junk x) (Z.lnot (reg_mask r)))
                                       (Z.land (Z.shiftl v (roffs r)) (reg_mask r))));
                     mret (Z.lor e1 e2)) s = Done s1 0 ∧
              radio_at s1 (λ c, if c =? raddr r then b else m c)
                (if (raddr r =? ADDR_MODE) && (b =? 3) then pred n else n)).
  { destruct ((rleng r =? 8) && (roffs r =? 0)) eqn:E.
    - assert (rleng r = 8 ∧ roffs r = 0) as [E8 E0] by lia. rewrite E8 in Hv.
      assert (b = v) as -> by (subst b; rewrite E8, E0; apply rmw_byte_full; lia).
      destruct (com_w_chip s m n (raddr r) v Hs Ha) as (s1 & E1 & Hs1); [lia|]. by exists s1.
    - destruct (com_r_chip s m n (raddr r) Hs Ha) as (s1 & x & E1 & Hs1 & Hx).
      rewrite (proj2 (Z.eqb_neq _ _)) in Hx by done. subst x. erewrite bind_done by exact E1. cbv beta iota.
      cbn [default from_option]. unfold id. rewrite write_rmw by done. fold b.
      destruct (com_w_chip s1 m n (raddr r) b Hs1 Ha Hb) as (s2 & E2 & Hs2). exists s2.
      erewrite bind_done by exact E2. done. }
  destruct Hw as (s1 & E1 & Hs1). erewrite bind_done by exact E1.
  unfold sx125x_reg_r. rewrite rf_valid, (proj2 (Z.leb_gt _ _)) by (unfold RADIO_TOTALREGS; lia). fold r.
  destruct (com_r_chip s1 _ _ (raddr r) Hs1 Ha) as (s2 & x & E2 & Hs2 & Hx).
  rewrite (proj2 (Z.eqb_neq _ _)), Z.eqb_refl in Hx by done. subst x.
  exists s2. split.
  - erewrite bind_done by (erewrite bind_done by exact E2; reflexivity). cbv beta iota zeta. cbn [default from_option].
    unfold id. rewrite read_field by done. subst b. rewrite rmw_field_same, Z.mod_small, Z.eqb_refl by lia. done.
  - unfold starts, radio_set. rewrite Z.eqb_refl. exact Hs2.
Qed.

Lemma sets_chip l : ∀ s m n,
  radio_at s m n → Forall sound l →
  ∃ s', sx125x_sets bus junk rf_chain l s = Done s' () ∧ radio_at s' (radio_sets m l) n.
Proof.
  induction l as [|[idx v] l IH]; intros s m n Hs Hl; [by exists s|].
  inversion Hl as [|?? (Hi & Hp & Hm & Hv) Hl']. subst. cbn [fst snd] in *.
  destruct (reg_w_chip s m n idx v Hs Hi Hp Hv) as (s1 & E1 & Hs1).
  unfold starts in Hs1. rewrite (proj2 (Z.eqb_neq _ _)) in Hs1 by done. cbn [andb] in Hs1.
  destruct (IH s1 _ n Hs1 Hl') as (s2 & E2 & Hs2). exists s2. split; [|done].
  cbn [sx125x_sets]. erewrite bind_done by exact E1. exact E2.
Qed.

Lemma mode_set m v : is_u8 v → radio_set m (radio_reg SX125x_REG_MODE) v ADDR_MODE = v.
Proof. intros Hv. unfold radio_set. rewrite Z.eqb_refl. by apply rmw_byte_full. Qed.
Lemma mode_set_other m v a : a ≠ ADDR_MODE → radio_set m (radio_reg SX125x_REG_MODE) v a = m a.
Proof. intros Ha. unfold radio_set. by rewrite (proj2 (Z.eqb_neq _ _)). Qed.

(** The PLL locks within [k] attempts if it locks at all. *)
Lemma pll_start_chip k : ∀ s m n,
  radio_at s m n →
  ∃ s' m', pll_start bus junk k rf_chain s = Done s' (if bool_decide (0 < k ∧ n <= k)%nat then 0 else -1) ∧
    radio_at s' m' (n - k) ∧ (∀ a, a ≠ ADDR_MODE → m' a = m a) ∧
    m' ADDR_MODE = match k with O => m ADDR_MODE | S _ => 3 end.
Proof.
  induction k as [|k IH]; intros s m n Hs.
  { exists s, m. rewrite Nat.sub_0_r. cbn [pll_start]. by rewrite bool_decide_false by lia. }
  destruct (reg_w_chip s m n SX125x_REG_MODE 1 Hs) as (s1 & E1 & Hs1); [done| |done|].
  { apply (bool_decide_eq_true_1 (plain (radio_reg SX125x_REG_MODE))). vm_compute. reflexivity. }
  rewrite mode_set in Hs1 by lia. change (starts (radio_reg SX125x_REG_MODE) 1 n) with n in Hs1.
  destruct (reg_w_chip s1 _ n SX125x_REG_MODE 3 Hs1) as (s2 & E2 & Hs2); [done| |done|].
  { apply (bool_decide_eq_true_1 (plain (radio_reg SX125x_REG_MODE))). vm_compute. reflexivity. }
  rewrite mode_set in Hs2 by lia. change (starts (radio_reg SX125x_REG_MODE) 3 n) with (pred n) in Hs2.
  set (m2 := radio_set _ _ 3) in Hs2.
  destruct (com_r_chip s2 m2 (pred n) 17 Hs2 ltac:(lia)) as (s3 & x & E3 & Hs3 & Hx & Hbit).
  assert (Hm2 : (∀ a, a ≠ ADDR_MODE → m2 a = m a) ∧ m2 ADDR_MODE = 3).
  { split; [intros a Ha; subst m2; by rewrite !mode_set_other|subst m2; by rewrite mode_set by lia]. }
  cbn [pll_start sx125x_sets]. erewrite bind_done; [|erewrite bind_done by exact E1; erewrite bind_done by exact E2; reflexivity].
  unfold sx125x_reg_r at 1. rewrite rf_valid. change (RADIO_TOTALREGS <=? SX125x_REG_MODE_STATUS) with false. cbv iota zeta.
  erewrite bind_done; [|erewrite bind_done by exact E3; reflexivity]. cbv beta iota. cbn [default from_option]. unfold id.
  assert (u8 (Z.shiftr (Z.land x (reg_mask (radio_reg SX125x_REG_MODE_STATUS))) (roffs (radio_reg SX125x_REG_MODE_STATUS))) = x) as ->.
  { change (reg_mask _) with (Z.ones 8). change (roffs _) with 0. rewrite Z.shiftr_0_r, Z.land_ones, Z.mod_small by lia. by apply u8_id. }
  rewrite land_bit1, Hbit. case_bool_decide as Hn.
  - exists s3, m2. rewrite bool_decide_true by lia. cbn [Z.eqb]. split; [done|].
    replace (n - S k)%nat with (pred n) by lia. done.
  - cbn [Z.eqb]. destruct (IH s3 m2 (pred n) Hs3) as (s' & m' & E & Hs' & Ho & Hmode). exists s', m'. split_and!.
    + rewrite E. destruct k as [|k]; [rewrite !bool_decide_false by lia; done|].
      destruct (decide (n <= S (S k))%nat); [rewrite !bool_decide_true by lia; done|rewrite !bool_decide_false by lia; done].
    + replace (n - S k)%nat with (pred n - k)%nat by lia. done.
    + intros a Ha. rewrite Ho by done. by apply Hm2.
    + rewrite Hmode. destruct k; [apply Hm2|done].
Qed.
(** The frequency register of the radio type; the frequency must be below 256
    times the step of its most significant byte. *)
Definition freq_reg (ty : lgw_radio_type_t) (f : Z) : Z :=
  match ty with LGW_RADIO_TYPE_SX1255 => SX1255_FREQ_TO_REG f | _ => SX1257_FREQ_TO_REG f end.
Definition in_pll_range (ty : lgw_radio_type_t) (f : Z) : Prop :=
  match ty with
  | LGW_RADIO_TYPE_SX1255 => 0 <= f < 512000000
  | LGW_RADIO_TYPE_SX1257 => 0 <= f < 1024000000
  | _ => False
  end.

Lemma pll_bytes ty f :
  in_pll_range ty f →
  ∃ i fr, pll_parts ty f = Some (i, fr) ∧ 0 <= i < 2 ^ 8 ∧ 0 <= fr < 2 ^ 16 ∧ freq_reg ty f = i * 2 ^ 16 + fr.
Proof.
  intros Hf. destruct (pll_parts ty f) as [[i fr]|] eqn:E; [|by destruct ty]. exists i, fr. split; [done|].
  assert (Hf' : 0 <= f < 2 ^ 32) by (destruct ty; cbn in Hf; lia || done).
  destruct (pll_parts_exact ty f i fr E Hf') as [-> ->]. clear E.
  set (F := match ty with LGW_RADIO_TYPE_SX1255 => _ | _ => _ end).
  assert (HF : 0 <= F < 2 ^ 24).
  { subst F. destruct ty; cbn in Hf; try done; (split; [apply Z.div_pos; lia|apply Z.div_lt_upper_bound; lia]). }
  assert (freq_reg ty f = F) as ->.
  { subst F. destruct ty; cbn in Hf; try done; cbn [freq_reg]; unfold SX1255_FREQ_TO_REG, SX1257_FREQ_TO_REG;
      rewrite shiftl_mul by lia.
    - replace (f * (1 * 2 ^ 20)) with (f * 512 * 2048) by lia. change 32000000 with (15625 * 2048).
      rewrite Z.div_mul_cancel_r by lia. apply u32_id. lia.
    - replace (f * (1 * 2 ^ 19)) with (f * 256 * 2048) by lia. change 32000000 with (15625 * 2048).
      rewrite Z.div_mul_cancel_r by lia. apply u32_id. lia. }
  clearbody F. pose proof (Z.mod_pos_bound F (2 ^ 16) ltac:(lia)). pose proof (Z.div_mod F (2 ^ 16) ltac:(lia)).
  split; [|lia]. split; [apply Z.div_pos; lia|apply Z.div_lt_upper_bound; lia].
Qed.

Definition setup_writes (rf_clkout : Z) (ty : lgw_radio_type_t) (f : Z) : list (Z * Z) :=
  setup_general rf_chain rf_clkout ty ++ setup_enable ty f.

Lemma land_ff_range x : 0 <= Z.land 255 x < 2 ^ 8.
Proof. rewrite Z.land_comm. change 255 with (Z.ones 8). rewrite Z.land_ones by lia. apply Z.mod_pos_bound. lia. Qed.

Lemma setup_writes_sound rf_clkout ty f :
  in_pll_range ty f → Forall sound (setup_writes rf_clkout ty f) ∧ all_apart (setup_writes rf_clkout ty f).*1 = true.
Proof.
  intros Hf. unfold setup_writes, setup_general, setup_enable.
  destruct (default (0, 0) (pll_parts ty f)) as [i fr].
  destruct ty; try done; (split; [|by destruct (rf_clkout =? rf_chain); vm_compute]); cbn [app];
    repeat (apply List.Forall_cons; [apply sound_of; [vm_compute; reflexivity|];
      first [destruct (rf_clkout =? rf_chain); vm_compute; intuition discriminate
            | vm_compute; intuition discriminate | apply land_ff_range]|]); apply List.Forall_nil.
Qed.

(** C26. The setup of an SX1255 or SX1257 radio behind the SPI device, for a
    frequency in the range of its PLL registers and whatever the registers
    held: it returns success if the PLL locks within five starts and -1
    otherwise, and ends in both cases with each register it sets holding its
    value, with the RX frequency registers equal to the frequency word of the
    header's macro (a multiple of the synthesiser step, less than one step below
    the frequency), and with the radio in reception mode. *)
Theorem sx125x_setup_programs s m n rf_clkout ty f :
  radio_at s m n → in_pll_range ty f →
  ∃ s' m', sx125x_setup bus junk rf_chain rf_clkout true ty f s
      = Done s' (if bool_decide (n <= 5)%nat then 0 else -1) ∧ radio_at s' m' (n - 5) ∧
    (∀ idx v, (idx, v) ∈ setup_writes rf_clkout ty f → radio_get m' (radio_reg idx) = v) ∧
    m' 1 * 2 ^ 16 + m' 2 * 2 ^ 8 + m' 3 = freq_reg ty f ∧ m' ADDR_MODE = 3.
Proof.
  intros Hs Hf. destruct (setup_writes_sound rf_clkout ty f Hf) as [Hsound Hap].
  pose proof Hsound as Hsound'. unfold setup_writes in Hsound'. apply Forall_app in Hsound' as [Hg He].
  unfold sx125x_setup. rewrite rf_valid. unfold sx125x_reg_r at 1. rewrite rf_valid.
  change (RADIO_TOTALREGS <=? SX125x_REG_VERSION) with false. cbv iota zeta.
  destruct (com_r_chip s m n 7 Hs ltac:(lia)) as (s1 & x & E1 & Hs1 & _).
  erewrite bind_done; [|erewrite bind_done by exact E1; reflexivity].
  destruct (sets_chip _ s1 m n Hs1 Hg) as (s2 & E2 & Hs2). erewrite bind_done by exact E2.
  destruct (sets_chip _ s2 _ n Hs2 He) as (s3 & E3 & Hs3). erewrite bind_done by exact E3.
  set (m3 := radio_sets _ _) in Hs3.
  assert (Em3 : m3 = radio_sets m (setup_writes rf_clkout ty f)) by (unfold m3, radio_sets, setup_writes; by rewrite foldl_app).
  destruct (pll_start_chip PLL_LOCK_MAX_ATTEMPTS s3 m3 n Hs3) as (s4 & m4 & E4 & Hs4 & Ho & Hmode).
  assert (Hget : ∀ idx v, (idx, v) ∈ setup_writes rf_clkout ty f → radio_get m4 (radio_reg idx) = v).
  { intros idx v Hin. pose proof (radio_sets_get _ m (idx, v) Hsound Hap Hin) as Hg'. rewrite <- Em3 in Hg'.
    etransitivity; [|exact Hg']. unfold radio_get. cbn [fst]. rewrite Ho; [done|]. by apply (proj1 (list.Forall_forall _ _) Hsound _ Hin). }
  exists s4, m4. split; [|split; [done|split; [done|split; [|done]]]].
  - rewrite E4. unfold PLL_LOCK_MAX_ATTEMPTS.
    by rewrite (bool_decide_ext (0 < 5 ∧ n <= 5)%nat (n <= 5)%nat) by lia.
  - destruct (pll_bytes ty f Hf) as (i & fr & Ep & Hi & Hfr & ->).
    assert (Hfull : ∀ a w, radio_get m4 (RadioReg a 0 8) = w → m4 a = w).
    { intros a w <-. unfold radio_get, field. cbn [raddr roffs rleng]. rewrite Z.div_1_r, Z.mod_small; [done|].
      apply (chip_byte s4 m4 _ a Hs4). }
    assert (Hin : ∀ k v, (setup_enable ty f) !! k = Some v → v ∈ setup_writes rf_clkout ty f).
    { intros k v Hk. unfold setup_writes. apply elem_of_app. right. by eapply list_elem_of_lookup_2. }
    unfold setup_enable in Hin. rewrite Ep in Hin. cbn [default from_option id] in Hin.
    rewrite (Hfull 1 _ (Hget SX125x_REG_FRF_RX_MSB _ (Hin 13%nat _ eq_refl))).
    rewrite (Hfull 2 _ (Hget SX125x_REG_FRF_RX_MID _ (Hin 14%nat _ eq_refl))).
    rewrite (Hfull 3 _ (Hget SX125x_REG_FRF_RX_LSB _ (Hin 15%nat _ eq_refl))).
    rewrite !(Z.land_comm 255). change 255 with (Z.ones 8). rewrite !Z.land_ones, shiftr_div by lia.
    assert (0 <= fr / 2 ^ 8 < 2 ^ 8) by (split; [apply Z.div_pos; lia|apply Z.div_lt_upper_bound; lia]).
    rewrite (Z.mod_small i), (Z.mod_small (fr / 2 ^ 8)) by lia.
    pose proof (Z.div_mod fr (2 ^ 8)). lia.
Qed.
End Sx125x.

(** ** SX1250 *)

(** What the commands of the setup do: the mode, the frequency word and the
    registers. *)
Record sx1250 := Sx1250 { chip_mode : Z; chip_frf : Z; chip_regs : Z → Z }.
Definition MODE_STBY_RC : Z := 2.
Definition MODE_STBY_XOSC : Z := 3.
Definition MODE_RX : Z := 5.

(** Registers from address [a] on. *)
Fixpoint write_regs (m : Z → Z) (a : Z) (l : list Z) : Z → Z :=
  match l with [] => m | v :: l => write_regs (λ b, if b =? a then v else m b) (a + 1) l end.
Definition obey (op : Z) (data : list Z) (r : sx1250) : sx1250 :=
  if op =? SET_STANDBY then
    Sx1250 (if znth 0 data 0 =? STDBY_RC then MODE_STBY_RC else MODE_STBY_XOSC) (chip_frf r) (chip_regs r)
  else if op =? SET_RX then Sx1250 MODE_RX (chip_frf r) (chip_regs r)
  else if op =? SET_RF_FREQUENCY then
    Sx1250 (chip_mode r) (foldl (λ x b, x * 2 ^ 8 + b) 0 data) (chip_regs r)
  else if op =? WRITE_REGISTER then
    Sx1250 (chip_mode r) (chip_frf r)
      (write_regs (chip_regs r) (znth 0 data 0 * 2 ^ 8 + znth 0 data 1) (drop 2 data))
  else r.

(** A radio that obeys commands and shows its mode in bits 4 to 6 of its
    status. *)
Class Sx1250Chip {W} (bus : radio_bus W) (mux : Z) (radio_at : com_state W → sx1250 → Prop) : Prop := {
  cmd_write : ∀ s r op data, radio_at s r → is_u8 op → (length data < 16)%nat →
    ∃ s', sx1250_com_w bus mux op data s = Done s' LGW_COM_SUCCESS ∧ radio_at s' (obey op data r);
  cmd_status : ∀ s r x, radio_at s r →
    ∃ s' b, sx1250_com_r bus mux GET_STATUS [x] s = Done s' (LGW_COM_SUCCESS, [b]) ∧ radio_at s' r ∧
      is_u8 b ∧ b / 2 ^ 4 mod 2 ^ 3 = chip_mode r }.

Lemma freq_word_bytes x :
  is_u32 x →
  (((0 * 2 ^ 8 + u8 (Z.shiftr x 24)) * 2 ^ 8 + u8 (Z.shiftr x 16)) * 2 ^ 8 + u8 (Z.shiftr x 8)) * 2 ^ 8 +
    u8 (Z.shiftr x 0) = x.
Proof.
  intros Hx. rewrite !shiftr_div by lia. unfold u8. change (2 ^ 24) with (2 ^ 8 * 2 ^ 16). change (2 ^ 16) with (2 ^ 8 * 2 ^ 8).
  rewrite <- !Z.div_div, Z.div_1_r by lia. pose proof (Z.div_mod x (2 ^ 8)). pose proof (Z.div_mod (x / 2 ^ 8) (2 ^ 8)).
  pose proof (Z.div_mod (x / 2 ^ 8 / 2 ^ 8) (2 ^ 8)).
  rewrite (Z.mod_small (x / 2 ^ 8 / 2 ^ 8 / 2 ^ 8)); [lia|].
  split; [repeat (apply Z.div_pos; [|lia]); lia|]. repeat (apply Z.div_lt_upper_bound; [lia|]). lia.
Qed.

Section Sx1250.
Context {W : Type} (bus : radio_bus W) (radio_at : com_state W → sx1250 → Prop) (rf_chain : Z).
Hypothesis Hrf : rf_chain = 0 ∨ rf_chain = 1.
Context {Chip : Sx1250Chip bus (radio_mux rf_chain) radio_at}.

Lemma sx1250_reg_w_chip s r op data :
  radio_at s r → is_u8 op → (length data < 16)%nat →
  ∃ s', sx1250_reg_w bus op data rf_chain s = Done s' LGW_REG_SUCCESS ∧ radio_at s' (obey op data r).
Proof.
  intros Hs Ho Hd. destruct (cmd_write s r op data Hs Ho Hd) as (s' & E & Hs'). exists s'. split; [|done].
  unfold sx1250_reg_w. rewrite (rf_valid rf_chain Hrf). by erewrite bind_done by exact E.
Qed.
Lemma sx1250_cmds_chip l : ∀ s r,
  radio_at s r → Forall (λ p, is_u8 p.1 ∧ (length p.2 < 16)%nat) l →
  ∃ s', sx1250_cmds bus LGW_REG_SUCCESS rf_chain l s = Done s' LGW_REG_SUCCESS ∧
    radio_at s' (foldl (λ r p, obey p.1 p.2 r) r l).
Proof.
  induction l as [|[op data] l IH]; intros s r Hs Hl; [by exists s|].
  inversion Hl as [|?? [Ho Hd] Hl']. subst. destruct (sx1250_reg_w_chip s r op data Hs Ho Hd) as (s1 & E1 & Hs1).
  destruct (IH s1 _ Hs1 Hl') as (s2 & E2 & Hs2). exists s2. split; [|done].
  cbn [sx1250_cmds]. erewrite bind_done by exact E1. exact E2.
Qed.
Lemma sx1250_standby_chip s r mode expected :
  radio_at s r → u8 mode = mode → chip_mode (obey SET_STANDBY [mode] r) = expected →
  ∃ s', sx1250_standby bus LGW_REG_SUCCESS mode expected rf_chain s = Done s' LGW_REG_SUCCESS ∧
    radio_at s' (obey SET_STANDBY [mode] r).
Proof.
  intros Hs Hm He. unfold sx1250_standby. rewrite Hm.
  destruct (sx1250_reg_w_chip s r SET_STANDBY [mode] Hs) as (s1 & E1 & Hs1); [done|cbn; lia|]. erewrite bind_done by exact E1.
  destruct (cmd_status s1 _ 0 Hs1) as (s2 & b & E2 & Hs2 & Hb & Hx). rewrite He in Hx.
  unfold sx1250_reg_r. rewrite (rf_valid rf_chain Hrf).
  erewrite bind_done; [|erewrite bind_done by exact E2; reflexivity]. cbv beta iota.
  change (znth 0 [b] 0) with b. rewrite take_n_bits, Hx by lia. pose proof (Z.mod_pos_bound (b / 2 ^ 4) (2 ^ 3)).
  rewrite u8_id, Z.eqb_refl by lia. by exists s2.
Qed.

(** C27. The setup of an SX1250, on either link and from any state of the radio,
    succeeds, and leaves it receiving on the frequency word of the requested
    frequency (a multiple of the synthesiser step, less than one step below the
    frequency), with the frequency offset cleared and the input mode of the
    configuration. *)
Theorem sx1250_setup_receives s r f (single_input_mode : bool) :
  radio_at s r → 0 <= f <= 1000000000 →
  ∃ s' r', sx1250_setup bus rf_chain f single_input_mode s = Done s' LGW_REG_SUCCESS ∧ radio_at s' r' ∧
    chip_mode r' = MODE_RX ∧ chip_frf r' = f * 2 ^ 25 / 32000000 ∧
    chip_regs r' 0x88F = 0 ∧ chip_regs r' 0x890 = 0 ∧ chip_regs r' 0x891 = 0 ∧ chip_regs r' 0x587 = 0x0B ∧
    chip_regs r' 0x8E2 = if single_input_mode then 0x0D else chip_regs r 0x8E2.
Proof.
  intros Hs Hf. unfold sx1250_setup.
  destruct (sx1250_standby_chip s r STDBY_RC 2 Hs eq_refl eq_refl) as (s1 & E1 & Hs1).
  destruct (sx1250_reg_w_chip s1 _ CALIBRATE [127] Hs1) as (s2 & E2 & Hs2); [done|cbn; lia|].
  destruct (sx1250_standby_chip s2 _ STDBY_XOSC 3 Hs2 eq_refl eq_refl) as (s3 & E3 & Hs3).
  destruct (sx1250_cmds_chip (setup_cmds f single_input_mode) s3 _ Hs3) as (s4 & E4 & Hs4).
  { unfold setup_cmds. destruct single_input_mode; cbn [app];
      repeat (apply List.Forall_cons; [split; [done|cbn; lia]|]); apply List.Forall_nil. }
  eexists s4, _. split.
  - apply body_done. erewrite bind_done by exact E1. erewrite bind_done by exact E2.
    erewrite bind_done by exact E3. by erewrite bind_done by exact E4.
  - split; [exact Hs4|].
    assert (HF : 0 <= f * 2 ^ 25 / 32000000 < 2 ^ 31) by (split; [apply Z.div_pos; lia|apply Z.div_lt_upper_bound; lia]).
    assert (Efr : s32 (SX1250_FREQ_TO_REG f) = f * 2 ^ 25 / 32000000).
    { unfold SX1250_FREQ_TO_REG. rewrite shiftl_mul, Z.mul_1_l, u32_id by lia. apply s32_id. lia. }
    unfold setup_cmds. rewrite Efr. set (F := f * 2 ^ 25 / 32000000) in *. clearbody F.
    destruct single_input_mode; cbn -[Z.mul Z.add Z.pow Z.shiftr u8]; split_and!; try done.
    all: apply freq_word_bytes; lia.
Qed.
End Sx1250.

(** ** Witnesses: radios behind the SPI device *)

Definition sx125x_sim : radio_bus ((Z → Z) * nat) := {|
  rb_msg := λ w out, match out with
    | [_; x; v] =>
      if x <? 128 then (w, (3, [0; 0; if x =? ADDR_MODE_STATUS then (if decide (w.2 = 0%nat) then 2 else 0) else w.1 x]))
      else ((λ b, if b =? x - 128 then v else w.1 b, if (x - 128 =? ADDR_MODE) && (v =? 3) then pred w.2 else w.2),
            (3, [0; 0; 0]))
    | _ => (w, (-1, []))
    end;
  rb_mcu_spi_write := λ w b, (w, (b, -1)) |}.
Definition sx125x_at (s : com_state ((Z → Z) * nat)) (m : Z → Z) (n : nat) : Prop :=
  s = Com LGW_COM_SPI true (m, n) ∧ ∀ a, is_u8 (m a).
#[export] Instance sx125x_sim_chip mux : Sx125xChip sx125x_sim mux sx125x_at.
Proof.
  constructor.
  - by intros s m n [-> _].
  - intros s m n a [_ H]. apply H.
  - intros s m n a [-> H] Ha. cbn [world rb_msg sx125x_sim fst snd]. rewrite (proj2 (Z.ltb_lt _ _)) by lia.
    eexists _, _, _. split; [reflexivity|]. split; [reflexivity|]. split; [done|].
    destruct (Z.eqb_spec a ADDR_MODE_STATUS); [|done]. case_bool_decide; case_decide; done.
  - intros s m n a v [-> H] Ha Hv. cbn [world rb_msg sx125x_sim fst snd]. rewrite (proj2 (Z.ltb_ge _ _)) by lia.
    replace (128 + a - 128) with a by lia. eexists _, _. split; [reflexivity|]. split; [done|].
    intros b. destruct (b =? a); [done|apply H].
Qed.

Lemma sx125x_setup_programs_witness :
  ∃ s' m', sx125x_setup sx125x_sim 7 1 1 true LGW_RADIO_TYPE_SX1257 868500000 (Com LGW_COM_SPI true (λ _, 0xFF, 3%nat))
    = Done s' 0 ∧ m' 1 * 2 ^ 16 + m' 2 * 2 ^ 8 + m' 3 = 14229504 ∧ m' ADDR_MODE = 3.
Proof.
  destruct (sx125x_setup_programs sx125x_sim sx125x_at 7 1 (or_intror eq_refl) (Com LGW_COM_SPI true (λ _, 0xFF, 3%nat))
    (λ _, 0xFF) 3 1 LGW_RADIO_TYPE_SX1257 868500000) as (s' & m' & E & _ & _ & Hf & Hm).
  - split; [reflexivity|]. intros a. lia.
  - cbn. lia.
  - exists s', m'. split; [exact E|]. split; [exact Hf|exact Hm].
Defined.

(** An SX1250 on either link. *)
Definition sx1250_reply (w : sx1250) (op : Z) (data : list Z) : sx1250 * list Z :=
  if op =? GET_STATUS then (w, [chip_mode w * 2 ^ 4]) else (obey op data w, data).
Definition sx1250_sim : radio_bus sx1250 := {|
  rb_msg := λ w out, match out with
    | mux :: op :: data => let '(w, r) := sx1250_reply w op data in (w, (Z.of_nat (length out), [mux; op] ++ r))
    | _ => (w, (-1, []))
    end;
  rb_mcu_spi_write := λ w buf, match drop 6 buf with
    | op :: data => let '(w, r) := sx1250_reply w op data in (w, (take 7 buf ++ r, 0))
    | _ => (w, (buf, -1))
    end |}.
Definition sx1250_at (s : com_state sx1250) (r : sx1250) : Prop :=
  world s = r ∧ com_target s = true ∧ com_type s ≠ LGW_COM_UNKNOWN ∧ 0 <= chip_mode r < 8.
Lemma obey_mode op data r : 0 <= chip_mode r < 8 → 0 <= chip_mode (obey op data r) < 8.
Proof. intros Hr. unfold obey. repeat case_match; cbn [chip_mode]; unfold MODE_STBY_RC, MODE_STBY_XOSC, MODE_RX; lia. Qed.
Lemma reply_state w op data : (sx1250_reply w op data).1 = obey op data w.
Proof. unfold sx1250_reply. by destruct (Z.eqb_spec op GET_STATUS) as [->|]. Qed.

Lemma sx1250_sim_msg w mux op data :
  rb_msg sx1250_sim w (mux :: op :: data)
  = (obey op data w, (Z.of_nat (length (mux :: op :: data)), [mux; op] ++ (sx1250_reply w op data).2)).
Proof. cbn [rb_msg sx1250_sim]. rewrite <- (reply_state w op data). by destruct (sx1250_reply w op data). Qed.
Lemma sx1250_sim_mcu w mux op data :
  rb_mcu_spi_write sx1250_sim w (sx1250_usb_frame mux op data)
  = (obey (u8 op) data w, (take 7 (sx1250_usb_frame mux op data) ++ (sx1250_reply w (u8 op) data).2, 0)).
Proof. cbn [rb_mcu_spi_write sx1250_sim drop sx1250_usb_frame app]. rewrite <- (reply_state w (u8 op) data).
  by destruct (sx1250_reply w (u8 op) data). Qed.

#[export] Instance sx1250_sim_chip mux : Sx1250Chip sx1250_sim mux sx1250_at.
Proof.
  constructor.
  - intros s r op data (<- & Ht & Hty & Hm) Ho Hd. exists (with_world s (obey op data (world s))).
    split; [|split; [done|]; split; [done|]; split; [done|]; by apply obey_mode].
    unfold sx1250_com_w. erewrite bind_done by reflexivity. rewrite Ht. cbn [negb].
    destruct (com_type s) eqn:Ety; [| |done].
    + unfold sx1250_spi_w. cbv zeta. rewrite (u8_id (2 + _)), u8_id, firstn_all2 by (cbn [app length]; lia).
      erewrite bind_done by (unfold world_call, call; cbn [app]; rewrite sx1250_sim_msg; reflexivity). cbv beta iota.
      cbn [length]. by rewrite (proj2 (Z.eqb_eq _ _)) by lia.
    + unfold sx1250_usb_w. rewrite (proj2 (Z.leb_gt _ _)) by lia.
      erewrite bind_done by (unfold world_call, call; rewrite sx1250_sim_mcu; reflexivity). by rewrite u8_id by lia.
  - intros s r x (<- & Ht & Hty & Hm). exists (with_world s (world s)), (chip_mode (world s) * 2 ^ 4).
    split; [|split; [by destruct s|]; split; [lia|rewrite Z.div_mul by lia; apply Z.mod_small; lia]].
    unfold sx1250_com_r. erewrite bind_done by reflexivity. rewrite Ht. cbn [negb].
    by destruct (com_type s) eqn:Ety.
Qed.

Lemma sx1250_setup_receives_witness :
  let s := Com LGW_COM_USB true (Sx1250 0 0 (λ _, 0xAA)) in
  ∃ s' r', sx1250_setup sx1250_sim 0 868500000 true s = Done s' LGW_REG_SUCCESS ∧ chip_mode r' = MODE_RX ∧
    chip_frf r' = 910688256 ∧ chip_regs r' 0x8E2 = 0x0D.
Proof.
  intros s. destruct (sx1250_setup_receives sx1250_sim sx1250_at 0 (or_introl eq_refl) s (Sx1250 0 0 (λ _, 0xAA))
    868500000 true) as (s' & r' & E & _ & Hm & Hf & _ & _ & _ & _ & Hr).
  - split; [done|]. split; [done|]. split; [done|cbn; lia].
  - lia.
  - exists s', r'. split; [exact E|]. split; [exact Hm|]. split; [exact Hf|exact Hr].
Defined.
