(* ===== verification/Cal.v ===== *)
(** * Calibration of the radios ([libloragw/src/loragw_cal.c], [loragw_sx1302.c])

    For SX1255 and SX1257 radios a calibration firmware is loaded in the place
    of the AGC firmware. The receive image of each radio and the DC offset of
    each combination of transmit gains are measured three times; the results of
    the best measurement go to the registers of the SX1302 and to the gain table.
    SX1250 radios calibrate themselves. The waits and messages are left out;
    polling has fuel. *)
From stdpp Require Import base list numbers strings.
From Stdlib Require Import ZArith Lia.
From S2P Require Import Prelude Binary64 HalTypes Com RegIds Reg RegProg HalConf Sx1302Conf Sx1302Mcu Radio.

Open Scope Z_scope.
Open Scope list_scope.

Definition CAL_TX_TONE_FREQ_HZ : Z := 250000.
Definition CAL_ITER : nat := 3.
Definition CAL_TX_CORR_DURATION : Z := 0.
Definition FW_VERSION_CAL : Z := 1.

(** ** Results *)

Module CalRx.
Record result := Res { amp : Z; phi : Z; rej : Z; rej_init : Z; snr : Z }.
Definition min0 : result := Res 31 31 255 255 255.
Definition max0 : result := Res (-32) (-32) 0 0 0.
Definition lower (x m : result) : result :=
  Res (Z.min (amp x) (amp m)) (Z.min (phi x) (phi m)) (Z.min (rej x) (rej m)) (Z.min (rej_init x) (rej_init m))
    (Z.min (snr x) (snr m)).
Definition upper (x m : result) : result :=
  Res (Z.max (amp x) (amp m)) (Z.max (phi x) (phi m)) (Z.max (rej x) (rej m)) (Z.max (rej_init x) (rej_init m))
    (Z.max (snr x) (snr m)).
Definition cal_rx_result_sort (res_rx : result) (mm : result * result) : result * result :=
  (lower res_rx mm.1, upper res_rx mm.2).
Definition cal_rx_result_assert (mm : result * result) : bool :=
  negb ((4 <? amp mm.2 - amp mm.1) || (4 <? phi mm.2 - phi mm.1) || (rej mm.1 <? 50) || (snr mm.1 <? 50)).
End CalRx.
Module CalTx.
Record result := Res { offset_i : Z; offset_q : Z; rej : Z; sig : Z }.
Definition min0 : result := Res 127 127 255 255.
Definition max0 : result := Res (-128) (-128) 0 0.
Definition lower (x m : result) : result :=
  Res (Z.min (offset_i x) (offset_i m)) (Z.min (offset_q x) (offset_q m)) (Z.min (rej x) (rej m)) (Z.min (sig x) (sig m)).
Definition upper (x m : result) : result :=
  Res (Z.max (offset_i x) (offset_i m)) (Z.max (offset_q x) (offset_q m)) (Z.max (rej x) (rej m)) (Z.max (sig x) (sig m)).
Definition cal_tx_result_sort (res_tx : result) (mm : result * result) : result * result :=
  (lower res_tx mm.1, upper res_tx mm.2).
Definition cal_tx_result_assert (mm : result * result) : bool :=
  negb ((4 <? offset_i mm.2 - offset_i mm.1) || (4 <? offset_q mm.2 - offset_q mm.1) || (rej mm.1 <? 10)).
End CalTx.

(** The index of the best rejection; [x_max] has 8 bits. *)
Fixpoint best (rejs : list Z) (j x_max x_max_idx : Z) : Z :=
  match rejs with
  | [] => x_max_idx
  | r :: rejs => if x_max <? r then best rejs (j + 1) (u8 r) j else best rejs (j + 1) x_max x_max_idx
  end.

(** [(uint16_t)(x)] *)
Definition u16_of_double (x : double) : outcome Z :=
  let z := dtrunc x in if (0 <=? z) && (z <? 2 ^ 16) then Ret z else Undef.

(** [CAL_TX_TONE_FREQ_HZ * 64e-6] as [uint8_t]. *)
Definition cal_tone : Z := u8 (dtrunc (dmul (dbl_of_Z CAL_TX_TONE_FREQ_HZ) (rnd 64 1000000))).

(** ** Unique combinations of gains *)

(** The combinations of the first [n] entries of the table, from entry [i] on. *)
Fixpoint unique_gains (n : nat) (lut : list Gain.lgw_tx_gain_s) (i : Z) (gains : list (Z * Z)) : outcome (list (Z * Z)) :=
  match n with
  | O => Ret gains
  | S n =>
    e ← buf_get lut i;
    let g := (Gain.dac_gain e, Gain.mix_gain e) in
    if decide (g ∈ gains) then unique_gains n lut (i + 1) gains
    else if TX_GAIN_LUT_SIZE_MAX <=? Z.of_nat (length gains) then Undef
    else unique_gains n lut (i + 1) (gains ++ [g])
  end.

Definition with_offsets (e : Gain.lgw_tx_gain_s) (o : Z * Z) : Gain.lgw_tx_gain_s :=
  {| Gain.rf_power := Gain.rf_power e; Gain.dig_gain := Gain.dig_gain e; Gain.pa_gain := Gain.pa_gain e;
     Gain.dac_gain := Gain.dac_gain e; Gain.mix_gain := Gain.mix_gain e; Gain.offset_i := o.1; Gain.offset_q := o.2;
     Gain.pwr_idx := Gain.pwr_idx e |}.
(** The index of a combination; its number when it is not there. *)
Definition gain_index (gains : list (Z * Z)) (g : Z * Z) : Z :=
  match list_find (λ x, x = g) gains with Some (j, _) => Z.of_nat j | None => Z.of_nat (length gains) end.
(** The offsets found for the combination of each entry. *)
Definition fill_offsets (n : nat) (gains offsets : list (Z * Z)) (lut : list Gain.lgw_tx_gain_s)
  : outcome (list Gain.lgw_tx_gain_s) :=
  for_loop n 0 (λ i lut,
    e ← buf_get lut i;
    o ← buf_get offsets (gain_index gains (Gain.dac_gain e, Gain.mix_gain e));
    buf_set lut i (with_offsets e o)) lut.

Section Cal.
Context {W : Type} (spi usb : driver W) (bus : radio_bus W).
(** The library function, and what uninitialised bytes, results and offsets on
    the stack hold. *)
Context (log10 : double → double).
Context (junk : Z) (junk_rx : CalRx.result) (junk_tx : CalTx.result) (junk_offsets : list (list (Z * Z))).
Abbreviation sets := (sx125x_sets bus junk).
Abbreviation wait := (sx1302_agc_wait_status spi usb).

(** ** Mailboxes; results are not looked at *)

Fixpoint mw (l : list (Z * Z)) : prog W () :=
  match l with [] => mret () | (i, v) :: l => _ ← sx1302_agc_mailbox_write spi usb i v; mw l end.
Definition mr (i : Z) : prog W Z := '(_, v) ← sx1302_agc_mailbox_read spi usb i None; mret (default junk v).
Definition set_regs (l : list (Z * Z)) : prog W () := _ ← wr_or spi usb 0 l; mret ().

(** Two bytes of a level, and its ratio to another in dB. *)
Definition level (b1 b0 : Z) : double := fadd (fmul (float_of_Z b1) (float_of_Z 256)) (float_of_Z b0).
Definition ratio_db (x y : double) : outcome Z :=
  if (num x =? 0) || (num y =? 0) then Undef
  else u16_of_double (dmul (dbl_of_Z 20) (log10 (fdiv x y))).

(** The frequencies of the two PLLs. *)
Definition pll_freqs (rx_parts tx_parts : Z * Z) (rx tx : Z) : prog W () :=
  _ ← sets rx [(SX125x_REG_FRF_RX_MSB, Z.land 0xFF rx_parts.1);
               (SX125x_REG_FRF_RX_MID, Z.land 0xFF (Z.shiftr rx_parts.2 8)); (SX125x_REG_FRF_RX_LSB, Z.land 0xFF rx_parts.2)];
  sets tx [(SX125x_REG_FRF_TX_MSB, Z.land 0xFF tx_parts.1);
           (SX125x_REG_FRF_TX_MID, Z.land 0xFF (Z.shiftr tx_parts.2 8)); (SX125x_REG_FRF_TX_LSB, Z.land 0xFF tx_parts.2)].
(** Both PLLs show a lock. *)
Definition plls_locked (rx tx : Z) : prog W bool :=
  '(_, r) ← sx125x_reg_r bus junk SX125x_REG_MODE_STATUS__RX_PLL_LOCKED rx;
  '(_, t) ← sx125x_reg_r bus junk SX125x_REG_MODE_STATUS__TX_PLL_LOCKED tx;
  mret (negb ((default junk r =? 0) || (default junk t =? 0))).

(** ** The measurements: the status, and the result if it is stored *)

Definition sx125x_cal_rx_image (fuel : nat) (rf_chain freq_hz : Z) (use_loopback : bool) (radio_type : lgw_radio_type_t)
  : prog W (Z * option CalRx.result) :=
  let rx := rf_chain in
  let tx := if use_loopback then rf_chain else u8 (1 - rf_chain) in
  match pll_parts radio_type freq_hz, pll_parts radio_type (u32 (freq_hz + CAL_TX_TONE_FREQ_HZ)) with
  | Some rx_parts, Some tx_parts =>
    _ ← pll_freqs rx_parts tx_parts rx tx;
    _ ← sets rx [(SX125x_REG_RX_BW__BB_BW, 0); (SX125x_REG_RX_BW__ADC_TRIM, 6); (SX125x_REG_RX_PLL_BW__PLL_BW, 0)];
    _ ← sets tx [(SX125x_REG_TX_BW__PLL_BW, 0); (SX125x_REG_TX_DAC_BW, 5)];
    _ ← (if use_loopback then
           sets tx [(SX125x_REG_TX_GAIN__DAC_GAIN, 3); (SX125x_REG_TX_GAIN__MIX_GAIN, 10);
                    (SX125x_REG_CLK_SELECT__RF_LOOPBACK_EN, 1); (SX125x_REG_MODE, 15)]
         else
           _ ← sets tx [(SX125x_REG_TX_GAIN__DAC_GAIN, 3); (SX125x_REG_TX_GAIN__MIX_GAIN, 15)];
           _ ← sets rx [(SX125x_REG_MODE, 3)];
           sets tx [(SX125x_REG_MODE, 13)]);
    locked ← plls_locked rx tx;
    if negb locked then mret (LGW_HAL_ERROR, None)
    else
      _ ← set_regs [(REG "RADIO_FE_SIG_ANA_CFG_RADIO_SEL", if rf_chain =? 0 then 1 else 0)];
      _ ← mw [(2, rf_chain); (1, cal_tone); (0, CAL_TX_CORR_DURATION); (3, 0x00); (3, 0x01)];
      _ ← wait fuel 0x01;
      _ ← mw [(3, 0x02)]; _ ← wait fuel 0x02;
      _ ← mw [(3, 0x03)]; _ ← wait fuel 0x03;
      _ ← mw [(2, 0); (1, 8); (3, 0x04)]; _ ← wait fuel 0x06;
      _ ← mr 3; _ ← mr 2; rx_sig_1 ← mr 1; rx_sig_0 ← mr 0;
      _ ← mw [(3, 0x06)]; _ ← wait fuel 0x07;
      rx_img_init_1 ← mr 3; rx_img_init_0 ← mr 2; amp ← mr 1; phi ← mr 0;
      _ ← mw [(3, 0x07)]; _ ← wait fuel 0x08;
      rx_img_1 ← mr 3; rx_img_0 ← mr 2; rx_noise_raw_1 ← mr 1; rx_noise_raw_0 ← mr 0;
      let rx_sig := level rx_sig_1 rx_sig_0 in
      _ ← mw [(3, 0x08)];
      snr ← pure_of (ratio_db rx_sig (level rx_noise_raw_1 rx_noise_raw_0));
      rej_init ← pure_of (ratio_db rx_sig (level rx_img_init_1 rx_img_init_0));
      rej ← pure_of (ratio_db rx_sig (level rx_img_1 rx_img_0));
      _ ← wait fuel (if rf_chain =? 0 then 0x11 else 0x22);
      mret (LGW_HAL_SUCCESS, Some (CalRx.Res (s8 amp) (s8 phi) rej rej_init snr))
  | _, _ => mret (LGW_HAL_ERROR, None)
  end.

(** The values the firmware shows for debugging, in [n] steps from status [st]. *)
Fixpoint debug_steps (fuel n : nat) (st : Z) : prog W () :=
  match n with
  | O => mret ()
  | S n =>
    _ ← wait fuel st; _ ← mr 3; _ ← mr 2; _ ← mr 1; _ ← mr 0;
    _ ← mw [(3, st)];
    debug_steps fuel n (st + 1)
  end.

(** [old] is what the result structure holds before: [sig] is not set. *)
Definition sx125x_cal_tx_dc_offset (fuel : nat) (rf_chain freq_hz dac_gain mix_gain : Z) (radio_type : lgw_radio_type_t)
    (image_amp image_phi : Z) (old : CalTx.result) : prog W (Z * CalTx.result) :=
  match pll_parts radio_type (u32 (freq_hz - CAL_TX_TONE_FREQ_HZ)), pll_parts radio_type freq_hz with
  | Some rx_parts, Some tx_parts =>
    _ ← pll_freqs rx_parts tx_parts rf_chain rf_chain;
    _ ← sets rf_chain
          [(SX125x_REG_RX_BW__BB_BW, 0); (SX125x_REG_RX_BW__ADC_TRIM, 6); (SX125x_REG_RX_PLL_BW__PLL_BW, 0);
           (SX125x_REG_TX_BW__PLL_BW, 0); (SX125x_REG_TX_DAC_BW, 5); (SX125x_REG_CLK_SELECT__DAC_CLK_SELECT, 1);
           (SX125x_REG_TX_GAIN__DAC_GAIN, dac_gain); (SX125x_REG_TX_GAIN__MIX_GAIN, mix_gain);
           (SX125x_REG_CLK_SELECT__RF_LOOPBACK_EN, 1); (SX125x_REG_MODE, 15)];
    locked ← plls_locked rf_chain rf_chain;
    if negb locked then mret (LGW_HAL_ERROR, old)
    else
      let trig := REG_SELECT rf_chain (REG "TX_TOP_A_TX_TRIG_TX_TRIG_IMMEDIATE") (REG "TX_TOP_B_TX_TRIG_TX_TRIG_IMMEDIATE") in
      _ ← set_regs
            [(REG "RADIO_FE_SIG_ANA_CFG_RADIO_SEL", if rf_chain =? 0 then 1 else 0);
             (REG_SELECT rf_chain (REG "TX_TOP_A_TX_RFFE_IF_CTRL_TX_MODE") (REG "TX_TOP_B_TX_RFFE_IF_CTRL_TX_MODE"), 0);
             (trig, 1); (trig, 0);
             (REG_SELECT rf_chain (REG "RADIO_FE_CTRL0_RADIO_A_DC_NOTCH_EN") (REG "RADIO_FE_CTRL0_RADIO_B_DC_NOTCH_EN"), 1)];
      _ ← mw [(2, u8 (rf_chain + 2)); (1, cal_tone); (0, 0); (3, 0x00); (3, 0x01)];
      _ ← wait fuel 0x01;
      _ ← mw [(2, u8 image_amp); (1, u8 image_phi); (3, 0x02)]; _ ← wait fuel 0x02;
      _ ← mw [(2, 0); (1, 0); (3, 0x03)]; _ ← wait fuel 0x03;
      _ ← mw [(2, 0); (1, 64); (3, 0x04)]; _ ← wait fuel 0x06;
      _ ← mr 3; _ ← mr 2; tx_sig_1 ← mr 1; tx_sig_0 ← mr 0;
      _ ← mw [(3, 0x06)]; _ ← wait fuel 0x07;
      tx_dc_1 ← mr 3; tx_dc_0 ← mr 2; offset_i ← mr 1; offset_q ← mr 0;
      rej ← pure_of (ratio_db (level tx_sig_1 tx_sig_0) (level tx_dc_1 tx_dc_0));
      _ ← mw [(3, 0x07)];
      _ ← debug_steps fuel 3 0x08;
      _ ← debug_steps fuel 20 0x0c;
      _ ← wait fuel (0x0c + 20);
      _ ← mw [(3, 0x0c + 20)];
      _ ← wait fuel (if rf_chain =? 0 then 0x33 else 0x44);
      mret (LGW_HAL_SUCCESS, CalTx.Res (s8 offset_i) (s8 offset_q) rej (CalTx.sig old))
  | _, _ => mret (LGW_HAL_ERROR, old)
  end.

(** ** [sx1302_cal_start] *)

(** [n] measurements of the image; a failed one leaves the result as it was. *)
Fixpoint rx_iterations (fuel n : nat) (rf_chain : Z) (rf : Rxrf.lgw_conf_rxrf_s) (use_loopback : bool)
    (cal_rx : list CalRx.result) (mm : CalRx.result * CalRx.result) : prog W (list CalRx.result * (CalRx.result * CalRx.result)) :=
  match n, cal_rx with
  | S n, old :: cal_rx =>
    '(_, res) ← sx125x_cal_rx_image fuel rf_chain (Rxrf.freq_hz rf) use_loopback (Rxrf.type rf);
    let res := default old res in
    '(rest, mm) ← rx_iterations fuel n rf_chain rf use_loopback cal_rx (CalRx.cal_rx_result_sort res mm);
    mret (res :: rest, mm)
  | _, _ => mret ([], mm)
  end.

(** The image calibration of one radio: its amplitude and phase. The status of
    the radio before is used when the first method is left out. *)
Definition rx_calibrate (fuel : nat) (rf_chain_cfg : list Rxrf.lgw_conf_rxrf_s) (i : Z) (cal_rx : list CalRx.result)
    (cal_status : bool) : prog W (list CalRx.result * bool * (Z * Z)) :=
  rf ← pure_of (buf_get rf_chain_cfg i);
  rf0 ← pure_of (buf_get rf_chain_cfg 0);
  rf1 ← pure_of (buf_get rf_chain_cfg 1);
  if Rxrf.enable rf then
    let same := bool_decide (Rxrf.type rf0 = Rxrf.type rf1) in
    '(cal_rx, cal_status) ← (if same then
        '(cal_rx, mm) ← rx_iterations fuel CAL_ITER i rf false cal_rx (CalRx.min0, CalRx.max0);
        mret (cal_rx, CalRx.cal_rx_result_assert mm)
      else mret (cal_rx, cal_status));
    '(cal_rx, cal_status) ← (if negb cal_status || negb same then
        '(cal_rx, mm) ← rx_iterations fuel CAL_ITER i rf true cal_rx (CalRx.min0, CalRx.max0);
        mret (cal_rx, CalRx.cal_rx_result_assert mm)
      else mret (cal_rx, cal_status));
    if negb cal_status then failed
    else
      r ← pure_of (buf_get cal_rx (best (CalRx.rej <$> cal_rx) 0 0 0));
      mret (cal_rx, cal_status, (CalRx.amp r, CalRx.phi r))
  else mret (cal_rx, cal_status, (0, 0)).

Fixpoint tx_iterations (fuel n : nat) (rf_chain : Z) (rf : Rxrf.lgw_conf_rxrf_s) (g image : Z * Z)
    (cal_tx : list CalTx.result) (mm : CalTx.result * CalTx.result) : prog W (list CalTx.result * (CalTx.result * CalTx.result)) :=
  match n, cal_tx with
  | S n, old :: cal_tx =>
    '(_, res) ← sx125x_cal_tx_dc_offset fuel rf_chain (Rxrf.freq_hz rf) g.1 g.2 (Rxrf.type rf) image.1 image.2 old;
    '(rest, mm) ← tx_iterations fuel n rf_chain rf g image cal_tx (CalTx.cal_tx_result_sort res mm);
    mret (res :: rest, mm)
  | _, _ => mret ([], mm)
  end.

(** The offsets of the combinations [gains] of one radio, from index [j] on. *)
Fixpoint tx_calibrate (fuel : nat) (i : Z) (rf : Rxrf.lgw_conf_rxrf_s) (image : Z * Z) (gains : list (Z * Z)) (j : Z)
    (offsets : list (Z * Z)) (cal_tx : list CalTx.result) : prog W (list (Z * Z) * list CalTx.result) :=
  match gains with
  | [] => mret (offsets, cal_tx)
  | g :: gains =>
    '(cal_tx, mm) ← tx_iterations fuel CAL_ITER i rf g image cal_tx (CalTx.min0, CalTx.max0);
    if negb (CalTx.cal_tx_result_assert mm) then failed
    else
      r ← pure_of (buf_get cal_tx (best (CalTx.rej <$> cal_tx) 0 0 0));
      offsets ← pure_of (buf_set offsets j (CalTx.offset_i r, CalTx.offset_q r));
      tx_calibrate fuel i rf image gains (j + 1) offsets cal_tx
  end.

(** Radio [i] transmits: its offsets, else what its array held. *)
Definition tx_offsets (fuel : nat) (rf_chain_cfg : list Rxrf.lgw_conf_rxrf_s) (i : Z) (image : Z * Z) (gains : list (Z * Z))
    (cal_tx : list CalTx.result) : prog W (list (Z * Z) * list CalTx.result) :=
  rf ← pure_of (buf_get rf_chain_cfg i);
  offsets ← pure_of (buf_get junk_offsets i);
  if Rxrf.tx_enable rf then tx_calibrate fuel i rf image gains 0 offsets cal_tx else mret (offsets, cal_tx).

(** The status and the gain tables. *)
Definition sx1302_cal_start (fuel : nat) (version : Z) (rf_chain_cfg : list Rxrf.lgw_conf_rxrf_s)
    (txgain_lut : list Gain.lgw_tx_gain_lut_s) : prog W (list Gain.lgw_tx_gain_lut_s) :=
  _ ← wait fuel 0x01;
  val ← mr 0;
  if negb (val =? version) then failed
  else
    _ ← mw [(3, 0xFF)];
    _ ← wait fuel 0x00;
    '(cal_rx, cal_status, image_a) ← rx_calibrate fuel rf_chain_cfg 0 (replicate CAL_ITER junk_rx) false;
    '(_, _, image_b) ← rx_calibrate fuel rf_chain_cfg 1 cal_rx cal_status;
    _ ← set_regs [(REG "RADIO_FE_IQ_COMP_AMP_COEFF_RADIO_A_AMP_COEFF", fst image_a);
                  (REG "RADIO_FE_IQ_COMP_PHI_COEFF_RADIO_A_PHI_COEFF", snd image_a);
                  (REG "RADIO_FE_IQ_COMP_AMP_COEFF_RADIO_B_AMP_COEFF", fst image_b);
                  (REG "RADIO_FE_IQ_COMP_PHI_COEFF_RADIO_B_PHI_COEFF", snd image_b)];
    lut_a ← pure_of (buf_get txgain_lut 0);
    lut_b ← pure_of (buf_get txgain_lut 1);
    gains_a ← pure_of (unique_gains (Z.to_nat (Gain.size lut_a)) (Gain.lut lut_a) 0 []);
    gains_b ← pure_of (unique_gains (Z.to_nat (Gain.size lut_b)) (Gain.lut lut_b) 0 []);
    '(offsets_a, cal_tx) ← tx_offsets fuel rf_chain_cfg 0 image_a gains_a (replicate CAL_ITER junk_tx);
    '(offsets_b, _) ← tx_offsets fuel rf_chain_cfg 1 image_b gains_b cal_tx;
    new_a ← pure_of (fill_offsets (Z.to_nat (Gain.size lut_a)) gains_a offsets_a (Gain.lut lut_a));
    new_b ← pure_of (fill_offsets (Z.to_nat (Gain.size lut_b)) gains_b offsets_b (Gain.lut lut_b));
    mret [Gain.Lut new_a (Gain.size lut_a); Gain.Lut new_b (Gain.size lut_b)].

(** ** [sx1302_radio_calibrate] *)

(** Resets the enabled radios from chain [i] on and sets their modes. *)
Fixpoint reset_radios (rfs : list Rxrf.lgw_conf_rxrf_s) (i : Z) : prog W () :=
  match rfs with
  | [] => mret ()
  | rf :: rfs =>
    _ ← (if Rxrf.enable rf then
           err ← sx1302_radio_reset spi usb i (Rxrf.type rf);
           _ ← CHECK_OK err;
           err ← sx1302_radio_set_mode spi usb i (Rxrf.type rf);
           CHECK_OK err
         else mret ());
    reset_radios rfs (i + 1)
  end.
Fixpoint calibrate_sx1250s (rfs : list Rxrf.lgw_conf_rxrf_s) (i err : Z) : prog W Z :=
  match rfs with
  | [] => mret err
  | rf :: rfs =>
    err ← (if Rxrf.enable rf then
             err ← sx1250_calibrate bus i (Rxrf.freq_hz rf); _ ← CHECK_OK err; mret err
           else mret err);
    calibrate_sx1250s rfs (i + 1) err
  end.

(** [h] after a failure of [p]. *)
Definition or_else {A} (p h : prog W A) : prog W A := λ s, match p s with Failed s => h s | r => r end.

(** [cal_fw] is the calibration firmware, [fw_junk] the stack of the function
    that loads it. The failure of the calibration resets both radios. The
    result is the status and the gain tables. *)
Definition sx1302_radio_calibrate (fuel : nat) (cal_fw fw_junk : list Z) (context_rf_chain : list Rxrf.lgw_conf_rxrf_s)
    (clksrc : Z) (txgain_lut : list Gain.lgw_tx_gain_lut_s) : prog W (Z * list Gain.lgw_tx_gain_lut_s) :=
  _ ← reset_radios context_rf_chain 0;
  err ← sx1302_radio_clock_select spi usb clksrc;
  _ ← CHECK_OK err;
  err ← wr_or spi usb err [(REG "AGC_MCU_CTRL_FORCE_HOST_FE_CTRL", 1); (REG "AGC_MCU_RF_EN_A_PA_EN", 0);
                           (REG "AGC_MCU_RF_EN_A_LNA_EN", 0)];
  rf ← pure_of (buf_get context_rf_chain clksrc);
  '(err, lut) ← (if is_sx125x (Rxrf.type rf) then
      err ← sx1302_agc_load_firmware spi usb cal_fw fw_junk;
      _ ← CHECK_OK err;
      lut ← or_else (sx1302_cal_start fuel FW_VERSION_CAL context_rf_chain txgain_lut)
              (rf0 ← pure_of (buf_get context_rf_chain 0);
               rf1 ← pure_of (buf_get context_rf_chain 1);
               _ ← sx1302_radio_reset spi usb 0 (Rxrf.type rf0);
               _ ← sx1302_radio_reset spi usb 1 (Rxrf.type rf1);
               failed);
      mret (err, lut)
    else
      err ← calibrate_sx1250s context_rf_chain 0 err;
      mret (err, txgain_lut));
  err ← wr_or spi usb err [(REG "AGC_MCU_CTRL_FORCE_HOST_FE_CTRL", 0)];
  mret (err, lut).
End Cal.
