(* ===== verification/CalProps.v ===== *)
(** * Properties of the calibration

    The offsets of the gain tables, and when three measurements are accepted. *)
From stdpp Require Import base sets list numbers.
From Stdlib Require Import ZArith Lia.
From S2P Require Import Prelude Binary64 HalTypes Com RegIds Reg RegProg HalConf HalConfProps Sx1302Conf Sx1302Mcu Radio Cal.

Open Scope Z_scope.
Open Scope list_scope.

Abbreviation gains_of e := (Gain.dac_gain e, Gain.mix_gain e).

Lemma unique_gains_spec lut : ∀ n i gains,
  0 <= i → i + Z.of_nat n <= Z.of_nat (length lut) → NoDup gains → Z.of_nat (length gains) + Z.of_nat n <= 16 →
  ∃ gains', unique_gains n lut i gains = Ret gains' ∧ NoDup gains' ∧ Z.of_nat (length gains') <= 16 ∧ gains ⊆ gains' ∧
    ∀ k e, i <= k < i + Z.of_nat n → lut !! Z.to_nat k = Some e → gains_of e ∈ gains'.
Proof.
  induction n as [|n IH]; intros i gains Hi Hn Hnd Hl; cbn [unique_gains].
  { exists gains. split_and!; try done; [lia|]. intros. lia. }
  destruct (lookup_lt_is_Some_2 lut (Z.to_nat i)) as [e He]; [lia|]. rewrite (buf_get_lookup _ _ e) by (done || lia). cstep.
  assert (Hgo : ∀ g', gains ⊆ g' → gains_of e ∈ g' → NoDup g' → Z.of_nat (length g') + Z.of_nat n <= 16 →
    ∃ gains', unique_gains n lut (i + 1) g' = Ret gains' ∧ NoDup gains' ∧ Z.of_nat (length gains') <= 16 ∧ gains ⊆ gains' ∧
    ∀ k e, i <= k < i + Z.of_nat (S n) → lut !! Z.to_nat k = Some e → gains_of e ∈ gains').
  { intros g' Hsub Hin Hnd' Hl'. destruct (IH (i + 1) g' ltac:(lia) ltac:(lia) Hnd' Hl') as (r & E & Hr & Hlr & Hsr & Hk).
    exists r. split_and!; try done; [set_solver|]. intros k e' Hk' Hke. destruct (decide (k = i)) as [->|Hne].
    - rewrite He in Hke. injection Hke as <-. set_solver.
    - apply (Hk k); [lia|done]. }
  destruct (decide _) as [Hin|Hnin]; [apply Hgo; [done..|lia]|].
  rewrite (proj2 (Z.leb_gt _ _)) by (unfold TX_GAIN_LUT_SIZE_MAX; lia).
  apply Hgo; [set_solver|set_solver| |rewrite length_app; cbn [length]; lia].
  apply list.NoDup_app. split_and!; [done| |apply NoDup_singleton]. intros x Hx Hx'. by apply list_elem_of_singleton in Hx' as ->.
Qed.

Lemma gain_index_spec gains g : g ∈ gains → ∃ j, gain_index gains g = Z.of_nat j ∧ gains !! j = Some g.
Proof.
  intros Hg. unfold gain_index. destruct (list_find (λ x, x = g) gains) as [[j x]|] eqn:E.
  - apply list_find_Some in E as (Hj & -> & _). by exists j.
  - apply list_find_None in E. rewrite list.Forall_forall in E. by destruct (E g Hg).
Qed.

(** The entries below [i] have the offsets of their gains, the others are as
    they were. *)
Definition filled (gains offsets : list (Z * Z)) (old : list Gain.lgw_tx_gain_s) (i : Z) (lut : list Gain.lgw_tx_gain_s)
  : Prop :=
  length lut = length old ∧ ∀ k e, old !! k = Some e →
    if Z.of_nat k <? i
    then ∃ j o, gains !! j = Some (gains_of e) ∧ offsets !! j = Some o ∧ lut !! k = Some (with_offsets e o)
    else lut !! k = Some e.

Lemma fill_offsets_spec l gains offsets :
  lut_shape l → (length gains <= 16)%nat → length offsets = 16%nat →
  (∀ k e, 0 <= k < Gain.size l → Gain.lut l !! Z.to_nat k = Some e → gains_of e ∈ gains) →
  ∃ lut', fill_offsets (Z.to_nat (Gain.size l)) gains offsets (Gain.lut l) = Ret lut' ∧
    filled gains offsets (Gain.lut l) (Gain.size l) lut'.
Proof.
  intros [Hl Hs] Hlen Ho Hk. unfold fill_offsets.
  destruct (for_loop_inv (filled gains offsets (Gain.lut l)) (Z.to_nat (Gain.size l)) 0 (λ i lut,
    e ← buf_get lut i; o ← buf_get offsets (gain_index gains (gains_of e)); buf_set lut i (with_offsets e o)) (Gain.lut l))
    as (lut' & E' & Hf).
  - split; [done|]. intros k e He. by rewrite (proj2 (Z.ltb_ge _ _)) by lia.
  - intros i t Hi [Ht Hinv]. destruct (lookup_lt_is_Some_2 (Gain.lut l) (Z.to_nat i)) as [e He]; [lia|].
    pose proof (Hinv _ _ He) as Hte. rewrite (proj2 (Z.ltb_ge _ _)) in Hte by lia.
    rewrite (buf_get_lookup _ _ e) by (done || lia). cstep.
    destruct (gain_index_spec gains (gains_of e)) as (j & Ej & Hj); [apply (Hk i); [lia|done]|].
    pose proof (lookup_lt_Some _ _ _ Hj). destruct (lookup_lt_is_Some_2 offsets j) as [o Hoj]; [lia|].
    rewrite Ej, (buf_get_nat _ _ o) by done. cstep. rewrite buf_set_insert by lia. eexists. split; [done|].
    split; [by rewrite length_insert|]. intros k e' He'. destruct (decide (k = Z.to_nat i)) as [->|Hne].
    + rewrite (proj2 (Z.ltb_lt _ _)), list_lookup_insert_eq by lia. rewrite He in He'. injection He' as <-. by exists j, o.
    + rewrite list_lookup_insert_ne by done. pose proof (Hinv _ _ He') as Hk'.
      destruct (Z.ltb_spec (Z.of_nat k) i), (Z.ltb_spec (Z.of_nat k) (i + 1)); try lia; done.
  - exists lut'. replace (0 + Z.of_nat (Z.to_nat (Gain.size l))) with (Gain.size l) in Hf by lia. done.
Qed.

Lemma unique_gains_total l :
  lut_shape l → ∃ gains, unique_gains (Z.to_nat (Gain.size l)) (Gain.lut l) 0 [] = Ret gains ∧ NoDup gains ∧
    (length gains <= 16)%nat ∧
    ∀ k e, 0 <= k < Gain.size l → Gain.lut l !! Z.to_nat k = Some e → gains_of e ∈ gains.
Proof.
  intros [Hl Hs].
  destruct (unique_gains_spec (Gain.lut l) (Z.to_nat (Gain.size l)) 0 []) as (gains & E & Hnd & Hlen & _ & Hk);
    [lia|lia|apply NoDup_nil_2|cbn; lia|].
  exists gains. split_and!; [done|done|lia|]. intros k e Hk'. apply Hk. lia.
Qed.

(** [filled] looks at the offsets of the combinations only. *)
Lemma filled_mono gains offsets offsets' old i lut :
  (∀ j o, (j < length gains)%nat → offsets !! j = Some o → offsets' !! j = Some o) →
  filled gains offsets old i lut → filled gains offsets' old i lut.
Proof.
  intros Hsub [Hl Hf]. split; [done|]. intros k e He. specialize (Hf k e He). destruct (_ <? _); [|done].
  destruct Hf as (j & o & Hj & Ho & Hlut). exists j, o. split; [done|]. split; [|done].
  apply Hsub; [by eapply lookup_lt_Some|done].
Qed.

Section Measured.
Context {W : Type} (spi usb : driver W) (bus : radio_bus W) (log10 : double → double) (junk : Z).
Context (junk_rx : CalRx.result) (junk_tx : CalTx.result) (junk_offsets : list (list (Z * Z))).
Abbreviation sxt := (tx_iterations spi usb bus log10 junk).

(** The offsets [os] come from the measurements of the combinations [gains], in
    this order, from the state and results [x] to [y]: each combination is
    measured three times, the three results agree, and the offsets are those of
    the result with the best rejection. *)
Inductive measured (fuel : nat) (i : Z) (rf : Rxrf.lgw_conf_rxrf_s) (image : Z * Z)
  : list (Z * Z) → list (Z * Z) → com_state W * list CalTx.result → com_state W * list CalTx.result → Prop :=
  | measured_none x : measured fuel i rf image [] [] x x
  | measured_next g gains os s cal s1 cal1 mm r y :
      sxt fuel CAL_ITER i rf g image cal (CalTx.min0, CalTx.max0) s = Done s1 (cal1, mm) →
      CalTx.cal_tx_result_assert mm = true →
      cal1 !! Z.to_nat (best (CalTx.rej <$> cal1) 0 0 0) = Some r →
      measured fuel i rf image gains os (s1, cal1) y →
      measured fuel i rf image (g :: gains) ((CalTx.offset_i r, CalTx.offset_q r) :: os) (s, cal) y.

Lemma measured_length fuel i rf image gains os x y :
  measured fuel i rf image gains os x y → length os = length gains.
Proof. induction 1; cbn; congruence. Qed.

(** Each result is stored at the index of its combination. *)
Lemma tx_calibrate_stores fuel i rf image gains (j : nat) offsets cal s s' offsets' cal' :
  tx_calibrate spi usb bus log10 junk fuel i rf image gains (Z.of_nat j) offsets cal s = Done s' (offsets', cal') →
  ∃ os, measured fuel i rf image gains os (s, cal) (s', cal') ∧
    length offsets' = length offsets ∧ (∀ k, (k < j)%nat → offsets' !! k = offsets !! k) ∧
    ∀ k o, os !! k = Some o → offsets' !! (j + k)%nat = Some o.
Proof.
  revert j offsets cal s. induction gains as [|g gains IH]; intros j offsets cal s H; cbn [tx_calibrate] in H.
  { injection H as <- <- <-. exists []. split; [apply measured_none|]. split_and!; done. }
  apply bind_inv in H as (s1 & [cal1 mm] & E1 & H). destruct (CalTx.cal_tx_result_assert mm) eqn:Ea; [|discriminate H].
  cbn [negb] in H. apply bind_inv in H as (s2 & r & [-> Er%buf_get_inv]%pure_inv & H).
  apply bind_inv in H as (s3 & off & [-> Eo]%pure_inv & H). apply buf_set_inv in Eo as (Hj & ->). rewrite Nat2Z.id in H.
  replace (Z.of_nat j + 1) with (Z.of_nat (S j)) in H by lia. apply IH in H as (os & Hm & Hl & Hlow & Hst).
  rewrite length_insert in Hl. exists ((CalTx.offset_i r, CalTx.offset_q r) :: os).
  split; [by eapply measured_next|]. split; [done|]. split.
  - intros k Hk. rewrite Hlow by lia. by rewrite list_lookup_insert_ne by lia.
  - intros [|k] o Ho.
    + injection Ho as <-. rewrite Nat.add_0_r, Hlow by lia. rewrite list_lookup_insert_eq by lia. done.
    + replace (j + S k)%nat with (S j + k)%nat by lia. by apply Hst.
Qed.

(** What the calibration makes of the gain table [l] of chain [i], from the
    state and results [x] to [y]: for a chain that transmits each entry in use
    gets the offsets measured for its combination; otherwise nothing is measured
    and the entries get what the array of the offsets held before. *)
Definition table_calibrated (fuel : nat) (rfs : list Rxrf.lgw_conf_rxrf_s) (i : Z) (image : Z * Z)
    (l : Gain.lgw_tx_gain_lut_s) (x y : com_state W * list CalTx.result) (new : list Gain.lgw_tx_gain_s) : Prop :=
  ∃ rf gains os, rfs !! Z.to_nat i = Some rf ∧
    unique_gains (Z.to_nat (Gain.size l)) (Gain.lut l) 0 [] = Ret gains ∧ NoDup gains ∧
    filled gains os (Gain.lut l) (Gain.size l) new ∧
    if Rxrf.tx_enable rf then measured fuel i rf image gains os x y
    else y = x ∧ junk_offsets !! Z.to_nat i = Some os.

Hypothesis Hjunk : ∀ a, a ∈ junk_offsets → length a = 16%nat.

Lemma tx_offsets_table fuel rfs i image l gains cal s s' offsets cal' :
  lut_shape l → unique_gains (Z.to_nat (Gain.size l)) (Gain.lut l) 0 [] = Ret gains →
  tx_offsets spi usb bus log10 junk junk_offsets fuel rfs i image gains cal s = Done s' (offsets, cal') →
  ∃ lut', fill_offsets (Z.to_nat (Gain.size l)) gains offsets (Gain.lut l) = Ret lut' ∧
    table_calibrated fuel rfs i image l (s, cal) (s', cal') lut'.
Proof.
  intros Hl Eg H. destruct (unique_gains_total l Hl) as (gains' & Eg' & Hnd & Hlen & Hin). rewrite Eg in Eg'.
  injection Eg' as <-. unfold tx_offsets in H. apply bind_inv in H as (s0 & rf & [-> Erf%buf_get_inv]%pure_inv & H).
  apply bind_inv in H as (s0 & junks & [-> Ej%buf_get_inv]%pure_inv & H).
  assert (Hj : length junks = 16%nat) by (by apply Hjunk, list_elem_of_lookup_2 with (Z.to_nat i)).
  destruct (Rxrf.tx_enable rf) eqn:Et.
  - apply (tx_calibrate_stores fuel i rf image gains 0) in H as (os & Hm & Ho & _ & Hst).
    destruct (fill_offsets_spec l gains offsets Hl Hlen ltac:(congruence) Hin) as (lut' & E & Hf).
    exists lut'. split; [done|]. exists rf, gains, os. rewrite Et. split_and!; try done.
    apply (filled_mono _ offsets); [|done]. intros j o Hj' Hjo. rewrite <- (measured_length _ _ _ _ _ _ _ _ Hm) in Hj'.
    destruct (lookup_lt_is_Some_2 os j Hj') as [o' Ho']. rewrite Ho'. specialize (Hst _ _ Ho'). cbn in Hst. congruence.
  - injection H as <- <- <-. destruct (fill_offsets_spec l gains junks Hl Hlen Hj Hin) as (lut' & E & Hf).
    exists lut'. split; [done|]. exists rf, gains, junks. rewrite Et. by split_and!.
Qed.

(** C36. The DC offsets of the transmit gain tables. The combinations of DAC and
    mixer gains of a table are collected without repetition and no access leaves
    an array. When the calibration [sx1302_cal_start] succeeds, then for each
    chain that transmits the combinations of its table were measured one after
    the other, three times each with results that agree, and each entry in use
    has the offsets of the best of the three results of its own combination, so
    entries with the same gains agree; its other fields and the unused entries do
    not change. For a chain that does not transmit nothing is measured and the
    entries get what the uninitialised array held ([loragw_cal.c:228]). *)
Theorem tx_offsets_by_gain fuel version rfs la lb s :
  lut_shape la → lut_shape lb →
  (∀ l offsets, l ∈ [la; lb] → length offsets = 16%nat → ∃ gains lut',
     unique_gains (Z.to_nat (Gain.size l)) (Gain.lut l) 0 [] = Ret gains ∧ NoDup gains ∧
     fill_offsets (Z.to_nat (Gain.size l)) gains offsets (Gain.lut l) = Ret lut') ∧
  ∀ s' luts,
    sx1302_cal_start spi usb bus log10 junk junk_rx junk_tx junk_offsets fuel version rfs [la; lb] s = Done s' luts →
    ∃ image_a image_b s1 s2 cal2 cal3 new_a new_b,
      luts = [Gain.Lut new_a (Gain.size la); Gain.Lut new_b (Gain.size lb)] ∧
      table_calibrated fuel rfs 0 image_a la (s1, replicate CAL_ITER junk_tx) (s2, cal2) new_a ∧
      table_calibrated fuel rfs 1 image_b lb (s2, cal2) (s', cal3) new_b.
Proof.
  intros Ha Hb. split.
  { intros l offsets Hin Ho. assert (Hl : lut_shape l) by set_solver.
    destruct (unique_gains_total l Hl) as (gains & E & Hnd & Hlen & Hk).
    destruct (fill_offsets_spec l gains offsets Hl Hlen Ho Hk) as (lut' & E' & _). by exists gains, lut'. }
  intros s' luts H. unfold sx1302_cal_start in H. do 2 (apply bind_inv in H as (? & ? & _ & H)).
  destruct (negb _); [discriminate H|]. do 2 (apply bind_inv in H as (? & ? & _ & H)).
  apply bind_inv in H as (? & [[cal_rx cal_status] image_a] & _ & H).
  apply bind_inv in H as (? & [[? ?] image_b] & _ & H). apply bind_inv in H as (s1 & ? & _ & H).
  do 2 (apply bind_inv in H as (? & ? & [-> [= <-]]%pure_inv & H)).
  apply bind_inv in H as (? & gains_a & [-> Ea]%pure_inv & H). apply bind_inv in H as (? & gains_b & [-> Eb]%pure_inv & H).
  apply bind_inv in H as (s2 & [offs_a cal2] & E1 & H). apply bind_inv in H as (s3 & [offs_b cal3] & E2 & H).
  apply bind_inv in H as (? & new_a & [-> Fa]%pure_inv & H). apply bind_inv in H as (? & new_b & [-> Fb]%pure_inv & H).
  injection H as <- <-.
  destruct (tx_offsets_table _ _ _ _ _ _ _ _ _ _ _ Ha Ea E1) as (na & Fa' & Ta).
  destruct (tx_offsets_table _ _ _ _ _ _ _ _ _ _ _ Hb Eb E2) as (nb & Fb' & Tb).
  rewrite Fa in Fa'. injection Fa' as <-. rewrite Fb in Fb'. injection Fb' as <-.
  by exists image_a, image_b, s1, s2, cal2, cal3, new_a, new_b.
Qed.
End Measured.

(** ** The acceptance of three measurements *)

Lemma Forall_three {A} (P : A → Prop) x y z : Forall P [x; y; z] → P x ∧ P y ∧ P z ∧ True.
Proof. intros (Hx & (Hy & (Hz & _)%List.Forall_cons_iff)%List.Forall_cons_iff)%List.Forall_cons_iff. done. Qed.

Definition six_bits (x : Z) : Prop := -32 <= x <= 31.
(** Two results agree and are good. *)
Definition close (x y : CalRx.result) : Prop :=
  Z.abs (CalRx.amp x - CalRx.amp y) <= 4 ∧ Z.abs (CalRx.phi x - CalRx.phi y) <= 4.
Definition good (x : CalRx.result) : Prop := 50 <= CalRx.rej x ∧ 50 <= CalRx.snr x.

Lemma spread a b c :
  six_bits a → six_bits b → six_bits c →
  Z.max c (Z.max b (Z.max a (-32))) - Z.min c (Z.min b (Z.min a 31)) <= 4 ↔
  Z.abs (a - b) <= 4 ∧ Z.abs (b - c) <= 4 ∧ Z.abs (a - c) <= 4.
Proof. unfold six_bits. lia. Qed.
Lemma floor a b c : 50 <= Z.min c (Z.min b (Z.min a 255)) ↔ 50 <= a ∧ 50 <= b ∧ 50 <= c.
Proof. lia. Qed.

(** Three measurements of the image are accepted exactly if any two of them
    agree to 4 units in amplitude and phase and each has an image rejection and
    a signal to noise ratio of at least 50 dB. *)
Theorem rx_accept_iff_consistent x y z :
  Forall (λ r, six_bits (CalRx.amp r) ∧ six_bits (CalRx.phi r)) [x; y; z] →
  CalRx.cal_rx_result_assert (foldl (λ mm r, CalRx.cal_rx_result_sort r mm) (CalRx.min0, CalRx.max0) [x; y; z]) = true ↔
  close x y ∧ close y z ∧ close x z ∧ good x ∧ good y ∧ good z.
Proof.
  intros ([Hx1 Hx2] & [Hy1 Hy2] & [Hz1 Hz2] & _)%Forall_three.
  unfold close, good, CalRx.cal_rx_result_assert in *. cbn [foldl CalRx.cal_rx_result_sort fst snd
    CalRx.lower CalRx.upper CalRx.min0 CalRx.max0 CalRx.amp CalRx.phi CalRx.rej CalRx.snr].
  rewrite negb_true_iff, !orb_false_iff, !Z.ltb_ge, !spread, !floor by done. tauto.
Qed.

(** ** Witness *)

(** A calibration firmware that goes through its statuses, and SX1257 radios
    whose PLLs are locked. The results it shows depend on its progress only. *)
Definition rx_statuses : list Z := [0x01; 0x02; 0x03; 0x06; 0x07; 0x08; 0x11].
Definition tx_statuses : list Z :=
  [0x01; 0x02; 0x03; 0x06; 0x07] ++ seqZ 0x08 3 ++ seqZ 0x0c 20 ++ [0x0c + 20; 0x33].
Definition a_calibration : list Z :=
  [0x01; 0x00] ++ rx_statuses ++ rx_statuses ++ rx_statuses ++ mjoin (replicate 6 tx_statuses).
Definition cal_driver : driver (list Z) := {|
  drv_open := λ w, (w, (0, true)); drv_close := λ w, (w, 0); drv_w := λ w _ _ _, (w, 0);
  drv_r := λ w _ a, if a =? 22401 then (drop 1 w, (0, Some (znth 0 w 0)))
                    else (w, (0, Some (1 + (Z.of_nat (length w) / 90) mod 2)));
  drv_rmw := λ w _ _ _ _ _, (w, 0); drv_wb := λ w _ _ _, (w, 0); drv_rb := λ w _ _ l, (w, (0, l));
  drv_set_write_mode := λ w _, (w, 0); drv_flush := λ w, (w, 0); drv_chunk_size := 1024 |}.
Definition locked_radios : radio_bus (list Z) := {|
  rb_msg := λ w _, (w, (3, [0; 0; 0xFF])); rb_mcu_spi_write := λ w b, (w, (b, -1)) |}.
Definition a_sx1257 (e : bool) : Rxrf.lgw_conf_rxrf_s :=
  {| Rxrf.enable := e; Rxrf.freq_hz := 868500000; Rxrf.rssi_offset := Dbl 0 0; Rxrf.rssi_tcomp := Rxrf.rssi_tcomp Rxrf.zero;
     Rxrf.type := LGW_RADIO_TYPE_SX1257; Rxrf.tx_enable := e; Rxrf.single_input_mode := false |}.
(** Two combinations of gains in three entries. *)
Definition two_gains : Gain.lgw_tx_gain_lut_s :=
  Gain.Lut (demo_gain 8 :: with_offsets Gain.zero (0, 0) :: demo_gain 8 :: replicate 13 Gain.zero) 3.
Abbreviation run_calibration :=
  (sx1302_cal_start cal_driver cal_driver locked_radios (λ _, dbl_of_Z 3) 0 CalRx.min0 CalTx.min0
    (replicate 2 (replicate 16 (7, 7))) 5 FW_VERSION_CAL [a_sx1257 true; a_sx1257 false] [two_gains; Gain.initial]
    (Com LGW_COM_SPI true a_calibration)).

Lemma tx_offsets_by_gain_witness :
  ∃ image s1 s2 cal2 new lb s', run_calibration = Done s' [Gain.Lut new 3; lb] ∧
    table_calibrated cal_driver cal_driver locked_radios (λ _, dbl_of_Z 3) 0 (replicate 2 (replicate 16 (7, 7))) 5
      [a_sx1257 true; a_sx1257 false] 0 image two_gains (s1, replicate CAL_ITER CalTx.min0) (s2, cal2) new ∧
    (Gain.offset_i <$> new) = [2; 1; 2] ++ replicate 13 0.
Proof.
  assert (E : ∃ s' na lb, run_calibration = Done s' [Gain.Lut na 3; lb] ∧ (Gain.offset_i <$> na) = [2; 1; 2] ++ replicate 13 0).
  { eexists _, _, _. split; [vm_compute; reflexivity|reflexivity]. }
  destruct E as (s' & na & lb & E & Ho).
  destruct (tx_offsets_by_gain cal_driver cal_driver locked_radios (λ _, dbl_of_Z 3) 0 CalRx.min0 CalTx.min0
    (replicate 2 (replicate 16 (7, 7)))) with (5%nat) (FW_VERSION_CAL) [a_sx1257 true; a_sx1257 false] two_gains Gain.initial
    (Com LGW_COM_SPI true a_calibration) as [_ H].
  - intros a Ha. apply elem_of_replicate in Ha as [-> _]. reflexivity.
  - split; [reflexivity|cbn; lia].
  - split; [reflexivity|cbn; lia].
  - destruct (H _ _ E) as (ia & ib & s1 & s2 & cal2 & cal3 & new_a & new_b & El & Ta & _).
    injection El as -> _. exists ia, s1, s2, cal2, new_a, lb, s'. by split_and!.
Defined.
