(* ===== verification/HalStart.v ===== *)
(** * Start and stop ([libloragw/src/loragw_hal.c])

    [lgw_start] connects to the concentrator, calibrates and sets up the radios,
    configures every block of the SX1302, loads and starts the firmware of its
    microcontrollers, and sets up the SX1261. It works on the whole state of the
    library: both links, the receive path and the context. *)
From stdpp Require Import base list numbers strings.
From Stdlib Require Import ZArith Lia.
From S2P Require Import Prelude Binary64 HalTypes Com Reg RegIds RegProg RxBuffer Timestamp I2c HalConf.
From S2P Require Import Sx1302Conf Sx1302Mcu Sx1302Tx Sx1261Com Sx1261 HalTx Sx1302Rx Radio Cal.

Open Scope Z_scope.
Open Scope list_scope.

Definition FW_VERSION_AGC_SX1250 : Z := 10.
Definition FW_VERSION_AGC_SX125X : Z := 6.
Definition FW_VERSION_ARB : Z := 2.
Definition SX1302_AGC_RADIO_GAIN_AUTO : Z := 0xFF.

(** ** State *)

Record lgw_state (W : Type) := Lgw {
  lgw_links : hal_state W; lgw_rx_buffer : rx_buffer_s; lgw_counter : timestamp_counter_s;
  lgw_pps : timestamp_pps_history_s; lgw_ctx : lgw_context_s }.
Arguments Lgw {W}.
Arguments lgw_links {W}.
Arguments lgw_rx_buffer {W}.
Arguments lgw_counter {W}.
Arguments lgw_pps {W}.
Arguments lgw_ctx {W}.

Abbreviation lprog W := (eff (lgw_state W)).

Definition on_links {W A} : hprog W A → lprog W A :=
  zoom lgw_links (λ s h, Lgw h (lgw_rx_buffer s) (lgw_counter s) (lgw_pps s) (lgw_ctx s)).
Definition on_chip {W A} (p : prog W A) : lprog W A := on_links (on_sx1302 p).
Definition on_rx {W A} : rprog W A → lprog W A :=
  zoom (λ s, RxState (hal_com (lgw_links s)) (lgw_rx_buffer s) (lgw_counter s) (lgw_pps s))
       (λ s r, Lgw (Hal (rx_link r) (hal_sx (lgw_links s))) (rx_buffer r) (counter_us r) (pps_history r) (lgw_ctx s)).
Definition get_ctx {W} : lprog W lgw_context_s := λ s, Done s (lgw_ctx s).
Definition put_ctx {W} (c : lgw_context_s) : lprog W () :=
  λ s, Done (Lgw (lgw_links s) (lgw_rx_buffer s) (lgw_counter s) (lgw_pps s) c) ().
Definition set_started (b : bool) (c : lgw_context_s) : lgw_context_s :=
  Context b (board_cfg c) (rf_chain_cfg c) (if_chain_cfg c) (multisf_datarate c) (lora_service_cfg c)
    (fsk_cfg c) (tx_gain_lut c) (ftime_cfg c) (sx1261_cfg c) (debug_cfg c).

(** ** The I2C devices *)

(** The first of the ports with a temperature sensor; an error without one. *)
Fixpoint find_sensor (ports : list Z) : Z :=
  match ports with
  | [] => LGW_HAL_ERROR
  | ts_addr :: ports =>
    let '(err, fd) := i2c_linuxdev_open ts_fd in
    if negb (err =? LGW_I2C_SUCCESS) then LGW_HAL_ERROR
    else if negb (stts751_configure fd ts_addr =? LGW_I2C_SUCCESS) then find_sensor ports
    else LGW_HAL_SUCCESS
  end.
Definition dac_setup : Z :=
  let '(err, fd) := i2c_linuxdev_open ad_fd in
  if negb (err =? LGW_I2C_SUCCESS) then LGW_HAL_ERROR
  else if negb (ad5338r_configure fd I2C_PORT_DAC_AD5338R =? LGW_I2C_SUCCESS) then LGW_HAL_ERROR
  else if negb (ad5338r_write fd I2C_PORT_DAC_AD5338R [0x39; 0x00; 0x00] =? LGW_I2C_SUCCESS) then LGW_HAL_ERROR
  else LGW_HAL_SUCCESS.

Section Start.
Context {W : Type} (spi usb : driver W) (sxbus : sx1261_bus W) (rbus : radio_bus W).
(** The firmware images and the version of the SX1261 patch. *)
Record firmware := {
  agc_firmware_sx1250 : list Z; agc_firmware_sx125x : list Z; arb_firmware : list Z; cal_firmware_sx125x : list Z;
  pram : list Z; pram_version : list Z }.
Context (fw : firmware) (log10 : double → double).
(** What uninitialised variables on the stack hold. *)
Record stack := {
  stack_byte : Z; stack_rx : CalRx.result; stack_tx : CalTx.result; stack_offsets : list (list (Z * Z));
  stack_fw : list Z; stack_version : list Z }.
Context (junk : stack).

(** [if (err != LGW_REG_SUCCESS) return LGW_HAL_ERROR] *)
Definition checked (p : lprog W Z) : lprog W () := err ← p; CHECK_OK err.

(** Sets up the enabled radios from chain [i] on. *)
Fixpoint setup_radios (rfs : list Rxrf.lgw_conf_rxrf_s) (clksrc i : Z) : lprog W () :=
  match rfs with
  | [] => mret ()
  | rf :: rfs =>
    _ ← (if Rxrf.enable rf then
           _ ← checked (on_chip (sx1302_radio_reset spi usb i (Rxrf.type rf)));
           _ ← match Rxrf.type rf with
               | LGW_RADIO_TYPE_SX1250 =>
                 checked (on_chip (sx1250_setup rbus i (Rxrf.freq_hz rf) (Rxrf.single_input_mode rf)))
               | LGW_RADIO_TYPE_SX1255 | LGW_RADIO_TYPE_SX1257 =>
                 checked (on_chip (sx125x_setup rbus (stack_byte junk) i clksrc true (Rxrf.type rf) (Rxrf.freq_hz rf)))
               | _ => failed
               end;
           checked (on_chip (sx1302_radio_set_mode spi usb i (Rxrf.type rf)))
         else mret ());
    setup_radios rfs clksrc (i + 1)
  end.

(** Connection, calibration, radios and clock. *)
Definition start_radios (fuel : nat) : lprog W () :=
  c ← get_ctx;
  let clksrc := Board.clksrc (board_cfg c) in
  err ← on_chip (call (λ s, lgw_connect spi usb s (Board.com_type (board_cfg c)) true));
  if err =? LGW_REG_ERROR then failed
  else
    _ ← checked (on_chip (sx1302_set_gpio spi usb 0x00));
    '(err, luts) ← on_chip (sx1302_radio_calibrate spi usb rbus log10 (stack_byte junk) (stack_rx junk) (stack_tx junk)
                      (stack_offsets junk) fuel (cal_firmware_sx125x fw) (stack_fw junk) (rf_chain_cfg c) clksrc (tx_gain_lut c));
    c ← get_ctx;
    _ ← put_ctx (set_lut luts c);
    _ ← CHECK_OK err;
    _ ← setup_radios (rf_chain_cfg c) clksrc 0;
    _ ← checked (on_chip (sx1302_radio_clock_select spi usb clksrc));
    checked (on_chip (sx1302_radio_host_ctrl spi usb false)).

(** The blocks of the SX1302. *)
Definition start_modems : lprog W () :=
  c ← get_ctx;
  rf0 ← pure_of (buf_get (rf_chain_cfg c) 0);
  if8 ← pure_of (buf_get (if_chain_cfg c) 8);
  if9 ← pure_of (buf_get (if_chain_cfg c) 9);
  _ ← checked (on_rx (sx1302_init spi usb (Some (ftime_cfg c))));
  _ ← checked (on_chip (sx1302_pa_lna_lut_configure spi usb (board_cfg c)));
  _ ← checked (on_chip (sx1302_radio_fe_configure spi usb));
  _ ← checked (on_chip (sx1302_channelizer_configure spi usb (Some (if_chain_cfg c)) false));
  _ ← checked (on_chip (sx1302_lora_correlator_configure spi usb (Some (if_chain_cfg c)) (multisf_datarate c)));
  _ ← checked (on_chip (sx1302_lora_modem_configure spi usb (Rxrf.freq_hz rf0)));
  _ ← (if Rxif.enable if8 then
         _ ← checked (on_chip (sx1302_lora_service_correlator_configure spi usb (lora_service_cfg c)));
         checked (on_chip (sx1302_lora_service_modem_configure spi usb (lora_service_cfg c) (Rxrf.freq_hz rf0)))
       else mret ());
  _ ← (if Rxif.enable if9 then checked (on_chip (sx1302_fsk_configure spi usb (fsk_cfg c))) else mret ());
  _ ← checked (on_chip (sx1302_lora_syncword spi usb (Board.lorawan_public (board_cfg c)) (Rxif.datarate (lora_service_cfg c))));
  checked (on_chip (sx1302_modem_enable spi usb)).

(** The microcontrollers, the transmission and the GPS. *)
Definition start_mcus (fuel : nat) : lprog W () :=
  c ← get_ctx;
  rf ← pure_of (buf_get (rf_chain_cfg c) (Board.clksrc (board_cfg c)));
  version ← match Rxrf.type rf with
            | LGW_RADIO_TYPE_SX1250 =>
              _ ← checked (on_chip (sx1302_agc_load_firmware spi usb (agc_firmware_sx1250 fw) (stack_fw junk)));
              mret FW_VERSION_AGC_SX1250
            | LGW_RADIO_TYPE_SX1255 | LGW_RADIO_TYPE_SX1257 =>
              _ ← checked (on_chip (sx1302_agc_load_firmware spi usb (agc_firmware_sx125x fw) (stack_fw junk)));
              mret FW_VERSION_AGC_SX125X
            | _ => failed
            end;
  _ ← checked (on_chip (sx1302_agc_start spi usb fuel version (Rxrf.type rf) SX1302_AGC_RADIO_GAIN_AUTO
        SX1302_AGC_RADIO_GAIN_AUTO (Board.full_duplex (board_cfg c)) (Lbt.enable (Sx1261.lbt_conf (sx1261_cfg c)))));
  _ ← checked (on_chip (sx1302_arb_load_firmware spi usb (arb_firmware fw) (stack_fw junk)));
  _ ← checked (on_chip (sx1302_arb_start spi usb fuel FW_VERSION_ARB (ftime_cfg c)));
  _ ← checked (on_chip (sx1302_tx_configure spi usb (Rxrf.type rf)));
  checked (on_chip (sx1302_gps_enable spi usb true)).

(** The devices of the board: sensor, DAC and SX1261. *)
Definition start_board : lprog W () :=
  c ← get_ctx;
  let com_type := Board.com_type (board_cfg c) in
  _ ← (if bool_decide (com_type = LGW_COM_SPI) then
         _ ← (if negb (find_sensor I2C_PORT_TEMP_SENSOR =? LGW_HAL_SUCCESS) then failed else mret ());
         if Board.full_duplex (board_cfg c) then
           if negb (dac_setup =? LGW_HAL_SUCCESS) then failed else mret ()
         else mret ()
       else mret ());
  if Sx1261.enable (sx1261_cfg c) then
    rf0 ← pure_of (buf_get (rf_chain_cfg c) 0);
    _ ← checked (on_links (sx1261_connect sxbus com_type (bool_decide (com_type = LGW_COM_SPI))));
    _ ← checked (on_links (sx1261_load_pram sxbus (pram fw) (pram_version fw) (stack_version junk)));
    _ ← checked (on_links (sx1261_calibrate sxbus (Rxrf.freq_hz rf0)));
    checked (on_links (sx1261_setup sxbus))
  else mret ().

Definition lgw_start (fuel : nat) : lprog W Z := body (
  _ ← start_radios fuel;
  _ ← start_modems;
  _ ← start_mcus fuel;
  _ ← start_board;
  _ ← checked (on_chip (sx1302_set_gpio spi usb 0x01));
  c ← get_ctx;
  _ ← put_ctx (set_started true c);
  mret LGW_HAL_SUCCESS).

(** [clk] are the times of the loops that wait for the end of a transmission. *)
Definition stop_chain (fuel : nat) (clk : clock) (i err : Z) : lprog W Z :=
  x ← on_chip (lgw_abort_tx spi usb fuel clk i);
  mret (if negb (x =? LGW_HAL_SUCCESS) then LGW_HAL_ERROR else err).
Definition lgw_stop (fuel : nat) (clk0 clk1 : clock) : lprog W Z :=
  c ← get_ctx;
  if negb (is_started c) then mret LGW_HAL_SUCCESS
  else
    err ← stop_chain fuel clk0 0 LGW_HAL_SUCCESS;
    err ← stop_chain fuel clk1 1 err;
    x ← on_chip (call (lgw_disconnect spi usb));
    let err := if negb (x =? LGW_HAL_SUCCESS) then LGW_HAL_ERROR else err in
    let err := if bool_decide (Board.com_type (board_cfg c) = LGW_COM_SPI) then
                 let err := if negb (i2c_linuxdev_close ts_fd =? 0) then LGW_HAL_ERROR else err in
                 if Board.full_duplex (board_cfg c) then
                   if negb (i2c_linuxdev_close ad_fd =? 0) then LGW_HAL_ERROR else err
                 else err
               else err in
    c ← get_ctx;
    _ ← put_ctx (set_started false c);
    mret err.
End Start.
