(* ===== verification/HalStartProps.v ===== *)
(** * Properties of start and stop

    Over any links, chips and firmware: what [lgw_start] reports and what it
    leaves of the configuration, which configurations it cannot start, and that
    [lgw_stop] always ends disconnected. *)
From stdpp Require Import base list numbers strings.
From Stdlib Require Import ZArith Lia.
From S2P Require Import Prelude Binary64 HalTypes Com Spi Reg RegTable RegIds RegProps RegProg RxBuffer Timestamp I2c HalConf HalConfProps.
From S2P Require Import Sx1302Conf Sx1302Mcu Sx1302McuProps Sx1302Tx Sx1302TxProps Sx1302TxLinks Sx1261Com Sx1261 HalTx HalTxProps Sx1302Rx Radio Cal HalStart.

Open Scope Z_scope.
Open Scope list_scope.

(** ** What programs do to the context *)

(** [c'] is [c] but for the offsets in the gain tables. *)
Definition same_conf (c c' : lgw_context_s) : Prop := c' = set_lut (tx_gain_lut c') c.
#[export] Instance same_conf_preorder : PreOrder same_conf.
Proof.
  split; [by intros []|]. unfold same_conf. intros c1 c2 c3 H1 H2. rewrite H2, H1 at 1. by destruct c1.
Qed.
Lemma same_conf_lut l c : same_conf c (set_lut l c).
Proof. by destruct c. Qed.

(** The context after [p] is related to the one before. *)
Definition keeps {W A} (R : lgw_context_s → lgw_context_s → Prop) (p : lprog W A) : Prop :=
  ∀ s, match p s with Done s' _ | Failed s' => R (lgw_ctx s) (lgw_ctx s') | _ => True end.

Create HintDb keeps.

Section Keeps.
Context {W : Type} (R : lgw_context_s → lgw_context_s → Prop) `{!PreOrder R}.

Lemma keeps_ret {A} (a : A) : keeps R (mret a : lprog W A).
Proof. intros s. cbn. reflexivity. Qed.
Lemma keeps_failed {A} : keeps R (failed : lprog W A).
Proof. intros s. cbn. reflexivity. Qed.
Lemma keeps_bind {A B} (p : lprog W A) (f : A → lprog W B) :
  keeps R p → (∀ a, keeps R (f a)) → keeps R (p ≫= f).
Proof.
  intros Hp Hf s. specialize (Hp s). unfold mbind, eff_bind. destruct (p s) as [s1 a|s1| |]; try done.
  specialize (Hf a s1). destruct (f a s1); try done; by etransitivity.
Qed.
Lemma keeps_zoom {T A} (g : lgw_state W → T) (w : lgw_state W → T → lgw_state W) (p : eff T A) :
  (∀ s t, lgw_ctx (w s t) = lgw_ctx s) → keeps R (zoom g w p).
Proof. intros Hw s. unfold zoom. destruct (p (g s)); try done; rewrite Hw; reflexivity. Qed.
Lemma keeps_chip {A} (p : prog W A) : keeps R (on_chip p).
Proof. by apply keeps_zoom. Qed.
Lemma keeps_links {A} (p : hprog W A) : keeps R (on_links p).
Proof. by apply keeps_zoom. Qed.
Lemma keeps_rx {A} (p : rprog W A) : keeps R (on_rx p).
Proof. by apply keeps_zoom. Qed.
Lemma keeps_pure {A} (o : outcome A) : keeps R (pure_of o : lprog W A).
Proof. intros s. destruct o; cbn; done || reflexivity. Qed.
Lemma keeps_get : keeps R (get_ctx : lprog W _).
Proof. intros s. cbn. reflexivity. Qed.
Lemma keeps_check_ok err : keeps R (CHECK_OK err : lprog W ()).
Proof. unfold CHECK_OK. destruct (negb _); [apply keeps_failed|apply keeps_ret]. Qed.
Lemma keeps_checked (p : lprog W Z) : keeps R p → keeps R (checked p).
Proof. intros Hp. apply keeps_bind; [done|]. intros. apply keeps_check_ok. Qed.
End Keeps.
#[export] Hint Resolve keeps_ret keeps_failed keeps_chip keeps_links keeps_rx keeps_pure keeps_get keeps_check_ok
  keeps_checked same_conf_preorder : keeps.
Ltac keeps :=
  repeat lazymatch goal with
    | |- keeps _ (mbind _ _) => apply keeps_bind; [apply _| |intros ?]
    | |- keeps _ (checked _) => apply keeps_checked; [apply _|]
    | |- keeps _ (match ?x with _ => _ end) => destruct x
    | _ => solve [auto 3 with keeps typeclass_instances]
    end.

Lemma keeps_weaken {W A} (R R' : lgw_context_s → lgw_context_s → Prop) (p : lprog W A) :
  (∀ c c', R c c' → R' c c') → keeps R p → keeps R' p.
Proof. intros HR Hp s. specialize (Hp s). destruct (p s); auto. Qed.
(** What is left of the context when [p] returns. *)
Lemma keeps_done {W A} (R : lgw_context_s → lgw_context_s → Prop) (p : lprog W A) s s' a :
  keeps R p → p s = Done s' a → R (lgw_ctx s) (lgw_ctx s').
Proof. intros Hp E. specialize (Hp s). by rewrite E in Hp. Qed.
Lemma checked_inv {W} (p : lprog W Z) s s' u : checked p s = Done s' u → p s = Done s' LGW_REG_SUCCESS.
Proof.
  intros (s1 & err & E & H)%bind_inv. unfold CHECK_OK in H.
  destruct (Z.eqb_spec err LGW_REG_SUCCESS) as [->|]; [|discriminate]. by injection H as <- _.
Qed.

(** ** Which configurations can be started *)

Definition supported (ty : lgw_radio_type_t) : Prop := is_sx125x ty || is_sx1250 ty = true.
(** The link is SPI or USB, the enabled radios and the one that gives the clock
    have a driver, the SX1261 is not used, and a board on SPI is not full duplex. *)
Definition startable (c : lgw_context_s) : Prop :=
  Board.com_type (board_cfg c) ≠ LGW_COM_UNKNOWN ∧
  (∀ rf, rf ∈ rf_chain_cfg c → Rxrf.enable rf = true → supported (Rxrf.type rf)) ∧
  (∃ rf, buf_get (rf_chain_cfg c) (Board.clksrc (board_cfg c)) = Ret rf ∧ supported (Rxrf.type rf)) ∧
  Sx1261.enable (sx1261_cfg c) = false ∧
  (Board.com_type (board_cfg c) = LGW_COM_SPI → Board.full_duplex (board_cfg c) = false).
Lemma startable_same c c' : same_conf c c' → startable c' → startable c.
Proof. intros ->. by destruct c. Qed.

Section Lifecycle.
Context {W : Type} (spi usb : driver W) (sxbus : sx1261_bus W) (rbus : radio_bus W).
Context (fw : firmware) (log10 : double → double) (junk : stack).

Lemma setup_radios_keeps rfs clksrc : ∀ i, keeps eq (setup_radios spi usb rbus junk rfs clksrc i).
Proof. induction rfs as [|rf rfs IH]; intros i; cbn [setup_radios]; keeps. Qed.
Lemma put_lut_keeps {A} luts (k : lgw_context_s → lprog W A) :
  (∀ c, keeps same_conf (k c)) → keeps same_conf (c ← get_ctx; _ ← put_ctx (set_lut luts c); k c).
Proof.
  intros Hk s. unfold mbind, eff_bind, get_ctx, put_ctx. set (s1 := Lgw _ _ _ _ _).
  specialize (Hk (lgw_ctx s) s1). destruct (k (lgw_ctx s) s1); try done; (etransitivity; [|exact Hk]); apply same_conf_lut.
Qed.
Lemma eq_same_conf c c' : c = c' → same_conf c c'.
Proof. by intros <-. Qed.
Lemma start_radios_keeps fuel : keeps same_conf (start_radios spi usb rbus fw log10 junk fuel).
Proof.
  unfold start_radios. apply keeps_bind; [apply _|keeps|intros c]. apply keeps_bind; [apply _|keeps|intros err].
  destruct (err =? LGW_REG_ERROR); [keeps|]. apply keeps_bind; [apply _|keeps|intros _].
  apply keeps_bind; [apply _|keeps|intros [e luts]]. apply put_lut_keeps. intros c'.
  apply keeps_bind; [apply _|keeps|intros _]. apply keeps_bind; [apply _| |intros _; keeps].
  eapply keeps_weaken; [|apply setup_radios_keeps]. apply eq_same_conf.
Qed.
Lemma start_modems_keeps : keeps eq (start_modems spi usb).
Proof. unfold start_modems. keeps. Qed.
Lemma start_mcus_keeps fuel : keeps eq (start_mcus spi usb fw junk fuel).
Proof. unfold start_mcus. keeps. Qed.
Lemma start_board_keeps : keeps eq (start_board sxbus fw junk).
Proof. unfold start_board. keeps. Qed.

(** ** What success means *)

Lemma setup_radios_supported rfs clksrc i s s' u :
  setup_radios spi usb rbus junk rfs clksrc i s = Done s' u →
  ∀ rf, rf ∈ rfs → Rxrf.enable rf = true → supported (Rxrf.type rf).
Proof.
  revert i s. induction rfs as [|rf rfs IH]; intros i s H rf' Hrf; [by apply not_elem_of_nil in Hrf|].
  cbn [setup_radios] in H. apply bind_inv in H as (s1 & u1 & H1 & H). apply elem_of_cons in Hrf as [->|Hrf]; [|by eapply IH].
  intros He. rewrite He in H1. apply bind_inv in H1 as (s2 & u2 & _ & H1). apply bind_inv in H1 as (s3 & u3 & H1 & _).
  by destruct (Rxrf.type rf).
Qed.
Lemma connect_known s ty path s' st :
  lgw_connect spi usb s ty path = (s', st) → st ≠ LGW_REG_ERROR → ty ≠ LGW_COM_UNKNOWN.
Proof.
  intros H Hst ->. unfold lgw_connect, lgw_com_open in H. destruct path; cbn in H; by injection H as <- <-.
Qed.
Lemma start_radios_startable fuel s s' u :
  start_radios spi usb rbus fw log10 junk fuel s = Done s' u →
  Board.com_type (board_cfg (lgw_ctx s)) ≠ LGW_COM_UNKNOWN ∧
  ∀ rf, rf ∈ rf_chain_cfg (lgw_ctx s) → Rxrf.enable rf = true → supported (Rxrf.type rf).
Proof.
  unfold start_radios. intros (s0 & c & [= <- <-] & H)%bind_inv. apply bind_inv in H as (s1 & err & H1 & H).
  destruct (Z.eqb_spec err LGW_REG_ERROR) as [|Herr]; [discriminate|]. split.
  - unfold on_chip, on_links, on_sx1302, zoom, call in H1.
    destruct (lgw_connect _ _ _ _ _) as [l st] eqn:E in H1. injection H1 as _ <-. by eapply connect_known.
  - apply bind_inv in H as (s2 & u2 & H2 & H). apply bind_inv in H as (s3 & [e luts] & H3 & H).
    apply bind_inv in H as (s4 & c4 & [= <- <-] & H). apply bind_inv in H as (s5 & u5 & [= <- <-] & H).
    apply bind_inv in H as (s6 & u6 & _ & H). apply bind_inv in H as (s7 & u7 & H & _).
    replace (lgw_ctx s3) with (lgw_ctx s) in H; [by eapply setup_radios_supported|].
    transitivity (lgw_ctx s1); [|transitivity (lgw_ctx s2)];
      (eapply (keeps_done eq); [|eassumption]); keeps.
Qed.
Lemma start_mcus_startable fuel s s' u :
  start_mcus spi usb fw junk fuel s = Done s' u →
  ∃ rf, buf_get (rf_chain_cfg (lgw_ctx s)) (Board.clksrc (board_cfg (lgw_ctx s))) = Ret rf ∧ supported (Rxrf.type rf).
Proof.
  unfold start_mcus. intros (s0 & c & [= <- <-] & H)%bind_inv. apply bind_inv in H as (s1 & rf & [-> Hrf]%pure_inv & H).
  exists rf. split; [done|]. apply bind_inv in H as (s2 & v & H & _). by destruct (Rxrf.type rf).
Qed.
Lemma start_board_startable s s' u :
  length (stack_version junk) = SX1261_PRAM_VERSION_FULL_SIZE →
  start_board sxbus fw junk s = Done s' u →
  Sx1261.enable (sx1261_cfg (lgw_ctx s)) = false ∧
  (Board.com_type (board_cfg (lgw_ctx s)) = LGW_COM_SPI → Board.full_duplex (board_cfg (lgw_ctx s)) = false).
Proof.
  intros Hj. unfold start_board. intros (s0 & c & [= <- <-] & H)%bind_inv. apply bind_inv in H as (s1 & u1 & H1 & H). split.
  - destruct (Sx1261.enable _) in H |- *; [exfalso|done].
    apply bind_inv in H as (s2 & rf & _ & H). apply bind_inv in H as (s3 & u3 & _ & H).
    apply bind_inv in H as (s4 & u4 & H%checked_inv & _). unfold on_links, zoom in H.
    destruct (load_pram_overruns sxbus (pram fw) (pram_version fw) (stack_version junk) (lgw_links s3) Hj)
      as [E|[h E]]; by rewrite E in H.
  - intros Hc. rewrite (bool_decide_true _ Hc) in H1. apply bind_inv in H1 as (s2 & u2 & _ & H1).
    by destruct (Board.full_duplex _).
Qed.

Definition connected (l : com_state W) : Prop := com_target l = true ∧ com_type l ≠ LGW_COM_UNKNOWN.
Lemma reg_written_connected l i v l' : lgw_reg_w spi usb l i v = (l', LGW_REG_SUCCESS) → connected l'.
Proof.
  unfold lgw_reg_w. destruct (LGW_TOTALREGS <=? i); [discriminate|]. destruct (rdon (the_reg i)); [discriminate|].
  destruct (reg_w spi usb l _ _ v) as [l1 st] eqn:E. unfold status. destruct (Z.eqb_spec st LGW_COM_SUCCESS) as [->|]; [|discriminate].
  intros [= <-]. revert E. unfold reg_w, lgw_com_w, lgw_com_rmw, with_world, connected.
  destruct (_ && _); [|destruct (_ <=? 8); [|discriminate]]; (destruct (com_target l) eqn:Et; [|discriminate]);
    destruct (com_type l) eqn:Ec; try discriminate; cbn [negb]; case_match; intros [= <- _]; cbn; by rewrite ?Et, ?Ec.
Qed.
Lemma set_gpio_connected v (s s' : lgw_state W) u :
  checked (on_chip (sx1302_set_gpio spi usb v)) s = Done s' u → connected (hal_com (lgw_links s')).
Proof.
  intros H%checked_inv. unfold on_chip, on_links, on_sx1302, zoom, sx1302_set_gpio, body, mbind, eff_bind, wr, call in H.
  destruct (lgw_reg_w _ _ _ _ _) as [l st] eqn:E. unfold CHECK_ERR in H. destruct (Z.eqb_spec st (-1)) as [|Hst]; [discriminate|].
  cbn in H. injection H as <-. cbn. eapply reg_written_connected. rewrite E. f_equal.
  revert E. unfold lgw_reg_w, status, LGW_REG_ERROR. destruct (LGW_TOTALREGS <=? _); [congruence|]. destruct (rdon _); [congruence|].
  destruct (reg_w _ _ _ _ _ _) as [? st1]. destruct (negb (st1 =? LGW_COM_SUCCESS)); congruence.
Qed.

Lemma same_conf_started c c' : same_conf c c' → is_started c' = is_started c.
Proof. intros ->. by destruct c. Qed.
Lemma same_conf_set_started b c c' : same_conf c c' → same_conf (set_started b c) (set_started b c').
Proof. intros ->. by destruct c. Qed.
Lemma set_started_same c : set_started (is_started c) c = c.
Proof. by destruct c. Qed.

(** Everything before [CONTEXT_STARTED = true]. *)
Definition start_steps (fuel : nat) : lprog W () :=
  _ ← start_radios spi usb rbus fw log10 junk fuel;
  _ ← start_modems spi usb;
  _ ← start_mcus spi usb fw junk fuel;
  _ ← start_board sxbus fw junk;
  checked (on_chip (sx1302_set_gpio spi usb 0x01)).
Lemma start_unfold fuel s :
  lgw_start spi usb sxbus rbus fw log10 junk fuel s =
  body (_ ← start_steps fuel; c ← get_ctx; _ ← put_ctx (set_started true c); mret LGW_HAL_SUCCESS) s.
Proof.
  unfold lgw_start, start_steps, body, mbind, eff_bind.
  destruct (start_radios _ _ _ _ _ _ _ _) as [s1 u1| | |]; try done. destruct (start_modems _ _ s1) as [s2 u2| | |]; try done.
  destruct (start_mcus _ _ _ _ _ s2) as [s3 u3| | |]; try done. by destruct (start_board _ _ _ s3).
Qed.
Lemma start_steps_keeps fuel : keeps same_conf (start_steps fuel).
Proof.
  assert (He : ∀ A (p : lprog W A), keeps eq p → keeps same_conf p)
    by (intros A p; apply keeps_weaken, eq_same_conf).
  apply keeps_bind; [apply _|apply start_radios_keeps|intros _].
  apply keeps_bind; [apply _|apply He, start_modems_keeps|intros _].
  apply keeps_bind; [apply _|apply He, start_mcus_keeps|intros _].
  apply keeps_bind; [apply _|apply He, start_board_keeps|intros _]. keeps.
Qed.
Lemma start_steps_startable fuel s s' u :
  length (stack_version junk) = SX1261_PRAM_VERSION_FULL_SIZE →
  start_steps fuel s = Done s' u → startable (lgw_ctx s) ∧ connected (hal_com (lgw_links s')).
Proof.
  intros Hj (s1 & u1 & H1 & H)%bind_inv. apply bind_inv in H as (s2 & u2 & H2 & H).
  apply bind_inv in H as (s3 & u3 & H3 & H). apply bind_inv in H as (s4 & u4 & H4 & H).
  split; [|by eapply set_gpio_connected].
  pose proof (keeps_done _ _ _ _ _ (start_radios_keeps fuel) H1) as C1.
  pose proof (keeps_done _ _ _ _ _ start_modems_keeps H2) as C2.
  pose proof (keeps_done _ _ _ _ _ (start_mcus_keeps fuel) H3) as C3.
  apply start_radios_startable in H1 as [P1 P2]. apply start_mcus_startable in H3 as P3.
  apply start_board_startable in H4 as [P4 P5]; [|done]. rewrite <- C3 in P4, P5. rewrite <- C2 in P3, P4, P5.
  rewrite C1 in P3, P4, P5. unfold startable. destruct (lgw_ctx s). cbn in *. auto.
Qed.

(** C14. [lgw_start] reports truthfully, over any links, chips and firmware. When it
    returns success the library is started, the link to the concentrator is open
    and the configuration was one that can be started: a known link, only
    supported radios, no SX1261 (the loading of whose patch writes past an
    array) and no full-duplex board on SPI (whose DAC is never opened). When it
    returns anything else it is [LGW_HAL_ERROR], and the library is as started
    as before. In both cases only the calibration results in the gain tables
    differ from the configuration before the call. *)
Theorem start_reports_truthfully fuel s s' r :
  length (stack_version junk) = SX1261_PRAM_VERSION_FULL_SIZE →
  lgw_start spi usb sxbus rbus fw log10 junk fuel s = Done s' r →
  same_conf (set_started (is_started (lgw_ctx s')) (lgw_ctx s)) (lgw_ctx s') ∧
  ((r = LGW_HAL_SUCCESS ∧ is_started (lgw_ctx s') = true ∧ connected (hal_com (lgw_links s')) ∧ startable (lgw_ctx s)) ∨
   (r = LGW_HAL_ERROR ∧ is_started (lgw_ctx s') = is_started (lgw_ctx s))).
Proof.
  intros Hj. rewrite start_unfold. pose proof (start_steps_keeps fuel s) as K. unfold body, mbind at 1, eff_bind at 1.
  destruct (start_steps fuel s) as [s1 u|s1| |] eqn:E; intros [= <- <-].
  - destruct (start_steps_startable fuel s s1 u Hj E) as [P C].
    split; [by apply same_conf_set_started|]. left. by split_and!.
  - rewrite (same_conf_started _ _ K), set_started_same. auto.
Qed.

(** ** The end *)

Lemma close_closes l : com_target (fst (lgw_com_close spi usb l)) = false.
Proof. unfold lgw_com_close. destruct (com_target l) eqn:E; cbn [negb]; [by case_match|done]. Qed.
Lemma disconnect_closes l : com_target (fst (lgw_disconnect spi usb l)) = false.
Proof. unfold lgw_disconnect. pose proof (close_closes l) as H. by destruct (lgw_com_close _ _ _). Qed.

(** A clock that advances a millisecond in every turn of a waiting loop, and
    less than 49 days in all. *)
Definition real_clock (clk : clock) : Prop :=
  valid_time (clk_start clk) ∧
  ∀ i : nat, (i <= 1000)%nat → valid_time (clk_now clk i) ∧
    Z.of_nat i * 1000 <= us_of (clk_now clk i) - us_of (clk_start clk) < 1000 * 2 ^ 32.
Lemma stop_chain_returns clk i err s :
  is_chain i → real_clock clk → err = LGW_HAL_SUCCESS ∨ err = LGW_HAL_ERROR →
  ∃ s' r, stop_chain spi usb 1001 clk i err s = Done s' r ∧ lgw_ctx s' = lgw_ctx s ∧
    (r = LGW_HAL_SUCCESS ∨ r = LGW_HAL_ERROR).
Proof.
  intros Hi [Hs Hn] He. destruct (tx_abort_terminates spi usb i (clk_start clk) (clk_now clk) (hal_com (lgw_links s)) Hi Hs Hn)
    as (l & r & E & Hr).
  unfold stop_chain, lgw_abort_tx, on_chip, on_links, on_sx1302, zoom, mbind, eff_bind.
  rewrite (proj2 (Z.leb_gt _ _)) by (destruct Hi as [-> | ->]; done). rewrite E. eexists _, _. split; [reflexivity|].
  split; [done|]. destruct (negb _); auto.
Qed.

(** C34. [lgw_stop] ends and stops the library, whatever results the calls of the
    links give, as long as each of these calls returns. Of a library that is not
    started it is a success without effect. Of one that is started it ends the
    transmissions (within a second for each chain, by a clock that advances),
    closes the link and leaves the library stopped with its configuration as it
    was, also when it reports an error. A call of the USB link to a device that
    was unplugged can hang ([UsbProps.unplugged_ack_hangs]); the state of the
    link is then marked as stuck, and [lgw_stop] does not return either. *)
Theorem stop_always_stops clk0 clk1 s :
  real_clock clk0 → real_clock clk1 →
  ∃ s' r, lgw_stop spi usb 1001 clk0 clk1 s = Done s' r ∧ lgw_ctx s' = set_started false (lgw_ctx s) ∧
    (is_started (lgw_ctx s) = false → s' = s ∧ r = LGW_HAL_SUCCESS) ∧
    (is_started (lgw_ctx s) = true → com_target (hal_com (lgw_links s')) = false ∧ (r = LGW_HAL_SUCCESS ∨ r = LGW_HAL_ERROR)).
Proof.
  intros H0 H1. unfold lgw_stop. destruct (is_started (lgw_ctx s)) eqn:Es.
  2: { exists s, LGW_HAL_SUCCESS. erewrite bind_done by reflexivity. rewrite Es. cbn [negb].
       split; [done|]. split; [by rewrite <- Es, set_started_same|]. split; [done|discriminate]. }
  destruct (stop_chain_returns clk0 0 LGW_HAL_SUCCESS s) as (s1 & r1 & E1 & C1 & R1); [by left|done|by left|].
  destruct (stop_chain_returns clk1 1 r1 s1) as (s2 & r2 & E2 & C2 & R2); [by right|done|done|].
  erewrite bind_done by reflexivity. rewrite Es. cbn [negb]. erewrite bind_done by exact E1. erewrite bind_done by exact E2.
  unfold on_chip, on_links, on_sx1302, zoom, call, mbind, eff_bind, get_ctx, put_ctx.
  pose proof (disconnect_closes (hal_com (lgw_links s2))) as Hd.
  destruct (lgw_disconnect spi usb (hal_com (lgw_links s2))) as [l x]. cbn in Hd.
  eexists _, _. split; [reflexivity|]. cbn. rewrite C2, C1. split; [done|]. split; [congruence|]. intros _. split; [done|].
  repeat case_match; auto.
Qed.
End Lifecycle.

(** ** A board that starts *)

(** An SX1302 whose memory reads as zero but for the microcontrollers: the AGC
    is that of [Sx1302McuProps]; the arbiter reports version 2 and runs when its
    configuration is done. The radio is in the standby mode it was last set to. *)
Record board := Demo { demo_agc : agc; demo_arb : Z; demo_mode : Z }.
Definition board_driver : driver board := {|
  drv_open := λ w, (w, (0, true)); drv_close := λ w, (w, 0);
  drv_w := λ w _ ad v,
    if ad =? addr (the_reg (REG "ARB_MCU_ARB_DEBUG_CFG_1_ARB_DEBUG_CFG_1")) then (Demo (demo_agc w) 0 (demo_mode w), 0)
    else if (22409 <=? ad) && (ad <=? 22412) then (Demo (sim_box (demo_agc w) (22412 - ad) v) (demo_arb w) (demo_mode w), 0)
    else (w, 0);
  drv_r := λ w _ ad,
    if ad =? 22401 then let '(a, v) := sim_poll (demo_agc w) in (Demo a (demo_arb w) (demo_mode w), (0, Some v))
    else if (22413 <=? ad) && (ad <=? 22416) then (w, (0, Some (znth 0 (a_rd (demo_agc w)) (22416 - ad))))
    else if ad =? addr (the_reg (REG "ARB_MCU_MCU_ARB_STATUS_MCU_ARB_STATUS")) then (w, (0, Some (demo_arb w)))
    else if ad =? addr (the_reg (REG "ARB_MCU_ARB_DEBUG_STS_0_ARB_DEBUG_STS_0")) then (w, (0, Some 2))
    else (w, (0, Some 0));
  drv_rmw := λ w _ _ _ _ _, (w, 0); drv_wb := λ w _ _ _, (w, 0); drv_rb := λ w _ _ l, (w, (0, map (λ _, 0) l));
  drv_set_write_mode := λ w _, (w, 0); drv_flush := λ w, (w, 0); drv_chunk_size := 1024 |}.
Definition board_radios : radio_bus board := {|
  rb_msg := λ w m, match m with
    | [_; op; x] =>
      (if op =? SET_STANDBY then Demo (demo_agc w) (demo_arb w) (if x =? STDBY_RC then 2 else 3) else w, (3, [0; 0; demo_mode w * 16]))
    | _ => (w, (Z.of_nat (length m), map (λ _, 0) m))
    end;
  rb_mcu_spi_write := λ w m, (w, (m, 0)) |}.
Definition zero_firmware : firmware := {|
  agc_firmware_sx1250 := replicate (Z.to_nat 8192) 0; agc_firmware_sx125x := replicate (Z.to_nat 8192) 0;
  arb_firmware := replicate (Z.to_nat 8192) 0; cal_firmware_sx125x := replicate (Z.to_nat 8192) 0;
  pram := []; pram_version := [] |}.
Definition zero_stack : stack := {|
  stack_byte := 0; stack_rx := CalRx.Res 0 0 0 0 0; stack_tx := CalTx.Res 0 0 0 0; stack_offsets := [];
  stack_fw := replicate (Z.to_nat 8192) 0; stack_version := replicate 16 0 |}.
Definition board_state : lgw_state board :=
  Lgw (Hal (Com LGW_COM_UNKNOWN false (Demo booting 1 0)) sx1261_static0) rx_buffer_new timestamp_counter_new
    timestamp_pps_history a_context.
Abbreviation board_started :=
  (lgw_start board_driver board_driver quiet_bus board_radios zero_firmware (λ x, x) zero_stack 10 board_state).
Lemma board_starts : ∃ s', board_started = Done s' LGW_HAL_SUCCESS.
Proof.
  assert (H : match board_started with Done _ r => r | _ => 1 end = LGW_HAL_SUCCESS) by (vm_compute; reflexivity).
  destruct board_started as [s' r| | |]; [|discriminate..]. exists s'. by rewrite H.
Qed.

Lemma start_reports_truthfully_witness :
  ∃ s', board_started = Done s' LGW_HAL_SUCCESS ∧ is_started (lgw_ctx s') = true ∧
    connected (hal_com (lgw_links s')) ∧ startable a_context.
Proof.
  destruct board_starts as [s' E]. exists s'. split; [exact E|].
  destruct (start_reports_truthfully board_driver board_driver quiet_bus board_radios zero_firmware (λ x, x) zero_stack 10
    board_state s' LGW_HAL_SUCCESS) as [_ [(_ & H)|[H _]]]; [reflexivity|exact E|exact H|discriminate H].
Defined.

Definition demo_clock : clock := Clock (Timeval 7 999999) (λ i, Timeval (8 + Z.of_nat i) 5).
Lemma demo_clock_real : real_clock demo_clock.
Proof.
  unfold real_clock, valid_time, us_of, demo_clock. cbn [clk_start clk_now tv_sec tv_usec]. split; [lia|]. intros i Hi. lia.
Qed.
Lemma stop_always_stops_witness :
  let s := Lgw (lgw_links board_state) rx_buffer_new timestamp_counter_new timestamp_pps_history (set_started true a_context) in
  ∃ s' r, lgw_stop board_driver board_driver 1001 demo_clock demo_clock s = Done s' r ∧
    is_started (lgw_ctx s') = false ∧ com_target (hal_com (lgw_links s')) = false.
Proof.
  intros s. destruct (stop_always_stops board_driver board_driver demo_clock demo_clock s demo_clock_real demo_clock_real)
    as (s' & r & E & C & _ & H). exists s', r. split; [exact E|]. split; [by rewrite C|]. apply H. reflexivity.
Defined.
