(* ===== verification/TimeRef.v ===== *)
(** * Time references ([libloragw/src/loragw_gps.c])

    A reference [tref] relates a value of the concentrator's counter to UTC and
    GPS time; [lgw_gps_sync] updates it from the pulses of the GPS receiver and
    filters aberrant ones, and four functions convert between the counter and
    these times. The arithmetic is that of [double]. *)
From stdpp Require Import base list numbers.
From Stdlib Require Import ZArith Lia.
From S2P Require Import Prelude Binary64.

Open Scope Z_scope.
Open Scope list_scope.

Definition LGW_GPS_SUCCESS : Z := 0.
Definition LGW_GPS_ERROR : Z := -1.

Definition TS_CPS : double := dbl_of_Z 1000000.
Definition PLUS_10PPM : double := rnd 100001 100000.
Definition MINUS_10PPM : double := rnd 99999 100000.
(** [1E9] and [1E-9]. *)
Definition d1E9 : double := dbl_of_Z 1000000000.
Definition d1E_9 : double := rnd 1 1000000000.

Record timespec := Timespec { ts_sec : Z; ts_nsec : Z }.
Record tref := Tref {
  systime : Z; ref_count_us : Z; ref_utc : timespec; ref_gps : timespec; xtal_err : double }.

(** [modf]: the integral part, and the fractional part with the sign of [x]; it
    has no more bits than [x], so that the rounding is exact. *)
Definition modf (x : double) : Z * double := (dtrunc x, rnd (Z.rem (num x) (den x)) (den x)).

Definition out_of_range (x : double) : bool := dltb PLUS_10PPM x || dltb x MINUS_10PPM.

(** ** [lgw_gps_sync] *)

(** The static variables of the function. *)
Record sync_static := Aber { aber_min1 : bool; aber_min2 : bool }.
Definition sync_static0 : sync_static := Aber false false.

Definition aberrant (ref : tref) (count_us : Z) (utc : timespec) : bool * double :=
  let cnt_diff := ddiv (dbl_of_Z (u32 (count_us - ref_count_us ref))) TS_CPS in
  let utc_diff := dadd (dbl_of_Z (ts_sec utc - ts_sec (ref_utc ref)))
                       (dmul d1E_9 (dbl_of_Z (ts_nsec utc - ts_nsec (ref_utc ref)))) in
  if negb (num utc_diff =? 0) then
    let slope := ddiv cnt_diff utc_diff in (out_of_range slope, slope)
  else (true, Dbl 0 0).

(** [now] is [time(NULL)]; [None] is a NULL pointer. *)
Definition lgw_gps_sync (now : Z) (ref : option tref) (count_us : Z) (utc gps_time : timespec) (st : sync_static)
  : Z * option tref * sync_static :=
  match ref with
  | None => (LGW_GPS_ERROR, None, st)
  | Some ref =>
    let '(aber_n0, slope) := aberrant ref count_us utc in
    let st' := Aber aber_n0 (aber_min1 st) in
    if negb aber_n0 then (LGW_GPS_SUCCESS, Some (Tref now count_us utc gps_time slope), st')
    else if aber_n0 && aber_min1 st && aber_min2 st then
      let xtal := if out_of_range (xtal_err ref) then dbl_of_Z 1 else xtal_err ref in
      (LGW_GPS_SUCCESS, Some (Tref now count_us utc gps_time xtal), st')
    else (LGW_GPS_ERROR, Some ref, st')
  end.

(** ** Conversions *)

Definition ref_invalid (ref : tref) : bool := (systime ref =? 0) || out_of_range (xtal_err ref).

(** [base] plus the time from the reference to [count_us]. *)
Definition cnt2time (ref : tref) (count_us : Z) (base : timespec) : timespec :=
  let delta_sec := ddiv (dbl_of_Z (u32 (count_us - ref_count_us ref))) (dmul TS_CPS (xtal_err ref)) in
  let '(intpart, fractpart) := modf delta_sec in
  let tmp := ts_nsec base + dtrunc (dmul fractpart d1E9) in
  if tmp <? 1000000000 then Timespec (ts_sec base + intpart) tmp
  else Timespec (ts_sec base + intpart + 1) (tmp - 1000000000).
(** The counter at [t], where [base] is the time of the reference. *)
Definition time2cnt (ref : tref) (t base : timespec) : outcome Z :=
  let delta_sec := dadd (dbl_of_Z (ts_sec t - ts_sec base)) (dmul d1E_9 (dbl_of_Z (ts_nsec t - ts_nsec base))) in
  d ← u32_of_double (dmul (dmul delta_sec TS_CPS) (xtal_err ref));
  Ret (u32 (ref_count_us ref + d)).

(** The status and what is stored; [ptr] is false for a NULL pointer. *)
Definition lgw_cnt2utc (ref : tref) (count_us : Z) (ptr : bool) : Z * option timespec :=
  if negb ptr || ref_invalid ref then (LGW_GPS_ERROR, None)
  else (LGW_GPS_SUCCESS, Some (cnt2time ref count_us (ref_utc ref))).
Definition lgw_utc2cnt (ref : tref) (utc : timespec) (ptr : bool) : outcome (Z * option Z) :=
  if negb ptr || ref_invalid ref then Ret (LGW_GPS_ERROR, None)
  else c ← time2cnt ref utc (ref_utc ref); Ret (LGW_GPS_SUCCESS, Some c).
Definition lgw_cnt2gps (ref : tref) (count_us : Z) (ptr : bool) : Z * option timespec :=
  if negb ptr || ref_invalid ref then (LGW_GPS_ERROR, None)
  else (LGW_GPS_SUCCESS, Some (cnt2time ref count_us (ref_gps ref))).
Definition lgw_gps2cnt (ref : tref) (gps_time : timespec) (ptr : bool) : outcome (Z * option Z) :=
  if negb ptr || ref_invalid ref then Ret (LGW_GPS_ERROR, None)
  else c ← time2cnt ref gps_time (ref_gps ref); Ret (LGW_GPS_SUCCESS, Some c).
