(* ===== verification/TimeRefProps.v ===== *)
(** * Properties of the time references

    The filter of [lgw_gps_sync] as a state machine, and that converting a value
    of the counter to a time and back loses at most a microsecond, whatever the
    rounding of the [double] operations. The error analysis is over the reals. *)
From stdpp Require Import base list numbers.
From Stdlib Require Import ZArith Lia Reals Lra.
From S2P Require Import Prelude Binary64 TimeRef.

Open Scope Z_scope.

(** ** Real values of doubles *)

Definition dR (x : double) : R := (IZR (num x) / IZR (den x))%R.
(** Half a unit in the last place, relative to 1. *)
Definition ulp2 : R := (/ IZR (2 ^ 53))%R.

Ltac rbound := apply Rabs_le; lra.

Section Reals.
Open Scope R_scope.

Lemma den_R x : 0 < IZR (den x).
Proof. apply IZR_lt, den_pos. Qed.
Lemma ulp2_pos : 0 < ulp2.
Proof. unfold ulp2. apply Rinv_0_lt_compat, IZR_lt. lia. Qed.

Lemma ulp2_small : ulp2 <= / 8000000000000000.
Proof. unfold ulp2. apply Rinv_le_contravar; [lra|]. apply IZR_le. vm_compute. discriminate. Qed.
Lemma Rabs_between a b : Rabs a <= b ↔ - b <= a <= b.
Proof. split; [intros H; unfold Rabs in H; destruct (Rcase_abs a); lra|apply Rabs_le]. Qed.
(** An error in terms of a bound on the value. *)
Lemma round_err a' a A : Rabs (a' - a) <= ulp2 * Rabs a → Rabs a <= A → - (A / 8000000000000000) <= a' - a <= A / 8000000000000000.
Proof.
  intros H HA. pose proof ulp2_small. pose proof ulp2_pos. pose proof (Rabs_pos a). apply Rabs_between.
  eapply Rle_trans; [exact H|]. unfold Rdiv. rewrite (Rmult_comm A). apply Rmult_le_compat; lra.
Qed.
Lemma mul_err a b A B : Rabs a <= A → Rabs b <= B → - (A * B) <= a * b <= A * B.
Proof.
  intros. apply Rabs_between. rewrite Rabs_mult. apply Rmult_le_compat; [apply Rabs_pos..|done|done].
Qed.

(** The error of a rounding of [n / d]. *)
Lemma rnd_R n d : (0 < d)%Z → Rabs (dR (rnd n d) - IZR n / IZR d) <= ulp2 * Rabs (IZR n / IZR d).
Proof.
  intros Hd. pose proof (rnd_rel_err n d Hd) as H. set (x := rnd n d) in *. unfold dR.
  pose proof (den_R x) as Hx. assert (Hd' : 0 < IZR d) by (apply IZR_lt; lia).
  replace (IZR (num x) / IZR (den x) - IZR n / IZR d)
    with (IZR (num x * d - n * den x) / (IZR (den x) * IZR d)) by (rewrite minus_IZR, !mult_IZR; field; lra).
  unfold Rdiv at 1 2. rewrite !Rabs_mult, !(Rabs_pos_eq (/ _)) by (left; apply Rinv_0_lt_compat; nra).
  rewrite <- !abs_IZR. apply IZR_le in H. rewrite !mult_IZR in H. unfold ulp2.
  assert (H53 : 0 < IZR (2 ^ 53)) by (apply IZR_lt; lia).
  apply (Rmult_le_reg_r (IZR (den x) * IZR d * IZR (2 ^ 53))); [nra|].
  replace (IZR (Z.abs (num x * d - n * den x)) * / (IZR (den x) * IZR d) * (IZR (den x) * IZR d * IZR (2 ^ 53)))
    with (IZR (Z.abs (num x * d - n * den x)) * IZR (2 ^ 53)) by (field; lra).
  replace (/ IZR (2 ^ 53) * (IZR (Z.abs n) * / IZR d) * (IZR (den x) * IZR d * IZR (2 ^ 53)))
    with (IZR (Z.abs n) * IZR (den x)) by (field; lra). exact H.
Qed.

Lemma dmul_R x y : Rabs (dR (dmul x y) - dR x * dR y) <= ulp2 * Rabs (dR x * dR y).
Proof.
  pose proof (den_R x). pose proof (den_R y). pose proof (den_pos x). pose proof (den_pos y).
  replace (dR x * dR y) with (IZR (num x * num y) / IZR (den x * den y)) by (unfold dR; rewrite !mult_IZR; field; lra).
  apply rnd_R. nia.
Qed.
Lemma dadd_R x y : Rabs (dR (dadd x y) - (dR x + dR y)) <= ulp2 * Rabs (dR x + dR y).
Proof.
  pose proof (den_R x). pose proof (den_R y). pose proof (den_pos x). pose proof (den_pos y).
  replace (dR x + dR y) with (IZR (num x * den y + num y * den x) / IZR (den x * den y))
    by (unfold dR; rewrite plus_IZR, !mult_IZR; field; lra).
  apply rnd_R. nia.
Qed.
Lemma ddiv_R x y : 0 < dR y → Rabs (dR (ddiv x y) - dR x / dR y) <= ulp2 * Rabs (dR x / dR y).
Proof.
  intros Hy. pose proof (den_R x). pose proof (den_R y). pose proof (den_pos x).
  assert (Hn : (0 < num y)%Z).
  { apply lt_IZR. unfold dR in Hy. apply (Rmult_lt_reg_r (/ IZR (den y))); [by apply Rinv_0_lt_compat|]. unfold Rdiv in Hy. lra. }
  assert (0 < IZR (num y)) by by apply IZR_lt.
  unfold ddiv. rewrite Z.sgn_pos, Z.abs_eq, Z.mul_1_l by lia.
  replace (dR x / dR y) with (IZR (num x * den y) / IZR (den x * num y)) by (unfold dR; rewrite !mult_IZR; field; lra).
  apply rnd_R. nia.
Qed.
Lemma dval_R x z : dval x z 0 → dR x = IZR z.
Proof.
  unfold dval, dR. rewrite Z.mul_1_r. intros ->. rewrite mult_IZR. pose proof (den_R x). field. lra.
Qed.
Lemma of_Z_R z : (Z.abs z < 2 ^ 53)%Z → dR (dbl_of_Z z) = IZR z.
Proof. intros H. by apply dval_R, dval_of_Z. Qed.
Lemma dltb_R x y : dltb x y = true ↔ dR x < dR y.
Proof.
  unfold dltb, dR. pose proof (den_R x). pose proof (den_R y). rewrite Z.ltb_lt. split; intros E.
  - apply IZR_lt in E. rewrite !mult_IZR in E. apply (Rmult_lt_reg_r (IZR (den x) * IZR (den y))); [nra|].
    replace (IZR (num x) / IZR (den x) * (IZR (den x) * IZR (den y))) with (IZR (num x) * IZR (den y)) by (field; lra).
    replace (IZR (num y) / IZR (den y) * (IZR (den x) * IZR (den y))) with (IZR (num y) * IZR (den x)) by (field; lra). exact E.
  - apply lt_IZR. rewrite !mult_IZR. apply (Rmult_lt_reg_r (/ (IZR (den x) * IZR (den y)))); [apply Rinv_0_lt_compat; nra|].
    replace (IZR (num x) * IZR (den y) * / (IZR (den x) * IZR (den y))) with (IZR (num x) / IZR (den x)) by (field; lra).
    replace (IZR (num y) * IZR (den x) * / (IZR (den x) * IZR (den y))) with (IZR (num y) / IZR (den y)) by (field; lra). exact E.
Qed.
Lemma dtrunc_R x : 0 <= dR x → IZR (dtrunc x) <= dR x < IZR (dtrunc x) + 1.
Proof.
  intros Hx. pose proof (den_R x) as Hd. pose proof (den_pos x).
  assert (Hn : (0 <= num x)%Z).
  { apply le_IZR. unfold dR in Hx. apply (Rmult_le_reg_r (/ IZR (den x))); [by apply Rinv_0_lt_compat|]. unfold Rdiv in Hx. lra. }
  unfold dtrunc. rewrite Z.quot_div_nonneg by lia.
  pose proof (Z.div_mod (num x) (den x) ltac:(lia)) as E. pose proof (Z.mod_pos_bound (num x) (den x) ltac:(lia)) as [M1 M2].
  apply (f_equal IZR) in E. rewrite plus_IZR, mult_IZR in E. apply IZR_le in M1. apply IZR_lt in M2.
  unfold dR. set (q := IZR (num x / den x)) in *. set (r := IZR (num x mod den x)) in *. rewrite E.
  replace ((IZR (den x) * q + r) / IZR (den x)) with (q + r / IZR (den x)) by (field; lra).
  assert (0 <= r / IZR (den x) < 1); [|lra]. split.
  - apply Rmult_le_pos; [lra|]. left. by apply Rinv_0_lt_compat.
  - apply (Rmult_lt_reg_r (IZR (den x))); [done|]. unfold Rdiv. rewrite Rmult_assoc, Rinv_l by lra. lra.
Qed.
Lemma dtrunc_below_1 x : -1 < dR x < 1 → dtrunc x = 0%Z.
Proof.
  intros [H1 H2]. pose proof (den_R x) as Hd. pose proof (den_pos x). unfold dtrunc. apply Z.quot_small_iff; [lia|].
  unfold dR in *. rewrite (Z.abs_eq (den x)) by lia. apply Z.abs_lt. split; apply lt_IZR; rewrite ?opp_IZR;
    (apply (Rmult_lt_reg_r (/ IZR (den x))); [by apply Rinv_0_lt_compat|]); unfold Rdiv in *;
    rewrite ?Ropp_mult_distr_l_reverse, ?Rinv_r by lra; lra.
Qed.
Lemma modf_R x : 0 <= dR x →
  let '(i, f) := modf x in i = dtrunc x ∧ 0 <= dR f ∧ Rabs (dR f - (dR x - IZR i)) <= ulp2.
Proof.
  intros Hx. split; [done|]. pose proof (dtrunc_R x Hx) as Ht. pose proof (den_R x) as Hd. pose proof (den_pos x).
  pose proof (rnd_R (Z.rem (num x) (den x)) (den x) ltac:(lia)) as E.
  replace (IZR (Z.rem (num x) (den x)) / IZR (den x)) with (dR x - IZR (dtrunc x)) in E.
  - rewrite (Rabs_pos_eq (dR x - _)) in E by lra. pose proof ulp2_pos. pose proof ulp2_small.
    split; [|nra]. apply Rabs_between in E. nra.
  - unfold dR, dtrunc. pose proof (Z.quot_rem' (num x) (den x)) as Q. apply (f_equal IZR) in Q.
    rewrite plus_IZR, mult_IZR in Q. rewrite Q at 1. field. lra.
Qed.

(** ** The conversions *)

Lemma in_range_R x : out_of_range x = false → 0.99998 <= dR x <= 1.00002.
Proof.
  unfold out_of_range. intros [H1 H2]%orb_false_iff.
  pose proof (rnd_R 100001 100000 ltac:(lia)) as P. pose proof (rnd_R 99999 100000 ltac:(lia)) as M.
  apply (round_err _ _ 2) in P; [|rbound]. apply (round_err _ _ 2) in M; [|rbound].
  assert (A : ¬ dR PLUS_10PPM < dR x) by (rewrite <- dltb_R; congruence).
  assert (B : ¬ dR x < dR MINUS_10PPM) by (rewrite <- dltb_R; congruence). unfold PLUS_10PPM, MINUS_10PPM in *. lra.
Qed.

(** The seconds since the reference: [n] counts at a rate of [1E6 * xtal_err]. *)
Lemma delta_R n x :
  (0 <= n < 2 ^ 32)%Z → 0.99998 <= dR x <= 1.00002 →
  let delta := dR (ddiv (dbl_of_Z n) (dmul TS_CPS x)) in
  0 <= delta <= 4297 ∧ - 0.000002 <= delta * (1000000 * dR x) - IZR n <= 0.000002.
Proof.
  intros Hn Hx delta. pose proof (dmul_R TS_CPS x) as C. unfold TS_CPS in C at 2 3. rewrite of_Z_R in C by lia.
  apply (round_err _ _ 1000020) in C; [|rbound]. set (c := dR (dmul TS_CPS x)) in *.
  assert (Hc : 999979 <= c <= 1000021) by lra.
  pose proof (ddiv_R (dbl_of_Z n) (dmul TS_CPS x) ltac:(fold c; lra)) as D. fold c delta in D. rewrite of_Z_R in D by lia.
  assert (Hn' : 0 <= IZR n <= 4294967295) by (split; apply IZR_le; lia).
  set (q := IZR n / c) in *. assert (Hq : q * c = IZR n) by (unfold q; field; lra).
  assert (Hq' : 0 <= q <= 4296) by (split; nra).
  assert (0 <= delta).
  { rewrite (Rabs_pos_eq q) in D by lra. apply Rabs_between in D. pose proof ulp2_small. pose proof ulp2_pos. nra. }
  apply (round_err _ _ 4296) in D; [|rbound]. split; [lra|].
  pose proof (mul_err (delta - q) (1000000 * dR x) (4296 / 8000000000000000) 1000020 ltac:(rbound) ltac:(rbound)).
  pose proof (mul_err q (1000000 * dR x - c) 4296 (1000020 / 8000000000000000) ltac:(rbound) ltac:(rbound)). nra.
Qed.

(** The whole and the nanoseconds of a delay: at most a nanosecond is lost. *)
Lemma split_R d :
  0 <= dR d <= 4297 →
  let '(i, f) := modf d in let ns := dtrunc (dmul f d1E9) in
  (0 <= i <= 4297)%Z ∧ (0 <= ns <= 1000000000)%Z ∧
  - (0.000000001 + 0.000000000000001) <= IZR i + IZR ns * 0.000000001 - dR d <= 0.000000000000001.
Proof.
  intros Hd. pose proof (modf_R d ltac:(lra)) as M. destruct (modf d) as [i f]. destruct M as (-> & Hf & M). cbv zeta.
  pose proof (dtrunc_R d ltac:(lra)) as T. pose proof ulp2_small as U. pose proof ulp2_pos. apply Rabs_between in M.
  assert (Hf1 : dR f <= 1 + ulp2) by lra.
  pose proof (dmul_R f d1E9) as P. unfold d1E9 in P at 2 3. rewrite of_Z_R in P by lia.
  assert (0 <= dR (dmul f d1E9)) as Hp.
  { rewrite (Rabs_pos_eq (_ * _)) in P by nra. apply Rabs_between in P. nra. }
  apply (round_err _ _ 1000000001) in P; [|rbound].
  pose proof (dtrunc_R _ Hp) as N. set (ns := dtrunc (dmul f d1E9)) in *. set (i := dtrunc d) in *.
  assert (0 <= i)%Z by (apply Z.lt_succ_r, lt_IZR; rewrite succ_IZR; lra).
  assert (0 <= ns)%Z by (apply Z.lt_succ_r, lt_IZR; rewrite succ_IZR; lra).
  assert (i <= 4297)%Z by (apply le_IZR; lra).
  assert (ns < 1000000001)%Z by (apply lt_IZR; lra). split_and!; lia || lra.
Qed.

(** The count of a delay of [a] seconds and [b] nanoseconds. *)
Lemma count_R a b x :
  (0 <= a <= 4298)%Z → (Z.abs b <= 1000000000)%Z → 0.99998 <= dR x <= 1.00002 →
  let t := IZR a + IZR b * 0.000000001 in
  - 0.000003 <= dR (dmul (dmul (dadd (dbl_of_Z a) (dmul d1E_9 (dbl_of_Z b))) TS_CPS) x) - t * (1000000 * dR x) <= 0.000003.
Proof.
  intros Ha Hb Hx t.
  assert (Ha' : 0 <= IZR a <= 4298) by (split; apply IZR_le; lia).
  assert (Hb' : -1000000000 <= IZR b <= 1000000000) by (split; apply IZR_le; lia).
  pose proof (rnd_R 1 1000000000 ltac:(lia)) as K. fold d1E_9 in K. apply (round_err _ _ 0.000000001) in K; [|rbound].
  pose proof (dmul_R d1E_9 (dbl_of_Z b)) as M. rewrite of_Z_R in M by lia.
  pose proof (mul_err (dR d1E_9 - 1 / 1000000000) (IZR b) (0.000000001 / 8000000000000000) 1000000000 ltac:(rbound) ltac:(rbound)).
  apply (round_err _ _ 1.1) in M; [|rbound].
  set (m := dmul d1E_9 (dbl_of_Z b)) in *. pose proof (dadd_R (dbl_of_Z a) m) as D. rewrite of_Z_R in D by lia.
  apply (round_err _ _ 4300) in D; [|rbound]. set (d := dadd (dbl_of_Z a) m) in *.
  pose proof (dmul_R d TS_CPS) as E. unfold TS_CPS in E at 2 3. rewrite of_Z_R in E by lia.
  apply (round_err _ _ 4301000000) in E; [|rbound]. set (e := dmul d TS_CPS) in *.
  pose proof (mul_err (dR e - dR d * 1000000) (dR x) (4301000000 / 8000000000000000) 1.00002 ltac:(rbound) ltac:(rbound)).
  pose proof (mul_err (dR e) (dR x) 4302000000 1.00002 ltac:(rbound) ltac:(rbound)).
  pose proof (dmul_R e x) as F. apply (round_err _ _ 4303000000) in F; [|rbound].
  pose proof (mul_err (dR d - t) (1000000 * dR x) (4303 / 8000000000000000) 1000020 ltac:(unfold t; rbound) ltac:(rbound)).
  nra.
Qed.
End Reals.

(** The nanoseconds from [base] to [t]. *)
Definition elapsed (t base : timespec) : Z := (ts_sec t - ts_sec base) * 1000000000 + (ts_nsec t - ts_nsec base).
(** [t] is [n] counts of a clock that is off by the factor [x] after [base], to
    two nanoseconds. *)
Definition at_count (x : double) (n : Z) (t base : timespec) : Prop :=
  Z.abs (elapsed t base * num x - 1000 * n * den x) < 2 * num x.

Lemma cnt2time_spec ref count base :
  out_of_range (xtal_err ref) = false → 0 <= ts_nsec base < 1000000000 →
  let n := u32 (count - ref_count_us ref) in let t := cnt2time ref count base in
  0 <= ts_nsec t < 1000000000 ∧ 0 <= ts_sec t - ts_sec base <= 4298 ∧
  (- 0.0011 <= IZR (elapsed t base) * 0.001 * dR (xtal_err ref) - IZR n <= 0.00001)%R.
Proof.
  intros Hx Hb n t. apply in_range_R in Hx. set (x := xtal_err ref) in *.
  assert (Hn : 0 <= n < 2 ^ 32) by apply Z.mod_pos_bound, eq_refl.
  pose proof (delta_R n x Hn Hx) as [Hd Hn']. unfold t, cnt2time. fold n x. set (d := ddiv _ _) in *.
  pose proof (split_R d Hd) as S. destruct (modf d) as [i f]. destruct S as (Hi & Hns & HT). set (ns := dtrunc _) in *.
  set (t' := if _ <? _ then _ else _).
  assert (He : elapsed t' base = i * 1000000000 + ns ∧ 0 <= ts_nsec t' < 1000000000 ∧ 0 <= ts_sec t' - ts_sec base <= 4298).
  { unfold t', elapsed. destruct (Z.ltb_spec (ts_nsec base + ns) 1000000000); cbn; lia. }
  destruct He as (He & H1 & H2). split; [done|]. split; [done|]. rewrite He, plus_IZR, mult_IZR.
  pose proof (mul_err (IZR i + IZR ns * 0.000000001 - dR d) (1000000 * dR x) 0.000000001000001 1000020
    ltac:(rbound) ltac:(rbound)) as M.
  pose proof (Rmult_le_compat_r (1000000 * dR x) _ _ ltac:(lra) (proj2 HT)). nra.
Qed.

Lemma time2cnt_spec ref n t base :
  out_of_range (xtal_err ref) = false → 0 <= ts_nsec t < 1000000000 → 0 <= ts_nsec base < 1000000000 →
  0 <= ts_sec t - ts_sec base <= 4298 → 0 <= n < 2 ^ 32 →
  (- 0.0011 <= IZR (elapsed t base) * 0.001 * dR (xtal_err ref) - IZR n <= 0.00001)%R →
  ∃ k, time2cnt ref t base = Ret (u32 (ref_count_us ref + k)) ∧ (k = n ∨ k = n - 1 ∧ n ≠ 0).
Proof.
  intros Hx Ht Hb Hs Hn He. apply in_range_R in Hx. unfold time2cnt. set (x := xtal_err ref) in *.
  pose proof (count_R (ts_sec t - ts_sec base) (ts_nsec t - ts_nsec base) x Hs ltac:(lia) Hx) as C. cbv zeta in C.
  set (v := dmul _ x) in C |- *.
  assert (Hv : (IZR n - 0.002 <= dR v <= IZR n + 0.001)%R).
  { unfold elapsed in He. rewrite plus_IZR, mult_IZR in He. lra. }
  assert (Hk : dtrunc v = n ∨ dtrunc v = n - 1 ∧ n ≠ 0).
  { destruct (Z.eq_dec n 0) as [->|Hn0]; [left; apply dtrunc_below_1; lra|].
    assert (1 <= IZR n)%R by (apply IZR_le; lia). destruct (dtrunc_R v) as [T1 T2]; [lra|].
    assert (dtrunc v < n + 1) by (apply lt_IZR; rewrite plus_IZR; lra).
    assert (n - 1 < dtrunc v + 1) by (apply lt_IZR; rewrite plus_IZR, minus_IZR; lra). lia. }
  exists (dtrunc v). split; [|done]. unfold u32_of_double.
  rewrite (proj2 (Z.leb_le 0 _)), (proj2 (Z.ltb_lt _ _)) by lia. reflexivity.
Qed.

(** What a conversion [to] of the counter and its inverse [from] promise. *)
Definition inverse_conversions (ref : tref) (count : Z) (base : timespec)
    (to : tref → Z → bool → Z * option timespec) (from : tref → timespec → bool → outcome (Z * option Z)) : Prop :=
  ∃ t c, to ref count true = (LGW_GPS_SUCCESS, Some t) ∧ 0 <= ts_nsec t < 1000000000 ∧
    at_count (xtal_err ref) (u32 (count - ref_count_us ref)) t base ∧
    from ref t true = Ret (LGW_GPS_SUCCESS, Some c) ∧
    (c = count ∨ c = u32 (count - 1) ∧ count ≠ ref_count_us ref).

Lemma conversions_inverse ref count base :
  out_of_range (xtal_err ref) = false → is_u32 count → is_u32 (ref_count_us ref) → 0 <= ts_nsec base < 1000000000 →
  let t := cnt2time ref count base in
  0 <= ts_nsec t < 1000000000 ∧ at_count (xtal_err ref) (u32 (count - ref_count_us ref)) t base ∧
  ∃ c, time2cnt ref t base = Ret c ∧ (c = count ∨ c = u32 (count - 1) ∧ count ≠ ref_count_us ref).
Proof.
  intros Hx Hc Hr Hb t. destruct (cnt2time_spec ref count base Hx Hb) as (H1 & H2 & H3). fold t in H1, H2, H3.
  set (n := u32 (count - ref_count_us ref)) in *. assert (Hn : 0 <= n < 2 ^ 32) by apply Z.mod_pos_bound, eq_refl.
  split; [done|]. split.
  - apply in_range_R in Hx. unfold at_count. set (x := xtal_err ref) in *. pose proof (den_R x). pose proof (den_pos x).
    assert (Hnum : (IZR (num x) = dR x * IZR (den x))%R) by (unfold dR; field; lra).
    apply Z.abs_lt. split; apply lt_IZR; rewrite ?opp_IZR, ?minus_IZR, !mult_IZR, Hnum; nra.
  - destruct (time2cnt_spec ref n t base Hx H1 Hb H2 Hn H3) as (k & Ek & Hk). eexists. split; [exact Ek|].
    unfold n, u32 in Hk |- *. destruct Hk as [-> | [-> Hk]].
    + left. rewrite Zplus_mod_idemp_r. rewrite Z.mod_small; lia.
    + right. split; [|intros E; apply Hk; by rewrite E, Z.sub_diag].
      replace (ref_count_us ref + ((count - ref_count_us ref) mod 2 ^ 32 - 1))
        with (ref_count_us ref - 1 + (count - ref_count_us ref) mod 2 ^ 32) by lia.
      rewrite Zplus_mod_idemp_r. f_equal. lia.
Qed.

(** C18. Converting a value of the counter to a time and back, with a valid
    reference: the time is normalised and is that of the counter to two
    nanoseconds, by the measured rate of the crystal; the conversion back is
    defined, and gives the value or the one before it. So it is for UTC and for
    GPS time, for every rate within 10 ppm and whatever the rounding of the
    [double] operations. *)
Theorem counter_time_roundtrip ref count :
  ref_invalid ref = false → is_u32 count → is_u32 (ref_count_us ref) →
  0 <= ts_nsec (ref_utc ref) < 1000000000 → 0 <= ts_nsec (ref_gps ref) < 1000000000 →
  inverse_conversions ref count (ref_utc ref) lgw_cnt2utc lgw_utc2cnt ∧
  inverse_conversions ref count (ref_gps ref) lgw_cnt2gps lgw_gps2cnt.
Proof.
  intros Hv Hc Hr Hu Hg. pose proof Hv as [_ Hx]%orb_false_iff.
  destruct (conversions_inverse ref count (ref_utc ref) Hx Hc Hr Hu) as (U1 & U2 & cu & U3 & U4).
  destruct (conversions_inverse ref count (ref_gps ref) Hx Hc Hr Hg) as (G1 & G2 & cg & G3 & G4).
  unfold inverse_conversions, lgw_cnt2utc, lgw_cnt2gps, lgw_utc2cnt, lgw_gps2cnt. rewrite Hv. cbn [negb orb].
  split; eexists _, _; (split; [reflexivity|]); (split; [eassumption|]); (split; [eassumption|]).
  - rewrite U3. split; [reflexivity|exact U4].
  - rewrite G3. split; [reflexivity|exact G4].
Qed.

(** ** The filter of the synchronisation *)

(** A sequence of calls of [lgw_gps_sync], from the given reference and flags:
    the status of each, and what is left. *)
Record pulse := Pulse { pulse_now : Z; pulse_count : Z; pulse_utc : timespec; pulse_gps : timespec }.
Inductive syncs : tref → sync_static → list (pulse * Z) → tref → sync_static → Prop :=
  | syncs_nil ref st : syncs ref st [] ref st
  | syncs_step ref st p r ref' st' l ref'' st'' :
      lgw_gps_sync (pulse_now p) (Some ref) (pulse_count p) (pulse_utc p) (pulse_gps p) st = (r, Some ref', st') →
      syncs ref' st' l ref'' st'' → syncs ref st ((p, r) :: l) ref'' st''.

(** The time and counter of a pulse are those of the reference. *)
Definition taken_from (p : pulse) (ref : tref) : Prop :=
  systime ref = pulse_now p ∧ ref_count_us ref = pulse_count p ∧ ref_utc ref = pulse_utc p ∧ ref_gps ref = pulse_gps p.

Lemma reset_in_range b x : out_of_range x = b → out_of_range (if b then dbl_of_Z 1 else x) = false.
Proof. intros H. destruct b; [vm_compute; reflexivity|exact H]. Qed.
Lemma aberrant_rate ref count utc slope : aberrant ref count utc = (false, slope) → out_of_range slope = false.
Proof.
  unfold aberrant. cbv zeta. set (d := dadd _ _). set (c := ddiv _ TS_CPS). clearbody c d.
  destruct (negb (num d =? 0)); [|discriminate]. set (q := ddiv c d). clearbody q. intros H.
  rewrite <- (f_equal snd H : q = slope). exact (f_equal fst H).
Qed.
Lemma sync_step ref st p r ref' st' :
  lgw_gps_sync (pulse_now p) (Some ref) (pulse_count p) (pulse_utc p) (pulse_gps p) st = (r, Some ref', st') →
  (r = LGW_GPS_SUCCESS ∧ taken_from p ref' ∧ out_of_range (xtal_err ref') = false) ∨
  (r = LGW_GPS_ERROR ∧ ref' = ref ∧ aber_min1 st' = true ∧ (aber_min1 st && aber_min2 st = false) ∧ aber_min2 st' = aber_min1 st).
Proof.
  unfold lgw_gps_sync. destruct (aberrant ref (pulse_count p) (pulse_utc p)) as [n0 slope] eqn:E.
  pose proof (reset_in_range _ (xtal_err ref) eq_refl) as X. set (x := if out_of_range _ then _ else _) in *. clearbody x.
  destruct n0; cbn [negb andb].
  - clear E. destruct st as [m1 m2]. cbn [aber_min1 aber_min2]. destruct (m1 && m2) eqn:Em.
    + intros H. injection H as <- <- <-.
      left. split; [reflexivity|]. split; [split_and!; reflexivity|exact X].
    + intros H. injection H as <- <- <-. right. split_and!; reflexivity.
  - apply aberrant_rate in E. intros H. injection H as <- <- <-. left. split; [reflexivity|].
    split; [split_and!; reflexivity|exact E].
Qed.

(** How many errors in a row the flags stand for. *)
Definition errors_of (st : sync_static) (k : nat) : Prop :=
  (1 <= k → aber_min1 st = true)%nat ∧ (2 <= k → aber_min2 st = true)%nat.
Lemma syncs_filter ref st l ref' st' k :
  syncs ref st l ref' st' → errors_of st k → (k <= 2)%nat →
  (∃ a p b, l = a ++ (p, LGW_GPS_SUCCESS) :: b ∧ Forall (λ x, snd x = LGW_GPS_ERROR) b ∧ (length b <= 2)%nat ∧
     taken_from p ref' ∧ out_of_range (xtal_err ref') = false) ∨
  (Forall (λ x, snd x = LGW_GPS_ERROR) l ∧ ref' = ref ∧ (k + length l <= 2)%nat).
Proof.
  intros H. revert k. induction H as [ref st|ref st p r ref' st' l ref'' st'' E H IH]; intros k [Hk1 Hk2] Hk.
  { right. split_and!; [constructor|done|cbn; lia]. }
  destruct (sync_step _ _ _ _ _ _ E) as [(-> & Ht & Hx)|(-> & -> & H1 & H2 & H3)].
  - destruct (IH 0%nat) as [(a & p' & b & -> & Hb)|(Hl & -> & Hlen)]; [split; lia|lia| |].
    + left. exists ((p, LGW_GPS_SUCCESS) :: a), p', b. split; [reflexivity|exact Hb].
    + left. exists [], p, l. split_and!; [done|done|lia|done|done].
  - assert (k <= 1)%nat. { destruct (decide (k = 2%nat)) as [->|]; [|lia]. rewrite Hk1, Hk2 in H2 by lia. discriminate. }
    destruct (IH (S k)) as [(a & p' & b & -> & Hb)|(Hl & -> & Hlen)]; [split; intros; [done|]|lia| |].
    + rewrite H3. apply Hk1. lia.
    + left. exists ((p, LGW_GPS_ERROR) :: a), p', b. split; [reflexivity|exact Hb].
    + right. split_and!; [by constructor|done|cbn; lia].
Qed.

(** C28. The filter of [lgw_gps_sync], over every sequence of pulses: an error
    leaves the reference as it was, at most two errors follow on each other,
    and the reference is always that of the last pulse that was taken, with a
    rate within 10 ppm, so that it is valid for the conversions. *)
Theorem gps_sync_filters ref l ref' st' :
  syncs ref sync_static0 l ref' st' →
  (∃ a p b, l = a ++ (p, LGW_GPS_SUCCESS) :: b ∧ Forall (λ x, snd x = LGW_GPS_ERROR) b ∧ (length b <= 2)%nat ∧
     taken_from p ref' ∧ (pulse_now p ≠ 0 → ref_invalid ref' = false)) ∨
  (Forall (λ x, snd x = LGW_GPS_ERROR) l ∧ (length l <= 2)%nat ∧ ref' = ref).
Proof.
  intros H. destruct (syncs_filter _ _ _ _ _ 0 H) as [(a & p & b & -> & Hb & Hl & Ht & Hx)|(Hl & -> & Hlen)];
    [split; lia|lia|left|right; done].
  exists a, p, b. split_and!; [done|done|done|done|]. intros Hn. unfold ref_invalid. rewrite Hx, orb_false_r.
  apply Z.eqb_neq. by rewrite (proj1 Ht).
Qed.

(** ** Instances *)

(** A crystal 3 ppm fast, a second before its counter wraps. *)
Definition a_ref : tref :=
  Tref 1700000000 4294000000 (Timespec 1700000000 999999999) (Timespec 1384035218 999999999) (rnd 1000003 1000000).
Lemma counter_time_roundtrip_witness :
  inverse_conversions a_ref 77777 (ref_utc a_ref) lgw_cnt2utc lgw_utc2cnt ∧
  inverse_conversions a_ref 77777 (ref_gps a_ref) lgw_cnt2gps lgw_gps2cnt.
Proof. apply counter_time_roundtrip; [vm_compute; reflexivity|lia|cbn; lia|cbn; lia|cbn; lia]. Defined.

Definition pulse_at (k drift : Z) : pulse :=
  Pulse (1700000000 + k) (k * 1000000 + drift) (Timespec (1700000000 + k) 0) (Timespec (1384035218 + k) 0).
Definition pulses : list (pulse * Z) :=
  [(pulse_at 1 3, LGW_GPS_SUCCESS); (pulse_at 2 300, LGW_GPS_ERROR); (pulse_at 3 300, LGW_GPS_ERROR)].
Definition first_ref : tref := Tref 1 0 (Timespec 1700000000 0) (Timespec 1384035218 0) (dbl_of_Z 1).
Lemma gps_sync_filters_witness :
  ∃ ref', (∃ st', syncs first_ref sync_static0 pulses ref' st') ∧ taken_from (pulse_at 1 3) ref' ∧ ref_invalid ref' = false.
Proof.
  eexists. split.
  - eexists. eapply syncs_step; [vm_compute; reflexivity|]. eapply syncs_step; [vm_compute; reflexivity|].
    eapply syncs_step; [vm_compute; reflexivity|]. apply syncs_nil.
  - edestruct (gps_sync_filters first_ref pulses) as [(a & p & b & El & Hb & _ & Ht & Hv)|(Hl & _)].
    + eapply syncs_step; [vm_compute; reflexivity|]. eapply syncs_step; [vm_compute; reflexivity|].
      eapply syncs_step; [vm_compute; reflexivity|]. apply syncs_nil.
    + destruct a as [|x1 [|x2 [|x3 [|x4 a]]]]; try discriminate El. injection El as <- <-. split; [exact Ht|].
      apply Hv. discriminate.
    + apply List.Forall_inv in Hl. discriminate Hl.
Defined.
