(* ===== verification/Json.v ===== *)
(** * JSON ([libtools/src/parson.c])

    The library with which the packet forwarder reads its configuration and the
    downlinks of the server: the parser, the access to parsed values, and the
    serializer. A C string is the list of its bytes before the terminator, and
    the end of the text is the end of the list. A NULL result is [Null].
    Memory allocation succeeds. *)
From stdpp Require Import base list numbers strings.
From Stdlib Require Import ZArith Lia Ascii String.
From stdpp Require Import list.
From S2P Require Import Prelude Binary64.

Open Scope Z_scope.
Open Scope list_scope.

Definition ARRAY_MAX_CAPACITY : Z := 122880.
Definition OBJECT_MAX_CAPACITY : Z := 960.
Definition STARTING_CAPACITY : Z := 15.
Definition MAX_NESTING : Z := 19.

(** The bytes of a string literal, and the C string in a buffer. *)
Definition bytes_of_string (s : string) : list Z := map (λ c, Z.of_N (N_of_ascii c)) (list_ascii_of_string s).
Fixpoint c_string (l : list Z) : list Z :=
  match l with
  | [] => []
  | c :: r => if c =? 0 then [] else c :: c_string r
  end.

(** ** Values *)

(** [NotFinite] is an infinity or not a number. *)
Inductive number := Finite (x : double) | NotFinite.

#[warnings="-register-all"] Inductive JSON_Value :=
  | JSONNull
  | JSONString (s : list Z)
  | JSONNumber (x : number)
  | JSONObject (l : list (list Z * JSON_Value))
  | JSONArray (l : list JSON_Value)
  | JSONBoolean (b : bool).

Abbreviation JSON_Object := (list (list Z * JSON_Value)).

(** What a function of the parser returns; [NoFuel] is that the bound on the
    calls is reached. *)
Inductive parsed (A : Type) := Value (a : A) | Null | NoFuel.
Arguments Value {A} a.
Arguments Null {A}.
Arguments NoFuel {A}.
#[export] Instance parsed_ret : MRet parsed := @Value.
#[export] Instance parsed_bind : MBind parsed := λ A B f m,
  match m with Value a => f a | Null => Null | NoFuel => NoFuel end.
Definition not_null {A} (o : option A) : parsed A := match o with Some a => Value a | None => Null end.

(** ** Access *)

Fixpoint json_object_get_value (object : JSON_Object) (name : list Z) : option JSON_Value :=
  match object with
  | [] => None
  | (n, v) :: r => if bool_decide (n = name) then Some v else json_object_get_value r name
  end.
Definition json_value_get_object (v : option JSON_Value) : option JSON_Object :=
  match v with Some (JSONObject l) => Some l | _ => None end.
Definition json_value_get_array (v : option JSON_Value) : option (list JSON_Value) :=
  match v with Some (JSONArray l) => Some l | _ => None end.
Definition json_value_get_string (v : option JSON_Value) : option (list Z) :=
  match v with Some (JSONString s) => Some s | _ => None end.
Definition json_value_get_number (v : option JSON_Value) : number :=
  match v with Some (JSONNumber x) => x | _ => Finite (Dbl 0 0) end.
Definition json_value_get_boolean (v : option JSON_Value) : Z :=
  match v with Some (JSONBoolean b) => b2z b | _ => -1 end.
Definition json_object_get_string (object : JSON_Object) (name : list Z) : option (list Z) :=
  json_value_get_string (json_object_get_value object name).
Definition json_object_get_object (object : option JSON_Object) (name : list Z) : option JSON_Object :=
  match object with
  | None => None
  | Some object => json_value_get_object (json_object_get_value object name)
  end.
Definition json_object_get_boolean (object : JSON_Object) (name : list Z) : Z :=
  json_value_get_boolean (json_object_get_value object name).

(** ** Building *)

(** The capacity of an object or an array after one more element needs room. *)
Definition grow (max capacity count : Z) : option Z :=
  if capacity <=? count then
    let new_capacity := Z.max (capacity * 2) STARTING_CAPACITY in
    if max <? new_capacity then None else Some new_capacity
  else Some capacity.
Definition json_object_add (capacity : Z) (object : JSON_Object) (name : list Z) (value : JSON_Value)
  : option (Z * JSON_Object) :=
  capacity ← grow OBJECT_MAX_CAPACITY capacity (Z.of_nat (List.length object));
  match json_object_get_value object name with
  | Some _ => None
  | None => Some (capacity, object ++ [(name, value)])
  end.
Definition json_array_add (capacity : Z) (array : list JSON_Value) (value : JSON_Value)
  : option (Z * list JSON_Value) :=
  capacity ← grow ARRAY_MAX_CAPACITY capacity (Z.of_nat (List.length array));
  Some (capacity, array ++ [value]).

(** ** Characters *)

Definition isspace (c : Z) : bool := (c =? 32) || (9 <=? c) && (c <=? 13).
Definition isdigit (c : Z) : bool := (48 <=? c) && (c <=? 57).
Fixpoint skip_whitespaces (s : list Z) : list Z :=
  match s with
  | c :: r => if isspace c then skip_whitespaces r else s
  | [] => []
  end.
(** The text after [c], when it starts with [c]. *)
Definition after (c : Z) (s : list Z) : option (list Z) :=
  match s with x :: r => if x =? c then Some r else None | [] => None end.
(** The text after a token, when it starts with it ([strncmp]). *)
Fixpoint after_token (t s : list Z) : option (list Z) :=
  match t with
  | [] => Some s
  | c :: t => r ← after c s; after_token t r
  end.

(** ** Comments *)

(** [strstr]: the text before the token, and from it on. *)
Fixpoint strstr (t s : list Z) : option (list Z * list Z) :=
  match after_token t s with
  | Some _ => Some ([], s)
  | None => match s with
            | [] => None
            | c :: r => '(b, e) ← strstr t r; Some (c :: b, e)
            end
  end.
Definition blanks {A} (l : list A) : list Z := map (λ _, 32) l.

(** The loop; each turn goes forward in the text. *)
Fixpoint remove_comments (fuel : nat) (start_token end_token : list Z) (in_string escaped : bool) (s : list Z)
  : list Z :=
  match fuel, s with
  | S fuel, c :: r =>
    if (c =? 92) && negb escaped then c :: remove_comments fuel start_token end_token in_string true r
    else if (c =? 34) && negb escaped then c :: remove_comments fuel start_token end_token (negb in_string) false r
    else match (if in_string then None else after_token start_token s) with
    | Some body =>
      match strstr end_token body with
      | None => blanks start_token ++ body
      | Some (b, e) =>
        blanks start_token ++ blanks b ++ blanks end_token ++
        remove_comments fuel start_token end_token in_string false (drop (List.length end_token) e)
      end
    | None => c :: remove_comments fuel start_token end_token in_string false r
    end
  | _, _ => s
  end.

(** ** Strings *)

Fixpoint skip_quotes_loop (s : list Z) : list Z :=
  match s with
  | [] => []
  | c :: r =>
    if c =? 34 then r
    else if c =? 92 then match r with [] => [] | _ :: r => skip_quotes_loop r end
    else skip_quotes_loop r
  end.
Definition skip_quotes (s : list Z) : list Z := skip_quotes_loop (drop 1 s).

Definition xdigit (c : Z) : option Z :=
  if isdigit c then Some (c - 48)
  else if (65 <=? c) && (c <=? 70) then Some (c - 55)
  else if (97 <=? c) && (c <=? 102) then Some (c - 87)
  else None.
(** Four hexadecimal digits and the text after them. *)
Definition utf16_hex (s : list Z) : option (Z * list Z) :=
  match s with
  | a :: b :: c :: d :: r =>
    a ← xdigit a; b ← xdigit b; c ← xdigit c; d ← xdigit d; Some (a * 4096 + b * 256 + c * 16 + d, r)
  | _ => None
  end.
(** [0x80 | bits k to k + 5] of a code point: a byte of its UTF-8 form. *)
Definition utf8_cont (cp k : Z) : Z := Z.lor (Z.land (Z.shiftr cp k) 0x3F) 0x80.
(** After the ["u"] of an escape: the bytes stored, and the text after it. *)
Definition parse_utf_16 (s : list Z) : option (list Z * list Z) :=
  '(cp, r) ← utf16_hex s;
  if cp <? 0x80 then Some ([cp], r)
  else if cp <? 0x800 then Some ([Z.lor (Z.land (Z.shiftr cp 6) 0x1F) 0xC0; utf8_cont cp 0], r)
  else if (cp <? 0xD800) || (0xDFFF <? cp) then
    Some ([Z.lor (Z.land (Z.shiftr cp 12) 0x0F) 0xE0; utf8_cont cp 6; utf8_cont cp 0], r)
  else if (0xD800 <=? cp) && (cp <=? 0xDBFF) then
    r ← after_token [92; 117] r;
    '(trail, r) ← utf16_hex r;
    if (trail <? 0xDC00) || (0xDFFF <? trail) then None
    else
      let cp := Z.lor (Z.shiftl (Z.land (cp - 0xD800) 0x3FF) 10) (Z.land (trail - 0xDC00) 0x3FF) + 0x010000 in
      Some ([Z.lor (Z.land (Z.shiftr cp 18) 0x07) 0xF0; utf8_cont cp 12; utf8_cont cp 6; utf8_cont cp 0], r)
  else None.

(** The character an escape of one letter stands for. *)
Definition unescape (c : Z) : option Z :=
  if (c =? 34) || (c =? 92) || (c =? 47) then Some c
  else if c =? 98 then Some 8
  else if c =? 102 then Some 12
  else if c =? 110 then Some 10
  else if c =? 114 then Some 13
  else if c =? 116 then Some 9
  else None.
(** The loop over the text between the quotes; each turn goes forward in it. *)
Fixpoint process_chars (fuel : nat) (s : list Z) : option (list Z) :=
  match fuel, s with
  | S fuel, c :: r =>
    if c =? 92 then
      match r with
      | [] => None
      | e :: r =>
        if e =? 117 then
          '(out, r) ← parse_utf_16 r; rest ← process_chars fuel r; Some (out ++ rest)
        else
          e ← unescape e; rest ← process_chars fuel r; Some (e :: rest)
      end
    else if c <? 0x20 then None
    else rest ← process_chars fuel r; Some (c :: rest)
  | _, _ => Some []
  end.
(** An escaped NUL ends the C string. *)
Definition process_string (s : list Z) : option (list Z) := c_string <$> process_chars (List.length s) s.

(** The contents of a string, which starts at the first character whatever that
    is, and the text after it. *)
Definition get_quoted_string (s : list Z) : option (list Z) * list Z :=
  let r := skip_quotes s in
  match r with
  | [] => (None, [])
  | _ => (process_string (take (List.length s - List.length r - 2) (drop 1 s)), r)
  end.

(** ** Numbers *)

(** The digits a text starts with, and the rest. *)
Fixpoint span (p : Z → bool) (s : list Z) : list Z * list Z :=
  match s with
  | c :: r => if p c then let '(a, b) := span p r in (c :: a, b) else ([], s)
  | [] => ([], [])
  end.
Definition decimal (l : list Z) : Z := foldl (λ a c, 10 * a + (c - 48)) 0 l.
Definition tolower (c : Z) : Z := if (65 <=? c) && (c <=? 90) then c + 32 else c.
Definition is_word (c : Z) : bool := isdigit c || (97 <=? tolower c) && (tolower c <=? 122) || (c =? 95).

(** The value [m * 10^e]; beyond the largest double it is infinite. *)
Definition decimal_value (m e : Z) : number :=
  let x := rnd (m * 10 ^ Z.max 0 e) (10 ^ Z.max 0 (- e)) in
  if 2 ^ 1024 * den x <=? Z.abs (num x) then NotFinite else Finite x.
(** The exponent at the start of the text. *)
Definition exponent (s : list Z) : Z * list Z :=
  match s with
  | e :: r =>
    if tolower e =? 101 then
      let '(sign, r) := match r with
                        | c :: r' => if c =? 45 then (-1, r') else if c =? 43 then (1, r') else (1, r)
                        | [] => (1, r)
                        end in
      match span isdigit r with ([], _) => (0, s) | (d, r) => (sign * decimal d, r) end
    else (0, s)
  | [] => (0, s)
  end.
(** A decimal number without its sign: the value, and the text after it. *)
Definition strtod_decimal (sign : Z) (s : list Z) : option (number * list Z) :=
  let '(i, r) := span isdigit s in
  let '(f, r) := match after 46 r with Some r' => span isdigit r' | None => ([], r) end in
  match i ++ f with
  | [] => None
  | d => let '(e, r) := exponent r in Some (decimal_value (sign * decimal d) (e - Z.of_nat (List.length f)), r)
  end.
(** The text after a word, in any case. *)
Definition skip_word (t : string) (s : list Z) : option (list Z) :=
  match after_token (bytes_of_string t) (map tolower s) with Some _ => Some (drop (String.length t) s) | None => None end.
(** The names of the values that are not finite. *)
Definition strtod_name (s : list Z) : option (number * list Z) :=
  match skip_word "infinity" s, skip_word "inf" s, skip_word "nan" s with
  | Some r, _, _ | None, Some r, _ => Some (NotFinite, r)
  | None, None, Some r =>
    Some (NotFinite,
      match after 40 r with
      | Some r' => match after 41 (snd (span is_word r')) with Some r'' => r'' | None => r end
      | None => r
      end)
  | None, None, None => None
  end.
(** [strtod] on a text that starts with a digit or a minus sign and not with a
    hexadecimal number: the value, and the text after it, which is the whole
    text when there is no number. *)
Definition strtod (s : list Z) : number * list Z :=
  let '(sign, r) := match after 45 s with Some r => (-1, r) | None => (1, s) end in
  match strtod_name r with
  | Some v => v
  | None => match strtod_decimal sign r with Some v => v | None => (Finite (Dbl 0 0), s) end
  end.
(** A hexadecimal number follows the sign. *)
Definition is_hex (s : list Z) : bool :=
  match (match after 45 s with Some r => r | None => s end) with
  | z :: x :: r =>
    (z =? 48) && (tolower x =? 120) &&
    match (match after 46 r with Some r' => r' | None => r end) with
    | d :: _ => bool_decide (is_Some (xdigit d))
    | [] => false
    end
  | _ => false
  end.

(** The text of a number is accepted. *)
Definition is_decimal (string : list Z) : bool :=
  match string with
  | a :: b :: r =>
    negb ((a =? 48) && negb (b =? 46)) &&
    negb ((a =? 45) && (b =? 48) && match r with c :: _ => negb (c =? 46) | [] => false end)
  | _ => true
  end && forallb (λ c, negb ((c =? 120) || (c =? 88))) string.
(** A hexadecimal number has an [x], which [is_decimal] refuses. *)
Definition parse_number_value (s : list Z) : option (JSON_Value * list Z) :=
  if is_hex s then None
  else
    let '(x, r) := strtod s in
    if is_decimal (take (List.length s - List.length r) s) then Some (JSONNumber x, r) else None.

(** ** The parser *)

Definition parse_boolean_value (s : list Z) : option (JSON_Value * list Z) :=
  match after_token (bytes_of_string "true") s with
  | Some r => Some (JSONBoolean true, r)
  | None => r ← after_token (bytes_of_string "false") s; Some (JSONBoolean false, r)
  end.
Definition parse_null_value (s : list Z) : option (JSON_Value * list Z) :=
  r ← after_token (bytes_of_string "null") s; Some (JSONNull, r).
Definition parse_string_value (s : list Z) : option (JSON_Value * list Z) :=
  let '(str, r) := get_quoted_string s in str ← str; Some (JSONString str, r).

(** [parse_members] and [parse_elements] are the loops of the functions for
    objects and arrays, at their start or after a comma. *)
Fixpoint parse_value (fuel : nat) (nesting : Z) (s : list Z) : parsed (JSON_Value * list Z) :=
  match fuel with
  | O => NoFuel
  | S fuel =>
    if MAX_NESTING <? nesting then Null
    else
      let s := skip_whitespaces s in
      match s with
      | [] => Null
      | c :: r =>
        if c =? 123 then
          let r := skip_whitespaces r in
          match after 125 r with
          | Some r => Value (JSONObject [], r)
          | None => parse_members fuel (nesting + 1) r 0 []
          end
        else if c =? 91 then
          let r := skip_whitespaces r in
          match after 93 r with
          | Some r => Value (JSONArray [], r)
          | None => parse_elements fuel (nesting + 1) r 0 []
          end
        else if c =? 34 then not_null (parse_string_value s)
        else if (c =? 102) || (c =? 116) then not_null (parse_boolean_value s)
        else if (c =? 45) || isdigit c then not_null (parse_number_value s)
        else if c =? 110 then not_null (parse_null_value s)
        else Null
      end
  end
with parse_members (fuel : nat) (nesting : Z) (s : list Z) (capacity : Z) (object : JSON_Object)
  : parsed (JSON_Value * list Z) :=
  match fuel with
  | O => NoFuel
  | S fuel =>
    match s with
    | [] => Null
    | _ =>
      let '(new_key, r) := get_quoted_string s in
      new_key ← not_null new_key;
      r ← not_null (after 58 (skip_whitespaces r));
      '(new_value, r) ← parse_value fuel nesting r;
      '(capacity, object) ← not_null (json_object_add capacity object new_key new_value);
      let r := skip_whitespaces r in
      match after 44 r with
      | Some r => parse_members fuel nesting (skip_whitespaces r) capacity object
      | None => r ← not_null (after 125 r); Value (JSONObject object, r)
      end
    end
  end
with parse_elements (fuel : nat) (nesting : Z) (s : list Z) (capacity : Z) (array : list JSON_Value)
  : parsed (JSON_Value * list Z) :=
  match fuel with
  | O => NoFuel
  | S fuel =>
    match s with
    | [] => Null
    | _ =>
      '(new_value, r) ← parse_value fuel nesting s;
      '(capacity, array) ← not_null (json_array_add capacity array new_value);
      let r := skip_whitespaces r in
      match after 44 r with
      | Some r => parse_elements fuel nesting (skip_whitespaces r) capacity array
      | None => r ← not_null (after 93 r); Value (JSONArray array, r)
      end
    end
  end.

(** A text that starts with an object or an array; what follows it is ignored.
    Of two nested calls one is on a shorter text. *)
Definition parse_root (s : list Z) : parsed JSON_Value :=
  let s := skip_whitespaces s in
  match s with
  | c :: _ =>
    if (c =? 123) || (c =? 91) then '(v, _) ← parse_value (S (2 * List.length s)) 0 s; Value v else Null
  | [] => Null
  end.
Definition json_parse_string (text : option (list Z)) : parsed JSON_Value :=
  match text with None => Null | Some s => parse_root s end.
Definition json_parse_string_with_comments (text : list Z) : parsed JSON_Value :=
  let clean (start_token end_token s : list Z) :=
    remove_comments (List.length s) start_token end_token false false s in
  parse_root (clean (bytes_of_string "//") [10] (clean (bytes_of_string "/*") (bytes_of_string "*/") text)).

(** ** The serializer *)

(** ["%d"] of [printf]; an [int] has at most ten digits. *)
Fixpoint digits (n : nat) (z : Z) : list Z :=
  match n with
  | O => []
  | S n => if z <? 10 then [48 + z] else digits n (z / 10) ++ [48 + z mod 10]
  end.
Definition print_d (z : Z) : list Z := if z <? 0 then 45 :: digits 10 (- z) else digits 10 z.
(** [n] digits, with leading zeros. *)
Fixpoint padded (n : nat) (z : Z) : list Z :=
  match n with
  | O => []
  | S n => padded n (z / 10) ++ [48 + z mod 10]
  end.
(** ["%f"] of a number that fits an [int]: six decimals of the exact value,
    rounded to nearest, ties to even. *)
Definition print_f (x : double) : list Z :=
  let z := rne (Z.abs (num x) * 1000000) (den x) in
  (if num x <? 0 then [45] else []) ++ digits 10 (z / 1000000) ++ [46] ++ padded 6 (z mod 1000000).

Definition escape (c : Z) : list Z :=
  if (c =? 34) || (c =? 92) || (c =? 47) then [92; c]
  else if c =? 8 then [92; 98]
  else if c =? 12 then [92; 102]
  else if c =? 10 then [92; 110]
  else if c =? 13 then [92; 114]
  else if c =? 9 then [92; 116]
  else [c].
Definition json_serialize_string (s : list Z) : list Z := [34] ++ concat (map escape s) ++ [34].
Definition append_indent (level : nat) : list Z := replicate (4 * level) 32.

(** The conversion to [int] of the test is undefined out of its range. *)
Definition serialize_number (x : number) : outcome (list Z) :=
  match x with
  | NotFinite => Undef
  | Finite x =>
    z ← int_ok (dtrunc x);
    Ret (if num x =? z * den x then print_d z else print_f x)
  end.

(** The items of an array or an object of [count] items are written from their
    texts. *)
Fixpoint join (is_pretty : bool) (level : nat) (items : list (list Z)) : list Z :=
  match items with
  | [] => []
  | t :: r =>
    (if is_pretty then append_indent (S level) else []) ++ t ++
    match r with [] => [] | _ => [44] end ++ (if is_pretty then [10] else []) ++ join is_pretty level r
  end.
Definition brackets (is_pretty : bool) (level : nat) (l r : Z) (items : list (list Z)) : list Z :=
  let line := match items with [] => false | _ => is_pretty end in
  [l] ++ (if line then [10] else []) ++ join is_pretty level items ++ (if line then append_indent level else []) ++ [r].

(** The names of an object are distinct, so that looking a value up by its name
    gives the value at its index. *)
Fixpoint json_serialize (is_pretty : bool) (level : nat) (value : JSON_Value) : outcome (list Z) :=
  match value with
  | JSONArray l =>
    items ← (fix go l := match l with
                         | [] => Ret []
                         | v :: l => t ← json_serialize is_pretty (S level) v; r ← go l; Ret (t :: r)
                         end) l;
    Ret (brackets is_pretty level 91 93 items)
  | JSONObject l =>
    items ← (fix go l := match l with
                         | [] => Ret []
                         | (key, v) :: l =>
                           t ← json_serialize is_pretty (S level) v; r ← go l;
                           Ret ((json_serialize_string key ++ [58] ++ (if is_pretty then [32] else []) ++ t) :: r)
                         end) l;
    Ret (brackets is_pretty level 123 125 items)
  | JSONString s => Ret (json_serialize_string s)
  | JSONBoolean b => Ret (bytes_of_string (if b then "true" else "false"))
  | JSONNumber x => serialize_number x
  | JSONNull => Ret (bytes_of_string "null")
  end.
Definition json_serialize_to_string (is_pretty : bool) (value : JSON_Value) : outcome (list Z) :=
  json_serialize is_pretty 0 value.
