(* ===== verification/JsonNum.v ===== *)
(** * Numbers in JSON

    What the serializer writes for a number is what the parser reads as that
    number: integers, and numbers with at most six decimals. *)
From Stdlib Require Import ZArith Lia.
From stdpp Require Import base list numbers.
From S2P Require Import Prelude Binary64 Json.

Open Scope Z_scope.
Open Scope list_scope.

(** ** The double nearest to a fraction *)

Lemma rne_scale n d k : 0 < d → 0 < k → rne (n * k) (d * k) = rne n d.
Proof.
  intros Hd Hk. unfold rne. rewrite Z.div_mul_cancel_r, Z.mul_mod_distr_r by lia. set (r := n mod d). cbv zeta.
  replace (2 * (r * k) <? d * k) with (2 * r <? d).
  2:{ destruct (Z.ltb_spec (2 * r) d), (Z.ltb_spec (2 * (r * k)) (d * k)); nia. }
  replace (d * k <? 2 * (r * k)) with (d <? 2 * r).
  2:{ destruct (Z.ltb_spec d (2 * r)), (Z.ltb_spec (d * k) (2 * (r * k))); nia. }
  done.
Qed.
Lemma rne_close n d q : 0 < d → 2 * Z.abs (n - q * d) < d → rne n d = q.
Proof. intros Hd H. pose proof (rne_err n d Hd). nia. Qed.
Lemma scale_upper p n d :
  0 <= p → n ≠ 0 → 0 < d →
  Z.abs n * 2 ^ Z.max 0 (scale p n d) < d * 2 ^ Z.max 0 (- scale p n d) * 2 ^ (p + 1).
Proof.
  intros Hp Hn Hd. unfold scale. set (s := p - _).
  rewrite (Z.pow_add_r 2 p 1) by lia. change (2 ^ 1) with 2.
  destruct (Z.ltb_spec (Z.abs n * 2 ^ Z.max 0 s) (d * 2 ^ Z.max 0 (- s) * 2 ^ p)) as [H|_].
  - destruct (decide (0 <= s)).
    + replace (Z.max 0 (s + 1)) with (Z.max 0 s + 1) by lia. replace (Z.max 0 (- (s + 1))) with (Z.max 0 (- s)) by lia.
      rewrite Z.pow_add_r by lia. change (2 ^ 1) with 2. lia.
    + replace (Z.max 0 (s + 1)) with (Z.max 0 s) by lia. replace (Z.max 0 (- s)) with (Z.max 0 (- (s + 1)) + 1) in H by lia.
      rewrite Z.pow_add_r in H by lia. change (2 ^ 1) with 2 in H. lia.
  - pose proof (Z.log2_spec (Z.abs n)) as [_ Hu]; [lia|]. pose proof (Z.log2_spec d) as [Hl _]; [lia|].
    pose proof (Z.log2_nonneg (Z.abs n)). pose proof (Z.log2_nonneg d).
    apply Z.lt_le_trans with (2 ^ Z.succ (Z.log2 (Z.abs n)) * 2 ^ Z.max 0 s); [apply Z.mul_lt_mono_pos_r; lia|].
    transitivity (2 ^ Z.log2 d * 2 ^ Z.max 0 (- s) * (2 ^ p * 2)); [|nia].
    change 2 with (2 ^ 1) at 6. rewrite <- !Z.pow_add_r by lia. apply Z.pow_le_mono_r; lia.
Qed.
(** The rounding depends on the fraction and not on how it is written. *)
Lemma scale_ratio p n d n' d' :
  0 <= p → n ≠ 0 → n' ≠ 0 → 0 < d → 0 < d' → Z.abs n * d' = Z.abs n' * d → scale p n d <= scale p n' d'.
Proof.
  intros Hp Hn Hn' Hd Hd' E. pose proof (scale_bound p n' d' Hp Hn' Hd') as L. pose proof (scale_upper p n d Hp Hn Hd) as U.
  set (s := scale p n d) in *. set (s' := scale p n' d') in *.
  assert (H : 2 ^ (Z.max 0 (- s') + Z.max 0 s) < 2 ^ (Z.max 0 (- s) + 1 + Z.max 0 s')).
  2:{ apply Z.pow_lt_mono_r_iff in H; lia. }
  rewrite (Z.pow_add_r 2 p 1) in U by lia. rewrite !Z.pow_add_r by lia. change (2 ^ 1) with 2 in *.
  set (a := 2 ^ Z.max 0 s) in *. set (b := 2 ^ Z.max 0 (- s)) in *. set (a' := 2 ^ Z.max 0 s') in *.
  set (b' := 2 ^ Z.max 0 (- s')) in *. set (P := 2 ^ p) in *.
  assert (0 < a ∧ 0 < b ∧ 0 < a' ∧ 0 < b' ∧ 0 < P) as (? & ? & ? & ? & ?) by (subst a b a' b' P; lia).
  apply Z.mul_lt_mono_pos_r with (d * d' * P); [nia|].
  apply Z.le_lt_trans with (Z.abs n' * a' * (d * a)); [replace (b' * a * (d * d' * P)) with (d' * b' * P * (d * a)) by ring; nia|].
  replace (Z.abs n' * a' * (d * a)) with (Z.abs n * a * (d' * a')) by nia.
  replace (b * 2 * a' * (d * d' * P)) with (d * b * (P * 2) * (d' * a')) by ring.
  apply Z.mul_lt_mono_pos_r; [nia|done].
Qed.
Lemma rnd_ratio n d n' d' : 0 < d → 0 < d' → n * d' = n' * d → rnd n d = rnd n' d'.
Proof.
  intros Hd Hd' E. unfold rnd, round_to. destruct (Z.eqb_spec n 0) as [->|Hn].
  { assert (n' = 0) as -> by nia. done. }
  rewrite (proj2 (Z.eqb_neq n' 0)) by nia.
  assert (EA : Z.abs n * d' = Z.abs n' * d) by (rewrite <- (Z.abs_eq d), <- (Z.abs_eq d'), <- !Z.abs_mul by lia; by rewrite E).
  assert (scale 52 n d = scale 52 n' d') as ->.
  { apply Z.le_antisymm; apply scale_ratio; lia || nia. }
  cbv zeta. f_equal. set (s := scale 52 n' d'). set (a := 2 ^ Z.max 0 s). set (b := 2 ^ Z.max 0 (- s)).
  assert (0 < a) by (subst a; lia). assert (0 < b) by (subst b; lia).
  rewrite <- (rne_scale (n * a) (d * b) d'), <- (rne_scale (n' * a) (d' * b) d) by nia. f_equal; nia.
Qed.

(** ** Digits *)

(** What follows a value inside of an array or an object. *)
Definition delimited (r : list Z) : Prop := ∃ c q, r = c :: q ∧ (c = 44 ∨ c = 125 ∨ c = 93 ∨ c = 10).

Lemma decimal_snoc l c : decimal (l ++ [c]) = 10 * decimal l + (c - 48).
Proof. unfold decimal. by rewrite foldl_app. Qed.
Lemma isdigit_iff c : isdigit c = true ↔ 48 <= c <= 57.
Proof. unfold isdigit. rewrite andb_true_iff, !Z.leb_le. done. Qed.
Lemma digits_spec n z :
  0 <= z < 10 ^ (Z.of_nat n + 1) →
  ∃ d r, digits (S n) z = d :: r ∧ Forall (λ c, isdigit c = true) (d :: r) ∧ decimal (d :: r) = z ∧
    (d = 48 → z = 0 ∧ r = []).
Proof.
  revert z. induction n as [|n IH]; intros z Hz.
  - change (10 ^ _) with 10 in Hz. cbn [digits]. rewrite (proj2 (Z.ltb_lt _ _)) by lia.
    exists (48 + z), []. split_and!; [done| |unfold decimal; cbn; lia|intros; split; [lia|done]].
    constructor; [apply isdigit_iff; lia|done].
  - set (m := S n) in *. cbn [digits]. destruct (Z.ltb_spec z 10).
    + exists (48 + z), []. split_and!; [done| |unfold decimal; cbn; lia|intros; split; [lia|done]].
      constructor; [apply isdigit_iff; lia|done].
    + replace (Z.of_nat m + 1) with (Z.succ (Z.of_nat n + 1)) in Hz by lia. rewrite Z.pow_succ_r in Hz by lia.
      destruct (IH (z / 10)) as (d & r & E & Hd & Hv & Hz0).
      { split; [apply Z.div_pos; lia|]. apply Z.div_lt_upper_bound; lia. }
      rewrite E. exists d, (r ++ [48 + z mod 10]). pose proof (Z.mod_pos_bound z 10 ltac:(lia)). split_and!; [done| | |].
      * change (d :: r ++ [48 + z mod 10]) with ((d :: r) ++ [48 + z mod 10]). apply Forall_app. split; [done|].
        constructor; [apply isdigit_iff; lia|done].
      * change (d :: r ++ [48 + z mod 10]) with ((d :: r) ++ [48 + z mod 10]). rewrite decimal_snoc, Hv.
        pose proof (Z.div_mod z 10). lia.
      * intros Hd0. destruct (Hz0 Hd0) as [Hq _]. pose proof (Z.div_mod z 10). lia.
Qed.
Lemma span_all p l r :
  Forall (λ c, p c = true) l → (∀ c q, r = c :: q → p c = false) → span p (l ++ r) = (l, r).
Proof.
  intros Hl Hr. induction Hl as [|c l Hc Hl IH]; cbn.
  - destruct r as [|c q]; [done|]. cbn. by rewrite (Hr c q).
  - by rewrite Hc, IH.
Qed.
Lemma delimited_not_digit r : delimited r → ∀ c q, r = c :: q → isdigit c = false.
Proof. intros (c & q & -> & H) ? ? [= <- <-]. apply not_true_is_false. rewrite isdigit_iff. lia. Qed.
Lemma strtod_name_digit d r : isdigit d = true → strtod_name (d :: r) = None.
Proof.
  intros Hd%isdigit_iff. unfold strtod_name, skip_word. cbn [map].
  assert (tolower d = d) as -> by (unfold tolower; rewrite (proj2 (Z.leb_gt 65 d)) by lia; done).
  unfold bytes_of_string. cbn. rewrite !(proj2 (Z.eqb_neq _ _)) by lia. done.
Qed.
(** The text of a number: a sign, digits, and digits after a point. *)
Definition number_text (sign d : Z) (r f : list Z) : list Z :=
  (if sign <? 0 then [45] else []) ++ d :: r ++ match f with [] => [] | _ => 46 :: f end.
Definition all_digits (l : list Z) : Prop := Forall (λ c, isdigit c = true) l.

Lemma tolower_mark c x : 97 <= x <= 122 → c = 44 ∨ c = 125 ∨ c = 93 ∨ c = 10 ∨ c = 46 → (tolower c =? x) = false.
Proof.
  intros Hx Hc. apply Z.eqb_neq. destruct Hc as [-> |[-> |[-> |[-> | ->]]]]; cbn; lia.
Qed.
(** [strtod] on the digits, after the sign. *)
Lemma strtod_decimal_text sign d r f q :
  all_digits (d :: r) → all_digits f → delimited q →
  strtod_decimal sign (d :: (r ++ match f with [] => [] | _ => 46 :: f end) ++ q) =
    Some (decimal_value (sign * decimal (d :: r ++ f)) (- Z.of_nat (length f)), q).
Proof.
  intros Hd Hf Hq. unfold strtod_decimal. assert (He : exponent q = (0, q)).
  { destruct Hq as (c & q' & -> & Hc). unfold exponent. by rewrite (tolower_mark c 101) by lia. }
  destruct f as [|e f].
  - rewrite app_nil_r. change (d :: r ++ q) with ((d :: r) ++ q). rewrite span_all by (done || by apply delimited_not_digit).
    assert (after 46 q = None) as ->.
    { destruct Hq as (c & q' & -> & Hc). cbn [after]. by rewrite (proj2 (Z.eqb_neq c 46)) by lia. }
    rewrite !app_nil_r, He. done.
  - rewrite <- app_assoc. change (d :: r ++ (46 :: e :: f) ++ q) with ((d :: r) ++ 46 :: (e :: f) ++ q).
    rewrite span_all; [|done|by intros ? ? [= <- _]]. cbn [app after]. rewrite Z.eqb_refl.
    change (e :: f ++ q) with ((e :: f) ++ q). rewrite span_all by (done || by apply delimited_not_digit).
    cbn [app]. by rewrite He.
Qed.
Lemma digits_no_x l : all_digits l → forallb (λ c, negb ((c =? 120) || (c =? 88))) l = true.
Proof.
  intros H. apply forallb_forall. intros c Hc. unfold all_digits in H. rewrite List.Forall_forall in H.
  specialize (H c Hc). apply isdigit_iff in H. rewrite !(proj2 (Z.eqb_neq _ _)) by lia. done.
Qed.
Lemma number_text_read sign d r f q :
  sign = 1 ∨ sign = -1 → all_digits (d :: r) → all_digits f → (d = 48 → r = []) → delimited q →
  parse_number_value (number_text sign d r f ++ q) =
    Some (JSONNumber (decimal_value (sign * decimal (d :: r ++ f)) (- Z.of_nat (length f))), q).
Proof.
  intros Hsign Hd Hf H0 Hq. pose proof (Forall_inv Hd) as Hd0. cbn beta in Hd0. pose proof Hd0 as Hdb%isdigit_iff.
  set (tail := match f with [] => [] | _ => 46 :: f end).
  assert (Hm : ∃ c q', tail ++ q = c :: q' ∧ (c = 44 ∨ c = 125 ∨ c = 93 ∨ c = 10 ∨ c = 46)).
  { subst tail. destruct f; [|eexists _, _; split; [done|lia]]. destruct Hq as (c & q' & -> & ?).
    eexists _, _. split; [done|lia]. }
  assert (Hs : strtod (number_text sign d r f ++ q) =
    (decimal_value (sign * decimal (d :: r ++ f)) (- Z.of_nat (length f)), q)).
  { unfold strtod, number_text. destruct Hsign as [-> | ->]; cbn [Z.ltb Z.compare app after].
    - rewrite (proj2 (Z.eqb_neq d 45)) by lia. rewrite strtod_name_digit by done. by rewrite strtod_decimal_text.
    - rewrite Z.eqb_refl, strtod_name_digit by done. by rewrite strtod_decimal_text. }
  assert (Hx : is_hex (number_text sign d r f ++ q) = false).
  { unfold is_hex, number_text. fold tail.
    assert (E : (match d :: (r ++ tail) ++ q with
      | z :: x :: r => (z =? 48) && (tolower x =? 120) &&
        match (match after 46 r with Some r' => r' | None => r end) with
        | d :: _ => bool_decide (is_Some (xdigit d)) | [] => false end
      | _ => false end) = false).
    { destruct (Z.eqb_spec d 48) as [E|E]; [|by destruct ((r ++ tail) ++ q)].
      rewrite (H0 E). cbn [app]. destruct Hm as (c & q' & -> & Hc). by rewrite (tolower_mark c 120) by lia. }
    destruct Hsign as [-> | ->]; cbn [Z.ltb Z.compare app after].
    - rewrite (proj2 (Z.eqb_neq d 45)) by lia. exact E.
    - rewrite Z.eqb_refl. exact E. }
  unfold parse_number_value. rewrite Hx, Hs. rewrite length_app, Nat.add_sub, take_app_length.
  assert (Hdec : is_decimal (number_text sign d r f) = true); [|by rewrite Hdec].
  assert (Hall : forallb (λ c, negb ((c =? 120) || (c =? 88))) (d :: r ++ tail) = true).
  { change (d :: r ++ tail) with ((d :: r) ++ tail). rewrite forallb_app, digits_no_x by done. subst tail.
    destruct f; [done|]. exact (digits_no_x _ Hf). }
  unfold is_decimal, number_text. fold tail. apply andb_true_iff.
  destruct Hsign as [-> | ->]; cbn [Z.ltb Z.compare app]; (split; [|exact Hall]).
  - destruct (r ++ tail) as [|b l] eqn:E; [done|]. rewrite (proj2 (Z.eqb_neq d 45)) by lia.
    destruct (Z.eqb_spec d 48) as [E'|E']; [|done]. rewrite (H0 E') in E. subst tail. destruct f; [done|]. by injection E as <- _.
  - cbn [andb negb Z.eqb]. destruct (Z.eqb_spec d 48) as [E'|E']; [|done]. rewrite (H0 E'). subst tail. by destruct f.
Qed.

(** ** Numbers with six decimals *)

Lemma padded_spec n z : 0 <= z → all_digits (padded n z) ∧ length (padded n z) = n ∧
  ∀ l, decimal (l ++ padded n z) = decimal l * 10 ^ Z.of_nat n + z mod 10 ^ Z.of_nat n.
Proof.
  revert z. induction n as [|n IH]; intros z Hz; cbn [padded].
  - split; [constructor|]. split; [done|]. intros l. rewrite app_nil_r, Z.mod_1_r. lia.
  - destruct (IH (z / 10)) as (Hd & HL & Hv); [apply Z.div_pos; lia|]. pose proof (Z.mod_pos_bound z 10 ltac:(lia)).
    split; [|split].
    + apply Forall_app. split; [done|]. constructor; [apply isdigit_iff; lia|done].
    + rewrite length_app, HL. cbn. lia.
    + intros l. rewrite app_assoc, decimal_snoc, Hv.
      replace (Z.of_nat (S n)) with (1 + Z.of_nat n) by lia. rewrite Z.pow_add_r by lia. change (10 ^ 1) with 10.
      assert (0 < 10 ^ Z.of_nat n) by lia. rewrite (Z.rem_mul_r z 10 (10 ^ Z.of_nat n)) by lia. lia.
Qed.
Lemma print_d_text z :
  - 2 ^ 31 <= z < 2 ^ 31 →
  ∃ sign d r, (sign = 1 ∨ sign = -1) ∧ print_d z = number_text sign d r [] ∧ all_digits (d :: r) ∧
    sign * decimal (d :: r) = z ∧ (d = 48 → r = []).
Proof.
  intros Hz. unfold print_d, number_text. destruct (Z.ltb_spec z 0).
  - destruct (digits_spec 9 (- z)) as (d & r & E & Hd & Hv & H0); [change (10 ^ _) with 10000000000; lia|].
    exists (-1), d, r. rewrite E, app_nil_r. split_and!; [by right|done|done|lia|by intros [_ ->]%H0].
  - destruct (digits_spec 9 z) as (d & r & E & Hd & Hv & H0); [change (10 ^ _) with 10000000000; lia|].
    exists 1, d, r. rewrite E, app_nil_r. split_and!; [by left|done|done|lia|by intros [_ ->]%H0].
Qed.

Section SixDecimals.
(** The number [f / 1000000], in the range of an [int]. *)
Context (f : Z) (Hf : Z.abs f < 2 ^ 31 * 1000000).
Let x := rnd f 1000000.
Lemma six_close : 4 * Z.abs (num x * 1000000 - f * den x) < den x.
Proof.
  pose proof (rnd_rel_err f 1000000 ltac:(lia)) as E. fold x in E. pose proof (den_pos x).
  change (2 ^ 53) with (4 * 2 ^ 51) in E. nia.
Qed.
Lemma six_small : Z.abs (num x) < den x * 2 ^ 31.
Proof. pose proof six_close. pose proof (den_pos x). nia. Qed.
Lemma six_value : decimal_value f (- 6) = Finite x.
Proof.
  unfold decimal_value. change (10 ^ Z.max 0 (-6)) with 1. change (10 ^ Z.max 0 (- -6)) with 1000000.
  rewrite Z.mul_1_r. fold x. cbv zeta. rewrite (proj2 (Z.leb_gt _ _)); [done|].
  apply Z.lt_trans with (den x * 2 ^ 31); [apply six_small|]. rewrite Z.mul_comm.
  apply Z.mul_lt_mono_pos_r; [apply den_pos|]. by apply Z.pow_lt_mono_r.
Qed.
Lemma six_int z : num x = z * den x → - 2 ^ 31 <= z < 2 ^ 31 → decimal_value z 0 = Finite x.
Proof.
  intros Ez Hz. pose proof six_close as C. rewrite Ez in C. pose proof (den_pos x).
  assert (f = z * 1000000) as Ef by nia. unfold decimal_value. change (10 ^ Z.max 0 0) with 1.
  change (10 ^ Z.max 0 (- 0)) with 1. rewrite Z.mul_1_r. cbv zeta.
  assert (Ex : rnd z 1 = x) by (unfold x; apply rnd_ratio; lia). rewrite Ex. rewrite (proj2 (Z.leb_gt _ _)); [done|].
  apply Z.lt_trans with (den x * 2 ^ 31); [apply six_small|]. rewrite Z.mul_comm.
  apply Z.mul_lt_mono_pos_r; [done|]. by apply Z.pow_lt_mono_r.
Qed.
Lemma print_f_text :
  ∃ sign d r p, (sign = 1 ∨ sign = -1) ∧ print_f x = number_text sign d r p ∧ all_digits (d :: r) ∧ all_digits p ∧
    length p = 6%nat ∧ sign * decimal (d :: r ++ p) = f ∧ (d = 48 → r = []).
Proof.
  pose proof six_close as C. pose proof (den_pos x) as D. unfold print_f. cbv zeta.
  assert (rne (Z.abs (num x) * 1000000) (den x) = Z.abs f) as ->.
  { apply rne_close; [done|]. nia. }
  destruct (digits_spec 9 (Z.abs f / 1000000)) as (d & r & E & Hd & Hv & H0).
  { change (10 ^ _) with 10000000000. split; [apply Z.div_pos; lia|apply Z.div_lt_upper_bound; lia]. }
  pose proof (Z.mod_pos_bound (Z.abs f) 1000000 ltac:(lia)).
  destruct (padded_spec 6 (Z.abs f mod 1000000)) as (Hp & HL & Hw); [lia|].
  change (10 ^ Z.of_nat 6) with 1000000 in Hw. set (p := padded 6 (Z.abs f mod 1000000)) in *.
  assert (Hval : decimal (d :: r ++ p) = Z.abs f).
  { change (d :: r ++ p) with ((d :: r) ++ p). rewrite Hw, Hv, Zmod_mod. pose proof (Z.div_mod (Z.abs f) 1000000). lia. }
  exists (if num x <? 0 then -1 else 1), d, r, p. rewrite E. unfold number_text.
  assert (match p with [] => [] | _ => 46 :: p end = 46 :: p) as -> by (clearbody p; by destruct p).
  split_and!; [by destruct (_ <? _); [right|left]| |done|done|done| |by intros [_ ->]%H0].
  - by destruct (num x <? 0); cbn [Z.ltb Z.compare app].
  - rewrite Hval. destruct (Z.ltb_spec (num x) 0); nia.
Qed.
End SixDecimals.

(** The numbers of type [int] with at most six decimals. *)
Definition number_ok (x : number) : Prop := ∃ f, x = Finite (rnd f 1000000) ∧ Z.abs f < 2 ^ 31 * 1000000.
Lemma number_ok_int z : - 2 ^ 31 < z < 2 ^ 31 → number_ok (Finite (dbl_of_Z z)).
Proof. intros Hz. exists (z * 1000000). split; [|lia]. f_equal. apply rnd_ratio; lia. Qed.

Lemma serialize_number_read x :
  number_ok x →
  ∃ sign d r p, (sign = 1 ∨ sign = -1) ∧ serialize_number x = Ret (number_text sign d r p) ∧ all_digits (d :: r) ∧ all_digits p ∧
    ∀ q, delimited q → parse_number_value (number_text sign d r p ++ q) = Some (JSONNumber x, q).
Proof.
  intros (f & -> & Hf). unfold serialize_number. pose proof (six_small f Hf) as S. set (x := rnd f 1000000) in *.
  pose proof (den_pos x). assert (Ht : - 2 ^ 31 <= dtrunc x < 2 ^ 31).
  { assert (Z.abs (dtrunc x) < 2 ^ 31); [|lia]. unfold dtrunc. rewrite <- Z.quot_abs, (Z.abs_eq (den x)) by lia.
    apply Z.quot_lt_upper_bound; lia. }
  assert (int_ok (dtrunc x) = Ret (dtrunc x)) as ->.
  { unfold int_ok. by rewrite (proj2 (Z.leb_le _ _)), (proj2 (Z.ltb_lt _ _)) by lia. }
  cbn [mbind outcome_bind]. destruct (Z.eqb_spec (num x) (dtrunc x * den x)) as [Ez|_].
  - destruct (print_d_text _ Ht) as (sign & d & r & Hs & -> & Hd & Hv & H0). exists sign, d, r, [].
    assert (all_digits []) by constructor. split_and!; [done..|]. intros q Hq. rewrite number_text_read by done. rewrite app_nil_r, Hv. cbn [length].
    change (- Z.of_nat 0) with 0. by rewrite (six_int f Hf (dtrunc x) Ez Ht).
  - destruct (print_f_text f Hf) as (sign & d & r & p & Hs & Ep & Hd & Hp & HL & Hv & H0). exists sign, d, r, p.
    fold x in Ep. rewrite Ep. split_and!; [done..|]. intros q Hq. rewrite number_text_read by done.
    rewrite Hv, HL. change (- Z.of_nat 6) with (-6). by rewrite (six_value f Hf).
Qed.
