(* ===== verification/JsonProps.v ===== *)
(** * Properties of the JSON library

    The parser ends on every text and stays in the text; what it stores of a
    string fits the buffer it allocates; parsing what the serializer writes
    gives the value back. *)
From Stdlib Require Import ZArith Lia.
From stdpp Require Import base list numbers.
From S2P Require Import Prelude Binary64 Json JsonNum.

Open Scope Z_scope.
Open Scope list_scope.

(** ** Reading goes forward *)

(** The rest [r] of a text [s] is shorter. *)
Lemma skip_whitespaces_le s : (length (skip_whitespaces s) <= length s)%nat.
Proof. induction s as [|c r IH]; cbn; [lia|]. destruct (isspace c); cbn; lia. Qed.
Lemma after_lt c s r : after c s = Some r → (length r < length s)%nat.
Proof. destruct s as [|x s]; cbn; [done|]. destruct (x =? c); [|done]. intros [= ->]. lia. Qed.
Lemma after_token_le t s r : after_token t s = Some r → (length r <= length s)%nat.
Proof.
  revert s r. induction t as [|c t IH]; intros s r; cbn; [by intros [= ->]|].
  destruct (after c s) as [s'|] eqn:E; cbn; [|done]. intros H%IH. apply after_lt in E. lia.
Qed.
Lemma skip_quotes_loop_le s : (length (skip_quotes_loop s) <= length s)%nat.
Proof.
  induction s as [s IH] using (induction_ltof1 _ length). unfold ltof in IH. destruct s as [|c r]; cbn; [lia|].
  destruct (c =? 34); [lia|]. destruct (c =? 92).
  - destruct r as [|d r]; cbn; [lia|]. pose proof (IH r). cbn in *. lia.
  - pose proof (IH r). cbn in *. lia.
Qed.
Lemma get_quoted_string_lt s : s ≠ [] → (length (snd (get_quoted_string s)) < length s)%nat.
Proof.
  intros Hs. unfold get_quoted_string, skip_quotes. destruct s as [|c s]; [done|]. change (drop 1 (c :: s)) with s. cbv zeta.
  pose proof (skip_quotes_loop_le s). destruct (skip_quotes_loop s); cbn in *; lia.
Qed.
Lemma span_le p s : (length (snd (span p s)) <= length s)%nat.
Proof.
  induction s as [|c r IH]; cbn; [lia|]. destruct (p c); [|cbn; lia].
  destruct (span p r); cbn in *; lia.
Qed.
Lemma exponent_le s : (length (snd (exponent s)) <= length s)%nat.
Proof.
  unfold exponent. destruct s as [|e r]; [cbn; lia|]. destruct (tolower e =? 101); [|cbn; lia].
  set (p := match r with [] => _ | _ => _ end).
  assert (length (snd p) <= length r)%nat.
  { subst p. destruct r as [|c r]; [cbn; lia|]. destruct (c =? 45); [cbn; lia|]. destruct (c =? 43); cbn; lia. }
  destruct p as [sign q]. cbn [snd] in *. pose proof (span_le isdigit q).
  destruct (span isdigit q) as [[|x d] q']; cbn in *; lia.
Qed.
Lemma strtod_decimal_le sign s x r : strtod_decimal sign s = Some (x, r) → (length r <= length s)%nat.
Proof.
  unfold strtod_decimal. pose proof (span_le isdigit s). destruct (span isdigit s) as [i q]. cbn [snd] in *.
  set (p := match after 46 q with Some _ => _ | None => _ end).
  assert (length (snd p) <= length q)%nat.
  { subst p. destruct (after 46 q) as [q'|] eqn:E; [|cbn; lia]. apply after_lt in E.
    pose proof (span_le isdigit q'). lia. }
  destruct p as [f q']. cbn [snd] in *. destruct (i ++ f); [done|]. pose proof (exponent_le q').
  destruct (exponent q') as [e q'']. cbn [snd] in *. intros [= _ <-]. lia.
Qed.
Lemma skip_word_le t s r : skip_word t s = Some r → (length r <= length s)%nat.
Proof. unfold skip_word. destruct (after_token _ _); [|done]. intros [= <-]. rewrite length_drop. lia. Qed.
Lemma strtod_name_le s x r : strtod_name s = Some (x, r) → (length r <= length s)%nat.
Proof.
  unfold strtod_name. intros H. repeat case_match; simplify_eq;
    repeat match goal with
    | E : skip_word _ _ = Some _ |- _ => apply skip_word_le in E
    | E : after _ _ = Some _ |- _ => apply after_lt in E
    | E : context [span is_word ?q] |- _ => pose proof (span_le is_word q); generalize dependent (span is_word q); intros
    end; lia.
Qed.
Lemma strtod_le s : (length (snd (strtod s)) <= length s)%nat.
Proof.
  unfold strtod. set (p := match after 45 s with Some _ => _ | None => _ end).
  assert (length (snd p) <= length s)%nat.
  { subst p. destruct (after 45 s) eqn:E; cbn; [apply after_lt in E|]; lia. }
  destruct p as [sign q]. cbn [snd] in *. destruct (strtod_name q) as [[x r]|] eqn:E1; cbn [snd].
  { apply strtod_name_le in E1. lia. }
  destruct (strtod_decimal sign q) as [[x r]|] eqn:E2; cbn [snd]; [apply strtod_decimal_le in E2|]; lia.
Qed.

(** A result of a function of the parser on the text [s]. *)
Definition forward {A} (s : list Z) (p : parsed (A * list Z)) : Prop :=
  match p with Value (_, r) => (length r <= length s)%nat | Null => True | NoFuel => False end.
Lemma forward_weaken {A} s s' (p : parsed (A * list Z)) : (length s <= length s')%nat → forward s p → forward s' p.
Proof. destruct p as [[a r]| |]; cbn; lia || done. Qed.
Lemma forward_string s : s ≠ [] → forward s (not_null (parse_string_value s)).
Proof.
  intros H. unfold parse_string_value. pose proof (get_quoted_string_lt s H).
  destruct (get_quoted_string s) as [[str|] r]; cbn in *; lia || done.
Qed.
Lemma forward_boolean s : forward s (not_null (parse_boolean_value s)).
Proof.
  unfold parse_boolean_value. case_match eqn:E; [by apply after_token_le in E|].
  destruct (after_token _ s) as [r|] eqn:E' in |- *; [by apply after_token_le in E'|done].
Qed.
Lemma forward_null s : forward s (not_null (parse_null_value s)).
Proof. unfold parse_null_value. destruct (after_token _ s) eqn:E; [by apply after_token_le in E|done]. Qed.
Lemma forward_number s : forward s (not_null (parse_number_value s)).
Proof.
  unfold parse_number_value. destruct (is_hex s); [done|]. pose proof (strtod_le s).
  destruct (strtod s) as [x r]. cbn [snd] in *. by destruct (is_decimal _).
Qed.

(** After an item: a comma and the next one, or the end of the list. *)
Lemma forward_next {A} (next : list Z → parsed (A * list Z)) v close s r :
  (length r <= length s)%nat →
  (∀ r', (length r' < length r)%nat → forward r' (next r')) →
  forward s match after 44 (skip_whitespaces r) with
            | Some r' => next (skip_whitespaces r')
            | None => r' ← not_null (after close (skip_whitespaces r)); Value (v, r')
            end.
Proof.
  intros Hr Hn. pose proof (skip_whitespaces_le r). destruct (after 44 _) as [r'|] eqn:E.
  - apply after_lt in E. pose proof (skip_whitespaces_le r'). eapply forward_weaken, Hn; lia.
  - destruct (after close _) as [r'|] eqn:E'; cbn; [|done]. apply after_lt in E'. lia.
Qed.
Lemma parser_forward fuel :
  (∀ n s, (2 * length s < fuel)%nat → forward s (parse_value fuel n s)) ∧
  (∀ n s c o, (2 * length s + 1 < fuel)%nat → forward s (parse_members fuel n s c o)) ∧
  (∀ n s c a, (2 * length s + 1 < fuel)%nat → forward s (parse_elements fuel n s c a)).
Proof.
  induction fuel as [|fuel (IHv & IHm & IHe)]; [split_and!; lia|]. split_and!.
  - intros n s Hs. cbn [parse_value]. destruct (MAX_NESTING <? n); [done|].
    pose proof (skip_whitespaces_le s). destruct (skip_whitespaces s) as [|c r] eqn:Es; [done|].
    apply (forward_weaken (c :: r)); [lia|]. cbn [length] in *. pose proof (skip_whitespaces_le r).
    destruct (c =? 123).
    { destruct (after 125 _) eqn:E; [apply after_lt in E; cbn; lia|].
      eapply forward_weaken, IHm; cbn; lia. }
    destruct (c =? 91).
    { destruct (after 93 _) eqn:E; [apply after_lt in E; cbn; lia|].
      eapply forward_weaken, IHe; cbn; lia. }
    destruct (c =? 34); [by apply forward_string|]. destruct (_ || _); [apply forward_boolean|].
    destruct (_ || _); [apply forward_number|]. destruct (c =? 110); [apply forward_null|done].
  - intros n s c o Hs. cbn [parse_members]. destruct s as [|c0 s]; [done|].
    pose proof (get_quoted_string_lt (c0 :: s) ltac:(done)) as Hq.
    destruct (get_quoted_string (c0 :: s)) as [[key|] r]; cbn [snd not_null mbind parsed_bind] in *; [|done].
    pose proof (skip_whitespaces_le r). destruct (after 58 _) as [r1|] eqn:E1; cbn [not_null mbind parsed_bind]; [|done].
    apply after_lt in E1. specialize (IHv n r1 ltac:(lia)).
    destruct (parse_value fuel n r1) as [[v r2]| |]; cbn [mbind parsed_bind forward] in *; [|done|done].
    destruct (json_object_add c o key v) as [[c' o']|]; cbn [not_null mbind parsed_bind forward]; [|done].
    by apply (forward_next (λ r, parse_members fuel n r c' o')); [lia|intros; apply IHm; lia].
  - intros n s c a Hs. cbn [parse_elements]. destruct s as [|c0 s]; [done|].
    specialize (IHv n (c0 :: s) ltac:(cbn [length] in *; lia)).
    destruct (parse_value fuel n _) as [[v r2]| |]; cbn [mbind parsed_bind forward] in *; [|done|done].
    destruct (json_array_add c a v) as [[c' a']|]; cbn [not_null mbind parsed_bind forward]; [|done].
    by apply (forward_next (λ r, parse_elements fuel n r c' a')); [lia|intros; apply IHe; lia].
Qed.

(** ** Enough fuel *)

Lemma strstr_split t s b e : strstr t s = Some (b, e) → s = b ++ e ∧ is_Some (after_token t e).
Proof.
  revert b e. induction s as [|c r IH]; intros b e; cbn [strstr].
  - destruct (after_token t []) eqn:E; [|done]. intros [= <- <-]. by rewrite E.
  - destruct (after_token t (c :: r)) eqn:E; [intros [= <- <-]; by rewrite E|].
    destruct (strstr t r) as [[b' e']|]; cbn; [|done]. intros [= <- <-].
    destruct (IH b' e' eq_refl) as [-> ?]. done.
Qed.
Lemma after_token_length t s r : after_token t s = Some r → s = t ++ r.
Proof.
  revert s. induction t as [|c t IH]; intros s; cbn; [by intros [= ->]|].
  destruct s as [|x s]; cbn; [done|]. destruct (Z.eqb_spec x c) as [->|]; cbn; [|done].
  intros H%IH. by subst.
Qed.

(** A turn of the loop over the comments: the bytes written in place of the
    start of the text, the new state and the rest of the text. *)
Definition comment_turn (st en : list Z) (ins esc : bool) (c : Z) (r : list Z)
  : list Z * option (bool * bool * list Z) :=
  if (c =? 92) && negb esc then ([c], Some (ins, true, r))
  else if (c =? 34) && negb esc then ([c], Some (negb ins, false, r))
  else match (if ins then None else after_token st (c :: r)) with
  | Some body =>
    match strstr en body with
    | None => (blanks st ++ body, None)
    | Some (b, e) => (blanks st ++ blanks b ++ blanks en, Some (ins, false, drop (length en) e))
    end
  | None => ([c], Some (ins, false, r))
  end.
Lemma remove_comments_turn fuel st en ins esc c r :
  remove_comments (S fuel) st en ins esc (c :: r) =
  let '(out, next) := comment_turn st en ins esc c r in
  out ++ match next with Some (i, e, s) => remove_comments fuel st en i e s | None => [] end.
Proof.
  cbn [remove_comments]. unfold comment_turn. destruct (_ && _); [done|]. destruct (_ && _); [done|].
  destruct (if ins then _ else _) as [body|]; [|done]. destruct (strstr en body) as [[b e]|].
  - by rewrite <- !app_assoc.
  - by rewrite app_nil_r.
Qed.
Lemma comment_turn_length st en ins esc c r :
  st ≠ [] →
  let '(out, next) := comment_turn st en ins esc c r in
  (match next with Some (_, _, s) => length out + length s | None => length out end = S (length r) ∧ 1 <= length out)%nat.
Proof.
  intros Hst. unfold comment_turn. destruct (_ && _); [done|]. destruct (_ && _); [done|].
  destruct (if ins then _ else _) as [body|] eqn:E; [|done]. destruct ins; [done|].
  apply after_token_length in E. apply (f_equal length) in E. rewrite length_app in E. cbn [length] in E.
  assert (1 <= length st)%nat by (destruct st; cbn; lia || done).
  destruct (strstr en body) as [[b e]|] eqn:E'.
  - apply strstr_split in E' as [-> [r' Hr]]. apply after_token_length in Hr. subst e.
    rewrite drop_app_length. unfold blanks. rewrite !length_app, !length_map in *. lia.
  - unfold blanks. rewrite length_app, length_map. lia.
Qed.
(** The comments are blanked in place, and the loop ends within as many turns
    as the text has bytes. *)
Lemma remove_comments_ends st en fuel fuel' ins esc s :
  st ≠ [] → (length s <= fuel)%nat → (length s <= fuel')%nat →
  remove_comments fuel st en ins esc s = remove_comments fuel' st en ins esc s ∧
  length (remove_comments fuel st en ins esc s) = length s.
Proof.
  intros Hst. revert fuel' ins esc s. induction fuel as [|fuel IH]; intros fuel' ins esc s H H'.
  { destruct s; [|cbn in *; lia]. by destruct fuel'. }
  destruct s as [|c r]; [by destruct fuel'|]. destruct fuel' as [|fuel']; [cbn in *; lia|].
  rewrite !remove_comments_turn. pose proof (comment_turn_length st en ins esc c r Hst) as HL.
  destruct (comment_turn st en ins esc c r) as [out [[[i e] s]|]]; cbn [length] in *.
  - destruct (IH fuel' i e s) as [E EL]; [lia|lia|]. rewrite <- E, length_app, EL. split; [done|lia].
  - rewrite app_nil_r. split; [done|lia].
Qed.

Lemma utf16_hex_lt s x r : utf16_hex s = Some (x, r) → (length r + 4 = length s)%nat.
Proof.
  destruct s as [|a [|b [|c [|d s]]]]; try done. cbn. destruct (xdigit a), (xdigit b), (xdigit c), (xdigit d); try done.
  cbn. intros [= _ <-]. lia.
Qed.
(** What an escape stores is shorter than the escape. *)
Lemma parse_utf_16_lt s out r : parse_utf_16 s = Some (out, r) → (length out + length r <= length s)%nat.
Proof.
  unfold parse_utf_16. destruct (utf16_hex s) as [[cp q]|] eqn:E; cbn [mbind option_bind]; [|done].
  apply utf16_hex_lt in E. destruct (cp <? 0x80); [intros [= <- <-]; cbn; lia|].
  destruct (cp <? 0x800); [intros [= <- <-]; cbn; lia|]. destruct (_ || _); [intros [= <- <-]; cbn; lia|].
  destruct (_ && _); [|done]. destruct (after_token _ q) as [q1|] eqn:E1; cbn [mbind option_bind]; [|done].
  apply after_token_le in E1. destruct (utf16_hex q1) as [[trail q2]|] eqn:E2; cbn [mbind option_bind]; [|done].
  apply utf16_hex_lt in E2. destruct (_ || _); [done|]. intros [= <- <-]. cbn. lia.
Qed.
Lemma process_chars_ends fuel fuel' s :
  (length s <= fuel)%nat → (length s <= fuel')%nat →
  process_chars fuel s = process_chars fuel' s ∧
  ∀ out, process_chars fuel s = Some out → (length out <= length s)%nat.
Proof.
  revert fuel' s. induction fuel as [|fuel IH]; intros fuel' s H H'.
  { destruct s; [|cbn in *; lia]. split; [by destruct fuel'|]. intros out [= <-]. done. }
  destruct s as [|c r]; [split; [by destruct fuel'|]; by intros out [= <-]|].
  destruct fuel' as [|fuel']; [cbn in *; lia|]. cbn [process_chars length] in *.
  destruct (c =? 92); [destruct r as [|e r]; [done|]; cbn [length] in *; destruct (e =? 117)|].
  - destruct (parse_utf_16 r) as [[o r']|] eqn:E; cbn [mbind option_bind]; [|done].
    apply parse_utf_16_lt in E. destruct (IH fuel' r') as [<- HL]; [lia|lia|]. split; [done|].
    destruct (process_chars fuel r') as [rest|]; cbn [mbind option_bind]; [|done].
    intros out [= <-]. specialize (HL rest eq_refl). rewrite length_app. lia.
  - destruct (unescape e) as [u|]; cbn [mbind option_bind]; [|done]. destruct (IH fuel' r) as [<- HL]; [lia|lia|].
    split; [done|]. destruct (process_chars fuel r) as [rest|]; cbn [mbind option_bind]; [|done].
    intros out [= <-]. specialize (HL rest eq_refl). cbn. lia.
  - destruct (c <? 0x20); [done|]. destruct (IH fuel' r) as [<- HL]; [lia|lia|].
    split; [done|]. destruct (process_chars fuel r) as [rest|]; cbn [mbind option_bind]; [|done].
    intros out [= <-]. specialize (HL rest eq_refl). cbn. lia.
Qed.

Lemma parse_root_ends s : parse_root s ≠ NoFuel.
Proof.
  unfold parse_root. cbv zeta. destruct (skip_whitespaces s) as [|c r]; [done|]. destruct (_ || _); [|done].
  destruct (parser_forward (S (2 * length (c :: r)))) as [H _]. specialize (H 0 (c :: r) ltac:(lia)).
  destruct (parse_value _ 0 _) as [[v q]| |]; cbn in *; done.
Qed.

(** C33. The parser returns on every text: the bound on the nested calls is never
    reached, and for the two loops that are bounded by the length of the text
    (over comments and over the characters of a string) any larger bound gives
    the same result. Comments are blanked in place: the text keeps its length. *)
Theorem json_parse_terminates text :
  json_parse_string (Some text) ≠ NoFuel ∧ json_parse_string_with_comments text ≠ NoFuel ∧
  (∀ start_token end_token n, start_token ≠ [] →
    remove_comments (length text + n) start_token end_token false false text =
      remove_comments (length text) start_token end_token false false text ∧
    length (remove_comments (length text) start_token end_token false false text) = length text) ∧
  (∀ n, process_chars (length text + n) text = process_chars (length text) text).
Proof.
  split_and!; [apply parse_root_ends..| |].
  - intros st en n Hst. destruct (remove_comments_ends st en (length text + n) (length text) false false text) as [E L];
      [done|lia|lia|]. by rewrite <- E.
  - intros n. apply process_chars_ends; lia.
Qed.

(** ** Round trip *)

Section JsonInd.
Variable P : JSON_Value → Prop.
Hypothesis P_null : P JSONNull.
Hypothesis P_string : ∀ s, P (JSONString s).
Hypothesis P_number : ∀ x, P (JSONNumber x).
Hypothesis P_object : ∀ l, Forall (λ m, P (snd m)) l → P (JSONObject l).
Hypothesis P_array : ∀ l, Forall P l → P (JSONArray l).
Hypothesis P_boolean : ∀ b, P (JSONBoolean b).
Fixpoint json_induction (v : JSON_Value) : P v :=
  match v with
  | JSONNull => P_null
  | JSONString s => P_string s
  | JSONNumber x => P_number x
  | JSONObject l =>
    P_object l ((fix go l : Forall (λ m, P (snd m)) l :=
      match l with [] => Forall_nil_2 _ | m :: l => Forall_cons_2 _ m l (json_induction (snd m)) (go l) end) l)
  | JSONArray l =>
    P_array l ((fix go l : Forall P l :=
      match l with [] => Forall_nil_2 _ | m :: l => Forall_cons_2 _ m l (json_induction m) (go l) end) l)
  | JSONBoolean b => P_boolean b
  end.
End JsonInd.

(** The characters the serializer writes in a form the parser accepts. *)
Definition char_ok (c : Z) : bool := (32 <=? c) || (8 <=? c) && (c <=? 10) || (12 <=? c) && (c <=? 13).
(** The values that survive: numbers are of type [int] with at most six decimals, the characters
    of strings are not control characters without an escape, the names of an
    object are distinct, and the limits on sizes and nesting are respected;
    [n] is the nesting of the value. *)
Fixpoint storable (n : Z) (v : JSON_Value) : Prop :=
  n <= MAX_NESTING ∧
  match v with
  | JSONString s => Forall char_ok s
  | JSONNumber x => number_ok x
  | JSONObject l =>
    Z.of_nat (length l) <= OBJECT_MAX_CAPACITY ∧ NoDup (map fst l) ∧ Forall (λ m, Forall char_ok (fst m)) l ∧
    (fix go l := match l with [] => True | (_, v) :: l => storable (n + 1) v ∧ go l end) l
  | JSONArray l =>
    Z.of_nat (length l) <= ARRAY_MAX_CAPACITY ∧
    (fix go l := match l with [] => True | v :: l => storable (n + 1) v ∧ go l end) l
  | _ => True
  end.

(** *** Strings *)

Lemma char_ok_cases c : char_ok c → 32 <= c ∨ c = 8 ∨ c = 9 ∨ c = 10 ∨ c = 12 ∨ c = 13.
Proof. unfold char_ok. rewrite Is_true_true, !orb_true_iff, !andb_true_iff, !Z.leb_le. lia. Qed.
(** An escaped character: an escape, or itself. *)
Lemma escape_cases c :
  char_ok c → (∃ e, escape c = [92; e] ∧ unescape e = Some c ∧ e ≠ 117) ∨ (escape c = [c] ∧ c ≠ 34 ∧ c ≠ 92 ∧ 32 <= c).
Proof.
  intros [H|[->|[->|[->|[->| ->]]]]]%char_ok_cases; [|left; by eexists..].
  unfold escape. destruct (Z.eqb_spec c 34) as [->|]; [left; by eexists|].
  destruct (Z.eqb_spec c 92) as [->|]; [left; by eexists|]. destruct (Z.eqb_spec c 47) as [->|]; [left; by eexists|].
  cbn [orb]. right. rewrite !(proj2 (Z.eqb_neq _ _)) by lia. done.
Qed.
Lemma skip_quotes_escaped s r : Forall char_ok s → skip_quotes_loop (concat (map escape s) ++ 34 :: r) = r.
Proof.
  induction 1 as [|c s Hc Hs IH]; [done|]. cbn [map concat]. rewrite <- app_assoc.
  destruct (escape_cases c Hc) as [(e & -> & _)|(-> & H1 & H2 & _)]; cbn [app skip_quotes_loop].
  - done.
  - by rewrite (proj2 (Z.eqb_neq _ _) H1), (proj2 (Z.eqb_neq _ _) H2).
Qed.
Lemma process_chars_escaped s fuel :
  Forall char_ok s → (length (concat (map escape s)) <= fuel)%nat → process_chars fuel (concat (map escape s)) = Some s.
Proof.
  intros Hs. revert fuel. induction Hs as [|c s Hc Hs IH]; intros fuel; [by destruct fuel|].
  cbn [map concat]. rewrite length_app. intros HL.
  destruct (escape_cases c Hc) as [(e & E & Hu & Ne)|(E & H1 & H2 & H3)]; rewrite E in HL |- *; cbn [length] in HL;
    (destruct fuel as [|fuel]; [lia|]); cbn [app process_chars].
  - rewrite Z.eqb_refl, (proj2 (Z.eqb_neq _ _) Ne), Hu. cbn [mbind option_bind]. by rewrite IH by lia.
  - rewrite (proj2 (Z.eqb_neq _ _) H2), (proj2 (Z.ltb_ge _ _)) by lia. by rewrite IH by lia.
Qed.
Lemma c_string_ok s : Forall char_ok s → c_string s = s.
Proof.
  induction 1 as [|c s Hc Hs IH]; cbn; [done|]. apply char_ok_cases in Hc.
  rewrite (proj2 (Z.eqb_neq _ _)) by lia. by rewrite IH.
Qed.
Lemma quoted_string_roundtrip s r :
  Forall char_ok s → r ≠ [] → get_quoted_string (json_serialize_string s ++ r) = (Some s, r).
Proof.
  intros Hs Hr. unfold get_quoted_string, json_serialize_string, skip_quotes. cbn [app]. rewrite <- app_assoc. cbn [app].
  change (drop 1 (?x :: ?l)) with l. rewrite (skip_quotes_escaped s r Hs). cbv zeta. destruct r as [|c r]; [done|].
  cbn [length]. rewrite length_app. cbn [length].
  replace (S _ - _ - 2)%nat with (length (concat (map escape s))) by lia.
  rewrite take_app_length. unfold process_string. rewrite process_chars_escaped by done. cbn.
  by rewrite c_string_ok.
Qed.

(** *** Values *)

(** The capacities of an array that can hold [15 * 2^J] items: it has [count]
    items, and room for them. *)
Definition has_room (J capacity count : Z) : Prop :=
  0 <= count ∧ (capacity = 0 ∧ count = 0 ∨ ∃ j, 0 <= j <= J ∧ capacity = 15 * 2 ^ j ∧ count <= capacity).
Lemma has_room_grow J capacity count :
  0 <= J → has_room J capacity count → count < 15 * 2 ^ J →
  ∃ c, grow (15 * 2 ^ J) capacity count = Some c ∧ has_room J c (count + 1).
Proof.
  intros HJ [H0 H] Hc. unfold grow, STARTING_CAPACITY. destruct (Z.leb_spec capacity count) as [L|L].
  2:{ exists capacity. split; [done|]. split; [lia|]. destruct H as [?|(j & ? & ? & ?)]; [lia|].
      right. exists j. lia. }
  destruct H as [[-> ->]|(j & Hj & -> & Hle)].
  - assert (1 <= 2 ^ J) by (apply (Z.pow_le_mono_r 2 0 J); lia). rewrite (proj2 (Z.ltb_ge _ _)) by lia.
    eexists. split; [done|]. split; [lia|]. right. exists 0. lia.
  - assert (j < J). { apply Z.nle_gt. intros L'. pose proof (Z.pow_le_mono_r 2 J j). lia. }
    pose proof (Z.pow_le_mono_r 2 (j + 1) J ltac:(lia) ltac:(lia)) as Hp. rewrite Z.pow_add_r in Hp by lia.
    assert (1 <= 2 ^ j) by (apply (Z.pow_le_mono_r 2 0 j); lia).
    rewrite Z.max_l by lia. rewrite (proj2 (Z.ltb_ge _ _)) by lia.
    eexists. split; [done|]. split; [lia|]. right. exists (j + 1). rewrite Z.pow_add_r by lia. lia.
Qed.

Lemma skip_blank n c r : isspace c = false → skip_whitespaces (replicate n 32 ++ c :: r) = c :: r.
Proof. intros Hc. induction n as [|n IH]; cbn; [by rewrite Hc|done]. Qed.
Lemma parse_value_blanks fuel n s s' :
  skip_whitespaces s = skip_whitespaces s' → parse_value fuel n s = parse_value fuel n s'.
Proof. intros E. destruct fuel; [done|]. cbn [parse_value]. by rewrite E. Qed.

Definition is_container (v : JSON_Value) : bool := match v with JSONObject _ | JSONArray _ => true | _ => false end.

Section Roundtrip.
Context (is_pretty : bool).

(** The texts of the items of an array, and of an object. *)
Definition item_text (level : nat) (v : JSON_Value) (t : list Z) : Prop := json_serialize is_pretty (S level) v = Ret t.
Definition member_text (level : nat) (m : list Z * JSON_Value) (t : list Z) : Prop :=
  ∃ t', json_serialize is_pretty (S level) (snd m) = Ret t' ∧
    t = json_serialize_string (fst m) ++ [58] ++ (if is_pretty then [32] else []) ++ t'.
Lemma serialize_array level l t :
  json_serialize is_pretty level (JSONArray l) = Ret t →
  ∃ items, Forall2 (item_text level) l items ∧ t = brackets is_pretty level 91 93 items.
Proof.
  cbn [json_serialize]. set (go := fix go l := match l with [] => _ | _ => _ end).
  assert (Hgo : ∀ l items, go l = Ret items → Forall2 (item_text level) l items).
  { clear. induction l as [|v l IH]; intros items; cbn [go]; [intros [= <-]; constructor|].
    destruct (json_serialize is_pretty (S level) v) as [t| |] eqn:E; cbn [mbind outcome_bind]; try done.
    fold go. destruct (go l) as [r| |]; cbn [mbind outcome_bind]; try done. intros [= <-]. constructor; [done|by apply IH]. }
  destruct (go l) as [items| |] eqn:E; cbn [mbind outcome_bind]; try done. intros [= <-]. eauto.
Qed.
Lemma serialize_object level l t :
  json_serialize is_pretty level (JSONObject l) = Ret t →
  ∃ items, Forall2 (member_text level) l items ∧ t = brackets is_pretty level 123 125 items.
Proof.
  cbn [json_serialize]. set (go := fix go l := match l with [] => _ | _ => _ end).
  assert (Hgo : ∀ l items, go l = Ret items → Forall2 (member_text level) l items).
  { clear. induction l as [|[k v] l IH]; intros items; cbn [go]; [intros [= <-]; constructor|].
    destruct (json_serialize is_pretty (S level) v) as [t| |] eqn:E; cbn [mbind outcome_bind]; try done.
    fold go. destruct (go l) as [r| |]; cbn [mbind outcome_bind]; try done. intros [= <-].
    constructor; [by exists t|by apply IH]. }
  destruct (go l) as [items| |] eqn:E; cbn [mbind outcome_bind]; try done. intros [= <-]. eauto.
Qed.
Lemma storable_array n l : storable n (JSONArray l) →
  n <= MAX_NESTING ∧ Z.of_nat (length l) <= ARRAY_MAX_CAPACITY ∧ Forall (storable (n + 1)) l.
Proof.
  cbn [storable]. intros (Hn & HL & H). split_and!; [done|done|]. clear HL.
  induction l as [|v l IH]; [constructor|]. destruct H as [Hv H]. constructor; [done|by apply IH].
Qed.
Lemma storable_object n l : storable n (JSONObject l) →
  n <= MAX_NESTING ∧ Z.of_nat (length l) <= OBJECT_MAX_CAPACITY ∧ NoDup (map fst l) ∧
  Forall (λ m, Forall char_ok (fst m)) l ∧ Forall (λ m, storable (n + 1) (snd m)) l.
Proof.
  cbn [storable]. intros (Hn & HL & HD & HC & H). split_and!; [done..|]. clear HL HD HC.
  induction l as [|[k v] l IH]; [constructor|]. destruct H as [Hv H]. constructor; [done|by apply IH].
Qed.

(** A text that does not start with a blank or a closing bracket. *)
Definition dark (t : list Z) : Prop := ∃ c r, t = c :: r ∧ isspace c = false ∧ c ≠ 93 ∧ c ≠ 125.
Lemma number_text_dark sign d r p : all_digits (d :: r) → sign = 1 ∨ sign = -1 → dark (number_text sign d r p).
Proof.
  intros Hd Hs. apply Forall_inv, isdigit_iff in Hd.
  destruct Hs as [-> | ->]; eexists _, _; (split; [done|]); [|done]. split_and!; [|lia|lia]. unfold isspace.
  apply orb_false_iff. split; [apply Z.eqb_neq; lia|]. apply andb_false_iff. right. apply Z.leb_gt. lia.
Qed.
Lemma serialize_dark n level v t : storable n v → json_serialize is_pretty level v = Ret t → dark t.
Proof.
  destruct v as [|s|x|l|l|b]; intros Hs.
  - cbn. intros [= <-]. by eexists _, _.
  - cbn [json_serialize]. intros [= <-]. by eexists _, _.
  - destruct Hs as [_ Hx]. cbn [json_serialize]. destruct (serialize_number_read x Hx) as (sign & d & r & p & Hs & -> & Hd & _).
    intros [= <-]. by apply number_text_dark.
  - intros (items & _ & ->)%serialize_object. by eexists _, _.
  - intros (items & _ & ->)%serialize_array. by eexists _, _.
  - cbn. destruct b; intros [= <-]; by eexists _, _.
Qed.
Lemma dark_skip t r : dark t → skip_whitespaces (t ++ r) = t ++ r.
Proof. intros (c & q & -> & H & _). cbn. by rewrite H. Qed.
Lemma dark_after t r close : dark t → close = 93 ∨ close = 125 → after close (t ++ r) = None.
Proof. intros (c & q & -> & _ & H1 & H2) Hc. cbn. by rewrite (proj2 (Z.eqb_neq _ _)) by lia. Qed.

(** The parser reads back the text of a value, in front of any text that
    delimits it. *)
Definition reads_back (v : JSON_Value) : Prop := ∀ n level t r fuel,
  storable n v → json_serialize is_pretty level v = Ret t → (2 * length (t ++ r) < fuel)%nat →
  delimited r ∨ is_container v = true → parse_value fuel n (t ++ r) = Value (v, r).

(** The end of a list of items of which the last one was read, and the start of
    the others. *)
Definition newline : list Z := if is_pretty then [10] else [].
Definition indent (level : nat) : list Z := if is_pretty then append_indent level else [].
Lemma skip_newline s : skip_whitespaces (newline ++ s) = skip_whitespaces s.
Proof. unfold newline. by destruct is_pretty. Qed.
Lemma skip_indent level s : skip_whitespaces (indent level ++ s) = skip_whitespaces s.
Proof.
  unfold indent, append_indent. destruct is_pretty; [|done]. induction (4 * level)%nat as [|k IH]; [done|].
  cbn. exact IH.
Qed.
Lemma join_cons level t items :
  join is_pretty level (t :: items) =
  indent (S level) ++ t ++ match items with [] => [] | _ => [44] end ++ newline ++ join is_pretty level items.
Proof. done. Qed.
(** What follows an item. *)
Definition follow (level : nat) (items : list (list Z)) (close : Z) (r : list Z) : list Z :=
  match items with [] => [] | _ => [44] end ++ newline ++ join is_pretty level items ++ indent level ++ close :: r.
Lemma follow_delimited level items close r : close = 93 ∨ close = 125 → delimited (follow level items close r).
Proof.
  intros Hc. unfold follow, newline, indent. destruct items; [|by eexists _, _; split; [|left]].
  destruct is_pretty; eexists _, _; (split; [done|]); lia.
Qed.
Lemma follow_next {A} (next : list Z → parsed (A * list Z)) v level items close r :
  close = 93 ∨ close = 125 →
  match after 44 (skip_whitespaces (follow level items close r)) with
  | Some q => next (skip_whitespaces q)
  | None => q ← not_null (after close (skip_whitespaces (follow level items close r))); Value (v, q)
  end =
  match items with
  | [] => Value (v, r)
  | _ => next (skip_whitespaces (join is_pretty level items ++ indent level ++ close :: r))
  end.
Proof.
  intros Hc. unfold follow. destruct items as [|t items].
  - cbn [app join]. rewrite skip_newline, skip_indent.
    destruct Hc as [-> | ->]; cbn; done.
  - cbn [app skip_whitespaces after]. change (isspace 44) with false. cbv match. cbn [after]. rewrite Z.eqb_refl.
    by rewrite skip_newline.
Qed.
Lemma join_follow level t items close r :
  dark t →
  skip_whitespaces (join is_pretty level (t :: items) ++ indent level ++ close :: r) = t ++ follow level items close r.
Proof.
  intros Ht. rewrite join_cons, <- !app_assoc, skip_indent, dark_skip by done. unfold follow. by rewrite <- ?app_assoc.
Qed.
Lemma follow_length level t items close r q :
  (length (skip_whitespaces (join is_pretty level (t :: items) ++ indent level ++ close :: r)) <
   length (q ++ follow level (t :: items) close r))%nat.
Proof.
  unfold follow. eapply Nat.le_lt_trans; [apply skip_whitespaces_le|]. rewrite !length_app. cbn [length]. lia.
Qed.

Lemma elements_read level n l items r :
  Forall reads_back l → Forall (storable n) l → Forall2 (item_text level) l items →
  ∀ fuel capacity acc, l ≠ [] → has_room 13 capacity (Z.of_nat (length acc)) →
  Z.of_nat (length acc + length l) <= ARRAY_MAX_CAPACITY →
  (2 * length (skip_whitespaces (join is_pretty level items ++ indent level ++ 93%Z :: r)) + 1 < fuel)%nat →
  parse_elements fuel n (skip_whitespaces (join is_pretty level items ++ indent level ++ 93 :: r)) capacity acc =
    Value (JSONArray (acc ++ l), r).
Proof.
  intros Hb Hs Hi. induction Hi as [|v t l items Ht Hi IH]; [done|]. intros fuel capacity acc _ Hroom Hlen.
  apply Forall_cons_1 in Hb as [Hv Hb]. apply Forall_cons_1 in Hs as [Sv Hs].
  pose proof (serialize_dark n (S level) v t Sv Ht) as Hd. rewrite join_follow by done. intros Hf.
  destruct fuel as [|fuel]; [lia|]. cbn [parse_elements].
  assert (Hne : ∃ c q, t ++ follow level items 93 r = c :: q) by (destruct Hd as (c & q & -> & _); by eexists _, _).
  destruct Hne as (c0 & q0 & E0). rewrite E0. rewrite <- E0.
  rewrite (Hv n (S level) t) by (done || lia || (left; by apply follow_delimited; left)).
  cbn [mbind parsed_bind]. unfold json_array_add.
  destruct (has_room_grow 13 capacity (Z.of_nat (length acc))) as (c & Eg & Hroom');
    [lia|done|unfold ARRAY_MAX_CAPACITY in Hlen; cbn [length] in Hlen; lia|].
  change (15 * 2 ^ 13) with ARRAY_MAX_CAPACITY in Eg. rewrite Eg. cbn [mbind option_bind not_null parsed_bind].
  rewrite (follow_next (λ q, parse_elements fuel n q c (acc ++ [v]))) by lia.
  destruct Hi as [|v' t' l items Ht' Hi]; [done|]. rewrite IH; [by rewrite <- app_assoc|done|done|done|..].
  - rewrite length_app. cbn [length]. by replace (Z.of_nat _) with (Z.of_nat (length acc) + 1) by lia.
  - rewrite length_app. cbn [length] in *. lia.
  - pose proof (follow_length level t' items 93 r t). lia.
Qed.

Lemma get_value_none (acc : JSON_Object) k : k ∉ map fst acc → json_object_get_value acc k = None.
Proof.
  induction acc as [|[k' v] acc IH]; cbn; [done|]. rewrite not_elem_of_cons. intros [Hk Ha].
  rewrite bool_decide_eq_false_2 by done. by apply IH.
Qed.
Lemma members_read level n l items r :
  Forall (λ m, reads_back (snd m)) l → Forall (λ m, storable n (snd m)) l → Forall (λ m, Forall char_ok (fst m)) l →
  Forall2 (member_text level) l items →
  ∀ fuel capacity (acc : JSON_Object), l ≠ [] → has_room 6 capacity (Z.of_nat (length acc)) → NoDup (map fst (acc ++ l)) →
  Z.of_nat (length acc + length l) <= OBJECT_MAX_CAPACITY →
  (2 * length (skip_whitespaces (join is_pretty level items ++ indent level ++ 125%Z :: r)) + 1 < fuel)%nat →
  parse_members fuel n (skip_whitespaces (join is_pretty level items ++ indent level ++ 125 :: r)) capacity acc =
    Value (JSONObject (acc ++ l), r).
Proof.
  intros Hb Hs Hk Hi. induction Hi as [|[k v] t l items (t' & Ht & ->) Hi IH]; [done|].
  intros fuel capacity acc _ Hroom HD Hlen. cbn [fst snd] in *.
  apply Forall_cons_1 in Hb as [Hv Hb]. apply Forall_cons_1 in Hs as [Sv Hs]. apply Forall_cons_1 in Hk as [Ck Hk].
  cbn [fst snd] in *. pose proof (serialize_dark n (S level) v t' Sv Ht) as Hd. rewrite join_follow by (by eexists _, _).
  rewrite <- !app_assoc. intros Hf. destruct fuel as [|fuel]; [lia|]. cbn [parse_members].
  set (X := follow level items 125 r) in *.
  assert (Hq : get_quoted_string (json_serialize_string k ++ [58] ++ (if is_pretty then [32] else []) ++ t' ++ X) =
    (Some k, [58] ++ (if is_pretty then [32] else []) ++ t' ++ X)) by (by apply quoted_string_roundtrip).
  rewrite Hq. destruct (json_serialize_string k ++ _) as [|c0 q0] eqn:E0; [done|].
  cbn [app not_null mbind parsed_bind skip_whitespaces]. change (isspace 58) with false. cbv match.
  cbn [after]. rewrite Z.eqb_refl. cbn [not_null mbind parsed_bind].
  rewrite (parse_value_blanks _ _ _ (t' ++ X)) by (by destruct is_pretty).
  assert (2 * length (t' ++ X) < fuel)%nat.
  { rewrite <- E0 in Hf. rewrite !(length_app (json_serialize_string k)), !(length_app [58]) in Hf.
    rewrite (length_app (if is_pretty then _ else _)) in Hf. lia. }
  rewrite (Hv n (S level) t') by (done || (left; by apply follow_delimited; right)).
  cbn [mbind parsed_bind]. unfold json_object_add.
  destruct (has_room_grow 6 capacity (Z.of_nat (length acc))) as (c & Eg & Hroom');
    [lia|done|unfold OBJECT_MAX_CAPACITY in Hlen; cbn [length] in Hlen; lia|].
  change (15 * 2 ^ 6) with OBJECT_MAX_CAPACITY in Eg. rewrite Eg. cbn [mbind option_bind].
  rewrite map_app in HD. cbn [map fst] in HD.
  rewrite get_value_none. 2:{ apply list.NoDup_app in HD as (_ & HD & _). intros Hin. apply (HD k Hin). by left. }
  cbn [not_null mbind parsed_bind].
  unfold X. rewrite (follow_next (λ q, parse_members fuel n q c (acc ++ [(k, v)]))) by lia.
  destruct Hi as [|m t l items Hm Hi]; [done|]. rewrite IH; [by rewrite <- app_assoc|done|done|done|done|..].
  - rewrite length_app. cbn [length]. by replace (Z.of_nat _) with (Z.of_nat (length acc) + 1) by lia.
  - rewrite <- app_assoc. by rewrite map_app.
  - rewrite length_app. cbn [length] in *. lia.
  - pose proof (follow_length level t items 125 r t'). fold X in H0. lia.
Qed.

Lemma brackets_text level open close items r :
  brackets is_pretty level open close items ++ r =
  open :: match items with
          | [] => close :: r
          | _ => newline ++ join is_pretty level items ++ indent level ++ close :: r
          end.
Proof.
  unfold brackets, newline, indent. destruct items; cbn [app]; [done|]. destruct is_pretty; cbn [app]; by rewrite <- ?app_assoc.
Qed.
Lemma delimited_ne r : delimited r → r ≠ [].
Proof. by intros (c & q & -> & _). Qed.
(** The value is scalar: what follows it is a delimiter. *)
Lemma string_read s : reads_back (JSONString s).
Proof.
  intros n level t r fuel [Hn Hs] [= <-] Hf [Hr|]; [|done]. destruct fuel as [|fuel]; [lia|]. cbn [parse_value].
  rewrite (proj2 (Z.ltb_ge _ _)) by lia. rewrite dark_skip by (by eexists _, _). cbv zeta.
  assert (E : parse_string_value (json_serialize_string s ++ r) = Some (JSONString s, r)).
  { unfold parse_string_value. by rewrite quoted_string_roundtrip by (done || by apply delimited_ne). }
  destruct (json_serialize_string s ++ r) as [|c q] eqn:Ec; [done|].
  unfold json_serialize_string in Ec. cbn [app] in Ec. injection Ec as <- Ec. cbn [Z.eqb Pos.eqb]. by rewrite E.
Qed.
Lemma number_read x : reads_back (JSONNumber x).
Proof.
  intros n level t r fuel (Hn & Hx). cbn [json_serialize].
  destruct (serialize_number_read x Hx) as (sign & d & w & p & Hs & -> & Hd & _ & E). intros [= <-] Hf [Hr|]; [|done].
  specialize (E r Hr). destruct fuel as [|fuel]; [lia|]. cbn [parse_value].
  rewrite (proj2 (Z.ltb_ge _ _)) by lia. rewrite dark_skip by (by apply number_text_dark). cbv zeta.
  apply Forall_inv in Hd. cbn beta in Hd. pose proof Hd as Hb%isdigit_iff. unfold number_text in *.
  destruct Hs as [-> | ->]; cbn [Z.ltb Z.compare app] in *.
  - rewrite !(proj2 (Z.eqb_neq d _)) by lia. cbn [orb]. by rewrite Hd, E.
  - cbn [Z.eqb Pos.eqb orb]. by rewrite E.
Qed.
Lemma array_read l : Forall reads_back l → reads_back (JSONArray l).
Proof.
  intros Hl n level t r fuel (Hn & HL & Hs)%storable_array (items & Hi & ->)%serialize_array Hf _.
  rewrite brackets_text in Hf |- *. destruct fuel as [|fuel]; [lia|]. cbn [parse_value].
  rewrite (proj2 (Z.ltb_ge _ _)) by lia. cbn [skip_whitespaces]. change (isspace 91) with false. cbv match.
  cbn [Z.eqb Pos.eqb length] in *. destruct Hi as [|v t l items Ht Hi]; [done|].
  rewrite skip_newline. pose proof (Forall_inv Hs) as Sv. pose proof (serialize_dark _ _ _ _ Sv Ht) as Hd.
  pose proof (join_follow level t items 93 r Hd) as EJ.
  assert (after 93 (skip_whitespaces (join is_pretty level (t :: items) ++ indent level ++ 93 :: r)) = None) as ->.
  { rewrite EJ. apply dark_after; [done|lia]. }
  rewrite (elements_read level (n + 1) (v :: l) (t :: items) r); [done|done|done|by constructor|done|split; [lia|by left]|done|].
  pose proof (skip_whitespaces_le (join is_pretty level (t :: items) ++ indent level ++ 93 :: r)).
  rewrite length_app in Hf. lia.
Qed.
Lemma object_read l : Forall (λ m, reads_back (snd m)) l → reads_back (JSONObject l).
Proof.
  intros Hl n level t r fuel (Hn & HL & HD & HC & Hs)%storable_object (items & Hi & ->)%serialize_object Hf _.
  rewrite brackets_text in Hf |- *. destruct fuel as [|fuel]; [lia|]. cbn [parse_value].
  rewrite (proj2 (Z.ltb_ge _ _)) by lia. cbn [skip_whitespaces]. change (isspace 123) with false. cbv match.
  cbn [Z.eqb Pos.eqb length] in *. destruct Hi as [|m t l items Ht Hi]; [done|]. rewrite skip_newline.
  assert (Hd : dark t) by (destruct Ht as (t' & _ & ->); by eexists _, _).
  pose proof (join_follow level t items 125 r Hd) as EJ.
  assert (after 125 (skip_whitespaces (join is_pretty level (t :: items) ++ indent level ++ 125 :: r)) = None) as ->.
  { rewrite EJ. apply dark_after; [done|lia]. }
  rewrite (members_read level (n + 1) (m :: l) (t :: items) r);
    [done|done|done|done|by constructor|done|split; [lia|by left]|done|done|].
  pose proof (skip_whitespaces_le (join is_pretty level (t :: items) ++ indent level ++ 125 :: r)).
  rewrite length_app in Hf. lia.
Qed.
Lemma value_read v : reads_back v.
Proof.
  induction v using json_induction; [|apply string_read|apply number_read|by apply object_read|by apply array_read|].
  - intros n level t r fuel [Hn _] [= <-] Hf _. destruct fuel; [lia|]. cbn [parse_value].
    rewrite (proj2 (Z.ltb_ge _ _)) by lia. done.
  - intros n level t r fuel [Hn _] [= <-] Hf _. destruct fuel; [lia|]. cbn [parse_value].
    rewrite (proj2 (Z.ltb_ge _ _)) by lia. by destruct b.
Qed.
End Roundtrip.

Lemma serialize_total p v : ∀ n level, storable n v → ∃ t, json_serialize p level v = Ret t.
Proof.
  induction v as [|s|x|l IH|l IH|b] using json_induction; intros n level Hs; [by eexists|by eexists|..|by eexists].
  - destruct Hs as [_ Hx]. cbn [json_serialize]. destruct (serialize_number_read x Hx) as (? & ? & ? & ? & _ & -> & _). eauto.
  - apply storable_object in Hs as (_ & _ & _ & _ & Hs). cbn [json_serialize].
    set (go := fix go l := match l with [] => _ | _ => _ end).
    assert (∃ items, go l = Ret items) as [items ->]; [|by eexists].
    induction IH as [|[k v] l Hv Hl IHl]; [by eexists|]. apply Forall_cons_1 in Hs as [Sv Hs]. cbn [fst snd] in *.
    destruct (Hv _ (S level) Sv) as [t Et]. destruct (IHl Hs) as [items Ei]. cbn [go]. fold go. rewrite Et, Ei. by eexists.
  - apply storable_array in Hs as (_ & _ & Hs). cbn [json_serialize].
    set (go := fix go l := match l with [] => _ | _ => _ end).
    assert (∃ items, go l = Ret items) as [items ->]; [|by eexists].
    induction IH as [|v l Hv Hl IHl]; [by eexists|]. apply Forall_cons_1 in Hs as [Sv Hs].
    destruct (Hv _ (S level) Sv) as [t Et]. destruct (IHl Hs) as [items Ei]. cbn [go]. fold go. rewrite Et, Ei. by eexists.
Qed.

(** *** Comments *)

Section Comments.
(** A kind of comments; its start token starts with a slash. *)
Context (st en : list Z).
Definition clean (ins esc : bool) (s : list Z) : list Z := remove_comments (length s) (47 :: st) en ins esc s.
(** A text without NUL and without comments, which leaves the loop outside of
    strings. *)
Definition neutral (t : list Z) : Prop :=
  Forall (λ c, c ≠ 0) t ∧ ∀ r, clean false false (t ++ r) = t ++ clean false false r.

Lemma neutral_nil : neutral [].
Proof. split; [constructor|done]. Qed.
Lemma neutral_app a b : neutral a → neutral b → neutral (a ++ b).
Proof. intros [Za Ha] [Zb Hb]. split; [by apply Forall_app|]. intros r. by rewrite <- !app_assoc, Ha, Hb. Qed.
Lemma neutral_cons c t : c ≠ 0 → c ≠ 34 → c ≠ 92 → c ≠ 47 → neutral t → neutral (c :: t).
Proof.
  intros H0 H1 H2 H3 [Zt Ht]. split; [by constructor|]. intros r. unfold clean at 1. cbn [app length remove_comments].
  rewrite (proj2 (Z.eqb_neq c 92)), (proj2 (Z.eqb_neq c 34)) by done. cbn [andb after_token after].
  rewrite (proj2 (Z.eqb_neq c 47)) by done. cbn [mbind option_bind]. f_equal. apply Ht.
Qed.
Lemma neutral_plain t : Forall (λ c, c ≠ 0 ∧ c ≠ 34 ∧ c ≠ 92 ∧ c ≠ 47) t → neutral t.
Proof. induction 1 as [|c t (H0 & H1 & H2 & H3) _ IH]; [apply neutral_nil|by apply neutral_cons]. Qed.
Lemma escape_nonzero s : Forall char_ok s → Forall (λ c, c ≠ 0) (concat (map escape s)).
Proof.
  induction 1 as [|c s Hc Hs IH]; [constructor|]. cbn [map concat]. apply Forall_app. split; [|done].
  destruct (escape_cases c Hc) as [(e & -> & Hu & _)|(-> & _ & _ & H)]; repeat constructor; [done| |lia].
  intros ->. done.
Qed.
Lemma clean_in_string s r :
  Forall char_ok s → clean true false (concat (map escape s) ++ 34 :: r) = concat (map escape s) ++ 34 :: clean false false r.
Proof.
  induction 1 as [|c s Hc Hs IH]; [done|]. cbn [map concat]. rewrite <- !app_assoc.
  destruct (escape_cases c Hc) as [(e & -> & _)|(-> & H1 & H2 & _)]; unfold clean at 1; cbn [app length remove_comments].
  - cbn [Z.eqb Pos.eqb andb negb]. rewrite !andb_false_r. do 2 f_equal. exact IH.
  - rewrite (proj2 (Z.eqb_neq c 92)), (proj2 (Z.eqb_neq c 34)) by done. cbn [andb]. f_equal. exact IH.
Qed.
Lemma neutral_string s : Forall char_ok s → neutral (json_serialize_string s).
Proof.
  intros Hs. split.
  { unfold json_serialize_string. apply Forall_app. split; [by repeat constructor|]. apply Forall_app.
    split; [by apply escape_nonzero|by repeat constructor]. }
  intros r. unfold json_serialize_string. cbn [app]. rewrite <- app_assoc. cbn [app].
  unfold clean at 1. cbn [length remove_comments Z.eqb Pos.eqb andb negb]. f_equal.
  rewrite <- app_assoc. by apply clean_in_string.
Qed.

Context (p : bool).
Lemma neutral_indent level : neutral (indent p level).
Proof.
  unfold indent, append_indent. destruct p; [|apply neutral_nil]. apply neutral_plain, Forall_replicate. lia.
Qed.
Lemma neutral_newline : neutral (newline p).
Proof. unfold newline. destruct p; [apply neutral_cons; done || apply neutral_nil|apply neutral_nil]. Qed.
Lemma neutral_brackets level open close items :
  (open = 91 ∨ open = 123) → (close = 93 ∨ close = 125) → Forall neutral items →
  neutral (brackets p level open close items).
Proof.
  intros Ho Hc Hi. assert (Hj : neutral (join p level items)).
  { induction Hi as [|t items Ht Hi IH]; [done|]. rewrite join_cons. apply neutral_app; [apply neutral_indent|].
    apply neutral_app; [done|]. apply neutral_app; [by destruct items; [|apply neutral_cons]|].
    apply neutral_app; [apply neutral_newline|exact IH]. }
  rewrite <- (app_nil_r (brackets _ _ _ _ _)), brackets_text. apply neutral_cons; [lia..|].
  destruct items; [apply neutral_cons; done || lia|]. apply neutral_app; [apply neutral_newline|].
  apply neutral_app; [exact Hj|]. apply neutral_app; [apply neutral_indent|]. apply neutral_cons; done || lia.
Qed.
Lemma digit_plain c : isdigit c = true → c ≠ 0 ∧ c ≠ 34 ∧ c ≠ 92 ∧ c ≠ 47.
Proof. rewrite isdigit_iff. lia. Qed.
Lemma neutral_value v : ∀ n level t, storable n v → json_serialize p level v = Ret t → neutral t.
Proof.
  induction v as [|s|x|l IH|l IH|b] using json_induction; intros n level t Hs.
  - intros [= <-]. by apply neutral_plain; repeat constructor.
  - intros [= <-]. apply neutral_string, Hs.
  - destruct Hs as [_ Hx]. cbn [json_serialize].
    destruct (serialize_number_read x Hx) as (sign & d & r & q & _ & -> & Hd & Hq & _). intros [= <-].
    assert (Hplain : ∀ l, all_digits l → neutral l).
    { intros l Hl. apply neutral_plain. eapply Forall_impl; [apply digit_plain|exact Hl]. }
    unfold number_text. apply neutral_app; [destruct (sign <? 0); [by apply neutral_cons|done]|].
    change (d :: r ++ ?x) with ((d :: r) ++ x). apply neutral_app; [by apply Hplain|].
    destruct q; [done|]. apply neutral_cons; [done..|]. by apply Hplain.
  - intros (items & Hi & ->)%serialize_object. apply neutral_brackets; [by right|by right|].
    apply storable_object in Hs as (_ & _ & _ & HC & Hs).
    induction Hi as [|[k v] t l items (t' & Et & ->) Hi IHi]; [constructor|].
    apply Forall_cons_1 in IH as [Hv IH], Hs as [Sv Hs], HC as [Ck HC]. constructor; [|by apply IHi].
    cbn [fst snd] in *. apply neutral_app; [by apply neutral_string|]. apply neutral_app; [by apply neutral_cons|].
    apply neutral_app; [destruct p; [by apply neutral_cons|done]|by eapply Hv].
  - intros (items & Hi & ->)%serialize_array. apply neutral_brackets; [by left|by left|].
    apply storable_array in Hs as (_ & _ & Hs).
    induction Hi as [|v t l items Et Hi IHi]; [constructor|].
    apply Forall_cons_1 in IH as [Hv IH], Hs as [Sv Hs]. constructor; [by eapply Hv|by apply IHi].
  - intros [= <-]. destruct b; by apply neutral_plain; repeat constructor.
Qed.
End Comments.

Lemma json_reads_back is_pretty v :
  storable 0 v → is_container v = true →
  ∃ text, json_serialize_to_string is_pretty v = Ret text ∧ Forall (λ c, c ≠ 0) text ∧
    (∀ rest, parse_root (text ++ rest) = Value v) ∧ json_parse_string_with_comments text = Value v.
Proof.
  intros Hs Hv. destruct (serialize_total is_pretty v 0 0%nat Hs) as [t Et]. exists t. split; [exact Et|].
  split; [exact (proj1 (neutral_value [] [] is_pretty v 0 0%nat t Hs Et))|].
  assert (Hp : ∀ r, parse_root (t ++ r) = Value v).
  { intros r. unfold parse_root. rewrite dark_skip by (by eapply serialize_dark). cbv zeta.
    pose proof (value_read is_pretty v 0 0%nat t r (S (2 * length (t ++ r))) Hs Et ltac:(lia) (or_intror Hv)) as E.
    assert (∃ c q, t ++ r = c :: q ∧ (c = 123 ∨ c = 91)) as (c & q & Ec & Hc).
    { destruct v as [| | |l|l|]; try done.
      - apply serialize_object in Et as (items & _ & ->). rewrite brackets_text. eexists _, _. split; [done|lia].
      - apply serialize_array in Et as (items & _ & ->). rewrite brackets_text. eexists _, _. split; [done|lia]. }
    rewrite E. rewrite Ec. by destruct Hc as [-> | ->]. }
  split; [apply Hp|]. unfold json_parse_string_with_comments. cbv zeta.
  assert (Hc : ∀ st en, remove_comments (length t) (47 :: st) en false false t = t).
  { intros st en. pose proof (proj2 (neutral_value st en is_pretty v 0 0%nat t Hs Et) []) as E. rewrite app_nil_r in E.
    unfold clean in E. rewrite E. cbn. by rewrite app_nil_r. }
  unfold bytes_of_string. cbn [String.list_ascii_of_string map Ascii.N_of_ascii Z.of_N].
  rewrite !Hc. rewrite <- (app_nil_r t) at 1. apply Hp.
Qed.

(** C11. What the serializer writes is read back: for every object or array whose
    numbers are of type [int] with at most six decimals, whose strings hold no control character
    without an escape, whose names are distinct and which respects the limits of
    the parser, the serializer writes a text (on one line or indented), and both
    entry points of the parser return the value from this text; whatever follows
    it is ignored. *)
Theorem json_roundtrip is_pretty v rest :
  storable 0 v → is_container v = true →
  ∃ text, json_serialize_to_string is_pretty v = Ret text ∧
    json_parse_string (Some (text ++ rest)) = Value v ∧ json_parse_string_with_comments text = Value v.
Proof.
  intros Hs Hv. destruct (json_reads_back is_pretty v Hs Hv) as (t & Et & _ & Hp & Hc).
  exists t. split; [exact Et|]. split; [apply Hp|exact Hc].
Qed.

(** An object with each kind of value; its names hold characters that need an
    escape. *)
Definition a_value : JSON_Value :=
  JSONObject [([116; 47; 47; 34], JSONArray [JSONNumber (Finite (dbl_of_Z (-2147483647))); JSONNumber (Finite (rnd 868100000 1000000)); JSONNull; JSONObject []]);
              ([42; 10; 233], JSONString [92; 47; 42; 9]); ([], JSONBoolean false)].
Lemma json_roundtrip_witness :
  ∃ text, json_serialize_to_string true a_value = Ret text ∧
    json_parse_string (Some (text ++ [44; 44])) = Value a_value ∧ json_parse_string_with_comments text = Value a_value.
Proof.
  apply (json_roundtrip true a_value [44; 44]); [|done]. cbn [storable a_value].
  repeat match goal with |- _ ∧ _ => split end; try done.
  - apply (bool_decide_unpack _). vm_compute. exact I.
  - repeat constructor.
  - apply number_ok_int. lia.
  - exists 868100000. by split.
  - by constructor.
  - repeat constructor.
Defined.

(** The opening quote of a name is not checked: an object whose name starts with
    a letter [x] in its place is read as one named by what follows. *)
Lemma open_quote_unchecked :
  json_parse_string (Some [123; 120; 97; 98; 34; 58; 110; 117; 108; 108; 125]) = Value (JSONObject [([97; 98], JSONNull)]).
Proof. by vm_compute. Qed.
(** A control character without a letter of its own is written as it is, and the
    parser refuses it. *)
Lemma control_char_refused c :
  1 <= c < 32 → char_ok c = false →
  json_serialize_to_string false (JSONArray [JSONString [c]]) = Ret [91; 34; c; 34; 93] ∧
  json_parse_string (Some [91; 34; c; 34; 93]) = Null.
Proof.
  intros Hc Ho. assert (Hin : c ∈ [1; 2; 3; 4; 5; 6; 7; 11; 14; 15; 16; 17; 18; 19; 20; 21; 22; 23; 24; 25; 26; 27; 28; 29; 30; 31]).
  { unfold char_ok in Ho. rewrite !orb_false_iff, !andb_false_iff, !Z.leb_gt in Ho. rewrite !elem_of_cons. lia. }
  repeat (apply elem_of_cons in Hin as [->|Hin]; [by vm_compute|]). by apply not_elem_of_nil in Hin.
Qed.
