(* ===== verification/Forward.v ===== *)
(** * The packet forwarder ([packet_forwarder/src/lora_pkt_fwd.c])

    The state its downlink threads share and what they do with it: the queues
    of the two radio chains, the counters, the datagrams sent to the server, and
    the concentrator, which the forwarder uses through the interface
    [concentrator] of four functions of the HAL. A lock makes each use of a
    shared object one step; messages are left out. *)
From stdpp Require Import base list numbers strings.
From Stdlib Require Import ZArith Lia Ascii String.
From stdpp Require Import list.
From S2P Require Import Prelude Binary64 HalTypes JitQueue RegProg HalConf TimeRef Json.

Open Scope Z_scope.
Open Scope list_scope.

Definition PROTOCOL_VERSION : Z := 2.
Definition PKT_PULL_RESP : Z := 3.
Definition PKT_PULL_ACK : Z := 4.
Definition PKT_TX_ACK : Z := 5.
Definition ACK_BUFF_SIZE : Z := 64.

(** ** The interface to the concentrator *)

(** [H] is the state of the library. [get_instcnt] gives the counter stored
    through the pointer, [tx_status_of] the status of the call and the code
    stored, if any. *)
Record concentrator (H : Type) := {
  get_instcnt : eff H Z;
  tx_status_of : Z → eff H (Z * option Z);
  scan_abort : eff H Z;
  send_pkt : lgw_pkt_tx_s → eff H Z }.
Arguments get_instcnt {H}.
Arguments tx_status_of {H}.
Arguments scan_abort {H}.
Arguments send_pkt {H}.

(** ** State *)

Inductive meas :=
  | meas_dw_pull_sent | meas_dw_ack_rcv | meas_dw_dgram_rcv | meas_dw_network_byte | meas_dw_payload_byte
  | meas_nb_tx_ok | meas_nb_tx_fail | meas_nb_tx_requested
  | meas_nb_tx_rejected_collision_packet | meas_nb_tx_rejected_collision_beacon
  | meas_nb_tx_rejected_too_late | meas_nb_tx_rejected_too_early
  | meas_nb_rx_rcv | meas_nb_rx_ok | meas_nb_rx_bad | meas_nb_rx_nocrc
  | meas_up_pkt_fwd | meas_up_network_byte | meas_up_payload_byte | meas_up_dgram_sent | meas_up_ack_rcv
  | meas_nb_beacon_queued | meas_nb_beacon_sent | meas_nb_beacon_rejected.
#[export] Instance meas_eq_dec : EqDecision meas.
Proof. solve_decision. Defined.

(** The configuration the threads read. *)
Record fwd_conf := Conf {
  tx_enable : list bool; tx_freq_min : list Z; tx_freq_max : list Z;
  txlut : list Gain.lgw_tx_gain_lut_s; antenna_gain : Z; net_mac : list Z;
  gps_enabled : bool; spectral_scan_enable : bool }.

(** [datagrams] are those sent on the downlink socket, the last one last;
    [exited] is the argument of a call of [exit]. [time_ref] is
    [time_reference_gps]. *)
Record fwd_state (H : Type) := Fwd {
  hal : H; jit_queue : list jit_queue_s; count_of_meas : meas → Z; datagrams : list (list Z);
  req_ack : bool; autoquit_cnt : Z;
  gps_ref_valid : bool; time_ref : tref; xtal_correct : double; xtal_correct_ok : bool;
  exited : option Z }.
Arguments Fwd {H}.
Arguments hal {H}.
Arguments jit_queue {H}.
Arguments count_of_meas {H}.
Arguments datagrams {H}.
Arguments req_ack {H}.
Arguments autoquit_cnt {H}.
Arguments gps_ref_valid {H}.
Arguments time_ref {H}.
Arguments xtal_correct {H}.
Arguments xtal_correct_ok {H}.
Arguments exited {H}.

(** [Failed] is the end of the program by [exit]. *)
Abbreviation fprog H := (eff (fwd_state H)).

Section State.
Context {H : Type}.

Definition set_hal (s : fwd_state H) (h : H) : fwd_state H :=
  Fwd h (jit_queue s) (count_of_meas s) (datagrams s) (req_ack s) (autoquit_cnt s) (gps_ref_valid s) (time_ref s)
    (xtal_correct s) (xtal_correct_ok s) (exited s).
Definition set_queues (q : list jit_queue_s) (s : fwd_state H) : fwd_state H :=
  Fwd (hal s) q (count_of_meas s) (datagrams s) (req_ack s) (autoquit_cnt s) (gps_ref_valid s) (time_ref s)
    (xtal_correct s) (xtal_correct_ok s) (exited s).
Definition set_meas (m : meas → Z) (s : fwd_state H) : fwd_state H :=
  Fwd (hal s) (jit_queue s) m (datagrams s) (req_ack s) (autoquit_cnt s) (gps_ref_valid s) (time_ref s)
    (xtal_correct s) (xtal_correct_ok s) (exited s).
Definition set_datagrams (d : list (list Z)) (s : fwd_state H) : fwd_state H :=
  Fwd (hal s) (jit_queue s) (count_of_meas s) d (req_ack s) (autoquit_cnt s) (gps_ref_valid s) (time_ref s)
    (xtal_correct s) (xtal_correct_ok s) (exited s).
Definition set_acked (s : fwd_state H) : fwd_state H :=
  Fwd (hal s) (jit_queue s) (count_of_meas s) (datagrams s) true 0 (gps_ref_valid s) (time_ref s) (xtal_correct s) (xtal_correct_ok s) (exited s).
(** A request was sent. *)
Definition set_pulled (s : fwd_state H) : fwd_state H :=
  Fwd (hal s) (jit_queue s) (count_of_meas s) (datagrams s) false (u32 (autoquit_cnt s + 1)) (gps_ref_valid s) (time_ref s)
    (xtal_correct s) (xtal_correct_ok s) (exited s).
Definition set_exited (c : Z) (s : fwd_state H) : fwd_state H :=
  Fwd (hal s) (jit_queue s) (count_of_meas s) (datagrams s) (req_ack s) (autoquit_cnt s) (gps_ref_valid s) (time_ref s)
    (xtal_correct s) (xtal_correct_ok s) (Some c).

Definition gets {A} (f : fwd_state H → A) : fprog H A := λ s, Done s (f s).
Definition modify (f : fwd_state H → fwd_state H) : fprog H () := λ s, Done (f s) ().
(** A call of the library, under its lock. *)
Definition on_hal {A} : eff H A → fprog H A := zoom hal set_hal.
(** A C computation; [exit] ends the program. *)
Definition of_outcome {A} (o : outcome A) : fprog H A := λ s,
  match o with
  | Ret a => Done s a
  | Exit c => Failed (set_exited c s)
  | Undef => Wrong
  end.
Definition of_fuel {A} (o : option (outcome A)) : fprog H A :=
  match o with Some o => of_outcome o | None => spin end.
(** [meas += n] *)
Definition bump (k : meas) (n : Z) : fprog H () :=
  modify (λ s, set_meas (λ i, if decide (i = k) then u32 (count_of_meas s i + n) else count_of_meas s i) s).
Definition send_datagram (d : list Z) : fprog H () := modify (λ s, set_datagrams (datagrams s ++ [d]) s).

(** The queue of a chain, and its new state. *)
Definition get_queue (i : Z) : fprog H jit_queue_s := q ← gets jit_queue; of_outcome (buf_get q i).
Definition put_queue (i : Z) (q : jit_queue_s) : fprog H () :=
  l ← gets jit_queue; l ← of_outcome (buf_set l i q); modify (set_queues l).
End State.

(** ** Transmit power *)

(** The loop from [pow_index] on: the best index and its difference, in 8 bits. *)
Fixpoint best_power (n : nat) (lut : list Gain.lgw_tx_gain_s) (rf_power pow_index current_best_index current_best_match : Z)
  : outcome Z :=
  match n with
  | O => Ret current_best_index
  | S n =>
    e ← buf_get lut pow_index;
    let diff := rf_power - Gain.rf_power e in
    if diff <? 0 then best_power n lut rf_power (pow_index + 1) current_best_index current_best_match
    else if (current_best_index =? -1) || (diff <? current_best_match)
    then best_power n lut rf_power (pow_index + 1) pow_index (u8 diff)
    else best_power n lut rf_power (pow_index + 1) current_best_index current_best_match
  end.
(** The status and the index; the pointer is not NULL. *)
Definition get_tx_gain_lut_index (txlut : list Gain.lgw_tx_gain_lut_s) (rf_chain rf_power : Z) : outcome (Z * Z) :=
  l ← buf_get txlut rf_chain;
  i ← best_power (Z.to_nat (Gain.size l)) (Gain.lut l) rf_power 0 (-1) 0xFF;
  Ret (if -1 <? i then (0, u8 i) else (-1, 0)).

(** ** Acknowledgements to the server *)

Definition is_warning (error : jit_error_e) : bool := bool_decide (error = JIT_ERROR_TX_POWER).
Definition error_text (error : jit_error_e) : list Z :=
  bytes_of_string match error with
  | JIT_ERROR_FULL | JIT_ERROR_COLLISION_PACKET => "COLLISION_PACKET"
  | JIT_ERROR_TOO_LATE => "TOO_LATE"
  | JIT_ERROR_TOO_EARLY => "TOO_EARLY"
  | JIT_ERROR_COLLISION_BEACON => "COLLISION_BEACON"
  | JIT_ERROR_TX_FREQ => "TX_FREQ"
  | JIT_ERROR_TX_POWER => "TX_POWER"
  | JIT_ERROR_GPS_UNLOCKED => "GPS_UNLOCKED"
  | _ => "UNKNOWN"
  end.
Definition error_meas (error : jit_error_e) : option meas :=
  match error with
  | JIT_ERROR_FULL | JIT_ERROR_COLLISION_PACKET => Some meas_nb_tx_rejected_collision_packet
  | JIT_ERROR_TOO_LATE => Some meas_nb_tx_rejected_too_late
  | JIT_ERROR_TOO_EARLY => Some meas_nb_tx_rejected_too_early
  | JIT_ERROR_COLLISION_BEACON => Some meas_nb_tx_rejected_collision_beacon
  | _ => None
  end.
(** A quote is 34. *)
Definition quoted (l : list Z) : list Z := [34] ++ l ++ [34].
Definition ack_json (error : jit_error_e) (error_value : Z) : list Z :=
  if bool_decide (error = JIT_ERROR_OK) then []
  else
    [123] ++ quoted (bytes_of_string "txpk_ack") ++ bytes_of_string ":{" ++
    quoted (bytes_of_string (if is_warning error then "warn" else "error")) ++ bytes_of_string ":" ++
    quoted (error_text error) ++
    (if is_warning error then bytes_of_string "," ++ quoted (bytes_of_string "value") ++ bytes_of_string ":" ++ print_d error_value
     else []) ++
    bytes_of_string "}}".

Section Threads.
Context {H : Type} (cc : concentrator H) (conf : fwd_conf).
Context (qsort : ∀ A, (A → A → Z) → list A → list A) (sw : Z).

(** The buffer has 64 bytes, the last of which takes the terminator. *)
Definition send_tx_ack (token_h token_l : Z) (error : jit_error_e) (error_value : Z) : fprog H () :=
  let buff_ack := [PROTOCOL_VERSION; token_h; token_l; PKT_TX_ACK] ++ net_mac conf ++ ack_json error error_value in
  _ ← (if ACK_BUFF_SIZE <=? Z.of_nat (List.length buff_ack) then wrong else mret ());
  _ ← match error_meas error with Some k => bump k 1 | None => mret () end;
  send_datagram buff_ack.

(** ** The JIT thread *)

Definition set_freq (f : Z) (p : lgw_pkt_tx_s) : lgw_pkt_tx_s :=
  {| Tx.freq_hz := f; Tx.tx_mode := Tx.tx_mode p; Tx.count_us := Tx.count_us p; Tx.rf_chain := Tx.rf_chain p;
     Tx.rf_power := Tx.rf_power p; Tx.modulation := Tx.modulation p; Tx.freq_offset := Tx.freq_offset p;
     Tx.bandwidth := Tx.bandwidth p; Tx.datarate := Tx.datarate p; Tx.coderate := Tx.coderate p;
     Tx.invert_pol := Tx.invert_pol p; Tx.f_dev := Tx.f_dev p; Tx.preamble := Tx.preamble p;
     Tx.no_crc := Tx.no_crc p; Tx.no_header := Tx.no_header p; Tx.size := Tx.size p; Tx.payload := Tx.payload p |}.

(** [pkt] is handed to the concentrator, unless that is emitting. *)
Definition transmit (pkt : lgw_pkt_tx_s) : fprog H () :=
  '(result, tx_status) ← on_hal (tx_status_of cc (Tx.rf_chain pkt));
  emitting ← (if result =? LGW_HAL_ERROR then mret false else c ← known tx_status; mret (c =? TX_EMITTING));
  if (emitting : bool) then mret ()
  else
    _ ← (if spectral_scan_enable conf then on_hal (scan_abort cc) else mret 0);
    result ← on_hal (send_pkt cc pkt);
    bump (if negb (result =? LGW_HAL_SUCCESS) then meas_nb_tx_fail else meas_nb_tx_ok) 1.

(** A dequeued beacon: its frequency follows the error of the crystal. *)
Definition beacon_correct (pkt : lgw_pkt_tx_s) (pkt_type : jit_pkt_type_e) : fprog H lgw_pkt_tx_s :=
  if bool_decide (pkt_type = JIT_PKT_TYPE_BEACON) then
    x ← gets xtal_correct;
    f ← of_outcome (u32_of_double (dmul x (dbl_of_Z (Tx.freq_hz pkt))));
    _ ← bump meas_nb_beacon_sent 1;
    mret (set_freq f pkt)
  else mret pkt.

(** The turn of the loop for chain [i]: the peek, which gives the index of a
    packet that is due, if any, ... *)
Definition jit_look (i : Z) : fprog H (option Z) :=
  now ← on_hal (get_instcnt cc);
  q ← get_queue i;
  '(jit_result, q, pkt_index) ← of_fuel (jit_peek qsort q now false);
  _ ← put_queue i q;
  if bool_decide (jit_result = JIT_ERROR_OK) then
    pkt_index ← known pkt_index;
    mret (if -1 <? pkt_index then Some pkt_index else None)
  else mret None.
(** ... and the dequeue and the transmission of this packet. *)
Definition jit_take (i pkt_index : Z) : fprog H () :=
  q ← get_queue i;
  '(jit_result, q, got) ← of_outcome (jit_dequeue qsort q pkt_index false);
  _ ← put_queue i q;
  match jit_result, got with
  | JIT_ERROR_OK, Some (pkt, pkt_type) => pkt ← beacon_correct pkt pkt_type; transmit pkt
  | _, _ => mret ()
  end.
Definition jit_turn (i : Z) : fprog H () :=
  pkt_index ← jit_look i;
  match pkt_index with Some pkt_index => jit_take i pkt_index | None => mret () end.
(** One round over both chains. *)
Definition jit_round : fprog H () := _ ← jit_turn 0; jit_turn 1.
End Threads.
