(* ===== verification/ForwardProps.v ===== *)
(** * Properties of the forwarder's shared state

    The transmit power chosen for a downlink, the size of an answer to the
    server, and what the JIT thread does with the queues. *)
From Stdlib Require Import ZArith Lia.
From stdpp Require Import base list numbers.
From S2P Require Import Prelude Binary64 HalTypes TimeOnAir JitQueue JitProps RegProg HalConf TimeRef Json Forward.

Open Scope Z_scope.
Open Scope list_scope.

(** ** The transmit power *)

Definition is_s8 (z : Z) : Prop := - 2 ^ 7 <= z < 2 ^ 7.
(** The powers of a table. *)
Definition powers (l : Gain.lgw_tx_gain_lut_s) : list Z :=
  map Gain.rf_power (take (Z.to_nat (Gain.size l)) (Gain.lut l)).
(** [i] is the first entry with the highest power that is not above [w]. *)
Definition best_entry (l : list Z) (w i : Z) : Prop :=
  0 <= i ∧ ∃ p, l !! Z.to_nat i = Some p ∧ p <= w ∧
    ∀ j p', l !! j = Some p' → p' <= w → p' < p ∨ p' = p ∧ i <= Z.of_nat j.
(** [i] is the best entry so far, with its difference [m], or none is low enough. *)
Definition best_so_far (l : list Z) (w i m : Z) : Prop :=
  i = -1 ∧ Forall (λ p, w < p) l ∨ best_entry l w i ∧ ∃ p, l !! Z.to_nat i = Some p ∧ m = w - p.

Lemma best_so_far_snoc l w i m p :
  is_s8 w → is_s8 p → best_so_far l w i m →
  best_so_far (l ++ [p]) w
    (if w - p <? 0 then i else if (i =? -1) || (w - p <? m) then Z.of_nat (length l) else i)
    (if w - p <? 0 then m else if (i =? -1) || (w - p <? m) then u8 (w - p) else m).
Proof.
  intros Hw Hp H. unfold is_s8 in *. destruct (Z.ltb_spec (w - p) 0) as [L|L].
  - destruct H as [[-> H]|[(H0 & q & Eq & Hq & Hb) (q' & Eq' & Em)]].
    + left. split; [done|]. apply Forall_app. split; [done|]. constructor; [lia|constructor].
    + right. split.
      * split; [done|]. exists q. rewrite lookup_app_l by (by eapply lookup_lt_Some). split; [done|]. split; [done|].
        intros j p' Hj Hle. apply lookup_app_Some in Hj as [Hj|[_ Hj]]; [by eapply Hb|].
        apply list_lookup_singleton_Some in Hj as [_ <-]. lia.
      * exists q'. rewrite lookup_app_l by (by eapply lookup_lt_Some). done.
  - destruct ((i =? -1) || (w - p <? m)) eqn:E.
    + right. rewrite u8_id by lia. split.
      2:{ exists p. rewrite Nat2Z.id, lookup_app_r, Nat.sub_diag by lia. done. }
      split; [lia|]. exists p. rewrite Nat2Z.id. rewrite lookup_app_r, Nat.sub_diag by lia. split; [done|]. split; [lia|].
      intros j p' Hj Hle. apply lookup_app_Some in Hj as [Hj|[Hlt Hj]].
      2:{ apply list_lookup_singleton_Some in Hj as [Hz <-]. right. split; [done|lia]. }
      left. destruct H as [[-> H]|[(H0 & q & Eq & Hq & Hb) (q' & Eq' & Em)]].
      * rewrite Forall_forall in H. specialize (H p' ltac:(by eapply list_elem_of_In, list_elem_of_lookup_2)). lia.
      * rewrite Eq' in Eq. injection Eq as ->. apply orb_true_iff in E as [E%Z.eqb_eq|E%Z.ltb_lt]; [lia|].
        destruct (Hb j p' Hj Hle); lia.
    + apply orb_false_iff in E as [E1%Z.eqb_neq E2%Z.ltb_ge].
      destruct H as [[-> _]|[(H0 & q & Eq & Hq & Hb) (q' & Eq' & Em)]]; [lia|]. rewrite Eq' in Eq. injection Eq as ->.
      right. split.
      * split; [done|]. exists q. rewrite lookup_app_l by (by eapply lookup_lt_Some). split; [done|]. split; [done|].
        intros j p' Hj Hle. apply lookup_app_Some in Hj as [Hj|[Hlt Hj]]; [by eapply Hb|].
        apply list_lookup_singleton_Some in Hj as [Hz <-]. apply lookup_lt_Some in Eq'. lia.
      * exists q. rewrite lookup_app_l by (by eapply lookup_lt_Some). done.
Qed.
Lemma best_power_loop n lut w k i m :
  is_s8 w → Forall (λ e, is_s8 (Gain.rf_power e)) lut → (k + n <= length lut)%nat →
  best_so_far (map Gain.rf_power (take k lut)) w i m →
  ∃ i' m', best_power n lut w (Z.of_nat k) i m = Ret i' ∧ best_so_far (map Gain.rf_power (take (k + n) lut)) w i' m'.
Proof.
  intros Hw Hl. revert k i m. induction n as [|n IH]; intros k i m Hk Hb.
  - exists i, m. rewrite Nat.add_0_r. done.
  - destruct (lookup_lt_is_Some_2 lut k) as [e Ee]; [lia|]. cbn [best_power].
    rewrite (buf_get_lookup _ _ e) by (rewrite ?Nat2Z.id; done || lia). cbn [mbind outcome_bind]. cbv zeta.
    assert (He : is_s8 (Gain.rf_power e)).
    { rewrite Forall_forall in Hl. apply Hl. by eapply list_elem_of_In, list_elem_of_lookup_2. }
    pose proof (best_so_far_snoc _ w i m _ Hw He Hb) as Hb'.
    rewrite length_map, length_take, Nat.min_l in Hb' by lia.
    assert (Et : map Gain.rf_power (take k lut) ++ [Gain.rf_power e] = map Gain.rf_power (take (S k) lut)).
    { by rewrite (take_S_r _ _ e), map_app. }
    rewrite Et in Hb'. replace (Z.of_nat k + 1) with (Z.of_nat (S k)) by lia.
    replace (k + S n)%nat with (S k + n)%nat by lia.
    destruct (w - Gain.rf_power e <? 0); [by apply IH; [lia|]|].
    destruct ((i =? -1) || _); apply IH; done || lia.
Qed.

(** A table of gains as the configuration leaves it: 16 slots, of which the
    first [size] are used. *)
Definition lut_ok (l : Gain.lgw_tx_gain_lut_s) : Prop :=
  length (Gain.lut l) = 16%nat ∧ 0 <= Gain.size l <= 16 ∧ Forall (λ e, is_s8 (Gain.rf_power e)) (Gain.lut l).
Lemma get_index txlut rf_chain l w :
  txlut !! Z.to_nat rf_chain = Some l → 0 <= rf_chain → lut_ok l → is_s8 w →
  get_tx_gain_lut_index txlut rf_chain w = Ret (-1, 0) ∧ Forall (λ p, w < p) (powers l) ∨
  ∃ i, get_tx_gain_lut_index txlut rf_chain w = Ret (0, i) ∧ best_entry (powers l) w i.
Proof.
  intros El Hc (H16 & Hs & Hl) Hw. unfold get_tx_gain_lut_index. rewrite (buf_get_lookup _ _ l) by done.
  cbn [mbind outcome_bind].
  destruct (best_power_loop (Z.to_nat (Gain.size l)) (Gain.lut l) w 0 (-1) 0xFF) as (i & m & E & Hb);
    [done|done|lia|left; split; [done|constructor]|].
  change (Z.of_nat 0) with 0 in E. rewrite E. cbn [mbind outcome_bind]. cbn [Nat.add] in Hb. fold (powers l) in Hb.
  destruct Hb as [[-> Hb]|[Hb _]]; [by left|]. right. exists i. pose proof Hb as (H0 & p & Ei & _).
  apply lookup_lt_Some in Ei. unfold powers in Ei. rewrite length_map, length_take in Ei.
  rewrite (proj2 (Z.ltb_lt _ _)), u8_id by lia. done.
Qed.

(** C21. The power of a downlink is the highest of the table that is not above
    the requested one: the search returns the first entry with it, inside of the
    table, and fails, with the index 0, exactly when every entry is above the
    request. *)
Theorem tx_gain_index_best txlut rf_chain l w :
  txlut !! Z.to_nat rf_chain = Some l → 0 <= rf_chain → lut_ok l → is_s8 w →
  (Forall (λ p, w < p) (powers l) → get_tx_gain_lut_index txlut rf_chain w = Ret (-1, 0)) ∧
  (Exists (λ p, p <= w) (powers l) → ∃ i, get_tx_gain_lut_index txlut rf_chain w = Ret (0, i) ∧ best_entry (powers l) w i).
Proof.
  intros El Hc Hl Hw. destruct (get_index txlut rf_chain l w El Hc Hl Hw) as [[E Hb]|(i & E & Hb)].
  - split; [done|]. intros (p & Hp & Hle)%List.Exists_exists. rewrite Forall_forall in Hb. specialize (Hb p Hp). lia.
  - split; [|by exists i]. destruct Hb as (_ & p & Ep & Hle & _). intros Hb. rewrite Forall_forall in Hb.
    specialize (Hb p ltac:(by eapply list_elem_of_In, list_elem_of_lookup_2)). lia.
Qed.
Definition a_gain (w : Z) : Gain.lgw_tx_gain_s :=
  {| Gain.rf_power := w; Gain.dig_gain := 0; Gain.pa_gain := 0; Gain.dac_gain := 3; Gain.mix_gain := 5;
     Gain.offset_i := 0; Gain.offset_q := 0; Gain.pwr_idx := 0 |}.
Definition a_lut : Gain.lgw_tx_gain_lut_s :=
  Gain.Lut (map a_gain [12; 27; 14; 14] ++ replicate 12 Gain.zero) 4.
Lemma a_lut_ok : lut_ok a_lut.
Proof. split; [done|]. split; [cbn; lia|]. repeat constructor; done. Qed.
Lemma tx_gain_index_best_witness :
  get_tx_gain_lut_index [a_lut] 0 11 = Ret (-1, 0) ∧ ∃ i, get_tx_gain_lut_index [a_lut] 0 26 = Ret (0, i) ∧ best_entry (powers a_lut) 26 i.
Proof.
  split.
  - apply (tx_gain_index_best [a_lut] 0 a_lut 11); [done|done|apply a_lut_ok|done|].
    change (powers a_lut) with [12; 27; 14; 14]. repeat (constructor; [lia|]). constructor.
  - apply (tx_gain_index_best [a_lut] 0 a_lut 26); [done|done|apply a_lut_ok|done|].
    change (powers a_lut) with [12; 27; 14; 14]. left. lia.
Defined.

(** ** Answers *)

Lemma print_d_s8 v : is_s8 v → (length (print_d v) <= 4)%nat.
Proof.
  intros Hv. assert (Hin : v ∈ map (λ k, Z.of_nat k - 128) (seq 0 256)).
  { apply list_elem_of_fmap. exists (Z.to_nat (v + 128)). unfold is_s8 in Hv. split; [lia|]. apply elem_of_seq. lia. }
  assert (Hall : forallb (λ v, length (print_d v) <=? 4)%nat (map (λ k, Z.of_nat k - 128) (seq 0 256)) = true) by (by vm_compute).
  rewrite forallb_forall in Hall. apply list_elem_of_In in Hin. by apply Hall, Nat.leb_le in Hin.
Qed.
Lemma ack_json_length e v : is_s8 v → (length (ack_json e v) <= 45)%nat.
Proof.
  intros Hv%print_d_s8. destruct (decide (e = JIT_ERROR_TX_POWER)) as [->|Ne].
  2:{ clear Hv. destruct e; try done; apply Nat.leb_le; by vm_compute. }
  unfold ack_json. rewrite bool_decide_eq_false_2 by done. unfold is_warning. rewrite bool_decide_eq_true_2 by done.
  rewrite !length_app. change (length (quoted (error_text JIT_ERROR_TX_POWER))) with 10%nat. cbn. lia.
Qed.

(** The answer to the server. *)
Definition answer (conf : fwd_conf) (token_h token_l : Z) (e : jit_error_e) (v : Z) : list Z :=
  [PROTOCOL_VERSION; token_h; token_l; PKT_TX_ACK] ++ net_mac conf ++ ack_json e v.

(** Runs the binds of a program. *)
Ltac eff_run := cbv beta iota delta [mbind eff_bind mret eff_ret gets modify].

Section Shared.
Context {H : Type} (cc : concentrator H) (conf : fwd_conf).
Context (qsort : ∀ A, (A → A → Z) → list A → list A) `{!Qsort qsort} (sw : Z).
Implicit Types s : fwd_state H.

Definition counted (k : meas) (n : Z) s : fwd_state H :=
  set_meas (λ i, if decide (i = k) then u32 (count_of_meas s i + n) else count_of_meas s i) s.
Lemma bump_done k n s : bump k n s = Done (counted k n s) ().
Proof. done. Qed.
(** The state after an answer. *)
Definition answered (token_h token_l : Z) (e : jit_error_e) (v : Z) s : fwd_state H :=
  let s := match error_meas e with Some k => counted k 1 s | None => s end in
  set_datagrams (datagrams s ++ [answer conf token_h token_l e v]) s.
Lemma send_tx_ack_inv token_h token_l e v s s' :
  send_tx_ack conf token_h token_l e v s = Done s' () → s' = answered token_h token_l e v s.
Proof.
  unfold send_tx_ack, answered. cbv zeta. change ([PROTOCOL_VERSION; token_h; token_l; PKT_TX_ACK] ++ _) with (answer conf token_h token_l e v).
  eff_run. destruct (ACK_BUFF_SIZE <=? _); [done|]. cbn [mret eff_ret]. destruct (error_meas e); by intros [= <-].
Qed.
(** The buffer is large enough for the 8 bytes of the address and a power. *)
Lemma send_tx_ack_done token_h token_l e v s :
  length (net_mac conf) = 8%nat → is_s8 v →
  send_tx_ack conf token_h token_l e v s = Done (answered token_h token_l e v s) ().
Proof.
  intros Hm Hv. unfold send_tx_ack, answered. cbv zeta.
  change ([PROTOCOL_VERSION; token_h; token_l; PKT_TX_ACK] ++ _) with (answer conf token_h token_l e v).
  assert (length (answer conf token_h token_l e v) <= 57)%nat.
  { unfold answer. rewrite !length_app, Hm. pose proof (ack_json_length e v Hv). cbn [length]. lia. }
  eff_run. unfold ACK_BUFF_SIZE. rewrite (proj2 (Z.leb_gt _ _)) by lia. cbn [mret eff_ret].
  by destruct (error_meas e).
Qed.

(** ** Queues *)

Lemma get_queue_inv i s s' q : get_queue i s = Done s' q → s' = s ∧ 0 <= i ∧ jit_queue s !! Z.to_nat i = Some q.
Proof.
  unfold get_queue, gets. eff_run. unfold buf_get. destruct (Z.ltb_spec i 0); [done|].
  destruct (jit_queue s !! Z.to_nat i) as [q'|]; cbn [of_outcome]; [|done]. intros [= <- <-]. done.
Qed.
Lemma get_queue_done i s q : 0 <= i → jit_queue s !! Z.to_nat i = Some q → get_queue i s = Done s q.
Proof. intros Hi Hq. unfold get_queue, gets. eff_run. by rewrite (buf_get_lookup _ _ q) by done. Qed.
Lemma put_queue_inv i q s s' : put_queue i q s = Done s' () → s' = set_queues (<[Z.to_nat i := q]> (jit_queue s)) s.
Proof.
  unfold put_queue, gets. eff_run. unfold buf_set. destruct (_ && _); [|done]. cbn [of_outcome]. by intros [= <-].
Qed.
Lemma put_queue_done i q s :
  0 <= i < Z.of_nat (length (jit_queue s)) → put_queue i q s = Done (set_queues (<[Z.to_nat i := q]> (jit_queue s)) s) ().
Proof.
  intros Hi. unfold put_queue, gets. eff_run. unfold buf_set.
  by rewrite (proj2 (Z.leb_le _ _)), (proj2 (Z.ltb_lt _ _)) by lia.
Qed.

(** A peek that leaves the queue as it is. *)
Lemma jit_look_same i s q h now e idx :
  0 <= i → jit_queue s !! Z.to_nat i = Some q → get_instcnt cc (hal s) = Done h now →
  jit_peek qsort q now false = Some (Ret (e, q, idx)) →
  jit_look cc qsort i s =
    match e, idx with
    | JIT_ERROR_OK, Some j => Done (set_hal s h) (if -1 <? j then Some j else None)
    | JIT_ERROR_OK, None => Wrong
    | _, _ => Done (set_hal s h) None
    end.
Proof.
  intros Hi Eq En HP. pose proof (lookup_lt_Some _ _ _ Eq) as Hlt. unfold jit_look.
  rewrite (bind_done _ _ _ (set_hal s h) now) by (unfold on_hal, zoom; by rewrite En).
  rewrite (bind_done _ _ _ _ _ (get_queue_done i (set_hal s h) q Hi Eq)). rewrite HP.
  erewrite bind_done by reflexivity. cbn iota beta.
  erewrite bind_done by (apply put_queue_done; cbn; lia). cbn [jit_queue set_hal]. rewrite list_insert_id by done.
  change (set_queues (jit_queue s) (set_hal s h)) with (set_hal s h).
  destruct e; try done. by destruct idx.
Qed.

End Shared.

(** A concentrator whose state is its counter, which stands still; it is free
    and takes every packet. *)
Definition a_concentrator : concentrator Z := {|
  get_instcnt := λ h, Done h h; tx_status_of := λ _ h, Done h (LGW_HAL_SUCCESS, Some TX_FREE);
  scan_abort := λ h, Done h LGW_HAL_SUCCESS; send_pkt := λ _ h, Done h LGW_HAL_SUCCESS |}.
Definition a_conf : fwd_conf :=
  Conf [true; false] [863000000; 0] [870000000; 0] [a_lut; Gain.initial] 0 [1; 2; 3; 4; 5; 6; 7; 8] false false.
Definition a_tref : tref := Tref 0 0 (Timespec 0 0) (Timespec 0 0) (Dbl 1 0).
Definition a_state (now : Z) (q : jit_queue_s) : fwd_state Z :=
  Fwd now [q; jit_queue_init] (λ _, 0) [] false 0 false a_tref (Dbl 1 0) false None.
