(* ===== verification/Downlink.v ===== *)
(** * Downlinks from the server ([packet_forwarder/src/lora_pkt_fwd.c], [thread_down])

    A datagram of the server is an acknowledgement of a request, or a packet to
    send, described by the object ["txpk"] of a JSON text. The thread reads the
    fields of the object in a fixed order; a missing or malformed one drops the
    packet. A complete packet is checked against the limits of its radio chain,
    put into the queue of the chain, and answered. *)
From Stdlib Require Import ZArith Lia String.
From stdpp Require Import base list numbers strings.
From S2P Require Import Prelude Binary64 HalTypes Base64 JitQueue RegProg HalConf TimeRef Json Forward.

Open Scope Z_scope.
Open Scope list_scope.

Definition MIN_LORA_PREAMB : Z := 6.
Definition STD_LORA_PREAMB : Z := 8.
Definition MIN_FSK_PREAMB : Z := 3.
Definition STD_FSK_PREAMB : Z := 5.

(** ** Reading the fields *)

(** What reading a part of the object gives: a value; the end of the handling of
    the datagram, with the error answered to the server, if any; the end of the
    program; undefined behaviour. *)
Inductive txpk (A : Type) :=
  | Go (a : A)
  | Drop (ack : option jit_error_e)
  | Exits (c : Z)
  | Undefined.
Arguments Go {A} a.
Arguments Drop {A} ack.
Arguments Exits {A} c.
Arguments Undefined {A}.
#[export] Instance txpk_ret : MRet txpk := @Go.
#[export] Instance txpk_bind : MBind txpk := λ A B f m,
  match m with Go a => f a | Drop e => Drop e | Exits c => Exits c | Undefined => Undefined end.
Definition computed {A} (o : outcome A) : txpk A :=
  match o with Ret a => Go a | Exit c => Exits c | Undef => Undefined end.
Definition mandatory {A} (o : option A) : txpk A := match o with Some a => Go a | None => Drop None end.

(** The conversion of a number to an integer type with the values from [lo] to
    [hi - 1], which is undefined when the truncated number is not one of them. *)
Definition to_int (lo hi : Z) (x : number) : txpk Z :=
  match x with
  | Finite x => let z := dtrunc x in if (lo <=? z) && (z <? hi) then Go z else Undefined
  | NotFinite => Undefined
  end.
Definition to_u8 : number → txpk Z := to_int 0 (2 ^ 8).
Definition to_u16 : number → txpk Z := to_int 0 (2 ^ 16).
Definition to_u32 : number → txpk Z := to_int 0 (2 ^ 32).
Definition to_u64 : number → txpk Z := to_int 0 (2 ^ 64).
Definition to_s8 : number → txpk Z := to_int (- 2 ^ 7) (2 ^ 7).
Definition to_s32 : number → txpk Z := to_int (- 2 ^ 31) (2 ^ 31).
Definition nmap (f : double → double) (x : number) : number :=
  match x with Finite x => Finite (f x) | NotFinite => NotFinite end.

Definition txpk_field (obj : JSON_Object) (name : string) : option JSON_Value :=
  json_object_get_value obj (bytes_of_string name).
Definition field_string (obj : JSON_Object) (name : string) : option (list Z) :=
  json_object_get_string obj (bytes_of_string name).
(** An optional flag: a value that is not a boolean counts as true. *)
Definition flag (obj : JSON_Object) (name : string) : bool :=
  match txpk_field obj name with
  | Some v => negb (json_value_get_boolean (Some v) =? 0)
  | None => false
  end.

(** The time of the packet: its counter, its class, and whether it is sent at
    once. [ref] is the GPS time reference, when there is a valid one. *)
Definition tx_time (ref : option tref) (obj : JSON_Object) : txpk (Z * jit_pkt_type_e * bool) :=
  if json_object_get_boolean obj (bytes_of_string "imme") =? 1 then Go (0, JIT_PKT_TYPE_DOWNLINK_CLASS_C, true)
  else match txpk_field obj "tmst" with
  | Some val =>
    count_us ← to_u32 (json_value_get_number (Some val));
    Go (count_us, JIT_PKT_TYPE_DOWNLINK_CLASS_A, false)
  | None =>
    val ← mandatory (txpk_field obj "tmms");
    match ref with
    | None => Drop (Some JIT_ERROR_GPS_UNLOCKED)
    | Some local_ref =>
      x2 ← to_u64 (json_value_get_number (Some val));
      let '(x4, x3) := modf (ddiv (dbl_of_Z x2) (dbl_of_Z 1000)) in
      '(i, count_us) ← computed (lgw_gps2cnt local_ref (Timespec x4 (dtrunc (dmul x3 d1E9))) true);
      if negb (i =? LGW_GPS_SUCCESS) then Drop None
      else count_us ← mandatory count_us; Go (count_us, JIT_PKT_TYPE_DOWNLINK_CLASS_B, false)
    end
  end.

(** ["SF%2hdBW%3hd"] of [sscanf]: [scan_hd] reads an integer of at most [width]
    characters after blanks. *)
Definition scan_hd (width : nat) (s : list Z) : option (Z * list Z) :=
  let s := skip_whitespaces s in
  let '(sign, width, s) := match s with
                           | c :: r => if c =? 45 then (-1, (width - 1)%nat, r) else if c =? 43 then (1, (width - 1)%nat, r)
                                       else (1, width, s)
                           | [] => (1, width, s)
                           end in
  let '(d, _) := span isdigit (take width s) in
  match d with
  | [] => None
  | _ => Some (sign * decimal d, drop (List.length d) s)
  end.
Definition scan_datr (s : list Z) : option (Z * Z) :=
  s ← after_token (bytes_of_string "SF") s;
  '(x0, s) ← scan_hd 2 s;
  s ← after_token (bytes_of_string "BW") s;
  '(x1, _) ← scan_hd 3 s;
  Some (x0, x1).

Definition datr_datarate (x0 : Z) : option Z :=
  if x0 =? 5 then Some DR_LORA_SF5 else if x0 =? 6 then Some DR_LORA_SF6
  else if x0 =? 7 then Some DR_LORA_SF7 else if x0 =? 8 then Some DR_LORA_SF8
  else if x0 =? 9 then Some DR_LORA_SF9 else if x0 =? 10 then Some DR_LORA_SF10
  else if x0 =? 11 then Some DR_LORA_SF11 else if x0 =? 12 then Some DR_LORA_SF12
  else None.
Definition datr_bandwidth (x1 : Z) : option Z :=
  if x1 =? 125 then Some BW_125KHZ else if x1 =? 250 then Some BW_250KHZ
  else if x1 =? 500 then Some BW_500KHZ else None.
Definition codr_coderate (str : list Z) : option Z :=
  let eqs (s : string) := bool_decide (str = bytes_of_string s) in
  if eqs "4/5"%string then Some CR_LORA_4_5
  else if eqs "4/6"%string then Some CR_LORA_4_6
  else if eqs "2/3"%string then Some CR_LORA_4_6
  else if eqs "4/7"%string then Some CR_LORA_4_7
  else if eqs "4/8"%string then Some CR_LORA_4_8
  else if eqs "1/2"%string then Some CR_LORA_4_8
  else None.
Definition tx_preamble (min std : Z) (obj : JSON_Object) : txpk Z :=
  match txpk_field obj "prea" with
  | Some val => i ← to_s32 (json_value_get_number (Some val)); Go (u16 (if min <=? i then i else min))
  | None => Go std
  end.

(** The modulation and its parameters. *)
Record tx_modu := Modu {
  m_modulation : Z; m_datarate : Z; m_bandwidth : Z; m_coderate : Z; m_invert_pol : bool; m_f_dev : Z; m_preamble : Z }.
Definition lora_params (obj : JSON_Object) : txpk tx_modu :=
  str ← mandatory (field_string obj "datr");
  '(x0, x1) ← mandatory (scan_datr str);
  datarate ← mandatory (datr_datarate x0);
  bandwidth ← mandatory (datr_bandwidth x1);
  str ← mandatory (field_string obj "codr");
  coderate ← mandatory (codr_coderate str);
  let invert_pol := flag obj "ipol" in
  preamble ← tx_preamble MIN_LORA_PREAMB STD_LORA_PREAMB obj;
  Go (Modu MOD_LORA datarate bandwidth coderate invert_pol 0 preamble).
Definition fsk_params (obj : JSON_Object) : txpk tx_modu :=
  val ← mandatory (txpk_field obj "datr");
  datarate ← to_u32 (json_value_get_number (Some val));
  val ← mandatory (txpk_field obj "fdev");
  f_dev ← to_u8 (nmap (λ x, ddiv x (dbl_of_Z 1000)) (json_value_get_number (Some val)));
  preamble ← tx_preamble MIN_FSK_PREAMB STD_FSK_PREAMB obj;
  Go (Modu MOD_FSK datarate 0 0 false f_dev preamble).

(** The packet, its class, and whether it is sent at once. *)
Definition parse_txpk (conf : fwd_conf) (ref : option tref) (obj : JSON_Object) : txpk (lgw_pkt_tx_s * jit_pkt_type_e) :=
  '(count_us, downlink_type, sent_immediate) ← tx_time ref obj;
  let no_crc := flag obj "ncrc" in
  let no_header := flag obj "nhdr" in
  val ← mandatory (txpk_field obj "freq");
  freq_hz ← to_u32 (nmap (dmul (dbl_of_Z 1000000)) (json_value_get_number (Some val)));
  val ← mandatory (txpk_field obj "rfch");
  rf_chain ← to_u8 (json_value_get_number (Some val));
  enabled ← computed (buf_get (tx_enable conf) rf_chain);
  _ ← (if (enabled : bool) then Go () else Drop None);
  rf_power ← match txpk_field obj "powe" with
             | Some val => p ← to_s8 (json_value_get_number (Some val)); Go (s8 (p - antenna_gain conf))
             | None => Go 0
             end;
  str ← mandatory (field_string obj "modu");
  modu ← (if bool_decide (str = bytes_of_string "LORA") then lora_params obj
          else if bool_decide (str = bytes_of_string "FSK") then fsk_params obj
          else Drop None);
  val ← mandatory (txpk_field obj "size");
  size ← to_u16 (json_value_get_number (Some val));
  str ← mandatory (field_string obj "data");
  '(_, payload) ← computed (b64_to_bin (Some str) (Z.of_nat (List.length str)) (Some (Tx.payload Tx.zero)) 256);
  payload ← mandatory payload;
  Go ({| Tx.freq_hz := freq_hz; Tx.tx_mode := if (sent_immediate : bool) then IMMEDIATE else TIMESTAMPED;
         Tx.count_us := count_us; Tx.rf_chain := rf_chain; Tx.rf_power := rf_power; Tx.modulation := m_modulation modu;
         Tx.freq_offset := 0; Tx.bandwidth := m_bandwidth modu; Tx.datarate := m_datarate modu;
         Tx.coderate := m_coderate modu; Tx.invert_pol := m_invert_pol modu; Tx.f_dev := m_f_dev modu;
         Tx.preamble := m_preamble modu; Tx.no_crc := no_crc; Tx.no_header := no_header; Tx.size := size;
         Tx.payload := payload |}, downlink_type).

(** ** Queueing *)

Definition set_power (w : Z) (p : lgw_pkt_tx_s) : lgw_pkt_tx_s :=
  {| Tx.freq_hz := Tx.freq_hz p; Tx.tx_mode := Tx.tx_mode p; Tx.count_us := Tx.count_us p; Tx.rf_chain := Tx.rf_chain p;
     Tx.rf_power := w; Tx.modulation := Tx.modulation p; Tx.freq_offset := Tx.freq_offset p;
     Tx.bandwidth := Tx.bandwidth p; Tx.datarate := Tx.datarate p; Tx.coderate := Tx.coderate p;
     Tx.invert_pol := Tx.invert_pol p; Tx.f_dev := Tx.f_dev p; Tx.preamble := Tx.preamble p;
     Tx.no_crc := Tx.no_crc p; Tx.no_header := Tx.no_header p; Tx.size := Tx.size p; Tx.payload := Tx.payload p |}.

Section Down.
Context {H : Type} (cc : concentrator H) (conf : fwd_conf).
Context (qsort : ∀ A, (A → A → Z) → list A → list A) (sw : Z).

(** The checks of the frequency and of the power: an error, or a warning with
    its value and the packet with the power of the table. *)
Definition check_tx (pkt : lgw_pkt_tx_s) : outcome (jit_error_e + jit_error_e * Z * lgw_pkt_tx_s) :=
  fmin ← buf_get (tx_freq_min conf) (Tx.rf_chain pkt);
  fmax ← buf_get (tx_freq_max conf) (Tx.rf_chain pkt);
  if (Tx.freq_hz pkt <? fmin) || (fmax <? Tx.freq_hz pkt) then Ret (inl JIT_ERROR_TX_FREQ)
  else
    '(i, tx_lut_idx) ← get_tx_gain_lut_index (txlut conf) (Tx.rf_chain pkt) (Tx.rf_power pkt);
    lut ← buf_get (txlut conf) (Tx.rf_chain pkt);
    e ← buf_get (Gain.lut lut) tx_lut_idx;
    let w := Gain.rf_power e in
    if (i <? 0) || negb (w =? Tx.rf_power pkt) then Ret (inr (JIT_ERROR_TX_POWER, w, set_power w pkt))
    else Ret (inr (JIT_ERROR_OK, 0, pkt)).

Definition queue_downlink (token_h token_l : Z) (pkt : lgw_pkt_tx_s) (downlink_type : jit_pkt_type_e) : fprog H () :=
  checked ← of_outcome (check_tx pkt);
  match checked with
  | inl e => send_tx_ack conf token_h token_l e 0
  | inr (warning_result, warning_value, pkt) =>
    now ← on_hal (get_instcnt cc);
    q ← get_queue (Tx.rf_chain pkt);
    '(jit_result, q, _) ← of_outcome (jit_enqueue qsort sw q now (Some pkt) downlink_type);
    _ ← put_queue (Tx.rf_chain pkt) q;
    let jit_result := if negb (bool_decide (jit_result = JIT_ERROR_OK)) then jit_result else warning_result in
    _ ← bump meas_nb_tx_requested 1;
    send_tx_ack conf token_h token_l jit_result warning_value
  end.

(** A datagram with a downlink, of [msg_len] bytes; the text ends at the first
    NUL. *)
Definition pull_resp (d : list Z) : fprog H () :=
  let msg_len := Z.of_nat (List.length d) in
  token_h ← of_outcome (buf_get d 1);
  token_l ← of_outcome (buf_get d 2);
  match json_parse_string_with_comments (c_string (drop 4 d)) with
  | NoFuel => spin
  | Null => mret ()
  | Value root_val =>
    match json_object_get_object (json_value_get_object (Some root_val)) (bytes_of_string "txpk") with
    | None => mret ()
    | Some txpk_obj =>
      valid ← gets gps_ref_valid;
      ref ← gets time_ref;
      let local_ref := if gps_enabled conf && valid then Some ref else None in
      match parse_txpk conf local_ref txpk_obj with
      | Drop None => mret ()
      | Drop (Some e) => send_tx_ack conf token_h token_l e 0
      | Exits c => of_outcome (Exit c)
      | Undefined => wrong
      | Go (txpkt, downlink_type) =>
        _ ← bump meas_dw_dgram_rcv 1;
        _ ← bump meas_dw_network_byte msg_len;
        _ ← bump meas_dw_payload_byte (Tx.size txpkt);
        queue_downlink token_h token_l txpkt downlink_type
      end
    end
  end.

(** What the thread does with a datagram of at most 999 bytes; [token_h] and
    [token_l] are those of its last request. *)
Definition datagram_down (token_h token_l : Z) (d : list Z) : fprog H () :=
  if Z.of_nat (List.length d) <? 4 then mret ()
  else
    version ← of_outcome (buf_get d 0);
    id ← of_outcome (buf_get d 3);
    if negb (version =? PROTOCOL_VERSION) || (negb (id =? PKT_PULL_RESP) && negb (id =? PKT_PULL_ACK)) then mret ()
    else if id =? PKT_PULL_ACK then
      th ← of_outcome (buf_get d 1);
      tl ← of_outcome (buf_get d 2);
      if (th =? token_h) && (tl =? token_l) then
        acked ← gets req_ack;
        if (acked : bool) then mret ()
        else _ ← modify set_acked; bump meas_dw_ack_rcv 1
      else mret ()
    else pull_resp d.
End Down.
