(* ===== verification/DownlinkProps.v ===== *)
(** * Properties of the downlink thread

    What the forwarder makes of a datagram of the server: a well-formed request
    becomes exactly the packet it describes; whatever a datagram holds, only
    packets within the limits of an enabled chain reach a queue, and the server
    gets one answer at most. *)
From Stdlib Require Import ZArith Lia String.
From stdpp Require Import base list numbers strings.
From S2P Require Import Prelude Binary64 HalTypes Base64 JitQueue JitProps RegProg HalConf TimeRef Json JsonNum JsonProps Forward ForwardProps Downlink.

Open Scope Z_scope.
Open Scope list_scope.

(** ** Frequencies *)

Lemma scale_unique p n d s :
  0 <= p → 0 < n → 0 < d → 0 <= s → d * 2 ^ p <= n * 2 ^ s < d * 2 ^ (p + 1) → scale p n d = s.
Proof.
  intros Hp Hn Hd Hs [L U]. pose proof (scale_bound p n d Hp ltac:(lia) Hd) as L'.
  pose proof (scale_upper p n d Hp ltac:(lia) Hd) as U'. rewrite Z.abs_eq in * by lia. set (t := scale p n d) in *.
  rewrite (Z.pow_add_r 2 p 1) in * by lia. change (2 ^ 1) with 2 in *. assert (0 < 2 ^ p) by lia. assert (0 < 2 ^ s) by lia.
  assert (Hst : ∀ u v, 0 <= u → 0 <= v → d * 2 ^ p <= n * 2 ^ u → n * 2 ^ v < d * (2 ^ p * 2) → v <= u).
  { intros u v Hu Hv A B. apply Z.lt_succ_r. apply (Z.pow_lt_mono_r_iff 2); [lia|lia|]. rewrite Z.pow_succ_r by lia.
    assert (0 < 2 ^ u ∧ 0 < 2 ^ v) by lia. nia. }
  destruct (decide (0 <= t)) as [Ht|Ht].
  - rewrite (Z.max_r 0 t), (Z.max_l 0 (- t)), Z.mul_1_r in * by lia. apply Z.le_antisymm; apply Hst; lia.
  - exfalso. rewrite (Z.max_l 0 t), (Z.max_r 0 (- t)), Z.mul_1_r in * by lia.
    assert (2 <= 2 ^ (- t)) by (apply (Z.pow_le_mono_r 2 1); lia). assert (1 <= 2 ^ s) by lia. nia.
Qed.
Lemma rnd_at n d s :
  0 < n → 0 < d → 0 <= s → d * 2 ^ 52 <= n * 2 ^ s < d * 2 ^ 53 → rnd n d = Dbl (rne (n * 2 ^ s) d) (- s).
Proof.
  intros Hn Hd Hs H. unfold rnd, round_to. rewrite (proj2 (Z.eqb_neq n 0)) by lia.
  rewrite (scale_unique 52 n d s) by (done || lia). cbv zeta.
  by rewrite (Z.max_r 0 s), (Z.max_l 0 (- s)), Z.mul_1_r by lia.
Qed.

(** The frequencies that a decimal number of megahertz designates exactly. *)
Definition mhz_exact (f : Z) : Prop := 2 ^ 28 < f < 512000000 ∨ 2 ^ 29 < f < 1024000000.
Lemma mhz_to_hz_at k f :
  28 <= k <= 29 → 2 ^ k < f < 2 ^ (k - 19) * 1000000 → dtrunc (dmul (dbl_of_Z 1000000) (rnd f 1000000)) = f.
Proof.
  intros Hk Hf. assert (Ek : k = 28 ∨ k = 29) by lia.
  rewrite (rnd_at f 1000000 (72 - k)) by (destruct Ek as [-> | ->]; cbn in *; lia).
  set (m := rne _ _). pose proof (rne_err (f * 2 ^ (72 - k)) 1000000 ltac:(lia)) as E. fold m in E.
  set (x := Dbl m (- (72 - k))).
  assert (Hm : 0 < m) by (destruct Ek as [-> | ->]; cbn in *; lia).
  assert (EN : num x = m ∧ den x = 2 ^ (72 - k)).
  { unfold num, den, x. cbn [mant expo]. rewrite Z.max_l, Z.opp_involutive, Z.max_r by lia. by rewrite Z.mul_1_r. }
  unfold dmul. pose proof (dval_of_Z 1000000 ltac:(lia)) as D. unfold dval in D. rewrite Z.mul_1_r in D.
  pose proof (den_pos (dbl_of_Z 1000000)). destruct EN as [-> ->].
  rewrite (rnd_ratio _ _ (1000000 * m) (2 ^ (72 - k))) by (rewrite ?D; lia || nia).
  rewrite (rnd_at (1000000 * m) (2 ^ (72 - k)) (52 - k)) by (destruct Ek as [-> | ->]; cbn in *; lia).
  rewrite (rne_close _ _ (f * 2 ^ (52 - k))) by (destruct Ek as [-> | ->]; cbn in *; lia).
  unfold dtrunc, num, den. cbn [mant expo]. rewrite Z.max_l, Z.opp_involutive, Z.max_r, Z.mul_1_r by lia.
  apply Z.quot_mul. lia.
Qed.
Lemma mhz_to_hz f : mhz_exact f → dtrunc (dmul (dbl_of_Z 1000000) (rnd f 1000000)) = f.
Proof. intros [H|H]; [apply (mhz_to_hz_at 28)|apply (mhz_to_hz_at 29)]; lia. Qed.

(** ** Requests *)

(** A LoRa downlink as a server specifies it: the value of the counter, the
    frequency in Hz, the chain, the power in dBm at the antenna, the spreading
    factor, the bandwidth in kHz, the denominator of the coding rate, flags, the
    length of the preamble (when it is given) and the payload. *)
Record request := Request {
  rq_tmst : Z; rq_freq : Z; rq_rfch : Z; rq_powe : Z; rq_sf : Z; rq_bw : Z; rq_cr : Z;
  rq_ipol : bool; rq_ncrc : bool; rq_nhdr : bool; rq_prea : option Z; rq_data : list Z }.

Definition json_int (z : Z) : JSON_Value := JSONNumber (Finite (dbl_of_Z z)).
(** A flag: given, or absent when it is false. *)
Definition has_flag (obj : JSON_Object) (name : string) (b : bool) : Prop :=
  txpk_field obj name = Some (JSONBoolean b) ∨ b = false ∧ txpk_field obj name = None.
Definition datr_text (sf bw : Z) : list Z := bytes_of_string "SF" ++ print_d sf ++ bytes_of_string "BW" ++ print_d bw.
Definition codr_text (cr : Z) : list Z := bytes_of_string "4/" ++ print_d cr.

(** The members of a JSON object that describe the request, in any order and
    among any others. *)
Definition describes (obj : JSON_Object) (r : request) : Prop :=
  has_flag obj "imme" false ∧ txpk_field obj "tmst" = Some (json_int (rq_tmst r)) ∧
  has_flag obj "ncrc" (rq_ncrc r) ∧ has_flag obj "nhdr" (rq_nhdr r) ∧
  txpk_field obj "freq" = Some (JSONNumber (Finite (rnd (rq_freq r) 1000000))) ∧
  txpk_field obj "rfch" = Some (json_int (rq_rfch r)) ∧ txpk_field obj "powe" = Some (json_int (rq_powe r)) ∧
  txpk_field obj "modu" = Some (JSONString (bytes_of_string "LORA")) ∧
  txpk_field obj "datr" = Some (JSONString (datr_text (rq_sf r) (rq_bw r))) ∧
  txpk_field obj "codr" = Some (JSONString (codr_text (rq_cr r))) ∧
  has_flag obj "ipol" (rq_ipol r) ∧ txpk_field obj "prea" = json_int <$> rq_prea r ∧
  txpk_field obj "size" = Some (json_int (Z.of_nat (List.length (rq_data r)))) ∧
  txpk_field obj "data" = Some (JSONString (Base64.text (rq_data r))).

(** A request the radio can serve. *)
Definition request_ok (r : request) : Prop :=
  is_u32 (rq_tmst r) ∧ mhz_exact (rq_freq r) ∧ is_u8 (rq_rfch r) ∧ - 2 ^ 7 <= rq_powe r < 2 ^ 7 ∧
  5 <= rq_sf r <= 12 ∧ rq_bw r ∈ [125; 250; 500] ∧ 5 <= rq_cr r <= 8 ∧
  (∀ n, rq_prea r = Some n → 6 <= n < 2 ^ 16) ∧ Base64.bytes (rq_data r) ∧ (List.length (rq_data r) <= 256)%nat.

(** The packet it stands for. *)
Definition packet_of (conf : fwd_conf) (r : request) : lgw_pkt_tx_s :=
  {| Tx.freq_hz := rq_freq r; Tx.tx_mode := TIMESTAMPED; Tx.count_us := rq_tmst r; Tx.rf_chain := rq_rfch r;
     Tx.rf_power := s8 (rq_powe r - antenna_gain conf); Tx.modulation := MOD_LORA; Tx.freq_offset := 0;
     Tx.bandwidth := if rq_bw r =? 125 then BW_125KHZ else if rq_bw r =? 250 then BW_250KHZ else BW_500KHZ;
     Tx.datarate := rq_sf r; Tx.coderate := rq_cr r - 4; Tx.invert_pol := rq_ipol r; Tx.f_dev := 0;
     Tx.preamble := default STD_LORA_PREAMB (rq_prea r); Tx.no_crc := rq_ncrc r; Tx.no_header := rq_nhdr r;
     Tx.size := Z.of_nat (List.length (rq_data r));
     Tx.payload := rq_data r ++ replicate (256 - List.length (rq_data r)) 0 |}.

Lemma dtrunc_int z : Z.abs z < 2 ^ 53 → dtrunc (dbl_of_Z z) = z.
Proof.
  intros Hz. pose proof (dval_of_Z z Hz) as D. unfold dval in D. rewrite Z.mul_1_r in D.
  pose proof (den_pos (dbl_of_Z z)). unfold dtrunc. rewrite D. apply Z.quot_mul. lia.
Qed.
Lemma to_int_int lo hi z : lo <= z < hi → Z.abs z < 2 ^ 53 → to_int lo hi (json_value_get_number (Some (json_int z))) = Go z.
Proof.
  intros Hz Ha. cbn [json_value_get_number json_int to_int]. cbv zeta. rewrite dtrunc_int by done.
  by rewrite (proj2 (Z.leb_le _ _)), (proj2 (Z.ltb_lt _ _)) by lia.
Qed.
Lemma freq_read f : mhz_exact f →
  to_u32 (nmap (dmul (dbl_of_Z 1000000)) (json_value_get_number (Some (JSONNumber (Finite (rnd f 1000000)))))) = Go f.
Proof.
  intros Hf. cbn [json_value_get_number nmap]. unfold to_u32, to_int. rewrite mhz_to_hz by done. cbv zeta.
  by rewrite (proj2 (Z.leb_le _ _)), (proj2 (Z.ltb_lt _ _)) by (destruct Hf; lia).
Qed.
Lemma flag_given obj name b : has_flag obj name b → flag obj name = b.
Proof. unfold flag. intros [-> |[-> ->]]; [by destruct b|done]. Qed.
Lemma imme_not_given obj : has_flag obj "imme" false → (json_object_get_boolean obj (bytes_of_string "imme") =? 1) = false.
Proof. unfold has_flag, txpk_field, json_object_get_boolean. by intros [-> |[_ ->]]. Qed.

(** The texts of the data rate and of the coding rate. *)
Lemma datr_read sf bw :
  5 <= sf <= 12 → bw ∈ [125; 250; 500] →
  scan_datr (datr_text sf bw) = Some (sf, bw) ∧ datr_datarate sf = Some sf ∧
  datr_bandwidth bw = Some (if bw =? 125 then BW_125KHZ else if bw =? 250 then BW_250KHZ else BW_500KHZ).
Proof.
  intros Hsf Hbw. assert (Hs : sf ∈ [5; 6; 7; 8; 9; 10; 11; 12]) by (rewrite !elem_of_cons; lia).
  repeat (apply elem_of_cons in Hbw as [->|Hbw]; [|]); [..|by apply not_elem_of_nil in Hbw];
  repeat (apply elem_of_cons in Hs as [->|Hs]; [done|]); by apply not_elem_of_nil in Hs.
Qed.
Lemma codr_read cr : 5 <= cr <= 8 → codr_coderate (codr_text cr) = Some (cr - 4).
Proof.
  intros H. assert (Hc : cr ∈ [5; 6; 7; 8]) by (rewrite !elem_of_cons; lia).
  repeat (apply elem_of_cons in Hc as [->|Hc]; [done|]). by apply not_elem_of_nil in Hc.
Qed.
Lemma text_bytes data : Base64.bytes (Base64.text data).
Proof.
  unfold Base64.text. apply Forall_app. split; [apply encode_bytes|].
  unfold Rfc4648.padding. destruct (List.length data mod 3)%nat as [|[|[|]]]; repeat constructor; lia.
Qed.
Lemma length_text data : (List.length (Base64.text data) <= 2 * List.length data + 2)%nat.
Proof.
  unfold Base64.text. rewrite length_app.
  assert (List.length (Rfc4648.padding data) <= 2)%nat.
  { unfold Rfc4648.padding. by destruct (List.length data mod 3)%nat as [|[|[|]]]; cbn; lia. }
  enough (List.length (Rfc4648.encode data) <= 2 * List.length data)%nat by lia. clear H.
  induction data as [l IH] using (induction_ltof1 _ (@List.length Z)). unfold ltof in IH.
  destruct l as [|a [|b [|c l]]]; [cbn; lia..|]. specialize (IH l ltac:(cbn; lia)).
  cbn [Rfc4648.encode]. cbv zeta. cbn [List.length] in *. lia.
Qed.
Lemma data_read data :
  Base64.bytes data → (List.length data <= 256)%nat →
  b64_to_bin (Some (Base64.text data)) (Z.of_nat (List.length (Base64.text data))) (Some (Tx.payload Tx.zero)) 256 =
    Ret (Z.of_nat (List.length data), Some (data ++ replicate (256 - List.length data) 0)).
Proof.
  intros Hb HL. rewrite <- (app_nil_r (Base64.text data)) at 1. pose proof (length_text data).
  rewrite b64_to_bin_ok; [|apply text_bytes|lia|by cbn [Tx.payload Tx.zero]; rewrite length_replicate].
  cbv zeta. rewrite strip_pad_text, dec_len_encode, decode_encode by done.
  rewrite (proj2 (Z.eqb_neq _ _)) by (by apply encode_mod4).
  rewrite (proj2 (Z.ltb_ge _ _)), andb_false_r by lia. cbn [exit_of mbind outcome_bind Tx.payload Tx.zero].
  by rewrite drop_replicate.
Qed.

Lemma preamble_read obj r :
  txpk_field obj "prea" = json_int <$> rq_prea r → (∀ n, rq_prea r = Some n → 6 <= n < 2 ^ 16) →
  tx_preamble MIN_LORA_PREAMB STD_LORA_PREAMB obj = Go (default STD_LORA_PREAMB (rq_prea r)).
Proof.
  intros E H. unfold tx_preamble. rewrite E. destruct (rq_prea r) as [n|]; cbn [fmap option_fmap option_map default]; [|done].
  specialize (H n eq_refl). unfold to_s32. rewrite to_int_int by lia. cbn [mbind txpk_bind]. unfold MIN_LORA_PREAMB.
  rewrite (proj2 (Z.leb_le _ _)) by lia. by rewrite u16_id by lia.
Qed.
Lemma lora_params_read obj r :
  describes obj r → request_ok r →
  lora_params obj = Go (Modu MOD_LORA (rq_sf r) (Tx.bandwidth (packet_of (Conf [] [] [] [] 0 [] false false) r)) (rq_cr r - 4)
                          (rq_ipol r) 0 (default STD_LORA_PREAMB (rq_prea r))).
Proof.
  intros (_ & _ & _ & _ & _ & _ & _ & _ & Ed & Ec & Fi & Ep & _) (_ & _ & _ & _ & Hsf & Hbw & Hcr & Hp & _).
  destruct (datr_read _ _ Hsf Hbw) as (D1 & D2 & D3). unfold lora_params, field_string, json_object_get_string.
  unfold txpk_field in Ed, Ec. rewrite Ed. cbn [json_value_get_string mandatory mbind txpk_bind]. rewrite D1.
  cbn [mandatory mbind txpk_bind]. rewrite D2. cbn [mandatory mbind txpk_bind]. rewrite D3.
  cbn [mandatory mbind txpk_bind]. rewrite Ec. cbn [json_value_get_string mandatory mbind txpk_bind].
  rewrite codr_read by done. cbn [mandatory mbind txpk_bind]. rewrite (flag_given _ _ _ Fi).
  by rewrite (preamble_read obj r).
Qed.
(** A described request is understood, on an enabled chain. *)
Lemma request_read conf ref obj r :
  describes obj r → request_ok r → tx_enable conf !! Z.to_nat (rq_rfch r) = Some true →
  parse_txpk conf ref obj = Go (packet_of conf r, JIT_PKT_TYPE_DOWNLINK_CLASS_A).
Proof.
  intros D O En. pose proof (lora_params_read obj r D O) as EL.
  destruct D as (Fim & Et & Fc & Fh & Ef & Er & Ew & Em & _ & _ & _ & _ & Es & Edata).
  destruct O as (Ht & Hf & Hr & Hw & _ & _ & _ & _ & Hb & HL). unfold parse_txpk, tx_time.
  assert (to_u32 (json_value_get_number (Some (json_int (rq_tmst r)))) = Go (rq_tmst r)) as T1 by (apply to_int_int; lia).
  assert (to_u8 (json_value_get_number (Some (json_int (rq_rfch r)))) = Go (rq_rfch r)) as T2 by (apply to_int_int; lia).
  assert (to_s8 (json_value_get_number (Some (json_int (rq_powe r)))) = Go (rq_powe r)) as T3 by (apply to_int_int; lia).
  assert (to_u16 (json_value_get_number (Some (json_int (Z.of_nat (List.length (rq_data r)))))) =
    Go (Z.of_nat (List.length (rq_data r)))) as T4 by (apply to_int_int; lia).
  rewrite (imme_not_given _ Fim), Et, T1. cbn [mbind txpk_bind].
  rewrite (flag_given _ _ _ Fc), (flag_given _ _ _ Fh), Ef. cbv zeta. cbn [mandatory mbind txpk_bind].
  rewrite freq_read by done. cbn [mbind txpk_bind].
  rewrite Er. cbn [mandatory mbind txpk_bind]. rewrite T2. cbn [mbind txpk_bind].
  rewrite (buf_get_lookup _ _ true) by (done || lia). cbn [computed mbind txpk_bind].
  rewrite Ew, T3. cbn [mbind txpk_bind].
  unfold field_string, json_object_get_string. unfold txpk_field in Em, Edata. rewrite Em.
  cbn [json_value_get_string mandatory mbind txpk_bind]. rewrite bool_decide_eq_true_2 by done. rewrite EL.
  cbn [mbind txpk_bind]. rewrite Es. cbn [mandatory mbind txpk_bind]. rewrite T4.
  cbn [mbind txpk_bind]. rewrite Edata. cbn [json_value_get_string mandatory mbind txpk_bind].
  rewrite data_read by done. done.
Qed.

(** ** Queueing *)

(** A configuration of the forwarder as its parser leaves it, for two chains. *)
Definition conf_ok (conf : fwd_conf) : Prop :=
  length (net_mac conf) = 8%nat ∧ length (tx_enable conf) = 2%nat ∧ length (tx_freq_min conf) = 2%nat ∧
  length (tx_freq_max conf) = 2%nat ∧ length (txlut conf) = 2%nat ∧
  Forall (λ l, lut_ok l ∧ 1 <= Gain.size l) (txlut conf).

(** A packet within the limits of its chain. *)
Definition within_limits (conf : fwd_conf) (p : lgw_pkt_tx_s) : Prop :=
  ∃ fmin fmax l,
    tx_freq_min conf !! Z.to_nat (Tx.rf_chain p) = Some fmin ∧ tx_freq_max conf !! Z.to_nat (Tx.rf_chain p) = Some fmax ∧
    fmin <= Tx.freq_hz p <= fmax ∧ txlut conf !! Z.to_nat (Tx.rf_chain p) = Some l ∧ Tx.rf_power p ∈ powers l.

Lemma array_get_inv {A} (l : list A) i x : buf_get l i = Ret x → 0 <= i ∧ l !! Z.to_nat i = Some x.
Proof. unfold buf_get. destruct (Z.ltb_spec i 0); [done|]. destruct (l !! Z.to_nat i); [|done]. by intros [= ->]. Qed.
Lemma out_bind_inv {A B} (m : outcome A) (f : A → outcome B) b : m ≫= f = Ret b → ∃ a, m = Ret a ∧ f a = Ret b.
Proof. destruct m; cbn; [eauto|done..]. Qed.

Lemma set_power_same p : set_power (Tx.rf_power p) p = p.
Proof. by destruct p. Qed.
(** The table holds the power the search selects. *)
Lemma selected_power conf c w i idx l e :
  conf_ok conf → txlut conf !! Z.to_nat c = Some l → 0 <= c → is_s8 w →
  get_tx_gain_lut_index (txlut conf) c w = Ret (i, idx) → Gain.lut l !! Z.to_nat idx = Some e → Gain.rf_power e ∈ powers l.
Proof.
  intros (_ & _ & _ & _ & _ & Hl) El Hc Hw E Ee. rewrite Forall_forall in Hl.
  destruct (Hl l) as [Hok H1]; [by eapply list_elem_of_lookup_2|].
  assert (Hi : (Z.to_nat idx < Z.to_nat (Gain.size l))%nat).
  { destruct (get_index _ c l w El Hc Hok Hw) as [[E' _]|(j & E' & _ & p & Ep & _)]; rewrite E in E'.
    - injection E' as -> ->. lia.
    - injection E' as -> ->. apply lookup_lt_Some in Ep. unfold powers in Ep. rewrite length_map, length_take in Ep. lia. }
  unfold powers. apply list_elem_of_fmap. exists e. split; [done|]. apply list_elem_of_lookup. exists (Z.to_nat idx).
  by rewrite lookup_take_lt.
Qed.
Lemma powers_s8 conf c l w : conf_ok conf → txlut conf !! c = Some l → w ∈ powers l → is_s8 w.
Proof.
  intros (_ & _ & _ & _ & _ & Hl) El Hw. rewrite Forall_forall in Hl. destruct (Hl l) as [(_ & _ & H) _];
    [by eapply list_elem_of_lookup_2|]. rewrite Forall_forall in H. unfold powers in Hw.
  apply list_elem_of_fmap in Hw as (e & -> & He). apply H. apply list_elem_of_lookup in He as [k Hk].
  apply lookup_take_Some in Hk as [Hk _]. by eapply list_elem_of_lookup_2.
Qed.
(** The checks: a frequency out of the limits is an error, and a packet that
    passes is within them, with the power of an entry of the table. *)
Lemma check_tx_inv conf p r :
  conf_ok conf → is_s8 (Tx.rf_power p) → check_tx conf p = Ret r →
  r = inl JIT_ERROR_TX_FREQ ∨
  ∃ e v w, r = inr (e, v, set_power w p) ∧ within_limits conf (set_power w p) ∧ is_s8 v ∧
    (e = JIT_ERROR_OK ∨ e = JIT_ERROR_TX_POWER ∧ v = w).
Proof.
  intros Hc Hp. unfold check_tx.
  intros (fmin & [H0 E1]%array_get_inv & (fmax & [_ E2]%array_get_inv & E)%out_bind_inv)%out_bind_inv. revert E.
  destruct ((Tx.freq_hz p <? fmin) || (fmax <? Tx.freq_hz p)) eqn:Ef; [intros [= <-]; by left|].
  apply orb_false_iff in Ef as [F1%Z.ltb_ge F2%Z.ltb_ge].
  intros ([i idx] & Ei & (l & [_ El]%array_get_inv & (e & [_ Ee]%array_get_inv & E)%out_bind_inv)%out_bind_inv)%out_bind_inv.
  pose proof (selected_power conf _ _ i idx l e Hc El H0 Hp Ei Ee) as Hw.
  assert (Hlim : within_limits conf (set_power (Gain.rf_power e) p)) by (by exists fmin, fmax, l).
  pose proof (powers_s8 _ _ _ _ Hc El Hw) as Hs. right. cbv zeta in E.
  destruct (_ || _) eqn:Eb; injection E as <-.
  - exists JIT_ERROR_TX_POWER, (Gain.rf_power e), (Gain.rf_power e). by split_and!; [| | |right].
  - apply orb_false_iff in Eb as [_ Eb%negb_false_iff%Z.eqb_eq].
    exists JIT_ERROR_OK, 0, (Gain.rf_power e). rewrite Eb at 1. rewrite set_power_same.
    split_and!; [done|done|done|by left].
Qed.

Section Queue.
Context {H : Type} (cc : concentrator H) (conf : fwd_conf).
Context (qsort : ∀ A, (A → A → Z) → list A → list A) (sw : Z).
Context (conf_good : conf_ok conf).
Implicit Types s : fwd_state H.

(** What happens to a packet: it is refused with an answer, or offered to the
    queue of its chain and answered; nothing else happens. *)
Lemma queue_downlink_inv th tl pkt ty s s' :
  is_s8 (Tx.rf_power pkt) → queue_downlink cc conf qsort sw th tl pkt ty s = Done s' () →
  s' = answered conf th tl JIT_ERROR_TX_FREQ 0 s ∨
  ∃ w v warning h now q e q' p',
    within_limits conf (set_power w pkt) ∧ get_instcnt cc (hal s) = Done h now ∧
    jit_queue s !! Z.to_nat (Tx.rf_chain pkt) = Some q ∧
    jit_enqueue qsort sw q now (Some (set_power w pkt)) ty = Ret (e, q', p') ∧
    (warning = JIT_ERROR_OK ∨ warning = JIT_ERROR_TX_POWER ∧ v = w) ∧
    s' = answered conf th tl (if bool_decide (e = JIT_ERROR_OK) then warning else e) v
           (counted meas_nb_tx_requested 1 (set_queues (<[Z.to_nat (Tx.rf_chain pkt) := q']> (jit_queue s)) (set_hal s h))).
Proof.
  intros Hp. unfold queue_downlink. intros (s0 & r & E0 & E)%bind_inv.
  destruct (check_tx conf pkt) as [r'| |] eqn:Ec; [|done..]. cbn [of_outcome] in E0. injection E0 as <- <-.
  destruct (check_tx_inv conf pkt r' conf_good Hp Ec) as [->|(warning & v & w & -> & Hlim & Hv & Hw)].
  { left. by apply send_tx_ack_inv in E. }
  right. revert E. intros (s1 & now & E1 & (s2 & q & E2 & E)%bind_inv)%bind_inv.
  unfold on_hal, zoom in E1. destruct (get_instcnt cc (hal s)) as [h now'| | |] eqn:En; try done. injection E1 as <- <-.
  apply get_queue_inv in E2 as (-> & _ & Eq). cbn [Tx.rf_chain set_power] in *.
  revert E. intros (s3 & [[e q'] p'] & E3 & (s4 & [] & E4 & (s5 & [] & E5 & E6)%bind_inv)%bind_inv)%bind_inv.
  destruct (jit_enqueue qsort sw q now' _ ty) as [[[e' q1] p1]| |] eqn:Ej; [|done..]. cbn [of_outcome] in E3. injection E3 as <- <- <- <-.
  apply put_queue_inv in E4. rewrite bump_done in E5. injection E5 as <-. apply send_tx_ack_inv in E6.
  exists w, v, warning, h, now', q, e', q1, p1. split_and!; [done..|]. rewrite E6, E4.
  by destruct (bool_decide (e' = JIT_ERROR_OK)).
Qed.
End Queue.

(** ** What a datagram can bring *)

(** Decoding keeps the length of the buffer. *)
Lemma buf_set_length {A} (l l' : list A) i v : buf_set l i v = Ret l' → length l' = length l.
Proof. unfold buf_set. destruct (_ && _); [|done]. intros [= <-]. apply length_insert. Qed.
Ltac out_inv :=
  repeat match goal with
  | E : _ ≫= _ = Ret _ |- _ => apply out_bind_inv in E as (? & ? & E)
  | E : buf_set _ _ _ = Ret _ |- _ => apply buf_set_length in E
  end.
Lemma dec_block_length inp i o o' : dec_block inp i o = Ret o' → length o' = length o.
Proof. unfold dec_block. intros E. out_inv. congruence. Qed.
Lemma dec_last_length inp i n o o' : dec_last inp i n o = Ret o' → length o' = length o.
Proof.
  unfold dec_last. destruct (n =? 1); [|destruct (n =? 2)]; intros E; [out_inv; congruence..|by injection E as <-].
Qed.
Lemma dec_blocks_length inp n i o o' : for_loop n i (dec_block inp) o = Ret o' → length o' = length o.
Proof.
  revert i o. induction n as [|n IH]; intros i o E; [by injection E as <-|]. cbn [for_loop] in E. out_inv.
  apply IH in E. match goal with D : dec_block _ _ _ = _ |- _ => apply dec_block_length in D end. congruence.
Qed.
Lemma b64_to_bin_length inp n o m r o' : b64_to_bin inp n (Some o) m = Ret (r, o') → ∃ l, o' = Some l ∧ length l = length o.
Proof.
  assert (Hn : ∀ n, b64_to_bin_nopad inp n (Some o) m = Ret (r, o') → ∃ l, o' = Some l ∧ length l = length o).
  { intros k. unfold b64_to_bin_nopad. destruct inp as [inp|]; [|intros [= _ <-]; eauto].
    destruct (k =? 0); [intros [= _ <-]; eauto|]. cbv zeta. destruct (Z.rem k 4 =? 1); [intros [= _ <-]; eauto|].
    intros E. out_inv. revert E. destruct (m <? _); [intros [= _ <-]; eauto|]. intros E. out_inv.
    injection E as _ <-. eexists. split; [done|].
    match goal with D : dec_last _ _ _ _ = _, F : for_loop _ _ _ _ = _ |- _ =>
      apply dec_last_length in D; apply dec_blocks_length in F end. congruence. }
  unfold b64_to_bin. destruct inp as [l|]; [|intros [= _ <-]; eauto].
  destruct (_ && _); [|apply Hn]. intros E. out_inv. revert E. destruct (_ =? code_pad); [apply Hn|].
  intros E. out_inv. revert E. destruct (_ =? code_pad); apply Hn.
Qed.

Lemma tx_bind_inv {A B} (m : txpk A) (f : A → txpk B) b : m ≫= f = Go b → ∃ a, m = Go a ∧ f a = Go b.
Proof. destruct m; cbn; [eauto|done..]. Qed.
Lemma to_int_range lo hi x z : to_int lo hi x = Go z → lo <= z < hi.
Proof.
  unfold to_int. destruct x as [x|]; [|done]. cbv zeta. destruct (_ && _) eqn:E; [|done].
  apply andb_true_iff in E as [E1%Z.leb_le E2%Z.ltb_lt]. intros [= <-]. lia.
Qed.
Lemma computed_inv {A} (o : outcome A) a : computed o = Go a → o = Ret a.
Proof. destruct o; [by intros [= ->]|done..]. Qed.
Lemma mandatory_inv {A} (o : option A) a : mandatory o = Go a → o = Some a.
Proof. destruct o; [by intros [= ->]|done]. Qed.
Ltac tx_inv :=
  repeat match goal with
  | E : _ ≫= _ = Go _ |- _ => apply tx_bind_inv in E as (? & ? & E)
  | E : mandatory _ = Go _ |- _ => apply mandatory_inv in E
  | E : computed _ = Go _ |- _ => apply computed_inv in E
  | E : (let '(_, _) := ?p in _) = Go _ |- _ => destruct p
  | E : to_u8 _ = Go _ |- _ => apply to_int_range in E
  | E : to_u16 _ = Go _ |- _ => apply to_int_range in E
  | E : to_u32 _ = Go _ |- _ => apply to_int_range in E
  | E : to_s8 _ = Go _ |- _ => apply to_int_range in E
  | E : to_s32 _ = Go _ |- _ => apply to_int_range in E
  end.

(** The modulation the packet may have. *)
Definition modu_ok (modulation datarate bandwidth coderate : Z) : Prop :=
  modulation = MOD_LORA ∧ IS_LORA_DR datarate = true ∧ IS_LORA_BW bandwidth = true ∧ IS_LORA_CR coderate = true ∨
  modulation = MOD_FSK.
Lemma tx_preamble_range min std obj n :
  is_u16 std → tx_preamble min std obj = Go n → is_u16 n.
Proof.
  intros Hs. unfold tx_preamble. destruct (txpk_field obj "prea"); [|by intros [= <-]]. intros E. tx_inv.
  injection E as <-. apply u16_range.
Qed.
Lemma lora_params_ok obj m :
  lora_params obj = Go m →
  modu_ok (m_modulation m) (m_datarate m) (m_bandwidth m) (m_coderate m) ∧ is_u8 (m_modulation m) ∧ is_u8 (m_bandwidth m) ∧
  is_u32 (m_datarate m) ∧ is_u8 (m_coderate m) ∧ is_u16 (m_preamble m).
Proof.
  unfold lora_params. intros E. tx_inv. injection E as <-. cbn [m_modulation m_datarate m_bandwidth m_coderate m_preamble].
  match goal with E : tx_preamble _ _ _ = _ |- _ => apply tx_preamble_range in E; [|done] end.
  match goal with E : datr_datarate _ = _, E' : datr_bandwidth _ = _, E'' : codr_coderate _ = _ |- _ =>
    unfold datr_datarate in E; unfold datr_bandwidth in E'; unfold codr_coderate in E'' end.
  repeat case_match; simplify_eq; (split; [by left|]); split_and!; first [done|lia|by vm_compute].
Qed.
Lemma fsk_params_ok obj m :
  fsk_params obj = Go m →
  modu_ok (m_modulation m) (m_datarate m) (m_bandwidth m) (m_coderate m) ∧ is_u8 (m_modulation m) ∧ is_u8 (m_bandwidth m) ∧
  is_u32 (m_datarate m) ∧ is_u8 (m_coderate m) ∧ is_u16 (m_preamble m).
Proof.
  unfold fsk_params. intros E. tx_inv. injection E as <-. cbn [m_modulation m_datarate m_bandwidth m_coderate m_preamble].
  match goal with E : tx_preamble _ _ _ = _ |- _ => apply tx_preamble_range in E; [|done] end.
  split; [by right|]. split_and!; first [lia|done|by vm_compute].
Qed.

Lemma s8_is_s8 z : is_s8 (s8 z).
Proof. unfold is_s8, s8. pose proof (Z.mod_pos_bound (z + 2 ^ 7) (2 ^ 8)). lia. Qed.
Lemma time2cnt_u32 ref t base c : time2cnt ref t base = Ret c → is_u32 c.
Proof.
  unfold time2cnt. cbv zeta. generalize (dmul (dmul (dadd (dbl_of_Z (ts_sec t - ts_sec base))
    (dmul d1E_9 (dbl_of_Z (ts_nsec t - ts_nsec base)))) TS_CPS) (xtal_err ref)).
  intros x. destruct (u32_of_double x) as [d| |]; [|done..]. cbn [mbind outcome_bind]. intros [= <-]. apply u32_range.
Qed.
Lemma gps2cnt_u32 ref t ptr i c : lgw_gps2cnt ref t ptr = Ret (i, Some c) → is_u32 c.
Proof.
  unfold lgw_gps2cnt. generalize (negb ptr || ref_invalid ref). intros b. destruct b; [intros E; discriminate E|].
  pose proof (time2cnt_u32 ref t (ref_gps ref)) as Hu. revert Hu. generalize (time2cnt ref t (ref_gps ref)).
  intros o Hu. destruct o as [d| |]; [|done..]. cbn [mbind outcome_bind]. intros [= _ <-]. by apply Hu.
Qed.
Lemma tx_time_ok ref obj c ty imm : tx_time ref obj = Go (c, ty, imm) → is_u32 c ∧ ty ≠ JIT_PKT_TYPE_BEACON.
Proof.
  unfold tx_time. destruct (_ =? 1); [by intros [= <- <- <-]|]. destruct (txpk_field obj "tmst") as [v|].
  { intros (c' & Ec%to_int_range & E)%tx_bind_inv. by injection E as <- <- <-. }
  intros (v & _ & E)%tx_bind_inv. destruct ref as [r|]; [|done]. apply tx_bind_inv in E as (x2 & _ & E).
  destruct (modf _) as [x4 x3] in E. apply tx_bind_inv in E as ([i o] & E1%computed_inv & E).
  destruct (negb (i =? LGW_GPS_SUCCESS)); [done|]. apply tx_bind_inv in E as (c' & ->%mandatory_inv & E).
  injection E as <- <- <-. split; [by eapply gps2cnt_u32|done].
Qed.
Lemma parse_txpk_ok conf ref obj pkt ty :
  parse_txpk conf ref obj = Go (pkt, ty) →
  Tx.ok pkt ∧ is_s8 (Tx.rf_power pkt) ∧ tx_enable conf !! Z.to_nat (Tx.rf_chain pkt) = Some true ∧
  ty ≠ JIT_PKT_TYPE_BEACON ∧ modu_ok (Tx.modulation pkt) (Tx.datarate pkt) (Tx.bandwidth pkt) (Tx.coderate pkt).
Proof.
  unfold parse_txpk. intros E. tx_inv.
  repeat match goal with
  | D : tx_time _ _ = _ |- _ => apply tx_time_ok in D as [??]
  | D : buf_get _ _ = _ |- _ => apply array_get_inv in D as [_ D]
  | D : b64_to_bin _ _ _ _ = _ |- _ => apply b64_to_bin_length in D as (? & ? & D)
  end.
  match goal with D : match txpk_field obj "powe" with _ => _ end = Go ?w |- _ => assert (Hw : is_s8 w) end.
  { match goal with D : match txpk_field obj "powe" with _ => _ end = _ |- _ => revert D end.
    destruct (txpk_field obj "powe"); [|by intros [= <-]]. intros D. tx_inv. injection D as <-. apply s8_is_s8. }
  match goal with D : (if ?b then Go () else Drop None) = _ |- _ => destruct b; [|done] end.
  match goal with D : (if bool_decide _ then lora_params obj else _) = Go ?m |- _ => assert (Hm :
    modu_ok (m_modulation m) (m_datarate m) (m_bandwidth m) (m_coderate m) ∧ is_u8 (m_modulation m) ∧ is_u8 (m_bandwidth m) ∧
    is_u32 (m_datarate m) ∧ is_u8 (m_coderate m) ∧ is_u16 (m_preamble m)) end.
  { match goal with D : (if _ then lora_params obj else _) = _ |- _ => revert D end.
    case_bool_decide; [apply lora_params_ok|]. case_bool_decide; [apply fsk_params_ok|done]. }
  destruct Hm as (Hm & Hm1 & Hm2 & Hm3 & Hm4 & Hm5). injection E as <- <-. simplify_eq. unfold Tx.ok.
  cbn [Tx.freq_hz Tx.tx_mode Tx.count_us Tx.rf_chain Tx.modulation Tx.bandwidth Tx.datarate Tx.coderate Tx.preamble
       Tx.size Tx.payload Tx.rf_power].
  match goal with b : bool |- _ => destruct b end; split_and!; first [done|lia].
Qed.

(** The object a datagram asks to send. *)
Definition txpk_object (d : list Z) : option JSON_Object :=
  match json_parse_string_with_comments (c_string (drop 4 d)) with
  | Value root => json_object_get_object (json_value_get_object (Some root)) (bytes_of_string "txpk")
  | _ => None
  end.

Section Datagrams.
Context {H : Type} (cc : concentrator H) (conf : fwd_conf).
Context (qsort : ∀ A, (A → A → Z) → list A → list A) (sw : Z).
Implicit Types s : fwd_state H.

(** The GPS time reference the thread uses. *)
Definition local_ref s : option tref := if gps_enabled conf && gps_ref_valid s then Some (time_ref s) else None.
Lemma pull_resp_inv d s s' :
  pull_resp cc conf qsort sw d s = Done s' () →
  ∃ th tl, d !! 1%nat = Some th ∧ d !! 2%nat = Some tl ∧
  (s' = s ∨ (∃ e, s' = answered conf th tl e 0 s) ∨
   ∃ obj pkt ty, txpk_object d = Some obj ∧ parse_txpk conf (local_ref s) obj = Go (pkt, ty) ∧
     queue_downlink cc conf qsort sw th tl pkt ty
       (counted meas_dw_payload_byte (Tx.size pkt) (counted meas_dw_network_byte (Z.of_nat (length d))
         (counted meas_dw_dgram_rcv 1 s))) = Done s' ()).
Proof.
  unfold pull_resp, txpk_object. cbv zeta. intros (s1 & th & E1 & (s2 & tl & E2 & E)%bind_inv)%bind_inv.
  destruct (buf_get d 1) as [a| |] eqn:G1; [|done..]. injection E1 as <- <-.
  destruct (buf_get d 2) as [b| |] eqn:G2; [|done..]. injection E2 as <- <-.
  apply array_get_inv in G1 as [_ G1], G2 as [_ G2]. exists a, b. split; [done|]. split; [done|].
  destruct (json_parse_string_with_comments _) as [root| |]; [|left; by injection E as <-|done].
  destruct (json_object_get_object _ _) as [obj|]; [|left; by injection E as <-].
  apply bind_inv in E as (s3 & valid & E3 & (s4 & ref & E4 & E)%bind_inv). injection E3 as <- <-. injection E4 as <- <-.
  cbv zeta in E. fold (local_ref s) in E.
  destruct (parse_txpk conf (local_ref s) obj) as [[pkt ty]|[e|]| |] eqn:Ep; [| |left; by injection E as <-|done|done].
  - do 2 right. exists obj, pkt, ty. split; [done|]. split; [done|].
    apply bind_inv in E as (s5 & [] & E5 & (s6 & [] & E6 & (s7 & [] & E7 & E)%bind_inv)%bind_inv).
    rewrite bump_done in E5, E6, E7. injection E5 as <-. injection E6 as <-. by injection E7 as <-.
  - right. left. exists e. by apply send_tx_ack_inv in E.
Qed.
Lemma datagram_down_inv token_h token_l d s s' :
  datagram_down cc conf qsort sw token_h token_l d s = Done s' () →
  s' = s ∨ s' = counted meas_dw_ack_rcv 1 (set_acked s) ∨ pull_resp cc conf qsort sw d s = Done s' ().
Proof.
  unfold datagram_down. destruct (_ <? 4); [intros [= <-]; by left|].
  intros (s1 & v & E1 & (s2 & id & E2 & E)%bind_inv)%bind_inv.
  destruct (buf_get d 0); [|done..]. injection E1 as <- <-. destruct (buf_get d 3); [|done..]. injection E2 as <- <-.
  destruct (_ || _); [injection E as <-; by left|]. destruct (_ =? PKT_PULL_ACK); [|by right; right].
  apply bind_inv in E as (s3 & th & E3 & (s4 & tl & E4 & E)%bind_inv).
  destruct (buf_get d 1); [|done..]. injection E3 as <- <-. destruct (buf_get d 2); [|done..]. injection E4 as <- <-.
  destruct (_ && _); [|injection E as <-; by left]. apply bind_inv in E as (s5 & acked & E5 & E). injection E5 as <- <-.
  destruct (req_ack s); [injection E as <-; by left|]. apply bind_inv in E as (s6 & [] & E6 & E). injection E6 as <-.
  rewrite bump_done in E. injection E as <-. by right; left.
Qed.

(** The answers sent and the queues do not depend on the counters. *)
Lemma counted_parts k n s :
  jit_queue (counted k n s) = jit_queue s ∧ datagrams (counted k n s) = datagrams s ∧ hal (counted k n s) = hal s.
Proof. done. Qed.
Lemma answered_parts th tl e v s :
  jit_queue (answered conf th tl e v s) = jit_queue s ∧
  datagrams (answered conf th tl e v s) = datagrams s ++ [answer conf th tl e v] ∧ hal (answered conf th tl e v s) = hal s.
Proof. unfold answered. by destruct (error_meas e). Qed.

(** C5. Whatever a datagram of the server holds, and whatever the concentrator
    does, when its handling returns (it can be undefined, see
    [unknown_chain_out_of_bounds]): either nothing was sent and no queue changed,
    though an acknowledgement changes its flag and counters, or exactly one answer
    with the token of the datagram was sent. A queue changes only by an enqueue,
    at the current counter, of one packet whose chain is enabled for transmission,
    whose frequency is within the limits of the chain and whose power is one of
    the table of the chain; the answer then reports the error of the enqueue, if
    there is one. *)
Theorem downlinks_within_limits token_h token_l d s s' :
  conf_ok conf → datagram_down cc conf qsort sw token_h token_l d s = Done s' () →
  datagrams s' = datagrams s ∧ jit_queue s' = jit_queue s ∨
  ∃ th tl e v, d !! 1%nat = Some th ∧ d !! 2%nat = Some tl ∧ datagrams s' = datagrams s ++ [answer conf th tl e v] ∧
    (jit_queue s' = jit_queue s ∨
     ∃ p ty c h now q q' e' p', c = Z.to_nat (Tx.rf_chain p) ∧ tx_enable conf !! c = Some true ∧ within_limits conf p ∧
       get_instcnt cc (hal s) = Done h now ∧ jit_queue s !! c = Some q ∧
       jit_enqueue qsort sw q now (Some p) ty = Ret (e', q', p') ∧ jit_queue s' = <[c := q']> (jit_queue s) ∧
       (e' = JIT_ERROR_OK → e = JIT_ERROR_OK ∨ e = JIT_ERROR_TX_POWER ∧ v = Tx.rf_power p) ∧
       (e' ≠ JIT_ERROR_OK → e = e')).
Proof.
  intros Hc [->|[->|E]]%datagram_down_inv; [by left..|].
  destruct (pull_resp_inv d s s' E) as (th & tl & G1 & G2 & [->|[[e ->]|(obj & pkt & ty & _ & Ep & Eq)]]); [by left|..].
  { right. exists th, tl, e, 0. destruct (answered_parts th tl e 0 s) as (-> & -> & _). by split_and!; [| | |left]. }
  right. destruct (parse_txpk_ok _ _ _ _ _ Ep) as (_ & Hp & Hen & _).
  destruct (queue_downlink_inv cc conf qsort sw Hc th tl pkt ty _ _ Hp Eq)
    as [->|(w & v & wr & h & now & q & e & q' & p' & Hlim & En & Hq & Ej & Hw & ->)].
  { exists th, tl, JIT_ERROR_TX_FREQ, 0. destruct (answered_parts th tl JIT_ERROR_TX_FREQ 0
      (counted meas_dw_payload_byte (Tx.size pkt) (counted meas_dw_network_byte (Z.of_nat (length d))
        (counted meas_dw_dgram_rcv 1 s)))) as (-> & -> & _). by split_and!; [| | |left]. }
  exists th, tl, (if bool_decide (e = JIT_ERROR_OK) then wr else e), v.
  match goal with |- context [answered conf th tl ?e0 v ?s0] => destruct (answered_parts th tl e0 v s0) as (-> & -> & _) end.
  split_and!; [done..|]. right. exists (set_power w pkt), ty, (Z.to_nat (Tx.rf_chain pkt)), h, now, q, q', e, p'.
  split_and!; [done..| |].
  - intros ->. rewrite bool_decide_eq_true_2 by done. destruct Hw as [->|[-> ->]]; [by left|by right].
  - intros Ne. by rewrite bool_decide_eq_false_2.
Qed.
End Datagrams.

(** ** A request is served *)

(** A supported packet passes the checks unchanged. *)
Lemma check_tx_pass conf p :
  conf_ok conf → 0 <= Tx.rf_chain p → is_s8 (Tx.rf_power p) → within_limits conf p → check_tx conf p = Ret (inr (JIT_ERROR_OK, 0, p)).
Proof.
  intros (_ & _ & _ & _ & _ & Hl) H0 Hp (fmin & fmax & l & E1 & E2 & Hf & El & Hw). unfold check_tx.
  rewrite (buf_get_lookup (tx_freq_min conf) _ fmin) by done. rewrite ret_bind. rewrite (buf_get_lookup (tx_freq_max conf) _ fmax) by done. rewrite ret_bind.
  rewrite !(proj2 (Z.ltb_ge _ _)) by lia. cbn [orb].
  rewrite Forall_forall in Hl. destruct (Hl l) as [Hok _]; [by eapply list_elem_of_lookup_2|].
  destruct (get_index _ _ l (Tx.rf_power p) El H0 Hok Hp) as [[_ Hno]|(i & -> & Hi & w & Ew & Hle & Hb)].
  { rewrite Forall_forall in Hno. specialize (Hno _ Hw). lia. }
  apply list_elem_of_lookup in Hw as [k Hk]. destruct (Hb k _ Hk) as [?|[-> _]]; [lia|lia|].
  rewrite ret_bind. rewrite (buf_get_lookup (txlut conf) _ l) by done. rewrite ret_bind.
  unfold powers in Ew. rewrite list_lookup_fmap in Ew. apply fmap_Some in Ew as (e & Ee & Ew).
  apply lookup_take_Some in Ee as [Ee _]. rewrite (buf_get_lookup (Gain.lut l) _ e) by done. rewrite ret_bind. cbv zeta.
  by rewrite <- Ew, Z.eqb_refl.
Qed.

Section Served.
Context {H : Type} (cc : concentrator H) (conf : fwd_conf).
Context (qsort : ∀ A, (A → A → Z) → list A → list A) (sw : Z).
Implicit Types s : fwd_state H.

Lemma queue_downlink_pass th tl p ty s h now q e q' p' :
  conf_ok conf → 0 <= Tx.rf_chain p → is_s8 (Tx.rf_power p) → within_limits conf p →
  get_instcnt cc (hal s) = Done h now → jit_queue s !! Z.to_nat (Tx.rf_chain p) = Some q →
  jit_enqueue qsort sw q now (Some p) ty = Ret (e, q', p') →
  queue_downlink cc conf qsort sw th tl p ty s =
    Done (answered conf th tl e 0
      (counted meas_nb_tx_requested 1 (set_queues (<[Z.to_nat (Tx.rf_chain p) := q']> (jit_queue s)) (set_hal s h)))) ().
Proof.
  intros Hc H0 Hp Hl En Eq Ej. unfold queue_downlink. rewrite check_tx_pass by done.
  erewrite bind_done by reflexivity. cbn iota beta.
  rewrite (bind_done _ _ _ (set_hal s h) now) by (unfold on_hal, zoom; by rewrite En).
  rewrite (bind_done _ _ _ _ _ (get_queue_done (Tx.rf_chain p) (set_hal s h) q H0 Eq)). rewrite Ej.
  erewrite bind_done by reflexivity. cbn iota beta.
  erewrite bind_done by (apply put_queue_done; apply lookup_lt_Some in Eq; cbn; lia).
  rewrite (bind_done _ _ _ _ _ (bump_done _ _ _)). cbv zeta.
  replace (if negb (bool_decide (e = JIT_ERROR_OK)) then e else JIT_ERROR_OK) with e by (by case_bool_decide).
  apply send_tx_ack_done; [apply Hc|done].
Qed.
(** A datagram with an object to send. *)
Lemma datagram_object token_h token_l th tl text root obj s :
  json_parse_string_with_comments (c_string text) = Value (JSONObject root) →
  json_object_get_value root (bytes_of_string "txpk") = Some (JSONObject obj) →
  datagram_down cc conf qsort sw token_h token_l ([PROTOCOL_VERSION; th; tl; PKT_PULL_RESP] ++ text) s =
  match parse_txpk conf (local_ref conf s) obj with
  | Drop None => mret ()
  | Drop (Some e) => send_tx_ack conf th tl e 0
  | Exits c => of_outcome (Exit c)
  | Undefined => wrong
  | Go (txpkt, downlink_type) =>
    _ ← bump meas_dw_dgram_rcv 1;
    _ ← bump meas_dw_network_byte (Z.of_nat (4 + length text));
    _ ← bump meas_dw_payload_byte (Tx.size txpkt);
    queue_downlink cc conf qsort sw th tl txpkt downlink_type
  end s.
Proof.
  intros Ep Er. unfold datagram_down. cbn [app length]. rewrite (proj2 (Z.ltb_ge _ _)) by lia.
  do 2 (erewrite bind_done by reflexivity). cbn [negb orb andb Z.eqb Pos.eqb PROTOCOL_VERSION PKT_PULL_RESP PKT_PULL_ACK].
  unfold pull_resp. cbv zeta. do 2 (erewrite bind_done by reflexivity).
  match goal with |- context [drop 4 ?l] => change (drop 4 l) with text end. rewrite Ep.
  cbn [json_value_get_object]. unfold json_object_get_object. rewrite Er. cbn [json_value_get_object].
  do 2 (erewrite bind_done by reflexivity). by destruct (parse_txpk _ _ _) as [[??]|[?|]| |].
Qed.

(** C7. A downlink of a server is transmitted as it was asked for: when the text
    of a datagram (any text the JSON parser accepts) has an object [txpk] that
    describes a LoRa request, on an enabled chain, at a frequency and a power the
    chain supports, exactly the packet of the request is offered to the queue of
    its chain at the current counter, and the server is told the outcome under
    the token of its datagram; nothing else of the queues changes. *)
Theorem request_served token_h token_l th tl text root obj r s h now q e q' p' :
  conf_ok conf → json_parse_string_with_comments (c_string text) = Value (JSONObject root) →
  json_object_get_value root (bytes_of_string "txpk") = Some (JSONObject obj) →
  describes obj r → request_ok r → tx_enable conf !! Z.to_nat (rq_rfch r) = Some true → within_limits conf (packet_of conf r) →
  get_instcnt cc (hal s) = Done h now → jit_queue s !! Z.to_nat (rq_rfch r) = Some q →
  jit_enqueue qsort sw q now (Some (packet_of conf r)) JIT_PKT_TYPE_DOWNLINK_CLASS_A = Ret (e, q', p') →
  ∃ s', datagram_down cc conf qsort sw token_h token_l ([PROTOCOL_VERSION; th; tl; PKT_PULL_RESP] ++ text) s = Done s' () ∧
    jit_queue s' = <[Z.to_nat (rq_rfch r) := q']> (jit_queue s) ∧
    datagrams s' = datagrams s ++ [answer conf th tl e 0] ∧ hal s' = h.
Proof.
  intros Hc Ep Er D O En Hl Ei Eq Ej. rewrite (datagram_object token_h token_l th tl text root obj s Ep Er).
  rewrite (request_read conf _ obj r D O En). do 3 rewrite (bind_done _ _ _ _ _ (bump_done _ _ _)).
  assert (H0 : 0 <= Tx.rf_chain (packet_of conf r)) by (destruct O as (_ & _ & Hr & _); cbn; lia).
  eexists. split; [exact (queue_downlink_pass th tl _ _ (counted _ _ (counted _ _ (counted _ _ s))) h now q e q' p'
    Hc H0 (s8_is_s8 _) Hl Ei Eq Ej)|].
  match goal with |- context [answered conf th tl e 0 ?s0] => destruct (answered_parts conf th tl e 0 s0) as (-> & -> & ->) end.
  done.
Qed.

(** C37. A chain the gateway does not have is not refused: a request for the
    radio chain 2 to 255, complete or not behind the chain, makes the thread
    read outside of the array [tx_enable]. *)
Theorem unknown_chain_out_of_bounds token_h token_l th tl text root obj s n count_us ty imme f :
  conf_ok conf → json_parse_string_with_comments (c_string text) = Value (JSONObject root) →
  json_object_get_value root (bytes_of_string "txpk") = Some (JSONObject obj) →
  tx_time (local_ref conf s) obj = Go (count_us, ty, imme) →
  mhz_exact f → txpk_field obj "freq" = Some (JSONNumber (Finite (rnd f 1000000))) →
  2 <= n < 256 → txpk_field obj "rfch" = Some (json_int n) →
  datagram_down cc conf qsort sw token_h token_l ([PROTOCOL_VERSION; th; tl; PKT_PULL_RESP] ++ text) s = Wrong.
Proof.
  intros (_ & H2 & _) Ep Er Et Hf Ef Hn En. rewrite (datagram_object token_h token_l th tl text root obj s Ep Er).
  assert (parse_txpk conf (local_ref conf s) obj = Undefined) as ->; [|done].
  unfold parse_txpk. rewrite Et. cbn [mbind txpk_bind]. cbv zeta. rewrite Ef. cbn [mandatory mbind txpk_bind].
  rewrite freq_read by done. cbn [mbind txpk_bind]. rewrite En. cbn [mandatory mbind txpk_bind].
  assert (to_u8 (json_value_get_number (Some (json_int n))) = Go n) as -> by (apply to_int_int; lia).
  cbn [mbind txpk_bind]. unfold buf_get. rewrite (proj2 (Z.ltb_ge _ _)) by lia.
  rewrite lookup_ge_None_2 by lia. done.
Qed.
End Served.

(** ** Witnesses *)

Definition a_request : request := Request 5000000 868100000 0 14 7 125 5 true false false None [1; 2; 3].
Definition a_object (rfch : Z) : JSON_Object :=
  [(bytes_of_string "imme", JSONBoolean false); (bytes_of_string "tmst", json_int 5000000);
   (bytes_of_string "freq", JSONNumber (Finite (rnd 868100000 1000000))); (bytes_of_string "rfch", json_int rfch);
   (bytes_of_string "powe", json_int 14); (bytes_of_string "modu", JSONString (bytes_of_string "LORA"));
   (bytes_of_string "datr", JSONString (bytes_of_string "SF7BW125")); (bytes_of_string "codr", JSONString (bytes_of_string "4/5"));
   (bytes_of_string "ipol", JSONBoolean true); (bytes_of_string "size", json_int 3);
   (bytes_of_string "data", JSONString (bytes_of_string "AQID"))].
Definition a_root (rfch : Z) : JSON_Object := [(bytes_of_string "txpk", JSONObject (a_object rfch))].
(** The text of the datagram, indented. *)
Definition a_text (rfch : Z) : list Z :=
  match json_serialize_to_string true (JSONObject (a_root rfch)) with Ret t => t | _ => [] end.

Lemma a_conf_ok : conf_ok a_conf.
Proof.
  unfold conf_ok. split_and!; [done..|]. constructor; [split; [apply a_lut_ok|done]|]. constructor; [|constructor].
  split; [|done]. split; [done|]. split; [done|]. repeat constructor; done.
Qed.
Lemma a_request_described : describes (a_object 0) a_request ∧ request_ok a_request.
Proof.
  split.
  - unfold describes, has_flag. split_and!; try (by vm_compute); try (left; by vm_compute); right; split; by vm_compute.
  - unfold request_ok. split_and!; try (cbn; lia); try done; try (by right; cbn; lia); [by left|repeat constructor; lia].
Qed.
Lemma a_text_read n : n = 0 ∨ n = 2 → json_parse_string_with_comments (c_string (a_text n)) = Value (JSONObject (a_root n)).
Proof. intros [-> | ->]; by vm_compute. Qed.
Lemma a_request_within : within_limits a_conf (packet_of a_conf a_request).
Proof.
  exists 863000000, 870000000, a_lut. split_and!; [done|done|cbn; lia|cbn; lia|done|]. vm_compute.
  repeat (apply elem_of_cons; (by left) || right).
Qed.

Definition a_queue : jit_queue_s :=
  queue_of (jit_enqueue isort 3 jit_queue_init 1000000 (Some (packet_of a_conf a_request)) JIT_PKT_TYPE_DOWNLINK_CLASS_A).
Lemma a_enqueue :
  jit_enqueue isort 3 jit_queue_init 1000000 (Some (packet_of a_conf a_request)) JIT_PKT_TYPE_DOWNLINK_CLASS_A =
    Ret (JIT_ERROR_OK, a_queue, Some (packet_of a_conf a_request)).
Proof. by vm_compute. Qed.
Lemma request_served_witness :
  ∃ s', datagram_down a_concentrator a_conf isort 3 7 8 ([PROTOCOL_VERSION; 21; 22; PKT_PULL_RESP] ++ a_text 0)
          (a_state 1000000 jit_queue_init) = Done s' () ∧
    jit_queue s' = [a_queue; jit_queue_init] ∧ datagrams s' = [[2; 21; 22; 5; 1; 2; 3; 4; 5; 6; 7; 8]] ∧ hal s' = 1000000.
Proof.
  exact (request_served a_concentrator a_conf isort 3 7 8 21 22 (a_text 0) (a_root 0) (a_object 0) a_request
    (a_state 1000000 jit_queue_init) 1000000 1000000 jit_queue_init JIT_ERROR_OK a_queue (Some (packet_of a_conf a_request))
    a_conf_ok (a_text_read 0 (or_introl eq_refl)) eq_refl (proj1 a_request_described) (proj2 a_request_described) eq_refl
    a_request_within eq_refl eq_refl a_enqueue).
Defined.
Lemma unknown_chain_out_of_bounds_witness :
  datagram_down a_concentrator a_conf isort 3 7 8 ([PROTOCOL_VERSION; 21; 22; PKT_PULL_RESP] ++ a_text 2)
    (a_state 1000000 jit_queue_init) = Wrong.
Proof.
  apply (unknown_chain_out_of_bounds a_concentrator a_conf isort 3 7 8 21 22 (a_text 2) (a_root 2) (a_object 2)
    (a_state 1000000 jit_queue_init) 2 5000000 JIT_PKT_TYPE_DOWNLINK_CLASS_A false 868100000);
    [apply a_conf_ok|apply a_text_read; by right|done|by vm_compute|right; lia|done|lia|done].
Defined.
(** The state after the datagram of the request. *)
Definition after_request : fwd_state Z :=
  match datagram_down a_concentrator a_conf isort 3 7 8 ([PROTOCOL_VERSION; 21; 22; PKT_PULL_RESP] ++ a_text 0)
          (a_state 1000000 jit_queue_init) with Done s _ => s | _ => a_state 0 jit_queue_init end.
Lemma after_request_done :
  datagram_down a_concentrator a_conf isort 3 7 8 ([PROTOCOL_VERSION; 21; 22; PKT_PULL_RESP] ++ a_text 0)
    (a_state 1000000 jit_queue_init) = Done after_request ().
Proof.
  unfold after_request. set (r := datagram_down _ _ _ _ _ _ _ _).
  assert (E : match r with Done _ _ => true | _ => false end = true) by (vm_compute; reflexivity).
  destruct r as [s []| | |]; done.
Qed.
Lemma downlinks_within_limits_witness :
  datagrams after_request = [] ∧ jit_queue after_request = [jit_queue_init; jit_queue_init] ∨
  ∃ th tl e v, [2; 21; 22; 3] !! 1%nat = Some th ∧ [2; 21; 22; 3] !! 2%nat = Some tl ∧
    datagrams after_request = [answer a_conf th tl e v].
Proof.
  destruct (downlinks_within_limits a_concentrator a_conf isort 3 7 8 ([PROTOCOL_VERSION; 21; 22; PKT_PULL_RESP] ++ a_text 0)
    (a_state 1000000 jit_queue_init) after_request a_conf_ok) as [E|(th & tl & e & v & E1 & E2 & E & _)].
  - exact after_request_done.
  - left. exact E.
  - right. exists th, tl, e, v. split; [exact E1|]. split; [exact E2|exact E].
Defined.
