(* ===== verification/Beacon.v ===== *)
(** * Beacons and requests ([packet_forwarder/src/lora_pkt_fwd.c], [thread_down])

    Besides handling datagrams the downlink thread asks the server for downlinks
    from time to time, and keeps the next beacons in the queue of chain 0. A
    beacon is sent at a multiple of the beacon period of GPS time; it holds this
    time and the position of the gateway, each followed by a checksum. *)
From Stdlib Require Import ZArith Lia.
From stdpp Require Import base list numbers.
From S2P Require Import Prelude Binary64 HalTypes Base64 Crc JitQueue RegProg Timestamp TimeRef Forward.

Open Scope Z_scope.
Open Scope list_scope.

Definition PKT_PULL_DATA : Z := 2.

(** The parameters of the configuration file; the position is in degrees. *)
Record beacon_conf := Beacons {
  beacon_period : Z; beacon_freq_hz : Z; beacon_freq_nb : Z; beacon_freq_step : Z; beacon_datarate : Z;
  beacon_bw_hz : Z; beacon_power : Z; beacon_infodesc : Z; reference_lat : double; reference_lon : double }.

(** ** The fixed part of the beacon *)

Definition bw_of_beacon (bw : Z) : outcome Z :=
  if bw =? 125000 then Ret BW_125KHZ else if bw =? 500000 then Ret BW_500KHZ else Exit EXIT_FAILURE.
(** The data rate and the sizes of the two reserved fields. *)
Definition dr_of_beacon (dr : Z) : outcome (Z * Z * Z) :=
  if dr =? 8 then Ret (DR_LORA_SF8, 1, 3) else if dr =? 9 then Ret (DR_LORA_SF9, 2, 0)
  else if dr =? 10 then Ret (DR_LORA_SF10, 3, 1) else if dr =? 12 then Ret (DR_LORA_SF12, 5, 3)
  else Exit EXIT_FAILURE.
(** A coordinate in 24 bits, where [full] is the largest. *)
Definition coord_field (x : double) (full : Z) : outcome Z :=
  f ← s32_of_double (dmul (ddiv x (dbl_of_Z full)) (dbl_of_Z (Z.shiftl 1 23)));
  Ret (if 0x7FFFFF <? f then 0x7FFFFF else if f <? - 0x800000 then - 0x800000 else f).
(** The [n] lowest bytes, the lowest first. *)
Fixpoint le_bytes (n : nat) (x : Z) : list Z :=
  match n with O => [] | S n => Z.land 0xFF x :: le_bytes n (Z.shiftr x 8) end.

(** [payload[idx++] = b] for the bytes in turn. *)
Fixpoint store (payload : list Z) (idx : Z) (bytes : list Z) : outcome (list Z) :=
  match bytes with
  | [] => Ret payload
  | b :: r => payload ← buf_set payload idx b; store payload (idx + 1) r
  end.
Definition slice (payload : list Z) (from n : Z) : list Z := take (Z.to_nat n) (drop (Z.to_nat from) payload).

(** The packet and the sizes of its reserved fields; [stack] is what the
    structure holds before. *)
Definition beacon_init (bc : beacon_conf) (stack : lgw_pkt_tx_s) : outcome (lgw_pkt_tx_s * Z * Z) :=
  bandwidth ← bw_of_beacon (beacon_bw_hz bc);
  '(datarate, rfu1, rfu2) ← dr_of_beacon (beacon_datarate bc);
  payload ← store (Tx.payload stack) 0 (replicate (Z.to_nat rfu1) 0);
  let idx := rfu1 + 4 + 2 in
  field_latitude ← coord_field (reference_lat bc) 90;
  field_longitude ← coord_field (reference_lon bc) 180;
  payload ← store payload idx ([beacon_infodesc bc] ++ le_bytes 3 field_latitude ++ le_bytes 3 field_longitude);
  payload ← store payload (idx + 7) (replicate (Z.to_nat rfu2) 0);
  let field_crc2 := crc16 (Some (slice payload (6 + rfu1) (7 + rfu2))) in
  payload ← store payload (idx + 7 + rfu2) (le_bytes 2 field_crc2);
  Ret ({| Tx.freq_hz := Tx.freq_hz stack; Tx.tx_mode := ON_GPS; Tx.count_us := Tx.count_us stack; Tx.rf_chain := 0;
          Tx.rf_power := beacon_power bc; Tx.modulation := MOD_LORA; Tx.freq_offset := Tx.freq_offset stack;
          Tx.bandwidth := bandwidth; Tx.datarate := datarate; Tx.coderate := CR_LORA_4_5; Tx.invert_pol := false;
          Tx.f_dev := Tx.f_dev stack; Tx.preamble := 10; Tx.no_crc := true; Tx.no_header := true;
          Tx.size := rfu1 + 4 + 2 + 7 + rfu2 + 2; Tx.payload := payload |}, rfu1, rfu2).

(** ** The variable part *)

(** The variables of the thread: [last] is the time of the last beacon that was
    queued, in seconds, 0 before the first. *)
Record beacon_vars := Vars { b_pkt : lgw_pkt_tx_s; b_last : Z; b_loop : Z; b_retry : Z }.

(** The time of the next beacon; [now] is that of the reference. [time_t] has
    64 bits. *)
Definition next_beacon (bc : beacon_conf) (now last retry : Z) : Z :=
  (if last =? 0 then now + (beacon_period bc - Z.rem now (beacon_period bc)) else last + beacon_period bc)
  + u32 (retry * beacon_period bc).
Definition beacon_freq (bc : beacon_conf) (t : Z) : Z :=
  let beacon_chan :=
    if 1 <? beacon_freq_nb bc then u8 (Z.rem (Z.quot t (beacon_period bc)) (beacon_freq_nb bc)) else 0 in
  u32 (beacon_freq_hz bc + beacon_chan * beacon_freq_step bc).
(** The packet for the time [t] and the counter [count_us]. *)
Definition fill_beacon (bc : beacon_conf) (rfu1 : Z) (t count_us : Z) (p : lgw_pkt_tx_s) : outcome lgw_pkt_tx_s :=
  payload ← store (Tx.payload p) rfu1 (le_bytes 4 t);
  let field_crc1 := crc16 (Some (slice payload 0 (4 + rfu1))) in
  payload ← store payload (rfu1 + 4) (le_bytes 2 field_crc1);
  Ret {| Tx.freq_hz := beacon_freq bc t; Tx.tx_mode := Tx.tx_mode p; Tx.count_us := count_us; Tx.rf_chain := Tx.rf_chain p;
         Tx.rf_power := Tx.rf_power p; Tx.modulation := Tx.modulation p; Tx.freq_offset := Tx.freq_offset p;
         Tx.bandwidth := Tx.bandwidth p; Tx.datarate := Tx.datarate p; Tx.coderate := Tx.coderate p;
         Tx.invert_pol := Tx.invert_pol p; Tx.f_dev := Tx.f_dev p; Tx.preamble := Tx.preamble p;
         Tx.no_crc := Tx.no_crc p; Tx.no_header := Tx.no_header p; Tx.size := Tx.size p; Tx.payload := payload |}.

Section Beacons.
Context {H : Type} (cc : concentrator H) (conf : fwd_conf) (bc : beacon_conf).
Context (qsort : ∀ A, (A → A → Z) → list A → list A) (sw : Z).

(** A turn of the loop; [None] leaves the loop. The status of [lgw_gps2cnt] is
    not looked at. *)
Definition beacon_turn (rfu1 : Z) (v : beacon_vars) : fprog H (option beacon_vars) :=
  valid ← gets gps_ref_valid;
  correct ← gets xtal_correct_ok;
  if valid && correct then
    ref ← gets time_ref;
    let t := next_beacon bc (ts_sec (ref_gps ref)) (b_last v) (b_retry v) in
    '(_, count_us) ← of_outcome (lgw_gps2cnt ref (Timespec t 0) true);
    pkt ← of_outcome (fill_beacon bc rfu1 t (default (Tx.count_us (b_pkt v)) count_us) (b_pkt v));
    now ← on_hal (get_instcnt cc);
    q ← get_queue 0;
    '(jit_result, q, pkt') ← of_outcome (jit_enqueue qsort sw q now (Some pkt) JIT_PKT_TYPE_BEACON);
    _ ← put_queue 0 q;
    let pkt := default pkt pkt' in
    if bool_decide (jit_result = JIT_ERROR_OK) then
      _ ← bump meas_nb_beacon_queued 1;
      mret (Some (Vars pkt t (u8 (b_loop v - 1)) 0))
    else
      _ ← (if negb (bool_decide (jit_result = JIT_ERROR_COLLISION_BEACON)) then bump meas_nb_beacon_rejected 1 else mret ());
      retry ← of_outcome (int_ok (b_retry v + 1));
      mret (Some (Vars pkt (b_last v) (b_loop v) retry))
  else mret None.
(** The loop has no bound in the source; [fuel] is the number of turns. *)
Fixpoint beacon_loop (fuel : nat) (rfu1 : Z) (v : beacon_vars) : fprog H beacon_vars :=
  if negb (b_loop v =? 0) && negb (beacon_period bc =? 0) then
    match fuel with
    | O => spin
    | S fuel =>
      r ← beacon_turn rfu1 v;
      match r with Some v => beacon_loop fuel rfu1 v | None => mret v end
    end
  else mret v.
(** After each datagram, or each timeout of the socket. *)
Definition queue_beacons (fuel : nat) (rfu1 : Z) (v : beacon_vars) : fprog H beacon_vars :=
  q ← get_queue 0;
  beacon_loop fuel rfu1 (Vars (b_pkt v) (b_last v) (u8 (JIT_NUM_BEACON_IN_QUEUE - num_beacon q)) 0).

(** ** Requests to the server *)

(** A turn of the outer loop: true when the thread gives up, after
    [autoquit_threshold] requests without an answer. *)
Definition pull_data (autoquit_threshold token_h token_l : Z) : fprog H bool :=
  cnt ← gets autoquit_cnt;
  if (0 <? autoquit_threshold) && (autoquit_threshold <=? cnt) then mret true
  else
    _ ← send_datagram ([PROTOCOL_VERSION; token_h; token_l; PKT_PULL_DATA] ++ net_mac conf);
    _ ← bump meas_dw_pull_sent 1;
    _ ← modify set_pulled;
    mret false.
End Beacons.
