(* ===== verification/BeaconProps.v ===== *)
(** * Properties of the beacons *)
From Stdlib Require Import ZArith Lia Reals Lra.
From stdpp Require Import base list numbers relations.
From S2P Require Import Prelude Binary64 HalTypes Base64 Crc JitQueue JitProps RegProg HalConf Timestamp TimeRef TimeRefProps Forward ForwardProps Beacon.

Open Scope Z_scope.
Open Scope list_scope.

(** ** The layout of a beacon *)

(** The part of the gateway, and the whole frame for the time [t]. *)
Definition gateway_part (bc : beacon_conf) (rfu2 lat lon : Z) : list Z :=
  [beacon_infodesc bc] ++ le_bytes 3 lat ++ le_bytes 3 lon ++ replicate (Z.to_nat rfu2) 0.
Definition common_part (rfu1 t : Z) : list Z := replicate (Z.to_nat rfu1) 0 ++ le_bytes 4 t.
Definition checked_part (l : list Z) : list Z := l ++ le_bytes 2 (crc16 (Some l)).
Definition beacon_frame (bc : beacon_conf) (rfu1 rfu2 lat lon t : Z) : list Z :=
  checked_part (common_part rfu1 t) ++ checked_part (gateway_part bc rfu2 lat lon).
(** A packet with the parameters of a beacon. *)
Definition beacon_packet (bc : beacon_conf) (bw dr size off dev freq count : Z) (payload : list Z) : lgw_pkt_tx_s :=
  {| Tx.freq_hz := freq; Tx.tx_mode := ON_GPS; Tx.count_us := count; Tx.rf_chain := 0; Tx.rf_power := beacon_power bc;
     Tx.modulation := MOD_LORA; Tx.freq_offset := off; Tx.bandwidth := bw; Tx.datarate := dr; Tx.coderate := CR_LORA_4_5;
     Tx.invert_pol := false; Tx.f_dev := dev; Tx.preamble := 10; Tx.no_crc := true; Tx.no_header := true;
     Tx.size := size; Tx.payload := payload |}.

Lemma le_bytes_length n x : length (le_bytes n x) = n.
Proof. revert x. induction n as [|n IH]; intros x; [done|]. cbn [le_bytes length]. by rewrite IH. Qed.
Lemma store_done a b c bytes :
  length b = length bytes → store (a ++ b ++ c) (Z.of_nat (length a)) bytes = Ret (a ++ bytes ++ c).
Proof.
  revert a b. induction bytes as [|x r IH]; intros a b Hb; [by destruct b|].
  destruct b as [|y b]; [done|]. cbn [store]. unfold buf_set.
  assert (Hlt : (0 <=? Z.of_nat (length a)) && (Z.of_nat (length a) <? Z.of_nat (length (a ++ (y :: b) ++ c))) = true).
  { rewrite !length_app. cbn [length]. apply andb_true_iff. split; [apply Z.leb_le|apply Z.ltb_lt]; lia. }
  rewrite Hlt. cbn [mbind outcome_bind]. rewrite Nat2Z.id. replace (length a) with (length a + 0)%nat at 1 by lia.
  rewrite insert_app_r. cbn [app insert list_insert].
  replace (Z.of_nat (length a) + 1) with (Z.of_nat (length (a ++ [x]))) by (rewrite length_app; cbn [length]; lia).
  replace (a ++ x :: b ++ c) with ((a ++ [x]) ++ b ++ c) by (by rewrite <- app_assoc).
  rewrite IH by (cbn [length] in Hb; lia). by rewrite <- app_assoc.
Qed.
Lemma store_at idx a b c bytes :
  Z.of_nat (length a) = idx → length b = length bytes → store (a ++ b ++ c) idx bytes = Ret (a ++ bytes ++ c).
Proof. intros <-. apply store_done. Qed.
Lemma store_start b c bytes : length b = length bytes → store (b ++ c) 0 bytes = Ret (bytes ++ c).
Proof. apply (store_at 0 []). done. Qed.
Lemma slice_at from n a b c : Z.of_nat (length a) = from → Z.of_nat (length b) = n → slice (a ++ b ++ c) from n = b.
Proof. intros <- <-. unfold slice. rewrite !Nat2Z.id, drop_app_length. by rewrite take_app_length. Qed.
Lemma slice_start n b c : Z.of_nat (length b) = n → slice (b ++ c) 0 n = b.
Proof. apply (slice_at 0 n []). done. Qed.

(** The packet between two beacons: everything but the time is there. *)
Definition template (bc : beacon_conf) (bw dr rfu1 rfu2 lat lon : Z) (p : lgw_pkt_tx_s) : Prop :=
  ∃ off dev freq count v rest, length v = 6%nat ∧ length rest = Z.to_nat (241 - rfu1 - rfu2) ∧
    p = beacon_packet bc bw dr (rfu1 + 4 + 2 + 7 + rfu2 + 2) off dev freq count
          (replicate (Z.to_nat rfu1) 0 ++ v ++ checked_part (gateway_part bc rfu2 lat lon) ++ rest).
(** The modulation of a beacon and the position in it. *)
Definition beacon_params (bc : beacon_conf) (bw dr rfu1 rfu2 lat lon : Z) : Prop :=
  bw_of_beacon (beacon_bw_hz bc) = Ret bw ∧ dr_of_beacon (beacon_datarate bc) = Ret (dr, rfu1, rfu2) ∧
  coord_field (reference_lat bc) 90 = Ret lat ∧ coord_field (reference_lon bc) 180 = Ret lon.

Lemma split_at {A} (l : list A) n : (n <= length l)%nat → ∃ a b, l = a ++ b ∧ length a = n ∧ length b = (length l - n)%nat.
Proof.
  intros Hn. exists (take n l), (drop n l). by rewrite take_drop, length_take, length_drop, Nat.min_l.
Qed.
Lemma dr_of_beacon_sizes d dr rfu1 rfu2 :
  dr_of_beacon d = Ret (dr, rfu1, rfu2) → 0 <= rfu1 <= 5 ∧ 0 <= rfu2 <= 3 ∧ IS_LORA_DR dr = true.
Proof.
  unfold dr_of_beacon. repeat (destruct (_ =? _); [by intros [= <- <- <-]|]). done.
Qed.
Lemma gateway_length bc rfu2 lat lon : 0 <= rfu2 → Z.of_nat (length (gateway_part bc rfu2 lat lon)) = 7 + rfu2.
Proof.
  intros. unfold gateway_part. rewrite !length_app, !le_bytes_length, length_replicate. cbn [length]. lia.
Qed.
Lemma beacon_init_template bc stack p bw dr rfu1 rfu2 lat lon :
  length (Tx.payload stack) = 256%nat → beacon_params bc bw dr rfu1 rfu2 lat lon →
  beacon_init bc stack = Ret (p, rfu1, rfu2) → template bc bw dr rfu1 rfu2 lat lon p.
Proof.
  intros Hl (Eb & Ed & Ela & Elo) E. destruct (dr_of_beacon_sizes _ _ _ _ Ed) as (H1 & H2 & _).
  unfold beacon_init in E. rewrite Eb in E. cbn [mbind outcome_bind] in E. rewrite Ed in E. cbn [mbind outcome_bind] in E.
  destruct (split_at (Tx.payload stack) (Z.to_nat rfu1) ltac:(lia)) as (a & l1 & Ea & La & L1). rewrite Ea in *. rewrite length_app in Hl.
  destruct (split_at l1 6 ltac:(lia)) as (v & l2 & -> & Lv & L2).
  destruct (split_at l2 7 ltac:(lia)) as (g & l3 & -> & Lg & L3).
  destruct (split_at l3 (Z.to_nat rfu2) ltac:(lia)) as (z & l4 & -> & Lz & L4).
  destruct (split_at l4 2 ltac:(lia)) as (c & rest & -> & Lc & Lr).
  rewrite store_start in E by (by rewrite length_replicate). cbn [mbind outcome_bind app] in E.
  rewrite Ela in E. cbn [mbind outcome_bind] in E. rewrite Elo in E. cbn [mbind outcome_bind] in E.
  set (zs := replicate (Z.to_nat rfu1) 0) in *. assert (Lzs : length zs = Z.to_nat rfu1) by apply length_replicate.
  set (gp := _ :: le_bytes 3 lat ++ le_bytes 3 lon) in E.
  assert (Lgp : length gp = 7%nat) by (subst gp; cbn [length]; by rewrite length_app, !le_bytes_length).
  replace (zs ++ v ++ g ++ z ++ c ++ rest) with ((zs ++ v) ++ g ++ z ++ c ++ rest) in E by (by rewrite <- app_assoc).
  rewrite (store_at (rfu1 + 4 + 2) (zs ++ v) g) in E by (rewrite ?length_app; lia). cbn [mbind outcome_bind] in E.
  replace ((zs ++ v) ++ gp ++ z ++ c ++ rest) with (((zs ++ v) ++ gp) ++ z ++ c ++ rest) in E by (by rewrite <- (app_assoc (zs ++ v))).
  rewrite (store_at _ ((zs ++ v) ++ gp) z) in E by (rewrite ?length_app, ?length_replicate; lia). cbn [mbind outcome_bind] in E.
  set (G := gateway_part bc rfu2 lat lon). pose proof (gateway_length bc rfu2 lat lon ltac:(lia)) as LG. fold G in LG.
  replace (((zs ++ v) ++ gp) ++ replicate (Z.to_nat rfu2) 0 ++ c ++ rest) with ((zs ++ v) ++ G ++ c ++ rest) in E
    by (unfold G, gateway_part; subst gp; rewrite <- !app_assoc; cbn [app]; by rewrite <- !app_assoc).
  rewrite (slice_at _ _ (zs ++ v) G) in E by (rewrite ?length_app; lia).
  replace ((zs ++ v) ++ G ++ c ++ rest) with (((zs ++ v) ++ G) ++ c ++ rest) in E by (by rewrite <- (app_assoc (zs ++ v))).
  rewrite (store_at _ ((zs ++ v) ++ G) c) in E by (rewrite ?length_app, ?le_bytes_length; lia). cbn [mbind outcome_bind] in E.
  apply (f_equal (λ o, match o with Ret (x, _, _) => x | _ => p end)) in E. cbv beta iota in E. subst p.
  exists (Tx.freq_offset stack), (Tx.f_dev stack), (Tx.freq_hz stack), (Tx.count_us stack), v, rest.
  split; [done|]. split; [lia|]. unfold beacon_packet, checked_part. fold G. rewrite <- !app_assoc. reflexivity.
Qed.
(** Filling in the time completes the frame. *)
Lemma fill_beacon_frame bc bw dr rfu1 rfu2 lat lon t c p :
  0 <= rfu1 <= 5 → 0 <= rfu2 <= 3 → template bc bw dr rfu1 rfu2 lat lon p →
  ∃ off dev rest,
    fill_beacon bc rfu1 t c p =
      Ret (beacon_packet bc bw dr (rfu1 + 4 + 2 + 7 + rfu2 + 2) off dev (beacon_freq bc t) c
             (beacon_frame bc rfu1 rfu2 lat lon t ++ rest)) ∧
    length rest = Z.to_nat (241 - rfu1 - rfu2).
Proof.
  intros H1 H2 (off & dev & freq & count & v & rest & Lv & Lr & ->). exists off, dev, rest. split; [|done].
  unfold fill_beacon, beacon_packet. cbn [Tx.payload Tx.tx_mode Tx.rf_chain Tx.rf_power Tx.modulation Tx.freq_offset Tx.bandwidth
    Tx.datarate Tx.coderate Tx.invert_pol Tx.f_dev Tx.preamble Tx.no_crc Tx.no_header Tx.size].
  set (zs := replicate (Z.to_nat rfu1) 0). assert (Lzs : length zs = Z.to_nat rfu1) by apply length_replicate.
  destruct (split_at v 4 ltac:(lia)) as (v4 & v2 & -> & L4 & L2). rewrite <- (app_assoc v4). set (R := checked_part _ ++ rest).
  rewrite (store_at rfu1 zs v4) by (rewrite ?le_bytes_length; lia). cbn [mbind outcome_bind].
  set (C := common_part rfu1 t). assert (EC : zs ++ le_bytes 4 t = C) by done.
  assert (LC : length C = (Z.to_nat rfu1 + 4)%nat) by (rewrite <- EC, length_app, le_bytes_length; lia).
  rewrite (app_assoc zs), EC. rewrite slice_start by lia.
  rewrite (store_at (rfu1 + 4) C v2) by (rewrite ?length_app, ?le_bytes_length in *; lia). cbn [mbind outcome_bind].
  unfold beacon_packet, beacon_frame, checked_part. fold C. subst R. unfold checked_part.
  rewrite <- !app_assoc. reflexivity.
Qed.
Lemma frame_length bc rfu1 rfu2 lat lon t :
  0 <= rfu1 → 0 <= rfu2 → Z.of_nat (length (beacon_frame bc rfu1 rfu2 lat lon t)) = rfu1 + 4 + 2 + 7 + rfu2 + 2.
Proof.
  intros. unfold beacon_frame, checked_part. pose proof (gateway_length bc rfu2 lat lon ltac:(lia)).
  unfold common_part. rewrite !length_app, !le_bytes_length, length_replicate. lia.
Qed.
Lemma packet_template bc bw dr rfu1 rfu2 lat lon off dev freq c t rest :
  length rest = Z.to_nat (241 - rfu1 - rfu2) →
  template bc bw dr rfu1 rfu2 lat lon
    (beacon_packet bc bw dr (rfu1 + 4 + 2 + 7 + rfu2 + 2) off dev freq c (beacon_frame bc rfu1 rfu2 lat lon t ++ rest)).
Proof.
  intros Lr. exists off, dev, freq, c, (le_bytes 4 t ++ le_bytes 2 (crc16 (Some (common_part rfu1 t)))), rest.
  split; [by rewrite length_app, !le_bytes_length|]. split; [done|].
  unfold beacon_frame, checked_part at 1. unfold common_part at 1. rewrite <- !app_assoc. reflexivity.
Qed.
Lemma beacon_unchanged qsort sw q now p e q' p' :
  jit_enqueue qsort sw q now (Some p) JIT_PKT_TYPE_BEACON = Ret (e, q', p') → p' = Some p.
Proof.
  unfold jit_enqueue. destruct (jit_queue_is_full q); [by intros [= _ _ <-]|].
  cbn [packet_delays mbind outcome_bind]. unfold jit_enqueue_locked. destruct (live_nodes q) as [l| |]; [|done..].
  cbn [mbind outcome_bind]. rewrite bool_decide_eq_false_2 by done.
  destruct (_ <=? _); [by intros [= _ _ <-]|]. rewrite !bool_decide_eq_false_2 by done. cbn [orb andb].
  destruct (collision _ _ _ _ l); [by intros [= _ _ <-]|]. destruct (buf_set _ _ _); [|done..].
  cbn [mbind outcome_bind]. by intros [= _ _ <-].
Qed.

(** ** The turns of the loop *)

Section Turns.
Context {H : Type} (cc : concentrator H) (bc : beacon_conf).
Context (qsort : ∀ A, (A → A → Z) → list A → list A) (sw : Z).
Implicit Types (s : fwd_state H) (v : beacon_vars).

(** What a turn that does not leave the loop does with the packet [p] for the
    time [t]: it is offered to the queue of chain 0. *)
Definition offers s s' v' (t : Z) (p : lgw_pkt_tx_s) (e : jit_error_e) : Prop :=
  ∃ h now q q', get_instcnt cc (hal s) = Done h now ∧ jit_queue s !! 0%nat = Some q ∧
    jit_enqueue qsort sw q now (Some p) JIT_PKT_TYPE_BEACON = Ret (e, q', Some p) ∧
    jit_queue s' = <[0%nat := q']> (jit_queue s) ∧ b_pkt v' = p ∧ (e = JIT_ERROR_OK → b_last v' = t).

Lemma beacon_turn_inv rfu1 v s s' v' :
  beacon_turn cc bc qsort sw rfu1 v s = Done s' (Some v') →
  let t := next_beacon bc (ts_sec (ref_gps (time_ref s))) (b_last v) (b_retry v) in
  ∃ st c p e, lgw_gps2cnt (time_ref s) (Timespec t 0) true = Ret (st, c) ∧
    fill_beacon bc rfu1 t (default (Tx.count_us (b_pkt v)) c) (b_pkt v) = Ret p ∧ offers s s' v' t p e ∧
    (b_last v' = t ∧ b_retry v' = 0 ∨ b_last v' = b_last v ∧ b_retry v' = b_retry v + 1).
Proof.
  unfold beacon_turn. intros (s1 & va & E1 & (s2 & co & E2 & E)%bind_inv)%bind_inv. injection E1 as <- <-.
  injection E2 as <- <-. destruct (_ && _)%bool; [|done]. apply bind_inv in E as (s1 & ref & E1 & E).
  injection E1 as <- <-. cbv zeta in E |- *. set (t := next_beacon _ _ _ _) in *. clearbody t.
  apply bind_inv in E as (s1 & [st c] & E1 & E). unfold of_outcome in E1 at 1.
  destruct (lgw_gps2cnt _ _ _) as [[st' c']| |] eqn:Eg; try done. injection E1 as <- <- <-.
  apply bind_inv in E as (s1 & p & E1 & E). unfold of_outcome in E1 at 1.
  destruct (fill_beacon _ _ _ _ _) as [p1| |] eqn:Ef; try done. injection E1 as <- <-.
  apply bind_inv in E as (s1 & now & E1 & (s2 & q & (-> & _ & Eq)%get_queue_inv & E)%bind_inv).
  unfold on_hal, zoom in E1. destruct (get_instcnt cc (hal s)) as [h n| | |] eqn:Eh; try done. injection E1 as <- <-.
  apply bind_inv in E as (s1 & [[e q'] p'] & E1 & (s2 & [] & Ep%put_queue_inv & E)%bind_inv). unfold of_outcome in E1 at 1.
  destruct (jit_enqueue qsort sw q n (Some p1) JIT_PKT_TYPE_BEACON) as [[[e1 q1] p2]| |] eqn:Ej; try done.
  injection E1 as <- <- <- <-. pose proof (beacon_unchanged _ _ _ _ _ _ _ _ Ej) as ->. cbn [default from_option id] in E.
  exists st', c', p1, e1. split; [done|]. split; [done|].
  assert (Hq : jit_queue s2 = <[0%nat := q1]> (jit_queue s)) by (by rewrite Ep).
  case_bool_decide as Ee.
  - apply bind_inv in E as (s3 & [] & E3 & E). rewrite bump_done in E3. injection E3 as <-. injection E as <- <-.
    split; [|by left]. exists h, n, q, q1. by split_and!.
  - apply bind_inv in E as (s3 & [] & E3 & (s4 & r & E4 & E)%bind_inv).
    assert (Hq3 : jit_queue s3 = jit_queue s2).
    { destruct (negb _); [rewrite bump_done in E3|]; by injection E3 as <-. }
    unfold of_outcome in E4. destruct (int_ok (b_retry v + 1)) as [r'| |] eqn:Er; try done. injection E4 as <- <-.
    injection E as <- <-. assert (r' = b_retry v + 1) as -> by (revert Er; unfold int_ok; destruct (_ && _)%bool; [by intros [= ->]|done]).
    split; [|by right]. exists h, n, q, q1. split_and!; try done. congruence.
Qed.

(** The turns of the loop, between which the other threads change the shared
    state, and the start of the loop after the next datagram. *)
Inductive beacon_step (rfu1 : Z) : fwd_state H * beacon_vars → fwd_state H * beacon_vars → Prop :=
  | beacon_step_turn s v s' v' :
      beacon_turn cc bc qsort sw rfu1 v s = Done s' (Some v') → beacon_step rfu1 (s, v) (s', v')
  | beacon_step_other s s' v : beacon_step rfu1 (s, v) (s', v)
  | beacon_step_start s v n : beacon_step rfu1 (s, v) (s, Vars (b_pkt v) (b_last v) n 0).

Definition vars_ok (bw dr rfu1 rfu2 lat lon : Z) v : Prop :=
  template bc bw dr rfu1 rfu2 lat lon (b_pkt v) ∧ (beacon_period bc | b_last v).

Lemma next_beacon_slot now last retry :
  0 < beacon_period bc → (beacon_period bc | 2 ^ 32) → (beacon_period bc | last) →
  (beacon_period bc | next_beacon bc now last retry).
Proof.
  intros Hp H32 Hl. unfold next_beacon. apply Z.divide_add_r.
  - destruct (last =? 0); [|by apply Z.divide_add_r].
    exists (Z.quot now (beacon_period bc) + 1). pose proof (Z.quot_rem now (beacon_period bc) ltac:(lia)). lia.
  - unfold u32. rewrite Z.mod_eq by lia. apply Z.divide_sub_r; [apply Z.divide_factor_r|by apply Z.divide_mul_l].
Qed.
Lemma beacon_turn_ok bw dr rfu1 rfu2 lat lon v s s' v' :
  0 < beacon_period bc → (beacon_period bc | 2 ^ 32) → beacon_params bc bw dr rfu1 rfu2 lat lon →
  vars_ok bw dr rfu1 rfu2 lat lon v → beacon_turn cc bc qsort sw rfu1 v s = Done s' (Some v') →
  vars_ok bw dr rfu1 rfu2 lat lon v' ∧
  ∃ t st c off dev rest e, (beacon_period bc | t) ∧ lgw_gps2cnt (time_ref s) (Timespec t 0) true = Ret (st, c) ∧
    offers s s' v' t (beacon_packet bc bw dr (rfu1 + 4 + 2 + 7 + rfu2 + 2) off dev (beacon_freq bc t)
      (default (Tx.count_us (b_pkt v)) c) (beacon_frame bc rfu1 rfu2 lat lon t ++ rest)) e.
Proof.
  intros Hp H32 Hb [Ht Hl] E. destruct (beacon_turn_inv _ _ _ _ _ E) as (st & c & p & e & Eg & Ef & Ho & Hv). cbv zeta in *.
  pose proof (next_beacon_slot (ts_sec (ref_gps (time_ref s))) (b_last v) (b_retry v) Hp H32 Hl) as Hd.
  set (t := next_beacon _ _ _ _) in *. clearbody t. pose proof Hb as (_ & Ed & _).
  destruct (dr_of_beacon_sizes _ _ _ _ Ed) as (H1 & H2 & _).
  destruct (fill_beacon_frame bc bw dr rfu1 rfu2 lat lon t (default (Tx.count_us (b_pkt v)) c) (b_pkt v) H1 H2 Ht)
    as (off & dev & rest & Ef' & Lr).
  assert (Ep : p = beacon_packet bc bw dr (rfu1 + 4 + 2 + 7 + rfu2 + 2) off dev (beacon_freq bc t)
    (default (Tx.count_us (b_pkt v)) c) (beacon_frame bc rfu1 rfu2 lat lon t ++ rest)).
  { rewrite Ef' in Ef. set (P := beacon_packet _ _ _ _ _ _ _ _ _) in *. clearbody P. by injection Ef. }
  rewrite Ep in Ho. split; [|by exists t, st, c, off, dev, rest, e].
  destruct Ho as (h & now & q & q' & _ & _ & _ & _ & Eb & _). split.
  - rewrite Eb. by apply packet_template.
  - destruct Hv as [[-> _]|[-> _]]; done.
Qed.

(** C17. Every beacon that is offered to the queue is well formed, over any
    interleaving with the other threads, any concentrator and any contents of the
    uninitialised structure: it is for a multiple of the beacon period of GPS
    time, its frame holds this time and the position of the gateway, each part
    with its checksum, it goes to the channel of its slot and at the counter that
    the time reference gives for the slot, or, when this conversion fails, at the
    counter the structure held before. The period divides [2^32], as the 128 s of
    LoRaWAN do. *)
Theorem beacons_well_formed stack p0 bw dr rfu1 rfu2 lat lon s0 n s v s' v' :
  0 < beacon_period bc → (beacon_period bc | 2 ^ 32) → length (Tx.payload stack) = 256%nat →
  beacon_params bc bw dr rfu1 rfu2 lat lon → beacon_init bc stack = Ret (p0, rfu1, rfu2) →
  rtc (beacon_step rfu1) (s0, Vars p0 0 n 0) (s, v) → beacon_turn cc bc qsort sw rfu1 v s = Done s' (Some v') →
  ∃ t st c off dev rest e, (beacon_period bc | t) ∧ lgw_gps2cnt (time_ref s) (Timespec t 0) true = Ret (st, c) ∧
    offers s s' v' t (beacon_packet bc bw dr (rfu1 + 4 + 2 + 7 + rfu2 + 2) off dev (beacon_freq bc t)
      (default (Tx.count_us (b_pkt v)) c) (beacon_frame bc rfu1 rfu2 lat lon t ++ rest)) e.
Proof.
  intros Hp H32 Hl Hb Hi Hs E.
  assert (Hr : ∀ x y, rtc (beacon_step rfu1) x y → vars_ok bw dr rfu1 rfu2 lat lon (snd x) → vars_ok bw dr rfu1 rfu2 lat lon (snd y)).
  { intros x y. induction 1 as [|x y z Hxy _ IH]; [done|]. intros H0. apply IH. revert H0.
    destruct Hxy as [s1 v1 s2 v2 E1|s1 s2 v1|s1 v1 k]; cbn [snd]; [|done|done].
    intros H0. by destruct (beacon_turn_ok bw dr rfu1 rfu2 lat lon v1 s1 s2 v2 Hp H32 Hb H0 E1). }
  assert (Hv : vars_ok bw dr rfu1 rfu2 lat lon v).
  { apply (Hr _ _ Hs). split; [by apply (beacon_init_template bc stack)|apply Z.divide_0_r]. }
  by destruct (beacon_turn_ok bw dr rfu1 rfu2 lat lon v s s' v' Hp H32 Hb Hv E).
Qed.
End Turns.

(** ** Times the counter cannot hold *)

Section Reals.
Open Scope R_scope.

Lemma round_low a' a L : Rabs (a' - a) <= ulp2 * Rabs a → 0 <= L <= a → L * 0.999999 <= a'.
Proof.
  intros H HL. pose proof ulp2_small. pose proof ulp2_pos. rewrite (Rabs_right a) in H by lra. apply Rabs_between in H. nra.
Qed.
Lemma round_high a' a L : Rabs (a' - a) <= ulp2 * Rabs a → 0 <= L → a <= - L → a' <= - (L * 0.999999).
Proof.
  intros H HL Ha. pose proof ulp2_small. pose proof ulp2_pos. rewrite (Rabs_left1 a) in H by lra. apply Rabs_between in H. nra.
Qed.
Lemma of_Z_any_R z : Rabs (dR (dbl_of_Z z) - IZR z) <= ulp2 * Rabs (IZR z).
Proof. pose proof (rnd_R z 1 ltac:(lia)) as H. by rewrite Rdiv_1_r in H. Qed.
Lemma nsec_R b : (0 <= b < 1000000000)%Z → -1.1 <= dR (dmul d1E_9 (dbl_of_Z (0 - b))) <= 0.1.
Proof.
  intros Hb. assert (Hb' : -1000000000 <= IZR (0 - b) <= 0) by (split; apply IZR_le; lia).
  pose proof (rnd_R 1 1000000000 ltac:(lia)) as K. fold d1E_9 in K. apply (round_err _ _ 0.000000001) in K; [|rbound].
  pose proof (dmul_R d1E_9 (dbl_of_Z (0 - b))) as M. rewrite of_Z_R in M by lia.
  pose proof (mul_err (dR d1E_9 - 1 / 1000000000) (IZR (0 - b)) (0.000000001 / 8000000000000000) 1000000000 ltac:(rbound) ltac:(rbound)).
  apply (round_err _ _ 1.05) in M; [|rbound]. lra.
Qed.

(** The number of counts to the time [a] seconds and [- b] nanoseconds after the
    reference. *)
Abbreviation counts a b x := (dmul (dmul (dadd (dbl_of_Z a) (dmul d1E_9 (dbl_of_Z (0 - b)))) TS_CPS) x).
Lemma counts_late a b x :
  (4300 <= a)%Z → (0 <= b < 1000000000)%Z → 0.99998 <= dR x <= 1.00002 → 4294967296 <= dR (counts a b x).
Proof.
  intros Ha Hb Hx. assert (Ha' : 4300 <= IZR a) by (apply IZR_le; lia). pose proof (nsec_R b Hb) as Hm.
  set (m := dmul d1E_9 _) in *. clearbody m. pose proof (round_low _ _ 4300 (of_Z_any_R a) ltac:(lra)) as H1.
  set (d := dbl_of_Z a) in *. clearbody d. pose proof (round_low _ _ 4298.8 (dadd_R d m) ltac:(lra)) as H2.
  set (e := dadd d m) in *. clearbody e.
  assert (HT : dR TS_CPS = 1000000) by (unfold TS_CPS; rewrite of_Z_R by lia; reflexivity).
  pose proof (round_low _ _ 4298700000 (dmul_R e TS_CPS) ltac:(rewrite HT; lra)) as H3.
  set (g := dmul e TS_CPS) in *. clearbody g.
  pose proof (round_low _ _ 4298500000 (dmul_R g x) ltac:(split; [lra|nra])) as H4. lra.
Qed.
Lemma counts_early a b x :
  (a <= -2)%Z → (0 <= b < 1000000000)%Z → 0.99998 <= dR x <= 1.00002 → dR (counts a b x) <= -1.
Proof.
  intros Ha Hb Hx. assert (Ha' : IZR a <= -2) by (apply IZR_le; lia). pose proof (nsec_R b Hb) as Hm.
  set (m := dmul d1E_9 _) in *. clearbody m. pose proof (round_high _ _ 2 (of_Z_any_R a) ltac:(lra) ltac:(lra)) as H1.
  set (d := dbl_of_Z a) in *. clearbody d. pose proof (round_high _ _ 1.8 (dadd_R d m) ltac:(lra) ltac:(lra)) as H2.
  set (e := dadd d m) in *. clearbody e.
  assert (HT : dR TS_CPS = 1000000) by (unfold TS_CPS; rewrite of_Z_R by lia; reflexivity).
  pose proof (round_high _ _ 1700000 (dmul_R e TS_CPS) ltac:(lra) ltac:(rewrite HT; lra)) as H3.
  set (g := dmul e TS_CPS) in *. clearbody g.
  pose proof (round_high _ _ 1600000 (dmul_R g x) ltac:(lra) ltac:(nra)) as H4. lra.
Qed.
Lemma dtrunc_neg x : dR x <= -1 → (dtrunc x < 0)%Z.
Proof.
  intros Hx. pose proof (den_R x) as Hd. pose proof (den_pos x) as Hp.
  assert (Hn : (num x <= - den x)%Z).
  { apply le_IZR. rewrite opp_IZR. unfold dR, Rdiv in Hx.
    assert (IZR (num x) = IZR (num x) * / IZR (den x) * IZR (den x)) by (field; lra). nra. }
  unfold dtrunc. pose proof (Z.quot_opp_l (num x) (den x) ltac:(lia)) as Q.
  pose proof (Z.quot_le_mono (den x) (- num x) (den x) Hp ltac:(lia)) as M. rewrite Z.quot_same in M by lia. lia.
Qed.
End Reals.

(** Times two seconds before the reference, or more than its counter can hold
    after it, are not converted. *)
Lemma gps2cnt_out_of_range ref t :
  ref_invalid ref = false → 0 <= ts_nsec (ref_gps ref) < 1000000000 →
  t <= ts_sec (ref_gps ref) - 2 ∨ ts_sec (ref_gps ref) + 4300 <= t → lgw_gps2cnt ref (Timespec t 0) true = Undef.
Proof.
  intros Hv Hn Ht. unfold lgw_gps2cnt. rewrite Hv. cbn [negb orb]. apply orb_false_iff in Hv as [_ Hx]. apply in_range_R in Hx.
  unfold time2cnt. cbn [ts_sec ts_nsec]. set (y := dmul _ (xtal_err ref)).
  assert (Hy : dtrunc y < 0 ∨ 2 ^ 32 <= dtrunc y).
  { destruct Ht as [Ht|Ht]; [left; apply dtrunc_neg, counts_early; [lia|done|done]|right].
    pose proof (counts_late (t - ts_sec (ref_gps ref)) _ _ ltac:(lia) Hn Hx) as L. fold y in L.
    destruct (dtrunc_R y ltac:(lra)) as [_ L2].
    apply Z.lt_succ_r. unfold Z.succ. apply lt_IZR. rewrite plus_IZR. change (IZR (2 ^ 32)) with 4294967296%R. lra. }
  clearbody y. unfold u32_of_double. destruct Hy as [Hy|Hy].
  - by rewrite (proj2 (Z.leb_gt 0 (dtrunc y))) by lia.
  - by rewrite (proj2 (Z.ltb_ge (dtrunc y) (2 ^ 32))), andb_false_r by lia.
Qed.

(** ** A full queue *)

Section Full.
Context {H : Type} (cc : concentrator H) (bc : beacon_conf).
Context (qsort : ∀ A, (A → A → Z) → list A → list A) (sw : Z).
Context (bw dr rfu1 rfu2 lat lon : Z) (ref : tref) (q : jit_queue_s).
Implicit Types (s : fwd_state H) (v : beacon_vars).

(** The state all turns start in: the reference and the queue are as they are,
    whatever the concentrator does. *)
Definition stays_full s : Prop :=
  gps_ref_valid s = true ∧ xtal_correct_ok s = true ∧ time_ref s = ref ∧ jit_queue s !! 0%nat = Some q.
Context (full : jit_queue_is_full q = true) (reads : ∀ h : H, ∃ h' now, get_instcnt cc h = Done h' now).
Context (params : beacon_params bc bw dr rfu1 rfu2 lat lon).

Lemma turn_full v s :
  stays_full s → template bc bw dr rfu1 rfu2 lat lon (b_pkt v) → 0 <= b_retry v < 2 ^ 31 - 1 →
  let t := next_beacon bc (ts_sec (ref_gps ref)) (b_last v) (b_retry v) in
  match lgw_gps2cnt ref (Timespec t 0) true with
  | Ret _ => ∃ s' p, beacon_turn cc bc qsort sw rfu1 v s = Done s' (Some (Vars p (b_last v) (b_loop v) (b_retry v + 1))) ∧
      stays_full s' ∧ template bc bw dr rfu1 rfu2 lat lon p
  | Exit _ => True
  | Undef => beacon_turn cc bc qsort sw rfu1 v s = Wrong
  end.
Proof.
  intros (Hv & Hx & Hr & Hq) Ht Hb. cbv zeta. set (t := next_beacon _ _ _ _). unfold beacon_turn.
  rewrite !(bind_done (gets gps_ref_valid) _ s s true) by (unfold gets; by rewrite Hv).
  rewrite !(bind_done (gets xtal_correct_ok) _ s s true) by (unfold gets; by rewrite Hx). cbn [andb].
  rewrite !(bind_done (gets time_ref) _ s s ref) by (unfold gets; by rewrite Hr). fold t.
  destruct (lgw_gps2cnt ref (Timespec t 0) true) as [[st c]| |]; [|done..].
  pose proof params as (_ & Ed & _). destruct (dr_of_beacon_sizes _ _ _ _ Ed) as (H1 & H2 & _).
  destruct (fill_beacon_frame bc bw dr rfu1 rfu2 lat lon t (default (Tx.count_us (b_pkt v)) c) (b_pkt v) H1 H2 Ht)
    as (off & dev & rest & Ef & Lr).
  set (p := beacon_packet _ _ _ _ _ _ _ _ _) in Ef. assert (Tp : template bc bw dr rfu1 rfu2 lat lon p) by (by apply packet_template).
  clearbody p. rewrite (bind_done _ _ s s (st, c)) by done. rewrite Ef, (bind_done _ _ s s p) by done.
  destruct (reads (hal s)) as (h & now & Eh).
  rewrite (bind_done _ _ s (set_hal s h) now) by (unfold on_hal, zoom; by rewrite Eh).
  rewrite (bind_done _ _ (set_hal s h) (set_hal s h) q) by (by apply get_queue_done).
  assert (Ej : jit_enqueue qsort sw q now (Some p) JIT_PKT_TYPE_BEACON = Ret (JIT_ERROR_FULL, q, Some p)).
  { unfold jit_enqueue. by rewrite full. }
  rewrite Ej, (bind_done _ _ (set_hal s h) (set_hal s h) (JIT_ERROR_FULL, q, Some p)) by done.
  apply lookup_lt_Some in Hq as Hlt. rewrite (bind_done _ _ _ _ () (put_queue_done 0 q (set_hal s h) ltac:(cbn [set_hal jit_queue]; lia))).
  rewrite !bool_decide_eq_false_2 by done. cbn [negb default from_option id].
  rewrite (bind_done _ _ _ _ () (bump_done meas_nb_beacon_rejected 1 _)). unfold int_ok.
  rewrite (proj2 (Z.leb_le _ _)), (proj2 (Z.ltb_lt _ _)) by lia. cbn [andb].
  eexists _, p. split; [reflexivity|]. split; [|done]. split; [done|]. split; [done|]. split; [done|].
  change (<[0%nat := q]> (jit_queue s) !! 0%nat = Some q). by apply list_lookup_insert_eq.
Qed.

Lemma loop_full fuel v s r :
  0 < beacon_period bc <= 86400 → ref_invalid ref = false → 0 <= ts_nsec (ref_gps ref) < 1000000000 →
  stays_full s → template bc bw dr rfu1 rfu2 lat lon (b_pkt v) → b_loop v ≠ 0 → b_retry v = r → 0 <= r <= 4303 →
  (r = 0 ∨ ts_sec (ref_gps ref) - 1 <= next_beacon bc (ts_sec (ref_gps ref)) (b_last v) 0) → 4303 < Z.of_nat fuel + r →
  beacon_loop cc bc qsort sw fuel rfu1 v s = Wrong.
Proof.
  intros Hp Hv Hn. revert v s r. induction fuel as [|fuel IH]; intros v s r Hs Ht Hl Hr Hr0 Hb Hf; [lia|].
  cbn [beacon_loop]. rewrite (proj2 (Z.eqb_neq (b_loop v) 0)), (proj2 (Z.eqb_neq (beacon_period bc) 0)) by lia. cbn [negb andb].
  pose proof (turn_full v s Hs Ht ltac:(lia)) as HT. cbv zeta in HT.
  set (ts := ts_sec (ref_gps ref)) in *.
  assert (En : next_beacon bc ts (b_last v) (b_retry v) = next_beacon bc ts (b_last v) 0 + r * beacon_period bc).
  { unfold next_beacon. rewrite Hr, (u32_id (r * _)), u32_id by nia. lia. }
  set (b := next_beacon bc ts (b_last v) 0) in *. rewrite En in HT.
  destruct (decide (b + r * beacon_period bc <= ts - 2 ∨ ts + 4300 <= b + r * beacon_period bc)) as [Ho|Hi].
  - rewrite gps2cnt_out_of_range in HT by done. by apply bind_wrong.
  - destruct (lgw_gps2cnt ref _ true) as [x| |] eqn:Eg; [|exfalso|by apply bind_wrong].
    + destruct HT as (s' & p & E & Hs' & Ht'). rewrite (bind_done _ _ _ _ _ E).
      apply (IH _ _ (r + 1)); cbn [b_pkt b_last b_loop b_retry]; try done; [lia|nia|right; fold b; nia|lia].
    + revert Eg. unfold lgw_gps2cnt. rewrite Hv. cbn [negb orb]. unfold time2cnt, u32_of_double.
      by destruct (_ && _)%bool.
Qed.

(** C38. A full queue stops the forwarder from queueing beacons with defined
    behaviour: as long as beacons are missing the thread tries later and later
    slots without looking at the error, until the time of a slot is not
    representable in the counter and its conversion is undefined. *)
Theorem full_queue_undefined fuel v s :
  0 < beacon_period bc <= 86400 → ref_invalid ref = false → 0 <= ts_nsec (ref_gps ref) < 1000000000 →
  stays_full s → 0 <= num_beacon q < JIT_NUM_BEACON_IN_QUEUE → template bc bw dr rfu1 rfu2 lat lon (b_pkt v) →
  (4304 <= fuel)%nat → queue_beacons cc bc qsort sw fuel rfu1 v s = Wrong.
Proof.
  intros Hp Hv Hn Hs Hq Ht Hf. unfold queue_beacons, JIT_NUM_BEACON_IN_QUEUE in *. pose proof Hs as (_ & _ & _ & Eq).
  rewrite (bind_done _ _ s s q) by (by apply get_queue_done).
  apply (loop_full fuel _ s 0); cbn [b_pkt b_loop b_retry]; try done; [rewrite u8_id; lia|by left|lia].
Qed.
End Full.

(** ** Examples *)

Definition a_beacon_conf : beacon_conf := Beacons 128 869525000 1 0 9 125000 14 0 (dbl_of_Z 45) (dbl_of_Z (-90)).
Definition a_beacon : lgw_pkt_tx_s :=
  match beacon_init a_beacon_conf Tx.zero with Ret (p, _, _) => p | _ => Tx.zero end.
Definition gps_state (q : jit_queue_s) : fwd_state Z :=
  Fwd 4294000000 [q; jit_queue_init] (λ _, 0) [] false 0 true a_ref (Dbl 1 0) true None.
Definition first_turn : outcome (fwd_state Z * beacon_vars) :=
  match beacon_turn a_concentrator a_beacon_conf isort 3 2 (Vars a_beacon 0 3 0) (gps_state jit_queue_init) with
  | Done s (Some v) => Ret (s, v)
  | _ => Undef
  end.
Definition turned : fwd_state Z * beacon_vars :=
  match first_turn with Ret x => x | _ => (gps_state jit_queue_init, Vars a_beacon 0 3 0) end.

Lemma a_beacon_params : beacon_params a_beacon_conf BW_125KHZ DR_LORA_SF9 2 0 4194304 (-4194304).
Proof. split_and!; by vm_compute. Qed.
Lemma a_beacon_init : beacon_init a_beacon_conf Tx.zero = Ret (a_beacon, 2, 0).
Proof. vm_compute. reflexivity. Qed.
Lemma turned_done :
  beacon_turn a_concentrator a_beacon_conf isort 3 2 (Vars a_beacon 0 3 0) (gps_state jit_queue_init) = Done (fst turned) (Some (snd turned)).
Proof.
  unfold turned, first_turn. set (r := beacon_turn _ _ _ _ _ _ _).
  assert (E : match r with Done _ (Some _) => true | _ => false end = true) by (vm_compute; reflexivity).
  clearbody r. destruct r as [s [v|]| | |]; done.
Qed.
Lemma beacons_well_formed_witness :
  ∃ t st c off dev rest e, (128 | t) ∧ lgw_gps2cnt a_ref (Timespec t 0) true = Ret (st, c) ∧
    offers a_concentrator isort 3 (gps_state jit_queue_init) (fst turned) (snd turned) t
      (beacon_packet a_beacon_conf BW_125KHZ DR_LORA_SF9 17 off dev 869525000
        (default 0 c) (beacon_frame a_beacon_conf 2 0 4194304 (-4194304) t ++ rest)) e.
Proof.
  destruct (beacons_well_formed a_concentrator a_beacon_conf isort 3 Tx.zero a_beacon BW_125KHZ DR_LORA_SF9 2 0 4194304 (-4194304)
    (gps_state jit_queue_init) 3 (gps_state jit_queue_init) (Vars a_beacon 0 3 0) (fst turned) (snd turned)
    ltac:(cbn; lia) ltac:(by exists 33554432) ltac:(by vm_compute) a_beacon_params a_beacon_init (rtc_refl _ _) turned_done)
    as (t & st & c & off & dev & rest & e & Ht & Eg & Ho).
  exists t, st, c, off, dev, rest, e. split; [exact Ht|]. split; [exact Eg|exact Ho].
Defined.

(** 32 packets, none of them a beacon. *)
Definition full_queue : jit_queue_s := {| num_pkt := 32; num_beacon := 0; nodes := nodes jit_queue_init |}.
Lemma a_beacon_template : template a_beacon_conf BW_125KHZ DR_LORA_SF9 2 0 4194304 (-4194304) a_beacon.
Proof. apply (beacon_init_template a_beacon_conf Tx.zero); [by vm_compute|exact a_beacon_params|exact a_beacon_init]. Qed.
Lemma full_queue_undefined_witness :
  queue_beacons a_concentrator a_beacon_conf isort 3 4304 2 (Vars a_beacon 0 0 0) (gps_state full_queue) = Wrong.
Proof.
  apply (full_queue_undefined a_concentrator a_beacon_conf isort 3 BW_125KHZ DR_LORA_SF9 2 0 4194304 (-4194304) a_ref full_queue).
  - reflexivity.
  - intros h. exists h, h. reflexivity.
  - exact a_beacon_params.
  - cbn. lia.
  - vm_compute. reflexivity.
  - split; [by apply Z.leb_le|by apply Z.ltb_lt].
  - by split_and!.
  - split; [by apply Z.leb_le|by apply Z.ltb_lt].
  - exact a_beacon_template.
  - apply Nat.leb_le. vm_compute. reflexivity.
Defined.
