(* ===== verification/Valid.v ===== *)
(** * The validity of the time reference ([packet_forwarder/src/lora_pkt_fwd.c], [thread_valid])

    Once per second the thread checks the age of the GPS time reference and
    follows the error of the crystal: it averages the first 16 measurements and
    then tracks them with a low-pass filter. The frequency of a beacon is
    multiplied by the correction. *)
From Stdlib Require Import ZArith Lia Reals Lra.
From stdpp Require Import base list numbers relations.
From S2P Require Import Prelude Binary64 HalTypes JitQueue RegProg TimeRef TimeRefProps Forward ForwardProps.

Open Scope Z_scope.
Open Scope list_scope.

Definition GPS_REF_MAX_AGE : Z := 30.
Definition XERR_INIT_AVG : Z := 16.
Definition XERR_FILT_COEF : Z := 256.

(** The variables of the thread. *)
Record valid_vars := Avg { init_cpt : Z; init_acc : double }.
Definition valid_vars0 : valid_vars := Avg 0 (dbl_of_Z 0).

Section Valid.
Context {H : Type}.

Definition set_ref_valid (b : bool) (s : fwd_state H) : fwd_state H :=
  Fwd (hal s) (jit_queue s) (count_of_meas s) (datagrams s) (req_ack s) (autoquit_cnt s) b (time_ref s)
    (xtal_correct s) (xtal_correct_ok s) (exited s).
Definition set_xtal (x : double) (ok : bool) (s : fwd_state H) : fwd_state H :=
  Fwd (hal s) (jit_queue s) (count_of_meas s) (datagrams s) (req_ack s) (autoquit_cnt s) (gps_ref_valid s) (time_ref s)
    x ok (exited s).

(** A turn of the loop at the system time [now]; the age is exact as a
    [double]. [xtal_correct] is only written here. *)
Definition valid_turn (now : Z) (v : valid_vars) : fprog H valid_vars :=
  ref ← gets time_ref;
  let gps_ref_age := now - systime ref in
  let ref_valid_local := (0 <=? gps_ref_age) && (gps_ref_age <=? GPS_REF_MAX_AGE) in
  _ ← modify (set_ref_valid ref_valid_local);
  if negb ref_valid_local then
    _ ← modify (set_xtal (dbl_of_Z 1) false);
    mret (Avg 0 (dbl_of_Z 0))
  else if init_cpt v <? XERR_INIT_AVG then
    mret (Avg (init_cpt v + 1) (dadd (init_acc v) (xtal_err ref)))
  else if init_cpt v =? XERR_INIT_AVG then
    _ ← modify (set_xtal (ddiv (dbl_of_Z XERR_INIT_AVG) (init_acc v)) true);
    mret (Avg (init_cpt v + 1) (init_acc v))
  else
    let x := ddiv (dbl_of_Z 1) (xtal_err ref) in
    _ ← modify (λ s, set_xtal (dadd (dsub (xtal_correct s) (ddiv (xtal_correct s) (dbl_of_Z XERR_FILT_COEF)))
                                    (ddiv x (dbl_of_Z XERR_FILT_COEF))) (xtal_correct_ok s) s);
    mret v.
End Valid.

(** ** The range of the correction *)

Section Reals.
Open Scope R_scope.

Lemma dsub_R x y : Rabs (dR (dsub x y) - (dR x - dR y)) <= ulp2 * Rabs (dR x - dR y).
Proof.
  pose proof (den_R x). pose proof (den_R y). pose proof (den_pos x). pose proof (den_pos y).
  replace (dR x - dR y) with (IZR (num x * den y - num y * den x) / IZR (den x * den y))
    by (unfold dR; rewrite minus_IZR, !mult_IZR; field; lra).
  apply rnd_R. lia.
Qed.
(** The accumulated measurements. *)
Lemma acc_R acc x (k : Z) :
  (0 <= k < 16)%Z → 0.99998 <= dR x <= 1.00002 → IZR k * 0.999979 <= dR acc <= IZR k * 1.000021 →
  IZR (k + 1) * 0.999979 <= dR (dadd acc x) <= IZR (k + 1) * 1.000021.
Proof.
  intros Hk Hx Ha. assert (Hk' : 0 <= IZR k <= 15) by (split; apply IZR_le; lia). rewrite plus_IZR.
  pose proof (dadd_R acc x) as D. apply (round_err _ _ 20) in D; [|rbound]. lra.
Qed.
Lemma first_R acc : 16 * 0.999979 <= dR acc <= 16 * 1.000021 → 0.99997 <= dR (ddiv (dbl_of_Z 16) acc) <= 1.00003.
Proof.
  intros Ha. pose proof (ddiv_R (dbl_of_Z 16) acc ltac:(lra)) as D. rewrite of_Z_R in D by lia.
  assert (Hq : 0.999978 <= 16 / dR acc <= 1.000022).
  { assert (E : 16 / dR acc * dR acc = 16) by (field; lra). split; nra. }
  apply (round_err _ _ 2) in D; [|rbound]. lra.
Qed.
Lemma track_R y x :
  0.99997 <= dR y <= 1.00003 → 0.99998 <= dR x <= 1.00002 →
  0.99997 <= dR (dadd (dsub y (ddiv y (dbl_of_Z 256))) (ddiv (ddiv (dbl_of_Z 1) x) (dbl_of_Z 256))) <= 1.00003.
Proof.
  intros Hy Hx. assert (H256 : dR (dbl_of_Z 256) = 256) by (rewrite of_Z_R by lia; reflexivity).
  pose proof (ddiv_R (dbl_of_Z 1) x ltac:(lra)) as D. rewrite of_Z_R in D by lia.
  assert (Hi : 0.9999799 <= 1 / dR x <= 1.0000201).
  { assert (E : 1 / dR x * dR x = 1) by (field; lra). split; nra. }
  apply (round_err _ _ 2) in D; [|rbound]. set (i := ddiv (dbl_of_Z 1) x) in *. clearbody i.
  pose proof (ddiv_R i (dbl_of_Z 256) ltac:(rewrite H256; lra)) as D1. rewrite H256 in D1. apply (round_err _ _ 1) in D1; [|rbound].
  pose proof (ddiv_R y (dbl_of_Z 256) ltac:(rewrite H256; lra)) as D2. rewrite H256 in D2. apply (round_err _ _ 1) in D2; [|rbound].
  set (a := ddiv i _) in *. set (b := ddiv y _) in *. clearbody a b.
  pose proof (dsub_R y b) as D3. apply (round_err _ _ 2) in D3; [|rbound]. set (c := dsub y b) in *. clearbody c.
  pose proof (dadd_R c a) as D4. apply (round_err _ _ 2) in D4; [|rbound]. lra.
Qed.
End Reals.

Section Turns.
Context {H : Type}.
Implicit Types (s : fwd_state H) (v : valid_vars).

(** The turns of the thread. A reference young enough to be used has a rate
    within 10 ppm, which [lgw_gps_sync] ensures; the other threads do not write
    the correction. *)
Inductive valid_step : fwd_state H * valid_vars → fwd_state H * valid_vars → Prop :=
  | valid_step_turn now s v s' v' :
      (0 <= now - systime (time_ref s) <= GPS_REF_MAX_AGE → out_of_range (xtal_err (time_ref s)) = false) →
      valid_turn now v s = Done s' v' → valid_step (s, v) (s', v')
  | valid_step_other s s' v : xtal_correct s' = xtal_correct s → valid_step (s, v) (s', v).

Definition near_one (x : double) : Prop := (0.99997 <= dR x <= 1.00003)%R.
Definition averaged (x : fwd_state H * valid_vars) : Prop :=
  near_one (xtal_correct (fst x)) ∧ 0 <= init_cpt (snd x) ∧
  (init_cpt (snd x) <= 16 →
   (IZR (init_cpt (snd x)) * 0.999979 <= dR (init_acc (snd x)) <= IZR (init_cpt (snd x)) * 1.000021)%R).

Lemma near_one_1 : near_one (dbl_of_Z 1).
Proof. unfold near_one. rewrite of_Z_R by lia. lra. Qed.
Lemma averaged_0 s : xtal_correct s = dbl_of_Z 1 → averaged (s, valid_vars0).
Proof.
  intros E. split; [cbn [fst]; rewrite E; apply near_one_1|]. split; [done|]. intros _. cbn [snd init_cpt init_acc valid_vars0].
  rewrite of_Z_R by lia. lra.
Qed.
Lemma valid_step_averaged x y : valid_step x y → averaged x → averaged y.
Proof.
  intros [now s v s' v' Hr E|s s' v E] (Hx & H0 & Ha).
  - cbn [fst snd] in *. revert E. unfold valid_turn. intros (s1 & ref & E1 & (s2 & [] & E2 & E)%bind_inv)%bind_inv.
    injection E1 as <- <-. injection E2 as <-. set (b := (_ <=? _) && (_ <=? _)) in *. destruct b eqn:Eb; cbn [negb] in E.
    + apply andb_true_iff in Eb as [B1%Z.leb_le B2%Z.leb_le]. specialize (Hr (conj B1 B2)). apply in_range_R in Hr.
      unfold XERR_INIT_AVG in E. destruct (Z.ltb_spec (init_cpt v) 16) as [Hc|Hc]; [|destruct (Z.eqb_spec (init_cpt v) 16) as [Ec|Ec]].
      * injection E as <- <-. split; [exact Hx|]. split; [cbn [snd init_cpt]; lia|]. intros _. cbn [snd init_cpt init_acc].
        apply acc_R; [lia|done|]. apply Ha. lia.
      * apply bind_inv in E as (s3 & [] & E3 & E). injection E3 as <-. injection E as <- <-.
        split; [|cbn [snd init_cpt]; split; lia]. apply first_R. rewrite Ec in Ha. apply Ha. lia.
      * apply bind_inv in E as (s3 & [] & E3 & E). injection E3 as <-. injection E as <- <-.
        split; [|by split]. by apply track_R.
    + apply bind_inv in E as (s3 & [] & E3 & E). injection E3 as <-. injection E as <- <-. by apply averaged_0.
  - split; [cbn [fst] in *; by rewrite E|]. by split.
Qed.
Lemma corrected_R x f :
  near_one x → 0 <= f <= 4294000000 →
  ∃ g, u32_of_double (dmul x (dbl_of_Z f)) = Ret g ∧ 99997 * f - 100001 <= 100000 * g <= 100003 * f + 1.
Proof.
  intros Hx Hf. unfold near_one in Hx. assert (Hf' : (0 <= IZR f <= 4294000000)%R) by (split; apply IZR_le; lia).
  pose proof (dmul_R x (dbl_of_Z f)) as D. rewrite of_Z_R in D by lia.
  assert (Hb : (0.99997 * IZR f <= dR x * IZR f <= 1.00003 * IZR f)%R) by nra.
  apply (round_err _ _ 4295000000) in D; [|rbound]. set (y := dmul x _) in *. clearbody y.
  assert (Hy : 0 <= dtrunc y ∧ 99997 * f - 100001 <= 100000 * dtrunc y <= 100003 * f + 1).
  { destruct (Z.eq_dec f 0) as [->|Hn]; [rewrite dtrunc_below_1 by lra; lia|].
    assert (1 <= IZR f)%R by (apply IZR_le; lia). destruct (dtrunc_R y ltac:(lra)) as [T1 T2]. split_and!.
    - apply Z.lt_succ_r, lt_IZR. rewrite succ_IZR. lra.
    - apply le_IZR. rewrite minus_IZR, !mult_IZR. lra.
    - apply le_IZR. rewrite plus_IZR, !mult_IZR. lra. }
  exists (dtrunc y). split; [|lia]. unfold u32_of_double. by rewrite (proj2 (Z.leb_le _ _)), (proj2 (Z.ltb_lt _ _)) by lia.
Qed.

(** C22. The correction of the crystal stays within 30 ppm over every sequence of
    measurements and losses of the reference, whatever the rounding of the
    [double] operations of the average and of the filter: the frequency of a
    beacon that is sent is defined and within 30 ppm, and a hertz, of the one
    asked for. *)
Theorem xtal_correction_bounded s0 s v p :
  xtal_correct s0 = dbl_of_Z 1 → rtc valid_step (s0, valid_vars0) (s, v) → 0 <= Tx.freq_hz p <= 4294000000 →
  ∃ f, beacon_correct p JIT_PKT_TYPE_BEACON s = Done (counted meas_nb_beacon_sent 1 s) (set_freq f p) ∧
    99997 * Tx.freq_hz p - 100001 <= 100000 * f <= 100003 * Tx.freq_hz p + 1.
Proof.
  intros E0 Hs Hf. assert (Hr : ∀ x y, rtc valid_step x y → averaged x → averaged y).
  { intros x y. induction 1 as [|x y z Hxy _ IH]; [done|]. intros H0. by apply IH, (valid_step_averaged x). }
  destruct (Hr _ _ Hs (averaged_0 s0 E0)) as [Hx _]. cbn [fst] in Hx.
  destruct (corrected_R (xtal_correct s) (Tx.freq_hz p) Hx Hf) as (f & E & Hb). exists f. split; [|done].
  unfold beacon_correct. rewrite bool_decide_eq_true_2 by done. rewrite (bind_done _ _ s s (xtal_correct s)) by done.
  rewrite E. by rewrite (bind_done _ _ s s f) by done.
Qed.
End Turns.

(** ** An example: a measurement with a new reference *)

Definition synced : fwd_state Z :=
  Fwd 0 [jit_queue_init; jit_queue_init] (λ _, 0) [] false 0 true a_ref (dbl_of_Z 1) false None.
Lemma synced_turn : valid_turn 1700000010 valid_vars0 synced = Done synced (Avg 1 (dadd (dbl_of_Z 0) (xtal_err a_ref))).
Proof. reflexivity. Qed.
Lemma xtal_correction_bounded_witness :
  ∃ f, beacon_correct (set_freq 869525000 Tx.zero) JIT_PKT_TYPE_BEACON synced =
         Done (counted meas_nb_beacon_sent 1 synced) (set_freq f (set_freq 869525000 Tx.zero)) ∧
    99997 * 869525000 - 100001 <= 100000 * f <= 100003 * 869525000 + 1.
Proof.
  apply (xtal_correction_bounded synced synced (Avg 1 (dadd (dbl_of_Z 0) (xtal_err a_ref))) (set_freq 869525000 Tx.zero) eq_refl).
  - apply rtc_once. apply (valid_step_turn 1700000010); [intros _; vm_compute; reflexivity|exact synced_turn].
  - cbn. lia.
Defined.
