(* ===== verification/ForwardInv.v ===== *)
(** * The threads of the forwarder together

    The downlink thread and the JIT thread share the queues of the two chains.
    Their steps interleave in any order: a datagram is handled and a beacon is
    queued between the peek and the dequeue of a turn of the JIT thread as well. The theorem of this file
    is that the queues stay free of conflicts. *)
From Stdlib Require Import ZArith Lia.
From stdpp Require Import base list numbers relations strings.
From S2P Require Import Prelude Binary64 HalTypes TimeOnAir JitQueue JitProps RegProg HalConf TimeRef Json Forward ForwardProps.
From S2P Require Import Downlink DownlinkProps Beacon BeaconProps.

Open Scope Z_scope.
Open Scope list_scope.

(** ** The air time of a downlink *)

Lemma lora_air_time sw p :
  Tx.ok p → Tx.modulation p = MOD_LORA → IS_LORA_DR (Tx.datarate p) = true → IS_LORA_BW (Tx.bandwidth p) = true →
  IS_LORA_CR (Tx.coderate p) = true → ∃ toa, lgw_time_on_air sw (Some p) = Ret toa ∧ 0 <= toa <= 4000000.
Proof.
  intros Hp Hm Hs Hb Hc. pose proof (IS_LORA_DR_range _ Hs) as Rs.
  rewrite <- (u8_id (Tx.datarate p)) in Hs by lia. rewrite lgw_time_on_air_lora by done.
  eexists. split; [done|]. unfold ref_time_on_air_us. rewrite u8_id by lia.
  pose proof (IS_LORA_BW_range _ Hb) as Rb. pose proof (IS_LORA_CR_range _ Hc) as Rc.
  destruct (symbol_us_exact _ _ Rs Rb) as (_ & _ & _ & Ht).
  pose proof (ref_payload_symbols_bound (Tx.datarate p) (Tx.coderate p) (Tx.no_header p) (Tx.no_crc p) (u8 (Tx.size p)) Rs Rc
    ltac:(apply u8_range)) as Hpay.
  set (q := if 7 <=? Tx.datarate p then 17 else 25). assert (17 <= q <= 25) by (subst q; destruct (7 <=? _); lia).
  destruct Hp as (_ & _ & _ & _ & _ & _ & _ & _ & Hpre & _).
  match goal with |- context [?a / 4] => assert (Ha : 0 <= a / 4 < 3999999000) end.
  { split; [apply Z.div_pos; nia|]. apply Z.div_lt_upper_bound; nia. }
  split; [apply Z.div_pos; lia|]. apply Z.div_le_upper_bound; lia.
Qed.
Lemma fsk_air_time sw p :
  is_u8 sw → Tx.ok p → Tx.modulation p = MOD_FSK → 500 <= Tx.datarate p →
  ∃ toa, lgw_time_on_air sw (Some p) = Ret toa ∧ 0 <= toa <= 4000000.
Proof.
  intros Hsw Hp Hm Hd. destruct (lgw_time_on_air_fsk sw p Hsw Hp Hm ltac:(lia)) as (k & E & Hk & B).
  exists (k + 1). split; [done|]. destruct Hp as (_ & _ & _ & _ & _ & _ & _ & _ & Hpre & Hsz & _).
  assert (fsk_bytes sw p <= 132000) by (unfold fsk_bytes; destruct (Tx.no_crc p); lia). nia.
Qed.
Lemma air_time_power sw w p : lgw_time_on_air sw (Some (set_power w p)) = lgw_time_on_air sw (Some p).
Proof. done. Qed.

Section Threads.
Context {H : Type} (cc : concentrator H) (conf : fwd_conf).
Context (qsort : ∀ A, (A → A → Z) → list A → list A) `{!Qsort qsort} (sw : Z).
Context (conf_good : conf_ok conf) (sw_u8 : is_u8 sw).
Implicit Types s : fwd_state H.

(** The datagram does not ask for an FSK bit rate below the 500 bit/s of the
    radio ([DR_FSK_MIN]), which the forwarder does not check. *)
Definition bit_rate_ok s (d : list Z) : Prop := ∀ obj pkt ty,
  txpk_object d = Some obj → parse_txpk conf (local_ref conf s) obj = Go (pkt, ty) → Tx.modulation pkt = MOD_FSK →
  500 <= Tx.datarate pkt.
(** No packet of the chain is outdated when its counter is read: the JIT thread
    runs in time. *)
Definition in_time s (i : Z) : Prop := ∀ h now q,
  get_instcnt cc (hal s) = Done h now → jit_queue s !! Z.to_nat i = Some q → Forall (λ n, outdated now n = false) (live q).

(** A step of the threads; the second part of the state is the packet the JIT
    thread has peeked and not yet dequeued, with its chain. The other threads
    leave the queues alone. *)
Inductive fwd_step : fwd_state H * option (Z * Z) → fwd_state H * option (Z * Z) → Prop :=
  | step_datagram s s' pending token_h token_l d :
      bit_rate_ok s d → datagram_down cc conf qsort sw token_h token_l d s = Done s' () → fwd_step (s, pending) (s', pending)
  | step_beacon s s' pending bc rfu1 v v' :
      beacon_turn cc bc qsort sw rfu1 v s = Done s' (Some v') → fwd_step (s, pending) (s', pending)
  | step_look s s' i idx :
      0 <= i → in_time s i → jit_look cc qsort i s = Done s' (Some idx) → fwd_step (s, None) (s', Some (i, idx))
  | step_look_none s s' i : 0 <= i → jit_look cc qsort i s = Done s' None → fwd_step (s, None) (s', None)
  | step_take s s' i idx : jit_take cc conf qsort i idx s = Done s' () → fwd_step (s, Some (i, idx)) (s', None)
  | step_other s s' pending : jit_queue s' = jit_queue s → fwd_step (s, pending) (s', pending).

Definition fwd_inv (x : fwd_state H * option (Z * Z)) : Prop :=
  Forall jit_inv (jit_queue (fst x)) ∧
  ∀ i idx, snd x = Some (i, idx) → ∃ q, jit_queue (fst x) !! Z.to_nat i = Some q ∧ 0 <= idx < num_pkt q.

Lemma parsed_air_time s d obj pkt ty w :
  bit_rate_ok s d → txpk_object d = Some obj → parse_txpk conf (local_ref conf s) obj = Go (pkt, ty) →
  ∃ toa, lgw_time_on_air sw (Some (set_power w pkt)) = Ret toa ∧ 0 <= toa <= 4000000.
Proof.
  intros Hb Eo Ep. rewrite air_time_power. destruct (parse_txpk_ok _ _ _ _ _ Ep) as (Hok & _ & _ & _ & [(Hm & Hs & Hw & Hc)|Hm]).
  - by apply lora_air_time.
  - apply fsk_air_time; try done. by apply (Hb obj pkt ty).
Qed.
Lemma datagram_queues token_h token_l d s s' :
  bit_rate_ok s d → datagram_down cc conf qsort sw token_h token_l d s = Done s' () →
  jit_queue s' = jit_queue s ∨
  ∃ c q q' now p ty toa e p', jit_queue s !! c = Some q ∧ jit_queue s' = <[c := q']> (jit_queue s) ∧
    lgw_time_on_air sw (Some p) = Ret toa ∧ 0 <= toa <= 4000000 ∧ jit_enqueue qsort sw q now (Some p) ty = Ret (e, q', p').
Proof.
  intros Hb [->|[->|E]]%datagram_down_inv; [by left..|].
  destruct (pull_resp_inv _ _ _ _ _ _ _ E) as (th & tl & _ & _ & [->|[[e ->]|(obj & pkt & ty & Eo & Ep & Eq)]]); [by left|..].
  { left. by destruct (answered_parts conf th tl e 0 s) as (-> & _). }
  destruct (parse_txpk_ok _ _ _ _ _ Ep) as (_ & Hp & _).
  destruct (queue_downlink_inv cc conf qsort sw conf_good th tl pkt ty _ _ Hp Eq)
    as [->|(w & v & wr & h & now & q & e & q' & p' & _ & _ & Hq & Ej & _ & ->)].
  { left. match goal with |- context [answered conf th tl ?e0 ?v0 ?s0] => by destruct (answered_parts conf th tl e0 v0 s0) as (-> & _) end. }
  right. destruct (parsed_air_time s d obj pkt ty w Hb Eo Ep) as (toa & Et & Ht).
  exists (Z.to_nat (Tx.rf_chain pkt)), q, q', now, (set_power w pkt), ty, toa, e, p'.
  match goal with |- context [answered conf th tl ?e0 ?v0 ?s0] => destruct (answered_parts conf th tl e0 v0 s0) as (-> & _) end. done.
Qed.
Lemma on_hal_queues {A} (p : eff H A) s s' (a : A) : on_hal p s = Done s' a → jit_queue s' = jit_queue s.
Proof. unfold on_hal, zoom. destruct (p (hal s)); [|done..]. by intros [= <- _]. Qed.
Lemma jit_look_inv i s s' r :
  jit_look cc qsort i s = Done s' r →
  ∃ h now q e q' idx, get_instcnt cc (hal s) = Done h now ∧ jit_queue s !! Z.to_nat i = Some q ∧
    jit_peek qsort q now false = Some (Ret (e, q', idx)) ∧ jit_queue s' = <[Z.to_nat i := q']> (jit_queue s) ∧
    (∀ j, r = Some j → e = JIT_ERROR_OK ∧ idx = Some j ∧ 0 <= j).
Proof.
  unfold jit_look. intros (s1 & now & E1 & (s2 & q & E2 & (s3 & [[e q'] idx] & E3 & (s4 & [] & E4 & E)%bind_inv)%bind_inv)%bind_inv)%bind_inv.
  unfold on_hal, zoom in E1. destruct (get_instcnt cc (hal s)) as [h now'| | |]; try done. injection E1 as <- <-.
  apply get_queue_inv in E2 as (-> & _ & Eq). destruct (jit_peek qsort q now' false) as [[[[e1 q1] idx1]| |]|] eqn:Ep; try done.
  injection E3 as <- <- <- <-. apply put_queue_inv in E4.
  exists h, now', q, e1, q1, idx1. case_bool_decide as Ee.
  - apply bind_inv in E as (s5 & j & E5 & E). destruct idx1 as [j'|]; [|done]. injection E5 as <- <-.
    injection E as <- <-. split_and!; [done|done|done|by rewrite E4|].
    intros j. destruct (Z.ltb_spec (-1) j'); [|done]. intros [= <-]. split_and!; [done|done|lia].
  - injection E as <- <-. split_and!; [done|done|done|by rewrite E4|done].
Qed.
Lemma transmit_queues p s s' : transmit cc conf p s = Done s' () → jit_queue s' = jit_queue s.
Proof.
  unfold transmit. intros (s1 & [res st] & E1%on_hal_queues & (s2 & em & E2 & E)%bind_inv)%bind_inv.
  assert (s2 = s1) as ->. { destruct (_ =? LGW_HAL_ERROR); [by injection E2|]. destruct st; [by injection E2|done]. }
  destruct em; [injection E as <-; done|].
  apply bind_inv in E as (s3 & z & E3 & (s4 & z' & E4%on_hal_queues & E)%bind_inv). rewrite bump_done in E. injection E as <-.
  assert (jit_queue s3 = jit_queue s1).
  { destruct (spectral_scan_enable conf); [by apply on_hal_queues in E3|by injection E3 as <- _]. }
  change (jit_queue s4 = jit_queue s). congruence.
Qed.
Lemma beacon_correct_queues p ty s s' p' : beacon_correct p ty s = Done s' p' → jit_queue s' = jit_queue s.
Proof.
  unfold beacon_correct. case_bool_decide; [|by intros [= <- _]].
  intros (s1 & x & E1 & (s2 & f & E2 & (s3 & [] & E3 & E)%bind_inv)%bind_inv)%bind_inv. injection E1 as <- <-.
  revert E2. generalize (u32_of_double (dmul (xtal_correct s) (dbl_of_Z (Tx.freq_hz p)))). intros o E2.
  destruct o; [|done..]. injection E2 as <- <-. rewrite bump_done in E3. injection E3 as <-. by injection E as <- _.
Qed.
Lemma jit_take_inv i idx s s' :
  jit_take cc conf qsort i idx s = Done s' () →
  ∃ q e q' got, jit_queue s !! Z.to_nat i = Some q ∧ jit_dequeue qsort q idx false = Ret (e, q', got) ∧
    jit_queue s' = <[Z.to_nat i := q']> (jit_queue s).
Proof.
  unfold jit_take. intros (s1 & q & E1 & (s2 & [[e q'] got] & E2 & (s3 & [] & E3 & E)%bind_inv)%bind_inv)%bind_inv.
  apply get_queue_inv in E1 as (-> & _ & Eq). destruct (jit_dequeue qsort q idx false) as [[[e1 q1] g1]| |] eqn:Ed; try done.
  injection E2 as <- <- <- <-. apply put_queue_inv in E3. exists q, e1, q1, g1. split; [done|]. split; [done|].
  transitivity (jit_queue s3); [|by rewrite E3].
  destruct e1; try (by injection E as <-). destruct g1 as [[p ty]|]; [|by injection E as <-].
  apply bind_inv in E as (s4 & p' & E4%beacon_correct_queues & E%transmit_queues). congruence.
Qed.

Lemma queue_grown s s' pending c q q' :
  fwd_inv (s, pending) → jit_queue s !! c = Some q → jit_queue s' = <[c := q']> (jit_queue s) →
  (jit_inv q → jit_inv q' ∧ num_pkt q <= num_pkt q') → fwd_inv (s', pending).
Proof.
  intros [Hq Hp] Ec Ej Hg. unfold fwd_inv in *. cbn [fst snd] in *. rewrite Ej. pose proof Hq as Hl. rewrite Forall_lookup in Hl.
  destruct (Hg (Hl _ _ Ec)) as [Hi Hn]. split; [by apply Forall_insert|].
  intros i idx Ei. destruct (Hp i idx Ei) as (q0 & E0 & Hidx). destruct (decide (c = Z.to_nat i)) as [->|Ne].
  - rewrite Ec in E0. injection E0 as <-. exists q'. rewrite list_lookup_insert_eq by (by eapply lookup_lt_Some).
    split; [done|lia].
  - exists q0. by rewrite list_lookup_insert_ne.
Qed.
Lemma fwd_step_inv x y : fwd_step x y → fwd_inv x → fwd_inv y.
Proof.
  intros Hs Hi. pose proof Hi as [Hq Hp].
  destruct Hs as [s s' pend th tl d Hb E|s s' pend bc rfu1 v v' E|s s' i idx Hi0 Ht E|s s' i Hi0 E|s s' i idx E|s s' pend E];
    cbn [fst snd] in *.
  - destruct (datagram_queues th tl d s s' Hb E) as [Ej|(c & q & q' & now & p & ty & toa & e & p' & Ec & Ej & Et & Ht & Ee)].
    + unfold fwd_inv in *. cbn [fst snd] in *. by rewrite Ej.
    + apply (queue_grown s s' pend c q q' Hi Ec Ej). by apply (enqueue_grows qsort sw q now p ty toa e q' p').
  - destruct (beacon_turn_inv _ _ _ _ _ _ _ _ _ E) as (st & c & p & e & _ & _ & (h & now & q & q' & _ & Eq & Ee & Ej & _) & _).
    apply (queue_grown s s' pend 0%nat q q' Hi Eq Ej). by apply (enqueue_beacon qsort sw q now p e q' (Some p)).
  - destruct (jit_look_inv i s s' _ E) as (h & now & q & e & q' & j & En & Eq & Ep & Ej & Hj).
    destruct (Hj idx eq_refl) as (-> & -> & H0). rewrite Forall_lookup in Hq. pose proof (Hq _ _ Eq) as (l & R & C).
    pose proof (Ht h now q En Eq) as Ho. rewrite (repr_live q l R) in Ho.
    destruct (decide (l = [])) as [->|Hne].
    { pose proof R as (Hn & _). unfold jit_peek, jit_queue_is_empty in Ep. rewrite Hn in Ep. done. }
    destruct (repr_peek qsort q l now R Hne Ho) as (k & b & Hk & _ & EP). rewrite EP in Ep. injection Ep as <- Ei.
    split; cbn [fst snd]; rewrite Ej, list_insert_id by done; [by apply Forall_lookup|].
    intros i' idx' [= <- <-]. exists q. split; [done|]. apply lookup_lt_Some in Hk. pose proof R as (Hn & _).
    destruct (_ <? TX_JIT_DELAY) in Ei; lia.
  - destruct (jit_look_inv i s s' _ E) as (h & now & q & e & q' & j & En & Eq & Ep & Ej & _).
    split; cbn [fst snd]; [|done]. rewrite Ej. apply Forall_insert; [done|]. rewrite Forall_lookup in Hq.
    by eapply (peek_inv qsort), Hq.
  - destruct (jit_take_inv i idx s s' E) as (q & e & q' & got & Eq & Ed & Ej). split; cbn [fst snd]; [|done].
    destruct (Hp i idx eq_refl) as (q0 & E0 & Hidx). rewrite Eq in E0. injection E0 as <-.
    rewrite Ej. apply Forall_insert; [done|]. rewrite Forall_lookup in Hq. by eapply (dequeue_inv qsort), Hq.
  - split; cbn [fst snd]; by rewrite E.
Qed.

(** C4. The two threads, interleaved in any way over any concentrator, keep the
    queues of both chains free of conflicts, beacons included: in every reachable
    state each queue is well formed and any two packets queued on a chain are
    separated on the air. A datagram may be handled, or a beacon queued, between
    the peek and the dequeue of the JIT thread. The JIT thread is assumed to run
    in time, and FSK requests to keep to the bit rates of the radio. *)
Theorem forwarder_conflict_free s0 s pending :
  jit_queue s0 = [jit_queue_init; jit_queue_init] → rtc fwd_step (s0, None) (s, pending) →
  Forall (λ q, repr q (live q) ∧
    ∀ i j n m, i ≠ j → live q !! i = Some n → live q !! j = Some m → separated n m) (jit_queue s).
Proof.
  intros E0 Hs. assert (Hi : fwd_inv (s, pending)).
  { assert (H0 : fwd_inv (s0, None)).
    { assert (jit_inv jit_queue_init) by (exists []; split; [apply repr_init|by split; constructor]).
      split; [|done]. cbn [fst]. rewrite E0. by repeat constructor. }
    revert H0. induction Hs as [|x y z Hxy _ IH]; [done|]. intros H0. by apply IH, (fwd_step_inv x). }
  destruct Hi as [Hq _]. cbn [fst] in Hq. eapply Forall_impl; [exact Hq|]. intros q (l & R & C). cbn beta.
  rewrite (repr_live q l R). split; [done|]. intros i j n m Hij Hn Hm. apply (FOP_lookup separated l i j); [apply C|done..].
Qed.
End Threads.

Lemma a_txpk : txpk_object ([PROTOCOL_VERSION; 21; 22; PKT_PULL_RESP] ++ a_text 0) = Some (a_object 0).
Proof. unfold txpk_object. change (drop 4 _) with (a_text 0). by rewrite (a_text_read 0 (or_introl eq_refl)). Qed.
Lemma a_rate_ok : bit_rate_ok a_conf (a_state 1000000 jit_queue_init) ([PROTOCOL_VERSION; 21; 22; PKT_PULL_RESP] ++ a_text 0).
Proof.
  intros obj pkt ty Eo Ep Hm.
  assert (obj = a_object 0) as -> by (apply (inj Some); transitivity (txpk_object ([PROTOCOL_VERSION; 21; 22; PKT_PULL_RESP] ++ a_text 0)); [symmetry; exact Eo|exact a_txpk]).
  exfalso. revert Ep Hm.
  assert (E : match parse_txpk a_conf (local_ref a_conf (a_state 1000000 jit_queue_init)) (a_object 0) with
              Go (p, _) => bool_decide (Tx.modulation p = MOD_FSK) | _ => false end = false) by (vm_compute; reflexivity).
  clear Eo. generalize (parse_txpk a_conf (local_ref a_conf (a_state 1000000 jit_queue_init)) (a_object 0)) E. clear E. intros r E -> Hm.
  by apply bool_decide_eq_false in E.
Qed.
Lemma forwarder_conflict_free_witness :
  rtc (fwd_step a_concentrator a_conf isort 3) (a_state 1000000 jit_queue_init, None) (after_request, None) ∧
  Forall (λ q, repr q (live q) ∧
    ∀ i j n m, i ≠ j → live q !! i = Some n → live q !! j = Some m → separated n m) (jit_queue after_request).
Proof.
  assert (Hs : rtc (fwd_step a_concentrator a_conf isort 3) (a_state 1000000 jit_queue_init, None) (after_request, None)).
  { apply rtc_once, (step_datagram _ _ _ _ _ _ None 7 8 ([PROTOCOL_VERSION; 21; 22; PKT_PULL_RESP] ++ a_text 0));
      [exact a_rate_ok|exact after_request_done]. }
  split; [exact Hs|].
  apply (forwarder_conflict_free a_concentrator a_conf isort 3 a_conf_ok ltac:(split; lia)
    (a_state 1000000 jit_queue_init) after_request None eq_refl Hs).
Defined.
