(* ===== verification/Uplink.v ===== *)
(** * Packets for the server ([packet_forwarder/src/lora_pkt_fwd.c], [thread_up])

    A round of the uplink thread fetches packets from the concentrator, describes
    those that pass the filter as objects of a JSON text, sends the text in one
    datagram, with the status report if there is a new one, and waits for the
    acknowledgement. *)
From Stdlib Require Import ZArith Lia String.
From stdpp Require Import base list numbers strings.
From S2P Require Import Prelude Binary64 HalTypes Base64 JitQueue Merge RegProg HalConf Timestamp TimeRef Json Forward.

Open Scope Z_scope.
Open Scope list_scope.

Definition PKT_PUSH_DATA : Z := 0.
Definition PKT_PUSH_ACK : Z := 1.
Definition PROTOCOL_JSON_RXPK_FRAME_FORMAT : Z := 1.
Definition NB_PKT_MAX : Z := 255.
Definition STATUS_SIZE : Z := 200.
Definition TX_BUFF_SIZE : Z := 540 * NB_PKT_MAX + 30 + STATUS_SIZE.

(** The configuration: which packets are forwarded, and the reference payloads
    that are counted. *)
Record up_conf := Up_conf {
  fwd_valid_pkt : bool; fwd_error_pkt : bool; fwd_nocrc_pkt : bool; ref_payload : list Z }.
(** The numbers of packets logged. *)
Record up_log := Log {
  nb_pkt_log : list (list Z); nb_pkt_received_lora : Z; nb_pkt_received_fsk : Z; nb_pkt_received_ref : list Z }.
(** The state: that shared with the other threads, the log, the status report,
    and the datagrams sent on the uplink socket. *)
Record up_state (H : Type) := Up {
  fwd : fwd_state H; log : up_log; report_ready : bool; status_report : list Z; sent_up : list (list Z) }.
Arguments Up {H}.
Arguments fwd {H}.
Arguments log {H}.
Arguments report_ready {H}.
Arguments status_report {H}.
Arguments sent_up {H}.

(** ** The formats of [snprintf] *)

Definition print_u (z : Z) : list Z := digits 20 z.
(** ["%2u"] *)
Definition print_2u (z : Z) : list Z := let t := print_u z in replicate (2 - List.length t) 32 ++ t.
(** ["%04i"] and the like *)
Definition print_0d (width : nat) (z : Z) : list Z :=
  let t := digits 20 (Z.abs z) in
  let sign := if z <? 0 then [45] else [] in
  sign ++ replicate (width - List.length sign - List.length t) 48 ++ t.
(** ["%.0f"] of [roundf(x)]: halves are rounded away from zero. *)
Definition print_round (x : double) : list Z :=
  (if num x <? 0 then [45] else []) ++ digits 40 ((2 * Z.abs (num x) + den x) / (2 * den x)).
(** ["%.5f"] and ["%.1f"]: the exact value, halves to even. *)
Definition print_fixed (k : nat) (x : double) : list Z :=
  let z := rne (Z.abs (num x) * 10 ^ Z.of_nat k) (den x) in
  (if num x <? 0 then [45] else []) ++ digits 40 (z / 10 ^ Z.of_nat k) ++ [46] ++ padded k (z mod 10 ^ Z.of_nat k).
Definition print_1f : double → list Z := print_fixed 1.

(** [gmtime]: the year, month and day of a number of days since 1970, and the
    text of a time. *)
Definition civil (days : Z) : Z * Z * Z :=
  let z := days + 719468 in
  let era := z / 146097 in
  let doe := z mod 146097 in
  let yoe := (doe - doe / 1460 + doe / 36524 - doe / 146096) / 365 in
  let doy := doe - (365 * yoe + yoe / 4 - yoe / 100) in
  let mp := (5 * doy + 2) / 153 in
  let m := if mp <? 10 then mp + 3 else mp - 9 in
  (yoe + era * 400 + (if m <=? 2 then 1 else 0), m, doy - (153 * mp + 2) / 5 + 1).
Definition utc_text (t : timespec) : list Z :=
  let '(year, mon, mday) := civil (ts_sec t / 86400) in
  let sec := ts_sec t mod 86400 in
  print_0d 4 year ++ [45] ++ print_0d 2 mon ++ [45] ++ print_0d 2 mday ++ [84] ++
  print_0d 2 (sec / 3600) ++ [58] ++ print_0d 2 (sec / 60 mod 60) ++ [58] ++ print_0d 2 (sec mod 60) ++ [46] ++
  print_0d 6 (Z.quot (ts_nsec t) 1000) ++ [90].

(** ** The object of a packet *)

Definition member (name : string) (text : list Z) : list Z := quoted (bytes_of_string name) ++ [58] ++ text.
Definition field (name : string) (text : list Z) : list Z := 44 :: member name text.

(** The milliseconds of a GPS time. *)
Definition gps_ms (t : timespec) : outcome Z :=
  u64_of_double (dadd (dmul (dbl_of_Z (ts_sec t)) (dbl_of_Z 1000)) (ddiv (dbl_of_Z (ts_nsec t)) (dbl_of_Z 1000000))).
(** The times by the reference, if there is one. *)
Definition time_text (ref : option tref) (count_us : Z) : outcome (list Z) :=
  match ref with
  | None => Ret []
  | Some ref =>
    let utc := match lgw_cnt2utc ref count_us true with
               | (j, Some t) => if j =? LGW_GPS_SUCCESS then field "time" (quoted (utc_text t)) else []
               | _ => []
               end in
    gps ← match lgw_cnt2gps ref count_us true with
          | (j, Some t) => if j =? LGW_GPS_SUCCESS then ms ← gps_ms t; Ret (field "tmms" (print_u ms)) else Ret []
          | _ => Ret []
          end;
    Ret (utc ++ gps)
  end.
Definition stat_text (status : Z) : outcome (list Z) :=
  if status =? STAT_CRC_OK then Ret (field "stat" (print_d 1))
  else if status =? STAT_CRC_BAD then Ret (field "stat" (print_d (-1)))
  else if status =? STAT_NO_CRC then Ret (field "stat" (print_d 0))
  else Exit EXIT_FAILURE.
Definition sf_text (datarate : Z) : outcome (list Z) :=
  if (5 <=? datarate) && (datarate <=? 12) then Ret (bytes_of_string "SF" ++ print_d datarate) else Exit EXIT_FAILURE.
Definition bw_text (bandwidth : Z) : outcome (list Z) :=
  if bandwidth =? BW_125KHZ then Ret (bytes_of_string "BW125")
  else if bandwidth =? BW_250KHZ then Ret (bytes_of_string "BW250")
  else if bandwidth =? BW_500KHZ then Ret (bytes_of_string "BW500")
  else Exit EXIT_FAILURE.
Definition cr_text (coderate : Z) : outcome (list Z) :=
  if coderate =? CR_LORA_4_5 then Ret (bytes_of_string "4/5")
  else if coderate =? CR_LORA_4_6 then Ret (bytes_of_string "4/6")
  else if coderate =? CR_LORA_4_7 then Ret (bytes_of_string "4/7")
  else if coderate =? CR_LORA_4_8 then Ret (bytes_of_string "4/8")
  else if coderate =? 0 then Ret (bytes_of_string "OFF")
  else Exit EXIT_FAILURE.
Definition modu_text (p : lgw_pkt_rx_s) : outcome (list Z) :=
  if Rx.modulation p =? MOD_LORA then
    sf ← sf_text (Rx.datarate p);
    bw ← bw_text (Rx.bandwidth p);
    cr ← cr_text (Rx.coderate p);
    Ret (field "modu" (quoted (bytes_of_string "LORA")) ++ field "datr" (quoted (sf ++ bw)) ++ field "codr" (quoted cr) ++
         field "rssis" (print_round (Rx.rssis p)) ++ field "lsnr" (print_1f (Rx.snr p)) ++
         field "foff" (print_d (Rx.freq_offset p)))
  else if Rx.modulation p =? MOD_FSK then
    Ret (field "modu" (quoted (bytes_of_string "FSK")) ++ field "datr" (print_u (Rx.datarate p)))
  else Exit EXIT_FAILURE.
(** The payload, in at most 341 bytes of the buffer. *)
Definition data_text (p : lgw_pkt_rx_s) : outcome (list Z) :=
  '(j, out) ← bin_to_b64 (Some (Rx.payload p)) (Rx.size p) (Some (replicate 341 0)) 341;
  if 0 <=? j then Ret (take (Z.to_nat j) (default [] out)) else Exit EXIT_FAILURE.
Definition rxpk_text (ref : option tref) (p : lgw_pkt_rx_s) : outcome (list Z) :=
  times ← time_text ref (Rx.count_us p);
  stat ← stat_text (Rx.status p);
  modu ← modu_text p;
  data ← data_text p;
  Ret ([123] ++ member "jver" (print_d PROTOCOL_JSON_RXPK_FRAME_FORMAT) ++ field "tmst" (print_u (Rx.count_us p)) ++ times ++
       (if Rx.ftime_received p then field "ftime" (print_u (Rx.ftime p)) else []) ++
       field "chan" (print_u (Rx.if_chain p)) ++ field "rfch" (print_u (Rx.rf_chain p)) ++
       field "freq" (print_f (ddiv (dbl_of_Z (Rx.freq_hz p)) (dbl_of_Z 1000000))) ++ field "mid" (print_2u (Rx.modem_id p)) ++
       stat ++ modu ++
       field "rssi" (print_round (Rx.rssic p)) ++ field "size" (print_u (Rx.size p)) ++ field "data" (quoted data) ++ [125]).

(** ** The log *)

Definition incr (l : list Z) (i : Z) : outcome (list Z) := v ← buf_get l i; buf_set l i (u32 (v + 1)).
Definition incr2 (l : list (list Z)) (i j : Z) : outcome (list (list Z)) :=
  row ← buf_get l i; row ← incr row j; buf_set l i row.
(** The reference payloads from index [k] on. *)
Fixpoint count_refs (ids : list Z) (payload : list Z) (k : Z) (counts : list Z) : outcome (list Z) :=
  match ids with
  | [] => Ret counts
  | id :: ids =>
    b0 ← buf_get payload 0; b1 ← buf_get payload 1; b2 ← buf_get payload 2; b3 ← buf_get payload 3;
    counts ← (if (b0 =? u8 (Z.shiftr id 24)) && (b1 =? u8 (Z.shiftr id 16)) && (b2 =? u8 (Z.shiftr id 8)) && (b3 =? u8 id)
              then incr counts k else Ret counts);
    count_refs ids payload (k + 1) counts
  end.
Definition log_packet (uc : up_conf) (p : lgw_pkt_rx_s) (l : up_log) : outcome up_log :=
  if Rx.modulation p =? MOD_LORA then
    m ← incr2 (nb_pkt_log l) (Rx.if_chain p) (u32 (Rx.datarate p - 5));
    refs ← count_refs (ref_payload uc) (Rx.payload p) 0 (nb_pkt_received_ref l);
    Ret (Log m (u32 (nb_pkt_received_lora l + 1)) (nb_pkt_received_fsk l) refs)
  else if Rx.modulation p =? MOD_FSK then
    m ← incr2 (nb_pkt_log l) (Rx.if_chain p) 0;
    Ret (Log m (nb_pkt_received_lora l) (u32 (nb_pkt_received_fsk l + 1)) (nb_pkt_received_ref l))
  else Ret l.

(** ** A round of the thread *)

(** What [recv] gives: a datagram, a timeout, or another error. *)
Inductive recvd := Got (d : list Z) | Timeout | Broken.

Section Up.
Context {H : Type} (conf : fwd_conf) (uc : up_conf).
(** [lgw_receive]: the result and the packets stored. *)
Context (receive : Z → eff H (Z * list lgw_pkt_rx_s)).

Abbreviation uprog := (eff (up_state H)).
Definition on_fwd {A} : fprog H A → uprog A :=
  zoom fwd (λ s f, Up f (log s) (report_ready s) (status_report s) (sent_up s)).
Definition get_up {A} (f : up_state H → A) : uprog A := λ s, Done s (f s).
Definition set_log (l : up_log) (s : up_state H) : up_state H :=
  Up (fwd s) l (report_ready s) (status_report s) (sent_up s).
Definition take_report (s : up_state H) : up_state H := Up (fwd s) (log s) false (status_report s) (sent_up s).
Definition send_up (d : list Z) (s : up_state H) : up_state H :=
  Up (fwd s) (log s) (report_ready s) (status_report s) (sent_up s ++ [d]).

(** The filter, which counts the packets by their status. *)
Definition status_class (status : Z) : option (meas * bool) :=
  if status =? STAT_CRC_OK then Some (meas_nb_rx_ok, fwd_valid_pkt uc)
  else if status =? STAT_CRC_BAD then Some (meas_nb_rx_bad, fwd_error_pkt uc)
  else if status =? STAT_NO_CRC then Some (meas_nb_rx_nocrc, fwd_nocrc_pkt uc)
  else None.
Definition filter_packet (p : lgw_pkt_rx_s) : uprog bool :=
  _ ← on_fwd (bump meas_nb_rx_rcv 1);
  match status_class (Rx.status p) with
  | None => mret false
  | Some (k, forward) =>
    _ ← on_fwd (bump k 1);
    if forward then
      _ ← on_fwd (bump meas_up_pkt_fwd 1);
      _ ← on_fwd (bump meas_up_payload_byte (Rx.size p));
      mret true
    else mret false
  end.
(** The packets from the [pkt_in_dgram]-th of the datagram on, whose text is
    [buff] so far. The index into the buffer only grows, so that the room is
    looked at once per packet. *)
Fixpoint up_packets (ref : option tref) (l : list lgw_pkt_rx_s) (buff : list Z) (pkt_in_dgram : Z) : uprog (list Z * Z) :=
  match l with
  | [] => mret (buff, pkt_in_dgram)
  | p :: l =>
    forward ← filter_packet p;
    if (forward : bool) then
      t ← on_fwd (of_outcome (rxpk_text ref p));
      let buff := buff ++ (if pkt_in_dgram =? 0 then [] else [44]) ++ t in
      _ ← (if TX_BUFF_SIZE <? Z.of_nat (List.length buff) then wrong else mret ());
      lg ← get_up log;
      lg ← on_fwd (of_outcome (log_packet uc p lg));
      _ ← (λ s, Done (set_log lg s) ());
      up_packets ref l buff (pkt_in_dgram + 1)
    else up_packets ref l buff pkt_in_dgram
  end.
(** At most two datagrams are looked at for the acknowledgement. *)
Fixpoint wait_ack (n : nat) (token_h token_l : Z) (l : list recvd) : uprog () :=
  match n, l with
  | S n, Got d :: l =>
    match d with
    | v :: h :: w :: id :: _ =>
      if negb (v =? PROTOCOL_VERSION) || negb (id =? PKT_PUSH_ACK) || negb (h =? token_h) || negb (w =? token_l)
      then wait_ack n token_h token_l l
      else on_fwd (bump meas_up_ack_rcv 1)
    | _ => wait_ack n token_h token_l l
    end
  | S n, Timeout :: l => wait_ack n token_h token_l l
  | _, _ => mret ()
  end.

(** [token_h] and [token_l] come from [rand], [acks] is what is received. *)
Definition up_round (token_h token_l : Z) (acks : list recvd) : uprog () :=
  '(nb_pkt, rxpkt) ← on_fwd (on_hal (receive NB_PKT_MAX));
  _ ← (if nb_pkt =? LGW_HAL_ERROR then on_fwd (of_outcome (Exit EXIT_FAILURE)) else mret ());
  send_report ← get_up report_ready;
  if (nb_pkt =? 0) && negb send_report then mret ()
  else
    valid ← on_fwd (gets gps_ref_valid);
    ref ← on_fwd (gets time_ref);
    let local_ref := if (0 <? nb_pkt) && gps_enabled conf && valid then Some ref else None in
    let head := [PROTOCOL_VERSION; token_h; token_l; PKT_PUSH_DATA] ++ net_mac conf in
    '(buff, pkt_in_dgram) ← up_packets local_ref (take (Z.to_nat nb_pkt) rxpkt)
                              (head ++ [123] ++ quoted (bytes_of_string "rxpk") ++ bytes_of_string ":[") 0;
    if (pkt_in_dgram =? 0) && negb send_report then mret ()
    else
      let buff := if pkt_in_dgram =? 0 then take (List.length buff - 8) buff
                  else buff ++ [93] ++ (if (send_report : bool) then [44] else []) in
      buff ← (if (send_report : bool) then
                _ ← (λ s, Done (take_report s) ());
                report ← get_up status_report;
                _ ← (match report with [] => on_fwd (of_outcome (Exit EXIT_FAILURE)) | _ => mret () end);
                mret (buff ++ report)
              else mret buff);
      let buff := buff ++ [125] in
      _ ← (if TX_BUFF_SIZE <? Z.of_nat (List.length buff) + 1 then wrong else mret ());
      _ ← (λ s, Done (send_up buff s) ());
      _ ← on_fwd (bump meas_up_dgram_sent 1);
      _ ← on_fwd (bump meas_up_network_byte (Z.of_nat (List.length buff)));
      wait_ack 2 token_h token_l acks.
End Up.

(** The calendar of [gmtime]. *)
Example civil_epoch : civil 0 = (1970, 1, 1). Proof. reflexivity. Qed.
Example civil_leap : civil 19782 = (2024, 2, 29). Proof. reflexivity. Qed.
Example civil_year_end : civil 18261 = (2019, 12, 31). Proof. reflexivity. Qed.
