(* ===== verification/JsonText.v ===== *)
(** * Reading compact JSON texts

    The texts the forwarder composes by hand: a text [reads] as a value when the
    parser returns the value in front of any delimiter. *)
From Stdlib Require Import ZArith Lia.
From stdpp Require Import base list numbers.
From S2P Require Import Prelude Binary64 Json JsonNum JsonProps Forward.

Open Scope Z_scope.
Open Scope list_scope.

Definition reads (n : Z) (t : list Z) (v : JSON_Value) : Prop := ∀ r fuel,
  delimited r → (2 * length (t ++ r) < fuel)%nat → parse_value fuel n (t ++ r) = Value (v, r).
(** A character that stands for itself in a string. *)
Definition plain (c : Z) : Prop := 32 <= c ∧ c ≠ 34 ∧ c ≠ 92.

Lemma skip_quotes_plain s r : Forall plain s → skip_quotes_loop (s ++ 34 :: r) = r.
Proof.
  induction 1 as [|c s (_ & H1 & H2) Hs IH]; [done|]. cbn [app skip_quotes_loop].
  by rewrite (proj2 (Z.eqb_neq _ _) H1), (proj2 (Z.eqb_neq _ _) H2).
Qed.
Lemma process_chars_plain s fuel : Forall plain s → (length s <= fuel)%nat → process_chars fuel s = Some s.
Proof.
  intros Hs. revert fuel. induction Hs as [|c s (H0 & H1 & H2) Hs IH]; intros fuel HL; [by destruct fuel|].
  destruct fuel as [|fuel]; cbn [length] in HL; [lia|]. cbn [process_chars].
  rewrite (proj2 (Z.eqb_neq _ _) H2), (proj2 (Z.ltb_ge _ _)) by lia. by rewrite IH by lia.
Qed.
Lemma c_string_plain s : Forall plain s → c_string s = s.
Proof.
  induction 1 as [|c s (H0 & _) Hs IH]; cbn; [done|]. rewrite (proj2 (Z.eqb_neq _ _)) by lia. by rewrite IH.
Qed.
Lemma quoted_plain s r : Forall plain s → r ≠ [] → get_quoted_string (quoted s ++ r) = (Some s, r).
Proof.
  intros Hs Hr. unfold get_quoted_string, quoted, skip_quotes. cbn [app]. rewrite <- app_assoc. cbn [app].
  change (drop 1 (?x :: ?l)) with l. rewrite (skip_quotes_plain s r Hs). cbv zeta. destruct r as [|c r]; [done|].
  cbn [length]. rewrite length_app. cbn [length]. replace (S _ - _ - 2)%nat with (length s) by lia.
  rewrite take_app_length. unfold process_string. rewrite process_chars_plain by done. cbn. by rewrite c_string_plain.
Qed.

Lemma reads_string n s : n <= MAX_NESTING → Forall plain s → reads n (quoted s) (JSONString s).
Proof.
  intros Hn Hs r fuel Hr Hf. destruct fuel as [|fuel]; [lia|]. cbn [parse_value].
  rewrite (proj2 (Z.ltb_ge _ _)) by lia. rewrite dark_skip by (by eexists _, _). cbv zeta.
  assert (E : parse_string_value (quoted s ++ r) = Some (JSONString s, r)).
  { unfold parse_string_value. by rewrite quoted_plain by (done || by apply delimited_ne). }
  destruct (quoted s ++ r) as [|c q] eqn:Ec; [done|]. unfold quoted in Ec. cbn [app] in Ec. injection Ec as <- Ec.
  cbn [Z.eqb Pos.eqb]. by rewrite E.
Qed.
Lemma reads_number n sign d w f :
  n <= MAX_NESTING → sign = 1 ∨ sign = -1 → all_digits (d :: w) → all_digits f → (d = 48 → w = []) →
  reads n (number_text sign d w f) (JSONNumber (decimal_value (sign * decimal (d :: w ++ f)) (- Z.of_nat (length f)))).
Proof.
  intros Hn Hs Hd Hf H0 r fuel Hr Hfu. pose proof (number_text_read sign d w f r Hs Hd Hf H0 Hr) as E.
  destruct fuel as [|fuel]; [lia|]. cbn [parse_value].
  rewrite (proj2 (Z.ltb_ge _ _)) by lia. rewrite dark_skip by (by apply number_text_dark). cbv zeta.
  apply Forall_inv in Hd. cbn beta in Hd. pose proof Hd as Hb%isdigit_iff. unfold number_text in *.
  destruct Hs as [-> | ->]; cbn [Z.ltb Z.compare app] in *.
  - rewrite !(proj2 (Z.eqb_neq d _)) by lia. cbn [orb]. by rewrite Hd, E.
  - cbn [Z.eqb Pos.eqb orb]. by rewrite E.
Qed.
Lemma reads_blank n t v : reads n t v → reads n (32 :: t) v.
Proof.
  intros Ht r fuel Hr Hf. change ((32 :: t) ++ r) with (32 :: t ++ r). rewrite (parse_value_blanks fuel n _ (t ++ r)) by done.
  apply Ht; [done|]. cbn [length app] in Hf. lia.
Qed.

(** ** Objects *)

(** A name, the text of the value, and the value. *)
Abbreviation item := (list Z * list Z * JSON_Value)%type.
Definition item_member (m : item) : list Z * JSON_Value := (fst (fst m), snd m).
Definition item_text (m : item) : list Z := quoted (fst (fst m)) ++ [58] ++ snd (fst m).
Definition more_text (l : list item) : list Z := concat (map (λ m, 44 :: item_text m) l).
Definition item_ok (n : Z) (m : item) : Prop := Forall plain (fst (fst m)) ∧ reads n (snd (fst m)) (snd m).

Lemma more_text_delimited l r : delimited (more_text l ++ 125 :: r).
Proof. destruct l as [|m l]; unfold more_text; cbn; [exists 125, r|eexists 44, _]; split; (done || lia). Qed.
Lemma delimited_skip r : delimited r → (∃ q, r = 44 :: q ∨ r = 125 :: q ∨ r = 93 :: q) → skip_whitespaces r = r.
Proof. intros _ (q & [->|[->| ->]]); done. Qed.
Lemma member_text_read n m X fuel capacity (acc : JSON_Object) :
  item_ok n m → delimited X → has_room 6 capacity (Z.of_nat (length acc)) → fst (item_member m) ∉ map fst acc →
  Z.of_nat (length acc) + 1 <= OBJECT_MAX_CAPACITY → (2 * length (item_text m ++ X) <= fuel)%nat →
  ∃ c, has_room 6 c (Z.of_nat (length (acc ++ [item_member m]))) ∧
    parse_members (S fuel) n (item_text m ++ X) capacity acc =
      match after 44 (skip_whitespaces X) with
      | Some r => parse_members fuel n (skip_whitespaces r) c (acc ++ [item_member m])
      | None => r ← not_null (after 125 (skip_whitespaces X)); Value (JSONObject (acc ++ [item_member m]), r)
      end.
Proof.
  intros [Hk Hv] HX Hroom HD Hlen Hf. destruct m as [[k t] v]. cbn [fst snd item_member] in *.
  destruct (has_room_grow 6 capacity (Z.of_nat (length acc))) as (c & Eg & Hroom'); [lia|done|unfold OBJECT_MAX_CAPACITY in Hlen; lia|].
  exists c. split; [rewrite length_app; cbn [length]; by replace (Z.of_nat _) with (Z.of_nat (length acc) + 1) by lia|].
  cbn [parse_members].
  assert (Hq : get_quoted_string (item_text (k, t, v) ++ X) = (Some k, [58] ++ t ++ X)).
  { unfold item_text. cbn [fst snd]. rewrite <- !app_assoc. by apply quoted_plain. }
  rewrite Hq. destruct (item_text (k, t, v) ++ X) as [|c0 q0] eqn:E0; [done|].
  cbn [app not_null mbind parsed_bind skip_whitespaces]. change (isspace 58) with false. cbv match.
  cbn [after]. rewrite Z.eqb_refl. cbn [not_null mbind parsed_bind].
  assert (HF : (2 * length (t ++ X) < fuel)%nat).
  { rewrite <- E0 in Hf. unfold item_text in Hf. cbn [fst snd] in Hf. rewrite !length_app in Hf. rewrite length_app.
    cbn [length] in Hf. lia. }
  rewrite (Hv X fuel HX HF). cbn [mbind parsed_bind]. unfold json_object_add.
  change (15 * 2 ^ 6) with OBJECT_MAX_CAPACITY in Eg. rewrite Eg. cbn [mbind option_bind].
  rewrite get_value_none by done. cbn [not_null mbind parsed_bind]. done.
Qed.
Lemma members_text_read n m l r :
  item_ok n m → Forall (item_ok n) l →
  ∀ fuel capacity (acc : JSON_Object), has_room 6 capacity (Z.of_nat (length acc)) →
  NoDup (map fst acc ++ map (λ m, fst (item_member m)) (m :: l)) → Z.of_nat (length acc + S (length l)) <= OBJECT_MAX_CAPACITY →
  (2 * length (item_text m ++ more_text l ++ 125%Z :: r) < fuel)%nat →
  parse_members fuel n (item_text m ++ more_text l ++ 125 :: r) capacity acc =
    Value (JSONObject (acc ++ map item_member (m :: l)), r).
Proof.
  intros Hm Hl. revert m Hm. induction Hl as [|m' l Hm' Hl IH]; intros m Hm fuel capacity acc Hroom HD Hlen Hf;
    (destruct fuel as [|fuel]; [lia|]).
  - destruct (member_text_read n m (more_text [] ++ 125 :: r) fuel capacity acc) as (c & _ & ->);
      [done|apply more_text_delimited|done| |cbn [length] in Hlen; lia|lia|done].
    intros Hin. apply list.NoDup_app in HD as (_ & HD & _). apply (HD _ Hin). by left.
  - destruct (member_text_read n m (more_text (m' :: l) ++ 125 :: r) fuel capacity acc) as (c & Hr & ->);
      [done|apply more_text_delimited|done| |cbn [length] in Hlen; lia|lia|].
    { intros Hin. apply list.NoDup_app in HD as (_ & HD & _). apply (HD _ Hin). by left. }
    change (more_text (m' :: l) ++ 125 :: r) with (44 :: (item_text m' ++ more_text l) ++ 125 :: r) in Hf |- *.
    rewrite <- app_assoc in Hf |- *. cbn [skip_whitespaces]. change (isspace 44) with false.
    cbv match. cbn [after]. rewrite Z.eqb_refl.
    assert (skip_whitespaces (item_text m' ++ more_text l ++ 125 :: r) = item_text m' ++ more_text l ++ 125 :: r) as -> by done.
    rewrite (IH m' Hm' fuel c (acc ++ [item_member m])); [by rewrite <- app_assoc|done|..].
    + rewrite map_app, <- app_assoc. exact HD.
    + rewrite length_app. cbn [length] in *. lia.
    + rewrite length_app in Hf. cbn [length] in Hf. unfold item_text in Hf at 1. rewrite length_app in Hf. cbn [length] in Hf. lia.
Qed.
Definition object_text (l : list item) : list Z :=
  [123] ++ match l with [] => [] | m :: l => item_text m ++ more_text l end ++ [125].
Lemma reads_object n l :
  n <= MAX_NESTING → l ≠ [] → Forall (item_ok (n + 1)) l → NoDup (map (λ m, fst (item_member m)) l) →
  Z.of_nat (length l) <= OBJECT_MAX_CAPACITY → ∀ r fuel, (2 * length (object_text l ++ r) < fuel)%nat →
  parse_value fuel n (object_text l ++ r) = Value (JSONObject (map item_member l), r).
Proof.
  intros Hn Hl Ho HD Hlen r fuel Hf. destruct l as [|m l]; [done|]. apply Forall_cons_1 in Ho as [Hm Ho].
  destruct fuel as [|fuel]; [lia|]. unfold object_text in *.
  assert (E : ([123] ++ (item_text m ++ more_text l) ++ [125]) ++ r = 123 :: item_text m ++ more_text l ++ 125 :: r)
    by (cbn [app]; by rewrite <- !app_assoc).
  rewrite E in Hf |- *. cbn [parse_value]. rewrite (proj2 (Z.ltb_ge _ _)) by lia.
  cbn [skip_whitespaces]. change (isspace 123) with false. cbv match. cbn [Z.eqb Pos.eqb].
  assert (skip_whitespaces (item_text m ++ more_text l ++ 125 :: r) = item_text m ++ more_text l ++ 125 :: r) as -> by done.
  assert (after 125 (item_text m ++ more_text l ++ 125 :: r) = None) as -> by done.
  rewrite (members_text_read (n + 1) m l r); [done|done|done|split; [lia|by left]|done|cbn [length] in *; lia|cbn [length] in Hf; lia].
Qed.

(** ** Arrays of objects *)

Abbreviation element := (list Z * JSON_Value)%type.
Definition element_ok (n : Z) (m : element) : Prop := reads n (fst m) (snd m) ∧ ∃ q, fst m = 123 :: q.
Definition more_elements (l : list element) : list Z := concat (map (λ m, 44 :: fst m) l).
Definition array_text (l : list element) : list Z :=
  [91] ++ match l with [] => [] | m :: l => fst m ++ more_elements l end ++ [93].
Lemma more_elements_delimited l r : delimited (more_elements l ++ 93 :: r).
Proof.
  destruct l as [|m l].
  - exists 93, r. split; [done|lia].
  - exists 44, ((fst m ++ more_elements l) ++ 93 :: r). split; [done|lia].
Qed.
Lemma element_text_read n m X fuel capacity (acc : list JSON_Value) :
  element_ok n m → delimited X → has_room 13 capacity (Z.of_nat (length acc)) →
  Z.of_nat (length acc) + 1 <= ARRAY_MAX_CAPACITY → (2 * length (fst m ++ X) < fuel)%nat →
  ∃ c, has_room 13 c (Z.of_nat (length (acc ++ [snd m]))) ∧
    parse_elements (S fuel) n (fst m ++ X) capacity acc =
      match after 44 (skip_whitespaces X) with
      | Some r => parse_elements fuel n (skip_whitespaces r) c (acc ++ [snd m])
      | None => r ← not_null (after 93 (skip_whitespaces X)); Value (JSONArray (acc ++ [snd m]), r)
      end.
Proof.
  intros [Hv (q & Eq)] HX Hroom Hlen Hf. destruct m as [t v]. cbn [fst snd] in *.
  destruct (has_room_grow 13 capacity (Z.of_nat (length acc))) as (c & Eg & Hroom'); [lia|done|unfold ARRAY_MAX_CAPACITY in Hlen; lia|].
  exists c. split; [rewrite length_app; cbn [length]; by replace (Z.of_nat _) with (Z.of_nat (length acc) + 1) by lia|].
  cbn [parse_elements]. rewrite (Hv X fuel HX Hf), Eq. cbn [app mbind parsed_bind]. unfold json_array_add.
  change (15 * 2 ^ 13) with ARRAY_MAX_CAPACITY in Eg. rewrite Eg. cbn [mbind option_bind not_null parsed_bind]. done.
Qed.
Lemma elements_text_read n m l r :
  element_ok n m → Forall (element_ok n) l →
  ∀ fuel capacity (acc : list JSON_Value), has_room 13 capacity (Z.of_nat (length acc)) →
  Z.of_nat (length acc + S (length l)) <= ARRAY_MAX_CAPACITY →
  (2 * length (fst m ++ more_elements l ++ 93%Z :: r) + 1 < fuel)%nat →
  parse_elements fuel n (fst m ++ more_elements l ++ 93 :: r) capacity acc = Value (JSONArray (acc ++ map snd (m :: l)), r).
Proof.
  intros Hm Hl. revert m Hm. induction Hl as [|m' l Hm' Hl IH]; intros m Hm fuel capacity acc Hroom Hlen Hf;
    (destruct fuel as [|fuel]; [lia|]).
  - destruct (element_text_read n m (more_elements [] ++ 93 :: r) fuel capacity acc) as (c & _ & ->);
      [done|apply more_elements_delimited|done|cbn [length] in Hlen; lia|lia|done].
  - destruct (element_text_read n m (more_elements (m' :: l) ++ 93 :: r) fuel capacity acc) as (c & Hr & ->);
      [done|apply more_elements_delimited|done|cbn [length] in Hlen; lia|lia|].
    change (more_elements (m' :: l) ++ 93 :: r) with (44 :: (fst m' ++ more_elements l) ++ 93 :: r) in Hf |- *.
    rewrite <- app_assoc in Hf |- *. cbn [skip_whitespaces]. change (isspace 44) with false.
    cbv match. cbn [after]. rewrite Z.eqb_refl.
    assert (skip_whitespaces (fst m' ++ more_elements l ++ 93 :: r) = fst m' ++ more_elements l ++ 93 :: r) as ->.
    { destruct Hm' as [_ (q & ->)]. done. }
    rewrite (IH m' Hm' fuel c (acc ++ [snd m])); [by rewrite <- app_assoc|done|..].
    + rewrite length_app. cbn [length] in *. lia.
    + rewrite length_app in Hf. cbn [length] in Hf. destruct Hm as [_ (q & Eq)]. rewrite Eq in Hf. cbn [length] in Hf. lia.
Qed.
Lemma reads_array n l :
  n <= MAX_NESTING → l ≠ [] → Forall (element_ok (n + 1)) l → Z.of_nat (length l) <= ARRAY_MAX_CAPACITY →
  reads n (array_text l) (JSONArray (map snd l)).
Proof.
  intros Hn Hl Ho Hlen r fuel _ Hf. destruct l as [|m l]; [done|]. apply Forall_cons_1 in Ho as [Hm Ho].
  destruct fuel as [|fuel]; [lia|]. unfold array_text in *.
  assert (E : ([91] ++ (fst m ++ more_elements l) ++ [93]) ++ r = 91 :: fst m ++ more_elements l ++ 93 :: r)
    by (cbn [app]; by rewrite <- !app_assoc).
  rewrite E in Hf |- *. cbn [parse_value]. rewrite (proj2 (Z.ltb_ge _ _)) by lia.
  cbn [skip_whitespaces]. change (isspace 91) with false. cbv match. cbn [Z.eqb Pos.eqb].
  pose proof Hm as [_ (q & Eq)].
  assert (skip_whitespaces (fst m ++ more_elements l ++ 93 :: r) = fst m ++ more_elements l ++ 93 :: r) as -> by (by rewrite Eq).
  assert (after 93 (fst m ++ more_elements l ++ 93 :: r) = None) as -> by (by rewrite Eq).
  rewrite (elements_text_read (n + 1) m l r); [done|done|done|split; [lia|by left]|cbn [length] in *; lia|cbn [length] in Hf; lia].
Qed.
Lemma object_element n l :
  n <= MAX_NESTING → l ≠ [] → Forall (item_ok (n + 1)) l → NoDup (map (λ m, fst (item_member m)) l) →
  Z.of_nat (length l) <= OBJECT_MAX_CAPACITY → element_ok n (object_text l, JSONObject (map item_member l)).
Proof. intros. split; [|by eexists]. intros r fuel _ Hf. by apply reads_object. Qed.
