(* ===== verification/UplinkProps.v ===== *)
(** * Properties of the uplink *)
From Stdlib Require Import ZArith Lia Reals Lra String.
From stdpp Require Import base list numbers strings.
From S2P Require Import Prelude Binary64 HalTypes Base64 JitQueue Merge RegProg HalConf Timestamp TimeRef TimeRefProps.
From S2P Require Import Json JsonNum JsonProps Forward ForwardProps JsonText Uplink.
Import Rfc4648.

Open Scope Z_scope.
Open Scope list_scope.

(** ** Numbers *)

Lemma decimal_finite m k : 0 <= k <= 10 → Z.abs m < 2 ^ 100 → decimal_value m (- k) = Finite (rnd m (10 ^ k)).
Proof.
  intros Hk Hm. unfold decimal_value. rewrite (Z.max_l 0 (- k)), (Z.max_r 0 (- - k)) by lia. rewrite Z.opp_involutive, Z.mul_1_r.
  set (d := 10 ^ k). assert (Hd : 0 < d) by (apply Z.pow_pos_nonneg; lia). cbv zeta.
  pose proof (rnd_rel_err m d Hd) as E. set (x := rnd m d) in *. pose proof (den_pos x) as Hx.
  rewrite (proj2 (Z.leb_gt _ _)); [done|].
  assert (Z.abs (num x) < den x * 2 ^ 101) by (change (2 ^ 53) with 9007199254740992 in E; nia).
  apply Z.lt_trans with (den x * 2 ^ 101); [done|]. rewrite Z.mul_comm. apply Z.mul_lt_mono_pos_r; [done|].
  by apply Z.pow_lt_mono_r.
Qed.
Lemma digits_length n k z : 0 <= z < 10 ^ Z.of_nat (S k) → (length (digits n z) <= S k)%nat.
Proof.
  revert k z. induction n as [|n IH]; intros k z Hz; cbn [digits length]; [lia|].
  destruct (Z.ltb_spec z 10); [cbn [length]; lia|]. rewrite length_app. cbn [length].
  destruct k as [|k]; [change (10 ^ Z.of_nat 1) with 10 in Hz; lia|].
  assert (0 <= z / 10 < 10 ^ Z.of_nat (S k)).
  { split; [apply Z.div_pos; lia|]. apply Z.div_lt_upper_bound; [lia|].
    replace (Z.of_nat (S (S k))) with (1 + Z.of_nat (S k)) in Hz by lia. rewrite Z.pow_add_r in Hz by lia. lia. }
  specialize (IH k (z / 10) ltac:(done)). lia.
Qed.
Lemma digits_digits n z : 0 <= z → all_digits (digits n z).
Proof.
  revert z. induction n as [|n IH]; intros z Hz; cbn [digits]; [constructor|]. destruct (Z.ltb_spec z 10).
  - constructor; [apply isdigit_iff; lia|constructor].
  - apply Forall_app. split; [apply IH, Z.div_pos; lia|]. pose proof (Z.mod_pos_bound z 10 ltac:(lia)).
    constructor; [apply isdigit_iff; lia|constructor].
Qed.
Definition jnum (z : Z) : JSON_Value := JSONNumber (Finite (dbl_of_Z z)).
Lemma rnd_1 z : rnd z (10 ^ 0) = dbl_of_Z z. Proof. done. Qed.

Section Reads.
Context (n : Z) (Hn : n <= MAX_NESTING).
Lemma reads_print_u z : 0 <= z < 2 ^ 64 → reads n (print_u z) (jnum z).
Proof.
  intros Hz. unfold print_u. destruct (digits_spec 19 z) as (d & r & E & Hd & Hv & H0).
  { change (10 ^ _) with 100000000000000000000. lia. }
  pose proof (reads_number n 1 d r [] Hn (or_introl eq_refl) Hd (Forall_nil_2 _) ltac:(by intros [_ ->]%H0)) as R.
  unfold number_text in R. change (- Z.of_nat (length [])) with (- 0) in R.
  cbn [Z.ltb Z.compare app] in R. rewrite !app_nil_r, Hv, Z.mul_1_l in R. rewrite (decimal_finite z 0), rnd_1 in R by lia. rewrite E. exact R.
Qed.
Lemma reads_print_2u z : 0 <= z < 2 ^ 64 → reads n (print_2u z) (jnum z).
Proof.
  intros Hz. unfold print_2u. pose proof (reads_print_u z Hz) as R. induction (2 - length (print_u z))%nat as [|k IH]; [exact R|].
  cbn [replicate app]. by apply reads_blank.
Qed.
Lemma reads_print_d z : - 2 ^ 31 <= z < 2 ^ 31 → reads n (print_d z) (jnum z).
Proof.
  intros Hz. destruct (print_d_text z Hz) as (sign & d & r & Hs & -> & Hd & Hv & H0).
  pose proof (reads_number n sign d r [] Hn Hs Hd (Forall_nil_2 _) H0) as R. change (- Z.of_nat (length [])) with (- 0) in R.
  rewrite app_nil_r, Hv in R. rewrite (decimal_finite z 0), rnd_1 in R by lia. exact R.
Qed.

(** The frequency in MHz is read as the closest number to it. *)
Lemma freq_mhz f : 0 <= f < 2 ^ 32 → ddiv (dbl_of_Z f) (dbl_of_Z 1000000) = rnd f 1000000.
Proof.
  intros Hf. pose proof (dval_of_Z f ltac:(lia)) as E. unfold dval in E. rewrite Z.mul_1_r in E.
  pose proof (den_pos (dbl_of_Z f)). unfold ddiv. set (x := dbl_of_Z f) in *. clearbody x.
  set (y := dbl_of_Z 1000000). assert (Ny : num y = 1000000 * den y) by (vm_compute; reflexivity).
  pose proof (den_pos y). clearbody y. rewrite Z.sgn_pos, Z.abs_eq by lia. apply rnd_ratio; [nia|lia|].
  rewrite E, Ny. ring.
Qed.
Lemma reads_freq f :
  0 <= f < 2 ^ 32 → reads n (print_f (ddiv (dbl_of_Z f) (dbl_of_Z 1000000))) (JSONNumber (Finite (rnd f 1000000))).
Proof.
  intros Hf. rewrite freq_mhz by done. destruct (print_f_text f ltac:(lia)) as (sign & d & r & p & Hs & -> & Hd & Hp & Lp & Hv & H0).
  pose proof (reads_number n sign d r p Hn Hs Hd Hp H0) as R. rewrite Lp, Hv in R. change (Z.of_nat 6) with 6 in R.
  rewrite (decimal_finite f 6) in R by lia. exact R.
Qed.

(** A signed number of ones, or of parts of one. *)
Definition signed (x : double) (m : Z) : Z := if num x <? 0 then - m else m.
Definition nearest (x : double) : Z := signed x ((2 * Z.abs (num x) + den x) / (2 * den x)).
Definition parts (k : nat) (x : double) : Z := signed x (rne (Z.abs (num x) * 10 ^ Z.of_nat k) (den x)).
Definition tenths (x : double) : Z := parts 1 x.
(** The strengths of signals, in dB. *)
Definition moderate (x : double) : Prop := Z.abs (num x) <= 1000 * den x.

Lemma signed_value x m : (if num x <? 0 then -1 else 1) * m = signed x m.
Proof. unfold signed. destruct (num x <? 0); lia. Qed.
Lemma moderate_nearest x : moderate x → 0 <= (2 * Z.abs (num x) + den x) / (2 * den x) <= 1000.
Proof.
  intros Hx. unfold moderate in Hx. pose proof (den_pos x). split; [apply Z.div_pos; lia|].
  apply Z.lt_succ_r, Z.div_lt_upper_bound; lia.
Qed.
Lemma moderate_parts k x : moderate x → 0 <= rne (Z.abs (num x) * 10 ^ Z.of_nat k) (den x) <= 1000 * 10 ^ Z.of_nat k.
Proof.
  intros Hx. unfold moderate in Hx. pose proof (den_pos x). set (P := 10 ^ Z.of_nat k).
  assert (0 < P) by (apply Z.pow_pos_nonneg; lia). pose proof (rne_err (Z.abs (num x) * P) (den x) ltac:(lia)) as E.
  assert (Z.abs (num x) * P <= 1000 * P * den x) by nia. nia.
Qed.
Lemma reads_print_round x : moderate x → reads n (print_round x) (jnum (nearest x)).
Proof.
  intros Hx. pose proof (moderate_nearest x Hx) as Hm. unfold print_round, nearest. set (m := _ / _) in *.
  destruct (digits_spec 39 m) as (d & r & E & Hd & Hv & H0).
  { split; [lia|]. apply Z.le_lt_trans with 1000; [lia|]. by apply Z.ltb_lt. }
  pose proof (reads_number n (if num x <? 0 then -1 else 1) d r [] Hn ltac:(destruct (_ <? _); [by right|by left]) Hd
    (Forall_nil_2 _) ltac:(by intros [_ ->]%H0)) as R.
  change (- Z.of_nat (length [])) with (- 0) in R. rewrite app_nil_r, Hv, signed_value in R.
  rewrite (decimal_finite _ 0), rnd_1 in R by (unfold signed; destruct (_ <? _); lia). rewrite E.
  unfold number_text in R. rewrite app_nil_r in R. destruct (num x <? 0); exact R.
Qed.
Lemma reads_print_fixed k x :
  (1 <= k <= 5)%nat → moderate x → reads n (print_fixed k x) (JSONNumber (Finite (rnd (parts k x) (10 ^ Z.of_nat k)))).
Proof.
  intros Hk Hx. pose proof (moderate_parts k x Hx) as Hm. unfold print_fixed, parts. cbv zeta. set (m := rne _ _) in *.
  assert (HP : 0 < 10 ^ Z.of_nat k <= 100000).
  { split; [apply Z.pow_pos_nonneg; lia|]. change 100000 with (10 ^ 5). apply Z.pow_le_mono_r; lia. }
  set (P := 10 ^ Z.of_nat k) in *.
  destruct (digits_spec 39 (m / P)) as (d & r & E & Hd & Hv & H0).
  { split; [apply Z.div_pos; lia|]. apply Z.le_lt_trans with 1000; [|by apply Z.ltb_lt]. apply Z.lt_succ_r, Z.div_lt_upper_bound; lia. }
  pose proof (Z.mod_pos_bound m P ltac:(lia)) as Hb. destruct (padded_spec k (m mod P)) as (Hp & HL & Hw); [lia|].
  set (p := padded k (m mod P)) in *.
  assert (Hval : decimal (d :: r ++ p) = m).
  { change (d :: r ++ p) with ((d :: r) ++ p). rewrite Hw, Hv. fold P. rewrite Zmod_mod. pose proof (Z.div_mod m P). lia. }
  pose proof (reads_number n (if num x <? 0 then -1 else 1) d r p Hn ltac:(destruct (_ <? _); [by right|by left]) Hd Hp
    ltac:(by intros [_ ->]%H0)) as R. rewrite HL, Hval, signed_value in R.
  rewrite (decimal_finite _ (Z.of_nat k)) in R by (unfold signed; try lia; destruct (_ <? _); lia). rewrite E. fold P in R.
  unfold number_text in R. assert (match p with [] => [] | _ => 46 :: p end = 46 :: p) as Ep.
  { clearbody p. destruct p; [cbn in HL; lia|done]. }
  rewrite Ep in R. destruct (num x <? 0); exact R.
Qed.
End Reads.

(** ** The object of a packet *)

Definition name (s : string) : list Z := bytes_of_string s.
Definition jtext (s : string) : JSON_Value := JSONString (bytes_of_string s).
Definition stat_value (status : Z) : Z := if status =? STAT_CRC_OK then 1 else if status =? STAT_CRC_BAD then -1 else 0.
(** What is said of the times of a packet, and of its modulation. *)
Definition time_members (ref : option tref) (count_us : Z) : JSON_Object :=
  match ref with
  | None => []
  | Some ref =>
    match lgw_cnt2utc ref count_us true with
    | (j, Some t) => if j =? LGW_GPS_SUCCESS then [(name "time", JSONString (utc_text t))] else []
    | _ => []
    end ++
    match lgw_cnt2gps ref count_us true with
    | (j, Some t) => if j =? LGW_GPS_SUCCESS then match gps_ms t with Ret ms => [(name "tmms", jnum ms)] | _ => [] end else []
    | _ => []
    end
  end.
Definition bw_khz (bw : Z) : string :=
  if bw =? BW_125KHZ then "BW125" else if bw =? BW_250KHZ then "BW250" else "BW500".
Definition cr_name (cr : Z) : string :=
  if cr =? CR_LORA_4_5 then "4/5" else if cr =? CR_LORA_4_6 then "4/6" else if cr =? CR_LORA_4_7 then "4/7"
  else if cr =? CR_LORA_4_8 then "4/8" else "OFF".
Definition modu_members (p : lgw_pkt_rx_s) : JSON_Object :=
  if Rx.modulation p =? MOD_LORA then
    [(name "modu", jtext "LORA");
     (name "datr", JSONString (bytes_of_string "SF" ++ print_d (Rx.datarate p) ++ bytes_of_string (bw_khz (Rx.bandwidth p))));
     (name "codr", jtext (cr_name (Rx.coderate p))); (name "rssis", jnum (nearest (Rx.rssis p)));
     (name "lsnr", JSONNumber (Finite (rnd (tenths (Rx.snr p)) 10))); (name "foff", jnum (Rx.freq_offset p))]
  else [(name "modu", jtext "FSK"); (name "datr", jnum (Rx.datarate p))].
Definition rxpk_members (ref : option tref) (p : lgw_pkt_rx_s) : JSON_Object :=
  [(name "jver", jnum 1); (name "tmst", jnum (Rx.count_us p))] ++ time_members ref (Rx.count_us p) ++
  (if Rx.ftime_received p then [(name "ftime", jnum (Rx.ftime p))] else []) ++
  [(name "chan", jnum (Rx.if_chain p)); (name "rfch", jnum (Rx.rf_chain p));
   (name "freq", JSONNumber (Finite (rnd (Rx.freq_hz p) 1000000))); (name "mid", jnum (Rx.modem_id p));
   (name "stat", jnum (stat_value (Rx.status p)))] ++ modu_members p ++
  [(name "rssi", jnum (nearest (Rx.rssic p))); (name "size", jnum (Rx.size p));
   (name "data", JSONString (text (take (Z.to_nat (Rx.size p)) (Rx.payload p))))].

(** The packets the library stores: the fields are in their ranges. *)
Definition rx_ok (p : lgw_pkt_rx_s) : Prop :=
  is_u32 (Rx.count_us p) ∧ is_u32 (Rx.freq_hz p) ∧ 0 <= Rx.if_chain p < LGW_IF_CHAIN_NB ∧ is_u8 (Rx.rf_chain p) ∧
  is_u8 (Rx.modem_id p) ∧ is_u32 (Rx.ftime p) ∧ 0 <= Rx.size p <= 255 ∧ length (Rx.payload p) = 256%nat ∧ bytes (Rx.payload p) ∧
  moderate (Rx.rssic p) ∧
  (Rx.modulation p = MOD_LORA ∧ 5 <= Rx.datarate p <= 12 ∧ IS_LORA_BW (Rx.bandwidth p) = true ∧
     (Rx.coderate p = 0 ∨ IS_LORA_CR (Rx.coderate p) = true) ∧ moderate (Rx.rssis p) ∧ moderate (Rx.snr p) ∧
     - 2 ^ 31 <= Rx.freq_offset p < 2 ^ 31
   ∨ Rx.modulation p = MOD_FSK ∧ is_u32 (Rx.datarate p)).
(** The times of the reference: seconds below [2^40]. *)
Definition ref_times_ok (ref : option tref) : Prop := ∀ r, ref = Some r →
  0 <= ts_sec (ref_gps r) < 2 ^ 40 ∧ 0 <= ts_nsec (ref_gps r) < 1000000000.

(** [t] is the text of the members [l], after other members, and has at most
    [k] characters. *)
Definition described (n : Z) (k : Z) (t : list Z) (l : JSON_Object) : Prop :=
  ∃ items, t = more_text items ∧ map item_member items = l ∧ Forall (item_ok n) items ∧ Z.of_nat (length t) <= k.
Lemma described_nil n : described n 0 [] [].
Proof. exists []. split_and!; (done || constructor). Qed.
Lemma described_app n k1 k2 t1 t2 l1 l2 :
  described n k1 t1 l1 → described n k2 t2 l2 → described n (k1 + k2) (t1 ++ t2) (l1 ++ l2).
Proof.
  intros (i1 & -> & <- & H1 & K1) (i2 & -> & <- & H2 & K2). exists (i1 ++ i2). split_and!.
  - unfold more_text. by rewrite map_app, concat_app.
  - by rewrite map_app.
  - by apply Forall_app.
  - rewrite length_app. lia.
Qed.
Lemma described_field n k s t v :
  Forall plain (name s) → reads n t v → Z.of_nat (length (name s)) + Z.of_nat (length t) + 4 <= k →
  described n k (field s t) [(name s, v)].
Proof.
  intros Hs Ht Hk. exists [(name s, t, v)]. split_and!; [|done|by repeat constructor|].
  - unfold more_text. cbn. unfold field, member, item_text. cbn [fst snd]. by rewrite app_nil_r.
  - unfold field, member, quoted. fold (name s). repeat (rewrite length_app || cbn [length]). lia.
Qed.
Lemma described_le n k k' t l : described n k t l → k <= k' → described n k' t l.
Proof. intros (i & -> & <- & H & K) Hk. exists i. split_and!; (done || lia). Qed.

(** *** The parts of the text *)

Lemma text_plain data : Forall plain (text data).
Proof.
  unfold text. apply Forall_app. split.
  - apply encode_Forall. intros v k. unfold digit. assert (H : is_u8 (v / 2 ^ k mod 64)).
    { pose proof (Z.mod_pos_bound (v / 2 ^ k) 64). lia. }
    assert (H2 : v / 2 ^ k mod 64 < 64) by (apply Z.mod_pos_bound; lia). revert H H2. generalize (v / 2 ^ k mod 64). intros z.
    assert (Hall : forallb (λ c, (43 <=? c) && negb (c =? 92)) alphabet = true) by (vm_compute; reflexivity).
    intros H H2. unfold znth. rewrite (proj2 (Z.ltb_ge _ _)) by lia.
    assert (Hin : In (nth (Z.to_nat z) alphabet 0) alphabet).
    { apply nth_In. change (length alphabet) with 64%nat. lia. }
    rewrite forallb_forall in Hall. specialize (Hall _ Hin). apply andb_true_iff in Hall as [H3%Z.leb_le H4%negb_true_iff%Z.eqb_neq].
    unfold plain. lia.
  - unfold padding. destruct (length data mod 3)%nat as [|[|[|]]]; repeat constructor; unfold plain; lia.
Qed.
Lemma text_length data : length (text data) = (4 * ((length data + 2) / 3))%nat.
Proof.
  assert (∀ n l, (length l <= n)%nat → length (text l) = (4 * ((length l + 2) / 3))%nat) as H; [|by apply (H (length data))].
  induction n as [|n IH]; intros l Hl.
  - destruct l; [done|cbn [length] in Hl; lia].
  - destruct l as [|a [|b [|c r]]]; [done|done|done|]. unfold text in *. cbn [encode]. specialize (IH r ltac:(cbn [length] in Hl; lia)).
    assert (padding (a :: b :: c :: r) = padding r) as ->.
    { unfold padding. cbn [length]. replace (S (S (S (length r)))) with (length r + 1 * 3)%nat by lia. by rewrite Nat.Div0.mod_add. }
    cbv zeta. cbn [app length]. rewrite IH. replace (S (S (S (length r))) + 2)%nat with (length r + 2 + 1 * 3)%nat by lia.
    rewrite Nat.div_add by lia. lia.
Qed.
Lemma data_text_ok p :
  0 <= Rx.size p <= 255 → length (Rx.payload p) = 256%nat → bytes (Rx.payload p) →
  data_text p = Ret (text (take (Z.to_nat (Rx.size p)) (Rx.payload p))).
Proof.
  intros Hs Hl Hb. unfold data_text. set (d := take (Z.to_nat (Rx.size p)) (Rx.payload p)).
  assert (Ld : length d = Z.to_nat (Rx.size p)) by (subst d; rewrite length_take; lia).
  assert (Ht : (length (text d) <= 340)%nat).
  { rewrite text_length, Ld. pose proof (Nat.Div0.div_le_mono (Z.to_nat (Rx.size p) + 2) 257 3 ltac:(lia)) as M.
    change (257 / 3)%nat with 85%nat in M. lia. }
  rewrite <- (take_drop (Z.to_nat (Rx.size p)) (Rx.payload p)). fold d. replace (Rx.size p) with (Z.of_nat (length d)) at 2 by lia.
  rewrite bin_to_b64_ok.
  - cbn [mbind outcome_bind]. rewrite (proj2 (Z.leb_le _ _)) by lia. rewrite Nat2Z.id. cbn [default from_option].
    unfold Datatypes.id. by rewrite take_app_length.
  - subst d. by apply Forall_take.
  - lia.
  - rewrite length_replicate. lia.
Qed.
Lemma digits_plain l : all_digits l → Forall plain l.
Proof. intros H. eapply Forall_impl; [exact H|]. intros c Hc%isdigit_iff. unfold plain. lia. Qed.
Lemma print_0d_plain w z : Forall plain (print_0d w z).
Proof.
  unfold print_0d. cbv zeta. apply Forall_app. split; [|apply Forall_app; split].
  - destruct (z <? 0); repeat constructor; unfold plain; lia.
  - apply Forall_replicate. unfold plain. lia.
  - apply digits_plain, digits_digits. lia.
Qed.
Lemma digits_length_n n z : (length (digits n z) <= n)%nat.
Proof. revert z. induction n as [|n IH]; intros z; cbn; [lia|]. destruct (z <? 10); [cbn; lia|]. rewrite length_app. cbn. specialize (IH (z / 10)). lia. Qed.
Lemma print_0d_length w z : (w <= 21)%nat → (length (print_0d w z) <= 21)%nat.
Proof.
  intros Hw. unfold print_0d. cbv zeta. pose proof (digits_length_n 20 (Z.abs z)).
  rewrite !length_app, length_replicate. destruct (z <? 0); cbn [length]; lia.
Qed.
Lemma utc_text_ok t : Forall plain (utc_text t) ∧ (length (utc_text t) <= 154)%nat.
Proof.
  unfold utc_text. destruct (civil (ts_sec t / 86400)) as [[y mo] d]. cbv zeta. split.
  - repeat match goal with |- Forall plain (_ ++ _) => apply Forall_app; split end;
      (apply print_0d_plain || (constructor; [unfold plain; lia|constructor])).
  - rewrite !length_app. cbn [length].
    pose proof (print_0d_length 4 y ltac:(lia)). pose proof (print_0d_length 2 mo ltac:(lia)). pose proof (print_0d_length 2 d ltac:(lia)).
    pose proof (print_0d_length 2 (ts_sec t mod 86400 / 3600) ltac:(lia)).
    pose proof (print_0d_length 2 (ts_sec t mod 86400 / 60 mod 60) ltac:(lia)).
    pose proof (print_0d_length 2 (ts_sec t mod 86400 mod 60) ltac:(lia)).
    pose proof (print_0d_length 6 (Z.quot (ts_nsec t) 1000) ltac:(lia)). lia.
Qed.
Lemma gps_ms_ok t :
  0 <= ts_sec t < 2 ^ 41 → 0 <= ts_nsec t < 1000000000 → ∃ ms, gps_ms t = Ret ms ∧ 0 <= ms < 2 ^ 64.
Proof.
  intros Hs Hn. unfold gps_ms. set (a := dbl_of_Z (ts_sec t)). set (k := dbl_of_Z 1000).
  set (b := ddiv (dbl_of_Z (ts_nsec t)) (dbl_of_Z 1000000)).
  assert (Ha : (0 <= dR a <= 2200000000000)%R).
  { unfold a. rewrite of_Z_R by lia. split; apply IZR_le; lia. }
  assert (Hk : dR k = 1000%R) by (unfold k; rewrite of_Z_R by lia; reflexivity).
  assert (Hb : (0 <= dR b <= 1001)%R).
  { pose proof (ddiv_R (dbl_of_Z (ts_nsec t)) (dbl_of_Z 1000000)) as D. fold b in D. rewrite !of_Z_R in D by lia. specialize (D ltac:(lra)).
    assert (Hq : (0 <= IZR (ts_nsec t) / 1000000 <= 1000)%R).
    { assert (0 <= IZR (ts_nsec t) <= 1000000000)%R by (split; apply IZR_le; lia). lra. }
    pose proof ulp2_small. pose proof ulp2_pos. rewrite (Rabs_right (_ / _)) in D by lra. apply Rabs_between in D. nra. }
  pose proof (dmul_R a k) as M. set (m := dmul a k) in *. rewrite Hk in M.
  assert (Hm : (0 <= dR m <= 2300000000000000)%R).
  { pose proof ulp2_small. pose proof ulp2_pos. rewrite (Rabs_right (_ * _)) in M by nra. apply Rabs_between in M. nra. }
  pose proof (dadd_R m b) as A. set (y := dadd m b) in *. clearbody y m b a k.
  assert (Hy : (0 <= dR y <= 2400000000000000)%R).
  { pose proof ulp2_small. pose proof ulp2_pos. rewrite (Rabs_right (_ + _)) in A by lra. apply Rabs_between in A. nra. }
  destruct (dtrunc_R y ltac:(lra)) as [T1 T2]. exists (dtrunc y).
  assert (0 <= dtrunc y < 2 ^ 64).
  { split; [apply Z.lt_succ_r, lt_IZR; rewrite succ_IZR; lra|]. apply Z.le_lt_trans with 2400000000000000; [|lia].
    apply le_IZR. lra. }
  split; [|done]. unfold u64_of_double. by rewrite (proj2 (Z.leb_le _ _)), (proj2 (Z.ltb_lt _ _)) by lia.
Qed.

Section Parts.
Context (n : Z) (Hn : n <= MAX_NESTING).

Lemma print_u_length z k : 0 <= z < 10 ^ Z.of_nat (S k) → (length (print_u z) <= S k)%nat.
Proof. apply digits_length. Qed.
(** A member with an unsigned number of at most [k] digits. *)
Lemma described_u s z k :
  Forall plain (name s) → 0 <= z < 10 ^ Z.of_nat (S k) → z < 2 ^ 64 →
  described n (Z.of_nat (length (name s)) + Z.of_nat k + 5) (field s (print_u z)) [(name s, jnum z)].
Proof.
  intros Hs Hz H64. apply described_field; [done|by apply reads_print_u; [|lia]|]. pose proof (print_u_length z k Hz). lia.
Qed.
Lemma print_d_length z : - 2 ^ 31 <= z < 2 ^ 31 → (length (print_d z) <= 11)%nat.
Proof.
  intros Hz. unfold print_d. destruct (z <? 0) eqn:E; cbn [length]; [apply Z.ltb_lt in E|apply Z.ltb_ge in E].
  - pose proof (digits_length 10 9 (- z) ltac:(change (10 ^ Z.of_nat 10) with 10000000000; lia)). lia.
  - pose proof (digits_length 10 9 z ltac:(change (10 ^ Z.of_nat 10) with 10000000000; lia)). lia.
Qed.
Lemma print_round_length x : moderate x → (length (print_round x) <= 5)%nat.
Proof.
  intros Hx%moderate_nearest. unfold print_round. rewrite length_app.
  set (m := _ / _) in *. pose proof (digits_length 40 3 m ltac:(change (10 ^ Z.of_nat 4) with 10000; lia)).
  destruct (num x <? 0); cbn [length]; lia.
Qed.

(** A string known in advance. *)
Definition all_plain (l : list Z) : bool := forallb (λ c, (32 <=? c) && negb (c =? 34) && negb (c =? 92)) l.
Lemma all_plain_ok l : all_plain l = true → Forall plain l.
Proof.
  induction l as [|c l IH]; [constructor|]. unfold all_plain in *. cbn [forallb].
  intros [[[H1%Z.leb_le H2%negb_true_iff%Z.eqb_neq]%andb_true_iff H3%negb_true_iff%Z.eqb_neq]%andb_true_iff H]%andb_true_iff.
  constructor; [done|by apply IH].
Qed.
Lemma quoted_length s : length (quoted s) = (length s + 2)%nat.
Proof. unfold quoted. rewrite !length_app. cbn [length]. lia. Qed.
Lemma described_s s l k :
  all_plain (name s) = true → Forall plain l → Z.of_nat (length (name s)) + Z.of_nat (length l) + 6 <= k →
  described n k (field s (quoted l)) [(name s, JSONString l)].
Proof.
  intros Hs Hl Hk. apply described_field; [by apply all_plain_ok|by apply reads_string|]. rewrite quoted_length. lia.
Qed.
Lemma described_times ref c :
  ref_times_ok ref → ∃ t, time_text ref c = Ret t ∧ described n 192 t (time_members ref c).
Proof.
  intros Hr. unfold time_text, time_members. destruct ref as [r|]; [|exists []; split; [done|by eapply described_le, Z.leb_le; [apply described_nil|]]].
  unfold lgw_cnt2utc, lgw_cnt2gps. destruct (Hr r eq_refl) as [Hs Hns]. cbn [negb orb].
  destruct (ref_invalid r) eqn:Ei.
  { change (LGW_GPS_ERROR =? LGW_GPS_SUCCESS) with false. cbn [mbind outcome_bind app]. exists []. split; [done|].
    by eapply described_le, Z.leb_le; [apply described_nil|]. }
  change (LGW_GPS_SUCCESS =? LGW_GPS_SUCCESS) with true. cbv iota beta.
  unfold ref_invalid in Ei. apply orb_false_iff in Ei as [_ Ei].
  pose proof (cnt2time_spec r c (ref_gps r) Ei Hns) as HT. cbv zeta in HT. set (tg := cnt2time r c (ref_gps r)) in *.
  destruct HT as (T1 & T2 & _). clearbody tg. set (tu := cnt2time r c (ref_utc r)). clearbody tu.
  destruct (gps_ms_ok tg ltac:(lia) T1) as (ms & -> & Hms). cbn [mbind outcome_bind].
  eexists. split; [reflexivity|]. destruct (utc_text_ok tu) as [U1 U2].
  apply (described_app n 164 28).
  - apply described_s; [reflexivity|done|]. change (length (name "time")) with 4%nat. lia.
  - eapply described_le; [apply (described_u "tmms" ms 19)|]; [by apply all_plain_ok| |lia|by apply Z.leb_le].
    change (10 ^ Z.of_nat 20) with 100000000000000000000. lia.
Qed.
Lemma described_stat st : ∀ t, stat_text st = Ret t → described n 10 t [(name "stat", jnum (stat_value st))].
Proof.
  intros t. unfold stat_text, stat_value.
  assert (Hd : ∀ z, z = 1 ∨ z = -1 ∨ z = 0 → described n 10 (field "stat" (print_d z)) [(name "stat", jnum z)]).
  { intros z Hz. apply described_field; [by apply all_plain_ok|apply reads_print_d; [done|lia]|].
    destruct Hz as [->|[->| ->]]; by apply Z.leb_le. }
  destruct (st =? STAT_CRC_OK); [intros [= <-]; apply Hd; lia|]. destruct (st =? STAT_CRC_BAD); [intros [= <-]; apply Hd; lia|].
  destruct (st =? STAT_NO_CRC); [intros [= <-]; apply Hd; lia|done].
Qed.

Lemma print_fixed_length k x : moderate x → (length (print_fixed k x) <= 6 + k)%nat.
Proof.
  intros Hx%(moderate_parts k). unfold print_fixed. cbv zeta. set (m := rne _ _) in *. rewrite !length_app. cbn [length].
  assert (0 < 10 ^ Z.of_nat k) by (apply Z.pow_pos_nonneg; lia). set (P := 10 ^ Z.of_nat k) in *.
  assert (0 <= m / P <= 1000) by (split; [apply Z.div_pos; lia|apply Z.lt_succ_r, Z.div_lt_upper_bound; lia]).
  pose proof (digits_length 40 3 (m / P) ltac:(change (10 ^ Z.of_nat 4) with 10000; lia)).
  pose proof (Z.mod_pos_bound m P ltac:(lia)). destruct (padded_spec k (m mod P)) as (_ & -> & _); [lia|].
  destruct (num x <? 0); cbn [length]; lia.
Qed.
Lemma bw_text_ok bw : IS_LORA_BW bw = true → bw_text bw = Ret (bytes_of_string (bw_khz bw)).
Proof.
  unfold IS_LORA_BW, bw_text, bw_khz. destruct (bw =? BW_125KHZ); [done|]. destruct (bw =? BW_250KHZ); [done|].
  by destruct (bw =? BW_500KHZ).
Qed.
Lemma cr_text_ok cr : cr = 0 ∨ IS_LORA_CR cr = true → cr_text cr = Ret (bytes_of_string (cr_name cr)).
Proof.
  unfold cr_text, cr_name. intros [->|H]; [done|]. unfold IS_LORA_CR in H.
  destruct (cr =? CR_LORA_4_5); [done|]. destruct (cr =? CR_LORA_4_6); [done|].
  destruct (cr =? CR_LORA_4_7); [done|]. by destruct (cr =? CR_LORA_4_8).
Qed.
Lemma khz_plain bw : all_plain (bytes_of_string (bw_khz bw)) = true ∧ length (bytes_of_string (bw_khz bw)) = 5%nat.
Proof. unfold bw_khz. destruct (_ =? _); [done|]. by destruct (_ =? _). Qed.
Lemma cr_plain cr : all_plain (bytes_of_string (cr_name cr)) = true ∧ length (bytes_of_string (cr_name cr)) = 3%nat.
Proof. unfold cr_name. repeat (destruct (_ =? _); [done|]). done. Qed.
Lemma described_modu p : rx_ok p → ∃ t, modu_text p = Ret t ∧ described n 104 t (modu_members p).
Proof.
  intros (_ & _ & _ & _ & _ & _ & _ & _ & _ & _ & [(Em & Hd & Hb & Hc & Hr & Hs & Hf)|(Em & Hd)]);
    unfold modu_text, modu_members; rewrite Em.
  - change (MOD_LORA =? MOD_LORA) with true. cbv iota. unfold sf_text. rewrite (proj2 (Z.leb_le 5 _)), (proj2 (Z.leb_le _ 12)) by lia.
    cbn [andb mbind outcome_bind]. rewrite bw_text_ok by done. cbn [mbind outcome_bind]. rewrite cr_text_ok by done.
    cbn [mbind outcome_bind]. eexists. split; [reflexivity|].
    destruct (khz_plain (Rx.bandwidth p)) as [B1 B2]. destruct (cr_plain (Rx.coderate p)) as [C1 C2].
    pose proof (print_d_length (Rx.datarate p) ltac:(lia)) as Ld. pose proof (print_d_length (Rx.freq_offset p) Hf) as Lf.
    change 104 with (14 + (28 + (13 + (14 + (16 + 19))))).
    refine (described_app n 14 _ _ _ [_] _ _ (described_app n 28 _ _ _ [_] _ _ (described_app n 13 _ _ _ [_] _ _
      (described_app n 14 _ _ _ [_] _ _ (described_app n 16 19 _ _ [_] [_] _ _))))).
    + apply described_s; [done|by apply all_plain_ok|by apply Z.leb_le].
    + rewrite <- (app_assoc (bytes_of_string "SF")). apply described_s; [done| |].
      * apply Forall_app. split; [by apply all_plain_ok|]. apply Forall_app. split; [|by apply all_plain_ok].
        unfold print_d. rewrite (proj2 (Z.ltb_ge _ _)) by lia. apply digits_plain, digits_digits. lia.
      * rewrite !length_app, B2. change (length (bytes_of_string "SF")) with 2%nat. change (length (name "datr")) with 4%nat. lia.
    + apply described_s; [done|by apply all_plain_ok|]. rewrite C2. by apply Z.leb_le.
    + apply described_field; [by apply all_plain_ok|by apply reads_print_round|]. pose proof (print_round_length _ Hr).
      change (length (name "rssis")) with 5%nat. lia.
    + apply described_field; [by apply all_plain_ok|apply (reads_print_fixed n Hn 1); [lia|done]|]. pose proof (print_fixed_length 1 _ Hs : (length (print_1f _) <= _)%nat).
      change (length (name "lsnr")) with 4%nat. lia.
    + apply described_field; [by apply all_plain_ok|by apply reads_print_d|]. change (length (name "foff")) with 4%nat. lia.
  - change (MOD_FSK =? MOD_LORA) with false. change (MOD_FSK =? MOD_FSK) with true. cbv iota. eexists. split; [reflexivity|].
    eapply described_le; [refine (described_app n 13 18 _ _ [_] [_] _ _)|by apply Z.leb_le].
    + apply described_s; [done|by apply all_plain_ok|by apply Z.leb_le].
    + apply (described_u "datr" (Rx.datarate p) 9); [by apply all_plain_ok| |lia]. change (10 ^ Z.of_nat 10) with 10000000000. lia.
Qed.
End Parts.

Lemma print_f_length f : 0 <= f < 2 ^ 32 → (length (print_f (ddiv (dbl_of_Z f) (dbl_of_Z 1000000))) <= 18)%nat.
Proof.
  intros Hf. rewrite freq_mhz by done. unfold print_f. cbv zeta. set (z := rne _ _). rewrite !length_app.
  pose proof (digits_length_n 10 (z / 1000000)) as D.
  assert (Lp : ∀ n z, length (padded n z) = n).
  { intros n. induction n as [|n IH]; intros y; [done|]. cbn [padded]. rewrite length_app, IH. cbn [length]. lia. }
  rewrite Lp. destruct (num _ <? 0); cbn [length]; lia.
Qed.
Lemma print_2u_length z : 0 <= z < 1000 → (length (print_2u z) <= 3)%nat.
Proof.
  intros Hz. unfold print_2u. cbv zeta. pose proof (print_u_length z 2 ltac:(change (10 ^ Z.of_nat 3) with 1000; lia)).
  rewrite length_app, length_replicate. lia.
Qed.
Lemma described_ftime n p :
  n <= MAX_NESTING → rx_ok p →
  described n 19 (if Rx.ftime_received p then field "ftime" (print_u (Rx.ftime p)) else [])
    (if Rx.ftime_received p then [(name "ftime", jnum (Rx.ftime p))] else []).
Proof.
  intros Hn (_ & _ & _ & _ & _ & Hf & _). destruct (Rx.ftime_received p); [|by eapply described_le, Z.leb_le; [apply described_nil|]].
  eapply described_le; [apply (described_u n Hn "ftime" (Rx.ftime p) 9)|by apply Z.leb_le]; [by apply all_plain_ok| |lia].
  change (10 ^ Z.of_nat 10) with 10000000000. lia.
Qed.
Lemma names_distinct ref p : NoDup (map fst (rxpk_members ref p)).
Proof.
  unfold rxpk_members. rewrite !map_app.
  assert (Ht : map fst (time_members ref (Rx.count_us p)) ∈ [[]; [name "time"]; [name "tmms"]; [name "time"; name "tmms"]]).
  { unfold time_members. destruct ref as [r|]; [|by left]. rewrite map_app.
    assert (map fst match lgw_cnt2utc r (Rx.count_us p) true with
      | (j, Some t) => if j =? LGW_GPS_SUCCESS then [(name "time", JSONString (utc_text t))] else [] | _ => [] end
      ∈ [[]; [name "time"]]) as H1.
    { destruct (lgw_cnt2utc _ _ _) as [j [t|]]; [destruct (j =? _); [right; left|left]|left]. }
    assert (map fst match lgw_cnt2gps r (Rx.count_us p) true with
      | (j, Some t) => if j =? LGW_GPS_SUCCESS then match gps_ms t with Ret ms => [(name "tmms", jnum ms)] | _ => [] end else []
      | _ => [] end ∈ [[]; [name "tmms"]]) as H2.
    { destruct (lgw_cnt2gps _ _ _) as [j [t|]]; [destruct (j =? _); [destruct (gps_ms t); [right; left|left..]|left]|left]. }
    revert H1 H2. generalize (map fst match lgw_cnt2utc r (Rx.count_us p) true with
      | (j, Some t) => if j =? LGW_GPS_SUCCESS then [(name "time", JSONString (utc_text t))] else [] | _ => [] end).
    generalize (map fst match lgw_cnt2gps r (Rx.count_us p) true with
      | (j, Some t) => if j =? LGW_GPS_SUCCESS then match gps_ms t with Ret ms => [(name "tmms", jnum ms)] | _ => [] end else []
      | _ => [] end).
    intros a b. rewrite !elem_of_cons, !elem_of_nil. intros [->|[->|[]]] [->|[->|[]]]; cbn [app]; tauto. }
  assert (Hm : map fst (modu_members p) ∈ [[name "modu"; name "datr"; name "codr"; name "rssis"; name "lsnr"; name "foff"];
    [name "modu"; name "datr"]]).
  { unfold modu_members. destruct (_ =? _); [left|right; left]. }
  revert Ht Hm. generalize (map fst (time_members ref (Rx.count_us p))) (map fst (modu_members p)). intros t m Ht Hm.
  apply elem_of_cons in Ht as [->|[->|[->|[->|[]%elem_of_nil]%elem_of_cons]%elem_of_cons]%elem_of_cons];
    apply elem_of_cons in Hm as [->|[->|[]%elem_of_nil]%elem_of_cons];
    destruct (Rx.ftime_received p); apply (bool_decide_unpack _); vm_compute; exact I.
Qed.

Definition data_of (p : lgw_pkt_rx_s) : list Z := text (take (Z.to_nat (Rx.size p)) (Rx.payload p)).
Definition known_status (st : Z) : Prop := st = STAT_CRC_OK ∨ st = STAT_CRC_BAD ∨ st = STAT_NO_CRC.

(** The object of a packet is read back, and its text has at most 445 characters
    besides the payload. *)
Lemma rxpk_text_ok n ref p :
  n + 1 <= MAX_NESTING → rx_ok p → ref_times_ok ref → known_status (Rx.status p) →
  ∃ t, rxpk_text ref p = Ret t ∧ element_ok n (t, JSONObject (rxpk_members ref p)) ∧
    Z.of_nat (length t) <= 445 + Z.of_nat (length (data_of p)).
Proof.
  intros Hn Hp Hr Hst. pose proof Hp as (Hc & Hf & Hi & Hrf & Hmi & _ & Hs & Hl & Hb & Hrs & _).
  destruct (described_times (n + 1) Hn ref (Rx.count_us p) Hr) as (tt & Et & Dt).
  destruct (described_modu (n + 1) Hn p Hp) as (tm & Em & Dm).
  assert (Es : ∃ ts, stat_text (Rx.status p) = Ret ts) by (destruct Hst as [->|[->| ->]]; by eexists). destruct Es as (ts & Es).
  pose proof (described_stat (n + 1) Hn _ _ Es) as Ds. pose proof (described_ftime (n + 1) p Hn Hp) as Df.
  unfold rxpk_text. rewrite Et. cbn [mbind outcome_bind]. rewrite Es. cbn [mbind outcome_bind]. rewrite Em. cbn [mbind outcome_bind].
  rewrite (data_text_ok p Hs Hl Hb). cbn [mbind outcome_bind]. fold (data_of p).
  pose proof (described_u (n + 1) Hn "tmst" (Rx.count_us p) 9 (all_plain_ok (name "tmst") eq_refl) ltac:(change (10 ^ Z.of_nat 10) with 10000000000; lia) ltac:(lia)) as D1.
  unfold LGW_IF_CHAIN_NB in Hi.
  pose proof (described_u (n + 1) Hn "chan" (Rx.if_chain p) 2 (all_plain_ok (name "chan") eq_refl) ltac:(change (10 ^ Z.of_nat 3) with 1000; lia) ltac:(lia)) as D2.
  pose proof (described_u (n + 1) Hn "rfch" (Rx.rf_chain p) 2 (all_plain_ok (name "rfch") eq_refl) ltac:(change (10 ^ Z.of_nat 3) with 1000; lia) ltac:(lia)) as D3.
  pose proof (described_u (n + 1) Hn "size" (Rx.size p) 2 (all_plain_ok (name "size") eq_refl) ltac:(change (10 ^ Z.of_nat 3) with 1000; lia) ltac:(lia)) as D4.
  assert (D5 : described (n + 1) 26 (field "freq" (print_f (ddiv (dbl_of_Z (Rx.freq_hz p)) (dbl_of_Z 1000000))))
    [(name "freq", JSONNumber (Finite (rnd (Rx.freq_hz p) 1000000)))]).
  { apply described_field; [by apply all_plain_ok|by apply reads_freq|]. pose proof (print_f_length _ Hf). change (length (name "freq")) with 4%nat. lia. }
  assert (D6 : described (n + 1) 10 (field "mid" (print_2u (Rx.modem_id p))) [(name "mid", jnum (Rx.modem_id p))]).
  { apply described_field; [by apply all_plain_ok|apply reads_print_2u; [done|lia]|]. pose proof (print_2u_length (Rx.modem_id p) ltac:(lia)).
    change (length (name "mid")) with 3%nat. lia. }
  assert (D7 : described (n + 1) 13 (field "rssi" (print_round (Rx.rssic p))) [(name "rssi", jnum (nearest (Rx.rssic p)))]).
  { apply described_field; [by apply all_plain_ok|by apply reads_print_round|]. pose proof (print_round_length _ Hrs).
    change (length (name "rssi")) with 4%nat. lia. }
  assert (D8 : described (n + 1) (10 + Z.of_nat (length (data_of p))) (field "data" (quoted (data_of p))) [(name "data", JSONString (data_of p))]).
  { apply described_s; [done|done|apply text_plain|]. change (length (name "data")) with 4%nat. lia. }
  change (length (name "tmst")) with 4%nat in D1. change (length (name "chan")) with 4%nat in D2.
  change (length (name "rfch")) with 4%nat in D3. change (length (name "size")) with 4%nat in D4.
  pose proof (described_app _ _ _ _ _ _ _ D1 (described_app _ _ _ _ _ _ _ Dt (described_app _ _ _ _ _ _ _ Df
    (described_app _ _ _ _ _ _ _ D2 (described_app _ _ _ _ _ _ _ D3 (described_app _ _ _ _ _ _ _ D5 (described_app _ _ _ _ _ _ _ D6
    (described_app _ _ _ _ _ _ _ Ds (described_app _ _ _ _ _ _ _ Dm (described_app _ _ _ _ _ _ _ D7 (described_app _ _ _ _ _ _ _ D4 D8)))))))))))
    as (items & Ei & El & Hok & HL).
  set (jv := (name "jver", print_d 1, jnum 1) : item).
  assert (Ej : item_ok (n + 1) jv) by (split; [by apply all_plain_ok|by apply reads_print_d]).
  eexists. split; [reflexivity|].
  match goal with |- element_ok _ (?t, _) ∧ _ => assert (ET : t = object_text (jv :: items)) end.
  { unfold object_text. rewrite <- Ei. change (item_text jv) with (member "jver" (print_d PROTOCOL_JSON_RXPK_FRAME_FORMAT)).
    rewrite <- !app_assoc. reflexivity. }
  rewrite ET. assert (EM : rxpk_members ref p = map item_member (jv :: items)).
  { cbn [map]. rewrite El. reflexivity. }
  pose proof (names_distinct ref p) as HD. rewrite EM in HD |- *. rewrite map_map in HD. split.
  - apply object_element; [lia|done|by constructor|done|].
    assert (Hlen : length (map item_member (jv :: items)) = length (rxpk_members ref p)) by (by rewrite EM).
    rewrite length_map in Hlen. rewrite Hlen. clear.
    unfold rxpk_members. rewrite !length_app. assert (length (time_members ref (Rx.count_us p)) <= 2)%nat.
    { unfold time_members. destruct ref as [r|]; [|cbn; lia]. rewrite length_app.
      destruct (lgw_cnt2utc _ _ _) as [j [t|]]; [destruct (j =? _)|]; destruct (lgw_cnt2gps _ _ _) as [j' [t'|]];
        try destruct (j' =? _); try destruct (gps_ms _); cbn; lia. }
    assert (length (modu_members p) <= 6)%nat by (unfold modu_members; destruct (_ =? _); cbn; lia).
    unfold OBJECT_MAX_CAPACITY. destruct (Rx.ftime_received p); cbn [length]; lia.
  - unfold object_text. rewrite <- Ei. rewrite Ei. repeat (rewrite length_app || cbn [length]). rewrite Ei in HL.
    change (length (item_text jv)) with 8%nat. lia.
Qed.

(** ** The log *)

Definition log_ok (uc : up_conf) (l : up_log) : Prop :=
  length (nb_pkt_log l) = 10%nat ∧ Forall (λ row, length row = 8%nat) (nb_pkt_log l) ∧
  length (nb_pkt_received_ref l) = 16%nat ∧ (length (ref_payload uc) <= 16)%nat.

Lemma incr_ok l i : 0 <= i < Z.of_nat (length l) → ∃ l', incr l i = Ret l' ∧ length l' = length l.
Proof.
  intros Hi. unfold incr, buf_get, buf_set. rewrite (proj2 (Z.ltb_ge i 0)) by lia.
  destruct (lookup_lt_is_Some_2 l (Z.to_nat i)) as [v ->]; [lia|]. cbn [mbind outcome_bind].
  rewrite (proj2 (Z.leb_le 0 i)), (proj2 (Z.ltb_lt i _)) by lia. cbn [andb]. eexists. split; [done|]. apply length_insert.
Qed.
Lemma incr2_ok l i j :
  0 <= i < Z.of_nat (length l) → Forall (λ row, length row = 8%nat) l → 0 <= j < 8 →
  ∃ l', incr2 l i j = Ret l' ∧ length l' = length l ∧ Forall (λ row, length row = 8%nat) l'.
Proof.
  intros Hi Hl Hj. unfold incr2, buf_get, buf_set. rewrite (proj2 (Z.ltb_ge i 0)) by lia.
  destruct (lookup_lt_is_Some_2 l (Z.to_nat i)) as [row Er]; [lia|]. rewrite Er. cbn [mbind outcome_bind].
  pose proof (Forall_lookup_1 _ _ _ _ Hl Er) as Hr. cbn beta in Hr.
  destruct (incr_ok row j ltac:(lia)) as (row' & -> & Hr'). cbn [mbind outcome_bind].
  rewrite (proj2 (Z.leb_le 0 i)), (proj2 (Z.ltb_lt i _)) by lia. cbn [andb]. eexists. split; [done|].
  split; [apply length_insert|]. apply Forall_insert; [done|cbn beta; lia].
Qed.
Lemma count_refs_ok ids payload k counts :
  (4 <= length payload)%nat → 0 <= k → k + Z.of_nat (length ids) <= Z.of_nat (length counts) →
  ∃ c, count_refs ids payload k counts = Ret c ∧ length c = length counts.
Proof.
  intros Hp. destruct payload as [|b0 [|b1 [|b2 [|b3 q]]]]; cbn [length] in Hp; try lia.
  revert k counts. induction ids as [|id ids IH]; intros k counts Hk HL; [by eexists|].
  cbn [length] in HL. cbn [count_refs]. set (pl := b0 :: b1 :: b2 :: b3 :: q) in *.
  change (buf_get pl 0) with (Ret b0). change (buf_get pl 1) with (Ret b1).
  change (buf_get pl 2) with (Ret b2). change (buf_get pl 3) with (Ret b3). clearbody pl. cbn [mbind outcome_bind].
  match goal with |- context [if ?b then incr _ _ else _] => destruct b end.
  - destruct (incr_ok counts k ltac:(lia)) as (c & -> & Hc). cbn [mbind outcome_bind].
    destruct (IH (k + 1) c ltac:(lia) ltac:(lia)) as (c' & -> & Hc'). exists c'. split; [done|congruence].
  - cbn [mbind outcome_bind]. apply IH; lia.
Qed.
Lemma log_packet_ok uc p lg : rx_ok p → log_ok uc lg → ∃ lg', log_packet uc p lg = Ret lg' ∧ log_ok uc lg'.
Proof.
  intros (_ & _ & Hi & _ & _ & _ & _ & Hl & _ & _ & Hm) (H1 & H2 & H3 & H4). unfold LGW_IF_CHAIN_NB in Hi. unfold log_packet.
  destruct Hm as [(-> & Hd & _)|(-> & _)].
  - change (MOD_LORA =? MOD_LORA) with true. cbv iota. assert (u32 (Rx.datarate p - 5) = Rx.datarate p - 5) as -> by (apply Z.mod_small; lia).
    destruct (incr2_ok (nb_pkt_log lg) (Rx.if_chain p) (Rx.datarate p - 5) ltac:(lia) H2 ltac:(lia)) as (m & -> & M1 & M2).
    cbn [mbind outcome_bind].
    destruct (count_refs_ok (ref_payload uc) (Rx.payload p) 0 (nb_pkt_received_ref lg) ltac:(lia) ltac:(lia) ltac:(lia)) as (c & -> & C1).
    cbn [mbind outcome_bind]. eexists. split; [done|]. split_and!; cbn; (done || congruence).
  - change (MOD_FSK =? MOD_LORA) with false. change (MOD_FSK =? MOD_FSK) with true. cbv iota.
    destruct (incr2_ok (nb_pkt_log lg) (Rx.if_chain p) 0 ltac:(lia) H2 ltac:(lia)) as (m & -> & M1 & M2).
    cbn [mbind outcome_bind]. eexists. split; [done|]. split_and!; cbn; (done || congruence).
Qed.

(** ** The packets of a datagram *)

Section Round.
Context {H : Type} (conf : fwd_conf) (uc : up_conf) (receive : Z → eff H (Z * list lgw_pkt_rx_s)).
Implicit Types s : up_state H.

Definition passes (p : lgw_pkt_rx_s) : bool := match status_class uc (Rx.status p) with Some (_, b) => b | None => false end.
Lemma passes_known p : passes p = true → known_status (Rx.status p).
Proof.
  unfold passes, status_class, known_status. destruct (Z.eqb_spec (Rx.status p) STAT_CRC_OK); [by left|].
  destruct (Z.eqb_spec (Rx.status p) STAT_CRC_BAD); [by right; left|]. destruct (Z.eqb_spec (Rx.status p) STAT_NO_CRC); [by right; right|done].
Qed.
(** The report and the datagrams are the same. *)
Definition keeps s s' : Prop :=
  report_ready s' = report_ready s ∧ status_report s' = status_report s ∧ sent_up s' = sent_up s.
Lemma keeps_trans s1 s2 s3 : keeps s1 s2 → keeps s2 s3 → keeps s1 s3.
Proof. intros (? & ? & ?) (? & ? & ?). split_and!; congruence. Qed.
Lemma on_fwd_done {A} (p : fprog H A) s f (a : A) :
  p (fwd s) = Done f a → on_fwd p s = Done (Up f (log s) (report_ready s) (status_report s) (sent_up s)) a.
Proof. intros E. unfold on_fwd, zoom. by rewrite E. Qed.
Lemma filter_packet_done p s : ∃ s', filter_packet uc p s = Done s' (passes p) ∧ keeps s s' ∧ log s' = log s.
Proof.
  unfold filter_packet, passes. destruct (status_class uc (Rx.status p)) as [[k [|]]|]; eexists; (split; [reflexivity|]); split; by repeat split.
Qed.

(** The room a packet takes at most. *)
Fixpoint room (l : list lgw_pkt_rx_s) : Z :=
  match l with [] => 0 | p :: l => 446 + Z.of_nat (length (data_of p)) + room l end.
Lemma room_nonneg l : 0 <= room l.
Proof. induction l; cbn [room]; lia. Qed.
Definition joined (k : Z) (els : list element) : list Z :=
  if k =? 0 then match els with [] => [] | m :: els => fst m ++ more_elements els end else more_elements els.
Lemma joined_cons k m els :
  0 <= k → joined k (m :: els) = ((if k =? 0 then [] else [44]) ++ fst m) ++ joined (k + 1) els.
Proof.
  intros Hk. unfold joined. rewrite (proj2 (Z.eqb_neq (k + 1) 0)) by lia. destruct (k =? 0); [done|].
  unfold more_elements. done.
Qed.
Lemma up_packets_done n ref l buff k s :
  n + 1 <= MAX_NESTING → ref_times_ok ref → Forall rx_ok l → log_ok uc (log s) → 0 <= k →
  Z.of_nat (length buff) + room l <= TX_BUFF_SIZE →
  ∃ s' els, up_packets uc ref l buff k s = Done s' (buff ++ joined k els, k + Z.of_nat (length els)) ∧
    map snd els = map (λ p, JSONObject (rxpk_members ref p)) (List.filter passes l) ∧ Forall (element_ok n) els ∧
    Z.of_nat (length (joined k els)) <= room l ∧ keeps s s' ∧ log_ok uc (log s').
Proof.
  intros Hn Hr Hl. revert buff k s. induction Hl as [|p l Hp Hl IH]; intros buff k s Hlog Hk HB.
  { exists s, []. unfold joined, more_elements. cbn. split_and!; try done; [|by destruct (k =? 0)].
    unfold mret, eff_ret. by destruct (k =? 0); rewrite app_nil_r, Z.add_0_r. }
  cbn [up_packets]. cbn [room] in HB |- *.
  destruct (filter_packet_done p s) as (s1 & E1 & K1 & L1). unfold mbind at 1, eff_bind at 1. rewrite E1.
  cbn [List.filter]. destruct (passes p) eqn:Ep.
  2: { destruct (IH buff k s1) as (s' & els & E & M & Ho & HL & K & Hlog'); [by rewrite L1|done|lia|].
       exists s', els. split_and!; try done; [lia|by eapply keeps_trans]. }
  destruct (rxpk_text_ok n ref p Hn Hp Hr (passes_known p Ep)) as (t & Et & Ot & Lt).
  unfold mbind at 1, eff_bind at 1. rewrite (on_fwd_done _ s1 (fwd s1) t) by (unfold of_outcome; by rewrite Et). cbv zeta.
  set (sep := if k =? 0 then [] else [44]). assert (Lsep : (length sep <= 1)%nat) by (subst sep; destruct (k =? 0); cbn; lia).
  pose proof (room_nonneg l) as Rl.
  unfold mbind at 1, eff_bind at 1. rewrite !length_app. rewrite (proj2 (Z.ltb_ge _ _)) by lia. cbn [mret eff_ret].
  unfold mbind at 1, eff_bind at 1. cbn [get_up log].
  destruct (log_packet_ok uc p (log s1) Hp ltac:(by rewrite L1)) as (lg & El & Hlg).
  unfold mbind at 1, eff_bind at 1. rewrite (on_fwd_done _ _ (fwd s1) lg) by (unfold of_outcome; cbn [fwd]; by rewrite El).
  unfold mbind at 1, eff_bind at 1. cbn [set_log fwd log report_ready status_report sent_up].
  destruct (IH (buff ++ sep ++ t) (k + 1) (Up (fwd s1) lg (report_ready s1) (status_report s1) (sent_up s1)))
    as (s' & els & E & M & Ho & HL & K & Hlog'); [done|lia|rewrite !length_app; lia|].
  exists s', ((t, JSONObject (rxpk_members ref p)) :: els). rewrite joined_cons by done. fold sep. cbn [fst]. split_and!.
  - etransitivity; [exact E|]. f_equal. f_equal; [by rewrite <- !app_assoc|cbn [length]; lia].
  - cbn [map snd]. by rewrite M.
  - by constructor.
  - rewrite !length_app. lia.
  - eapply keeps_trans; [exact K1|]. exact K.
  - done.
Qed.

(** ** The round *)

Lemma wait_ack_done n token_h token_l acks s :
  ∃ s', wait_ack n token_h token_l acks s = Done s' () ∧ keeps s s' ∧ log s' = log s.
Proof.
  revert acks s. induction n as [|n IH]; intros acks s; [by exists s|].
  destruct acks as [|[d| |] acks]; cbn [wait_ack]; [by exists s| |apply IH|by exists s].
  destruct d as [|v [|h [|w [|id d]]]]; try apply IH. destruct (_ || _); [apply IH|]. eexists. split; [done|]. by split.
Qed.
(** The sizes of the payloads. The packets of a fetch come out of a buffer of
    4096 bytes. *)
Fixpoint total_size (l : list lgw_pkt_rx_s) : Z := match l with [] => 0 | p :: l => Rx.size p + total_size l end.
Lemma room_bound l : Forall rx_ok l → 3 * room l <= 1346 * Z.of_nat (length l) + 4 * total_size l.
Proof.
  induction 1 as [|p l (_ & _ & _ & _ & _ & _ & Hs & Hl & _) Hl' IH]; cbn [room total_size length]; [lia|].
  assert (3 * Z.of_nat (length (data_of p)) <= 4 * Rx.size p + 8); [|lia].
  unfold data_of. rewrite text_length, length_take, Nat.min_l by lia.
  pose proof (Nat.Div0.mul_div_le (Z.to_nat (Rx.size p) + 2) 3). lia.
Qed.
Lemma object_parsed l :
  l ≠ [] → Forall (item_ok 1) l → NoDup (map (λ m, fst (item_member m)) l) → Z.of_nat (length l) <= OBJECT_MAX_CAPACITY →
  json_parse_string (Some (object_text l)) = Value (JSONObject (map item_member l)).
Proof.
  intros Hl Ho HD HL. unfold json_parse_string, parse_root. pose proof (reads_object 0 l ltac:(done) Hl Ho HD HL [] (S (2 * length (object_text l)))) as E.
  rewrite app_nil_r in E. specialize (E ltac:(lia)).
  assert (skip_whitespaces (object_text l) = object_text l) as -> by done.
  cbv zeta. rewrite E. done.
Qed.

(** The members of the object sent for the packets [l] and a report. *)
Definition up_members (ref : option tref) (l : list lgw_pkt_rx_s) (report : option item) : JSON_Object :=
  match map (λ p, JSONObject (rxpk_members ref p)) (List.filter passes l) with
  | [] => []
  | els => [(name "rxpk", JSONArray els)]
  end ++ match report with Some m => [item_member m] | None => [] end.
(** The report waits for the thread: a member with another name. *)
Definition reported s (report : option item) : Prop :=
  match report with
  | None => report_ready s = false
  | Some m => report_ready s = true ∧ status_report s = item_text m ∧ item_ok 1 m ∧ fst (item_member m) ≠ name "rxpk" ∧
      Z.of_nat (length (item_text m)) <= STATUS_SIZE
  end.
Definition round_ref s : option tref :=
  if gps_enabled conf && gps_ref_valid (fwd s) then Some (time_ref (fwd s)) else None.
Definition fetched (l : list lgw_pkt_rx_s) : Prop :=
  Forall rx_ok l ∧ Z.of_nat (length l) <= NB_PKT_MAX ∧ total_size l <= 4096.

(** The text of the datagram, from the texts of the packets and the report. *)
Definition round_items (els : list element) (report : option item) : list item :=
  match els with [] => [] | _ => [(name "rxpk", array_text els, JSONArray (map snd els))] end ++
  match report with Some m => [m] | None => [] end.
Lemma round_parsed els report s :
  Forall (element_ok 2) els → Z.of_nat (length els) <= ARRAY_MAX_CAPACITY → reported s report → round_items els report ≠ [] →
  json_parse_string (Some (object_text (round_items els report))) = Value (JSONObject (map item_member (round_items els report))).
Proof.
  intros Ho HL Hrep Hne.
  assert (Hi : els ≠ [] → item_ok 1 (name "rxpk", array_text els, JSONArray (map snd els))).
  { intros He. split; [by apply all_plain_ok|]. by apply reads_array. }
  assert (Hr : ∀ m, report = Some m → item_ok 1 m ∧ fst (item_member m) ≠ name "rxpk").
  { intros m ->. destruct Hrep as (_ & _ & Hm & Hn & _). done. }
  apply object_parsed; [done|..]; unfold round_items, OBJECT_MAX_CAPACITY in *.
  - apply Forall_app. split; [destruct els as [|e els]; [constructor|]|destruct report as [m|]; [|constructor]].
    + constructor; [by apply Hi|constructor].
    + constructor; [by apply Hr|constructor].
  - destruct els as [|e els], report as [m|]; cbn [app map]; try (apply NoDup_nil_2 || apply NoDup_singleton).
    apply NoDup_cons. split; [|apply NoDup_singleton]. intros Hin%list_elem_of_singleton. by apply (proj2 (Hr m eq_refl)).
  - rewrite length_app. destruct els, report; cbn; lia.
Qed.
Lemma round_members els report ref l :
  map snd els = map (λ p, JSONObject (rxpk_members ref p)) (List.filter passes l) →
  map item_member (round_items els report) = up_members ref l report.
Proof.
  intros E. unfold round_items, up_members. rewrite <- E, map_app. by destruct els, report.
Qed.

Definition opening : list Z := [123] ++ quoted (bytes_of_string "rxpk") ++ bytes_of_string ":[".
Definition pending_text (report : option item) : list Z := match report with Some m => item_text m | None => [] end.
Lemma round_text (head : list Z) els report :
  round_items els report ≠ [] →
  (if Z.of_nat (length els) =? 0 then take (length ((head ++ opening) ++ joined 0 els) - 8) ((head ++ opening) ++ joined 0 els)
   else ((head ++ opening) ++ joined 0 els) ++ [93] ++ (if bool_decide (is_Some report) then [44] else [])) ++
  pending_text report ++ [125] = head ++ object_text (round_items els report).
Proof.
  intros Hne. destruct els as [|e els].
  - cbn [length Z.of_nat Z.eqb joined]. unfold joined. cbn [Z.eqb]. rewrite app_nil_r.
    assert (head ++ opening = (head ++ [123]) ++ drop 1 opening) as -> by (by rewrite <- app_assoc).
    rewrite (length_app (head ++ [123])). change (length (drop 1 opening)) with 8%nat.
    rewrite Nat.add_sub, take_app_length, <- app_assoc. change (Z.of_nat 0 =? 0) with true. cbv iota. destruct report as [m|]; [|done].
    unfold object_text, pending_text, round_items, more_text. cbn. by rewrite app_nil_r, <- app_assoc.
  - assert ((Z.of_nat (length (e :: els)) =? 0) = false) as -> by (apply Z.eqb_neq; cbn [length]; lia).
    unfold joined. cbn [Z.eqb]. rewrite <- !app_assoc. f_equal. destruct report as [m|]; cbn [app round_items object_text pending_text].
    + rewrite bool_decide_eq_true_2 by (by eexists). unfold object_text, round_items, more_text. cbn [app map concat].
      rewrite app_nil_r. unfold item_text at 2. cbn [fst snd]. unfold array_text, opening, name. rewrite <- !app_assoc. done.
    + rewrite bool_decide_eq_false_2 by (by intros [? ?]). unfold object_text, round_items, more_text. cbn [app map concat].
      unfold item_text. cbn [fst snd]. unfold array_text, opening, name. rewrite <- !app_assoc. done.
Qed.

(** What is left of the round once the packets are described. *)
Definition add_report (send_report : bool) (buff : list Z) : eff (up_state H) (list Z) :=
  if send_report then
    _ ← (λ s, Done (take_report s) ());
    report ← get_up status_report;
    _ ← (match report with [] => on_fwd (of_outcome (Exit EXIT_FAILURE)) | _ => mret () end);
    mret (buff ++ report)
  else mret buff.
Definition round_end (token_h token_l : Z) (acks : list recvd) (send_report : bool) '((buff, pkt_in_dgram) : list Z * Z)
  : eff (up_state H) () :=
  if (pkt_in_dgram =? 0) && negb send_report then mret ()
  else
    let buff := if pkt_in_dgram =? 0 then take (length buff - 8) buff else buff ++ [93] ++ (if send_report then [44] else []) in
    buff ← add_report send_report buff;
    let buff := buff ++ [125] in
    _ ← (if TX_BUFF_SIZE <? Z.of_nat (length buff) + 1 then wrong else mret ());
    _ ← (λ s, Done (send_up buff s) ());
    _ ← on_fwd (bump meas_up_dgram_sent 1);
    _ ← on_fwd (bump meas_up_network_byte (Z.of_nat (length buff)));
    wait_ack 2 token_h token_l acks.
Lemma add_report_done report buff s :
  reported s report → ∃ s', add_report (bool_decide (is_Some report)) buff s = Done s' (buff ++ pending_text report) ∧
    report_ready s' = false ∧ log s' = log s ∧ sent_up s' = sent_up s.
Proof.
  intros Hrep. destruct report as [m|].
  - destruct Hrep as (_ & Es & _). rewrite bool_decide_eq_true_2 by (by eexists). exists (take_report s). split; [|done].
    unfold add_report, mbind, eff_bind, get_up. cbn [take_report status_report]. rewrite Es. done.
  - rewrite bool_decide_eq_false_2 by (by intros [? ?]). exists s. cbn. by rewrite app_nil_r.
Qed.
Lemma round_sends token_h token_l acks report els head s :
  reported s report → Z.of_nat (length head + length (joined 0 els)) + 300 <= TX_BUFF_SIZE →
  ∃ s', round_end token_h token_l acks (bool_decide (is_Some report))
          ((head ++ opening) ++ joined 0 els, Z.of_nat (length els)) s = Done s' () ∧
    report_ready s' = false ∧ log s' = log s ∧
    (round_items els report = [] ∧ sent_up s' = sent_up s ∨
     round_items els report ≠ [] ∧ sent_up s' = sent_up s ++ [head ++ object_text (round_items els report)] ∧
       Z.of_nat (length (head ++ object_text (round_items els report))) <= TX_BUFF_SIZE).
Proof.
  intros Hrep HB. pose proof (round_text head els report) as HT. unfold round_end.
  destruct (decide (round_items els report = [])) as [Hi|Hi].
  { destruct els; [|done]. destruct report; [done|]. rewrite bool_decide_eq_false_2 by (by intros [? ?]).
    exists s. cbn. by repeat split; try left. }
  specialize (HT Hi). set (rest := object_text _) in *.
  assert (((Z.of_nat (length els) =? 0) && negb (bool_decide (is_Some report))) = false) as ->.
  { by destruct els, report. }
  set (buff := if Z.of_nat (length els) =? 0 then _ else _) in HT |- *.
  assert (HL : Z.of_nat (length (head ++ rest)) < TX_BUFF_SIZE).
  { rewrite <- HT, !length_app. assert (Z.of_nat (length (pending_text report)) <= 200).
    { destruct report as [m|]; [apply Hrep|done]. }
    assert (length buff <= length head + 9 + length (joined 0 els) + 2)%nat; [|cbn [length]; lia].
    subst buff. destruct (_ =? 0); [rewrite length_take|]; rewrite !length_app; change (length opening) with 9%nat; cbn [length];
      [lia|destruct (bool_decide _); cbn [length]; lia]. }
  cbv zeta. destruct (add_report_done report buff s Hrep) as (s1 & E1 & R1 & L1 & S1).
  unfold mbind at 1, eff_bind at 1. rewrite E1. cbv beta iota zeta. rewrite <- app_assoc, HT.
  rewrite (proj2 (Z.ltb_ge _ _)) by lia.
  match goal with |- ∃ s', ?p s1 = _ ∧ _ => change (p s1) with (wait_ack 2 token_h token_l acks
    (Up (counted meas_up_network_byte (Z.of_nat (length (head ++ rest))) (counted meas_up_dgram_sent 1 (fwd s1)))
       (log s1) (report_ready s1) (status_report s1) (sent_up s1 ++ [head ++ rest]))) end.
  match goal with |- context [wait_ack _ _ _ _ ?s2] => destruct (wait_ack_done 2 token_h token_l acks s2) as (s' & -> & (K1 & _ & K3) & L') end.
  cbn [report_ready log sent_up] in *. exists s'. split; [done|]. split; [congruence|]. split; [congruence|]. right.
  split; [done|]. split; [congruence|lia].
Qed.

(** A round in two parts. *)
Definition local_ref (nb_pkt : Z) (ref : option tref) : option tref := if 0 <? nb_pkt then ref else None.
Lemma round_split token_h token_l acks l h s :
  receive NB_PKT_MAX (hal (fwd s)) = Done h (Z.of_nat (length l), l) →
  up_round conf uc receive token_h token_l acks s =
    if (Z.of_nat (length l) =? 0) && negb (report_ready s) then Done (Up (set_hal (fwd s) h) (log s) (report_ready s) (status_report s) (sent_up s)) ()
    else (up_packets uc (local_ref (Z.of_nat (length l)) (round_ref s)) l
            (([PROTOCOL_VERSION; token_h; token_l; PKT_PUSH_DATA] ++ net_mac conf) ++ opening) 0
          ≫= round_end token_h token_l acks (report_ready s))
         (Up (set_hal (fwd s) h) (log s) (report_ready s) (status_report s) (sent_up s)).
Proof.
  intros Er. unfold up_round. unfold mbind at 1, eff_bind at 1.
  rewrite (on_fwd_done _ s (set_hal (fwd s) h) (Z.of_nat (length l), l)) by (unfold on_hal, zoom; by rewrite Er).
  assert ((Z.of_nat (length l) =? LGW_HAL_ERROR) = false) as -> by (apply Z.eqb_neq; unfold LGW_HAL_ERROR; lia).
  cbn [mbind eff_bind mret eff_ret get_up report_ready]. unfold mbind, eff_bind. cbn [mret eff_ret get_up report_ready].
  destruct (_ && _); [done|]. rewrite Nat2Z.id, take_ge by lia. unfold local_ref, round_ref.
  assert (∀ a b c : bool, ∀ x : tref, (if a && b && c then Some x else None) = (if a then if b && c then Some x else None else None)) as Hif
    by (by intros [] [] []).
  unfold on_fwd at 1 2. unfold zoom, gets. cbn [fwd log report_ready status_report sent_up]. rewrite Hif. reflexivity.
Qed.

(** C8. A round of the uplink thread, for any packets the concentrator stores and
    any pending report, ends, with one datagram unless there is nothing to say:
    its text fits in the buffer, and it is read as an object with the packets
    that pass the filter, in order, each with its metadata, times and payload,
    and with the report; the report is then no longer pending, and the log stays
    within its arrays. *)
Theorem uplink_served token_h token_l acks l report h s :
  receive NB_PKT_MAX (hal (fwd s)) = Done h (Z.of_nat (length l), l) → fetched l → log_ok uc (log s) →
  length (net_mac conf) = 8%nat → ref_times_ok (round_ref s) → reported s report →
  let members := up_members (round_ref s) l report in
  let head := [PROTOCOL_VERSION; token_h; token_l; PKT_PUSH_DATA] ++ net_mac conf in
  ∃ s', up_round conf uc receive token_h token_l acks s = Done s' () ∧ report_ready s' = false ∧ log_ok uc (log s') ∧
    (members = [] ∧ sent_up s' = sent_up s ∨
     members ≠ [] ∧ ∃ text, sent_up s' = sent_up s ++ [head ++ text] ∧ Z.of_nat (length (head ++ text)) <= TX_BUFF_SIZE ∧
       json_parse_string (Some text) = Value (JSONObject members)).
Proof.
  intros Er (Hl & Hn & Ht) Hlog Hmac Href Hrep members head. rewrite (round_split token_h token_l acks l h s Er). fold head.
  assert (Hrr : report_ready s = bool_decide (is_Some report)).
  { destruct report as [m|]; [rewrite bool_decide_eq_true_2 by (by eexists); apply Hrep|].
    rewrite bool_decide_eq_false_2 by (by intros [? ?]). exact Hrep. }
  destruct ((Z.of_nat (length l) =? 0) && negb (report_ready s)) eqn:E0.
  { apply andb_true_iff in E0 as [El%Z.eqb_eq Err%negb_true_iff]. destruct l; [|done]. eexists. split; [done|]. split; [done|].
    split; [done|]. left. split; [|done]. subst members. destruct report; [by destruct Hrep as [Hc _]; rewrite Hc in Err|done]. }
  clear E0. set (s0 := Up (set_hal (fwd s) h) _ _ _ _). set (ref := local_ref _ _).
  assert (Hme : map (λ p, JSONObject (rxpk_members ref p)) (List.filter passes l) =
    map (λ p, JSONObject (rxpk_members (round_ref s) p)) (List.filter passes l)).
  { subst ref. destruct l; [done|]. done. }
  assert (Href' : ref_times_ok ref) by (subst ref; unfold local_ref; destruct (_ <? _); [done|by intros ? [=]]).
  pose proof (room_bound l Hl) as HR. assert (Hh : length head = 12%nat) by (subst head; rewrite length_app, Hmac; done).
  unfold NB_PKT_MAX in Hn.
  destruct (up_packets_done 2 ref l (head ++ opening) 0 s0) as (s1 & els & E1 & M & Ho & HL & (K1 & K2 & K3) & Hlog1);
    [done|done|done|done|done|rewrite length_app, Hh; change (length opening) with 9%nat; change TX_BUFF_SIZE with 137930; lia|].
  change (sent_up s0) with (sent_up s) in K3. rewrite Hme in M. unfold mbind, eff_bind. rewrite E1, Hrr, Z.add_0_l.
  assert (Hrep1 : reported s1 report) by (destruct report; cbn in *; [rewrite K1, K2|rewrite K1]; exact Hrep).
  destruct (round_sends token_h token_l acks report els head s1 Hrep1) as (s' & E2 & R2 & L2 & HS).
  { rewrite Nat2Z.inj_add, Hh. change TX_BUFF_SIZE with 137930. lia. }
  exists s'. split; [exact E2|]. split; [done|]. split; [by rewrite L2|]. subst members.
  rewrite <- (round_members els report _ l M).
  destruct HS as [[Hi Hs]|(Hi & Hs & HB)]; [left; split; [by rewrite Hi|congruence]|right].
  split; [by intros H0%map_eq_nil|]. exists (object_text (round_items els report)). split; [by rewrite Hs, K3|]. split; [done|].
  apply (round_parsed els report s1); [done| |done|done].
  assert (HlM : length (map snd els) = length els) by apply length_map. rewrite M, length_map in HlM.
  pose proof (List.filter_length_le passes l). unfold ARRAY_MAX_CAPACITY. lia.
Qed.
End Round.

(** ** A round with a LoRa packet, an FSK packet with a wrong checksum, and a report *)

Definition an_up_conf : up_conf := Up_conf true false false [16909060].
Definition a_gps_conf : fwd_conf :=
  Conf [true; false] [863000000; 0] [870000000; 0] [a_lut; Gain.initial] 0 [1; 2; 3; 4; 5; 6; 7; 8] true false.
Definition a_lora_packet : lgw_pkt_rx_s := Rx.Build_lgw_pkt_rx_s 868100000 (-120) 2 STAT_CRC_OK 5000000 1 2 MOD_LORA BW_125KHZ 7
  CR_LORA_4_5 (dbl_of_Z (-57)) (dbl_of_Z (-60)) (rnd 35 4) (dbl_of_Z 0) (dbl_of_Z 0) 4660 5 ([1; 2; 3; 4; 255] ++ replicate 251 0) true 77.
Definition a_bad_packet : lgw_pkt_rx_s := Rx.Build_lgw_pkt_rx_s 868800000 0 9 STAT_CRC_BAD 6000000 0 0 MOD_FSK 0 50000
  0 (dbl_of_Z (-80)) (dbl_of_Z 0) (dbl_of_Z 0) (dbl_of_Z 0) (dbl_of_Z 0) 0 1 (7 :: replicate 255 0) false 0.
Definition a_report : item :=
  let rxnb := (name "rxnb", print_u 2, jnum 2) in
  (name "stat", object_text [rxnb], JSONObject [item_member rxnb]).
Definition an_up_state : up_state Z :=
  Up (Fwd 0 [jit_queue_init; jit_queue_init] (λ _, 0) [] false 0 true
        (Tref 1600000000 1000000 (Timespec 1600000000 0) (Timespec 1284035218 0) (Dbl 1 0)) (Dbl 1 0) false None)
     (Log (replicate 10 (replicate 8 0)) 0 0 (replicate 16 0)) true (item_text a_report) [].
Definition a_receive (max : Z) : eff Z (Z * list lgw_pkt_rx_s) := λ s, Done (s + 1) (2, [a_lora_packet; a_bad_packet]).
Lemma bytes_ok l : forallb (λ b, (0 <=? b) && (b <? 256)) l = true → bytes l.
Proof.
  intros E. apply Forall_forall. intros x Hx%list_elem_of_In. rewrite forallb_forall in E. specialize (E x Hx). cbn beta in E. lia.
Qed.
Lemma a_fetch : fetched [a_lora_packet; a_bad_packet].
Proof.
  split; [|by split; apply Z.leb_le]. apply Forall_cons; (split; [|apply Forall_cons; split; [|constructor]]); unfold rx_ok; split_and!;
    try (cbn; lia); try reflexivity; try (by apply bytes_ok); try (apply Z.leb_le; vm_compute; reflexivity).
  left. split_and!; try (cbn; lia); try reflexivity; apply Z.leb_le; vm_compute; reflexivity.
Qed.
Lemma a_report_ok : item_ok 1 a_report.
Proof.
  split; [by apply all_plain_ok|]. apply (object_element 1); [done|done| |apply NoDup_singleton|done].
  constructor; [|constructor]. split; [by apply all_plain_ok|]. by apply reads_print_u.
Qed.
Lemma uplink_served_witness :
  ∃ s', up_round a_gps_conf an_up_conf a_receive 21 22 [Timeout; Got [2; 21; 22; 1]] an_up_state = Done s' () ∧
    ∃ text, sent_up s' = [[2; 21; 22; 0; 1; 2; 3; 4; 5; 6; 7; 8] ++ text] ∧
      json_parse_string (Some text) = Value (JSONObject
        [(name "rxpk", JSONArray [JSONObject (rxpk_members (Some (time_ref (fwd an_up_state))) a_lora_packet)]);
         (name "stat", JSONObject [(name "rxnb", jnum 2)])]).
Proof.
  destruct (uplink_served a_gps_conf an_up_conf a_receive 21 22 [Timeout; Got [2; 21; 22; 1]] [a_lora_packet; a_bad_packet]
    (Some a_report) 1 an_up_state) as (s' & E & _ & _ & [[Hm _]|(_ & t & Es & _ & Ej)]).
  - reflexivity.
  - apply a_fetch.
  - split; [done|]. split; [by repeat constructor|]. split; [done|cbn; lia].
  - reflexivity.
  - intros r Hr. unfold round_ref in Hr. cbn in Hr. injection Hr as <-. cbn. lia.
  - do 2 (split; [done|]). split; [apply a_report_ok|]. split; [done|by apply Z.leb_le].
  - discriminate Hm.
  - exists s'. split; [exact E|]. exists t. split; [exact Es|exact Ej].
Defined.
