(* ===== verification/Stats.v ===== *)
(** * The statistics of the forwarder ([packet_forwarder/src/lora_pkt_fwd.c], [main])

    The loop of the main thread: at the end of each interval the counters of the
    other threads are copied and reset, and a report for the server is written. *)
From Stdlib Require Import ZArith Lia String.
From stdpp Require Import base list numbers strings.
From S2P Require Import Prelude Binary64 HalTypes JitQueue RegProg TimeRef Json Forward Uplink.

Open Scope Z_scope.
Open Scope list_scope.

Record coord_s := Coord { lat : double; lon : double; alt : Z }.
(** The configuration of the coordinates, and what the GPS thread provides. *)
Record coord_conf := Coord_conf { gps_fake_enable : bool; reference_coord : coord_s }.
Record gps_meas := Gps_meas { gps_coord_valid : bool; meas_gps_coord : coord_s }.

Definition up_counters : list meas :=
  [meas_nb_rx_rcv; meas_nb_rx_ok; meas_nb_rx_bad; meas_nb_rx_nocrc; meas_up_pkt_fwd; meas_up_network_byte;
   meas_up_payload_byte; meas_up_dgram_sent; meas_up_ack_rcv].
Definition dw_counters : list meas :=
  [meas_dw_pull_sent; meas_dw_ack_rcv; meas_dw_dgram_rcv; meas_dw_network_byte; meas_dw_payload_byte; meas_nb_tx_ok;
   meas_nb_tx_fail; meas_nb_tx_requested; meas_nb_tx_rejected_collision_packet; meas_nb_tx_rejected_collision_beacon;
   meas_nb_tx_rejected_too_late; meas_nb_tx_rejected_too_early; meas_nb_beacon_queued; meas_nb_beacon_sent;
   meas_nb_beacon_rejected].

(** [strftime] with ["%F %T %Z"] of [gmtime]; the name of the time zone is that of
    the C library. *)
Definition stat_time (zone : list Z) (t : Z) : list Z :=
  let '(year, mon, mday) := civil (t / 86400) in
  let sec := t mod 86400 in
  print_0d 4 year ++ [45] ++ print_0d 2 mon ++ [45] ++ print_0d 2 mday ++ [32] ++
  print_0d 2 (sec / 3600) ++ [58] ++ print_0d 2 (sec / 60 mod 60) ++ [58] ++ print_0d 2 (sec mod 60) ++ [32] ++ zone.
(** The part of the PUSH_DATA datagrams that was acknowledged. *)
Definition up_ack_ratio (c : meas → Z) : double :=
  if 0 <? c meas_up_dgram_sent then fdiv (float_of_Z (c meas_up_ack_rcv)) (float_of_Z (c meas_up_dgram_sent)) else Dbl 0 0.
Definition coord_text (coord : option coord_s) : list Z :=
  match coord with
  | Some x => field "lati" (print_fixed 5 (lat x)) ++ field "long" (print_fixed 5 (lon x)) ++ field "alti" (print_d (alt x))
  | None => []
  end.
Definition report_text (timestamp : list Z) (coord : option coord_s) (c : meas → Z) (temperature : double) : list Z :=
  member "stat" ([123] ++ member "time" (quoted timestamp) ++ coord_text coord ++
    field "rxnb" (print_u (c meas_nb_rx_rcv)) ++ field "rxok" (print_u (c meas_nb_rx_ok)) ++
    field "rxfw" (print_u (c meas_up_pkt_fwd)) ++ field "ackr" (print_1f (dmul (dbl_of_Z 100) (up_ack_ratio c))) ++
    field "dwnb" (print_u (c meas_dw_dgram_rcv)) ++ field "txnb" (print_u (c meas_nb_tx_ok)) ++
    field "temp" (print_1f temperature) ++ [125]).

Section Stats.
Context {H : Type} (conf : fwd_conf) (cc : coord_conf) (zone : list Z).
(** [lgw_get_instcnt] and [lgw_get_trigcnt], whose results are only printed, and
    [lgw_get_temperature]: the status, and what the variable then holds. *)
Context (read_counters : eff H ()) (get_temperature : option double → eff H (Z * option double)).
Abbreviation uprog := (eff (up_state H)).

Definition copy_reset (l : list meas) : uprog (meas → Z) :=
  c ← get_up (λ s, count_of_meas (fwd s));
  _ ← on_fwd (modify (set_meas (λ k, if decide (k ∈ l) then 0 else c k)));
  mret c.
Definition report_coord (gm : gps_meas) : option coord_s :=
  if gps_fake_enable cc then Some (reference_coord cc)
  else if gps_enabled conf && gps_coord_valid gm then Some (meas_gps_coord gm)
  else None.
Definition write_report (d : list Z) : uprog () := λ s, Done (Up (fwd s) (log s) true d (sent_up s)) ().
(** A turn of the loop at time [t]; [temperature] is the variable of [main],
    which is not initialised. The text is cut to the size of the buffer. *)
Definition stats_turn (t : Z) (gm : gps_meas) (temperature : option double) : uprog (option double) :=
  let timestamp := stat_time zone t in
  _ ← (if 24 <? Z.of_nat (List.length timestamp) + 1 then wrong else mret ());
  up ← copy_reset up_counters;
  dw ← copy_reset dw_counters;
  _ ← on_fwd (on_hal read_counters);
  '(_, temperature) ← on_fwd (on_hal (get_temperature temperature));
  temp ← (match temperature with Some x => mret x | None => wrong end);
  let c k := if decide (k ∈ up_counters) then up k else dw k in
  _ ← write_report (take (Z.to_nat (STATUS_SIZE - 1)) (report_text timestamp (report_coord gm) c temp));
  mret temperature.
End Stats.
