(* ===== verification/StatsProps.v ===== *)
(** * Properties of the statistics *)
From Stdlib Require Import ZArith Lia String.
From stdpp Require Import base list numbers strings.
From S2P Require Import Prelude Binary64 HalTypes JitQueue RegProg TimeRef Json JsonNum JsonProps Forward ForwardProps.
From S2P Require Import JsonText Uplink UplinkProps Stats.

Open Scope Z_scope.
Open Scope list_scope.

(** ** The time *)

Lemma print_0d_fits w z : (1 <= w)%nat → 0 <= z < 10 ^ Z.of_nat w → (length (print_0d w z) <= w)%nat.
Proof.
  intros Hw Hz. unfold print_0d. cbv zeta. rewrite (proj2 (Z.ltb_ge z 0)), Z.abs_eq by lia.
  pose proof (digits_length 20 (w - 1) z) as L. replace (S (w - 1)) with w in L by lia. specialize (L Hz).
  rewrite !length_app, length_replicate. cbn [length]. lia.
Qed.
Lemma civil_bounds d y mo md : 0 <= d < 100000 → civil d = (y, mo, md) → 0 <= y < 10000 ∧ 0 <= mo < 100 ∧ 0 <= md < 100.
Proof.
  intros Hd. unfold civil. cbv zeta. set (z := d + 719468).
  assert (0 <= z / 146097 <= 5) by (split; [apply Z.div_pos; lia|apply Z.lt_succ_r, Z.div_lt_upper_bound; lia]).
  pose proof (Z.mod_pos_bound z 146097 ltac:(lia)). set (doe := z mod 146097) in *. set (era := z / 146097) in *. clearbody doe era z.
  set (yoe := (doe - doe / 1460 + doe / 36524 - doe / 146096) / 365).
  assert (Hy1 : 0 <= yoe <= 400) by (subst yoe; clear -H0; Z.to_euclidean_division_equations; lia).
  assert (Hy2 : -90 <= doe - (365 * yoe + yoe / 4 - yoe / 100) <= 1000) by (subst yoe; clear -H0; Z.to_euclidean_division_equations; lia).
  set (doy := doe - (365 * yoe + yoe / 4 - yoe / 100)) in *. clearbody yoe doy. set (mp := (5 * doy + 2) / 153).
  assert (Hm : -3 <= mp <= 40) by (subst mp; clear -Hy2; Z.to_euclidean_division_equations; lia).
  assert (0 <= doy - (153 * mp + 2) / 5 + 1 < 100) by (subst mp; clear -Hy2; Z.to_euclidean_division_equations; lia). clearbody mp.
  intros [= <- <- <-]. destruct (mp <? 10) eqn:Em; [apply Z.ltb_lt in Em|apply Z.ltb_ge in Em];
    destruct (_ <=? 2); lia.
Qed.
Lemma stat_time_ok zone t :
  0 <= t < 2 ^ 33 → length zone = 3%nat → Forall plain zone →
  Forall plain (stat_time zone t) ∧ (length (stat_time zone t) <= 23)%nat.
Proof.
  intros Ht Hz Hp. unfold stat_time. destruct (civil (t / 86400)) as [[y mo] d] eqn:Ec.
  apply civil_bounds in Ec as (B1 & B2 & B3); [|split; [apply Z.div_pos; lia|apply Z.div_lt_upper_bound; lia]]. cbv zeta.
  pose proof (Z.mod_pos_bound t 86400 ltac:(lia)). set (sec := t mod 86400) in *. clearbody sec. split.
  - repeat match goal with |- Forall plain (_ ++ _) => apply Forall_app; split end; try done;
      (apply print_0d_plain || (constructor; [unfold plain; lia|constructor])).
  - rewrite !length_app, Hz. cbn [length].
    pose proof (print_0d_fits 4 y ltac:(lia) ltac:(lia)). pose proof (print_0d_fits 2 mo ltac:(lia) ltac:(lia)).
    pose proof (print_0d_fits 2 d ltac:(lia) ltac:(lia)). pose proof (print_0d_fits 2 (sec / 3600) ltac:(lia) ltac:(change (10 ^ Z.of_nat 2) with 100; cint_lia)).
    pose proof (print_0d_fits 2 (sec / 60 mod 60) ltac:(lia) ltac:(change (10 ^ Z.of_nat 2) with 100; cint_lia)).
    pose proof (print_0d_fits 2 (sec mod 60) ltac:(lia) ltac:(change (10 ^ Z.of_nat 2) with 100; cint_lia)). lia.
Qed.

(** ** The acknowledged part *)

Lemma rounded_bound K N D n d :
  0 < d → 0 < D → 0 <= K → Z.abs (N * d - n * D) * 2 ^ 24 <= Z.abs n * D → Z.abs n <= K * d →
  Z.abs N * 2 ^ 24 <= K * D * (2 ^ 24 + 1).
Proof.
  intros Hd HD HK E HB. assert (Z.abs N * d <= Z.abs (N * d - n * D) + Z.abs n * D).
  { rewrite <- (Z.abs_eq d) at 1 by lia. rewrite <- (Z.abs_eq D) at 2 by lia. rewrite <- !Z.abs_mul. lia. }
  assert (Z.abs n * D <= K * D * d) by nia.
  assert (Z.abs N * 2 ^ 24 * d <= K * D * (2 ^ 24 + 1) * d); [|nia]. lia.
Qed.
Lemma ack_moderate c :
  (∀ k, 0 <= c k < 10 ^ 7) → c meas_up_ack_rcv <= 9 * c meas_up_dgram_sent → moderate (dmul (dbl_of_Z 100) (up_ack_ratio c)).
Proof.
  intros Hc Ha. unfold up_ack_ratio. destruct (Z.ltb_spec 0 (c meas_up_dgram_sent)) as [Hs|Hs].
  2: { unfold moderate. vm_compute. discriminate. }
  pose proof (Hc meas_up_ack_rcv) as Ba. pose proof (Hc meas_up_dgram_sent) as Bs.
  set (a := c meas_up_ack_rcv) in *. set (s := c meas_up_dgram_sent) in *. clearbody a s.
  assert (HF : ∀ z, 0 <= z < 10 ^ 7 → num (float_of_Z z) = z * den (float_of_Z z)).
  { intros z Hz. pose proof (frnd_exact z 1 z 0 ltac:(lia) ltac:(lia) ltac:(lia) ltac:(lia)) as E. unfold dval in E.
    rewrite Z.mul_1_r in E. exact E. }
  pose proof (HF a Ba) as Na. pose proof (HF s Bs) as Ns. pose proof (den_pos (float_of_Z a)). pose proof (den_pos (float_of_Z s)).
  unfold fdiv. set (x := float_of_Z a) in *. set (y := float_of_Z s) in *. clearbody x y. rewrite Na, Ns.
  rewrite Z.sgn_pos, Z.mul_1_l, Z.abs_eq by nia. set (dx := den x) in *. set (dy := den y) in *.
  assert (Hd : 0 < dx * (s * dy)) by (apply Z.mul_pos_pos; [done|by apply Z.mul_pos_pos]).
  pose proof (frnd_rel_err (a * dx * dy) (dx * (s * dy)) Hd) as E.
  pose proof (rounded_bound 9 _ _ _ _ Hd (den_pos _) ltac:(lia) E) as Q. set (q := frnd _ _) in *. pose proof (den_pos q) as Dq.
  clearbody q. assert (HP : 0 < dx * dy) by nia.
  assert (HB : Z.abs (a * dx * dy) <= 9 * (dx * (s * dy))).
  { replace (a * dx * dy) with (a * (dx * dy)) by ring. replace (9 * (dx * (s * dy))) with (9 * s * (dx * dy)) by ring.
    rewrite Z.abs_eq by (apply Z.mul_nonneg_nonneg; lia). apply Z.mul_le_mono_nonneg_r; lia. }
  specialize (Q HB).
  assert (Hk : dval (dbl_of_Z 100) 100 0) by (apply dval_of_Z; lia). unfold dval in Hk. rewrite Z.mul_1_r in Hk.
  pose proof (den_pos (dbl_of_Z 100)) as Dk. set (k := dbl_of_Z 100) in *. clearbody k.
  unfold dmul, moderate. assert (Hdd : 0 < den k * den q) by nia. pose proof (rnd_rel_err (num k * num q) (den k * den q) Hdd) as F.
  set (r := rnd _ _) in *. pose proof (den_pos r) as Dr. clearbody r.
  pose proof (rounded_bound 901 (num r) (den r) (num k * num q) (den k * den q) Hdd Dr ltac:(lia) ltac:(lia)) as R.
  rewrite Hk, !Z.abs_mul, (Z.abs_eq (den k)) in R by lia. specialize (R ltac:(cbn [Z.abs]; nia)). lia.
Qed.

(** ** The text of the report *)

Definition coord_members (coord : option coord_s) : JSON_Object :=
  match coord with
  | Some x => [(name "lati", JSONNumber (Finite (rnd (parts 5 (lat x)) 100000)));
               (name "long", JSONNumber (Finite (rnd (parts 5 (lon x)) 100000))); (name "alti", jnum (alt x))]
  | None => []
  end.
Definition report_members (timestamp : list Z) (coord : option coord_s) (c : meas → Z) (temperature : double) : JSON_Object :=
  [(name "time", JSONString timestamp)] ++ coord_members coord ++
  [(name "rxnb", jnum (c meas_nb_rx_rcv)); (name "rxok", jnum (c meas_nb_rx_ok)); (name "rxfw", jnum (c meas_up_pkt_fwd));
   (name "ackr", JSONNumber (Finite (rnd (tenths (dmul (dbl_of_Z 100) (up_ack_ratio c))) 10)));
   (name "dwnb", jnum (c meas_dw_dgram_rcv)); (name "txnb", jnum (c meas_nb_tx_ok));
   (name "temp", JSONNumber (Finite (rnd (tenths temperature) 10)))].
(** Coordinates in degrees, an altitude of type [short]. *)
Definition coord_ok (x : coord_s) : Prop := moderate (lat x) ∧ moderate (lon x) ∧ - 2 ^ 15 <= alt x < 2 ^ 15.
(** The counters of an interval are below ten millions. *)
Definition counts_ok (c : meas → Z) : Prop :=
  (∀ k, 0 <= c k < 10 ^ 7) ∧ c meas_up_ack_rcv <= 9 * c meas_up_dgram_sent.

Section Report.
Context (n : Z) (Hn : n <= MAX_NESTING).
Lemma described_fixed s k x :
  (1 <= k <= 5)%nat → all_plain (name s) = true → moderate x →
  described n (Z.of_nat (length (name s)) + Z.of_nat k + 10) (field s (print_fixed k x))
    [(name s, JSONNumber (Finite (rnd (parts k x) (10 ^ Z.of_nat k))))].
Proof.
  intros Hk Hs Hx. apply described_field; [by apply all_plain_ok|by apply reads_print_fixed|].
  pose proof (print_fixed_length k x Hx). lia.
Qed.
Lemma described_alt z : - 2 ^ 15 <= z < 2 ^ 15 → described n 14 (field "alti" (print_d z)) [(name "alti", jnum z)].
Proof.
  intros Hz. apply described_field; [by apply all_plain_ok|apply reads_print_d; [done|lia]|]. change (length (name "alti")) with 4%nat.
  unfold print_d. destruct (z <? 0) eqn:E; cbn [length]; [apply Z.ltb_lt in E|apply Z.ltb_ge in E].
  - pose proof (digits_length 10 4 (- z) ltac:(change (10 ^ Z.of_nat 5) with 100000; lia)). lia.
  - pose proof (digits_length 10 4 z ltac:(change (10 ^ Z.of_nat 5) with 100000; lia)). lia.
Qed.
Lemma described_coord coord :
  (∀ x, coord = Some x → coord_ok x) → described n 52 (coord_text coord) (coord_members coord).
Proof.
  intros Hc. destruct coord as [x|]; [|by eapply described_le, Z.leb_le; [apply described_nil|]].
  destruct (Hc x eq_refl) as (H1 & H2 & H3). unfold coord_text, coord_members.
  refine (described_app n 19 33 _ _ [_] [_; _] _ (described_app n 19 14 _ _ [_] [_] _ _)).
  - apply (described_fixed "lati" 5); [lia|done|done].
  - apply (described_fixed "long" 5); [lia|done|done].
  - by apply described_alt.
Qed.
Lemma described_count s z : Forall plain (name s) → length (name s) = 4%nat → 0 <= z < 10 ^ 7 →
  described n 15 (field s (print_u z)) [(name s, jnum z)].
Proof. intros Hs Hl Hz. pose proof (described_u n Hn s z 6 Hs ltac:(done) ltac:(lia)) as D. by rewrite Hl in D. Qed.
End Report.

Lemma report_names_distinct ts coord c temp : NoDup (map fst (report_members ts coord c temp)).
Proof. destruct coord; apply (bool_decide_unpack _); vm_compute; exact I. Qed.

Definition report_item (ts : list Z) (coord : option coord_s) (c : meas → Z) (temp : double) : item :=
  (name "stat", drop 7 (report_text ts coord c temp), JSONObject (report_members ts coord c temp)).
Lemma report_text_ok ts coord c temp :
  Forall plain ts → (length ts <= 23)%nat → (∀ x, coord = Some x → coord_ok x) → counts_ok c → moderate temp →
  report_text ts coord c temp = item_text (report_item ts coord c temp) ∧ item_ok 1 (report_item ts coord c temp) ∧
  Z.of_nat (length (report_text ts coord c temp)) < STATUS_SIZE.
Proof.
  intros Hts Hl Hcoord [Hc Ha] Ht.
  assert (Hn : 2 <= MAX_NESTING) by done. pose proof (ack_moderate c Hc Ha) as Hack.
  pose proof (described_coord 2 Hn coord Hcoord) as D1.
  pose proof (described_count 2 Hn "rxnb" _ (all_plain_ok (name "rxnb") eq_refl) eq_refl (Hc meas_nb_rx_rcv)) as D2.
  pose proof (described_count 2 Hn "rxok" _ (all_plain_ok (name "rxok") eq_refl) eq_refl (Hc meas_nb_rx_ok)) as D3.
  pose proof (described_count 2 Hn "rxfw" _ (all_plain_ok (name "rxfw") eq_refl) eq_refl (Hc meas_up_pkt_fwd)) as D4.
  pose proof (described_fixed 2 Hn "ackr" 1 _ ltac:(lia) eq_refl Hack) as D5.
  pose proof (described_count 2 Hn "dwnb" _ (all_plain_ok (name "dwnb") eq_refl) eq_refl (Hc meas_dw_dgram_rcv)) as D6.
  pose proof (described_count 2 Hn "txnb" _ (all_plain_ok (name "txnb") eq_refl) eq_refl (Hc meas_nb_tx_ok)) as D7.
  pose proof (described_fixed 2 Hn "temp" 1 _ ltac:(lia) eq_refl Ht) as D8.
  pose proof (described_app _ _ _ _ _ _ _ D1 (described_app _ _ _ _ _ _ _ D2 (described_app _ _ _ _ _ _ _ D3 (described_app _ _ _ _ _ _ _ D4
    (described_app _ _ _ _ _ _ _ D5 (described_app _ _ _ _ _ _ _ D6 (described_app _ _ _ _ _ _ _ D7 D8)))))))
    as (items & Ei & El & Hok & HL).
  set (jt := (name "time", quoted ts, JSONString ts) : item).
  assert (Ej : item_ok 2 jt) by (split; [by apply all_plain_ok|by apply reads_string]).
  assert (ET : report_text ts coord c temp = member "stat" (object_text (jt :: items))).
  { unfold report_text, object_text. rewrite <- Ei. change (item_text jt) with (member "time" (quoted ts)). f_equal.
    rewrite <- !app_assoc. reflexivity. }
  assert (EM : report_members ts coord c temp = map item_member (jt :: items)).
  { cbn [map]. rewrite El. reflexivity. }
  assert (ED : drop 7 (report_text ts coord c temp) = object_text (jt :: items)) by (by rewrite ET).
  unfold report_item. rewrite ED, EM. split; [exact ET|]. split.
  - split; [by apply all_plain_ok|]. cbn [fst snd]. apply (object_element 1); [done|done|by constructor| |].
    + pose proof (report_names_distinct ts coord c temp) as HD. by rewrite EM, map_map in HD.
    + assert (Hlen : length (map item_member (jt :: items)) = length (report_members ts coord c temp)) by (by rewrite EM).
      rewrite length_map in Hlen. rewrite Hlen. by destruct coord.
  - rewrite ET. unfold member, object_text. repeat (rewrite length_app || cbn [length]). rewrite quoted_length.
    rewrite <- Ei. rewrite Ei. change (item_text jt) with (quoted (name "time") ++ [58] ++ quoted ts).
    rewrite !length_app, !quoted_length. change (length (bytes_of_string "stat")) with 4%nat. change (length (name "time")) with 4%nat.
    change (length (name "ackr")) with 4%nat in HL. change (length (name "temp")) with 4%nat in HL. rewrite Ei in HL.
    change STATUS_SIZE with 200. cbn [length]. lia.
Qed.

(** ** A turn of the main loop *)

Lemma counters_complete k : k ∈ up_counters ∨ k ∈ dw_counters.
Proof. destruct k; (by left; apply (bool_decide_unpack _)) || (by right; apply (bool_decide_unpack _)). Qed.

Section Turn.
Context {H : Type} (conf : fwd_conf) (cc : coord_conf) (zone : list Z).
Context (read_counters : eff H ()) (get_temperature : option double → eff H (Z * option double)).

Definition reset (l : list meas) (c : meas → Z) (k : meas) : Z := if decide (k ∈ l) then 0 else c k.
Definition after_reset (l : list meas) (s : up_state H) : up_state H :=
  Up (set_meas (reset l (count_of_meas (fwd s))) (fwd s)) (log s) (report_ready s) (status_report s) (sent_up s).
Lemma copy_reset_done l (s : up_state H) : copy_reset l s = Done (after_reset l s) (count_of_meas (fwd s)).
Proof. done. Qed.

(** C23. At the end of each interval every counter is reset. The report left for the
    uplink thread fits in its buffer and is read as an object with the time, the
    coordinates of the gateway if they are known, the counts of the interval as
    they were, and the temperature: what the uplink thread needs to send it. This
    holds for counts below ten millions, at most nine acknowledgements per
    datagram, coordinates and a temperature of at most 1000 in absolute value, and
    times until the year 2242. Of the state of the threads only the counters, the
    report and the concentrator that was read have changed. *)
Theorem statistics_reported t gm temperature s h1 h2 i temp :
  read_counters (hal (fwd s)) = Done h1 () → get_temperature temperature h1 = Done h2 (i, Some temp) →
  0 <= t < 2 ^ 33 → length zone = 3%nat → Forall plain zone → (∀ x, report_coord conf cc gm = Some x → coord_ok x) →
  counts_ok (count_of_meas (fwd s)) → moderate temp →
  ∃ s', stats_turn conf cc zone read_counters get_temperature t gm temperature s = Done s' (Some temp) ∧
    (∀ k, count_of_meas (fwd s') k = 0) ∧
    reported s' (Some (report_item (stat_time zone t) (report_coord conf cc gm) (count_of_meas (fwd s)) temp)) ∧
    s' = Up (set_meas (count_of_meas (fwd s')) (set_hal (fwd s) h2)) (log s) true (status_report s') (sent_up s).
Proof.
  intros E1 E2 Ht Hz Hp Hcoord Hc Htemp. destruct (stat_time_ok zone t Ht Hz Hp) as [P1 P2].
  destruct (report_text_ok (stat_time zone t) (report_coord conf cc gm) (count_of_meas (fwd s)) temp P1 P2 Hcoord Hc Htemp) as (T1 & T2 & T3).
  unfold stats_turn. set (ts := stat_time zone t) in *. cbv zeta. rewrite (proj2 (Z.ltb_ge 24 _)) by lia.
  set (item := report_item _ _ _ _) in *. assert (Hn : fst (item_member item) ≠ name "rxpk") by done. clearbody item ts. set (coord := report_coord _ _ _) in *. clearbody coord.
  match goal with |- ∃ s', (?m ≫= ?f) s = _ ∧ _ => change ((m ≫= f) s) with (f () s) end. cbv beta.
  unfold mbind at 1, eff_bind at 1. rewrite copy_reset_done. unfold mbind at 1, eff_bind at 1. rewrite copy_reset_done.
  set (s2 := after_reset dw_counters _).
  unfold mbind at 1, eff_bind at 1. rewrite (on_fwd_done _ s2 (set_hal (fwd s2) h1) ()) by (unfold on_hal, zoom; change (hal (fwd s2)) with (hal (fwd s)); by rewrite E1).
  unfold mbind at 1, eff_bind at 1.
  rewrite (on_fwd_done _ _ (set_hal (fwd s2) h2) (i, Some temp)) by (unfold on_hal, zoom; cbn [fwd set_hal hal]; by rewrite E2).
  unfold mbind, eff_bind, mret, eff_ret, write_report. cbv beta iota. cbn [log sent_up].
  match goal with |- context [report_text ts coord ?c temp] =>
    change (report_text ts coord c temp) with (report_text ts coord (count_of_meas (fwd s)) temp) end.
  rewrite take_ge by (unfold STATUS_SIZE in *; lia). eexists. split; [reflexivity|]. cbn [fwd]. split_and!; try done; [|].
  - intros k. change (reset dw_counters (reset up_counters (count_of_meas (fwd s))) k = 0). unfold reset.
    destruct (decide (k ∈ dw_counters)); [done|]. destruct (decide (k ∈ up_counters)); [done|]. by destruct (counters_complete k).
  - split; [done|]. cbn [status_report]. rewrite T1 in T3 |- *. split; [done|]. split; [done|]. split; [done|lia].
Qed.
End Turn.

(** ** An interval with twelve packets *)

Definition a_coord : coord_s := Coord (rnd 4640 100) (rnd (-690) 100) 430.
Definition some_counts (k : meas) : Z :=
  match k with meas_nb_rx_rcv => 12 | meas_nb_rx_ok => 11 | meas_up_dgram_sent => 9 | meas_up_ack_rcv => 8 | _ => 0 end.
Definition a_stats_state : up_state Z :=
  Up (Fwd 5 [jit_queue_init; jit_queue_init] some_counts [] false 0 false a_tref (Dbl 1 0) false None)
     (Log (replicate 10 (replicate 8 0)) 0 0 (replicate 16 0)) false [] [].
Definition a_read : eff Z () := λ s, Done (s + 1) ().
Definition a_temperature (t : option double) : eff Z (Z * option double) := λ s, Done (s + 1) (0, Some (rnd 415 10)).
Lemma statistics_reported_witness :
  ∃ s', stats_turn a_gps_conf (Coord_conf true a_coord) [71; 77; 84] a_read a_temperature 1700000000
          (Gps_meas false a_coord) None a_stats_state = Done s' (Some (rnd 415 10)) ∧
    count_of_meas (fwd s') meas_nb_rx_rcv = 0 ∧
    reported s' (Some (report_item (bytes_of_string "2023-11-14 22:13:20 GMT") (Some a_coord) some_counts (rnd 415 10))).
Proof.
  destruct (statistics_reported a_gps_conf (Coord_conf true a_coord) [71; 77; 84] a_read a_temperature 1700000000
    (Gps_meas false a_coord) None a_stats_state 6 7 0 (rnd 415 10)) as (s' & E & C & R & _).
  - reflexivity.
  - reflexivity.
  - lia.
  - reflexivity.
  - by apply all_plain_ok.
  - intros x Hx. cbn in Hx. assert (x = a_coord) as -> by congruence.
    split; [apply Z.leb_le; vm_compute; reflexivity|]. split; [apply Z.leb_le; vm_compute; reflexivity|cbn; lia].
  - split; [intros k; destruct k; cbn; lia|cbn; lia].
  - apply Z.leb_le. vm_compute. reflexivity.
  - exists s'. split; [exact E|]. split; [apply C|exact R].
Defined.

(** With counts of ten digits and coordinates the report is longer than the buffer:
    the closing brace is cut off. *)
Lemma long_report_cut :
  let t := report_text (bytes_of_string "2023-11-14 22:13:20 GMT") (Some (Coord (dbl_of_Z (-46)) (dbl_of_Z (-122)) 1000))
             (λ _, 4294967295) (dbl_of_Z 41) in
  STATUS_SIZE <= Z.of_nat (length t) ∧ json_parse_string (Some (123 :: take (Z.to_nat (STATUS_SIZE - 1)) t ++ [125])) = Null.
Proof. split; [apply Z.leb_le|]; vm_compute; reflexivity. Qed.
